(* ===== verification/_CoqProject ===== *)
-Q . S2P
Prelude.v
Fmt.v
Isa.v
Str.v
StrFacts.v
RvcTable0.v
RvcTable1.v
RvcTable2.v
RvcTable3.v
RvcTable4.v
RvcTable5.v
RvcTable6.v
RvcTable7.v
RvcTable.v
Rvc.v
RvcSpec.v
Rvdisasm.v
RvdisasmFields.v
RvdisasmSpec.v
RvcTheorems.v
RvdisasmTheorems.v
Row.v
Kanata.v
KanataSpec.v
RowSpec.v
KanataTrace.v
KanataRead.v
Stats.v
Line.v
Keys.v
Texts.v
Tui.v
Main.v
Kbd.v
ObjdumpSpec.v
KanataTheorems.v
Ipc.v
StatsSpec.v
LineSpec.v
TuiSpec.v
TuiBounds.v
Session.v
MainSpec.v
TraceView.v
KbdSpec.v
PipeviewTheorems.v
KbdTheorems.v
