(* ===== verification/Prelude.v ===== *)
(** * smolrv64 host tools: the verification library

    This library models and verifies the Rust code of the repository: the four host tools under
    src/tools.  Verilog, C, scripts and boards are not Rust and are not modelled.

    ** The program and its parts

    - tools/rvc.rs: the compressed-instruction expander.  [uncompress] is the readable reference,
      [RVC64_EXPANDED] a table of its 65536 values, and a unit test compares the two.
    - tools/rvdisasm/src/lib.rs: [disasm], a disassembler of 32-bit instruction words.
    - tools/pipeview/src/main.rs: a terminal viewer of pipeline traces.  [load] reads a trace
      (labels from objdump or from rvdisasm), [stats] counts the rows in view, [line] prints a
      row, [read_key] and [read_line] read the keyboard, [tui] is the loop, [main] the command
      line.
    - tools/kbd-vectors/src/main.rs: prints test vectors of the keyboard tables of simmerv.

    rvdisasm is called by pipeview's [load]; rvc and kbd-vectors stand alone, and
    [disasm_expanded] relates the expander and the disassembler, which share the instruction set.

    ** Files

    - [Prelude]: machine integers, bit fields, build profiles, generic lemmas and tactics.
    - [Fmt], [Str], [StrFacts]: the formatting, parsing and string operations of Rust's standard
      library that the tools use, and their laws.  Strings are byte strings (UTF-8); functions
      that count or classify characters cut them into characters first.
    - [Isa]: the abstract instruction set: instructions, their encodings by format, the meaning
      of the 16-bit parcels as the tables of the C extension give it, and the assembly text,
      with every operand and ordering bit.  It is written from the manuals, not from the tools, and is their specification.
    - [RvcTable0] .. [RvcTable7], [RvcTable]: the table as written, in 64 parts of 128 source
      lines, and [expanded], the test's lookup.  [Rvc]: [uncompress], a definition for each
      arm, and the test's loop.  [RvcSpec]: one computation checks every parcel against [Isa];
      a lemma reduces any [u32] to its low half.  [RvcTheorems].
    - [Rvdisasm]: every extractor and every arm of [disasm].  [RvdisasmFields]: the fields and
      immediates of an encoding as quotients and remainders.  [RvdisasmSpec]: each arm prints the
      text of [Isa], or less of it for the three forms of [lossless].  [RvdisasmTheorems].
    - [Row] (struct Row and its methods), [Kanata] ([objdump_table] and [load]); [KanataSpec]:
      the reader's invariant; [RowSpec]: the legend's reading of a cell; [KanataTrace]: the
      trace's commands as core/tb_pipetrace.vh writes them, their text and their meaning;
      [KanataRead]: the simulation of the meaning by the reader; [ObjdumpSpec]: objdump's
      listing and the table it denotes; [KanataTheorems].
    - [Stats], [Ipc] (the binary64 quotient, on the standard library's [SpecFloat]), [StatsSpec];
      [Line], [LineSpec]; [Keys], [Texts] (the two constants), [Tui]; [TuiSpec]: the tables of
      the keyboard, the loop's invariant and end; [TuiBounds]: no overflow; [Session]: the
      pictures and key effects of the viewer as a specification, which the loop refines;
      [Main], [MainSpec]; [TraceView]: the viewer on the rows of a trace; [PipeviewTheorems].
    - [Kbd], [KbdSpec], [KbdTheorems].

    ** Conventions

    A definition is named as the code it models where Rocq allows it ([row_last] is
    [Row::last], [End_] is [Key::End]).  A computation that can panic returns an [option],
    [None] being the panic; an I/O error is the [Err] of [result].  Integers are [Z] kept to
    their width by explicit wrapping; [+] and [-] on machine integers go through the class
    [Profile], since a release build wraps where a debug build panics.  A theorem without a
    stated profile holds in both.  What is outside the repository is an argument: the files'
    lines, objdump's output, the answers of stty, the bytes typed, and simmerv's [translate] and
    [hid_to_linux].

    ** What the theorems show

    - The expander: table and reference agree on all 65536 parcels, and both give the encoding
      of the instruction the C extension assigns, zero exactly for reserved parcels;
      [uncompress] panics exactly on the parcels that are not compressed.
    - The disassembler: it prints the text of every well-formed instruction of RV64IMA_Zicsr
      with the privileged returns and the F/D loads and stores, except that it drops the sets of
      a fence and the ordering bits of an atomic and prints an addiw from zero as an li; it
      returns on every word, prints targets that read back, and is raw on unknown opcodes.  Two theorems state what it does
      with words of other extensions that share an opcode.
    - The trace reader: it reads the text of any well-formed trace as the rows the trace
      denotes, and the cells drawn are the legend's; it reads objdump's listing as the map it
      denotes; it never panics in a release build, on any input, and a debug build differs
      only by the panic on an overflow of the clock or of a symbol's offset.
    - The header: its two lines word for word, with exact spans and counts, the eight longest
      causes, and an IPC that is the nearest hundredth.  The lines: their width, and that colours
      change nothing else.
    - The viewer: it ends; with at least one row and windows that fit the address space a release
      build never panics and always restores the terminal; within the bounds of
      [TuiBounds.rows_small] a debug build does not overflow either.  Keys keep the view on a row,
      no row is skipped, a search finds the next match, the bytes of the keyboard mean what the
      tables say.  On a trace's file the whole program runs a session of [Session]: each turn
      draws the specified picture and moves the view as specified.  The command line: where it
      panics, the viewer included.
    - The keyboard vectors: the bitmap's bits, where the program panics, and that a sequence's
      line reads back.

    ** Fuel and bounds

    [radix_go] (digits of a number) has as fuel one more than the number's binary logarithm,
    which [log2_fuel] shows is enough.  [tui_loop] has as fuel one more than the number of reads
    left, which [tui_ends] shows is enough, since every turn reads or is the last.  All
    other recursion is structural.  The checks over all parcels are one [vm_compute] over a range.

    ** What is not modelled

    Running external programs (fn stty, objdump) beyond their answers; failing writes to the
    terminal and to the standard streams, which are taken to succeed; what a panicking program
    printed before it panicked. *)

From Stdlib Require Export ZArith Lia Ascii String.
From stdpp Require Export base numbers list strings gmap.
#[global] Open Scope Z_scope.

(** ** Machine integers

    A [u32], [u64] or [usize] is a [Z] in range; an [i64] is a signed [Z].  Shifts to the left
    drop the bits that leave the word, as Rust's [<<] does; [>>], [&] and [|] are those of [Z]
    (two's complement on negative numbers, so [>>] on an [i64] is the arithmetic shift). *)
Definition u32_max : Z := 0xffffffff.
Definition u64_max : Z := 0xffffffffffffffff.
Definition is_u32 (x : Z) : Prop := 0 <= x < 2 ^ 32.
Definition is_u64 (x : Z) : Prop := 0 <= x < 2 ^ 64.

Definition shl32 (a n : Z) : Z := Z.land (Z.shiftl a n) 0xffffffff.
Definition wrap_u64 (x : Z) : Z := x mod 2 ^ 64.
(** the value of the low [n] bits of [x] read as a two's complement number *)
Definition wrap_signed (n x : Z) : Z := (x + 2 ^ (n - 1)) mod 2 ^ n - 2 ^ (n - 1).
Definition wrap_i32 : Z -> Z := wrap_signed 32.
Definition wrap_i64 : Z -> Z := wrap_signed 64.
Definition shl_i64 (a n : Z) : Z := wrap_i64 (Z.shiftl a n).

Declare Scope rust_scope.
Delimit Scope rust_scope with rust.
Infix ".&" := Z.land (at level 36, left associativity) : rust_scope.
Infix ".|" := Z.lor (at level 38, left associativity) : rust_scope.
Infix "<<" := shl32 (at level 34, left associativity) : rust_scope.
Infix ">>" := Z.shiftr (at level 34, left associativity) : rust_scope.
#[global] Open Scope rust_scope.

(** ** Bit fields as quotients and remainders

    Every field extraction of the sources is [(x >> k) & (2^n - 1)], every assembly a
    disjunction of fields placed at disjoint positions.  The lemmas below turn the first into a
    remainder of a quotient and the second into a sum, after which [lia] decides the rest. *)
Lemma land_ones_mod x n : 0 <= n -> Z.land x (Z.ones n) = x mod 2 ^ n.
Proof. intros. by apply Z.land_ones. Qed.

Lemma field_div_mod x k n :
  0 <= k -> 0 <= n -> Z.land (Z.shiftr x k) (Z.ones n) = (x / 2 ^ k) mod 2 ^ n.
Proof. intros. by rewrite Z.land_ones, Z.shiftr_div_pow2. Qed.

Lemma field_range x k n :
  0 <= k -> 0 <= n -> 0 <= Z.land (Z.shiftr x k) (Z.ones n) < 2 ^ n.
Proof. intros. rewrite field_div_mod by done. apply Z.mod_pos_bound. lia. Qed.

(** a number with [m] zero bits at the bottom does not meet a number below [2^m] *)
Lemma lor_add m a b : 0 <= m -> a mod 2 ^ m = 0 -> 0 <= b < 2 ^ m -> Z.lor a b = a + b.
Proof.
  intros Hm Ha Hb. symmetry. apply Z.add_nocarry_lor.
  apply Z.bits_inj'. intros i Hi. rewrite Z.land_spec, Z.bits_0.
  destruct (decide (i < m)) as [Hlt|Hge].
  - rewrite <- (Z.mod_pow2_bits_low a m i), Ha, Z.bits_0 by lia. done.
  - rewrite <- (Z.mod_small b (2 ^ m)), (Z.mod_pow2_bits_high b m i) by lia.
    apply andb_false_r.
Qed.

(** masking with ones at [k] to [k + n - 1] keeps the field in place *)
Lemma land_shifted x m k : 0 <= k -> Z.land x (Z.shiftl m k) = Z.shiftl (Z.land (Z.shiftr x k) m) k.
Proof.
  intros Hk. apply Z.bits_inj'. intros i Hi.
  rewrite Z.land_spec, !Z.shiftl_spec, Z.land_spec by lia.
  destruct (decide (i < k)) as [Hlt|Hge].
  - by rewrite !(Z.testbit_neg_r _ (i - k)), andb_false_r by lia.
  - rewrite Z.shiftr_spec by lia. by rewrite Z.sub_add.
Qed.

(** ** Unchecked and checked arithmetic

    [+] and [-] on machine integers wrap in a release build and panic in a debug build: the
    build profile is a parameter of the code that uses them. *)
Class Profile := overflow_checks : bool.
Definition Release : Profile := false.
Definition Debug : Profile := true.

Definition in_u64 {P : Profile} (x : Z) : option Z :=
  if (0 <=? x) && (x <? 2 ^ 64) then Some x
  else if overflow_checks then None else Some (wrap_u64 x).
Definition in_i64 {P : Profile} (x : Z) : option Z :=
  if (- 2 ^ 63 <=? x) && (x <? 2 ^ 63) then Some x
  else if overflow_checks then None else Some (wrap_i64 x).
Definition add_u64 {P : Profile} (a b : Z) : option Z := in_u64 (a + b).
Definition sub_u64 {P : Profile} (a b : Z) : option Z := in_u64 (a - b).

Lemma in_u64_exact {P : Profile} x : is_u64 x -> in_u64 x = Some x.
Proof.
  unfold in_u64, is_u64. intros Hx.
  destruct (Z.leb_spec 0 x); [|lia]. destruct (Z.ltb_spec x (2 ^ 64)); [done|lia].
Qed.
Lemma in_u64_release x : exists y, @in_u64 Release x = Some y.
Proof. unfold in_u64. case_match; eauto. Qed.
Lemma in_u64_debug x y : @in_u64 Debug x = Some y -> y = x /\ is_u64 x.
Proof.
  unfold in_u64, is_u64.
  destruct (Z.leb_spec 0 x), (Z.ltb_spec x (2 ^ 64)); cbn; intros [=]; subst; lia.
Qed.
Lemma in_u64_range {P : Profile} x y : in_u64 x = Some y -> is_u64 y.
Proof.
  unfold in_u64, is_u64, wrap_u64. repeat case_match; intros [=]; subst.
  - rewrite andb_true_iff, Z.leb_le, Z.ltb_lt in *. lia.
  - pose proof (Z.mod_pos_bound x (2 ^ 64)). lia.
Qed.
Lemma in_i64_release x : exists y, @in_i64 Release x = Some y.
Proof. unfold in_i64. case_match; eauto. Qed.
Lemma add_u64_release a b : exists y, @add_u64 Release a b = Some y.
Proof. apply in_u64_release. Qed.
Lemma sub_u64_release a b : exists y, @sub_u64 Release a b = Some y.
Proof. apply in_u64_release. Qed.

(** a computation in a release build: every arithmetic step returns *)
Ltac release_step :=
  match goal with
  | |- context [@add_u64 Release ?a ?b] => destruct (add_u64_release a b) as [? ->]
  | |- context [@sub_u64 Release ?a ?b] => destruct (sub_u64_release a b) as [? ->]
  | |- context [@in_i64 Release ?a] => destruct (in_i64_release a) as [? ->]
  end; cbn [mbind option_bind].

(** ** Exhaustive checks over an integer range *)
Definition check_range (n : Z) (p : Z -> bool) : bool := forallb p (seqZ 0 n).
Lemma check_range_spec n p i : check_range n p = true -> 0 <= i < n -> p i = true.
Proof.
  unfold check_range. rewrite forallb_forall. intros H Hi. apply H.
  apply list_elem_of_In, elem_of_seqZ. lia.
Qed.

(** ** Lists *)
Lemma filter_none {A} (P : A -> Prop) `{!forall x, Decision (P x)} (l : list A) :
  Forall (fun x => ~ P x) l -> filter P l = [].
Proof. induction 1 as [|x l Hx _ IH]; [done|]. by rewrite filter_cons_False. Qed.

Lemma filter_all {A} (P : A -> Prop) `{!forall x, Decision (P x)} (l : list A) :
  Forall P l -> filter P l = l.
Proof. induction 1 as [|x l Hx _ IH]; [done|]. by rewrite filter_cons_True, IH. Qed.
