(* ===== verification/Fmt.v ===== *)
(** * Fmt: the formatting and parsing of Rust's standard library that the tools use

    Strings are the bytes of their UTF-8 encoding, as in Rust.  This file models the
    integer side of [format!] ([{}], [{:x}], [{:08x}], [{:<7}], [{:>8}]) and the parsers
    [from_str_radix] and [str::parse], generically in the radix, with the round trip between
    the two. *)
From S2P Require Import Prelude.

(** ** Digits *)
Definition ascii_of_Z (n : Z) : ascii := ascii_of_N (Z.to_N n).
Definition Z_of_ascii (c : ascii) : Z := Z.of_N (N_of_ascii c).

(** the digit of value [d < 36], lower case *)
Definition digit_char (d : Z) : ascii :=
  if d <? 10 then ascii_of_Z (48 + d) else ascii_of_Z (87 + d).

(** [char::to_digit]: either case *)
Definition to_digit (radix : Z) (c : ascii) : option Z :=
  let n := Z_of_ascii c in
  let d := if (48 <=? n) && (n <=? 57) then n - 48
           else if (97 <=? n) && (n <=? 122) then n - 87
           else if (65 <=? n) && (n <=? 90) then n - 55
           else radix in
  if d <? radix then Some d else None.

(** ** Printing *)
Fixpoint radix_go (fuel : nat) (b n : Z) (acc : string) : string :=
  match fuel with
  | O => acc
  | S f =>
      let acc' := String (digit_char (n mod b)) acc in
      if n / b =? 0 then acc' else radix_go f b (n / b) acc'
  end.
(** every division at least halves the number: its bit length is fuel enough *)
Definition fmt_radix (b n : Z) : string := radix_go (S (Z.to_nat (Z.log2 n))) b n "".

(** [{}] of an unsigned and of a signed integer, [{:x}] *)
Definition fmt_dec (n : Z) : string :=
  if n <? 0 then String "-" (fmt_radix 10 (- n)) else fmt_radix 10 n.
Definition fmt_hex (n : Z) : string := fmt_radix 16 n.

Fixpoint repeat_char (c : ascii) (n : nat) : string :=
  match n with O => "" | S n => String c (repeat_char c n) end.

(** the first byte of a character is not a continuation byte [10xxxxxx] *)
Definition is_char_start (c : ascii) : bool := negb (Z.land (Z_of_ascii c) 0xc0 =? 0x80).
(** [s.chars().count()] *)
Fixpoint char_count (s : string) : nat :=
  match s with
  | "" => 0
  | String c s => (if is_char_start c then 1 else 0) + char_count s
  end.

(** [{:<w$}] and [{:>w$}]: the width counts characters *)
Definition pad_left_align (w : nat) (s : string) : string :=
  s +:+ repeat_char " " (w - char_count s).
Definition pad_right_align (w : nat) (s : string) : string :=
  repeat_char " " (w - char_count s) +:+ s.
(** [{:0wx}] *)
Definition fmt_hex_zero (w : nat) (n : Z) : string :=
  repeat_char "0" (w - String.length (fmt_hex n)) +:+ fmt_hex n.

(** ** Parsing: [uN::from_str_radix], with [max] the type's largest value *)
Fixpoint parse_go (radix max acc : Z) (s : string) : option Z :=
  match s with
  | "" => Some acc
  | String c s =>
      d ← to_digit radix c;
      let acc' := acc * radix + d in
      if acc' <=? max then parse_go radix max acc' s else None
  end.
Definition from_str_radix (max radix : Z) (s : string) : option Z :=
  match s with
  | "" => None
  | String "+" "" => None
  | String "+" s => parse_go radix max 0 s
  | _ => parse_go radix max 0 s
  end.
(** [s.parse::<u64>()] and [s.parse::<usize>()] *)
Definition parse_u64 (s : string) : option Z := from_str_radix u64_max 10 s.

(** ** Facts *)
Lemma string_app_nil_r (s : string) : s +:+ "" = s.
Proof. induction s as [|c s IH]; [done|]. change (String c (s +:+ "") = String c s). by rewrite IH. Qed.
Lemma string_app_assoc (s1 s2 s3 : string) : (s1 +:+ s2) +:+ s3 = s1 +:+ (s2 +:+ s3).
Proof. induction s1 as [|c s1 IH]; [done|].
  change (String c ((s1 +:+ s2) +:+ s3) = String c (s1 +:+ (s2 +:+ s3))). by rewrite IH.
Qed.

Lemma Z_of_ascii_of_Z n : 0 <= n < 256 -> Z_of_ascii (ascii_of_Z n) = n.
Proof.
  intros. unfold Z_of_ascii, ascii_of_Z. rewrite N_ascii_embedding by lia. lia.
Qed.

Lemma to_digit_char b d : 0 <= d < b -> b <= 36 -> to_digit b (digit_char d) = Some d.
Proof.
  intros. unfold to_digit, digit_char.
  destruct (Z.ltb_spec d 10); rewrite Z_of_ascii_of_Z by lia;
    repeat match goal with |- context [?a <=? ?b] => destruct (Z.leb_spec a b); try lia end;
    cbn [andb];
    match goal with |- context [?a <? b] => destruct (Z.ltb_spec a b) end; f_equal; lia.
Qed.

Lemma digit_char_not_sign d : 0 <= d < 36 -> digit_char d ≠ "+"%char.
Proof.
  intros Hd E. apply (f_equal Z_of_ascii) in E. change (Z_of_ascii "+") with 43 in E.
  unfold digit_char in E.
  destruct (Z.ltb_spec d 10); rewrite Z_of_ascii_of_Z in E by lia; lia.
Qed.

Section roundtrip.
Context (b max : Z) (Hb : 2 <= b <= 36).

Lemma parse_go_radix_go fuel n acc :
  0 <= n <= max -> n < b ^ Z.of_nat fuel ->
  parse_go b max 0 (radix_go fuel b n acc) = parse_go b max n acc.
Proof.
  revert n acc. induction fuel as [|f IH]; intros n acc Hn Hlt.
  - change (b ^ Z.of_nat 0) with 1 in Hlt. simpl. f_equal. lia.
  - assert (Hm : 0 <= n mod b < b) by (apply Z.mod_pos_bound; lia).
    pose proof (Z.div_mod n b ltac:(lia)) as E.
    assert (0 <= n / b) by (apply Z.div_pos; lia).
    assert (Hstep : forall m acc', m * b + n mod b <= max ->
      parse_go b max m (String (digit_char (n mod b)) acc') =
      parse_go b max (m * b + n mod b) acc').
    { intros m acc' Hmax. cbn [parse_go]. rewrite to_digit_char by lia. cbn.
      destruct (Z.leb_spec (m * b + n mod b) max); [done|lia]. }
    cbn [radix_go]. destruct (Z.eqb_spec (n / b) 0) as [E0|E0].
    + rewrite Hstep by lia. f_equal. lia.
    + rewrite IH; [|nia|].
      * rewrite Hstep by lia. f_equal. lia.
      * apply Z.div_lt_upper_bound; [lia|].
        replace (Z.of_nat (S f)) with (Z.succ (Z.of_nat f)) in Hlt by lia.
        rewrite Z.pow_succ_r in Hlt by lia. lia.
Qed.

Lemma radix_go_head fuel n acc :
  0 <= n -> exists d s, 0 <= d < b /\ radix_go (S fuel) b n acc = String (digit_char d) s.
Proof.
  revert n acc. induction fuel as [|f IH]; intros n acc Hn.
  - exists (n mod b). cbn. destruct (n / b =? 0); eexists; split;
      first [done|apply Z.mod_pos_bound; lia].
  - cbn [radix_go]. destruct (n / b =? 0).
    + eexists _, _. split; [|done]. apply Z.mod_pos_bound; lia.
    + apply IH. apply Z.div_pos; lia.
Qed.

Lemma log2_fuel n : 0 <= n -> n < b ^ Z.of_nat (S (Z.to_nat (Z.log2 n))).
Proof.
  intros Hn. destruct (decide (n = 0)) as [->|]; [apply Z.pow_pos_nonneg; lia|].
  pose proof (Z.log2_spec n ltac:(lia)) as [_ H]. pose proof (Z.log2_nonneg n).
  replace (Z.of_nat (S (Z.to_nat (Z.log2 n)))) with (Z.succ (Z.log2 n)) by lia.
  apply Z.lt_le_trans with (1 := H). apply Z.pow_le_mono_l. lia.
Qed.

(** what [format!] prints, [from_str_radix] reads back *)
Lemma from_str_radix_fmt n : 0 <= n <= max -> from_str_radix max b (fmt_radix b n) = Some n.
Proof.
  intros Hn. unfold fmt_radix.
  destruct (radix_go_head (Z.to_nat (Z.log2 n)) n "") as (d & s & Hd & E); [lia|].
  assert (parse_go b max 0 (String (digit_char d) s) = Some n) as Hp.
  { rewrite <- E, parse_go_radix_go; [done|lia|]. apply log2_fuel. lia. }
  rewrite E. unfold from_str_radix.
  destruct (digit_char d) as [[][][][][][][][]] eqn:Ec; try exact Hp.
  exfalso. apply (digit_char_not_sign d); [lia|done].
Qed.
End roundtrip.

Lemma fmt_radix_inj b m n :
  2 <= b <= 36 -> 0 <= m -> 0 <= n -> fmt_radix b m = fmt_radix b n -> m = n.
Proof.
  intros Hb Hm Hn E.
  pose proof (from_str_radix_fmt b (Z.max m n) Hb m ltac:(lia)) as H1.
  rewrite E, from_str_radix_fmt in H1 by lia. by injection H1.
Qed.

(** ** Widths and leading zeros *)
Lemma string_app_length (s1 s2 : string) :
  String.length (s1 +:+ s2) = (String.length s1 + String.length s2)%nat.
Proof.
  induction s1 as [|c s1 IH]; [done|].
  change (S (String.length (s1 +:+ s2)) = (S (String.length s1) + String.length s2)%nat).
  rewrite IH. lia.
Qed.

Lemma repeat_char_length c n : String.length (repeat_char c n) = n.
Proof. induction n as [|n IH]; [done|]. cbn. by rewrite IH. Qed.

(** a number below [b^k] prints at most [k] digits *)
Lemma radix_go_length b fuel k n acc :
  2 <= b -> 0 <= n < b ^ Z.of_nat k -> (0 < k)%nat ->
  (String.length (radix_go fuel b n acc) <= k + String.length acc)%nat.
Proof.
  intros Hb. revert k n acc. induction fuel as [|f IH]; intros k n acc Hn Hk; [cbn; lia|].
  cbn [radix_go]. destruct (Z.eqb_spec (n / b) 0) as [|Hnz]; [cbn; lia|].
  destruct k as [|k]; [lia|].
  assert (0 <= n / b < b ^ Z.of_nat k).
  { split; [apply Z.div_pos; lia|]. apply Z.div_lt_upper_bound; [lia|].
    replace (Z.of_nat (S k)) with (Z.succ (Z.of_nat k)) in Hn by lia.
    rewrite Z.pow_succ_r in Hn by lia. lia. }
  destruct k as [|k]; [cbn in *; lia|].
  specialize (IH (S k) (n / b) (String (digit_char (n mod b)) acc)). cbn [String.length] in *. lia.
Qed.

Lemma fmt_hex_zero_length w n :
  (0 < w)%nat -> 0 <= n < 16 ^ Z.of_nat w -> String.length (fmt_hex_zero w n) = w.
Proof.
  intros Hw Hn. unfold fmt_hex_zero. rewrite string_app_length, repeat_char_length.
  pose proof (radix_go_length 16 (S (Z.to_nat (Z.log2 n))) w n "" ltac:(lia) Hn Hw) as H.
  unfold fmt_hex, fmt_radix in *. cbn [String.length] in H. lia.
Qed.

Lemma parse_go_zeros b max k s :
  2 <= b <= 36 -> 0 <= max -> parse_go b max 0 (repeat_char "0" k +:+ s) = parse_go b max 0 s.
Proof.
  intros Hb Hm. induction k as [|k IH]; [done|].
  change (parse_go b max 0 (String "0" (repeat_char "0" k +:+ s)) = parse_go b max 0 s).
  cbn [parse_go]. change "0"%char with (digit_char 0). rewrite to_digit_char by lia.
  cbn [mbind option_bind]. rewrite Z.mul_0_l, Z.add_0_l.
  destruct (Z.leb_spec 0 max); [done|lia].
Qed.

Lemma from_str_radix_digit b max c s :
  c ≠ "+"%char -> from_str_radix max b (String c s) = parse_go b max 0 (String c s).
Proof.
  intros Hc. unfold from_str_radix. destruct c as [[][][][][][][][]]; try done.
Qed.

Lemma from_str_radix_hex_zero max w n :
  0 <= n <= max -> from_str_radix max 16 (fmt_hex_zero w n) = Some n.
Proof.
  intros Hn. unfold fmt_hex_zero. destruct (w - String.length (fmt_hex n))%nat as [|k] eqn:E.
  - apply from_str_radix_fmt; lia.
  - change (repeat_char "0" (S k) +:+ fmt_hex n) with (String "0" (repeat_char "0" k +:+ fmt_hex n)).
    rewrite from_str_radix_digit by done.
    change (parse_go 16 max 0 (repeat_char "0" (S k) +:+ fmt_hex n) = Some n).
    rewrite parse_go_zeros by lia. unfold fmt_hex, fmt_radix.
    rewrite parse_go_radix_go; [done|lia|lia|]. apply log2_fuel; lia.
Qed.
