(* ===== verification/Isa.v ===== *)
(** * Isa: the abstract specification of the instructions

    What the RISC-V manuals define and both tools promise to follow: the instructions of
    RV64IMA_Zicsr with the privileged returns and the F/D loads and stores, their 32-bit
    encodings by format, the C extension's encodings as a decoder into the same instructions,
    and the assembly text of an instruction, every operand and ordering bit of it included,
    in one of the manuals' spellings (the pseudo-instructions [nop], [mv], [li], [not], [neg],
    [ret], [jr], [j], [beqz], [bnez], [csrr], [csrw] and the bare [fence] where they apply).
    Nothing here is translated from the sources: [Rvc] is proved to expand to these encodings,
    [Rvdisasm] to print this text, or less of it where [RvdisasmSpec.lossless] says so. *)
From S2P Require Import Prelude Fmt.

Module Isa.

(** ** Instructions *)
Inductive bcond := BEQ | BNE | BLT | BGE | BLTU | BGEU.
Inductive lwidth := LB | LH | LW | LD | LBU | LHU | LWU.
Inductive swidth := SB | SH | SW | SD.
Inductive fwidth := FW | FD.
Inductive iop := ADDI | SLTI | SLTIU | XORI | ORI | ANDI.
Inductive shop := SLL | SRL | SRA.
Inductive rop :=
  | ADD | SUB | RSLL | SLT | SLTU | XOR | RSRL | RSRA | OR | AND
  | MUL | MULH | MULHSU | MULHU | DIV | DIVU | REM | REMU.
Inductive rop32 := ADDW | SUBW | SLLW | SRLW | SRAW | MULW | DIVW | DIVUW | REMW | REMUW.
Inductive csrop := RW | RS | RC.
Inductive amoop :=
  | AMOADD | AMOSWAP | LR | SC | AMOXOR | AMOOR | AMOAND | AMOMIN | AMOMAX | AMOMINU | AMOMAXU.
Inductive sysop := ECALL | EBREAK | MRET | SRET | WFI.

(** Registers and shift amounts are numbers, immediates are the signed values the
    instruction adds; [Lui] and [Auipc] carry the 20-bit field. *)
Inductive instr :=
  | Lui (rd imm : Z) | Auipc (rd imm : Z)
  | Jal (rd off : Z) | Jalr (rd rs1 imm : Z)
  | Branch (c : bcond) (rs1 rs2 off : Z)
  | Load (w : lwidth) (rd rs1 imm : Z) | Store (w : swidth) (rs2 rs1 imm : Z)
  | OpImm (op : iop) (rd rs1 imm : Z) | Shift (op : shop) (rd rs1 shamt : Z)
  | Addiw (rd rs1 imm : Z) | Shiftw (op : shop) (rd rs1 shamt : Z)
  | Op (op : rop) (rd rs1 rs2 : Z) | Op32 (op : rop32) (rd rs1 rs2 : Z)
  | Fence (pred succ : Z) | FenceI
  | Sys (op : sysop) | SfenceVma (rs1 rs2 : Z)
  | Csr (op : csrop) (rd csr rs1 : Z) | Csri (op : csrop) (rd csr uimm : Z)
  | Amo (op : amoop) (dword aq rl : bool) (rd rs1 rs2 : Z)
  | LoadFp (w : fwidth) (rd rs1 imm : Z) | StoreFp (w : fwidth) (rs2 rs1 imm : Z).

(** ** Encodings, by format *)
Definition enc_R (f7 rs2 rs1 f3 rd op : Z) : Z :=
  f7 * 2 ^ 25 + rs2 * 2 ^ 20 + rs1 * 2 ^ 15 + f3 * 2 ^ 12 + rd * 2 ^ 7 + op.
Definition enc_I (imm rs1 f3 rd op : Z) : Z :=
  (imm mod 2 ^ 12) * 2 ^ 20 + rs1 * 2 ^ 15 + f3 * 2 ^ 12 + rd * 2 ^ 7 + op.
Definition enc_S (imm rs2 rs1 f3 op : Z) : Z :=
  enc_R ((imm / 2 ^ 5) mod 2 ^ 7) rs2 rs1 f3 (imm mod 2 ^ 5) op.
Definition enc_B (off rs2 rs1 f3 op : Z) : Z :=
  enc_R ((off / 2 ^ 12) mod 2 * 2 ^ 6 + (off / 2 ^ 5) mod 2 ^ 6) rs2 rs1 f3
        ((off / 2) mod 2 ^ 4 * 2 + (off / 2 ^ 11) mod 2) op.
Definition enc_U (imm rd op : Z) : Z := imm * 2 ^ 12 + rd * 2 ^ 7 + op.
Definition enc_J (off rd op : Z) : Z :=
  enc_U ((off / 2 ^ 20) mod 2 * 2 ^ 19 + (off / 2) mod 2 ^ 10 * 2 ^ 9
         + (off / 2 ^ 11) mod 2 * 2 ^ 8 + (off / 2 ^ 12) mod 2 ^ 8) rd op.

Definition f3_bcond c := match c with BEQ => 0 | BNE => 1 | BLT => 4 | BGE => 5 | BLTU => 6 | BGEU => 7 end.
Definition f3_load w := match w with LB => 0 | LH => 1 | LW => 2 | LD => 3 | LBU => 4 | LHU => 5 | LWU => 6 end.
Definition f3_store w := match w with SB => 0 | SH => 1 | SW => 2 | SD => 3 end.
Definition f3_fp w := match w with FW => 2 | FD => 3 end.
Definition f3_iop o := match o with ADDI => 0 | SLTI => 2 | SLTIU => 3 | XORI => 4 | ORI => 6 | ANDI => 7 end.
Definition f3_shop o := match o with SLL => 1 | SRL => 5 | SRA => 5 end.
Definition alt_shop o := match o with SRA => 0x20 | _ => 0 end.
(** (funct7, funct3) *)
Definition code_rop o : Z * Z :=
  match o with
  | ADD => (0, 0) | SUB => (0x20, 0) | RSLL => (0, 1) | SLT => (0, 2) | SLTU => (0, 3)
  | XOR => (0, 4) | RSRL => (0, 5) | RSRA => (0x20, 5) | OR => (0, 6) | AND => (0, 7)
  | MUL => (1, 0) | MULH => (1, 1) | MULHSU => (1, 2) | MULHU => (1, 3)
  | DIV => (1, 4) | DIVU => (1, 5) | REM => (1, 6) | REMU => (1, 7)
  end.
Definition code_rop32 o : Z * Z :=
  match o with
  | ADDW => (0, 0) | SUBW => (0x20, 0) | SLLW => (0, 1) | SRLW => (0, 5) | SRAW => (0x20, 5)
  | MULW => (1, 0) | DIVW => (1, 4) | DIVUW => (1, 5) | REMW => (1, 6) | REMUW => (1, 7)
  end.
Definition f3_csr o := match o with RW => 1 | RS => 2 | RC => 3 end.
Definition f5_amo o :=
  match o with
  | AMOADD => 0x00 | AMOSWAP => 0x01 | LR => 0x02 | SC => 0x03 | AMOXOR => 0x04 | AMOOR => 0x08
  | AMOAND => 0x0c | AMOMIN => 0x10 | AMOMAX => 0x14 | AMOMINU => 0x18 | AMOMAXU => 0x1c
  end.
Definition word_sys o :=
  match o with
  | ECALL => 0x00000073 | EBREAK => 0x00100073 | MRET => 0x30200073
  | SRET => 0x10200073 | WFI => 0x10500073
  end.

Definition encode (i : instr) : Z :=
  match i with
  | Lui rd imm => enc_U imm rd 0x37
  | Auipc rd imm => enc_U imm rd 0x17
  | Jal rd off => enc_J off rd 0x6f
  | Jalr rd rs1 imm => enc_I imm rs1 0 rd 0x67
  | Branch c rs1 rs2 off => enc_B off rs2 rs1 (f3_bcond c) 0x63
  | Load w rd rs1 imm => enc_I imm rs1 (f3_load w) rd 0x03
  | Store w rs2 rs1 imm => enc_S imm rs2 rs1 (f3_store w) 0x23
  | OpImm o rd rs1 imm => enc_I imm rs1 (f3_iop o) rd 0x13
  | Shift o rd rs1 sh => enc_I (alt_shop o * 2 ^ 5 + sh) rs1 (f3_shop o) rd 0x13
  | Addiw rd rs1 imm => enc_I imm rs1 0 rd 0x1b
  | Shiftw o rd rs1 sh => enc_R (alt_shop o) sh rs1 (f3_shop o) rd 0x1b
  | Op o rd rs1 rs2 => enc_R (code_rop o).1 rs2 rs1 (code_rop o).2 rd 0x33
  | Op32 o rd rs1 rs2 => enc_R (code_rop32 o).1 rs2 rs1 (code_rop32 o).2 rd 0x3b
  | Fence p s => enc_I (p * 2 ^ 4 + s) 0 0 0 0x0f
  | FenceI => enc_I 0 0 1 0 0x0f
  | Sys o => word_sys o
  | SfenceVma rs1 rs2 => enc_R 0x09 rs2 rs1 0 0 0x73
  | Csr o rd csr rs1 => enc_I csr rs1 (f3_csr o) rd 0x73
  | Csri o rd csr uimm => enc_I csr uimm (4 + f3_csr o) rd 0x73
  | Amo o dw aq rl rd rs1 rs2 =>
      enc_R (f5_amo o * 4 + Z.b2z aq * 2 + Z.b2z rl) rs2 rs1 (if dw then 3 else 2) rd 0x2f
  | LoadFp w rd rs1 imm => enc_I imm rs1 (f3_fp w) rd 0x07
  | StoreFp w rs2 rs1 imm => enc_S imm rs2 rs1 (f3_fp w) 0x27
  end.

(** ** Well-formed instructions: every operand fits its field *)
Definition ubits (n x : Z) : bool := (0 <=? x) && (x <? 2 ^ n).
Definition sbits (n x : Z) : bool := (- 2 ^ (n - 1) <=? x) && (x <? 2 ^ (n - 1)).
Definition reg : Z -> bool := ubits 5.
Definition even_off (n x : Z) : bool := sbits n x && (x mod 2 =? 0).
Definition wf (i : instr) : bool :=
  match i with
  | Lui rd imm | Auipc rd imm => reg rd && ubits 20 imm
  | Jal rd off => reg rd && even_off 21 off
  | Jalr rd rs1 imm => reg rd && reg rs1 && sbits 12 imm
  | Branch _ rs1 rs2 off => reg rs1 && reg rs2 && even_off 13 off
  | Load _ r rs1 imm | Store _ r rs1 imm | OpImm _ r rs1 imm | Addiw r rs1 imm
  | LoadFp _ r rs1 imm | StoreFp _ r rs1 imm => reg r && reg rs1 && sbits 12 imm
  | Shift _ rd rs1 sh => reg rd && reg rs1 && ubits 6 sh
  | Shiftw _ rd rs1 sh => reg rd && reg rs1 && ubits 5 sh
  | Op _ rd rs1 rs2 | Op32 _ rd rs1 rs2 => reg rd && reg rs1 && reg rs2
  | Fence p s => ubits 4 p && ubits 4 s
  | FenceI | Sys _ => true
  | SfenceVma rs1 rs2 => reg rs1 && reg rs2
  | Csr _ rd csr r | Csri _ rd csr r => reg rd && ubits 12 csr && reg r
  | Amo o _ _ _ rd rs1 rs2 =>
      reg rd && reg rs1 && reg rs2 && match o with LR => rs2 =? 0 | _ => true end
  end.

(** ** The C extension

    [gather h l] reads the bits of [h] at the positions [l], most significant first;
    [sgather] reads them as a two's complement number.  The lists are the immediate layouts
    of the C extension's instruction tables. *)
Definition gather (h : Z) (l : list Z) : Z :=
  fold_left (fun acc p => 2 * acc + Z.b2z (Z.testbit h p)) l 0.
Definition sgather (h : Z) (l : list Z) : Z :=
  match l with
  | [] => 0
  | p :: l => fold_left (fun acc p => 2 * acc + Z.b2z (Z.testbit h p)) l (- Z.b2z (Z.testbit h p))
  end.

Definition rd_rs1 (h : Z) : Z := gather h [11; 10; 9; 8; 7].
Definition rs2_full (h : Z) : Z := gather h [6; 5; 4; 3; 2].
Definition rs1' (h : Z) : Z := 8 + gather h [9; 8; 7].
Definition rd_rs2' (h : Z) : Z := 8 + gather h [4; 3; 2].
Definition imm6 (h : Z) : Z := sgather h [12; 6; 5; 4; 3; 2].
Definition shamt6 (h : Z) : Z := gather h [12; 6; 5; 4; 3; 2].
Definition uimm_d (h : Z) : Z := gather h [6; 5; 12; 11; 10] * 8.
Definition uimm_w (h : Z) : Z := gather h [5; 12; 11; 10; 6] * 4.
Definition uimm_dsp (h : Z) : Z := gather h [4; 3; 2; 12; 6; 5] * 8.
Definition uimm_wsp (h : Z) : Z := gather h [3; 2; 12; 6; 5; 4] * 4.
Definition uimm_sdsp (h : Z) : Z := gather h [9; 8; 7; 12; 11; 10] * 8.
Definition uimm_swsp (h : Z) : Z := gather h [8; 7; 12; 11; 10; 9] * 4.
Definition imm_16sp (h : Z) : Z := sgather h [12; 4; 3; 5; 2; 6] * 16.
Definition uimm_4spn (h : Z) : Z := gather h [10; 9; 8; 7; 12; 11; 5; 6] * 4.
Definition off_j (h : Z) : Z := sgather h [12; 8; 10; 9; 6; 7; 2; 11; 5; 4; 3] * 2.
Definition off_b (h : Z) : Z := sgather h [12; 6; 5; 2; 11; 10; 4; 3] * 2.

Definition unless (reserved : bool) (i : instr) : option instr :=
  if reserved then None else Some i.

Definition rvc_q0 (h : Z) : option instr :=
  match gather h [15; 14; 13] with
  | 0 => unless (uimm_4spn h =? 0) (OpImm ADDI (rd_rs2' h) 2 (uimm_4spn h))
  | 1 => Some (LoadFp FD (rd_rs2' h) (rs1' h) (uimm_d h))
  | 2 => Some (Load LW (rd_rs2' h) (rs1' h) (uimm_w h))
  | 3 => Some (Load LD (rd_rs2' h) (rs1' h) (uimm_d h))
  | 5 => Some (StoreFp FD (rd_rs2' h) (rs1' h) (uimm_d h))
  | 6 => Some (Store SW (rd_rs2' h) (rs1' h) (uimm_w h))
  | 7 => Some (Store SD (rd_rs2' h) (rs1' h) (uimm_d h))
  | _ => None
  end.

Definition rvc_arith (h : Z) : option instr :=
  match gather h [12; 6; 5] with
  | 0 => Some (Op SUB (rs1' h) (rs1' h) (rd_rs2' h))
  | 1 => Some (Op XOR (rs1' h) (rs1' h) (rd_rs2' h))
  | 2 => Some (Op OR (rs1' h) (rs1' h) (rd_rs2' h))
  | 3 => Some (Op AND (rs1' h) (rs1' h) (rd_rs2' h))
  | 4 => Some (Op32 SUBW (rs1' h) (rs1' h) (rd_rs2' h))
  | 5 => Some (Op32 ADDW (rs1' h) (rs1' h) (rd_rs2' h))
  | _ => None
  end.

Definition rvc_q1 (h : Z) : option instr :=
  let rd := rd_rs1 h in
  match gather h [15; 14; 13] with
  | 0 => Some (OpImm ADDI rd rd (imm6 h))
  | 1 => unless (rd =? 0) (Addiw rd rd (imm6 h))
  | 2 => Some (OpImm ADDI rd 0 (imm6 h))
  | 3 => if rd =? 2 then unless (imm_16sp h =? 0) (OpImm ADDI 2 2 (imm_16sp h))
         else unless (imm6 h =? 0) (Lui rd (imm6 h mod 2 ^ 20))
  | 4 => match gather h [11; 10] with
         | 0 => Some (Shift SRL (rs1' h) (rs1' h) (shamt6 h))
         | 1 => Some (Shift SRA (rs1' h) (rs1' h) (shamt6 h))
         | 2 => Some (OpImm ANDI (rs1' h) (rs1' h) (imm6 h))
         | _ => rvc_arith h
         end
  | 5 => Some (Jal 0 (off_j h))
  | 6 => Some (Branch BEQ (rs1' h) 0 (off_b h))
  | _ => Some (Branch BNE (rs1' h) 0 (off_b h))
  end.

Definition rvc_q2 (h : Z) : option instr :=
  let rd := rd_rs1 h in
  let rs2 := rs2_full h in
  match gather h [15; 14; 13] with
  | 0 => Some (Shift SLL rd rd (shamt6 h))
  | 1 => Some (LoadFp FD rd 2 (uimm_dsp h))
  | 2 => unless (rd =? 0) (Load LW rd 2 (uimm_wsp h))
  | 3 => unless (rd =? 0) (Load LD rd 2 (uimm_dsp h))
  | 4 => if Z.testbit h 12
         then if rs2 =? 0 then Some (if rd =? 0 then Sys EBREAK else Jalr 1 rd 0)
              else Some (Op ADD rd rd rs2)
         else if rs2 =? 0 then unless (rd =? 0) (Jalr 0 rd 0)
              else Some (Op ADD rd 0 rs2)
  | 5 => Some (StoreFp FD rs2 2 (uimm_sdsp h))
  | 6 => Some (Store SW rs2 2 (uimm_swsp h))
  | _ => Some (Store SD rs2 2 (uimm_sdsp h))
  end.

(** the instruction a 16-bit parcel stands for; [None]: reserved, or not compressed *)
Definition rvc_decode (h : Z) : option instr :=
  match gather h [1; 0] with
  | 0 => rvc_q0 h
  | 1 => rvc_q1 h
  | 2 => rvc_q2 h
  | _ => None
  end.

(** ** Assembly text *)
(** the calling convention's register names *)
Definition abi_name (r : Z) : string :=
  if r =? 0 then "zero" else if r =? 1 then "ra" else if r =? 2 then "sp"
  else if r =? 3 then "gp" else if r =? 4 then "tp"
  else if r <=? 7 then "t" +:+ fmt_dec (r - 5)
  else if r <=? 9 then "s" +:+ fmt_dec (r - 8)
  else if r <=? 17 then "a" +:+ fmt_dec (r - 10)
  else if r <=? 27 then "s" +:+ fmt_dec (r - 16)
  else "t" +:+ fmt_dec (r - 25).
Definition abi_fname (r : Z) : string :=
  if r <=? 7 then "ft" +:+ fmt_dec r
  else if r <=? 9 then "fs" +:+ fmt_dec (r - 8)
  else if r <=? 17 then "fa" +:+ fmt_dec (r - 10)
  else if r <=? 27 then "fs" +:+ fmt_dec (r - 16)
  else "ft" +:+ fmt_dec (r - 20).

(** a mnemonic in its column, operands after it *)
Definition mnem (m : string) (ops : string) : string := pad_left_align 7 m +:+ " " +:+ ops.
Definition ops2 (a b : string) : string := a +:+ "," +:+ b.
Definition ops3 (a b c : string) : string := a +:+ "," +:+ b +:+ "," +:+ c.
Definition mem_op (r : string) (imm : Z) (base : string) : string :=
  r +:+ "," +:+ fmt_dec imm +:+ "(" +:+ base +:+ ")".

Definition name_bcond c := match c with BEQ => "beq" | BNE => "bne" | BLT => "blt" | BGE => "bge" | BLTU => "bltu" | BGEU => "bgeu" end.
Definition name_load w := match w with LB => "lb" | LH => "lh" | LW => "lw" | LD => "ld" | LBU => "lbu" | LHU => "lhu" | LWU => "lwu" end.
Definition name_store w := match w with SB => "sb" | SH => "sh" | SW => "sw" | SD => "sd" end.
Definition name_iop o := match o with ADDI => "addi" | SLTI => "slti" | SLTIU => "sltiu" | XORI => "xori" | ORI => "ori" | ANDI => "andi" end.
Definition name_shop o := match o with SLL => "slli" | SRL => "srli" | SRA => "srai" end.
Definition name_rop o :=
  match o with
  | ADD => "add" | SUB => "sub" | RSLL => "sll" | SLT => "slt" | SLTU => "sltu" | XOR => "xor"
  | RSRL => "srl" | RSRA => "sra" | OR => "or" | AND => "and" | MUL => "mul" | MULH => "mulh"
  | MULHSU => "mulhsu" | MULHU => "mulhu" | DIV => "div" | DIVU => "divu" | REM => "rem" | REMU => "remu"
  end.
Definition name_rop32 o :=
  match o with
  | ADDW => "addw" | SUBW => "subw" | SLLW => "sllw" | SRLW => "srlw" | SRAW => "sraw"
  | MULW => "mulw" | DIVW => "divw" | DIVUW => "divuw" | REMW => "remw" | REMUW => "remuw"
  end.
Definition name_csr o := match o with RW => "csrrw" | RS => "csrrs" | RC => "csrrc" end.
Definition name_sys o := match o with ECALL => "ecall" | EBREAK => "ebreak" | MRET => "mret" | SRET => "sret" | WFI => "wfi" end.
Definition name_amo o :=
  match o with
  | AMOADD => "amoadd" | AMOSWAP => "amoswap" | LR => "lr" | SC => "sc" | AMOXOR => "amoxor"
  | AMOOR => "amoor" | AMOAND => "amoand" | AMOMIN => "amomin" | AMOMAX => "amomax"
  | AMOMINU => "amominu" | AMOMAXU => "amomaxu"
  end.

Definition csr_names : list (Z * string) :=
  [(0x001, "fflags"); (0x002, "frm"); (0x003, "fcsr"); (0x100, "sstatus"); (0x104, "sie");
   (0x105, "stvec"); (0x106, "scounteren"); (0x10a, "senvcfg"); (0x140, "sscratch");
   (0x141, "sepc"); (0x142, "scause"); (0x143, "stval"); (0x144, "sip"); (0x14d, "stimecmp");
   (0x180, "satp"); (0x300, "mstatus"); (0x301, "misa"); (0x302, "medeleg");
   (0x303, "mideleg"); (0x304, "mie"); (0x305, "mtvec"); (0x306, "mcounteren");
   (0x30a, "menvcfg"); (0x340, "mscratch"); (0x341, "mepc"); (0x342, "mcause");
   (0x343, "mtval"); (0x344, "mip"); (0xc00, "cycle"); (0xc01, "time"); (0xc02, "instret");
   (0xf11, "mvendorid"); (0xf12, "marchid"); (0xf13, "mimpid"); (0xf14, "mhartid")].
Definition csr_text (c : Z) : string :=
  match find (fun p => p.1 =? c) csr_names with
  | Some (_, n) => n
  | None => "0x" +:+ fmt_hex c
  end.

Definition text_opimm (o : iop) (rd rs1 imm : Z) : string :=
  match o with
  | ADDI =>
      if (rd =? 0) && (rs1 =? 0) && (imm =? 0) then "nop"
      else if imm =? 0 then mnem "mv" (ops2 (abi_name rd) (abi_name rs1))
      else if rs1 =? 0 then mnem "li" (ops2 (abi_name rd) (fmt_dec imm))
      else mnem "addi" (ops3 (abi_name rd) (abi_name rs1) (fmt_dec imm))
  | XORI =>
      if imm =? -1 then mnem "not" (ops2 (abi_name rd) (abi_name rs1))
      else mnem "xori" (ops3 (abi_name rd) (abi_name rs1) (fmt_dec imm))
  | _ => mnem (name_iop o) (ops3 (abi_name rd) (abi_name rs1) (fmt_dec imm))
  end.

Definition text_csr (o : csrop) (i : bool) (rd csr r : Z) : string :=
  let src := if i then fmt_dec r else abi_name r in
  let suffix := if i then "i" else "" in
  match o with
  | RW => if rd =? 0 then mnem ("csrw" +:+ suffix) (ops2 (csr_text csr) src)
          else mnem ("csrrw" +:+ suffix) (ops3 (abi_name rd) (csr_text csr) src)
  | RS => if negb i && (r =? 0) then mnem "csrr" (ops2 (abi_name rd) (csr_text csr))
          else mnem ("csrrs" +:+ suffix) (ops3 (abi_name rd) (csr_text csr) src)
  | RC => mnem ("csrrc" +:+ suffix) (ops3 (abi_name rd) (csr_text csr) src)
  end.

(** the accesses a fence orders, as letters; the full sets are the bare [fence] *)
Definition fence_set (s : Z) : string :=
  if s =? 0 then "0" else
  (if Z.testbit s 3 then "i" else "") +:+ (if Z.testbit s 2 then "o" else "") +:+
  (if Z.testbit s 1 then "r" else "") +:+ (if Z.testbit s 0 then "w" else "").
Definition text_fence (pred succ : Z) : string :=
  if (pred =? 15) && (succ =? 15) then "fence"
  else mnem "fence" (ops2 (fence_set pred) (fence_set succ)).

(** the acquire and release bits of an atomic *)
Definition order_suffix (aq rl : bool) : string :=
  match aq, rl with
  | false, false => "" | true, false => ".aq" | false, true => ".rl" | true, true => ".aqrl"
  end.

(** the text of an instruction at [pc]: targets are absolute, modulo the address space *)
Definition text (i : instr) (pc : Z) : string :=
  let tgt off := fmt_hex ((pc + off) mod 2 ^ 64) in
  match i with
  | Lui rd imm => mnem "lui" (ops2 (abi_name rd) ("0x" +:+ fmt_hex imm))
  | Auipc rd imm => mnem "auipc" (ops2 (abi_name rd) ("0x" +:+ fmt_hex imm))
  | Jal rd off => if rd =? 0 then mnem "j" (tgt off) else if rd =? 1 then mnem "jal" (tgt off)
                  else mnem "jal" (ops2 (abi_name rd) (tgt off))
  | Jalr rd rs1 imm =>
      if (rd =? 0) && (rs1 =? 1) && (imm =? 0) then "ret"
      else if (rd =? 0) && (imm =? 0) then mnem "jr" (abi_name rs1)
      else mnem "jalr" (mem_op (abi_name rd) imm (abi_name rs1))
  | Branch c rs1 rs2 off =>
      match c, rs2 with
      | BEQ, 0 => mnem "beqz" (ops2 (abi_name rs1) (tgt off))
      | BNE, 0 => mnem "bnez" (ops2 (abi_name rs1) (tgt off))
      | _, _ => mnem (name_bcond c) (ops3 (abi_name rs1) (abi_name rs2) (tgt off))
      end
  | Load w rd rs1 imm => mnem (name_load w) (mem_op (abi_name rd) imm (abi_name rs1))
  | Store w rs2 rs1 imm => mnem (name_store w) (mem_op (abi_name rs2) imm (abi_name rs1))
  | OpImm o rd rs1 imm => text_opimm o rd rs1 imm
  | Shift o rd rs1 sh => mnem (name_shop o) (ops3 (abi_name rd) (abi_name rs1) (fmt_dec sh))
  | Addiw rd rs1 imm => mnem "addiw" (ops3 (abi_name rd) (abi_name rs1) (fmt_dec imm))
  | Shiftw o rd rs1 sh => mnem (name_shop o +:+ "w") (ops3 (abi_name rd) (abi_name rs1) (fmt_dec sh))
  | Op o rd rs1 rs2 =>
      match o, rs1 with
      | SUB, 0 => mnem "neg" (ops2 (abi_name rd) (abi_name rs2))
      | _, _ => mnem (name_rop o) (ops3 (abi_name rd) (abi_name rs1) (abi_name rs2))
      end
  | Op32 o rd rs1 rs2 => mnem (name_rop32 o) (ops3 (abi_name rd) (abi_name rs1) (abi_name rs2))
  | Fence pred succ => text_fence pred succ
  | FenceI => "fence.i"
  | Sys o => name_sys o
  | SfenceVma rs1 rs2 => mnem "sfence.vma" (ops2 (abi_name rs1) (abi_name rs2))
  | Csr o rd csr r => text_csr o false rd csr r
  | Csri o rd csr u => text_csr o true rd csr u
  | Amo o dw aq rl rd rs1 rs2 =>
      name_amo o +:+ (if dw then ".d" else ".w") +:+ order_suffix aq rl +:+ "  " +:+
      match o with
      | LR => ops2 (abi_name rd) ("(" +:+ abi_name rs1 +:+ ")")
      | _ => ops3 (abi_name rd) (abi_name rs2) ("(" +:+ abi_name rs1 +:+ ")")
      end
  | LoadFp w rd rs1 imm => mnem (match w with FW => "flw" | FD => "fld" end) (mem_op (abi_fname rd) imm (abi_name rs1))
  | StoreFp w rs2 rs1 imm => mnem (match w with FW => "fsw" | FD => "fsd" end) (mem_op (abi_fname rs2) imm (abi_name rs1))
  end.

End Isa.
