(* ===== verification/Str.v ===== *)
(** * Str: the string operations of Rust's standard library that the tools use

    A [&str] is the byte string of its UTF-8 encoding.  The separators the tools search for are
    ASCII, so a search over bytes finds what a search over characters finds; where the source
    counts or classifies characters, the byte string is cut into characters first. *)
From S2P Require Import Prelude Fmt.

(** the byte string with the given byte values *)
Definition bytes (l : list Z) : string := fold_right (fun n => String (ascii_of_Z n)) "" l.

Definition HT : ascii := "009"%char.
Definition LF : ascii := "010"%char.
Definition CR : ascii := "013"%char.
Definition ESC : ascii := "027"%char.

(** ** Characters *)

(** [s.chars()]: a start byte with the continuation bytes after it *)
Fixpoint chars (s : string) : list string :=
  match s with
  | "" => []
  | String c s' =>
      match chars s' with
      | [] => [String c ""]
      | d :: cs => if match d with String e _ => is_char_start e | "" => true end
                   then String c "" :: d :: cs
                   else String c d :: cs
      end
  end.

Fixpoint concat_str (l : list string) : string :=
  match l with [] => "" | s :: l => s +:+ concat_str l end.

(** [s.chars().take(n).collect::<String>()] *)
Definition take_chars (n : nat) (s : string) : string := concat_str (take n (chars s)).

(** [u8 as char] pushed on a [String]: code points 128 to 255 take two bytes *)
Definition char_of_u8 (g : ascii) : string :=
  let n := Z_of_ascii g in
  if n <? 128 then String g "" else bytes [0xc0 + n / 64; 0x80 + n mod 64].

(** [char::is_whitespace]: the White_Space code points, encoded *)
Definition whitespace : list string :=
  map bytes ([[9]; [10]; [11]; [12]; [13]; [32]; [0xc2; 0x85]; [0xc2; 0xa0]; [0xe1; 0x9a; 0x80]]
    ++ map (fun n => [0xe2; 0x80; n]) (seqZ 0x80 11 ++ [0xa8; 0xa9; 0xaf])
    ++ [[0xe2; 0x81; 0x9f]; [0xe3; 0x80; 0x80]]).
Definition is_whitespace (c : string) : bool := existsb (String.eqb c) whitespace.

Fixpoint drop_while {A} (p : A -> bool) (l : list A) : list A :=
  match l with [] => [] | x :: l' => if p x then drop_while p l' else l end.

(** [s.trim()] *)
Definition trim (s : string) : string :=
  concat_str (rev (drop_while is_whitespace (rev (drop_while is_whitespace (chars s))))).

(** [s.trim_end()] *)
Definition trim_end (s : string) : string :=
  concat_str (rev (drop_while is_whitespace (rev (chars s)))).

(** [s.split_whitespace()]: the runs of characters that are not white space *)
Fixpoint words (cs : list string) (cur : string) : list string :=
  match cs with
  | [] => if String.eqb cur "" then [] else [cur]
  | c :: cs =>
      if is_whitespace c then (if String.eqb cur "" then [] else [cur]) ++ words cs ""
      else words cs (cur +:+ c)
  end.
Definition split_whitespace (s : string) : list string := words (chars s) "".

(** ** Searching and splitting *)

(** [s.split(c)] for an ASCII character: never empty *)
Fixpoint split_char (c : ascii) (s : string) : list string :=
  match s with
  | "" => [""]
  | String d s' =>
      if Ascii.eqb d c then "" :: split_char c s'
      else match split_char c s' with [] => [String d ""] | w :: ws => String d w :: ws end
  end.

Fixpoint drop_str (n : nat) (s : string) : string :=
  match n, s with S n, String _ s => drop_str n s | _, _ => s end.

(** [s.strip_prefix(p)], [s.strip_suffix(p)], [s.split_once(p)], [s.contains(p)] *)
Definition strip_prefix (p s : string) : option string :=
  if String.prefix p s then Some (drop_str (String.length p) s) else None.
Fixpoint strip_suffix (p s : string) : option string :=
  if String.eqb s p then Some ""
  else match s with "" => None | String c s' => r ← strip_suffix p s'; Some (String c r) end.
Fixpoint split_once (p s : string) : option (string * string) :=
  match strip_prefix p s with
  | Some r => Some ("", r)
  | None =>
      match s with
      | "" => None
      | String c s' => '(a, b) ← split_once p s'; Some (String c a, b)
      end
  end.
Definition contains (p s : string) : bool := bool_decide (is_Some (split_once p s)).

(** [l.join(sep)] *)
Fixpoint join (sep : string) (l : list string) : string :=
  match l with
  | [] => ""
  | [s] => s
  | s :: l => s +:+ sep +:+ join sep l
  end.

(** [s.lines()]: a carriage return before the line feed belongs to the terminator *)
Fixpoint split_lines (s : string) : list (string * bool) :=
  match s with
  | "" => []
  | String c s' =>
      if Ascii.eqb c LF then ("", true) :: split_lines s'
      else match split_lines s' with
           | [] => [(String c "", false)]
           | (l, t) :: ls => (String c l, t) :: ls
           end
  end.
Definition end_of_line (lt : string * bool) : string :=
  let '(l, terminated) := lt in
  if terminated then default l (strip_suffix (String CR "") l) else l.
Definition lines (s : string) : list string := map end_of_line (split_lines s).
