(* ===== verification/StrFacts.v ===== *)
(** * StrFacts: facts about the string operations

    Splitting what [join] put together, and the operations on strings whose bytes all satisfy a
    predicate: hexadecimal and decimal numbers contain neither separators nor white space. *)
From S2P Require Import Prelude Fmt Str.

(** ** Strings over a class of bytes *)
Fixpoint all_str (p : ascii -> bool) (s : string) : bool :=
  match s with "" => true | String c s => p c && all_str p s end.

Lemma all_str_app p s1 s2 : all_str p (s1 +:+ s2) = all_str p s1 && all_str p s2.
Proof.
  induction s1 as [|c s1 IH]; [done|].
  change (p c && all_str p (s1 +:+ s2) = p c && all_str p s1 && all_str p s2).
  by rewrite IH, andb_assoc.
Qed.

Lemma all_str_elem p s c : all_str p s = true -> c ∈ list_ascii_of_string s -> p c = true.
Proof.
  induction s as [|d s IH]; cbn; [by intros _ ?%elem_of_nil|]. rewrite andb_true_iff.
  intros [? ?] [->|?]%elem_of_cons; auto.
Qed.

Lemma list_ascii_app s t :
  list_ascii_of_string (s +:+ t) = list_ascii_of_string s ++ list_ascii_of_string t.
Proof.
  induction s as [|c s IH]; [done|].
  change (c :: list_ascii_of_string (s +:+ t) = (c :: list_ascii_of_string s) ++ list_ascii_of_string t).
  by rewrite IH.
Qed.

Lemma all_str_repeat p c n : p c = true -> all_str p (repeat_char c n) = true.
Proof. intros Hc. induction n as [|n IH]; [done|]. cbn. by rewrite Hc, IH. Qed.

Lemma all_str_impl (p q : ascii -> bool) s :
  (forall c, p c = true -> q c = true) -> all_str p s = true -> all_str q s = true.
Proof.
  intros Hpq. induction s as [|c s IH]; [done|]. cbn. rewrite !andb_true_iff.
  intros [? ?]. auto.
Qed.

Definition is_hex_digit (c : ascii) : bool :=
  let n := Z_of_ascii c in (48 <=? n) && (n <=? 57) || (97 <=? n) && (n <=? 102).

Lemma digit_char_hex d : 0 <= d < 16 -> is_hex_digit (digit_char d) = true.
Proof.
  intros Hd. unfold is_hex_digit, digit_char.
  destruct (Z.ltb_spec d 10); rewrite Z_of_ascii_of_Z by lia;
    rewrite orb_true_iff, !andb_true_iff, !Z.leb_le; lia.
Qed.

Lemma radix_go_all b fuel n acc :
  2 <= b <= 16 -> 0 <= n -> all_str is_hex_digit acc = true ->
  all_str is_hex_digit (radix_go fuel b n acc) = true.
Proof.
  intros Hb. revert n acc. induction fuel as [|f IH]; intros n acc Hn Ha; [done|].
  cbn [radix_go].
  assert (all_str is_hex_digit (String (digit_char (n mod b)) acc) = true).
  { cbn. rewrite Ha, digit_char_hex; [done|]. pose proof (Z.mod_pos_bound n b). lia. }
  destruct (n / b =? 0); [done|]. apply IH; [apply Z.div_pos; lia|done].
Qed.

Lemma fmt_radix_all b n :
  2 <= b <= 16 -> 0 <= n -> all_str is_hex_digit (fmt_radix b n) = true.
Proof. intros. by apply radix_go_all. Qed.

Lemma fmt_hex_zero_all w n : 0 <= n -> all_str is_hex_digit (fmt_hex_zero w n) = true.
Proof.
  intros Hn. unfold fmt_hex_zero.
  rewrite all_str_app, all_str_repeat by done. by apply fmt_radix_all.
Qed.

Lemma fmt_dec_nonneg n : 0 <= n -> fmt_dec n = fmt_radix 10 n.
Proof. intros. unfold fmt_dec. by destruct (Z.ltb_spec n 0); [lia|]. Qed.

Lemma fmt_dec_hex_digits n : 0 <= n -> all_str is_hex_digit (fmt_dec n) = true.
Proof. intros Hn. rewrite fmt_dec_nonneg by done. by apply fmt_radix_all. Qed.

Lemma fmt_dec_inj m n : 0 <= m -> 0 <= n -> fmt_dec m = fmt_dec n -> m = n.
Proof. intros Hm Hn. rewrite !fmt_dec_nonneg by done. apply fmt_radix_inj; lia. Qed.

Lemma parse_u64_fmt_dec n : is_u64 n -> parse_u64 (fmt_dec n) = Some n.
Proof.
  unfold is_u64. intros Hn. rewrite fmt_dec_nonneg by lia.
  apply from_str_radix_fmt; unfold u64_max; lia.
Qed.

(** ** ASCII strings and their characters *)
Lemma concat_chars s : concat_str (chars s) = s.
Proof.
  induction s as [|c s IH]; [done|]. cbn [chars]. destruct (chars s) as [|d cs].
  - cbn in *. by subst s.
  - case_match; cbn [concat_str] in *.
    + change (String c (d +:+ concat_str cs) = String c s). by rewrite IH.
    + change (String c (d +:+ concat_str cs) = String c s). by rewrite IH.
Qed.

Lemma drop_while_none {A} (p : A -> bool) l :
  Forall (fun x => p x = false) l -> drop_while p l = l.
Proof. intros H. destruct H as [|x l Hx H]; [done|]. cbn. by rewrite Hx. Qed.

Lemma trim_none s : Forall (fun c => is_whitespace c = false) (chars s) -> trim s = s.
Proof.
  intros H. unfold trim. rewrite (drop_while_none _ (chars s)) by done.
  rewrite drop_while_none, rev_involutive; [apply concat_chars|].
  rewrite Forall_forall in *. intros x Hx. apply H.
  apply list_elem_of_In, in_rev. by apply list_elem_of_In.
Qed.

Lemma hex_digit_start c : is_hex_digit c = true -> is_char_start c = true.
Proof.
  assert (H : forall c, negb (is_hex_digit c) || is_char_start c = true)
    by (intros [[][][][][][][][]]; vm_compute; reflexivity).
  intros Hc. specialize (H c). by rewrite Hc in H.
Qed.
Lemma hex_digit_not_space c : is_hex_digit c = true -> is_whitespace (String c "") = false.
Proof.
  assert (H : forall c, negb (is_hex_digit c && is_whitespace (String c "")) = true)
    by (intros [[][][][][][][][]]; vm_compute; reflexivity).
  intros Hc. specialize (H c). rewrite Hc in H. by apply negb_true_iff in H.
Qed.

Lemma chars_starts s :
  all_str is_char_start s = true -> Forall (fun d => exists c, d = String c "" /\ c ∈ list_ascii_of_string s) (chars s).
Proof.
  induction s as [|c s IH]; [constructor|]. cbn. rewrite andb_true_iff. intros [Hc Hs].
  specialize (IH Hs).
  assert (Hcs : Forall (fun d => exists c0, d = String c0 "" /\ c0 ∈ c :: list_ascii_of_string s) (chars s)).
  { eapply Forall_impl; [exact IH|]. cbn. intros d (c' & -> & ?). exists c'. split; [done|by right]. }
  destruct (chars s) as [|d cs] eqn:E.
  - constructor; [|constructor]. exists c. split; [done|left].
  - destruct s as [|c' s']; [done|]. cbn in Hs. apply andb_true_iff in Hs as [Hc' _].
    assert (match d with "" => true | String e _ => is_char_start e end = true) as ->.
    { apply Forall_cons_1 in IH as [(e & -> & He) _].
      clear -E Hc' He. cbn [chars] in E. destruct (chars s') as [|d' cs']; [by simplify_eq|].
      destruct (match d' with "" => true | String e _ => is_char_start e end); by simplify_eq. }
    constructor; [|done]. exists c. split; [done|left].
Qed.

Lemma trim_hex s : all_str is_hex_digit s = true -> trim s = s.
Proof.
  intros Hs. apply trim_none.
  assert (Hst : all_str is_char_start s = true) by (eapply all_str_impl; [|done]; apply hex_digit_start).
  eapply Forall_impl; [by apply chars_starts|]. cbn. intros d (c & -> & Hc).
  apply hex_digit_not_space. by eapply all_str_elem.
Qed.

(** ** Splitting *)
Definition no_char (c : ascii) : string -> bool := all_str (fun d => negb (Ascii.eqb d c)).

(** a number holds no character that is not a digit *)
Lemma no_char_hex c s : is_hex_digit c = false -> all_str is_hex_digit s = true -> no_char c s = true.
Proof.
  intros Hc. apply all_str_impl. intros d Hd. apply negb_true_iff.
  destruct (Ascii.eqb_spec d c) as [->|]; [congruence|done].
Qed.

Lemma split_char_none c s : no_char c s = true -> split_char c s = [s].
Proof.
  induction s as [|d s IH]; [done|]. cbn. rewrite andb_true_iff, negb_true_iff.
  intros [-> Hs]. by rewrite IH.
Qed.

Lemma split_char_app c s t :
  no_char c s = true -> split_char c (s +:+ String c t) = s :: split_char c t.
Proof.
  induction s as [|d s IH]; intros Hs.
  - change (split_char c (String c t) = "" :: split_char c t). cbn. by rewrite Ascii.eqb_refl.
  - cbn in Hs. apply andb_true_iff in Hs as [Hd%negb_true_iff Hs].
    change (split_char c (String d (s +:+ String c t)) = String d s :: split_char c t).
    cbn [split_char]. by rewrite Hd, IH.
Qed.

(** [s.split(c)] undoes [l.join(c)] when no part holds the separator *)
Lemma split_char_join c l :
  l <> [] -> forallb (no_char c) l = true -> split_char c (join (String c "") l) = l.
Proof.
  induction l as [|s l IH]; [done|]. intros _ Hl. cbn in Hl. apply andb_true_iff in Hl as [Hs Hl].
  destruct l as [|s' l]; [by apply split_char_none|].
  change (split_char c (s +:+ String c (join (String c "") (s' :: l))) = s :: s' :: l).
  rewrite split_char_app by done. by rewrite IH.
Qed.

Lemma strip_prefix_app p s : strip_prefix p (p +:+ s) = Some s.
Proof.
  unfold strip_prefix.
  assert (String.prefix p (p +:+ s) = true) as ->.
  { induction p as [|c p IH]; [by destruct s|]. change (String.prefix (String c p) (String c (p +:+ s)) = true).
    cbn. by destruct (ascii_dec c c). }
  f_equal. induction p as [|c p IH]; [done|]. exact IH.
Qed.

Lemma split_once_app c p s t :
  no_char c s = true -> split_once (String c p) (s +:+ String c p +:+ t) = Some (s, t).
Proof.
  induction s as [|d s IH]; intros Hs.
  - change (split_once (String c p) (String c p +:+ t) = Some ("", t)).
    pose proof (strip_prefix_app (String c p) t) as E.
    change (String c p +:+ t) with (String c (p +:+ t)) in *. cbn [split_once]. by rewrite E.
  - cbn in Hs. apply andb_true_iff in Hs as [Hd%negb_true_iff Hs].
    change (split_once (String c p) (String d (s +:+ String c p +:+ t)) = Some (String d s, t)).
    cbn [split_once]. unfold strip_prefix. cbn [String.prefix].
    destruct (ascii_dec c d) as [->|Hne]; [by rewrite Ascii.eqb_refl in Hd|].
    rewrite IH by done. done.
Qed.

Lemma all_str_join p sep l :
  all_str p sep = true -> forallb (all_str p) l = true -> all_str p (join sep l) = true.
Proof.
  intros Hsep. induction l as [|s l IH]; [done|]. cbn [forallb]. rewrite andb_true_iff.
  intros [Hs Hl]. destruct l as [|s' l]; [done|].
  change (all_str p (s +:+ sep +:+ join sep (s' :: l)) = true).
  by rewrite !all_str_app, Hs, Hsep, IH.
Qed.

(** ** Lines *)
Lemma strip_suffix_none c s : no_char c s = true -> strip_suffix (String c "") s = None.
Proof.
  induction s as [|d s IH]; [done|]. cbn. rewrite andb_true_iff, negb_true_iff. intros [Hd Hs].
  assert ((if Ascii.eqb d c then String.eqb s "" else false) = false) as -> by by rewrite Hd.
  by rewrite IH.
Qed.

Lemma split_lines_app l s :
  no_char LF l = true -> split_lines (l +:+ String LF s) = (l, true) :: split_lines s.
Proof.
  induction l as [|d l IH]; [done|]. cbn. rewrite andb_true_iff, negb_true_iff. intros [Hd Hl].
  change (split_lines (String d (l +:+ String LF s)) = (String d l, true) :: split_lines s).
  cbn [split_lines]. by rewrite Hd, IH.
Qed.

Definition unlines (ls : list string) : string :=
  concat_str (map (fun l => l +:+ String LF "") ls).

Lemma lines_unlines ls :
  forallb (fun l => no_char LF l && no_char CR l) ls = true -> lines (unlines ls) = ls.
Proof.
  induction ls as [|l ls IH]; [done|]. cbn. rewrite !andb_true_iff. intros [[Hl Hc] Hls].
  unfold lines, unlines in *. cbn [map concat_str]. rewrite string_app_assoc.
  change (String LF "" +:+ ?s) with (String LF s).
  rewrite split_lines_app by done. cbn [map]. rewrite IH by done.
  f_equal. cbn. by rewrite strip_suffix_none.
Qed.

(** ** Searching *)
Lemma strip_prefix_Some p s r : strip_prefix p s = Some r -> s = p +:+ r.
Proof.
  unfold strip_prefix. destruct (String.prefix p s) eqn:E; [|done]. intros [= <-].
  revert s E. induction p as [|c p IH]; intros s E; [done|].
  destruct s as [|d s]; [done|]. cbn [String.prefix] in E.
  destruct (ascii_dec c d) as [->|]; [|done].
  change (String d s = String d (p +:+ drop_str (String.length p) s)). f_equal. by apply IH.
Qed.

Lemma split_once_Some p s a b : split_once p s = Some (a, b) -> s = a +:+ p +:+ b.
Proof.
  revert a b. induction s as [|c s IH]; intros a b; cbn [split_once];
    (destruct (strip_prefix p _) as [r|] eqn:E; [intros [= <- <-]; by apply strip_prefix_Some in E|]); [done|].
  destruct (split_once p s) as [[a' b']|]; [|done]. cbn. intros [= <- <-].
  change (String c s = String c (a' +:+ p +:+ b')). f_equal. by apply IH.
Qed.

Lemma split_once_found p a b : is_Some (split_once p (a +:+ p +:+ b)).
Proof.
  induction a as [|c a IH].
  - change ("" +:+ p +:+ b) with (p +:+ b). pose proof (strip_prefix_app p b) as E.
    destruct (p +:+ b); cbn [split_once]; rewrite E; eauto.
  - change (String c a +:+ p +:+ b) with (String c (a +:+ p +:+ b)). cbn [split_once].
    case_match; [eauto|]. destruct IH as [[? ?] ->]. cbn. eauto.
Qed.

(** [contains] is the substring relation *)
Lemma contains_spec p s : contains p s = true <-> exists a b, s = a +:+ p +:+ b.
Proof.
  unfold contains. rewrite bool_decide_eq_true. split.
  - intros [[a b] E]. apply split_once_Some in E. eauto.
  - intros (a & b & ->). apply split_once_found.
Qed.
