(* ===== verification/RvcTable0.v ===== *)
(** * RvcTable0: entries 0x0000 to 0x1fff of [RVC64_EXPANDED] (tools/rvc.rs)

    Eight definitions of 128 source lines (1024 entries) each, in the order and with the
    grouping of the source; [RvcTable] concatenates them. *)
From S2P Require Import Prelude.

(** parcels 0x0000 to 0x03ff *)
Definition RVC64_EXPANDED_00 : list Z := [
    0x00000000; 0x00000013; 0x00001013; 0x00000000; 0x00000000; 0x00100013; 0x00101013; 0x00000000;
    0x00000000; 0x00200013; 0x00201013; 0x00000000; 0x00000000; 0x00300013; 0x00301013; 0x00000000;
    0x00000000; 0x00400013; 0x00401013; 0x00000000; 0x00000000; 0x00500013; 0x00501013; 0x00000000;
    0x00000000; 0x00600013; 0x00601013; 0x00000000; 0x00000000; 0x00700013; 0x00701013; 0x00000000;
    0x00810413; 0x00800013; 0x00801013; 0x00000000; 0x00810493; 0x00900013; 0x00901013; 0x00000000;
    0x00810513; 0x00a00013; 0x00a01013; 0x00000000; 0x00810593; 0x00b00013; 0x00b01013; 0x00000000;
    0x00810613; 0x00c00013; 0x00c01013; 0x00000000; 0x00810693; 0x00d00013; 0x00d01013; 0x00000000;
    0x00810713; 0x00e00013; 0x00e01013; 0x00000000; 0x00810793; 0x00f00013; 0x00f01013; 0x00000000;
    0x00410413; 0x01000013; 0x01001013; 0x00000000; 0x00410493; 0x01100013; 0x01101013; 0x00000000;
    0x00410513; 0x01200013; 0x01201013; 0x00000000; 0x00410593; 0x01300013; 0x01301013; 0x00000000;
    0x00410613; 0x01400013; 0x01401013; 0x00000000; 0x00410693; 0x01500013; 0x01501013; 0x00000000;
    0x00410713; 0x01600013; 0x01601013; 0x00000000; 0x00410793; 0x01700013; 0x01701013; 0x00000000;
    0x00c10413; 0x01800013; 0x01801013; 0x00000000; 0x00c10493; 0x01900013; 0x01901013; 0x00000000;
    0x00c10513; 0x01a00013; 0x01a01013; 0x00000000; 0x00c10593; 0x01b00013; 0x01b01013; 0x00000000;
    0x00c10613; 0x01c00013; 0x01c01013; 0x00000000; 0x00c10693; 0x01d00013; 0x01d01013; 0x00000000;
    0x00c10713; 0x01e00013; 0x01e01013; 0x00000000; 0x00c10793; 0x01f00013; 0x01f01013; 0x00000000;
    0x04010413; 0x00008093; 0x00009093; 0x00000000; 0x04010493; 0x00108093; 0x00109093; 0x00000000;
    0x04010513; 0x00208093; 0x00209093; 0x00000000; 0x04010593; 0x00308093; 0x00309093; 0x00000000;
    0x04010613; 0x00408093; 0x00409093; 0x00000000; 0x04010693; 0x00508093; 0x00509093; 0x00000000;
    0x04010713; 0x00608093; 0x00609093; 0x00000000; 0x04010793; 0x00708093; 0x00709093; 0x00000000;
    0x04810413; 0x00808093; 0x00809093; 0x00000000; 0x04810493; 0x00908093; 0x00909093; 0x00000000;
    0x04810513; 0x00a08093; 0x00a09093; 0x00000000; 0x04810593; 0x00b08093; 0x00b09093; 0x00000000;
    0x04810613; 0x00c08093; 0x00c09093; 0x00000000; 0x04810693; 0x00d08093; 0x00d09093; 0x00000000;
    0x04810713; 0x00e08093; 0x00e09093; 0x00000000; 0x04810793; 0x00f08093; 0x00f09093; 0x00000000;
    0x04410413; 0x01008093; 0x01009093; 0x00000000; 0x04410493; 0x01108093; 0x01109093; 0x00000000;
    0x04410513; 0x01208093; 0x01209093; 0x00000000; 0x04410593; 0x01308093; 0x01309093; 0x00000000;
    0x04410613; 0x01408093; 0x01409093; 0x00000000; 0x04410693; 0x01508093; 0x01509093; 0x00000000;
    0x04410713; 0x01608093; 0x01609093; 0x00000000; 0x04410793; 0x01708093; 0x01709093; 0x00000000;
    0x04c10413; 0x01808093; 0x01809093; 0x00000000; 0x04c10493; 0x01908093; 0x01909093; 0x00000000;
    0x04c10513; 0x01a08093; 0x01a09093; 0x00000000; 0x04c10593; 0x01b08093; 0x01b09093; 0x00000000;
    0x04c10613; 0x01c08093; 0x01c09093; 0x00000000; 0x04c10693; 0x01d08093; 0x01d09093; 0x00000000;
    0x04c10713; 0x01e08093; 0x01e09093; 0x00000000; 0x04c10793; 0x01f08093; 0x01f09093; 0x00000000;
    0x08010413; 0x00010113; 0x00011113; 0x00000000; 0x08010493; 0x00110113; 0x00111113; 0x00000000;
    0x08010513; 0x00210113; 0x00211113; 0x00000000; 0x08010593; 0x00310113; 0x00311113; 0x00000000;
    0x08010613; 0x00410113; 0x00411113; 0x00000000; 0x08010693; 0x00510113; 0x00511113; 0x00000000;
    0x08010713; 0x00610113; 0x00611113; 0x00000000; 0x08010793; 0x00710113; 0x00711113; 0x00000000;
    0x08810413; 0x00810113; 0x00811113; 0x00000000; 0x08810493; 0x00910113; 0x00911113; 0x00000000;
    0x08810513; 0x00a10113; 0x00a11113; 0x00000000; 0x08810593; 0x00b10113; 0x00b11113; 0x00000000;
    0x08810613; 0x00c10113; 0x00c11113; 0x00000000; 0x08810693; 0x00d10113; 0x00d11113; 0x00000000;
    0x08810713; 0x00e10113; 0x00e11113; 0x00000000; 0x08810793; 0x00f10113; 0x00f11113; 0x00000000;
    0x08410413; 0x01010113; 0x01011113; 0x00000000; 0x08410493; 0x01110113; 0x01111113; 0x00000000;
    0x08410513; 0x01210113; 0x01211113; 0x00000000; 0x08410593; 0x01310113; 0x01311113; 0x00000000;
    0x08410613; 0x01410113; 0x01411113; 0x00000000; 0x08410693; 0x01510113; 0x01511113; 0x00000000;
    0x08410713; 0x01610113; 0x01611113; 0x00000000; 0x08410793; 0x01710113; 0x01711113; 0x00000000;
    0x08c10413; 0x01810113; 0x01811113; 0x00000000; 0x08c10493; 0x01910113; 0x01911113; 0x00000000;
    0x08c10513; 0x01a10113; 0x01a11113; 0x00000000; 0x08c10593; 0x01b10113; 0x01b11113; 0x00000000;
    0x08c10613; 0x01c10113; 0x01c11113; 0x00000000; 0x08c10693; 0x01d10113; 0x01d11113; 0x00000000;
    0x08c10713; 0x01e10113; 0x01e11113; 0x00000000; 0x08c10793; 0x01f10113; 0x01f11113; 0x00000000;
    0x0c010413; 0x00018193; 0x00019193; 0x00000000; 0x0c010493; 0x00118193; 0x00119193; 0x00000000;
    0x0c010513; 0x00218193; 0x00219193; 0x00000000; 0x0c010593; 0x00318193; 0x00319193; 0x00000000;
    0x0c010613; 0x00418193; 0x00419193; 0x00000000; 0x0c010693; 0x00518193; 0x00519193; 0x00000000;
    0x0c010713; 0x00618193; 0x00619193; 0x00000000; 0x0c010793; 0x00718193; 0x00719193; 0x00000000;
    0x0c810413; 0x00818193; 0x00819193; 0x00000000; 0x0c810493; 0x00918193; 0x00919193; 0x00000000;
    0x0c810513; 0x00a18193; 0x00a19193; 0x00000000; 0x0c810593; 0x00b18193; 0x00b19193; 0x00000000;
    0x0c810613; 0x00c18193; 0x00c19193; 0x00000000; 0x0c810693; 0x00d18193; 0x00d19193; 0x00000000;
    0x0c810713; 0x00e18193; 0x00e19193; 0x00000000; 0x0c810793; 0x00f18193; 0x00f19193; 0x00000000;
    0x0c410413; 0x01018193; 0x01019193; 0x00000000; 0x0c410493; 0x01118193; 0x01119193; 0x00000000;
    0x0c410513; 0x01218193; 0x01219193; 0x00000000; 0x0c410593; 0x01318193; 0x01319193; 0x00000000;
    0x0c410613; 0x01418193; 0x01419193; 0x00000000; 0x0c410693; 0x01518193; 0x01519193; 0x00000000;
    0x0c410713; 0x01618193; 0x01619193; 0x00000000; 0x0c410793; 0x01718193; 0x01719193; 0x00000000;
    0x0cc10413; 0x01818193; 0x01819193; 0x00000000; 0x0cc10493; 0x01918193; 0x01919193; 0x00000000;
    0x0cc10513; 0x01a18193; 0x01a19193; 0x00000000; 0x0cc10593; 0x01b18193; 0x01b19193; 0x00000000;
    0x0cc10613; 0x01c18193; 0x01c19193; 0x00000000; 0x0cc10693; 0x01d18193; 0x01d19193; 0x00000000;
    0x0cc10713; 0x01e18193; 0x01e19193; 0x00000000; 0x0cc10793; 0x01f18193; 0x01f19193; 0x00000000;
    0x10010413; 0x00020213; 0x00021213; 0x00000000; 0x10010493; 0x00120213; 0x00121213; 0x00000000;
    0x10010513; 0x00220213; 0x00221213; 0x00000000; 0x10010593; 0x00320213; 0x00321213; 0x00000000;
    0x10010613; 0x00420213; 0x00421213; 0x00000000; 0x10010693; 0x00520213; 0x00521213; 0x00000000;
    0x10010713; 0x00620213; 0x00621213; 0x00000000; 0x10010793; 0x00720213; 0x00721213; 0x00000000;
    0x10810413; 0x00820213; 0x00821213; 0x00000000; 0x10810493; 0x00920213; 0x00921213; 0x00000000;
    0x10810513; 0x00a20213; 0x00a21213; 0x00000000; 0x10810593; 0x00b20213; 0x00b21213; 0x00000000;
    0x10810613; 0x00c20213; 0x00c21213; 0x00000000; 0x10810693; 0x00d20213; 0x00d21213; 0x00000000;
    0x10810713; 0x00e20213; 0x00e21213; 0x00000000; 0x10810793; 0x00f20213; 0x00f21213; 0x00000000;
    0x10410413; 0x01020213; 0x01021213; 0x00000000; 0x10410493; 0x01120213; 0x01121213; 0x00000000;
    0x10410513; 0x01220213; 0x01221213; 0x00000000; 0x10410593; 0x01320213; 0x01321213; 0x00000000;
    0x10410613; 0x01420213; 0x01421213; 0x00000000; 0x10410693; 0x01520213; 0x01521213; 0x00000000;
    0x10410713; 0x01620213; 0x01621213; 0x00000000; 0x10410793; 0x01720213; 0x01721213; 0x00000000;
    0x10c10413; 0x01820213; 0x01821213; 0x00000000; 0x10c10493; 0x01920213; 0x01921213; 0x00000000;
    0x10c10513; 0x01a20213; 0x01a21213; 0x00000000; 0x10c10593; 0x01b20213; 0x01b21213; 0x00000000;
    0x10c10613; 0x01c20213; 0x01c21213; 0x00000000; 0x10c10693; 0x01d20213; 0x01d21213; 0x00000000;
    0x10c10713; 0x01e20213; 0x01e21213; 0x00000000; 0x10c10793; 0x01f20213; 0x01f21213; 0x00000000;
    0x14010413; 0x00028293; 0x00029293; 0x00000000; 0x14010493; 0x00128293; 0x00129293; 0x00000000;
    0x14010513; 0x00228293; 0x00229293; 0x00000000; 0x14010593; 0x00328293; 0x00329293; 0x00000000;
    0x14010613; 0x00428293; 0x00429293; 0x00000000; 0x14010693; 0x00528293; 0x00529293; 0x00000000;
    0x14010713; 0x00628293; 0x00629293; 0x00000000; 0x14010793; 0x00728293; 0x00729293; 0x00000000;
    0x14810413; 0x00828293; 0x00829293; 0x00000000; 0x14810493; 0x00928293; 0x00929293; 0x00000000;
    0x14810513; 0x00a28293; 0x00a29293; 0x00000000; 0x14810593; 0x00b28293; 0x00b29293; 0x00000000;
    0x14810613; 0x00c28293; 0x00c29293; 0x00000000; 0x14810693; 0x00d28293; 0x00d29293; 0x00000000;
    0x14810713; 0x00e28293; 0x00e29293; 0x00000000; 0x14810793; 0x00f28293; 0x00f29293; 0x00000000;
    0x14410413; 0x01028293; 0x01029293; 0x00000000; 0x14410493; 0x01128293; 0x01129293; 0x00000000;
    0x14410513; 0x01228293; 0x01229293; 0x00000000; 0x14410593; 0x01328293; 0x01329293; 0x00000000;
    0x14410613; 0x01428293; 0x01429293; 0x00000000; 0x14410693; 0x01528293; 0x01529293; 0x00000000;
    0x14410713; 0x01628293; 0x01629293; 0x00000000; 0x14410793; 0x01728293; 0x01729293; 0x00000000;
    0x14c10413; 0x01828293; 0x01829293; 0x00000000; 0x14c10493; 0x01928293; 0x01929293; 0x00000000;
    0x14c10513; 0x01a28293; 0x01a29293; 0x00000000; 0x14c10593; 0x01b28293; 0x01b29293; 0x00000000;
    0x14c10613; 0x01c28293; 0x01c29293; 0x00000000; 0x14c10693; 0x01d28293; 0x01d29293; 0x00000000;
    0x14c10713; 0x01e28293; 0x01e29293; 0x00000000; 0x14c10793; 0x01f28293; 0x01f29293; 0x00000000;
    0x18010413; 0x00030313; 0x00031313; 0x00000000; 0x18010493; 0x00130313; 0x00131313; 0x00000000;
    0x18010513; 0x00230313; 0x00231313; 0x00000000; 0x18010593; 0x00330313; 0x00331313; 0x00000000;
    0x18010613; 0x00430313; 0x00431313; 0x00000000; 0x18010693; 0x00530313; 0x00531313; 0x00000000;
    0x18010713; 0x00630313; 0x00631313; 0x00000000; 0x18010793; 0x00730313; 0x00731313; 0x00000000;
    0x18810413; 0x00830313; 0x00831313; 0x00000000; 0x18810493; 0x00930313; 0x00931313; 0x00000000;
    0x18810513; 0x00a30313; 0x00a31313; 0x00000000; 0x18810593; 0x00b30313; 0x00b31313; 0x00000000;
    0x18810613; 0x00c30313; 0x00c31313; 0x00000000; 0x18810693; 0x00d30313; 0x00d31313; 0x00000000;
    0x18810713; 0x00e30313; 0x00e31313; 0x00000000; 0x18810793; 0x00f30313; 0x00f31313; 0x00000000;
    0x18410413; 0x01030313; 0x01031313; 0x00000000; 0x18410493; 0x01130313; 0x01131313; 0x00000000;
    0x18410513; 0x01230313; 0x01231313; 0x00000000; 0x18410593; 0x01330313; 0x01331313; 0x00000000;
    0x18410613; 0x01430313; 0x01431313; 0x00000000; 0x18410693; 0x01530313; 0x01531313; 0x00000000;
    0x18410713; 0x01630313; 0x01631313; 0x00000000; 0x18410793; 0x01730313; 0x01731313; 0x00000000;
    0x18c10413; 0x01830313; 0x01831313; 0x00000000; 0x18c10493; 0x01930313; 0x01931313; 0x00000000;
    0x18c10513; 0x01a30313; 0x01a31313; 0x00000000; 0x18c10593; 0x01b30313; 0x01b31313; 0x00000000;
    0x18c10613; 0x01c30313; 0x01c31313; 0x00000000; 0x18c10693; 0x01d30313; 0x01d31313; 0x00000000;
    0x18c10713; 0x01e30313; 0x01e31313; 0x00000000; 0x18c10793; 0x01f30313; 0x01f31313; 0x00000000;
    0x1c010413; 0x00038393; 0x00039393; 0x00000000; 0x1c010493; 0x00138393; 0x00139393; 0x00000000;
    0x1c010513; 0x00238393; 0x00239393; 0x00000000; 0x1c010593; 0x00338393; 0x00339393; 0x00000000;
    0x1c010613; 0x00438393; 0x00439393; 0x00000000; 0x1c010693; 0x00538393; 0x00539393; 0x00000000;
    0x1c010713; 0x00638393; 0x00639393; 0x00000000; 0x1c010793; 0x00738393; 0x00739393; 0x00000000;
    0x1c810413; 0x00838393; 0x00839393; 0x00000000; 0x1c810493; 0x00938393; 0x00939393; 0x00000000;
    0x1c810513; 0x00a38393; 0x00a39393; 0x00000000; 0x1c810593; 0x00b38393; 0x00b39393; 0x00000000;
    0x1c810613; 0x00c38393; 0x00c39393; 0x00000000; 0x1c810693; 0x00d38393; 0x00d39393; 0x00000000;
    0x1c810713; 0x00e38393; 0x00e39393; 0x00000000; 0x1c810793; 0x00f38393; 0x00f39393; 0x00000000;
    0x1c410413; 0x01038393; 0x01039393; 0x00000000; 0x1c410493; 0x01138393; 0x01139393; 0x00000000;
    0x1c410513; 0x01238393; 0x01239393; 0x00000000; 0x1c410593; 0x01338393; 0x01339393; 0x00000000;
    0x1c410613; 0x01438393; 0x01439393; 0x00000000; 0x1c410693; 0x01538393; 0x01539393; 0x00000000;
    0x1c410713; 0x01638393; 0x01639393; 0x00000000; 0x1c410793; 0x01738393; 0x01739393; 0x00000000;
    0x1cc10413; 0x01838393; 0x01839393; 0x00000000; 0x1cc10493; 0x01938393; 0x01939393; 0x00000000;
    0x1cc10513; 0x01a38393; 0x01a39393; 0x00000000; 0x1cc10593; 0x01b38393; 0x01b39393; 0x00000000;
    0x1cc10613; 0x01c38393; 0x01c39393; 0x00000000; 0x1cc10693; 0x01d38393; 0x01d39393; 0x00000000;
    0x1cc10713; 0x01e38393; 0x01e39393; 0x00000000; 0x1cc10793; 0x01f38393; 0x01f39393; 0x00000000
].

(** parcels 0x0400 to 0x07ff *)
Definition RVC64_EXPANDED_01 : list Z := [
    0x20010413; 0x00040413; 0x00041413; 0x00000000; 0x20010493; 0x00140413; 0x00141413; 0x00000000;
    0x20010513; 0x00240413; 0x00241413; 0x00000000; 0x20010593; 0x00340413; 0x00341413; 0x00000000;
    0x20010613; 0x00440413; 0x00441413; 0x00000000; 0x20010693; 0x00540413; 0x00541413; 0x00000000;
    0x20010713; 0x00640413; 0x00641413; 0x00000000; 0x20010793; 0x00740413; 0x00741413; 0x00000000;
    0x20810413; 0x00840413; 0x00841413; 0x00000000; 0x20810493; 0x00940413; 0x00941413; 0x00000000;
    0x20810513; 0x00a40413; 0x00a41413; 0x00000000; 0x20810593; 0x00b40413; 0x00b41413; 0x00000000;
    0x20810613; 0x00c40413; 0x00c41413; 0x00000000; 0x20810693; 0x00d40413; 0x00d41413; 0x00000000;
    0x20810713; 0x00e40413; 0x00e41413; 0x00000000; 0x20810793; 0x00f40413; 0x00f41413; 0x00000000;
    0x20410413; 0x01040413; 0x01041413; 0x00000000; 0x20410493; 0x01140413; 0x01141413; 0x00000000;
    0x20410513; 0x01240413; 0x01241413; 0x00000000; 0x20410593; 0x01340413; 0x01341413; 0x00000000;
    0x20410613; 0x01440413; 0x01441413; 0x00000000; 0x20410693; 0x01540413; 0x01541413; 0x00000000;
    0x20410713; 0x01640413; 0x01641413; 0x00000000; 0x20410793; 0x01740413; 0x01741413; 0x00000000;
    0x20c10413; 0x01840413; 0x01841413; 0x00000000; 0x20c10493; 0x01940413; 0x01941413; 0x00000000;
    0x20c10513; 0x01a40413; 0x01a41413; 0x00000000; 0x20c10593; 0x01b40413; 0x01b41413; 0x00000000;
    0x20c10613; 0x01c40413; 0x01c41413; 0x00000000; 0x20c10693; 0x01d40413; 0x01d41413; 0x00000000;
    0x20c10713; 0x01e40413; 0x01e41413; 0x00000000; 0x20c10793; 0x01f40413; 0x01f41413; 0x00000000;
    0x24010413; 0x00048493; 0x00049493; 0x00000000; 0x24010493; 0x00148493; 0x00149493; 0x00000000;
    0x24010513; 0x00248493; 0x00249493; 0x00000000; 0x24010593; 0x00348493; 0x00349493; 0x00000000;
    0x24010613; 0x00448493; 0x00449493; 0x00000000; 0x24010693; 0x00548493; 0x00549493; 0x00000000;
    0x24010713; 0x00648493; 0x00649493; 0x00000000; 0x24010793; 0x00748493; 0x00749493; 0x00000000;
    0x24810413; 0x00848493; 0x00849493; 0x00000000; 0x24810493; 0x00948493; 0x00949493; 0x00000000;
    0x24810513; 0x00a48493; 0x00a49493; 0x00000000; 0x24810593; 0x00b48493; 0x00b49493; 0x00000000;
    0x24810613; 0x00c48493; 0x00c49493; 0x00000000; 0x24810693; 0x00d48493; 0x00d49493; 0x00000000;
    0x24810713; 0x00e48493; 0x00e49493; 0x00000000; 0x24810793; 0x00f48493; 0x00f49493; 0x00000000;
    0x24410413; 0x01048493; 0x01049493; 0x00000000; 0x24410493; 0x01148493; 0x01149493; 0x00000000;
    0x24410513; 0x01248493; 0x01249493; 0x00000000; 0x24410593; 0x01348493; 0x01349493; 0x00000000;
    0x24410613; 0x01448493; 0x01449493; 0x00000000; 0x24410693; 0x01548493; 0x01549493; 0x00000000;
    0x24410713; 0x01648493; 0x01649493; 0x00000000; 0x24410793; 0x01748493; 0x01749493; 0x00000000;
    0x24c10413; 0x01848493; 0x01849493; 0x00000000; 0x24c10493; 0x01948493; 0x01949493; 0x00000000;
    0x24c10513; 0x01a48493; 0x01a49493; 0x00000000; 0x24c10593; 0x01b48493; 0x01b49493; 0x00000000;
    0x24c10613; 0x01c48493; 0x01c49493; 0x00000000; 0x24c10693; 0x01d48493; 0x01d49493; 0x00000000;
    0x24c10713; 0x01e48493; 0x01e49493; 0x00000000; 0x24c10793; 0x01f48493; 0x01f49493; 0x00000000;
    0x28010413; 0x00050513; 0x00051513; 0x00000000; 0x28010493; 0x00150513; 0x00151513; 0x00000000;
    0x28010513; 0x00250513; 0x00251513; 0x00000000; 0x28010593; 0x00350513; 0x00351513; 0x00000000;
    0x28010613; 0x00450513; 0x00451513; 0x00000000; 0x28010693; 0x00550513; 0x00551513; 0x00000000;
    0x28010713; 0x00650513; 0x00651513; 0x00000000; 0x28010793; 0x00750513; 0x00751513; 0x00000000;
    0x28810413; 0x00850513; 0x00851513; 0x00000000; 0x28810493; 0x00950513; 0x00951513; 0x00000000;
    0x28810513; 0x00a50513; 0x00a51513; 0x00000000; 0x28810593; 0x00b50513; 0x00b51513; 0x00000000;
    0x28810613; 0x00c50513; 0x00c51513; 0x00000000; 0x28810693; 0x00d50513; 0x00d51513; 0x00000000;
    0x28810713; 0x00e50513; 0x00e51513; 0x00000000; 0x28810793; 0x00f50513; 0x00f51513; 0x00000000;
    0x28410413; 0x01050513; 0x01051513; 0x00000000; 0x28410493; 0x01150513; 0x01151513; 0x00000000;
    0x28410513; 0x01250513; 0x01251513; 0x00000000; 0x28410593; 0x01350513; 0x01351513; 0x00000000;
    0x28410613; 0x01450513; 0x01451513; 0x00000000; 0x28410693; 0x01550513; 0x01551513; 0x00000000;
    0x28410713; 0x01650513; 0x01651513; 0x00000000; 0x28410793; 0x01750513; 0x01751513; 0x00000000;
    0x28c10413; 0x01850513; 0x01851513; 0x00000000; 0x28c10493; 0x01950513; 0x01951513; 0x00000000;
    0x28c10513; 0x01a50513; 0x01a51513; 0x00000000; 0x28c10593; 0x01b50513; 0x01b51513; 0x00000000;
    0x28c10613; 0x01c50513; 0x01c51513; 0x00000000; 0x28c10693; 0x01d50513; 0x01d51513; 0x00000000;
    0x28c10713; 0x01e50513; 0x01e51513; 0x00000000; 0x28c10793; 0x01f50513; 0x01f51513; 0x00000000;
    0x2c010413; 0x00058593; 0x00059593; 0x00000000; 0x2c010493; 0x00158593; 0x00159593; 0x00000000;
    0x2c010513; 0x00258593; 0x00259593; 0x00000000; 0x2c010593; 0x00358593; 0x00359593; 0x00000000;
    0x2c010613; 0x00458593; 0x00459593; 0x00000000; 0x2c010693; 0x00558593; 0x00559593; 0x00000000;
    0x2c010713; 0x00658593; 0x00659593; 0x00000000; 0x2c010793; 0x00758593; 0x00759593; 0x00000000;
    0x2c810413; 0x00858593; 0x00859593; 0x00000000; 0x2c810493; 0x00958593; 0x00959593; 0x00000000;
    0x2c810513; 0x00a58593; 0x00a59593; 0x00000000; 0x2c810593; 0x00b58593; 0x00b59593; 0x00000000;
    0x2c810613; 0x00c58593; 0x00c59593; 0x00000000; 0x2c810693; 0x00d58593; 0x00d59593; 0x00000000;
    0x2c810713; 0x00e58593; 0x00e59593; 0x00000000; 0x2c810793; 0x00f58593; 0x00f59593; 0x00000000;
    0x2c410413; 0x01058593; 0x01059593; 0x00000000; 0x2c410493; 0x01158593; 0x01159593; 0x00000000;
    0x2c410513; 0x01258593; 0x01259593; 0x00000000; 0x2c410593; 0x01358593; 0x01359593; 0x00000000;
    0x2c410613; 0x01458593; 0x01459593; 0x00000000; 0x2c410693; 0x01558593; 0x01559593; 0x00000000;
    0x2c410713; 0x01658593; 0x01659593; 0x00000000; 0x2c410793; 0x01758593; 0x01759593; 0x00000000;
    0x2cc10413; 0x01858593; 0x01859593; 0x00000000; 0x2cc10493; 0x01958593; 0x01959593; 0x00000000;
    0x2cc10513; 0x01a58593; 0x01a59593; 0x00000000; 0x2cc10593; 0x01b58593; 0x01b59593; 0x00000000;
    0x2cc10613; 0x01c58593; 0x01c59593; 0x00000000; 0x2cc10693; 0x01d58593; 0x01d59593; 0x00000000;
    0x2cc10713; 0x01e58593; 0x01e59593; 0x00000000; 0x2cc10793; 0x01f58593; 0x01f59593; 0x00000000;
    0x30010413; 0x00060613; 0x00061613; 0x00000000; 0x30010493; 0x00160613; 0x00161613; 0x00000000;
    0x30010513; 0x00260613; 0x00261613; 0x00000000; 0x30010593; 0x00360613; 0x00361613; 0x00000000;
    0x30010613; 0x00460613; 0x00461613; 0x00000000; 0x30010693; 0x00560613; 0x00561613; 0x00000000;
    0x30010713; 0x00660613; 0x00661613; 0x00000000; 0x30010793; 0x00760613; 0x00761613; 0x00000000;
    0x30810413; 0x00860613; 0x00861613; 0x00000000; 0x30810493; 0x00960613; 0x00961613; 0x00000000;
    0x30810513; 0x00a60613; 0x00a61613; 0x00000000; 0x30810593; 0x00b60613; 0x00b61613; 0x00000000;
    0x30810613; 0x00c60613; 0x00c61613; 0x00000000; 0x30810693; 0x00d60613; 0x00d61613; 0x00000000;
    0x30810713; 0x00e60613; 0x00e61613; 0x00000000; 0x30810793; 0x00f60613; 0x00f61613; 0x00000000;
    0x30410413; 0x01060613; 0x01061613; 0x00000000; 0x30410493; 0x01160613; 0x01161613; 0x00000000;
    0x30410513; 0x01260613; 0x01261613; 0x00000000; 0x30410593; 0x01360613; 0x01361613; 0x00000000;
    0x30410613; 0x01460613; 0x01461613; 0x00000000; 0x30410693; 0x01560613; 0x01561613; 0x00000000;
    0x30410713; 0x01660613; 0x01661613; 0x00000000; 0x30410793; 0x01760613; 0x01761613; 0x00000000;
    0x30c10413; 0x01860613; 0x01861613; 0x00000000; 0x30c10493; 0x01960613; 0x01961613; 0x00000000;
    0x30c10513; 0x01a60613; 0x01a61613; 0x00000000; 0x30c10593; 0x01b60613; 0x01b61613; 0x00000000;
    0x30c10613; 0x01c60613; 0x01c61613; 0x00000000; 0x30c10693; 0x01d60613; 0x01d61613; 0x00000000;
    0x30c10713; 0x01e60613; 0x01e61613; 0x00000000; 0x30c10793; 0x01f60613; 0x01f61613; 0x00000000;
    0x34010413; 0x00068693; 0x00069693; 0x00000000; 0x34010493; 0x00168693; 0x00169693; 0x00000000;
    0x34010513; 0x00268693; 0x00269693; 0x00000000; 0x34010593; 0x00368693; 0x00369693; 0x00000000;
    0x34010613; 0x00468693; 0x00469693; 0x00000000; 0x34010693; 0x00568693; 0x00569693; 0x00000000;
    0x34010713; 0x00668693; 0x00669693; 0x00000000; 0x34010793; 0x00768693; 0x00769693; 0x00000000;
    0x34810413; 0x00868693; 0x00869693; 0x00000000; 0x34810493; 0x00968693; 0x00969693; 0x00000000;
    0x34810513; 0x00a68693; 0x00a69693; 0x00000000; 0x34810593; 0x00b68693; 0x00b69693; 0x00000000;
    0x34810613; 0x00c68693; 0x00c69693; 0x00000000; 0x34810693; 0x00d68693; 0x00d69693; 0x00000000;
    0x34810713; 0x00e68693; 0x00e69693; 0x00000000; 0x34810793; 0x00f68693; 0x00f69693; 0x00000000;
    0x34410413; 0x01068693; 0x01069693; 0x00000000; 0x34410493; 0x01168693; 0x01169693; 0x00000000;
    0x34410513; 0x01268693; 0x01269693; 0x00000000; 0x34410593; 0x01368693; 0x01369693; 0x00000000;
    0x34410613; 0x01468693; 0x01469693; 0x00000000; 0x34410693; 0x01568693; 0x01569693; 0x00000000;
    0x34410713; 0x01668693; 0x01669693; 0x00000000; 0x34410793; 0x01768693; 0x01769693; 0x00000000;
    0x34c10413; 0x01868693; 0x01869693; 0x00000000; 0x34c10493; 0x01968693; 0x01969693; 0x00000000;
    0x34c10513; 0x01a68693; 0x01a69693; 0x00000000; 0x34c10593; 0x01b68693; 0x01b69693; 0x00000000;
    0x34c10613; 0x01c68693; 0x01c69693; 0x00000000; 0x34c10693; 0x01d68693; 0x01d69693; 0x00000000;
    0x34c10713; 0x01e68693; 0x01e69693; 0x00000000; 0x34c10793; 0x01f68693; 0x01f69693; 0x00000000;
    0x38010413; 0x00070713; 0x00071713; 0x00000000; 0x38010493; 0x00170713; 0x00171713; 0x00000000;
    0x38010513; 0x00270713; 0x00271713; 0x00000000; 0x38010593; 0x00370713; 0x00371713; 0x00000000;
    0x38010613; 0x00470713; 0x00471713; 0x00000000; 0x38010693; 0x00570713; 0x00571713; 0x00000000;
    0x38010713; 0x00670713; 0x00671713; 0x00000000; 0x38010793; 0x00770713; 0x00771713; 0x00000000;
    0x38810413; 0x00870713; 0x00871713; 0x00000000; 0x38810493; 0x00970713; 0x00971713; 0x00000000;
    0x38810513; 0x00a70713; 0x00a71713; 0x00000000; 0x38810593; 0x00b70713; 0x00b71713; 0x00000000;
    0x38810613; 0x00c70713; 0x00c71713; 0x00000000; 0x38810693; 0x00d70713; 0x00d71713; 0x00000000;
    0x38810713; 0x00e70713; 0x00e71713; 0x00000000; 0x38810793; 0x00f70713; 0x00f71713; 0x00000000;
    0x38410413; 0x01070713; 0x01071713; 0x00000000; 0x38410493; 0x01170713; 0x01171713; 0x00000000;
    0x38410513; 0x01270713; 0x01271713; 0x00000000; 0x38410593; 0x01370713; 0x01371713; 0x00000000;
    0x38410613; 0x01470713; 0x01471713; 0x00000000; 0x38410693; 0x01570713; 0x01571713; 0x00000000;
    0x38410713; 0x01670713; 0x01671713; 0x00000000; 0x38410793; 0x01770713; 0x01771713; 0x00000000;
    0x38c10413; 0x01870713; 0x01871713; 0x00000000; 0x38c10493; 0x01970713; 0x01971713; 0x00000000;
    0x38c10513; 0x01a70713; 0x01a71713; 0x00000000; 0x38c10593; 0x01b70713; 0x01b71713; 0x00000000;
    0x38c10613; 0x01c70713; 0x01c71713; 0x00000000; 0x38c10693; 0x01d70713; 0x01d71713; 0x00000000;
    0x38c10713; 0x01e70713; 0x01e71713; 0x00000000; 0x38c10793; 0x01f70713; 0x01f71713; 0x00000000;
    0x3c010413; 0x00078793; 0x00079793; 0x00000000; 0x3c010493; 0x00178793; 0x00179793; 0x00000000;
    0x3c010513; 0x00278793; 0x00279793; 0x00000000; 0x3c010593; 0x00378793; 0x00379793; 0x00000000;
    0x3c010613; 0x00478793; 0x00479793; 0x00000000; 0x3c010693; 0x00578793; 0x00579793; 0x00000000;
    0x3c010713; 0x00678793; 0x00679793; 0x00000000; 0x3c010793; 0x00778793; 0x00779793; 0x00000000;
    0x3c810413; 0x00878793; 0x00879793; 0x00000000; 0x3c810493; 0x00978793; 0x00979793; 0x00000000;
    0x3c810513; 0x00a78793; 0x00a79793; 0x00000000; 0x3c810593; 0x00b78793; 0x00b79793; 0x00000000;
    0x3c810613; 0x00c78793; 0x00c79793; 0x00000000; 0x3c810693; 0x00d78793; 0x00d79793; 0x00000000;
    0x3c810713; 0x00e78793; 0x00e79793; 0x00000000; 0x3c810793; 0x00f78793; 0x00f79793; 0x00000000;
    0x3c410413; 0x01078793; 0x01079793; 0x00000000; 0x3c410493; 0x01178793; 0x01179793; 0x00000000;
    0x3c410513; 0x01278793; 0x01279793; 0x00000000; 0x3c410593; 0x01378793; 0x01379793; 0x00000000;
    0x3c410613; 0x01478793; 0x01479793; 0x00000000; 0x3c410693; 0x01578793; 0x01579793; 0x00000000;
    0x3c410713; 0x01678793; 0x01679793; 0x00000000; 0x3c410793; 0x01778793; 0x01779793; 0x00000000;
    0x3cc10413; 0x01878793; 0x01879793; 0x00000000; 0x3cc10493; 0x01978793; 0x01979793; 0x00000000;
    0x3cc10513; 0x01a78793; 0x01a79793; 0x00000000; 0x3cc10593; 0x01b78793; 0x01b79793; 0x00000000;
    0x3cc10613; 0x01c78793; 0x01c79793; 0x00000000; 0x3cc10693; 0x01d78793; 0x01d79793; 0x00000000;
    0x3cc10713; 0x01e78793; 0x01e79793; 0x00000000; 0x3cc10793; 0x01f78793; 0x01f79793; 0x00000000
].

(** parcels 0x0800 to 0x0bff *)
Definition RVC64_EXPANDED_02 : list Z := [
    0x01010413; 0x00080813; 0x00081813; 0x00000000; 0x01010493; 0x00180813; 0x00181813; 0x00000000;
    0x01010513; 0x00280813; 0x00281813; 0x00000000; 0x01010593; 0x00380813; 0x00381813; 0x00000000;
    0x01010613; 0x00480813; 0x00481813; 0x00000000; 0x01010693; 0x00580813; 0x00581813; 0x00000000;
    0x01010713; 0x00680813; 0x00681813; 0x00000000; 0x01010793; 0x00780813; 0x00781813; 0x00000000;
    0x01810413; 0x00880813; 0x00881813; 0x00000000; 0x01810493; 0x00980813; 0x00981813; 0x00000000;
    0x01810513; 0x00a80813; 0x00a81813; 0x00000000; 0x01810593; 0x00b80813; 0x00b81813; 0x00000000;
    0x01810613; 0x00c80813; 0x00c81813; 0x00000000; 0x01810693; 0x00d80813; 0x00d81813; 0x00000000;
    0x01810713; 0x00e80813; 0x00e81813; 0x00000000; 0x01810793; 0x00f80813; 0x00f81813; 0x00000000;
    0x01410413; 0x01080813; 0x01081813; 0x00000000; 0x01410493; 0x01180813; 0x01181813; 0x00000000;
    0x01410513; 0x01280813; 0x01281813; 0x00000000; 0x01410593; 0x01380813; 0x01381813; 0x00000000;
    0x01410613; 0x01480813; 0x01481813; 0x00000000; 0x01410693; 0x01580813; 0x01581813; 0x00000000;
    0x01410713; 0x01680813; 0x01681813; 0x00000000; 0x01410793; 0x01780813; 0x01781813; 0x00000000;
    0x01c10413; 0x01880813; 0x01881813; 0x00000000; 0x01c10493; 0x01980813; 0x01981813; 0x00000000;
    0x01c10513; 0x01a80813; 0x01a81813; 0x00000000; 0x01c10593; 0x01b80813; 0x01b81813; 0x00000000;
    0x01c10613; 0x01c80813; 0x01c81813; 0x00000000; 0x01c10693; 0x01d80813; 0x01d81813; 0x00000000;
    0x01c10713; 0x01e80813; 0x01e81813; 0x00000000; 0x01c10793; 0x01f80813; 0x01f81813; 0x00000000;
    0x05010413; 0x00088893; 0x00089893; 0x00000000; 0x05010493; 0x00188893; 0x00189893; 0x00000000;
    0x05010513; 0x00288893; 0x00289893; 0x00000000; 0x05010593; 0x00388893; 0x00389893; 0x00000000;
    0x05010613; 0x00488893; 0x00489893; 0x00000000; 0x05010693; 0x00588893; 0x00589893; 0x00000000;
    0x05010713; 0x00688893; 0x00689893; 0x00000000; 0x05010793; 0x00788893; 0x00789893; 0x00000000;
    0x05810413; 0x00888893; 0x00889893; 0x00000000; 0x05810493; 0x00988893; 0x00989893; 0x00000000;
    0x05810513; 0x00a88893; 0x00a89893; 0x00000000; 0x05810593; 0x00b88893; 0x00b89893; 0x00000000;
    0x05810613; 0x00c88893; 0x00c89893; 0x00000000; 0x05810693; 0x00d88893; 0x00d89893; 0x00000000;
    0x05810713; 0x00e88893; 0x00e89893; 0x00000000; 0x05810793; 0x00f88893; 0x00f89893; 0x00000000;
    0x05410413; 0x01088893; 0x01089893; 0x00000000; 0x05410493; 0x01188893; 0x01189893; 0x00000000;
    0x05410513; 0x01288893; 0x01289893; 0x00000000; 0x05410593; 0x01388893; 0x01389893; 0x00000000;
    0x05410613; 0x01488893; 0x01489893; 0x00000000; 0x05410693; 0x01588893; 0x01589893; 0x00000000;
    0x05410713; 0x01688893; 0x01689893; 0x00000000; 0x05410793; 0x01788893; 0x01789893; 0x00000000;
    0x05c10413; 0x01888893; 0x01889893; 0x00000000; 0x05c10493; 0x01988893; 0x01989893; 0x00000000;
    0x05c10513; 0x01a88893; 0x01a89893; 0x00000000; 0x05c10593; 0x01b88893; 0x01b89893; 0x00000000;
    0x05c10613; 0x01c88893; 0x01c89893; 0x00000000; 0x05c10693; 0x01d88893; 0x01d89893; 0x00000000;
    0x05c10713; 0x01e88893; 0x01e89893; 0x00000000; 0x05c10793; 0x01f88893; 0x01f89893; 0x00000000;
    0x09010413; 0x00090913; 0x00091913; 0x00000000; 0x09010493; 0x00190913; 0x00191913; 0x00000000;
    0x09010513; 0x00290913; 0x00291913; 0x00000000; 0x09010593; 0x00390913; 0x00391913; 0x00000000;
    0x09010613; 0x00490913; 0x00491913; 0x00000000; 0x09010693; 0x00590913; 0x00591913; 0x00000000;
    0x09010713; 0x00690913; 0x00691913; 0x00000000; 0x09010793; 0x00790913; 0x00791913; 0x00000000;
    0x09810413; 0x00890913; 0x00891913; 0x00000000; 0x09810493; 0x00990913; 0x00991913; 0x00000000;
    0x09810513; 0x00a90913; 0x00a91913; 0x00000000; 0x09810593; 0x00b90913; 0x00b91913; 0x00000000;
    0x09810613; 0x00c90913; 0x00c91913; 0x00000000; 0x09810693; 0x00d90913; 0x00d91913; 0x00000000;
    0x09810713; 0x00e90913; 0x00e91913; 0x00000000; 0x09810793; 0x00f90913; 0x00f91913; 0x00000000;
    0x09410413; 0x01090913; 0x01091913; 0x00000000; 0x09410493; 0x01190913; 0x01191913; 0x00000000;
    0x09410513; 0x01290913; 0x01291913; 0x00000000; 0x09410593; 0x01390913; 0x01391913; 0x00000000;
    0x09410613; 0x01490913; 0x01491913; 0x00000000; 0x09410693; 0x01590913; 0x01591913; 0x00000000;
    0x09410713; 0x01690913; 0x01691913; 0x00000000; 0x09410793; 0x01790913; 0x01791913; 0x00000000;
    0x09c10413; 0x01890913; 0x01891913; 0x00000000; 0x09c10493; 0x01990913; 0x01991913; 0x00000000;
    0x09c10513; 0x01a90913; 0x01a91913; 0x00000000; 0x09c10593; 0x01b90913; 0x01b91913; 0x00000000;
    0x09c10613; 0x01c90913; 0x01c91913; 0x00000000; 0x09c10693; 0x01d90913; 0x01d91913; 0x00000000;
    0x09c10713; 0x01e90913; 0x01e91913; 0x00000000; 0x09c10793; 0x01f90913; 0x01f91913; 0x00000000;
    0x0d010413; 0x00098993; 0x00099993; 0x00000000; 0x0d010493; 0x00198993; 0x00199993; 0x00000000;
    0x0d010513; 0x00298993; 0x00299993; 0x00000000; 0x0d010593; 0x00398993; 0x00399993; 0x00000000;
    0x0d010613; 0x00498993; 0x00499993; 0x00000000; 0x0d010693; 0x00598993; 0x00599993; 0x00000000;
    0x0d010713; 0x00698993; 0x00699993; 0x00000000; 0x0d010793; 0x00798993; 0x00799993; 0x00000000;
    0x0d810413; 0x00898993; 0x00899993; 0x00000000; 0x0d810493; 0x00998993; 0x00999993; 0x00000000;
    0x0d810513; 0x00a98993; 0x00a99993; 0x00000000; 0x0d810593; 0x00b98993; 0x00b99993; 0x00000000;
    0x0d810613; 0x00c98993; 0x00c99993; 0x00000000; 0x0d810693; 0x00d98993; 0x00d99993; 0x00000000;
    0x0d810713; 0x00e98993; 0x00e99993; 0x00000000; 0x0d810793; 0x00f98993; 0x00f99993; 0x00000000;
    0x0d410413; 0x01098993; 0x01099993; 0x00000000; 0x0d410493; 0x01198993; 0x01199993; 0x00000000;
    0x0d410513; 0x01298993; 0x01299993; 0x00000000; 0x0d410593; 0x01398993; 0x01399993; 0x00000000;
    0x0d410613; 0x01498993; 0x01499993; 0x00000000; 0x0d410693; 0x01598993; 0x01599993; 0x00000000;
    0x0d410713; 0x01698993; 0x01699993; 0x00000000; 0x0d410793; 0x01798993; 0x01799993; 0x00000000;
    0x0dc10413; 0x01898993; 0x01899993; 0x00000000; 0x0dc10493; 0x01998993; 0x01999993; 0x00000000;
    0x0dc10513; 0x01a98993; 0x01a99993; 0x00000000; 0x0dc10593; 0x01b98993; 0x01b99993; 0x00000000;
    0x0dc10613; 0x01c98993; 0x01c99993; 0x00000000; 0x0dc10693; 0x01d98993; 0x01d99993; 0x00000000;
    0x0dc10713; 0x01e98993; 0x01e99993; 0x00000000; 0x0dc10793; 0x01f98993; 0x01f99993; 0x00000000;
    0x11010413; 0x000a0a13; 0x000a1a13; 0x00000000; 0x11010493; 0x001a0a13; 0x001a1a13; 0x00000000;
    0x11010513; 0x002a0a13; 0x002a1a13; 0x00000000; 0x11010593; 0x003a0a13; 0x003a1a13; 0x00000000;
    0x11010613; 0x004a0a13; 0x004a1a13; 0x00000000; 0x11010693; 0x005a0a13; 0x005a1a13; 0x00000000;
    0x11010713; 0x006a0a13; 0x006a1a13; 0x00000000; 0x11010793; 0x007a0a13; 0x007a1a13; 0x00000000;
    0x11810413; 0x008a0a13; 0x008a1a13; 0x00000000; 0x11810493; 0x009a0a13; 0x009a1a13; 0x00000000;
    0x11810513; 0x00aa0a13; 0x00aa1a13; 0x00000000; 0x11810593; 0x00ba0a13; 0x00ba1a13; 0x00000000;
    0x11810613; 0x00ca0a13; 0x00ca1a13; 0x00000000; 0x11810693; 0x00da0a13; 0x00da1a13; 0x00000000;
    0x11810713; 0x00ea0a13; 0x00ea1a13; 0x00000000; 0x11810793; 0x00fa0a13; 0x00fa1a13; 0x00000000;
    0x11410413; 0x010a0a13; 0x010a1a13; 0x00000000; 0x11410493; 0x011a0a13; 0x011a1a13; 0x00000000;
    0x11410513; 0x012a0a13; 0x012a1a13; 0x00000000; 0x11410593; 0x013a0a13; 0x013a1a13; 0x00000000;
    0x11410613; 0x014a0a13; 0x014a1a13; 0x00000000; 0x11410693; 0x015a0a13; 0x015a1a13; 0x00000000;
    0x11410713; 0x016a0a13; 0x016a1a13; 0x00000000; 0x11410793; 0x017a0a13; 0x017a1a13; 0x00000000;
    0x11c10413; 0x018a0a13; 0x018a1a13; 0x00000000; 0x11c10493; 0x019a0a13; 0x019a1a13; 0x00000000;
    0x11c10513; 0x01aa0a13; 0x01aa1a13; 0x00000000; 0x11c10593; 0x01ba0a13; 0x01ba1a13; 0x00000000;
    0x11c10613; 0x01ca0a13; 0x01ca1a13; 0x00000000; 0x11c10693; 0x01da0a13; 0x01da1a13; 0x00000000;
    0x11c10713; 0x01ea0a13; 0x01ea1a13; 0x00000000; 0x11c10793; 0x01fa0a13; 0x01fa1a13; 0x00000000;
    0x15010413; 0x000a8a93; 0x000a9a93; 0x00000000; 0x15010493; 0x001a8a93; 0x001a9a93; 0x00000000;
    0x15010513; 0x002a8a93; 0x002a9a93; 0x00000000; 0x15010593; 0x003a8a93; 0x003a9a93; 0x00000000;
    0x15010613; 0x004a8a93; 0x004a9a93; 0x00000000; 0x15010693; 0x005a8a93; 0x005a9a93; 0x00000000;
    0x15010713; 0x006a8a93; 0x006a9a93; 0x00000000; 0x15010793; 0x007a8a93; 0x007a9a93; 0x00000000;
    0x15810413; 0x008a8a93; 0x008a9a93; 0x00000000; 0x15810493; 0x009a8a93; 0x009a9a93; 0x00000000;
    0x15810513; 0x00aa8a93; 0x00aa9a93; 0x00000000; 0x15810593; 0x00ba8a93; 0x00ba9a93; 0x00000000;
    0x15810613; 0x00ca8a93; 0x00ca9a93; 0x00000000; 0x15810693; 0x00da8a93; 0x00da9a93; 0x00000000;
    0x15810713; 0x00ea8a93; 0x00ea9a93; 0x00000000; 0x15810793; 0x00fa8a93; 0x00fa9a93; 0x00000000;
    0x15410413; 0x010a8a93; 0x010a9a93; 0x00000000; 0x15410493; 0x011a8a93; 0x011a9a93; 0x00000000;
    0x15410513; 0x012a8a93; 0x012a9a93; 0x00000000; 0x15410593; 0x013a8a93; 0x013a9a93; 0x00000000;
    0x15410613; 0x014a8a93; 0x014a9a93; 0x00000000; 0x15410693; 0x015a8a93; 0x015a9a93; 0x00000000;
    0x15410713; 0x016a8a93; 0x016a9a93; 0x00000000; 0x15410793; 0x017a8a93; 0x017a9a93; 0x00000000;
    0x15c10413; 0x018a8a93; 0x018a9a93; 0x00000000; 0x15c10493; 0x019a8a93; 0x019a9a93; 0x00000000;
    0x15c10513; 0x01aa8a93; 0x01aa9a93; 0x00000000; 0x15c10593; 0x01ba8a93; 0x01ba9a93; 0x00000000;
    0x15c10613; 0x01ca8a93; 0x01ca9a93; 0x00000000; 0x15c10693; 0x01da8a93; 0x01da9a93; 0x00000000;
    0x15c10713; 0x01ea8a93; 0x01ea9a93; 0x00000000; 0x15c10793; 0x01fa8a93; 0x01fa9a93; 0x00000000;
    0x19010413; 0x000b0b13; 0x000b1b13; 0x00000000; 0x19010493; 0x001b0b13; 0x001b1b13; 0x00000000;
    0x19010513; 0x002b0b13; 0x002b1b13; 0x00000000; 0x19010593; 0x003b0b13; 0x003b1b13; 0x00000000;
    0x19010613; 0x004b0b13; 0x004b1b13; 0x00000000; 0x19010693; 0x005b0b13; 0x005b1b13; 0x00000000;
    0x19010713; 0x006b0b13; 0x006b1b13; 0x00000000; 0x19010793; 0x007b0b13; 0x007b1b13; 0x00000000;
    0x19810413; 0x008b0b13; 0x008b1b13; 0x00000000; 0x19810493; 0x009b0b13; 0x009b1b13; 0x00000000;
    0x19810513; 0x00ab0b13; 0x00ab1b13; 0x00000000; 0x19810593; 0x00bb0b13; 0x00bb1b13; 0x00000000;
    0x19810613; 0x00cb0b13; 0x00cb1b13; 0x00000000; 0x19810693; 0x00db0b13; 0x00db1b13; 0x00000000;
    0x19810713; 0x00eb0b13; 0x00eb1b13; 0x00000000; 0x19810793; 0x00fb0b13; 0x00fb1b13; 0x00000000;
    0x19410413; 0x010b0b13; 0x010b1b13; 0x00000000; 0x19410493; 0x011b0b13; 0x011b1b13; 0x00000000;
    0x19410513; 0x012b0b13; 0x012b1b13; 0x00000000; 0x19410593; 0x013b0b13; 0x013b1b13; 0x00000000;
    0x19410613; 0x014b0b13; 0x014b1b13; 0x00000000; 0x19410693; 0x015b0b13; 0x015b1b13; 0x00000000;
    0x19410713; 0x016b0b13; 0x016b1b13; 0x00000000; 0x19410793; 0x017b0b13; 0x017b1b13; 0x00000000;
    0x19c10413; 0x018b0b13; 0x018b1b13; 0x00000000; 0x19c10493; 0x019b0b13; 0x019b1b13; 0x00000000;
    0x19c10513; 0x01ab0b13; 0x01ab1b13; 0x00000000; 0x19c10593; 0x01bb0b13; 0x01bb1b13; 0x00000000;
    0x19c10613; 0x01cb0b13; 0x01cb1b13; 0x00000000; 0x19c10693; 0x01db0b13; 0x01db1b13; 0x00000000;
    0x19c10713; 0x01eb0b13; 0x01eb1b13; 0x00000000; 0x19c10793; 0x01fb0b13; 0x01fb1b13; 0x00000000;
    0x1d010413; 0x000b8b93; 0x000b9b93; 0x00000000; 0x1d010493; 0x001b8b93; 0x001b9b93; 0x00000000;
    0x1d010513; 0x002b8b93; 0x002b9b93; 0x00000000; 0x1d010593; 0x003b8b93; 0x003b9b93; 0x00000000;
    0x1d010613; 0x004b8b93; 0x004b9b93; 0x00000000; 0x1d010693; 0x005b8b93; 0x005b9b93; 0x00000000;
    0x1d010713; 0x006b8b93; 0x006b9b93; 0x00000000; 0x1d010793; 0x007b8b93; 0x007b9b93; 0x00000000;
    0x1d810413; 0x008b8b93; 0x008b9b93; 0x00000000; 0x1d810493; 0x009b8b93; 0x009b9b93; 0x00000000;
    0x1d810513; 0x00ab8b93; 0x00ab9b93; 0x00000000; 0x1d810593; 0x00bb8b93; 0x00bb9b93; 0x00000000;
    0x1d810613; 0x00cb8b93; 0x00cb9b93; 0x00000000; 0x1d810693; 0x00db8b93; 0x00db9b93; 0x00000000;
    0x1d810713; 0x00eb8b93; 0x00eb9b93; 0x00000000; 0x1d810793; 0x00fb8b93; 0x00fb9b93; 0x00000000;
    0x1d410413; 0x010b8b93; 0x010b9b93; 0x00000000; 0x1d410493; 0x011b8b93; 0x011b9b93; 0x00000000;
    0x1d410513; 0x012b8b93; 0x012b9b93; 0x00000000; 0x1d410593; 0x013b8b93; 0x013b9b93; 0x00000000;
    0x1d410613; 0x014b8b93; 0x014b9b93; 0x00000000; 0x1d410693; 0x015b8b93; 0x015b9b93; 0x00000000;
    0x1d410713; 0x016b8b93; 0x016b9b93; 0x00000000; 0x1d410793; 0x017b8b93; 0x017b9b93; 0x00000000;
    0x1dc10413; 0x018b8b93; 0x018b9b93; 0x00000000; 0x1dc10493; 0x019b8b93; 0x019b9b93; 0x00000000;
    0x1dc10513; 0x01ab8b93; 0x01ab9b93; 0x00000000; 0x1dc10593; 0x01bb8b93; 0x01bb9b93; 0x00000000;
    0x1dc10613; 0x01cb8b93; 0x01cb9b93; 0x00000000; 0x1dc10693; 0x01db8b93; 0x01db9b93; 0x00000000;
    0x1dc10713; 0x01eb8b93; 0x01eb9b93; 0x00000000; 0x1dc10793; 0x01fb8b93; 0x01fb9b93; 0x00000000
].

(** parcels 0x0c00 to 0x0fff *)
Definition RVC64_EXPANDED_03 : list Z := [
    0x21010413; 0x000c0c13; 0x000c1c13; 0x00000000; 0x21010493; 0x001c0c13; 0x001c1c13; 0x00000000;
    0x21010513; 0x002c0c13; 0x002c1c13; 0x00000000; 0x21010593; 0x003c0c13; 0x003c1c13; 0x00000000;
    0x21010613; 0x004c0c13; 0x004c1c13; 0x00000000; 0x21010693; 0x005c0c13; 0x005c1c13; 0x00000000;
    0x21010713; 0x006c0c13; 0x006c1c13; 0x00000000; 0x21010793; 0x007c0c13; 0x007c1c13; 0x00000000;
    0x21810413; 0x008c0c13; 0x008c1c13; 0x00000000; 0x21810493; 0x009c0c13; 0x009c1c13; 0x00000000;
    0x21810513; 0x00ac0c13; 0x00ac1c13; 0x00000000; 0x21810593; 0x00bc0c13; 0x00bc1c13; 0x00000000;
    0x21810613; 0x00cc0c13; 0x00cc1c13; 0x00000000; 0x21810693; 0x00dc0c13; 0x00dc1c13; 0x00000000;
    0x21810713; 0x00ec0c13; 0x00ec1c13; 0x00000000; 0x21810793; 0x00fc0c13; 0x00fc1c13; 0x00000000;
    0x21410413; 0x010c0c13; 0x010c1c13; 0x00000000; 0x21410493; 0x011c0c13; 0x011c1c13; 0x00000000;
    0x21410513; 0x012c0c13; 0x012c1c13; 0x00000000; 0x21410593; 0x013c0c13; 0x013c1c13; 0x00000000;
    0x21410613; 0x014c0c13; 0x014c1c13; 0x00000000; 0x21410693; 0x015c0c13; 0x015c1c13; 0x00000000;
    0x21410713; 0x016c0c13; 0x016c1c13; 0x00000000; 0x21410793; 0x017c0c13; 0x017c1c13; 0x00000000;
    0x21c10413; 0x018c0c13; 0x018c1c13; 0x00000000; 0x21c10493; 0x019c0c13; 0x019c1c13; 0x00000000;
    0x21c10513; 0x01ac0c13; 0x01ac1c13; 0x00000000; 0x21c10593; 0x01bc0c13; 0x01bc1c13; 0x00000000;
    0x21c10613; 0x01cc0c13; 0x01cc1c13; 0x00000000; 0x21c10693; 0x01dc0c13; 0x01dc1c13; 0x00000000;
    0x21c10713; 0x01ec0c13; 0x01ec1c13; 0x00000000; 0x21c10793; 0x01fc0c13; 0x01fc1c13; 0x00000000;
    0x25010413; 0x000c8c93; 0x000c9c93; 0x00000000; 0x25010493; 0x001c8c93; 0x001c9c93; 0x00000000;
    0x25010513; 0x002c8c93; 0x002c9c93; 0x00000000; 0x25010593; 0x003c8c93; 0x003c9c93; 0x00000000;
    0x25010613; 0x004c8c93; 0x004c9c93; 0x00000000; 0x25010693; 0x005c8c93; 0x005c9c93; 0x00000000;
    0x25010713; 0x006c8c93; 0x006c9c93; 0x00000000; 0x25010793; 0x007c8c93; 0x007c9c93; 0x00000000;
    0x25810413; 0x008c8c93; 0x008c9c93; 0x00000000; 0x25810493; 0x009c8c93; 0x009c9c93; 0x00000000;
    0x25810513; 0x00ac8c93; 0x00ac9c93; 0x00000000; 0x25810593; 0x00bc8c93; 0x00bc9c93; 0x00000000;
    0x25810613; 0x00cc8c93; 0x00cc9c93; 0x00000000; 0x25810693; 0x00dc8c93; 0x00dc9c93; 0x00000000;
    0x25810713; 0x00ec8c93; 0x00ec9c93; 0x00000000; 0x25810793; 0x00fc8c93; 0x00fc9c93; 0x00000000;
    0x25410413; 0x010c8c93; 0x010c9c93; 0x00000000; 0x25410493; 0x011c8c93; 0x011c9c93; 0x00000000;
    0x25410513; 0x012c8c93; 0x012c9c93; 0x00000000; 0x25410593; 0x013c8c93; 0x013c9c93; 0x00000000;
    0x25410613; 0x014c8c93; 0x014c9c93; 0x00000000; 0x25410693; 0x015c8c93; 0x015c9c93; 0x00000000;
    0x25410713; 0x016c8c93; 0x016c9c93; 0x00000000; 0x25410793; 0x017c8c93; 0x017c9c93; 0x00000000;
    0x25c10413; 0x018c8c93; 0x018c9c93; 0x00000000; 0x25c10493; 0x019c8c93; 0x019c9c93; 0x00000000;
    0x25c10513; 0x01ac8c93; 0x01ac9c93; 0x00000000; 0x25c10593; 0x01bc8c93; 0x01bc9c93; 0x00000000;
    0x25c10613; 0x01cc8c93; 0x01cc9c93; 0x00000000; 0x25c10693; 0x01dc8c93; 0x01dc9c93; 0x00000000;
    0x25c10713; 0x01ec8c93; 0x01ec9c93; 0x00000000; 0x25c10793; 0x01fc8c93; 0x01fc9c93; 0x00000000;
    0x29010413; 0x000d0d13; 0x000d1d13; 0x00000000; 0x29010493; 0x001d0d13; 0x001d1d13; 0x00000000;
    0x29010513; 0x002d0d13; 0x002d1d13; 0x00000000; 0x29010593; 0x003d0d13; 0x003d1d13; 0x00000000;
    0x29010613; 0x004d0d13; 0x004d1d13; 0x00000000; 0x29010693; 0x005d0d13; 0x005d1d13; 0x00000000;
    0x29010713; 0x006d0d13; 0x006d1d13; 0x00000000; 0x29010793; 0x007d0d13; 0x007d1d13; 0x00000000;
    0x29810413; 0x008d0d13; 0x008d1d13; 0x00000000; 0x29810493; 0x009d0d13; 0x009d1d13; 0x00000000;
    0x29810513; 0x00ad0d13; 0x00ad1d13; 0x00000000; 0x29810593; 0x00bd0d13; 0x00bd1d13; 0x00000000;
    0x29810613; 0x00cd0d13; 0x00cd1d13; 0x00000000; 0x29810693; 0x00dd0d13; 0x00dd1d13; 0x00000000;
    0x29810713; 0x00ed0d13; 0x00ed1d13; 0x00000000; 0x29810793; 0x00fd0d13; 0x00fd1d13; 0x00000000;
    0x29410413; 0x010d0d13; 0x010d1d13; 0x00000000; 0x29410493; 0x011d0d13; 0x011d1d13; 0x00000000;
    0x29410513; 0x012d0d13; 0x012d1d13; 0x00000000; 0x29410593; 0x013d0d13; 0x013d1d13; 0x00000000;
    0x29410613; 0x014d0d13; 0x014d1d13; 0x00000000; 0x29410693; 0x015d0d13; 0x015d1d13; 0x00000000;
    0x29410713; 0x016d0d13; 0x016d1d13; 0x00000000; 0x29410793; 0x017d0d13; 0x017d1d13; 0x00000000;
    0x29c10413; 0x018d0d13; 0x018d1d13; 0x00000000; 0x29c10493; 0x019d0d13; 0x019d1d13; 0x00000000;
    0x29c10513; 0x01ad0d13; 0x01ad1d13; 0x00000000; 0x29c10593; 0x01bd0d13; 0x01bd1d13; 0x00000000;
    0x29c10613; 0x01cd0d13; 0x01cd1d13; 0x00000000; 0x29c10693; 0x01dd0d13; 0x01dd1d13; 0x00000000;
    0x29c10713; 0x01ed0d13; 0x01ed1d13; 0x00000000; 0x29c10793; 0x01fd0d13; 0x01fd1d13; 0x00000000;
    0x2d010413; 0x000d8d93; 0x000d9d93; 0x00000000; 0x2d010493; 0x001d8d93; 0x001d9d93; 0x00000000;
    0x2d010513; 0x002d8d93; 0x002d9d93; 0x00000000; 0x2d010593; 0x003d8d93; 0x003d9d93; 0x00000000;
    0x2d010613; 0x004d8d93; 0x004d9d93; 0x00000000; 0x2d010693; 0x005d8d93; 0x005d9d93; 0x00000000;
    0x2d010713; 0x006d8d93; 0x006d9d93; 0x00000000; 0x2d010793; 0x007d8d93; 0x007d9d93; 0x00000000;
    0x2d810413; 0x008d8d93; 0x008d9d93; 0x00000000; 0x2d810493; 0x009d8d93; 0x009d9d93; 0x00000000;
    0x2d810513; 0x00ad8d93; 0x00ad9d93; 0x00000000; 0x2d810593; 0x00bd8d93; 0x00bd9d93; 0x00000000;
    0x2d810613; 0x00cd8d93; 0x00cd9d93; 0x00000000; 0x2d810693; 0x00dd8d93; 0x00dd9d93; 0x00000000;
    0x2d810713; 0x00ed8d93; 0x00ed9d93; 0x00000000; 0x2d810793; 0x00fd8d93; 0x00fd9d93; 0x00000000;
    0x2d410413; 0x010d8d93; 0x010d9d93; 0x00000000; 0x2d410493; 0x011d8d93; 0x011d9d93; 0x00000000;
    0x2d410513; 0x012d8d93; 0x012d9d93; 0x00000000; 0x2d410593; 0x013d8d93; 0x013d9d93; 0x00000000;
    0x2d410613; 0x014d8d93; 0x014d9d93; 0x00000000; 0x2d410693; 0x015d8d93; 0x015d9d93; 0x00000000;
    0x2d410713; 0x016d8d93; 0x016d9d93; 0x00000000; 0x2d410793; 0x017d8d93; 0x017d9d93; 0x00000000;
    0x2dc10413; 0x018d8d93; 0x018d9d93; 0x00000000; 0x2dc10493; 0x019d8d93; 0x019d9d93; 0x00000000;
    0x2dc10513; 0x01ad8d93; 0x01ad9d93; 0x00000000; 0x2dc10593; 0x01bd8d93; 0x01bd9d93; 0x00000000;
    0x2dc10613; 0x01cd8d93; 0x01cd9d93; 0x00000000; 0x2dc10693; 0x01dd8d93; 0x01dd9d93; 0x00000000;
    0x2dc10713; 0x01ed8d93; 0x01ed9d93; 0x00000000; 0x2dc10793; 0x01fd8d93; 0x01fd9d93; 0x00000000;
    0x31010413; 0x000e0e13; 0x000e1e13; 0x00000000; 0x31010493; 0x001e0e13; 0x001e1e13; 0x00000000;
    0x31010513; 0x002e0e13; 0x002e1e13; 0x00000000; 0x31010593; 0x003e0e13; 0x003e1e13; 0x00000000;
    0x31010613; 0x004e0e13; 0x004e1e13; 0x00000000; 0x31010693; 0x005e0e13; 0x005e1e13; 0x00000000;
    0x31010713; 0x006e0e13; 0x006e1e13; 0x00000000; 0x31010793; 0x007e0e13; 0x007e1e13; 0x00000000;
    0x31810413; 0x008e0e13; 0x008e1e13; 0x00000000; 0x31810493; 0x009e0e13; 0x009e1e13; 0x00000000;
    0x31810513; 0x00ae0e13; 0x00ae1e13; 0x00000000; 0x31810593; 0x00be0e13; 0x00be1e13; 0x00000000;
    0x31810613; 0x00ce0e13; 0x00ce1e13; 0x00000000; 0x31810693; 0x00de0e13; 0x00de1e13; 0x00000000;
    0x31810713; 0x00ee0e13; 0x00ee1e13; 0x00000000; 0x31810793; 0x00fe0e13; 0x00fe1e13; 0x00000000;
    0x31410413; 0x010e0e13; 0x010e1e13; 0x00000000; 0x31410493; 0x011e0e13; 0x011e1e13; 0x00000000;
    0x31410513; 0x012e0e13; 0x012e1e13; 0x00000000; 0x31410593; 0x013e0e13; 0x013e1e13; 0x00000000;
    0x31410613; 0x014e0e13; 0x014e1e13; 0x00000000; 0x31410693; 0x015e0e13; 0x015e1e13; 0x00000000;
    0x31410713; 0x016e0e13; 0x016e1e13; 0x00000000; 0x31410793; 0x017e0e13; 0x017e1e13; 0x00000000;
    0x31c10413; 0x018e0e13; 0x018e1e13; 0x00000000; 0x31c10493; 0x019e0e13; 0x019e1e13; 0x00000000;
    0x31c10513; 0x01ae0e13; 0x01ae1e13; 0x00000000; 0x31c10593; 0x01be0e13; 0x01be1e13; 0x00000000;
    0x31c10613; 0x01ce0e13; 0x01ce1e13; 0x00000000; 0x31c10693; 0x01de0e13; 0x01de1e13; 0x00000000;
    0x31c10713; 0x01ee0e13; 0x01ee1e13; 0x00000000; 0x31c10793; 0x01fe0e13; 0x01fe1e13; 0x00000000;
    0x35010413; 0x000e8e93; 0x000e9e93; 0x00000000; 0x35010493; 0x001e8e93; 0x001e9e93; 0x00000000;
    0x35010513; 0x002e8e93; 0x002e9e93; 0x00000000; 0x35010593; 0x003e8e93; 0x003e9e93; 0x00000000;
    0x35010613; 0x004e8e93; 0x004e9e93; 0x00000000; 0x35010693; 0x005e8e93; 0x005e9e93; 0x00000000;
    0x35010713; 0x006e8e93; 0x006e9e93; 0x00000000; 0x35010793; 0x007e8e93; 0x007e9e93; 0x00000000;
    0x35810413; 0x008e8e93; 0x008e9e93; 0x00000000; 0x35810493; 0x009e8e93; 0x009e9e93; 0x00000000;
    0x35810513; 0x00ae8e93; 0x00ae9e93; 0x00000000; 0x35810593; 0x00be8e93; 0x00be9e93; 0x00000000;
    0x35810613; 0x00ce8e93; 0x00ce9e93; 0x00000000; 0x35810693; 0x00de8e93; 0x00de9e93; 0x00000000;
    0x35810713; 0x00ee8e93; 0x00ee9e93; 0x00000000; 0x35810793; 0x00fe8e93; 0x00fe9e93; 0x00000000;
    0x35410413; 0x010e8e93; 0x010e9e93; 0x00000000; 0x35410493; 0x011e8e93; 0x011e9e93; 0x00000000;
    0x35410513; 0x012e8e93; 0x012e9e93; 0x00000000; 0x35410593; 0x013e8e93; 0x013e9e93; 0x00000000;
    0x35410613; 0x014e8e93; 0x014e9e93; 0x00000000; 0x35410693; 0x015e8e93; 0x015e9e93; 0x00000000;
    0x35410713; 0x016e8e93; 0x016e9e93; 0x00000000; 0x35410793; 0x017e8e93; 0x017e9e93; 0x00000000;
    0x35c10413; 0x018e8e93; 0x018e9e93; 0x00000000; 0x35c10493; 0x019e8e93; 0x019e9e93; 0x00000000;
    0x35c10513; 0x01ae8e93; 0x01ae9e93; 0x00000000; 0x35c10593; 0x01be8e93; 0x01be9e93; 0x00000000;
    0x35c10613; 0x01ce8e93; 0x01ce9e93; 0x00000000; 0x35c10693; 0x01de8e93; 0x01de9e93; 0x00000000;
    0x35c10713; 0x01ee8e93; 0x01ee9e93; 0x00000000; 0x35c10793; 0x01fe8e93; 0x01fe9e93; 0x00000000;
    0x39010413; 0x000f0f13; 0x000f1f13; 0x00000000; 0x39010493; 0x001f0f13; 0x001f1f13; 0x00000000;
    0x39010513; 0x002f0f13; 0x002f1f13; 0x00000000; 0x39010593; 0x003f0f13; 0x003f1f13; 0x00000000;
    0x39010613; 0x004f0f13; 0x004f1f13; 0x00000000; 0x39010693; 0x005f0f13; 0x005f1f13; 0x00000000;
    0x39010713; 0x006f0f13; 0x006f1f13; 0x00000000; 0x39010793; 0x007f0f13; 0x007f1f13; 0x00000000;
    0x39810413; 0x008f0f13; 0x008f1f13; 0x00000000; 0x39810493; 0x009f0f13; 0x009f1f13; 0x00000000;
    0x39810513; 0x00af0f13; 0x00af1f13; 0x00000000; 0x39810593; 0x00bf0f13; 0x00bf1f13; 0x00000000;
    0x39810613; 0x00cf0f13; 0x00cf1f13; 0x00000000; 0x39810693; 0x00df0f13; 0x00df1f13; 0x00000000;
    0x39810713; 0x00ef0f13; 0x00ef1f13; 0x00000000; 0x39810793; 0x00ff0f13; 0x00ff1f13; 0x00000000;
    0x39410413; 0x010f0f13; 0x010f1f13; 0x00000000; 0x39410493; 0x011f0f13; 0x011f1f13; 0x00000000;
    0x39410513; 0x012f0f13; 0x012f1f13; 0x00000000; 0x39410593; 0x013f0f13; 0x013f1f13; 0x00000000;
    0x39410613; 0x014f0f13; 0x014f1f13; 0x00000000; 0x39410693; 0x015f0f13; 0x015f1f13; 0x00000000;
    0x39410713; 0x016f0f13; 0x016f1f13; 0x00000000; 0x39410793; 0x017f0f13; 0x017f1f13; 0x00000000;
    0x39c10413; 0x018f0f13; 0x018f1f13; 0x00000000; 0x39c10493; 0x019f0f13; 0x019f1f13; 0x00000000;
    0x39c10513; 0x01af0f13; 0x01af1f13; 0x00000000; 0x39c10593; 0x01bf0f13; 0x01bf1f13; 0x00000000;
    0x39c10613; 0x01cf0f13; 0x01cf1f13; 0x00000000; 0x39c10693; 0x01df0f13; 0x01df1f13; 0x00000000;
    0x39c10713; 0x01ef0f13; 0x01ef1f13; 0x00000000; 0x39c10793; 0x01ff0f13; 0x01ff1f13; 0x00000000;
    0x3d010413; 0x000f8f93; 0x000f9f93; 0x00000000; 0x3d010493; 0x001f8f93; 0x001f9f93; 0x00000000;
    0x3d010513; 0x002f8f93; 0x002f9f93; 0x00000000; 0x3d010593; 0x003f8f93; 0x003f9f93; 0x00000000;
    0x3d010613; 0x004f8f93; 0x004f9f93; 0x00000000; 0x3d010693; 0x005f8f93; 0x005f9f93; 0x00000000;
    0x3d010713; 0x006f8f93; 0x006f9f93; 0x00000000; 0x3d010793; 0x007f8f93; 0x007f9f93; 0x00000000;
    0x3d810413; 0x008f8f93; 0x008f9f93; 0x00000000; 0x3d810493; 0x009f8f93; 0x009f9f93; 0x00000000;
    0x3d810513; 0x00af8f93; 0x00af9f93; 0x00000000; 0x3d810593; 0x00bf8f93; 0x00bf9f93; 0x00000000;
    0x3d810613; 0x00cf8f93; 0x00cf9f93; 0x00000000; 0x3d810693; 0x00df8f93; 0x00df9f93; 0x00000000;
    0x3d810713; 0x00ef8f93; 0x00ef9f93; 0x00000000; 0x3d810793; 0x00ff8f93; 0x00ff9f93; 0x00000000;
    0x3d410413; 0x010f8f93; 0x010f9f93; 0x00000000; 0x3d410493; 0x011f8f93; 0x011f9f93; 0x00000000;
    0x3d410513; 0x012f8f93; 0x012f9f93; 0x00000000; 0x3d410593; 0x013f8f93; 0x013f9f93; 0x00000000;
    0x3d410613; 0x014f8f93; 0x014f9f93; 0x00000000; 0x3d410693; 0x015f8f93; 0x015f9f93; 0x00000000;
    0x3d410713; 0x016f8f93; 0x016f9f93; 0x00000000; 0x3d410793; 0x017f8f93; 0x017f9f93; 0x00000000;
    0x3dc10413; 0x018f8f93; 0x018f9f93; 0x00000000; 0x3dc10493; 0x019f8f93; 0x019f9f93; 0x00000000;
    0x3dc10513; 0x01af8f93; 0x01af9f93; 0x00000000; 0x3dc10593; 0x01bf8f93; 0x01bf9f93; 0x00000000;
    0x3dc10613; 0x01cf8f93; 0x01cf9f93; 0x00000000; 0x3dc10693; 0x01df8f93; 0x01df9f93; 0x00000000;
    0x3dc10713; 0x01ef8f93; 0x01ef9f93; 0x00000000; 0x3dc10793; 0x01ff8f93; 0x01ff9f93; 0x00000000
].

(** parcels 0x1000 to 0x13ff *)
Definition RVC64_EXPANDED_04 : list Z := [
    0x02010413; 0xfe000013; 0x02001013; 0x00000000; 0x02010493; 0xfe100013; 0x02101013; 0x00000000;
    0x02010513; 0xfe200013; 0x02201013; 0x00000000; 0x02010593; 0xfe300013; 0x02301013; 0x00000000;
    0x02010613; 0xfe400013; 0x02401013; 0x00000000; 0x02010693; 0xfe500013; 0x02501013; 0x00000000;
    0x02010713; 0xfe600013; 0x02601013; 0x00000000; 0x02010793; 0xfe700013; 0x02701013; 0x00000000;
    0x02810413; 0xfe800013; 0x02801013; 0x00000000; 0x02810493; 0xfe900013; 0x02901013; 0x00000000;
    0x02810513; 0xfea00013; 0x02a01013; 0x00000000; 0x02810593; 0xfeb00013; 0x02b01013; 0x00000000;
    0x02810613; 0xfec00013; 0x02c01013; 0x00000000; 0x02810693; 0xfed00013; 0x02d01013; 0x00000000;
    0x02810713; 0xfee00013; 0x02e01013; 0x00000000; 0x02810793; 0xfef00013; 0x02f01013; 0x00000000;
    0x02410413; 0xff000013; 0x03001013; 0x00000000; 0x02410493; 0xff100013; 0x03101013; 0x00000000;
    0x02410513; 0xff200013; 0x03201013; 0x00000000; 0x02410593; 0xff300013; 0x03301013; 0x00000000;
    0x02410613; 0xff400013; 0x03401013; 0x00000000; 0x02410693; 0xff500013; 0x03501013; 0x00000000;
    0x02410713; 0xff600013; 0x03601013; 0x00000000; 0x02410793; 0xff700013; 0x03701013; 0x00000000;
    0x02c10413; 0xff800013; 0x03801013; 0x00000000; 0x02c10493; 0xff900013; 0x03901013; 0x00000000;
    0x02c10513; 0xffa00013; 0x03a01013; 0x00000000; 0x02c10593; 0xffb00013; 0x03b01013; 0x00000000;
    0x02c10613; 0xffc00013; 0x03c01013; 0x00000000; 0x02c10693; 0xffd00013; 0x03d01013; 0x00000000;
    0x02c10713; 0xffe00013; 0x03e01013; 0x00000000; 0x02c10793; 0xfff00013; 0x03f01013; 0x00000000;
    0x06010413; 0xfe008093; 0x02009093; 0x00000000; 0x06010493; 0xfe108093; 0x02109093; 0x00000000;
    0x06010513; 0xfe208093; 0x02209093; 0x00000000; 0x06010593; 0xfe308093; 0x02309093; 0x00000000;
    0x06010613; 0xfe408093; 0x02409093; 0x00000000; 0x06010693; 0xfe508093; 0x02509093; 0x00000000;
    0x06010713; 0xfe608093; 0x02609093; 0x00000000; 0x06010793; 0xfe708093; 0x02709093; 0x00000000;
    0x06810413; 0xfe808093; 0x02809093; 0x00000000; 0x06810493; 0xfe908093; 0x02909093; 0x00000000;
    0x06810513; 0xfea08093; 0x02a09093; 0x00000000; 0x06810593; 0xfeb08093; 0x02b09093; 0x00000000;
    0x06810613; 0xfec08093; 0x02c09093; 0x00000000; 0x06810693; 0xfed08093; 0x02d09093; 0x00000000;
    0x06810713; 0xfee08093; 0x02e09093; 0x00000000; 0x06810793; 0xfef08093; 0x02f09093; 0x00000000;
    0x06410413; 0xff008093; 0x03009093; 0x00000000; 0x06410493; 0xff108093; 0x03109093; 0x00000000;
    0x06410513; 0xff208093; 0x03209093; 0x00000000; 0x06410593; 0xff308093; 0x03309093; 0x00000000;
    0x06410613; 0xff408093; 0x03409093; 0x00000000; 0x06410693; 0xff508093; 0x03509093; 0x00000000;
    0x06410713; 0xff608093; 0x03609093; 0x00000000; 0x06410793; 0xff708093; 0x03709093; 0x00000000;
    0x06c10413; 0xff808093; 0x03809093; 0x00000000; 0x06c10493; 0xff908093; 0x03909093; 0x00000000;
    0x06c10513; 0xffa08093; 0x03a09093; 0x00000000; 0x06c10593; 0xffb08093; 0x03b09093; 0x00000000;
    0x06c10613; 0xffc08093; 0x03c09093; 0x00000000; 0x06c10693; 0xffd08093; 0x03d09093; 0x00000000;
    0x06c10713; 0xffe08093; 0x03e09093; 0x00000000; 0x06c10793; 0xfff08093; 0x03f09093; 0x00000000;
    0x0a010413; 0xfe010113; 0x02011113; 0x00000000; 0x0a010493; 0xfe110113; 0x02111113; 0x00000000;
    0x0a010513; 0xfe210113; 0x02211113; 0x00000000; 0x0a010593; 0xfe310113; 0x02311113; 0x00000000;
    0x0a010613; 0xfe410113; 0x02411113; 0x00000000; 0x0a010693; 0xfe510113; 0x02511113; 0x00000000;
    0x0a010713; 0xfe610113; 0x02611113; 0x00000000; 0x0a010793; 0xfe710113; 0x02711113; 0x00000000;
    0x0a810413; 0xfe810113; 0x02811113; 0x00000000; 0x0a810493; 0xfe910113; 0x02911113; 0x00000000;
    0x0a810513; 0xfea10113; 0x02a11113; 0x00000000; 0x0a810593; 0xfeb10113; 0x02b11113; 0x00000000;
    0x0a810613; 0xfec10113; 0x02c11113; 0x00000000; 0x0a810693; 0xfed10113; 0x02d11113; 0x00000000;
    0x0a810713; 0xfee10113; 0x02e11113; 0x00000000; 0x0a810793; 0xfef10113; 0x02f11113; 0x00000000;
    0x0a410413; 0xff010113; 0x03011113; 0x00000000; 0x0a410493; 0xff110113; 0x03111113; 0x00000000;
    0x0a410513; 0xff210113; 0x03211113; 0x00000000; 0x0a410593; 0xff310113; 0x03311113; 0x00000000;
    0x0a410613; 0xff410113; 0x03411113; 0x00000000; 0x0a410693; 0xff510113; 0x03511113; 0x00000000;
    0x0a410713; 0xff610113; 0x03611113; 0x00000000; 0x0a410793; 0xff710113; 0x03711113; 0x00000000;
    0x0ac10413; 0xff810113; 0x03811113; 0x00000000; 0x0ac10493; 0xff910113; 0x03911113; 0x00000000;
    0x0ac10513; 0xffa10113; 0x03a11113; 0x00000000; 0x0ac10593; 0xffb10113; 0x03b11113; 0x00000000;
    0x0ac10613; 0xffc10113; 0x03c11113; 0x00000000; 0x0ac10693; 0xffd10113; 0x03d11113; 0x00000000;
    0x0ac10713; 0xffe10113; 0x03e11113; 0x00000000; 0x0ac10793; 0xfff10113; 0x03f11113; 0x00000000;
    0x0e010413; 0xfe018193; 0x02019193; 0x00000000; 0x0e010493; 0xfe118193; 0x02119193; 0x00000000;
    0x0e010513; 0xfe218193; 0x02219193; 0x00000000; 0x0e010593; 0xfe318193; 0x02319193; 0x00000000;
    0x0e010613; 0xfe418193; 0x02419193; 0x00000000; 0x0e010693; 0xfe518193; 0x02519193; 0x00000000;
    0x0e010713; 0xfe618193; 0x02619193; 0x00000000; 0x0e010793; 0xfe718193; 0x02719193; 0x00000000;
    0x0e810413; 0xfe818193; 0x02819193; 0x00000000; 0x0e810493; 0xfe918193; 0x02919193; 0x00000000;
    0x0e810513; 0xfea18193; 0x02a19193; 0x00000000; 0x0e810593; 0xfeb18193; 0x02b19193; 0x00000000;
    0x0e810613; 0xfec18193; 0x02c19193; 0x00000000; 0x0e810693; 0xfed18193; 0x02d19193; 0x00000000;
    0x0e810713; 0xfee18193; 0x02e19193; 0x00000000; 0x0e810793; 0xfef18193; 0x02f19193; 0x00000000;
    0x0e410413; 0xff018193; 0x03019193; 0x00000000; 0x0e410493; 0xff118193; 0x03119193; 0x00000000;
    0x0e410513; 0xff218193; 0x03219193; 0x00000000; 0x0e410593; 0xff318193; 0x03319193; 0x00000000;
    0x0e410613; 0xff418193; 0x03419193; 0x00000000; 0x0e410693; 0xff518193; 0x03519193; 0x00000000;
    0x0e410713; 0xff618193; 0x03619193; 0x00000000; 0x0e410793; 0xff718193; 0x03719193; 0x00000000;
    0x0ec10413; 0xff818193; 0x03819193; 0x00000000; 0x0ec10493; 0xff918193; 0x03919193; 0x00000000;
    0x0ec10513; 0xffa18193; 0x03a19193; 0x00000000; 0x0ec10593; 0xffb18193; 0x03b19193; 0x00000000;
    0x0ec10613; 0xffc18193; 0x03c19193; 0x00000000; 0x0ec10693; 0xffd18193; 0x03d19193; 0x00000000;
    0x0ec10713; 0xffe18193; 0x03e19193; 0x00000000; 0x0ec10793; 0xfff18193; 0x03f19193; 0x00000000;
    0x12010413; 0xfe020213; 0x02021213; 0x00000000; 0x12010493; 0xfe120213; 0x02121213; 0x00000000;
    0x12010513; 0xfe220213; 0x02221213; 0x00000000; 0x12010593; 0xfe320213; 0x02321213; 0x00000000;
    0x12010613; 0xfe420213; 0x02421213; 0x00000000; 0x12010693; 0xfe520213; 0x02521213; 0x00000000;
    0x12010713; 0xfe620213; 0x02621213; 0x00000000; 0x12010793; 0xfe720213; 0x02721213; 0x00000000;
    0x12810413; 0xfe820213; 0x02821213; 0x00000000; 0x12810493; 0xfe920213; 0x02921213; 0x00000000;
    0x12810513; 0xfea20213; 0x02a21213; 0x00000000; 0x12810593; 0xfeb20213; 0x02b21213; 0x00000000;
    0x12810613; 0xfec20213; 0x02c21213; 0x00000000; 0x12810693; 0xfed20213; 0x02d21213; 0x00000000;
    0x12810713; 0xfee20213; 0x02e21213; 0x00000000; 0x12810793; 0xfef20213; 0x02f21213; 0x00000000;
    0x12410413; 0xff020213; 0x03021213; 0x00000000; 0x12410493; 0xff120213; 0x03121213; 0x00000000;
    0x12410513; 0xff220213; 0x03221213; 0x00000000; 0x12410593; 0xff320213; 0x03321213; 0x00000000;
    0x12410613; 0xff420213; 0x03421213; 0x00000000; 0x12410693; 0xff520213; 0x03521213; 0x00000000;
    0x12410713; 0xff620213; 0x03621213; 0x00000000; 0x12410793; 0xff720213; 0x03721213; 0x00000000;
    0x12c10413; 0xff820213; 0x03821213; 0x00000000; 0x12c10493; 0xff920213; 0x03921213; 0x00000000;
    0x12c10513; 0xffa20213; 0x03a21213; 0x00000000; 0x12c10593; 0xffb20213; 0x03b21213; 0x00000000;
    0x12c10613; 0xffc20213; 0x03c21213; 0x00000000; 0x12c10693; 0xffd20213; 0x03d21213; 0x00000000;
    0x12c10713; 0xffe20213; 0x03e21213; 0x00000000; 0x12c10793; 0xfff20213; 0x03f21213; 0x00000000;
    0x16010413; 0xfe028293; 0x02029293; 0x00000000; 0x16010493; 0xfe128293; 0x02129293; 0x00000000;
    0x16010513; 0xfe228293; 0x02229293; 0x00000000; 0x16010593; 0xfe328293; 0x02329293; 0x00000000;
    0x16010613; 0xfe428293; 0x02429293; 0x00000000; 0x16010693; 0xfe528293; 0x02529293; 0x00000000;
    0x16010713; 0xfe628293; 0x02629293; 0x00000000; 0x16010793; 0xfe728293; 0x02729293; 0x00000000;
    0x16810413; 0xfe828293; 0x02829293; 0x00000000; 0x16810493; 0xfe928293; 0x02929293; 0x00000000;
    0x16810513; 0xfea28293; 0x02a29293; 0x00000000; 0x16810593; 0xfeb28293; 0x02b29293; 0x00000000;
    0x16810613; 0xfec28293; 0x02c29293; 0x00000000; 0x16810693; 0xfed28293; 0x02d29293; 0x00000000;
    0x16810713; 0xfee28293; 0x02e29293; 0x00000000; 0x16810793; 0xfef28293; 0x02f29293; 0x00000000;
    0x16410413; 0xff028293; 0x03029293; 0x00000000; 0x16410493; 0xff128293; 0x03129293; 0x00000000;
    0x16410513; 0xff228293; 0x03229293; 0x00000000; 0x16410593; 0xff328293; 0x03329293; 0x00000000;
    0x16410613; 0xff428293; 0x03429293; 0x00000000; 0x16410693; 0xff528293; 0x03529293; 0x00000000;
    0x16410713; 0xff628293; 0x03629293; 0x00000000; 0x16410793; 0xff728293; 0x03729293; 0x00000000;
    0x16c10413; 0xff828293; 0x03829293; 0x00000000; 0x16c10493; 0xff928293; 0x03929293; 0x00000000;
    0x16c10513; 0xffa28293; 0x03a29293; 0x00000000; 0x16c10593; 0xffb28293; 0x03b29293; 0x00000000;
    0x16c10613; 0xffc28293; 0x03c29293; 0x00000000; 0x16c10693; 0xffd28293; 0x03d29293; 0x00000000;
    0x16c10713; 0xffe28293; 0x03e29293; 0x00000000; 0x16c10793; 0xfff28293; 0x03f29293; 0x00000000;
    0x1a010413; 0xfe030313; 0x02031313; 0x00000000; 0x1a010493; 0xfe130313; 0x02131313; 0x00000000;
    0x1a010513; 0xfe230313; 0x02231313; 0x00000000; 0x1a010593; 0xfe330313; 0x02331313; 0x00000000;
    0x1a010613; 0xfe430313; 0x02431313; 0x00000000; 0x1a010693; 0xfe530313; 0x02531313; 0x00000000;
    0x1a010713; 0xfe630313; 0x02631313; 0x00000000; 0x1a010793; 0xfe730313; 0x02731313; 0x00000000;
    0x1a810413; 0xfe830313; 0x02831313; 0x00000000; 0x1a810493; 0xfe930313; 0x02931313; 0x00000000;
    0x1a810513; 0xfea30313; 0x02a31313; 0x00000000; 0x1a810593; 0xfeb30313; 0x02b31313; 0x00000000;
    0x1a810613; 0xfec30313; 0x02c31313; 0x00000000; 0x1a810693; 0xfed30313; 0x02d31313; 0x00000000;
    0x1a810713; 0xfee30313; 0x02e31313; 0x00000000; 0x1a810793; 0xfef30313; 0x02f31313; 0x00000000;
    0x1a410413; 0xff030313; 0x03031313; 0x00000000; 0x1a410493; 0xff130313; 0x03131313; 0x00000000;
    0x1a410513; 0xff230313; 0x03231313; 0x00000000; 0x1a410593; 0xff330313; 0x03331313; 0x00000000;
    0x1a410613; 0xff430313; 0x03431313; 0x00000000; 0x1a410693; 0xff530313; 0x03531313; 0x00000000;
    0x1a410713; 0xff630313; 0x03631313; 0x00000000; 0x1a410793; 0xff730313; 0x03731313; 0x00000000;
    0x1ac10413; 0xff830313; 0x03831313; 0x00000000; 0x1ac10493; 0xff930313; 0x03931313; 0x00000000;
    0x1ac10513; 0xffa30313; 0x03a31313; 0x00000000; 0x1ac10593; 0xffb30313; 0x03b31313; 0x00000000;
    0x1ac10613; 0xffc30313; 0x03c31313; 0x00000000; 0x1ac10693; 0xffd30313; 0x03d31313; 0x00000000;
    0x1ac10713; 0xffe30313; 0x03e31313; 0x00000000; 0x1ac10793; 0xfff30313; 0x03f31313; 0x00000000;
    0x1e010413; 0xfe038393; 0x02039393; 0x00000000; 0x1e010493; 0xfe138393; 0x02139393; 0x00000000;
    0x1e010513; 0xfe238393; 0x02239393; 0x00000000; 0x1e010593; 0xfe338393; 0x02339393; 0x00000000;
    0x1e010613; 0xfe438393; 0x02439393; 0x00000000; 0x1e010693; 0xfe538393; 0x02539393; 0x00000000;
    0x1e010713; 0xfe638393; 0x02639393; 0x00000000; 0x1e010793; 0xfe738393; 0x02739393; 0x00000000;
    0x1e810413; 0xfe838393; 0x02839393; 0x00000000; 0x1e810493; 0xfe938393; 0x02939393; 0x00000000;
    0x1e810513; 0xfea38393; 0x02a39393; 0x00000000; 0x1e810593; 0xfeb38393; 0x02b39393; 0x00000000;
    0x1e810613; 0xfec38393; 0x02c39393; 0x00000000; 0x1e810693; 0xfed38393; 0x02d39393; 0x00000000;
    0x1e810713; 0xfee38393; 0x02e39393; 0x00000000; 0x1e810793; 0xfef38393; 0x02f39393; 0x00000000;
    0x1e410413; 0xff038393; 0x03039393; 0x00000000; 0x1e410493; 0xff138393; 0x03139393; 0x00000000;
    0x1e410513; 0xff238393; 0x03239393; 0x00000000; 0x1e410593; 0xff338393; 0x03339393; 0x00000000;
    0x1e410613; 0xff438393; 0x03439393; 0x00000000; 0x1e410693; 0xff538393; 0x03539393; 0x00000000;
    0x1e410713; 0xff638393; 0x03639393; 0x00000000; 0x1e410793; 0xff738393; 0x03739393; 0x00000000;
    0x1ec10413; 0xff838393; 0x03839393; 0x00000000; 0x1ec10493; 0xff938393; 0x03939393; 0x00000000;
    0x1ec10513; 0xffa38393; 0x03a39393; 0x00000000; 0x1ec10593; 0xffb38393; 0x03b39393; 0x00000000;
    0x1ec10613; 0xffc38393; 0x03c39393; 0x00000000; 0x1ec10693; 0xffd38393; 0x03d39393; 0x00000000;
    0x1ec10713; 0xffe38393; 0x03e39393; 0x00000000; 0x1ec10793; 0xfff38393; 0x03f39393; 0x00000000
].

(** parcels 0x1400 to 0x17ff *)
Definition RVC64_EXPANDED_05 : list Z := [
    0x22010413; 0xfe040413; 0x02041413; 0x00000000; 0x22010493; 0xfe140413; 0x02141413; 0x00000000;
    0x22010513; 0xfe240413; 0x02241413; 0x00000000; 0x22010593; 0xfe340413; 0x02341413; 0x00000000;
    0x22010613; 0xfe440413; 0x02441413; 0x00000000; 0x22010693; 0xfe540413; 0x02541413; 0x00000000;
    0x22010713; 0xfe640413; 0x02641413; 0x00000000; 0x22010793; 0xfe740413; 0x02741413; 0x00000000;
    0x22810413; 0xfe840413; 0x02841413; 0x00000000; 0x22810493; 0xfe940413; 0x02941413; 0x00000000;
    0x22810513; 0xfea40413; 0x02a41413; 0x00000000; 0x22810593; 0xfeb40413; 0x02b41413; 0x00000000;
    0x22810613; 0xfec40413; 0x02c41413; 0x00000000; 0x22810693; 0xfed40413; 0x02d41413; 0x00000000;
    0x22810713; 0xfee40413; 0x02e41413; 0x00000000; 0x22810793; 0xfef40413; 0x02f41413; 0x00000000;
    0x22410413; 0xff040413; 0x03041413; 0x00000000; 0x22410493; 0xff140413; 0x03141413; 0x00000000;
    0x22410513; 0xff240413; 0x03241413; 0x00000000; 0x22410593; 0xff340413; 0x03341413; 0x00000000;
    0x22410613; 0xff440413; 0x03441413; 0x00000000; 0x22410693; 0xff540413; 0x03541413; 0x00000000;
    0x22410713; 0xff640413; 0x03641413; 0x00000000; 0x22410793; 0xff740413; 0x03741413; 0x00000000;
    0x22c10413; 0xff840413; 0x03841413; 0x00000000; 0x22c10493; 0xff940413; 0x03941413; 0x00000000;
    0x22c10513; 0xffa40413; 0x03a41413; 0x00000000; 0x22c10593; 0xffb40413; 0x03b41413; 0x00000000;
    0x22c10613; 0xffc40413; 0x03c41413; 0x00000000; 0x22c10693; 0xffd40413; 0x03d41413; 0x00000000;
    0x22c10713; 0xffe40413; 0x03e41413; 0x00000000; 0x22c10793; 0xfff40413; 0x03f41413; 0x00000000;
    0x26010413; 0xfe048493; 0x02049493; 0x00000000; 0x26010493; 0xfe148493; 0x02149493; 0x00000000;
    0x26010513; 0xfe248493; 0x02249493; 0x00000000; 0x26010593; 0xfe348493; 0x02349493; 0x00000000;
    0x26010613; 0xfe448493; 0x02449493; 0x00000000; 0x26010693; 0xfe548493; 0x02549493; 0x00000000;
    0x26010713; 0xfe648493; 0x02649493; 0x00000000; 0x26010793; 0xfe748493; 0x02749493; 0x00000000;
    0x26810413; 0xfe848493; 0x02849493; 0x00000000; 0x26810493; 0xfe948493; 0x02949493; 0x00000000;
    0x26810513; 0xfea48493; 0x02a49493; 0x00000000; 0x26810593; 0xfeb48493; 0x02b49493; 0x00000000;
    0x26810613; 0xfec48493; 0x02c49493; 0x00000000; 0x26810693; 0xfed48493; 0x02d49493; 0x00000000;
    0x26810713; 0xfee48493; 0x02e49493; 0x00000000; 0x26810793; 0xfef48493; 0x02f49493; 0x00000000;
    0x26410413; 0xff048493; 0x03049493; 0x00000000; 0x26410493; 0xff148493; 0x03149493; 0x00000000;
    0x26410513; 0xff248493; 0x03249493; 0x00000000; 0x26410593; 0xff348493; 0x03349493; 0x00000000;
    0x26410613; 0xff448493; 0x03449493; 0x00000000; 0x26410693; 0xff548493; 0x03549493; 0x00000000;
    0x26410713; 0xff648493; 0x03649493; 0x00000000; 0x26410793; 0xff748493; 0x03749493; 0x00000000;
    0x26c10413; 0xff848493; 0x03849493; 0x00000000; 0x26c10493; 0xff948493; 0x03949493; 0x00000000;
    0x26c10513; 0xffa48493; 0x03a49493; 0x00000000; 0x26c10593; 0xffb48493; 0x03b49493; 0x00000000;
    0x26c10613; 0xffc48493; 0x03c49493; 0x00000000; 0x26c10693; 0xffd48493; 0x03d49493; 0x00000000;
    0x26c10713; 0xffe48493; 0x03e49493; 0x00000000; 0x26c10793; 0xfff48493; 0x03f49493; 0x00000000;
    0x2a010413; 0xfe050513; 0x02051513; 0x00000000; 0x2a010493; 0xfe150513; 0x02151513; 0x00000000;
    0x2a010513; 0xfe250513; 0x02251513; 0x00000000; 0x2a010593; 0xfe350513; 0x02351513; 0x00000000;
    0x2a010613; 0xfe450513; 0x02451513; 0x00000000; 0x2a010693; 0xfe550513; 0x02551513; 0x00000000;
    0x2a010713; 0xfe650513; 0x02651513; 0x00000000; 0x2a010793; 0xfe750513; 0x02751513; 0x00000000;
    0x2a810413; 0xfe850513; 0x02851513; 0x00000000; 0x2a810493; 0xfe950513; 0x02951513; 0x00000000;
    0x2a810513; 0xfea50513; 0x02a51513; 0x00000000; 0x2a810593; 0xfeb50513; 0x02b51513; 0x00000000;
    0x2a810613; 0xfec50513; 0x02c51513; 0x00000000; 0x2a810693; 0xfed50513; 0x02d51513; 0x00000000;
    0x2a810713; 0xfee50513; 0x02e51513; 0x00000000; 0x2a810793; 0xfef50513; 0x02f51513; 0x00000000;
    0x2a410413; 0xff050513; 0x03051513; 0x00000000; 0x2a410493; 0xff150513; 0x03151513; 0x00000000;
    0x2a410513; 0xff250513; 0x03251513; 0x00000000; 0x2a410593; 0xff350513; 0x03351513; 0x00000000;
    0x2a410613; 0xff450513; 0x03451513; 0x00000000; 0x2a410693; 0xff550513; 0x03551513; 0x00000000;
    0x2a410713; 0xff650513; 0x03651513; 0x00000000; 0x2a410793; 0xff750513; 0x03751513; 0x00000000;
    0x2ac10413; 0xff850513; 0x03851513; 0x00000000; 0x2ac10493; 0xff950513; 0x03951513; 0x00000000;
    0x2ac10513; 0xffa50513; 0x03a51513; 0x00000000; 0x2ac10593; 0xffb50513; 0x03b51513; 0x00000000;
    0x2ac10613; 0xffc50513; 0x03c51513; 0x00000000; 0x2ac10693; 0xffd50513; 0x03d51513; 0x00000000;
    0x2ac10713; 0xffe50513; 0x03e51513; 0x00000000; 0x2ac10793; 0xfff50513; 0x03f51513; 0x00000000;
    0x2e010413; 0xfe058593; 0x02059593; 0x00000000; 0x2e010493; 0xfe158593; 0x02159593; 0x00000000;
    0x2e010513; 0xfe258593; 0x02259593; 0x00000000; 0x2e010593; 0xfe358593; 0x02359593; 0x00000000;
    0x2e010613; 0xfe458593; 0x02459593; 0x00000000; 0x2e010693; 0xfe558593; 0x02559593; 0x00000000;
    0x2e010713; 0xfe658593; 0x02659593; 0x00000000; 0x2e010793; 0xfe758593; 0x02759593; 0x00000000;
    0x2e810413; 0xfe858593; 0x02859593; 0x00000000; 0x2e810493; 0xfe958593; 0x02959593; 0x00000000;
    0x2e810513; 0xfea58593; 0x02a59593; 0x00000000; 0x2e810593; 0xfeb58593; 0x02b59593; 0x00000000;
    0x2e810613; 0xfec58593; 0x02c59593; 0x00000000; 0x2e810693; 0xfed58593; 0x02d59593; 0x00000000;
    0x2e810713; 0xfee58593; 0x02e59593; 0x00000000; 0x2e810793; 0xfef58593; 0x02f59593; 0x00000000;
    0x2e410413; 0xff058593; 0x03059593; 0x00000000; 0x2e410493; 0xff158593; 0x03159593; 0x00000000;
    0x2e410513; 0xff258593; 0x03259593; 0x00000000; 0x2e410593; 0xff358593; 0x03359593; 0x00000000;
    0x2e410613; 0xff458593; 0x03459593; 0x00000000; 0x2e410693; 0xff558593; 0x03559593; 0x00000000;
    0x2e410713; 0xff658593; 0x03659593; 0x00000000; 0x2e410793; 0xff758593; 0x03759593; 0x00000000;
    0x2ec10413; 0xff858593; 0x03859593; 0x00000000; 0x2ec10493; 0xff958593; 0x03959593; 0x00000000;
    0x2ec10513; 0xffa58593; 0x03a59593; 0x00000000; 0x2ec10593; 0xffb58593; 0x03b59593; 0x00000000;
    0x2ec10613; 0xffc58593; 0x03c59593; 0x00000000; 0x2ec10693; 0xffd58593; 0x03d59593; 0x00000000;
    0x2ec10713; 0xffe58593; 0x03e59593; 0x00000000; 0x2ec10793; 0xfff58593; 0x03f59593; 0x00000000;
    0x32010413; 0xfe060613; 0x02061613; 0x00000000; 0x32010493; 0xfe160613; 0x02161613; 0x00000000;
    0x32010513; 0xfe260613; 0x02261613; 0x00000000; 0x32010593; 0xfe360613; 0x02361613; 0x00000000;
    0x32010613; 0xfe460613; 0x02461613; 0x00000000; 0x32010693; 0xfe560613; 0x02561613; 0x00000000;
    0x32010713; 0xfe660613; 0x02661613; 0x00000000; 0x32010793; 0xfe760613; 0x02761613; 0x00000000;
    0x32810413; 0xfe860613; 0x02861613; 0x00000000; 0x32810493; 0xfe960613; 0x02961613; 0x00000000;
    0x32810513; 0xfea60613; 0x02a61613; 0x00000000; 0x32810593; 0xfeb60613; 0x02b61613; 0x00000000;
    0x32810613; 0xfec60613; 0x02c61613; 0x00000000; 0x32810693; 0xfed60613; 0x02d61613; 0x00000000;
    0x32810713; 0xfee60613; 0x02e61613; 0x00000000; 0x32810793; 0xfef60613; 0x02f61613; 0x00000000;
    0x32410413; 0xff060613; 0x03061613; 0x00000000; 0x32410493; 0xff160613; 0x03161613; 0x00000000;
    0x32410513; 0xff260613; 0x03261613; 0x00000000; 0x32410593; 0xff360613; 0x03361613; 0x00000000;
    0x32410613; 0xff460613; 0x03461613; 0x00000000; 0x32410693; 0xff560613; 0x03561613; 0x00000000;
    0x32410713; 0xff660613; 0x03661613; 0x00000000; 0x32410793; 0xff760613; 0x03761613; 0x00000000;
    0x32c10413; 0xff860613; 0x03861613; 0x00000000; 0x32c10493; 0xff960613; 0x03961613; 0x00000000;
    0x32c10513; 0xffa60613; 0x03a61613; 0x00000000; 0x32c10593; 0xffb60613; 0x03b61613; 0x00000000;
    0x32c10613; 0xffc60613; 0x03c61613; 0x00000000; 0x32c10693; 0xffd60613; 0x03d61613; 0x00000000;
    0x32c10713; 0xffe60613; 0x03e61613; 0x00000000; 0x32c10793; 0xfff60613; 0x03f61613; 0x00000000;
    0x36010413; 0xfe068693; 0x02069693; 0x00000000; 0x36010493; 0xfe168693; 0x02169693; 0x00000000;
    0x36010513; 0xfe268693; 0x02269693; 0x00000000; 0x36010593; 0xfe368693; 0x02369693; 0x00000000;
    0x36010613; 0xfe468693; 0x02469693; 0x00000000; 0x36010693; 0xfe568693; 0x02569693; 0x00000000;
    0x36010713; 0xfe668693; 0x02669693; 0x00000000; 0x36010793; 0xfe768693; 0x02769693; 0x00000000;
    0x36810413; 0xfe868693; 0x02869693; 0x00000000; 0x36810493; 0xfe968693; 0x02969693; 0x00000000;
    0x36810513; 0xfea68693; 0x02a69693; 0x00000000; 0x36810593; 0xfeb68693; 0x02b69693; 0x00000000;
    0x36810613; 0xfec68693; 0x02c69693; 0x00000000; 0x36810693; 0xfed68693; 0x02d69693; 0x00000000;
    0x36810713; 0xfee68693; 0x02e69693; 0x00000000; 0x36810793; 0xfef68693; 0x02f69693; 0x00000000;
    0x36410413; 0xff068693; 0x03069693; 0x00000000; 0x36410493; 0xff168693; 0x03169693; 0x00000000;
    0x36410513; 0xff268693; 0x03269693; 0x00000000; 0x36410593; 0xff368693; 0x03369693; 0x00000000;
    0x36410613; 0xff468693; 0x03469693; 0x00000000; 0x36410693; 0xff568693; 0x03569693; 0x00000000;
    0x36410713; 0xff668693; 0x03669693; 0x00000000; 0x36410793; 0xff768693; 0x03769693; 0x00000000;
    0x36c10413; 0xff868693; 0x03869693; 0x00000000; 0x36c10493; 0xff968693; 0x03969693; 0x00000000;
    0x36c10513; 0xffa68693; 0x03a69693; 0x00000000; 0x36c10593; 0xffb68693; 0x03b69693; 0x00000000;
    0x36c10613; 0xffc68693; 0x03c69693; 0x00000000; 0x36c10693; 0xffd68693; 0x03d69693; 0x00000000;
    0x36c10713; 0xffe68693; 0x03e69693; 0x00000000; 0x36c10793; 0xfff68693; 0x03f69693; 0x00000000;
    0x3a010413; 0xfe070713; 0x02071713; 0x00000000; 0x3a010493; 0xfe170713; 0x02171713; 0x00000000;
    0x3a010513; 0xfe270713; 0x02271713; 0x00000000; 0x3a010593; 0xfe370713; 0x02371713; 0x00000000;
    0x3a010613; 0xfe470713; 0x02471713; 0x00000000; 0x3a010693; 0xfe570713; 0x02571713; 0x00000000;
    0x3a010713; 0xfe670713; 0x02671713; 0x00000000; 0x3a010793; 0xfe770713; 0x02771713; 0x00000000;
    0x3a810413; 0xfe870713; 0x02871713; 0x00000000; 0x3a810493; 0xfe970713; 0x02971713; 0x00000000;
    0x3a810513; 0xfea70713; 0x02a71713; 0x00000000; 0x3a810593; 0xfeb70713; 0x02b71713; 0x00000000;
    0x3a810613; 0xfec70713; 0x02c71713; 0x00000000; 0x3a810693; 0xfed70713; 0x02d71713; 0x00000000;
    0x3a810713; 0xfee70713; 0x02e71713; 0x00000000; 0x3a810793; 0xfef70713; 0x02f71713; 0x00000000;
    0x3a410413; 0xff070713; 0x03071713; 0x00000000; 0x3a410493; 0xff170713; 0x03171713; 0x00000000;
    0x3a410513; 0xff270713; 0x03271713; 0x00000000; 0x3a410593; 0xff370713; 0x03371713; 0x00000000;
    0x3a410613; 0xff470713; 0x03471713; 0x00000000; 0x3a410693; 0xff570713; 0x03571713; 0x00000000;
    0x3a410713; 0xff670713; 0x03671713; 0x00000000; 0x3a410793; 0xff770713; 0x03771713; 0x00000000;
    0x3ac10413; 0xff870713; 0x03871713; 0x00000000; 0x3ac10493; 0xff970713; 0x03971713; 0x00000000;
    0x3ac10513; 0xffa70713; 0x03a71713; 0x00000000; 0x3ac10593; 0xffb70713; 0x03b71713; 0x00000000;
    0x3ac10613; 0xffc70713; 0x03c71713; 0x00000000; 0x3ac10693; 0xffd70713; 0x03d71713; 0x00000000;
    0x3ac10713; 0xffe70713; 0x03e71713; 0x00000000; 0x3ac10793; 0xfff70713; 0x03f71713; 0x00000000;
    0x3e010413; 0xfe078793; 0x02079793; 0x00000000; 0x3e010493; 0xfe178793; 0x02179793; 0x00000000;
    0x3e010513; 0xfe278793; 0x02279793; 0x00000000; 0x3e010593; 0xfe378793; 0x02379793; 0x00000000;
    0x3e010613; 0xfe478793; 0x02479793; 0x00000000; 0x3e010693; 0xfe578793; 0x02579793; 0x00000000;
    0x3e010713; 0xfe678793; 0x02679793; 0x00000000; 0x3e010793; 0xfe778793; 0x02779793; 0x00000000;
    0x3e810413; 0xfe878793; 0x02879793; 0x00000000; 0x3e810493; 0xfe978793; 0x02979793; 0x00000000;
    0x3e810513; 0xfea78793; 0x02a79793; 0x00000000; 0x3e810593; 0xfeb78793; 0x02b79793; 0x00000000;
    0x3e810613; 0xfec78793; 0x02c79793; 0x00000000; 0x3e810693; 0xfed78793; 0x02d79793; 0x00000000;
    0x3e810713; 0xfee78793; 0x02e79793; 0x00000000; 0x3e810793; 0xfef78793; 0x02f79793; 0x00000000;
    0x3e410413; 0xff078793; 0x03079793; 0x00000000; 0x3e410493; 0xff178793; 0x03179793; 0x00000000;
    0x3e410513; 0xff278793; 0x03279793; 0x00000000; 0x3e410593; 0xff378793; 0x03379793; 0x00000000;
    0x3e410613; 0xff478793; 0x03479793; 0x00000000; 0x3e410693; 0xff578793; 0x03579793; 0x00000000;
    0x3e410713; 0xff678793; 0x03679793; 0x00000000; 0x3e410793; 0xff778793; 0x03779793; 0x00000000;
    0x3ec10413; 0xff878793; 0x03879793; 0x00000000; 0x3ec10493; 0xff978793; 0x03979793; 0x00000000;
    0x3ec10513; 0xffa78793; 0x03a79793; 0x00000000; 0x3ec10593; 0xffb78793; 0x03b79793; 0x00000000;
    0x3ec10613; 0xffc78793; 0x03c79793; 0x00000000; 0x3ec10693; 0xffd78793; 0x03d79793; 0x00000000;
    0x3ec10713; 0xffe78793; 0x03e79793; 0x00000000; 0x3ec10793; 0xfff78793; 0x03f79793; 0x00000000
].

(** parcels 0x1800 to 0x1bff *)
Definition RVC64_EXPANDED_06 : list Z := [
    0x03010413; 0xfe080813; 0x02081813; 0x00000000; 0x03010493; 0xfe180813; 0x02181813; 0x00000000;
    0x03010513; 0xfe280813; 0x02281813; 0x00000000; 0x03010593; 0xfe380813; 0x02381813; 0x00000000;
    0x03010613; 0xfe480813; 0x02481813; 0x00000000; 0x03010693; 0xfe580813; 0x02581813; 0x00000000;
    0x03010713; 0xfe680813; 0x02681813; 0x00000000; 0x03010793; 0xfe780813; 0x02781813; 0x00000000;
    0x03810413; 0xfe880813; 0x02881813; 0x00000000; 0x03810493; 0xfe980813; 0x02981813; 0x00000000;
    0x03810513; 0xfea80813; 0x02a81813; 0x00000000; 0x03810593; 0xfeb80813; 0x02b81813; 0x00000000;
    0x03810613; 0xfec80813; 0x02c81813; 0x00000000; 0x03810693; 0xfed80813; 0x02d81813; 0x00000000;
    0x03810713; 0xfee80813; 0x02e81813; 0x00000000; 0x03810793; 0xfef80813; 0x02f81813; 0x00000000;
    0x03410413; 0xff080813; 0x03081813; 0x00000000; 0x03410493; 0xff180813; 0x03181813; 0x00000000;
    0x03410513; 0xff280813; 0x03281813; 0x00000000; 0x03410593; 0xff380813; 0x03381813; 0x00000000;
    0x03410613; 0xff480813; 0x03481813; 0x00000000; 0x03410693; 0xff580813; 0x03581813; 0x00000000;
    0x03410713; 0xff680813; 0x03681813; 0x00000000; 0x03410793; 0xff780813; 0x03781813; 0x00000000;
    0x03c10413; 0xff880813; 0x03881813; 0x00000000; 0x03c10493; 0xff980813; 0x03981813; 0x00000000;
    0x03c10513; 0xffa80813; 0x03a81813; 0x00000000; 0x03c10593; 0xffb80813; 0x03b81813; 0x00000000;
    0x03c10613; 0xffc80813; 0x03c81813; 0x00000000; 0x03c10693; 0xffd80813; 0x03d81813; 0x00000000;
    0x03c10713; 0xffe80813; 0x03e81813; 0x00000000; 0x03c10793; 0xfff80813; 0x03f81813; 0x00000000;
    0x07010413; 0xfe088893; 0x02089893; 0x00000000; 0x07010493; 0xfe188893; 0x02189893; 0x00000000;
    0x07010513; 0xfe288893; 0x02289893; 0x00000000; 0x07010593; 0xfe388893; 0x02389893; 0x00000000;
    0x07010613; 0xfe488893; 0x02489893; 0x00000000; 0x07010693; 0xfe588893; 0x02589893; 0x00000000;
    0x07010713; 0xfe688893; 0x02689893; 0x00000000; 0x07010793; 0xfe788893; 0x02789893; 0x00000000;
    0x07810413; 0xfe888893; 0x02889893; 0x00000000; 0x07810493; 0xfe988893; 0x02989893; 0x00000000;
    0x07810513; 0xfea88893; 0x02a89893; 0x00000000; 0x07810593; 0xfeb88893; 0x02b89893; 0x00000000;
    0x07810613; 0xfec88893; 0x02c89893; 0x00000000; 0x07810693; 0xfed88893; 0x02d89893; 0x00000000;
    0x07810713; 0xfee88893; 0x02e89893; 0x00000000; 0x07810793; 0xfef88893; 0x02f89893; 0x00000000;
    0x07410413; 0xff088893; 0x03089893; 0x00000000; 0x07410493; 0xff188893; 0x03189893; 0x00000000;
    0x07410513; 0xff288893; 0x03289893; 0x00000000; 0x07410593; 0xff388893; 0x03389893; 0x00000000;
    0x07410613; 0xff488893; 0x03489893; 0x00000000; 0x07410693; 0xff588893; 0x03589893; 0x00000000;
    0x07410713; 0xff688893; 0x03689893; 0x00000000; 0x07410793; 0xff788893; 0x03789893; 0x00000000;
    0x07c10413; 0xff888893; 0x03889893; 0x00000000; 0x07c10493; 0xff988893; 0x03989893; 0x00000000;
    0x07c10513; 0xffa88893; 0x03a89893; 0x00000000; 0x07c10593; 0xffb88893; 0x03b89893; 0x00000000;
    0x07c10613; 0xffc88893; 0x03c89893; 0x00000000; 0x07c10693; 0xffd88893; 0x03d89893; 0x00000000;
    0x07c10713; 0xffe88893; 0x03e89893; 0x00000000; 0x07c10793; 0xfff88893; 0x03f89893; 0x00000000;
    0x0b010413; 0xfe090913; 0x02091913; 0x00000000; 0x0b010493; 0xfe190913; 0x02191913; 0x00000000;
    0x0b010513; 0xfe290913; 0x02291913; 0x00000000; 0x0b010593; 0xfe390913; 0x02391913; 0x00000000;
    0x0b010613; 0xfe490913; 0x02491913; 0x00000000; 0x0b010693; 0xfe590913; 0x02591913; 0x00000000;
    0x0b010713; 0xfe690913; 0x02691913; 0x00000000; 0x0b010793; 0xfe790913; 0x02791913; 0x00000000;
    0x0b810413; 0xfe890913; 0x02891913; 0x00000000; 0x0b810493; 0xfe990913; 0x02991913; 0x00000000;
    0x0b810513; 0xfea90913; 0x02a91913; 0x00000000; 0x0b810593; 0xfeb90913; 0x02b91913; 0x00000000;
    0x0b810613; 0xfec90913; 0x02c91913; 0x00000000; 0x0b810693; 0xfed90913; 0x02d91913; 0x00000000;
    0x0b810713; 0xfee90913; 0x02e91913; 0x00000000; 0x0b810793; 0xfef90913; 0x02f91913; 0x00000000;
    0x0b410413; 0xff090913; 0x03091913; 0x00000000; 0x0b410493; 0xff190913; 0x03191913; 0x00000000;
    0x0b410513; 0xff290913; 0x03291913; 0x00000000; 0x0b410593; 0xff390913; 0x03391913; 0x00000000;
    0x0b410613; 0xff490913; 0x03491913; 0x00000000; 0x0b410693; 0xff590913; 0x03591913; 0x00000000;
    0x0b410713; 0xff690913; 0x03691913; 0x00000000; 0x0b410793; 0xff790913; 0x03791913; 0x00000000;
    0x0bc10413; 0xff890913; 0x03891913; 0x00000000; 0x0bc10493; 0xff990913; 0x03991913; 0x00000000;
    0x0bc10513; 0xffa90913; 0x03a91913; 0x00000000; 0x0bc10593; 0xffb90913; 0x03b91913; 0x00000000;
    0x0bc10613; 0xffc90913; 0x03c91913; 0x00000000; 0x0bc10693; 0xffd90913; 0x03d91913; 0x00000000;
    0x0bc10713; 0xffe90913; 0x03e91913; 0x00000000; 0x0bc10793; 0xfff90913; 0x03f91913; 0x00000000;
    0x0f010413; 0xfe098993; 0x02099993; 0x00000000; 0x0f010493; 0xfe198993; 0x02199993; 0x00000000;
    0x0f010513; 0xfe298993; 0x02299993; 0x00000000; 0x0f010593; 0xfe398993; 0x02399993; 0x00000000;
    0x0f010613; 0xfe498993; 0x02499993; 0x00000000; 0x0f010693; 0xfe598993; 0x02599993; 0x00000000;
    0x0f010713; 0xfe698993; 0x02699993; 0x00000000; 0x0f010793; 0xfe798993; 0x02799993; 0x00000000;
    0x0f810413; 0xfe898993; 0x02899993; 0x00000000; 0x0f810493; 0xfe998993; 0x02999993; 0x00000000;
    0x0f810513; 0xfea98993; 0x02a99993; 0x00000000; 0x0f810593; 0xfeb98993; 0x02b99993; 0x00000000;
    0x0f810613; 0xfec98993; 0x02c99993; 0x00000000; 0x0f810693; 0xfed98993; 0x02d99993; 0x00000000;
    0x0f810713; 0xfee98993; 0x02e99993; 0x00000000; 0x0f810793; 0xfef98993; 0x02f99993; 0x00000000;
    0x0f410413; 0xff098993; 0x03099993; 0x00000000; 0x0f410493; 0xff198993; 0x03199993; 0x00000000;
    0x0f410513; 0xff298993; 0x03299993; 0x00000000; 0x0f410593; 0xff398993; 0x03399993; 0x00000000;
    0x0f410613; 0xff498993; 0x03499993; 0x00000000; 0x0f410693; 0xff598993; 0x03599993; 0x00000000;
    0x0f410713; 0xff698993; 0x03699993; 0x00000000; 0x0f410793; 0xff798993; 0x03799993; 0x00000000;
    0x0fc10413; 0xff898993; 0x03899993; 0x00000000; 0x0fc10493; 0xff998993; 0x03999993; 0x00000000;
    0x0fc10513; 0xffa98993; 0x03a99993; 0x00000000; 0x0fc10593; 0xffb98993; 0x03b99993; 0x00000000;
    0x0fc10613; 0xffc98993; 0x03c99993; 0x00000000; 0x0fc10693; 0xffd98993; 0x03d99993; 0x00000000;
    0x0fc10713; 0xffe98993; 0x03e99993; 0x00000000; 0x0fc10793; 0xfff98993; 0x03f99993; 0x00000000;
    0x13010413; 0xfe0a0a13; 0x020a1a13; 0x00000000; 0x13010493; 0xfe1a0a13; 0x021a1a13; 0x00000000;
    0x13010513; 0xfe2a0a13; 0x022a1a13; 0x00000000; 0x13010593; 0xfe3a0a13; 0x023a1a13; 0x00000000;
    0x13010613; 0xfe4a0a13; 0x024a1a13; 0x00000000; 0x13010693; 0xfe5a0a13; 0x025a1a13; 0x00000000;
    0x13010713; 0xfe6a0a13; 0x026a1a13; 0x00000000; 0x13010793; 0xfe7a0a13; 0x027a1a13; 0x00000000;
    0x13810413; 0xfe8a0a13; 0x028a1a13; 0x00000000; 0x13810493; 0xfe9a0a13; 0x029a1a13; 0x00000000;
    0x13810513; 0xfeaa0a13; 0x02aa1a13; 0x00000000; 0x13810593; 0xfeba0a13; 0x02ba1a13; 0x00000000;
    0x13810613; 0xfeca0a13; 0x02ca1a13; 0x00000000; 0x13810693; 0xfeda0a13; 0x02da1a13; 0x00000000;
    0x13810713; 0xfeea0a13; 0x02ea1a13; 0x00000000; 0x13810793; 0xfefa0a13; 0x02fa1a13; 0x00000000;
    0x13410413; 0xff0a0a13; 0x030a1a13; 0x00000000; 0x13410493; 0xff1a0a13; 0x031a1a13; 0x00000000;
    0x13410513; 0xff2a0a13; 0x032a1a13; 0x00000000; 0x13410593; 0xff3a0a13; 0x033a1a13; 0x00000000;
    0x13410613; 0xff4a0a13; 0x034a1a13; 0x00000000; 0x13410693; 0xff5a0a13; 0x035a1a13; 0x00000000;
    0x13410713; 0xff6a0a13; 0x036a1a13; 0x00000000; 0x13410793; 0xff7a0a13; 0x037a1a13; 0x00000000;
    0x13c10413; 0xff8a0a13; 0x038a1a13; 0x00000000; 0x13c10493; 0xff9a0a13; 0x039a1a13; 0x00000000;
    0x13c10513; 0xffaa0a13; 0x03aa1a13; 0x00000000; 0x13c10593; 0xffba0a13; 0x03ba1a13; 0x00000000;
    0x13c10613; 0xffca0a13; 0x03ca1a13; 0x00000000; 0x13c10693; 0xffda0a13; 0x03da1a13; 0x00000000;
    0x13c10713; 0xffea0a13; 0x03ea1a13; 0x00000000; 0x13c10793; 0xfffa0a13; 0x03fa1a13; 0x00000000;
    0x17010413; 0xfe0a8a93; 0x020a9a93; 0x00000000; 0x17010493; 0xfe1a8a93; 0x021a9a93; 0x00000000;
    0x17010513; 0xfe2a8a93; 0x022a9a93; 0x00000000; 0x17010593; 0xfe3a8a93; 0x023a9a93; 0x00000000;
    0x17010613; 0xfe4a8a93; 0x024a9a93; 0x00000000; 0x17010693; 0xfe5a8a93; 0x025a9a93; 0x00000000;
    0x17010713; 0xfe6a8a93; 0x026a9a93; 0x00000000; 0x17010793; 0xfe7a8a93; 0x027a9a93; 0x00000000;
    0x17810413; 0xfe8a8a93; 0x028a9a93; 0x00000000; 0x17810493; 0xfe9a8a93; 0x029a9a93; 0x00000000;
    0x17810513; 0xfeaa8a93; 0x02aa9a93; 0x00000000; 0x17810593; 0xfeba8a93; 0x02ba9a93; 0x00000000;
    0x17810613; 0xfeca8a93; 0x02ca9a93; 0x00000000; 0x17810693; 0xfeda8a93; 0x02da9a93; 0x00000000;
    0x17810713; 0xfeea8a93; 0x02ea9a93; 0x00000000; 0x17810793; 0xfefa8a93; 0x02fa9a93; 0x00000000;
    0x17410413; 0xff0a8a93; 0x030a9a93; 0x00000000; 0x17410493; 0xff1a8a93; 0x031a9a93; 0x00000000;
    0x17410513; 0xff2a8a93; 0x032a9a93; 0x00000000; 0x17410593; 0xff3a8a93; 0x033a9a93; 0x00000000;
    0x17410613; 0xff4a8a93; 0x034a9a93; 0x00000000; 0x17410693; 0xff5a8a93; 0x035a9a93; 0x00000000;
    0x17410713; 0xff6a8a93; 0x036a9a93; 0x00000000; 0x17410793; 0xff7a8a93; 0x037a9a93; 0x00000000;
    0x17c10413; 0xff8a8a93; 0x038a9a93; 0x00000000; 0x17c10493; 0xff9a8a93; 0x039a9a93; 0x00000000;
    0x17c10513; 0xffaa8a93; 0x03aa9a93; 0x00000000; 0x17c10593; 0xffba8a93; 0x03ba9a93; 0x00000000;
    0x17c10613; 0xffca8a93; 0x03ca9a93; 0x00000000; 0x17c10693; 0xffda8a93; 0x03da9a93; 0x00000000;
    0x17c10713; 0xffea8a93; 0x03ea9a93; 0x00000000; 0x17c10793; 0xfffa8a93; 0x03fa9a93; 0x00000000;
    0x1b010413; 0xfe0b0b13; 0x020b1b13; 0x00000000; 0x1b010493; 0xfe1b0b13; 0x021b1b13; 0x00000000;
    0x1b010513; 0xfe2b0b13; 0x022b1b13; 0x00000000; 0x1b010593; 0xfe3b0b13; 0x023b1b13; 0x00000000;
    0x1b010613; 0xfe4b0b13; 0x024b1b13; 0x00000000; 0x1b010693; 0xfe5b0b13; 0x025b1b13; 0x00000000;
    0x1b010713; 0xfe6b0b13; 0x026b1b13; 0x00000000; 0x1b010793; 0xfe7b0b13; 0x027b1b13; 0x00000000;
    0x1b810413; 0xfe8b0b13; 0x028b1b13; 0x00000000; 0x1b810493; 0xfe9b0b13; 0x029b1b13; 0x00000000;
    0x1b810513; 0xfeab0b13; 0x02ab1b13; 0x00000000; 0x1b810593; 0xfebb0b13; 0x02bb1b13; 0x00000000;
    0x1b810613; 0xfecb0b13; 0x02cb1b13; 0x00000000; 0x1b810693; 0xfedb0b13; 0x02db1b13; 0x00000000;
    0x1b810713; 0xfeeb0b13; 0x02eb1b13; 0x00000000; 0x1b810793; 0xfefb0b13; 0x02fb1b13; 0x00000000;
    0x1b410413; 0xff0b0b13; 0x030b1b13; 0x00000000; 0x1b410493; 0xff1b0b13; 0x031b1b13; 0x00000000;
    0x1b410513; 0xff2b0b13; 0x032b1b13; 0x00000000; 0x1b410593; 0xff3b0b13; 0x033b1b13; 0x00000000;
    0x1b410613; 0xff4b0b13; 0x034b1b13; 0x00000000; 0x1b410693; 0xff5b0b13; 0x035b1b13; 0x00000000;
    0x1b410713; 0xff6b0b13; 0x036b1b13; 0x00000000; 0x1b410793; 0xff7b0b13; 0x037b1b13; 0x00000000;
    0x1bc10413; 0xff8b0b13; 0x038b1b13; 0x00000000; 0x1bc10493; 0xff9b0b13; 0x039b1b13; 0x00000000;
    0x1bc10513; 0xffab0b13; 0x03ab1b13; 0x00000000; 0x1bc10593; 0xffbb0b13; 0x03bb1b13; 0x00000000;
    0x1bc10613; 0xffcb0b13; 0x03cb1b13; 0x00000000; 0x1bc10693; 0xffdb0b13; 0x03db1b13; 0x00000000;
    0x1bc10713; 0xffeb0b13; 0x03eb1b13; 0x00000000; 0x1bc10793; 0xfffb0b13; 0x03fb1b13; 0x00000000;
    0x1f010413; 0xfe0b8b93; 0x020b9b93; 0x00000000; 0x1f010493; 0xfe1b8b93; 0x021b9b93; 0x00000000;
    0x1f010513; 0xfe2b8b93; 0x022b9b93; 0x00000000; 0x1f010593; 0xfe3b8b93; 0x023b9b93; 0x00000000;
    0x1f010613; 0xfe4b8b93; 0x024b9b93; 0x00000000; 0x1f010693; 0xfe5b8b93; 0x025b9b93; 0x00000000;
    0x1f010713; 0xfe6b8b93; 0x026b9b93; 0x00000000; 0x1f010793; 0xfe7b8b93; 0x027b9b93; 0x00000000;
    0x1f810413; 0xfe8b8b93; 0x028b9b93; 0x00000000; 0x1f810493; 0xfe9b8b93; 0x029b9b93; 0x00000000;
    0x1f810513; 0xfeab8b93; 0x02ab9b93; 0x00000000; 0x1f810593; 0xfebb8b93; 0x02bb9b93; 0x00000000;
    0x1f810613; 0xfecb8b93; 0x02cb9b93; 0x00000000; 0x1f810693; 0xfedb8b93; 0x02db9b93; 0x00000000;
    0x1f810713; 0xfeeb8b93; 0x02eb9b93; 0x00000000; 0x1f810793; 0xfefb8b93; 0x02fb9b93; 0x00000000;
    0x1f410413; 0xff0b8b93; 0x030b9b93; 0x00000000; 0x1f410493; 0xff1b8b93; 0x031b9b93; 0x00000000;
    0x1f410513; 0xff2b8b93; 0x032b9b93; 0x00000000; 0x1f410593; 0xff3b8b93; 0x033b9b93; 0x00000000;
    0x1f410613; 0xff4b8b93; 0x034b9b93; 0x00000000; 0x1f410693; 0xff5b8b93; 0x035b9b93; 0x00000000;
    0x1f410713; 0xff6b8b93; 0x036b9b93; 0x00000000; 0x1f410793; 0xff7b8b93; 0x037b9b93; 0x00000000;
    0x1fc10413; 0xff8b8b93; 0x038b9b93; 0x00000000; 0x1fc10493; 0xff9b8b93; 0x039b9b93; 0x00000000;
    0x1fc10513; 0xffab8b93; 0x03ab9b93; 0x00000000; 0x1fc10593; 0xffbb8b93; 0x03bb9b93; 0x00000000;
    0x1fc10613; 0xffcb8b93; 0x03cb9b93; 0x00000000; 0x1fc10693; 0xffdb8b93; 0x03db9b93; 0x00000000;
    0x1fc10713; 0xffeb8b93; 0x03eb9b93; 0x00000000; 0x1fc10793; 0xfffb8b93; 0x03fb9b93; 0x00000000
].

(** parcels 0x1c00 to 0x1fff *)
Definition RVC64_EXPANDED_07 : list Z := [
    0x23010413; 0xfe0c0c13; 0x020c1c13; 0x00000000; 0x23010493; 0xfe1c0c13; 0x021c1c13; 0x00000000;
    0x23010513; 0xfe2c0c13; 0x022c1c13; 0x00000000; 0x23010593; 0xfe3c0c13; 0x023c1c13; 0x00000000;
    0x23010613; 0xfe4c0c13; 0x024c1c13; 0x00000000; 0x23010693; 0xfe5c0c13; 0x025c1c13; 0x00000000;
    0x23010713; 0xfe6c0c13; 0x026c1c13; 0x00000000; 0x23010793; 0xfe7c0c13; 0x027c1c13; 0x00000000;
    0x23810413; 0xfe8c0c13; 0x028c1c13; 0x00000000; 0x23810493; 0xfe9c0c13; 0x029c1c13; 0x00000000;
    0x23810513; 0xfeac0c13; 0x02ac1c13; 0x00000000; 0x23810593; 0xfebc0c13; 0x02bc1c13; 0x00000000;
    0x23810613; 0xfecc0c13; 0x02cc1c13; 0x00000000; 0x23810693; 0xfedc0c13; 0x02dc1c13; 0x00000000;
    0x23810713; 0xfeec0c13; 0x02ec1c13; 0x00000000; 0x23810793; 0xfefc0c13; 0x02fc1c13; 0x00000000;
    0x23410413; 0xff0c0c13; 0x030c1c13; 0x00000000; 0x23410493; 0xff1c0c13; 0x031c1c13; 0x00000000;
    0x23410513; 0xff2c0c13; 0x032c1c13; 0x00000000; 0x23410593; 0xff3c0c13; 0x033c1c13; 0x00000000;
    0x23410613; 0xff4c0c13; 0x034c1c13; 0x00000000; 0x23410693; 0xff5c0c13; 0x035c1c13; 0x00000000;
    0x23410713; 0xff6c0c13; 0x036c1c13; 0x00000000; 0x23410793; 0xff7c0c13; 0x037c1c13; 0x00000000;
    0x23c10413; 0xff8c0c13; 0x038c1c13; 0x00000000; 0x23c10493; 0xff9c0c13; 0x039c1c13; 0x00000000;
    0x23c10513; 0xffac0c13; 0x03ac1c13; 0x00000000; 0x23c10593; 0xffbc0c13; 0x03bc1c13; 0x00000000;
    0x23c10613; 0xffcc0c13; 0x03cc1c13; 0x00000000; 0x23c10693; 0xffdc0c13; 0x03dc1c13; 0x00000000;
    0x23c10713; 0xffec0c13; 0x03ec1c13; 0x00000000; 0x23c10793; 0xfffc0c13; 0x03fc1c13; 0x00000000;
    0x27010413; 0xfe0c8c93; 0x020c9c93; 0x00000000; 0x27010493; 0xfe1c8c93; 0x021c9c93; 0x00000000;
    0x27010513; 0xfe2c8c93; 0x022c9c93; 0x00000000; 0x27010593; 0xfe3c8c93; 0x023c9c93; 0x00000000;
    0x27010613; 0xfe4c8c93; 0x024c9c93; 0x00000000; 0x27010693; 0xfe5c8c93; 0x025c9c93; 0x00000000;
    0x27010713; 0xfe6c8c93; 0x026c9c93; 0x00000000; 0x27010793; 0xfe7c8c93; 0x027c9c93; 0x00000000;
    0x27810413; 0xfe8c8c93; 0x028c9c93; 0x00000000; 0x27810493; 0xfe9c8c93; 0x029c9c93; 0x00000000;
    0x27810513; 0xfeac8c93; 0x02ac9c93; 0x00000000; 0x27810593; 0xfebc8c93; 0x02bc9c93; 0x00000000;
    0x27810613; 0xfecc8c93; 0x02cc9c93; 0x00000000; 0x27810693; 0xfedc8c93; 0x02dc9c93; 0x00000000;
    0x27810713; 0xfeec8c93; 0x02ec9c93; 0x00000000; 0x27810793; 0xfefc8c93; 0x02fc9c93; 0x00000000;
    0x27410413; 0xff0c8c93; 0x030c9c93; 0x00000000; 0x27410493; 0xff1c8c93; 0x031c9c93; 0x00000000;
    0x27410513; 0xff2c8c93; 0x032c9c93; 0x00000000; 0x27410593; 0xff3c8c93; 0x033c9c93; 0x00000000;
    0x27410613; 0xff4c8c93; 0x034c9c93; 0x00000000; 0x27410693; 0xff5c8c93; 0x035c9c93; 0x00000000;
    0x27410713; 0xff6c8c93; 0x036c9c93; 0x00000000; 0x27410793; 0xff7c8c93; 0x037c9c93; 0x00000000;
    0x27c10413; 0xff8c8c93; 0x038c9c93; 0x00000000; 0x27c10493; 0xff9c8c93; 0x039c9c93; 0x00000000;
    0x27c10513; 0xffac8c93; 0x03ac9c93; 0x00000000; 0x27c10593; 0xffbc8c93; 0x03bc9c93; 0x00000000;
    0x27c10613; 0xffcc8c93; 0x03cc9c93; 0x00000000; 0x27c10693; 0xffdc8c93; 0x03dc9c93; 0x00000000;
    0x27c10713; 0xffec8c93; 0x03ec9c93; 0x00000000; 0x27c10793; 0xfffc8c93; 0x03fc9c93; 0x00000000;
    0x2b010413; 0xfe0d0d13; 0x020d1d13; 0x00000000; 0x2b010493; 0xfe1d0d13; 0x021d1d13; 0x00000000;
    0x2b010513; 0xfe2d0d13; 0x022d1d13; 0x00000000; 0x2b010593; 0xfe3d0d13; 0x023d1d13; 0x00000000;
    0x2b010613; 0xfe4d0d13; 0x024d1d13; 0x00000000; 0x2b010693; 0xfe5d0d13; 0x025d1d13; 0x00000000;
    0x2b010713; 0xfe6d0d13; 0x026d1d13; 0x00000000; 0x2b010793; 0xfe7d0d13; 0x027d1d13; 0x00000000;
    0x2b810413; 0xfe8d0d13; 0x028d1d13; 0x00000000; 0x2b810493; 0xfe9d0d13; 0x029d1d13; 0x00000000;
    0x2b810513; 0xfead0d13; 0x02ad1d13; 0x00000000; 0x2b810593; 0xfebd0d13; 0x02bd1d13; 0x00000000;
    0x2b810613; 0xfecd0d13; 0x02cd1d13; 0x00000000; 0x2b810693; 0xfedd0d13; 0x02dd1d13; 0x00000000;
    0x2b810713; 0xfeed0d13; 0x02ed1d13; 0x00000000; 0x2b810793; 0xfefd0d13; 0x02fd1d13; 0x00000000;
    0x2b410413; 0xff0d0d13; 0x030d1d13; 0x00000000; 0x2b410493; 0xff1d0d13; 0x031d1d13; 0x00000000;
    0x2b410513; 0xff2d0d13; 0x032d1d13; 0x00000000; 0x2b410593; 0xff3d0d13; 0x033d1d13; 0x00000000;
    0x2b410613; 0xff4d0d13; 0x034d1d13; 0x00000000; 0x2b410693; 0xff5d0d13; 0x035d1d13; 0x00000000;
    0x2b410713; 0xff6d0d13; 0x036d1d13; 0x00000000; 0x2b410793; 0xff7d0d13; 0x037d1d13; 0x00000000;
    0x2bc10413; 0xff8d0d13; 0x038d1d13; 0x00000000; 0x2bc10493; 0xff9d0d13; 0x039d1d13; 0x00000000;
    0x2bc10513; 0xffad0d13; 0x03ad1d13; 0x00000000; 0x2bc10593; 0xffbd0d13; 0x03bd1d13; 0x00000000;
    0x2bc10613; 0xffcd0d13; 0x03cd1d13; 0x00000000; 0x2bc10693; 0xffdd0d13; 0x03dd1d13; 0x00000000;
    0x2bc10713; 0xffed0d13; 0x03ed1d13; 0x00000000; 0x2bc10793; 0xfffd0d13; 0x03fd1d13; 0x00000000;
    0x2f010413; 0xfe0d8d93; 0x020d9d93; 0x00000000; 0x2f010493; 0xfe1d8d93; 0x021d9d93; 0x00000000;
    0x2f010513; 0xfe2d8d93; 0x022d9d93; 0x00000000; 0x2f010593; 0xfe3d8d93; 0x023d9d93; 0x00000000;
    0x2f010613; 0xfe4d8d93; 0x024d9d93; 0x00000000; 0x2f010693; 0xfe5d8d93; 0x025d9d93; 0x00000000;
    0x2f010713; 0xfe6d8d93; 0x026d9d93; 0x00000000; 0x2f010793; 0xfe7d8d93; 0x027d9d93; 0x00000000;
    0x2f810413; 0xfe8d8d93; 0x028d9d93; 0x00000000; 0x2f810493; 0xfe9d8d93; 0x029d9d93; 0x00000000;
    0x2f810513; 0xfead8d93; 0x02ad9d93; 0x00000000; 0x2f810593; 0xfebd8d93; 0x02bd9d93; 0x00000000;
    0x2f810613; 0xfecd8d93; 0x02cd9d93; 0x00000000; 0x2f810693; 0xfedd8d93; 0x02dd9d93; 0x00000000;
    0x2f810713; 0xfeed8d93; 0x02ed9d93; 0x00000000; 0x2f810793; 0xfefd8d93; 0x02fd9d93; 0x00000000;
    0x2f410413; 0xff0d8d93; 0x030d9d93; 0x00000000; 0x2f410493; 0xff1d8d93; 0x031d9d93; 0x00000000;
    0x2f410513; 0xff2d8d93; 0x032d9d93; 0x00000000; 0x2f410593; 0xff3d8d93; 0x033d9d93; 0x00000000;
    0x2f410613; 0xff4d8d93; 0x034d9d93; 0x00000000; 0x2f410693; 0xff5d8d93; 0x035d9d93; 0x00000000;
    0x2f410713; 0xff6d8d93; 0x036d9d93; 0x00000000; 0x2f410793; 0xff7d8d93; 0x037d9d93; 0x00000000;
    0x2fc10413; 0xff8d8d93; 0x038d9d93; 0x00000000; 0x2fc10493; 0xff9d8d93; 0x039d9d93; 0x00000000;
    0x2fc10513; 0xffad8d93; 0x03ad9d93; 0x00000000; 0x2fc10593; 0xffbd8d93; 0x03bd9d93; 0x00000000;
    0x2fc10613; 0xffcd8d93; 0x03cd9d93; 0x00000000; 0x2fc10693; 0xffdd8d93; 0x03dd9d93; 0x00000000;
    0x2fc10713; 0xffed8d93; 0x03ed9d93; 0x00000000; 0x2fc10793; 0xfffd8d93; 0x03fd9d93; 0x00000000;
    0x33010413; 0xfe0e0e13; 0x020e1e13; 0x00000000; 0x33010493; 0xfe1e0e13; 0x021e1e13; 0x00000000;
    0x33010513; 0xfe2e0e13; 0x022e1e13; 0x00000000; 0x33010593; 0xfe3e0e13; 0x023e1e13; 0x00000000;
    0x33010613; 0xfe4e0e13; 0x024e1e13; 0x00000000; 0x33010693; 0xfe5e0e13; 0x025e1e13; 0x00000000;
    0x33010713; 0xfe6e0e13; 0x026e1e13; 0x00000000; 0x33010793; 0xfe7e0e13; 0x027e1e13; 0x00000000;
    0x33810413; 0xfe8e0e13; 0x028e1e13; 0x00000000; 0x33810493; 0xfe9e0e13; 0x029e1e13; 0x00000000;
    0x33810513; 0xfeae0e13; 0x02ae1e13; 0x00000000; 0x33810593; 0xfebe0e13; 0x02be1e13; 0x00000000;
    0x33810613; 0xfece0e13; 0x02ce1e13; 0x00000000; 0x33810693; 0xfede0e13; 0x02de1e13; 0x00000000;
    0x33810713; 0xfeee0e13; 0x02ee1e13; 0x00000000; 0x33810793; 0xfefe0e13; 0x02fe1e13; 0x00000000;
    0x33410413; 0xff0e0e13; 0x030e1e13; 0x00000000; 0x33410493; 0xff1e0e13; 0x031e1e13; 0x00000000;
    0x33410513; 0xff2e0e13; 0x032e1e13; 0x00000000; 0x33410593; 0xff3e0e13; 0x033e1e13; 0x00000000;
    0x33410613; 0xff4e0e13; 0x034e1e13; 0x00000000; 0x33410693; 0xff5e0e13; 0x035e1e13; 0x00000000;
    0x33410713; 0xff6e0e13; 0x036e1e13; 0x00000000; 0x33410793; 0xff7e0e13; 0x037e1e13; 0x00000000;
    0x33c10413; 0xff8e0e13; 0x038e1e13; 0x00000000; 0x33c10493; 0xff9e0e13; 0x039e1e13; 0x00000000;
    0x33c10513; 0xffae0e13; 0x03ae1e13; 0x00000000; 0x33c10593; 0xffbe0e13; 0x03be1e13; 0x00000000;
    0x33c10613; 0xffce0e13; 0x03ce1e13; 0x00000000; 0x33c10693; 0xffde0e13; 0x03de1e13; 0x00000000;
    0x33c10713; 0xffee0e13; 0x03ee1e13; 0x00000000; 0x33c10793; 0xfffe0e13; 0x03fe1e13; 0x00000000;
    0x37010413; 0xfe0e8e93; 0x020e9e93; 0x00000000; 0x37010493; 0xfe1e8e93; 0x021e9e93; 0x00000000;
    0x37010513; 0xfe2e8e93; 0x022e9e93; 0x00000000; 0x37010593; 0xfe3e8e93; 0x023e9e93; 0x00000000;
    0x37010613; 0xfe4e8e93; 0x024e9e93; 0x00000000; 0x37010693; 0xfe5e8e93; 0x025e9e93; 0x00000000;
    0x37010713; 0xfe6e8e93; 0x026e9e93; 0x00000000; 0x37010793; 0xfe7e8e93; 0x027e9e93; 0x00000000;
    0x37810413; 0xfe8e8e93; 0x028e9e93; 0x00000000; 0x37810493; 0xfe9e8e93; 0x029e9e93; 0x00000000;
    0x37810513; 0xfeae8e93; 0x02ae9e93; 0x00000000; 0x37810593; 0xfebe8e93; 0x02be9e93; 0x00000000;
    0x37810613; 0xfece8e93; 0x02ce9e93; 0x00000000; 0x37810693; 0xfede8e93; 0x02de9e93; 0x00000000;
    0x37810713; 0xfeee8e93; 0x02ee9e93; 0x00000000; 0x37810793; 0xfefe8e93; 0x02fe9e93; 0x00000000;
    0x37410413; 0xff0e8e93; 0x030e9e93; 0x00000000; 0x37410493; 0xff1e8e93; 0x031e9e93; 0x00000000;
    0x37410513; 0xff2e8e93; 0x032e9e93; 0x00000000; 0x37410593; 0xff3e8e93; 0x033e9e93; 0x00000000;
    0x37410613; 0xff4e8e93; 0x034e9e93; 0x00000000; 0x37410693; 0xff5e8e93; 0x035e9e93; 0x00000000;
    0x37410713; 0xff6e8e93; 0x036e9e93; 0x00000000; 0x37410793; 0xff7e8e93; 0x037e9e93; 0x00000000;
    0x37c10413; 0xff8e8e93; 0x038e9e93; 0x00000000; 0x37c10493; 0xff9e8e93; 0x039e9e93; 0x00000000;
    0x37c10513; 0xffae8e93; 0x03ae9e93; 0x00000000; 0x37c10593; 0xffbe8e93; 0x03be9e93; 0x00000000;
    0x37c10613; 0xffce8e93; 0x03ce9e93; 0x00000000; 0x37c10693; 0xffde8e93; 0x03de9e93; 0x00000000;
    0x37c10713; 0xffee8e93; 0x03ee9e93; 0x00000000; 0x37c10793; 0xfffe8e93; 0x03fe9e93; 0x00000000;
    0x3b010413; 0xfe0f0f13; 0x020f1f13; 0x00000000; 0x3b010493; 0xfe1f0f13; 0x021f1f13; 0x00000000;
    0x3b010513; 0xfe2f0f13; 0x022f1f13; 0x00000000; 0x3b010593; 0xfe3f0f13; 0x023f1f13; 0x00000000;
    0x3b010613; 0xfe4f0f13; 0x024f1f13; 0x00000000; 0x3b010693; 0xfe5f0f13; 0x025f1f13; 0x00000000;
    0x3b010713; 0xfe6f0f13; 0x026f1f13; 0x00000000; 0x3b010793; 0xfe7f0f13; 0x027f1f13; 0x00000000;
    0x3b810413; 0xfe8f0f13; 0x028f1f13; 0x00000000; 0x3b810493; 0xfe9f0f13; 0x029f1f13; 0x00000000;
    0x3b810513; 0xfeaf0f13; 0x02af1f13; 0x00000000; 0x3b810593; 0xfebf0f13; 0x02bf1f13; 0x00000000;
    0x3b810613; 0xfecf0f13; 0x02cf1f13; 0x00000000; 0x3b810693; 0xfedf0f13; 0x02df1f13; 0x00000000;
    0x3b810713; 0xfeef0f13; 0x02ef1f13; 0x00000000; 0x3b810793; 0xfeff0f13; 0x02ff1f13; 0x00000000;
    0x3b410413; 0xff0f0f13; 0x030f1f13; 0x00000000; 0x3b410493; 0xff1f0f13; 0x031f1f13; 0x00000000;
    0x3b410513; 0xff2f0f13; 0x032f1f13; 0x00000000; 0x3b410593; 0xff3f0f13; 0x033f1f13; 0x00000000;
    0x3b410613; 0xff4f0f13; 0x034f1f13; 0x00000000; 0x3b410693; 0xff5f0f13; 0x035f1f13; 0x00000000;
    0x3b410713; 0xff6f0f13; 0x036f1f13; 0x00000000; 0x3b410793; 0xff7f0f13; 0x037f1f13; 0x00000000;
    0x3bc10413; 0xff8f0f13; 0x038f1f13; 0x00000000; 0x3bc10493; 0xff9f0f13; 0x039f1f13; 0x00000000;
    0x3bc10513; 0xffaf0f13; 0x03af1f13; 0x00000000; 0x3bc10593; 0xffbf0f13; 0x03bf1f13; 0x00000000;
    0x3bc10613; 0xffcf0f13; 0x03cf1f13; 0x00000000; 0x3bc10693; 0xffdf0f13; 0x03df1f13; 0x00000000;
    0x3bc10713; 0xffef0f13; 0x03ef1f13; 0x00000000; 0x3bc10793; 0xffff0f13; 0x03ff1f13; 0x00000000;
    0x3f010413; 0xfe0f8f93; 0x020f9f93; 0x00000000; 0x3f010493; 0xfe1f8f93; 0x021f9f93; 0x00000000;
    0x3f010513; 0xfe2f8f93; 0x022f9f93; 0x00000000; 0x3f010593; 0xfe3f8f93; 0x023f9f93; 0x00000000;
    0x3f010613; 0xfe4f8f93; 0x024f9f93; 0x00000000; 0x3f010693; 0xfe5f8f93; 0x025f9f93; 0x00000000;
    0x3f010713; 0xfe6f8f93; 0x026f9f93; 0x00000000; 0x3f010793; 0xfe7f8f93; 0x027f9f93; 0x00000000;
    0x3f810413; 0xfe8f8f93; 0x028f9f93; 0x00000000; 0x3f810493; 0xfe9f8f93; 0x029f9f93; 0x00000000;
    0x3f810513; 0xfeaf8f93; 0x02af9f93; 0x00000000; 0x3f810593; 0xfebf8f93; 0x02bf9f93; 0x00000000;
    0x3f810613; 0xfecf8f93; 0x02cf9f93; 0x00000000; 0x3f810693; 0xfedf8f93; 0x02df9f93; 0x00000000;
    0x3f810713; 0xfeef8f93; 0x02ef9f93; 0x00000000; 0x3f810793; 0xfeff8f93; 0x02ff9f93; 0x00000000;
    0x3f410413; 0xff0f8f93; 0x030f9f93; 0x00000000; 0x3f410493; 0xff1f8f93; 0x031f9f93; 0x00000000;
    0x3f410513; 0xff2f8f93; 0x032f9f93; 0x00000000; 0x3f410593; 0xff3f8f93; 0x033f9f93; 0x00000000;
    0x3f410613; 0xff4f8f93; 0x034f9f93; 0x00000000; 0x3f410693; 0xff5f8f93; 0x035f9f93; 0x00000000;
    0x3f410713; 0xff6f8f93; 0x036f9f93; 0x00000000; 0x3f410793; 0xff7f8f93; 0x037f9f93; 0x00000000;
    0x3fc10413; 0xff8f8f93; 0x038f9f93; 0x00000000; 0x3fc10493; 0xff9f8f93; 0x039f9f93; 0x00000000;
    0x3fc10513; 0xffaf8f93; 0x03af9f93; 0x00000000; 0x3fc10593; 0xffbf8f93; 0x03bf9f93; 0x00000000;
    0x3fc10613; 0xffcf8f93; 0x03cf9f93; 0x00000000; 0x3fc10693; 0xffdf8f93; 0x03df9f93; 0x00000000;
    0x3fc10713; 0xffef8f93; 0x03ef9f93; 0x00000000; 0x3fc10793; 0xffff8f93; 0x03ff9f93; 0x00000000
].
