(* ===== verification/RvcTable1.v ===== *)
(** * RvcTable1: entries 0x2000 to 0x3fff of [RVC64_EXPANDED] (tools/rvc.rs)

    Eight definitions of 128 source lines (1024 entries) each, in the order and with the
    grouping of the source; [RvcTable] concatenates them. *)
From S2P Require Import Prelude.

(** parcels 0x2000 to 0x23ff *)
Definition RVC64_EXPANDED_08 : list Z := [
    0x00043407; 0x00000000; 0x00013007; 0x00000000; 0x00043487; 0x00000000; 0x04013007; 0x00000000;
    0x00043507; 0x00000000; 0x08013007; 0x00000000; 0x00043587; 0x00000000; 0x0c013007; 0x00000000;
    0x00043607; 0x00000000; 0x10013007; 0x00000000; 0x00043687; 0x00000000; 0x14013007; 0x00000000;
    0x00043707; 0x00000000; 0x18013007; 0x00000000; 0x00043787; 0x00000000; 0x1c013007; 0x00000000;
    0x04043407; 0x00000000; 0x00813007; 0x00000000; 0x04043487; 0x00000000; 0x04813007; 0x00000000;
    0x04043507; 0x00000000; 0x08813007; 0x00000000; 0x04043587; 0x00000000; 0x0c813007; 0x00000000;
    0x04043607; 0x00000000; 0x10813007; 0x00000000; 0x04043687; 0x00000000; 0x14813007; 0x00000000;
    0x04043707; 0x00000000; 0x18813007; 0x00000000; 0x04043787; 0x00000000; 0x1c813007; 0x00000000;
    0x08043407; 0x00000000; 0x01013007; 0x00000000; 0x08043487; 0x00000000; 0x05013007; 0x00000000;
    0x08043507; 0x00000000; 0x09013007; 0x00000000; 0x08043587; 0x00000000; 0x0d013007; 0x00000000;
    0x08043607; 0x00000000; 0x11013007; 0x00000000; 0x08043687; 0x00000000; 0x15013007; 0x00000000;
    0x08043707; 0x00000000; 0x19013007; 0x00000000; 0x08043787; 0x00000000; 0x1d013007; 0x00000000;
    0x0c043407; 0x00000000; 0x01813007; 0x00000000; 0x0c043487; 0x00000000; 0x05813007; 0x00000000;
    0x0c043507; 0x00000000; 0x09813007; 0x00000000; 0x0c043587; 0x00000000; 0x0d813007; 0x00000000;
    0x0c043607; 0x00000000; 0x11813007; 0x00000000; 0x0c043687; 0x00000000; 0x15813007; 0x00000000;
    0x0c043707; 0x00000000; 0x19813007; 0x00000000; 0x0c043787; 0x00000000; 0x1d813007; 0x00000000;
    0x0004b407; 0x0000809b; 0x00013087; 0x00000000; 0x0004b487; 0x0010809b; 0x04013087; 0x00000000;
    0x0004b507; 0x0020809b; 0x08013087; 0x00000000; 0x0004b587; 0x0030809b; 0x0c013087; 0x00000000;
    0x0004b607; 0x0040809b; 0x10013087; 0x00000000; 0x0004b687; 0x0050809b; 0x14013087; 0x00000000;
    0x0004b707; 0x0060809b; 0x18013087; 0x00000000; 0x0004b787; 0x0070809b; 0x1c013087; 0x00000000;
    0x0404b407; 0x0080809b; 0x00813087; 0x00000000; 0x0404b487; 0x0090809b; 0x04813087; 0x00000000;
    0x0404b507; 0x00a0809b; 0x08813087; 0x00000000; 0x0404b587; 0x00b0809b; 0x0c813087; 0x00000000;
    0x0404b607; 0x00c0809b; 0x10813087; 0x00000000; 0x0404b687; 0x00d0809b; 0x14813087; 0x00000000;
    0x0404b707; 0x00e0809b; 0x18813087; 0x00000000; 0x0404b787; 0x00f0809b; 0x1c813087; 0x00000000;
    0x0804b407; 0x0100809b; 0x01013087; 0x00000000; 0x0804b487; 0x0110809b; 0x05013087; 0x00000000;
    0x0804b507; 0x0120809b; 0x09013087; 0x00000000; 0x0804b587; 0x0130809b; 0x0d013087; 0x00000000;
    0x0804b607; 0x0140809b; 0x11013087; 0x00000000; 0x0804b687; 0x0150809b; 0x15013087; 0x00000000;
    0x0804b707; 0x0160809b; 0x19013087; 0x00000000; 0x0804b787; 0x0170809b; 0x1d013087; 0x00000000;
    0x0c04b407; 0x0180809b; 0x01813087; 0x00000000; 0x0c04b487; 0x0190809b; 0x05813087; 0x00000000;
    0x0c04b507; 0x01a0809b; 0x09813087; 0x00000000; 0x0c04b587; 0x01b0809b; 0x0d813087; 0x00000000;
    0x0c04b607; 0x01c0809b; 0x11813087; 0x00000000; 0x0c04b687; 0x01d0809b; 0x15813087; 0x00000000;
    0x0c04b707; 0x01e0809b; 0x19813087; 0x00000000; 0x0c04b787; 0x01f0809b; 0x1d813087; 0x00000000;
    0x00053407; 0x0001011b; 0x00013107; 0x00000000; 0x00053487; 0x0011011b; 0x04013107; 0x00000000;
    0x00053507; 0x0021011b; 0x08013107; 0x00000000; 0x00053587; 0x0031011b; 0x0c013107; 0x00000000;
    0x00053607; 0x0041011b; 0x10013107; 0x00000000; 0x00053687; 0x0051011b; 0x14013107; 0x00000000;
    0x00053707; 0x0061011b; 0x18013107; 0x00000000; 0x00053787; 0x0071011b; 0x1c013107; 0x00000000;
    0x04053407; 0x0081011b; 0x00813107; 0x00000000; 0x04053487; 0x0091011b; 0x04813107; 0x00000000;
    0x04053507; 0x00a1011b; 0x08813107; 0x00000000; 0x04053587; 0x00b1011b; 0x0c813107; 0x00000000;
    0x04053607; 0x00c1011b; 0x10813107; 0x00000000; 0x04053687; 0x00d1011b; 0x14813107; 0x00000000;
    0x04053707; 0x00e1011b; 0x18813107; 0x00000000; 0x04053787; 0x00f1011b; 0x1c813107; 0x00000000;
    0x08053407; 0x0101011b; 0x01013107; 0x00000000; 0x08053487; 0x0111011b; 0x05013107; 0x00000000;
    0x08053507; 0x0121011b; 0x09013107; 0x00000000; 0x08053587; 0x0131011b; 0x0d013107; 0x00000000;
    0x08053607; 0x0141011b; 0x11013107; 0x00000000; 0x08053687; 0x0151011b; 0x15013107; 0x00000000;
    0x08053707; 0x0161011b; 0x19013107; 0x00000000; 0x08053787; 0x0171011b; 0x1d013107; 0x00000000;
    0x0c053407; 0x0181011b; 0x01813107; 0x00000000; 0x0c053487; 0x0191011b; 0x05813107; 0x00000000;
    0x0c053507; 0x01a1011b; 0x09813107; 0x00000000; 0x0c053587; 0x01b1011b; 0x0d813107; 0x00000000;
    0x0c053607; 0x01c1011b; 0x11813107; 0x00000000; 0x0c053687; 0x01d1011b; 0x15813107; 0x00000000;
    0x0c053707; 0x01e1011b; 0x19813107; 0x00000000; 0x0c053787; 0x01f1011b; 0x1d813107; 0x00000000;
    0x0005b407; 0x0001819b; 0x00013187; 0x00000000; 0x0005b487; 0x0011819b; 0x04013187; 0x00000000;
    0x0005b507; 0x0021819b; 0x08013187; 0x00000000; 0x0005b587; 0x0031819b; 0x0c013187; 0x00000000;
    0x0005b607; 0x0041819b; 0x10013187; 0x00000000; 0x0005b687; 0x0051819b; 0x14013187; 0x00000000;
    0x0005b707; 0x0061819b; 0x18013187; 0x00000000; 0x0005b787; 0x0071819b; 0x1c013187; 0x00000000;
    0x0405b407; 0x0081819b; 0x00813187; 0x00000000; 0x0405b487; 0x0091819b; 0x04813187; 0x00000000;
    0x0405b507; 0x00a1819b; 0x08813187; 0x00000000; 0x0405b587; 0x00b1819b; 0x0c813187; 0x00000000;
    0x0405b607; 0x00c1819b; 0x10813187; 0x00000000; 0x0405b687; 0x00d1819b; 0x14813187; 0x00000000;
    0x0405b707; 0x00e1819b; 0x18813187; 0x00000000; 0x0405b787; 0x00f1819b; 0x1c813187; 0x00000000;
    0x0805b407; 0x0101819b; 0x01013187; 0x00000000; 0x0805b487; 0x0111819b; 0x05013187; 0x00000000;
    0x0805b507; 0x0121819b; 0x09013187; 0x00000000; 0x0805b587; 0x0131819b; 0x0d013187; 0x00000000;
    0x0805b607; 0x0141819b; 0x11013187; 0x00000000; 0x0805b687; 0x0151819b; 0x15013187; 0x00000000;
    0x0805b707; 0x0161819b; 0x19013187; 0x00000000; 0x0805b787; 0x0171819b; 0x1d013187; 0x00000000;
    0x0c05b407; 0x0181819b; 0x01813187; 0x00000000; 0x0c05b487; 0x0191819b; 0x05813187; 0x00000000;
    0x0c05b507; 0x01a1819b; 0x09813187; 0x00000000; 0x0c05b587; 0x01b1819b; 0x0d813187; 0x00000000;
    0x0c05b607; 0x01c1819b; 0x11813187; 0x00000000; 0x0c05b687; 0x01d1819b; 0x15813187; 0x00000000;
    0x0c05b707; 0x01e1819b; 0x19813187; 0x00000000; 0x0c05b787; 0x01f1819b; 0x1d813187; 0x00000000;
    0x00063407; 0x0002021b; 0x00013207; 0x00000000; 0x00063487; 0x0012021b; 0x04013207; 0x00000000;
    0x00063507; 0x0022021b; 0x08013207; 0x00000000; 0x00063587; 0x0032021b; 0x0c013207; 0x00000000;
    0x00063607; 0x0042021b; 0x10013207; 0x00000000; 0x00063687; 0x0052021b; 0x14013207; 0x00000000;
    0x00063707; 0x0062021b; 0x18013207; 0x00000000; 0x00063787; 0x0072021b; 0x1c013207; 0x00000000;
    0x04063407; 0x0082021b; 0x00813207; 0x00000000; 0x04063487; 0x0092021b; 0x04813207; 0x00000000;
    0x04063507; 0x00a2021b; 0x08813207; 0x00000000; 0x04063587; 0x00b2021b; 0x0c813207; 0x00000000;
    0x04063607; 0x00c2021b; 0x10813207; 0x00000000; 0x04063687; 0x00d2021b; 0x14813207; 0x00000000;
    0x04063707; 0x00e2021b; 0x18813207; 0x00000000; 0x04063787; 0x00f2021b; 0x1c813207; 0x00000000;
    0x08063407; 0x0102021b; 0x01013207; 0x00000000; 0x08063487; 0x0112021b; 0x05013207; 0x00000000;
    0x08063507; 0x0122021b; 0x09013207; 0x00000000; 0x08063587; 0x0132021b; 0x0d013207; 0x00000000;
    0x08063607; 0x0142021b; 0x11013207; 0x00000000; 0x08063687; 0x0152021b; 0x15013207; 0x00000000;
    0x08063707; 0x0162021b; 0x19013207; 0x00000000; 0x08063787; 0x0172021b; 0x1d013207; 0x00000000;
    0x0c063407; 0x0182021b; 0x01813207; 0x00000000; 0x0c063487; 0x0192021b; 0x05813207; 0x00000000;
    0x0c063507; 0x01a2021b; 0x09813207; 0x00000000; 0x0c063587; 0x01b2021b; 0x0d813207; 0x00000000;
    0x0c063607; 0x01c2021b; 0x11813207; 0x00000000; 0x0c063687; 0x01d2021b; 0x15813207; 0x00000000;
    0x0c063707; 0x01e2021b; 0x19813207; 0x00000000; 0x0c063787; 0x01f2021b; 0x1d813207; 0x00000000;
    0x0006b407; 0x0002829b; 0x00013287; 0x00000000; 0x0006b487; 0x0012829b; 0x04013287; 0x00000000;
    0x0006b507; 0x0022829b; 0x08013287; 0x00000000; 0x0006b587; 0x0032829b; 0x0c013287; 0x00000000;
    0x0006b607; 0x0042829b; 0x10013287; 0x00000000; 0x0006b687; 0x0052829b; 0x14013287; 0x00000000;
    0x0006b707; 0x0062829b; 0x18013287; 0x00000000; 0x0006b787; 0x0072829b; 0x1c013287; 0x00000000;
    0x0406b407; 0x0082829b; 0x00813287; 0x00000000; 0x0406b487; 0x0092829b; 0x04813287; 0x00000000;
    0x0406b507; 0x00a2829b; 0x08813287; 0x00000000; 0x0406b587; 0x00b2829b; 0x0c813287; 0x00000000;
    0x0406b607; 0x00c2829b; 0x10813287; 0x00000000; 0x0406b687; 0x00d2829b; 0x14813287; 0x00000000;
    0x0406b707; 0x00e2829b; 0x18813287; 0x00000000; 0x0406b787; 0x00f2829b; 0x1c813287; 0x00000000;
    0x0806b407; 0x0102829b; 0x01013287; 0x00000000; 0x0806b487; 0x0112829b; 0x05013287; 0x00000000;
    0x0806b507; 0x0122829b; 0x09013287; 0x00000000; 0x0806b587; 0x0132829b; 0x0d013287; 0x00000000;
    0x0806b607; 0x0142829b; 0x11013287; 0x00000000; 0x0806b687; 0x0152829b; 0x15013287; 0x00000000;
    0x0806b707; 0x0162829b; 0x19013287; 0x00000000; 0x0806b787; 0x0172829b; 0x1d013287; 0x00000000;
    0x0c06b407; 0x0182829b; 0x01813287; 0x00000000; 0x0c06b487; 0x0192829b; 0x05813287; 0x00000000;
    0x0c06b507; 0x01a2829b; 0x09813287; 0x00000000; 0x0c06b587; 0x01b2829b; 0x0d813287; 0x00000000;
    0x0c06b607; 0x01c2829b; 0x11813287; 0x00000000; 0x0c06b687; 0x01d2829b; 0x15813287; 0x00000000;
    0x0c06b707; 0x01e2829b; 0x19813287; 0x00000000; 0x0c06b787; 0x01f2829b; 0x1d813287; 0x00000000;
    0x00073407; 0x0003031b; 0x00013307; 0x00000000; 0x00073487; 0x0013031b; 0x04013307; 0x00000000;
    0x00073507; 0x0023031b; 0x08013307; 0x00000000; 0x00073587; 0x0033031b; 0x0c013307; 0x00000000;
    0x00073607; 0x0043031b; 0x10013307; 0x00000000; 0x00073687; 0x0053031b; 0x14013307; 0x00000000;
    0x00073707; 0x0063031b; 0x18013307; 0x00000000; 0x00073787; 0x0073031b; 0x1c013307; 0x00000000;
    0x04073407; 0x0083031b; 0x00813307; 0x00000000; 0x04073487; 0x0093031b; 0x04813307; 0x00000000;
    0x04073507; 0x00a3031b; 0x08813307; 0x00000000; 0x04073587; 0x00b3031b; 0x0c813307; 0x00000000;
    0x04073607; 0x00c3031b; 0x10813307; 0x00000000; 0x04073687; 0x00d3031b; 0x14813307; 0x00000000;
    0x04073707; 0x00e3031b; 0x18813307; 0x00000000; 0x04073787; 0x00f3031b; 0x1c813307; 0x00000000;
    0x08073407; 0x0103031b; 0x01013307; 0x00000000; 0x08073487; 0x0113031b; 0x05013307; 0x00000000;
    0x08073507; 0x0123031b; 0x09013307; 0x00000000; 0x08073587; 0x0133031b; 0x0d013307; 0x00000000;
    0x08073607; 0x0143031b; 0x11013307; 0x00000000; 0x08073687; 0x0153031b; 0x15013307; 0x00000000;
    0x08073707; 0x0163031b; 0x19013307; 0x00000000; 0x08073787; 0x0173031b; 0x1d013307; 0x00000000;
    0x0c073407; 0x0183031b; 0x01813307; 0x00000000; 0x0c073487; 0x0193031b; 0x05813307; 0x00000000;
    0x0c073507; 0x01a3031b; 0x09813307; 0x00000000; 0x0c073587; 0x01b3031b; 0x0d813307; 0x00000000;
    0x0c073607; 0x01c3031b; 0x11813307; 0x00000000; 0x0c073687; 0x01d3031b; 0x15813307; 0x00000000;
    0x0c073707; 0x01e3031b; 0x19813307; 0x00000000; 0x0c073787; 0x01f3031b; 0x1d813307; 0x00000000;
    0x0007b407; 0x0003839b; 0x00013387; 0x00000000; 0x0007b487; 0x0013839b; 0x04013387; 0x00000000;
    0x0007b507; 0x0023839b; 0x08013387; 0x00000000; 0x0007b587; 0x0033839b; 0x0c013387; 0x00000000;
    0x0007b607; 0x0043839b; 0x10013387; 0x00000000; 0x0007b687; 0x0053839b; 0x14013387; 0x00000000;
    0x0007b707; 0x0063839b; 0x18013387; 0x00000000; 0x0007b787; 0x0073839b; 0x1c013387; 0x00000000;
    0x0407b407; 0x0083839b; 0x00813387; 0x00000000; 0x0407b487; 0x0093839b; 0x04813387; 0x00000000;
    0x0407b507; 0x00a3839b; 0x08813387; 0x00000000; 0x0407b587; 0x00b3839b; 0x0c813387; 0x00000000;
    0x0407b607; 0x00c3839b; 0x10813387; 0x00000000; 0x0407b687; 0x00d3839b; 0x14813387; 0x00000000;
    0x0407b707; 0x00e3839b; 0x18813387; 0x00000000; 0x0407b787; 0x00f3839b; 0x1c813387; 0x00000000;
    0x0807b407; 0x0103839b; 0x01013387; 0x00000000; 0x0807b487; 0x0113839b; 0x05013387; 0x00000000;
    0x0807b507; 0x0123839b; 0x09013387; 0x00000000; 0x0807b587; 0x0133839b; 0x0d013387; 0x00000000;
    0x0807b607; 0x0143839b; 0x11013387; 0x00000000; 0x0807b687; 0x0153839b; 0x15013387; 0x00000000;
    0x0807b707; 0x0163839b; 0x19013387; 0x00000000; 0x0807b787; 0x0173839b; 0x1d013387; 0x00000000;
    0x0c07b407; 0x0183839b; 0x01813387; 0x00000000; 0x0c07b487; 0x0193839b; 0x05813387; 0x00000000;
    0x0c07b507; 0x01a3839b; 0x09813387; 0x00000000; 0x0c07b587; 0x01b3839b; 0x0d813387; 0x00000000;
    0x0c07b607; 0x01c3839b; 0x11813387; 0x00000000; 0x0c07b687; 0x01d3839b; 0x15813387; 0x00000000;
    0x0c07b707; 0x01e3839b; 0x19813387; 0x00000000; 0x0c07b787; 0x01f3839b; 0x1d813387; 0x00000000
].

(** parcels 0x2400 to 0x27ff *)
Definition RVC64_EXPANDED_09 : list Z := [
    0x00843407; 0x0004041b; 0x00013407; 0x00000000; 0x00843487; 0x0014041b; 0x04013407; 0x00000000;
    0x00843507; 0x0024041b; 0x08013407; 0x00000000; 0x00843587; 0x0034041b; 0x0c013407; 0x00000000;
    0x00843607; 0x0044041b; 0x10013407; 0x00000000; 0x00843687; 0x0054041b; 0x14013407; 0x00000000;
    0x00843707; 0x0064041b; 0x18013407; 0x00000000; 0x00843787; 0x0074041b; 0x1c013407; 0x00000000;
    0x04843407; 0x0084041b; 0x00813407; 0x00000000; 0x04843487; 0x0094041b; 0x04813407; 0x00000000;
    0x04843507; 0x00a4041b; 0x08813407; 0x00000000; 0x04843587; 0x00b4041b; 0x0c813407; 0x00000000;
    0x04843607; 0x00c4041b; 0x10813407; 0x00000000; 0x04843687; 0x00d4041b; 0x14813407; 0x00000000;
    0x04843707; 0x00e4041b; 0x18813407; 0x00000000; 0x04843787; 0x00f4041b; 0x1c813407; 0x00000000;
    0x08843407; 0x0104041b; 0x01013407; 0x00000000; 0x08843487; 0x0114041b; 0x05013407; 0x00000000;
    0x08843507; 0x0124041b; 0x09013407; 0x00000000; 0x08843587; 0x0134041b; 0x0d013407; 0x00000000;
    0x08843607; 0x0144041b; 0x11013407; 0x00000000; 0x08843687; 0x0154041b; 0x15013407; 0x00000000;
    0x08843707; 0x0164041b; 0x19013407; 0x00000000; 0x08843787; 0x0174041b; 0x1d013407; 0x00000000;
    0x0c843407; 0x0184041b; 0x01813407; 0x00000000; 0x0c843487; 0x0194041b; 0x05813407; 0x00000000;
    0x0c843507; 0x01a4041b; 0x09813407; 0x00000000; 0x0c843587; 0x01b4041b; 0x0d813407; 0x00000000;
    0x0c843607; 0x01c4041b; 0x11813407; 0x00000000; 0x0c843687; 0x01d4041b; 0x15813407; 0x00000000;
    0x0c843707; 0x01e4041b; 0x19813407; 0x00000000; 0x0c843787; 0x01f4041b; 0x1d813407; 0x00000000;
    0x0084b407; 0x0004849b; 0x00013487; 0x00000000; 0x0084b487; 0x0014849b; 0x04013487; 0x00000000;
    0x0084b507; 0x0024849b; 0x08013487; 0x00000000; 0x0084b587; 0x0034849b; 0x0c013487; 0x00000000;
    0x0084b607; 0x0044849b; 0x10013487; 0x00000000; 0x0084b687; 0x0054849b; 0x14013487; 0x00000000;
    0x0084b707; 0x0064849b; 0x18013487; 0x00000000; 0x0084b787; 0x0074849b; 0x1c013487; 0x00000000;
    0x0484b407; 0x0084849b; 0x00813487; 0x00000000; 0x0484b487; 0x0094849b; 0x04813487; 0x00000000;
    0x0484b507; 0x00a4849b; 0x08813487; 0x00000000; 0x0484b587; 0x00b4849b; 0x0c813487; 0x00000000;
    0x0484b607; 0x00c4849b; 0x10813487; 0x00000000; 0x0484b687; 0x00d4849b; 0x14813487; 0x00000000;
    0x0484b707; 0x00e4849b; 0x18813487; 0x00000000; 0x0484b787; 0x00f4849b; 0x1c813487; 0x00000000;
    0x0884b407; 0x0104849b; 0x01013487; 0x00000000; 0x0884b487; 0x0114849b; 0x05013487; 0x00000000;
    0x0884b507; 0x0124849b; 0x09013487; 0x00000000; 0x0884b587; 0x0134849b; 0x0d013487; 0x00000000;
    0x0884b607; 0x0144849b; 0x11013487; 0x00000000; 0x0884b687; 0x0154849b; 0x15013487; 0x00000000;
    0x0884b707; 0x0164849b; 0x19013487; 0x00000000; 0x0884b787; 0x0174849b; 0x1d013487; 0x00000000;
    0x0c84b407; 0x0184849b; 0x01813487; 0x00000000; 0x0c84b487; 0x0194849b; 0x05813487; 0x00000000;
    0x0c84b507; 0x01a4849b; 0x09813487; 0x00000000; 0x0c84b587; 0x01b4849b; 0x0d813487; 0x00000000;
    0x0c84b607; 0x01c4849b; 0x11813487; 0x00000000; 0x0c84b687; 0x01d4849b; 0x15813487; 0x00000000;
    0x0c84b707; 0x01e4849b; 0x19813487; 0x00000000; 0x0c84b787; 0x01f4849b; 0x1d813487; 0x00000000;
    0x00853407; 0x0005051b; 0x00013507; 0x00000000; 0x00853487; 0x0015051b; 0x04013507; 0x00000000;
    0x00853507; 0x0025051b; 0x08013507; 0x00000000; 0x00853587; 0x0035051b; 0x0c013507; 0x00000000;
    0x00853607; 0x0045051b; 0x10013507; 0x00000000; 0x00853687; 0x0055051b; 0x14013507; 0x00000000;
    0x00853707; 0x0065051b; 0x18013507; 0x00000000; 0x00853787; 0x0075051b; 0x1c013507; 0x00000000;
    0x04853407; 0x0085051b; 0x00813507; 0x00000000; 0x04853487; 0x0095051b; 0x04813507; 0x00000000;
    0x04853507; 0x00a5051b; 0x08813507; 0x00000000; 0x04853587; 0x00b5051b; 0x0c813507; 0x00000000;
    0x04853607; 0x00c5051b; 0x10813507; 0x00000000; 0x04853687; 0x00d5051b; 0x14813507; 0x00000000;
    0x04853707; 0x00e5051b; 0x18813507; 0x00000000; 0x04853787; 0x00f5051b; 0x1c813507; 0x00000000;
    0x08853407; 0x0105051b; 0x01013507; 0x00000000; 0x08853487; 0x0115051b; 0x05013507; 0x00000000;
    0x08853507; 0x0125051b; 0x09013507; 0x00000000; 0x08853587; 0x0135051b; 0x0d013507; 0x00000000;
    0x08853607; 0x0145051b; 0x11013507; 0x00000000; 0x08853687; 0x0155051b; 0x15013507; 0x00000000;
    0x08853707; 0x0165051b; 0x19013507; 0x00000000; 0x08853787; 0x0175051b; 0x1d013507; 0x00000000;
    0x0c853407; 0x0185051b; 0x01813507; 0x00000000; 0x0c853487; 0x0195051b; 0x05813507; 0x00000000;
    0x0c853507; 0x01a5051b; 0x09813507; 0x00000000; 0x0c853587; 0x01b5051b; 0x0d813507; 0x00000000;
    0x0c853607; 0x01c5051b; 0x11813507; 0x00000000; 0x0c853687; 0x01d5051b; 0x15813507; 0x00000000;
    0x0c853707; 0x01e5051b; 0x19813507; 0x00000000; 0x0c853787; 0x01f5051b; 0x1d813507; 0x00000000;
    0x0085b407; 0x0005859b; 0x00013587; 0x00000000; 0x0085b487; 0x0015859b; 0x04013587; 0x00000000;
    0x0085b507; 0x0025859b; 0x08013587; 0x00000000; 0x0085b587; 0x0035859b; 0x0c013587; 0x00000000;
    0x0085b607; 0x0045859b; 0x10013587; 0x00000000; 0x0085b687; 0x0055859b; 0x14013587; 0x00000000;
    0x0085b707; 0x0065859b; 0x18013587; 0x00000000; 0x0085b787; 0x0075859b; 0x1c013587; 0x00000000;
    0x0485b407; 0x0085859b; 0x00813587; 0x00000000; 0x0485b487; 0x0095859b; 0x04813587; 0x00000000;
    0x0485b507; 0x00a5859b; 0x08813587; 0x00000000; 0x0485b587; 0x00b5859b; 0x0c813587; 0x00000000;
    0x0485b607; 0x00c5859b; 0x10813587; 0x00000000; 0x0485b687; 0x00d5859b; 0x14813587; 0x00000000;
    0x0485b707; 0x00e5859b; 0x18813587; 0x00000000; 0x0485b787; 0x00f5859b; 0x1c813587; 0x00000000;
    0x0885b407; 0x0105859b; 0x01013587; 0x00000000; 0x0885b487; 0x0115859b; 0x05013587; 0x00000000;
    0x0885b507; 0x0125859b; 0x09013587; 0x00000000; 0x0885b587; 0x0135859b; 0x0d013587; 0x00000000;
    0x0885b607; 0x0145859b; 0x11013587; 0x00000000; 0x0885b687; 0x0155859b; 0x15013587; 0x00000000;
    0x0885b707; 0x0165859b; 0x19013587; 0x00000000; 0x0885b787; 0x0175859b; 0x1d013587; 0x00000000;
    0x0c85b407; 0x0185859b; 0x01813587; 0x00000000; 0x0c85b487; 0x0195859b; 0x05813587; 0x00000000;
    0x0c85b507; 0x01a5859b; 0x09813587; 0x00000000; 0x0c85b587; 0x01b5859b; 0x0d813587; 0x00000000;
    0x0c85b607; 0x01c5859b; 0x11813587; 0x00000000; 0x0c85b687; 0x01d5859b; 0x15813587; 0x00000000;
    0x0c85b707; 0x01e5859b; 0x19813587; 0x00000000; 0x0c85b787; 0x01f5859b; 0x1d813587; 0x00000000;
    0x00863407; 0x0006061b; 0x00013607; 0x00000000; 0x00863487; 0x0016061b; 0x04013607; 0x00000000;
    0x00863507; 0x0026061b; 0x08013607; 0x00000000; 0x00863587; 0x0036061b; 0x0c013607; 0x00000000;
    0x00863607; 0x0046061b; 0x10013607; 0x00000000; 0x00863687; 0x0056061b; 0x14013607; 0x00000000;
    0x00863707; 0x0066061b; 0x18013607; 0x00000000; 0x00863787; 0x0076061b; 0x1c013607; 0x00000000;
    0x04863407; 0x0086061b; 0x00813607; 0x00000000; 0x04863487; 0x0096061b; 0x04813607; 0x00000000;
    0x04863507; 0x00a6061b; 0x08813607; 0x00000000; 0x04863587; 0x00b6061b; 0x0c813607; 0x00000000;
    0x04863607; 0x00c6061b; 0x10813607; 0x00000000; 0x04863687; 0x00d6061b; 0x14813607; 0x00000000;
    0x04863707; 0x00e6061b; 0x18813607; 0x00000000; 0x04863787; 0x00f6061b; 0x1c813607; 0x00000000;
    0x08863407; 0x0106061b; 0x01013607; 0x00000000; 0x08863487; 0x0116061b; 0x05013607; 0x00000000;
    0x08863507; 0x0126061b; 0x09013607; 0x00000000; 0x08863587; 0x0136061b; 0x0d013607; 0x00000000;
    0x08863607; 0x0146061b; 0x11013607; 0x00000000; 0x08863687; 0x0156061b; 0x15013607; 0x00000000;
    0x08863707; 0x0166061b; 0x19013607; 0x00000000; 0x08863787; 0x0176061b; 0x1d013607; 0x00000000;
    0x0c863407; 0x0186061b; 0x01813607; 0x00000000; 0x0c863487; 0x0196061b; 0x05813607; 0x00000000;
    0x0c863507; 0x01a6061b; 0x09813607; 0x00000000; 0x0c863587; 0x01b6061b; 0x0d813607; 0x00000000;
    0x0c863607; 0x01c6061b; 0x11813607; 0x00000000; 0x0c863687; 0x01d6061b; 0x15813607; 0x00000000;
    0x0c863707; 0x01e6061b; 0x19813607; 0x00000000; 0x0c863787; 0x01f6061b; 0x1d813607; 0x00000000;
    0x0086b407; 0x0006869b; 0x00013687; 0x00000000; 0x0086b487; 0x0016869b; 0x04013687; 0x00000000;
    0x0086b507; 0x0026869b; 0x08013687; 0x00000000; 0x0086b587; 0x0036869b; 0x0c013687; 0x00000000;
    0x0086b607; 0x0046869b; 0x10013687; 0x00000000; 0x0086b687; 0x0056869b; 0x14013687; 0x00000000;
    0x0086b707; 0x0066869b; 0x18013687; 0x00000000; 0x0086b787; 0x0076869b; 0x1c013687; 0x00000000;
    0x0486b407; 0x0086869b; 0x00813687; 0x00000000; 0x0486b487; 0x0096869b; 0x04813687; 0x00000000;
    0x0486b507; 0x00a6869b; 0x08813687; 0x00000000; 0x0486b587; 0x00b6869b; 0x0c813687; 0x00000000;
    0x0486b607; 0x00c6869b; 0x10813687; 0x00000000; 0x0486b687; 0x00d6869b; 0x14813687; 0x00000000;
    0x0486b707; 0x00e6869b; 0x18813687; 0x00000000; 0x0486b787; 0x00f6869b; 0x1c813687; 0x00000000;
    0x0886b407; 0x0106869b; 0x01013687; 0x00000000; 0x0886b487; 0x0116869b; 0x05013687; 0x00000000;
    0x0886b507; 0x0126869b; 0x09013687; 0x00000000; 0x0886b587; 0x0136869b; 0x0d013687; 0x00000000;
    0x0886b607; 0x0146869b; 0x11013687; 0x00000000; 0x0886b687; 0x0156869b; 0x15013687; 0x00000000;
    0x0886b707; 0x0166869b; 0x19013687; 0x00000000; 0x0886b787; 0x0176869b; 0x1d013687; 0x00000000;
    0x0c86b407; 0x0186869b; 0x01813687; 0x00000000; 0x0c86b487; 0x0196869b; 0x05813687; 0x00000000;
    0x0c86b507; 0x01a6869b; 0x09813687; 0x00000000; 0x0c86b587; 0x01b6869b; 0x0d813687; 0x00000000;
    0x0c86b607; 0x01c6869b; 0x11813687; 0x00000000; 0x0c86b687; 0x01d6869b; 0x15813687; 0x00000000;
    0x0c86b707; 0x01e6869b; 0x19813687; 0x00000000; 0x0c86b787; 0x01f6869b; 0x1d813687; 0x00000000;
    0x00873407; 0x0007071b; 0x00013707; 0x00000000; 0x00873487; 0x0017071b; 0x04013707; 0x00000000;
    0x00873507; 0x0027071b; 0x08013707; 0x00000000; 0x00873587; 0x0037071b; 0x0c013707; 0x00000000;
    0x00873607; 0x0047071b; 0x10013707; 0x00000000; 0x00873687; 0x0057071b; 0x14013707; 0x00000000;
    0x00873707; 0x0067071b; 0x18013707; 0x00000000; 0x00873787; 0x0077071b; 0x1c013707; 0x00000000;
    0x04873407; 0x0087071b; 0x00813707; 0x00000000; 0x04873487; 0x0097071b; 0x04813707; 0x00000000;
    0x04873507; 0x00a7071b; 0x08813707; 0x00000000; 0x04873587; 0x00b7071b; 0x0c813707; 0x00000000;
    0x04873607; 0x00c7071b; 0x10813707; 0x00000000; 0x04873687; 0x00d7071b; 0x14813707; 0x00000000;
    0x04873707; 0x00e7071b; 0x18813707; 0x00000000; 0x04873787; 0x00f7071b; 0x1c813707; 0x00000000;
    0x08873407; 0x0107071b; 0x01013707; 0x00000000; 0x08873487; 0x0117071b; 0x05013707; 0x00000000;
    0x08873507; 0x0127071b; 0x09013707; 0x00000000; 0x08873587; 0x0137071b; 0x0d013707; 0x00000000;
    0x08873607; 0x0147071b; 0x11013707; 0x00000000; 0x08873687; 0x0157071b; 0x15013707; 0x00000000;
    0x08873707; 0x0167071b; 0x19013707; 0x00000000; 0x08873787; 0x0177071b; 0x1d013707; 0x00000000;
    0x0c873407; 0x0187071b; 0x01813707; 0x00000000; 0x0c873487; 0x0197071b; 0x05813707; 0x00000000;
    0x0c873507; 0x01a7071b; 0x09813707; 0x00000000; 0x0c873587; 0x01b7071b; 0x0d813707; 0x00000000;
    0x0c873607; 0x01c7071b; 0x11813707; 0x00000000; 0x0c873687; 0x01d7071b; 0x15813707; 0x00000000;
    0x0c873707; 0x01e7071b; 0x19813707; 0x00000000; 0x0c873787; 0x01f7071b; 0x1d813707; 0x00000000;
    0x0087b407; 0x0007879b; 0x00013787; 0x00000000; 0x0087b487; 0x0017879b; 0x04013787; 0x00000000;
    0x0087b507; 0x0027879b; 0x08013787; 0x00000000; 0x0087b587; 0x0037879b; 0x0c013787; 0x00000000;
    0x0087b607; 0x0047879b; 0x10013787; 0x00000000; 0x0087b687; 0x0057879b; 0x14013787; 0x00000000;
    0x0087b707; 0x0067879b; 0x18013787; 0x00000000; 0x0087b787; 0x0077879b; 0x1c013787; 0x00000000;
    0x0487b407; 0x0087879b; 0x00813787; 0x00000000; 0x0487b487; 0x0097879b; 0x04813787; 0x00000000;
    0x0487b507; 0x00a7879b; 0x08813787; 0x00000000; 0x0487b587; 0x00b7879b; 0x0c813787; 0x00000000;
    0x0487b607; 0x00c7879b; 0x10813787; 0x00000000; 0x0487b687; 0x00d7879b; 0x14813787; 0x00000000;
    0x0487b707; 0x00e7879b; 0x18813787; 0x00000000; 0x0487b787; 0x00f7879b; 0x1c813787; 0x00000000;
    0x0887b407; 0x0107879b; 0x01013787; 0x00000000; 0x0887b487; 0x0117879b; 0x05013787; 0x00000000;
    0x0887b507; 0x0127879b; 0x09013787; 0x00000000; 0x0887b587; 0x0137879b; 0x0d013787; 0x00000000;
    0x0887b607; 0x0147879b; 0x11013787; 0x00000000; 0x0887b687; 0x0157879b; 0x15013787; 0x00000000;
    0x0887b707; 0x0167879b; 0x19013787; 0x00000000; 0x0887b787; 0x0177879b; 0x1d013787; 0x00000000;
    0x0c87b407; 0x0187879b; 0x01813787; 0x00000000; 0x0c87b487; 0x0197879b; 0x05813787; 0x00000000;
    0x0c87b507; 0x01a7879b; 0x09813787; 0x00000000; 0x0c87b587; 0x01b7879b; 0x0d813787; 0x00000000;
    0x0c87b607; 0x01c7879b; 0x11813787; 0x00000000; 0x0c87b687; 0x01d7879b; 0x15813787; 0x00000000;
    0x0c87b707; 0x01e7879b; 0x19813787; 0x00000000; 0x0c87b787; 0x01f7879b; 0x1d813787; 0x00000000
].

(** parcels 0x2800 to 0x2bff *)
Definition RVC64_EXPANDED_10 : list Z := [
    0x01043407; 0x0008081b; 0x00013807; 0x00000000; 0x01043487; 0x0018081b; 0x04013807; 0x00000000;
    0x01043507; 0x0028081b; 0x08013807; 0x00000000; 0x01043587; 0x0038081b; 0x0c013807; 0x00000000;
    0x01043607; 0x0048081b; 0x10013807; 0x00000000; 0x01043687; 0x0058081b; 0x14013807; 0x00000000;
    0x01043707; 0x0068081b; 0x18013807; 0x00000000; 0x01043787; 0x0078081b; 0x1c013807; 0x00000000;
    0x05043407; 0x0088081b; 0x00813807; 0x00000000; 0x05043487; 0x0098081b; 0x04813807; 0x00000000;
    0x05043507; 0x00a8081b; 0x08813807; 0x00000000; 0x05043587; 0x00b8081b; 0x0c813807; 0x00000000;
    0x05043607; 0x00c8081b; 0x10813807; 0x00000000; 0x05043687; 0x00d8081b; 0x14813807; 0x00000000;
    0x05043707; 0x00e8081b; 0x18813807; 0x00000000; 0x05043787; 0x00f8081b; 0x1c813807; 0x00000000;
    0x09043407; 0x0108081b; 0x01013807; 0x00000000; 0x09043487; 0x0118081b; 0x05013807; 0x00000000;
    0x09043507; 0x0128081b; 0x09013807; 0x00000000; 0x09043587; 0x0138081b; 0x0d013807; 0x00000000;
    0x09043607; 0x0148081b; 0x11013807; 0x00000000; 0x09043687; 0x0158081b; 0x15013807; 0x00000000;
    0x09043707; 0x0168081b; 0x19013807; 0x00000000; 0x09043787; 0x0178081b; 0x1d013807; 0x00000000;
    0x0d043407; 0x0188081b; 0x01813807; 0x00000000; 0x0d043487; 0x0198081b; 0x05813807; 0x00000000;
    0x0d043507; 0x01a8081b; 0x09813807; 0x00000000; 0x0d043587; 0x01b8081b; 0x0d813807; 0x00000000;
    0x0d043607; 0x01c8081b; 0x11813807; 0x00000000; 0x0d043687; 0x01d8081b; 0x15813807; 0x00000000;
    0x0d043707; 0x01e8081b; 0x19813807; 0x00000000; 0x0d043787; 0x01f8081b; 0x1d813807; 0x00000000;
    0x0104b407; 0x0008889b; 0x00013887; 0x00000000; 0x0104b487; 0x0018889b; 0x04013887; 0x00000000;
    0x0104b507; 0x0028889b; 0x08013887; 0x00000000; 0x0104b587; 0x0038889b; 0x0c013887; 0x00000000;
    0x0104b607; 0x0048889b; 0x10013887; 0x00000000; 0x0104b687; 0x0058889b; 0x14013887; 0x00000000;
    0x0104b707; 0x0068889b; 0x18013887; 0x00000000; 0x0104b787; 0x0078889b; 0x1c013887; 0x00000000;
    0x0504b407; 0x0088889b; 0x00813887; 0x00000000; 0x0504b487; 0x0098889b; 0x04813887; 0x00000000;
    0x0504b507; 0x00a8889b; 0x08813887; 0x00000000; 0x0504b587; 0x00b8889b; 0x0c813887; 0x00000000;
    0x0504b607; 0x00c8889b; 0x10813887; 0x00000000; 0x0504b687; 0x00d8889b; 0x14813887; 0x00000000;
    0x0504b707; 0x00e8889b; 0x18813887; 0x00000000; 0x0504b787; 0x00f8889b; 0x1c813887; 0x00000000;
    0x0904b407; 0x0108889b; 0x01013887; 0x00000000; 0x0904b487; 0x0118889b; 0x05013887; 0x00000000;
    0x0904b507; 0x0128889b; 0x09013887; 0x00000000; 0x0904b587; 0x0138889b; 0x0d013887; 0x00000000;
    0x0904b607; 0x0148889b; 0x11013887; 0x00000000; 0x0904b687; 0x0158889b; 0x15013887; 0x00000000;
    0x0904b707; 0x0168889b; 0x19013887; 0x00000000; 0x0904b787; 0x0178889b; 0x1d013887; 0x00000000;
    0x0d04b407; 0x0188889b; 0x01813887; 0x00000000; 0x0d04b487; 0x0198889b; 0x05813887; 0x00000000;
    0x0d04b507; 0x01a8889b; 0x09813887; 0x00000000; 0x0d04b587; 0x01b8889b; 0x0d813887; 0x00000000;
    0x0d04b607; 0x01c8889b; 0x11813887; 0x00000000; 0x0d04b687; 0x01d8889b; 0x15813887; 0x00000000;
    0x0d04b707; 0x01e8889b; 0x19813887; 0x00000000; 0x0d04b787; 0x01f8889b; 0x1d813887; 0x00000000;
    0x01053407; 0x0009091b; 0x00013907; 0x00000000; 0x01053487; 0x0019091b; 0x04013907; 0x00000000;
    0x01053507; 0x0029091b; 0x08013907; 0x00000000; 0x01053587; 0x0039091b; 0x0c013907; 0x00000000;
    0x01053607; 0x0049091b; 0x10013907; 0x00000000; 0x01053687; 0x0059091b; 0x14013907; 0x00000000;
    0x01053707; 0x0069091b; 0x18013907; 0x00000000; 0x01053787; 0x0079091b; 0x1c013907; 0x00000000;
    0x05053407; 0x0089091b; 0x00813907; 0x00000000; 0x05053487; 0x0099091b; 0x04813907; 0x00000000;
    0x05053507; 0x00a9091b; 0x08813907; 0x00000000; 0x05053587; 0x00b9091b; 0x0c813907; 0x00000000;
    0x05053607; 0x00c9091b; 0x10813907; 0x00000000; 0x05053687; 0x00d9091b; 0x14813907; 0x00000000;
    0x05053707; 0x00e9091b; 0x18813907; 0x00000000; 0x05053787; 0x00f9091b; 0x1c813907; 0x00000000;
    0x09053407; 0x0109091b; 0x01013907; 0x00000000; 0x09053487; 0x0119091b; 0x05013907; 0x00000000;
    0x09053507; 0x0129091b; 0x09013907; 0x00000000; 0x09053587; 0x0139091b; 0x0d013907; 0x00000000;
    0x09053607; 0x0149091b; 0x11013907; 0x00000000; 0x09053687; 0x0159091b; 0x15013907; 0x00000000;
    0x09053707; 0x0169091b; 0x19013907; 0x00000000; 0x09053787; 0x0179091b; 0x1d013907; 0x00000000;
    0x0d053407; 0x0189091b; 0x01813907; 0x00000000; 0x0d053487; 0x0199091b; 0x05813907; 0x00000000;
    0x0d053507; 0x01a9091b; 0x09813907; 0x00000000; 0x0d053587; 0x01b9091b; 0x0d813907; 0x00000000;
    0x0d053607; 0x01c9091b; 0x11813907; 0x00000000; 0x0d053687; 0x01d9091b; 0x15813907; 0x00000000;
    0x0d053707; 0x01e9091b; 0x19813907; 0x00000000; 0x0d053787; 0x01f9091b; 0x1d813907; 0x00000000;
    0x0105b407; 0x0009899b; 0x00013987; 0x00000000; 0x0105b487; 0x0019899b; 0x04013987; 0x00000000;
    0x0105b507; 0x0029899b; 0x08013987; 0x00000000; 0x0105b587; 0x0039899b; 0x0c013987; 0x00000000;
    0x0105b607; 0x0049899b; 0x10013987; 0x00000000; 0x0105b687; 0x0059899b; 0x14013987; 0x00000000;
    0x0105b707; 0x0069899b; 0x18013987; 0x00000000; 0x0105b787; 0x0079899b; 0x1c013987; 0x00000000;
    0x0505b407; 0x0089899b; 0x00813987; 0x00000000; 0x0505b487; 0x0099899b; 0x04813987; 0x00000000;
    0x0505b507; 0x00a9899b; 0x08813987; 0x00000000; 0x0505b587; 0x00b9899b; 0x0c813987; 0x00000000;
    0x0505b607; 0x00c9899b; 0x10813987; 0x00000000; 0x0505b687; 0x00d9899b; 0x14813987; 0x00000000;
    0x0505b707; 0x00e9899b; 0x18813987; 0x00000000; 0x0505b787; 0x00f9899b; 0x1c813987; 0x00000000;
    0x0905b407; 0x0109899b; 0x01013987; 0x00000000; 0x0905b487; 0x0119899b; 0x05013987; 0x00000000;
    0x0905b507; 0x0129899b; 0x09013987; 0x00000000; 0x0905b587; 0x0139899b; 0x0d013987; 0x00000000;
    0x0905b607; 0x0149899b; 0x11013987; 0x00000000; 0x0905b687; 0x0159899b; 0x15013987; 0x00000000;
    0x0905b707; 0x0169899b; 0x19013987; 0x00000000; 0x0905b787; 0x0179899b; 0x1d013987; 0x00000000;
    0x0d05b407; 0x0189899b; 0x01813987; 0x00000000; 0x0d05b487; 0x0199899b; 0x05813987; 0x00000000;
    0x0d05b507; 0x01a9899b; 0x09813987; 0x00000000; 0x0d05b587; 0x01b9899b; 0x0d813987; 0x00000000;
    0x0d05b607; 0x01c9899b; 0x11813987; 0x00000000; 0x0d05b687; 0x01d9899b; 0x15813987; 0x00000000;
    0x0d05b707; 0x01e9899b; 0x19813987; 0x00000000; 0x0d05b787; 0x01f9899b; 0x1d813987; 0x00000000;
    0x01063407; 0x000a0a1b; 0x00013a07; 0x00000000; 0x01063487; 0x001a0a1b; 0x04013a07; 0x00000000;
    0x01063507; 0x002a0a1b; 0x08013a07; 0x00000000; 0x01063587; 0x003a0a1b; 0x0c013a07; 0x00000000;
    0x01063607; 0x004a0a1b; 0x10013a07; 0x00000000; 0x01063687; 0x005a0a1b; 0x14013a07; 0x00000000;
    0x01063707; 0x006a0a1b; 0x18013a07; 0x00000000; 0x01063787; 0x007a0a1b; 0x1c013a07; 0x00000000;
    0x05063407; 0x008a0a1b; 0x00813a07; 0x00000000; 0x05063487; 0x009a0a1b; 0x04813a07; 0x00000000;
    0x05063507; 0x00aa0a1b; 0x08813a07; 0x00000000; 0x05063587; 0x00ba0a1b; 0x0c813a07; 0x00000000;
    0x05063607; 0x00ca0a1b; 0x10813a07; 0x00000000; 0x05063687; 0x00da0a1b; 0x14813a07; 0x00000000;
    0x05063707; 0x00ea0a1b; 0x18813a07; 0x00000000; 0x05063787; 0x00fa0a1b; 0x1c813a07; 0x00000000;
    0x09063407; 0x010a0a1b; 0x01013a07; 0x00000000; 0x09063487; 0x011a0a1b; 0x05013a07; 0x00000000;
    0x09063507; 0x012a0a1b; 0x09013a07; 0x00000000; 0x09063587; 0x013a0a1b; 0x0d013a07; 0x00000000;
    0x09063607; 0x014a0a1b; 0x11013a07; 0x00000000; 0x09063687; 0x015a0a1b; 0x15013a07; 0x00000000;
    0x09063707; 0x016a0a1b; 0x19013a07; 0x00000000; 0x09063787; 0x017a0a1b; 0x1d013a07; 0x00000000;
    0x0d063407; 0x018a0a1b; 0x01813a07; 0x00000000; 0x0d063487; 0x019a0a1b; 0x05813a07; 0x00000000;
    0x0d063507; 0x01aa0a1b; 0x09813a07; 0x00000000; 0x0d063587; 0x01ba0a1b; 0x0d813a07; 0x00000000;
    0x0d063607; 0x01ca0a1b; 0x11813a07; 0x00000000; 0x0d063687; 0x01da0a1b; 0x15813a07; 0x00000000;
    0x0d063707; 0x01ea0a1b; 0x19813a07; 0x00000000; 0x0d063787; 0x01fa0a1b; 0x1d813a07; 0x00000000;
    0x0106b407; 0x000a8a9b; 0x00013a87; 0x00000000; 0x0106b487; 0x001a8a9b; 0x04013a87; 0x00000000;
    0x0106b507; 0x002a8a9b; 0x08013a87; 0x00000000; 0x0106b587; 0x003a8a9b; 0x0c013a87; 0x00000000;
    0x0106b607; 0x004a8a9b; 0x10013a87; 0x00000000; 0x0106b687; 0x005a8a9b; 0x14013a87; 0x00000000;
    0x0106b707; 0x006a8a9b; 0x18013a87; 0x00000000; 0x0106b787; 0x007a8a9b; 0x1c013a87; 0x00000000;
    0x0506b407; 0x008a8a9b; 0x00813a87; 0x00000000; 0x0506b487; 0x009a8a9b; 0x04813a87; 0x00000000;
    0x0506b507; 0x00aa8a9b; 0x08813a87; 0x00000000; 0x0506b587; 0x00ba8a9b; 0x0c813a87; 0x00000000;
    0x0506b607; 0x00ca8a9b; 0x10813a87; 0x00000000; 0x0506b687; 0x00da8a9b; 0x14813a87; 0x00000000;
    0x0506b707; 0x00ea8a9b; 0x18813a87; 0x00000000; 0x0506b787; 0x00fa8a9b; 0x1c813a87; 0x00000000;
    0x0906b407; 0x010a8a9b; 0x01013a87; 0x00000000; 0x0906b487; 0x011a8a9b; 0x05013a87; 0x00000000;
    0x0906b507; 0x012a8a9b; 0x09013a87; 0x00000000; 0x0906b587; 0x013a8a9b; 0x0d013a87; 0x00000000;
    0x0906b607; 0x014a8a9b; 0x11013a87; 0x00000000; 0x0906b687; 0x015a8a9b; 0x15013a87; 0x00000000;
    0x0906b707; 0x016a8a9b; 0x19013a87; 0x00000000; 0x0906b787; 0x017a8a9b; 0x1d013a87; 0x00000000;
    0x0d06b407; 0x018a8a9b; 0x01813a87; 0x00000000; 0x0d06b487; 0x019a8a9b; 0x05813a87; 0x00000000;
    0x0d06b507; 0x01aa8a9b; 0x09813a87; 0x00000000; 0x0d06b587; 0x01ba8a9b; 0x0d813a87; 0x00000000;
    0x0d06b607; 0x01ca8a9b; 0x11813a87; 0x00000000; 0x0d06b687; 0x01da8a9b; 0x15813a87; 0x00000000;
    0x0d06b707; 0x01ea8a9b; 0x19813a87; 0x00000000; 0x0d06b787; 0x01fa8a9b; 0x1d813a87; 0x00000000;
    0x01073407; 0x000b0b1b; 0x00013b07; 0x00000000; 0x01073487; 0x001b0b1b; 0x04013b07; 0x00000000;
    0x01073507; 0x002b0b1b; 0x08013b07; 0x00000000; 0x01073587; 0x003b0b1b; 0x0c013b07; 0x00000000;
    0x01073607; 0x004b0b1b; 0x10013b07; 0x00000000; 0x01073687; 0x005b0b1b; 0x14013b07; 0x00000000;
    0x01073707; 0x006b0b1b; 0x18013b07; 0x00000000; 0x01073787; 0x007b0b1b; 0x1c013b07; 0x00000000;
    0x05073407; 0x008b0b1b; 0x00813b07; 0x00000000; 0x05073487; 0x009b0b1b; 0x04813b07; 0x00000000;
    0x05073507; 0x00ab0b1b; 0x08813b07; 0x00000000; 0x05073587; 0x00bb0b1b; 0x0c813b07; 0x00000000;
    0x05073607; 0x00cb0b1b; 0x10813b07; 0x00000000; 0x05073687; 0x00db0b1b; 0x14813b07; 0x00000000;
    0x05073707; 0x00eb0b1b; 0x18813b07; 0x00000000; 0x05073787; 0x00fb0b1b; 0x1c813b07; 0x00000000;
    0x09073407; 0x010b0b1b; 0x01013b07; 0x00000000; 0x09073487; 0x011b0b1b; 0x05013b07; 0x00000000;
    0x09073507; 0x012b0b1b; 0x09013b07; 0x00000000; 0x09073587; 0x013b0b1b; 0x0d013b07; 0x00000000;
    0x09073607; 0x014b0b1b; 0x11013b07; 0x00000000; 0x09073687; 0x015b0b1b; 0x15013b07; 0x00000000;
    0x09073707; 0x016b0b1b; 0x19013b07; 0x00000000; 0x09073787; 0x017b0b1b; 0x1d013b07; 0x00000000;
    0x0d073407; 0x018b0b1b; 0x01813b07; 0x00000000; 0x0d073487; 0x019b0b1b; 0x05813b07; 0x00000000;
    0x0d073507; 0x01ab0b1b; 0x09813b07; 0x00000000; 0x0d073587; 0x01bb0b1b; 0x0d813b07; 0x00000000;
    0x0d073607; 0x01cb0b1b; 0x11813b07; 0x00000000; 0x0d073687; 0x01db0b1b; 0x15813b07; 0x00000000;
    0x0d073707; 0x01eb0b1b; 0x19813b07; 0x00000000; 0x0d073787; 0x01fb0b1b; 0x1d813b07; 0x00000000;
    0x0107b407; 0x000b8b9b; 0x00013b87; 0x00000000; 0x0107b487; 0x001b8b9b; 0x04013b87; 0x00000000;
    0x0107b507; 0x002b8b9b; 0x08013b87; 0x00000000; 0x0107b587; 0x003b8b9b; 0x0c013b87; 0x00000000;
    0x0107b607; 0x004b8b9b; 0x10013b87; 0x00000000; 0x0107b687; 0x005b8b9b; 0x14013b87; 0x00000000;
    0x0107b707; 0x006b8b9b; 0x18013b87; 0x00000000; 0x0107b787; 0x007b8b9b; 0x1c013b87; 0x00000000;
    0x0507b407; 0x008b8b9b; 0x00813b87; 0x00000000; 0x0507b487; 0x009b8b9b; 0x04813b87; 0x00000000;
    0x0507b507; 0x00ab8b9b; 0x08813b87; 0x00000000; 0x0507b587; 0x00bb8b9b; 0x0c813b87; 0x00000000;
    0x0507b607; 0x00cb8b9b; 0x10813b87; 0x00000000; 0x0507b687; 0x00db8b9b; 0x14813b87; 0x00000000;
    0x0507b707; 0x00eb8b9b; 0x18813b87; 0x00000000; 0x0507b787; 0x00fb8b9b; 0x1c813b87; 0x00000000;
    0x0907b407; 0x010b8b9b; 0x01013b87; 0x00000000; 0x0907b487; 0x011b8b9b; 0x05013b87; 0x00000000;
    0x0907b507; 0x012b8b9b; 0x09013b87; 0x00000000; 0x0907b587; 0x013b8b9b; 0x0d013b87; 0x00000000;
    0x0907b607; 0x014b8b9b; 0x11013b87; 0x00000000; 0x0907b687; 0x015b8b9b; 0x15013b87; 0x00000000;
    0x0907b707; 0x016b8b9b; 0x19013b87; 0x00000000; 0x0907b787; 0x017b8b9b; 0x1d013b87; 0x00000000;
    0x0d07b407; 0x018b8b9b; 0x01813b87; 0x00000000; 0x0d07b487; 0x019b8b9b; 0x05813b87; 0x00000000;
    0x0d07b507; 0x01ab8b9b; 0x09813b87; 0x00000000; 0x0d07b587; 0x01bb8b9b; 0x0d813b87; 0x00000000;
    0x0d07b607; 0x01cb8b9b; 0x11813b87; 0x00000000; 0x0d07b687; 0x01db8b9b; 0x15813b87; 0x00000000;
    0x0d07b707; 0x01eb8b9b; 0x19813b87; 0x00000000; 0x0d07b787; 0x01fb8b9b; 0x1d813b87; 0x00000000
].

(** parcels 0x2c00 to 0x2fff *)
Definition RVC64_EXPANDED_11 : list Z := [
    0x01843407; 0x000c0c1b; 0x00013c07; 0x00000000; 0x01843487; 0x001c0c1b; 0x04013c07; 0x00000000;
    0x01843507; 0x002c0c1b; 0x08013c07; 0x00000000; 0x01843587; 0x003c0c1b; 0x0c013c07; 0x00000000;
    0x01843607; 0x004c0c1b; 0x10013c07; 0x00000000; 0x01843687; 0x005c0c1b; 0x14013c07; 0x00000000;
    0x01843707; 0x006c0c1b; 0x18013c07; 0x00000000; 0x01843787; 0x007c0c1b; 0x1c013c07; 0x00000000;
    0x05843407; 0x008c0c1b; 0x00813c07; 0x00000000; 0x05843487; 0x009c0c1b; 0x04813c07; 0x00000000;
    0x05843507; 0x00ac0c1b; 0x08813c07; 0x00000000; 0x05843587; 0x00bc0c1b; 0x0c813c07; 0x00000000;
    0x05843607; 0x00cc0c1b; 0x10813c07; 0x00000000; 0x05843687; 0x00dc0c1b; 0x14813c07; 0x00000000;
    0x05843707; 0x00ec0c1b; 0x18813c07; 0x00000000; 0x05843787; 0x00fc0c1b; 0x1c813c07; 0x00000000;
    0x09843407; 0x010c0c1b; 0x01013c07; 0x00000000; 0x09843487; 0x011c0c1b; 0x05013c07; 0x00000000;
    0x09843507; 0x012c0c1b; 0x09013c07; 0x00000000; 0x09843587; 0x013c0c1b; 0x0d013c07; 0x00000000;
    0x09843607; 0x014c0c1b; 0x11013c07; 0x00000000; 0x09843687; 0x015c0c1b; 0x15013c07; 0x00000000;
    0x09843707; 0x016c0c1b; 0x19013c07; 0x00000000; 0x09843787; 0x017c0c1b; 0x1d013c07; 0x00000000;
    0x0d843407; 0x018c0c1b; 0x01813c07; 0x00000000; 0x0d843487; 0x019c0c1b; 0x05813c07; 0x00000000;
    0x0d843507; 0x01ac0c1b; 0x09813c07; 0x00000000; 0x0d843587; 0x01bc0c1b; 0x0d813c07; 0x00000000;
    0x0d843607; 0x01cc0c1b; 0x11813c07; 0x00000000; 0x0d843687; 0x01dc0c1b; 0x15813c07; 0x00000000;
    0x0d843707; 0x01ec0c1b; 0x19813c07; 0x00000000; 0x0d843787; 0x01fc0c1b; 0x1d813c07; 0x00000000;
    0x0184b407; 0x000c8c9b; 0x00013c87; 0x00000000; 0x0184b487; 0x001c8c9b; 0x04013c87; 0x00000000;
    0x0184b507; 0x002c8c9b; 0x08013c87; 0x00000000; 0x0184b587; 0x003c8c9b; 0x0c013c87; 0x00000000;
    0x0184b607; 0x004c8c9b; 0x10013c87; 0x00000000; 0x0184b687; 0x005c8c9b; 0x14013c87; 0x00000000;
    0x0184b707; 0x006c8c9b; 0x18013c87; 0x00000000; 0x0184b787; 0x007c8c9b; 0x1c013c87; 0x00000000;
    0x0584b407; 0x008c8c9b; 0x00813c87; 0x00000000; 0x0584b487; 0x009c8c9b; 0x04813c87; 0x00000000;
    0x0584b507; 0x00ac8c9b; 0x08813c87; 0x00000000; 0x0584b587; 0x00bc8c9b; 0x0c813c87; 0x00000000;
    0x0584b607; 0x00cc8c9b; 0x10813c87; 0x00000000; 0x0584b687; 0x00dc8c9b; 0x14813c87; 0x00000000;
    0x0584b707; 0x00ec8c9b; 0x18813c87; 0x00000000; 0x0584b787; 0x00fc8c9b; 0x1c813c87; 0x00000000;
    0x0984b407; 0x010c8c9b; 0x01013c87; 0x00000000; 0x0984b487; 0x011c8c9b; 0x05013c87; 0x00000000;
    0x0984b507; 0x012c8c9b; 0x09013c87; 0x00000000; 0x0984b587; 0x013c8c9b; 0x0d013c87; 0x00000000;
    0x0984b607; 0x014c8c9b; 0x11013c87; 0x00000000; 0x0984b687; 0x015c8c9b; 0x15013c87; 0x00000000;
    0x0984b707; 0x016c8c9b; 0x19013c87; 0x00000000; 0x0984b787; 0x017c8c9b; 0x1d013c87; 0x00000000;
    0x0d84b407; 0x018c8c9b; 0x01813c87; 0x00000000; 0x0d84b487; 0x019c8c9b; 0x05813c87; 0x00000000;
    0x0d84b507; 0x01ac8c9b; 0x09813c87; 0x00000000; 0x0d84b587; 0x01bc8c9b; 0x0d813c87; 0x00000000;
    0x0d84b607; 0x01cc8c9b; 0x11813c87; 0x00000000; 0x0d84b687; 0x01dc8c9b; 0x15813c87; 0x00000000;
    0x0d84b707; 0x01ec8c9b; 0x19813c87; 0x00000000; 0x0d84b787; 0x01fc8c9b; 0x1d813c87; 0x00000000;
    0x01853407; 0x000d0d1b; 0x00013d07; 0x00000000; 0x01853487; 0x001d0d1b; 0x04013d07; 0x00000000;
    0x01853507; 0x002d0d1b; 0x08013d07; 0x00000000; 0x01853587; 0x003d0d1b; 0x0c013d07; 0x00000000;
    0x01853607; 0x004d0d1b; 0x10013d07; 0x00000000; 0x01853687; 0x005d0d1b; 0x14013d07; 0x00000000;
    0x01853707; 0x006d0d1b; 0x18013d07; 0x00000000; 0x01853787; 0x007d0d1b; 0x1c013d07; 0x00000000;
    0x05853407; 0x008d0d1b; 0x00813d07; 0x00000000; 0x05853487; 0x009d0d1b; 0x04813d07; 0x00000000;
    0x05853507; 0x00ad0d1b; 0x08813d07; 0x00000000; 0x05853587; 0x00bd0d1b; 0x0c813d07; 0x00000000;
    0x05853607; 0x00cd0d1b; 0x10813d07; 0x00000000; 0x05853687; 0x00dd0d1b; 0x14813d07; 0x00000000;
    0x05853707; 0x00ed0d1b; 0x18813d07; 0x00000000; 0x05853787; 0x00fd0d1b; 0x1c813d07; 0x00000000;
    0x09853407; 0x010d0d1b; 0x01013d07; 0x00000000; 0x09853487; 0x011d0d1b; 0x05013d07; 0x00000000;
    0x09853507; 0x012d0d1b; 0x09013d07; 0x00000000; 0x09853587; 0x013d0d1b; 0x0d013d07; 0x00000000;
    0x09853607; 0x014d0d1b; 0x11013d07; 0x00000000; 0x09853687; 0x015d0d1b; 0x15013d07; 0x00000000;
    0x09853707; 0x016d0d1b; 0x19013d07; 0x00000000; 0x09853787; 0x017d0d1b; 0x1d013d07; 0x00000000;
    0x0d853407; 0x018d0d1b; 0x01813d07; 0x00000000; 0x0d853487; 0x019d0d1b; 0x05813d07; 0x00000000;
    0x0d853507; 0x01ad0d1b; 0x09813d07; 0x00000000; 0x0d853587; 0x01bd0d1b; 0x0d813d07; 0x00000000;
    0x0d853607; 0x01cd0d1b; 0x11813d07; 0x00000000; 0x0d853687; 0x01dd0d1b; 0x15813d07; 0x00000000;
    0x0d853707; 0x01ed0d1b; 0x19813d07; 0x00000000; 0x0d853787; 0x01fd0d1b; 0x1d813d07; 0x00000000;
    0x0185b407; 0x000d8d9b; 0x00013d87; 0x00000000; 0x0185b487; 0x001d8d9b; 0x04013d87; 0x00000000;
    0x0185b507; 0x002d8d9b; 0x08013d87; 0x00000000; 0x0185b587; 0x003d8d9b; 0x0c013d87; 0x00000000;
    0x0185b607; 0x004d8d9b; 0x10013d87; 0x00000000; 0x0185b687; 0x005d8d9b; 0x14013d87; 0x00000000;
    0x0185b707; 0x006d8d9b; 0x18013d87; 0x00000000; 0x0185b787; 0x007d8d9b; 0x1c013d87; 0x00000000;
    0x0585b407; 0x008d8d9b; 0x00813d87; 0x00000000; 0x0585b487; 0x009d8d9b; 0x04813d87; 0x00000000;
    0x0585b507; 0x00ad8d9b; 0x08813d87; 0x00000000; 0x0585b587; 0x00bd8d9b; 0x0c813d87; 0x00000000;
    0x0585b607; 0x00cd8d9b; 0x10813d87; 0x00000000; 0x0585b687; 0x00dd8d9b; 0x14813d87; 0x00000000;
    0x0585b707; 0x00ed8d9b; 0x18813d87; 0x00000000; 0x0585b787; 0x00fd8d9b; 0x1c813d87; 0x00000000;
    0x0985b407; 0x010d8d9b; 0x01013d87; 0x00000000; 0x0985b487; 0x011d8d9b; 0x05013d87; 0x00000000;
    0x0985b507; 0x012d8d9b; 0x09013d87; 0x00000000; 0x0985b587; 0x013d8d9b; 0x0d013d87; 0x00000000;
    0x0985b607; 0x014d8d9b; 0x11013d87; 0x00000000; 0x0985b687; 0x015d8d9b; 0x15013d87; 0x00000000;
    0x0985b707; 0x016d8d9b; 0x19013d87; 0x00000000; 0x0985b787; 0x017d8d9b; 0x1d013d87; 0x00000000;
    0x0d85b407; 0x018d8d9b; 0x01813d87; 0x00000000; 0x0d85b487; 0x019d8d9b; 0x05813d87; 0x00000000;
    0x0d85b507; 0x01ad8d9b; 0x09813d87; 0x00000000; 0x0d85b587; 0x01bd8d9b; 0x0d813d87; 0x00000000;
    0x0d85b607; 0x01cd8d9b; 0x11813d87; 0x00000000; 0x0d85b687; 0x01dd8d9b; 0x15813d87; 0x00000000;
    0x0d85b707; 0x01ed8d9b; 0x19813d87; 0x00000000; 0x0d85b787; 0x01fd8d9b; 0x1d813d87; 0x00000000;
    0x01863407; 0x000e0e1b; 0x00013e07; 0x00000000; 0x01863487; 0x001e0e1b; 0x04013e07; 0x00000000;
    0x01863507; 0x002e0e1b; 0x08013e07; 0x00000000; 0x01863587; 0x003e0e1b; 0x0c013e07; 0x00000000;
    0x01863607; 0x004e0e1b; 0x10013e07; 0x00000000; 0x01863687; 0x005e0e1b; 0x14013e07; 0x00000000;
    0x01863707; 0x006e0e1b; 0x18013e07; 0x00000000; 0x01863787; 0x007e0e1b; 0x1c013e07; 0x00000000;
    0x05863407; 0x008e0e1b; 0x00813e07; 0x00000000; 0x05863487; 0x009e0e1b; 0x04813e07; 0x00000000;
    0x05863507; 0x00ae0e1b; 0x08813e07; 0x00000000; 0x05863587; 0x00be0e1b; 0x0c813e07; 0x00000000;
    0x05863607; 0x00ce0e1b; 0x10813e07; 0x00000000; 0x05863687; 0x00de0e1b; 0x14813e07; 0x00000000;
    0x05863707; 0x00ee0e1b; 0x18813e07; 0x00000000; 0x05863787; 0x00fe0e1b; 0x1c813e07; 0x00000000;
    0x09863407; 0x010e0e1b; 0x01013e07; 0x00000000; 0x09863487; 0x011e0e1b; 0x05013e07; 0x00000000;
    0x09863507; 0x012e0e1b; 0x09013e07; 0x00000000; 0x09863587; 0x013e0e1b; 0x0d013e07; 0x00000000;
    0x09863607; 0x014e0e1b; 0x11013e07; 0x00000000; 0x09863687; 0x015e0e1b; 0x15013e07; 0x00000000;
    0x09863707; 0x016e0e1b; 0x19013e07; 0x00000000; 0x09863787; 0x017e0e1b; 0x1d013e07; 0x00000000;
    0x0d863407; 0x018e0e1b; 0x01813e07; 0x00000000; 0x0d863487; 0x019e0e1b; 0x05813e07; 0x00000000;
    0x0d863507; 0x01ae0e1b; 0x09813e07; 0x00000000; 0x0d863587; 0x01be0e1b; 0x0d813e07; 0x00000000;
    0x0d863607; 0x01ce0e1b; 0x11813e07; 0x00000000; 0x0d863687; 0x01de0e1b; 0x15813e07; 0x00000000;
    0x0d863707; 0x01ee0e1b; 0x19813e07; 0x00000000; 0x0d863787; 0x01fe0e1b; 0x1d813e07; 0x00000000;
    0x0186b407; 0x000e8e9b; 0x00013e87; 0x00000000; 0x0186b487; 0x001e8e9b; 0x04013e87; 0x00000000;
    0x0186b507; 0x002e8e9b; 0x08013e87; 0x00000000; 0x0186b587; 0x003e8e9b; 0x0c013e87; 0x00000000;
    0x0186b607; 0x004e8e9b; 0x10013e87; 0x00000000; 0x0186b687; 0x005e8e9b; 0x14013e87; 0x00000000;
    0x0186b707; 0x006e8e9b; 0x18013e87; 0x00000000; 0x0186b787; 0x007e8e9b; 0x1c013e87; 0x00000000;
    0x0586b407; 0x008e8e9b; 0x00813e87; 0x00000000; 0x0586b487; 0x009e8e9b; 0x04813e87; 0x00000000;
    0x0586b507; 0x00ae8e9b; 0x08813e87; 0x00000000; 0x0586b587; 0x00be8e9b; 0x0c813e87; 0x00000000;
    0x0586b607; 0x00ce8e9b; 0x10813e87; 0x00000000; 0x0586b687; 0x00de8e9b; 0x14813e87; 0x00000000;
    0x0586b707; 0x00ee8e9b; 0x18813e87; 0x00000000; 0x0586b787; 0x00fe8e9b; 0x1c813e87; 0x00000000;
    0x0986b407; 0x010e8e9b; 0x01013e87; 0x00000000; 0x0986b487; 0x011e8e9b; 0x05013e87; 0x00000000;
    0x0986b507; 0x012e8e9b; 0x09013e87; 0x00000000; 0x0986b587; 0x013e8e9b; 0x0d013e87; 0x00000000;
    0x0986b607; 0x014e8e9b; 0x11013e87; 0x00000000; 0x0986b687; 0x015e8e9b; 0x15013e87; 0x00000000;
    0x0986b707; 0x016e8e9b; 0x19013e87; 0x00000000; 0x0986b787; 0x017e8e9b; 0x1d013e87; 0x00000000;
    0x0d86b407; 0x018e8e9b; 0x01813e87; 0x00000000; 0x0d86b487; 0x019e8e9b; 0x05813e87; 0x00000000;
    0x0d86b507; 0x01ae8e9b; 0x09813e87; 0x00000000; 0x0d86b587; 0x01be8e9b; 0x0d813e87; 0x00000000;
    0x0d86b607; 0x01ce8e9b; 0x11813e87; 0x00000000; 0x0d86b687; 0x01de8e9b; 0x15813e87; 0x00000000;
    0x0d86b707; 0x01ee8e9b; 0x19813e87; 0x00000000; 0x0d86b787; 0x01fe8e9b; 0x1d813e87; 0x00000000;
    0x01873407; 0x000f0f1b; 0x00013f07; 0x00000000; 0x01873487; 0x001f0f1b; 0x04013f07; 0x00000000;
    0x01873507; 0x002f0f1b; 0x08013f07; 0x00000000; 0x01873587; 0x003f0f1b; 0x0c013f07; 0x00000000;
    0x01873607; 0x004f0f1b; 0x10013f07; 0x00000000; 0x01873687; 0x005f0f1b; 0x14013f07; 0x00000000;
    0x01873707; 0x006f0f1b; 0x18013f07; 0x00000000; 0x01873787; 0x007f0f1b; 0x1c013f07; 0x00000000;
    0x05873407; 0x008f0f1b; 0x00813f07; 0x00000000; 0x05873487; 0x009f0f1b; 0x04813f07; 0x00000000;
    0x05873507; 0x00af0f1b; 0x08813f07; 0x00000000; 0x05873587; 0x00bf0f1b; 0x0c813f07; 0x00000000;
    0x05873607; 0x00cf0f1b; 0x10813f07; 0x00000000; 0x05873687; 0x00df0f1b; 0x14813f07; 0x00000000;
    0x05873707; 0x00ef0f1b; 0x18813f07; 0x00000000; 0x05873787; 0x00ff0f1b; 0x1c813f07; 0x00000000;
    0x09873407; 0x010f0f1b; 0x01013f07; 0x00000000; 0x09873487; 0x011f0f1b; 0x05013f07; 0x00000000;
    0x09873507; 0x012f0f1b; 0x09013f07; 0x00000000; 0x09873587; 0x013f0f1b; 0x0d013f07; 0x00000000;
    0x09873607; 0x014f0f1b; 0x11013f07; 0x00000000; 0x09873687; 0x015f0f1b; 0x15013f07; 0x00000000;
    0x09873707; 0x016f0f1b; 0x19013f07; 0x00000000; 0x09873787; 0x017f0f1b; 0x1d013f07; 0x00000000;
    0x0d873407; 0x018f0f1b; 0x01813f07; 0x00000000; 0x0d873487; 0x019f0f1b; 0x05813f07; 0x00000000;
    0x0d873507; 0x01af0f1b; 0x09813f07; 0x00000000; 0x0d873587; 0x01bf0f1b; 0x0d813f07; 0x00000000;
    0x0d873607; 0x01cf0f1b; 0x11813f07; 0x00000000; 0x0d873687; 0x01df0f1b; 0x15813f07; 0x00000000;
    0x0d873707; 0x01ef0f1b; 0x19813f07; 0x00000000; 0x0d873787; 0x01ff0f1b; 0x1d813f07; 0x00000000;
    0x0187b407; 0x000f8f9b; 0x00013f87; 0x00000000; 0x0187b487; 0x001f8f9b; 0x04013f87; 0x00000000;
    0x0187b507; 0x002f8f9b; 0x08013f87; 0x00000000; 0x0187b587; 0x003f8f9b; 0x0c013f87; 0x00000000;
    0x0187b607; 0x004f8f9b; 0x10013f87; 0x00000000; 0x0187b687; 0x005f8f9b; 0x14013f87; 0x00000000;
    0x0187b707; 0x006f8f9b; 0x18013f87; 0x00000000; 0x0187b787; 0x007f8f9b; 0x1c013f87; 0x00000000;
    0x0587b407; 0x008f8f9b; 0x00813f87; 0x00000000; 0x0587b487; 0x009f8f9b; 0x04813f87; 0x00000000;
    0x0587b507; 0x00af8f9b; 0x08813f87; 0x00000000; 0x0587b587; 0x00bf8f9b; 0x0c813f87; 0x00000000;
    0x0587b607; 0x00cf8f9b; 0x10813f87; 0x00000000; 0x0587b687; 0x00df8f9b; 0x14813f87; 0x00000000;
    0x0587b707; 0x00ef8f9b; 0x18813f87; 0x00000000; 0x0587b787; 0x00ff8f9b; 0x1c813f87; 0x00000000;
    0x0987b407; 0x010f8f9b; 0x01013f87; 0x00000000; 0x0987b487; 0x011f8f9b; 0x05013f87; 0x00000000;
    0x0987b507; 0x012f8f9b; 0x09013f87; 0x00000000; 0x0987b587; 0x013f8f9b; 0x0d013f87; 0x00000000;
    0x0987b607; 0x014f8f9b; 0x11013f87; 0x00000000; 0x0987b687; 0x015f8f9b; 0x15013f87; 0x00000000;
    0x0987b707; 0x016f8f9b; 0x19013f87; 0x00000000; 0x0987b787; 0x017f8f9b; 0x1d013f87; 0x00000000;
    0x0d87b407; 0x018f8f9b; 0x01813f87; 0x00000000; 0x0d87b487; 0x019f8f9b; 0x05813f87; 0x00000000;
    0x0d87b507; 0x01af8f9b; 0x09813f87; 0x00000000; 0x0d87b587; 0x01bf8f9b; 0x0d813f87; 0x00000000;
    0x0d87b607; 0x01cf8f9b; 0x11813f87; 0x00000000; 0x0d87b687; 0x01df8f9b; 0x15813f87; 0x00000000;
    0x0d87b707; 0x01ef8f9b; 0x19813f87; 0x00000000; 0x0d87b787; 0x01ff8f9b; 0x1d813f87; 0x00000000
].

(** parcels 0x3000 to 0x33ff *)
Definition RVC64_EXPANDED_12 : list Z := [
    0x02043407; 0x00000000; 0x02013007; 0x00000000; 0x02043487; 0x00000000; 0x06013007; 0x00000000;
    0x02043507; 0x00000000; 0x0a013007; 0x00000000; 0x02043587; 0x00000000; 0x0e013007; 0x00000000;
    0x02043607; 0x00000000; 0x12013007; 0x00000000; 0x02043687; 0x00000000; 0x16013007; 0x00000000;
    0x02043707; 0x00000000; 0x1a013007; 0x00000000; 0x02043787; 0x00000000; 0x1e013007; 0x00000000;
    0x06043407; 0x00000000; 0x02813007; 0x00000000; 0x06043487; 0x00000000; 0x06813007; 0x00000000;
    0x06043507; 0x00000000; 0x0a813007; 0x00000000; 0x06043587; 0x00000000; 0x0e813007; 0x00000000;
    0x06043607; 0x00000000; 0x12813007; 0x00000000; 0x06043687; 0x00000000; 0x16813007; 0x00000000;
    0x06043707; 0x00000000; 0x1a813007; 0x00000000; 0x06043787; 0x00000000; 0x1e813007; 0x00000000;
    0x0a043407; 0x00000000; 0x03013007; 0x00000000; 0x0a043487; 0x00000000; 0x07013007; 0x00000000;
    0x0a043507; 0x00000000; 0x0b013007; 0x00000000; 0x0a043587; 0x00000000; 0x0f013007; 0x00000000;
    0x0a043607; 0x00000000; 0x13013007; 0x00000000; 0x0a043687; 0x00000000; 0x17013007; 0x00000000;
    0x0a043707; 0x00000000; 0x1b013007; 0x00000000; 0x0a043787; 0x00000000; 0x1f013007; 0x00000000;
    0x0e043407; 0x00000000; 0x03813007; 0x00000000; 0x0e043487; 0x00000000; 0x07813007; 0x00000000;
    0x0e043507; 0x00000000; 0x0b813007; 0x00000000; 0x0e043587; 0x00000000; 0x0f813007; 0x00000000;
    0x0e043607; 0x00000000; 0x13813007; 0x00000000; 0x0e043687; 0x00000000; 0x17813007; 0x00000000;
    0x0e043707; 0x00000000; 0x1b813007; 0x00000000; 0x0e043787; 0x00000000; 0x1f813007; 0x00000000;
    0x0204b407; 0xfe00809b; 0x02013087; 0x00000000; 0x0204b487; 0xfe10809b; 0x06013087; 0x00000000;
    0x0204b507; 0xfe20809b; 0x0a013087; 0x00000000; 0x0204b587; 0xfe30809b; 0x0e013087; 0x00000000;
    0x0204b607; 0xfe40809b; 0x12013087; 0x00000000; 0x0204b687; 0xfe50809b; 0x16013087; 0x00000000;
    0x0204b707; 0xfe60809b; 0x1a013087; 0x00000000; 0x0204b787; 0xfe70809b; 0x1e013087; 0x00000000;
    0x0604b407; 0xfe80809b; 0x02813087; 0x00000000; 0x0604b487; 0xfe90809b; 0x06813087; 0x00000000;
    0x0604b507; 0xfea0809b; 0x0a813087; 0x00000000; 0x0604b587; 0xfeb0809b; 0x0e813087; 0x00000000;
    0x0604b607; 0xfec0809b; 0x12813087; 0x00000000; 0x0604b687; 0xfed0809b; 0x16813087; 0x00000000;
    0x0604b707; 0xfee0809b; 0x1a813087; 0x00000000; 0x0604b787; 0xfef0809b; 0x1e813087; 0x00000000;
    0x0a04b407; 0xff00809b; 0x03013087; 0x00000000; 0x0a04b487; 0xff10809b; 0x07013087; 0x00000000;
    0x0a04b507; 0xff20809b; 0x0b013087; 0x00000000; 0x0a04b587; 0xff30809b; 0x0f013087; 0x00000000;
    0x0a04b607; 0xff40809b; 0x13013087; 0x00000000; 0x0a04b687; 0xff50809b; 0x17013087; 0x00000000;
    0x0a04b707; 0xff60809b; 0x1b013087; 0x00000000; 0x0a04b787; 0xff70809b; 0x1f013087; 0x00000000;
    0x0e04b407; 0xff80809b; 0x03813087; 0x00000000; 0x0e04b487; 0xff90809b; 0x07813087; 0x00000000;
    0x0e04b507; 0xffa0809b; 0x0b813087; 0x00000000; 0x0e04b587; 0xffb0809b; 0x0f813087; 0x00000000;
    0x0e04b607; 0xffc0809b; 0x13813087; 0x00000000; 0x0e04b687; 0xffd0809b; 0x17813087; 0x00000000;
    0x0e04b707; 0xffe0809b; 0x1b813087; 0x00000000; 0x0e04b787; 0xfff0809b; 0x1f813087; 0x00000000;
    0x02053407; 0xfe01011b; 0x02013107; 0x00000000; 0x02053487; 0xfe11011b; 0x06013107; 0x00000000;
    0x02053507; 0xfe21011b; 0x0a013107; 0x00000000; 0x02053587; 0xfe31011b; 0x0e013107; 0x00000000;
    0x02053607; 0xfe41011b; 0x12013107; 0x00000000; 0x02053687; 0xfe51011b; 0x16013107; 0x00000000;
    0x02053707; 0xfe61011b; 0x1a013107; 0x00000000; 0x02053787; 0xfe71011b; 0x1e013107; 0x00000000;
    0x06053407; 0xfe81011b; 0x02813107; 0x00000000; 0x06053487; 0xfe91011b; 0x06813107; 0x00000000;
    0x06053507; 0xfea1011b; 0x0a813107; 0x00000000; 0x06053587; 0xfeb1011b; 0x0e813107; 0x00000000;
    0x06053607; 0xfec1011b; 0x12813107; 0x00000000; 0x06053687; 0xfed1011b; 0x16813107; 0x00000000;
    0x06053707; 0xfee1011b; 0x1a813107; 0x00000000; 0x06053787; 0xfef1011b; 0x1e813107; 0x00000000;
    0x0a053407; 0xff01011b; 0x03013107; 0x00000000; 0x0a053487; 0xff11011b; 0x07013107; 0x00000000;
    0x0a053507; 0xff21011b; 0x0b013107; 0x00000000; 0x0a053587; 0xff31011b; 0x0f013107; 0x00000000;
    0x0a053607; 0xff41011b; 0x13013107; 0x00000000; 0x0a053687; 0xff51011b; 0x17013107; 0x00000000;
    0x0a053707; 0xff61011b; 0x1b013107; 0x00000000; 0x0a053787; 0xff71011b; 0x1f013107; 0x00000000;
    0x0e053407; 0xff81011b; 0x03813107; 0x00000000; 0x0e053487; 0xff91011b; 0x07813107; 0x00000000;
    0x0e053507; 0xffa1011b; 0x0b813107; 0x00000000; 0x0e053587; 0xffb1011b; 0x0f813107; 0x00000000;
    0x0e053607; 0xffc1011b; 0x13813107; 0x00000000; 0x0e053687; 0xffd1011b; 0x17813107; 0x00000000;
    0x0e053707; 0xffe1011b; 0x1b813107; 0x00000000; 0x0e053787; 0xfff1011b; 0x1f813107; 0x00000000;
    0x0205b407; 0xfe01819b; 0x02013187; 0x00000000; 0x0205b487; 0xfe11819b; 0x06013187; 0x00000000;
    0x0205b507; 0xfe21819b; 0x0a013187; 0x00000000; 0x0205b587; 0xfe31819b; 0x0e013187; 0x00000000;
    0x0205b607; 0xfe41819b; 0x12013187; 0x00000000; 0x0205b687; 0xfe51819b; 0x16013187; 0x00000000;
    0x0205b707; 0xfe61819b; 0x1a013187; 0x00000000; 0x0205b787; 0xfe71819b; 0x1e013187; 0x00000000;
    0x0605b407; 0xfe81819b; 0x02813187; 0x00000000; 0x0605b487; 0xfe91819b; 0x06813187; 0x00000000;
    0x0605b507; 0xfea1819b; 0x0a813187; 0x00000000; 0x0605b587; 0xfeb1819b; 0x0e813187; 0x00000000;
    0x0605b607; 0xfec1819b; 0x12813187; 0x00000000; 0x0605b687; 0xfed1819b; 0x16813187; 0x00000000;
    0x0605b707; 0xfee1819b; 0x1a813187; 0x00000000; 0x0605b787; 0xfef1819b; 0x1e813187; 0x00000000;
    0x0a05b407; 0xff01819b; 0x03013187; 0x00000000; 0x0a05b487; 0xff11819b; 0x07013187; 0x00000000;
    0x0a05b507; 0xff21819b; 0x0b013187; 0x00000000; 0x0a05b587; 0xff31819b; 0x0f013187; 0x00000000;
    0x0a05b607; 0xff41819b; 0x13013187; 0x00000000; 0x0a05b687; 0xff51819b; 0x17013187; 0x00000000;
    0x0a05b707; 0xff61819b; 0x1b013187; 0x00000000; 0x0a05b787; 0xff71819b; 0x1f013187; 0x00000000;
    0x0e05b407; 0xff81819b; 0x03813187; 0x00000000; 0x0e05b487; 0xff91819b; 0x07813187; 0x00000000;
    0x0e05b507; 0xffa1819b; 0x0b813187; 0x00000000; 0x0e05b587; 0xffb1819b; 0x0f813187; 0x00000000;
    0x0e05b607; 0xffc1819b; 0x13813187; 0x00000000; 0x0e05b687; 0xffd1819b; 0x17813187; 0x00000000;
    0x0e05b707; 0xffe1819b; 0x1b813187; 0x00000000; 0x0e05b787; 0xfff1819b; 0x1f813187; 0x00000000;
    0x02063407; 0xfe02021b; 0x02013207; 0x00000000; 0x02063487; 0xfe12021b; 0x06013207; 0x00000000;
    0x02063507; 0xfe22021b; 0x0a013207; 0x00000000; 0x02063587; 0xfe32021b; 0x0e013207; 0x00000000;
    0x02063607; 0xfe42021b; 0x12013207; 0x00000000; 0x02063687; 0xfe52021b; 0x16013207; 0x00000000;
    0x02063707; 0xfe62021b; 0x1a013207; 0x00000000; 0x02063787; 0xfe72021b; 0x1e013207; 0x00000000;
    0x06063407; 0xfe82021b; 0x02813207; 0x00000000; 0x06063487; 0xfe92021b; 0x06813207; 0x00000000;
    0x06063507; 0xfea2021b; 0x0a813207; 0x00000000; 0x06063587; 0xfeb2021b; 0x0e813207; 0x00000000;
    0x06063607; 0xfec2021b; 0x12813207; 0x00000000; 0x06063687; 0xfed2021b; 0x16813207; 0x00000000;
    0x06063707; 0xfee2021b; 0x1a813207; 0x00000000; 0x06063787; 0xfef2021b; 0x1e813207; 0x00000000;
    0x0a063407; 0xff02021b; 0x03013207; 0x00000000; 0x0a063487; 0xff12021b; 0x07013207; 0x00000000;
    0x0a063507; 0xff22021b; 0x0b013207; 0x00000000; 0x0a063587; 0xff32021b; 0x0f013207; 0x00000000;
    0x0a063607; 0xff42021b; 0x13013207; 0x00000000; 0x0a063687; 0xff52021b; 0x17013207; 0x00000000;
    0x0a063707; 0xff62021b; 0x1b013207; 0x00000000; 0x0a063787; 0xff72021b; 0x1f013207; 0x00000000;
    0x0e063407; 0xff82021b; 0x03813207; 0x00000000; 0x0e063487; 0xff92021b; 0x07813207; 0x00000000;
    0x0e063507; 0xffa2021b; 0x0b813207; 0x00000000; 0x0e063587; 0xffb2021b; 0x0f813207; 0x00000000;
    0x0e063607; 0xffc2021b; 0x13813207; 0x00000000; 0x0e063687; 0xffd2021b; 0x17813207; 0x00000000;
    0x0e063707; 0xffe2021b; 0x1b813207; 0x00000000; 0x0e063787; 0xfff2021b; 0x1f813207; 0x00000000;
    0x0206b407; 0xfe02829b; 0x02013287; 0x00000000; 0x0206b487; 0xfe12829b; 0x06013287; 0x00000000;
    0x0206b507; 0xfe22829b; 0x0a013287; 0x00000000; 0x0206b587; 0xfe32829b; 0x0e013287; 0x00000000;
    0x0206b607; 0xfe42829b; 0x12013287; 0x00000000; 0x0206b687; 0xfe52829b; 0x16013287; 0x00000000;
    0x0206b707; 0xfe62829b; 0x1a013287; 0x00000000; 0x0206b787; 0xfe72829b; 0x1e013287; 0x00000000;
    0x0606b407; 0xfe82829b; 0x02813287; 0x00000000; 0x0606b487; 0xfe92829b; 0x06813287; 0x00000000;
    0x0606b507; 0xfea2829b; 0x0a813287; 0x00000000; 0x0606b587; 0xfeb2829b; 0x0e813287; 0x00000000;
    0x0606b607; 0xfec2829b; 0x12813287; 0x00000000; 0x0606b687; 0xfed2829b; 0x16813287; 0x00000000;
    0x0606b707; 0xfee2829b; 0x1a813287; 0x00000000; 0x0606b787; 0xfef2829b; 0x1e813287; 0x00000000;
    0x0a06b407; 0xff02829b; 0x03013287; 0x00000000; 0x0a06b487; 0xff12829b; 0x07013287; 0x00000000;
    0x0a06b507; 0xff22829b; 0x0b013287; 0x00000000; 0x0a06b587; 0xff32829b; 0x0f013287; 0x00000000;
    0x0a06b607; 0xff42829b; 0x13013287; 0x00000000; 0x0a06b687; 0xff52829b; 0x17013287; 0x00000000;
    0x0a06b707; 0xff62829b; 0x1b013287; 0x00000000; 0x0a06b787; 0xff72829b; 0x1f013287; 0x00000000;
    0x0e06b407; 0xff82829b; 0x03813287; 0x00000000; 0x0e06b487; 0xff92829b; 0x07813287; 0x00000000;
    0x0e06b507; 0xffa2829b; 0x0b813287; 0x00000000; 0x0e06b587; 0xffb2829b; 0x0f813287; 0x00000000;
    0x0e06b607; 0xffc2829b; 0x13813287; 0x00000000; 0x0e06b687; 0xffd2829b; 0x17813287; 0x00000000;
    0x0e06b707; 0xffe2829b; 0x1b813287; 0x00000000; 0x0e06b787; 0xfff2829b; 0x1f813287; 0x00000000;
    0x02073407; 0xfe03031b; 0x02013307; 0x00000000; 0x02073487; 0xfe13031b; 0x06013307; 0x00000000;
    0x02073507; 0xfe23031b; 0x0a013307; 0x00000000; 0x02073587; 0xfe33031b; 0x0e013307; 0x00000000;
    0x02073607; 0xfe43031b; 0x12013307; 0x00000000; 0x02073687; 0xfe53031b; 0x16013307; 0x00000000;
    0x02073707; 0xfe63031b; 0x1a013307; 0x00000000; 0x02073787; 0xfe73031b; 0x1e013307; 0x00000000;
    0x06073407; 0xfe83031b; 0x02813307; 0x00000000; 0x06073487; 0xfe93031b; 0x06813307; 0x00000000;
    0x06073507; 0xfea3031b; 0x0a813307; 0x00000000; 0x06073587; 0xfeb3031b; 0x0e813307; 0x00000000;
    0x06073607; 0xfec3031b; 0x12813307; 0x00000000; 0x06073687; 0xfed3031b; 0x16813307; 0x00000000;
    0x06073707; 0xfee3031b; 0x1a813307; 0x00000000; 0x06073787; 0xfef3031b; 0x1e813307; 0x00000000;
    0x0a073407; 0xff03031b; 0x03013307; 0x00000000; 0x0a073487; 0xff13031b; 0x07013307; 0x00000000;
    0x0a073507; 0xff23031b; 0x0b013307; 0x00000000; 0x0a073587; 0xff33031b; 0x0f013307; 0x00000000;
    0x0a073607; 0xff43031b; 0x13013307; 0x00000000; 0x0a073687; 0xff53031b; 0x17013307; 0x00000000;
    0x0a073707; 0xff63031b; 0x1b013307; 0x00000000; 0x0a073787; 0xff73031b; 0x1f013307; 0x00000000;
    0x0e073407; 0xff83031b; 0x03813307; 0x00000000; 0x0e073487; 0xff93031b; 0x07813307; 0x00000000;
    0x0e073507; 0xffa3031b; 0x0b813307; 0x00000000; 0x0e073587; 0xffb3031b; 0x0f813307; 0x00000000;
    0x0e073607; 0xffc3031b; 0x13813307; 0x00000000; 0x0e073687; 0xffd3031b; 0x17813307; 0x00000000;
    0x0e073707; 0xffe3031b; 0x1b813307; 0x00000000; 0x0e073787; 0xfff3031b; 0x1f813307; 0x00000000;
    0x0207b407; 0xfe03839b; 0x02013387; 0x00000000; 0x0207b487; 0xfe13839b; 0x06013387; 0x00000000;
    0x0207b507; 0xfe23839b; 0x0a013387; 0x00000000; 0x0207b587; 0xfe33839b; 0x0e013387; 0x00000000;
    0x0207b607; 0xfe43839b; 0x12013387; 0x00000000; 0x0207b687; 0xfe53839b; 0x16013387; 0x00000000;
    0x0207b707; 0xfe63839b; 0x1a013387; 0x00000000; 0x0207b787; 0xfe73839b; 0x1e013387; 0x00000000;
    0x0607b407; 0xfe83839b; 0x02813387; 0x00000000; 0x0607b487; 0xfe93839b; 0x06813387; 0x00000000;
    0x0607b507; 0xfea3839b; 0x0a813387; 0x00000000; 0x0607b587; 0xfeb3839b; 0x0e813387; 0x00000000;
    0x0607b607; 0xfec3839b; 0x12813387; 0x00000000; 0x0607b687; 0xfed3839b; 0x16813387; 0x00000000;
    0x0607b707; 0xfee3839b; 0x1a813387; 0x00000000; 0x0607b787; 0xfef3839b; 0x1e813387; 0x00000000;
    0x0a07b407; 0xff03839b; 0x03013387; 0x00000000; 0x0a07b487; 0xff13839b; 0x07013387; 0x00000000;
    0x0a07b507; 0xff23839b; 0x0b013387; 0x00000000; 0x0a07b587; 0xff33839b; 0x0f013387; 0x00000000;
    0x0a07b607; 0xff43839b; 0x13013387; 0x00000000; 0x0a07b687; 0xff53839b; 0x17013387; 0x00000000;
    0x0a07b707; 0xff63839b; 0x1b013387; 0x00000000; 0x0a07b787; 0xff73839b; 0x1f013387; 0x00000000;
    0x0e07b407; 0xff83839b; 0x03813387; 0x00000000; 0x0e07b487; 0xff93839b; 0x07813387; 0x00000000;
    0x0e07b507; 0xffa3839b; 0x0b813387; 0x00000000; 0x0e07b587; 0xffb3839b; 0x0f813387; 0x00000000;
    0x0e07b607; 0xffc3839b; 0x13813387; 0x00000000; 0x0e07b687; 0xffd3839b; 0x17813387; 0x00000000;
    0x0e07b707; 0xffe3839b; 0x1b813387; 0x00000000; 0x0e07b787; 0xfff3839b; 0x1f813387; 0x00000000
].

(** parcels 0x3400 to 0x37ff *)
Definition RVC64_EXPANDED_13 : list Z := [
    0x02843407; 0xfe04041b; 0x02013407; 0x00000000; 0x02843487; 0xfe14041b; 0x06013407; 0x00000000;
    0x02843507; 0xfe24041b; 0x0a013407; 0x00000000; 0x02843587; 0xfe34041b; 0x0e013407; 0x00000000;
    0x02843607; 0xfe44041b; 0x12013407; 0x00000000; 0x02843687; 0xfe54041b; 0x16013407; 0x00000000;
    0x02843707; 0xfe64041b; 0x1a013407; 0x00000000; 0x02843787; 0xfe74041b; 0x1e013407; 0x00000000;
    0x06843407; 0xfe84041b; 0x02813407; 0x00000000; 0x06843487; 0xfe94041b; 0x06813407; 0x00000000;
    0x06843507; 0xfea4041b; 0x0a813407; 0x00000000; 0x06843587; 0xfeb4041b; 0x0e813407; 0x00000000;
    0x06843607; 0xfec4041b; 0x12813407; 0x00000000; 0x06843687; 0xfed4041b; 0x16813407; 0x00000000;
    0x06843707; 0xfee4041b; 0x1a813407; 0x00000000; 0x06843787; 0xfef4041b; 0x1e813407; 0x00000000;
    0x0a843407; 0xff04041b; 0x03013407; 0x00000000; 0x0a843487; 0xff14041b; 0x07013407; 0x00000000;
    0x0a843507; 0xff24041b; 0x0b013407; 0x00000000; 0x0a843587; 0xff34041b; 0x0f013407; 0x00000000;
    0x0a843607; 0xff44041b; 0x13013407; 0x00000000; 0x0a843687; 0xff54041b; 0x17013407; 0x00000000;
    0x0a843707; 0xff64041b; 0x1b013407; 0x00000000; 0x0a843787; 0xff74041b; 0x1f013407; 0x00000000;
    0x0e843407; 0xff84041b; 0x03813407; 0x00000000; 0x0e843487; 0xff94041b; 0x07813407; 0x00000000;
    0x0e843507; 0xffa4041b; 0x0b813407; 0x00000000; 0x0e843587; 0xffb4041b; 0x0f813407; 0x00000000;
    0x0e843607; 0xffc4041b; 0x13813407; 0x00000000; 0x0e843687; 0xffd4041b; 0x17813407; 0x00000000;
    0x0e843707; 0xffe4041b; 0x1b813407; 0x00000000; 0x0e843787; 0xfff4041b; 0x1f813407; 0x00000000;
    0x0284b407; 0xfe04849b; 0x02013487; 0x00000000; 0x0284b487; 0xfe14849b; 0x06013487; 0x00000000;
    0x0284b507; 0xfe24849b; 0x0a013487; 0x00000000; 0x0284b587; 0xfe34849b; 0x0e013487; 0x00000000;
    0x0284b607; 0xfe44849b; 0x12013487; 0x00000000; 0x0284b687; 0xfe54849b; 0x16013487; 0x00000000;
    0x0284b707; 0xfe64849b; 0x1a013487; 0x00000000; 0x0284b787; 0xfe74849b; 0x1e013487; 0x00000000;
    0x0684b407; 0xfe84849b; 0x02813487; 0x00000000; 0x0684b487; 0xfe94849b; 0x06813487; 0x00000000;
    0x0684b507; 0xfea4849b; 0x0a813487; 0x00000000; 0x0684b587; 0xfeb4849b; 0x0e813487; 0x00000000;
    0x0684b607; 0xfec4849b; 0x12813487; 0x00000000; 0x0684b687; 0xfed4849b; 0x16813487; 0x00000000;
    0x0684b707; 0xfee4849b; 0x1a813487; 0x00000000; 0x0684b787; 0xfef4849b; 0x1e813487; 0x00000000;
    0x0a84b407; 0xff04849b; 0x03013487; 0x00000000; 0x0a84b487; 0xff14849b; 0x07013487; 0x00000000;
    0x0a84b507; 0xff24849b; 0x0b013487; 0x00000000; 0x0a84b587; 0xff34849b; 0x0f013487; 0x00000000;
    0x0a84b607; 0xff44849b; 0x13013487; 0x00000000; 0x0a84b687; 0xff54849b; 0x17013487; 0x00000000;
    0x0a84b707; 0xff64849b; 0x1b013487; 0x00000000; 0x0a84b787; 0xff74849b; 0x1f013487; 0x00000000;
    0x0e84b407; 0xff84849b; 0x03813487; 0x00000000; 0x0e84b487; 0xff94849b; 0x07813487; 0x00000000;
    0x0e84b507; 0xffa4849b; 0x0b813487; 0x00000000; 0x0e84b587; 0xffb4849b; 0x0f813487; 0x00000000;
    0x0e84b607; 0xffc4849b; 0x13813487; 0x00000000; 0x0e84b687; 0xffd4849b; 0x17813487; 0x00000000;
    0x0e84b707; 0xffe4849b; 0x1b813487; 0x00000000; 0x0e84b787; 0xfff4849b; 0x1f813487; 0x00000000;
    0x02853407; 0xfe05051b; 0x02013507; 0x00000000; 0x02853487; 0xfe15051b; 0x06013507; 0x00000000;
    0x02853507; 0xfe25051b; 0x0a013507; 0x00000000; 0x02853587; 0xfe35051b; 0x0e013507; 0x00000000;
    0x02853607; 0xfe45051b; 0x12013507; 0x00000000; 0x02853687; 0xfe55051b; 0x16013507; 0x00000000;
    0x02853707; 0xfe65051b; 0x1a013507; 0x00000000; 0x02853787; 0xfe75051b; 0x1e013507; 0x00000000;
    0x06853407; 0xfe85051b; 0x02813507; 0x00000000; 0x06853487; 0xfe95051b; 0x06813507; 0x00000000;
    0x06853507; 0xfea5051b; 0x0a813507; 0x00000000; 0x06853587; 0xfeb5051b; 0x0e813507; 0x00000000;
    0x06853607; 0xfec5051b; 0x12813507; 0x00000000; 0x06853687; 0xfed5051b; 0x16813507; 0x00000000;
    0x06853707; 0xfee5051b; 0x1a813507; 0x00000000; 0x06853787; 0xfef5051b; 0x1e813507; 0x00000000;
    0x0a853407; 0xff05051b; 0x03013507; 0x00000000; 0x0a853487; 0xff15051b; 0x07013507; 0x00000000;
    0x0a853507; 0xff25051b; 0x0b013507; 0x00000000; 0x0a853587; 0xff35051b; 0x0f013507; 0x00000000;
    0x0a853607; 0xff45051b; 0x13013507; 0x00000000; 0x0a853687; 0xff55051b; 0x17013507; 0x00000000;
    0x0a853707; 0xff65051b; 0x1b013507; 0x00000000; 0x0a853787; 0xff75051b; 0x1f013507; 0x00000000;
    0x0e853407; 0xff85051b; 0x03813507; 0x00000000; 0x0e853487; 0xff95051b; 0x07813507; 0x00000000;
    0x0e853507; 0xffa5051b; 0x0b813507; 0x00000000; 0x0e853587; 0xffb5051b; 0x0f813507; 0x00000000;
    0x0e853607; 0xffc5051b; 0x13813507; 0x00000000; 0x0e853687; 0xffd5051b; 0x17813507; 0x00000000;
    0x0e853707; 0xffe5051b; 0x1b813507; 0x00000000; 0x0e853787; 0xfff5051b; 0x1f813507; 0x00000000;
    0x0285b407; 0xfe05859b; 0x02013587; 0x00000000; 0x0285b487; 0xfe15859b; 0x06013587; 0x00000000;
    0x0285b507; 0xfe25859b; 0x0a013587; 0x00000000; 0x0285b587; 0xfe35859b; 0x0e013587; 0x00000000;
    0x0285b607; 0xfe45859b; 0x12013587; 0x00000000; 0x0285b687; 0xfe55859b; 0x16013587; 0x00000000;
    0x0285b707; 0xfe65859b; 0x1a013587; 0x00000000; 0x0285b787; 0xfe75859b; 0x1e013587; 0x00000000;
    0x0685b407; 0xfe85859b; 0x02813587; 0x00000000; 0x0685b487; 0xfe95859b; 0x06813587; 0x00000000;
    0x0685b507; 0xfea5859b; 0x0a813587; 0x00000000; 0x0685b587; 0xfeb5859b; 0x0e813587; 0x00000000;
    0x0685b607; 0xfec5859b; 0x12813587; 0x00000000; 0x0685b687; 0xfed5859b; 0x16813587; 0x00000000;
    0x0685b707; 0xfee5859b; 0x1a813587; 0x00000000; 0x0685b787; 0xfef5859b; 0x1e813587; 0x00000000;
    0x0a85b407; 0xff05859b; 0x03013587; 0x00000000; 0x0a85b487; 0xff15859b; 0x07013587; 0x00000000;
    0x0a85b507; 0xff25859b; 0x0b013587; 0x00000000; 0x0a85b587; 0xff35859b; 0x0f013587; 0x00000000;
    0x0a85b607; 0xff45859b; 0x13013587; 0x00000000; 0x0a85b687; 0xff55859b; 0x17013587; 0x00000000;
    0x0a85b707; 0xff65859b; 0x1b013587; 0x00000000; 0x0a85b787; 0xff75859b; 0x1f013587; 0x00000000;
    0x0e85b407; 0xff85859b; 0x03813587; 0x00000000; 0x0e85b487; 0xff95859b; 0x07813587; 0x00000000;
    0x0e85b507; 0xffa5859b; 0x0b813587; 0x00000000; 0x0e85b587; 0xffb5859b; 0x0f813587; 0x00000000;
    0x0e85b607; 0xffc5859b; 0x13813587; 0x00000000; 0x0e85b687; 0xffd5859b; 0x17813587; 0x00000000;
    0x0e85b707; 0xffe5859b; 0x1b813587; 0x00000000; 0x0e85b787; 0xfff5859b; 0x1f813587; 0x00000000;
    0x02863407; 0xfe06061b; 0x02013607; 0x00000000; 0x02863487; 0xfe16061b; 0x06013607; 0x00000000;
    0x02863507; 0xfe26061b; 0x0a013607; 0x00000000; 0x02863587; 0xfe36061b; 0x0e013607; 0x00000000;
    0x02863607; 0xfe46061b; 0x12013607; 0x00000000; 0x02863687; 0xfe56061b; 0x16013607; 0x00000000;
    0x02863707; 0xfe66061b; 0x1a013607; 0x00000000; 0x02863787; 0xfe76061b; 0x1e013607; 0x00000000;
    0x06863407; 0xfe86061b; 0x02813607; 0x00000000; 0x06863487; 0xfe96061b; 0x06813607; 0x00000000;
    0x06863507; 0xfea6061b; 0x0a813607; 0x00000000; 0x06863587; 0xfeb6061b; 0x0e813607; 0x00000000;
    0x06863607; 0xfec6061b; 0x12813607; 0x00000000; 0x06863687; 0xfed6061b; 0x16813607; 0x00000000;
    0x06863707; 0xfee6061b; 0x1a813607; 0x00000000; 0x06863787; 0xfef6061b; 0x1e813607; 0x00000000;
    0x0a863407; 0xff06061b; 0x03013607; 0x00000000; 0x0a863487; 0xff16061b; 0x07013607; 0x00000000;
    0x0a863507; 0xff26061b; 0x0b013607; 0x00000000; 0x0a863587; 0xff36061b; 0x0f013607; 0x00000000;
    0x0a863607; 0xff46061b; 0x13013607; 0x00000000; 0x0a863687; 0xff56061b; 0x17013607; 0x00000000;
    0x0a863707; 0xff66061b; 0x1b013607; 0x00000000; 0x0a863787; 0xff76061b; 0x1f013607; 0x00000000;
    0x0e863407; 0xff86061b; 0x03813607; 0x00000000; 0x0e863487; 0xff96061b; 0x07813607; 0x00000000;
    0x0e863507; 0xffa6061b; 0x0b813607; 0x00000000; 0x0e863587; 0xffb6061b; 0x0f813607; 0x00000000;
    0x0e863607; 0xffc6061b; 0x13813607; 0x00000000; 0x0e863687; 0xffd6061b; 0x17813607; 0x00000000;
    0x0e863707; 0xffe6061b; 0x1b813607; 0x00000000; 0x0e863787; 0xfff6061b; 0x1f813607; 0x00000000;
    0x0286b407; 0xfe06869b; 0x02013687; 0x00000000; 0x0286b487; 0xfe16869b; 0x06013687; 0x00000000;
    0x0286b507; 0xfe26869b; 0x0a013687; 0x00000000; 0x0286b587; 0xfe36869b; 0x0e013687; 0x00000000;
    0x0286b607; 0xfe46869b; 0x12013687; 0x00000000; 0x0286b687; 0xfe56869b; 0x16013687; 0x00000000;
    0x0286b707; 0xfe66869b; 0x1a013687; 0x00000000; 0x0286b787; 0xfe76869b; 0x1e013687; 0x00000000;
    0x0686b407; 0xfe86869b; 0x02813687; 0x00000000; 0x0686b487; 0xfe96869b; 0x06813687; 0x00000000;
    0x0686b507; 0xfea6869b; 0x0a813687; 0x00000000; 0x0686b587; 0xfeb6869b; 0x0e813687; 0x00000000;
    0x0686b607; 0xfec6869b; 0x12813687; 0x00000000; 0x0686b687; 0xfed6869b; 0x16813687; 0x00000000;
    0x0686b707; 0xfee6869b; 0x1a813687; 0x00000000; 0x0686b787; 0xfef6869b; 0x1e813687; 0x00000000;
    0x0a86b407; 0xff06869b; 0x03013687; 0x00000000; 0x0a86b487; 0xff16869b; 0x07013687; 0x00000000;
    0x0a86b507; 0xff26869b; 0x0b013687; 0x00000000; 0x0a86b587; 0xff36869b; 0x0f013687; 0x00000000;
    0x0a86b607; 0xff46869b; 0x13013687; 0x00000000; 0x0a86b687; 0xff56869b; 0x17013687; 0x00000000;
    0x0a86b707; 0xff66869b; 0x1b013687; 0x00000000; 0x0a86b787; 0xff76869b; 0x1f013687; 0x00000000;
    0x0e86b407; 0xff86869b; 0x03813687; 0x00000000; 0x0e86b487; 0xff96869b; 0x07813687; 0x00000000;
    0x0e86b507; 0xffa6869b; 0x0b813687; 0x00000000; 0x0e86b587; 0xffb6869b; 0x0f813687; 0x00000000;
    0x0e86b607; 0xffc6869b; 0x13813687; 0x00000000; 0x0e86b687; 0xffd6869b; 0x17813687; 0x00000000;
    0x0e86b707; 0xffe6869b; 0x1b813687; 0x00000000; 0x0e86b787; 0xfff6869b; 0x1f813687; 0x00000000;
    0x02873407; 0xfe07071b; 0x02013707; 0x00000000; 0x02873487; 0xfe17071b; 0x06013707; 0x00000000;
    0x02873507; 0xfe27071b; 0x0a013707; 0x00000000; 0x02873587; 0xfe37071b; 0x0e013707; 0x00000000;
    0x02873607; 0xfe47071b; 0x12013707; 0x00000000; 0x02873687; 0xfe57071b; 0x16013707; 0x00000000;
    0x02873707; 0xfe67071b; 0x1a013707; 0x00000000; 0x02873787; 0xfe77071b; 0x1e013707; 0x00000000;
    0x06873407; 0xfe87071b; 0x02813707; 0x00000000; 0x06873487; 0xfe97071b; 0x06813707; 0x00000000;
    0x06873507; 0xfea7071b; 0x0a813707; 0x00000000; 0x06873587; 0xfeb7071b; 0x0e813707; 0x00000000;
    0x06873607; 0xfec7071b; 0x12813707; 0x00000000; 0x06873687; 0xfed7071b; 0x16813707; 0x00000000;
    0x06873707; 0xfee7071b; 0x1a813707; 0x00000000; 0x06873787; 0xfef7071b; 0x1e813707; 0x00000000;
    0x0a873407; 0xff07071b; 0x03013707; 0x00000000; 0x0a873487; 0xff17071b; 0x07013707; 0x00000000;
    0x0a873507; 0xff27071b; 0x0b013707; 0x00000000; 0x0a873587; 0xff37071b; 0x0f013707; 0x00000000;
    0x0a873607; 0xff47071b; 0x13013707; 0x00000000; 0x0a873687; 0xff57071b; 0x17013707; 0x00000000;
    0x0a873707; 0xff67071b; 0x1b013707; 0x00000000; 0x0a873787; 0xff77071b; 0x1f013707; 0x00000000;
    0x0e873407; 0xff87071b; 0x03813707; 0x00000000; 0x0e873487; 0xff97071b; 0x07813707; 0x00000000;
    0x0e873507; 0xffa7071b; 0x0b813707; 0x00000000; 0x0e873587; 0xffb7071b; 0x0f813707; 0x00000000;
    0x0e873607; 0xffc7071b; 0x13813707; 0x00000000; 0x0e873687; 0xffd7071b; 0x17813707; 0x00000000;
    0x0e873707; 0xffe7071b; 0x1b813707; 0x00000000; 0x0e873787; 0xfff7071b; 0x1f813707; 0x00000000;
    0x0287b407; 0xfe07879b; 0x02013787; 0x00000000; 0x0287b487; 0xfe17879b; 0x06013787; 0x00000000;
    0x0287b507; 0xfe27879b; 0x0a013787; 0x00000000; 0x0287b587; 0xfe37879b; 0x0e013787; 0x00000000;
    0x0287b607; 0xfe47879b; 0x12013787; 0x00000000; 0x0287b687; 0xfe57879b; 0x16013787; 0x00000000;
    0x0287b707; 0xfe67879b; 0x1a013787; 0x00000000; 0x0287b787; 0xfe77879b; 0x1e013787; 0x00000000;
    0x0687b407; 0xfe87879b; 0x02813787; 0x00000000; 0x0687b487; 0xfe97879b; 0x06813787; 0x00000000;
    0x0687b507; 0xfea7879b; 0x0a813787; 0x00000000; 0x0687b587; 0xfeb7879b; 0x0e813787; 0x00000000;
    0x0687b607; 0xfec7879b; 0x12813787; 0x00000000; 0x0687b687; 0xfed7879b; 0x16813787; 0x00000000;
    0x0687b707; 0xfee7879b; 0x1a813787; 0x00000000; 0x0687b787; 0xfef7879b; 0x1e813787; 0x00000000;
    0x0a87b407; 0xff07879b; 0x03013787; 0x00000000; 0x0a87b487; 0xff17879b; 0x07013787; 0x00000000;
    0x0a87b507; 0xff27879b; 0x0b013787; 0x00000000; 0x0a87b587; 0xff37879b; 0x0f013787; 0x00000000;
    0x0a87b607; 0xff47879b; 0x13013787; 0x00000000; 0x0a87b687; 0xff57879b; 0x17013787; 0x00000000;
    0x0a87b707; 0xff67879b; 0x1b013787; 0x00000000; 0x0a87b787; 0xff77879b; 0x1f013787; 0x00000000;
    0x0e87b407; 0xff87879b; 0x03813787; 0x00000000; 0x0e87b487; 0xff97879b; 0x07813787; 0x00000000;
    0x0e87b507; 0xffa7879b; 0x0b813787; 0x00000000; 0x0e87b587; 0xffb7879b; 0x0f813787; 0x00000000;
    0x0e87b607; 0xffc7879b; 0x13813787; 0x00000000; 0x0e87b687; 0xffd7879b; 0x17813787; 0x00000000;
    0x0e87b707; 0xffe7879b; 0x1b813787; 0x00000000; 0x0e87b787; 0xfff7879b; 0x1f813787; 0x00000000
].

(** parcels 0x3800 to 0x3bff *)
Definition RVC64_EXPANDED_14 : list Z := [
    0x03043407; 0xfe08081b; 0x02013807; 0x00000000; 0x03043487; 0xfe18081b; 0x06013807; 0x00000000;
    0x03043507; 0xfe28081b; 0x0a013807; 0x00000000; 0x03043587; 0xfe38081b; 0x0e013807; 0x00000000;
    0x03043607; 0xfe48081b; 0x12013807; 0x00000000; 0x03043687; 0xfe58081b; 0x16013807; 0x00000000;
    0x03043707; 0xfe68081b; 0x1a013807; 0x00000000; 0x03043787; 0xfe78081b; 0x1e013807; 0x00000000;
    0x07043407; 0xfe88081b; 0x02813807; 0x00000000; 0x07043487; 0xfe98081b; 0x06813807; 0x00000000;
    0x07043507; 0xfea8081b; 0x0a813807; 0x00000000; 0x07043587; 0xfeb8081b; 0x0e813807; 0x00000000;
    0x07043607; 0xfec8081b; 0x12813807; 0x00000000; 0x07043687; 0xfed8081b; 0x16813807; 0x00000000;
    0x07043707; 0xfee8081b; 0x1a813807; 0x00000000; 0x07043787; 0xfef8081b; 0x1e813807; 0x00000000;
    0x0b043407; 0xff08081b; 0x03013807; 0x00000000; 0x0b043487; 0xff18081b; 0x07013807; 0x00000000;
    0x0b043507; 0xff28081b; 0x0b013807; 0x00000000; 0x0b043587; 0xff38081b; 0x0f013807; 0x00000000;
    0x0b043607; 0xff48081b; 0x13013807; 0x00000000; 0x0b043687; 0xff58081b; 0x17013807; 0x00000000;
    0x0b043707; 0xff68081b; 0x1b013807; 0x00000000; 0x0b043787; 0xff78081b; 0x1f013807; 0x00000000;
    0x0f043407; 0xff88081b; 0x03813807; 0x00000000; 0x0f043487; 0xff98081b; 0x07813807; 0x00000000;
    0x0f043507; 0xffa8081b; 0x0b813807; 0x00000000; 0x0f043587; 0xffb8081b; 0x0f813807; 0x00000000;
    0x0f043607; 0xffc8081b; 0x13813807; 0x00000000; 0x0f043687; 0xffd8081b; 0x17813807; 0x00000000;
    0x0f043707; 0xffe8081b; 0x1b813807; 0x00000000; 0x0f043787; 0xfff8081b; 0x1f813807; 0x00000000;
    0x0304b407; 0xfe08889b; 0x02013887; 0x00000000; 0x0304b487; 0xfe18889b; 0x06013887; 0x00000000;
    0x0304b507; 0xfe28889b; 0x0a013887; 0x00000000; 0x0304b587; 0xfe38889b; 0x0e013887; 0x00000000;
    0x0304b607; 0xfe48889b; 0x12013887; 0x00000000; 0x0304b687; 0xfe58889b; 0x16013887; 0x00000000;
    0x0304b707; 0xfe68889b; 0x1a013887; 0x00000000; 0x0304b787; 0xfe78889b; 0x1e013887; 0x00000000;
    0x0704b407; 0xfe88889b; 0x02813887; 0x00000000; 0x0704b487; 0xfe98889b; 0x06813887; 0x00000000;
    0x0704b507; 0xfea8889b; 0x0a813887; 0x00000000; 0x0704b587; 0xfeb8889b; 0x0e813887; 0x00000000;
    0x0704b607; 0xfec8889b; 0x12813887; 0x00000000; 0x0704b687; 0xfed8889b; 0x16813887; 0x00000000;
    0x0704b707; 0xfee8889b; 0x1a813887; 0x00000000; 0x0704b787; 0xfef8889b; 0x1e813887; 0x00000000;
    0x0b04b407; 0xff08889b; 0x03013887; 0x00000000; 0x0b04b487; 0xff18889b; 0x07013887; 0x00000000;
    0x0b04b507; 0xff28889b; 0x0b013887; 0x00000000; 0x0b04b587; 0xff38889b; 0x0f013887; 0x00000000;
    0x0b04b607; 0xff48889b; 0x13013887; 0x00000000; 0x0b04b687; 0xff58889b; 0x17013887; 0x00000000;
    0x0b04b707; 0xff68889b; 0x1b013887; 0x00000000; 0x0b04b787; 0xff78889b; 0x1f013887; 0x00000000;
    0x0f04b407; 0xff88889b; 0x03813887; 0x00000000; 0x0f04b487; 0xff98889b; 0x07813887; 0x00000000;
    0x0f04b507; 0xffa8889b; 0x0b813887; 0x00000000; 0x0f04b587; 0xffb8889b; 0x0f813887; 0x00000000;
    0x0f04b607; 0xffc8889b; 0x13813887; 0x00000000; 0x0f04b687; 0xffd8889b; 0x17813887; 0x00000000;
    0x0f04b707; 0xffe8889b; 0x1b813887; 0x00000000; 0x0f04b787; 0xfff8889b; 0x1f813887; 0x00000000;
    0x03053407; 0xfe09091b; 0x02013907; 0x00000000; 0x03053487; 0xfe19091b; 0x06013907; 0x00000000;
    0x03053507; 0xfe29091b; 0x0a013907; 0x00000000; 0x03053587; 0xfe39091b; 0x0e013907; 0x00000000;
    0x03053607; 0xfe49091b; 0x12013907; 0x00000000; 0x03053687; 0xfe59091b; 0x16013907; 0x00000000;
    0x03053707; 0xfe69091b; 0x1a013907; 0x00000000; 0x03053787; 0xfe79091b; 0x1e013907; 0x00000000;
    0x07053407; 0xfe89091b; 0x02813907; 0x00000000; 0x07053487; 0xfe99091b; 0x06813907; 0x00000000;
    0x07053507; 0xfea9091b; 0x0a813907; 0x00000000; 0x07053587; 0xfeb9091b; 0x0e813907; 0x00000000;
    0x07053607; 0xfec9091b; 0x12813907; 0x00000000; 0x07053687; 0xfed9091b; 0x16813907; 0x00000000;
    0x07053707; 0xfee9091b; 0x1a813907; 0x00000000; 0x07053787; 0xfef9091b; 0x1e813907; 0x00000000;
    0x0b053407; 0xff09091b; 0x03013907; 0x00000000; 0x0b053487; 0xff19091b; 0x07013907; 0x00000000;
    0x0b053507; 0xff29091b; 0x0b013907; 0x00000000; 0x0b053587; 0xff39091b; 0x0f013907; 0x00000000;
    0x0b053607; 0xff49091b; 0x13013907; 0x00000000; 0x0b053687; 0xff59091b; 0x17013907; 0x00000000;
    0x0b053707; 0xff69091b; 0x1b013907; 0x00000000; 0x0b053787; 0xff79091b; 0x1f013907; 0x00000000;
    0x0f053407; 0xff89091b; 0x03813907; 0x00000000; 0x0f053487; 0xff99091b; 0x07813907; 0x00000000;
    0x0f053507; 0xffa9091b; 0x0b813907; 0x00000000; 0x0f053587; 0xffb9091b; 0x0f813907; 0x00000000;
    0x0f053607; 0xffc9091b; 0x13813907; 0x00000000; 0x0f053687; 0xffd9091b; 0x17813907; 0x00000000;
    0x0f053707; 0xffe9091b; 0x1b813907; 0x00000000; 0x0f053787; 0xfff9091b; 0x1f813907; 0x00000000;
    0x0305b407; 0xfe09899b; 0x02013987; 0x00000000; 0x0305b487; 0xfe19899b; 0x06013987; 0x00000000;
    0x0305b507; 0xfe29899b; 0x0a013987; 0x00000000; 0x0305b587; 0xfe39899b; 0x0e013987; 0x00000000;
    0x0305b607; 0xfe49899b; 0x12013987; 0x00000000; 0x0305b687; 0xfe59899b; 0x16013987; 0x00000000;
    0x0305b707; 0xfe69899b; 0x1a013987; 0x00000000; 0x0305b787; 0xfe79899b; 0x1e013987; 0x00000000;
    0x0705b407; 0xfe89899b; 0x02813987; 0x00000000; 0x0705b487; 0xfe99899b; 0x06813987; 0x00000000;
    0x0705b507; 0xfea9899b; 0x0a813987; 0x00000000; 0x0705b587; 0xfeb9899b; 0x0e813987; 0x00000000;
    0x0705b607; 0xfec9899b; 0x12813987; 0x00000000; 0x0705b687; 0xfed9899b; 0x16813987; 0x00000000;
    0x0705b707; 0xfee9899b; 0x1a813987; 0x00000000; 0x0705b787; 0xfef9899b; 0x1e813987; 0x00000000;
    0x0b05b407; 0xff09899b; 0x03013987; 0x00000000; 0x0b05b487; 0xff19899b; 0x07013987; 0x00000000;
    0x0b05b507; 0xff29899b; 0x0b013987; 0x00000000; 0x0b05b587; 0xff39899b; 0x0f013987; 0x00000000;
    0x0b05b607; 0xff49899b; 0x13013987; 0x00000000; 0x0b05b687; 0xff59899b; 0x17013987; 0x00000000;
    0x0b05b707; 0xff69899b; 0x1b013987; 0x00000000; 0x0b05b787; 0xff79899b; 0x1f013987; 0x00000000;
    0x0f05b407; 0xff89899b; 0x03813987; 0x00000000; 0x0f05b487; 0xff99899b; 0x07813987; 0x00000000;
    0x0f05b507; 0xffa9899b; 0x0b813987; 0x00000000; 0x0f05b587; 0xffb9899b; 0x0f813987; 0x00000000;
    0x0f05b607; 0xffc9899b; 0x13813987; 0x00000000; 0x0f05b687; 0xffd9899b; 0x17813987; 0x00000000;
    0x0f05b707; 0xffe9899b; 0x1b813987; 0x00000000; 0x0f05b787; 0xfff9899b; 0x1f813987; 0x00000000;
    0x03063407; 0xfe0a0a1b; 0x02013a07; 0x00000000; 0x03063487; 0xfe1a0a1b; 0x06013a07; 0x00000000;
    0x03063507; 0xfe2a0a1b; 0x0a013a07; 0x00000000; 0x03063587; 0xfe3a0a1b; 0x0e013a07; 0x00000000;
    0x03063607; 0xfe4a0a1b; 0x12013a07; 0x00000000; 0x03063687; 0xfe5a0a1b; 0x16013a07; 0x00000000;
    0x03063707; 0xfe6a0a1b; 0x1a013a07; 0x00000000; 0x03063787; 0xfe7a0a1b; 0x1e013a07; 0x00000000;
    0x07063407; 0xfe8a0a1b; 0x02813a07; 0x00000000; 0x07063487; 0xfe9a0a1b; 0x06813a07; 0x00000000;
    0x07063507; 0xfeaa0a1b; 0x0a813a07; 0x00000000; 0x07063587; 0xfeba0a1b; 0x0e813a07; 0x00000000;
    0x07063607; 0xfeca0a1b; 0x12813a07; 0x00000000; 0x07063687; 0xfeda0a1b; 0x16813a07; 0x00000000;
    0x07063707; 0xfeea0a1b; 0x1a813a07; 0x00000000; 0x07063787; 0xfefa0a1b; 0x1e813a07; 0x00000000;
    0x0b063407; 0xff0a0a1b; 0x03013a07; 0x00000000; 0x0b063487; 0xff1a0a1b; 0x07013a07; 0x00000000;
    0x0b063507; 0xff2a0a1b; 0x0b013a07; 0x00000000; 0x0b063587; 0xff3a0a1b; 0x0f013a07; 0x00000000;
    0x0b063607; 0xff4a0a1b; 0x13013a07; 0x00000000; 0x0b063687; 0xff5a0a1b; 0x17013a07; 0x00000000;
    0x0b063707; 0xff6a0a1b; 0x1b013a07; 0x00000000; 0x0b063787; 0xff7a0a1b; 0x1f013a07; 0x00000000;
    0x0f063407; 0xff8a0a1b; 0x03813a07; 0x00000000; 0x0f063487; 0xff9a0a1b; 0x07813a07; 0x00000000;
    0x0f063507; 0xffaa0a1b; 0x0b813a07; 0x00000000; 0x0f063587; 0xffba0a1b; 0x0f813a07; 0x00000000;
    0x0f063607; 0xffca0a1b; 0x13813a07; 0x00000000; 0x0f063687; 0xffda0a1b; 0x17813a07; 0x00000000;
    0x0f063707; 0xffea0a1b; 0x1b813a07; 0x00000000; 0x0f063787; 0xfffa0a1b; 0x1f813a07; 0x00000000;
    0x0306b407; 0xfe0a8a9b; 0x02013a87; 0x00000000; 0x0306b487; 0xfe1a8a9b; 0x06013a87; 0x00000000;
    0x0306b507; 0xfe2a8a9b; 0x0a013a87; 0x00000000; 0x0306b587; 0xfe3a8a9b; 0x0e013a87; 0x00000000;
    0x0306b607; 0xfe4a8a9b; 0x12013a87; 0x00000000; 0x0306b687; 0xfe5a8a9b; 0x16013a87; 0x00000000;
    0x0306b707; 0xfe6a8a9b; 0x1a013a87; 0x00000000; 0x0306b787; 0xfe7a8a9b; 0x1e013a87; 0x00000000;
    0x0706b407; 0xfe8a8a9b; 0x02813a87; 0x00000000; 0x0706b487; 0xfe9a8a9b; 0x06813a87; 0x00000000;
    0x0706b507; 0xfeaa8a9b; 0x0a813a87; 0x00000000; 0x0706b587; 0xfeba8a9b; 0x0e813a87; 0x00000000;
    0x0706b607; 0xfeca8a9b; 0x12813a87; 0x00000000; 0x0706b687; 0xfeda8a9b; 0x16813a87; 0x00000000;
    0x0706b707; 0xfeea8a9b; 0x1a813a87; 0x00000000; 0x0706b787; 0xfefa8a9b; 0x1e813a87; 0x00000000;
    0x0b06b407; 0xff0a8a9b; 0x03013a87; 0x00000000; 0x0b06b487; 0xff1a8a9b; 0x07013a87; 0x00000000;
    0x0b06b507; 0xff2a8a9b; 0x0b013a87; 0x00000000; 0x0b06b587; 0xff3a8a9b; 0x0f013a87; 0x00000000;
    0x0b06b607; 0xff4a8a9b; 0x13013a87; 0x00000000; 0x0b06b687; 0xff5a8a9b; 0x17013a87; 0x00000000;
    0x0b06b707; 0xff6a8a9b; 0x1b013a87; 0x00000000; 0x0b06b787; 0xff7a8a9b; 0x1f013a87; 0x00000000;
    0x0f06b407; 0xff8a8a9b; 0x03813a87; 0x00000000; 0x0f06b487; 0xff9a8a9b; 0x07813a87; 0x00000000;
    0x0f06b507; 0xffaa8a9b; 0x0b813a87; 0x00000000; 0x0f06b587; 0xffba8a9b; 0x0f813a87; 0x00000000;
    0x0f06b607; 0xffca8a9b; 0x13813a87; 0x00000000; 0x0f06b687; 0xffda8a9b; 0x17813a87; 0x00000000;
    0x0f06b707; 0xffea8a9b; 0x1b813a87; 0x00000000; 0x0f06b787; 0xfffa8a9b; 0x1f813a87; 0x00000000;
    0x03073407; 0xfe0b0b1b; 0x02013b07; 0x00000000; 0x03073487; 0xfe1b0b1b; 0x06013b07; 0x00000000;
    0x03073507; 0xfe2b0b1b; 0x0a013b07; 0x00000000; 0x03073587; 0xfe3b0b1b; 0x0e013b07; 0x00000000;
    0x03073607; 0xfe4b0b1b; 0x12013b07; 0x00000000; 0x03073687; 0xfe5b0b1b; 0x16013b07; 0x00000000;
    0x03073707; 0xfe6b0b1b; 0x1a013b07; 0x00000000; 0x03073787; 0xfe7b0b1b; 0x1e013b07; 0x00000000;
    0x07073407; 0xfe8b0b1b; 0x02813b07; 0x00000000; 0x07073487; 0xfe9b0b1b; 0x06813b07; 0x00000000;
    0x07073507; 0xfeab0b1b; 0x0a813b07; 0x00000000; 0x07073587; 0xfebb0b1b; 0x0e813b07; 0x00000000;
    0x07073607; 0xfecb0b1b; 0x12813b07; 0x00000000; 0x07073687; 0xfedb0b1b; 0x16813b07; 0x00000000;
    0x07073707; 0xfeeb0b1b; 0x1a813b07; 0x00000000; 0x07073787; 0xfefb0b1b; 0x1e813b07; 0x00000000;
    0x0b073407; 0xff0b0b1b; 0x03013b07; 0x00000000; 0x0b073487; 0xff1b0b1b; 0x07013b07; 0x00000000;
    0x0b073507; 0xff2b0b1b; 0x0b013b07; 0x00000000; 0x0b073587; 0xff3b0b1b; 0x0f013b07; 0x00000000;
    0x0b073607; 0xff4b0b1b; 0x13013b07; 0x00000000; 0x0b073687; 0xff5b0b1b; 0x17013b07; 0x00000000;
    0x0b073707; 0xff6b0b1b; 0x1b013b07; 0x00000000; 0x0b073787; 0xff7b0b1b; 0x1f013b07; 0x00000000;
    0x0f073407; 0xff8b0b1b; 0x03813b07; 0x00000000; 0x0f073487; 0xff9b0b1b; 0x07813b07; 0x00000000;
    0x0f073507; 0xffab0b1b; 0x0b813b07; 0x00000000; 0x0f073587; 0xffbb0b1b; 0x0f813b07; 0x00000000;
    0x0f073607; 0xffcb0b1b; 0x13813b07; 0x00000000; 0x0f073687; 0xffdb0b1b; 0x17813b07; 0x00000000;
    0x0f073707; 0xffeb0b1b; 0x1b813b07; 0x00000000; 0x0f073787; 0xfffb0b1b; 0x1f813b07; 0x00000000;
    0x0307b407; 0xfe0b8b9b; 0x02013b87; 0x00000000; 0x0307b487; 0xfe1b8b9b; 0x06013b87; 0x00000000;
    0x0307b507; 0xfe2b8b9b; 0x0a013b87; 0x00000000; 0x0307b587; 0xfe3b8b9b; 0x0e013b87; 0x00000000;
    0x0307b607; 0xfe4b8b9b; 0x12013b87; 0x00000000; 0x0307b687; 0xfe5b8b9b; 0x16013b87; 0x00000000;
    0x0307b707; 0xfe6b8b9b; 0x1a013b87; 0x00000000; 0x0307b787; 0xfe7b8b9b; 0x1e013b87; 0x00000000;
    0x0707b407; 0xfe8b8b9b; 0x02813b87; 0x00000000; 0x0707b487; 0xfe9b8b9b; 0x06813b87; 0x00000000;
    0x0707b507; 0xfeab8b9b; 0x0a813b87; 0x00000000; 0x0707b587; 0xfebb8b9b; 0x0e813b87; 0x00000000;
    0x0707b607; 0xfecb8b9b; 0x12813b87; 0x00000000; 0x0707b687; 0xfedb8b9b; 0x16813b87; 0x00000000;
    0x0707b707; 0xfeeb8b9b; 0x1a813b87; 0x00000000; 0x0707b787; 0xfefb8b9b; 0x1e813b87; 0x00000000;
    0x0b07b407; 0xff0b8b9b; 0x03013b87; 0x00000000; 0x0b07b487; 0xff1b8b9b; 0x07013b87; 0x00000000;
    0x0b07b507; 0xff2b8b9b; 0x0b013b87; 0x00000000; 0x0b07b587; 0xff3b8b9b; 0x0f013b87; 0x00000000;
    0x0b07b607; 0xff4b8b9b; 0x13013b87; 0x00000000; 0x0b07b687; 0xff5b8b9b; 0x17013b87; 0x00000000;
    0x0b07b707; 0xff6b8b9b; 0x1b013b87; 0x00000000; 0x0b07b787; 0xff7b8b9b; 0x1f013b87; 0x00000000;
    0x0f07b407; 0xff8b8b9b; 0x03813b87; 0x00000000; 0x0f07b487; 0xff9b8b9b; 0x07813b87; 0x00000000;
    0x0f07b507; 0xffab8b9b; 0x0b813b87; 0x00000000; 0x0f07b587; 0xffbb8b9b; 0x0f813b87; 0x00000000;
    0x0f07b607; 0xffcb8b9b; 0x13813b87; 0x00000000; 0x0f07b687; 0xffdb8b9b; 0x17813b87; 0x00000000;
    0x0f07b707; 0xffeb8b9b; 0x1b813b87; 0x00000000; 0x0f07b787; 0xfffb8b9b; 0x1f813b87; 0x00000000
].

(** parcels 0x3c00 to 0x3fff *)
Definition RVC64_EXPANDED_15 : list Z := [
    0x03843407; 0xfe0c0c1b; 0x02013c07; 0x00000000; 0x03843487; 0xfe1c0c1b; 0x06013c07; 0x00000000;
    0x03843507; 0xfe2c0c1b; 0x0a013c07; 0x00000000; 0x03843587; 0xfe3c0c1b; 0x0e013c07; 0x00000000;
    0x03843607; 0xfe4c0c1b; 0x12013c07; 0x00000000; 0x03843687; 0xfe5c0c1b; 0x16013c07; 0x00000000;
    0x03843707; 0xfe6c0c1b; 0x1a013c07; 0x00000000; 0x03843787; 0xfe7c0c1b; 0x1e013c07; 0x00000000;
    0x07843407; 0xfe8c0c1b; 0x02813c07; 0x00000000; 0x07843487; 0xfe9c0c1b; 0x06813c07; 0x00000000;
    0x07843507; 0xfeac0c1b; 0x0a813c07; 0x00000000; 0x07843587; 0xfebc0c1b; 0x0e813c07; 0x00000000;
    0x07843607; 0xfecc0c1b; 0x12813c07; 0x00000000; 0x07843687; 0xfedc0c1b; 0x16813c07; 0x00000000;
    0x07843707; 0xfeec0c1b; 0x1a813c07; 0x00000000; 0x07843787; 0xfefc0c1b; 0x1e813c07; 0x00000000;
    0x0b843407; 0xff0c0c1b; 0x03013c07; 0x00000000; 0x0b843487; 0xff1c0c1b; 0x07013c07; 0x00000000;
    0x0b843507; 0xff2c0c1b; 0x0b013c07; 0x00000000; 0x0b843587; 0xff3c0c1b; 0x0f013c07; 0x00000000;
    0x0b843607; 0xff4c0c1b; 0x13013c07; 0x00000000; 0x0b843687; 0xff5c0c1b; 0x17013c07; 0x00000000;
    0x0b843707; 0xff6c0c1b; 0x1b013c07; 0x00000000; 0x0b843787; 0xff7c0c1b; 0x1f013c07; 0x00000000;
    0x0f843407; 0xff8c0c1b; 0x03813c07; 0x00000000; 0x0f843487; 0xff9c0c1b; 0x07813c07; 0x00000000;
    0x0f843507; 0xffac0c1b; 0x0b813c07; 0x00000000; 0x0f843587; 0xffbc0c1b; 0x0f813c07; 0x00000000;
    0x0f843607; 0xffcc0c1b; 0x13813c07; 0x00000000; 0x0f843687; 0xffdc0c1b; 0x17813c07; 0x00000000;
    0x0f843707; 0xffec0c1b; 0x1b813c07; 0x00000000; 0x0f843787; 0xfffc0c1b; 0x1f813c07; 0x00000000;
    0x0384b407; 0xfe0c8c9b; 0x02013c87; 0x00000000; 0x0384b487; 0xfe1c8c9b; 0x06013c87; 0x00000000;
    0x0384b507; 0xfe2c8c9b; 0x0a013c87; 0x00000000; 0x0384b587; 0xfe3c8c9b; 0x0e013c87; 0x00000000;
    0x0384b607; 0xfe4c8c9b; 0x12013c87; 0x00000000; 0x0384b687; 0xfe5c8c9b; 0x16013c87; 0x00000000;
    0x0384b707; 0xfe6c8c9b; 0x1a013c87; 0x00000000; 0x0384b787; 0xfe7c8c9b; 0x1e013c87; 0x00000000;
    0x0784b407; 0xfe8c8c9b; 0x02813c87; 0x00000000; 0x0784b487; 0xfe9c8c9b; 0x06813c87; 0x00000000;
    0x0784b507; 0xfeac8c9b; 0x0a813c87; 0x00000000; 0x0784b587; 0xfebc8c9b; 0x0e813c87; 0x00000000;
    0x0784b607; 0xfecc8c9b; 0x12813c87; 0x00000000; 0x0784b687; 0xfedc8c9b; 0x16813c87; 0x00000000;
    0x0784b707; 0xfeec8c9b; 0x1a813c87; 0x00000000; 0x0784b787; 0xfefc8c9b; 0x1e813c87; 0x00000000;
    0x0b84b407; 0xff0c8c9b; 0x03013c87; 0x00000000; 0x0b84b487; 0xff1c8c9b; 0x07013c87; 0x00000000;
    0x0b84b507; 0xff2c8c9b; 0x0b013c87; 0x00000000; 0x0b84b587; 0xff3c8c9b; 0x0f013c87; 0x00000000;
    0x0b84b607; 0xff4c8c9b; 0x13013c87; 0x00000000; 0x0b84b687; 0xff5c8c9b; 0x17013c87; 0x00000000;
    0x0b84b707; 0xff6c8c9b; 0x1b013c87; 0x00000000; 0x0b84b787; 0xff7c8c9b; 0x1f013c87; 0x00000000;
    0x0f84b407; 0xff8c8c9b; 0x03813c87; 0x00000000; 0x0f84b487; 0xff9c8c9b; 0x07813c87; 0x00000000;
    0x0f84b507; 0xffac8c9b; 0x0b813c87; 0x00000000; 0x0f84b587; 0xffbc8c9b; 0x0f813c87; 0x00000000;
    0x0f84b607; 0xffcc8c9b; 0x13813c87; 0x00000000; 0x0f84b687; 0xffdc8c9b; 0x17813c87; 0x00000000;
    0x0f84b707; 0xffec8c9b; 0x1b813c87; 0x00000000; 0x0f84b787; 0xfffc8c9b; 0x1f813c87; 0x00000000;
    0x03853407; 0xfe0d0d1b; 0x02013d07; 0x00000000; 0x03853487; 0xfe1d0d1b; 0x06013d07; 0x00000000;
    0x03853507; 0xfe2d0d1b; 0x0a013d07; 0x00000000; 0x03853587; 0xfe3d0d1b; 0x0e013d07; 0x00000000;
    0x03853607; 0xfe4d0d1b; 0x12013d07; 0x00000000; 0x03853687; 0xfe5d0d1b; 0x16013d07; 0x00000000;
    0x03853707; 0xfe6d0d1b; 0x1a013d07; 0x00000000; 0x03853787; 0xfe7d0d1b; 0x1e013d07; 0x00000000;
    0x07853407; 0xfe8d0d1b; 0x02813d07; 0x00000000; 0x07853487; 0xfe9d0d1b; 0x06813d07; 0x00000000;
    0x07853507; 0xfead0d1b; 0x0a813d07; 0x00000000; 0x07853587; 0xfebd0d1b; 0x0e813d07; 0x00000000;
    0x07853607; 0xfecd0d1b; 0x12813d07; 0x00000000; 0x07853687; 0xfedd0d1b; 0x16813d07; 0x00000000;
    0x07853707; 0xfeed0d1b; 0x1a813d07; 0x00000000; 0x07853787; 0xfefd0d1b; 0x1e813d07; 0x00000000;
    0x0b853407; 0xff0d0d1b; 0x03013d07; 0x00000000; 0x0b853487; 0xff1d0d1b; 0x07013d07; 0x00000000;
    0x0b853507; 0xff2d0d1b; 0x0b013d07; 0x00000000; 0x0b853587; 0xff3d0d1b; 0x0f013d07; 0x00000000;
    0x0b853607; 0xff4d0d1b; 0x13013d07; 0x00000000; 0x0b853687; 0xff5d0d1b; 0x17013d07; 0x00000000;
    0x0b853707; 0xff6d0d1b; 0x1b013d07; 0x00000000; 0x0b853787; 0xff7d0d1b; 0x1f013d07; 0x00000000;
    0x0f853407; 0xff8d0d1b; 0x03813d07; 0x00000000; 0x0f853487; 0xff9d0d1b; 0x07813d07; 0x00000000;
    0x0f853507; 0xffad0d1b; 0x0b813d07; 0x00000000; 0x0f853587; 0xffbd0d1b; 0x0f813d07; 0x00000000;
    0x0f853607; 0xffcd0d1b; 0x13813d07; 0x00000000; 0x0f853687; 0xffdd0d1b; 0x17813d07; 0x00000000;
    0x0f853707; 0xffed0d1b; 0x1b813d07; 0x00000000; 0x0f853787; 0xfffd0d1b; 0x1f813d07; 0x00000000;
    0x0385b407; 0xfe0d8d9b; 0x02013d87; 0x00000000; 0x0385b487; 0xfe1d8d9b; 0x06013d87; 0x00000000;
    0x0385b507; 0xfe2d8d9b; 0x0a013d87; 0x00000000; 0x0385b587; 0xfe3d8d9b; 0x0e013d87; 0x00000000;
    0x0385b607; 0xfe4d8d9b; 0x12013d87; 0x00000000; 0x0385b687; 0xfe5d8d9b; 0x16013d87; 0x00000000;
    0x0385b707; 0xfe6d8d9b; 0x1a013d87; 0x00000000; 0x0385b787; 0xfe7d8d9b; 0x1e013d87; 0x00000000;
    0x0785b407; 0xfe8d8d9b; 0x02813d87; 0x00000000; 0x0785b487; 0xfe9d8d9b; 0x06813d87; 0x00000000;
    0x0785b507; 0xfead8d9b; 0x0a813d87; 0x00000000; 0x0785b587; 0xfebd8d9b; 0x0e813d87; 0x00000000;
    0x0785b607; 0xfecd8d9b; 0x12813d87; 0x00000000; 0x0785b687; 0xfedd8d9b; 0x16813d87; 0x00000000;
    0x0785b707; 0xfeed8d9b; 0x1a813d87; 0x00000000; 0x0785b787; 0xfefd8d9b; 0x1e813d87; 0x00000000;
    0x0b85b407; 0xff0d8d9b; 0x03013d87; 0x00000000; 0x0b85b487; 0xff1d8d9b; 0x07013d87; 0x00000000;
    0x0b85b507; 0xff2d8d9b; 0x0b013d87; 0x00000000; 0x0b85b587; 0xff3d8d9b; 0x0f013d87; 0x00000000;
    0x0b85b607; 0xff4d8d9b; 0x13013d87; 0x00000000; 0x0b85b687; 0xff5d8d9b; 0x17013d87; 0x00000000;
    0x0b85b707; 0xff6d8d9b; 0x1b013d87; 0x00000000; 0x0b85b787; 0xff7d8d9b; 0x1f013d87; 0x00000000;
    0x0f85b407; 0xff8d8d9b; 0x03813d87; 0x00000000; 0x0f85b487; 0xff9d8d9b; 0x07813d87; 0x00000000;
    0x0f85b507; 0xffad8d9b; 0x0b813d87; 0x00000000; 0x0f85b587; 0xffbd8d9b; 0x0f813d87; 0x00000000;
    0x0f85b607; 0xffcd8d9b; 0x13813d87; 0x00000000; 0x0f85b687; 0xffdd8d9b; 0x17813d87; 0x00000000;
    0x0f85b707; 0xffed8d9b; 0x1b813d87; 0x00000000; 0x0f85b787; 0xfffd8d9b; 0x1f813d87; 0x00000000;
    0x03863407; 0xfe0e0e1b; 0x02013e07; 0x00000000; 0x03863487; 0xfe1e0e1b; 0x06013e07; 0x00000000;
    0x03863507; 0xfe2e0e1b; 0x0a013e07; 0x00000000; 0x03863587; 0xfe3e0e1b; 0x0e013e07; 0x00000000;
    0x03863607; 0xfe4e0e1b; 0x12013e07; 0x00000000; 0x03863687; 0xfe5e0e1b; 0x16013e07; 0x00000000;
    0x03863707; 0xfe6e0e1b; 0x1a013e07; 0x00000000; 0x03863787; 0xfe7e0e1b; 0x1e013e07; 0x00000000;
    0x07863407; 0xfe8e0e1b; 0x02813e07; 0x00000000; 0x07863487; 0xfe9e0e1b; 0x06813e07; 0x00000000;
    0x07863507; 0xfeae0e1b; 0x0a813e07; 0x00000000; 0x07863587; 0xfebe0e1b; 0x0e813e07; 0x00000000;
    0x07863607; 0xfece0e1b; 0x12813e07; 0x00000000; 0x07863687; 0xfede0e1b; 0x16813e07; 0x00000000;
    0x07863707; 0xfeee0e1b; 0x1a813e07; 0x00000000; 0x07863787; 0xfefe0e1b; 0x1e813e07; 0x00000000;
    0x0b863407; 0xff0e0e1b; 0x03013e07; 0x00000000; 0x0b863487; 0xff1e0e1b; 0x07013e07; 0x00000000;
    0x0b863507; 0xff2e0e1b; 0x0b013e07; 0x00000000; 0x0b863587; 0xff3e0e1b; 0x0f013e07; 0x00000000;
    0x0b863607; 0xff4e0e1b; 0x13013e07; 0x00000000; 0x0b863687; 0xff5e0e1b; 0x17013e07; 0x00000000;
    0x0b863707; 0xff6e0e1b; 0x1b013e07; 0x00000000; 0x0b863787; 0xff7e0e1b; 0x1f013e07; 0x00000000;
    0x0f863407; 0xff8e0e1b; 0x03813e07; 0x00000000; 0x0f863487; 0xff9e0e1b; 0x07813e07; 0x00000000;
    0x0f863507; 0xffae0e1b; 0x0b813e07; 0x00000000; 0x0f863587; 0xffbe0e1b; 0x0f813e07; 0x00000000;
    0x0f863607; 0xffce0e1b; 0x13813e07; 0x00000000; 0x0f863687; 0xffde0e1b; 0x17813e07; 0x00000000;
    0x0f863707; 0xffee0e1b; 0x1b813e07; 0x00000000; 0x0f863787; 0xfffe0e1b; 0x1f813e07; 0x00000000;
    0x0386b407; 0xfe0e8e9b; 0x02013e87; 0x00000000; 0x0386b487; 0xfe1e8e9b; 0x06013e87; 0x00000000;
    0x0386b507; 0xfe2e8e9b; 0x0a013e87; 0x00000000; 0x0386b587; 0xfe3e8e9b; 0x0e013e87; 0x00000000;
    0x0386b607; 0xfe4e8e9b; 0x12013e87; 0x00000000; 0x0386b687; 0xfe5e8e9b; 0x16013e87; 0x00000000;
    0x0386b707; 0xfe6e8e9b; 0x1a013e87; 0x00000000; 0x0386b787; 0xfe7e8e9b; 0x1e013e87; 0x00000000;
    0x0786b407; 0xfe8e8e9b; 0x02813e87; 0x00000000; 0x0786b487; 0xfe9e8e9b; 0x06813e87; 0x00000000;
    0x0786b507; 0xfeae8e9b; 0x0a813e87; 0x00000000; 0x0786b587; 0xfebe8e9b; 0x0e813e87; 0x00000000;
    0x0786b607; 0xfece8e9b; 0x12813e87; 0x00000000; 0x0786b687; 0xfede8e9b; 0x16813e87; 0x00000000;
    0x0786b707; 0xfeee8e9b; 0x1a813e87; 0x00000000; 0x0786b787; 0xfefe8e9b; 0x1e813e87; 0x00000000;
    0x0b86b407; 0xff0e8e9b; 0x03013e87; 0x00000000; 0x0b86b487; 0xff1e8e9b; 0x07013e87; 0x00000000;
    0x0b86b507; 0xff2e8e9b; 0x0b013e87; 0x00000000; 0x0b86b587; 0xff3e8e9b; 0x0f013e87; 0x00000000;
    0x0b86b607; 0xff4e8e9b; 0x13013e87; 0x00000000; 0x0b86b687; 0xff5e8e9b; 0x17013e87; 0x00000000;
    0x0b86b707; 0xff6e8e9b; 0x1b013e87; 0x00000000; 0x0b86b787; 0xff7e8e9b; 0x1f013e87; 0x00000000;
    0x0f86b407; 0xff8e8e9b; 0x03813e87; 0x00000000; 0x0f86b487; 0xff9e8e9b; 0x07813e87; 0x00000000;
    0x0f86b507; 0xffae8e9b; 0x0b813e87; 0x00000000; 0x0f86b587; 0xffbe8e9b; 0x0f813e87; 0x00000000;
    0x0f86b607; 0xffce8e9b; 0x13813e87; 0x00000000; 0x0f86b687; 0xffde8e9b; 0x17813e87; 0x00000000;
    0x0f86b707; 0xffee8e9b; 0x1b813e87; 0x00000000; 0x0f86b787; 0xfffe8e9b; 0x1f813e87; 0x00000000;
    0x03873407; 0xfe0f0f1b; 0x02013f07; 0x00000000; 0x03873487; 0xfe1f0f1b; 0x06013f07; 0x00000000;
    0x03873507; 0xfe2f0f1b; 0x0a013f07; 0x00000000; 0x03873587; 0xfe3f0f1b; 0x0e013f07; 0x00000000;
    0x03873607; 0xfe4f0f1b; 0x12013f07; 0x00000000; 0x03873687; 0xfe5f0f1b; 0x16013f07; 0x00000000;
    0x03873707; 0xfe6f0f1b; 0x1a013f07; 0x00000000; 0x03873787; 0xfe7f0f1b; 0x1e013f07; 0x00000000;
    0x07873407; 0xfe8f0f1b; 0x02813f07; 0x00000000; 0x07873487; 0xfe9f0f1b; 0x06813f07; 0x00000000;
    0x07873507; 0xfeaf0f1b; 0x0a813f07; 0x00000000; 0x07873587; 0xfebf0f1b; 0x0e813f07; 0x00000000;
    0x07873607; 0xfecf0f1b; 0x12813f07; 0x00000000; 0x07873687; 0xfedf0f1b; 0x16813f07; 0x00000000;
    0x07873707; 0xfeef0f1b; 0x1a813f07; 0x00000000; 0x07873787; 0xfeff0f1b; 0x1e813f07; 0x00000000;
    0x0b873407; 0xff0f0f1b; 0x03013f07; 0x00000000; 0x0b873487; 0xff1f0f1b; 0x07013f07; 0x00000000;
    0x0b873507; 0xff2f0f1b; 0x0b013f07; 0x00000000; 0x0b873587; 0xff3f0f1b; 0x0f013f07; 0x00000000;
    0x0b873607; 0xff4f0f1b; 0x13013f07; 0x00000000; 0x0b873687; 0xff5f0f1b; 0x17013f07; 0x00000000;
    0x0b873707; 0xff6f0f1b; 0x1b013f07; 0x00000000; 0x0b873787; 0xff7f0f1b; 0x1f013f07; 0x00000000;
    0x0f873407; 0xff8f0f1b; 0x03813f07; 0x00000000; 0x0f873487; 0xff9f0f1b; 0x07813f07; 0x00000000;
    0x0f873507; 0xffaf0f1b; 0x0b813f07; 0x00000000; 0x0f873587; 0xffbf0f1b; 0x0f813f07; 0x00000000;
    0x0f873607; 0xffcf0f1b; 0x13813f07; 0x00000000; 0x0f873687; 0xffdf0f1b; 0x17813f07; 0x00000000;
    0x0f873707; 0xffef0f1b; 0x1b813f07; 0x00000000; 0x0f873787; 0xffff0f1b; 0x1f813f07; 0x00000000;
    0x0387b407; 0xfe0f8f9b; 0x02013f87; 0x00000000; 0x0387b487; 0xfe1f8f9b; 0x06013f87; 0x00000000;
    0x0387b507; 0xfe2f8f9b; 0x0a013f87; 0x00000000; 0x0387b587; 0xfe3f8f9b; 0x0e013f87; 0x00000000;
    0x0387b607; 0xfe4f8f9b; 0x12013f87; 0x00000000; 0x0387b687; 0xfe5f8f9b; 0x16013f87; 0x00000000;
    0x0387b707; 0xfe6f8f9b; 0x1a013f87; 0x00000000; 0x0387b787; 0xfe7f8f9b; 0x1e013f87; 0x00000000;
    0x0787b407; 0xfe8f8f9b; 0x02813f87; 0x00000000; 0x0787b487; 0xfe9f8f9b; 0x06813f87; 0x00000000;
    0x0787b507; 0xfeaf8f9b; 0x0a813f87; 0x00000000; 0x0787b587; 0xfebf8f9b; 0x0e813f87; 0x00000000;
    0x0787b607; 0xfecf8f9b; 0x12813f87; 0x00000000; 0x0787b687; 0xfedf8f9b; 0x16813f87; 0x00000000;
    0x0787b707; 0xfeef8f9b; 0x1a813f87; 0x00000000; 0x0787b787; 0xfeff8f9b; 0x1e813f87; 0x00000000;
    0x0b87b407; 0xff0f8f9b; 0x03013f87; 0x00000000; 0x0b87b487; 0xff1f8f9b; 0x07013f87; 0x00000000;
    0x0b87b507; 0xff2f8f9b; 0x0b013f87; 0x00000000; 0x0b87b587; 0xff3f8f9b; 0x0f013f87; 0x00000000;
    0x0b87b607; 0xff4f8f9b; 0x13013f87; 0x00000000; 0x0b87b687; 0xff5f8f9b; 0x17013f87; 0x00000000;
    0x0b87b707; 0xff6f8f9b; 0x1b013f87; 0x00000000; 0x0b87b787; 0xff7f8f9b; 0x1f013f87; 0x00000000;
    0x0f87b407; 0xff8f8f9b; 0x03813f87; 0x00000000; 0x0f87b487; 0xff9f8f9b; 0x07813f87; 0x00000000;
    0x0f87b507; 0xffaf8f9b; 0x0b813f87; 0x00000000; 0x0f87b587; 0xffbf8f9b; 0x0f813f87; 0x00000000;
    0x0f87b607; 0xffcf8f9b; 0x13813f87; 0x00000000; 0x0f87b687; 0xffdf8f9b; 0x17813f87; 0x00000000;
    0x0f87b707; 0xffef8f9b; 0x1b813f87; 0x00000000; 0x0f87b787; 0xffff8f9b; 0x1f813f87; 0x00000000
].
