(* ===== verification/RvcTable2.v ===== *)
(** * RvcTable2: entries 0x4000 to 0x5fff of [RVC64_EXPANDED] (tools/rvc.rs)

    Eight definitions of 128 source lines (1024 entries) each, in the order and with the
    grouping of the source; [RvcTable] concatenates them. *)
From S2P Require Import Prelude.

(** parcels 0x4000 to 0x43ff *)
Definition RVC64_EXPANDED_16 : list Z := [
    0x00042403; 0x00000013; 0x00000000; 0x00000000; 0x00042483; 0x00100013; 0x00000000; 0x00000000;
    0x00042503; 0x00200013; 0x00000000; 0x00000000; 0x00042583; 0x00300013; 0x00000000; 0x00000000;
    0x00042603; 0x00400013; 0x00000000; 0x00000000; 0x00042683; 0x00500013; 0x00000000; 0x00000000;
    0x00042703; 0x00600013; 0x00000000; 0x00000000; 0x00042783; 0x00700013; 0x00000000; 0x00000000;
    0x04042403; 0x00800013; 0x00000000; 0x00000000; 0x04042483; 0x00900013; 0x00000000; 0x00000000;
    0x04042503; 0x00a00013; 0x00000000; 0x00000000; 0x04042583; 0x00b00013; 0x00000000; 0x00000000;
    0x04042603; 0x00c00013; 0x00000000; 0x00000000; 0x04042683; 0x00d00013; 0x00000000; 0x00000000;
    0x04042703; 0x00e00013; 0x00000000; 0x00000000; 0x04042783; 0x00f00013; 0x00000000; 0x00000000;
    0x00442403; 0x01000013; 0x00000000; 0x00000000; 0x00442483; 0x01100013; 0x00000000; 0x00000000;
    0x00442503; 0x01200013; 0x00000000; 0x00000000; 0x00442583; 0x01300013; 0x00000000; 0x00000000;
    0x00442603; 0x01400013; 0x00000000; 0x00000000; 0x00442683; 0x01500013; 0x00000000; 0x00000000;
    0x00442703; 0x01600013; 0x00000000; 0x00000000; 0x00442783; 0x01700013; 0x00000000; 0x00000000;
    0x04442403; 0x01800013; 0x00000000; 0x00000000; 0x04442483; 0x01900013; 0x00000000; 0x00000000;
    0x04442503; 0x01a00013; 0x00000000; 0x00000000; 0x04442583; 0x01b00013; 0x00000000; 0x00000000;
    0x04442603; 0x01c00013; 0x00000000; 0x00000000; 0x04442683; 0x01d00013; 0x00000000; 0x00000000;
    0x04442703; 0x01e00013; 0x00000000; 0x00000000; 0x04442783; 0x01f00013; 0x00000000; 0x00000000;
    0x0004a403; 0x00000093; 0x00012083; 0x00000000; 0x0004a483; 0x00100093; 0x04012083; 0x00000000;
    0x0004a503; 0x00200093; 0x08012083; 0x00000000; 0x0004a583; 0x00300093; 0x0c012083; 0x00000000;
    0x0004a603; 0x00400093; 0x00412083; 0x00000000; 0x0004a683; 0x00500093; 0x04412083; 0x00000000;
    0x0004a703; 0x00600093; 0x08412083; 0x00000000; 0x0004a783; 0x00700093; 0x0c412083; 0x00000000;
    0x0404a403; 0x00800093; 0x00812083; 0x00000000; 0x0404a483; 0x00900093; 0x04812083; 0x00000000;
    0x0404a503; 0x00a00093; 0x08812083; 0x00000000; 0x0404a583; 0x00b00093; 0x0c812083; 0x00000000;
    0x0404a603; 0x00c00093; 0x00c12083; 0x00000000; 0x0404a683; 0x00d00093; 0x04c12083; 0x00000000;
    0x0404a703; 0x00e00093; 0x08c12083; 0x00000000; 0x0404a783; 0x00f00093; 0x0cc12083; 0x00000000;
    0x0044a403; 0x01000093; 0x01012083; 0x00000000; 0x0044a483; 0x01100093; 0x05012083; 0x00000000;
    0x0044a503; 0x01200093; 0x09012083; 0x00000000; 0x0044a583; 0x01300093; 0x0d012083; 0x00000000;
    0x0044a603; 0x01400093; 0x01412083; 0x00000000; 0x0044a683; 0x01500093; 0x05412083; 0x00000000;
    0x0044a703; 0x01600093; 0x09412083; 0x00000000; 0x0044a783; 0x01700093; 0x0d412083; 0x00000000;
    0x0444a403; 0x01800093; 0x01812083; 0x00000000; 0x0444a483; 0x01900093; 0x05812083; 0x00000000;
    0x0444a503; 0x01a00093; 0x09812083; 0x00000000; 0x0444a583; 0x01b00093; 0x0d812083; 0x00000000;
    0x0444a603; 0x01c00093; 0x01c12083; 0x00000000; 0x0444a683; 0x01d00093; 0x05c12083; 0x00000000;
    0x0444a703; 0x01e00093; 0x09c12083; 0x00000000; 0x0444a783; 0x01f00093; 0x0dc12083; 0x00000000;
    0x00052403; 0x00000113; 0x00012103; 0x00000000; 0x00052483; 0x00100113; 0x04012103; 0x00000000;
    0x00052503; 0x00200113; 0x08012103; 0x00000000; 0x00052583; 0x00300113; 0x0c012103; 0x00000000;
    0x00052603; 0x00400113; 0x00412103; 0x00000000; 0x00052683; 0x00500113; 0x04412103; 0x00000000;
    0x00052703; 0x00600113; 0x08412103; 0x00000000; 0x00052783; 0x00700113; 0x0c412103; 0x00000000;
    0x04052403; 0x00800113; 0x00812103; 0x00000000; 0x04052483; 0x00900113; 0x04812103; 0x00000000;
    0x04052503; 0x00a00113; 0x08812103; 0x00000000; 0x04052583; 0x00b00113; 0x0c812103; 0x00000000;
    0x04052603; 0x00c00113; 0x00c12103; 0x00000000; 0x04052683; 0x00d00113; 0x04c12103; 0x00000000;
    0x04052703; 0x00e00113; 0x08c12103; 0x00000000; 0x04052783; 0x00f00113; 0x0cc12103; 0x00000000;
    0x00452403; 0x01000113; 0x01012103; 0x00000000; 0x00452483; 0x01100113; 0x05012103; 0x00000000;
    0x00452503; 0x01200113; 0x09012103; 0x00000000; 0x00452583; 0x01300113; 0x0d012103; 0x00000000;
    0x00452603; 0x01400113; 0x01412103; 0x00000000; 0x00452683; 0x01500113; 0x05412103; 0x00000000;
    0x00452703; 0x01600113; 0x09412103; 0x00000000; 0x00452783; 0x01700113; 0x0d412103; 0x00000000;
    0x04452403; 0x01800113; 0x01812103; 0x00000000; 0x04452483; 0x01900113; 0x05812103; 0x00000000;
    0x04452503; 0x01a00113; 0x09812103; 0x00000000; 0x04452583; 0x01b00113; 0x0d812103; 0x00000000;
    0x04452603; 0x01c00113; 0x01c12103; 0x00000000; 0x04452683; 0x01d00113; 0x05c12103; 0x00000000;
    0x04452703; 0x01e00113; 0x09c12103; 0x00000000; 0x04452783; 0x01f00113; 0x0dc12103; 0x00000000;
    0x0005a403; 0x00000193; 0x00012183; 0x00000000; 0x0005a483; 0x00100193; 0x04012183; 0x00000000;
    0x0005a503; 0x00200193; 0x08012183; 0x00000000; 0x0005a583; 0x00300193; 0x0c012183; 0x00000000;
    0x0005a603; 0x00400193; 0x00412183; 0x00000000; 0x0005a683; 0x00500193; 0x04412183; 0x00000000;
    0x0005a703; 0x00600193; 0x08412183; 0x00000000; 0x0005a783; 0x00700193; 0x0c412183; 0x00000000;
    0x0405a403; 0x00800193; 0x00812183; 0x00000000; 0x0405a483; 0x00900193; 0x04812183; 0x00000000;
    0x0405a503; 0x00a00193; 0x08812183; 0x00000000; 0x0405a583; 0x00b00193; 0x0c812183; 0x00000000;
    0x0405a603; 0x00c00193; 0x00c12183; 0x00000000; 0x0405a683; 0x00d00193; 0x04c12183; 0x00000000;
    0x0405a703; 0x00e00193; 0x08c12183; 0x00000000; 0x0405a783; 0x00f00193; 0x0cc12183; 0x00000000;
    0x0045a403; 0x01000193; 0x01012183; 0x00000000; 0x0045a483; 0x01100193; 0x05012183; 0x00000000;
    0x0045a503; 0x01200193; 0x09012183; 0x00000000; 0x0045a583; 0x01300193; 0x0d012183; 0x00000000;
    0x0045a603; 0x01400193; 0x01412183; 0x00000000; 0x0045a683; 0x01500193; 0x05412183; 0x00000000;
    0x0045a703; 0x01600193; 0x09412183; 0x00000000; 0x0045a783; 0x01700193; 0x0d412183; 0x00000000;
    0x0445a403; 0x01800193; 0x01812183; 0x00000000; 0x0445a483; 0x01900193; 0x05812183; 0x00000000;
    0x0445a503; 0x01a00193; 0x09812183; 0x00000000; 0x0445a583; 0x01b00193; 0x0d812183; 0x00000000;
    0x0445a603; 0x01c00193; 0x01c12183; 0x00000000; 0x0445a683; 0x01d00193; 0x05c12183; 0x00000000;
    0x0445a703; 0x01e00193; 0x09c12183; 0x00000000; 0x0445a783; 0x01f00193; 0x0dc12183; 0x00000000;
    0x00062403; 0x00000213; 0x00012203; 0x00000000; 0x00062483; 0x00100213; 0x04012203; 0x00000000;
    0x00062503; 0x00200213; 0x08012203; 0x00000000; 0x00062583; 0x00300213; 0x0c012203; 0x00000000;
    0x00062603; 0x00400213; 0x00412203; 0x00000000; 0x00062683; 0x00500213; 0x04412203; 0x00000000;
    0x00062703; 0x00600213; 0x08412203; 0x00000000; 0x00062783; 0x00700213; 0x0c412203; 0x00000000;
    0x04062403; 0x00800213; 0x00812203; 0x00000000; 0x04062483; 0x00900213; 0x04812203; 0x00000000;
    0x04062503; 0x00a00213; 0x08812203; 0x00000000; 0x04062583; 0x00b00213; 0x0c812203; 0x00000000;
    0x04062603; 0x00c00213; 0x00c12203; 0x00000000; 0x04062683; 0x00d00213; 0x04c12203; 0x00000000;
    0x04062703; 0x00e00213; 0x08c12203; 0x00000000; 0x04062783; 0x00f00213; 0x0cc12203; 0x00000000;
    0x00462403; 0x01000213; 0x01012203; 0x00000000; 0x00462483; 0x01100213; 0x05012203; 0x00000000;
    0x00462503; 0x01200213; 0x09012203; 0x00000000; 0x00462583; 0x01300213; 0x0d012203; 0x00000000;
    0x00462603; 0x01400213; 0x01412203; 0x00000000; 0x00462683; 0x01500213; 0x05412203; 0x00000000;
    0x00462703; 0x01600213; 0x09412203; 0x00000000; 0x00462783; 0x01700213; 0x0d412203; 0x00000000;
    0x04462403; 0x01800213; 0x01812203; 0x00000000; 0x04462483; 0x01900213; 0x05812203; 0x00000000;
    0x04462503; 0x01a00213; 0x09812203; 0x00000000; 0x04462583; 0x01b00213; 0x0d812203; 0x00000000;
    0x04462603; 0x01c00213; 0x01c12203; 0x00000000; 0x04462683; 0x01d00213; 0x05c12203; 0x00000000;
    0x04462703; 0x01e00213; 0x09c12203; 0x00000000; 0x04462783; 0x01f00213; 0x0dc12203; 0x00000000;
    0x0006a403; 0x00000293; 0x00012283; 0x00000000; 0x0006a483; 0x00100293; 0x04012283; 0x00000000;
    0x0006a503; 0x00200293; 0x08012283; 0x00000000; 0x0006a583; 0x00300293; 0x0c012283; 0x00000000;
    0x0006a603; 0x00400293; 0x00412283; 0x00000000; 0x0006a683; 0x00500293; 0x04412283; 0x00000000;
    0x0006a703; 0x00600293; 0x08412283; 0x00000000; 0x0006a783; 0x00700293; 0x0c412283; 0x00000000;
    0x0406a403; 0x00800293; 0x00812283; 0x00000000; 0x0406a483; 0x00900293; 0x04812283; 0x00000000;
    0x0406a503; 0x00a00293; 0x08812283; 0x00000000; 0x0406a583; 0x00b00293; 0x0c812283; 0x00000000;
    0x0406a603; 0x00c00293; 0x00c12283; 0x00000000; 0x0406a683; 0x00d00293; 0x04c12283; 0x00000000;
    0x0406a703; 0x00e00293; 0x08c12283; 0x00000000; 0x0406a783; 0x00f00293; 0x0cc12283; 0x00000000;
    0x0046a403; 0x01000293; 0x01012283; 0x00000000; 0x0046a483; 0x01100293; 0x05012283; 0x00000000;
    0x0046a503; 0x01200293; 0x09012283; 0x00000000; 0x0046a583; 0x01300293; 0x0d012283; 0x00000000;
    0x0046a603; 0x01400293; 0x01412283; 0x00000000; 0x0046a683; 0x01500293; 0x05412283; 0x00000000;
    0x0046a703; 0x01600293; 0x09412283; 0x00000000; 0x0046a783; 0x01700293; 0x0d412283; 0x00000000;
    0x0446a403; 0x01800293; 0x01812283; 0x00000000; 0x0446a483; 0x01900293; 0x05812283; 0x00000000;
    0x0446a503; 0x01a00293; 0x09812283; 0x00000000; 0x0446a583; 0x01b00293; 0x0d812283; 0x00000000;
    0x0446a603; 0x01c00293; 0x01c12283; 0x00000000; 0x0446a683; 0x01d00293; 0x05c12283; 0x00000000;
    0x0446a703; 0x01e00293; 0x09c12283; 0x00000000; 0x0446a783; 0x01f00293; 0x0dc12283; 0x00000000;
    0x00072403; 0x00000313; 0x00012303; 0x00000000; 0x00072483; 0x00100313; 0x04012303; 0x00000000;
    0x00072503; 0x00200313; 0x08012303; 0x00000000; 0x00072583; 0x00300313; 0x0c012303; 0x00000000;
    0x00072603; 0x00400313; 0x00412303; 0x00000000; 0x00072683; 0x00500313; 0x04412303; 0x00000000;
    0x00072703; 0x00600313; 0x08412303; 0x00000000; 0x00072783; 0x00700313; 0x0c412303; 0x00000000;
    0x04072403; 0x00800313; 0x00812303; 0x00000000; 0x04072483; 0x00900313; 0x04812303; 0x00000000;
    0x04072503; 0x00a00313; 0x08812303; 0x00000000; 0x04072583; 0x00b00313; 0x0c812303; 0x00000000;
    0x04072603; 0x00c00313; 0x00c12303; 0x00000000; 0x04072683; 0x00d00313; 0x04c12303; 0x00000000;
    0x04072703; 0x00e00313; 0x08c12303; 0x00000000; 0x04072783; 0x00f00313; 0x0cc12303; 0x00000000;
    0x00472403; 0x01000313; 0x01012303; 0x00000000; 0x00472483; 0x01100313; 0x05012303; 0x00000000;
    0x00472503; 0x01200313; 0x09012303; 0x00000000; 0x00472583; 0x01300313; 0x0d012303; 0x00000000;
    0x00472603; 0x01400313; 0x01412303; 0x00000000; 0x00472683; 0x01500313; 0x05412303; 0x00000000;
    0x00472703; 0x01600313; 0x09412303; 0x00000000; 0x00472783; 0x01700313; 0x0d412303; 0x00000000;
    0x04472403; 0x01800313; 0x01812303; 0x00000000; 0x04472483; 0x01900313; 0x05812303; 0x00000000;
    0x04472503; 0x01a00313; 0x09812303; 0x00000000; 0x04472583; 0x01b00313; 0x0d812303; 0x00000000;
    0x04472603; 0x01c00313; 0x01c12303; 0x00000000; 0x04472683; 0x01d00313; 0x05c12303; 0x00000000;
    0x04472703; 0x01e00313; 0x09c12303; 0x00000000; 0x04472783; 0x01f00313; 0x0dc12303; 0x00000000;
    0x0007a403; 0x00000393; 0x00012383; 0x00000000; 0x0007a483; 0x00100393; 0x04012383; 0x00000000;
    0x0007a503; 0x00200393; 0x08012383; 0x00000000; 0x0007a583; 0x00300393; 0x0c012383; 0x00000000;
    0x0007a603; 0x00400393; 0x00412383; 0x00000000; 0x0007a683; 0x00500393; 0x04412383; 0x00000000;
    0x0007a703; 0x00600393; 0x08412383; 0x00000000; 0x0007a783; 0x00700393; 0x0c412383; 0x00000000;
    0x0407a403; 0x00800393; 0x00812383; 0x00000000; 0x0407a483; 0x00900393; 0x04812383; 0x00000000;
    0x0407a503; 0x00a00393; 0x08812383; 0x00000000; 0x0407a583; 0x00b00393; 0x0c812383; 0x00000000;
    0x0407a603; 0x00c00393; 0x00c12383; 0x00000000; 0x0407a683; 0x00d00393; 0x04c12383; 0x00000000;
    0x0407a703; 0x00e00393; 0x08c12383; 0x00000000; 0x0407a783; 0x00f00393; 0x0cc12383; 0x00000000;
    0x0047a403; 0x01000393; 0x01012383; 0x00000000; 0x0047a483; 0x01100393; 0x05012383; 0x00000000;
    0x0047a503; 0x01200393; 0x09012383; 0x00000000; 0x0047a583; 0x01300393; 0x0d012383; 0x00000000;
    0x0047a603; 0x01400393; 0x01412383; 0x00000000; 0x0047a683; 0x01500393; 0x05412383; 0x00000000;
    0x0047a703; 0x01600393; 0x09412383; 0x00000000; 0x0047a783; 0x01700393; 0x0d412383; 0x00000000;
    0x0447a403; 0x01800393; 0x01812383; 0x00000000; 0x0447a483; 0x01900393; 0x05812383; 0x00000000;
    0x0447a503; 0x01a00393; 0x09812383; 0x00000000; 0x0447a583; 0x01b00393; 0x0d812383; 0x00000000;
    0x0447a603; 0x01c00393; 0x01c12383; 0x00000000; 0x0447a683; 0x01d00393; 0x05c12383; 0x00000000;
    0x0447a703; 0x01e00393; 0x09c12383; 0x00000000; 0x0447a783; 0x01f00393; 0x0dc12383; 0x00000000
].

(** parcels 0x4400 to 0x47ff *)
Definition RVC64_EXPANDED_17 : list Z := [
    0x00842403; 0x00000413; 0x00012403; 0x00000000; 0x00842483; 0x00100413; 0x04012403; 0x00000000;
    0x00842503; 0x00200413; 0x08012403; 0x00000000; 0x00842583; 0x00300413; 0x0c012403; 0x00000000;
    0x00842603; 0x00400413; 0x00412403; 0x00000000; 0x00842683; 0x00500413; 0x04412403; 0x00000000;
    0x00842703; 0x00600413; 0x08412403; 0x00000000; 0x00842783; 0x00700413; 0x0c412403; 0x00000000;
    0x04842403; 0x00800413; 0x00812403; 0x00000000; 0x04842483; 0x00900413; 0x04812403; 0x00000000;
    0x04842503; 0x00a00413; 0x08812403; 0x00000000; 0x04842583; 0x00b00413; 0x0c812403; 0x00000000;
    0x04842603; 0x00c00413; 0x00c12403; 0x00000000; 0x04842683; 0x00d00413; 0x04c12403; 0x00000000;
    0x04842703; 0x00e00413; 0x08c12403; 0x00000000; 0x04842783; 0x00f00413; 0x0cc12403; 0x00000000;
    0x00c42403; 0x01000413; 0x01012403; 0x00000000; 0x00c42483; 0x01100413; 0x05012403; 0x00000000;
    0x00c42503; 0x01200413; 0x09012403; 0x00000000; 0x00c42583; 0x01300413; 0x0d012403; 0x00000000;
    0x00c42603; 0x01400413; 0x01412403; 0x00000000; 0x00c42683; 0x01500413; 0x05412403; 0x00000000;
    0x00c42703; 0x01600413; 0x09412403; 0x00000000; 0x00c42783; 0x01700413; 0x0d412403; 0x00000000;
    0x04c42403; 0x01800413; 0x01812403; 0x00000000; 0x04c42483; 0x01900413; 0x05812403; 0x00000000;
    0x04c42503; 0x01a00413; 0x09812403; 0x00000000; 0x04c42583; 0x01b00413; 0x0d812403; 0x00000000;
    0x04c42603; 0x01c00413; 0x01c12403; 0x00000000; 0x04c42683; 0x01d00413; 0x05c12403; 0x00000000;
    0x04c42703; 0x01e00413; 0x09c12403; 0x00000000; 0x04c42783; 0x01f00413; 0x0dc12403; 0x00000000;
    0x0084a403; 0x00000493; 0x00012483; 0x00000000; 0x0084a483; 0x00100493; 0x04012483; 0x00000000;
    0x0084a503; 0x00200493; 0x08012483; 0x00000000; 0x0084a583; 0x00300493; 0x0c012483; 0x00000000;
    0x0084a603; 0x00400493; 0x00412483; 0x00000000; 0x0084a683; 0x00500493; 0x04412483; 0x00000000;
    0x0084a703; 0x00600493; 0x08412483; 0x00000000; 0x0084a783; 0x00700493; 0x0c412483; 0x00000000;
    0x0484a403; 0x00800493; 0x00812483; 0x00000000; 0x0484a483; 0x00900493; 0x04812483; 0x00000000;
    0x0484a503; 0x00a00493; 0x08812483; 0x00000000; 0x0484a583; 0x00b00493; 0x0c812483; 0x00000000;
    0x0484a603; 0x00c00493; 0x00c12483; 0x00000000; 0x0484a683; 0x00d00493; 0x04c12483; 0x00000000;
    0x0484a703; 0x00e00493; 0x08c12483; 0x00000000; 0x0484a783; 0x00f00493; 0x0cc12483; 0x00000000;
    0x00c4a403; 0x01000493; 0x01012483; 0x00000000; 0x00c4a483; 0x01100493; 0x05012483; 0x00000000;
    0x00c4a503; 0x01200493; 0x09012483; 0x00000000; 0x00c4a583; 0x01300493; 0x0d012483; 0x00000000;
    0x00c4a603; 0x01400493; 0x01412483; 0x00000000; 0x00c4a683; 0x01500493; 0x05412483; 0x00000000;
    0x00c4a703; 0x01600493; 0x09412483; 0x00000000; 0x00c4a783; 0x01700493; 0x0d412483; 0x00000000;
    0x04c4a403; 0x01800493; 0x01812483; 0x00000000; 0x04c4a483; 0x01900493; 0x05812483; 0x00000000;
    0x04c4a503; 0x01a00493; 0x09812483; 0x00000000; 0x04c4a583; 0x01b00493; 0x0d812483; 0x00000000;
    0x04c4a603; 0x01c00493; 0x01c12483; 0x00000000; 0x04c4a683; 0x01d00493; 0x05c12483; 0x00000000;
    0x04c4a703; 0x01e00493; 0x09c12483; 0x00000000; 0x04c4a783; 0x01f00493; 0x0dc12483; 0x00000000;
    0x00852403; 0x00000513; 0x00012503; 0x00000000; 0x00852483; 0x00100513; 0x04012503; 0x00000000;
    0x00852503; 0x00200513; 0x08012503; 0x00000000; 0x00852583; 0x00300513; 0x0c012503; 0x00000000;
    0x00852603; 0x00400513; 0x00412503; 0x00000000; 0x00852683; 0x00500513; 0x04412503; 0x00000000;
    0x00852703; 0x00600513; 0x08412503; 0x00000000; 0x00852783; 0x00700513; 0x0c412503; 0x00000000;
    0x04852403; 0x00800513; 0x00812503; 0x00000000; 0x04852483; 0x00900513; 0x04812503; 0x00000000;
    0x04852503; 0x00a00513; 0x08812503; 0x00000000; 0x04852583; 0x00b00513; 0x0c812503; 0x00000000;
    0x04852603; 0x00c00513; 0x00c12503; 0x00000000; 0x04852683; 0x00d00513; 0x04c12503; 0x00000000;
    0x04852703; 0x00e00513; 0x08c12503; 0x00000000; 0x04852783; 0x00f00513; 0x0cc12503; 0x00000000;
    0x00c52403; 0x01000513; 0x01012503; 0x00000000; 0x00c52483; 0x01100513; 0x05012503; 0x00000000;
    0x00c52503; 0x01200513; 0x09012503; 0x00000000; 0x00c52583; 0x01300513; 0x0d012503; 0x00000000;
    0x00c52603; 0x01400513; 0x01412503; 0x00000000; 0x00c52683; 0x01500513; 0x05412503; 0x00000000;
    0x00c52703; 0x01600513; 0x09412503; 0x00000000; 0x00c52783; 0x01700513; 0x0d412503; 0x00000000;
    0x04c52403; 0x01800513; 0x01812503; 0x00000000; 0x04c52483; 0x01900513; 0x05812503; 0x00000000;
    0x04c52503; 0x01a00513; 0x09812503; 0x00000000; 0x04c52583; 0x01b00513; 0x0d812503; 0x00000000;
    0x04c52603; 0x01c00513; 0x01c12503; 0x00000000; 0x04c52683; 0x01d00513; 0x05c12503; 0x00000000;
    0x04c52703; 0x01e00513; 0x09c12503; 0x00000000; 0x04c52783; 0x01f00513; 0x0dc12503; 0x00000000;
    0x0085a403; 0x00000593; 0x00012583; 0x00000000; 0x0085a483; 0x00100593; 0x04012583; 0x00000000;
    0x0085a503; 0x00200593; 0x08012583; 0x00000000; 0x0085a583; 0x00300593; 0x0c012583; 0x00000000;
    0x0085a603; 0x00400593; 0x00412583; 0x00000000; 0x0085a683; 0x00500593; 0x04412583; 0x00000000;
    0x0085a703; 0x00600593; 0x08412583; 0x00000000; 0x0085a783; 0x00700593; 0x0c412583; 0x00000000;
    0x0485a403; 0x00800593; 0x00812583; 0x00000000; 0x0485a483; 0x00900593; 0x04812583; 0x00000000;
    0x0485a503; 0x00a00593; 0x08812583; 0x00000000; 0x0485a583; 0x00b00593; 0x0c812583; 0x00000000;
    0x0485a603; 0x00c00593; 0x00c12583; 0x00000000; 0x0485a683; 0x00d00593; 0x04c12583; 0x00000000;
    0x0485a703; 0x00e00593; 0x08c12583; 0x00000000; 0x0485a783; 0x00f00593; 0x0cc12583; 0x00000000;
    0x00c5a403; 0x01000593; 0x01012583; 0x00000000; 0x00c5a483; 0x01100593; 0x05012583; 0x00000000;
    0x00c5a503; 0x01200593; 0x09012583; 0x00000000; 0x00c5a583; 0x01300593; 0x0d012583; 0x00000000;
    0x00c5a603; 0x01400593; 0x01412583; 0x00000000; 0x00c5a683; 0x01500593; 0x05412583; 0x00000000;
    0x00c5a703; 0x01600593; 0x09412583; 0x00000000; 0x00c5a783; 0x01700593; 0x0d412583; 0x00000000;
    0x04c5a403; 0x01800593; 0x01812583; 0x00000000; 0x04c5a483; 0x01900593; 0x05812583; 0x00000000;
    0x04c5a503; 0x01a00593; 0x09812583; 0x00000000; 0x04c5a583; 0x01b00593; 0x0d812583; 0x00000000;
    0x04c5a603; 0x01c00593; 0x01c12583; 0x00000000; 0x04c5a683; 0x01d00593; 0x05c12583; 0x00000000;
    0x04c5a703; 0x01e00593; 0x09c12583; 0x00000000; 0x04c5a783; 0x01f00593; 0x0dc12583; 0x00000000;
    0x00862403; 0x00000613; 0x00012603; 0x00000000; 0x00862483; 0x00100613; 0x04012603; 0x00000000;
    0x00862503; 0x00200613; 0x08012603; 0x00000000; 0x00862583; 0x00300613; 0x0c012603; 0x00000000;
    0x00862603; 0x00400613; 0x00412603; 0x00000000; 0x00862683; 0x00500613; 0x04412603; 0x00000000;
    0x00862703; 0x00600613; 0x08412603; 0x00000000; 0x00862783; 0x00700613; 0x0c412603; 0x00000000;
    0x04862403; 0x00800613; 0x00812603; 0x00000000; 0x04862483; 0x00900613; 0x04812603; 0x00000000;
    0x04862503; 0x00a00613; 0x08812603; 0x00000000; 0x04862583; 0x00b00613; 0x0c812603; 0x00000000;
    0x04862603; 0x00c00613; 0x00c12603; 0x00000000; 0x04862683; 0x00d00613; 0x04c12603; 0x00000000;
    0x04862703; 0x00e00613; 0x08c12603; 0x00000000; 0x04862783; 0x00f00613; 0x0cc12603; 0x00000000;
    0x00c62403; 0x01000613; 0x01012603; 0x00000000; 0x00c62483; 0x01100613; 0x05012603; 0x00000000;
    0x00c62503; 0x01200613; 0x09012603; 0x00000000; 0x00c62583; 0x01300613; 0x0d012603; 0x00000000;
    0x00c62603; 0x01400613; 0x01412603; 0x00000000; 0x00c62683; 0x01500613; 0x05412603; 0x00000000;
    0x00c62703; 0x01600613; 0x09412603; 0x00000000; 0x00c62783; 0x01700613; 0x0d412603; 0x00000000;
    0x04c62403; 0x01800613; 0x01812603; 0x00000000; 0x04c62483; 0x01900613; 0x05812603; 0x00000000;
    0x04c62503; 0x01a00613; 0x09812603; 0x00000000; 0x04c62583; 0x01b00613; 0x0d812603; 0x00000000;
    0x04c62603; 0x01c00613; 0x01c12603; 0x00000000; 0x04c62683; 0x01d00613; 0x05c12603; 0x00000000;
    0x04c62703; 0x01e00613; 0x09c12603; 0x00000000; 0x04c62783; 0x01f00613; 0x0dc12603; 0x00000000;
    0x0086a403; 0x00000693; 0x00012683; 0x00000000; 0x0086a483; 0x00100693; 0x04012683; 0x00000000;
    0x0086a503; 0x00200693; 0x08012683; 0x00000000; 0x0086a583; 0x00300693; 0x0c012683; 0x00000000;
    0x0086a603; 0x00400693; 0x00412683; 0x00000000; 0x0086a683; 0x00500693; 0x04412683; 0x00000000;
    0x0086a703; 0x00600693; 0x08412683; 0x00000000; 0x0086a783; 0x00700693; 0x0c412683; 0x00000000;
    0x0486a403; 0x00800693; 0x00812683; 0x00000000; 0x0486a483; 0x00900693; 0x04812683; 0x00000000;
    0x0486a503; 0x00a00693; 0x08812683; 0x00000000; 0x0486a583; 0x00b00693; 0x0c812683; 0x00000000;
    0x0486a603; 0x00c00693; 0x00c12683; 0x00000000; 0x0486a683; 0x00d00693; 0x04c12683; 0x00000000;
    0x0486a703; 0x00e00693; 0x08c12683; 0x00000000; 0x0486a783; 0x00f00693; 0x0cc12683; 0x00000000;
    0x00c6a403; 0x01000693; 0x01012683; 0x00000000; 0x00c6a483; 0x01100693; 0x05012683; 0x00000000;
    0x00c6a503; 0x01200693; 0x09012683; 0x00000000; 0x00c6a583; 0x01300693; 0x0d012683; 0x00000000;
    0x00c6a603; 0x01400693; 0x01412683; 0x00000000; 0x00c6a683; 0x01500693; 0x05412683; 0x00000000;
    0x00c6a703; 0x01600693; 0x09412683; 0x00000000; 0x00c6a783; 0x01700693; 0x0d412683; 0x00000000;
    0x04c6a403; 0x01800693; 0x01812683; 0x00000000; 0x04c6a483; 0x01900693; 0x05812683; 0x00000000;
    0x04c6a503; 0x01a00693; 0x09812683; 0x00000000; 0x04c6a583; 0x01b00693; 0x0d812683; 0x00000000;
    0x04c6a603; 0x01c00693; 0x01c12683; 0x00000000; 0x04c6a683; 0x01d00693; 0x05c12683; 0x00000000;
    0x04c6a703; 0x01e00693; 0x09c12683; 0x00000000; 0x04c6a783; 0x01f00693; 0x0dc12683; 0x00000000;
    0x00872403; 0x00000713; 0x00012703; 0x00000000; 0x00872483; 0x00100713; 0x04012703; 0x00000000;
    0x00872503; 0x00200713; 0x08012703; 0x00000000; 0x00872583; 0x00300713; 0x0c012703; 0x00000000;
    0x00872603; 0x00400713; 0x00412703; 0x00000000; 0x00872683; 0x00500713; 0x04412703; 0x00000000;
    0x00872703; 0x00600713; 0x08412703; 0x00000000; 0x00872783; 0x00700713; 0x0c412703; 0x00000000;
    0x04872403; 0x00800713; 0x00812703; 0x00000000; 0x04872483; 0x00900713; 0x04812703; 0x00000000;
    0x04872503; 0x00a00713; 0x08812703; 0x00000000; 0x04872583; 0x00b00713; 0x0c812703; 0x00000000;
    0x04872603; 0x00c00713; 0x00c12703; 0x00000000; 0x04872683; 0x00d00713; 0x04c12703; 0x00000000;
    0x04872703; 0x00e00713; 0x08c12703; 0x00000000; 0x04872783; 0x00f00713; 0x0cc12703; 0x00000000;
    0x00c72403; 0x01000713; 0x01012703; 0x00000000; 0x00c72483; 0x01100713; 0x05012703; 0x00000000;
    0x00c72503; 0x01200713; 0x09012703; 0x00000000; 0x00c72583; 0x01300713; 0x0d012703; 0x00000000;
    0x00c72603; 0x01400713; 0x01412703; 0x00000000; 0x00c72683; 0x01500713; 0x05412703; 0x00000000;
    0x00c72703; 0x01600713; 0x09412703; 0x00000000; 0x00c72783; 0x01700713; 0x0d412703; 0x00000000;
    0x04c72403; 0x01800713; 0x01812703; 0x00000000; 0x04c72483; 0x01900713; 0x05812703; 0x00000000;
    0x04c72503; 0x01a00713; 0x09812703; 0x00000000; 0x04c72583; 0x01b00713; 0x0d812703; 0x00000000;
    0x04c72603; 0x01c00713; 0x01c12703; 0x00000000; 0x04c72683; 0x01d00713; 0x05c12703; 0x00000000;
    0x04c72703; 0x01e00713; 0x09c12703; 0x00000000; 0x04c72783; 0x01f00713; 0x0dc12703; 0x00000000;
    0x0087a403; 0x00000793; 0x00012783; 0x00000000; 0x0087a483; 0x00100793; 0x04012783; 0x00000000;
    0x0087a503; 0x00200793; 0x08012783; 0x00000000; 0x0087a583; 0x00300793; 0x0c012783; 0x00000000;
    0x0087a603; 0x00400793; 0x00412783; 0x00000000; 0x0087a683; 0x00500793; 0x04412783; 0x00000000;
    0x0087a703; 0x00600793; 0x08412783; 0x00000000; 0x0087a783; 0x00700793; 0x0c412783; 0x00000000;
    0x0487a403; 0x00800793; 0x00812783; 0x00000000; 0x0487a483; 0x00900793; 0x04812783; 0x00000000;
    0x0487a503; 0x00a00793; 0x08812783; 0x00000000; 0x0487a583; 0x00b00793; 0x0c812783; 0x00000000;
    0x0487a603; 0x00c00793; 0x00c12783; 0x00000000; 0x0487a683; 0x00d00793; 0x04c12783; 0x00000000;
    0x0487a703; 0x00e00793; 0x08c12783; 0x00000000; 0x0487a783; 0x00f00793; 0x0cc12783; 0x00000000;
    0x00c7a403; 0x01000793; 0x01012783; 0x00000000; 0x00c7a483; 0x01100793; 0x05012783; 0x00000000;
    0x00c7a503; 0x01200793; 0x09012783; 0x00000000; 0x00c7a583; 0x01300793; 0x0d012783; 0x00000000;
    0x00c7a603; 0x01400793; 0x01412783; 0x00000000; 0x00c7a683; 0x01500793; 0x05412783; 0x00000000;
    0x00c7a703; 0x01600793; 0x09412783; 0x00000000; 0x00c7a783; 0x01700793; 0x0d412783; 0x00000000;
    0x04c7a403; 0x01800793; 0x01812783; 0x00000000; 0x04c7a483; 0x01900793; 0x05812783; 0x00000000;
    0x04c7a503; 0x01a00793; 0x09812783; 0x00000000; 0x04c7a583; 0x01b00793; 0x0d812783; 0x00000000;
    0x04c7a603; 0x01c00793; 0x01c12783; 0x00000000; 0x04c7a683; 0x01d00793; 0x05c12783; 0x00000000;
    0x04c7a703; 0x01e00793; 0x09c12783; 0x00000000; 0x04c7a783; 0x01f00793; 0x0dc12783; 0x00000000
].

(** parcels 0x4800 to 0x4bff *)
Definition RVC64_EXPANDED_18 : list Z := [
    0x01042403; 0x00000813; 0x00012803; 0x00000000; 0x01042483; 0x00100813; 0x04012803; 0x00000000;
    0x01042503; 0x00200813; 0x08012803; 0x00000000; 0x01042583; 0x00300813; 0x0c012803; 0x00000000;
    0x01042603; 0x00400813; 0x00412803; 0x00000000; 0x01042683; 0x00500813; 0x04412803; 0x00000000;
    0x01042703; 0x00600813; 0x08412803; 0x00000000; 0x01042783; 0x00700813; 0x0c412803; 0x00000000;
    0x05042403; 0x00800813; 0x00812803; 0x00000000; 0x05042483; 0x00900813; 0x04812803; 0x00000000;
    0x05042503; 0x00a00813; 0x08812803; 0x00000000; 0x05042583; 0x00b00813; 0x0c812803; 0x00000000;
    0x05042603; 0x00c00813; 0x00c12803; 0x00000000; 0x05042683; 0x00d00813; 0x04c12803; 0x00000000;
    0x05042703; 0x00e00813; 0x08c12803; 0x00000000; 0x05042783; 0x00f00813; 0x0cc12803; 0x00000000;
    0x01442403; 0x01000813; 0x01012803; 0x00000000; 0x01442483; 0x01100813; 0x05012803; 0x00000000;
    0x01442503; 0x01200813; 0x09012803; 0x00000000; 0x01442583; 0x01300813; 0x0d012803; 0x00000000;
    0x01442603; 0x01400813; 0x01412803; 0x00000000; 0x01442683; 0x01500813; 0x05412803; 0x00000000;
    0x01442703; 0x01600813; 0x09412803; 0x00000000; 0x01442783; 0x01700813; 0x0d412803; 0x00000000;
    0x05442403; 0x01800813; 0x01812803; 0x00000000; 0x05442483; 0x01900813; 0x05812803; 0x00000000;
    0x05442503; 0x01a00813; 0x09812803; 0x00000000; 0x05442583; 0x01b00813; 0x0d812803; 0x00000000;
    0x05442603; 0x01c00813; 0x01c12803; 0x00000000; 0x05442683; 0x01d00813; 0x05c12803; 0x00000000;
    0x05442703; 0x01e00813; 0x09c12803; 0x00000000; 0x05442783; 0x01f00813; 0x0dc12803; 0x00000000;
    0x0104a403; 0x00000893; 0x00012883; 0x00000000; 0x0104a483; 0x00100893; 0x04012883; 0x00000000;
    0x0104a503; 0x00200893; 0x08012883; 0x00000000; 0x0104a583; 0x00300893; 0x0c012883; 0x00000000;
    0x0104a603; 0x00400893; 0x00412883; 0x00000000; 0x0104a683; 0x00500893; 0x04412883; 0x00000000;
    0x0104a703; 0x00600893; 0x08412883; 0x00000000; 0x0104a783; 0x00700893; 0x0c412883; 0x00000000;
    0x0504a403; 0x00800893; 0x00812883; 0x00000000; 0x0504a483; 0x00900893; 0x04812883; 0x00000000;
    0x0504a503; 0x00a00893; 0x08812883; 0x00000000; 0x0504a583; 0x00b00893; 0x0c812883; 0x00000000;
    0x0504a603; 0x00c00893; 0x00c12883; 0x00000000; 0x0504a683; 0x00d00893; 0x04c12883; 0x00000000;
    0x0504a703; 0x00e00893; 0x08c12883; 0x00000000; 0x0504a783; 0x00f00893; 0x0cc12883; 0x00000000;
    0x0144a403; 0x01000893; 0x01012883; 0x00000000; 0x0144a483; 0x01100893; 0x05012883; 0x00000000;
    0x0144a503; 0x01200893; 0x09012883; 0x00000000; 0x0144a583; 0x01300893; 0x0d012883; 0x00000000;
    0x0144a603; 0x01400893; 0x01412883; 0x00000000; 0x0144a683; 0x01500893; 0x05412883; 0x00000000;
    0x0144a703; 0x01600893; 0x09412883; 0x00000000; 0x0144a783; 0x01700893; 0x0d412883; 0x00000000;
    0x0544a403; 0x01800893; 0x01812883; 0x00000000; 0x0544a483; 0x01900893; 0x05812883; 0x00000000;
    0x0544a503; 0x01a00893; 0x09812883; 0x00000000; 0x0544a583; 0x01b00893; 0x0d812883; 0x00000000;
    0x0544a603; 0x01c00893; 0x01c12883; 0x00000000; 0x0544a683; 0x01d00893; 0x05c12883; 0x00000000;
    0x0544a703; 0x01e00893; 0x09c12883; 0x00000000; 0x0544a783; 0x01f00893; 0x0dc12883; 0x00000000;
    0x01052403; 0x00000913; 0x00012903; 0x00000000; 0x01052483; 0x00100913; 0x04012903; 0x00000000;
    0x01052503; 0x00200913; 0x08012903; 0x00000000; 0x01052583; 0x00300913; 0x0c012903; 0x00000000;
    0x01052603; 0x00400913; 0x00412903; 0x00000000; 0x01052683; 0x00500913; 0x04412903; 0x00000000;
    0x01052703; 0x00600913; 0x08412903; 0x00000000; 0x01052783; 0x00700913; 0x0c412903; 0x00000000;
    0x05052403; 0x00800913; 0x00812903; 0x00000000; 0x05052483; 0x00900913; 0x04812903; 0x00000000;
    0x05052503; 0x00a00913; 0x08812903; 0x00000000; 0x05052583; 0x00b00913; 0x0c812903; 0x00000000;
    0x05052603; 0x00c00913; 0x00c12903; 0x00000000; 0x05052683; 0x00d00913; 0x04c12903; 0x00000000;
    0x05052703; 0x00e00913; 0x08c12903; 0x00000000; 0x05052783; 0x00f00913; 0x0cc12903; 0x00000000;
    0x01452403; 0x01000913; 0x01012903; 0x00000000; 0x01452483; 0x01100913; 0x05012903; 0x00000000;
    0x01452503; 0x01200913; 0x09012903; 0x00000000; 0x01452583; 0x01300913; 0x0d012903; 0x00000000;
    0x01452603; 0x01400913; 0x01412903; 0x00000000; 0x01452683; 0x01500913; 0x05412903; 0x00000000;
    0x01452703; 0x01600913; 0x09412903; 0x00000000; 0x01452783; 0x01700913; 0x0d412903; 0x00000000;
    0x05452403; 0x01800913; 0x01812903; 0x00000000; 0x05452483; 0x01900913; 0x05812903; 0x00000000;
    0x05452503; 0x01a00913; 0x09812903; 0x00000000; 0x05452583; 0x01b00913; 0x0d812903; 0x00000000;
    0x05452603; 0x01c00913; 0x01c12903; 0x00000000; 0x05452683; 0x01d00913; 0x05c12903; 0x00000000;
    0x05452703; 0x01e00913; 0x09c12903; 0x00000000; 0x05452783; 0x01f00913; 0x0dc12903; 0x00000000;
    0x0105a403; 0x00000993; 0x00012983; 0x00000000; 0x0105a483; 0x00100993; 0x04012983; 0x00000000;
    0x0105a503; 0x00200993; 0x08012983; 0x00000000; 0x0105a583; 0x00300993; 0x0c012983; 0x00000000;
    0x0105a603; 0x00400993; 0x00412983; 0x00000000; 0x0105a683; 0x00500993; 0x04412983; 0x00000000;
    0x0105a703; 0x00600993; 0x08412983; 0x00000000; 0x0105a783; 0x00700993; 0x0c412983; 0x00000000;
    0x0505a403; 0x00800993; 0x00812983; 0x00000000; 0x0505a483; 0x00900993; 0x04812983; 0x00000000;
    0x0505a503; 0x00a00993; 0x08812983; 0x00000000; 0x0505a583; 0x00b00993; 0x0c812983; 0x00000000;
    0x0505a603; 0x00c00993; 0x00c12983; 0x00000000; 0x0505a683; 0x00d00993; 0x04c12983; 0x00000000;
    0x0505a703; 0x00e00993; 0x08c12983; 0x00000000; 0x0505a783; 0x00f00993; 0x0cc12983; 0x00000000;
    0x0145a403; 0x01000993; 0x01012983; 0x00000000; 0x0145a483; 0x01100993; 0x05012983; 0x00000000;
    0x0145a503; 0x01200993; 0x09012983; 0x00000000; 0x0145a583; 0x01300993; 0x0d012983; 0x00000000;
    0x0145a603; 0x01400993; 0x01412983; 0x00000000; 0x0145a683; 0x01500993; 0x05412983; 0x00000000;
    0x0145a703; 0x01600993; 0x09412983; 0x00000000; 0x0145a783; 0x01700993; 0x0d412983; 0x00000000;
    0x0545a403; 0x01800993; 0x01812983; 0x00000000; 0x0545a483; 0x01900993; 0x05812983; 0x00000000;
    0x0545a503; 0x01a00993; 0x09812983; 0x00000000; 0x0545a583; 0x01b00993; 0x0d812983; 0x00000000;
    0x0545a603; 0x01c00993; 0x01c12983; 0x00000000; 0x0545a683; 0x01d00993; 0x05c12983; 0x00000000;
    0x0545a703; 0x01e00993; 0x09c12983; 0x00000000; 0x0545a783; 0x01f00993; 0x0dc12983; 0x00000000;
    0x01062403; 0x00000a13; 0x00012a03; 0x00000000; 0x01062483; 0x00100a13; 0x04012a03; 0x00000000;
    0x01062503; 0x00200a13; 0x08012a03; 0x00000000; 0x01062583; 0x00300a13; 0x0c012a03; 0x00000000;
    0x01062603; 0x00400a13; 0x00412a03; 0x00000000; 0x01062683; 0x00500a13; 0x04412a03; 0x00000000;
    0x01062703; 0x00600a13; 0x08412a03; 0x00000000; 0x01062783; 0x00700a13; 0x0c412a03; 0x00000000;
    0x05062403; 0x00800a13; 0x00812a03; 0x00000000; 0x05062483; 0x00900a13; 0x04812a03; 0x00000000;
    0x05062503; 0x00a00a13; 0x08812a03; 0x00000000; 0x05062583; 0x00b00a13; 0x0c812a03; 0x00000000;
    0x05062603; 0x00c00a13; 0x00c12a03; 0x00000000; 0x05062683; 0x00d00a13; 0x04c12a03; 0x00000000;
    0x05062703; 0x00e00a13; 0x08c12a03; 0x00000000; 0x05062783; 0x00f00a13; 0x0cc12a03; 0x00000000;
    0x01462403; 0x01000a13; 0x01012a03; 0x00000000; 0x01462483; 0x01100a13; 0x05012a03; 0x00000000;
    0x01462503; 0x01200a13; 0x09012a03; 0x00000000; 0x01462583; 0x01300a13; 0x0d012a03; 0x00000000;
    0x01462603; 0x01400a13; 0x01412a03; 0x00000000; 0x01462683; 0x01500a13; 0x05412a03; 0x00000000;
    0x01462703; 0x01600a13; 0x09412a03; 0x00000000; 0x01462783; 0x01700a13; 0x0d412a03; 0x00000000;
    0x05462403; 0x01800a13; 0x01812a03; 0x00000000; 0x05462483; 0x01900a13; 0x05812a03; 0x00000000;
    0x05462503; 0x01a00a13; 0x09812a03; 0x00000000; 0x05462583; 0x01b00a13; 0x0d812a03; 0x00000000;
    0x05462603; 0x01c00a13; 0x01c12a03; 0x00000000; 0x05462683; 0x01d00a13; 0x05c12a03; 0x00000000;
    0x05462703; 0x01e00a13; 0x09c12a03; 0x00000000; 0x05462783; 0x01f00a13; 0x0dc12a03; 0x00000000;
    0x0106a403; 0x00000a93; 0x00012a83; 0x00000000; 0x0106a483; 0x00100a93; 0x04012a83; 0x00000000;
    0x0106a503; 0x00200a93; 0x08012a83; 0x00000000; 0x0106a583; 0x00300a93; 0x0c012a83; 0x00000000;
    0x0106a603; 0x00400a93; 0x00412a83; 0x00000000; 0x0106a683; 0x00500a93; 0x04412a83; 0x00000000;
    0x0106a703; 0x00600a93; 0x08412a83; 0x00000000; 0x0106a783; 0x00700a93; 0x0c412a83; 0x00000000;
    0x0506a403; 0x00800a93; 0x00812a83; 0x00000000; 0x0506a483; 0x00900a93; 0x04812a83; 0x00000000;
    0x0506a503; 0x00a00a93; 0x08812a83; 0x00000000; 0x0506a583; 0x00b00a93; 0x0c812a83; 0x00000000;
    0x0506a603; 0x00c00a93; 0x00c12a83; 0x00000000; 0x0506a683; 0x00d00a93; 0x04c12a83; 0x00000000;
    0x0506a703; 0x00e00a93; 0x08c12a83; 0x00000000; 0x0506a783; 0x00f00a93; 0x0cc12a83; 0x00000000;
    0x0146a403; 0x01000a93; 0x01012a83; 0x00000000; 0x0146a483; 0x01100a93; 0x05012a83; 0x00000000;
    0x0146a503; 0x01200a93; 0x09012a83; 0x00000000; 0x0146a583; 0x01300a93; 0x0d012a83; 0x00000000;
    0x0146a603; 0x01400a93; 0x01412a83; 0x00000000; 0x0146a683; 0x01500a93; 0x05412a83; 0x00000000;
    0x0146a703; 0x01600a93; 0x09412a83; 0x00000000; 0x0146a783; 0x01700a93; 0x0d412a83; 0x00000000;
    0x0546a403; 0x01800a93; 0x01812a83; 0x00000000; 0x0546a483; 0x01900a93; 0x05812a83; 0x00000000;
    0x0546a503; 0x01a00a93; 0x09812a83; 0x00000000; 0x0546a583; 0x01b00a93; 0x0d812a83; 0x00000000;
    0x0546a603; 0x01c00a93; 0x01c12a83; 0x00000000; 0x0546a683; 0x01d00a93; 0x05c12a83; 0x00000000;
    0x0546a703; 0x01e00a93; 0x09c12a83; 0x00000000; 0x0546a783; 0x01f00a93; 0x0dc12a83; 0x00000000;
    0x01072403; 0x00000b13; 0x00012b03; 0x00000000; 0x01072483; 0x00100b13; 0x04012b03; 0x00000000;
    0x01072503; 0x00200b13; 0x08012b03; 0x00000000; 0x01072583; 0x00300b13; 0x0c012b03; 0x00000000;
    0x01072603; 0x00400b13; 0x00412b03; 0x00000000; 0x01072683; 0x00500b13; 0x04412b03; 0x00000000;
    0x01072703; 0x00600b13; 0x08412b03; 0x00000000; 0x01072783; 0x00700b13; 0x0c412b03; 0x00000000;
    0x05072403; 0x00800b13; 0x00812b03; 0x00000000; 0x05072483; 0x00900b13; 0x04812b03; 0x00000000;
    0x05072503; 0x00a00b13; 0x08812b03; 0x00000000; 0x05072583; 0x00b00b13; 0x0c812b03; 0x00000000;
    0x05072603; 0x00c00b13; 0x00c12b03; 0x00000000; 0x05072683; 0x00d00b13; 0x04c12b03; 0x00000000;
    0x05072703; 0x00e00b13; 0x08c12b03; 0x00000000; 0x05072783; 0x00f00b13; 0x0cc12b03; 0x00000000;
    0x01472403; 0x01000b13; 0x01012b03; 0x00000000; 0x01472483; 0x01100b13; 0x05012b03; 0x00000000;
    0x01472503; 0x01200b13; 0x09012b03; 0x00000000; 0x01472583; 0x01300b13; 0x0d012b03; 0x00000000;
    0x01472603; 0x01400b13; 0x01412b03; 0x00000000; 0x01472683; 0x01500b13; 0x05412b03; 0x00000000;
    0x01472703; 0x01600b13; 0x09412b03; 0x00000000; 0x01472783; 0x01700b13; 0x0d412b03; 0x00000000;
    0x05472403; 0x01800b13; 0x01812b03; 0x00000000; 0x05472483; 0x01900b13; 0x05812b03; 0x00000000;
    0x05472503; 0x01a00b13; 0x09812b03; 0x00000000; 0x05472583; 0x01b00b13; 0x0d812b03; 0x00000000;
    0x05472603; 0x01c00b13; 0x01c12b03; 0x00000000; 0x05472683; 0x01d00b13; 0x05c12b03; 0x00000000;
    0x05472703; 0x01e00b13; 0x09c12b03; 0x00000000; 0x05472783; 0x01f00b13; 0x0dc12b03; 0x00000000;
    0x0107a403; 0x00000b93; 0x00012b83; 0x00000000; 0x0107a483; 0x00100b93; 0x04012b83; 0x00000000;
    0x0107a503; 0x00200b93; 0x08012b83; 0x00000000; 0x0107a583; 0x00300b93; 0x0c012b83; 0x00000000;
    0x0107a603; 0x00400b93; 0x00412b83; 0x00000000; 0x0107a683; 0x00500b93; 0x04412b83; 0x00000000;
    0x0107a703; 0x00600b93; 0x08412b83; 0x00000000; 0x0107a783; 0x00700b93; 0x0c412b83; 0x00000000;
    0x0507a403; 0x00800b93; 0x00812b83; 0x00000000; 0x0507a483; 0x00900b93; 0x04812b83; 0x00000000;
    0x0507a503; 0x00a00b93; 0x08812b83; 0x00000000; 0x0507a583; 0x00b00b93; 0x0c812b83; 0x00000000;
    0x0507a603; 0x00c00b93; 0x00c12b83; 0x00000000; 0x0507a683; 0x00d00b93; 0x04c12b83; 0x00000000;
    0x0507a703; 0x00e00b93; 0x08c12b83; 0x00000000; 0x0507a783; 0x00f00b93; 0x0cc12b83; 0x00000000;
    0x0147a403; 0x01000b93; 0x01012b83; 0x00000000; 0x0147a483; 0x01100b93; 0x05012b83; 0x00000000;
    0x0147a503; 0x01200b93; 0x09012b83; 0x00000000; 0x0147a583; 0x01300b93; 0x0d012b83; 0x00000000;
    0x0147a603; 0x01400b93; 0x01412b83; 0x00000000; 0x0147a683; 0x01500b93; 0x05412b83; 0x00000000;
    0x0147a703; 0x01600b93; 0x09412b83; 0x00000000; 0x0147a783; 0x01700b93; 0x0d412b83; 0x00000000;
    0x0547a403; 0x01800b93; 0x01812b83; 0x00000000; 0x0547a483; 0x01900b93; 0x05812b83; 0x00000000;
    0x0547a503; 0x01a00b93; 0x09812b83; 0x00000000; 0x0547a583; 0x01b00b93; 0x0d812b83; 0x00000000;
    0x0547a603; 0x01c00b93; 0x01c12b83; 0x00000000; 0x0547a683; 0x01d00b93; 0x05c12b83; 0x00000000;
    0x0547a703; 0x01e00b93; 0x09c12b83; 0x00000000; 0x0547a783; 0x01f00b93; 0x0dc12b83; 0x00000000
].

(** parcels 0x4c00 to 0x4fff *)
Definition RVC64_EXPANDED_19 : list Z := [
    0x01842403; 0x00000c13; 0x00012c03; 0x00000000; 0x01842483; 0x00100c13; 0x04012c03; 0x00000000;
    0x01842503; 0x00200c13; 0x08012c03; 0x00000000; 0x01842583; 0x00300c13; 0x0c012c03; 0x00000000;
    0x01842603; 0x00400c13; 0x00412c03; 0x00000000; 0x01842683; 0x00500c13; 0x04412c03; 0x00000000;
    0x01842703; 0x00600c13; 0x08412c03; 0x00000000; 0x01842783; 0x00700c13; 0x0c412c03; 0x00000000;
    0x05842403; 0x00800c13; 0x00812c03; 0x00000000; 0x05842483; 0x00900c13; 0x04812c03; 0x00000000;
    0x05842503; 0x00a00c13; 0x08812c03; 0x00000000; 0x05842583; 0x00b00c13; 0x0c812c03; 0x00000000;
    0x05842603; 0x00c00c13; 0x00c12c03; 0x00000000; 0x05842683; 0x00d00c13; 0x04c12c03; 0x00000000;
    0x05842703; 0x00e00c13; 0x08c12c03; 0x00000000; 0x05842783; 0x00f00c13; 0x0cc12c03; 0x00000000;
    0x01c42403; 0x01000c13; 0x01012c03; 0x00000000; 0x01c42483; 0x01100c13; 0x05012c03; 0x00000000;
    0x01c42503; 0x01200c13; 0x09012c03; 0x00000000; 0x01c42583; 0x01300c13; 0x0d012c03; 0x00000000;
    0x01c42603; 0x01400c13; 0x01412c03; 0x00000000; 0x01c42683; 0x01500c13; 0x05412c03; 0x00000000;
    0x01c42703; 0x01600c13; 0x09412c03; 0x00000000; 0x01c42783; 0x01700c13; 0x0d412c03; 0x00000000;
    0x05c42403; 0x01800c13; 0x01812c03; 0x00000000; 0x05c42483; 0x01900c13; 0x05812c03; 0x00000000;
    0x05c42503; 0x01a00c13; 0x09812c03; 0x00000000; 0x05c42583; 0x01b00c13; 0x0d812c03; 0x00000000;
    0x05c42603; 0x01c00c13; 0x01c12c03; 0x00000000; 0x05c42683; 0x01d00c13; 0x05c12c03; 0x00000000;
    0x05c42703; 0x01e00c13; 0x09c12c03; 0x00000000; 0x05c42783; 0x01f00c13; 0x0dc12c03; 0x00000000;
    0x0184a403; 0x00000c93; 0x00012c83; 0x00000000; 0x0184a483; 0x00100c93; 0x04012c83; 0x00000000;
    0x0184a503; 0x00200c93; 0x08012c83; 0x00000000; 0x0184a583; 0x00300c93; 0x0c012c83; 0x00000000;
    0x0184a603; 0x00400c93; 0x00412c83; 0x00000000; 0x0184a683; 0x00500c93; 0x04412c83; 0x00000000;
    0x0184a703; 0x00600c93; 0x08412c83; 0x00000000; 0x0184a783; 0x00700c93; 0x0c412c83; 0x00000000;
    0x0584a403; 0x00800c93; 0x00812c83; 0x00000000; 0x0584a483; 0x00900c93; 0x04812c83; 0x00000000;
    0x0584a503; 0x00a00c93; 0x08812c83; 0x00000000; 0x0584a583; 0x00b00c93; 0x0c812c83; 0x00000000;
    0x0584a603; 0x00c00c93; 0x00c12c83; 0x00000000; 0x0584a683; 0x00d00c93; 0x04c12c83; 0x00000000;
    0x0584a703; 0x00e00c93; 0x08c12c83; 0x00000000; 0x0584a783; 0x00f00c93; 0x0cc12c83; 0x00000000;
    0x01c4a403; 0x01000c93; 0x01012c83; 0x00000000; 0x01c4a483; 0x01100c93; 0x05012c83; 0x00000000;
    0x01c4a503; 0x01200c93; 0x09012c83; 0x00000000; 0x01c4a583; 0x01300c93; 0x0d012c83; 0x00000000;
    0x01c4a603; 0x01400c93; 0x01412c83; 0x00000000; 0x01c4a683; 0x01500c93; 0x05412c83; 0x00000000;
    0x01c4a703; 0x01600c93; 0x09412c83; 0x00000000; 0x01c4a783; 0x01700c93; 0x0d412c83; 0x00000000;
    0x05c4a403; 0x01800c93; 0x01812c83; 0x00000000; 0x05c4a483; 0x01900c93; 0x05812c83; 0x00000000;
    0x05c4a503; 0x01a00c93; 0x09812c83; 0x00000000; 0x05c4a583; 0x01b00c93; 0x0d812c83; 0x00000000;
    0x05c4a603; 0x01c00c93; 0x01c12c83; 0x00000000; 0x05c4a683; 0x01d00c93; 0x05c12c83; 0x00000000;
    0x05c4a703; 0x01e00c93; 0x09c12c83; 0x00000000; 0x05c4a783; 0x01f00c93; 0x0dc12c83; 0x00000000;
    0x01852403; 0x00000d13; 0x00012d03; 0x00000000; 0x01852483; 0x00100d13; 0x04012d03; 0x00000000;
    0x01852503; 0x00200d13; 0x08012d03; 0x00000000; 0x01852583; 0x00300d13; 0x0c012d03; 0x00000000;
    0x01852603; 0x00400d13; 0x00412d03; 0x00000000; 0x01852683; 0x00500d13; 0x04412d03; 0x00000000;
    0x01852703; 0x00600d13; 0x08412d03; 0x00000000; 0x01852783; 0x00700d13; 0x0c412d03; 0x00000000;
    0x05852403; 0x00800d13; 0x00812d03; 0x00000000; 0x05852483; 0x00900d13; 0x04812d03; 0x00000000;
    0x05852503; 0x00a00d13; 0x08812d03; 0x00000000; 0x05852583; 0x00b00d13; 0x0c812d03; 0x00000000;
    0x05852603; 0x00c00d13; 0x00c12d03; 0x00000000; 0x05852683; 0x00d00d13; 0x04c12d03; 0x00000000;
    0x05852703; 0x00e00d13; 0x08c12d03; 0x00000000; 0x05852783; 0x00f00d13; 0x0cc12d03; 0x00000000;
    0x01c52403; 0x01000d13; 0x01012d03; 0x00000000; 0x01c52483; 0x01100d13; 0x05012d03; 0x00000000;
    0x01c52503; 0x01200d13; 0x09012d03; 0x00000000; 0x01c52583; 0x01300d13; 0x0d012d03; 0x00000000;
    0x01c52603; 0x01400d13; 0x01412d03; 0x00000000; 0x01c52683; 0x01500d13; 0x05412d03; 0x00000000;
    0x01c52703; 0x01600d13; 0x09412d03; 0x00000000; 0x01c52783; 0x01700d13; 0x0d412d03; 0x00000000;
    0x05c52403; 0x01800d13; 0x01812d03; 0x00000000; 0x05c52483; 0x01900d13; 0x05812d03; 0x00000000;
    0x05c52503; 0x01a00d13; 0x09812d03; 0x00000000; 0x05c52583; 0x01b00d13; 0x0d812d03; 0x00000000;
    0x05c52603; 0x01c00d13; 0x01c12d03; 0x00000000; 0x05c52683; 0x01d00d13; 0x05c12d03; 0x00000000;
    0x05c52703; 0x01e00d13; 0x09c12d03; 0x00000000; 0x05c52783; 0x01f00d13; 0x0dc12d03; 0x00000000;
    0x0185a403; 0x00000d93; 0x00012d83; 0x00000000; 0x0185a483; 0x00100d93; 0x04012d83; 0x00000000;
    0x0185a503; 0x00200d93; 0x08012d83; 0x00000000; 0x0185a583; 0x00300d93; 0x0c012d83; 0x00000000;
    0x0185a603; 0x00400d93; 0x00412d83; 0x00000000; 0x0185a683; 0x00500d93; 0x04412d83; 0x00000000;
    0x0185a703; 0x00600d93; 0x08412d83; 0x00000000; 0x0185a783; 0x00700d93; 0x0c412d83; 0x00000000;
    0x0585a403; 0x00800d93; 0x00812d83; 0x00000000; 0x0585a483; 0x00900d93; 0x04812d83; 0x00000000;
    0x0585a503; 0x00a00d93; 0x08812d83; 0x00000000; 0x0585a583; 0x00b00d93; 0x0c812d83; 0x00000000;
    0x0585a603; 0x00c00d93; 0x00c12d83; 0x00000000; 0x0585a683; 0x00d00d93; 0x04c12d83; 0x00000000;
    0x0585a703; 0x00e00d93; 0x08c12d83; 0x00000000; 0x0585a783; 0x00f00d93; 0x0cc12d83; 0x00000000;
    0x01c5a403; 0x01000d93; 0x01012d83; 0x00000000; 0x01c5a483; 0x01100d93; 0x05012d83; 0x00000000;
    0x01c5a503; 0x01200d93; 0x09012d83; 0x00000000; 0x01c5a583; 0x01300d93; 0x0d012d83; 0x00000000;
    0x01c5a603; 0x01400d93; 0x01412d83; 0x00000000; 0x01c5a683; 0x01500d93; 0x05412d83; 0x00000000;
    0x01c5a703; 0x01600d93; 0x09412d83; 0x00000000; 0x01c5a783; 0x01700d93; 0x0d412d83; 0x00000000;
    0x05c5a403; 0x01800d93; 0x01812d83; 0x00000000; 0x05c5a483; 0x01900d93; 0x05812d83; 0x00000000;
    0x05c5a503; 0x01a00d93; 0x09812d83; 0x00000000; 0x05c5a583; 0x01b00d93; 0x0d812d83; 0x00000000;
    0x05c5a603; 0x01c00d93; 0x01c12d83; 0x00000000; 0x05c5a683; 0x01d00d93; 0x05c12d83; 0x00000000;
    0x05c5a703; 0x01e00d93; 0x09c12d83; 0x00000000; 0x05c5a783; 0x01f00d93; 0x0dc12d83; 0x00000000;
    0x01862403; 0x00000e13; 0x00012e03; 0x00000000; 0x01862483; 0x00100e13; 0x04012e03; 0x00000000;
    0x01862503; 0x00200e13; 0x08012e03; 0x00000000; 0x01862583; 0x00300e13; 0x0c012e03; 0x00000000;
    0x01862603; 0x00400e13; 0x00412e03; 0x00000000; 0x01862683; 0x00500e13; 0x04412e03; 0x00000000;
    0x01862703; 0x00600e13; 0x08412e03; 0x00000000; 0x01862783; 0x00700e13; 0x0c412e03; 0x00000000;
    0x05862403; 0x00800e13; 0x00812e03; 0x00000000; 0x05862483; 0x00900e13; 0x04812e03; 0x00000000;
    0x05862503; 0x00a00e13; 0x08812e03; 0x00000000; 0x05862583; 0x00b00e13; 0x0c812e03; 0x00000000;
    0x05862603; 0x00c00e13; 0x00c12e03; 0x00000000; 0x05862683; 0x00d00e13; 0x04c12e03; 0x00000000;
    0x05862703; 0x00e00e13; 0x08c12e03; 0x00000000; 0x05862783; 0x00f00e13; 0x0cc12e03; 0x00000000;
    0x01c62403; 0x01000e13; 0x01012e03; 0x00000000; 0x01c62483; 0x01100e13; 0x05012e03; 0x00000000;
    0x01c62503; 0x01200e13; 0x09012e03; 0x00000000; 0x01c62583; 0x01300e13; 0x0d012e03; 0x00000000;
    0x01c62603; 0x01400e13; 0x01412e03; 0x00000000; 0x01c62683; 0x01500e13; 0x05412e03; 0x00000000;
    0x01c62703; 0x01600e13; 0x09412e03; 0x00000000; 0x01c62783; 0x01700e13; 0x0d412e03; 0x00000000;
    0x05c62403; 0x01800e13; 0x01812e03; 0x00000000; 0x05c62483; 0x01900e13; 0x05812e03; 0x00000000;
    0x05c62503; 0x01a00e13; 0x09812e03; 0x00000000; 0x05c62583; 0x01b00e13; 0x0d812e03; 0x00000000;
    0x05c62603; 0x01c00e13; 0x01c12e03; 0x00000000; 0x05c62683; 0x01d00e13; 0x05c12e03; 0x00000000;
    0x05c62703; 0x01e00e13; 0x09c12e03; 0x00000000; 0x05c62783; 0x01f00e13; 0x0dc12e03; 0x00000000;
    0x0186a403; 0x00000e93; 0x00012e83; 0x00000000; 0x0186a483; 0x00100e93; 0x04012e83; 0x00000000;
    0x0186a503; 0x00200e93; 0x08012e83; 0x00000000; 0x0186a583; 0x00300e93; 0x0c012e83; 0x00000000;
    0x0186a603; 0x00400e93; 0x00412e83; 0x00000000; 0x0186a683; 0x00500e93; 0x04412e83; 0x00000000;
    0x0186a703; 0x00600e93; 0x08412e83; 0x00000000; 0x0186a783; 0x00700e93; 0x0c412e83; 0x00000000;
    0x0586a403; 0x00800e93; 0x00812e83; 0x00000000; 0x0586a483; 0x00900e93; 0x04812e83; 0x00000000;
    0x0586a503; 0x00a00e93; 0x08812e83; 0x00000000; 0x0586a583; 0x00b00e93; 0x0c812e83; 0x00000000;
    0x0586a603; 0x00c00e93; 0x00c12e83; 0x00000000; 0x0586a683; 0x00d00e93; 0x04c12e83; 0x00000000;
    0x0586a703; 0x00e00e93; 0x08c12e83; 0x00000000; 0x0586a783; 0x00f00e93; 0x0cc12e83; 0x00000000;
    0x01c6a403; 0x01000e93; 0x01012e83; 0x00000000; 0x01c6a483; 0x01100e93; 0x05012e83; 0x00000000;
    0x01c6a503; 0x01200e93; 0x09012e83; 0x00000000; 0x01c6a583; 0x01300e93; 0x0d012e83; 0x00000000;
    0x01c6a603; 0x01400e93; 0x01412e83; 0x00000000; 0x01c6a683; 0x01500e93; 0x05412e83; 0x00000000;
    0x01c6a703; 0x01600e93; 0x09412e83; 0x00000000; 0x01c6a783; 0x01700e93; 0x0d412e83; 0x00000000;
    0x05c6a403; 0x01800e93; 0x01812e83; 0x00000000; 0x05c6a483; 0x01900e93; 0x05812e83; 0x00000000;
    0x05c6a503; 0x01a00e93; 0x09812e83; 0x00000000; 0x05c6a583; 0x01b00e93; 0x0d812e83; 0x00000000;
    0x05c6a603; 0x01c00e93; 0x01c12e83; 0x00000000; 0x05c6a683; 0x01d00e93; 0x05c12e83; 0x00000000;
    0x05c6a703; 0x01e00e93; 0x09c12e83; 0x00000000; 0x05c6a783; 0x01f00e93; 0x0dc12e83; 0x00000000;
    0x01872403; 0x00000f13; 0x00012f03; 0x00000000; 0x01872483; 0x00100f13; 0x04012f03; 0x00000000;
    0x01872503; 0x00200f13; 0x08012f03; 0x00000000; 0x01872583; 0x00300f13; 0x0c012f03; 0x00000000;
    0x01872603; 0x00400f13; 0x00412f03; 0x00000000; 0x01872683; 0x00500f13; 0x04412f03; 0x00000000;
    0x01872703; 0x00600f13; 0x08412f03; 0x00000000; 0x01872783; 0x00700f13; 0x0c412f03; 0x00000000;
    0x05872403; 0x00800f13; 0x00812f03; 0x00000000; 0x05872483; 0x00900f13; 0x04812f03; 0x00000000;
    0x05872503; 0x00a00f13; 0x08812f03; 0x00000000; 0x05872583; 0x00b00f13; 0x0c812f03; 0x00000000;
    0x05872603; 0x00c00f13; 0x00c12f03; 0x00000000; 0x05872683; 0x00d00f13; 0x04c12f03; 0x00000000;
    0x05872703; 0x00e00f13; 0x08c12f03; 0x00000000; 0x05872783; 0x00f00f13; 0x0cc12f03; 0x00000000;
    0x01c72403; 0x01000f13; 0x01012f03; 0x00000000; 0x01c72483; 0x01100f13; 0x05012f03; 0x00000000;
    0x01c72503; 0x01200f13; 0x09012f03; 0x00000000; 0x01c72583; 0x01300f13; 0x0d012f03; 0x00000000;
    0x01c72603; 0x01400f13; 0x01412f03; 0x00000000; 0x01c72683; 0x01500f13; 0x05412f03; 0x00000000;
    0x01c72703; 0x01600f13; 0x09412f03; 0x00000000; 0x01c72783; 0x01700f13; 0x0d412f03; 0x00000000;
    0x05c72403; 0x01800f13; 0x01812f03; 0x00000000; 0x05c72483; 0x01900f13; 0x05812f03; 0x00000000;
    0x05c72503; 0x01a00f13; 0x09812f03; 0x00000000; 0x05c72583; 0x01b00f13; 0x0d812f03; 0x00000000;
    0x05c72603; 0x01c00f13; 0x01c12f03; 0x00000000; 0x05c72683; 0x01d00f13; 0x05c12f03; 0x00000000;
    0x05c72703; 0x01e00f13; 0x09c12f03; 0x00000000; 0x05c72783; 0x01f00f13; 0x0dc12f03; 0x00000000;
    0x0187a403; 0x00000f93; 0x00012f83; 0x00000000; 0x0187a483; 0x00100f93; 0x04012f83; 0x00000000;
    0x0187a503; 0x00200f93; 0x08012f83; 0x00000000; 0x0187a583; 0x00300f93; 0x0c012f83; 0x00000000;
    0x0187a603; 0x00400f93; 0x00412f83; 0x00000000; 0x0187a683; 0x00500f93; 0x04412f83; 0x00000000;
    0x0187a703; 0x00600f93; 0x08412f83; 0x00000000; 0x0187a783; 0x00700f93; 0x0c412f83; 0x00000000;
    0x0587a403; 0x00800f93; 0x00812f83; 0x00000000; 0x0587a483; 0x00900f93; 0x04812f83; 0x00000000;
    0x0587a503; 0x00a00f93; 0x08812f83; 0x00000000; 0x0587a583; 0x00b00f93; 0x0c812f83; 0x00000000;
    0x0587a603; 0x00c00f93; 0x00c12f83; 0x00000000; 0x0587a683; 0x00d00f93; 0x04c12f83; 0x00000000;
    0x0587a703; 0x00e00f93; 0x08c12f83; 0x00000000; 0x0587a783; 0x00f00f93; 0x0cc12f83; 0x00000000;
    0x01c7a403; 0x01000f93; 0x01012f83; 0x00000000; 0x01c7a483; 0x01100f93; 0x05012f83; 0x00000000;
    0x01c7a503; 0x01200f93; 0x09012f83; 0x00000000; 0x01c7a583; 0x01300f93; 0x0d012f83; 0x00000000;
    0x01c7a603; 0x01400f93; 0x01412f83; 0x00000000; 0x01c7a683; 0x01500f93; 0x05412f83; 0x00000000;
    0x01c7a703; 0x01600f93; 0x09412f83; 0x00000000; 0x01c7a783; 0x01700f93; 0x0d412f83; 0x00000000;
    0x05c7a403; 0x01800f93; 0x01812f83; 0x00000000; 0x05c7a483; 0x01900f93; 0x05812f83; 0x00000000;
    0x05c7a503; 0x01a00f93; 0x09812f83; 0x00000000; 0x05c7a583; 0x01b00f93; 0x0d812f83; 0x00000000;
    0x05c7a603; 0x01c00f93; 0x01c12f83; 0x00000000; 0x05c7a683; 0x01d00f93; 0x05c12f83; 0x00000000;
    0x05c7a703; 0x01e00f93; 0x09c12f83; 0x00000000; 0x05c7a783; 0x01f00f93; 0x0dc12f83; 0x00000000
].

(** parcels 0x5000 to 0x53ff *)
Definition RVC64_EXPANDED_20 : list Z := [
    0x02042403; 0xfe000013; 0x00000000; 0x00000000; 0x02042483; 0xfe100013; 0x00000000; 0x00000000;
    0x02042503; 0xfe200013; 0x00000000; 0x00000000; 0x02042583; 0xfe300013; 0x00000000; 0x00000000;
    0x02042603; 0xfe400013; 0x00000000; 0x00000000; 0x02042683; 0xfe500013; 0x00000000; 0x00000000;
    0x02042703; 0xfe600013; 0x00000000; 0x00000000; 0x02042783; 0xfe700013; 0x00000000; 0x00000000;
    0x06042403; 0xfe800013; 0x00000000; 0x00000000; 0x06042483; 0xfe900013; 0x00000000; 0x00000000;
    0x06042503; 0xfea00013; 0x00000000; 0x00000000; 0x06042583; 0xfeb00013; 0x00000000; 0x00000000;
    0x06042603; 0xfec00013; 0x00000000; 0x00000000; 0x06042683; 0xfed00013; 0x00000000; 0x00000000;
    0x06042703; 0xfee00013; 0x00000000; 0x00000000; 0x06042783; 0xfef00013; 0x00000000; 0x00000000;
    0x02442403; 0xff000013; 0x00000000; 0x00000000; 0x02442483; 0xff100013; 0x00000000; 0x00000000;
    0x02442503; 0xff200013; 0x00000000; 0x00000000; 0x02442583; 0xff300013; 0x00000000; 0x00000000;
    0x02442603; 0xff400013; 0x00000000; 0x00000000; 0x02442683; 0xff500013; 0x00000000; 0x00000000;
    0x02442703; 0xff600013; 0x00000000; 0x00000000; 0x02442783; 0xff700013; 0x00000000; 0x00000000;
    0x06442403; 0xff800013; 0x00000000; 0x00000000; 0x06442483; 0xff900013; 0x00000000; 0x00000000;
    0x06442503; 0xffa00013; 0x00000000; 0x00000000; 0x06442583; 0xffb00013; 0x00000000; 0x00000000;
    0x06442603; 0xffc00013; 0x00000000; 0x00000000; 0x06442683; 0xffd00013; 0x00000000; 0x00000000;
    0x06442703; 0xffe00013; 0x00000000; 0x00000000; 0x06442783; 0xfff00013; 0x00000000; 0x00000000;
    0x0204a403; 0xfe000093; 0x02012083; 0x00000000; 0x0204a483; 0xfe100093; 0x06012083; 0x00000000;
    0x0204a503; 0xfe200093; 0x0a012083; 0x00000000; 0x0204a583; 0xfe300093; 0x0e012083; 0x00000000;
    0x0204a603; 0xfe400093; 0x02412083; 0x00000000; 0x0204a683; 0xfe500093; 0x06412083; 0x00000000;
    0x0204a703; 0xfe600093; 0x0a412083; 0x00000000; 0x0204a783; 0xfe700093; 0x0e412083; 0x00000000;
    0x0604a403; 0xfe800093; 0x02812083; 0x00000000; 0x0604a483; 0xfe900093; 0x06812083; 0x00000000;
    0x0604a503; 0xfea00093; 0x0a812083; 0x00000000; 0x0604a583; 0xfeb00093; 0x0e812083; 0x00000000;
    0x0604a603; 0xfec00093; 0x02c12083; 0x00000000; 0x0604a683; 0xfed00093; 0x06c12083; 0x00000000;
    0x0604a703; 0xfee00093; 0x0ac12083; 0x00000000; 0x0604a783; 0xfef00093; 0x0ec12083; 0x00000000;
    0x0244a403; 0xff000093; 0x03012083; 0x00000000; 0x0244a483; 0xff100093; 0x07012083; 0x00000000;
    0x0244a503; 0xff200093; 0x0b012083; 0x00000000; 0x0244a583; 0xff300093; 0x0f012083; 0x00000000;
    0x0244a603; 0xff400093; 0x03412083; 0x00000000; 0x0244a683; 0xff500093; 0x07412083; 0x00000000;
    0x0244a703; 0xff600093; 0x0b412083; 0x00000000; 0x0244a783; 0xff700093; 0x0f412083; 0x00000000;
    0x0644a403; 0xff800093; 0x03812083; 0x00000000; 0x0644a483; 0xff900093; 0x07812083; 0x00000000;
    0x0644a503; 0xffa00093; 0x0b812083; 0x00000000; 0x0644a583; 0xffb00093; 0x0f812083; 0x00000000;
    0x0644a603; 0xffc00093; 0x03c12083; 0x00000000; 0x0644a683; 0xffd00093; 0x07c12083; 0x00000000;
    0x0644a703; 0xffe00093; 0x0bc12083; 0x00000000; 0x0644a783; 0xfff00093; 0x0fc12083; 0x00000000;
    0x02052403; 0xfe000113; 0x02012103; 0x00000000; 0x02052483; 0xfe100113; 0x06012103; 0x00000000;
    0x02052503; 0xfe200113; 0x0a012103; 0x00000000; 0x02052583; 0xfe300113; 0x0e012103; 0x00000000;
    0x02052603; 0xfe400113; 0x02412103; 0x00000000; 0x02052683; 0xfe500113; 0x06412103; 0x00000000;
    0x02052703; 0xfe600113; 0x0a412103; 0x00000000; 0x02052783; 0xfe700113; 0x0e412103; 0x00000000;
    0x06052403; 0xfe800113; 0x02812103; 0x00000000; 0x06052483; 0xfe900113; 0x06812103; 0x00000000;
    0x06052503; 0xfea00113; 0x0a812103; 0x00000000; 0x06052583; 0xfeb00113; 0x0e812103; 0x00000000;
    0x06052603; 0xfec00113; 0x02c12103; 0x00000000; 0x06052683; 0xfed00113; 0x06c12103; 0x00000000;
    0x06052703; 0xfee00113; 0x0ac12103; 0x00000000; 0x06052783; 0xfef00113; 0x0ec12103; 0x00000000;
    0x02452403; 0xff000113; 0x03012103; 0x00000000; 0x02452483; 0xff100113; 0x07012103; 0x00000000;
    0x02452503; 0xff200113; 0x0b012103; 0x00000000; 0x02452583; 0xff300113; 0x0f012103; 0x00000000;
    0x02452603; 0xff400113; 0x03412103; 0x00000000; 0x02452683; 0xff500113; 0x07412103; 0x00000000;
    0x02452703; 0xff600113; 0x0b412103; 0x00000000; 0x02452783; 0xff700113; 0x0f412103; 0x00000000;
    0x06452403; 0xff800113; 0x03812103; 0x00000000; 0x06452483; 0xff900113; 0x07812103; 0x00000000;
    0x06452503; 0xffa00113; 0x0b812103; 0x00000000; 0x06452583; 0xffb00113; 0x0f812103; 0x00000000;
    0x06452603; 0xffc00113; 0x03c12103; 0x00000000; 0x06452683; 0xffd00113; 0x07c12103; 0x00000000;
    0x06452703; 0xffe00113; 0x0bc12103; 0x00000000; 0x06452783; 0xfff00113; 0x0fc12103; 0x00000000;
    0x0205a403; 0xfe000193; 0x02012183; 0x00000000; 0x0205a483; 0xfe100193; 0x06012183; 0x00000000;
    0x0205a503; 0xfe200193; 0x0a012183; 0x00000000; 0x0205a583; 0xfe300193; 0x0e012183; 0x00000000;
    0x0205a603; 0xfe400193; 0x02412183; 0x00000000; 0x0205a683; 0xfe500193; 0x06412183; 0x00000000;
    0x0205a703; 0xfe600193; 0x0a412183; 0x00000000; 0x0205a783; 0xfe700193; 0x0e412183; 0x00000000;
    0x0605a403; 0xfe800193; 0x02812183; 0x00000000; 0x0605a483; 0xfe900193; 0x06812183; 0x00000000;
    0x0605a503; 0xfea00193; 0x0a812183; 0x00000000; 0x0605a583; 0xfeb00193; 0x0e812183; 0x00000000;
    0x0605a603; 0xfec00193; 0x02c12183; 0x00000000; 0x0605a683; 0xfed00193; 0x06c12183; 0x00000000;
    0x0605a703; 0xfee00193; 0x0ac12183; 0x00000000; 0x0605a783; 0xfef00193; 0x0ec12183; 0x00000000;
    0x0245a403; 0xff000193; 0x03012183; 0x00000000; 0x0245a483; 0xff100193; 0x07012183; 0x00000000;
    0x0245a503; 0xff200193; 0x0b012183; 0x00000000; 0x0245a583; 0xff300193; 0x0f012183; 0x00000000;
    0x0245a603; 0xff400193; 0x03412183; 0x00000000; 0x0245a683; 0xff500193; 0x07412183; 0x00000000;
    0x0245a703; 0xff600193; 0x0b412183; 0x00000000; 0x0245a783; 0xff700193; 0x0f412183; 0x00000000;
    0x0645a403; 0xff800193; 0x03812183; 0x00000000; 0x0645a483; 0xff900193; 0x07812183; 0x00000000;
    0x0645a503; 0xffa00193; 0x0b812183; 0x00000000; 0x0645a583; 0xffb00193; 0x0f812183; 0x00000000;
    0x0645a603; 0xffc00193; 0x03c12183; 0x00000000; 0x0645a683; 0xffd00193; 0x07c12183; 0x00000000;
    0x0645a703; 0xffe00193; 0x0bc12183; 0x00000000; 0x0645a783; 0xfff00193; 0x0fc12183; 0x00000000;
    0x02062403; 0xfe000213; 0x02012203; 0x00000000; 0x02062483; 0xfe100213; 0x06012203; 0x00000000;
    0x02062503; 0xfe200213; 0x0a012203; 0x00000000; 0x02062583; 0xfe300213; 0x0e012203; 0x00000000;
    0x02062603; 0xfe400213; 0x02412203; 0x00000000; 0x02062683; 0xfe500213; 0x06412203; 0x00000000;
    0x02062703; 0xfe600213; 0x0a412203; 0x00000000; 0x02062783; 0xfe700213; 0x0e412203; 0x00000000;
    0x06062403; 0xfe800213; 0x02812203; 0x00000000; 0x06062483; 0xfe900213; 0x06812203; 0x00000000;
    0x06062503; 0xfea00213; 0x0a812203; 0x00000000; 0x06062583; 0xfeb00213; 0x0e812203; 0x00000000;
    0x06062603; 0xfec00213; 0x02c12203; 0x00000000; 0x06062683; 0xfed00213; 0x06c12203; 0x00000000;
    0x06062703; 0xfee00213; 0x0ac12203; 0x00000000; 0x06062783; 0xfef00213; 0x0ec12203; 0x00000000;
    0x02462403; 0xff000213; 0x03012203; 0x00000000; 0x02462483; 0xff100213; 0x07012203; 0x00000000;
    0x02462503; 0xff200213; 0x0b012203; 0x00000000; 0x02462583; 0xff300213; 0x0f012203; 0x00000000;
    0x02462603; 0xff400213; 0x03412203; 0x00000000; 0x02462683; 0xff500213; 0x07412203; 0x00000000;
    0x02462703; 0xff600213; 0x0b412203; 0x00000000; 0x02462783; 0xff700213; 0x0f412203; 0x00000000;
    0x06462403; 0xff800213; 0x03812203; 0x00000000; 0x06462483; 0xff900213; 0x07812203; 0x00000000;
    0x06462503; 0xffa00213; 0x0b812203; 0x00000000; 0x06462583; 0xffb00213; 0x0f812203; 0x00000000;
    0x06462603; 0xffc00213; 0x03c12203; 0x00000000; 0x06462683; 0xffd00213; 0x07c12203; 0x00000000;
    0x06462703; 0xffe00213; 0x0bc12203; 0x00000000; 0x06462783; 0xfff00213; 0x0fc12203; 0x00000000;
    0x0206a403; 0xfe000293; 0x02012283; 0x00000000; 0x0206a483; 0xfe100293; 0x06012283; 0x00000000;
    0x0206a503; 0xfe200293; 0x0a012283; 0x00000000; 0x0206a583; 0xfe300293; 0x0e012283; 0x00000000;
    0x0206a603; 0xfe400293; 0x02412283; 0x00000000; 0x0206a683; 0xfe500293; 0x06412283; 0x00000000;
    0x0206a703; 0xfe600293; 0x0a412283; 0x00000000; 0x0206a783; 0xfe700293; 0x0e412283; 0x00000000;
    0x0606a403; 0xfe800293; 0x02812283; 0x00000000; 0x0606a483; 0xfe900293; 0x06812283; 0x00000000;
    0x0606a503; 0xfea00293; 0x0a812283; 0x00000000; 0x0606a583; 0xfeb00293; 0x0e812283; 0x00000000;
    0x0606a603; 0xfec00293; 0x02c12283; 0x00000000; 0x0606a683; 0xfed00293; 0x06c12283; 0x00000000;
    0x0606a703; 0xfee00293; 0x0ac12283; 0x00000000; 0x0606a783; 0xfef00293; 0x0ec12283; 0x00000000;
    0x0246a403; 0xff000293; 0x03012283; 0x00000000; 0x0246a483; 0xff100293; 0x07012283; 0x00000000;
    0x0246a503; 0xff200293; 0x0b012283; 0x00000000; 0x0246a583; 0xff300293; 0x0f012283; 0x00000000;
    0x0246a603; 0xff400293; 0x03412283; 0x00000000; 0x0246a683; 0xff500293; 0x07412283; 0x00000000;
    0x0246a703; 0xff600293; 0x0b412283; 0x00000000; 0x0246a783; 0xff700293; 0x0f412283; 0x00000000;
    0x0646a403; 0xff800293; 0x03812283; 0x00000000; 0x0646a483; 0xff900293; 0x07812283; 0x00000000;
    0x0646a503; 0xffa00293; 0x0b812283; 0x00000000; 0x0646a583; 0xffb00293; 0x0f812283; 0x00000000;
    0x0646a603; 0xffc00293; 0x03c12283; 0x00000000; 0x0646a683; 0xffd00293; 0x07c12283; 0x00000000;
    0x0646a703; 0xffe00293; 0x0bc12283; 0x00000000; 0x0646a783; 0xfff00293; 0x0fc12283; 0x00000000;
    0x02072403; 0xfe000313; 0x02012303; 0x00000000; 0x02072483; 0xfe100313; 0x06012303; 0x00000000;
    0x02072503; 0xfe200313; 0x0a012303; 0x00000000; 0x02072583; 0xfe300313; 0x0e012303; 0x00000000;
    0x02072603; 0xfe400313; 0x02412303; 0x00000000; 0x02072683; 0xfe500313; 0x06412303; 0x00000000;
    0x02072703; 0xfe600313; 0x0a412303; 0x00000000; 0x02072783; 0xfe700313; 0x0e412303; 0x00000000;
    0x06072403; 0xfe800313; 0x02812303; 0x00000000; 0x06072483; 0xfe900313; 0x06812303; 0x00000000;
    0x06072503; 0xfea00313; 0x0a812303; 0x00000000; 0x06072583; 0xfeb00313; 0x0e812303; 0x00000000;
    0x06072603; 0xfec00313; 0x02c12303; 0x00000000; 0x06072683; 0xfed00313; 0x06c12303; 0x00000000;
    0x06072703; 0xfee00313; 0x0ac12303; 0x00000000; 0x06072783; 0xfef00313; 0x0ec12303; 0x00000000;
    0x02472403; 0xff000313; 0x03012303; 0x00000000; 0x02472483; 0xff100313; 0x07012303; 0x00000000;
    0x02472503; 0xff200313; 0x0b012303; 0x00000000; 0x02472583; 0xff300313; 0x0f012303; 0x00000000;
    0x02472603; 0xff400313; 0x03412303; 0x00000000; 0x02472683; 0xff500313; 0x07412303; 0x00000000;
    0x02472703; 0xff600313; 0x0b412303; 0x00000000; 0x02472783; 0xff700313; 0x0f412303; 0x00000000;
    0x06472403; 0xff800313; 0x03812303; 0x00000000; 0x06472483; 0xff900313; 0x07812303; 0x00000000;
    0x06472503; 0xffa00313; 0x0b812303; 0x00000000; 0x06472583; 0xffb00313; 0x0f812303; 0x00000000;
    0x06472603; 0xffc00313; 0x03c12303; 0x00000000; 0x06472683; 0xffd00313; 0x07c12303; 0x00000000;
    0x06472703; 0xffe00313; 0x0bc12303; 0x00000000; 0x06472783; 0xfff00313; 0x0fc12303; 0x00000000;
    0x0207a403; 0xfe000393; 0x02012383; 0x00000000; 0x0207a483; 0xfe100393; 0x06012383; 0x00000000;
    0x0207a503; 0xfe200393; 0x0a012383; 0x00000000; 0x0207a583; 0xfe300393; 0x0e012383; 0x00000000;
    0x0207a603; 0xfe400393; 0x02412383; 0x00000000; 0x0207a683; 0xfe500393; 0x06412383; 0x00000000;
    0x0207a703; 0xfe600393; 0x0a412383; 0x00000000; 0x0207a783; 0xfe700393; 0x0e412383; 0x00000000;
    0x0607a403; 0xfe800393; 0x02812383; 0x00000000; 0x0607a483; 0xfe900393; 0x06812383; 0x00000000;
    0x0607a503; 0xfea00393; 0x0a812383; 0x00000000; 0x0607a583; 0xfeb00393; 0x0e812383; 0x00000000;
    0x0607a603; 0xfec00393; 0x02c12383; 0x00000000; 0x0607a683; 0xfed00393; 0x06c12383; 0x00000000;
    0x0607a703; 0xfee00393; 0x0ac12383; 0x00000000; 0x0607a783; 0xfef00393; 0x0ec12383; 0x00000000;
    0x0247a403; 0xff000393; 0x03012383; 0x00000000; 0x0247a483; 0xff100393; 0x07012383; 0x00000000;
    0x0247a503; 0xff200393; 0x0b012383; 0x00000000; 0x0247a583; 0xff300393; 0x0f012383; 0x00000000;
    0x0247a603; 0xff400393; 0x03412383; 0x00000000; 0x0247a683; 0xff500393; 0x07412383; 0x00000000;
    0x0247a703; 0xff600393; 0x0b412383; 0x00000000; 0x0247a783; 0xff700393; 0x0f412383; 0x00000000;
    0x0647a403; 0xff800393; 0x03812383; 0x00000000; 0x0647a483; 0xff900393; 0x07812383; 0x00000000;
    0x0647a503; 0xffa00393; 0x0b812383; 0x00000000; 0x0647a583; 0xffb00393; 0x0f812383; 0x00000000;
    0x0647a603; 0xffc00393; 0x03c12383; 0x00000000; 0x0647a683; 0xffd00393; 0x07c12383; 0x00000000;
    0x0647a703; 0xffe00393; 0x0bc12383; 0x00000000; 0x0647a783; 0xfff00393; 0x0fc12383; 0x00000000
].

(** parcels 0x5400 to 0x57ff *)
Definition RVC64_EXPANDED_21 : list Z := [
    0x02842403; 0xfe000413; 0x02012403; 0x00000000; 0x02842483; 0xfe100413; 0x06012403; 0x00000000;
    0x02842503; 0xfe200413; 0x0a012403; 0x00000000; 0x02842583; 0xfe300413; 0x0e012403; 0x00000000;
    0x02842603; 0xfe400413; 0x02412403; 0x00000000; 0x02842683; 0xfe500413; 0x06412403; 0x00000000;
    0x02842703; 0xfe600413; 0x0a412403; 0x00000000; 0x02842783; 0xfe700413; 0x0e412403; 0x00000000;
    0x06842403; 0xfe800413; 0x02812403; 0x00000000; 0x06842483; 0xfe900413; 0x06812403; 0x00000000;
    0x06842503; 0xfea00413; 0x0a812403; 0x00000000; 0x06842583; 0xfeb00413; 0x0e812403; 0x00000000;
    0x06842603; 0xfec00413; 0x02c12403; 0x00000000; 0x06842683; 0xfed00413; 0x06c12403; 0x00000000;
    0x06842703; 0xfee00413; 0x0ac12403; 0x00000000; 0x06842783; 0xfef00413; 0x0ec12403; 0x00000000;
    0x02c42403; 0xff000413; 0x03012403; 0x00000000; 0x02c42483; 0xff100413; 0x07012403; 0x00000000;
    0x02c42503; 0xff200413; 0x0b012403; 0x00000000; 0x02c42583; 0xff300413; 0x0f012403; 0x00000000;
    0x02c42603; 0xff400413; 0x03412403; 0x00000000; 0x02c42683; 0xff500413; 0x07412403; 0x00000000;
    0x02c42703; 0xff600413; 0x0b412403; 0x00000000; 0x02c42783; 0xff700413; 0x0f412403; 0x00000000;
    0x06c42403; 0xff800413; 0x03812403; 0x00000000; 0x06c42483; 0xff900413; 0x07812403; 0x00000000;
    0x06c42503; 0xffa00413; 0x0b812403; 0x00000000; 0x06c42583; 0xffb00413; 0x0f812403; 0x00000000;
    0x06c42603; 0xffc00413; 0x03c12403; 0x00000000; 0x06c42683; 0xffd00413; 0x07c12403; 0x00000000;
    0x06c42703; 0xffe00413; 0x0bc12403; 0x00000000; 0x06c42783; 0xfff00413; 0x0fc12403; 0x00000000;
    0x0284a403; 0xfe000493; 0x02012483; 0x00000000; 0x0284a483; 0xfe100493; 0x06012483; 0x00000000;
    0x0284a503; 0xfe200493; 0x0a012483; 0x00000000; 0x0284a583; 0xfe300493; 0x0e012483; 0x00000000;
    0x0284a603; 0xfe400493; 0x02412483; 0x00000000; 0x0284a683; 0xfe500493; 0x06412483; 0x00000000;
    0x0284a703; 0xfe600493; 0x0a412483; 0x00000000; 0x0284a783; 0xfe700493; 0x0e412483; 0x00000000;
    0x0684a403; 0xfe800493; 0x02812483; 0x00000000; 0x0684a483; 0xfe900493; 0x06812483; 0x00000000;
    0x0684a503; 0xfea00493; 0x0a812483; 0x00000000; 0x0684a583; 0xfeb00493; 0x0e812483; 0x00000000;
    0x0684a603; 0xfec00493; 0x02c12483; 0x00000000; 0x0684a683; 0xfed00493; 0x06c12483; 0x00000000;
    0x0684a703; 0xfee00493; 0x0ac12483; 0x00000000; 0x0684a783; 0xfef00493; 0x0ec12483; 0x00000000;
    0x02c4a403; 0xff000493; 0x03012483; 0x00000000; 0x02c4a483; 0xff100493; 0x07012483; 0x00000000;
    0x02c4a503; 0xff200493; 0x0b012483; 0x00000000; 0x02c4a583; 0xff300493; 0x0f012483; 0x00000000;
    0x02c4a603; 0xff400493; 0x03412483; 0x00000000; 0x02c4a683; 0xff500493; 0x07412483; 0x00000000;
    0x02c4a703; 0xff600493; 0x0b412483; 0x00000000; 0x02c4a783; 0xff700493; 0x0f412483; 0x00000000;
    0x06c4a403; 0xff800493; 0x03812483; 0x00000000; 0x06c4a483; 0xff900493; 0x07812483; 0x00000000;
    0x06c4a503; 0xffa00493; 0x0b812483; 0x00000000; 0x06c4a583; 0xffb00493; 0x0f812483; 0x00000000;
    0x06c4a603; 0xffc00493; 0x03c12483; 0x00000000; 0x06c4a683; 0xffd00493; 0x07c12483; 0x00000000;
    0x06c4a703; 0xffe00493; 0x0bc12483; 0x00000000; 0x06c4a783; 0xfff00493; 0x0fc12483; 0x00000000;
    0x02852403; 0xfe000513; 0x02012503; 0x00000000; 0x02852483; 0xfe100513; 0x06012503; 0x00000000;
    0x02852503; 0xfe200513; 0x0a012503; 0x00000000; 0x02852583; 0xfe300513; 0x0e012503; 0x00000000;
    0x02852603; 0xfe400513; 0x02412503; 0x00000000; 0x02852683; 0xfe500513; 0x06412503; 0x00000000;
    0x02852703; 0xfe600513; 0x0a412503; 0x00000000; 0x02852783; 0xfe700513; 0x0e412503; 0x00000000;
    0x06852403; 0xfe800513; 0x02812503; 0x00000000; 0x06852483; 0xfe900513; 0x06812503; 0x00000000;
    0x06852503; 0xfea00513; 0x0a812503; 0x00000000; 0x06852583; 0xfeb00513; 0x0e812503; 0x00000000;
    0x06852603; 0xfec00513; 0x02c12503; 0x00000000; 0x06852683; 0xfed00513; 0x06c12503; 0x00000000;
    0x06852703; 0xfee00513; 0x0ac12503; 0x00000000; 0x06852783; 0xfef00513; 0x0ec12503; 0x00000000;
    0x02c52403; 0xff000513; 0x03012503; 0x00000000; 0x02c52483; 0xff100513; 0x07012503; 0x00000000;
    0x02c52503; 0xff200513; 0x0b012503; 0x00000000; 0x02c52583; 0xff300513; 0x0f012503; 0x00000000;
    0x02c52603; 0xff400513; 0x03412503; 0x00000000; 0x02c52683; 0xff500513; 0x07412503; 0x00000000;
    0x02c52703; 0xff600513; 0x0b412503; 0x00000000; 0x02c52783; 0xff700513; 0x0f412503; 0x00000000;
    0x06c52403; 0xff800513; 0x03812503; 0x00000000; 0x06c52483; 0xff900513; 0x07812503; 0x00000000;
    0x06c52503; 0xffa00513; 0x0b812503; 0x00000000; 0x06c52583; 0xffb00513; 0x0f812503; 0x00000000;
    0x06c52603; 0xffc00513; 0x03c12503; 0x00000000; 0x06c52683; 0xffd00513; 0x07c12503; 0x00000000;
    0x06c52703; 0xffe00513; 0x0bc12503; 0x00000000; 0x06c52783; 0xfff00513; 0x0fc12503; 0x00000000;
    0x0285a403; 0xfe000593; 0x02012583; 0x00000000; 0x0285a483; 0xfe100593; 0x06012583; 0x00000000;
    0x0285a503; 0xfe200593; 0x0a012583; 0x00000000; 0x0285a583; 0xfe300593; 0x0e012583; 0x00000000;
    0x0285a603; 0xfe400593; 0x02412583; 0x00000000; 0x0285a683; 0xfe500593; 0x06412583; 0x00000000;
    0x0285a703; 0xfe600593; 0x0a412583; 0x00000000; 0x0285a783; 0xfe700593; 0x0e412583; 0x00000000;
    0x0685a403; 0xfe800593; 0x02812583; 0x00000000; 0x0685a483; 0xfe900593; 0x06812583; 0x00000000;
    0x0685a503; 0xfea00593; 0x0a812583; 0x00000000; 0x0685a583; 0xfeb00593; 0x0e812583; 0x00000000;
    0x0685a603; 0xfec00593; 0x02c12583; 0x00000000; 0x0685a683; 0xfed00593; 0x06c12583; 0x00000000;
    0x0685a703; 0xfee00593; 0x0ac12583; 0x00000000; 0x0685a783; 0xfef00593; 0x0ec12583; 0x00000000;
    0x02c5a403; 0xff000593; 0x03012583; 0x00000000; 0x02c5a483; 0xff100593; 0x07012583; 0x00000000;
    0x02c5a503; 0xff200593; 0x0b012583; 0x00000000; 0x02c5a583; 0xff300593; 0x0f012583; 0x00000000;
    0x02c5a603; 0xff400593; 0x03412583; 0x00000000; 0x02c5a683; 0xff500593; 0x07412583; 0x00000000;
    0x02c5a703; 0xff600593; 0x0b412583; 0x00000000; 0x02c5a783; 0xff700593; 0x0f412583; 0x00000000;
    0x06c5a403; 0xff800593; 0x03812583; 0x00000000; 0x06c5a483; 0xff900593; 0x07812583; 0x00000000;
    0x06c5a503; 0xffa00593; 0x0b812583; 0x00000000; 0x06c5a583; 0xffb00593; 0x0f812583; 0x00000000;
    0x06c5a603; 0xffc00593; 0x03c12583; 0x00000000; 0x06c5a683; 0xffd00593; 0x07c12583; 0x00000000;
    0x06c5a703; 0xffe00593; 0x0bc12583; 0x00000000; 0x06c5a783; 0xfff00593; 0x0fc12583; 0x00000000;
    0x02862403; 0xfe000613; 0x02012603; 0x00000000; 0x02862483; 0xfe100613; 0x06012603; 0x00000000;
    0x02862503; 0xfe200613; 0x0a012603; 0x00000000; 0x02862583; 0xfe300613; 0x0e012603; 0x00000000;
    0x02862603; 0xfe400613; 0x02412603; 0x00000000; 0x02862683; 0xfe500613; 0x06412603; 0x00000000;
    0x02862703; 0xfe600613; 0x0a412603; 0x00000000; 0x02862783; 0xfe700613; 0x0e412603; 0x00000000;
    0x06862403; 0xfe800613; 0x02812603; 0x00000000; 0x06862483; 0xfe900613; 0x06812603; 0x00000000;
    0x06862503; 0xfea00613; 0x0a812603; 0x00000000; 0x06862583; 0xfeb00613; 0x0e812603; 0x00000000;
    0x06862603; 0xfec00613; 0x02c12603; 0x00000000; 0x06862683; 0xfed00613; 0x06c12603; 0x00000000;
    0x06862703; 0xfee00613; 0x0ac12603; 0x00000000; 0x06862783; 0xfef00613; 0x0ec12603; 0x00000000;
    0x02c62403; 0xff000613; 0x03012603; 0x00000000; 0x02c62483; 0xff100613; 0x07012603; 0x00000000;
    0x02c62503; 0xff200613; 0x0b012603; 0x00000000; 0x02c62583; 0xff300613; 0x0f012603; 0x00000000;
    0x02c62603; 0xff400613; 0x03412603; 0x00000000; 0x02c62683; 0xff500613; 0x07412603; 0x00000000;
    0x02c62703; 0xff600613; 0x0b412603; 0x00000000; 0x02c62783; 0xff700613; 0x0f412603; 0x00000000;
    0x06c62403; 0xff800613; 0x03812603; 0x00000000; 0x06c62483; 0xff900613; 0x07812603; 0x00000000;
    0x06c62503; 0xffa00613; 0x0b812603; 0x00000000; 0x06c62583; 0xffb00613; 0x0f812603; 0x00000000;
    0x06c62603; 0xffc00613; 0x03c12603; 0x00000000; 0x06c62683; 0xffd00613; 0x07c12603; 0x00000000;
    0x06c62703; 0xffe00613; 0x0bc12603; 0x00000000; 0x06c62783; 0xfff00613; 0x0fc12603; 0x00000000;
    0x0286a403; 0xfe000693; 0x02012683; 0x00000000; 0x0286a483; 0xfe100693; 0x06012683; 0x00000000;
    0x0286a503; 0xfe200693; 0x0a012683; 0x00000000; 0x0286a583; 0xfe300693; 0x0e012683; 0x00000000;
    0x0286a603; 0xfe400693; 0x02412683; 0x00000000; 0x0286a683; 0xfe500693; 0x06412683; 0x00000000;
    0x0286a703; 0xfe600693; 0x0a412683; 0x00000000; 0x0286a783; 0xfe700693; 0x0e412683; 0x00000000;
    0x0686a403; 0xfe800693; 0x02812683; 0x00000000; 0x0686a483; 0xfe900693; 0x06812683; 0x00000000;
    0x0686a503; 0xfea00693; 0x0a812683; 0x00000000; 0x0686a583; 0xfeb00693; 0x0e812683; 0x00000000;
    0x0686a603; 0xfec00693; 0x02c12683; 0x00000000; 0x0686a683; 0xfed00693; 0x06c12683; 0x00000000;
    0x0686a703; 0xfee00693; 0x0ac12683; 0x00000000; 0x0686a783; 0xfef00693; 0x0ec12683; 0x00000000;
    0x02c6a403; 0xff000693; 0x03012683; 0x00000000; 0x02c6a483; 0xff100693; 0x07012683; 0x00000000;
    0x02c6a503; 0xff200693; 0x0b012683; 0x00000000; 0x02c6a583; 0xff300693; 0x0f012683; 0x00000000;
    0x02c6a603; 0xff400693; 0x03412683; 0x00000000; 0x02c6a683; 0xff500693; 0x07412683; 0x00000000;
    0x02c6a703; 0xff600693; 0x0b412683; 0x00000000; 0x02c6a783; 0xff700693; 0x0f412683; 0x00000000;
    0x06c6a403; 0xff800693; 0x03812683; 0x00000000; 0x06c6a483; 0xff900693; 0x07812683; 0x00000000;
    0x06c6a503; 0xffa00693; 0x0b812683; 0x00000000; 0x06c6a583; 0xffb00693; 0x0f812683; 0x00000000;
    0x06c6a603; 0xffc00693; 0x03c12683; 0x00000000; 0x06c6a683; 0xffd00693; 0x07c12683; 0x00000000;
    0x06c6a703; 0xffe00693; 0x0bc12683; 0x00000000; 0x06c6a783; 0xfff00693; 0x0fc12683; 0x00000000;
    0x02872403; 0xfe000713; 0x02012703; 0x00000000; 0x02872483; 0xfe100713; 0x06012703; 0x00000000;
    0x02872503; 0xfe200713; 0x0a012703; 0x00000000; 0x02872583; 0xfe300713; 0x0e012703; 0x00000000;
    0x02872603; 0xfe400713; 0x02412703; 0x00000000; 0x02872683; 0xfe500713; 0x06412703; 0x00000000;
    0x02872703; 0xfe600713; 0x0a412703; 0x00000000; 0x02872783; 0xfe700713; 0x0e412703; 0x00000000;
    0x06872403; 0xfe800713; 0x02812703; 0x00000000; 0x06872483; 0xfe900713; 0x06812703; 0x00000000;
    0x06872503; 0xfea00713; 0x0a812703; 0x00000000; 0x06872583; 0xfeb00713; 0x0e812703; 0x00000000;
    0x06872603; 0xfec00713; 0x02c12703; 0x00000000; 0x06872683; 0xfed00713; 0x06c12703; 0x00000000;
    0x06872703; 0xfee00713; 0x0ac12703; 0x00000000; 0x06872783; 0xfef00713; 0x0ec12703; 0x00000000;
    0x02c72403; 0xff000713; 0x03012703; 0x00000000; 0x02c72483; 0xff100713; 0x07012703; 0x00000000;
    0x02c72503; 0xff200713; 0x0b012703; 0x00000000; 0x02c72583; 0xff300713; 0x0f012703; 0x00000000;
    0x02c72603; 0xff400713; 0x03412703; 0x00000000; 0x02c72683; 0xff500713; 0x07412703; 0x00000000;
    0x02c72703; 0xff600713; 0x0b412703; 0x00000000; 0x02c72783; 0xff700713; 0x0f412703; 0x00000000;
    0x06c72403; 0xff800713; 0x03812703; 0x00000000; 0x06c72483; 0xff900713; 0x07812703; 0x00000000;
    0x06c72503; 0xffa00713; 0x0b812703; 0x00000000; 0x06c72583; 0xffb00713; 0x0f812703; 0x00000000;
    0x06c72603; 0xffc00713; 0x03c12703; 0x00000000; 0x06c72683; 0xffd00713; 0x07c12703; 0x00000000;
    0x06c72703; 0xffe00713; 0x0bc12703; 0x00000000; 0x06c72783; 0xfff00713; 0x0fc12703; 0x00000000;
    0x0287a403; 0xfe000793; 0x02012783; 0x00000000; 0x0287a483; 0xfe100793; 0x06012783; 0x00000000;
    0x0287a503; 0xfe200793; 0x0a012783; 0x00000000; 0x0287a583; 0xfe300793; 0x0e012783; 0x00000000;
    0x0287a603; 0xfe400793; 0x02412783; 0x00000000; 0x0287a683; 0xfe500793; 0x06412783; 0x00000000;
    0x0287a703; 0xfe600793; 0x0a412783; 0x00000000; 0x0287a783; 0xfe700793; 0x0e412783; 0x00000000;
    0x0687a403; 0xfe800793; 0x02812783; 0x00000000; 0x0687a483; 0xfe900793; 0x06812783; 0x00000000;
    0x0687a503; 0xfea00793; 0x0a812783; 0x00000000; 0x0687a583; 0xfeb00793; 0x0e812783; 0x00000000;
    0x0687a603; 0xfec00793; 0x02c12783; 0x00000000; 0x0687a683; 0xfed00793; 0x06c12783; 0x00000000;
    0x0687a703; 0xfee00793; 0x0ac12783; 0x00000000; 0x0687a783; 0xfef00793; 0x0ec12783; 0x00000000;
    0x02c7a403; 0xff000793; 0x03012783; 0x00000000; 0x02c7a483; 0xff100793; 0x07012783; 0x00000000;
    0x02c7a503; 0xff200793; 0x0b012783; 0x00000000; 0x02c7a583; 0xff300793; 0x0f012783; 0x00000000;
    0x02c7a603; 0xff400793; 0x03412783; 0x00000000; 0x02c7a683; 0xff500793; 0x07412783; 0x00000000;
    0x02c7a703; 0xff600793; 0x0b412783; 0x00000000; 0x02c7a783; 0xff700793; 0x0f412783; 0x00000000;
    0x06c7a403; 0xff800793; 0x03812783; 0x00000000; 0x06c7a483; 0xff900793; 0x07812783; 0x00000000;
    0x06c7a503; 0xffa00793; 0x0b812783; 0x00000000; 0x06c7a583; 0xffb00793; 0x0f812783; 0x00000000;
    0x06c7a603; 0xffc00793; 0x03c12783; 0x00000000; 0x06c7a683; 0xffd00793; 0x07c12783; 0x00000000;
    0x06c7a703; 0xffe00793; 0x0bc12783; 0x00000000; 0x06c7a783; 0xfff00793; 0x0fc12783; 0x00000000
].

(** parcels 0x5800 to 0x5bff *)
Definition RVC64_EXPANDED_22 : list Z := [
    0x03042403; 0xfe000813; 0x02012803; 0x00000000; 0x03042483; 0xfe100813; 0x06012803; 0x00000000;
    0x03042503; 0xfe200813; 0x0a012803; 0x00000000; 0x03042583; 0xfe300813; 0x0e012803; 0x00000000;
    0x03042603; 0xfe400813; 0x02412803; 0x00000000; 0x03042683; 0xfe500813; 0x06412803; 0x00000000;
    0x03042703; 0xfe600813; 0x0a412803; 0x00000000; 0x03042783; 0xfe700813; 0x0e412803; 0x00000000;
    0x07042403; 0xfe800813; 0x02812803; 0x00000000; 0x07042483; 0xfe900813; 0x06812803; 0x00000000;
    0x07042503; 0xfea00813; 0x0a812803; 0x00000000; 0x07042583; 0xfeb00813; 0x0e812803; 0x00000000;
    0x07042603; 0xfec00813; 0x02c12803; 0x00000000; 0x07042683; 0xfed00813; 0x06c12803; 0x00000000;
    0x07042703; 0xfee00813; 0x0ac12803; 0x00000000; 0x07042783; 0xfef00813; 0x0ec12803; 0x00000000;
    0x03442403; 0xff000813; 0x03012803; 0x00000000; 0x03442483; 0xff100813; 0x07012803; 0x00000000;
    0x03442503; 0xff200813; 0x0b012803; 0x00000000; 0x03442583; 0xff300813; 0x0f012803; 0x00000000;
    0x03442603; 0xff400813; 0x03412803; 0x00000000; 0x03442683; 0xff500813; 0x07412803; 0x00000000;
    0x03442703; 0xff600813; 0x0b412803; 0x00000000; 0x03442783; 0xff700813; 0x0f412803; 0x00000000;
    0x07442403; 0xff800813; 0x03812803; 0x00000000; 0x07442483; 0xff900813; 0x07812803; 0x00000000;
    0x07442503; 0xffa00813; 0x0b812803; 0x00000000; 0x07442583; 0xffb00813; 0x0f812803; 0x00000000;
    0x07442603; 0xffc00813; 0x03c12803; 0x00000000; 0x07442683; 0xffd00813; 0x07c12803; 0x00000000;
    0x07442703; 0xffe00813; 0x0bc12803; 0x00000000; 0x07442783; 0xfff00813; 0x0fc12803; 0x00000000;
    0x0304a403; 0xfe000893; 0x02012883; 0x00000000; 0x0304a483; 0xfe100893; 0x06012883; 0x00000000;
    0x0304a503; 0xfe200893; 0x0a012883; 0x00000000; 0x0304a583; 0xfe300893; 0x0e012883; 0x00000000;
    0x0304a603; 0xfe400893; 0x02412883; 0x00000000; 0x0304a683; 0xfe500893; 0x06412883; 0x00000000;
    0x0304a703; 0xfe600893; 0x0a412883; 0x00000000; 0x0304a783; 0xfe700893; 0x0e412883; 0x00000000;
    0x0704a403; 0xfe800893; 0x02812883; 0x00000000; 0x0704a483; 0xfe900893; 0x06812883; 0x00000000;
    0x0704a503; 0xfea00893; 0x0a812883; 0x00000000; 0x0704a583; 0xfeb00893; 0x0e812883; 0x00000000;
    0x0704a603; 0xfec00893; 0x02c12883; 0x00000000; 0x0704a683; 0xfed00893; 0x06c12883; 0x00000000;
    0x0704a703; 0xfee00893; 0x0ac12883; 0x00000000; 0x0704a783; 0xfef00893; 0x0ec12883; 0x00000000;
    0x0344a403; 0xff000893; 0x03012883; 0x00000000; 0x0344a483; 0xff100893; 0x07012883; 0x00000000;
    0x0344a503; 0xff200893; 0x0b012883; 0x00000000; 0x0344a583; 0xff300893; 0x0f012883; 0x00000000;
    0x0344a603; 0xff400893; 0x03412883; 0x00000000; 0x0344a683; 0xff500893; 0x07412883; 0x00000000;
    0x0344a703; 0xff600893; 0x0b412883; 0x00000000; 0x0344a783; 0xff700893; 0x0f412883; 0x00000000;
    0x0744a403; 0xff800893; 0x03812883; 0x00000000; 0x0744a483; 0xff900893; 0x07812883; 0x00000000;
    0x0744a503; 0xffa00893; 0x0b812883; 0x00000000; 0x0744a583; 0xffb00893; 0x0f812883; 0x00000000;
    0x0744a603; 0xffc00893; 0x03c12883; 0x00000000; 0x0744a683; 0xffd00893; 0x07c12883; 0x00000000;
    0x0744a703; 0xffe00893; 0x0bc12883; 0x00000000; 0x0744a783; 0xfff00893; 0x0fc12883; 0x00000000;
    0x03052403; 0xfe000913; 0x02012903; 0x00000000; 0x03052483; 0xfe100913; 0x06012903; 0x00000000;
    0x03052503; 0xfe200913; 0x0a012903; 0x00000000; 0x03052583; 0xfe300913; 0x0e012903; 0x00000000;
    0x03052603; 0xfe400913; 0x02412903; 0x00000000; 0x03052683; 0xfe500913; 0x06412903; 0x00000000;
    0x03052703; 0xfe600913; 0x0a412903; 0x00000000; 0x03052783; 0xfe700913; 0x0e412903; 0x00000000;
    0x07052403; 0xfe800913; 0x02812903; 0x00000000; 0x07052483; 0xfe900913; 0x06812903; 0x00000000;
    0x07052503; 0xfea00913; 0x0a812903; 0x00000000; 0x07052583; 0xfeb00913; 0x0e812903; 0x00000000;
    0x07052603; 0xfec00913; 0x02c12903; 0x00000000; 0x07052683; 0xfed00913; 0x06c12903; 0x00000000;
    0x07052703; 0xfee00913; 0x0ac12903; 0x00000000; 0x07052783; 0xfef00913; 0x0ec12903; 0x00000000;
    0x03452403; 0xff000913; 0x03012903; 0x00000000; 0x03452483; 0xff100913; 0x07012903; 0x00000000;
    0x03452503; 0xff200913; 0x0b012903; 0x00000000; 0x03452583; 0xff300913; 0x0f012903; 0x00000000;
    0x03452603; 0xff400913; 0x03412903; 0x00000000; 0x03452683; 0xff500913; 0x07412903; 0x00000000;
    0x03452703; 0xff600913; 0x0b412903; 0x00000000; 0x03452783; 0xff700913; 0x0f412903; 0x00000000;
    0x07452403; 0xff800913; 0x03812903; 0x00000000; 0x07452483; 0xff900913; 0x07812903; 0x00000000;
    0x07452503; 0xffa00913; 0x0b812903; 0x00000000; 0x07452583; 0xffb00913; 0x0f812903; 0x00000000;
    0x07452603; 0xffc00913; 0x03c12903; 0x00000000; 0x07452683; 0xffd00913; 0x07c12903; 0x00000000;
    0x07452703; 0xffe00913; 0x0bc12903; 0x00000000; 0x07452783; 0xfff00913; 0x0fc12903; 0x00000000;
    0x0305a403; 0xfe000993; 0x02012983; 0x00000000; 0x0305a483; 0xfe100993; 0x06012983; 0x00000000;
    0x0305a503; 0xfe200993; 0x0a012983; 0x00000000; 0x0305a583; 0xfe300993; 0x0e012983; 0x00000000;
    0x0305a603; 0xfe400993; 0x02412983; 0x00000000; 0x0305a683; 0xfe500993; 0x06412983; 0x00000000;
    0x0305a703; 0xfe600993; 0x0a412983; 0x00000000; 0x0305a783; 0xfe700993; 0x0e412983; 0x00000000;
    0x0705a403; 0xfe800993; 0x02812983; 0x00000000; 0x0705a483; 0xfe900993; 0x06812983; 0x00000000;
    0x0705a503; 0xfea00993; 0x0a812983; 0x00000000; 0x0705a583; 0xfeb00993; 0x0e812983; 0x00000000;
    0x0705a603; 0xfec00993; 0x02c12983; 0x00000000; 0x0705a683; 0xfed00993; 0x06c12983; 0x00000000;
    0x0705a703; 0xfee00993; 0x0ac12983; 0x00000000; 0x0705a783; 0xfef00993; 0x0ec12983; 0x00000000;
    0x0345a403; 0xff000993; 0x03012983; 0x00000000; 0x0345a483; 0xff100993; 0x07012983; 0x00000000;
    0x0345a503; 0xff200993; 0x0b012983; 0x00000000; 0x0345a583; 0xff300993; 0x0f012983; 0x00000000;
    0x0345a603; 0xff400993; 0x03412983; 0x00000000; 0x0345a683; 0xff500993; 0x07412983; 0x00000000;
    0x0345a703; 0xff600993; 0x0b412983; 0x00000000; 0x0345a783; 0xff700993; 0x0f412983; 0x00000000;
    0x0745a403; 0xff800993; 0x03812983; 0x00000000; 0x0745a483; 0xff900993; 0x07812983; 0x00000000;
    0x0745a503; 0xffa00993; 0x0b812983; 0x00000000; 0x0745a583; 0xffb00993; 0x0f812983; 0x00000000;
    0x0745a603; 0xffc00993; 0x03c12983; 0x00000000; 0x0745a683; 0xffd00993; 0x07c12983; 0x00000000;
    0x0745a703; 0xffe00993; 0x0bc12983; 0x00000000; 0x0745a783; 0xfff00993; 0x0fc12983; 0x00000000;
    0x03062403; 0xfe000a13; 0x02012a03; 0x00000000; 0x03062483; 0xfe100a13; 0x06012a03; 0x00000000;
    0x03062503; 0xfe200a13; 0x0a012a03; 0x00000000; 0x03062583; 0xfe300a13; 0x0e012a03; 0x00000000;
    0x03062603; 0xfe400a13; 0x02412a03; 0x00000000; 0x03062683; 0xfe500a13; 0x06412a03; 0x00000000;
    0x03062703; 0xfe600a13; 0x0a412a03; 0x00000000; 0x03062783; 0xfe700a13; 0x0e412a03; 0x00000000;
    0x07062403; 0xfe800a13; 0x02812a03; 0x00000000; 0x07062483; 0xfe900a13; 0x06812a03; 0x00000000;
    0x07062503; 0xfea00a13; 0x0a812a03; 0x00000000; 0x07062583; 0xfeb00a13; 0x0e812a03; 0x00000000;
    0x07062603; 0xfec00a13; 0x02c12a03; 0x00000000; 0x07062683; 0xfed00a13; 0x06c12a03; 0x00000000;
    0x07062703; 0xfee00a13; 0x0ac12a03; 0x00000000; 0x07062783; 0xfef00a13; 0x0ec12a03; 0x00000000;
    0x03462403; 0xff000a13; 0x03012a03; 0x00000000; 0x03462483; 0xff100a13; 0x07012a03; 0x00000000;
    0x03462503; 0xff200a13; 0x0b012a03; 0x00000000; 0x03462583; 0xff300a13; 0x0f012a03; 0x00000000;
    0x03462603; 0xff400a13; 0x03412a03; 0x00000000; 0x03462683; 0xff500a13; 0x07412a03; 0x00000000;
    0x03462703; 0xff600a13; 0x0b412a03; 0x00000000; 0x03462783; 0xff700a13; 0x0f412a03; 0x00000000;
    0x07462403; 0xff800a13; 0x03812a03; 0x00000000; 0x07462483; 0xff900a13; 0x07812a03; 0x00000000;
    0x07462503; 0xffa00a13; 0x0b812a03; 0x00000000; 0x07462583; 0xffb00a13; 0x0f812a03; 0x00000000;
    0x07462603; 0xffc00a13; 0x03c12a03; 0x00000000; 0x07462683; 0xffd00a13; 0x07c12a03; 0x00000000;
    0x07462703; 0xffe00a13; 0x0bc12a03; 0x00000000; 0x07462783; 0xfff00a13; 0x0fc12a03; 0x00000000;
    0x0306a403; 0xfe000a93; 0x02012a83; 0x00000000; 0x0306a483; 0xfe100a93; 0x06012a83; 0x00000000;
    0x0306a503; 0xfe200a93; 0x0a012a83; 0x00000000; 0x0306a583; 0xfe300a93; 0x0e012a83; 0x00000000;
    0x0306a603; 0xfe400a93; 0x02412a83; 0x00000000; 0x0306a683; 0xfe500a93; 0x06412a83; 0x00000000;
    0x0306a703; 0xfe600a93; 0x0a412a83; 0x00000000; 0x0306a783; 0xfe700a93; 0x0e412a83; 0x00000000;
    0x0706a403; 0xfe800a93; 0x02812a83; 0x00000000; 0x0706a483; 0xfe900a93; 0x06812a83; 0x00000000;
    0x0706a503; 0xfea00a93; 0x0a812a83; 0x00000000; 0x0706a583; 0xfeb00a93; 0x0e812a83; 0x00000000;
    0x0706a603; 0xfec00a93; 0x02c12a83; 0x00000000; 0x0706a683; 0xfed00a93; 0x06c12a83; 0x00000000;
    0x0706a703; 0xfee00a93; 0x0ac12a83; 0x00000000; 0x0706a783; 0xfef00a93; 0x0ec12a83; 0x00000000;
    0x0346a403; 0xff000a93; 0x03012a83; 0x00000000; 0x0346a483; 0xff100a93; 0x07012a83; 0x00000000;
    0x0346a503; 0xff200a93; 0x0b012a83; 0x00000000; 0x0346a583; 0xff300a93; 0x0f012a83; 0x00000000;
    0x0346a603; 0xff400a93; 0x03412a83; 0x00000000; 0x0346a683; 0xff500a93; 0x07412a83; 0x00000000;
    0x0346a703; 0xff600a93; 0x0b412a83; 0x00000000; 0x0346a783; 0xff700a93; 0x0f412a83; 0x00000000;
    0x0746a403; 0xff800a93; 0x03812a83; 0x00000000; 0x0746a483; 0xff900a93; 0x07812a83; 0x00000000;
    0x0746a503; 0xffa00a93; 0x0b812a83; 0x00000000; 0x0746a583; 0xffb00a93; 0x0f812a83; 0x00000000;
    0x0746a603; 0xffc00a93; 0x03c12a83; 0x00000000; 0x0746a683; 0xffd00a93; 0x07c12a83; 0x00000000;
    0x0746a703; 0xffe00a93; 0x0bc12a83; 0x00000000; 0x0746a783; 0xfff00a93; 0x0fc12a83; 0x00000000;
    0x03072403; 0xfe000b13; 0x02012b03; 0x00000000; 0x03072483; 0xfe100b13; 0x06012b03; 0x00000000;
    0x03072503; 0xfe200b13; 0x0a012b03; 0x00000000; 0x03072583; 0xfe300b13; 0x0e012b03; 0x00000000;
    0x03072603; 0xfe400b13; 0x02412b03; 0x00000000; 0x03072683; 0xfe500b13; 0x06412b03; 0x00000000;
    0x03072703; 0xfe600b13; 0x0a412b03; 0x00000000; 0x03072783; 0xfe700b13; 0x0e412b03; 0x00000000;
    0x07072403; 0xfe800b13; 0x02812b03; 0x00000000; 0x07072483; 0xfe900b13; 0x06812b03; 0x00000000;
    0x07072503; 0xfea00b13; 0x0a812b03; 0x00000000; 0x07072583; 0xfeb00b13; 0x0e812b03; 0x00000000;
    0x07072603; 0xfec00b13; 0x02c12b03; 0x00000000; 0x07072683; 0xfed00b13; 0x06c12b03; 0x00000000;
    0x07072703; 0xfee00b13; 0x0ac12b03; 0x00000000; 0x07072783; 0xfef00b13; 0x0ec12b03; 0x00000000;
    0x03472403; 0xff000b13; 0x03012b03; 0x00000000; 0x03472483; 0xff100b13; 0x07012b03; 0x00000000;
    0x03472503; 0xff200b13; 0x0b012b03; 0x00000000; 0x03472583; 0xff300b13; 0x0f012b03; 0x00000000;
    0x03472603; 0xff400b13; 0x03412b03; 0x00000000; 0x03472683; 0xff500b13; 0x07412b03; 0x00000000;
    0x03472703; 0xff600b13; 0x0b412b03; 0x00000000; 0x03472783; 0xff700b13; 0x0f412b03; 0x00000000;
    0x07472403; 0xff800b13; 0x03812b03; 0x00000000; 0x07472483; 0xff900b13; 0x07812b03; 0x00000000;
    0x07472503; 0xffa00b13; 0x0b812b03; 0x00000000; 0x07472583; 0xffb00b13; 0x0f812b03; 0x00000000;
    0x07472603; 0xffc00b13; 0x03c12b03; 0x00000000; 0x07472683; 0xffd00b13; 0x07c12b03; 0x00000000;
    0x07472703; 0xffe00b13; 0x0bc12b03; 0x00000000; 0x07472783; 0xfff00b13; 0x0fc12b03; 0x00000000;
    0x0307a403; 0xfe000b93; 0x02012b83; 0x00000000; 0x0307a483; 0xfe100b93; 0x06012b83; 0x00000000;
    0x0307a503; 0xfe200b93; 0x0a012b83; 0x00000000; 0x0307a583; 0xfe300b93; 0x0e012b83; 0x00000000;
    0x0307a603; 0xfe400b93; 0x02412b83; 0x00000000; 0x0307a683; 0xfe500b93; 0x06412b83; 0x00000000;
    0x0307a703; 0xfe600b93; 0x0a412b83; 0x00000000; 0x0307a783; 0xfe700b93; 0x0e412b83; 0x00000000;
    0x0707a403; 0xfe800b93; 0x02812b83; 0x00000000; 0x0707a483; 0xfe900b93; 0x06812b83; 0x00000000;
    0x0707a503; 0xfea00b93; 0x0a812b83; 0x00000000; 0x0707a583; 0xfeb00b93; 0x0e812b83; 0x00000000;
    0x0707a603; 0xfec00b93; 0x02c12b83; 0x00000000; 0x0707a683; 0xfed00b93; 0x06c12b83; 0x00000000;
    0x0707a703; 0xfee00b93; 0x0ac12b83; 0x00000000; 0x0707a783; 0xfef00b93; 0x0ec12b83; 0x00000000;
    0x0347a403; 0xff000b93; 0x03012b83; 0x00000000; 0x0347a483; 0xff100b93; 0x07012b83; 0x00000000;
    0x0347a503; 0xff200b93; 0x0b012b83; 0x00000000; 0x0347a583; 0xff300b93; 0x0f012b83; 0x00000000;
    0x0347a603; 0xff400b93; 0x03412b83; 0x00000000; 0x0347a683; 0xff500b93; 0x07412b83; 0x00000000;
    0x0347a703; 0xff600b93; 0x0b412b83; 0x00000000; 0x0347a783; 0xff700b93; 0x0f412b83; 0x00000000;
    0x0747a403; 0xff800b93; 0x03812b83; 0x00000000; 0x0747a483; 0xff900b93; 0x07812b83; 0x00000000;
    0x0747a503; 0xffa00b93; 0x0b812b83; 0x00000000; 0x0747a583; 0xffb00b93; 0x0f812b83; 0x00000000;
    0x0747a603; 0xffc00b93; 0x03c12b83; 0x00000000; 0x0747a683; 0xffd00b93; 0x07c12b83; 0x00000000;
    0x0747a703; 0xffe00b93; 0x0bc12b83; 0x00000000; 0x0747a783; 0xfff00b93; 0x0fc12b83; 0x00000000
].

(** parcels 0x5c00 to 0x5fff *)
Definition RVC64_EXPANDED_23 : list Z := [
    0x03842403; 0xfe000c13; 0x02012c03; 0x00000000; 0x03842483; 0xfe100c13; 0x06012c03; 0x00000000;
    0x03842503; 0xfe200c13; 0x0a012c03; 0x00000000; 0x03842583; 0xfe300c13; 0x0e012c03; 0x00000000;
    0x03842603; 0xfe400c13; 0x02412c03; 0x00000000; 0x03842683; 0xfe500c13; 0x06412c03; 0x00000000;
    0x03842703; 0xfe600c13; 0x0a412c03; 0x00000000; 0x03842783; 0xfe700c13; 0x0e412c03; 0x00000000;
    0x07842403; 0xfe800c13; 0x02812c03; 0x00000000; 0x07842483; 0xfe900c13; 0x06812c03; 0x00000000;
    0x07842503; 0xfea00c13; 0x0a812c03; 0x00000000; 0x07842583; 0xfeb00c13; 0x0e812c03; 0x00000000;
    0x07842603; 0xfec00c13; 0x02c12c03; 0x00000000; 0x07842683; 0xfed00c13; 0x06c12c03; 0x00000000;
    0x07842703; 0xfee00c13; 0x0ac12c03; 0x00000000; 0x07842783; 0xfef00c13; 0x0ec12c03; 0x00000000;
    0x03c42403; 0xff000c13; 0x03012c03; 0x00000000; 0x03c42483; 0xff100c13; 0x07012c03; 0x00000000;
    0x03c42503; 0xff200c13; 0x0b012c03; 0x00000000; 0x03c42583; 0xff300c13; 0x0f012c03; 0x00000000;
    0x03c42603; 0xff400c13; 0x03412c03; 0x00000000; 0x03c42683; 0xff500c13; 0x07412c03; 0x00000000;
    0x03c42703; 0xff600c13; 0x0b412c03; 0x00000000; 0x03c42783; 0xff700c13; 0x0f412c03; 0x00000000;
    0x07c42403; 0xff800c13; 0x03812c03; 0x00000000; 0x07c42483; 0xff900c13; 0x07812c03; 0x00000000;
    0x07c42503; 0xffa00c13; 0x0b812c03; 0x00000000; 0x07c42583; 0xffb00c13; 0x0f812c03; 0x00000000;
    0x07c42603; 0xffc00c13; 0x03c12c03; 0x00000000; 0x07c42683; 0xffd00c13; 0x07c12c03; 0x00000000;
    0x07c42703; 0xffe00c13; 0x0bc12c03; 0x00000000; 0x07c42783; 0xfff00c13; 0x0fc12c03; 0x00000000;
    0x0384a403; 0xfe000c93; 0x02012c83; 0x00000000; 0x0384a483; 0xfe100c93; 0x06012c83; 0x00000000;
    0x0384a503; 0xfe200c93; 0x0a012c83; 0x00000000; 0x0384a583; 0xfe300c93; 0x0e012c83; 0x00000000;
    0x0384a603; 0xfe400c93; 0x02412c83; 0x00000000; 0x0384a683; 0xfe500c93; 0x06412c83; 0x00000000;
    0x0384a703; 0xfe600c93; 0x0a412c83; 0x00000000; 0x0384a783; 0xfe700c93; 0x0e412c83; 0x00000000;
    0x0784a403; 0xfe800c93; 0x02812c83; 0x00000000; 0x0784a483; 0xfe900c93; 0x06812c83; 0x00000000;
    0x0784a503; 0xfea00c93; 0x0a812c83; 0x00000000; 0x0784a583; 0xfeb00c93; 0x0e812c83; 0x00000000;
    0x0784a603; 0xfec00c93; 0x02c12c83; 0x00000000; 0x0784a683; 0xfed00c93; 0x06c12c83; 0x00000000;
    0x0784a703; 0xfee00c93; 0x0ac12c83; 0x00000000; 0x0784a783; 0xfef00c93; 0x0ec12c83; 0x00000000;
    0x03c4a403; 0xff000c93; 0x03012c83; 0x00000000; 0x03c4a483; 0xff100c93; 0x07012c83; 0x00000000;
    0x03c4a503; 0xff200c93; 0x0b012c83; 0x00000000; 0x03c4a583; 0xff300c93; 0x0f012c83; 0x00000000;
    0x03c4a603; 0xff400c93; 0x03412c83; 0x00000000; 0x03c4a683; 0xff500c93; 0x07412c83; 0x00000000;
    0x03c4a703; 0xff600c93; 0x0b412c83; 0x00000000; 0x03c4a783; 0xff700c93; 0x0f412c83; 0x00000000;
    0x07c4a403; 0xff800c93; 0x03812c83; 0x00000000; 0x07c4a483; 0xff900c93; 0x07812c83; 0x00000000;
    0x07c4a503; 0xffa00c93; 0x0b812c83; 0x00000000; 0x07c4a583; 0xffb00c93; 0x0f812c83; 0x00000000;
    0x07c4a603; 0xffc00c93; 0x03c12c83; 0x00000000; 0x07c4a683; 0xffd00c93; 0x07c12c83; 0x00000000;
    0x07c4a703; 0xffe00c93; 0x0bc12c83; 0x00000000; 0x07c4a783; 0xfff00c93; 0x0fc12c83; 0x00000000;
    0x03852403; 0xfe000d13; 0x02012d03; 0x00000000; 0x03852483; 0xfe100d13; 0x06012d03; 0x00000000;
    0x03852503; 0xfe200d13; 0x0a012d03; 0x00000000; 0x03852583; 0xfe300d13; 0x0e012d03; 0x00000000;
    0x03852603; 0xfe400d13; 0x02412d03; 0x00000000; 0x03852683; 0xfe500d13; 0x06412d03; 0x00000000;
    0x03852703; 0xfe600d13; 0x0a412d03; 0x00000000; 0x03852783; 0xfe700d13; 0x0e412d03; 0x00000000;
    0x07852403; 0xfe800d13; 0x02812d03; 0x00000000; 0x07852483; 0xfe900d13; 0x06812d03; 0x00000000;
    0x07852503; 0xfea00d13; 0x0a812d03; 0x00000000; 0x07852583; 0xfeb00d13; 0x0e812d03; 0x00000000;
    0x07852603; 0xfec00d13; 0x02c12d03; 0x00000000; 0x07852683; 0xfed00d13; 0x06c12d03; 0x00000000;
    0x07852703; 0xfee00d13; 0x0ac12d03; 0x00000000; 0x07852783; 0xfef00d13; 0x0ec12d03; 0x00000000;
    0x03c52403; 0xff000d13; 0x03012d03; 0x00000000; 0x03c52483; 0xff100d13; 0x07012d03; 0x00000000;
    0x03c52503; 0xff200d13; 0x0b012d03; 0x00000000; 0x03c52583; 0xff300d13; 0x0f012d03; 0x00000000;
    0x03c52603; 0xff400d13; 0x03412d03; 0x00000000; 0x03c52683; 0xff500d13; 0x07412d03; 0x00000000;
    0x03c52703; 0xff600d13; 0x0b412d03; 0x00000000; 0x03c52783; 0xff700d13; 0x0f412d03; 0x00000000;
    0x07c52403; 0xff800d13; 0x03812d03; 0x00000000; 0x07c52483; 0xff900d13; 0x07812d03; 0x00000000;
    0x07c52503; 0xffa00d13; 0x0b812d03; 0x00000000; 0x07c52583; 0xffb00d13; 0x0f812d03; 0x00000000;
    0x07c52603; 0xffc00d13; 0x03c12d03; 0x00000000; 0x07c52683; 0xffd00d13; 0x07c12d03; 0x00000000;
    0x07c52703; 0xffe00d13; 0x0bc12d03; 0x00000000; 0x07c52783; 0xfff00d13; 0x0fc12d03; 0x00000000;
    0x0385a403; 0xfe000d93; 0x02012d83; 0x00000000; 0x0385a483; 0xfe100d93; 0x06012d83; 0x00000000;
    0x0385a503; 0xfe200d93; 0x0a012d83; 0x00000000; 0x0385a583; 0xfe300d93; 0x0e012d83; 0x00000000;
    0x0385a603; 0xfe400d93; 0x02412d83; 0x00000000; 0x0385a683; 0xfe500d93; 0x06412d83; 0x00000000;
    0x0385a703; 0xfe600d93; 0x0a412d83; 0x00000000; 0x0385a783; 0xfe700d93; 0x0e412d83; 0x00000000;
    0x0785a403; 0xfe800d93; 0x02812d83; 0x00000000; 0x0785a483; 0xfe900d93; 0x06812d83; 0x00000000;
    0x0785a503; 0xfea00d93; 0x0a812d83; 0x00000000; 0x0785a583; 0xfeb00d93; 0x0e812d83; 0x00000000;
    0x0785a603; 0xfec00d93; 0x02c12d83; 0x00000000; 0x0785a683; 0xfed00d93; 0x06c12d83; 0x00000000;
    0x0785a703; 0xfee00d93; 0x0ac12d83; 0x00000000; 0x0785a783; 0xfef00d93; 0x0ec12d83; 0x00000000;
    0x03c5a403; 0xff000d93; 0x03012d83; 0x00000000; 0x03c5a483; 0xff100d93; 0x07012d83; 0x00000000;
    0x03c5a503; 0xff200d93; 0x0b012d83; 0x00000000; 0x03c5a583; 0xff300d93; 0x0f012d83; 0x00000000;
    0x03c5a603; 0xff400d93; 0x03412d83; 0x00000000; 0x03c5a683; 0xff500d93; 0x07412d83; 0x00000000;
    0x03c5a703; 0xff600d93; 0x0b412d83; 0x00000000; 0x03c5a783; 0xff700d93; 0x0f412d83; 0x00000000;
    0x07c5a403; 0xff800d93; 0x03812d83; 0x00000000; 0x07c5a483; 0xff900d93; 0x07812d83; 0x00000000;
    0x07c5a503; 0xffa00d93; 0x0b812d83; 0x00000000; 0x07c5a583; 0xffb00d93; 0x0f812d83; 0x00000000;
    0x07c5a603; 0xffc00d93; 0x03c12d83; 0x00000000; 0x07c5a683; 0xffd00d93; 0x07c12d83; 0x00000000;
    0x07c5a703; 0xffe00d93; 0x0bc12d83; 0x00000000; 0x07c5a783; 0xfff00d93; 0x0fc12d83; 0x00000000;
    0x03862403; 0xfe000e13; 0x02012e03; 0x00000000; 0x03862483; 0xfe100e13; 0x06012e03; 0x00000000;
    0x03862503; 0xfe200e13; 0x0a012e03; 0x00000000; 0x03862583; 0xfe300e13; 0x0e012e03; 0x00000000;
    0x03862603; 0xfe400e13; 0x02412e03; 0x00000000; 0x03862683; 0xfe500e13; 0x06412e03; 0x00000000;
    0x03862703; 0xfe600e13; 0x0a412e03; 0x00000000; 0x03862783; 0xfe700e13; 0x0e412e03; 0x00000000;
    0x07862403; 0xfe800e13; 0x02812e03; 0x00000000; 0x07862483; 0xfe900e13; 0x06812e03; 0x00000000;
    0x07862503; 0xfea00e13; 0x0a812e03; 0x00000000; 0x07862583; 0xfeb00e13; 0x0e812e03; 0x00000000;
    0x07862603; 0xfec00e13; 0x02c12e03; 0x00000000; 0x07862683; 0xfed00e13; 0x06c12e03; 0x00000000;
    0x07862703; 0xfee00e13; 0x0ac12e03; 0x00000000; 0x07862783; 0xfef00e13; 0x0ec12e03; 0x00000000;
    0x03c62403; 0xff000e13; 0x03012e03; 0x00000000; 0x03c62483; 0xff100e13; 0x07012e03; 0x00000000;
    0x03c62503; 0xff200e13; 0x0b012e03; 0x00000000; 0x03c62583; 0xff300e13; 0x0f012e03; 0x00000000;
    0x03c62603; 0xff400e13; 0x03412e03; 0x00000000; 0x03c62683; 0xff500e13; 0x07412e03; 0x00000000;
    0x03c62703; 0xff600e13; 0x0b412e03; 0x00000000; 0x03c62783; 0xff700e13; 0x0f412e03; 0x00000000;
    0x07c62403; 0xff800e13; 0x03812e03; 0x00000000; 0x07c62483; 0xff900e13; 0x07812e03; 0x00000000;
    0x07c62503; 0xffa00e13; 0x0b812e03; 0x00000000; 0x07c62583; 0xffb00e13; 0x0f812e03; 0x00000000;
    0x07c62603; 0xffc00e13; 0x03c12e03; 0x00000000; 0x07c62683; 0xffd00e13; 0x07c12e03; 0x00000000;
    0x07c62703; 0xffe00e13; 0x0bc12e03; 0x00000000; 0x07c62783; 0xfff00e13; 0x0fc12e03; 0x00000000;
    0x0386a403; 0xfe000e93; 0x02012e83; 0x00000000; 0x0386a483; 0xfe100e93; 0x06012e83; 0x00000000;
    0x0386a503; 0xfe200e93; 0x0a012e83; 0x00000000; 0x0386a583; 0xfe300e93; 0x0e012e83; 0x00000000;
    0x0386a603; 0xfe400e93; 0x02412e83; 0x00000000; 0x0386a683; 0xfe500e93; 0x06412e83; 0x00000000;
    0x0386a703; 0xfe600e93; 0x0a412e83; 0x00000000; 0x0386a783; 0xfe700e93; 0x0e412e83; 0x00000000;
    0x0786a403; 0xfe800e93; 0x02812e83; 0x00000000; 0x0786a483; 0xfe900e93; 0x06812e83; 0x00000000;
    0x0786a503; 0xfea00e93; 0x0a812e83; 0x00000000; 0x0786a583; 0xfeb00e93; 0x0e812e83; 0x00000000;
    0x0786a603; 0xfec00e93; 0x02c12e83; 0x00000000; 0x0786a683; 0xfed00e93; 0x06c12e83; 0x00000000;
    0x0786a703; 0xfee00e93; 0x0ac12e83; 0x00000000; 0x0786a783; 0xfef00e93; 0x0ec12e83; 0x00000000;
    0x03c6a403; 0xff000e93; 0x03012e83; 0x00000000; 0x03c6a483; 0xff100e93; 0x07012e83; 0x00000000;
    0x03c6a503; 0xff200e93; 0x0b012e83; 0x00000000; 0x03c6a583; 0xff300e93; 0x0f012e83; 0x00000000;
    0x03c6a603; 0xff400e93; 0x03412e83; 0x00000000; 0x03c6a683; 0xff500e93; 0x07412e83; 0x00000000;
    0x03c6a703; 0xff600e93; 0x0b412e83; 0x00000000; 0x03c6a783; 0xff700e93; 0x0f412e83; 0x00000000;
    0x07c6a403; 0xff800e93; 0x03812e83; 0x00000000; 0x07c6a483; 0xff900e93; 0x07812e83; 0x00000000;
    0x07c6a503; 0xffa00e93; 0x0b812e83; 0x00000000; 0x07c6a583; 0xffb00e93; 0x0f812e83; 0x00000000;
    0x07c6a603; 0xffc00e93; 0x03c12e83; 0x00000000; 0x07c6a683; 0xffd00e93; 0x07c12e83; 0x00000000;
    0x07c6a703; 0xffe00e93; 0x0bc12e83; 0x00000000; 0x07c6a783; 0xfff00e93; 0x0fc12e83; 0x00000000;
    0x03872403; 0xfe000f13; 0x02012f03; 0x00000000; 0x03872483; 0xfe100f13; 0x06012f03; 0x00000000;
    0x03872503; 0xfe200f13; 0x0a012f03; 0x00000000; 0x03872583; 0xfe300f13; 0x0e012f03; 0x00000000;
    0x03872603; 0xfe400f13; 0x02412f03; 0x00000000; 0x03872683; 0xfe500f13; 0x06412f03; 0x00000000;
    0x03872703; 0xfe600f13; 0x0a412f03; 0x00000000; 0x03872783; 0xfe700f13; 0x0e412f03; 0x00000000;
    0x07872403; 0xfe800f13; 0x02812f03; 0x00000000; 0x07872483; 0xfe900f13; 0x06812f03; 0x00000000;
    0x07872503; 0xfea00f13; 0x0a812f03; 0x00000000; 0x07872583; 0xfeb00f13; 0x0e812f03; 0x00000000;
    0x07872603; 0xfec00f13; 0x02c12f03; 0x00000000; 0x07872683; 0xfed00f13; 0x06c12f03; 0x00000000;
    0x07872703; 0xfee00f13; 0x0ac12f03; 0x00000000; 0x07872783; 0xfef00f13; 0x0ec12f03; 0x00000000;
    0x03c72403; 0xff000f13; 0x03012f03; 0x00000000; 0x03c72483; 0xff100f13; 0x07012f03; 0x00000000;
    0x03c72503; 0xff200f13; 0x0b012f03; 0x00000000; 0x03c72583; 0xff300f13; 0x0f012f03; 0x00000000;
    0x03c72603; 0xff400f13; 0x03412f03; 0x00000000; 0x03c72683; 0xff500f13; 0x07412f03; 0x00000000;
    0x03c72703; 0xff600f13; 0x0b412f03; 0x00000000; 0x03c72783; 0xff700f13; 0x0f412f03; 0x00000000;
    0x07c72403; 0xff800f13; 0x03812f03; 0x00000000; 0x07c72483; 0xff900f13; 0x07812f03; 0x00000000;
    0x07c72503; 0xffa00f13; 0x0b812f03; 0x00000000; 0x07c72583; 0xffb00f13; 0x0f812f03; 0x00000000;
    0x07c72603; 0xffc00f13; 0x03c12f03; 0x00000000; 0x07c72683; 0xffd00f13; 0x07c12f03; 0x00000000;
    0x07c72703; 0xffe00f13; 0x0bc12f03; 0x00000000; 0x07c72783; 0xfff00f13; 0x0fc12f03; 0x00000000;
    0x0387a403; 0xfe000f93; 0x02012f83; 0x00000000; 0x0387a483; 0xfe100f93; 0x06012f83; 0x00000000;
    0x0387a503; 0xfe200f93; 0x0a012f83; 0x00000000; 0x0387a583; 0xfe300f93; 0x0e012f83; 0x00000000;
    0x0387a603; 0xfe400f93; 0x02412f83; 0x00000000; 0x0387a683; 0xfe500f93; 0x06412f83; 0x00000000;
    0x0387a703; 0xfe600f93; 0x0a412f83; 0x00000000; 0x0387a783; 0xfe700f93; 0x0e412f83; 0x00000000;
    0x0787a403; 0xfe800f93; 0x02812f83; 0x00000000; 0x0787a483; 0xfe900f93; 0x06812f83; 0x00000000;
    0x0787a503; 0xfea00f93; 0x0a812f83; 0x00000000; 0x0787a583; 0xfeb00f93; 0x0e812f83; 0x00000000;
    0x0787a603; 0xfec00f93; 0x02c12f83; 0x00000000; 0x0787a683; 0xfed00f93; 0x06c12f83; 0x00000000;
    0x0787a703; 0xfee00f93; 0x0ac12f83; 0x00000000; 0x0787a783; 0xfef00f93; 0x0ec12f83; 0x00000000;
    0x03c7a403; 0xff000f93; 0x03012f83; 0x00000000; 0x03c7a483; 0xff100f93; 0x07012f83; 0x00000000;
    0x03c7a503; 0xff200f93; 0x0b012f83; 0x00000000; 0x03c7a583; 0xff300f93; 0x0f012f83; 0x00000000;
    0x03c7a603; 0xff400f93; 0x03412f83; 0x00000000; 0x03c7a683; 0xff500f93; 0x07412f83; 0x00000000;
    0x03c7a703; 0xff600f93; 0x0b412f83; 0x00000000; 0x03c7a783; 0xff700f93; 0x0f412f83; 0x00000000;
    0x07c7a403; 0xff800f93; 0x03812f83; 0x00000000; 0x07c7a483; 0xff900f93; 0x07812f83; 0x00000000;
    0x07c7a503; 0xffa00f93; 0x0b812f83; 0x00000000; 0x07c7a583; 0xffb00f93; 0x0f812f83; 0x00000000;
    0x07c7a603; 0xffc00f93; 0x03c12f83; 0x00000000; 0x07c7a683; 0xffd00f93; 0x07c12f83; 0x00000000;
    0x07c7a703; 0xffe00f93; 0x0bc12f83; 0x00000000; 0x07c7a783; 0xfff00f93; 0x0fc12f83; 0x00000000
].
