(* ===== verification/RvcTable3.v ===== *)
(** * RvcTable3: entries 0x6000 to 0x7fff of [RVC64_EXPANDED] (tools/rvc.rs)

    Eight definitions of 128 source lines (1024 entries) each, in the order and with the
    grouping of the source; [RvcTable] concatenates them. *)
From S2P Require Import Prelude.

(** parcels 0x6000 to 0x63ff *)
Definition RVC64_EXPANDED_24 : list Z := [
    0x00043403; 0x00000000; 0x00000000; 0x00000000; 0x00043483; 0x00001037; 0x00000000; 0x00000000;
    0x00043503; 0x00002037; 0x00000000; 0x00000000; 0x00043583; 0x00003037; 0x00000000; 0x00000000;
    0x00043603; 0x00004037; 0x00000000; 0x00000000; 0x00043683; 0x00005037; 0x00000000; 0x00000000;
    0x00043703; 0x00006037; 0x00000000; 0x00000000; 0x00043783; 0x00007037; 0x00000000; 0x00000000;
    0x04043403; 0x00008037; 0x00000000; 0x00000000; 0x04043483; 0x00009037; 0x00000000; 0x00000000;
    0x04043503; 0x0000a037; 0x00000000; 0x00000000; 0x04043583; 0x0000b037; 0x00000000; 0x00000000;
    0x04043603; 0x0000c037; 0x00000000; 0x00000000; 0x04043683; 0x0000d037; 0x00000000; 0x00000000;
    0x04043703; 0x0000e037; 0x00000000; 0x00000000; 0x04043783; 0x0000f037; 0x00000000; 0x00000000;
    0x08043403; 0x00010037; 0x00000000; 0x00000000; 0x08043483; 0x00011037; 0x00000000; 0x00000000;
    0x08043503; 0x00012037; 0x00000000; 0x00000000; 0x08043583; 0x00013037; 0x00000000; 0x00000000;
    0x08043603; 0x00014037; 0x00000000; 0x00000000; 0x08043683; 0x00015037; 0x00000000; 0x00000000;
    0x08043703; 0x00016037; 0x00000000; 0x00000000; 0x08043783; 0x00017037; 0x00000000; 0x00000000;
    0x0c043403; 0x00018037; 0x00000000; 0x00000000; 0x0c043483; 0x00019037; 0x00000000; 0x00000000;
    0x0c043503; 0x0001a037; 0x00000000; 0x00000000; 0x0c043583; 0x0001b037; 0x00000000; 0x00000000;
    0x0c043603; 0x0001c037; 0x00000000; 0x00000000; 0x0c043683; 0x0001d037; 0x00000000; 0x00000000;
    0x0c043703; 0x0001e037; 0x00000000; 0x00000000; 0x0c043783; 0x0001f037; 0x00000000; 0x00000000;
    0x0004b403; 0x00000000; 0x00013083; 0x00000000; 0x0004b483; 0x000010b7; 0x04013083; 0x00000000;
    0x0004b503; 0x000020b7; 0x08013083; 0x00000000; 0x0004b583; 0x000030b7; 0x0c013083; 0x00000000;
    0x0004b603; 0x000040b7; 0x10013083; 0x00000000; 0x0004b683; 0x000050b7; 0x14013083; 0x00000000;
    0x0004b703; 0x000060b7; 0x18013083; 0x00000000; 0x0004b783; 0x000070b7; 0x1c013083; 0x00000000;
    0x0404b403; 0x000080b7; 0x00813083; 0x00000000; 0x0404b483; 0x000090b7; 0x04813083; 0x00000000;
    0x0404b503; 0x0000a0b7; 0x08813083; 0x00000000; 0x0404b583; 0x0000b0b7; 0x0c813083; 0x00000000;
    0x0404b603; 0x0000c0b7; 0x10813083; 0x00000000; 0x0404b683; 0x0000d0b7; 0x14813083; 0x00000000;
    0x0404b703; 0x0000e0b7; 0x18813083; 0x00000000; 0x0404b783; 0x0000f0b7; 0x1c813083; 0x00000000;
    0x0804b403; 0x000100b7; 0x01013083; 0x00000000; 0x0804b483; 0x000110b7; 0x05013083; 0x00000000;
    0x0804b503; 0x000120b7; 0x09013083; 0x00000000; 0x0804b583; 0x000130b7; 0x0d013083; 0x00000000;
    0x0804b603; 0x000140b7; 0x11013083; 0x00000000; 0x0804b683; 0x000150b7; 0x15013083; 0x00000000;
    0x0804b703; 0x000160b7; 0x19013083; 0x00000000; 0x0804b783; 0x000170b7; 0x1d013083; 0x00000000;
    0x0c04b403; 0x000180b7; 0x01813083; 0x00000000; 0x0c04b483; 0x000190b7; 0x05813083; 0x00000000;
    0x0c04b503; 0x0001a0b7; 0x09813083; 0x00000000; 0x0c04b583; 0x0001b0b7; 0x0d813083; 0x00000000;
    0x0c04b603; 0x0001c0b7; 0x11813083; 0x00000000; 0x0c04b683; 0x0001d0b7; 0x15813083; 0x00000000;
    0x0c04b703; 0x0001e0b7; 0x19813083; 0x00000000; 0x0c04b783; 0x0001f0b7; 0x1d813083; 0x00000000;
    0x00053403; 0x00000000; 0x00013103; 0x00000000; 0x00053483; 0x02010113; 0x04013103; 0x00000000;
    0x00053503; 0x08010113; 0x08013103; 0x00000000; 0x00053583; 0x0a010113; 0x0c013103; 0x00000000;
    0x00053603; 0x10010113; 0x10013103; 0x00000000; 0x00053683; 0x12010113; 0x14013103; 0x00000000;
    0x00053703; 0x18010113; 0x18013103; 0x00000000; 0x00053783; 0x1a010113; 0x1c013103; 0x00000000;
    0x04053403; 0x04010113; 0x00813103; 0x00000000; 0x04053483; 0x06010113; 0x04813103; 0x00000000;
    0x04053503; 0x0c010113; 0x08813103; 0x00000000; 0x04053583; 0x0e010113; 0x0c813103; 0x00000000;
    0x04053603; 0x14010113; 0x10813103; 0x00000000; 0x04053683; 0x16010113; 0x14813103; 0x00000000;
    0x04053703; 0x1c010113; 0x18813103; 0x00000000; 0x04053783; 0x1e010113; 0x1c813103; 0x00000000;
    0x08053403; 0x01010113; 0x01013103; 0x00000000; 0x08053483; 0x03010113; 0x05013103; 0x00000000;
    0x08053503; 0x09010113; 0x09013103; 0x00000000; 0x08053583; 0x0b010113; 0x0d013103; 0x00000000;
    0x08053603; 0x11010113; 0x11013103; 0x00000000; 0x08053683; 0x13010113; 0x15013103; 0x00000000;
    0x08053703; 0x19010113; 0x19013103; 0x00000000; 0x08053783; 0x1b010113; 0x1d013103; 0x00000000;
    0x0c053403; 0x05010113; 0x01813103; 0x00000000; 0x0c053483; 0x07010113; 0x05813103; 0x00000000;
    0x0c053503; 0x0d010113; 0x09813103; 0x00000000; 0x0c053583; 0x0f010113; 0x0d813103; 0x00000000;
    0x0c053603; 0x15010113; 0x11813103; 0x00000000; 0x0c053683; 0x17010113; 0x15813103; 0x00000000;
    0x0c053703; 0x1d010113; 0x19813103; 0x00000000; 0x0c053783; 0x1f010113; 0x1d813103; 0x00000000;
    0x0005b403; 0x00000000; 0x00013183; 0x00000000; 0x0005b483; 0x000011b7; 0x04013183; 0x00000000;
    0x0005b503; 0x000021b7; 0x08013183; 0x00000000; 0x0005b583; 0x000031b7; 0x0c013183; 0x00000000;
    0x0005b603; 0x000041b7; 0x10013183; 0x00000000; 0x0005b683; 0x000051b7; 0x14013183; 0x00000000;
    0x0005b703; 0x000061b7; 0x18013183; 0x00000000; 0x0005b783; 0x000071b7; 0x1c013183; 0x00000000;
    0x0405b403; 0x000081b7; 0x00813183; 0x00000000; 0x0405b483; 0x000091b7; 0x04813183; 0x00000000;
    0x0405b503; 0x0000a1b7; 0x08813183; 0x00000000; 0x0405b583; 0x0000b1b7; 0x0c813183; 0x00000000;
    0x0405b603; 0x0000c1b7; 0x10813183; 0x00000000; 0x0405b683; 0x0000d1b7; 0x14813183; 0x00000000;
    0x0405b703; 0x0000e1b7; 0x18813183; 0x00000000; 0x0405b783; 0x0000f1b7; 0x1c813183; 0x00000000;
    0x0805b403; 0x000101b7; 0x01013183; 0x00000000; 0x0805b483; 0x000111b7; 0x05013183; 0x00000000;
    0x0805b503; 0x000121b7; 0x09013183; 0x00000000; 0x0805b583; 0x000131b7; 0x0d013183; 0x00000000;
    0x0805b603; 0x000141b7; 0x11013183; 0x00000000; 0x0805b683; 0x000151b7; 0x15013183; 0x00000000;
    0x0805b703; 0x000161b7; 0x19013183; 0x00000000; 0x0805b783; 0x000171b7; 0x1d013183; 0x00000000;
    0x0c05b403; 0x000181b7; 0x01813183; 0x00000000; 0x0c05b483; 0x000191b7; 0x05813183; 0x00000000;
    0x0c05b503; 0x0001a1b7; 0x09813183; 0x00000000; 0x0c05b583; 0x0001b1b7; 0x0d813183; 0x00000000;
    0x0c05b603; 0x0001c1b7; 0x11813183; 0x00000000; 0x0c05b683; 0x0001d1b7; 0x15813183; 0x00000000;
    0x0c05b703; 0x0001e1b7; 0x19813183; 0x00000000; 0x0c05b783; 0x0001f1b7; 0x1d813183; 0x00000000;
    0x00063403; 0x00000000; 0x00013203; 0x00000000; 0x00063483; 0x00001237; 0x04013203; 0x00000000;
    0x00063503; 0x00002237; 0x08013203; 0x00000000; 0x00063583; 0x00003237; 0x0c013203; 0x00000000;
    0x00063603; 0x00004237; 0x10013203; 0x00000000; 0x00063683; 0x00005237; 0x14013203; 0x00000000;
    0x00063703; 0x00006237; 0x18013203; 0x00000000; 0x00063783; 0x00007237; 0x1c013203; 0x00000000;
    0x04063403; 0x00008237; 0x00813203; 0x00000000; 0x04063483; 0x00009237; 0x04813203; 0x00000000;
    0x04063503; 0x0000a237; 0x08813203; 0x00000000; 0x04063583; 0x0000b237; 0x0c813203; 0x00000000;
    0x04063603; 0x0000c237; 0x10813203; 0x00000000; 0x04063683; 0x0000d237; 0x14813203; 0x00000000;
    0x04063703; 0x0000e237; 0x18813203; 0x00000000; 0x04063783; 0x0000f237; 0x1c813203; 0x00000000;
    0x08063403; 0x00010237; 0x01013203; 0x00000000; 0x08063483; 0x00011237; 0x05013203; 0x00000000;
    0x08063503; 0x00012237; 0x09013203; 0x00000000; 0x08063583; 0x00013237; 0x0d013203; 0x00000000;
    0x08063603; 0x00014237; 0x11013203; 0x00000000; 0x08063683; 0x00015237; 0x15013203; 0x00000000;
    0x08063703; 0x00016237; 0x19013203; 0x00000000; 0x08063783; 0x00017237; 0x1d013203; 0x00000000;
    0x0c063403; 0x00018237; 0x01813203; 0x00000000; 0x0c063483; 0x00019237; 0x05813203; 0x00000000;
    0x0c063503; 0x0001a237; 0x09813203; 0x00000000; 0x0c063583; 0x0001b237; 0x0d813203; 0x00000000;
    0x0c063603; 0x0001c237; 0x11813203; 0x00000000; 0x0c063683; 0x0001d237; 0x15813203; 0x00000000;
    0x0c063703; 0x0001e237; 0x19813203; 0x00000000; 0x0c063783; 0x0001f237; 0x1d813203; 0x00000000;
    0x0006b403; 0x00000000; 0x00013283; 0x00000000; 0x0006b483; 0x000012b7; 0x04013283; 0x00000000;
    0x0006b503; 0x000022b7; 0x08013283; 0x00000000; 0x0006b583; 0x000032b7; 0x0c013283; 0x00000000;
    0x0006b603; 0x000042b7; 0x10013283; 0x00000000; 0x0006b683; 0x000052b7; 0x14013283; 0x00000000;
    0x0006b703; 0x000062b7; 0x18013283; 0x00000000; 0x0006b783; 0x000072b7; 0x1c013283; 0x00000000;
    0x0406b403; 0x000082b7; 0x00813283; 0x00000000; 0x0406b483; 0x000092b7; 0x04813283; 0x00000000;
    0x0406b503; 0x0000a2b7; 0x08813283; 0x00000000; 0x0406b583; 0x0000b2b7; 0x0c813283; 0x00000000;
    0x0406b603; 0x0000c2b7; 0x10813283; 0x00000000; 0x0406b683; 0x0000d2b7; 0x14813283; 0x00000000;
    0x0406b703; 0x0000e2b7; 0x18813283; 0x00000000; 0x0406b783; 0x0000f2b7; 0x1c813283; 0x00000000;
    0x0806b403; 0x000102b7; 0x01013283; 0x00000000; 0x0806b483; 0x000112b7; 0x05013283; 0x00000000;
    0x0806b503; 0x000122b7; 0x09013283; 0x00000000; 0x0806b583; 0x000132b7; 0x0d013283; 0x00000000;
    0x0806b603; 0x000142b7; 0x11013283; 0x00000000; 0x0806b683; 0x000152b7; 0x15013283; 0x00000000;
    0x0806b703; 0x000162b7; 0x19013283; 0x00000000; 0x0806b783; 0x000172b7; 0x1d013283; 0x00000000;
    0x0c06b403; 0x000182b7; 0x01813283; 0x00000000; 0x0c06b483; 0x000192b7; 0x05813283; 0x00000000;
    0x0c06b503; 0x0001a2b7; 0x09813283; 0x00000000; 0x0c06b583; 0x0001b2b7; 0x0d813283; 0x00000000;
    0x0c06b603; 0x0001c2b7; 0x11813283; 0x00000000; 0x0c06b683; 0x0001d2b7; 0x15813283; 0x00000000;
    0x0c06b703; 0x0001e2b7; 0x19813283; 0x00000000; 0x0c06b783; 0x0001f2b7; 0x1d813283; 0x00000000;
    0x00073403; 0x00000000; 0x00013303; 0x00000000; 0x00073483; 0x00001337; 0x04013303; 0x00000000;
    0x00073503; 0x00002337; 0x08013303; 0x00000000; 0x00073583; 0x00003337; 0x0c013303; 0x00000000;
    0x00073603; 0x00004337; 0x10013303; 0x00000000; 0x00073683; 0x00005337; 0x14013303; 0x00000000;
    0x00073703; 0x00006337; 0x18013303; 0x00000000; 0x00073783; 0x00007337; 0x1c013303; 0x00000000;
    0x04073403; 0x00008337; 0x00813303; 0x00000000; 0x04073483; 0x00009337; 0x04813303; 0x00000000;
    0x04073503; 0x0000a337; 0x08813303; 0x00000000; 0x04073583; 0x0000b337; 0x0c813303; 0x00000000;
    0x04073603; 0x0000c337; 0x10813303; 0x00000000; 0x04073683; 0x0000d337; 0x14813303; 0x00000000;
    0x04073703; 0x0000e337; 0x18813303; 0x00000000; 0x04073783; 0x0000f337; 0x1c813303; 0x00000000;
    0x08073403; 0x00010337; 0x01013303; 0x00000000; 0x08073483; 0x00011337; 0x05013303; 0x00000000;
    0x08073503; 0x00012337; 0x09013303; 0x00000000; 0x08073583; 0x00013337; 0x0d013303; 0x00000000;
    0x08073603; 0x00014337; 0x11013303; 0x00000000; 0x08073683; 0x00015337; 0x15013303; 0x00000000;
    0x08073703; 0x00016337; 0x19013303; 0x00000000; 0x08073783; 0x00017337; 0x1d013303; 0x00000000;
    0x0c073403; 0x00018337; 0x01813303; 0x00000000; 0x0c073483; 0x00019337; 0x05813303; 0x00000000;
    0x0c073503; 0x0001a337; 0x09813303; 0x00000000; 0x0c073583; 0x0001b337; 0x0d813303; 0x00000000;
    0x0c073603; 0x0001c337; 0x11813303; 0x00000000; 0x0c073683; 0x0001d337; 0x15813303; 0x00000000;
    0x0c073703; 0x0001e337; 0x19813303; 0x00000000; 0x0c073783; 0x0001f337; 0x1d813303; 0x00000000;
    0x0007b403; 0x00000000; 0x00013383; 0x00000000; 0x0007b483; 0x000013b7; 0x04013383; 0x00000000;
    0x0007b503; 0x000023b7; 0x08013383; 0x00000000; 0x0007b583; 0x000033b7; 0x0c013383; 0x00000000;
    0x0007b603; 0x000043b7; 0x10013383; 0x00000000; 0x0007b683; 0x000053b7; 0x14013383; 0x00000000;
    0x0007b703; 0x000063b7; 0x18013383; 0x00000000; 0x0007b783; 0x000073b7; 0x1c013383; 0x00000000;
    0x0407b403; 0x000083b7; 0x00813383; 0x00000000; 0x0407b483; 0x000093b7; 0x04813383; 0x00000000;
    0x0407b503; 0x0000a3b7; 0x08813383; 0x00000000; 0x0407b583; 0x0000b3b7; 0x0c813383; 0x00000000;
    0x0407b603; 0x0000c3b7; 0x10813383; 0x00000000; 0x0407b683; 0x0000d3b7; 0x14813383; 0x00000000;
    0x0407b703; 0x0000e3b7; 0x18813383; 0x00000000; 0x0407b783; 0x0000f3b7; 0x1c813383; 0x00000000;
    0x0807b403; 0x000103b7; 0x01013383; 0x00000000; 0x0807b483; 0x000113b7; 0x05013383; 0x00000000;
    0x0807b503; 0x000123b7; 0x09013383; 0x00000000; 0x0807b583; 0x000133b7; 0x0d013383; 0x00000000;
    0x0807b603; 0x000143b7; 0x11013383; 0x00000000; 0x0807b683; 0x000153b7; 0x15013383; 0x00000000;
    0x0807b703; 0x000163b7; 0x19013383; 0x00000000; 0x0807b783; 0x000173b7; 0x1d013383; 0x00000000;
    0x0c07b403; 0x000183b7; 0x01813383; 0x00000000; 0x0c07b483; 0x000193b7; 0x05813383; 0x00000000;
    0x0c07b503; 0x0001a3b7; 0x09813383; 0x00000000; 0x0c07b583; 0x0001b3b7; 0x0d813383; 0x00000000;
    0x0c07b603; 0x0001c3b7; 0x11813383; 0x00000000; 0x0c07b683; 0x0001d3b7; 0x15813383; 0x00000000;
    0x0c07b703; 0x0001e3b7; 0x19813383; 0x00000000; 0x0c07b783; 0x0001f3b7; 0x1d813383; 0x00000000
].

(** parcels 0x6400 to 0x67ff *)
Definition RVC64_EXPANDED_25 : list Z := [
    0x00843403; 0x00000000; 0x00013403; 0x00000000; 0x00843483; 0x00001437; 0x04013403; 0x00000000;
    0x00843503; 0x00002437; 0x08013403; 0x00000000; 0x00843583; 0x00003437; 0x0c013403; 0x00000000;
    0x00843603; 0x00004437; 0x10013403; 0x00000000; 0x00843683; 0x00005437; 0x14013403; 0x00000000;
    0x00843703; 0x00006437; 0x18013403; 0x00000000; 0x00843783; 0x00007437; 0x1c013403; 0x00000000;
    0x04843403; 0x00008437; 0x00813403; 0x00000000; 0x04843483; 0x00009437; 0x04813403; 0x00000000;
    0x04843503; 0x0000a437; 0x08813403; 0x00000000; 0x04843583; 0x0000b437; 0x0c813403; 0x00000000;
    0x04843603; 0x0000c437; 0x10813403; 0x00000000; 0x04843683; 0x0000d437; 0x14813403; 0x00000000;
    0x04843703; 0x0000e437; 0x18813403; 0x00000000; 0x04843783; 0x0000f437; 0x1c813403; 0x00000000;
    0x08843403; 0x00010437; 0x01013403; 0x00000000; 0x08843483; 0x00011437; 0x05013403; 0x00000000;
    0x08843503; 0x00012437; 0x09013403; 0x00000000; 0x08843583; 0x00013437; 0x0d013403; 0x00000000;
    0x08843603; 0x00014437; 0x11013403; 0x00000000; 0x08843683; 0x00015437; 0x15013403; 0x00000000;
    0x08843703; 0x00016437; 0x19013403; 0x00000000; 0x08843783; 0x00017437; 0x1d013403; 0x00000000;
    0x0c843403; 0x00018437; 0x01813403; 0x00000000; 0x0c843483; 0x00019437; 0x05813403; 0x00000000;
    0x0c843503; 0x0001a437; 0x09813403; 0x00000000; 0x0c843583; 0x0001b437; 0x0d813403; 0x00000000;
    0x0c843603; 0x0001c437; 0x11813403; 0x00000000; 0x0c843683; 0x0001d437; 0x15813403; 0x00000000;
    0x0c843703; 0x0001e437; 0x19813403; 0x00000000; 0x0c843783; 0x0001f437; 0x1d813403; 0x00000000;
    0x0084b403; 0x00000000; 0x00013483; 0x00000000; 0x0084b483; 0x000014b7; 0x04013483; 0x00000000;
    0x0084b503; 0x000024b7; 0x08013483; 0x00000000; 0x0084b583; 0x000034b7; 0x0c013483; 0x00000000;
    0x0084b603; 0x000044b7; 0x10013483; 0x00000000; 0x0084b683; 0x000054b7; 0x14013483; 0x00000000;
    0x0084b703; 0x000064b7; 0x18013483; 0x00000000; 0x0084b783; 0x000074b7; 0x1c013483; 0x00000000;
    0x0484b403; 0x000084b7; 0x00813483; 0x00000000; 0x0484b483; 0x000094b7; 0x04813483; 0x00000000;
    0x0484b503; 0x0000a4b7; 0x08813483; 0x00000000; 0x0484b583; 0x0000b4b7; 0x0c813483; 0x00000000;
    0x0484b603; 0x0000c4b7; 0x10813483; 0x00000000; 0x0484b683; 0x0000d4b7; 0x14813483; 0x00000000;
    0x0484b703; 0x0000e4b7; 0x18813483; 0x00000000; 0x0484b783; 0x0000f4b7; 0x1c813483; 0x00000000;
    0x0884b403; 0x000104b7; 0x01013483; 0x00000000; 0x0884b483; 0x000114b7; 0x05013483; 0x00000000;
    0x0884b503; 0x000124b7; 0x09013483; 0x00000000; 0x0884b583; 0x000134b7; 0x0d013483; 0x00000000;
    0x0884b603; 0x000144b7; 0x11013483; 0x00000000; 0x0884b683; 0x000154b7; 0x15013483; 0x00000000;
    0x0884b703; 0x000164b7; 0x19013483; 0x00000000; 0x0884b783; 0x000174b7; 0x1d013483; 0x00000000;
    0x0c84b403; 0x000184b7; 0x01813483; 0x00000000; 0x0c84b483; 0x000194b7; 0x05813483; 0x00000000;
    0x0c84b503; 0x0001a4b7; 0x09813483; 0x00000000; 0x0c84b583; 0x0001b4b7; 0x0d813483; 0x00000000;
    0x0c84b603; 0x0001c4b7; 0x11813483; 0x00000000; 0x0c84b683; 0x0001d4b7; 0x15813483; 0x00000000;
    0x0c84b703; 0x0001e4b7; 0x19813483; 0x00000000; 0x0c84b783; 0x0001f4b7; 0x1d813483; 0x00000000;
    0x00853403; 0x00000000; 0x00013503; 0x00000000; 0x00853483; 0x00001537; 0x04013503; 0x00000000;
    0x00853503; 0x00002537; 0x08013503; 0x00000000; 0x00853583; 0x00003537; 0x0c013503; 0x00000000;
    0x00853603; 0x00004537; 0x10013503; 0x00000000; 0x00853683; 0x00005537; 0x14013503; 0x00000000;
    0x00853703; 0x00006537; 0x18013503; 0x00000000; 0x00853783; 0x00007537; 0x1c013503; 0x00000000;
    0x04853403; 0x00008537; 0x00813503; 0x00000000; 0x04853483; 0x00009537; 0x04813503; 0x00000000;
    0x04853503; 0x0000a537; 0x08813503; 0x00000000; 0x04853583; 0x0000b537; 0x0c813503; 0x00000000;
    0x04853603; 0x0000c537; 0x10813503; 0x00000000; 0x04853683; 0x0000d537; 0x14813503; 0x00000000;
    0x04853703; 0x0000e537; 0x18813503; 0x00000000; 0x04853783; 0x0000f537; 0x1c813503; 0x00000000;
    0x08853403; 0x00010537; 0x01013503; 0x00000000; 0x08853483; 0x00011537; 0x05013503; 0x00000000;
    0x08853503; 0x00012537; 0x09013503; 0x00000000; 0x08853583; 0x00013537; 0x0d013503; 0x00000000;
    0x08853603; 0x00014537; 0x11013503; 0x00000000; 0x08853683; 0x00015537; 0x15013503; 0x00000000;
    0x08853703; 0x00016537; 0x19013503; 0x00000000; 0x08853783; 0x00017537; 0x1d013503; 0x00000000;
    0x0c853403; 0x00018537; 0x01813503; 0x00000000; 0x0c853483; 0x00019537; 0x05813503; 0x00000000;
    0x0c853503; 0x0001a537; 0x09813503; 0x00000000; 0x0c853583; 0x0001b537; 0x0d813503; 0x00000000;
    0x0c853603; 0x0001c537; 0x11813503; 0x00000000; 0x0c853683; 0x0001d537; 0x15813503; 0x00000000;
    0x0c853703; 0x0001e537; 0x19813503; 0x00000000; 0x0c853783; 0x0001f537; 0x1d813503; 0x00000000;
    0x0085b403; 0x00000000; 0x00013583; 0x00000000; 0x0085b483; 0x000015b7; 0x04013583; 0x00000000;
    0x0085b503; 0x000025b7; 0x08013583; 0x00000000; 0x0085b583; 0x000035b7; 0x0c013583; 0x00000000;
    0x0085b603; 0x000045b7; 0x10013583; 0x00000000; 0x0085b683; 0x000055b7; 0x14013583; 0x00000000;
    0x0085b703; 0x000065b7; 0x18013583; 0x00000000; 0x0085b783; 0x000075b7; 0x1c013583; 0x00000000;
    0x0485b403; 0x000085b7; 0x00813583; 0x00000000; 0x0485b483; 0x000095b7; 0x04813583; 0x00000000;
    0x0485b503; 0x0000a5b7; 0x08813583; 0x00000000; 0x0485b583; 0x0000b5b7; 0x0c813583; 0x00000000;
    0x0485b603; 0x0000c5b7; 0x10813583; 0x00000000; 0x0485b683; 0x0000d5b7; 0x14813583; 0x00000000;
    0x0485b703; 0x0000e5b7; 0x18813583; 0x00000000; 0x0485b783; 0x0000f5b7; 0x1c813583; 0x00000000;
    0x0885b403; 0x000105b7; 0x01013583; 0x00000000; 0x0885b483; 0x000115b7; 0x05013583; 0x00000000;
    0x0885b503; 0x000125b7; 0x09013583; 0x00000000; 0x0885b583; 0x000135b7; 0x0d013583; 0x00000000;
    0x0885b603; 0x000145b7; 0x11013583; 0x00000000; 0x0885b683; 0x000155b7; 0x15013583; 0x00000000;
    0x0885b703; 0x000165b7; 0x19013583; 0x00000000; 0x0885b783; 0x000175b7; 0x1d013583; 0x00000000;
    0x0c85b403; 0x000185b7; 0x01813583; 0x00000000; 0x0c85b483; 0x000195b7; 0x05813583; 0x00000000;
    0x0c85b503; 0x0001a5b7; 0x09813583; 0x00000000; 0x0c85b583; 0x0001b5b7; 0x0d813583; 0x00000000;
    0x0c85b603; 0x0001c5b7; 0x11813583; 0x00000000; 0x0c85b683; 0x0001d5b7; 0x15813583; 0x00000000;
    0x0c85b703; 0x0001e5b7; 0x19813583; 0x00000000; 0x0c85b783; 0x0001f5b7; 0x1d813583; 0x00000000;
    0x00863403; 0x00000000; 0x00013603; 0x00000000; 0x00863483; 0x00001637; 0x04013603; 0x00000000;
    0x00863503; 0x00002637; 0x08013603; 0x00000000; 0x00863583; 0x00003637; 0x0c013603; 0x00000000;
    0x00863603; 0x00004637; 0x10013603; 0x00000000; 0x00863683; 0x00005637; 0x14013603; 0x00000000;
    0x00863703; 0x00006637; 0x18013603; 0x00000000; 0x00863783; 0x00007637; 0x1c013603; 0x00000000;
    0x04863403; 0x00008637; 0x00813603; 0x00000000; 0x04863483; 0x00009637; 0x04813603; 0x00000000;
    0x04863503; 0x0000a637; 0x08813603; 0x00000000; 0x04863583; 0x0000b637; 0x0c813603; 0x00000000;
    0x04863603; 0x0000c637; 0x10813603; 0x00000000; 0x04863683; 0x0000d637; 0x14813603; 0x00000000;
    0x04863703; 0x0000e637; 0x18813603; 0x00000000; 0x04863783; 0x0000f637; 0x1c813603; 0x00000000;
    0x08863403; 0x00010637; 0x01013603; 0x00000000; 0x08863483; 0x00011637; 0x05013603; 0x00000000;
    0x08863503; 0x00012637; 0x09013603; 0x00000000; 0x08863583; 0x00013637; 0x0d013603; 0x00000000;
    0x08863603; 0x00014637; 0x11013603; 0x00000000; 0x08863683; 0x00015637; 0x15013603; 0x00000000;
    0x08863703; 0x00016637; 0x19013603; 0x00000000; 0x08863783; 0x00017637; 0x1d013603; 0x00000000;
    0x0c863403; 0x00018637; 0x01813603; 0x00000000; 0x0c863483; 0x00019637; 0x05813603; 0x00000000;
    0x0c863503; 0x0001a637; 0x09813603; 0x00000000; 0x0c863583; 0x0001b637; 0x0d813603; 0x00000000;
    0x0c863603; 0x0001c637; 0x11813603; 0x00000000; 0x0c863683; 0x0001d637; 0x15813603; 0x00000000;
    0x0c863703; 0x0001e637; 0x19813603; 0x00000000; 0x0c863783; 0x0001f637; 0x1d813603; 0x00000000;
    0x0086b403; 0x00000000; 0x00013683; 0x00000000; 0x0086b483; 0x000016b7; 0x04013683; 0x00000000;
    0x0086b503; 0x000026b7; 0x08013683; 0x00000000; 0x0086b583; 0x000036b7; 0x0c013683; 0x00000000;
    0x0086b603; 0x000046b7; 0x10013683; 0x00000000; 0x0086b683; 0x000056b7; 0x14013683; 0x00000000;
    0x0086b703; 0x000066b7; 0x18013683; 0x00000000; 0x0086b783; 0x000076b7; 0x1c013683; 0x00000000;
    0x0486b403; 0x000086b7; 0x00813683; 0x00000000; 0x0486b483; 0x000096b7; 0x04813683; 0x00000000;
    0x0486b503; 0x0000a6b7; 0x08813683; 0x00000000; 0x0486b583; 0x0000b6b7; 0x0c813683; 0x00000000;
    0x0486b603; 0x0000c6b7; 0x10813683; 0x00000000; 0x0486b683; 0x0000d6b7; 0x14813683; 0x00000000;
    0x0486b703; 0x0000e6b7; 0x18813683; 0x00000000; 0x0486b783; 0x0000f6b7; 0x1c813683; 0x00000000;
    0x0886b403; 0x000106b7; 0x01013683; 0x00000000; 0x0886b483; 0x000116b7; 0x05013683; 0x00000000;
    0x0886b503; 0x000126b7; 0x09013683; 0x00000000; 0x0886b583; 0x000136b7; 0x0d013683; 0x00000000;
    0x0886b603; 0x000146b7; 0x11013683; 0x00000000; 0x0886b683; 0x000156b7; 0x15013683; 0x00000000;
    0x0886b703; 0x000166b7; 0x19013683; 0x00000000; 0x0886b783; 0x000176b7; 0x1d013683; 0x00000000;
    0x0c86b403; 0x000186b7; 0x01813683; 0x00000000; 0x0c86b483; 0x000196b7; 0x05813683; 0x00000000;
    0x0c86b503; 0x0001a6b7; 0x09813683; 0x00000000; 0x0c86b583; 0x0001b6b7; 0x0d813683; 0x00000000;
    0x0c86b603; 0x0001c6b7; 0x11813683; 0x00000000; 0x0c86b683; 0x0001d6b7; 0x15813683; 0x00000000;
    0x0c86b703; 0x0001e6b7; 0x19813683; 0x00000000; 0x0c86b783; 0x0001f6b7; 0x1d813683; 0x00000000;
    0x00873403; 0x00000000; 0x00013703; 0x00000000; 0x00873483; 0x00001737; 0x04013703; 0x00000000;
    0x00873503; 0x00002737; 0x08013703; 0x00000000; 0x00873583; 0x00003737; 0x0c013703; 0x00000000;
    0x00873603; 0x00004737; 0x10013703; 0x00000000; 0x00873683; 0x00005737; 0x14013703; 0x00000000;
    0x00873703; 0x00006737; 0x18013703; 0x00000000; 0x00873783; 0x00007737; 0x1c013703; 0x00000000;
    0x04873403; 0x00008737; 0x00813703; 0x00000000; 0x04873483; 0x00009737; 0x04813703; 0x00000000;
    0x04873503; 0x0000a737; 0x08813703; 0x00000000; 0x04873583; 0x0000b737; 0x0c813703; 0x00000000;
    0x04873603; 0x0000c737; 0x10813703; 0x00000000; 0x04873683; 0x0000d737; 0x14813703; 0x00000000;
    0x04873703; 0x0000e737; 0x18813703; 0x00000000; 0x04873783; 0x0000f737; 0x1c813703; 0x00000000;
    0x08873403; 0x00010737; 0x01013703; 0x00000000; 0x08873483; 0x00011737; 0x05013703; 0x00000000;
    0x08873503; 0x00012737; 0x09013703; 0x00000000; 0x08873583; 0x00013737; 0x0d013703; 0x00000000;
    0x08873603; 0x00014737; 0x11013703; 0x00000000; 0x08873683; 0x00015737; 0x15013703; 0x00000000;
    0x08873703; 0x00016737; 0x19013703; 0x00000000; 0x08873783; 0x00017737; 0x1d013703; 0x00000000;
    0x0c873403; 0x00018737; 0x01813703; 0x00000000; 0x0c873483; 0x00019737; 0x05813703; 0x00000000;
    0x0c873503; 0x0001a737; 0x09813703; 0x00000000; 0x0c873583; 0x0001b737; 0x0d813703; 0x00000000;
    0x0c873603; 0x0001c737; 0x11813703; 0x00000000; 0x0c873683; 0x0001d737; 0x15813703; 0x00000000;
    0x0c873703; 0x0001e737; 0x19813703; 0x00000000; 0x0c873783; 0x0001f737; 0x1d813703; 0x00000000;
    0x0087b403; 0x00000000; 0x00013783; 0x00000000; 0x0087b483; 0x000017b7; 0x04013783; 0x00000000;
    0x0087b503; 0x000027b7; 0x08013783; 0x00000000; 0x0087b583; 0x000037b7; 0x0c013783; 0x00000000;
    0x0087b603; 0x000047b7; 0x10013783; 0x00000000; 0x0087b683; 0x000057b7; 0x14013783; 0x00000000;
    0x0087b703; 0x000067b7; 0x18013783; 0x00000000; 0x0087b783; 0x000077b7; 0x1c013783; 0x00000000;
    0x0487b403; 0x000087b7; 0x00813783; 0x00000000; 0x0487b483; 0x000097b7; 0x04813783; 0x00000000;
    0x0487b503; 0x0000a7b7; 0x08813783; 0x00000000; 0x0487b583; 0x0000b7b7; 0x0c813783; 0x00000000;
    0x0487b603; 0x0000c7b7; 0x10813783; 0x00000000; 0x0487b683; 0x0000d7b7; 0x14813783; 0x00000000;
    0x0487b703; 0x0000e7b7; 0x18813783; 0x00000000; 0x0487b783; 0x0000f7b7; 0x1c813783; 0x00000000;
    0x0887b403; 0x000107b7; 0x01013783; 0x00000000; 0x0887b483; 0x000117b7; 0x05013783; 0x00000000;
    0x0887b503; 0x000127b7; 0x09013783; 0x00000000; 0x0887b583; 0x000137b7; 0x0d013783; 0x00000000;
    0x0887b603; 0x000147b7; 0x11013783; 0x00000000; 0x0887b683; 0x000157b7; 0x15013783; 0x00000000;
    0x0887b703; 0x000167b7; 0x19013783; 0x00000000; 0x0887b783; 0x000177b7; 0x1d013783; 0x00000000;
    0x0c87b403; 0x000187b7; 0x01813783; 0x00000000; 0x0c87b483; 0x000197b7; 0x05813783; 0x00000000;
    0x0c87b503; 0x0001a7b7; 0x09813783; 0x00000000; 0x0c87b583; 0x0001b7b7; 0x0d813783; 0x00000000;
    0x0c87b603; 0x0001c7b7; 0x11813783; 0x00000000; 0x0c87b683; 0x0001d7b7; 0x15813783; 0x00000000;
    0x0c87b703; 0x0001e7b7; 0x19813783; 0x00000000; 0x0c87b783; 0x0001f7b7; 0x1d813783; 0x00000000
].

(** parcels 0x6800 to 0x6bff *)
Definition RVC64_EXPANDED_26 : list Z := [
    0x01043403; 0x00000000; 0x00013803; 0x00000000; 0x01043483; 0x00001837; 0x04013803; 0x00000000;
    0x01043503; 0x00002837; 0x08013803; 0x00000000; 0x01043583; 0x00003837; 0x0c013803; 0x00000000;
    0x01043603; 0x00004837; 0x10013803; 0x00000000; 0x01043683; 0x00005837; 0x14013803; 0x00000000;
    0x01043703; 0x00006837; 0x18013803; 0x00000000; 0x01043783; 0x00007837; 0x1c013803; 0x00000000;
    0x05043403; 0x00008837; 0x00813803; 0x00000000; 0x05043483; 0x00009837; 0x04813803; 0x00000000;
    0x05043503; 0x0000a837; 0x08813803; 0x00000000; 0x05043583; 0x0000b837; 0x0c813803; 0x00000000;
    0x05043603; 0x0000c837; 0x10813803; 0x00000000; 0x05043683; 0x0000d837; 0x14813803; 0x00000000;
    0x05043703; 0x0000e837; 0x18813803; 0x00000000; 0x05043783; 0x0000f837; 0x1c813803; 0x00000000;
    0x09043403; 0x00010837; 0x01013803; 0x00000000; 0x09043483; 0x00011837; 0x05013803; 0x00000000;
    0x09043503; 0x00012837; 0x09013803; 0x00000000; 0x09043583; 0x00013837; 0x0d013803; 0x00000000;
    0x09043603; 0x00014837; 0x11013803; 0x00000000; 0x09043683; 0x00015837; 0x15013803; 0x00000000;
    0x09043703; 0x00016837; 0x19013803; 0x00000000; 0x09043783; 0x00017837; 0x1d013803; 0x00000000;
    0x0d043403; 0x00018837; 0x01813803; 0x00000000; 0x0d043483; 0x00019837; 0x05813803; 0x00000000;
    0x0d043503; 0x0001a837; 0x09813803; 0x00000000; 0x0d043583; 0x0001b837; 0x0d813803; 0x00000000;
    0x0d043603; 0x0001c837; 0x11813803; 0x00000000; 0x0d043683; 0x0001d837; 0x15813803; 0x00000000;
    0x0d043703; 0x0001e837; 0x19813803; 0x00000000; 0x0d043783; 0x0001f837; 0x1d813803; 0x00000000;
    0x0104b403; 0x00000000; 0x00013883; 0x00000000; 0x0104b483; 0x000018b7; 0x04013883; 0x00000000;
    0x0104b503; 0x000028b7; 0x08013883; 0x00000000; 0x0104b583; 0x000038b7; 0x0c013883; 0x00000000;
    0x0104b603; 0x000048b7; 0x10013883; 0x00000000; 0x0104b683; 0x000058b7; 0x14013883; 0x00000000;
    0x0104b703; 0x000068b7; 0x18013883; 0x00000000; 0x0104b783; 0x000078b7; 0x1c013883; 0x00000000;
    0x0504b403; 0x000088b7; 0x00813883; 0x00000000; 0x0504b483; 0x000098b7; 0x04813883; 0x00000000;
    0x0504b503; 0x0000a8b7; 0x08813883; 0x00000000; 0x0504b583; 0x0000b8b7; 0x0c813883; 0x00000000;
    0x0504b603; 0x0000c8b7; 0x10813883; 0x00000000; 0x0504b683; 0x0000d8b7; 0x14813883; 0x00000000;
    0x0504b703; 0x0000e8b7; 0x18813883; 0x00000000; 0x0504b783; 0x0000f8b7; 0x1c813883; 0x00000000;
    0x0904b403; 0x000108b7; 0x01013883; 0x00000000; 0x0904b483; 0x000118b7; 0x05013883; 0x00000000;
    0x0904b503; 0x000128b7; 0x09013883; 0x00000000; 0x0904b583; 0x000138b7; 0x0d013883; 0x00000000;
    0x0904b603; 0x000148b7; 0x11013883; 0x00000000; 0x0904b683; 0x000158b7; 0x15013883; 0x00000000;
    0x0904b703; 0x000168b7; 0x19013883; 0x00000000; 0x0904b783; 0x000178b7; 0x1d013883; 0x00000000;
    0x0d04b403; 0x000188b7; 0x01813883; 0x00000000; 0x0d04b483; 0x000198b7; 0x05813883; 0x00000000;
    0x0d04b503; 0x0001a8b7; 0x09813883; 0x00000000; 0x0d04b583; 0x0001b8b7; 0x0d813883; 0x00000000;
    0x0d04b603; 0x0001c8b7; 0x11813883; 0x00000000; 0x0d04b683; 0x0001d8b7; 0x15813883; 0x00000000;
    0x0d04b703; 0x0001e8b7; 0x19813883; 0x00000000; 0x0d04b783; 0x0001f8b7; 0x1d813883; 0x00000000;
    0x01053403; 0x00000000; 0x00013903; 0x00000000; 0x01053483; 0x00001937; 0x04013903; 0x00000000;
    0x01053503; 0x00002937; 0x08013903; 0x00000000; 0x01053583; 0x00003937; 0x0c013903; 0x00000000;
    0x01053603; 0x00004937; 0x10013903; 0x00000000; 0x01053683; 0x00005937; 0x14013903; 0x00000000;
    0x01053703; 0x00006937; 0x18013903; 0x00000000; 0x01053783; 0x00007937; 0x1c013903; 0x00000000;
    0x05053403; 0x00008937; 0x00813903; 0x00000000; 0x05053483; 0x00009937; 0x04813903; 0x00000000;
    0x05053503; 0x0000a937; 0x08813903; 0x00000000; 0x05053583; 0x0000b937; 0x0c813903; 0x00000000;
    0x05053603; 0x0000c937; 0x10813903; 0x00000000; 0x05053683; 0x0000d937; 0x14813903; 0x00000000;
    0x05053703; 0x0000e937; 0x18813903; 0x00000000; 0x05053783; 0x0000f937; 0x1c813903; 0x00000000;
    0x09053403; 0x00010937; 0x01013903; 0x00000000; 0x09053483; 0x00011937; 0x05013903; 0x00000000;
    0x09053503; 0x00012937; 0x09013903; 0x00000000; 0x09053583; 0x00013937; 0x0d013903; 0x00000000;
    0x09053603; 0x00014937; 0x11013903; 0x00000000; 0x09053683; 0x00015937; 0x15013903; 0x00000000;
    0x09053703; 0x00016937; 0x19013903; 0x00000000; 0x09053783; 0x00017937; 0x1d013903; 0x00000000;
    0x0d053403; 0x00018937; 0x01813903; 0x00000000; 0x0d053483; 0x00019937; 0x05813903; 0x00000000;
    0x0d053503; 0x0001a937; 0x09813903; 0x00000000; 0x0d053583; 0x0001b937; 0x0d813903; 0x00000000;
    0x0d053603; 0x0001c937; 0x11813903; 0x00000000; 0x0d053683; 0x0001d937; 0x15813903; 0x00000000;
    0x0d053703; 0x0001e937; 0x19813903; 0x00000000; 0x0d053783; 0x0001f937; 0x1d813903; 0x00000000;
    0x0105b403; 0x00000000; 0x00013983; 0x00000000; 0x0105b483; 0x000019b7; 0x04013983; 0x00000000;
    0x0105b503; 0x000029b7; 0x08013983; 0x00000000; 0x0105b583; 0x000039b7; 0x0c013983; 0x00000000;
    0x0105b603; 0x000049b7; 0x10013983; 0x00000000; 0x0105b683; 0x000059b7; 0x14013983; 0x00000000;
    0x0105b703; 0x000069b7; 0x18013983; 0x00000000; 0x0105b783; 0x000079b7; 0x1c013983; 0x00000000;
    0x0505b403; 0x000089b7; 0x00813983; 0x00000000; 0x0505b483; 0x000099b7; 0x04813983; 0x00000000;
    0x0505b503; 0x0000a9b7; 0x08813983; 0x00000000; 0x0505b583; 0x0000b9b7; 0x0c813983; 0x00000000;
    0x0505b603; 0x0000c9b7; 0x10813983; 0x00000000; 0x0505b683; 0x0000d9b7; 0x14813983; 0x00000000;
    0x0505b703; 0x0000e9b7; 0x18813983; 0x00000000; 0x0505b783; 0x0000f9b7; 0x1c813983; 0x00000000;
    0x0905b403; 0x000109b7; 0x01013983; 0x00000000; 0x0905b483; 0x000119b7; 0x05013983; 0x00000000;
    0x0905b503; 0x000129b7; 0x09013983; 0x00000000; 0x0905b583; 0x000139b7; 0x0d013983; 0x00000000;
    0x0905b603; 0x000149b7; 0x11013983; 0x00000000; 0x0905b683; 0x000159b7; 0x15013983; 0x00000000;
    0x0905b703; 0x000169b7; 0x19013983; 0x00000000; 0x0905b783; 0x000179b7; 0x1d013983; 0x00000000;
    0x0d05b403; 0x000189b7; 0x01813983; 0x00000000; 0x0d05b483; 0x000199b7; 0x05813983; 0x00000000;
    0x0d05b503; 0x0001a9b7; 0x09813983; 0x00000000; 0x0d05b583; 0x0001b9b7; 0x0d813983; 0x00000000;
    0x0d05b603; 0x0001c9b7; 0x11813983; 0x00000000; 0x0d05b683; 0x0001d9b7; 0x15813983; 0x00000000;
    0x0d05b703; 0x0001e9b7; 0x19813983; 0x00000000; 0x0d05b783; 0x0001f9b7; 0x1d813983; 0x00000000;
    0x01063403; 0x00000000; 0x00013a03; 0x00000000; 0x01063483; 0x00001a37; 0x04013a03; 0x00000000;
    0x01063503; 0x00002a37; 0x08013a03; 0x00000000; 0x01063583; 0x00003a37; 0x0c013a03; 0x00000000;
    0x01063603; 0x00004a37; 0x10013a03; 0x00000000; 0x01063683; 0x00005a37; 0x14013a03; 0x00000000;
    0x01063703; 0x00006a37; 0x18013a03; 0x00000000; 0x01063783; 0x00007a37; 0x1c013a03; 0x00000000;
    0x05063403; 0x00008a37; 0x00813a03; 0x00000000; 0x05063483; 0x00009a37; 0x04813a03; 0x00000000;
    0x05063503; 0x0000aa37; 0x08813a03; 0x00000000; 0x05063583; 0x0000ba37; 0x0c813a03; 0x00000000;
    0x05063603; 0x0000ca37; 0x10813a03; 0x00000000; 0x05063683; 0x0000da37; 0x14813a03; 0x00000000;
    0x05063703; 0x0000ea37; 0x18813a03; 0x00000000; 0x05063783; 0x0000fa37; 0x1c813a03; 0x00000000;
    0x09063403; 0x00010a37; 0x01013a03; 0x00000000; 0x09063483; 0x00011a37; 0x05013a03; 0x00000000;
    0x09063503; 0x00012a37; 0x09013a03; 0x00000000; 0x09063583; 0x00013a37; 0x0d013a03; 0x00000000;
    0x09063603; 0x00014a37; 0x11013a03; 0x00000000; 0x09063683; 0x00015a37; 0x15013a03; 0x00000000;
    0x09063703; 0x00016a37; 0x19013a03; 0x00000000; 0x09063783; 0x00017a37; 0x1d013a03; 0x00000000;
    0x0d063403; 0x00018a37; 0x01813a03; 0x00000000; 0x0d063483; 0x00019a37; 0x05813a03; 0x00000000;
    0x0d063503; 0x0001aa37; 0x09813a03; 0x00000000; 0x0d063583; 0x0001ba37; 0x0d813a03; 0x00000000;
    0x0d063603; 0x0001ca37; 0x11813a03; 0x00000000; 0x0d063683; 0x0001da37; 0x15813a03; 0x00000000;
    0x0d063703; 0x0001ea37; 0x19813a03; 0x00000000; 0x0d063783; 0x0001fa37; 0x1d813a03; 0x00000000;
    0x0106b403; 0x00000000; 0x00013a83; 0x00000000; 0x0106b483; 0x00001ab7; 0x04013a83; 0x00000000;
    0x0106b503; 0x00002ab7; 0x08013a83; 0x00000000; 0x0106b583; 0x00003ab7; 0x0c013a83; 0x00000000;
    0x0106b603; 0x00004ab7; 0x10013a83; 0x00000000; 0x0106b683; 0x00005ab7; 0x14013a83; 0x00000000;
    0x0106b703; 0x00006ab7; 0x18013a83; 0x00000000; 0x0106b783; 0x00007ab7; 0x1c013a83; 0x00000000;
    0x0506b403; 0x00008ab7; 0x00813a83; 0x00000000; 0x0506b483; 0x00009ab7; 0x04813a83; 0x00000000;
    0x0506b503; 0x0000aab7; 0x08813a83; 0x00000000; 0x0506b583; 0x0000bab7; 0x0c813a83; 0x00000000;
    0x0506b603; 0x0000cab7; 0x10813a83; 0x00000000; 0x0506b683; 0x0000dab7; 0x14813a83; 0x00000000;
    0x0506b703; 0x0000eab7; 0x18813a83; 0x00000000; 0x0506b783; 0x0000fab7; 0x1c813a83; 0x00000000;
    0x0906b403; 0x00010ab7; 0x01013a83; 0x00000000; 0x0906b483; 0x00011ab7; 0x05013a83; 0x00000000;
    0x0906b503; 0x00012ab7; 0x09013a83; 0x00000000; 0x0906b583; 0x00013ab7; 0x0d013a83; 0x00000000;
    0x0906b603; 0x00014ab7; 0x11013a83; 0x00000000; 0x0906b683; 0x00015ab7; 0x15013a83; 0x00000000;
    0x0906b703; 0x00016ab7; 0x19013a83; 0x00000000; 0x0906b783; 0x00017ab7; 0x1d013a83; 0x00000000;
    0x0d06b403; 0x00018ab7; 0x01813a83; 0x00000000; 0x0d06b483; 0x00019ab7; 0x05813a83; 0x00000000;
    0x0d06b503; 0x0001aab7; 0x09813a83; 0x00000000; 0x0d06b583; 0x0001bab7; 0x0d813a83; 0x00000000;
    0x0d06b603; 0x0001cab7; 0x11813a83; 0x00000000; 0x0d06b683; 0x0001dab7; 0x15813a83; 0x00000000;
    0x0d06b703; 0x0001eab7; 0x19813a83; 0x00000000; 0x0d06b783; 0x0001fab7; 0x1d813a83; 0x00000000;
    0x01073403; 0x00000000; 0x00013b03; 0x00000000; 0x01073483; 0x00001b37; 0x04013b03; 0x00000000;
    0x01073503; 0x00002b37; 0x08013b03; 0x00000000; 0x01073583; 0x00003b37; 0x0c013b03; 0x00000000;
    0x01073603; 0x00004b37; 0x10013b03; 0x00000000; 0x01073683; 0x00005b37; 0x14013b03; 0x00000000;
    0x01073703; 0x00006b37; 0x18013b03; 0x00000000; 0x01073783; 0x00007b37; 0x1c013b03; 0x00000000;
    0x05073403; 0x00008b37; 0x00813b03; 0x00000000; 0x05073483; 0x00009b37; 0x04813b03; 0x00000000;
    0x05073503; 0x0000ab37; 0x08813b03; 0x00000000; 0x05073583; 0x0000bb37; 0x0c813b03; 0x00000000;
    0x05073603; 0x0000cb37; 0x10813b03; 0x00000000; 0x05073683; 0x0000db37; 0x14813b03; 0x00000000;
    0x05073703; 0x0000eb37; 0x18813b03; 0x00000000; 0x05073783; 0x0000fb37; 0x1c813b03; 0x00000000;
    0x09073403; 0x00010b37; 0x01013b03; 0x00000000; 0x09073483; 0x00011b37; 0x05013b03; 0x00000000;
    0x09073503; 0x00012b37; 0x09013b03; 0x00000000; 0x09073583; 0x00013b37; 0x0d013b03; 0x00000000;
    0x09073603; 0x00014b37; 0x11013b03; 0x00000000; 0x09073683; 0x00015b37; 0x15013b03; 0x00000000;
    0x09073703; 0x00016b37; 0x19013b03; 0x00000000; 0x09073783; 0x00017b37; 0x1d013b03; 0x00000000;
    0x0d073403; 0x00018b37; 0x01813b03; 0x00000000; 0x0d073483; 0x00019b37; 0x05813b03; 0x00000000;
    0x0d073503; 0x0001ab37; 0x09813b03; 0x00000000; 0x0d073583; 0x0001bb37; 0x0d813b03; 0x00000000;
    0x0d073603; 0x0001cb37; 0x11813b03; 0x00000000; 0x0d073683; 0x0001db37; 0x15813b03; 0x00000000;
    0x0d073703; 0x0001eb37; 0x19813b03; 0x00000000; 0x0d073783; 0x0001fb37; 0x1d813b03; 0x00000000;
    0x0107b403; 0x00000000; 0x00013b83; 0x00000000; 0x0107b483; 0x00001bb7; 0x04013b83; 0x00000000;
    0x0107b503; 0x00002bb7; 0x08013b83; 0x00000000; 0x0107b583; 0x00003bb7; 0x0c013b83; 0x00000000;
    0x0107b603; 0x00004bb7; 0x10013b83; 0x00000000; 0x0107b683; 0x00005bb7; 0x14013b83; 0x00000000;
    0x0107b703; 0x00006bb7; 0x18013b83; 0x00000000; 0x0107b783; 0x00007bb7; 0x1c013b83; 0x00000000;
    0x0507b403; 0x00008bb7; 0x00813b83; 0x00000000; 0x0507b483; 0x00009bb7; 0x04813b83; 0x00000000;
    0x0507b503; 0x0000abb7; 0x08813b83; 0x00000000; 0x0507b583; 0x0000bbb7; 0x0c813b83; 0x00000000;
    0x0507b603; 0x0000cbb7; 0x10813b83; 0x00000000; 0x0507b683; 0x0000dbb7; 0x14813b83; 0x00000000;
    0x0507b703; 0x0000ebb7; 0x18813b83; 0x00000000; 0x0507b783; 0x0000fbb7; 0x1c813b83; 0x00000000;
    0x0907b403; 0x00010bb7; 0x01013b83; 0x00000000; 0x0907b483; 0x00011bb7; 0x05013b83; 0x00000000;
    0x0907b503; 0x00012bb7; 0x09013b83; 0x00000000; 0x0907b583; 0x00013bb7; 0x0d013b83; 0x00000000;
    0x0907b603; 0x00014bb7; 0x11013b83; 0x00000000; 0x0907b683; 0x00015bb7; 0x15013b83; 0x00000000;
    0x0907b703; 0x00016bb7; 0x19013b83; 0x00000000; 0x0907b783; 0x00017bb7; 0x1d013b83; 0x00000000;
    0x0d07b403; 0x00018bb7; 0x01813b83; 0x00000000; 0x0d07b483; 0x00019bb7; 0x05813b83; 0x00000000;
    0x0d07b503; 0x0001abb7; 0x09813b83; 0x00000000; 0x0d07b583; 0x0001bbb7; 0x0d813b83; 0x00000000;
    0x0d07b603; 0x0001cbb7; 0x11813b83; 0x00000000; 0x0d07b683; 0x0001dbb7; 0x15813b83; 0x00000000;
    0x0d07b703; 0x0001ebb7; 0x19813b83; 0x00000000; 0x0d07b783; 0x0001fbb7; 0x1d813b83; 0x00000000
].

(** parcels 0x6c00 to 0x6fff *)
Definition RVC64_EXPANDED_27 : list Z := [
    0x01843403; 0x00000000; 0x00013c03; 0x00000000; 0x01843483; 0x00001c37; 0x04013c03; 0x00000000;
    0x01843503; 0x00002c37; 0x08013c03; 0x00000000; 0x01843583; 0x00003c37; 0x0c013c03; 0x00000000;
    0x01843603; 0x00004c37; 0x10013c03; 0x00000000; 0x01843683; 0x00005c37; 0x14013c03; 0x00000000;
    0x01843703; 0x00006c37; 0x18013c03; 0x00000000; 0x01843783; 0x00007c37; 0x1c013c03; 0x00000000;
    0x05843403; 0x00008c37; 0x00813c03; 0x00000000; 0x05843483; 0x00009c37; 0x04813c03; 0x00000000;
    0x05843503; 0x0000ac37; 0x08813c03; 0x00000000; 0x05843583; 0x0000bc37; 0x0c813c03; 0x00000000;
    0x05843603; 0x0000cc37; 0x10813c03; 0x00000000; 0x05843683; 0x0000dc37; 0x14813c03; 0x00000000;
    0x05843703; 0x0000ec37; 0x18813c03; 0x00000000; 0x05843783; 0x0000fc37; 0x1c813c03; 0x00000000;
    0x09843403; 0x00010c37; 0x01013c03; 0x00000000; 0x09843483; 0x00011c37; 0x05013c03; 0x00000000;
    0x09843503; 0x00012c37; 0x09013c03; 0x00000000; 0x09843583; 0x00013c37; 0x0d013c03; 0x00000000;
    0x09843603; 0x00014c37; 0x11013c03; 0x00000000; 0x09843683; 0x00015c37; 0x15013c03; 0x00000000;
    0x09843703; 0x00016c37; 0x19013c03; 0x00000000; 0x09843783; 0x00017c37; 0x1d013c03; 0x00000000;
    0x0d843403; 0x00018c37; 0x01813c03; 0x00000000; 0x0d843483; 0x00019c37; 0x05813c03; 0x00000000;
    0x0d843503; 0x0001ac37; 0x09813c03; 0x00000000; 0x0d843583; 0x0001bc37; 0x0d813c03; 0x00000000;
    0x0d843603; 0x0001cc37; 0x11813c03; 0x00000000; 0x0d843683; 0x0001dc37; 0x15813c03; 0x00000000;
    0x0d843703; 0x0001ec37; 0x19813c03; 0x00000000; 0x0d843783; 0x0001fc37; 0x1d813c03; 0x00000000;
    0x0184b403; 0x00000000; 0x00013c83; 0x00000000; 0x0184b483; 0x00001cb7; 0x04013c83; 0x00000000;
    0x0184b503; 0x00002cb7; 0x08013c83; 0x00000000; 0x0184b583; 0x00003cb7; 0x0c013c83; 0x00000000;
    0x0184b603; 0x00004cb7; 0x10013c83; 0x00000000; 0x0184b683; 0x00005cb7; 0x14013c83; 0x00000000;
    0x0184b703; 0x00006cb7; 0x18013c83; 0x00000000; 0x0184b783; 0x00007cb7; 0x1c013c83; 0x00000000;
    0x0584b403; 0x00008cb7; 0x00813c83; 0x00000000; 0x0584b483; 0x00009cb7; 0x04813c83; 0x00000000;
    0x0584b503; 0x0000acb7; 0x08813c83; 0x00000000; 0x0584b583; 0x0000bcb7; 0x0c813c83; 0x00000000;
    0x0584b603; 0x0000ccb7; 0x10813c83; 0x00000000; 0x0584b683; 0x0000dcb7; 0x14813c83; 0x00000000;
    0x0584b703; 0x0000ecb7; 0x18813c83; 0x00000000; 0x0584b783; 0x0000fcb7; 0x1c813c83; 0x00000000;
    0x0984b403; 0x00010cb7; 0x01013c83; 0x00000000; 0x0984b483; 0x00011cb7; 0x05013c83; 0x00000000;
    0x0984b503; 0x00012cb7; 0x09013c83; 0x00000000; 0x0984b583; 0x00013cb7; 0x0d013c83; 0x00000000;
    0x0984b603; 0x00014cb7; 0x11013c83; 0x00000000; 0x0984b683; 0x00015cb7; 0x15013c83; 0x00000000;
    0x0984b703; 0x00016cb7; 0x19013c83; 0x00000000; 0x0984b783; 0x00017cb7; 0x1d013c83; 0x00000000;
    0x0d84b403; 0x00018cb7; 0x01813c83; 0x00000000; 0x0d84b483; 0x00019cb7; 0x05813c83; 0x00000000;
    0x0d84b503; 0x0001acb7; 0x09813c83; 0x00000000; 0x0d84b583; 0x0001bcb7; 0x0d813c83; 0x00000000;
    0x0d84b603; 0x0001ccb7; 0x11813c83; 0x00000000; 0x0d84b683; 0x0001dcb7; 0x15813c83; 0x00000000;
    0x0d84b703; 0x0001ecb7; 0x19813c83; 0x00000000; 0x0d84b783; 0x0001fcb7; 0x1d813c83; 0x00000000;
    0x01853403; 0x00000000; 0x00013d03; 0x00000000; 0x01853483; 0x00001d37; 0x04013d03; 0x00000000;
    0x01853503; 0x00002d37; 0x08013d03; 0x00000000; 0x01853583; 0x00003d37; 0x0c013d03; 0x00000000;
    0x01853603; 0x00004d37; 0x10013d03; 0x00000000; 0x01853683; 0x00005d37; 0x14013d03; 0x00000000;
    0x01853703; 0x00006d37; 0x18013d03; 0x00000000; 0x01853783; 0x00007d37; 0x1c013d03; 0x00000000;
    0x05853403; 0x00008d37; 0x00813d03; 0x00000000; 0x05853483; 0x00009d37; 0x04813d03; 0x00000000;
    0x05853503; 0x0000ad37; 0x08813d03; 0x00000000; 0x05853583; 0x0000bd37; 0x0c813d03; 0x00000000;
    0x05853603; 0x0000cd37; 0x10813d03; 0x00000000; 0x05853683; 0x0000dd37; 0x14813d03; 0x00000000;
    0x05853703; 0x0000ed37; 0x18813d03; 0x00000000; 0x05853783; 0x0000fd37; 0x1c813d03; 0x00000000;
    0x09853403; 0x00010d37; 0x01013d03; 0x00000000; 0x09853483; 0x00011d37; 0x05013d03; 0x00000000;
    0x09853503; 0x00012d37; 0x09013d03; 0x00000000; 0x09853583; 0x00013d37; 0x0d013d03; 0x00000000;
    0x09853603; 0x00014d37; 0x11013d03; 0x00000000; 0x09853683; 0x00015d37; 0x15013d03; 0x00000000;
    0x09853703; 0x00016d37; 0x19013d03; 0x00000000; 0x09853783; 0x00017d37; 0x1d013d03; 0x00000000;
    0x0d853403; 0x00018d37; 0x01813d03; 0x00000000; 0x0d853483; 0x00019d37; 0x05813d03; 0x00000000;
    0x0d853503; 0x0001ad37; 0x09813d03; 0x00000000; 0x0d853583; 0x0001bd37; 0x0d813d03; 0x00000000;
    0x0d853603; 0x0001cd37; 0x11813d03; 0x00000000; 0x0d853683; 0x0001dd37; 0x15813d03; 0x00000000;
    0x0d853703; 0x0001ed37; 0x19813d03; 0x00000000; 0x0d853783; 0x0001fd37; 0x1d813d03; 0x00000000;
    0x0185b403; 0x00000000; 0x00013d83; 0x00000000; 0x0185b483; 0x00001db7; 0x04013d83; 0x00000000;
    0x0185b503; 0x00002db7; 0x08013d83; 0x00000000; 0x0185b583; 0x00003db7; 0x0c013d83; 0x00000000;
    0x0185b603; 0x00004db7; 0x10013d83; 0x00000000; 0x0185b683; 0x00005db7; 0x14013d83; 0x00000000;
    0x0185b703; 0x00006db7; 0x18013d83; 0x00000000; 0x0185b783; 0x00007db7; 0x1c013d83; 0x00000000;
    0x0585b403; 0x00008db7; 0x00813d83; 0x00000000; 0x0585b483; 0x00009db7; 0x04813d83; 0x00000000;
    0x0585b503; 0x0000adb7; 0x08813d83; 0x00000000; 0x0585b583; 0x0000bdb7; 0x0c813d83; 0x00000000;
    0x0585b603; 0x0000cdb7; 0x10813d83; 0x00000000; 0x0585b683; 0x0000ddb7; 0x14813d83; 0x00000000;
    0x0585b703; 0x0000edb7; 0x18813d83; 0x00000000; 0x0585b783; 0x0000fdb7; 0x1c813d83; 0x00000000;
    0x0985b403; 0x00010db7; 0x01013d83; 0x00000000; 0x0985b483; 0x00011db7; 0x05013d83; 0x00000000;
    0x0985b503; 0x00012db7; 0x09013d83; 0x00000000; 0x0985b583; 0x00013db7; 0x0d013d83; 0x00000000;
    0x0985b603; 0x00014db7; 0x11013d83; 0x00000000; 0x0985b683; 0x00015db7; 0x15013d83; 0x00000000;
    0x0985b703; 0x00016db7; 0x19013d83; 0x00000000; 0x0985b783; 0x00017db7; 0x1d013d83; 0x00000000;
    0x0d85b403; 0x00018db7; 0x01813d83; 0x00000000; 0x0d85b483; 0x00019db7; 0x05813d83; 0x00000000;
    0x0d85b503; 0x0001adb7; 0x09813d83; 0x00000000; 0x0d85b583; 0x0001bdb7; 0x0d813d83; 0x00000000;
    0x0d85b603; 0x0001cdb7; 0x11813d83; 0x00000000; 0x0d85b683; 0x0001ddb7; 0x15813d83; 0x00000000;
    0x0d85b703; 0x0001edb7; 0x19813d83; 0x00000000; 0x0d85b783; 0x0001fdb7; 0x1d813d83; 0x00000000;
    0x01863403; 0x00000000; 0x00013e03; 0x00000000; 0x01863483; 0x00001e37; 0x04013e03; 0x00000000;
    0x01863503; 0x00002e37; 0x08013e03; 0x00000000; 0x01863583; 0x00003e37; 0x0c013e03; 0x00000000;
    0x01863603; 0x00004e37; 0x10013e03; 0x00000000; 0x01863683; 0x00005e37; 0x14013e03; 0x00000000;
    0x01863703; 0x00006e37; 0x18013e03; 0x00000000; 0x01863783; 0x00007e37; 0x1c013e03; 0x00000000;
    0x05863403; 0x00008e37; 0x00813e03; 0x00000000; 0x05863483; 0x00009e37; 0x04813e03; 0x00000000;
    0x05863503; 0x0000ae37; 0x08813e03; 0x00000000; 0x05863583; 0x0000be37; 0x0c813e03; 0x00000000;
    0x05863603; 0x0000ce37; 0x10813e03; 0x00000000; 0x05863683; 0x0000de37; 0x14813e03; 0x00000000;
    0x05863703; 0x0000ee37; 0x18813e03; 0x00000000; 0x05863783; 0x0000fe37; 0x1c813e03; 0x00000000;
    0x09863403; 0x00010e37; 0x01013e03; 0x00000000; 0x09863483; 0x00011e37; 0x05013e03; 0x00000000;
    0x09863503; 0x00012e37; 0x09013e03; 0x00000000; 0x09863583; 0x00013e37; 0x0d013e03; 0x00000000;
    0x09863603; 0x00014e37; 0x11013e03; 0x00000000; 0x09863683; 0x00015e37; 0x15013e03; 0x00000000;
    0x09863703; 0x00016e37; 0x19013e03; 0x00000000; 0x09863783; 0x00017e37; 0x1d013e03; 0x00000000;
    0x0d863403; 0x00018e37; 0x01813e03; 0x00000000; 0x0d863483; 0x00019e37; 0x05813e03; 0x00000000;
    0x0d863503; 0x0001ae37; 0x09813e03; 0x00000000; 0x0d863583; 0x0001be37; 0x0d813e03; 0x00000000;
    0x0d863603; 0x0001ce37; 0x11813e03; 0x00000000; 0x0d863683; 0x0001de37; 0x15813e03; 0x00000000;
    0x0d863703; 0x0001ee37; 0x19813e03; 0x00000000; 0x0d863783; 0x0001fe37; 0x1d813e03; 0x00000000;
    0x0186b403; 0x00000000; 0x00013e83; 0x00000000; 0x0186b483; 0x00001eb7; 0x04013e83; 0x00000000;
    0x0186b503; 0x00002eb7; 0x08013e83; 0x00000000; 0x0186b583; 0x00003eb7; 0x0c013e83; 0x00000000;
    0x0186b603; 0x00004eb7; 0x10013e83; 0x00000000; 0x0186b683; 0x00005eb7; 0x14013e83; 0x00000000;
    0x0186b703; 0x00006eb7; 0x18013e83; 0x00000000; 0x0186b783; 0x00007eb7; 0x1c013e83; 0x00000000;
    0x0586b403; 0x00008eb7; 0x00813e83; 0x00000000; 0x0586b483; 0x00009eb7; 0x04813e83; 0x00000000;
    0x0586b503; 0x0000aeb7; 0x08813e83; 0x00000000; 0x0586b583; 0x0000beb7; 0x0c813e83; 0x00000000;
    0x0586b603; 0x0000ceb7; 0x10813e83; 0x00000000; 0x0586b683; 0x0000deb7; 0x14813e83; 0x00000000;
    0x0586b703; 0x0000eeb7; 0x18813e83; 0x00000000; 0x0586b783; 0x0000feb7; 0x1c813e83; 0x00000000;
    0x0986b403; 0x00010eb7; 0x01013e83; 0x00000000; 0x0986b483; 0x00011eb7; 0x05013e83; 0x00000000;
    0x0986b503; 0x00012eb7; 0x09013e83; 0x00000000; 0x0986b583; 0x00013eb7; 0x0d013e83; 0x00000000;
    0x0986b603; 0x00014eb7; 0x11013e83; 0x00000000; 0x0986b683; 0x00015eb7; 0x15013e83; 0x00000000;
    0x0986b703; 0x00016eb7; 0x19013e83; 0x00000000; 0x0986b783; 0x00017eb7; 0x1d013e83; 0x00000000;
    0x0d86b403; 0x00018eb7; 0x01813e83; 0x00000000; 0x0d86b483; 0x00019eb7; 0x05813e83; 0x00000000;
    0x0d86b503; 0x0001aeb7; 0x09813e83; 0x00000000; 0x0d86b583; 0x0001beb7; 0x0d813e83; 0x00000000;
    0x0d86b603; 0x0001ceb7; 0x11813e83; 0x00000000; 0x0d86b683; 0x0001deb7; 0x15813e83; 0x00000000;
    0x0d86b703; 0x0001eeb7; 0x19813e83; 0x00000000; 0x0d86b783; 0x0001feb7; 0x1d813e83; 0x00000000;
    0x01873403; 0x00000000; 0x00013f03; 0x00000000; 0x01873483; 0x00001f37; 0x04013f03; 0x00000000;
    0x01873503; 0x00002f37; 0x08013f03; 0x00000000; 0x01873583; 0x00003f37; 0x0c013f03; 0x00000000;
    0x01873603; 0x00004f37; 0x10013f03; 0x00000000; 0x01873683; 0x00005f37; 0x14013f03; 0x00000000;
    0x01873703; 0x00006f37; 0x18013f03; 0x00000000; 0x01873783; 0x00007f37; 0x1c013f03; 0x00000000;
    0x05873403; 0x00008f37; 0x00813f03; 0x00000000; 0x05873483; 0x00009f37; 0x04813f03; 0x00000000;
    0x05873503; 0x0000af37; 0x08813f03; 0x00000000; 0x05873583; 0x0000bf37; 0x0c813f03; 0x00000000;
    0x05873603; 0x0000cf37; 0x10813f03; 0x00000000; 0x05873683; 0x0000df37; 0x14813f03; 0x00000000;
    0x05873703; 0x0000ef37; 0x18813f03; 0x00000000; 0x05873783; 0x0000ff37; 0x1c813f03; 0x00000000;
    0x09873403; 0x00010f37; 0x01013f03; 0x00000000; 0x09873483; 0x00011f37; 0x05013f03; 0x00000000;
    0x09873503; 0x00012f37; 0x09013f03; 0x00000000; 0x09873583; 0x00013f37; 0x0d013f03; 0x00000000;
    0x09873603; 0x00014f37; 0x11013f03; 0x00000000; 0x09873683; 0x00015f37; 0x15013f03; 0x00000000;
    0x09873703; 0x00016f37; 0x19013f03; 0x00000000; 0x09873783; 0x00017f37; 0x1d013f03; 0x00000000;
    0x0d873403; 0x00018f37; 0x01813f03; 0x00000000; 0x0d873483; 0x00019f37; 0x05813f03; 0x00000000;
    0x0d873503; 0x0001af37; 0x09813f03; 0x00000000; 0x0d873583; 0x0001bf37; 0x0d813f03; 0x00000000;
    0x0d873603; 0x0001cf37; 0x11813f03; 0x00000000; 0x0d873683; 0x0001df37; 0x15813f03; 0x00000000;
    0x0d873703; 0x0001ef37; 0x19813f03; 0x00000000; 0x0d873783; 0x0001ff37; 0x1d813f03; 0x00000000;
    0x0187b403; 0x00000000; 0x00013f83; 0x00000000; 0x0187b483; 0x00001fb7; 0x04013f83; 0x00000000;
    0x0187b503; 0x00002fb7; 0x08013f83; 0x00000000; 0x0187b583; 0x00003fb7; 0x0c013f83; 0x00000000;
    0x0187b603; 0x00004fb7; 0x10013f83; 0x00000000; 0x0187b683; 0x00005fb7; 0x14013f83; 0x00000000;
    0x0187b703; 0x00006fb7; 0x18013f83; 0x00000000; 0x0187b783; 0x00007fb7; 0x1c013f83; 0x00000000;
    0x0587b403; 0x00008fb7; 0x00813f83; 0x00000000; 0x0587b483; 0x00009fb7; 0x04813f83; 0x00000000;
    0x0587b503; 0x0000afb7; 0x08813f83; 0x00000000; 0x0587b583; 0x0000bfb7; 0x0c813f83; 0x00000000;
    0x0587b603; 0x0000cfb7; 0x10813f83; 0x00000000; 0x0587b683; 0x0000dfb7; 0x14813f83; 0x00000000;
    0x0587b703; 0x0000efb7; 0x18813f83; 0x00000000; 0x0587b783; 0x0000ffb7; 0x1c813f83; 0x00000000;
    0x0987b403; 0x00010fb7; 0x01013f83; 0x00000000; 0x0987b483; 0x00011fb7; 0x05013f83; 0x00000000;
    0x0987b503; 0x00012fb7; 0x09013f83; 0x00000000; 0x0987b583; 0x00013fb7; 0x0d013f83; 0x00000000;
    0x0987b603; 0x00014fb7; 0x11013f83; 0x00000000; 0x0987b683; 0x00015fb7; 0x15013f83; 0x00000000;
    0x0987b703; 0x00016fb7; 0x19013f83; 0x00000000; 0x0987b783; 0x00017fb7; 0x1d013f83; 0x00000000;
    0x0d87b403; 0x00018fb7; 0x01813f83; 0x00000000; 0x0d87b483; 0x00019fb7; 0x05813f83; 0x00000000;
    0x0d87b503; 0x0001afb7; 0x09813f83; 0x00000000; 0x0d87b583; 0x0001bfb7; 0x0d813f83; 0x00000000;
    0x0d87b603; 0x0001cfb7; 0x11813f83; 0x00000000; 0x0d87b683; 0x0001dfb7; 0x15813f83; 0x00000000;
    0x0d87b703; 0x0001efb7; 0x19813f83; 0x00000000; 0x0d87b783; 0x0001ffb7; 0x1d813f83; 0x00000000
].

(** parcels 0x7000 to 0x73ff *)
Definition RVC64_EXPANDED_28 : list Z := [
    0x02043403; 0xfffe0037; 0x00000000; 0x00000000; 0x02043483; 0xfffe1037; 0x00000000; 0x00000000;
    0x02043503; 0xfffe2037; 0x00000000; 0x00000000; 0x02043583; 0xfffe3037; 0x00000000; 0x00000000;
    0x02043603; 0xfffe4037; 0x00000000; 0x00000000; 0x02043683; 0xfffe5037; 0x00000000; 0x00000000;
    0x02043703; 0xfffe6037; 0x00000000; 0x00000000; 0x02043783; 0xfffe7037; 0x00000000; 0x00000000;
    0x06043403; 0xfffe8037; 0x00000000; 0x00000000; 0x06043483; 0xfffe9037; 0x00000000; 0x00000000;
    0x06043503; 0xfffea037; 0x00000000; 0x00000000; 0x06043583; 0xfffeb037; 0x00000000; 0x00000000;
    0x06043603; 0xfffec037; 0x00000000; 0x00000000; 0x06043683; 0xfffed037; 0x00000000; 0x00000000;
    0x06043703; 0xfffee037; 0x00000000; 0x00000000; 0x06043783; 0xfffef037; 0x00000000; 0x00000000;
    0x0a043403; 0xffff0037; 0x00000000; 0x00000000; 0x0a043483; 0xffff1037; 0x00000000; 0x00000000;
    0x0a043503; 0xffff2037; 0x00000000; 0x00000000; 0x0a043583; 0xffff3037; 0x00000000; 0x00000000;
    0x0a043603; 0xffff4037; 0x00000000; 0x00000000; 0x0a043683; 0xffff5037; 0x00000000; 0x00000000;
    0x0a043703; 0xffff6037; 0x00000000; 0x00000000; 0x0a043783; 0xffff7037; 0x00000000; 0x00000000;
    0x0e043403; 0xffff8037; 0x00000000; 0x00000000; 0x0e043483; 0xffff9037; 0x00000000; 0x00000000;
    0x0e043503; 0xffffa037; 0x00000000; 0x00000000; 0x0e043583; 0xffffb037; 0x00000000; 0x00000000;
    0x0e043603; 0xffffc037; 0x00000000; 0x00000000; 0x0e043683; 0xffffd037; 0x00000000; 0x00000000;
    0x0e043703; 0xffffe037; 0x00000000; 0x00000000; 0x0e043783; 0xfffff037; 0x00000000; 0x00000000;
    0x0204b403; 0xfffe00b7; 0x02013083; 0x00000000; 0x0204b483; 0xfffe10b7; 0x06013083; 0x00000000;
    0x0204b503; 0xfffe20b7; 0x0a013083; 0x00000000; 0x0204b583; 0xfffe30b7; 0x0e013083; 0x00000000;
    0x0204b603; 0xfffe40b7; 0x12013083; 0x00000000; 0x0204b683; 0xfffe50b7; 0x16013083; 0x00000000;
    0x0204b703; 0xfffe60b7; 0x1a013083; 0x00000000; 0x0204b783; 0xfffe70b7; 0x1e013083; 0x00000000;
    0x0604b403; 0xfffe80b7; 0x02813083; 0x00000000; 0x0604b483; 0xfffe90b7; 0x06813083; 0x00000000;
    0x0604b503; 0xfffea0b7; 0x0a813083; 0x00000000; 0x0604b583; 0xfffeb0b7; 0x0e813083; 0x00000000;
    0x0604b603; 0xfffec0b7; 0x12813083; 0x00000000; 0x0604b683; 0xfffed0b7; 0x16813083; 0x00000000;
    0x0604b703; 0xfffee0b7; 0x1a813083; 0x00000000; 0x0604b783; 0xfffef0b7; 0x1e813083; 0x00000000;
    0x0a04b403; 0xffff00b7; 0x03013083; 0x00000000; 0x0a04b483; 0xffff10b7; 0x07013083; 0x00000000;
    0x0a04b503; 0xffff20b7; 0x0b013083; 0x00000000; 0x0a04b583; 0xffff30b7; 0x0f013083; 0x00000000;
    0x0a04b603; 0xffff40b7; 0x13013083; 0x00000000; 0x0a04b683; 0xffff50b7; 0x17013083; 0x00000000;
    0x0a04b703; 0xffff60b7; 0x1b013083; 0x00000000; 0x0a04b783; 0xffff70b7; 0x1f013083; 0x00000000;
    0x0e04b403; 0xffff80b7; 0x03813083; 0x00000000; 0x0e04b483; 0xffff90b7; 0x07813083; 0x00000000;
    0x0e04b503; 0xffffa0b7; 0x0b813083; 0x00000000; 0x0e04b583; 0xffffb0b7; 0x0f813083; 0x00000000;
    0x0e04b603; 0xffffc0b7; 0x13813083; 0x00000000; 0x0e04b683; 0xffffd0b7; 0x17813083; 0x00000000;
    0x0e04b703; 0xffffe0b7; 0x1b813083; 0x00000000; 0x0e04b783; 0xfffff0b7; 0x1f813083; 0x00000000;
    0x02053403; 0xe0010113; 0x02013103; 0x00000000; 0x02053483; 0xe2010113; 0x06013103; 0x00000000;
    0x02053503; 0xe8010113; 0x0a013103; 0x00000000; 0x02053583; 0xea010113; 0x0e013103; 0x00000000;
    0x02053603; 0xf0010113; 0x12013103; 0x00000000; 0x02053683; 0xf2010113; 0x16013103; 0x00000000;
    0x02053703; 0xf8010113; 0x1a013103; 0x00000000; 0x02053783; 0xfa010113; 0x1e013103; 0x00000000;
    0x06053403; 0xe4010113; 0x02813103; 0x00000000; 0x06053483; 0xe6010113; 0x06813103; 0x00000000;
    0x06053503; 0xec010113; 0x0a813103; 0x00000000; 0x06053583; 0xee010113; 0x0e813103; 0x00000000;
    0x06053603; 0xf4010113; 0x12813103; 0x00000000; 0x06053683; 0xf6010113; 0x16813103; 0x00000000;
    0x06053703; 0xfc010113; 0x1a813103; 0x00000000; 0x06053783; 0xfe010113; 0x1e813103; 0x00000000;
    0x0a053403; 0xe1010113; 0x03013103; 0x00000000; 0x0a053483; 0xe3010113; 0x07013103; 0x00000000;
    0x0a053503; 0xe9010113; 0x0b013103; 0x00000000; 0x0a053583; 0xeb010113; 0x0f013103; 0x00000000;
    0x0a053603; 0xf1010113; 0x13013103; 0x00000000; 0x0a053683; 0xf3010113; 0x17013103; 0x00000000;
    0x0a053703; 0xf9010113; 0x1b013103; 0x00000000; 0x0a053783; 0xfb010113; 0x1f013103; 0x00000000;
    0x0e053403; 0xe5010113; 0x03813103; 0x00000000; 0x0e053483; 0xe7010113; 0x07813103; 0x00000000;
    0x0e053503; 0xed010113; 0x0b813103; 0x00000000; 0x0e053583; 0xef010113; 0x0f813103; 0x00000000;
    0x0e053603; 0xf5010113; 0x13813103; 0x00000000; 0x0e053683; 0xf7010113; 0x17813103; 0x00000000;
    0x0e053703; 0xfd010113; 0x1b813103; 0x00000000; 0x0e053783; 0xff010113; 0x1f813103; 0x00000000;
    0x0205b403; 0xfffe01b7; 0x02013183; 0x00000000; 0x0205b483; 0xfffe11b7; 0x06013183; 0x00000000;
    0x0205b503; 0xfffe21b7; 0x0a013183; 0x00000000; 0x0205b583; 0xfffe31b7; 0x0e013183; 0x00000000;
    0x0205b603; 0xfffe41b7; 0x12013183; 0x00000000; 0x0205b683; 0xfffe51b7; 0x16013183; 0x00000000;
    0x0205b703; 0xfffe61b7; 0x1a013183; 0x00000000; 0x0205b783; 0xfffe71b7; 0x1e013183; 0x00000000;
    0x0605b403; 0xfffe81b7; 0x02813183; 0x00000000; 0x0605b483; 0xfffe91b7; 0x06813183; 0x00000000;
    0x0605b503; 0xfffea1b7; 0x0a813183; 0x00000000; 0x0605b583; 0xfffeb1b7; 0x0e813183; 0x00000000;
    0x0605b603; 0xfffec1b7; 0x12813183; 0x00000000; 0x0605b683; 0xfffed1b7; 0x16813183; 0x00000000;
    0x0605b703; 0xfffee1b7; 0x1a813183; 0x00000000; 0x0605b783; 0xfffef1b7; 0x1e813183; 0x00000000;
    0x0a05b403; 0xffff01b7; 0x03013183; 0x00000000; 0x0a05b483; 0xffff11b7; 0x07013183; 0x00000000;
    0x0a05b503; 0xffff21b7; 0x0b013183; 0x00000000; 0x0a05b583; 0xffff31b7; 0x0f013183; 0x00000000;
    0x0a05b603; 0xffff41b7; 0x13013183; 0x00000000; 0x0a05b683; 0xffff51b7; 0x17013183; 0x00000000;
    0x0a05b703; 0xffff61b7; 0x1b013183; 0x00000000; 0x0a05b783; 0xffff71b7; 0x1f013183; 0x00000000;
    0x0e05b403; 0xffff81b7; 0x03813183; 0x00000000; 0x0e05b483; 0xffff91b7; 0x07813183; 0x00000000;
    0x0e05b503; 0xffffa1b7; 0x0b813183; 0x00000000; 0x0e05b583; 0xffffb1b7; 0x0f813183; 0x00000000;
    0x0e05b603; 0xffffc1b7; 0x13813183; 0x00000000; 0x0e05b683; 0xffffd1b7; 0x17813183; 0x00000000;
    0x0e05b703; 0xffffe1b7; 0x1b813183; 0x00000000; 0x0e05b783; 0xfffff1b7; 0x1f813183; 0x00000000;
    0x02063403; 0xfffe0237; 0x02013203; 0x00000000; 0x02063483; 0xfffe1237; 0x06013203; 0x00000000;
    0x02063503; 0xfffe2237; 0x0a013203; 0x00000000; 0x02063583; 0xfffe3237; 0x0e013203; 0x00000000;
    0x02063603; 0xfffe4237; 0x12013203; 0x00000000; 0x02063683; 0xfffe5237; 0x16013203; 0x00000000;
    0x02063703; 0xfffe6237; 0x1a013203; 0x00000000; 0x02063783; 0xfffe7237; 0x1e013203; 0x00000000;
    0x06063403; 0xfffe8237; 0x02813203; 0x00000000; 0x06063483; 0xfffe9237; 0x06813203; 0x00000000;
    0x06063503; 0xfffea237; 0x0a813203; 0x00000000; 0x06063583; 0xfffeb237; 0x0e813203; 0x00000000;
    0x06063603; 0xfffec237; 0x12813203; 0x00000000; 0x06063683; 0xfffed237; 0x16813203; 0x00000000;
    0x06063703; 0xfffee237; 0x1a813203; 0x00000000; 0x06063783; 0xfffef237; 0x1e813203; 0x00000000;
    0x0a063403; 0xffff0237; 0x03013203; 0x00000000; 0x0a063483; 0xffff1237; 0x07013203; 0x00000000;
    0x0a063503; 0xffff2237; 0x0b013203; 0x00000000; 0x0a063583; 0xffff3237; 0x0f013203; 0x00000000;
    0x0a063603; 0xffff4237; 0x13013203; 0x00000000; 0x0a063683; 0xffff5237; 0x17013203; 0x00000000;
    0x0a063703; 0xffff6237; 0x1b013203; 0x00000000; 0x0a063783; 0xffff7237; 0x1f013203; 0x00000000;
    0x0e063403; 0xffff8237; 0x03813203; 0x00000000; 0x0e063483; 0xffff9237; 0x07813203; 0x00000000;
    0x0e063503; 0xffffa237; 0x0b813203; 0x00000000; 0x0e063583; 0xffffb237; 0x0f813203; 0x00000000;
    0x0e063603; 0xffffc237; 0x13813203; 0x00000000; 0x0e063683; 0xffffd237; 0x17813203; 0x00000000;
    0x0e063703; 0xffffe237; 0x1b813203; 0x00000000; 0x0e063783; 0xfffff237; 0x1f813203; 0x00000000;
    0x0206b403; 0xfffe02b7; 0x02013283; 0x00000000; 0x0206b483; 0xfffe12b7; 0x06013283; 0x00000000;
    0x0206b503; 0xfffe22b7; 0x0a013283; 0x00000000; 0x0206b583; 0xfffe32b7; 0x0e013283; 0x00000000;
    0x0206b603; 0xfffe42b7; 0x12013283; 0x00000000; 0x0206b683; 0xfffe52b7; 0x16013283; 0x00000000;
    0x0206b703; 0xfffe62b7; 0x1a013283; 0x00000000; 0x0206b783; 0xfffe72b7; 0x1e013283; 0x00000000;
    0x0606b403; 0xfffe82b7; 0x02813283; 0x00000000; 0x0606b483; 0xfffe92b7; 0x06813283; 0x00000000;
    0x0606b503; 0xfffea2b7; 0x0a813283; 0x00000000; 0x0606b583; 0xfffeb2b7; 0x0e813283; 0x00000000;
    0x0606b603; 0xfffec2b7; 0x12813283; 0x00000000; 0x0606b683; 0xfffed2b7; 0x16813283; 0x00000000;
    0x0606b703; 0xfffee2b7; 0x1a813283; 0x00000000; 0x0606b783; 0xfffef2b7; 0x1e813283; 0x00000000;
    0x0a06b403; 0xffff02b7; 0x03013283; 0x00000000; 0x0a06b483; 0xffff12b7; 0x07013283; 0x00000000;
    0x0a06b503; 0xffff22b7; 0x0b013283; 0x00000000; 0x0a06b583; 0xffff32b7; 0x0f013283; 0x00000000;
    0x0a06b603; 0xffff42b7; 0x13013283; 0x00000000; 0x0a06b683; 0xffff52b7; 0x17013283; 0x00000000;
    0x0a06b703; 0xffff62b7; 0x1b013283; 0x00000000; 0x0a06b783; 0xffff72b7; 0x1f013283; 0x00000000;
    0x0e06b403; 0xffff82b7; 0x03813283; 0x00000000; 0x0e06b483; 0xffff92b7; 0x07813283; 0x00000000;
    0x0e06b503; 0xffffa2b7; 0x0b813283; 0x00000000; 0x0e06b583; 0xffffb2b7; 0x0f813283; 0x00000000;
    0x0e06b603; 0xffffc2b7; 0x13813283; 0x00000000; 0x0e06b683; 0xffffd2b7; 0x17813283; 0x00000000;
    0x0e06b703; 0xffffe2b7; 0x1b813283; 0x00000000; 0x0e06b783; 0xfffff2b7; 0x1f813283; 0x00000000;
    0x02073403; 0xfffe0337; 0x02013303; 0x00000000; 0x02073483; 0xfffe1337; 0x06013303; 0x00000000;
    0x02073503; 0xfffe2337; 0x0a013303; 0x00000000; 0x02073583; 0xfffe3337; 0x0e013303; 0x00000000;
    0x02073603; 0xfffe4337; 0x12013303; 0x00000000; 0x02073683; 0xfffe5337; 0x16013303; 0x00000000;
    0x02073703; 0xfffe6337; 0x1a013303; 0x00000000; 0x02073783; 0xfffe7337; 0x1e013303; 0x00000000;
    0x06073403; 0xfffe8337; 0x02813303; 0x00000000; 0x06073483; 0xfffe9337; 0x06813303; 0x00000000;
    0x06073503; 0xfffea337; 0x0a813303; 0x00000000; 0x06073583; 0xfffeb337; 0x0e813303; 0x00000000;
    0x06073603; 0xfffec337; 0x12813303; 0x00000000; 0x06073683; 0xfffed337; 0x16813303; 0x00000000;
    0x06073703; 0xfffee337; 0x1a813303; 0x00000000; 0x06073783; 0xfffef337; 0x1e813303; 0x00000000;
    0x0a073403; 0xffff0337; 0x03013303; 0x00000000; 0x0a073483; 0xffff1337; 0x07013303; 0x00000000;
    0x0a073503; 0xffff2337; 0x0b013303; 0x00000000; 0x0a073583; 0xffff3337; 0x0f013303; 0x00000000;
    0x0a073603; 0xffff4337; 0x13013303; 0x00000000; 0x0a073683; 0xffff5337; 0x17013303; 0x00000000;
    0x0a073703; 0xffff6337; 0x1b013303; 0x00000000; 0x0a073783; 0xffff7337; 0x1f013303; 0x00000000;
    0x0e073403; 0xffff8337; 0x03813303; 0x00000000; 0x0e073483; 0xffff9337; 0x07813303; 0x00000000;
    0x0e073503; 0xffffa337; 0x0b813303; 0x00000000; 0x0e073583; 0xffffb337; 0x0f813303; 0x00000000;
    0x0e073603; 0xffffc337; 0x13813303; 0x00000000; 0x0e073683; 0xffffd337; 0x17813303; 0x00000000;
    0x0e073703; 0xffffe337; 0x1b813303; 0x00000000; 0x0e073783; 0xfffff337; 0x1f813303; 0x00000000;
    0x0207b403; 0xfffe03b7; 0x02013383; 0x00000000; 0x0207b483; 0xfffe13b7; 0x06013383; 0x00000000;
    0x0207b503; 0xfffe23b7; 0x0a013383; 0x00000000; 0x0207b583; 0xfffe33b7; 0x0e013383; 0x00000000;
    0x0207b603; 0xfffe43b7; 0x12013383; 0x00000000; 0x0207b683; 0xfffe53b7; 0x16013383; 0x00000000;
    0x0207b703; 0xfffe63b7; 0x1a013383; 0x00000000; 0x0207b783; 0xfffe73b7; 0x1e013383; 0x00000000;
    0x0607b403; 0xfffe83b7; 0x02813383; 0x00000000; 0x0607b483; 0xfffe93b7; 0x06813383; 0x00000000;
    0x0607b503; 0xfffea3b7; 0x0a813383; 0x00000000; 0x0607b583; 0xfffeb3b7; 0x0e813383; 0x00000000;
    0x0607b603; 0xfffec3b7; 0x12813383; 0x00000000; 0x0607b683; 0xfffed3b7; 0x16813383; 0x00000000;
    0x0607b703; 0xfffee3b7; 0x1a813383; 0x00000000; 0x0607b783; 0xfffef3b7; 0x1e813383; 0x00000000;
    0x0a07b403; 0xffff03b7; 0x03013383; 0x00000000; 0x0a07b483; 0xffff13b7; 0x07013383; 0x00000000;
    0x0a07b503; 0xffff23b7; 0x0b013383; 0x00000000; 0x0a07b583; 0xffff33b7; 0x0f013383; 0x00000000;
    0x0a07b603; 0xffff43b7; 0x13013383; 0x00000000; 0x0a07b683; 0xffff53b7; 0x17013383; 0x00000000;
    0x0a07b703; 0xffff63b7; 0x1b013383; 0x00000000; 0x0a07b783; 0xffff73b7; 0x1f013383; 0x00000000;
    0x0e07b403; 0xffff83b7; 0x03813383; 0x00000000; 0x0e07b483; 0xffff93b7; 0x07813383; 0x00000000;
    0x0e07b503; 0xffffa3b7; 0x0b813383; 0x00000000; 0x0e07b583; 0xffffb3b7; 0x0f813383; 0x00000000;
    0x0e07b603; 0xffffc3b7; 0x13813383; 0x00000000; 0x0e07b683; 0xffffd3b7; 0x17813383; 0x00000000;
    0x0e07b703; 0xffffe3b7; 0x1b813383; 0x00000000; 0x0e07b783; 0xfffff3b7; 0x1f813383; 0x00000000
].

(** parcels 0x7400 to 0x77ff *)
Definition RVC64_EXPANDED_29 : list Z := [
    0x02843403; 0xfffe0437; 0x02013403; 0x00000000; 0x02843483; 0xfffe1437; 0x06013403; 0x00000000;
    0x02843503; 0xfffe2437; 0x0a013403; 0x00000000; 0x02843583; 0xfffe3437; 0x0e013403; 0x00000000;
    0x02843603; 0xfffe4437; 0x12013403; 0x00000000; 0x02843683; 0xfffe5437; 0x16013403; 0x00000000;
    0x02843703; 0xfffe6437; 0x1a013403; 0x00000000; 0x02843783; 0xfffe7437; 0x1e013403; 0x00000000;
    0x06843403; 0xfffe8437; 0x02813403; 0x00000000; 0x06843483; 0xfffe9437; 0x06813403; 0x00000000;
    0x06843503; 0xfffea437; 0x0a813403; 0x00000000; 0x06843583; 0xfffeb437; 0x0e813403; 0x00000000;
    0x06843603; 0xfffec437; 0x12813403; 0x00000000; 0x06843683; 0xfffed437; 0x16813403; 0x00000000;
    0x06843703; 0xfffee437; 0x1a813403; 0x00000000; 0x06843783; 0xfffef437; 0x1e813403; 0x00000000;
    0x0a843403; 0xffff0437; 0x03013403; 0x00000000; 0x0a843483; 0xffff1437; 0x07013403; 0x00000000;
    0x0a843503; 0xffff2437; 0x0b013403; 0x00000000; 0x0a843583; 0xffff3437; 0x0f013403; 0x00000000;
    0x0a843603; 0xffff4437; 0x13013403; 0x00000000; 0x0a843683; 0xffff5437; 0x17013403; 0x00000000;
    0x0a843703; 0xffff6437; 0x1b013403; 0x00000000; 0x0a843783; 0xffff7437; 0x1f013403; 0x00000000;
    0x0e843403; 0xffff8437; 0x03813403; 0x00000000; 0x0e843483; 0xffff9437; 0x07813403; 0x00000000;
    0x0e843503; 0xffffa437; 0x0b813403; 0x00000000; 0x0e843583; 0xffffb437; 0x0f813403; 0x00000000;
    0x0e843603; 0xffffc437; 0x13813403; 0x00000000; 0x0e843683; 0xffffd437; 0x17813403; 0x00000000;
    0x0e843703; 0xffffe437; 0x1b813403; 0x00000000; 0x0e843783; 0xfffff437; 0x1f813403; 0x00000000;
    0x0284b403; 0xfffe04b7; 0x02013483; 0x00000000; 0x0284b483; 0xfffe14b7; 0x06013483; 0x00000000;
    0x0284b503; 0xfffe24b7; 0x0a013483; 0x00000000; 0x0284b583; 0xfffe34b7; 0x0e013483; 0x00000000;
    0x0284b603; 0xfffe44b7; 0x12013483; 0x00000000; 0x0284b683; 0xfffe54b7; 0x16013483; 0x00000000;
    0x0284b703; 0xfffe64b7; 0x1a013483; 0x00000000; 0x0284b783; 0xfffe74b7; 0x1e013483; 0x00000000;
    0x0684b403; 0xfffe84b7; 0x02813483; 0x00000000; 0x0684b483; 0xfffe94b7; 0x06813483; 0x00000000;
    0x0684b503; 0xfffea4b7; 0x0a813483; 0x00000000; 0x0684b583; 0xfffeb4b7; 0x0e813483; 0x00000000;
    0x0684b603; 0xfffec4b7; 0x12813483; 0x00000000; 0x0684b683; 0xfffed4b7; 0x16813483; 0x00000000;
    0x0684b703; 0xfffee4b7; 0x1a813483; 0x00000000; 0x0684b783; 0xfffef4b7; 0x1e813483; 0x00000000;
    0x0a84b403; 0xffff04b7; 0x03013483; 0x00000000; 0x0a84b483; 0xffff14b7; 0x07013483; 0x00000000;
    0x0a84b503; 0xffff24b7; 0x0b013483; 0x00000000; 0x0a84b583; 0xffff34b7; 0x0f013483; 0x00000000;
    0x0a84b603; 0xffff44b7; 0x13013483; 0x00000000; 0x0a84b683; 0xffff54b7; 0x17013483; 0x00000000;
    0x0a84b703; 0xffff64b7; 0x1b013483; 0x00000000; 0x0a84b783; 0xffff74b7; 0x1f013483; 0x00000000;
    0x0e84b403; 0xffff84b7; 0x03813483; 0x00000000; 0x0e84b483; 0xffff94b7; 0x07813483; 0x00000000;
    0x0e84b503; 0xffffa4b7; 0x0b813483; 0x00000000; 0x0e84b583; 0xffffb4b7; 0x0f813483; 0x00000000;
    0x0e84b603; 0xffffc4b7; 0x13813483; 0x00000000; 0x0e84b683; 0xffffd4b7; 0x17813483; 0x00000000;
    0x0e84b703; 0xffffe4b7; 0x1b813483; 0x00000000; 0x0e84b783; 0xfffff4b7; 0x1f813483; 0x00000000;
    0x02853403; 0xfffe0537; 0x02013503; 0x00000000; 0x02853483; 0xfffe1537; 0x06013503; 0x00000000;
    0x02853503; 0xfffe2537; 0x0a013503; 0x00000000; 0x02853583; 0xfffe3537; 0x0e013503; 0x00000000;
    0x02853603; 0xfffe4537; 0x12013503; 0x00000000; 0x02853683; 0xfffe5537; 0x16013503; 0x00000000;
    0x02853703; 0xfffe6537; 0x1a013503; 0x00000000; 0x02853783; 0xfffe7537; 0x1e013503; 0x00000000;
    0x06853403; 0xfffe8537; 0x02813503; 0x00000000; 0x06853483; 0xfffe9537; 0x06813503; 0x00000000;
    0x06853503; 0xfffea537; 0x0a813503; 0x00000000; 0x06853583; 0xfffeb537; 0x0e813503; 0x00000000;
    0x06853603; 0xfffec537; 0x12813503; 0x00000000; 0x06853683; 0xfffed537; 0x16813503; 0x00000000;
    0x06853703; 0xfffee537; 0x1a813503; 0x00000000; 0x06853783; 0xfffef537; 0x1e813503; 0x00000000;
    0x0a853403; 0xffff0537; 0x03013503; 0x00000000; 0x0a853483; 0xffff1537; 0x07013503; 0x00000000;
    0x0a853503; 0xffff2537; 0x0b013503; 0x00000000; 0x0a853583; 0xffff3537; 0x0f013503; 0x00000000;
    0x0a853603; 0xffff4537; 0x13013503; 0x00000000; 0x0a853683; 0xffff5537; 0x17013503; 0x00000000;
    0x0a853703; 0xffff6537; 0x1b013503; 0x00000000; 0x0a853783; 0xffff7537; 0x1f013503; 0x00000000;
    0x0e853403; 0xffff8537; 0x03813503; 0x00000000; 0x0e853483; 0xffff9537; 0x07813503; 0x00000000;
    0x0e853503; 0xffffa537; 0x0b813503; 0x00000000; 0x0e853583; 0xffffb537; 0x0f813503; 0x00000000;
    0x0e853603; 0xffffc537; 0x13813503; 0x00000000; 0x0e853683; 0xffffd537; 0x17813503; 0x00000000;
    0x0e853703; 0xffffe537; 0x1b813503; 0x00000000; 0x0e853783; 0xfffff537; 0x1f813503; 0x00000000;
    0x0285b403; 0xfffe05b7; 0x02013583; 0x00000000; 0x0285b483; 0xfffe15b7; 0x06013583; 0x00000000;
    0x0285b503; 0xfffe25b7; 0x0a013583; 0x00000000; 0x0285b583; 0xfffe35b7; 0x0e013583; 0x00000000;
    0x0285b603; 0xfffe45b7; 0x12013583; 0x00000000; 0x0285b683; 0xfffe55b7; 0x16013583; 0x00000000;
    0x0285b703; 0xfffe65b7; 0x1a013583; 0x00000000; 0x0285b783; 0xfffe75b7; 0x1e013583; 0x00000000;
    0x0685b403; 0xfffe85b7; 0x02813583; 0x00000000; 0x0685b483; 0xfffe95b7; 0x06813583; 0x00000000;
    0x0685b503; 0xfffea5b7; 0x0a813583; 0x00000000; 0x0685b583; 0xfffeb5b7; 0x0e813583; 0x00000000;
    0x0685b603; 0xfffec5b7; 0x12813583; 0x00000000; 0x0685b683; 0xfffed5b7; 0x16813583; 0x00000000;
    0x0685b703; 0xfffee5b7; 0x1a813583; 0x00000000; 0x0685b783; 0xfffef5b7; 0x1e813583; 0x00000000;
    0x0a85b403; 0xffff05b7; 0x03013583; 0x00000000; 0x0a85b483; 0xffff15b7; 0x07013583; 0x00000000;
    0x0a85b503; 0xffff25b7; 0x0b013583; 0x00000000; 0x0a85b583; 0xffff35b7; 0x0f013583; 0x00000000;
    0x0a85b603; 0xffff45b7; 0x13013583; 0x00000000; 0x0a85b683; 0xffff55b7; 0x17013583; 0x00000000;
    0x0a85b703; 0xffff65b7; 0x1b013583; 0x00000000; 0x0a85b783; 0xffff75b7; 0x1f013583; 0x00000000;
    0x0e85b403; 0xffff85b7; 0x03813583; 0x00000000; 0x0e85b483; 0xffff95b7; 0x07813583; 0x00000000;
    0x0e85b503; 0xffffa5b7; 0x0b813583; 0x00000000; 0x0e85b583; 0xffffb5b7; 0x0f813583; 0x00000000;
    0x0e85b603; 0xffffc5b7; 0x13813583; 0x00000000; 0x0e85b683; 0xffffd5b7; 0x17813583; 0x00000000;
    0x0e85b703; 0xffffe5b7; 0x1b813583; 0x00000000; 0x0e85b783; 0xfffff5b7; 0x1f813583; 0x00000000;
    0x02863403; 0xfffe0637; 0x02013603; 0x00000000; 0x02863483; 0xfffe1637; 0x06013603; 0x00000000;
    0x02863503; 0xfffe2637; 0x0a013603; 0x00000000; 0x02863583; 0xfffe3637; 0x0e013603; 0x00000000;
    0x02863603; 0xfffe4637; 0x12013603; 0x00000000; 0x02863683; 0xfffe5637; 0x16013603; 0x00000000;
    0x02863703; 0xfffe6637; 0x1a013603; 0x00000000; 0x02863783; 0xfffe7637; 0x1e013603; 0x00000000;
    0x06863403; 0xfffe8637; 0x02813603; 0x00000000; 0x06863483; 0xfffe9637; 0x06813603; 0x00000000;
    0x06863503; 0xfffea637; 0x0a813603; 0x00000000; 0x06863583; 0xfffeb637; 0x0e813603; 0x00000000;
    0x06863603; 0xfffec637; 0x12813603; 0x00000000; 0x06863683; 0xfffed637; 0x16813603; 0x00000000;
    0x06863703; 0xfffee637; 0x1a813603; 0x00000000; 0x06863783; 0xfffef637; 0x1e813603; 0x00000000;
    0x0a863403; 0xffff0637; 0x03013603; 0x00000000; 0x0a863483; 0xffff1637; 0x07013603; 0x00000000;
    0x0a863503; 0xffff2637; 0x0b013603; 0x00000000; 0x0a863583; 0xffff3637; 0x0f013603; 0x00000000;
    0x0a863603; 0xffff4637; 0x13013603; 0x00000000; 0x0a863683; 0xffff5637; 0x17013603; 0x00000000;
    0x0a863703; 0xffff6637; 0x1b013603; 0x00000000; 0x0a863783; 0xffff7637; 0x1f013603; 0x00000000;
    0x0e863403; 0xffff8637; 0x03813603; 0x00000000; 0x0e863483; 0xffff9637; 0x07813603; 0x00000000;
    0x0e863503; 0xffffa637; 0x0b813603; 0x00000000; 0x0e863583; 0xffffb637; 0x0f813603; 0x00000000;
    0x0e863603; 0xffffc637; 0x13813603; 0x00000000; 0x0e863683; 0xffffd637; 0x17813603; 0x00000000;
    0x0e863703; 0xffffe637; 0x1b813603; 0x00000000; 0x0e863783; 0xfffff637; 0x1f813603; 0x00000000;
    0x0286b403; 0xfffe06b7; 0x02013683; 0x00000000; 0x0286b483; 0xfffe16b7; 0x06013683; 0x00000000;
    0x0286b503; 0xfffe26b7; 0x0a013683; 0x00000000; 0x0286b583; 0xfffe36b7; 0x0e013683; 0x00000000;
    0x0286b603; 0xfffe46b7; 0x12013683; 0x00000000; 0x0286b683; 0xfffe56b7; 0x16013683; 0x00000000;
    0x0286b703; 0xfffe66b7; 0x1a013683; 0x00000000; 0x0286b783; 0xfffe76b7; 0x1e013683; 0x00000000;
    0x0686b403; 0xfffe86b7; 0x02813683; 0x00000000; 0x0686b483; 0xfffe96b7; 0x06813683; 0x00000000;
    0x0686b503; 0xfffea6b7; 0x0a813683; 0x00000000; 0x0686b583; 0xfffeb6b7; 0x0e813683; 0x00000000;
    0x0686b603; 0xfffec6b7; 0x12813683; 0x00000000; 0x0686b683; 0xfffed6b7; 0x16813683; 0x00000000;
    0x0686b703; 0xfffee6b7; 0x1a813683; 0x00000000; 0x0686b783; 0xfffef6b7; 0x1e813683; 0x00000000;
    0x0a86b403; 0xffff06b7; 0x03013683; 0x00000000; 0x0a86b483; 0xffff16b7; 0x07013683; 0x00000000;
    0x0a86b503; 0xffff26b7; 0x0b013683; 0x00000000; 0x0a86b583; 0xffff36b7; 0x0f013683; 0x00000000;
    0x0a86b603; 0xffff46b7; 0x13013683; 0x00000000; 0x0a86b683; 0xffff56b7; 0x17013683; 0x00000000;
    0x0a86b703; 0xffff66b7; 0x1b013683; 0x00000000; 0x0a86b783; 0xffff76b7; 0x1f013683; 0x00000000;
    0x0e86b403; 0xffff86b7; 0x03813683; 0x00000000; 0x0e86b483; 0xffff96b7; 0x07813683; 0x00000000;
    0x0e86b503; 0xffffa6b7; 0x0b813683; 0x00000000; 0x0e86b583; 0xffffb6b7; 0x0f813683; 0x00000000;
    0x0e86b603; 0xffffc6b7; 0x13813683; 0x00000000; 0x0e86b683; 0xffffd6b7; 0x17813683; 0x00000000;
    0x0e86b703; 0xffffe6b7; 0x1b813683; 0x00000000; 0x0e86b783; 0xfffff6b7; 0x1f813683; 0x00000000;
    0x02873403; 0xfffe0737; 0x02013703; 0x00000000; 0x02873483; 0xfffe1737; 0x06013703; 0x00000000;
    0x02873503; 0xfffe2737; 0x0a013703; 0x00000000; 0x02873583; 0xfffe3737; 0x0e013703; 0x00000000;
    0x02873603; 0xfffe4737; 0x12013703; 0x00000000; 0x02873683; 0xfffe5737; 0x16013703; 0x00000000;
    0x02873703; 0xfffe6737; 0x1a013703; 0x00000000; 0x02873783; 0xfffe7737; 0x1e013703; 0x00000000;
    0x06873403; 0xfffe8737; 0x02813703; 0x00000000; 0x06873483; 0xfffe9737; 0x06813703; 0x00000000;
    0x06873503; 0xfffea737; 0x0a813703; 0x00000000; 0x06873583; 0xfffeb737; 0x0e813703; 0x00000000;
    0x06873603; 0xfffec737; 0x12813703; 0x00000000; 0x06873683; 0xfffed737; 0x16813703; 0x00000000;
    0x06873703; 0xfffee737; 0x1a813703; 0x00000000; 0x06873783; 0xfffef737; 0x1e813703; 0x00000000;
    0x0a873403; 0xffff0737; 0x03013703; 0x00000000; 0x0a873483; 0xffff1737; 0x07013703; 0x00000000;
    0x0a873503; 0xffff2737; 0x0b013703; 0x00000000; 0x0a873583; 0xffff3737; 0x0f013703; 0x00000000;
    0x0a873603; 0xffff4737; 0x13013703; 0x00000000; 0x0a873683; 0xffff5737; 0x17013703; 0x00000000;
    0x0a873703; 0xffff6737; 0x1b013703; 0x00000000; 0x0a873783; 0xffff7737; 0x1f013703; 0x00000000;
    0x0e873403; 0xffff8737; 0x03813703; 0x00000000; 0x0e873483; 0xffff9737; 0x07813703; 0x00000000;
    0x0e873503; 0xffffa737; 0x0b813703; 0x00000000; 0x0e873583; 0xffffb737; 0x0f813703; 0x00000000;
    0x0e873603; 0xffffc737; 0x13813703; 0x00000000; 0x0e873683; 0xffffd737; 0x17813703; 0x00000000;
    0x0e873703; 0xffffe737; 0x1b813703; 0x00000000; 0x0e873783; 0xfffff737; 0x1f813703; 0x00000000;
    0x0287b403; 0xfffe07b7; 0x02013783; 0x00000000; 0x0287b483; 0xfffe17b7; 0x06013783; 0x00000000;
    0x0287b503; 0xfffe27b7; 0x0a013783; 0x00000000; 0x0287b583; 0xfffe37b7; 0x0e013783; 0x00000000;
    0x0287b603; 0xfffe47b7; 0x12013783; 0x00000000; 0x0287b683; 0xfffe57b7; 0x16013783; 0x00000000;
    0x0287b703; 0xfffe67b7; 0x1a013783; 0x00000000; 0x0287b783; 0xfffe77b7; 0x1e013783; 0x00000000;
    0x0687b403; 0xfffe87b7; 0x02813783; 0x00000000; 0x0687b483; 0xfffe97b7; 0x06813783; 0x00000000;
    0x0687b503; 0xfffea7b7; 0x0a813783; 0x00000000; 0x0687b583; 0xfffeb7b7; 0x0e813783; 0x00000000;
    0x0687b603; 0xfffec7b7; 0x12813783; 0x00000000; 0x0687b683; 0xfffed7b7; 0x16813783; 0x00000000;
    0x0687b703; 0xfffee7b7; 0x1a813783; 0x00000000; 0x0687b783; 0xfffef7b7; 0x1e813783; 0x00000000;
    0x0a87b403; 0xffff07b7; 0x03013783; 0x00000000; 0x0a87b483; 0xffff17b7; 0x07013783; 0x00000000;
    0x0a87b503; 0xffff27b7; 0x0b013783; 0x00000000; 0x0a87b583; 0xffff37b7; 0x0f013783; 0x00000000;
    0x0a87b603; 0xffff47b7; 0x13013783; 0x00000000; 0x0a87b683; 0xffff57b7; 0x17013783; 0x00000000;
    0x0a87b703; 0xffff67b7; 0x1b013783; 0x00000000; 0x0a87b783; 0xffff77b7; 0x1f013783; 0x00000000;
    0x0e87b403; 0xffff87b7; 0x03813783; 0x00000000; 0x0e87b483; 0xffff97b7; 0x07813783; 0x00000000;
    0x0e87b503; 0xffffa7b7; 0x0b813783; 0x00000000; 0x0e87b583; 0xffffb7b7; 0x0f813783; 0x00000000;
    0x0e87b603; 0xffffc7b7; 0x13813783; 0x00000000; 0x0e87b683; 0xffffd7b7; 0x17813783; 0x00000000;
    0x0e87b703; 0xffffe7b7; 0x1b813783; 0x00000000; 0x0e87b783; 0xfffff7b7; 0x1f813783; 0x00000000
].

(** parcels 0x7800 to 0x7bff *)
Definition RVC64_EXPANDED_30 : list Z := [
    0x03043403; 0xfffe0837; 0x02013803; 0x00000000; 0x03043483; 0xfffe1837; 0x06013803; 0x00000000;
    0x03043503; 0xfffe2837; 0x0a013803; 0x00000000; 0x03043583; 0xfffe3837; 0x0e013803; 0x00000000;
    0x03043603; 0xfffe4837; 0x12013803; 0x00000000; 0x03043683; 0xfffe5837; 0x16013803; 0x00000000;
    0x03043703; 0xfffe6837; 0x1a013803; 0x00000000; 0x03043783; 0xfffe7837; 0x1e013803; 0x00000000;
    0x07043403; 0xfffe8837; 0x02813803; 0x00000000; 0x07043483; 0xfffe9837; 0x06813803; 0x00000000;
    0x07043503; 0xfffea837; 0x0a813803; 0x00000000; 0x07043583; 0xfffeb837; 0x0e813803; 0x00000000;
    0x07043603; 0xfffec837; 0x12813803; 0x00000000; 0x07043683; 0xfffed837; 0x16813803; 0x00000000;
    0x07043703; 0xfffee837; 0x1a813803; 0x00000000; 0x07043783; 0xfffef837; 0x1e813803; 0x00000000;
    0x0b043403; 0xffff0837; 0x03013803; 0x00000000; 0x0b043483; 0xffff1837; 0x07013803; 0x00000000;
    0x0b043503; 0xffff2837; 0x0b013803; 0x00000000; 0x0b043583; 0xffff3837; 0x0f013803; 0x00000000;
    0x0b043603; 0xffff4837; 0x13013803; 0x00000000; 0x0b043683; 0xffff5837; 0x17013803; 0x00000000;
    0x0b043703; 0xffff6837; 0x1b013803; 0x00000000; 0x0b043783; 0xffff7837; 0x1f013803; 0x00000000;
    0x0f043403; 0xffff8837; 0x03813803; 0x00000000; 0x0f043483; 0xffff9837; 0x07813803; 0x00000000;
    0x0f043503; 0xffffa837; 0x0b813803; 0x00000000; 0x0f043583; 0xffffb837; 0x0f813803; 0x00000000;
    0x0f043603; 0xffffc837; 0x13813803; 0x00000000; 0x0f043683; 0xffffd837; 0x17813803; 0x00000000;
    0x0f043703; 0xffffe837; 0x1b813803; 0x00000000; 0x0f043783; 0xfffff837; 0x1f813803; 0x00000000;
    0x0304b403; 0xfffe08b7; 0x02013883; 0x00000000; 0x0304b483; 0xfffe18b7; 0x06013883; 0x00000000;
    0x0304b503; 0xfffe28b7; 0x0a013883; 0x00000000; 0x0304b583; 0xfffe38b7; 0x0e013883; 0x00000000;
    0x0304b603; 0xfffe48b7; 0x12013883; 0x00000000; 0x0304b683; 0xfffe58b7; 0x16013883; 0x00000000;
    0x0304b703; 0xfffe68b7; 0x1a013883; 0x00000000; 0x0304b783; 0xfffe78b7; 0x1e013883; 0x00000000;
    0x0704b403; 0xfffe88b7; 0x02813883; 0x00000000; 0x0704b483; 0xfffe98b7; 0x06813883; 0x00000000;
    0x0704b503; 0xfffea8b7; 0x0a813883; 0x00000000; 0x0704b583; 0xfffeb8b7; 0x0e813883; 0x00000000;
    0x0704b603; 0xfffec8b7; 0x12813883; 0x00000000; 0x0704b683; 0xfffed8b7; 0x16813883; 0x00000000;
    0x0704b703; 0xfffee8b7; 0x1a813883; 0x00000000; 0x0704b783; 0xfffef8b7; 0x1e813883; 0x00000000;
    0x0b04b403; 0xffff08b7; 0x03013883; 0x00000000; 0x0b04b483; 0xffff18b7; 0x07013883; 0x00000000;
    0x0b04b503; 0xffff28b7; 0x0b013883; 0x00000000; 0x0b04b583; 0xffff38b7; 0x0f013883; 0x00000000;
    0x0b04b603; 0xffff48b7; 0x13013883; 0x00000000; 0x0b04b683; 0xffff58b7; 0x17013883; 0x00000000;
    0x0b04b703; 0xffff68b7; 0x1b013883; 0x00000000; 0x0b04b783; 0xffff78b7; 0x1f013883; 0x00000000;
    0x0f04b403; 0xffff88b7; 0x03813883; 0x00000000; 0x0f04b483; 0xffff98b7; 0x07813883; 0x00000000;
    0x0f04b503; 0xffffa8b7; 0x0b813883; 0x00000000; 0x0f04b583; 0xffffb8b7; 0x0f813883; 0x00000000;
    0x0f04b603; 0xffffc8b7; 0x13813883; 0x00000000; 0x0f04b683; 0xffffd8b7; 0x17813883; 0x00000000;
    0x0f04b703; 0xffffe8b7; 0x1b813883; 0x00000000; 0x0f04b783; 0xfffff8b7; 0x1f813883; 0x00000000;
    0x03053403; 0xfffe0937; 0x02013903; 0x00000000; 0x03053483; 0xfffe1937; 0x06013903; 0x00000000;
    0x03053503; 0xfffe2937; 0x0a013903; 0x00000000; 0x03053583; 0xfffe3937; 0x0e013903; 0x00000000;
    0x03053603; 0xfffe4937; 0x12013903; 0x00000000; 0x03053683; 0xfffe5937; 0x16013903; 0x00000000;
    0x03053703; 0xfffe6937; 0x1a013903; 0x00000000; 0x03053783; 0xfffe7937; 0x1e013903; 0x00000000;
    0x07053403; 0xfffe8937; 0x02813903; 0x00000000; 0x07053483; 0xfffe9937; 0x06813903; 0x00000000;
    0x07053503; 0xfffea937; 0x0a813903; 0x00000000; 0x07053583; 0xfffeb937; 0x0e813903; 0x00000000;
    0x07053603; 0xfffec937; 0x12813903; 0x00000000; 0x07053683; 0xfffed937; 0x16813903; 0x00000000;
    0x07053703; 0xfffee937; 0x1a813903; 0x00000000; 0x07053783; 0xfffef937; 0x1e813903; 0x00000000;
    0x0b053403; 0xffff0937; 0x03013903; 0x00000000; 0x0b053483; 0xffff1937; 0x07013903; 0x00000000;
    0x0b053503; 0xffff2937; 0x0b013903; 0x00000000; 0x0b053583; 0xffff3937; 0x0f013903; 0x00000000;
    0x0b053603; 0xffff4937; 0x13013903; 0x00000000; 0x0b053683; 0xffff5937; 0x17013903; 0x00000000;
    0x0b053703; 0xffff6937; 0x1b013903; 0x00000000; 0x0b053783; 0xffff7937; 0x1f013903; 0x00000000;
    0x0f053403; 0xffff8937; 0x03813903; 0x00000000; 0x0f053483; 0xffff9937; 0x07813903; 0x00000000;
    0x0f053503; 0xffffa937; 0x0b813903; 0x00000000; 0x0f053583; 0xffffb937; 0x0f813903; 0x00000000;
    0x0f053603; 0xffffc937; 0x13813903; 0x00000000; 0x0f053683; 0xffffd937; 0x17813903; 0x00000000;
    0x0f053703; 0xffffe937; 0x1b813903; 0x00000000; 0x0f053783; 0xfffff937; 0x1f813903; 0x00000000;
    0x0305b403; 0xfffe09b7; 0x02013983; 0x00000000; 0x0305b483; 0xfffe19b7; 0x06013983; 0x00000000;
    0x0305b503; 0xfffe29b7; 0x0a013983; 0x00000000; 0x0305b583; 0xfffe39b7; 0x0e013983; 0x00000000;
    0x0305b603; 0xfffe49b7; 0x12013983; 0x00000000; 0x0305b683; 0xfffe59b7; 0x16013983; 0x00000000;
    0x0305b703; 0xfffe69b7; 0x1a013983; 0x00000000; 0x0305b783; 0xfffe79b7; 0x1e013983; 0x00000000;
    0x0705b403; 0xfffe89b7; 0x02813983; 0x00000000; 0x0705b483; 0xfffe99b7; 0x06813983; 0x00000000;
    0x0705b503; 0xfffea9b7; 0x0a813983; 0x00000000; 0x0705b583; 0xfffeb9b7; 0x0e813983; 0x00000000;
    0x0705b603; 0xfffec9b7; 0x12813983; 0x00000000; 0x0705b683; 0xfffed9b7; 0x16813983; 0x00000000;
    0x0705b703; 0xfffee9b7; 0x1a813983; 0x00000000; 0x0705b783; 0xfffef9b7; 0x1e813983; 0x00000000;
    0x0b05b403; 0xffff09b7; 0x03013983; 0x00000000; 0x0b05b483; 0xffff19b7; 0x07013983; 0x00000000;
    0x0b05b503; 0xffff29b7; 0x0b013983; 0x00000000; 0x0b05b583; 0xffff39b7; 0x0f013983; 0x00000000;
    0x0b05b603; 0xffff49b7; 0x13013983; 0x00000000; 0x0b05b683; 0xffff59b7; 0x17013983; 0x00000000;
    0x0b05b703; 0xffff69b7; 0x1b013983; 0x00000000; 0x0b05b783; 0xffff79b7; 0x1f013983; 0x00000000;
    0x0f05b403; 0xffff89b7; 0x03813983; 0x00000000; 0x0f05b483; 0xffff99b7; 0x07813983; 0x00000000;
    0x0f05b503; 0xffffa9b7; 0x0b813983; 0x00000000; 0x0f05b583; 0xffffb9b7; 0x0f813983; 0x00000000;
    0x0f05b603; 0xffffc9b7; 0x13813983; 0x00000000; 0x0f05b683; 0xffffd9b7; 0x17813983; 0x00000000;
    0x0f05b703; 0xffffe9b7; 0x1b813983; 0x00000000; 0x0f05b783; 0xfffff9b7; 0x1f813983; 0x00000000;
    0x03063403; 0xfffe0a37; 0x02013a03; 0x00000000; 0x03063483; 0xfffe1a37; 0x06013a03; 0x00000000;
    0x03063503; 0xfffe2a37; 0x0a013a03; 0x00000000; 0x03063583; 0xfffe3a37; 0x0e013a03; 0x00000000;
    0x03063603; 0xfffe4a37; 0x12013a03; 0x00000000; 0x03063683; 0xfffe5a37; 0x16013a03; 0x00000000;
    0x03063703; 0xfffe6a37; 0x1a013a03; 0x00000000; 0x03063783; 0xfffe7a37; 0x1e013a03; 0x00000000;
    0x07063403; 0xfffe8a37; 0x02813a03; 0x00000000; 0x07063483; 0xfffe9a37; 0x06813a03; 0x00000000;
    0x07063503; 0xfffeaa37; 0x0a813a03; 0x00000000; 0x07063583; 0xfffeba37; 0x0e813a03; 0x00000000;
    0x07063603; 0xfffeca37; 0x12813a03; 0x00000000; 0x07063683; 0xfffeda37; 0x16813a03; 0x00000000;
    0x07063703; 0xfffeea37; 0x1a813a03; 0x00000000; 0x07063783; 0xfffefa37; 0x1e813a03; 0x00000000;
    0x0b063403; 0xffff0a37; 0x03013a03; 0x00000000; 0x0b063483; 0xffff1a37; 0x07013a03; 0x00000000;
    0x0b063503; 0xffff2a37; 0x0b013a03; 0x00000000; 0x0b063583; 0xffff3a37; 0x0f013a03; 0x00000000;
    0x0b063603; 0xffff4a37; 0x13013a03; 0x00000000; 0x0b063683; 0xffff5a37; 0x17013a03; 0x00000000;
    0x0b063703; 0xffff6a37; 0x1b013a03; 0x00000000; 0x0b063783; 0xffff7a37; 0x1f013a03; 0x00000000;
    0x0f063403; 0xffff8a37; 0x03813a03; 0x00000000; 0x0f063483; 0xffff9a37; 0x07813a03; 0x00000000;
    0x0f063503; 0xffffaa37; 0x0b813a03; 0x00000000; 0x0f063583; 0xffffba37; 0x0f813a03; 0x00000000;
    0x0f063603; 0xffffca37; 0x13813a03; 0x00000000; 0x0f063683; 0xffffda37; 0x17813a03; 0x00000000;
    0x0f063703; 0xffffea37; 0x1b813a03; 0x00000000; 0x0f063783; 0xfffffa37; 0x1f813a03; 0x00000000;
    0x0306b403; 0xfffe0ab7; 0x02013a83; 0x00000000; 0x0306b483; 0xfffe1ab7; 0x06013a83; 0x00000000;
    0x0306b503; 0xfffe2ab7; 0x0a013a83; 0x00000000; 0x0306b583; 0xfffe3ab7; 0x0e013a83; 0x00000000;
    0x0306b603; 0xfffe4ab7; 0x12013a83; 0x00000000; 0x0306b683; 0xfffe5ab7; 0x16013a83; 0x00000000;
    0x0306b703; 0xfffe6ab7; 0x1a013a83; 0x00000000; 0x0306b783; 0xfffe7ab7; 0x1e013a83; 0x00000000;
    0x0706b403; 0xfffe8ab7; 0x02813a83; 0x00000000; 0x0706b483; 0xfffe9ab7; 0x06813a83; 0x00000000;
    0x0706b503; 0xfffeaab7; 0x0a813a83; 0x00000000; 0x0706b583; 0xfffebab7; 0x0e813a83; 0x00000000;
    0x0706b603; 0xfffecab7; 0x12813a83; 0x00000000; 0x0706b683; 0xfffedab7; 0x16813a83; 0x00000000;
    0x0706b703; 0xfffeeab7; 0x1a813a83; 0x00000000; 0x0706b783; 0xfffefab7; 0x1e813a83; 0x00000000;
    0x0b06b403; 0xffff0ab7; 0x03013a83; 0x00000000; 0x0b06b483; 0xffff1ab7; 0x07013a83; 0x00000000;
    0x0b06b503; 0xffff2ab7; 0x0b013a83; 0x00000000; 0x0b06b583; 0xffff3ab7; 0x0f013a83; 0x00000000;
    0x0b06b603; 0xffff4ab7; 0x13013a83; 0x00000000; 0x0b06b683; 0xffff5ab7; 0x17013a83; 0x00000000;
    0x0b06b703; 0xffff6ab7; 0x1b013a83; 0x00000000; 0x0b06b783; 0xffff7ab7; 0x1f013a83; 0x00000000;
    0x0f06b403; 0xffff8ab7; 0x03813a83; 0x00000000; 0x0f06b483; 0xffff9ab7; 0x07813a83; 0x00000000;
    0x0f06b503; 0xffffaab7; 0x0b813a83; 0x00000000; 0x0f06b583; 0xffffbab7; 0x0f813a83; 0x00000000;
    0x0f06b603; 0xffffcab7; 0x13813a83; 0x00000000; 0x0f06b683; 0xffffdab7; 0x17813a83; 0x00000000;
    0x0f06b703; 0xffffeab7; 0x1b813a83; 0x00000000; 0x0f06b783; 0xfffffab7; 0x1f813a83; 0x00000000;
    0x03073403; 0xfffe0b37; 0x02013b03; 0x00000000; 0x03073483; 0xfffe1b37; 0x06013b03; 0x00000000;
    0x03073503; 0xfffe2b37; 0x0a013b03; 0x00000000; 0x03073583; 0xfffe3b37; 0x0e013b03; 0x00000000;
    0x03073603; 0xfffe4b37; 0x12013b03; 0x00000000; 0x03073683; 0xfffe5b37; 0x16013b03; 0x00000000;
    0x03073703; 0xfffe6b37; 0x1a013b03; 0x00000000; 0x03073783; 0xfffe7b37; 0x1e013b03; 0x00000000;
    0x07073403; 0xfffe8b37; 0x02813b03; 0x00000000; 0x07073483; 0xfffe9b37; 0x06813b03; 0x00000000;
    0x07073503; 0xfffeab37; 0x0a813b03; 0x00000000; 0x07073583; 0xfffebb37; 0x0e813b03; 0x00000000;
    0x07073603; 0xfffecb37; 0x12813b03; 0x00000000; 0x07073683; 0xfffedb37; 0x16813b03; 0x00000000;
    0x07073703; 0xfffeeb37; 0x1a813b03; 0x00000000; 0x07073783; 0xfffefb37; 0x1e813b03; 0x00000000;
    0x0b073403; 0xffff0b37; 0x03013b03; 0x00000000; 0x0b073483; 0xffff1b37; 0x07013b03; 0x00000000;
    0x0b073503; 0xffff2b37; 0x0b013b03; 0x00000000; 0x0b073583; 0xffff3b37; 0x0f013b03; 0x00000000;
    0x0b073603; 0xffff4b37; 0x13013b03; 0x00000000; 0x0b073683; 0xffff5b37; 0x17013b03; 0x00000000;
    0x0b073703; 0xffff6b37; 0x1b013b03; 0x00000000; 0x0b073783; 0xffff7b37; 0x1f013b03; 0x00000000;
    0x0f073403; 0xffff8b37; 0x03813b03; 0x00000000; 0x0f073483; 0xffff9b37; 0x07813b03; 0x00000000;
    0x0f073503; 0xffffab37; 0x0b813b03; 0x00000000; 0x0f073583; 0xffffbb37; 0x0f813b03; 0x00000000;
    0x0f073603; 0xffffcb37; 0x13813b03; 0x00000000; 0x0f073683; 0xffffdb37; 0x17813b03; 0x00000000;
    0x0f073703; 0xffffeb37; 0x1b813b03; 0x00000000; 0x0f073783; 0xfffffb37; 0x1f813b03; 0x00000000;
    0x0307b403; 0xfffe0bb7; 0x02013b83; 0x00000000; 0x0307b483; 0xfffe1bb7; 0x06013b83; 0x00000000;
    0x0307b503; 0xfffe2bb7; 0x0a013b83; 0x00000000; 0x0307b583; 0xfffe3bb7; 0x0e013b83; 0x00000000;
    0x0307b603; 0xfffe4bb7; 0x12013b83; 0x00000000; 0x0307b683; 0xfffe5bb7; 0x16013b83; 0x00000000;
    0x0307b703; 0xfffe6bb7; 0x1a013b83; 0x00000000; 0x0307b783; 0xfffe7bb7; 0x1e013b83; 0x00000000;
    0x0707b403; 0xfffe8bb7; 0x02813b83; 0x00000000; 0x0707b483; 0xfffe9bb7; 0x06813b83; 0x00000000;
    0x0707b503; 0xfffeabb7; 0x0a813b83; 0x00000000; 0x0707b583; 0xfffebbb7; 0x0e813b83; 0x00000000;
    0x0707b603; 0xfffecbb7; 0x12813b83; 0x00000000; 0x0707b683; 0xfffedbb7; 0x16813b83; 0x00000000;
    0x0707b703; 0xfffeebb7; 0x1a813b83; 0x00000000; 0x0707b783; 0xfffefbb7; 0x1e813b83; 0x00000000;
    0x0b07b403; 0xffff0bb7; 0x03013b83; 0x00000000; 0x0b07b483; 0xffff1bb7; 0x07013b83; 0x00000000;
    0x0b07b503; 0xffff2bb7; 0x0b013b83; 0x00000000; 0x0b07b583; 0xffff3bb7; 0x0f013b83; 0x00000000;
    0x0b07b603; 0xffff4bb7; 0x13013b83; 0x00000000; 0x0b07b683; 0xffff5bb7; 0x17013b83; 0x00000000;
    0x0b07b703; 0xffff6bb7; 0x1b013b83; 0x00000000; 0x0b07b783; 0xffff7bb7; 0x1f013b83; 0x00000000;
    0x0f07b403; 0xffff8bb7; 0x03813b83; 0x00000000; 0x0f07b483; 0xffff9bb7; 0x07813b83; 0x00000000;
    0x0f07b503; 0xffffabb7; 0x0b813b83; 0x00000000; 0x0f07b583; 0xffffbbb7; 0x0f813b83; 0x00000000;
    0x0f07b603; 0xffffcbb7; 0x13813b83; 0x00000000; 0x0f07b683; 0xffffdbb7; 0x17813b83; 0x00000000;
    0x0f07b703; 0xffffebb7; 0x1b813b83; 0x00000000; 0x0f07b783; 0xfffffbb7; 0x1f813b83; 0x00000000
].

(** parcels 0x7c00 to 0x7fff *)
Definition RVC64_EXPANDED_31 : list Z := [
    0x03843403; 0xfffe0c37; 0x02013c03; 0x00000000; 0x03843483; 0xfffe1c37; 0x06013c03; 0x00000000;
    0x03843503; 0xfffe2c37; 0x0a013c03; 0x00000000; 0x03843583; 0xfffe3c37; 0x0e013c03; 0x00000000;
    0x03843603; 0xfffe4c37; 0x12013c03; 0x00000000; 0x03843683; 0xfffe5c37; 0x16013c03; 0x00000000;
    0x03843703; 0xfffe6c37; 0x1a013c03; 0x00000000; 0x03843783; 0xfffe7c37; 0x1e013c03; 0x00000000;
    0x07843403; 0xfffe8c37; 0x02813c03; 0x00000000; 0x07843483; 0xfffe9c37; 0x06813c03; 0x00000000;
    0x07843503; 0xfffeac37; 0x0a813c03; 0x00000000; 0x07843583; 0xfffebc37; 0x0e813c03; 0x00000000;
    0x07843603; 0xfffecc37; 0x12813c03; 0x00000000; 0x07843683; 0xfffedc37; 0x16813c03; 0x00000000;
    0x07843703; 0xfffeec37; 0x1a813c03; 0x00000000; 0x07843783; 0xfffefc37; 0x1e813c03; 0x00000000;
    0x0b843403; 0xffff0c37; 0x03013c03; 0x00000000; 0x0b843483; 0xffff1c37; 0x07013c03; 0x00000000;
    0x0b843503; 0xffff2c37; 0x0b013c03; 0x00000000; 0x0b843583; 0xffff3c37; 0x0f013c03; 0x00000000;
    0x0b843603; 0xffff4c37; 0x13013c03; 0x00000000; 0x0b843683; 0xffff5c37; 0x17013c03; 0x00000000;
    0x0b843703; 0xffff6c37; 0x1b013c03; 0x00000000; 0x0b843783; 0xffff7c37; 0x1f013c03; 0x00000000;
    0x0f843403; 0xffff8c37; 0x03813c03; 0x00000000; 0x0f843483; 0xffff9c37; 0x07813c03; 0x00000000;
    0x0f843503; 0xffffac37; 0x0b813c03; 0x00000000; 0x0f843583; 0xffffbc37; 0x0f813c03; 0x00000000;
    0x0f843603; 0xffffcc37; 0x13813c03; 0x00000000; 0x0f843683; 0xffffdc37; 0x17813c03; 0x00000000;
    0x0f843703; 0xffffec37; 0x1b813c03; 0x00000000; 0x0f843783; 0xfffffc37; 0x1f813c03; 0x00000000;
    0x0384b403; 0xfffe0cb7; 0x02013c83; 0x00000000; 0x0384b483; 0xfffe1cb7; 0x06013c83; 0x00000000;
    0x0384b503; 0xfffe2cb7; 0x0a013c83; 0x00000000; 0x0384b583; 0xfffe3cb7; 0x0e013c83; 0x00000000;
    0x0384b603; 0xfffe4cb7; 0x12013c83; 0x00000000; 0x0384b683; 0xfffe5cb7; 0x16013c83; 0x00000000;
    0x0384b703; 0xfffe6cb7; 0x1a013c83; 0x00000000; 0x0384b783; 0xfffe7cb7; 0x1e013c83; 0x00000000;
    0x0784b403; 0xfffe8cb7; 0x02813c83; 0x00000000; 0x0784b483; 0xfffe9cb7; 0x06813c83; 0x00000000;
    0x0784b503; 0xfffeacb7; 0x0a813c83; 0x00000000; 0x0784b583; 0xfffebcb7; 0x0e813c83; 0x00000000;
    0x0784b603; 0xfffeccb7; 0x12813c83; 0x00000000; 0x0784b683; 0xfffedcb7; 0x16813c83; 0x00000000;
    0x0784b703; 0xfffeecb7; 0x1a813c83; 0x00000000; 0x0784b783; 0xfffefcb7; 0x1e813c83; 0x00000000;
    0x0b84b403; 0xffff0cb7; 0x03013c83; 0x00000000; 0x0b84b483; 0xffff1cb7; 0x07013c83; 0x00000000;
    0x0b84b503; 0xffff2cb7; 0x0b013c83; 0x00000000; 0x0b84b583; 0xffff3cb7; 0x0f013c83; 0x00000000;
    0x0b84b603; 0xffff4cb7; 0x13013c83; 0x00000000; 0x0b84b683; 0xffff5cb7; 0x17013c83; 0x00000000;
    0x0b84b703; 0xffff6cb7; 0x1b013c83; 0x00000000; 0x0b84b783; 0xffff7cb7; 0x1f013c83; 0x00000000;
    0x0f84b403; 0xffff8cb7; 0x03813c83; 0x00000000; 0x0f84b483; 0xffff9cb7; 0x07813c83; 0x00000000;
    0x0f84b503; 0xffffacb7; 0x0b813c83; 0x00000000; 0x0f84b583; 0xffffbcb7; 0x0f813c83; 0x00000000;
    0x0f84b603; 0xffffccb7; 0x13813c83; 0x00000000; 0x0f84b683; 0xffffdcb7; 0x17813c83; 0x00000000;
    0x0f84b703; 0xffffecb7; 0x1b813c83; 0x00000000; 0x0f84b783; 0xfffffcb7; 0x1f813c83; 0x00000000;
    0x03853403; 0xfffe0d37; 0x02013d03; 0x00000000; 0x03853483; 0xfffe1d37; 0x06013d03; 0x00000000;
    0x03853503; 0xfffe2d37; 0x0a013d03; 0x00000000; 0x03853583; 0xfffe3d37; 0x0e013d03; 0x00000000;
    0x03853603; 0xfffe4d37; 0x12013d03; 0x00000000; 0x03853683; 0xfffe5d37; 0x16013d03; 0x00000000;
    0x03853703; 0xfffe6d37; 0x1a013d03; 0x00000000; 0x03853783; 0xfffe7d37; 0x1e013d03; 0x00000000;
    0x07853403; 0xfffe8d37; 0x02813d03; 0x00000000; 0x07853483; 0xfffe9d37; 0x06813d03; 0x00000000;
    0x07853503; 0xfffead37; 0x0a813d03; 0x00000000; 0x07853583; 0xfffebd37; 0x0e813d03; 0x00000000;
    0x07853603; 0xfffecd37; 0x12813d03; 0x00000000; 0x07853683; 0xfffedd37; 0x16813d03; 0x00000000;
    0x07853703; 0xfffeed37; 0x1a813d03; 0x00000000; 0x07853783; 0xfffefd37; 0x1e813d03; 0x00000000;
    0x0b853403; 0xffff0d37; 0x03013d03; 0x00000000; 0x0b853483; 0xffff1d37; 0x07013d03; 0x00000000;
    0x0b853503; 0xffff2d37; 0x0b013d03; 0x00000000; 0x0b853583; 0xffff3d37; 0x0f013d03; 0x00000000;
    0x0b853603; 0xffff4d37; 0x13013d03; 0x00000000; 0x0b853683; 0xffff5d37; 0x17013d03; 0x00000000;
    0x0b853703; 0xffff6d37; 0x1b013d03; 0x00000000; 0x0b853783; 0xffff7d37; 0x1f013d03; 0x00000000;
    0x0f853403; 0xffff8d37; 0x03813d03; 0x00000000; 0x0f853483; 0xffff9d37; 0x07813d03; 0x00000000;
    0x0f853503; 0xffffad37; 0x0b813d03; 0x00000000; 0x0f853583; 0xffffbd37; 0x0f813d03; 0x00000000;
    0x0f853603; 0xffffcd37; 0x13813d03; 0x00000000; 0x0f853683; 0xffffdd37; 0x17813d03; 0x00000000;
    0x0f853703; 0xffffed37; 0x1b813d03; 0x00000000; 0x0f853783; 0xfffffd37; 0x1f813d03; 0x00000000;
    0x0385b403; 0xfffe0db7; 0x02013d83; 0x00000000; 0x0385b483; 0xfffe1db7; 0x06013d83; 0x00000000;
    0x0385b503; 0xfffe2db7; 0x0a013d83; 0x00000000; 0x0385b583; 0xfffe3db7; 0x0e013d83; 0x00000000;
    0x0385b603; 0xfffe4db7; 0x12013d83; 0x00000000; 0x0385b683; 0xfffe5db7; 0x16013d83; 0x00000000;
    0x0385b703; 0xfffe6db7; 0x1a013d83; 0x00000000; 0x0385b783; 0xfffe7db7; 0x1e013d83; 0x00000000;
    0x0785b403; 0xfffe8db7; 0x02813d83; 0x00000000; 0x0785b483; 0xfffe9db7; 0x06813d83; 0x00000000;
    0x0785b503; 0xfffeadb7; 0x0a813d83; 0x00000000; 0x0785b583; 0xfffebdb7; 0x0e813d83; 0x00000000;
    0x0785b603; 0xfffecdb7; 0x12813d83; 0x00000000; 0x0785b683; 0xfffeddb7; 0x16813d83; 0x00000000;
    0x0785b703; 0xfffeedb7; 0x1a813d83; 0x00000000; 0x0785b783; 0xfffefdb7; 0x1e813d83; 0x00000000;
    0x0b85b403; 0xffff0db7; 0x03013d83; 0x00000000; 0x0b85b483; 0xffff1db7; 0x07013d83; 0x00000000;
    0x0b85b503; 0xffff2db7; 0x0b013d83; 0x00000000; 0x0b85b583; 0xffff3db7; 0x0f013d83; 0x00000000;
    0x0b85b603; 0xffff4db7; 0x13013d83; 0x00000000; 0x0b85b683; 0xffff5db7; 0x17013d83; 0x00000000;
    0x0b85b703; 0xffff6db7; 0x1b013d83; 0x00000000; 0x0b85b783; 0xffff7db7; 0x1f013d83; 0x00000000;
    0x0f85b403; 0xffff8db7; 0x03813d83; 0x00000000; 0x0f85b483; 0xffff9db7; 0x07813d83; 0x00000000;
    0x0f85b503; 0xffffadb7; 0x0b813d83; 0x00000000; 0x0f85b583; 0xffffbdb7; 0x0f813d83; 0x00000000;
    0x0f85b603; 0xffffcdb7; 0x13813d83; 0x00000000; 0x0f85b683; 0xffffddb7; 0x17813d83; 0x00000000;
    0x0f85b703; 0xffffedb7; 0x1b813d83; 0x00000000; 0x0f85b783; 0xfffffdb7; 0x1f813d83; 0x00000000;
    0x03863403; 0xfffe0e37; 0x02013e03; 0x00000000; 0x03863483; 0xfffe1e37; 0x06013e03; 0x00000000;
    0x03863503; 0xfffe2e37; 0x0a013e03; 0x00000000; 0x03863583; 0xfffe3e37; 0x0e013e03; 0x00000000;
    0x03863603; 0xfffe4e37; 0x12013e03; 0x00000000; 0x03863683; 0xfffe5e37; 0x16013e03; 0x00000000;
    0x03863703; 0xfffe6e37; 0x1a013e03; 0x00000000; 0x03863783; 0xfffe7e37; 0x1e013e03; 0x00000000;
    0x07863403; 0xfffe8e37; 0x02813e03; 0x00000000; 0x07863483; 0xfffe9e37; 0x06813e03; 0x00000000;
    0x07863503; 0xfffeae37; 0x0a813e03; 0x00000000; 0x07863583; 0xfffebe37; 0x0e813e03; 0x00000000;
    0x07863603; 0xfffece37; 0x12813e03; 0x00000000; 0x07863683; 0xfffede37; 0x16813e03; 0x00000000;
    0x07863703; 0xfffeee37; 0x1a813e03; 0x00000000; 0x07863783; 0xfffefe37; 0x1e813e03; 0x00000000;
    0x0b863403; 0xffff0e37; 0x03013e03; 0x00000000; 0x0b863483; 0xffff1e37; 0x07013e03; 0x00000000;
    0x0b863503; 0xffff2e37; 0x0b013e03; 0x00000000; 0x0b863583; 0xffff3e37; 0x0f013e03; 0x00000000;
    0x0b863603; 0xffff4e37; 0x13013e03; 0x00000000; 0x0b863683; 0xffff5e37; 0x17013e03; 0x00000000;
    0x0b863703; 0xffff6e37; 0x1b013e03; 0x00000000; 0x0b863783; 0xffff7e37; 0x1f013e03; 0x00000000;
    0x0f863403; 0xffff8e37; 0x03813e03; 0x00000000; 0x0f863483; 0xffff9e37; 0x07813e03; 0x00000000;
    0x0f863503; 0xffffae37; 0x0b813e03; 0x00000000; 0x0f863583; 0xffffbe37; 0x0f813e03; 0x00000000;
    0x0f863603; 0xffffce37; 0x13813e03; 0x00000000; 0x0f863683; 0xffffde37; 0x17813e03; 0x00000000;
    0x0f863703; 0xffffee37; 0x1b813e03; 0x00000000; 0x0f863783; 0xfffffe37; 0x1f813e03; 0x00000000;
    0x0386b403; 0xfffe0eb7; 0x02013e83; 0x00000000; 0x0386b483; 0xfffe1eb7; 0x06013e83; 0x00000000;
    0x0386b503; 0xfffe2eb7; 0x0a013e83; 0x00000000; 0x0386b583; 0xfffe3eb7; 0x0e013e83; 0x00000000;
    0x0386b603; 0xfffe4eb7; 0x12013e83; 0x00000000; 0x0386b683; 0xfffe5eb7; 0x16013e83; 0x00000000;
    0x0386b703; 0xfffe6eb7; 0x1a013e83; 0x00000000; 0x0386b783; 0xfffe7eb7; 0x1e013e83; 0x00000000;
    0x0786b403; 0xfffe8eb7; 0x02813e83; 0x00000000; 0x0786b483; 0xfffe9eb7; 0x06813e83; 0x00000000;
    0x0786b503; 0xfffeaeb7; 0x0a813e83; 0x00000000; 0x0786b583; 0xfffebeb7; 0x0e813e83; 0x00000000;
    0x0786b603; 0xfffeceb7; 0x12813e83; 0x00000000; 0x0786b683; 0xfffedeb7; 0x16813e83; 0x00000000;
    0x0786b703; 0xfffeeeb7; 0x1a813e83; 0x00000000; 0x0786b783; 0xfffefeb7; 0x1e813e83; 0x00000000;
    0x0b86b403; 0xffff0eb7; 0x03013e83; 0x00000000; 0x0b86b483; 0xffff1eb7; 0x07013e83; 0x00000000;
    0x0b86b503; 0xffff2eb7; 0x0b013e83; 0x00000000; 0x0b86b583; 0xffff3eb7; 0x0f013e83; 0x00000000;
    0x0b86b603; 0xffff4eb7; 0x13013e83; 0x00000000; 0x0b86b683; 0xffff5eb7; 0x17013e83; 0x00000000;
    0x0b86b703; 0xffff6eb7; 0x1b013e83; 0x00000000; 0x0b86b783; 0xffff7eb7; 0x1f013e83; 0x00000000;
    0x0f86b403; 0xffff8eb7; 0x03813e83; 0x00000000; 0x0f86b483; 0xffff9eb7; 0x07813e83; 0x00000000;
    0x0f86b503; 0xffffaeb7; 0x0b813e83; 0x00000000; 0x0f86b583; 0xffffbeb7; 0x0f813e83; 0x00000000;
    0x0f86b603; 0xffffceb7; 0x13813e83; 0x00000000; 0x0f86b683; 0xffffdeb7; 0x17813e83; 0x00000000;
    0x0f86b703; 0xffffeeb7; 0x1b813e83; 0x00000000; 0x0f86b783; 0xfffffeb7; 0x1f813e83; 0x00000000;
    0x03873403; 0xfffe0f37; 0x02013f03; 0x00000000; 0x03873483; 0xfffe1f37; 0x06013f03; 0x00000000;
    0x03873503; 0xfffe2f37; 0x0a013f03; 0x00000000; 0x03873583; 0xfffe3f37; 0x0e013f03; 0x00000000;
    0x03873603; 0xfffe4f37; 0x12013f03; 0x00000000; 0x03873683; 0xfffe5f37; 0x16013f03; 0x00000000;
    0x03873703; 0xfffe6f37; 0x1a013f03; 0x00000000; 0x03873783; 0xfffe7f37; 0x1e013f03; 0x00000000;
    0x07873403; 0xfffe8f37; 0x02813f03; 0x00000000; 0x07873483; 0xfffe9f37; 0x06813f03; 0x00000000;
    0x07873503; 0xfffeaf37; 0x0a813f03; 0x00000000; 0x07873583; 0xfffebf37; 0x0e813f03; 0x00000000;
    0x07873603; 0xfffecf37; 0x12813f03; 0x00000000; 0x07873683; 0xfffedf37; 0x16813f03; 0x00000000;
    0x07873703; 0xfffeef37; 0x1a813f03; 0x00000000; 0x07873783; 0xfffeff37; 0x1e813f03; 0x00000000;
    0x0b873403; 0xffff0f37; 0x03013f03; 0x00000000; 0x0b873483; 0xffff1f37; 0x07013f03; 0x00000000;
    0x0b873503; 0xffff2f37; 0x0b013f03; 0x00000000; 0x0b873583; 0xffff3f37; 0x0f013f03; 0x00000000;
    0x0b873603; 0xffff4f37; 0x13013f03; 0x00000000; 0x0b873683; 0xffff5f37; 0x17013f03; 0x00000000;
    0x0b873703; 0xffff6f37; 0x1b013f03; 0x00000000; 0x0b873783; 0xffff7f37; 0x1f013f03; 0x00000000;
    0x0f873403; 0xffff8f37; 0x03813f03; 0x00000000; 0x0f873483; 0xffff9f37; 0x07813f03; 0x00000000;
    0x0f873503; 0xffffaf37; 0x0b813f03; 0x00000000; 0x0f873583; 0xffffbf37; 0x0f813f03; 0x00000000;
    0x0f873603; 0xffffcf37; 0x13813f03; 0x00000000; 0x0f873683; 0xffffdf37; 0x17813f03; 0x00000000;
    0x0f873703; 0xffffef37; 0x1b813f03; 0x00000000; 0x0f873783; 0xffffff37; 0x1f813f03; 0x00000000;
    0x0387b403; 0xfffe0fb7; 0x02013f83; 0x00000000; 0x0387b483; 0xfffe1fb7; 0x06013f83; 0x00000000;
    0x0387b503; 0xfffe2fb7; 0x0a013f83; 0x00000000; 0x0387b583; 0xfffe3fb7; 0x0e013f83; 0x00000000;
    0x0387b603; 0xfffe4fb7; 0x12013f83; 0x00000000; 0x0387b683; 0xfffe5fb7; 0x16013f83; 0x00000000;
    0x0387b703; 0xfffe6fb7; 0x1a013f83; 0x00000000; 0x0387b783; 0xfffe7fb7; 0x1e013f83; 0x00000000;
    0x0787b403; 0xfffe8fb7; 0x02813f83; 0x00000000; 0x0787b483; 0xfffe9fb7; 0x06813f83; 0x00000000;
    0x0787b503; 0xfffeafb7; 0x0a813f83; 0x00000000; 0x0787b583; 0xfffebfb7; 0x0e813f83; 0x00000000;
    0x0787b603; 0xfffecfb7; 0x12813f83; 0x00000000; 0x0787b683; 0xfffedfb7; 0x16813f83; 0x00000000;
    0x0787b703; 0xfffeefb7; 0x1a813f83; 0x00000000; 0x0787b783; 0xfffeffb7; 0x1e813f83; 0x00000000;
    0x0b87b403; 0xffff0fb7; 0x03013f83; 0x00000000; 0x0b87b483; 0xffff1fb7; 0x07013f83; 0x00000000;
    0x0b87b503; 0xffff2fb7; 0x0b013f83; 0x00000000; 0x0b87b583; 0xffff3fb7; 0x0f013f83; 0x00000000;
    0x0b87b603; 0xffff4fb7; 0x13013f83; 0x00000000; 0x0b87b683; 0xffff5fb7; 0x17013f83; 0x00000000;
    0x0b87b703; 0xffff6fb7; 0x1b013f83; 0x00000000; 0x0b87b783; 0xffff7fb7; 0x1f013f83; 0x00000000;
    0x0f87b403; 0xffff8fb7; 0x03813f83; 0x00000000; 0x0f87b483; 0xffff9fb7; 0x07813f83; 0x00000000;
    0x0f87b503; 0xffffafb7; 0x0b813f83; 0x00000000; 0x0f87b583; 0xffffbfb7; 0x0f813f83; 0x00000000;
    0x0f87b603; 0xffffcfb7; 0x13813f83; 0x00000000; 0x0f87b683; 0xffffdfb7; 0x17813f83; 0x00000000;
    0x0f87b703; 0xffffefb7; 0x1b813f83; 0x00000000; 0x0f87b783; 0xffffffb7; 0x1f813f83; 0x00000000
].
