(* ===== verification/RvcTable4.v ===== *)
(** * RvcTable4: entries 0x8000 to 0x9fff of [RVC64_EXPANDED] (tools/rvc.rs)

    Eight definitions of 128 source lines (1024 entries) each, in the order and with the
    grouping of the source; [RvcTable] concatenates them. *)
From S2P Require Import Prelude.

(** parcels 0x8000 to 0x83ff *)
Definition RVC64_EXPANDED_32 : list Z := [
    0x00000000; 0x00045413; 0x00000000; 0x00000000; 0x00000000; 0x00145413; 0x00100033; 0x00000000;
    0x00000000; 0x00245413; 0x00200033; 0x00000000; 0x00000000; 0x00345413; 0x00300033; 0x00000000;
    0x00000000; 0x00445413; 0x00400033; 0x00000000; 0x00000000; 0x00545413; 0x00500033; 0x00000000;
    0x00000000; 0x00645413; 0x00600033; 0x00000000; 0x00000000; 0x00745413; 0x00700033; 0x00000000;
    0x00000000; 0x00845413; 0x00800033; 0x00000000; 0x00000000; 0x00945413; 0x00900033; 0x00000000;
    0x00000000; 0x00a45413; 0x00a00033; 0x00000000; 0x00000000; 0x00b45413; 0x00b00033; 0x00000000;
    0x00000000; 0x00c45413; 0x00c00033; 0x00000000; 0x00000000; 0x00d45413; 0x00d00033; 0x00000000;
    0x00000000; 0x00e45413; 0x00e00033; 0x00000000; 0x00000000; 0x00f45413; 0x00f00033; 0x00000000;
    0x00000000; 0x01045413; 0x01000033; 0x00000000; 0x00000000; 0x01145413; 0x01100033; 0x00000000;
    0x00000000; 0x01245413; 0x01200033; 0x00000000; 0x00000000; 0x01345413; 0x01300033; 0x00000000;
    0x00000000; 0x01445413; 0x01400033; 0x00000000; 0x00000000; 0x01545413; 0x01500033; 0x00000000;
    0x00000000; 0x01645413; 0x01600033; 0x00000000; 0x00000000; 0x01745413; 0x01700033; 0x00000000;
    0x00000000; 0x01845413; 0x01800033; 0x00000000; 0x00000000; 0x01945413; 0x01900033; 0x00000000;
    0x00000000; 0x01a45413; 0x01a00033; 0x00000000; 0x00000000; 0x01b45413; 0x01b00033; 0x00000000;
    0x00000000; 0x01c45413; 0x01c00033; 0x00000000; 0x00000000; 0x01d45413; 0x01d00033; 0x00000000;
    0x00000000; 0x01e45413; 0x01e00033; 0x00000000; 0x00000000; 0x01f45413; 0x01f00033; 0x00000000;
    0x00000000; 0x0004d493; 0x00008067; 0x00000000; 0x00000000; 0x0014d493; 0x001000b3; 0x00000000;
    0x00000000; 0x0024d493; 0x002000b3; 0x00000000; 0x00000000; 0x0034d493; 0x003000b3; 0x00000000;
    0x00000000; 0x0044d493; 0x004000b3; 0x00000000; 0x00000000; 0x0054d493; 0x005000b3; 0x00000000;
    0x00000000; 0x0064d493; 0x006000b3; 0x00000000; 0x00000000; 0x0074d493; 0x007000b3; 0x00000000;
    0x00000000; 0x0084d493; 0x008000b3; 0x00000000; 0x00000000; 0x0094d493; 0x009000b3; 0x00000000;
    0x00000000; 0x00a4d493; 0x00a000b3; 0x00000000; 0x00000000; 0x00b4d493; 0x00b000b3; 0x00000000;
    0x00000000; 0x00c4d493; 0x00c000b3; 0x00000000; 0x00000000; 0x00d4d493; 0x00d000b3; 0x00000000;
    0x00000000; 0x00e4d493; 0x00e000b3; 0x00000000; 0x00000000; 0x00f4d493; 0x00f000b3; 0x00000000;
    0x00000000; 0x0104d493; 0x010000b3; 0x00000000; 0x00000000; 0x0114d493; 0x011000b3; 0x00000000;
    0x00000000; 0x0124d493; 0x012000b3; 0x00000000; 0x00000000; 0x0134d493; 0x013000b3; 0x00000000;
    0x00000000; 0x0144d493; 0x014000b3; 0x00000000; 0x00000000; 0x0154d493; 0x015000b3; 0x00000000;
    0x00000000; 0x0164d493; 0x016000b3; 0x00000000; 0x00000000; 0x0174d493; 0x017000b3; 0x00000000;
    0x00000000; 0x0184d493; 0x018000b3; 0x00000000; 0x00000000; 0x0194d493; 0x019000b3; 0x00000000;
    0x00000000; 0x01a4d493; 0x01a000b3; 0x00000000; 0x00000000; 0x01b4d493; 0x01b000b3; 0x00000000;
    0x00000000; 0x01c4d493; 0x01c000b3; 0x00000000; 0x00000000; 0x01d4d493; 0x01d000b3; 0x00000000;
    0x00000000; 0x01e4d493; 0x01e000b3; 0x00000000; 0x00000000; 0x01f4d493; 0x01f000b3; 0x00000000;
    0x00000000; 0x00055513; 0x00010067; 0x00000000; 0x00000000; 0x00155513; 0x00100133; 0x00000000;
    0x00000000; 0x00255513; 0x00200133; 0x00000000; 0x00000000; 0x00355513; 0x00300133; 0x00000000;
    0x00000000; 0x00455513; 0x00400133; 0x00000000; 0x00000000; 0x00555513; 0x00500133; 0x00000000;
    0x00000000; 0x00655513; 0x00600133; 0x00000000; 0x00000000; 0x00755513; 0x00700133; 0x00000000;
    0x00000000; 0x00855513; 0x00800133; 0x00000000; 0x00000000; 0x00955513; 0x00900133; 0x00000000;
    0x00000000; 0x00a55513; 0x00a00133; 0x00000000; 0x00000000; 0x00b55513; 0x00b00133; 0x00000000;
    0x00000000; 0x00c55513; 0x00c00133; 0x00000000; 0x00000000; 0x00d55513; 0x00d00133; 0x00000000;
    0x00000000; 0x00e55513; 0x00e00133; 0x00000000; 0x00000000; 0x00f55513; 0x00f00133; 0x00000000;
    0x00000000; 0x01055513; 0x01000133; 0x00000000; 0x00000000; 0x01155513; 0x01100133; 0x00000000;
    0x00000000; 0x01255513; 0x01200133; 0x00000000; 0x00000000; 0x01355513; 0x01300133; 0x00000000;
    0x00000000; 0x01455513; 0x01400133; 0x00000000; 0x00000000; 0x01555513; 0x01500133; 0x00000000;
    0x00000000; 0x01655513; 0x01600133; 0x00000000; 0x00000000; 0x01755513; 0x01700133; 0x00000000;
    0x00000000; 0x01855513; 0x01800133; 0x00000000; 0x00000000; 0x01955513; 0x01900133; 0x00000000;
    0x00000000; 0x01a55513; 0x01a00133; 0x00000000; 0x00000000; 0x01b55513; 0x01b00133; 0x00000000;
    0x00000000; 0x01c55513; 0x01c00133; 0x00000000; 0x00000000; 0x01d55513; 0x01d00133; 0x00000000;
    0x00000000; 0x01e55513; 0x01e00133; 0x00000000; 0x00000000; 0x01f55513; 0x01f00133; 0x00000000;
    0x00000000; 0x0005d593; 0x00018067; 0x00000000; 0x00000000; 0x0015d593; 0x001001b3; 0x00000000;
    0x00000000; 0x0025d593; 0x002001b3; 0x00000000; 0x00000000; 0x0035d593; 0x003001b3; 0x00000000;
    0x00000000; 0x0045d593; 0x004001b3; 0x00000000; 0x00000000; 0x0055d593; 0x005001b3; 0x00000000;
    0x00000000; 0x0065d593; 0x006001b3; 0x00000000; 0x00000000; 0x0075d593; 0x007001b3; 0x00000000;
    0x00000000; 0x0085d593; 0x008001b3; 0x00000000; 0x00000000; 0x0095d593; 0x009001b3; 0x00000000;
    0x00000000; 0x00a5d593; 0x00a001b3; 0x00000000; 0x00000000; 0x00b5d593; 0x00b001b3; 0x00000000;
    0x00000000; 0x00c5d593; 0x00c001b3; 0x00000000; 0x00000000; 0x00d5d593; 0x00d001b3; 0x00000000;
    0x00000000; 0x00e5d593; 0x00e001b3; 0x00000000; 0x00000000; 0x00f5d593; 0x00f001b3; 0x00000000;
    0x00000000; 0x0105d593; 0x010001b3; 0x00000000; 0x00000000; 0x0115d593; 0x011001b3; 0x00000000;
    0x00000000; 0x0125d593; 0x012001b3; 0x00000000; 0x00000000; 0x0135d593; 0x013001b3; 0x00000000;
    0x00000000; 0x0145d593; 0x014001b3; 0x00000000; 0x00000000; 0x0155d593; 0x015001b3; 0x00000000;
    0x00000000; 0x0165d593; 0x016001b3; 0x00000000; 0x00000000; 0x0175d593; 0x017001b3; 0x00000000;
    0x00000000; 0x0185d593; 0x018001b3; 0x00000000; 0x00000000; 0x0195d593; 0x019001b3; 0x00000000;
    0x00000000; 0x01a5d593; 0x01a001b3; 0x00000000; 0x00000000; 0x01b5d593; 0x01b001b3; 0x00000000;
    0x00000000; 0x01c5d593; 0x01c001b3; 0x00000000; 0x00000000; 0x01d5d593; 0x01d001b3; 0x00000000;
    0x00000000; 0x01e5d593; 0x01e001b3; 0x00000000; 0x00000000; 0x01f5d593; 0x01f001b3; 0x00000000;
    0x00000000; 0x00065613; 0x00020067; 0x00000000; 0x00000000; 0x00165613; 0x00100233; 0x00000000;
    0x00000000; 0x00265613; 0x00200233; 0x00000000; 0x00000000; 0x00365613; 0x00300233; 0x00000000;
    0x00000000; 0x00465613; 0x00400233; 0x00000000; 0x00000000; 0x00565613; 0x00500233; 0x00000000;
    0x00000000; 0x00665613; 0x00600233; 0x00000000; 0x00000000; 0x00765613; 0x00700233; 0x00000000;
    0x00000000; 0x00865613; 0x00800233; 0x00000000; 0x00000000; 0x00965613; 0x00900233; 0x00000000;
    0x00000000; 0x00a65613; 0x00a00233; 0x00000000; 0x00000000; 0x00b65613; 0x00b00233; 0x00000000;
    0x00000000; 0x00c65613; 0x00c00233; 0x00000000; 0x00000000; 0x00d65613; 0x00d00233; 0x00000000;
    0x00000000; 0x00e65613; 0x00e00233; 0x00000000; 0x00000000; 0x00f65613; 0x00f00233; 0x00000000;
    0x00000000; 0x01065613; 0x01000233; 0x00000000; 0x00000000; 0x01165613; 0x01100233; 0x00000000;
    0x00000000; 0x01265613; 0x01200233; 0x00000000; 0x00000000; 0x01365613; 0x01300233; 0x00000000;
    0x00000000; 0x01465613; 0x01400233; 0x00000000; 0x00000000; 0x01565613; 0x01500233; 0x00000000;
    0x00000000; 0x01665613; 0x01600233; 0x00000000; 0x00000000; 0x01765613; 0x01700233; 0x00000000;
    0x00000000; 0x01865613; 0x01800233; 0x00000000; 0x00000000; 0x01965613; 0x01900233; 0x00000000;
    0x00000000; 0x01a65613; 0x01a00233; 0x00000000; 0x00000000; 0x01b65613; 0x01b00233; 0x00000000;
    0x00000000; 0x01c65613; 0x01c00233; 0x00000000; 0x00000000; 0x01d65613; 0x01d00233; 0x00000000;
    0x00000000; 0x01e65613; 0x01e00233; 0x00000000; 0x00000000; 0x01f65613; 0x01f00233; 0x00000000;
    0x00000000; 0x0006d693; 0x00028067; 0x00000000; 0x00000000; 0x0016d693; 0x001002b3; 0x00000000;
    0x00000000; 0x0026d693; 0x002002b3; 0x00000000; 0x00000000; 0x0036d693; 0x003002b3; 0x00000000;
    0x00000000; 0x0046d693; 0x004002b3; 0x00000000; 0x00000000; 0x0056d693; 0x005002b3; 0x00000000;
    0x00000000; 0x0066d693; 0x006002b3; 0x00000000; 0x00000000; 0x0076d693; 0x007002b3; 0x00000000;
    0x00000000; 0x0086d693; 0x008002b3; 0x00000000; 0x00000000; 0x0096d693; 0x009002b3; 0x00000000;
    0x00000000; 0x00a6d693; 0x00a002b3; 0x00000000; 0x00000000; 0x00b6d693; 0x00b002b3; 0x00000000;
    0x00000000; 0x00c6d693; 0x00c002b3; 0x00000000; 0x00000000; 0x00d6d693; 0x00d002b3; 0x00000000;
    0x00000000; 0x00e6d693; 0x00e002b3; 0x00000000; 0x00000000; 0x00f6d693; 0x00f002b3; 0x00000000;
    0x00000000; 0x0106d693; 0x010002b3; 0x00000000; 0x00000000; 0x0116d693; 0x011002b3; 0x00000000;
    0x00000000; 0x0126d693; 0x012002b3; 0x00000000; 0x00000000; 0x0136d693; 0x013002b3; 0x00000000;
    0x00000000; 0x0146d693; 0x014002b3; 0x00000000; 0x00000000; 0x0156d693; 0x015002b3; 0x00000000;
    0x00000000; 0x0166d693; 0x016002b3; 0x00000000; 0x00000000; 0x0176d693; 0x017002b3; 0x00000000;
    0x00000000; 0x0186d693; 0x018002b3; 0x00000000; 0x00000000; 0x0196d693; 0x019002b3; 0x00000000;
    0x00000000; 0x01a6d693; 0x01a002b3; 0x00000000; 0x00000000; 0x01b6d693; 0x01b002b3; 0x00000000;
    0x00000000; 0x01c6d693; 0x01c002b3; 0x00000000; 0x00000000; 0x01d6d693; 0x01d002b3; 0x00000000;
    0x00000000; 0x01e6d693; 0x01e002b3; 0x00000000; 0x00000000; 0x01f6d693; 0x01f002b3; 0x00000000;
    0x00000000; 0x00075713; 0x00030067; 0x00000000; 0x00000000; 0x00175713; 0x00100333; 0x00000000;
    0x00000000; 0x00275713; 0x00200333; 0x00000000; 0x00000000; 0x00375713; 0x00300333; 0x00000000;
    0x00000000; 0x00475713; 0x00400333; 0x00000000; 0x00000000; 0x00575713; 0x00500333; 0x00000000;
    0x00000000; 0x00675713; 0x00600333; 0x00000000; 0x00000000; 0x00775713; 0x00700333; 0x00000000;
    0x00000000; 0x00875713; 0x00800333; 0x00000000; 0x00000000; 0x00975713; 0x00900333; 0x00000000;
    0x00000000; 0x00a75713; 0x00a00333; 0x00000000; 0x00000000; 0x00b75713; 0x00b00333; 0x00000000;
    0x00000000; 0x00c75713; 0x00c00333; 0x00000000; 0x00000000; 0x00d75713; 0x00d00333; 0x00000000;
    0x00000000; 0x00e75713; 0x00e00333; 0x00000000; 0x00000000; 0x00f75713; 0x00f00333; 0x00000000;
    0x00000000; 0x01075713; 0x01000333; 0x00000000; 0x00000000; 0x01175713; 0x01100333; 0x00000000;
    0x00000000; 0x01275713; 0x01200333; 0x00000000; 0x00000000; 0x01375713; 0x01300333; 0x00000000;
    0x00000000; 0x01475713; 0x01400333; 0x00000000; 0x00000000; 0x01575713; 0x01500333; 0x00000000;
    0x00000000; 0x01675713; 0x01600333; 0x00000000; 0x00000000; 0x01775713; 0x01700333; 0x00000000;
    0x00000000; 0x01875713; 0x01800333; 0x00000000; 0x00000000; 0x01975713; 0x01900333; 0x00000000;
    0x00000000; 0x01a75713; 0x01a00333; 0x00000000; 0x00000000; 0x01b75713; 0x01b00333; 0x00000000;
    0x00000000; 0x01c75713; 0x01c00333; 0x00000000; 0x00000000; 0x01d75713; 0x01d00333; 0x00000000;
    0x00000000; 0x01e75713; 0x01e00333; 0x00000000; 0x00000000; 0x01f75713; 0x01f00333; 0x00000000;
    0x00000000; 0x0007d793; 0x00038067; 0x00000000; 0x00000000; 0x0017d793; 0x001003b3; 0x00000000;
    0x00000000; 0x0027d793; 0x002003b3; 0x00000000; 0x00000000; 0x0037d793; 0x003003b3; 0x00000000;
    0x00000000; 0x0047d793; 0x004003b3; 0x00000000; 0x00000000; 0x0057d793; 0x005003b3; 0x00000000;
    0x00000000; 0x0067d793; 0x006003b3; 0x00000000; 0x00000000; 0x0077d793; 0x007003b3; 0x00000000;
    0x00000000; 0x0087d793; 0x008003b3; 0x00000000; 0x00000000; 0x0097d793; 0x009003b3; 0x00000000;
    0x00000000; 0x00a7d793; 0x00a003b3; 0x00000000; 0x00000000; 0x00b7d793; 0x00b003b3; 0x00000000;
    0x00000000; 0x00c7d793; 0x00c003b3; 0x00000000; 0x00000000; 0x00d7d793; 0x00d003b3; 0x00000000;
    0x00000000; 0x00e7d793; 0x00e003b3; 0x00000000; 0x00000000; 0x00f7d793; 0x00f003b3; 0x00000000;
    0x00000000; 0x0107d793; 0x010003b3; 0x00000000; 0x00000000; 0x0117d793; 0x011003b3; 0x00000000;
    0x00000000; 0x0127d793; 0x012003b3; 0x00000000; 0x00000000; 0x0137d793; 0x013003b3; 0x00000000;
    0x00000000; 0x0147d793; 0x014003b3; 0x00000000; 0x00000000; 0x0157d793; 0x015003b3; 0x00000000;
    0x00000000; 0x0167d793; 0x016003b3; 0x00000000; 0x00000000; 0x0177d793; 0x017003b3; 0x00000000;
    0x00000000; 0x0187d793; 0x018003b3; 0x00000000; 0x00000000; 0x0197d793; 0x019003b3; 0x00000000;
    0x00000000; 0x01a7d793; 0x01a003b3; 0x00000000; 0x00000000; 0x01b7d793; 0x01b003b3; 0x00000000;
    0x00000000; 0x01c7d793; 0x01c003b3; 0x00000000; 0x00000000; 0x01d7d793; 0x01d003b3; 0x00000000;
    0x00000000; 0x01e7d793; 0x01e003b3; 0x00000000; 0x00000000; 0x01f7d793; 0x01f003b3; 0x00000000
].

(** parcels 0x8400 to 0x87ff *)
Definition RVC64_EXPANDED_33 : list Z := [
    0x00000000; 0x40045413; 0x00040067; 0x00000000; 0x00000000; 0x40145413; 0x00100433; 0x00000000;
    0x00000000; 0x40245413; 0x00200433; 0x00000000; 0x00000000; 0x40345413; 0x00300433; 0x00000000;
    0x00000000; 0x40445413; 0x00400433; 0x00000000; 0x00000000; 0x40545413; 0x00500433; 0x00000000;
    0x00000000; 0x40645413; 0x00600433; 0x00000000; 0x00000000; 0x40745413; 0x00700433; 0x00000000;
    0x00000000; 0x40845413; 0x00800433; 0x00000000; 0x00000000; 0x40945413; 0x00900433; 0x00000000;
    0x00000000; 0x40a45413; 0x00a00433; 0x00000000; 0x00000000; 0x40b45413; 0x00b00433; 0x00000000;
    0x00000000; 0x40c45413; 0x00c00433; 0x00000000; 0x00000000; 0x40d45413; 0x00d00433; 0x00000000;
    0x00000000; 0x40e45413; 0x00e00433; 0x00000000; 0x00000000; 0x40f45413; 0x00f00433; 0x00000000;
    0x00000000; 0x41045413; 0x01000433; 0x00000000; 0x00000000; 0x41145413; 0x01100433; 0x00000000;
    0x00000000; 0x41245413; 0x01200433; 0x00000000; 0x00000000; 0x41345413; 0x01300433; 0x00000000;
    0x00000000; 0x41445413; 0x01400433; 0x00000000; 0x00000000; 0x41545413; 0x01500433; 0x00000000;
    0x00000000; 0x41645413; 0x01600433; 0x00000000; 0x00000000; 0x41745413; 0x01700433; 0x00000000;
    0x00000000; 0x41845413; 0x01800433; 0x00000000; 0x00000000; 0x41945413; 0x01900433; 0x00000000;
    0x00000000; 0x41a45413; 0x01a00433; 0x00000000; 0x00000000; 0x41b45413; 0x01b00433; 0x00000000;
    0x00000000; 0x41c45413; 0x01c00433; 0x00000000; 0x00000000; 0x41d45413; 0x01d00433; 0x00000000;
    0x00000000; 0x41e45413; 0x01e00433; 0x00000000; 0x00000000; 0x41f45413; 0x01f00433; 0x00000000;
    0x00000000; 0x4004d493; 0x00048067; 0x00000000; 0x00000000; 0x4014d493; 0x001004b3; 0x00000000;
    0x00000000; 0x4024d493; 0x002004b3; 0x00000000; 0x00000000; 0x4034d493; 0x003004b3; 0x00000000;
    0x00000000; 0x4044d493; 0x004004b3; 0x00000000; 0x00000000; 0x4054d493; 0x005004b3; 0x00000000;
    0x00000000; 0x4064d493; 0x006004b3; 0x00000000; 0x00000000; 0x4074d493; 0x007004b3; 0x00000000;
    0x00000000; 0x4084d493; 0x008004b3; 0x00000000; 0x00000000; 0x4094d493; 0x009004b3; 0x00000000;
    0x00000000; 0x40a4d493; 0x00a004b3; 0x00000000; 0x00000000; 0x40b4d493; 0x00b004b3; 0x00000000;
    0x00000000; 0x40c4d493; 0x00c004b3; 0x00000000; 0x00000000; 0x40d4d493; 0x00d004b3; 0x00000000;
    0x00000000; 0x40e4d493; 0x00e004b3; 0x00000000; 0x00000000; 0x40f4d493; 0x00f004b3; 0x00000000;
    0x00000000; 0x4104d493; 0x010004b3; 0x00000000; 0x00000000; 0x4114d493; 0x011004b3; 0x00000000;
    0x00000000; 0x4124d493; 0x012004b3; 0x00000000; 0x00000000; 0x4134d493; 0x013004b3; 0x00000000;
    0x00000000; 0x4144d493; 0x014004b3; 0x00000000; 0x00000000; 0x4154d493; 0x015004b3; 0x00000000;
    0x00000000; 0x4164d493; 0x016004b3; 0x00000000; 0x00000000; 0x4174d493; 0x017004b3; 0x00000000;
    0x00000000; 0x4184d493; 0x018004b3; 0x00000000; 0x00000000; 0x4194d493; 0x019004b3; 0x00000000;
    0x00000000; 0x41a4d493; 0x01a004b3; 0x00000000; 0x00000000; 0x41b4d493; 0x01b004b3; 0x00000000;
    0x00000000; 0x41c4d493; 0x01c004b3; 0x00000000; 0x00000000; 0x41d4d493; 0x01d004b3; 0x00000000;
    0x00000000; 0x41e4d493; 0x01e004b3; 0x00000000; 0x00000000; 0x41f4d493; 0x01f004b3; 0x00000000;
    0x00000000; 0x40055513; 0x00050067; 0x00000000; 0x00000000; 0x40155513; 0x00100533; 0x00000000;
    0x00000000; 0x40255513; 0x00200533; 0x00000000; 0x00000000; 0x40355513; 0x00300533; 0x00000000;
    0x00000000; 0x40455513; 0x00400533; 0x00000000; 0x00000000; 0x40555513; 0x00500533; 0x00000000;
    0x00000000; 0x40655513; 0x00600533; 0x00000000; 0x00000000; 0x40755513; 0x00700533; 0x00000000;
    0x00000000; 0x40855513; 0x00800533; 0x00000000; 0x00000000; 0x40955513; 0x00900533; 0x00000000;
    0x00000000; 0x40a55513; 0x00a00533; 0x00000000; 0x00000000; 0x40b55513; 0x00b00533; 0x00000000;
    0x00000000; 0x40c55513; 0x00c00533; 0x00000000; 0x00000000; 0x40d55513; 0x00d00533; 0x00000000;
    0x00000000; 0x40e55513; 0x00e00533; 0x00000000; 0x00000000; 0x40f55513; 0x00f00533; 0x00000000;
    0x00000000; 0x41055513; 0x01000533; 0x00000000; 0x00000000; 0x41155513; 0x01100533; 0x00000000;
    0x00000000; 0x41255513; 0x01200533; 0x00000000; 0x00000000; 0x41355513; 0x01300533; 0x00000000;
    0x00000000; 0x41455513; 0x01400533; 0x00000000; 0x00000000; 0x41555513; 0x01500533; 0x00000000;
    0x00000000; 0x41655513; 0x01600533; 0x00000000; 0x00000000; 0x41755513; 0x01700533; 0x00000000;
    0x00000000; 0x41855513; 0x01800533; 0x00000000; 0x00000000; 0x41955513; 0x01900533; 0x00000000;
    0x00000000; 0x41a55513; 0x01a00533; 0x00000000; 0x00000000; 0x41b55513; 0x01b00533; 0x00000000;
    0x00000000; 0x41c55513; 0x01c00533; 0x00000000; 0x00000000; 0x41d55513; 0x01d00533; 0x00000000;
    0x00000000; 0x41e55513; 0x01e00533; 0x00000000; 0x00000000; 0x41f55513; 0x01f00533; 0x00000000;
    0x00000000; 0x4005d593; 0x00058067; 0x00000000; 0x00000000; 0x4015d593; 0x001005b3; 0x00000000;
    0x00000000; 0x4025d593; 0x002005b3; 0x00000000; 0x00000000; 0x4035d593; 0x003005b3; 0x00000000;
    0x00000000; 0x4045d593; 0x004005b3; 0x00000000; 0x00000000; 0x4055d593; 0x005005b3; 0x00000000;
    0x00000000; 0x4065d593; 0x006005b3; 0x00000000; 0x00000000; 0x4075d593; 0x007005b3; 0x00000000;
    0x00000000; 0x4085d593; 0x008005b3; 0x00000000; 0x00000000; 0x4095d593; 0x009005b3; 0x00000000;
    0x00000000; 0x40a5d593; 0x00a005b3; 0x00000000; 0x00000000; 0x40b5d593; 0x00b005b3; 0x00000000;
    0x00000000; 0x40c5d593; 0x00c005b3; 0x00000000; 0x00000000; 0x40d5d593; 0x00d005b3; 0x00000000;
    0x00000000; 0x40e5d593; 0x00e005b3; 0x00000000; 0x00000000; 0x40f5d593; 0x00f005b3; 0x00000000;
    0x00000000; 0x4105d593; 0x010005b3; 0x00000000; 0x00000000; 0x4115d593; 0x011005b3; 0x00000000;
    0x00000000; 0x4125d593; 0x012005b3; 0x00000000; 0x00000000; 0x4135d593; 0x013005b3; 0x00000000;
    0x00000000; 0x4145d593; 0x014005b3; 0x00000000; 0x00000000; 0x4155d593; 0x015005b3; 0x00000000;
    0x00000000; 0x4165d593; 0x016005b3; 0x00000000; 0x00000000; 0x4175d593; 0x017005b3; 0x00000000;
    0x00000000; 0x4185d593; 0x018005b3; 0x00000000; 0x00000000; 0x4195d593; 0x019005b3; 0x00000000;
    0x00000000; 0x41a5d593; 0x01a005b3; 0x00000000; 0x00000000; 0x41b5d593; 0x01b005b3; 0x00000000;
    0x00000000; 0x41c5d593; 0x01c005b3; 0x00000000; 0x00000000; 0x41d5d593; 0x01d005b3; 0x00000000;
    0x00000000; 0x41e5d593; 0x01e005b3; 0x00000000; 0x00000000; 0x41f5d593; 0x01f005b3; 0x00000000;
    0x00000000; 0x40065613; 0x00060067; 0x00000000; 0x00000000; 0x40165613; 0x00100633; 0x00000000;
    0x00000000; 0x40265613; 0x00200633; 0x00000000; 0x00000000; 0x40365613; 0x00300633; 0x00000000;
    0x00000000; 0x40465613; 0x00400633; 0x00000000; 0x00000000; 0x40565613; 0x00500633; 0x00000000;
    0x00000000; 0x40665613; 0x00600633; 0x00000000; 0x00000000; 0x40765613; 0x00700633; 0x00000000;
    0x00000000; 0x40865613; 0x00800633; 0x00000000; 0x00000000; 0x40965613; 0x00900633; 0x00000000;
    0x00000000; 0x40a65613; 0x00a00633; 0x00000000; 0x00000000; 0x40b65613; 0x00b00633; 0x00000000;
    0x00000000; 0x40c65613; 0x00c00633; 0x00000000; 0x00000000; 0x40d65613; 0x00d00633; 0x00000000;
    0x00000000; 0x40e65613; 0x00e00633; 0x00000000; 0x00000000; 0x40f65613; 0x00f00633; 0x00000000;
    0x00000000; 0x41065613; 0x01000633; 0x00000000; 0x00000000; 0x41165613; 0x01100633; 0x00000000;
    0x00000000; 0x41265613; 0x01200633; 0x00000000; 0x00000000; 0x41365613; 0x01300633; 0x00000000;
    0x00000000; 0x41465613; 0x01400633; 0x00000000; 0x00000000; 0x41565613; 0x01500633; 0x00000000;
    0x00000000; 0x41665613; 0x01600633; 0x00000000; 0x00000000; 0x41765613; 0x01700633; 0x00000000;
    0x00000000; 0x41865613; 0x01800633; 0x00000000; 0x00000000; 0x41965613; 0x01900633; 0x00000000;
    0x00000000; 0x41a65613; 0x01a00633; 0x00000000; 0x00000000; 0x41b65613; 0x01b00633; 0x00000000;
    0x00000000; 0x41c65613; 0x01c00633; 0x00000000; 0x00000000; 0x41d65613; 0x01d00633; 0x00000000;
    0x00000000; 0x41e65613; 0x01e00633; 0x00000000; 0x00000000; 0x41f65613; 0x01f00633; 0x00000000;
    0x00000000; 0x4006d693; 0x00068067; 0x00000000; 0x00000000; 0x4016d693; 0x001006b3; 0x00000000;
    0x00000000; 0x4026d693; 0x002006b3; 0x00000000; 0x00000000; 0x4036d693; 0x003006b3; 0x00000000;
    0x00000000; 0x4046d693; 0x004006b3; 0x00000000; 0x00000000; 0x4056d693; 0x005006b3; 0x00000000;
    0x00000000; 0x4066d693; 0x006006b3; 0x00000000; 0x00000000; 0x4076d693; 0x007006b3; 0x00000000;
    0x00000000; 0x4086d693; 0x008006b3; 0x00000000; 0x00000000; 0x4096d693; 0x009006b3; 0x00000000;
    0x00000000; 0x40a6d693; 0x00a006b3; 0x00000000; 0x00000000; 0x40b6d693; 0x00b006b3; 0x00000000;
    0x00000000; 0x40c6d693; 0x00c006b3; 0x00000000; 0x00000000; 0x40d6d693; 0x00d006b3; 0x00000000;
    0x00000000; 0x40e6d693; 0x00e006b3; 0x00000000; 0x00000000; 0x40f6d693; 0x00f006b3; 0x00000000;
    0x00000000; 0x4106d693; 0x010006b3; 0x00000000; 0x00000000; 0x4116d693; 0x011006b3; 0x00000000;
    0x00000000; 0x4126d693; 0x012006b3; 0x00000000; 0x00000000; 0x4136d693; 0x013006b3; 0x00000000;
    0x00000000; 0x4146d693; 0x014006b3; 0x00000000; 0x00000000; 0x4156d693; 0x015006b3; 0x00000000;
    0x00000000; 0x4166d693; 0x016006b3; 0x00000000; 0x00000000; 0x4176d693; 0x017006b3; 0x00000000;
    0x00000000; 0x4186d693; 0x018006b3; 0x00000000; 0x00000000; 0x4196d693; 0x019006b3; 0x00000000;
    0x00000000; 0x41a6d693; 0x01a006b3; 0x00000000; 0x00000000; 0x41b6d693; 0x01b006b3; 0x00000000;
    0x00000000; 0x41c6d693; 0x01c006b3; 0x00000000; 0x00000000; 0x41d6d693; 0x01d006b3; 0x00000000;
    0x00000000; 0x41e6d693; 0x01e006b3; 0x00000000; 0x00000000; 0x41f6d693; 0x01f006b3; 0x00000000;
    0x00000000; 0x40075713; 0x00070067; 0x00000000; 0x00000000; 0x40175713; 0x00100733; 0x00000000;
    0x00000000; 0x40275713; 0x00200733; 0x00000000; 0x00000000; 0x40375713; 0x00300733; 0x00000000;
    0x00000000; 0x40475713; 0x00400733; 0x00000000; 0x00000000; 0x40575713; 0x00500733; 0x00000000;
    0x00000000; 0x40675713; 0x00600733; 0x00000000; 0x00000000; 0x40775713; 0x00700733; 0x00000000;
    0x00000000; 0x40875713; 0x00800733; 0x00000000; 0x00000000; 0x40975713; 0x00900733; 0x00000000;
    0x00000000; 0x40a75713; 0x00a00733; 0x00000000; 0x00000000; 0x40b75713; 0x00b00733; 0x00000000;
    0x00000000; 0x40c75713; 0x00c00733; 0x00000000; 0x00000000; 0x40d75713; 0x00d00733; 0x00000000;
    0x00000000; 0x40e75713; 0x00e00733; 0x00000000; 0x00000000; 0x40f75713; 0x00f00733; 0x00000000;
    0x00000000; 0x41075713; 0x01000733; 0x00000000; 0x00000000; 0x41175713; 0x01100733; 0x00000000;
    0x00000000; 0x41275713; 0x01200733; 0x00000000; 0x00000000; 0x41375713; 0x01300733; 0x00000000;
    0x00000000; 0x41475713; 0x01400733; 0x00000000; 0x00000000; 0x41575713; 0x01500733; 0x00000000;
    0x00000000; 0x41675713; 0x01600733; 0x00000000; 0x00000000; 0x41775713; 0x01700733; 0x00000000;
    0x00000000; 0x41875713; 0x01800733; 0x00000000; 0x00000000; 0x41975713; 0x01900733; 0x00000000;
    0x00000000; 0x41a75713; 0x01a00733; 0x00000000; 0x00000000; 0x41b75713; 0x01b00733; 0x00000000;
    0x00000000; 0x41c75713; 0x01c00733; 0x00000000; 0x00000000; 0x41d75713; 0x01d00733; 0x00000000;
    0x00000000; 0x41e75713; 0x01e00733; 0x00000000; 0x00000000; 0x41f75713; 0x01f00733; 0x00000000;
    0x00000000; 0x4007d793; 0x00078067; 0x00000000; 0x00000000; 0x4017d793; 0x001007b3; 0x00000000;
    0x00000000; 0x4027d793; 0x002007b3; 0x00000000; 0x00000000; 0x4037d793; 0x003007b3; 0x00000000;
    0x00000000; 0x4047d793; 0x004007b3; 0x00000000; 0x00000000; 0x4057d793; 0x005007b3; 0x00000000;
    0x00000000; 0x4067d793; 0x006007b3; 0x00000000; 0x00000000; 0x4077d793; 0x007007b3; 0x00000000;
    0x00000000; 0x4087d793; 0x008007b3; 0x00000000; 0x00000000; 0x4097d793; 0x009007b3; 0x00000000;
    0x00000000; 0x40a7d793; 0x00a007b3; 0x00000000; 0x00000000; 0x40b7d793; 0x00b007b3; 0x00000000;
    0x00000000; 0x40c7d793; 0x00c007b3; 0x00000000; 0x00000000; 0x40d7d793; 0x00d007b3; 0x00000000;
    0x00000000; 0x40e7d793; 0x00e007b3; 0x00000000; 0x00000000; 0x40f7d793; 0x00f007b3; 0x00000000;
    0x00000000; 0x4107d793; 0x010007b3; 0x00000000; 0x00000000; 0x4117d793; 0x011007b3; 0x00000000;
    0x00000000; 0x4127d793; 0x012007b3; 0x00000000; 0x00000000; 0x4137d793; 0x013007b3; 0x00000000;
    0x00000000; 0x4147d793; 0x014007b3; 0x00000000; 0x00000000; 0x4157d793; 0x015007b3; 0x00000000;
    0x00000000; 0x4167d793; 0x016007b3; 0x00000000; 0x00000000; 0x4177d793; 0x017007b3; 0x00000000;
    0x00000000; 0x4187d793; 0x018007b3; 0x00000000; 0x00000000; 0x4197d793; 0x019007b3; 0x00000000;
    0x00000000; 0x41a7d793; 0x01a007b3; 0x00000000; 0x00000000; 0x41b7d793; 0x01b007b3; 0x00000000;
    0x00000000; 0x41c7d793; 0x01c007b3; 0x00000000; 0x00000000; 0x41d7d793; 0x01d007b3; 0x00000000;
    0x00000000; 0x41e7d793; 0x01e007b3; 0x00000000; 0x00000000; 0x41f7d793; 0x01f007b3; 0x00000000
].

(** parcels 0x8800 to 0x8bff *)
Definition RVC64_EXPANDED_34 : list Z := [
    0x00000000; 0x00047413; 0x00080067; 0x00000000; 0x00000000; 0x00147413; 0x00100833; 0x00000000;
    0x00000000; 0x00247413; 0x00200833; 0x00000000; 0x00000000; 0x00347413; 0x00300833; 0x00000000;
    0x00000000; 0x00447413; 0x00400833; 0x00000000; 0x00000000; 0x00547413; 0x00500833; 0x00000000;
    0x00000000; 0x00647413; 0x00600833; 0x00000000; 0x00000000; 0x00747413; 0x00700833; 0x00000000;
    0x00000000; 0x00847413; 0x00800833; 0x00000000; 0x00000000; 0x00947413; 0x00900833; 0x00000000;
    0x00000000; 0x00a47413; 0x00a00833; 0x00000000; 0x00000000; 0x00b47413; 0x00b00833; 0x00000000;
    0x00000000; 0x00c47413; 0x00c00833; 0x00000000; 0x00000000; 0x00d47413; 0x00d00833; 0x00000000;
    0x00000000; 0x00e47413; 0x00e00833; 0x00000000; 0x00000000; 0x00f47413; 0x00f00833; 0x00000000;
    0x00000000; 0x01047413; 0x01000833; 0x00000000; 0x00000000; 0x01147413; 0x01100833; 0x00000000;
    0x00000000; 0x01247413; 0x01200833; 0x00000000; 0x00000000; 0x01347413; 0x01300833; 0x00000000;
    0x00000000; 0x01447413; 0x01400833; 0x00000000; 0x00000000; 0x01547413; 0x01500833; 0x00000000;
    0x00000000; 0x01647413; 0x01600833; 0x00000000; 0x00000000; 0x01747413; 0x01700833; 0x00000000;
    0x00000000; 0x01847413; 0x01800833; 0x00000000; 0x00000000; 0x01947413; 0x01900833; 0x00000000;
    0x00000000; 0x01a47413; 0x01a00833; 0x00000000; 0x00000000; 0x01b47413; 0x01b00833; 0x00000000;
    0x00000000; 0x01c47413; 0x01c00833; 0x00000000; 0x00000000; 0x01d47413; 0x01d00833; 0x00000000;
    0x00000000; 0x01e47413; 0x01e00833; 0x00000000; 0x00000000; 0x01f47413; 0x01f00833; 0x00000000;
    0x00000000; 0x0004f493; 0x00088067; 0x00000000; 0x00000000; 0x0014f493; 0x001008b3; 0x00000000;
    0x00000000; 0x0024f493; 0x002008b3; 0x00000000; 0x00000000; 0x0034f493; 0x003008b3; 0x00000000;
    0x00000000; 0x0044f493; 0x004008b3; 0x00000000; 0x00000000; 0x0054f493; 0x005008b3; 0x00000000;
    0x00000000; 0x0064f493; 0x006008b3; 0x00000000; 0x00000000; 0x0074f493; 0x007008b3; 0x00000000;
    0x00000000; 0x0084f493; 0x008008b3; 0x00000000; 0x00000000; 0x0094f493; 0x009008b3; 0x00000000;
    0x00000000; 0x00a4f493; 0x00a008b3; 0x00000000; 0x00000000; 0x00b4f493; 0x00b008b3; 0x00000000;
    0x00000000; 0x00c4f493; 0x00c008b3; 0x00000000; 0x00000000; 0x00d4f493; 0x00d008b3; 0x00000000;
    0x00000000; 0x00e4f493; 0x00e008b3; 0x00000000; 0x00000000; 0x00f4f493; 0x00f008b3; 0x00000000;
    0x00000000; 0x0104f493; 0x010008b3; 0x00000000; 0x00000000; 0x0114f493; 0x011008b3; 0x00000000;
    0x00000000; 0x0124f493; 0x012008b3; 0x00000000; 0x00000000; 0x0134f493; 0x013008b3; 0x00000000;
    0x00000000; 0x0144f493; 0x014008b3; 0x00000000; 0x00000000; 0x0154f493; 0x015008b3; 0x00000000;
    0x00000000; 0x0164f493; 0x016008b3; 0x00000000; 0x00000000; 0x0174f493; 0x017008b3; 0x00000000;
    0x00000000; 0x0184f493; 0x018008b3; 0x00000000; 0x00000000; 0x0194f493; 0x019008b3; 0x00000000;
    0x00000000; 0x01a4f493; 0x01a008b3; 0x00000000; 0x00000000; 0x01b4f493; 0x01b008b3; 0x00000000;
    0x00000000; 0x01c4f493; 0x01c008b3; 0x00000000; 0x00000000; 0x01d4f493; 0x01d008b3; 0x00000000;
    0x00000000; 0x01e4f493; 0x01e008b3; 0x00000000; 0x00000000; 0x01f4f493; 0x01f008b3; 0x00000000;
    0x00000000; 0x00057513; 0x00090067; 0x00000000; 0x00000000; 0x00157513; 0x00100933; 0x00000000;
    0x00000000; 0x00257513; 0x00200933; 0x00000000; 0x00000000; 0x00357513; 0x00300933; 0x00000000;
    0x00000000; 0x00457513; 0x00400933; 0x00000000; 0x00000000; 0x00557513; 0x00500933; 0x00000000;
    0x00000000; 0x00657513; 0x00600933; 0x00000000; 0x00000000; 0x00757513; 0x00700933; 0x00000000;
    0x00000000; 0x00857513; 0x00800933; 0x00000000; 0x00000000; 0x00957513; 0x00900933; 0x00000000;
    0x00000000; 0x00a57513; 0x00a00933; 0x00000000; 0x00000000; 0x00b57513; 0x00b00933; 0x00000000;
    0x00000000; 0x00c57513; 0x00c00933; 0x00000000; 0x00000000; 0x00d57513; 0x00d00933; 0x00000000;
    0x00000000; 0x00e57513; 0x00e00933; 0x00000000; 0x00000000; 0x00f57513; 0x00f00933; 0x00000000;
    0x00000000; 0x01057513; 0x01000933; 0x00000000; 0x00000000; 0x01157513; 0x01100933; 0x00000000;
    0x00000000; 0x01257513; 0x01200933; 0x00000000; 0x00000000; 0x01357513; 0x01300933; 0x00000000;
    0x00000000; 0x01457513; 0x01400933; 0x00000000; 0x00000000; 0x01557513; 0x01500933; 0x00000000;
    0x00000000; 0x01657513; 0x01600933; 0x00000000; 0x00000000; 0x01757513; 0x01700933; 0x00000000;
    0x00000000; 0x01857513; 0x01800933; 0x00000000; 0x00000000; 0x01957513; 0x01900933; 0x00000000;
    0x00000000; 0x01a57513; 0x01a00933; 0x00000000; 0x00000000; 0x01b57513; 0x01b00933; 0x00000000;
    0x00000000; 0x01c57513; 0x01c00933; 0x00000000; 0x00000000; 0x01d57513; 0x01d00933; 0x00000000;
    0x00000000; 0x01e57513; 0x01e00933; 0x00000000; 0x00000000; 0x01f57513; 0x01f00933; 0x00000000;
    0x00000000; 0x0005f593; 0x00098067; 0x00000000; 0x00000000; 0x0015f593; 0x001009b3; 0x00000000;
    0x00000000; 0x0025f593; 0x002009b3; 0x00000000; 0x00000000; 0x0035f593; 0x003009b3; 0x00000000;
    0x00000000; 0x0045f593; 0x004009b3; 0x00000000; 0x00000000; 0x0055f593; 0x005009b3; 0x00000000;
    0x00000000; 0x0065f593; 0x006009b3; 0x00000000; 0x00000000; 0x0075f593; 0x007009b3; 0x00000000;
    0x00000000; 0x0085f593; 0x008009b3; 0x00000000; 0x00000000; 0x0095f593; 0x009009b3; 0x00000000;
    0x00000000; 0x00a5f593; 0x00a009b3; 0x00000000; 0x00000000; 0x00b5f593; 0x00b009b3; 0x00000000;
    0x00000000; 0x00c5f593; 0x00c009b3; 0x00000000; 0x00000000; 0x00d5f593; 0x00d009b3; 0x00000000;
    0x00000000; 0x00e5f593; 0x00e009b3; 0x00000000; 0x00000000; 0x00f5f593; 0x00f009b3; 0x00000000;
    0x00000000; 0x0105f593; 0x010009b3; 0x00000000; 0x00000000; 0x0115f593; 0x011009b3; 0x00000000;
    0x00000000; 0x0125f593; 0x012009b3; 0x00000000; 0x00000000; 0x0135f593; 0x013009b3; 0x00000000;
    0x00000000; 0x0145f593; 0x014009b3; 0x00000000; 0x00000000; 0x0155f593; 0x015009b3; 0x00000000;
    0x00000000; 0x0165f593; 0x016009b3; 0x00000000; 0x00000000; 0x0175f593; 0x017009b3; 0x00000000;
    0x00000000; 0x0185f593; 0x018009b3; 0x00000000; 0x00000000; 0x0195f593; 0x019009b3; 0x00000000;
    0x00000000; 0x01a5f593; 0x01a009b3; 0x00000000; 0x00000000; 0x01b5f593; 0x01b009b3; 0x00000000;
    0x00000000; 0x01c5f593; 0x01c009b3; 0x00000000; 0x00000000; 0x01d5f593; 0x01d009b3; 0x00000000;
    0x00000000; 0x01e5f593; 0x01e009b3; 0x00000000; 0x00000000; 0x01f5f593; 0x01f009b3; 0x00000000;
    0x00000000; 0x00067613; 0x000a0067; 0x00000000; 0x00000000; 0x00167613; 0x00100a33; 0x00000000;
    0x00000000; 0x00267613; 0x00200a33; 0x00000000; 0x00000000; 0x00367613; 0x00300a33; 0x00000000;
    0x00000000; 0x00467613; 0x00400a33; 0x00000000; 0x00000000; 0x00567613; 0x00500a33; 0x00000000;
    0x00000000; 0x00667613; 0x00600a33; 0x00000000; 0x00000000; 0x00767613; 0x00700a33; 0x00000000;
    0x00000000; 0x00867613; 0x00800a33; 0x00000000; 0x00000000; 0x00967613; 0x00900a33; 0x00000000;
    0x00000000; 0x00a67613; 0x00a00a33; 0x00000000; 0x00000000; 0x00b67613; 0x00b00a33; 0x00000000;
    0x00000000; 0x00c67613; 0x00c00a33; 0x00000000; 0x00000000; 0x00d67613; 0x00d00a33; 0x00000000;
    0x00000000; 0x00e67613; 0x00e00a33; 0x00000000; 0x00000000; 0x00f67613; 0x00f00a33; 0x00000000;
    0x00000000; 0x01067613; 0x01000a33; 0x00000000; 0x00000000; 0x01167613; 0x01100a33; 0x00000000;
    0x00000000; 0x01267613; 0x01200a33; 0x00000000; 0x00000000; 0x01367613; 0x01300a33; 0x00000000;
    0x00000000; 0x01467613; 0x01400a33; 0x00000000; 0x00000000; 0x01567613; 0x01500a33; 0x00000000;
    0x00000000; 0x01667613; 0x01600a33; 0x00000000; 0x00000000; 0x01767613; 0x01700a33; 0x00000000;
    0x00000000; 0x01867613; 0x01800a33; 0x00000000; 0x00000000; 0x01967613; 0x01900a33; 0x00000000;
    0x00000000; 0x01a67613; 0x01a00a33; 0x00000000; 0x00000000; 0x01b67613; 0x01b00a33; 0x00000000;
    0x00000000; 0x01c67613; 0x01c00a33; 0x00000000; 0x00000000; 0x01d67613; 0x01d00a33; 0x00000000;
    0x00000000; 0x01e67613; 0x01e00a33; 0x00000000; 0x00000000; 0x01f67613; 0x01f00a33; 0x00000000;
    0x00000000; 0x0006f693; 0x000a8067; 0x00000000; 0x00000000; 0x0016f693; 0x00100ab3; 0x00000000;
    0x00000000; 0x0026f693; 0x00200ab3; 0x00000000; 0x00000000; 0x0036f693; 0x00300ab3; 0x00000000;
    0x00000000; 0x0046f693; 0x00400ab3; 0x00000000; 0x00000000; 0x0056f693; 0x00500ab3; 0x00000000;
    0x00000000; 0x0066f693; 0x00600ab3; 0x00000000; 0x00000000; 0x0076f693; 0x00700ab3; 0x00000000;
    0x00000000; 0x0086f693; 0x00800ab3; 0x00000000; 0x00000000; 0x0096f693; 0x00900ab3; 0x00000000;
    0x00000000; 0x00a6f693; 0x00a00ab3; 0x00000000; 0x00000000; 0x00b6f693; 0x00b00ab3; 0x00000000;
    0x00000000; 0x00c6f693; 0x00c00ab3; 0x00000000; 0x00000000; 0x00d6f693; 0x00d00ab3; 0x00000000;
    0x00000000; 0x00e6f693; 0x00e00ab3; 0x00000000; 0x00000000; 0x00f6f693; 0x00f00ab3; 0x00000000;
    0x00000000; 0x0106f693; 0x01000ab3; 0x00000000; 0x00000000; 0x0116f693; 0x01100ab3; 0x00000000;
    0x00000000; 0x0126f693; 0x01200ab3; 0x00000000; 0x00000000; 0x0136f693; 0x01300ab3; 0x00000000;
    0x00000000; 0x0146f693; 0x01400ab3; 0x00000000; 0x00000000; 0x0156f693; 0x01500ab3; 0x00000000;
    0x00000000; 0x0166f693; 0x01600ab3; 0x00000000; 0x00000000; 0x0176f693; 0x01700ab3; 0x00000000;
    0x00000000; 0x0186f693; 0x01800ab3; 0x00000000; 0x00000000; 0x0196f693; 0x01900ab3; 0x00000000;
    0x00000000; 0x01a6f693; 0x01a00ab3; 0x00000000; 0x00000000; 0x01b6f693; 0x01b00ab3; 0x00000000;
    0x00000000; 0x01c6f693; 0x01c00ab3; 0x00000000; 0x00000000; 0x01d6f693; 0x01d00ab3; 0x00000000;
    0x00000000; 0x01e6f693; 0x01e00ab3; 0x00000000; 0x00000000; 0x01f6f693; 0x01f00ab3; 0x00000000;
    0x00000000; 0x00077713; 0x000b0067; 0x00000000; 0x00000000; 0x00177713; 0x00100b33; 0x00000000;
    0x00000000; 0x00277713; 0x00200b33; 0x00000000; 0x00000000; 0x00377713; 0x00300b33; 0x00000000;
    0x00000000; 0x00477713; 0x00400b33; 0x00000000; 0x00000000; 0x00577713; 0x00500b33; 0x00000000;
    0x00000000; 0x00677713; 0x00600b33; 0x00000000; 0x00000000; 0x00777713; 0x00700b33; 0x00000000;
    0x00000000; 0x00877713; 0x00800b33; 0x00000000; 0x00000000; 0x00977713; 0x00900b33; 0x00000000;
    0x00000000; 0x00a77713; 0x00a00b33; 0x00000000; 0x00000000; 0x00b77713; 0x00b00b33; 0x00000000;
    0x00000000; 0x00c77713; 0x00c00b33; 0x00000000; 0x00000000; 0x00d77713; 0x00d00b33; 0x00000000;
    0x00000000; 0x00e77713; 0x00e00b33; 0x00000000; 0x00000000; 0x00f77713; 0x00f00b33; 0x00000000;
    0x00000000; 0x01077713; 0x01000b33; 0x00000000; 0x00000000; 0x01177713; 0x01100b33; 0x00000000;
    0x00000000; 0x01277713; 0x01200b33; 0x00000000; 0x00000000; 0x01377713; 0x01300b33; 0x00000000;
    0x00000000; 0x01477713; 0x01400b33; 0x00000000; 0x00000000; 0x01577713; 0x01500b33; 0x00000000;
    0x00000000; 0x01677713; 0x01600b33; 0x00000000; 0x00000000; 0x01777713; 0x01700b33; 0x00000000;
    0x00000000; 0x01877713; 0x01800b33; 0x00000000; 0x00000000; 0x01977713; 0x01900b33; 0x00000000;
    0x00000000; 0x01a77713; 0x01a00b33; 0x00000000; 0x00000000; 0x01b77713; 0x01b00b33; 0x00000000;
    0x00000000; 0x01c77713; 0x01c00b33; 0x00000000; 0x00000000; 0x01d77713; 0x01d00b33; 0x00000000;
    0x00000000; 0x01e77713; 0x01e00b33; 0x00000000; 0x00000000; 0x01f77713; 0x01f00b33; 0x00000000;
    0x00000000; 0x0007f793; 0x000b8067; 0x00000000; 0x00000000; 0x0017f793; 0x00100bb3; 0x00000000;
    0x00000000; 0x0027f793; 0x00200bb3; 0x00000000; 0x00000000; 0x0037f793; 0x00300bb3; 0x00000000;
    0x00000000; 0x0047f793; 0x00400bb3; 0x00000000; 0x00000000; 0x0057f793; 0x00500bb3; 0x00000000;
    0x00000000; 0x0067f793; 0x00600bb3; 0x00000000; 0x00000000; 0x0077f793; 0x00700bb3; 0x00000000;
    0x00000000; 0x0087f793; 0x00800bb3; 0x00000000; 0x00000000; 0x0097f793; 0x00900bb3; 0x00000000;
    0x00000000; 0x00a7f793; 0x00a00bb3; 0x00000000; 0x00000000; 0x00b7f793; 0x00b00bb3; 0x00000000;
    0x00000000; 0x00c7f793; 0x00c00bb3; 0x00000000; 0x00000000; 0x00d7f793; 0x00d00bb3; 0x00000000;
    0x00000000; 0x00e7f793; 0x00e00bb3; 0x00000000; 0x00000000; 0x00f7f793; 0x00f00bb3; 0x00000000;
    0x00000000; 0x0107f793; 0x01000bb3; 0x00000000; 0x00000000; 0x0117f793; 0x01100bb3; 0x00000000;
    0x00000000; 0x0127f793; 0x01200bb3; 0x00000000; 0x00000000; 0x0137f793; 0x01300bb3; 0x00000000;
    0x00000000; 0x0147f793; 0x01400bb3; 0x00000000; 0x00000000; 0x0157f793; 0x01500bb3; 0x00000000;
    0x00000000; 0x0167f793; 0x01600bb3; 0x00000000; 0x00000000; 0x0177f793; 0x01700bb3; 0x00000000;
    0x00000000; 0x0187f793; 0x01800bb3; 0x00000000; 0x00000000; 0x0197f793; 0x01900bb3; 0x00000000;
    0x00000000; 0x01a7f793; 0x01a00bb3; 0x00000000; 0x00000000; 0x01b7f793; 0x01b00bb3; 0x00000000;
    0x00000000; 0x01c7f793; 0x01c00bb3; 0x00000000; 0x00000000; 0x01d7f793; 0x01d00bb3; 0x00000000;
    0x00000000; 0x01e7f793; 0x01e00bb3; 0x00000000; 0x00000000; 0x01f7f793; 0x01f00bb3; 0x00000000
].

(** parcels 0x8c00 to 0x8fff *)
Definition RVC64_EXPANDED_35 : list Z := [
    0x00000000; 0x40840433; 0x000c0067; 0x00000000; 0x00000000; 0x40940433; 0x00100c33; 0x00000000;
    0x00000000; 0x40a40433; 0x00200c33; 0x00000000; 0x00000000; 0x40b40433; 0x00300c33; 0x00000000;
    0x00000000; 0x40c40433; 0x00400c33; 0x00000000; 0x00000000; 0x40d40433; 0x00500c33; 0x00000000;
    0x00000000; 0x40e40433; 0x00600c33; 0x00000000; 0x00000000; 0x40f40433; 0x00700c33; 0x00000000;
    0x00000000; 0x00844433; 0x00800c33; 0x00000000; 0x00000000; 0x00944433; 0x00900c33; 0x00000000;
    0x00000000; 0x00a44433; 0x00a00c33; 0x00000000; 0x00000000; 0x00b44433; 0x00b00c33; 0x00000000;
    0x00000000; 0x00c44433; 0x00c00c33; 0x00000000; 0x00000000; 0x00d44433; 0x00d00c33; 0x00000000;
    0x00000000; 0x00e44433; 0x00e00c33; 0x00000000; 0x00000000; 0x00f44433; 0x00f00c33; 0x00000000;
    0x00000000; 0x00846433; 0x01000c33; 0x00000000; 0x00000000; 0x00946433; 0x01100c33; 0x00000000;
    0x00000000; 0x00a46433; 0x01200c33; 0x00000000; 0x00000000; 0x00b46433; 0x01300c33; 0x00000000;
    0x00000000; 0x00c46433; 0x01400c33; 0x00000000; 0x00000000; 0x00d46433; 0x01500c33; 0x00000000;
    0x00000000; 0x00e46433; 0x01600c33; 0x00000000; 0x00000000; 0x00f46433; 0x01700c33; 0x00000000;
    0x00000000; 0x00847433; 0x01800c33; 0x00000000; 0x00000000; 0x00947433; 0x01900c33; 0x00000000;
    0x00000000; 0x00a47433; 0x01a00c33; 0x00000000; 0x00000000; 0x00b47433; 0x01b00c33; 0x00000000;
    0x00000000; 0x00c47433; 0x01c00c33; 0x00000000; 0x00000000; 0x00d47433; 0x01d00c33; 0x00000000;
    0x00000000; 0x00e47433; 0x01e00c33; 0x00000000; 0x00000000; 0x00f47433; 0x01f00c33; 0x00000000;
    0x00000000; 0x408484b3; 0x000c8067; 0x00000000; 0x00000000; 0x409484b3; 0x00100cb3; 0x00000000;
    0x00000000; 0x40a484b3; 0x00200cb3; 0x00000000; 0x00000000; 0x40b484b3; 0x00300cb3; 0x00000000;
    0x00000000; 0x40c484b3; 0x00400cb3; 0x00000000; 0x00000000; 0x40d484b3; 0x00500cb3; 0x00000000;
    0x00000000; 0x40e484b3; 0x00600cb3; 0x00000000; 0x00000000; 0x40f484b3; 0x00700cb3; 0x00000000;
    0x00000000; 0x0084c4b3; 0x00800cb3; 0x00000000; 0x00000000; 0x0094c4b3; 0x00900cb3; 0x00000000;
    0x00000000; 0x00a4c4b3; 0x00a00cb3; 0x00000000; 0x00000000; 0x00b4c4b3; 0x00b00cb3; 0x00000000;
    0x00000000; 0x00c4c4b3; 0x00c00cb3; 0x00000000; 0x00000000; 0x00d4c4b3; 0x00d00cb3; 0x00000000;
    0x00000000; 0x00e4c4b3; 0x00e00cb3; 0x00000000; 0x00000000; 0x00f4c4b3; 0x00f00cb3; 0x00000000;
    0x00000000; 0x0084e4b3; 0x01000cb3; 0x00000000; 0x00000000; 0x0094e4b3; 0x01100cb3; 0x00000000;
    0x00000000; 0x00a4e4b3; 0x01200cb3; 0x00000000; 0x00000000; 0x00b4e4b3; 0x01300cb3; 0x00000000;
    0x00000000; 0x00c4e4b3; 0x01400cb3; 0x00000000; 0x00000000; 0x00d4e4b3; 0x01500cb3; 0x00000000;
    0x00000000; 0x00e4e4b3; 0x01600cb3; 0x00000000; 0x00000000; 0x00f4e4b3; 0x01700cb3; 0x00000000;
    0x00000000; 0x0084f4b3; 0x01800cb3; 0x00000000; 0x00000000; 0x0094f4b3; 0x01900cb3; 0x00000000;
    0x00000000; 0x00a4f4b3; 0x01a00cb3; 0x00000000; 0x00000000; 0x00b4f4b3; 0x01b00cb3; 0x00000000;
    0x00000000; 0x00c4f4b3; 0x01c00cb3; 0x00000000; 0x00000000; 0x00d4f4b3; 0x01d00cb3; 0x00000000;
    0x00000000; 0x00e4f4b3; 0x01e00cb3; 0x00000000; 0x00000000; 0x00f4f4b3; 0x01f00cb3; 0x00000000;
    0x00000000; 0x40850533; 0x000d0067; 0x00000000; 0x00000000; 0x40950533; 0x00100d33; 0x00000000;
    0x00000000; 0x40a50533; 0x00200d33; 0x00000000; 0x00000000; 0x40b50533; 0x00300d33; 0x00000000;
    0x00000000; 0x40c50533; 0x00400d33; 0x00000000; 0x00000000; 0x40d50533; 0x00500d33; 0x00000000;
    0x00000000; 0x40e50533; 0x00600d33; 0x00000000; 0x00000000; 0x40f50533; 0x00700d33; 0x00000000;
    0x00000000; 0x00854533; 0x00800d33; 0x00000000; 0x00000000; 0x00954533; 0x00900d33; 0x00000000;
    0x00000000; 0x00a54533; 0x00a00d33; 0x00000000; 0x00000000; 0x00b54533; 0x00b00d33; 0x00000000;
    0x00000000; 0x00c54533; 0x00c00d33; 0x00000000; 0x00000000; 0x00d54533; 0x00d00d33; 0x00000000;
    0x00000000; 0x00e54533; 0x00e00d33; 0x00000000; 0x00000000; 0x00f54533; 0x00f00d33; 0x00000000;
    0x00000000; 0x00856533; 0x01000d33; 0x00000000; 0x00000000; 0x00956533; 0x01100d33; 0x00000000;
    0x00000000; 0x00a56533; 0x01200d33; 0x00000000; 0x00000000; 0x00b56533; 0x01300d33; 0x00000000;
    0x00000000; 0x00c56533; 0x01400d33; 0x00000000; 0x00000000; 0x00d56533; 0x01500d33; 0x00000000;
    0x00000000; 0x00e56533; 0x01600d33; 0x00000000; 0x00000000; 0x00f56533; 0x01700d33; 0x00000000;
    0x00000000; 0x00857533; 0x01800d33; 0x00000000; 0x00000000; 0x00957533; 0x01900d33; 0x00000000;
    0x00000000; 0x00a57533; 0x01a00d33; 0x00000000; 0x00000000; 0x00b57533; 0x01b00d33; 0x00000000;
    0x00000000; 0x00c57533; 0x01c00d33; 0x00000000; 0x00000000; 0x00d57533; 0x01d00d33; 0x00000000;
    0x00000000; 0x00e57533; 0x01e00d33; 0x00000000; 0x00000000; 0x00f57533; 0x01f00d33; 0x00000000;
    0x00000000; 0x408585b3; 0x000d8067; 0x00000000; 0x00000000; 0x409585b3; 0x00100db3; 0x00000000;
    0x00000000; 0x40a585b3; 0x00200db3; 0x00000000; 0x00000000; 0x40b585b3; 0x00300db3; 0x00000000;
    0x00000000; 0x40c585b3; 0x00400db3; 0x00000000; 0x00000000; 0x40d585b3; 0x00500db3; 0x00000000;
    0x00000000; 0x40e585b3; 0x00600db3; 0x00000000; 0x00000000; 0x40f585b3; 0x00700db3; 0x00000000;
    0x00000000; 0x0085c5b3; 0x00800db3; 0x00000000; 0x00000000; 0x0095c5b3; 0x00900db3; 0x00000000;
    0x00000000; 0x00a5c5b3; 0x00a00db3; 0x00000000; 0x00000000; 0x00b5c5b3; 0x00b00db3; 0x00000000;
    0x00000000; 0x00c5c5b3; 0x00c00db3; 0x00000000; 0x00000000; 0x00d5c5b3; 0x00d00db3; 0x00000000;
    0x00000000; 0x00e5c5b3; 0x00e00db3; 0x00000000; 0x00000000; 0x00f5c5b3; 0x00f00db3; 0x00000000;
    0x00000000; 0x0085e5b3; 0x01000db3; 0x00000000; 0x00000000; 0x0095e5b3; 0x01100db3; 0x00000000;
    0x00000000; 0x00a5e5b3; 0x01200db3; 0x00000000; 0x00000000; 0x00b5e5b3; 0x01300db3; 0x00000000;
    0x00000000; 0x00c5e5b3; 0x01400db3; 0x00000000; 0x00000000; 0x00d5e5b3; 0x01500db3; 0x00000000;
    0x00000000; 0x00e5e5b3; 0x01600db3; 0x00000000; 0x00000000; 0x00f5e5b3; 0x01700db3; 0x00000000;
    0x00000000; 0x0085f5b3; 0x01800db3; 0x00000000; 0x00000000; 0x0095f5b3; 0x01900db3; 0x00000000;
    0x00000000; 0x00a5f5b3; 0x01a00db3; 0x00000000; 0x00000000; 0x00b5f5b3; 0x01b00db3; 0x00000000;
    0x00000000; 0x00c5f5b3; 0x01c00db3; 0x00000000; 0x00000000; 0x00d5f5b3; 0x01d00db3; 0x00000000;
    0x00000000; 0x00e5f5b3; 0x01e00db3; 0x00000000; 0x00000000; 0x00f5f5b3; 0x01f00db3; 0x00000000;
    0x00000000; 0x40860633; 0x000e0067; 0x00000000; 0x00000000; 0x40960633; 0x00100e33; 0x00000000;
    0x00000000; 0x40a60633; 0x00200e33; 0x00000000; 0x00000000; 0x40b60633; 0x00300e33; 0x00000000;
    0x00000000; 0x40c60633; 0x00400e33; 0x00000000; 0x00000000; 0x40d60633; 0x00500e33; 0x00000000;
    0x00000000; 0x40e60633; 0x00600e33; 0x00000000; 0x00000000; 0x40f60633; 0x00700e33; 0x00000000;
    0x00000000; 0x00864633; 0x00800e33; 0x00000000; 0x00000000; 0x00964633; 0x00900e33; 0x00000000;
    0x00000000; 0x00a64633; 0x00a00e33; 0x00000000; 0x00000000; 0x00b64633; 0x00b00e33; 0x00000000;
    0x00000000; 0x00c64633; 0x00c00e33; 0x00000000; 0x00000000; 0x00d64633; 0x00d00e33; 0x00000000;
    0x00000000; 0x00e64633; 0x00e00e33; 0x00000000; 0x00000000; 0x00f64633; 0x00f00e33; 0x00000000;
    0x00000000; 0x00866633; 0x01000e33; 0x00000000; 0x00000000; 0x00966633; 0x01100e33; 0x00000000;
    0x00000000; 0x00a66633; 0x01200e33; 0x00000000; 0x00000000; 0x00b66633; 0x01300e33; 0x00000000;
    0x00000000; 0x00c66633; 0x01400e33; 0x00000000; 0x00000000; 0x00d66633; 0x01500e33; 0x00000000;
    0x00000000; 0x00e66633; 0x01600e33; 0x00000000; 0x00000000; 0x00f66633; 0x01700e33; 0x00000000;
    0x00000000; 0x00867633; 0x01800e33; 0x00000000; 0x00000000; 0x00967633; 0x01900e33; 0x00000000;
    0x00000000; 0x00a67633; 0x01a00e33; 0x00000000; 0x00000000; 0x00b67633; 0x01b00e33; 0x00000000;
    0x00000000; 0x00c67633; 0x01c00e33; 0x00000000; 0x00000000; 0x00d67633; 0x01d00e33; 0x00000000;
    0x00000000; 0x00e67633; 0x01e00e33; 0x00000000; 0x00000000; 0x00f67633; 0x01f00e33; 0x00000000;
    0x00000000; 0x408686b3; 0x000e8067; 0x00000000; 0x00000000; 0x409686b3; 0x00100eb3; 0x00000000;
    0x00000000; 0x40a686b3; 0x00200eb3; 0x00000000; 0x00000000; 0x40b686b3; 0x00300eb3; 0x00000000;
    0x00000000; 0x40c686b3; 0x00400eb3; 0x00000000; 0x00000000; 0x40d686b3; 0x00500eb3; 0x00000000;
    0x00000000; 0x40e686b3; 0x00600eb3; 0x00000000; 0x00000000; 0x40f686b3; 0x00700eb3; 0x00000000;
    0x00000000; 0x0086c6b3; 0x00800eb3; 0x00000000; 0x00000000; 0x0096c6b3; 0x00900eb3; 0x00000000;
    0x00000000; 0x00a6c6b3; 0x00a00eb3; 0x00000000; 0x00000000; 0x00b6c6b3; 0x00b00eb3; 0x00000000;
    0x00000000; 0x00c6c6b3; 0x00c00eb3; 0x00000000; 0x00000000; 0x00d6c6b3; 0x00d00eb3; 0x00000000;
    0x00000000; 0x00e6c6b3; 0x00e00eb3; 0x00000000; 0x00000000; 0x00f6c6b3; 0x00f00eb3; 0x00000000;
    0x00000000; 0x0086e6b3; 0x01000eb3; 0x00000000; 0x00000000; 0x0096e6b3; 0x01100eb3; 0x00000000;
    0x00000000; 0x00a6e6b3; 0x01200eb3; 0x00000000; 0x00000000; 0x00b6e6b3; 0x01300eb3; 0x00000000;
    0x00000000; 0x00c6e6b3; 0x01400eb3; 0x00000000; 0x00000000; 0x00d6e6b3; 0x01500eb3; 0x00000000;
    0x00000000; 0x00e6e6b3; 0x01600eb3; 0x00000000; 0x00000000; 0x00f6e6b3; 0x01700eb3; 0x00000000;
    0x00000000; 0x0086f6b3; 0x01800eb3; 0x00000000; 0x00000000; 0x0096f6b3; 0x01900eb3; 0x00000000;
    0x00000000; 0x00a6f6b3; 0x01a00eb3; 0x00000000; 0x00000000; 0x00b6f6b3; 0x01b00eb3; 0x00000000;
    0x00000000; 0x00c6f6b3; 0x01c00eb3; 0x00000000; 0x00000000; 0x00d6f6b3; 0x01d00eb3; 0x00000000;
    0x00000000; 0x00e6f6b3; 0x01e00eb3; 0x00000000; 0x00000000; 0x00f6f6b3; 0x01f00eb3; 0x00000000;
    0x00000000; 0x40870733; 0x000f0067; 0x00000000; 0x00000000; 0x40970733; 0x00100f33; 0x00000000;
    0x00000000; 0x40a70733; 0x00200f33; 0x00000000; 0x00000000; 0x40b70733; 0x00300f33; 0x00000000;
    0x00000000; 0x40c70733; 0x00400f33; 0x00000000; 0x00000000; 0x40d70733; 0x00500f33; 0x00000000;
    0x00000000; 0x40e70733; 0x00600f33; 0x00000000; 0x00000000; 0x40f70733; 0x00700f33; 0x00000000;
    0x00000000; 0x00874733; 0x00800f33; 0x00000000; 0x00000000; 0x00974733; 0x00900f33; 0x00000000;
    0x00000000; 0x00a74733; 0x00a00f33; 0x00000000; 0x00000000; 0x00b74733; 0x00b00f33; 0x00000000;
    0x00000000; 0x00c74733; 0x00c00f33; 0x00000000; 0x00000000; 0x00d74733; 0x00d00f33; 0x00000000;
    0x00000000; 0x00e74733; 0x00e00f33; 0x00000000; 0x00000000; 0x00f74733; 0x00f00f33; 0x00000000;
    0x00000000; 0x00876733; 0x01000f33; 0x00000000; 0x00000000; 0x00976733; 0x01100f33; 0x00000000;
    0x00000000; 0x00a76733; 0x01200f33; 0x00000000; 0x00000000; 0x00b76733; 0x01300f33; 0x00000000;
    0x00000000; 0x00c76733; 0x01400f33; 0x00000000; 0x00000000; 0x00d76733; 0x01500f33; 0x00000000;
    0x00000000; 0x00e76733; 0x01600f33; 0x00000000; 0x00000000; 0x00f76733; 0x01700f33; 0x00000000;
    0x00000000; 0x00877733; 0x01800f33; 0x00000000; 0x00000000; 0x00977733; 0x01900f33; 0x00000000;
    0x00000000; 0x00a77733; 0x01a00f33; 0x00000000; 0x00000000; 0x00b77733; 0x01b00f33; 0x00000000;
    0x00000000; 0x00c77733; 0x01c00f33; 0x00000000; 0x00000000; 0x00d77733; 0x01d00f33; 0x00000000;
    0x00000000; 0x00e77733; 0x01e00f33; 0x00000000; 0x00000000; 0x00f77733; 0x01f00f33; 0x00000000;
    0x00000000; 0x408787b3; 0x000f8067; 0x00000000; 0x00000000; 0x409787b3; 0x00100fb3; 0x00000000;
    0x00000000; 0x40a787b3; 0x00200fb3; 0x00000000; 0x00000000; 0x40b787b3; 0x00300fb3; 0x00000000;
    0x00000000; 0x40c787b3; 0x00400fb3; 0x00000000; 0x00000000; 0x40d787b3; 0x00500fb3; 0x00000000;
    0x00000000; 0x40e787b3; 0x00600fb3; 0x00000000; 0x00000000; 0x40f787b3; 0x00700fb3; 0x00000000;
    0x00000000; 0x0087c7b3; 0x00800fb3; 0x00000000; 0x00000000; 0x0097c7b3; 0x00900fb3; 0x00000000;
    0x00000000; 0x00a7c7b3; 0x00a00fb3; 0x00000000; 0x00000000; 0x00b7c7b3; 0x00b00fb3; 0x00000000;
    0x00000000; 0x00c7c7b3; 0x00c00fb3; 0x00000000; 0x00000000; 0x00d7c7b3; 0x00d00fb3; 0x00000000;
    0x00000000; 0x00e7c7b3; 0x00e00fb3; 0x00000000; 0x00000000; 0x00f7c7b3; 0x00f00fb3; 0x00000000;
    0x00000000; 0x0087e7b3; 0x01000fb3; 0x00000000; 0x00000000; 0x0097e7b3; 0x01100fb3; 0x00000000;
    0x00000000; 0x00a7e7b3; 0x01200fb3; 0x00000000; 0x00000000; 0x00b7e7b3; 0x01300fb3; 0x00000000;
    0x00000000; 0x00c7e7b3; 0x01400fb3; 0x00000000; 0x00000000; 0x00d7e7b3; 0x01500fb3; 0x00000000;
    0x00000000; 0x00e7e7b3; 0x01600fb3; 0x00000000; 0x00000000; 0x00f7e7b3; 0x01700fb3; 0x00000000;
    0x00000000; 0x0087f7b3; 0x01800fb3; 0x00000000; 0x00000000; 0x0097f7b3; 0x01900fb3; 0x00000000;
    0x00000000; 0x00a7f7b3; 0x01a00fb3; 0x00000000; 0x00000000; 0x00b7f7b3; 0x01b00fb3; 0x00000000;
    0x00000000; 0x00c7f7b3; 0x01c00fb3; 0x00000000; 0x00000000; 0x00d7f7b3; 0x01d00fb3; 0x00000000;
    0x00000000; 0x00e7f7b3; 0x01e00fb3; 0x00000000; 0x00000000; 0x00f7f7b3; 0x01f00fb3; 0x00000000
].

(** parcels 0x9000 to 0x93ff *)
Definition RVC64_EXPANDED_36 : list Z := [
    0x00000000; 0x02045413; 0x00100073; 0x00000000; 0x00000000; 0x02145413; 0x00100033; 0x00000000;
    0x00000000; 0x02245413; 0x00200033; 0x00000000; 0x00000000; 0x02345413; 0x00300033; 0x00000000;
    0x00000000; 0x02445413; 0x00400033; 0x00000000; 0x00000000; 0x02545413; 0x00500033; 0x00000000;
    0x00000000; 0x02645413; 0x00600033; 0x00000000; 0x00000000; 0x02745413; 0x00700033; 0x00000000;
    0x00000000; 0x02845413; 0x00800033; 0x00000000; 0x00000000; 0x02945413; 0x00900033; 0x00000000;
    0x00000000; 0x02a45413; 0x00a00033; 0x00000000; 0x00000000; 0x02b45413; 0x00b00033; 0x00000000;
    0x00000000; 0x02c45413; 0x00c00033; 0x00000000; 0x00000000; 0x02d45413; 0x00d00033; 0x00000000;
    0x00000000; 0x02e45413; 0x00e00033; 0x00000000; 0x00000000; 0x02f45413; 0x00f00033; 0x00000000;
    0x00000000; 0x03045413; 0x01000033; 0x00000000; 0x00000000; 0x03145413; 0x01100033; 0x00000000;
    0x00000000; 0x03245413; 0x01200033; 0x00000000; 0x00000000; 0x03345413; 0x01300033; 0x00000000;
    0x00000000; 0x03445413; 0x01400033; 0x00000000; 0x00000000; 0x03545413; 0x01500033; 0x00000000;
    0x00000000; 0x03645413; 0x01600033; 0x00000000; 0x00000000; 0x03745413; 0x01700033; 0x00000000;
    0x00000000; 0x03845413; 0x01800033; 0x00000000; 0x00000000; 0x03945413; 0x01900033; 0x00000000;
    0x00000000; 0x03a45413; 0x01a00033; 0x00000000; 0x00000000; 0x03b45413; 0x01b00033; 0x00000000;
    0x00000000; 0x03c45413; 0x01c00033; 0x00000000; 0x00000000; 0x03d45413; 0x01d00033; 0x00000000;
    0x00000000; 0x03e45413; 0x01e00033; 0x00000000; 0x00000000; 0x03f45413; 0x01f00033; 0x00000000;
    0x00000000; 0x0204d493; 0x000080e7; 0x00000000; 0x00000000; 0x0214d493; 0x001080b3; 0x00000000;
    0x00000000; 0x0224d493; 0x002080b3; 0x00000000; 0x00000000; 0x0234d493; 0x003080b3; 0x00000000;
    0x00000000; 0x0244d493; 0x004080b3; 0x00000000; 0x00000000; 0x0254d493; 0x005080b3; 0x00000000;
    0x00000000; 0x0264d493; 0x006080b3; 0x00000000; 0x00000000; 0x0274d493; 0x007080b3; 0x00000000;
    0x00000000; 0x0284d493; 0x008080b3; 0x00000000; 0x00000000; 0x0294d493; 0x009080b3; 0x00000000;
    0x00000000; 0x02a4d493; 0x00a080b3; 0x00000000; 0x00000000; 0x02b4d493; 0x00b080b3; 0x00000000;
    0x00000000; 0x02c4d493; 0x00c080b3; 0x00000000; 0x00000000; 0x02d4d493; 0x00d080b3; 0x00000000;
    0x00000000; 0x02e4d493; 0x00e080b3; 0x00000000; 0x00000000; 0x02f4d493; 0x00f080b3; 0x00000000;
    0x00000000; 0x0304d493; 0x010080b3; 0x00000000; 0x00000000; 0x0314d493; 0x011080b3; 0x00000000;
    0x00000000; 0x0324d493; 0x012080b3; 0x00000000; 0x00000000; 0x0334d493; 0x013080b3; 0x00000000;
    0x00000000; 0x0344d493; 0x014080b3; 0x00000000; 0x00000000; 0x0354d493; 0x015080b3; 0x00000000;
    0x00000000; 0x0364d493; 0x016080b3; 0x00000000; 0x00000000; 0x0374d493; 0x017080b3; 0x00000000;
    0x00000000; 0x0384d493; 0x018080b3; 0x00000000; 0x00000000; 0x0394d493; 0x019080b3; 0x00000000;
    0x00000000; 0x03a4d493; 0x01a080b3; 0x00000000; 0x00000000; 0x03b4d493; 0x01b080b3; 0x00000000;
    0x00000000; 0x03c4d493; 0x01c080b3; 0x00000000; 0x00000000; 0x03d4d493; 0x01d080b3; 0x00000000;
    0x00000000; 0x03e4d493; 0x01e080b3; 0x00000000; 0x00000000; 0x03f4d493; 0x01f080b3; 0x00000000;
    0x00000000; 0x02055513; 0x000100e7; 0x00000000; 0x00000000; 0x02155513; 0x00110133; 0x00000000;
    0x00000000; 0x02255513; 0x00210133; 0x00000000; 0x00000000; 0x02355513; 0x00310133; 0x00000000;
    0x00000000; 0x02455513; 0x00410133; 0x00000000; 0x00000000; 0x02555513; 0x00510133; 0x00000000;
    0x00000000; 0x02655513; 0x00610133; 0x00000000; 0x00000000; 0x02755513; 0x00710133; 0x00000000;
    0x00000000; 0x02855513; 0x00810133; 0x00000000; 0x00000000; 0x02955513; 0x00910133; 0x00000000;
    0x00000000; 0x02a55513; 0x00a10133; 0x00000000; 0x00000000; 0x02b55513; 0x00b10133; 0x00000000;
    0x00000000; 0x02c55513; 0x00c10133; 0x00000000; 0x00000000; 0x02d55513; 0x00d10133; 0x00000000;
    0x00000000; 0x02e55513; 0x00e10133; 0x00000000; 0x00000000; 0x02f55513; 0x00f10133; 0x00000000;
    0x00000000; 0x03055513; 0x01010133; 0x00000000; 0x00000000; 0x03155513; 0x01110133; 0x00000000;
    0x00000000; 0x03255513; 0x01210133; 0x00000000; 0x00000000; 0x03355513; 0x01310133; 0x00000000;
    0x00000000; 0x03455513; 0x01410133; 0x00000000; 0x00000000; 0x03555513; 0x01510133; 0x00000000;
    0x00000000; 0x03655513; 0x01610133; 0x00000000; 0x00000000; 0x03755513; 0x01710133; 0x00000000;
    0x00000000; 0x03855513; 0x01810133; 0x00000000; 0x00000000; 0x03955513; 0x01910133; 0x00000000;
    0x00000000; 0x03a55513; 0x01a10133; 0x00000000; 0x00000000; 0x03b55513; 0x01b10133; 0x00000000;
    0x00000000; 0x03c55513; 0x01c10133; 0x00000000; 0x00000000; 0x03d55513; 0x01d10133; 0x00000000;
    0x00000000; 0x03e55513; 0x01e10133; 0x00000000; 0x00000000; 0x03f55513; 0x01f10133; 0x00000000;
    0x00000000; 0x0205d593; 0x000180e7; 0x00000000; 0x00000000; 0x0215d593; 0x001181b3; 0x00000000;
    0x00000000; 0x0225d593; 0x002181b3; 0x00000000; 0x00000000; 0x0235d593; 0x003181b3; 0x00000000;
    0x00000000; 0x0245d593; 0x004181b3; 0x00000000; 0x00000000; 0x0255d593; 0x005181b3; 0x00000000;
    0x00000000; 0x0265d593; 0x006181b3; 0x00000000; 0x00000000; 0x0275d593; 0x007181b3; 0x00000000;
    0x00000000; 0x0285d593; 0x008181b3; 0x00000000; 0x00000000; 0x0295d593; 0x009181b3; 0x00000000;
    0x00000000; 0x02a5d593; 0x00a181b3; 0x00000000; 0x00000000; 0x02b5d593; 0x00b181b3; 0x00000000;
    0x00000000; 0x02c5d593; 0x00c181b3; 0x00000000; 0x00000000; 0x02d5d593; 0x00d181b3; 0x00000000;
    0x00000000; 0x02e5d593; 0x00e181b3; 0x00000000; 0x00000000; 0x02f5d593; 0x00f181b3; 0x00000000;
    0x00000000; 0x0305d593; 0x010181b3; 0x00000000; 0x00000000; 0x0315d593; 0x011181b3; 0x00000000;
    0x00000000; 0x0325d593; 0x012181b3; 0x00000000; 0x00000000; 0x0335d593; 0x013181b3; 0x00000000;
    0x00000000; 0x0345d593; 0x014181b3; 0x00000000; 0x00000000; 0x0355d593; 0x015181b3; 0x00000000;
    0x00000000; 0x0365d593; 0x016181b3; 0x00000000; 0x00000000; 0x0375d593; 0x017181b3; 0x00000000;
    0x00000000; 0x0385d593; 0x018181b3; 0x00000000; 0x00000000; 0x0395d593; 0x019181b3; 0x00000000;
    0x00000000; 0x03a5d593; 0x01a181b3; 0x00000000; 0x00000000; 0x03b5d593; 0x01b181b3; 0x00000000;
    0x00000000; 0x03c5d593; 0x01c181b3; 0x00000000; 0x00000000; 0x03d5d593; 0x01d181b3; 0x00000000;
    0x00000000; 0x03e5d593; 0x01e181b3; 0x00000000; 0x00000000; 0x03f5d593; 0x01f181b3; 0x00000000;
    0x00000000; 0x02065613; 0x000200e7; 0x00000000; 0x00000000; 0x02165613; 0x00120233; 0x00000000;
    0x00000000; 0x02265613; 0x00220233; 0x00000000; 0x00000000; 0x02365613; 0x00320233; 0x00000000;
    0x00000000; 0x02465613; 0x00420233; 0x00000000; 0x00000000; 0x02565613; 0x00520233; 0x00000000;
    0x00000000; 0x02665613; 0x00620233; 0x00000000; 0x00000000; 0x02765613; 0x00720233; 0x00000000;
    0x00000000; 0x02865613; 0x00820233; 0x00000000; 0x00000000; 0x02965613; 0x00920233; 0x00000000;
    0x00000000; 0x02a65613; 0x00a20233; 0x00000000; 0x00000000; 0x02b65613; 0x00b20233; 0x00000000;
    0x00000000; 0x02c65613; 0x00c20233; 0x00000000; 0x00000000; 0x02d65613; 0x00d20233; 0x00000000;
    0x00000000; 0x02e65613; 0x00e20233; 0x00000000; 0x00000000; 0x02f65613; 0x00f20233; 0x00000000;
    0x00000000; 0x03065613; 0x01020233; 0x00000000; 0x00000000; 0x03165613; 0x01120233; 0x00000000;
    0x00000000; 0x03265613; 0x01220233; 0x00000000; 0x00000000; 0x03365613; 0x01320233; 0x00000000;
    0x00000000; 0x03465613; 0x01420233; 0x00000000; 0x00000000; 0x03565613; 0x01520233; 0x00000000;
    0x00000000; 0x03665613; 0x01620233; 0x00000000; 0x00000000; 0x03765613; 0x01720233; 0x00000000;
    0x00000000; 0x03865613; 0x01820233; 0x00000000; 0x00000000; 0x03965613; 0x01920233; 0x00000000;
    0x00000000; 0x03a65613; 0x01a20233; 0x00000000; 0x00000000; 0x03b65613; 0x01b20233; 0x00000000;
    0x00000000; 0x03c65613; 0x01c20233; 0x00000000; 0x00000000; 0x03d65613; 0x01d20233; 0x00000000;
    0x00000000; 0x03e65613; 0x01e20233; 0x00000000; 0x00000000; 0x03f65613; 0x01f20233; 0x00000000;
    0x00000000; 0x0206d693; 0x000280e7; 0x00000000; 0x00000000; 0x0216d693; 0x001282b3; 0x00000000;
    0x00000000; 0x0226d693; 0x002282b3; 0x00000000; 0x00000000; 0x0236d693; 0x003282b3; 0x00000000;
    0x00000000; 0x0246d693; 0x004282b3; 0x00000000; 0x00000000; 0x0256d693; 0x005282b3; 0x00000000;
    0x00000000; 0x0266d693; 0x006282b3; 0x00000000; 0x00000000; 0x0276d693; 0x007282b3; 0x00000000;
    0x00000000; 0x0286d693; 0x008282b3; 0x00000000; 0x00000000; 0x0296d693; 0x009282b3; 0x00000000;
    0x00000000; 0x02a6d693; 0x00a282b3; 0x00000000; 0x00000000; 0x02b6d693; 0x00b282b3; 0x00000000;
    0x00000000; 0x02c6d693; 0x00c282b3; 0x00000000; 0x00000000; 0x02d6d693; 0x00d282b3; 0x00000000;
    0x00000000; 0x02e6d693; 0x00e282b3; 0x00000000; 0x00000000; 0x02f6d693; 0x00f282b3; 0x00000000;
    0x00000000; 0x0306d693; 0x010282b3; 0x00000000; 0x00000000; 0x0316d693; 0x011282b3; 0x00000000;
    0x00000000; 0x0326d693; 0x012282b3; 0x00000000; 0x00000000; 0x0336d693; 0x013282b3; 0x00000000;
    0x00000000; 0x0346d693; 0x014282b3; 0x00000000; 0x00000000; 0x0356d693; 0x015282b3; 0x00000000;
    0x00000000; 0x0366d693; 0x016282b3; 0x00000000; 0x00000000; 0x0376d693; 0x017282b3; 0x00000000;
    0x00000000; 0x0386d693; 0x018282b3; 0x00000000; 0x00000000; 0x0396d693; 0x019282b3; 0x00000000;
    0x00000000; 0x03a6d693; 0x01a282b3; 0x00000000; 0x00000000; 0x03b6d693; 0x01b282b3; 0x00000000;
    0x00000000; 0x03c6d693; 0x01c282b3; 0x00000000; 0x00000000; 0x03d6d693; 0x01d282b3; 0x00000000;
    0x00000000; 0x03e6d693; 0x01e282b3; 0x00000000; 0x00000000; 0x03f6d693; 0x01f282b3; 0x00000000;
    0x00000000; 0x02075713; 0x000300e7; 0x00000000; 0x00000000; 0x02175713; 0x00130333; 0x00000000;
    0x00000000; 0x02275713; 0x00230333; 0x00000000; 0x00000000; 0x02375713; 0x00330333; 0x00000000;
    0x00000000; 0x02475713; 0x00430333; 0x00000000; 0x00000000; 0x02575713; 0x00530333; 0x00000000;
    0x00000000; 0x02675713; 0x00630333; 0x00000000; 0x00000000; 0x02775713; 0x00730333; 0x00000000;
    0x00000000; 0x02875713; 0x00830333; 0x00000000; 0x00000000; 0x02975713; 0x00930333; 0x00000000;
    0x00000000; 0x02a75713; 0x00a30333; 0x00000000; 0x00000000; 0x02b75713; 0x00b30333; 0x00000000;
    0x00000000; 0x02c75713; 0x00c30333; 0x00000000; 0x00000000; 0x02d75713; 0x00d30333; 0x00000000;
    0x00000000; 0x02e75713; 0x00e30333; 0x00000000; 0x00000000; 0x02f75713; 0x00f30333; 0x00000000;
    0x00000000; 0x03075713; 0x01030333; 0x00000000; 0x00000000; 0x03175713; 0x01130333; 0x00000000;
    0x00000000; 0x03275713; 0x01230333; 0x00000000; 0x00000000; 0x03375713; 0x01330333; 0x00000000;
    0x00000000; 0x03475713; 0x01430333; 0x00000000; 0x00000000; 0x03575713; 0x01530333; 0x00000000;
    0x00000000; 0x03675713; 0x01630333; 0x00000000; 0x00000000; 0x03775713; 0x01730333; 0x00000000;
    0x00000000; 0x03875713; 0x01830333; 0x00000000; 0x00000000; 0x03975713; 0x01930333; 0x00000000;
    0x00000000; 0x03a75713; 0x01a30333; 0x00000000; 0x00000000; 0x03b75713; 0x01b30333; 0x00000000;
    0x00000000; 0x03c75713; 0x01c30333; 0x00000000; 0x00000000; 0x03d75713; 0x01d30333; 0x00000000;
    0x00000000; 0x03e75713; 0x01e30333; 0x00000000; 0x00000000; 0x03f75713; 0x01f30333; 0x00000000;
    0x00000000; 0x0207d793; 0x000380e7; 0x00000000; 0x00000000; 0x0217d793; 0x001383b3; 0x00000000;
    0x00000000; 0x0227d793; 0x002383b3; 0x00000000; 0x00000000; 0x0237d793; 0x003383b3; 0x00000000;
    0x00000000; 0x0247d793; 0x004383b3; 0x00000000; 0x00000000; 0x0257d793; 0x005383b3; 0x00000000;
    0x00000000; 0x0267d793; 0x006383b3; 0x00000000; 0x00000000; 0x0277d793; 0x007383b3; 0x00000000;
    0x00000000; 0x0287d793; 0x008383b3; 0x00000000; 0x00000000; 0x0297d793; 0x009383b3; 0x00000000;
    0x00000000; 0x02a7d793; 0x00a383b3; 0x00000000; 0x00000000; 0x02b7d793; 0x00b383b3; 0x00000000;
    0x00000000; 0x02c7d793; 0x00c383b3; 0x00000000; 0x00000000; 0x02d7d793; 0x00d383b3; 0x00000000;
    0x00000000; 0x02e7d793; 0x00e383b3; 0x00000000; 0x00000000; 0x02f7d793; 0x00f383b3; 0x00000000;
    0x00000000; 0x0307d793; 0x010383b3; 0x00000000; 0x00000000; 0x0317d793; 0x011383b3; 0x00000000;
    0x00000000; 0x0327d793; 0x012383b3; 0x00000000; 0x00000000; 0x0337d793; 0x013383b3; 0x00000000;
    0x00000000; 0x0347d793; 0x014383b3; 0x00000000; 0x00000000; 0x0357d793; 0x015383b3; 0x00000000;
    0x00000000; 0x0367d793; 0x016383b3; 0x00000000; 0x00000000; 0x0377d793; 0x017383b3; 0x00000000;
    0x00000000; 0x0387d793; 0x018383b3; 0x00000000; 0x00000000; 0x0397d793; 0x019383b3; 0x00000000;
    0x00000000; 0x03a7d793; 0x01a383b3; 0x00000000; 0x00000000; 0x03b7d793; 0x01b383b3; 0x00000000;
    0x00000000; 0x03c7d793; 0x01c383b3; 0x00000000; 0x00000000; 0x03d7d793; 0x01d383b3; 0x00000000;
    0x00000000; 0x03e7d793; 0x01e383b3; 0x00000000; 0x00000000; 0x03f7d793; 0x01f383b3; 0x00000000
].

(** parcels 0x9400 to 0x97ff *)
Definition RVC64_EXPANDED_37 : list Z := [
    0x00000000; 0x42045413; 0x000400e7; 0x00000000; 0x00000000; 0x42145413; 0x00140433; 0x00000000;
    0x00000000; 0x42245413; 0x00240433; 0x00000000; 0x00000000; 0x42345413; 0x00340433; 0x00000000;
    0x00000000; 0x42445413; 0x00440433; 0x00000000; 0x00000000; 0x42545413; 0x00540433; 0x00000000;
    0x00000000; 0x42645413; 0x00640433; 0x00000000; 0x00000000; 0x42745413; 0x00740433; 0x00000000;
    0x00000000; 0x42845413; 0x00840433; 0x00000000; 0x00000000; 0x42945413; 0x00940433; 0x00000000;
    0x00000000; 0x42a45413; 0x00a40433; 0x00000000; 0x00000000; 0x42b45413; 0x00b40433; 0x00000000;
    0x00000000; 0x42c45413; 0x00c40433; 0x00000000; 0x00000000; 0x42d45413; 0x00d40433; 0x00000000;
    0x00000000; 0x42e45413; 0x00e40433; 0x00000000; 0x00000000; 0x42f45413; 0x00f40433; 0x00000000;
    0x00000000; 0x43045413; 0x01040433; 0x00000000; 0x00000000; 0x43145413; 0x01140433; 0x00000000;
    0x00000000; 0x43245413; 0x01240433; 0x00000000; 0x00000000; 0x43345413; 0x01340433; 0x00000000;
    0x00000000; 0x43445413; 0x01440433; 0x00000000; 0x00000000; 0x43545413; 0x01540433; 0x00000000;
    0x00000000; 0x43645413; 0x01640433; 0x00000000; 0x00000000; 0x43745413; 0x01740433; 0x00000000;
    0x00000000; 0x43845413; 0x01840433; 0x00000000; 0x00000000; 0x43945413; 0x01940433; 0x00000000;
    0x00000000; 0x43a45413; 0x01a40433; 0x00000000; 0x00000000; 0x43b45413; 0x01b40433; 0x00000000;
    0x00000000; 0x43c45413; 0x01c40433; 0x00000000; 0x00000000; 0x43d45413; 0x01d40433; 0x00000000;
    0x00000000; 0x43e45413; 0x01e40433; 0x00000000; 0x00000000; 0x43f45413; 0x01f40433; 0x00000000;
    0x00000000; 0x4204d493; 0x000480e7; 0x00000000; 0x00000000; 0x4214d493; 0x001484b3; 0x00000000;
    0x00000000; 0x4224d493; 0x002484b3; 0x00000000; 0x00000000; 0x4234d493; 0x003484b3; 0x00000000;
    0x00000000; 0x4244d493; 0x004484b3; 0x00000000; 0x00000000; 0x4254d493; 0x005484b3; 0x00000000;
    0x00000000; 0x4264d493; 0x006484b3; 0x00000000; 0x00000000; 0x4274d493; 0x007484b3; 0x00000000;
    0x00000000; 0x4284d493; 0x008484b3; 0x00000000; 0x00000000; 0x4294d493; 0x009484b3; 0x00000000;
    0x00000000; 0x42a4d493; 0x00a484b3; 0x00000000; 0x00000000; 0x42b4d493; 0x00b484b3; 0x00000000;
    0x00000000; 0x42c4d493; 0x00c484b3; 0x00000000; 0x00000000; 0x42d4d493; 0x00d484b3; 0x00000000;
    0x00000000; 0x42e4d493; 0x00e484b3; 0x00000000; 0x00000000; 0x42f4d493; 0x00f484b3; 0x00000000;
    0x00000000; 0x4304d493; 0x010484b3; 0x00000000; 0x00000000; 0x4314d493; 0x011484b3; 0x00000000;
    0x00000000; 0x4324d493; 0x012484b3; 0x00000000; 0x00000000; 0x4334d493; 0x013484b3; 0x00000000;
    0x00000000; 0x4344d493; 0x014484b3; 0x00000000; 0x00000000; 0x4354d493; 0x015484b3; 0x00000000;
    0x00000000; 0x4364d493; 0x016484b3; 0x00000000; 0x00000000; 0x4374d493; 0x017484b3; 0x00000000;
    0x00000000; 0x4384d493; 0x018484b3; 0x00000000; 0x00000000; 0x4394d493; 0x019484b3; 0x00000000;
    0x00000000; 0x43a4d493; 0x01a484b3; 0x00000000; 0x00000000; 0x43b4d493; 0x01b484b3; 0x00000000;
    0x00000000; 0x43c4d493; 0x01c484b3; 0x00000000; 0x00000000; 0x43d4d493; 0x01d484b3; 0x00000000;
    0x00000000; 0x43e4d493; 0x01e484b3; 0x00000000; 0x00000000; 0x43f4d493; 0x01f484b3; 0x00000000;
    0x00000000; 0x42055513; 0x000500e7; 0x00000000; 0x00000000; 0x42155513; 0x00150533; 0x00000000;
    0x00000000; 0x42255513; 0x00250533; 0x00000000; 0x00000000; 0x42355513; 0x00350533; 0x00000000;
    0x00000000; 0x42455513; 0x00450533; 0x00000000; 0x00000000; 0x42555513; 0x00550533; 0x00000000;
    0x00000000; 0x42655513; 0x00650533; 0x00000000; 0x00000000; 0x42755513; 0x00750533; 0x00000000;
    0x00000000; 0x42855513; 0x00850533; 0x00000000; 0x00000000; 0x42955513; 0x00950533; 0x00000000;
    0x00000000; 0x42a55513; 0x00a50533; 0x00000000; 0x00000000; 0x42b55513; 0x00b50533; 0x00000000;
    0x00000000; 0x42c55513; 0x00c50533; 0x00000000; 0x00000000; 0x42d55513; 0x00d50533; 0x00000000;
    0x00000000; 0x42e55513; 0x00e50533; 0x00000000; 0x00000000; 0x42f55513; 0x00f50533; 0x00000000;
    0x00000000; 0x43055513; 0x01050533; 0x00000000; 0x00000000; 0x43155513; 0x01150533; 0x00000000;
    0x00000000; 0x43255513; 0x01250533; 0x00000000; 0x00000000; 0x43355513; 0x01350533; 0x00000000;
    0x00000000; 0x43455513; 0x01450533; 0x00000000; 0x00000000; 0x43555513; 0x01550533; 0x00000000;
    0x00000000; 0x43655513; 0x01650533; 0x00000000; 0x00000000; 0x43755513; 0x01750533; 0x00000000;
    0x00000000; 0x43855513; 0x01850533; 0x00000000; 0x00000000; 0x43955513; 0x01950533; 0x00000000;
    0x00000000; 0x43a55513; 0x01a50533; 0x00000000; 0x00000000; 0x43b55513; 0x01b50533; 0x00000000;
    0x00000000; 0x43c55513; 0x01c50533; 0x00000000; 0x00000000; 0x43d55513; 0x01d50533; 0x00000000;
    0x00000000; 0x43e55513; 0x01e50533; 0x00000000; 0x00000000; 0x43f55513; 0x01f50533; 0x00000000;
    0x00000000; 0x4205d593; 0x000580e7; 0x00000000; 0x00000000; 0x4215d593; 0x001585b3; 0x00000000;
    0x00000000; 0x4225d593; 0x002585b3; 0x00000000; 0x00000000; 0x4235d593; 0x003585b3; 0x00000000;
    0x00000000; 0x4245d593; 0x004585b3; 0x00000000; 0x00000000; 0x4255d593; 0x005585b3; 0x00000000;
    0x00000000; 0x4265d593; 0x006585b3; 0x00000000; 0x00000000; 0x4275d593; 0x007585b3; 0x00000000;
    0x00000000; 0x4285d593; 0x008585b3; 0x00000000; 0x00000000; 0x4295d593; 0x009585b3; 0x00000000;
    0x00000000; 0x42a5d593; 0x00a585b3; 0x00000000; 0x00000000; 0x42b5d593; 0x00b585b3; 0x00000000;
    0x00000000; 0x42c5d593; 0x00c585b3; 0x00000000; 0x00000000; 0x42d5d593; 0x00d585b3; 0x00000000;
    0x00000000; 0x42e5d593; 0x00e585b3; 0x00000000; 0x00000000; 0x42f5d593; 0x00f585b3; 0x00000000;
    0x00000000; 0x4305d593; 0x010585b3; 0x00000000; 0x00000000; 0x4315d593; 0x011585b3; 0x00000000;
    0x00000000; 0x4325d593; 0x012585b3; 0x00000000; 0x00000000; 0x4335d593; 0x013585b3; 0x00000000;
    0x00000000; 0x4345d593; 0x014585b3; 0x00000000; 0x00000000; 0x4355d593; 0x015585b3; 0x00000000;
    0x00000000; 0x4365d593; 0x016585b3; 0x00000000; 0x00000000; 0x4375d593; 0x017585b3; 0x00000000;
    0x00000000; 0x4385d593; 0x018585b3; 0x00000000; 0x00000000; 0x4395d593; 0x019585b3; 0x00000000;
    0x00000000; 0x43a5d593; 0x01a585b3; 0x00000000; 0x00000000; 0x43b5d593; 0x01b585b3; 0x00000000;
    0x00000000; 0x43c5d593; 0x01c585b3; 0x00000000; 0x00000000; 0x43d5d593; 0x01d585b3; 0x00000000;
    0x00000000; 0x43e5d593; 0x01e585b3; 0x00000000; 0x00000000; 0x43f5d593; 0x01f585b3; 0x00000000;
    0x00000000; 0x42065613; 0x000600e7; 0x00000000; 0x00000000; 0x42165613; 0x00160633; 0x00000000;
    0x00000000; 0x42265613; 0x00260633; 0x00000000; 0x00000000; 0x42365613; 0x00360633; 0x00000000;
    0x00000000; 0x42465613; 0x00460633; 0x00000000; 0x00000000; 0x42565613; 0x00560633; 0x00000000;
    0x00000000; 0x42665613; 0x00660633; 0x00000000; 0x00000000; 0x42765613; 0x00760633; 0x00000000;
    0x00000000; 0x42865613; 0x00860633; 0x00000000; 0x00000000; 0x42965613; 0x00960633; 0x00000000;
    0x00000000; 0x42a65613; 0x00a60633; 0x00000000; 0x00000000; 0x42b65613; 0x00b60633; 0x00000000;
    0x00000000; 0x42c65613; 0x00c60633; 0x00000000; 0x00000000; 0x42d65613; 0x00d60633; 0x00000000;
    0x00000000; 0x42e65613; 0x00e60633; 0x00000000; 0x00000000; 0x42f65613; 0x00f60633; 0x00000000;
    0x00000000; 0x43065613; 0x01060633; 0x00000000; 0x00000000; 0x43165613; 0x01160633; 0x00000000;
    0x00000000; 0x43265613; 0x01260633; 0x00000000; 0x00000000; 0x43365613; 0x01360633; 0x00000000;
    0x00000000; 0x43465613; 0x01460633; 0x00000000; 0x00000000; 0x43565613; 0x01560633; 0x00000000;
    0x00000000; 0x43665613; 0x01660633; 0x00000000; 0x00000000; 0x43765613; 0x01760633; 0x00000000;
    0x00000000; 0x43865613; 0x01860633; 0x00000000; 0x00000000; 0x43965613; 0x01960633; 0x00000000;
    0x00000000; 0x43a65613; 0x01a60633; 0x00000000; 0x00000000; 0x43b65613; 0x01b60633; 0x00000000;
    0x00000000; 0x43c65613; 0x01c60633; 0x00000000; 0x00000000; 0x43d65613; 0x01d60633; 0x00000000;
    0x00000000; 0x43e65613; 0x01e60633; 0x00000000; 0x00000000; 0x43f65613; 0x01f60633; 0x00000000;
    0x00000000; 0x4206d693; 0x000680e7; 0x00000000; 0x00000000; 0x4216d693; 0x001686b3; 0x00000000;
    0x00000000; 0x4226d693; 0x002686b3; 0x00000000; 0x00000000; 0x4236d693; 0x003686b3; 0x00000000;
    0x00000000; 0x4246d693; 0x004686b3; 0x00000000; 0x00000000; 0x4256d693; 0x005686b3; 0x00000000;
    0x00000000; 0x4266d693; 0x006686b3; 0x00000000; 0x00000000; 0x4276d693; 0x007686b3; 0x00000000;
    0x00000000; 0x4286d693; 0x008686b3; 0x00000000; 0x00000000; 0x4296d693; 0x009686b3; 0x00000000;
    0x00000000; 0x42a6d693; 0x00a686b3; 0x00000000; 0x00000000; 0x42b6d693; 0x00b686b3; 0x00000000;
    0x00000000; 0x42c6d693; 0x00c686b3; 0x00000000; 0x00000000; 0x42d6d693; 0x00d686b3; 0x00000000;
    0x00000000; 0x42e6d693; 0x00e686b3; 0x00000000; 0x00000000; 0x42f6d693; 0x00f686b3; 0x00000000;
    0x00000000; 0x4306d693; 0x010686b3; 0x00000000; 0x00000000; 0x4316d693; 0x011686b3; 0x00000000;
    0x00000000; 0x4326d693; 0x012686b3; 0x00000000; 0x00000000; 0x4336d693; 0x013686b3; 0x00000000;
    0x00000000; 0x4346d693; 0x014686b3; 0x00000000; 0x00000000; 0x4356d693; 0x015686b3; 0x00000000;
    0x00000000; 0x4366d693; 0x016686b3; 0x00000000; 0x00000000; 0x4376d693; 0x017686b3; 0x00000000;
    0x00000000; 0x4386d693; 0x018686b3; 0x00000000; 0x00000000; 0x4396d693; 0x019686b3; 0x00000000;
    0x00000000; 0x43a6d693; 0x01a686b3; 0x00000000; 0x00000000; 0x43b6d693; 0x01b686b3; 0x00000000;
    0x00000000; 0x43c6d693; 0x01c686b3; 0x00000000; 0x00000000; 0x43d6d693; 0x01d686b3; 0x00000000;
    0x00000000; 0x43e6d693; 0x01e686b3; 0x00000000; 0x00000000; 0x43f6d693; 0x01f686b3; 0x00000000;
    0x00000000; 0x42075713; 0x000700e7; 0x00000000; 0x00000000; 0x42175713; 0x00170733; 0x00000000;
    0x00000000; 0x42275713; 0x00270733; 0x00000000; 0x00000000; 0x42375713; 0x00370733; 0x00000000;
    0x00000000; 0x42475713; 0x00470733; 0x00000000; 0x00000000; 0x42575713; 0x00570733; 0x00000000;
    0x00000000; 0x42675713; 0x00670733; 0x00000000; 0x00000000; 0x42775713; 0x00770733; 0x00000000;
    0x00000000; 0x42875713; 0x00870733; 0x00000000; 0x00000000; 0x42975713; 0x00970733; 0x00000000;
    0x00000000; 0x42a75713; 0x00a70733; 0x00000000; 0x00000000; 0x42b75713; 0x00b70733; 0x00000000;
    0x00000000; 0x42c75713; 0x00c70733; 0x00000000; 0x00000000; 0x42d75713; 0x00d70733; 0x00000000;
    0x00000000; 0x42e75713; 0x00e70733; 0x00000000; 0x00000000; 0x42f75713; 0x00f70733; 0x00000000;
    0x00000000; 0x43075713; 0x01070733; 0x00000000; 0x00000000; 0x43175713; 0x01170733; 0x00000000;
    0x00000000; 0x43275713; 0x01270733; 0x00000000; 0x00000000; 0x43375713; 0x01370733; 0x00000000;
    0x00000000; 0x43475713; 0x01470733; 0x00000000; 0x00000000; 0x43575713; 0x01570733; 0x00000000;
    0x00000000; 0x43675713; 0x01670733; 0x00000000; 0x00000000; 0x43775713; 0x01770733; 0x00000000;
    0x00000000; 0x43875713; 0x01870733; 0x00000000; 0x00000000; 0x43975713; 0x01970733; 0x00000000;
    0x00000000; 0x43a75713; 0x01a70733; 0x00000000; 0x00000000; 0x43b75713; 0x01b70733; 0x00000000;
    0x00000000; 0x43c75713; 0x01c70733; 0x00000000; 0x00000000; 0x43d75713; 0x01d70733; 0x00000000;
    0x00000000; 0x43e75713; 0x01e70733; 0x00000000; 0x00000000; 0x43f75713; 0x01f70733; 0x00000000;
    0x00000000; 0x4207d793; 0x000780e7; 0x00000000; 0x00000000; 0x4217d793; 0x001787b3; 0x00000000;
    0x00000000; 0x4227d793; 0x002787b3; 0x00000000; 0x00000000; 0x4237d793; 0x003787b3; 0x00000000;
    0x00000000; 0x4247d793; 0x004787b3; 0x00000000; 0x00000000; 0x4257d793; 0x005787b3; 0x00000000;
    0x00000000; 0x4267d793; 0x006787b3; 0x00000000; 0x00000000; 0x4277d793; 0x007787b3; 0x00000000;
    0x00000000; 0x4287d793; 0x008787b3; 0x00000000; 0x00000000; 0x4297d793; 0x009787b3; 0x00000000;
    0x00000000; 0x42a7d793; 0x00a787b3; 0x00000000; 0x00000000; 0x42b7d793; 0x00b787b3; 0x00000000;
    0x00000000; 0x42c7d793; 0x00c787b3; 0x00000000; 0x00000000; 0x42d7d793; 0x00d787b3; 0x00000000;
    0x00000000; 0x42e7d793; 0x00e787b3; 0x00000000; 0x00000000; 0x42f7d793; 0x00f787b3; 0x00000000;
    0x00000000; 0x4307d793; 0x010787b3; 0x00000000; 0x00000000; 0x4317d793; 0x011787b3; 0x00000000;
    0x00000000; 0x4327d793; 0x012787b3; 0x00000000; 0x00000000; 0x4337d793; 0x013787b3; 0x00000000;
    0x00000000; 0x4347d793; 0x014787b3; 0x00000000; 0x00000000; 0x4357d793; 0x015787b3; 0x00000000;
    0x00000000; 0x4367d793; 0x016787b3; 0x00000000; 0x00000000; 0x4377d793; 0x017787b3; 0x00000000;
    0x00000000; 0x4387d793; 0x018787b3; 0x00000000; 0x00000000; 0x4397d793; 0x019787b3; 0x00000000;
    0x00000000; 0x43a7d793; 0x01a787b3; 0x00000000; 0x00000000; 0x43b7d793; 0x01b787b3; 0x00000000;
    0x00000000; 0x43c7d793; 0x01c787b3; 0x00000000; 0x00000000; 0x43d7d793; 0x01d787b3; 0x00000000;
    0x00000000; 0x43e7d793; 0x01e787b3; 0x00000000; 0x00000000; 0x43f7d793; 0x01f787b3; 0x00000000
].

(** parcels 0x9800 to 0x9bff *)
Definition RVC64_EXPANDED_38 : list Z := [
    0x00000000; 0xfe047413; 0x000800e7; 0x00000000; 0x00000000; 0xfe147413; 0x00180833; 0x00000000;
    0x00000000; 0xfe247413; 0x00280833; 0x00000000; 0x00000000; 0xfe347413; 0x00380833; 0x00000000;
    0x00000000; 0xfe447413; 0x00480833; 0x00000000; 0x00000000; 0xfe547413; 0x00580833; 0x00000000;
    0x00000000; 0xfe647413; 0x00680833; 0x00000000; 0x00000000; 0xfe747413; 0x00780833; 0x00000000;
    0x00000000; 0xfe847413; 0x00880833; 0x00000000; 0x00000000; 0xfe947413; 0x00980833; 0x00000000;
    0x00000000; 0xfea47413; 0x00a80833; 0x00000000; 0x00000000; 0xfeb47413; 0x00b80833; 0x00000000;
    0x00000000; 0xfec47413; 0x00c80833; 0x00000000; 0x00000000; 0xfed47413; 0x00d80833; 0x00000000;
    0x00000000; 0xfee47413; 0x00e80833; 0x00000000; 0x00000000; 0xfef47413; 0x00f80833; 0x00000000;
    0x00000000; 0xff047413; 0x01080833; 0x00000000; 0x00000000; 0xff147413; 0x01180833; 0x00000000;
    0x00000000; 0xff247413; 0x01280833; 0x00000000; 0x00000000; 0xff347413; 0x01380833; 0x00000000;
    0x00000000; 0xff447413; 0x01480833; 0x00000000; 0x00000000; 0xff547413; 0x01580833; 0x00000000;
    0x00000000; 0xff647413; 0x01680833; 0x00000000; 0x00000000; 0xff747413; 0x01780833; 0x00000000;
    0x00000000; 0xff847413; 0x01880833; 0x00000000; 0x00000000; 0xff947413; 0x01980833; 0x00000000;
    0x00000000; 0xffa47413; 0x01a80833; 0x00000000; 0x00000000; 0xffb47413; 0x01b80833; 0x00000000;
    0x00000000; 0xffc47413; 0x01c80833; 0x00000000; 0x00000000; 0xffd47413; 0x01d80833; 0x00000000;
    0x00000000; 0xffe47413; 0x01e80833; 0x00000000; 0x00000000; 0xfff47413; 0x01f80833; 0x00000000;
    0x00000000; 0xfe04f493; 0x000880e7; 0x00000000; 0x00000000; 0xfe14f493; 0x001888b3; 0x00000000;
    0x00000000; 0xfe24f493; 0x002888b3; 0x00000000; 0x00000000; 0xfe34f493; 0x003888b3; 0x00000000;
    0x00000000; 0xfe44f493; 0x004888b3; 0x00000000; 0x00000000; 0xfe54f493; 0x005888b3; 0x00000000;
    0x00000000; 0xfe64f493; 0x006888b3; 0x00000000; 0x00000000; 0xfe74f493; 0x007888b3; 0x00000000;
    0x00000000; 0xfe84f493; 0x008888b3; 0x00000000; 0x00000000; 0xfe94f493; 0x009888b3; 0x00000000;
    0x00000000; 0xfea4f493; 0x00a888b3; 0x00000000; 0x00000000; 0xfeb4f493; 0x00b888b3; 0x00000000;
    0x00000000; 0xfec4f493; 0x00c888b3; 0x00000000; 0x00000000; 0xfed4f493; 0x00d888b3; 0x00000000;
    0x00000000; 0xfee4f493; 0x00e888b3; 0x00000000; 0x00000000; 0xfef4f493; 0x00f888b3; 0x00000000;
    0x00000000; 0xff04f493; 0x010888b3; 0x00000000; 0x00000000; 0xff14f493; 0x011888b3; 0x00000000;
    0x00000000; 0xff24f493; 0x012888b3; 0x00000000; 0x00000000; 0xff34f493; 0x013888b3; 0x00000000;
    0x00000000; 0xff44f493; 0x014888b3; 0x00000000; 0x00000000; 0xff54f493; 0x015888b3; 0x00000000;
    0x00000000; 0xff64f493; 0x016888b3; 0x00000000; 0x00000000; 0xff74f493; 0x017888b3; 0x00000000;
    0x00000000; 0xff84f493; 0x018888b3; 0x00000000; 0x00000000; 0xff94f493; 0x019888b3; 0x00000000;
    0x00000000; 0xffa4f493; 0x01a888b3; 0x00000000; 0x00000000; 0xffb4f493; 0x01b888b3; 0x00000000;
    0x00000000; 0xffc4f493; 0x01c888b3; 0x00000000; 0x00000000; 0xffd4f493; 0x01d888b3; 0x00000000;
    0x00000000; 0xffe4f493; 0x01e888b3; 0x00000000; 0x00000000; 0xfff4f493; 0x01f888b3; 0x00000000;
    0x00000000; 0xfe057513; 0x000900e7; 0x00000000; 0x00000000; 0xfe157513; 0x00190933; 0x00000000;
    0x00000000; 0xfe257513; 0x00290933; 0x00000000; 0x00000000; 0xfe357513; 0x00390933; 0x00000000;
    0x00000000; 0xfe457513; 0x00490933; 0x00000000; 0x00000000; 0xfe557513; 0x00590933; 0x00000000;
    0x00000000; 0xfe657513; 0x00690933; 0x00000000; 0x00000000; 0xfe757513; 0x00790933; 0x00000000;
    0x00000000; 0xfe857513; 0x00890933; 0x00000000; 0x00000000; 0xfe957513; 0x00990933; 0x00000000;
    0x00000000; 0xfea57513; 0x00a90933; 0x00000000; 0x00000000; 0xfeb57513; 0x00b90933; 0x00000000;
    0x00000000; 0xfec57513; 0x00c90933; 0x00000000; 0x00000000; 0xfed57513; 0x00d90933; 0x00000000;
    0x00000000; 0xfee57513; 0x00e90933; 0x00000000; 0x00000000; 0xfef57513; 0x00f90933; 0x00000000;
    0x00000000; 0xff057513; 0x01090933; 0x00000000; 0x00000000; 0xff157513; 0x01190933; 0x00000000;
    0x00000000; 0xff257513; 0x01290933; 0x00000000; 0x00000000; 0xff357513; 0x01390933; 0x00000000;
    0x00000000; 0xff457513; 0x01490933; 0x00000000; 0x00000000; 0xff557513; 0x01590933; 0x00000000;
    0x00000000; 0xff657513; 0x01690933; 0x00000000; 0x00000000; 0xff757513; 0x01790933; 0x00000000;
    0x00000000; 0xff857513; 0x01890933; 0x00000000; 0x00000000; 0xff957513; 0x01990933; 0x00000000;
    0x00000000; 0xffa57513; 0x01a90933; 0x00000000; 0x00000000; 0xffb57513; 0x01b90933; 0x00000000;
    0x00000000; 0xffc57513; 0x01c90933; 0x00000000; 0x00000000; 0xffd57513; 0x01d90933; 0x00000000;
    0x00000000; 0xffe57513; 0x01e90933; 0x00000000; 0x00000000; 0xfff57513; 0x01f90933; 0x00000000;
    0x00000000; 0xfe05f593; 0x000980e7; 0x00000000; 0x00000000; 0xfe15f593; 0x001989b3; 0x00000000;
    0x00000000; 0xfe25f593; 0x002989b3; 0x00000000; 0x00000000; 0xfe35f593; 0x003989b3; 0x00000000;
    0x00000000; 0xfe45f593; 0x004989b3; 0x00000000; 0x00000000; 0xfe55f593; 0x005989b3; 0x00000000;
    0x00000000; 0xfe65f593; 0x006989b3; 0x00000000; 0x00000000; 0xfe75f593; 0x007989b3; 0x00000000;
    0x00000000; 0xfe85f593; 0x008989b3; 0x00000000; 0x00000000; 0xfe95f593; 0x009989b3; 0x00000000;
    0x00000000; 0xfea5f593; 0x00a989b3; 0x00000000; 0x00000000; 0xfeb5f593; 0x00b989b3; 0x00000000;
    0x00000000; 0xfec5f593; 0x00c989b3; 0x00000000; 0x00000000; 0xfed5f593; 0x00d989b3; 0x00000000;
    0x00000000; 0xfee5f593; 0x00e989b3; 0x00000000; 0x00000000; 0xfef5f593; 0x00f989b3; 0x00000000;
    0x00000000; 0xff05f593; 0x010989b3; 0x00000000; 0x00000000; 0xff15f593; 0x011989b3; 0x00000000;
    0x00000000; 0xff25f593; 0x012989b3; 0x00000000; 0x00000000; 0xff35f593; 0x013989b3; 0x00000000;
    0x00000000; 0xff45f593; 0x014989b3; 0x00000000; 0x00000000; 0xff55f593; 0x015989b3; 0x00000000;
    0x00000000; 0xff65f593; 0x016989b3; 0x00000000; 0x00000000; 0xff75f593; 0x017989b3; 0x00000000;
    0x00000000; 0xff85f593; 0x018989b3; 0x00000000; 0x00000000; 0xff95f593; 0x019989b3; 0x00000000;
    0x00000000; 0xffa5f593; 0x01a989b3; 0x00000000; 0x00000000; 0xffb5f593; 0x01b989b3; 0x00000000;
    0x00000000; 0xffc5f593; 0x01c989b3; 0x00000000; 0x00000000; 0xffd5f593; 0x01d989b3; 0x00000000;
    0x00000000; 0xffe5f593; 0x01e989b3; 0x00000000; 0x00000000; 0xfff5f593; 0x01f989b3; 0x00000000;
    0x00000000; 0xfe067613; 0x000a00e7; 0x00000000; 0x00000000; 0xfe167613; 0x001a0a33; 0x00000000;
    0x00000000; 0xfe267613; 0x002a0a33; 0x00000000; 0x00000000; 0xfe367613; 0x003a0a33; 0x00000000;
    0x00000000; 0xfe467613; 0x004a0a33; 0x00000000; 0x00000000; 0xfe567613; 0x005a0a33; 0x00000000;
    0x00000000; 0xfe667613; 0x006a0a33; 0x00000000; 0x00000000; 0xfe767613; 0x007a0a33; 0x00000000;
    0x00000000; 0xfe867613; 0x008a0a33; 0x00000000; 0x00000000; 0xfe967613; 0x009a0a33; 0x00000000;
    0x00000000; 0xfea67613; 0x00aa0a33; 0x00000000; 0x00000000; 0xfeb67613; 0x00ba0a33; 0x00000000;
    0x00000000; 0xfec67613; 0x00ca0a33; 0x00000000; 0x00000000; 0xfed67613; 0x00da0a33; 0x00000000;
    0x00000000; 0xfee67613; 0x00ea0a33; 0x00000000; 0x00000000; 0xfef67613; 0x00fa0a33; 0x00000000;
    0x00000000; 0xff067613; 0x010a0a33; 0x00000000; 0x00000000; 0xff167613; 0x011a0a33; 0x00000000;
    0x00000000; 0xff267613; 0x012a0a33; 0x00000000; 0x00000000; 0xff367613; 0x013a0a33; 0x00000000;
    0x00000000; 0xff467613; 0x014a0a33; 0x00000000; 0x00000000; 0xff567613; 0x015a0a33; 0x00000000;
    0x00000000; 0xff667613; 0x016a0a33; 0x00000000; 0x00000000; 0xff767613; 0x017a0a33; 0x00000000;
    0x00000000; 0xff867613; 0x018a0a33; 0x00000000; 0x00000000; 0xff967613; 0x019a0a33; 0x00000000;
    0x00000000; 0xffa67613; 0x01aa0a33; 0x00000000; 0x00000000; 0xffb67613; 0x01ba0a33; 0x00000000;
    0x00000000; 0xffc67613; 0x01ca0a33; 0x00000000; 0x00000000; 0xffd67613; 0x01da0a33; 0x00000000;
    0x00000000; 0xffe67613; 0x01ea0a33; 0x00000000; 0x00000000; 0xfff67613; 0x01fa0a33; 0x00000000;
    0x00000000; 0xfe06f693; 0x000a80e7; 0x00000000; 0x00000000; 0xfe16f693; 0x001a8ab3; 0x00000000;
    0x00000000; 0xfe26f693; 0x002a8ab3; 0x00000000; 0x00000000; 0xfe36f693; 0x003a8ab3; 0x00000000;
    0x00000000; 0xfe46f693; 0x004a8ab3; 0x00000000; 0x00000000; 0xfe56f693; 0x005a8ab3; 0x00000000;
    0x00000000; 0xfe66f693; 0x006a8ab3; 0x00000000; 0x00000000; 0xfe76f693; 0x007a8ab3; 0x00000000;
    0x00000000; 0xfe86f693; 0x008a8ab3; 0x00000000; 0x00000000; 0xfe96f693; 0x009a8ab3; 0x00000000;
    0x00000000; 0xfea6f693; 0x00aa8ab3; 0x00000000; 0x00000000; 0xfeb6f693; 0x00ba8ab3; 0x00000000;
    0x00000000; 0xfec6f693; 0x00ca8ab3; 0x00000000; 0x00000000; 0xfed6f693; 0x00da8ab3; 0x00000000;
    0x00000000; 0xfee6f693; 0x00ea8ab3; 0x00000000; 0x00000000; 0xfef6f693; 0x00fa8ab3; 0x00000000;
    0x00000000; 0xff06f693; 0x010a8ab3; 0x00000000; 0x00000000; 0xff16f693; 0x011a8ab3; 0x00000000;
    0x00000000; 0xff26f693; 0x012a8ab3; 0x00000000; 0x00000000; 0xff36f693; 0x013a8ab3; 0x00000000;
    0x00000000; 0xff46f693; 0x014a8ab3; 0x00000000; 0x00000000; 0xff56f693; 0x015a8ab3; 0x00000000;
    0x00000000; 0xff66f693; 0x016a8ab3; 0x00000000; 0x00000000; 0xff76f693; 0x017a8ab3; 0x00000000;
    0x00000000; 0xff86f693; 0x018a8ab3; 0x00000000; 0x00000000; 0xff96f693; 0x019a8ab3; 0x00000000;
    0x00000000; 0xffa6f693; 0x01aa8ab3; 0x00000000; 0x00000000; 0xffb6f693; 0x01ba8ab3; 0x00000000;
    0x00000000; 0xffc6f693; 0x01ca8ab3; 0x00000000; 0x00000000; 0xffd6f693; 0x01da8ab3; 0x00000000;
    0x00000000; 0xffe6f693; 0x01ea8ab3; 0x00000000; 0x00000000; 0xfff6f693; 0x01fa8ab3; 0x00000000;
    0x00000000; 0xfe077713; 0x000b00e7; 0x00000000; 0x00000000; 0xfe177713; 0x001b0b33; 0x00000000;
    0x00000000; 0xfe277713; 0x002b0b33; 0x00000000; 0x00000000; 0xfe377713; 0x003b0b33; 0x00000000;
    0x00000000; 0xfe477713; 0x004b0b33; 0x00000000; 0x00000000; 0xfe577713; 0x005b0b33; 0x00000000;
    0x00000000; 0xfe677713; 0x006b0b33; 0x00000000; 0x00000000; 0xfe777713; 0x007b0b33; 0x00000000;
    0x00000000; 0xfe877713; 0x008b0b33; 0x00000000; 0x00000000; 0xfe977713; 0x009b0b33; 0x00000000;
    0x00000000; 0xfea77713; 0x00ab0b33; 0x00000000; 0x00000000; 0xfeb77713; 0x00bb0b33; 0x00000000;
    0x00000000; 0xfec77713; 0x00cb0b33; 0x00000000; 0x00000000; 0xfed77713; 0x00db0b33; 0x00000000;
    0x00000000; 0xfee77713; 0x00eb0b33; 0x00000000; 0x00000000; 0xfef77713; 0x00fb0b33; 0x00000000;
    0x00000000; 0xff077713; 0x010b0b33; 0x00000000; 0x00000000; 0xff177713; 0x011b0b33; 0x00000000;
    0x00000000; 0xff277713; 0x012b0b33; 0x00000000; 0x00000000; 0xff377713; 0x013b0b33; 0x00000000;
    0x00000000; 0xff477713; 0x014b0b33; 0x00000000; 0x00000000; 0xff577713; 0x015b0b33; 0x00000000;
    0x00000000; 0xff677713; 0x016b0b33; 0x00000000; 0x00000000; 0xff777713; 0x017b0b33; 0x00000000;
    0x00000000; 0xff877713; 0x018b0b33; 0x00000000; 0x00000000; 0xff977713; 0x019b0b33; 0x00000000;
    0x00000000; 0xffa77713; 0x01ab0b33; 0x00000000; 0x00000000; 0xffb77713; 0x01bb0b33; 0x00000000;
    0x00000000; 0xffc77713; 0x01cb0b33; 0x00000000; 0x00000000; 0xffd77713; 0x01db0b33; 0x00000000;
    0x00000000; 0xffe77713; 0x01eb0b33; 0x00000000; 0x00000000; 0xfff77713; 0x01fb0b33; 0x00000000;
    0x00000000; 0xfe07f793; 0x000b80e7; 0x00000000; 0x00000000; 0xfe17f793; 0x001b8bb3; 0x00000000;
    0x00000000; 0xfe27f793; 0x002b8bb3; 0x00000000; 0x00000000; 0xfe37f793; 0x003b8bb3; 0x00000000;
    0x00000000; 0xfe47f793; 0x004b8bb3; 0x00000000; 0x00000000; 0xfe57f793; 0x005b8bb3; 0x00000000;
    0x00000000; 0xfe67f793; 0x006b8bb3; 0x00000000; 0x00000000; 0xfe77f793; 0x007b8bb3; 0x00000000;
    0x00000000; 0xfe87f793; 0x008b8bb3; 0x00000000; 0x00000000; 0xfe97f793; 0x009b8bb3; 0x00000000;
    0x00000000; 0xfea7f793; 0x00ab8bb3; 0x00000000; 0x00000000; 0xfeb7f793; 0x00bb8bb3; 0x00000000;
    0x00000000; 0xfec7f793; 0x00cb8bb3; 0x00000000; 0x00000000; 0xfed7f793; 0x00db8bb3; 0x00000000;
    0x00000000; 0xfee7f793; 0x00eb8bb3; 0x00000000; 0x00000000; 0xfef7f793; 0x00fb8bb3; 0x00000000;
    0x00000000; 0xff07f793; 0x010b8bb3; 0x00000000; 0x00000000; 0xff17f793; 0x011b8bb3; 0x00000000;
    0x00000000; 0xff27f793; 0x012b8bb3; 0x00000000; 0x00000000; 0xff37f793; 0x013b8bb3; 0x00000000;
    0x00000000; 0xff47f793; 0x014b8bb3; 0x00000000; 0x00000000; 0xff57f793; 0x015b8bb3; 0x00000000;
    0x00000000; 0xff67f793; 0x016b8bb3; 0x00000000; 0x00000000; 0xff77f793; 0x017b8bb3; 0x00000000;
    0x00000000; 0xff87f793; 0x018b8bb3; 0x00000000; 0x00000000; 0xff97f793; 0x019b8bb3; 0x00000000;
    0x00000000; 0xffa7f793; 0x01ab8bb3; 0x00000000; 0x00000000; 0xffb7f793; 0x01bb8bb3; 0x00000000;
    0x00000000; 0xffc7f793; 0x01cb8bb3; 0x00000000; 0x00000000; 0xffd7f793; 0x01db8bb3; 0x00000000;
    0x00000000; 0xffe7f793; 0x01eb8bb3; 0x00000000; 0x00000000; 0xfff7f793; 0x01fb8bb3; 0x00000000
].

(** parcels 0x9c00 to 0x9fff *)
Definition RVC64_EXPANDED_39 : list Z := [
    0x00000000; 0x4084043b; 0x000c00e7; 0x00000000; 0x00000000; 0x4094043b; 0x001c0c33; 0x00000000;
    0x00000000; 0x40a4043b; 0x002c0c33; 0x00000000; 0x00000000; 0x40b4043b; 0x003c0c33; 0x00000000;
    0x00000000; 0x40c4043b; 0x004c0c33; 0x00000000; 0x00000000; 0x40d4043b; 0x005c0c33; 0x00000000;
    0x00000000; 0x40e4043b; 0x006c0c33; 0x00000000; 0x00000000; 0x40f4043b; 0x007c0c33; 0x00000000;
    0x00000000; 0x0084043b; 0x008c0c33; 0x00000000; 0x00000000; 0x0094043b; 0x009c0c33; 0x00000000;
    0x00000000; 0x00a4043b; 0x00ac0c33; 0x00000000; 0x00000000; 0x00b4043b; 0x00bc0c33; 0x00000000;
    0x00000000; 0x00c4043b; 0x00cc0c33; 0x00000000; 0x00000000; 0x00d4043b; 0x00dc0c33; 0x00000000;
    0x00000000; 0x00e4043b; 0x00ec0c33; 0x00000000; 0x00000000; 0x00f4043b; 0x00fc0c33; 0x00000000;
    0x00000000; 0x00000000; 0x010c0c33; 0x00000000; 0x00000000; 0x00000000; 0x011c0c33; 0x00000000;
    0x00000000; 0x00000000; 0x012c0c33; 0x00000000; 0x00000000; 0x00000000; 0x013c0c33; 0x00000000;
    0x00000000; 0x00000000; 0x014c0c33; 0x00000000; 0x00000000; 0x00000000; 0x015c0c33; 0x00000000;
    0x00000000; 0x00000000; 0x016c0c33; 0x00000000; 0x00000000; 0x00000000; 0x017c0c33; 0x00000000;
    0x00000000; 0x00000000; 0x018c0c33; 0x00000000; 0x00000000; 0x00000000; 0x019c0c33; 0x00000000;
    0x00000000; 0x00000000; 0x01ac0c33; 0x00000000; 0x00000000; 0x00000000; 0x01bc0c33; 0x00000000;
    0x00000000; 0x00000000; 0x01cc0c33; 0x00000000; 0x00000000; 0x00000000; 0x01dc0c33; 0x00000000;
    0x00000000; 0x00000000; 0x01ec0c33; 0x00000000; 0x00000000; 0x00000000; 0x01fc0c33; 0x00000000;
    0x00000000; 0x408484bb; 0x000c80e7; 0x00000000; 0x00000000; 0x409484bb; 0x001c8cb3; 0x00000000;
    0x00000000; 0x40a484bb; 0x002c8cb3; 0x00000000; 0x00000000; 0x40b484bb; 0x003c8cb3; 0x00000000;
    0x00000000; 0x40c484bb; 0x004c8cb3; 0x00000000; 0x00000000; 0x40d484bb; 0x005c8cb3; 0x00000000;
    0x00000000; 0x40e484bb; 0x006c8cb3; 0x00000000; 0x00000000; 0x40f484bb; 0x007c8cb3; 0x00000000;
    0x00000000; 0x008484bb; 0x008c8cb3; 0x00000000; 0x00000000; 0x009484bb; 0x009c8cb3; 0x00000000;
    0x00000000; 0x00a484bb; 0x00ac8cb3; 0x00000000; 0x00000000; 0x00b484bb; 0x00bc8cb3; 0x00000000;
    0x00000000; 0x00c484bb; 0x00cc8cb3; 0x00000000; 0x00000000; 0x00d484bb; 0x00dc8cb3; 0x00000000;
    0x00000000; 0x00e484bb; 0x00ec8cb3; 0x00000000; 0x00000000; 0x00f484bb; 0x00fc8cb3; 0x00000000;
    0x00000000; 0x00000000; 0x010c8cb3; 0x00000000; 0x00000000; 0x00000000; 0x011c8cb3; 0x00000000;
    0x00000000; 0x00000000; 0x012c8cb3; 0x00000000; 0x00000000; 0x00000000; 0x013c8cb3; 0x00000000;
    0x00000000; 0x00000000; 0x014c8cb3; 0x00000000; 0x00000000; 0x00000000; 0x015c8cb3; 0x00000000;
    0x00000000; 0x00000000; 0x016c8cb3; 0x00000000; 0x00000000; 0x00000000; 0x017c8cb3; 0x00000000;
    0x00000000; 0x00000000; 0x018c8cb3; 0x00000000; 0x00000000; 0x00000000; 0x019c8cb3; 0x00000000;
    0x00000000; 0x00000000; 0x01ac8cb3; 0x00000000; 0x00000000; 0x00000000; 0x01bc8cb3; 0x00000000;
    0x00000000; 0x00000000; 0x01cc8cb3; 0x00000000; 0x00000000; 0x00000000; 0x01dc8cb3; 0x00000000;
    0x00000000; 0x00000000; 0x01ec8cb3; 0x00000000; 0x00000000; 0x00000000; 0x01fc8cb3; 0x00000000;
    0x00000000; 0x4085053b; 0x000d00e7; 0x00000000; 0x00000000; 0x4095053b; 0x001d0d33; 0x00000000;
    0x00000000; 0x40a5053b; 0x002d0d33; 0x00000000; 0x00000000; 0x40b5053b; 0x003d0d33; 0x00000000;
    0x00000000; 0x40c5053b; 0x004d0d33; 0x00000000; 0x00000000; 0x40d5053b; 0x005d0d33; 0x00000000;
    0x00000000; 0x40e5053b; 0x006d0d33; 0x00000000; 0x00000000; 0x40f5053b; 0x007d0d33; 0x00000000;
    0x00000000; 0x0085053b; 0x008d0d33; 0x00000000; 0x00000000; 0x0095053b; 0x009d0d33; 0x00000000;
    0x00000000; 0x00a5053b; 0x00ad0d33; 0x00000000; 0x00000000; 0x00b5053b; 0x00bd0d33; 0x00000000;
    0x00000000; 0x00c5053b; 0x00cd0d33; 0x00000000; 0x00000000; 0x00d5053b; 0x00dd0d33; 0x00000000;
    0x00000000; 0x00e5053b; 0x00ed0d33; 0x00000000; 0x00000000; 0x00f5053b; 0x00fd0d33; 0x00000000;
    0x00000000; 0x00000000; 0x010d0d33; 0x00000000; 0x00000000; 0x00000000; 0x011d0d33; 0x00000000;
    0x00000000; 0x00000000; 0x012d0d33; 0x00000000; 0x00000000; 0x00000000; 0x013d0d33; 0x00000000;
    0x00000000; 0x00000000; 0x014d0d33; 0x00000000; 0x00000000; 0x00000000; 0x015d0d33; 0x00000000;
    0x00000000; 0x00000000; 0x016d0d33; 0x00000000; 0x00000000; 0x00000000; 0x017d0d33; 0x00000000;
    0x00000000; 0x00000000; 0x018d0d33; 0x00000000; 0x00000000; 0x00000000; 0x019d0d33; 0x00000000;
    0x00000000; 0x00000000; 0x01ad0d33; 0x00000000; 0x00000000; 0x00000000; 0x01bd0d33; 0x00000000;
    0x00000000; 0x00000000; 0x01cd0d33; 0x00000000; 0x00000000; 0x00000000; 0x01dd0d33; 0x00000000;
    0x00000000; 0x00000000; 0x01ed0d33; 0x00000000; 0x00000000; 0x00000000; 0x01fd0d33; 0x00000000;
    0x00000000; 0x408585bb; 0x000d80e7; 0x00000000; 0x00000000; 0x409585bb; 0x001d8db3; 0x00000000;
    0x00000000; 0x40a585bb; 0x002d8db3; 0x00000000; 0x00000000; 0x40b585bb; 0x003d8db3; 0x00000000;
    0x00000000; 0x40c585bb; 0x004d8db3; 0x00000000; 0x00000000; 0x40d585bb; 0x005d8db3; 0x00000000;
    0x00000000; 0x40e585bb; 0x006d8db3; 0x00000000; 0x00000000; 0x40f585bb; 0x007d8db3; 0x00000000;
    0x00000000; 0x008585bb; 0x008d8db3; 0x00000000; 0x00000000; 0x009585bb; 0x009d8db3; 0x00000000;
    0x00000000; 0x00a585bb; 0x00ad8db3; 0x00000000; 0x00000000; 0x00b585bb; 0x00bd8db3; 0x00000000;
    0x00000000; 0x00c585bb; 0x00cd8db3; 0x00000000; 0x00000000; 0x00d585bb; 0x00dd8db3; 0x00000000;
    0x00000000; 0x00e585bb; 0x00ed8db3; 0x00000000; 0x00000000; 0x00f585bb; 0x00fd8db3; 0x00000000;
    0x00000000; 0x00000000; 0x010d8db3; 0x00000000; 0x00000000; 0x00000000; 0x011d8db3; 0x00000000;
    0x00000000; 0x00000000; 0x012d8db3; 0x00000000; 0x00000000; 0x00000000; 0x013d8db3; 0x00000000;
    0x00000000; 0x00000000; 0x014d8db3; 0x00000000; 0x00000000; 0x00000000; 0x015d8db3; 0x00000000;
    0x00000000; 0x00000000; 0x016d8db3; 0x00000000; 0x00000000; 0x00000000; 0x017d8db3; 0x00000000;
    0x00000000; 0x00000000; 0x018d8db3; 0x00000000; 0x00000000; 0x00000000; 0x019d8db3; 0x00000000;
    0x00000000; 0x00000000; 0x01ad8db3; 0x00000000; 0x00000000; 0x00000000; 0x01bd8db3; 0x00000000;
    0x00000000; 0x00000000; 0x01cd8db3; 0x00000000; 0x00000000; 0x00000000; 0x01dd8db3; 0x00000000;
    0x00000000; 0x00000000; 0x01ed8db3; 0x00000000; 0x00000000; 0x00000000; 0x01fd8db3; 0x00000000;
    0x00000000; 0x4086063b; 0x000e00e7; 0x00000000; 0x00000000; 0x4096063b; 0x001e0e33; 0x00000000;
    0x00000000; 0x40a6063b; 0x002e0e33; 0x00000000; 0x00000000; 0x40b6063b; 0x003e0e33; 0x00000000;
    0x00000000; 0x40c6063b; 0x004e0e33; 0x00000000; 0x00000000; 0x40d6063b; 0x005e0e33; 0x00000000;
    0x00000000; 0x40e6063b; 0x006e0e33; 0x00000000; 0x00000000; 0x40f6063b; 0x007e0e33; 0x00000000;
    0x00000000; 0x0086063b; 0x008e0e33; 0x00000000; 0x00000000; 0x0096063b; 0x009e0e33; 0x00000000;
    0x00000000; 0x00a6063b; 0x00ae0e33; 0x00000000; 0x00000000; 0x00b6063b; 0x00be0e33; 0x00000000;
    0x00000000; 0x00c6063b; 0x00ce0e33; 0x00000000; 0x00000000; 0x00d6063b; 0x00de0e33; 0x00000000;
    0x00000000; 0x00e6063b; 0x00ee0e33; 0x00000000; 0x00000000; 0x00f6063b; 0x00fe0e33; 0x00000000;
    0x00000000; 0x00000000; 0x010e0e33; 0x00000000; 0x00000000; 0x00000000; 0x011e0e33; 0x00000000;
    0x00000000; 0x00000000; 0x012e0e33; 0x00000000; 0x00000000; 0x00000000; 0x013e0e33; 0x00000000;
    0x00000000; 0x00000000; 0x014e0e33; 0x00000000; 0x00000000; 0x00000000; 0x015e0e33; 0x00000000;
    0x00000000; 0x00000000; 0x016e0e33; 0x00000000; 0x00000000; 0x00000000; 0x017e0e33; 0x00000000;
    0x00000000; 0x00000000; 0x018e0e33; 0x00000000; 0x00000000; 0x00000000; 0x019e0e33; 0x00000000;
    0x00000000; 0x00000000; 0x01ae0e33; 0x00000000; 0x00000000; 0x00000000; 0x01be0e33; 0x00000000;
    0x00000000; 0x00000000; 0x01ce0e33; 0x00000000; 0x00000000; 0x00000000; 0x01de0e33; 0x00000000;
    0x00000000; 0x00000000; 0x01ee0e33; 0x00000000; 0x00000000; 0x00000000; 0x01fe0e33; 0x00000000;
    0x00000000; 0x408686bb; 0x000e80e7; 0x00000000; 0x00000000; 0x409686bb; 0x001e8eb3; 0x00000000;
    0x00000000; 0x40a686bb; 0x002e8eb3; 0x00000000; 0x00000000; 0x40b686bb; 0x003e8eb3; 0x00000000;
    0x00000000; 0x40c686bb; 0x004e8eb3; 0x00000000; 0x00000000; 0x40d686bb; 0x005e8eb3; 0x00000000;
    0x00000000; 0x40e686bb; 0x006e8eb3; 0x00000000; 0x00000000; 0x40f686bb; 0x007e8eb3; 0x00000000;
    0x00000000; 0x008686bb; 0x008e8eb3; 0x00000000; 0x00000000; 0x009686bb; 0x009e8eb3; 0x00000000;
    0x00000000; 0x00a686bb; 0x00ae8eb3; 0x00000000; 0x00000000; 0x00b686bb; 0x00be8eb3; 0x00000000;
    0x00000000; 0x00c686bb; 0x00ce8eb3; 0x00000000; 0x00000000; 0x00d686bb; 0x00de8eb3; 0x00000000;
    0x00000000; 0x00e686bb; 0x00ee8eb3; 0x00000000; 0x00000000; 0x00f686bb; 0x00fe8eb3; 0x00000000;
    0x00000000; 0x00000000; 0x010e8eb3; 0x00000000; 0x00000000; 0x00000000; 0x011e8eb3; 0x00000000;
    0x00000000; 0x00000000; 0x012e8eb3; 0x00000000; 0x00000000; 0x00000000; 0x013e8eb3; 0x00000000;
    0x00000000; 0x00000000; 0x014e8eb3; 0x00000000; 0x00000000; 0x00000000; 0x015e8eb3; 0x00000000;
    0x00000000; 0x00000000; 0x016e8eb3; 0x00000000; 0x00000000; 0x00000000; 0x017e8eb3; 0x00000000;
    0x00000000; 0x00000000; 0x018e8eb3; 0x00000000; 0x00000000; 0x00000000; 0x019e8eb3; 0x00000000;
    0x00000000; 0x00000000; 0x01ae8eb3; 0x00000000; 0x00000000; 0x00000000; 0x01be8eb3; 0x00000000;
    0x00000000; 0x00000000; 0x01ce8eb3; 0x00000000; 0x00000000; 0x00000000; 0x01de8eb3; 0x00000000;
    0x00000000; 0x00000000; 0x01ee8eb3; 0x00000000; 0x00000000; 0x00000000; 0x01fe8eb3; 0x00000000;
    0x00000000; 0x4087073b; 0x000f00e7; 0x00000000; 0x00000000; 0x4097073b; 0x001f0f33; 0x00000000;
    0x00000000; 0x40a7073b; 0x002f0f33; 0x00000000; 0x00000000; 0x40b7073b; 0x003f0f33; 0x00000000;
    0x00000000; 0x40c7073b; 0x004f0f33; 0x00000000; 0x00000000; 0x40d7073b; 0x005f0f33; 0x00000000;
    0x00000000; 0x40e7073b; 0x006f0f33; 0x00000000; 0x00000000; 0x40f7073b; 0x007f0f33; 0x00000000;
    0x00000000; 0x0087073b; 0x008f0f33; 0x00000000; 0x00000000; 0x0097073b; 0x009f0f33; 0x00000000;
    0x00000000; 0x00a7073b; 0x00af0f33; 0x00000000; 0x00000000; 0x00b7073b; 0x00bf0f33; 0x00000000;
    0x00000000; 0x00c7073b; 0x00cf0f33; 0x00000000; 0x00000000; 0x00d7073b; 0x00df0f33; 0x00000000;
    0x00000000; 0x00e7073b; 0x00ef0f33; 0x00000000; 0x00000000; 0x00f7073b; 0x00ff0f33; 0x00000000;
    0x00000000; 0x00000000; 0x010f0f33; 0x00000000; 0x00000000; 0x00000000; 0x011f0f33; 0x00000000;
    0x00000000; 0x00000000; 0x012f0f33; 0x00000000; 0x00000000; 0x00000000; 0x013f0f33; 0x00000000;
    0x00000000; 0x00000000; 0x014f0f33; 0x00000000; 0x00000000; 0x00000000; 0x015f0f33; 0x00000000;
    0x00000000; 0x00000000; 0x016f0f33; 0x00000000; 0x00000000; 0x00000000; 0x017f0f33; 0x00000000;
    0x00000000; 0x00000000; 0x018f0f33; 0x00000000; 0x00000000; 0x00000000; 0x019f0f33; 0x00000000;
    0x00000000; 0x00000000; 0x01af0f33; 0x00000000; 0x00000000; 0x00000000; 0x01bf0f33; 0x00000000;
    0x00000000; 0x00000000; 0x01cf0f33; 0x00000000; 0x00000000; 0x00000000; 0x01df0f33; 0x00000000;
    0x00000000; 0x00000000; 0x01ef0f33; 0x00000000; 0x00000000; 0x00000000; 0x01ff0f33; 0x00000000;
    0x00000000; 0x408787bb; 0x000f80e7; 0x00000000; 0x00000000; 0x409787bb; 0x001f8fb3; 0x00000000;
    0x00000000; 0x40a787bb; 0x002f8fb3; 0x00000000; 0x00000000; 0x40b787bb; 0x003f8fb3; 0x00000000;
    0x00000000; 0x40c787bb; 0x004f8fb3; 0x00000000; 0x00000000; 0x40d787bb; 0x005f8fb3; 0x00000000;
    0x00000000; 0x40e787bb; 0x006f8fb3; 0x00000000; 0x00000000; 0x40f787bb; 0x007f8fb3; 0x00000000;
    0x00000000; 0x008787bb; 0x008f8fb3; 0x00000000; 0x00000000; 0x009787bb; 0x009f8fb3; 0x00000000;
    0x00000000; 0x00a787bb; 0x00af8fb3; 0x00000000; 0x00000000; 0x00b787bb; 0x00bf8fb3; 0x00000000;
    0x00000000; 0x00c787bb; 0x00cf8fb3; 0x00000000; 0x00000000; 0x00d787bb; 0x00df8fb3; 0x00000000;
    0x00000000; 0x00e787bb; 0x00ef8fb3; 0x00000000; 0x00000000; 0x00f787bb; 0x00ff8fb3; 0x00000000;
    0x00000000; 0x00000000; 0x010f8fb3; 0x00000000; 0x00000000; 0x00000000; 0x011f8fb3; 0x00000000;
    0x00000000; 0x00000000; 0x012f8fb3; 0x00000000; 0x00000000; 0x00000000; 0x013f8fb3; 0x00000000;
    0x00000000; 0x00000000; 0x014f8fb3; 0x00000000; 0x00000000; 0x00000000; 0x015f8fb3; 0x00000000;
    0x00000000; 0x00000000; 0x016f8fb3; 0x00000000; 0x00000000; 0x00000000; 0x017f8fb3; 0x00000000;
    0x00000000; 0x00000000; 0x018f8fb3; 0x00000000; 0x00000000; 0x00000000; 0x019f8fb3; 0x00000000;
    0x00000000; 0x00000000; 0x01af8fb3; 0x00000000; 0x00000000; 0x00000000; 0x01bf8fb3; 0x00000000;
    0x00000000; 0x00000000; 0x01cf8fb3; 0x00000000; 0x00000000; 0x00000000; 0x01df8fb3; 0x00000000;
    0x00000000; 0x00000000; 0x01ef8fb3; 0x00000000; 0x00000000; 0x00000000; 0x01ff8fb3; 0x00000000
].
