(* ===== verification/RvcTable5.v ===== *)
(** * RvcTable5: entries 0xa000 to 0xbfff of [RVC64_EXPANDED] (tools/rvc.rs)

    Eight definitions of 128 source lines (1024 entries) each, in the order and with the
    grouping of the source; [RvcTable] concatenates them. *)
From S2P Require Import Prelude.

(** parcels 0xa000 to 0xa3ff *)
Definition RVC64_EXPANDED_40 : list Z := [
    0x00843027; 0x0000006f; 0x00013027; 0x00000000; 0x00943027; 0x0200006f; 0x00113027; 0x00000000;
    0x00a43027; 0x0020006f; 0x00213027; 0x00000000; 0x00b43027; 0x0220006f; 0x00313027; 0x00000000;
    0x00c43027; 0x0040006f; 0x00413027; 0x00000000; 0x00d43027; 0x0240006f; 0x00513027; 0x00000000;
    0x00e43027; 0x0060006f; 0x00613027; 0x00000000; 0x00f43027; 0x0260006f; 0x00713027; 0x00000000;
    0x04843027; 0x0080006f; 0x00813027; 0x00000000; 0x04943027; 0x0280006f; 0x00913027; 0x00000000;
    0x04a43027; 0x00a0006f; 0x00a13027; 0x00000000; 0x04b43027; 0x02a0006f; 0x00b13027; 0x00000000;
    0x04c43027; 0x00c0006f; 0x00c13027; 0x00000000; 0x04d43027; 0x02c0006f; 0x00d13027; 0x00000000;
    0x04e43027; 0x00e0006f; 0x00e13027; 0x00000000; 0x04f43027; 0x02e0006f; 0x00f13027; 0x00000000;
    0x08843027; 0x0800006f; 0x01013027; 0x00000000; 0x08943027; 0x0a00006f; 0x01113027; 0x00000000;
    0x08a43027; 0x0820006f; 0x01213027; 0x00000000; 0x08b43027; 0x0a20006f; 0x01313027; 0x00000000;
    0x08c43027; 0x0840006f; 0x01413027; 0x00000000; 0x08d43027; 0x0a40006f; 0x01513027; 0x00000000;
    0x08e43027; 0x0860006f; 0x01613027; 0x00000000; 0x08f43027; 0x0a60006f; 0x01713027; 0x00000000;
    0x0c843027; 0x0880006f; 0x01813027; 0x00000000; 0x0c943027; 0x0a80006f; 0x01913027; 0x00000000;
    0x0ca43027; 0x08a0006f; 0x01a13027; 0x00000000; 0x0cb43027; 0x0aa0006f; 0x01b13027; 0x00000000;
    0x0cc43027; 0x08c0006f; 0x01c13027; 0x00000000; 0x0cd43027; 0x0ac0006f; 0x01d13027; 0x00000000;
    0x0ce43027; 0x08e0006f; 0x01e13027; 0x00000000; 0x0cf43027; 0x0ae0006f; 0x01f13027; 0x00000000;
    0x0084b027; 0x0400006f; 0x04013027; 0x00000000; 0x0094b027; 0x0600006f; 0x04113027; 0x00000000;
    0x00a4b027; 0x0420006f; 0x04213027; 0x00000000; 0x00b4b027; 0x0620006f; 0x04313027; 0x00000000;
    0x00c4b027; 0x0440006f; 0x04413027; 0x00000000; 0x00d4b027; 0x0640006f; 0x04513027; 0x00000000;
    0x00e4b027; 0x0460006f; 0x04613027; 0x00000000; 0x00f4b027; 0x0660006f; 0x04713027; 0x00000000;
    0x0484b027; 0x0480006f; 0x04813027; 0x00000000; 0x0494b027; 0x0680006f; 0x04913027; 0x00000000;
    0x04a4b027; 0x04a0006f; 0x04a13027; 0x00000000; 0x04b4b027; 0x06a0006f; 0x04b13027; 0x00000000;
    0x04c4b027; 0x04c0006f; 0x04c13027; 0x00000000; 0x04d4b027; 0x06c0006f; 0x04d13027; 0x00000000;
    0x04e4b027; 0x04e0006f; 0x04e13027; 0x00000000; 0x04f4b027; 0x06e0006f; 0x04f13027; 0x00000000;
    0x0884b027; 0x0c00006f; 0x05013027; 0x00000000; 0x0894b027; 0x0e00006f; 0x05113027; 0x00000000;
    0x08a4b027; 0x0c20006f; 0x05213027; 0x00000000; 0x08b4b027; 0x0e20006f; 0x05313027; 0x00000000;
    0x08c4b027; 0x0c40006f; 0x05413027; 0x00000000; 0x08d4b027; 0x0e40006f; 0x05513027; 0x00000000;
    0x08e4b027; 0x0c60006f; 0x05613027; 0x00000000; 0x08f4b027; 0x0e60006f; 0x05713027; 0x00000000;
    0x0c84b027; 0x0c80006f; 0x05813027; 0x00000000; 0x0c94b027; 0x0e80006f; 0x05913027; 0x00000000;
    0x0ca4b027; 0x0ca0006f; 0x05a13027; 0x00000000; 0x0cb4b027; 0x0ea0006f; 0x05b13027; 0x00000000;
    0x0cc4b027; 0x0cc0006f; 0x05c13027; 0x00000000; 0x0cd4b027; 0x0ec0006f; 0x05d13027; 0x00000000;
    0x0ce4b027; 0x0ce0006f; 0x05e13027; 0x00000000; 0x0cf4b027; 0x0ee0006f; 0x05f13027; 0x00000000;
    0x00853027; 0x4000006f; 0x08013027; 0x00000000; 0x00953027; 0x4200006f; 0x08113027; 0x00000000;
    0x00a53027; 0x4020006f; 0x08213027; 0x00000000; 0x00b53027; 0x4220006f; 0x08313027; 0x00000000;
    0x00c53027; 0x4040006f; 0x08413027; 0x00000000; 0x00d53027; 0x4240006f; 0x08513027; 0x00000000;
    0x00e53027; 0x4060006f; 0x08613027; 0x00000000; 0x00f53027; 0x4260006f; 0x08713027; 0x00000000;
    0x04853027; 0x4080006f; 0x08813027; 0x00000000; 0x04953027; 0x4280006f; 0x08913027; 0x00000000;
    0x04a53027; 0x40a0006f; 0x08a13027; 0x00000000; 0x04b53027; 0x42a0006f; 0x08b13027; 0x00000000;
    0x04c53027; 0x40c0006f; 0x08c13027; 0x00000000; 0x04d53027; 0x42c0006f; 0x08d13027; 0x00000000;
    0x04e53027; 0x40e0006f; 0x08e13027; 0x00000000; 0x04f53027; 0x42e0006f; 0x08f13027; 0x00000000;
    0x08853027; 0x4800006f; 0x09013027; 0x00000000; 0x08953027; 0x4a00006f; 0x09113027; 0x00000000;
    0x08a53027; 0x4820006f; 0x09213027; 0x00000000; 0x08b53027; 0x4a20006f; 0x09313027; 0x00000000;
    0x08c53027; 0x4840006f; 0x09413027; 0x00000000; 0x08d53027; 0x4a40006f; 0x09513027; 0x00000000;
    0x08e53027; 0x4860006f; 0x09613027; 0x00000000; 0x08f53027; 0x4a60006f; 0x09713027; 0x00000000;
    0x0c853027; 0x4880006f; 0x09813027; 0x00000000; 0x0c953027; 0x4a80006f; 0x09913027; 0x00000000;
    0x0ca53027; 0x48a0006f; 0x09a13027; 0x00000000; 0x0cb53027; 0x4aa0006f; 0x09b13027; 0x00000000;
    0x0cc53027; 0x48c0006f; 0x09c13027; 0x00000000; 0x0cd53027; 0x4ac0006f; 0x09d13027; 0x00000000;
    0x0ce53027; 0x48e0006f; 0x09e13027; 0x00000000; 0x0cf53027; 0x4ae0006f; 0x09f13027; 0x00000000;
    0x0085b027; 0x4400006f; 0x0c013027; 0x00000000; 0x0095b027; 0x4600006f; 0x0c113027; 0x00000000;
    0x00a5b027; 0x4420006f; 0x0c213027; 0x00000000; 0x00b5b027; 0x4620006f; 0x0c313027; 0x00000000;
    0x00c5b027; 0x4440006f; 0x0c413027; 0x00000000; 0x00d5b027; 0x4640006f; 0x0c513027; 0x00000000;
    0x00e5b027; 0x4460006f; 0x0c613027; 0x00000000; 0x00f5b027; 0x4660006f; 0x0c713027; 0x00000000;
    0x0485b027; 0x4480006f; 0x0c813027; 0x00000000; 0x0495b027; 0x4680006f; 0x0c913027; 0x00000000;
    0x04a5b027; 0x44a0006f; 0x0ca13027; 0x00000000; 0x04b5b027; 0x46a0006f; 0x0cb13027; 0x00000000;
    0x04c5b027; 0x44c0006f; 0x0cc13027; 0x00000000; 0x04d5b027; 0x46c0006f; 0x0cd13027; 0x00000000;
    0x04e5b027; 0x44e0006f; 0x0ce13027; 0x00000000; 0x04f5b027; 0x46e0006f; 0x0cf13027; 0x00000000;
    0x0885b027; 0x4c00006f; 0x0d013027; 0x00000000; 0x0895b027; 0x4e00006f; 0x0d113027; 0x00000000;
    0x08a5b027; 0x4c20006f; 0x0d213027; 0x00000000; 0x08b5b027; 0x4e20006f; 0x0d313027; 0x00000000;
    0x08c5b027; 0x4c40006f; 0x0d413027; 0x00000000; 0x08d5b027; 0x4e40006f; 0x0d513027; 0x00000000;
    0x08e5b027; 0x4c60006f; 0x0d613027; 0x00000000; 0x08f5b027; 0x4e60006f; 0x0d713027; 0x00000000;
    0x0c85b027; 0x4c80006f; 0x0d813027; 0x00000000; 0x0c95b027; 0x4e80006f; 0x0d913027; 0x00000000;
    0x0ca5b027; 0x4ca0006f; 0x0da13027; 0x00000000; 0x0cb5b027; 0x4ea0006f; 0x0db13027; 0x00000000;
    0x0cc5b027; 0x4cc0006f; 0x0dc13027; 0x00000000; 0x0cd5b027; 0x4ec0006f; 0x0dd13027; 0x00000000;
    0x0ce5b027; 0x4ce0006f; 0x0de13027; 0x00000000; 0x0cf5b027; 0x4ee0006f; 0x0df13027; 0x00000000;
    0x00863027; 0x1000006f; 0x10013027; 0x00000000; 0x00963027; 0x1200006f; 0x10113027; 0x00000000;
    0x00a63027; 0x1020006f; 0x10213027; 0x00000000; 0x00b63027; 0x1220006f; 0x10313027; 0x00000000;
    0x00c63027; 0x1040006f; 0x10413027; 0x00000000; 0x00d63027; 0x1240006f; 0x10513027; 0x00000000;
    0x00e63027; 0x1060006f; 0x10613027; 0x00000000; 0x00f63027; 0x1260006f; 0x10713027; 0x00000000;
    0x04863027; 0x1080006f; 0x10813027; 0x00000000; 0x04963027; 0x1280006f; 0x10913027; 0x00000000;
    0x04a63027; 0x10a0006f; 0x10a13027; 0x00000000; 0x04b63027; 0x12a0006f; 0x10b13027; 0x00000000;
    0x04c63027; 0x10c0006f; 0x10c13027; 0x00000000; 0x04d63027; 0x12c0006f; 0x10d13027; 0x00000000;
    0x04e63027; 0x10e0006f; 0x10e13027; 0x00000000; 0x04f63027; 0x12e0006f; 0x10f13027; 0x00000000;
    0x08863027; 0x1800006f; 0x11013027; 0x00000000; 0x08963027; 0x1a00006f; 0x11113027; 0x00000000;
    0x08a63027; 0x1820006f; 0x11213027; 0x00000000; 0x08b63027; 0x1a20006f; 0x11313027; 0x00000000;
    0x08c63027; 0x1840006f; 0x11413027; 0x00000000; 0x08d63027; 0x1a40006f; 0x11513027; 0x00000000;
    0x08e63027; 0x1860006f; 0x11613027; 0x00000000; 0x08f63027; 0x1a60006f; 0x11713027; 0x00000000;
    0x0c863027; 0x1880006f; 0x11813027; 0x00000000; 0x0c963027; 0x1a80006f; 0x11913027; 0x00000000;
    0x0ca63027; 0x18a0006f; 0x11a13027; 0x00000000; 0x0cb63027; 0x1aa0006f; 0x11b13027; 0x00000000;
    0x0cc63027; 0x18c0006f; 0x11c13027; 0x00000000; 0x0cd63027; 0x1ac0006f; 0x11d13027; 0x00000000;
    0x0ce63027; 0x18e0006f; 0x11e13027; 0x00000000; 0x0cf63027; 0x1ae0006f; 0x11f13027; 0x00000000;
    0x0086b027; 0x1400006f; 0x14013027; 0x00000000; 0x0096b027; 0x1600006f; 0x14113027; 0x00000000;
    0x00a6b027; 0x1420006f; 0x14213027; 0x00000000; 0x00b6b027; 0x1620006f; 0x14313027; 0x00000000;
    0x00c6b027; 0x1440006f; 0x14413027; 0x00000000; 0x00d6b027; 0x1640006f; 0x14513027; 0x00000000;
    0x00e6b027; 0x1460006f; 0x14613027; 0x00000000; 0x00f6b027; 0x1660006f; 0x14713027; 0x00000000;
    0x0486b027; 0x1480006f; 0x14813027; 0x00000000; 0x0496b027; 0x1680006f; 0x14913027; 0x00000000;
    0x04a6b027; 0x14a0006f; 0x14a13027; 0x00000000; 0x04b6b027; 0x16a0006f; 0x14b13027; 0x00000000;
    0x04c6b027; 0x14c0006f; 0x14c13027; 0x00000000; 0x04d6b027; 0x16c0006f; 0x14d13027; 0x00000000;
    0x04e6b027; 0x14e0006f; 0x14e13027; 0x00000000; 0x04f6b027; 0x16e0006f; 0x14f13027; 0x00000000;
    0x0886b027; 0x1c00006f; 0x15013027; 0x00000000; 0x0896b027; 0x1e00006f; 0x15113027; 0x00000000;
    0x08a6b027; 0x1c20006f; 0x15213027; 0x00000000; 0x08b6b027; 0x1e20006f; 0x15313027; 0x00000000;
    0x08c6b027; 0x1c40006f; 0x15413027; 0x00000000; 0x08d6b027; 0x1e40006f; 0x15513027; 0x00000000;
    0x08e6b027; 0x1c60006f; 0x15613027; 0x00000000; 0x08f6b027; 0x1e60006f; 0x15713027; 0x00000000;
    0x0c86b027; 0x1c80006f; 0x15813027; 0x00000000; 0x0c96b027; 0x1e80006f; 0x15913027; 0x00000000;
    0x0ca6b027; 0x1ca0006f; 0x15a13027; 0x00000000; 0x0cb6b027; 0x1ea0006f; 0x15b13027; 0x00000000;
    0x0cc6b027; 0x1cc0006f; 0x15c13027; 0x00000000; 0x0cd6b027; 0x1ec0006f; 0x15d13027; 0x00000000;
    0x0ce6b027; 0x1ce0006f; 0x15e13027; 0x00000000; 0x0cf6b027; 0x1ee0006f; 0x15f13027; 0x00000000;
    0x00873027; 0x5000006f; 0x18013027; 0x00000000; 0x00973027; 0x5200006f; 0x18113027; 0x00000000;
    0x00a73027; 0x5020006f; 0x18213027; 0x00000000; 0x00b73027; 0x5220006f; 0x18313027; 0x00000000;
    0x00c73027; 0x5040006f; 0x18413027; 0x00000000; 0x00d73027; 0x5240006f; 0x18513027; 0x00000000;
    0x00e73027; 0x5060006f; 0x18613027; 0x00000000; 0x00f73027; 0x5260006f; 0x18713027; 0x00000000;
    0x04873027; 0x5080006f; 0x18813027; 0x00000000; 0x04973027; 0x5280006f; 0x18913027; 0x00000000;
    0x04a73027; 0x50a0006f; 0x18a13027; 0x00000000; 0x04b73027; 0x52a0006f; 0x18b13027; 0x00000000;
    0x04c73027; 0x50c0006f; 0x18c13027; 0x00000000; 0x04d73027; 0x52c0006f; 0x18d13027; 0x00000000;
    0x04e73027; 0x50e0006f; 0x18e13027; 0x00000000; 0x04f73027; 0x52e0006f; 0x18f13027; 0x00000000;
    0x08873027; 0x5800006f; 0x19013027; 0x00000000; 0x08973027; 0x5a00006f; 0x19113027; 0x00000000;
    0x08a73027; 0x5820006f; 0x19213027; 0x00000000; 0x08b73027; 0x5a20006f; 0x19313027; 0x00000000;
    0x08c73027; 0x5840006f; 0x19413027; 0x00000000; 0x08d73027; 0x5a40006f; 0x19513027; 0x00000000;
    0x08e73027; 0x5860006f; 0x19613027; 0x00000000; 0x08f73027; 0x5a60006f; 0x19713027; 0x00000000;
    0x0c873027; 0x5880006f; 0x19813027; 0x00000000; 0x0c973027; 0x5a80006f; 0x19913027; 0x00000000;
    0x0ca73027; 0x58a0006f; 0x19a13027; 0x00000000; 0x0cb73027; 0x5aa0006f; 0x19b13027; 0x00000000;
    0x0cc73027; 0x58c0006f; 0x19c13027; 0x00000000; 0x0cd73027; 0x5ac0006f; 0x19d13027; 0x00000000;
    0x0ce73027; 0x58e0006f; 0x19e13027; 0x00000000; 0x0cf73027; 0x5ae0006f; 0x19f13027; 0x00000000;
    0x0087b027; 0x5400006f; 0x1c013027; 0x00000000; 0x0097b027; 0x5600006f; 0x1c113027; 0x00000000;
    0x00a7b027; 0x5420006f; 0x1c213027; 0x00000000; 0x00b7b027; 0x5620006f; 0x1c313027; 0x00000000;
    0x00c7b027; 0x5440006f; 0x1c413027; 0x00000000; 0x00d7b027; 0x5640006f; 0x1c513027; 0x00000000;
    0x00e7b027; 0x5460006f; 0x1c613027; 0x00000000; 0x00f7b027; 0x5660006f; 0x1c713027; 0x00000000;
    0x0487b027; 0x5480006f; 0x1c813027; 0x00000000; 0x0497b027; 0x5680006f; 0x1c913027; 0x00000000;
    0x04a7b027; 0x54a0006f; 0x1ca13027; 0x00000000; 0x04b7b027; 0x56a0006f; 0x1cb13027; 0x00000000;
    0x04c7b027; 0x54c0006f; 0x1cc13027; 0x00000000; 0x04d7b027; 0x56c0006f; 0x1cd13027; 0x00000000;
    0x04e7b027; 0x54e0006f; 0x1ce13027; 0x00000000; 0x04f7b027; 0x56e0006f; 0x1cf13027; 0x00000000;
    0x0887b027; 0x5c00006f; 0x1d013027; 0x00000000; 0x0897b027; 0x5e00006f; 0x1d113027; 0x00000000;
    0x08a7b027; 0x5c20006f; 0x1d213027; 0x00000000; 0x08b7b027; 0x5e20006f; 0x1d313027; 0x00000000;
    0x08c7b027; 0x5c40006f; 0x1d413027; 0x00000000; 0x08d7b027; 0x5e40006f; 0x1d513027; 0x00000000;
    0x08e7b027; 0x5c60006f; 0x1d613027; 0x00000000; 0x08f7b027; 0x5e60006f; 0x1d713027; 0x00000000;
    0x0c87b027; 0x5c80006f; 0x1d813027; 0x00000000; 0x0c97b027; 0x5e80006f; 0x1d913027; 0x00000000;
    0x0ca7b027; 0x5ca0006f; 0x1da13027; 0x00000000; 0x0cb7b027; 0x5ea0006f; 0x1db13027; 0x00000000;
    0x0cc7b027; 0x5cc0006f; 0x1dc13027; 0x00000000; 0x0cd7b027; 0x5ec0006f; 0x1dd13027; 0x00000000;
    0x0ce7b027; 0x5ce0006f; 0x1de13027; 0x00000000; 0x0cf7b027; 0x5ee0006f; 0x1df13027; 0x00000000
].

(** parcels 0xa400 to 0xa7ff *)
Definition RVC64_EXPANDED_41 : list Z := [
    0x00843427; 0x2000006f; 0x00013427; 0x00000000; 0x00943427; 0x2200006f; 0x00113427; 0x00000000;
    0x00a43427; 0x2020006f; 0x00213427; 0x00000000; 0x00b43427; 0x2220006f; 0x00313427; 0x00000000;
    0x00c43427; 0x2040006f; 0x00413427; 0x00000000; 0x00d43427; 0x2240006f; 0x00513427; 0x00000000;
    0x00e43427; 0x2060006f; 0x00613427; 0x00000000; 0x00f43427; 0x2260006f; 0x00713427; 0x00000000;
    0x04843427; 0x2080006f; 0x00813427; 0x00000000; 0x04943427; 0x2280006f; 0x00913427; 0x00000000;
    0x04a43427; 0x20a0006f; 0x00a13427; 0x00000000; 0x04b43427; 0x22a0006f; 0x00b13427; 0x00000000;
    0x04c43427; 0x20c0006f; 0x00c13427; 0x00000000; 0x04d43427; 0x22c0006f; 0x00d13427; 0x00000000;
    0x04e43427; 0x20e0006f; 0x00e13427; 0x00000000; 0x04f43427; 0x22e0006f; 0x00f13427; 0x00000000;
    0x08843427; 0x2800006f; 0x01013427; 0x00000000; 0x08943427; 0x2a00006f; 0x01113427; 0x00000000;
    0x08a43427; 0x2820006f; 0x01213427; 0x00000000; 0x08b43427; 0x2a20006f; 0x01313427; 0x00000000;
    0x08c43427; 0x2840006f; 0x01413427; 0x00000000; 0x08d43427; 0x2a40006f; 0x01513427; 0x00000000;
    0x08e43427; 0x2860006f; 0x01613427; 0x00000000; 0x08f43427; 0x2a60006f; 0x01713427; 0x00000000;
    0x0c843427; 0x2880006f; 0x01813427; 0x00000000; 0x0c943427; 0x2a80006f; 0x01913427; 0x00000000;
    0x0ca43427; 0x28a0006f; 0x01a13427; 0x00000000; 0x0cb43427; 0x2aa0006f; 0x01b13427; 0x00000000;
    0x0cc43427; 0x28c0006f; 0x01c13427; 0x00000000; 0x0cd43427; 0x2ac0006f; 0x01d13427; 0x00000000;
    0x0ce43427; 0x28e0006f; 0x01e13427; 0x00000000; 0x0cf43427; 0x2ae0006f; 0x01f13427; 0x00000000;
    0x0084b427; 0x2400006f; 0x04013427; 0x00000000; 0x0094b427; 0x2600006f; 0x04113427; 0x00000000;
    0x00a4b427; 0x2420006f; 0x04213427; 0x00000000; 0x00b4b427; 0x2620006f; 0x04313427; 0x00000000;
    0x00c4b427; 0x2440006f; 0x04413427; 0x00000000; 0x00d4b427; 0x2640006f; 0x04513427; 0x00000000;
    0x00e4b427; 0x2460006f; 0x04613427; 0x00000000; 0x00f4b427; 0x2660006f; 0x04713427; 0x00000000;
    0x0484b427; 0x2480006f; 0x04813427; 0x00000000; 0x0494b427; 0x2680006f; 0x04913427; 0x00000000;
    0x04a4b427; 0x24a0006f; 0x04a13427; 0x00000000; 0x04b4b427; 0x26a0006f; 0x04b13427; 0x00000000;
    0x04c4b427; 0x24c0006f; 0x04c13427; 0x00000000; 0x04d4b427; 0x26c0006f; 0x04d13427; 0x00000000;
    0x04e4b427; 0x24e0006f; 0x04e13427; 0x00000000; 0x04f4b427; 0x26e0006f; 0x04f13427; 0x00000000;
    0x0884b427; 0x2c00006f; 0x05013427; 0x00000000; 0x0894b427; 0x2e00006f; 0x05113427; 0x00000000;
    0x08a4b427; 0x2c20006f; 0x05213427; 0x00000000; 0x08b4b427; 0x2e20006f; 0x05313427; 0x00000000;
    0x08c4b427; 0x2c40006f; 0x05413427; 0x00000000; 0x08d4b427; 0x2e40006f; 0x05513427; 0x00000000;
    0x08e4b427; 0x2c60006f; 0x05613427; 0x00000000; 0x08f4b427; 0x2e60006f; 0x05713427; 0x00000000;
    0x0c84b427; 0x2c80006f; 0x05813427; 0x00000000; 0x0c94b427; 0x2e80006f; 0x05913427; 0x00000000;
    0x0ca4b427; 0x2ca0006f; 0x05a13427; 0x00000000; 0x0cb4b427; 0x2ea0006f; 0x05b13427; 0x00000000;
    0x0cc4b427; 0x2cc0006f; 0x05c13427; 0x00000000; 0x0cd4b427; 0x2ec0006f; 0x05d13427; 0x00000000;
    0x0ce4b427; 0x2ce0006f; 0x05e13427; 0x00000000; 0x0cf4b427; 0x2ee0006f; 0x05f13427; 0x00000000;
    0x00853427; 0x6000006f; 0x08013427; 0x00000000; 0x00953427; 0x6200006f; 0x08113427; 0x00000000;
    0x00a53427; 0x6020006f; 0x08213427; 0x00000000; 0x00b53427; 0x6220006f; 0x08313427; 0x00000000;
    0x00c53427; 0x6040006f; 0x08413427; 0x00000000; 0x00d53427; 0x6240006f; 0x08513427; 0x00000000;
    0x00e53427; 0x6060006f; 0x08613427; 0x00000000; 0x00f53427; 0x6260006f; 0x08713427; 0x00000000;
    0x04853427; 0x6080006f; 0x08813427; 0x00000000; 0x04953427; 0x6280006f; 0x08913427; 0x00000000;
    0x04a53427; 0x60a0006f; 0x08a13427; 0x00000000; 0x04b53427; 0x62a0006f; 0x08b13427; 0x00000000;
    0x04c53427; 0x60c0006f; 0x08c13427; 0x00000000; 0x04d53427; 0x62c0006f; 0x08d13427; 0x00000000;
    0x04e53427; 0x60e0006f; 0x08e13427; 0x00000000; 0x04f53427; 0x62e0006f; 0x08f13427; 0x00000000;
    0x08853427; 0x6800006f; 0x09013427; 0x00000000; 0x08953427; 0x6a00006f; 0x09113427; 0x00000000;
    0x08a53427; 0x6820006f; 0x09213427; 0x00000000; 0x08b53427; 0x6a20006f; 0x09313427; 0x00000000;
    0x08c53427; 0x6840006f; 0x09413427; 0x00000000; 0x08d53427; 0x6a40006f; 0x09513427; 0x00000000;
    0x08e53427; 0x6860006f; 0x09613427; 0x00000000; 0x08f53427; 0x6a60006f; 0x09713427; 0x00000000;
    0x0c853427; 0x6880006f; 0x09813427; 0x00000000; 0x0c953427; 0x6a80006f; 0x09913427; 0x00000000;
    0x0ca53427; 0x68a0006f; 0x09a13427; 0x00000000; 0x0cb53427; 0x6aa0006f; 0x09b13427; 0x00000000;
    0x0cc53427; 0x68c0006f; 0x09c13427; 0x00000000; 0x0cd53427; 0x6ac0006f; 0x09d13427; 0x00000000;
    0x0ce53427; 0x68e0006f; 0x09e13427; 0x00000000; 0x0cf53427; 0x6ae0006f; 0x09f13427; 0x00000000;
    0x0085b427; 0x6400006f; 0x0c013427; 0x00000000; 0x0095b427; 0x6600006f; 0x0c113427; 0x00000000;
    0x00a5b427; 0x6420006f; 0x0c213427; 0x00000000; 0x00b5b427; 0x6620006f; 0x0c313427; 0x00000000;
    0x00c5b427; 0x6440006f; 0x0c413427; 0x00000000; 0x00d5b427; 0x6640006f; 0x0c513427; 0x00000000;
    0x00e5b427; 0x6460006f; 0x0c613427; 0x00000000; 0x00f5b427; 0x6660006f; 0x0c713427; 0x00000000;
    0x0485b427; 0x6480006f; 0x0c813427; 0x00000000; 0x0495b427; 0x6680006f; 0x0c913427; 0x00000000;
    0x04a5b427; 0x64a0006f; 0x0ca13427; 0x00000000; 0x04b5b427; 0x66a0006f; 0x0cb13427; 0x00000000;
    0x04c5b427; 0x64c0006f; 0x0cc13427; 0x00000000; 0x04d5b427; 0x66c0006f; 0x0cd13427; 0x00000000;
    0x04e5b427; 0x64e0006f; 0x0ce13427; 0x00000000; 0x04f5b427; 0x66e0006f; 0x0cf13427; 0x00000000;
    0x0885b427; 0x6c00006f; 0x0d013427; 0x00000000; 0x0895b427; 0x6e00006f; 0x0d113427; 0x00000000;
    0x08a5b427; 0x6c20006f; 0x0d213427; 0x00000000; 0x08b5b427; 0x6e20006f; 0x0d313427; 0x00000000;
    0x08c5b427; 0x6c40006f; 0x0d413427; 0x00000000; 0x08d5b427; 0x6e40006f; 0x0d513427; 0x00000000;
    0x08e5b427; 0x6c60006f; 0x0d613427; 0x00000000; 0x08f5b427; 0x6e60006f; 0x0d713427; 0x00000000;
    0x0c85b427; 0x6c80006f; 0x0d813427; 0x00000000; 0x0c95b427; 0x6e80006f; 0x0d913427; 0x00000000;
    0x0ca5b427; 0x6ca0006f; 0x0da13427; 0x00000000; 0x0cb5b427; 0x6ea0006f; 0x0db13427; 0x00000000;
    0x0cc5b427; 0x6cc0006f; 0x0dc13427; 0x00000000; 0x0cd5b427; 0x6ec0006f; 0x0dd13427; 0x00000000;
    0x0ce5b427; 0x6ce0006f; 0x0de13427; 0x00000000; 0x0cf5b427; 0x6ee0006f; 0x0df13427; 0x00000000;
    0x00863427; 0x3000006f; 0x10013427; 0x00000000; 0x00963427; 0x3200006f; 0x10113427; 0x00000000;
    0x00a63427; 0x3020006f; 0x10213427; 0x00000000; 0x00b63427; 0x3220006f; 0x10313427; 0x00000000;
    0x00c63427; 0x3040006f; 0x10413427; 0x00000000; 0x00d63427; 0x3240006f; 0x10513427; 0x00000000;
    0x00e63427; 0x3060006f; 0x10613427; 0x00000000; 0x00f63427; 0x3260006f; 0x10713427; 0x00000000;
    0x04863427; 0x3080006f; 0x10813427; 0x00000000; 0x04963427; 0x3280006f; 0x10913427; 0x00000000;
    0x04a63427; 0x30a0006f; 0x10a13427; 0x00000000; 0x04b63427; 0x32a0006f; 0x10b13427; 0x00000000;
    0x04c63427; 0x30c0006f; 0x10c13427; 0x00000000; 0x04d63427; 0x32c0006f; 0x10d13427; 0x00000000;
    0x04e63427; 0x30e0006f; 0x10e13427; 0x00000000; 0x04f63427; 0x32e0006f; 0x10f13427; 0x00000000;
    0x08863427; 0x3800006f; 0x11013427; 0x00000000; 0x08963427; 0x3a00006f; 0x11113427; 0x00000000;
    0x08a63427; 0x3820006f; 0x11213427; 0x00000000; 0x08b63427; 0x3a20006f; 0x11313427; 0x00000000;
    0x08c63427; 0x3840006f; 0x11413427; 0x00000000; 0x08d63427; 0x3a40006f; 0x11513427; 0x00000000;
    0x08e63427; 0x3860006f; 0x11613427; 0x00000000; 0x08f63427; 0x3a60006f; 0x11713427; 0x00000000;
    0x0c863427; 0x3880006f; 0x11813427; 0x00000000; 0x0c963427; 0x3a80006f; 0x11913427; 0x00000000;
    0x0ca63427; 0x38a0006f; 0x11a13427; 0x00000000; 0x0cb63427; 0x3aa0006f; 0x11b13427; 0x00000000;
    0x0cc63427; 0x38c0006f; 0x11c13427; 0x00000000; 0x0cd63427; 0x3ac0006f; 0x11d13427; 0x00000000;
    0x0ce63427; 0x38e0006f; 0x11e13427; 0x00000000; 0x0cf63427; 0x3ae0006f; 0x11f13427; 0x00000000;
    0x0086b427; 0x3400006f; 0x14013427; 0x00000000; 0x0096b427; 0x3600006f; 0x14113427; 0x00000000;
    0x00a6b427; 0x3420006f; 0x14213427; 0x00000000; 0x00b6b427; 0x3620006f; 0x14313427; 0x00000000;
    0x00c6b427; 0x3440006f; 0x14413427; 0x00000000; 0x00d6b427; 0x3640006f; 0x14513427; 0x00000000;
    0x00e6b427; 0x3460006f; 0x14613427; 0x00000000; 0x00f6b427; 0x3660006f; 0x14713427; 0x00000000;
    0x0486b427; 0x3480006f; 0x14813427; 0x00000000; 0x0496b427; 0x3680006f; 0x14913427; 0x00000000;
    0x04a6b427; 0x34a0006f; 0x14a13427; 0x00000000; 0x04b6b427; 0x36a0006f; 0x14b13427; 0x00000000;
    0x04c6b427; 0x34c0006f; 0x14c13427; 0x00000000; 0x04d6b427; 0x36c0006f; 0x14d13427; 0x00000000;
    0x04e6b427; 0x34e0006f; 0x14e13427; 0x00000000; 0x04f6b427; 0x36e0006f; 0x14f13427; 0x00000000;
    0x0886b427; 0x3c00006f; 0x15013427; 0x00000000; 0x0896b427; 0x3e00006f; 0x15113427; 0x00000000;
    0x08a6b427; 0x3c20006f; 0x15213427; 0x00000000; 0x08b6b427; 0x3e20006f; 0x15313427; 0x00000000;
    0x08c6b427; 0x3c40006f; 0x15413427; 0x00000000; 0x08d6b427; 0x3e40006f; 0x15513427; 0x00000000;
    0x08e6b427; 0x3c60006f; 0x15613427; 0x00000000; 0x08f6b427; 0x3e60006f; 0x15713427; 0x00000000;
    0x0c86b427; 0x3c80006f; 0x15813427; 0x00000000; 0x0c96b427; 0x3e80006f; 0x15913427; 0x00000000;
    0x0ca6b427; 0x3ca0006f; 0x15a13427; 0x00000000; 0x0cb6b427; 0x3ea0006f; 0x15b13427; 0x00000000;
    0x0cc6b427; 0x3cc0006f; 0x15c13427; 0x00000000; 0x0cd6b427; 0x3ec0006f; 0x15d13427; 0x00000000;
    0x0ce6b427; 0x3ce0006f; 0x15e13427; 0x00000000; 0x0cf6b427; 0x3ee0006f; 0x15f13427; 0x00000000;
    0x00873427; 0x7000006f; 0x18013427; 0x00000000; 0x00973427; 0x7200006f; 0x18113427; 0x00000000;
    0x00a73427; 0x7020006f; 0x18213427; 0x00000000; 0x00b73427; 0x7220006f; 0x18313427; 0x00000000;
    0x00c73427; 0x7040006f; 0x18413427; 0x00000000; 0x00d73427; 0x7240006f; 0x18513427; 0x00000000;
    0x00e73427; 0x7060006f; 0x18613427; 0x00000000; 0x00f73427; 0x7260006f; 0x18713427; 0x00000000;
    0x04873427; 0x7080006f; 0x18813427; 0x00000000; 0x04973427; 0x7280006f; 0x18913427; 0x00000000;
    0x04a73427; 0x70a0006f; 0x18a13427; 0x00000000; 0x04b73427; 0x72a0006f; 0x18b13427; 0x00000000;
    0x04c73427; 0x70c0006f; 0x18c13427; 0x00000000; 0x04d73427; 0x72c0006f; 0x18d13427; 0x00000000;
    0x04e73427; 0x70e0006f; 0x18e13427; 0x00000000; 0x04f73427; 0x72e0006f; 0x18f13427; 0x00000000;
    0x08873427; 0x7800006f; 0x19013427; 0x00000000; 0x08973427; 0x7a00006f; 0x19113427; 0x00000000;
    0x08a73427; 0x7820006f; 0x19213427; 0x00000000; 0x08b73427; 0x7a20006f; 0x19313427; 0x00000000;
    0x08c73427; 0x7840006f; 0x19413427; 0x00000000; 0x08d73427; 0x7a40006f; 0x19513427; 0x00000000;
    0x08e73427; 0x7860006f; 0x19613427; 0x00000000; 0x08f73427; 0x7a60006f; 0x19713427; 0x00000000;
    0x0c873427; 0x7880006f; 0x19813427; 0x00000000; 0x0c973427; 0x7a80006f; 0x19913427; 0x00000000;
    0x0ca73427; 0x78a0006f; 0x19a13427; 0x00000000; 0x0cb73427; 0x7aa0006f; 0x19b13427; 0x00000000;
    0x0cc73427; 0x78c0006f; 0x19c13427; 0x00000000; 0x0cd73427; 0x7ac0006f; 0x19d13427; 0x00000000;
    0x0ce73427; 0x78e0006f; 0x19e13427; 0x00000000; 0x0cf73427; 0x7ae0006f; 0x19f13427; 0x00000000;
    0x0087b427; 0x7400006f; 0x1c013427; 0x00000000; 0x0097b427; 0x7600006f; 0x1c113427; 0x00000000;
    0x00a7b427; 0x7420006f; 0x1c213427; 0x00000000; 0x00b7b427; 0x7620006f; 0x1c313427; 0x00000000;
    0x00c7b427; 0x7440006f; 0x1c413427; 0x00000000; 0x00d7b427; 0x7640006f; 0x1c513427; 0x00000000;
    0x00e7b427; 0x7460006f; 0x1c613427; 0x00000000; 0x00f7b427; 0x7660006f; 0x1c713427; 0x00000000;
    0x0487b427; 0x7480006f; 0x1c813427; 0x00000000; 0x0497b427; 0x7680006f; 0x1c913427; 0x00000000;
    0x04a7b427; 0x74a0006f; 0x1ca13427; 0x00000000; 0x04b7b427; 0x76a0006f; 0x1cb13427; 0x00000000;
    0x04c7b427; 0x74c0006f; 0x1cc13427; 0x00000000; 0x04d7b427; 0x76c0006f; 0x1cd13427; 0x00000000;
    0x04e7b427; 0x74e0006f; 0x1ce13427; 0x00000000; 0x04f7b427; 0x76e0006f; 0x1cf13427; 0x00000000;
    0x0887b427; 0x7c00006f; 0x1d013427; 0x00000000; 0x0897b427; 0x7e00006f; 0x1d113427; 0x00000000;
    0x08a7b427; 0x7c20006f; 0x1d213427; 0x00000000; 0x08b7b427; 0x7e20006f; 0x1d313427; 0x00000000;
    0x08c7b427; 0x7c40006f; 0x1d413427; 0x00000000; 0x08d7b427; 0x7e40006f; 0x1d513427; 0x00000000;
    0x08e7b427; 0x7c60006f; 0x1d613427; 0x00000000; 0x08f7b427; 0x7e60006f; 0x1d713427; 0x00000000;
    0x0c87b427; 0x7c80006f; 0x1d813427; 0x00000000; 0x0c97b427; 0x7e80006f; 0x1d913427; 0x00000000;
    0x0ca7b427; 0x7ca0006f; 0x1da13427; 0x00000000; 0x0cb7b427; 0x7ea0006f; 0x1db13427; 0x00000000;
    0x0cc7b427; 0x7cc0006f; 0x1dc13427; 0x00000000; 0x0cd7b427; 0x7ec0006f; 0x1dd13427; 0x00000000;
    0x0ce7b427; 0x7ce0006f; 0x1de13427; 0x00000000; 0x0cf7b427; 0x7ee0006f; 0x1df13427; 0x00000000
].

(** parcels 0xa800 to 0xabff *)
Definition RVC64_EXPANDED_42 : list Z := [
    0x00843827; 0x0100006f; 0x00013827; 0x00000000; 0x00943827; 0x0300006f; 0x00113827; 0x00000000;
    0x00a43827; 0x0120006f; 0x00213827; 0x00000000; 0x00b43827; 0x0320006f; 0x00313827; 0x00000000;
    0x00c43827; 0x0140006f; 0x00413827; 0x00000000; 0x00d43827; 0x0340006f; 0x00513827; 0x00000000;
    0x00e43827; 0x0160006f; 0x00613827; 0x00000000; 0x00f43827; 0x0360006f; 0x00713827; 0x00000000;
    0x04843827; 0x0180006f; 0x00813827; 0x00000000; 0x04943827; 0x0380006f; 0x00913827; 0x00000000;
    0x04a43827; 0x01a0006f; 0x00a13827; 0x00000000; 0x04b43827; 0x03a0006f; 0x00b13827; 0x00000000;
    0x04c43827; 0x01c0006f; 0x00c13827; 0x00000000; 0x04d43827; 0x03c0006f; 0x00d13827; 0x00000000;
    0x04e43827; 0x01e0006f; 0x00e13827; 0x00000000; 0x04f43827; 0x03e0006f; 0x00f13827; 0x00000000;
    0x08843827; 0x0900006f; 0x01013827; 0x00000000; 0x08943827; 0x0b00006f; 0x01113827; 0x00000000;
    0x08a43827; 0x0920006f; 0x01213827; 0x00000000; 0x08b43827; 0x0b20006f; 0x01313827; 0x00000000;
    0x08c43827; 0x0940006f; 0x01413827; 0x00000000; 0x08d43827; 0x0b40006f; 0x01513827; 0x00000000;
    0x08e43827; 0x0960006f; 0x01613827; 0x00000000; 0x08f43827; 0x0b60006f; 0x01713827; 0x00000000;
    0x0c843827; 0x0980006f; 0x01813827; 0x00000000; 0x0c943827; 0x0b80006f; 0x01913827; 0x00000000;
    0x0ca43827; 0x09a0006f; 0x01a13827; 0x00000000; 0x0cb43827; 0x0ba0006f; 0x01b13827; 0x00000000;
    0x0cc43827; 0x09c0006f; 0x01c13827; 0x00000000; 0x0cd43827; 0x0bc0006f; 0x01d13827; 0x00000000;
    0x0ce43827; 0x09e0006f; 0x01e13827; 0x00000000; 0x0cf43827; 0x0be0006f; 0x01f13827; 0x00000000;
    0x0084b827; 0x0500006f; 0x04013827; 0x00000000; 0x0094b827; 0x0700006f; 0x04113827; 0x00000000;
    0x00a4b827; 0x0520006f; 0x04213827; 0x00000000; 0x00b4b827; 0x0720006f; 0x04313827; 0x00000000;
    0x00c4b827; 0x0540006f; 0x04413827; 0x00000000; 0x00d4b827; 0x0740006f; 0x04513827; 0x00000000;
    0x00e4b827; 0x0560006f; 0x04613827; 0x00000000; 0x00f4b827; 0x0760006f; 0x04713827; 0x00000000;
    0x0484b827; 0x0580006f; 0x04813827; 0x00000000; 0x0494b827; 0x0780006f; 0x04913827; 0x00000000;
    0x04a4b827; 0x05a0006f; 0x04a13827; 0x00000000; 0x04b4b827; 0x07a0006f; 0x04b13827; 0x00000000;
    0x04c4b827; 0x05c0006f; 0x04c13827; 0x00000000; 0x04d4b827; 0x07c0006f; 0x04d13827; 0x00000000;
    0x04e4b827; 0x05e0006f; 0x04e13827; 0x00000000; 0x04f4b827; 0x07e0006f; 0x04f13827; 0x00000000;
    0x0884b827; 0x0d00006f; 0x05013827; 0x00000000; 0x0894b827; 0x0f00006f; 0x05113827; 0x00000000;
    0x08a4b827; 0x0d20006f; 0x05213827; 0x00000000; 0x08b4b827; 0x0f20006f; 0x05313827; 0x00000000;
    0x08c4b827; 0x0d40006f; 0x05413827; 0x00000000; 0x08d4b827; 0x0f40006f; 0x05513827; 0x00000000;
    0x08e4b827; 0x0d60006f; 0x05613827; 0x00000000; 0x08f4b827; 0x0f60006f; 0x05713827; 0x00000000;
    0x0c84b827; 0x0d80006f; 0x05813827; 0x00000000; 0x0c94b827; 0x0f80006f; 0x05913827; 0x00000000;
    0x0ca4b827; 0x0da0006f; 0x05a13827; 0x00000000; 0x0cb4b827; 0x0fa0006f; 0x05b13827; 0x00000000;
    0x0cc4b827; 0x0dc0006f; 0x05c13827; 0x00000000; 0x0cd4b827; 0x0fc0006f; 0x05d13827; 0x00000000;
    0x0ce4b827; 0x0de0006f; 0x05e13827; 0x00000000; 0x0cf4b827; 0x0fe0006f; 0x05f13827; 0x00000000;
    0x00853827; 0x4100006f; 0x08013827; 0x00000000; 0x00953827; 0x4300006f; 0x08113827; 0x00000000;
    0x00a53827; 0x4120006f; 0x08213827; 0x00000000; 0x00b53827; 0x4320006f; 0x08313827; 0x00000000;
    0x00c53827; 0x4140006f; 0x08413827; 0x00000000; 0x00d53827; 0x4340006f; 0x08513827; 0x00000000;
    0x00e53827; 0x4160006f; 0x08613827; 0x00000000; 0x00f53827; 0x4360006f; 0x08713827; 0x00000000;
    0x04853827; 0x4180006f; 0x08813827; 0x00000000; 0x04953827; 0x4380006f; 0x08913827; 0x00000000;
    0x04a53827; 0x41a0006f; 0x08a13827; 0x00000000; 0x04b53827; 0x43a0006f; 0x08b13827; 0x00000000;
    0x04c53827; 0x41c0006f; 0x08c13827; 0x00000000; 0x04d53827; 0x43c0006f; 0x08d13827; 0x00000000;
    0x04e53827; 0x41e0006f; 0x08e13827; 0x00000000; 0x04f53827; 0x43e0006f; 0x08f13827; 0x00000000;
    0x08853827; 0x4900006f; 0x09013827; 0x00000000; 0x08953827; 0x4b00006f; 0x09113827; 0x00000000;
    0x08a53827; 0x4920006f; 0x09213827; 0x00000000; 0x08b53827; 0x4b20006f; 0x09313827; 0x00000000;
    0x08c53827; 0x4940006f; 0x09413827; 0x00000000; 0x08d53827; 0x4b40006f; 0x09513827; 0x00000000;
    0x08e53827; 0x4960006f; 0x09613827; 0x00000000; 0x08f53827; 0x4b60006f; 0x09713827; 0x00000000;
    0x0c853827; 0x4980006f; 0x09813827; 0x00000000; 0x0c953827; 0x4b80006f; 0x09913827; 0x00000000;
    0x0ca53827; 0x49a0006f; 0x09a13827; 0x00000000; 0x0cb53827; 0x4ba0006f; 0x09b13827; 0x00000000;
    0x0cc53827; 0x49c0006f; 0x09c13827; 0x00000000; 0x0cd53827; 0x4bc0006f; 0x09d13827; 0x00000000;
    0x0ce53827; 0x49e0006f; 0x09e13827; 0x00000000; 0x0cf53827; 0x4be0006f; 0x09f13827; 0x00000000;
    0x0085b827; 0x4500006f; 0x0c013827; 0x00000000; 0x0095b827; 0x4700006f; 0x0c113827; 0x00000000;
    0x00a5b827; 0x4520006f; 0x0c213827; 0x00000000; 0x00b5b827; 0x4720006f; 0x0c313827; 0x00000000;
    0x00c5b827; 0x4540006f; 0x0c413827; 0x00000000; 0x00d5b827; 0x4740006f; 0x0c513827; 0x00000000;
    0x00e5b827; 0x4560006f; 0x0c613827; 0x00000000; 0x00f5b827; 0x4760006f; 0x0c713827; 0x00000000;
    0x0485b827; 0x4580006f; 0x0c813827; 0x00000000; 0x0495b827; 0x4780006f; 0x0c913827; 0x00000000;
    0x04a5b827; 0x45a0006f; 0x0ca13827; 0x00000000; 0x04b5b827; 0x47a0006f; 0x0cb13827; 0x00000000;
    0x04c5b827; 0x45c0006f; 0x0cc13827; 0x00000000; 0x04d5b827; 0x47c0006f; 0x0cd13827; 0x00000000;
    0x04e5b827; 0x45e0006f; 0x0ce13827; 0x00000000; 0x04f5b827; 0x47e0006f; 0x0cf13827; 0x00000000;
    0x0885b827; 0x4d00006f; 0x0d013827; 0x00000000; 0x0895b827; 0x4f00006f; 0x0d113827; 0x00000000;
    0x08a5b827; 0x4d20006f; 0x0d213827; 0x00000000; 0x08b5b827; 0x4f20006f; 0x0d313827; 0x00000000;
    0x08c5b827; 0x4d40006f; 0x0d413827; 0x00000000; 0x08d5b827; 0x4f40006f; 0x0d513827; 0x00000000;
    0x08e5b827; 0x4d60006f; 0x0d613827; 0x00000000; 0x08f5b827; 0x4f60006f; 0x0d713827; 0x00000000;
    0x0c85b827; 0x4d80006f; 0x0d813827; 0x00000000; 0x0c95b827; 0x4f80006f; 0x0d913827; 0x00000000;
    0x0ca5b827; 0x4da0006f; 0x0da13827; 0x00000000; 0x0cb5b827; 0x4fa0006f; 0x0db13827; 0x00000000;
    0x0cc5b827; 0x4dc0006f; 0x0dc13827; 0x00000000; 0x0cd5b827; 0x4fc0006f; 0x0dd13827; 0x00000000;
    0x0ce5b827; 0x4de0006f; 0x0de13827; 0x00000000; 0x0cf5b827; 0x4fe0006f; 0x0df13827; 0x00000000;
    0x00863827; 0x1100006f; 0x10013827; 0x00000000; 0x00963827; 0x1300006f; 0x10113827; 0x00000000;
    0x00a63827; 0x1120006f; 0x10213827; 0x00000000; 0x00b63827; 0x1320006f; 0x10313827; 0x00000000;
    0x00c63827; 0x1140006f; 0x10413827; 0x00000000; 0x00d63827; 0x1340006f; 0x10513827; 0x00000000;
    0x00e63827; 0x1160006f; 0x10613827; 0x00000000; 0x00f63827; 0x1360006f; 0x10713827; 0x00000000;
    0x04863827; 0x1180006f; 0x10813827; 0x00000000; 0x04963827; 0x1380006f; 0x10913827; 0x00000000;
    0x04a63827; 0x11a0006f; 0x10a13827; 0x00000000; 0x04b63827; 0x13a0006f; 0x10b13827; 0x00000000;
    0x04c63827; 0x11c0006f; 0x10c13827; 0x00000000; 0x04d63827; 0x13c0006f; 0x10d13827; 0x00000000;
    0x04e63827; 0x11e0006f; 0x10e13827; 0x00000000; 0x04f63827; 0x13e0006f; 0x10f13827; 0x00000000;
    0x08863827; 0x1900006f; 0x11013827; 0x00000000; 0x08963827; 0x1b00006f; 0x11113827; 0x00000000;
    0x08a63827; 0x1920006f; 0x11213827; 0x00000000; 0x08b63827; 0x1b20006f; 0x11313827; 0x00000000;
    0x08c63827; 0x1940006f; 0x11413827; 0x00000000; 0x08d63827; 0x1b40006f; 0x11513827; 0x00000000;
    0x08e63827; 0x1960006f; 0x11613827; 0x00000000; 0x08f63827; 0x1b60006f; 0x11713827; 0x00000000;
    0x0c863827; 0x1980006f; 0x11813827; 0x00000000; 0x0c963827; 0x1b80006f; 0x11913827; 0x00000000;
    0x0ca63827; 0x19a0006f; 0x11a13827; 0x00000000; 0x0cb63827; 0x1ba0006f; 0x11b13827; 0x00000000;
    0x0cc63827; 0x19c0006f; 0x11c13827; 0x00000000; 0x0cd63827; 0x1bc0006f; 0x11d13827; 0x00000000;
    0x0ce63827; 0x19e0006f; 0x11e13827; 0x00000000; 0x0cf63827; 0x1be0006f; 0x11f13827; 0x00000000;
    0x0086b827; 0x1500006f; 0x14013827; 0x00000000; 0x0096b827; 0x1700006f; 0x14113827; 0x00000000;
    0x00a6b827; 0x1520006f; 0x14213827; 0x00000000; 0x00b6b827; 0x1720006f; 0x14313827; 0x00000000;
    0x00c6b827; 0x1540006f; 0x14413827; 0x00000000; 0x00d6b827; 0x1740006f; 0x14513827; 0x00000000;
    0x00e6b827; 0x1560006f; 0x14613827; 0x00000000; 0x00f6b827; 0x1760006f; 0x14713827; 0x00000000;
    0x0486b827; 0x1580006f; 0x14813827; 0x00000000; 0x0496b827; 0x1780006f; 0x14913827; 0x00000000;
    0x04a6b827; 0x15a0006f; 0x14a13827; 0x00000000; 0x04b6b827; 0x17a0006f; 0x14b13827; 0x00000000;
    0x04c6b827; 0x15c0006f; 0x14c13827; 0x00000000; 0x04d6b827; 0x17c0006f; 0x14d13827; 0x00000000;
    0x04e6b827; 0x15e0006f; 0x14e13827; 0x00000000; 0x04f6b827; 0x17e0006f; 0x14f13827; 0x00000000;
    0x0886b827; 0x1d00006f; 0x15013827; 0x00000000; 0x0896b827; 0x1f00006f; 0x15113827; 0x00000000;
    0x08a6b827; 0x1d20006f; 0x15213827; 0x00000000; 0x08b6b827; 0x1f20006f; 0x15313827; 0x00000000;
    0x08c6b827; 0x1d40006f; 0x15413827; 0x00000000; 0x08d6b827; 0x1f40006f; 0x15513827; 0x00000000;
    0x08e6b827; 0x1d60006f; 0x15613827; 0x00000000; 0x08f6b827; 0x1f60006f; 0x15713827; 0x00000000;
    0x0c86b827; 0x1d80006f; 0x15813827; 0x00000000; 0x0c96b827; 0x1f80006f; 0x15913827; 0x00000000;
    0x0ca6b827; 0x1da0006f; 0x15a13827; 0x00000000; 0x0cb6b827; 0x1fa0006f; 0x15b13827; 0x00000000;
    0x0cc6b827; 0x1dc0006f; 0x15c13827; 0x00000000; 0x0cd6b827; 0x1fc0006f; 0x15d13827; 0x00000000;
    0x0ce6b827; 0x1de0006f; 0x15e13827; 0x00000000; 0x0cf6b827; 0x1fe0006f; 0x15f13827; 0x00000000;
    0x00873827; 0x5100006f; 0x18013827; 0x00000000; 0x00973827; 0x5300006f; 0x18113827; 0x00000000;
    0x00a73827; 0x5120006f; 0x18213827; 0x00000000; 0x00b73827; 0x5320006f; 0x18313827; 0x00000000;
    0x00c73827; 0x5140006f; 0x18413827; 0x00000000; 0x00d73827; 0x5340006f; 0x18513827; 0x00000000;
    0x00e73827; 0x5160006f; 0x18613827; 0x00000000; 0x00f73827; 0x5360006f; 0x18713827; 0x00000000;
    0x04873827; 0x5180006f; 0x18813827; 0x00000000; 0x04973827; 0x5380006f; 0x18913827; 0x00000000;
    0x04a73827; 0x51a0006f; 0x18a13827; 0x00000000; 0x04b73827; 0x53a0006f; 0x18b13827; 0x00000000;
    0x04c73827; 0x51c0006f; 0x18c13827; 0x00000000; 0x04d73827; 0x53c0006f; 0x18d13827; 0x00000000;
    0x04e73827; 0x51e0006f; 0x18e13827; 0x00000000; 0x04f73827; 0x53e0006f; 0x18f13827; 0x00000000;
    0x08873827; 0x5900006f; 0x19013827; 0x00000000; 0x08973827; 0x5b00006f; 0x19113827; 0x00000000;
    0x08a73827; 0x5920006f; 0x19213827; 0x00000000; 0x08b73827; 0x5b20006f; 0x19313827; 0x00000000;
    0x08c73827; 0x5940006f; 0x19413827; 0x00000000; 0x08d73827; 0x5b40006f; 0x19513827; 0x00000000;
    0x08e73827; 0x5960006f; 0x19613827; 0x00000000; 0x08f73827; 0x5b60006f; 0x19713827; 0x00000000;
    0x0c873827; 0x5980006f; 0x19813827; 0x00000000; 0x0c973827; 0x5b80006f; 0x19913827; 0x00000000;
    0x0ca73827; 0x59a0006f; 0x19a13827; 0x00000000; 0x0cb73827; 0x5ba0006f; 0x19b13827; 0x00000000;
    0x0cc73827; 0x59c0006f; 0x19c13827; 0x00000000; 0x0cd73827; 0x5bc0006f; 0x19d13827; 0x00000000;
    0x0ce73827; 0x59e0006f; 0x19e13827; 0x00000000; 0x0cf73827; 0x5be0006f; 0x19f13827; 0x00000000;
    0x0087b827; 0x5500006f; 0x1c013827; 0x00000000; 0x0097b827; 0x5700006f; 0x1c113827; 0x00000000;
    0x00a7b827; 0x5520006f; 0x1c213827; 0x00000000; 0x00b7b827; 0x5720006f; 0x1c313827; 0x00000000;
    0x00c7b827; 0x5540006f; 0x1c413827; 0x00000000; 0x00d7b827; 0x5740006f; 0x1c513827; 0x00000000;
    0x00e7b827; 0x5560006f; 0x1c613827; 0x00000000; 0x00f7b827; 0x5760006f; 0x1c713827; 0x00000000;
    0x0487b827; 0x5580006f; 0x1c813827; 0x00000000; 0x0497b827; 0x5780006f; 0x1c913827; 0x00000000;
    0x04a7b827; 0x55a0006f; 0x1ca13827; 0x00000000; 0x04b7b827; 0x57a0006f; 0x1cb13827; 0x00000000;
    0x04c7b827; 0x55c0006f; 0x1cc13827; 0x00000000; 0x04d7b827; 0x57c0006f; 0x1cd13827; 0x00000000;
    0x04e7b827; 0x55e0006f; 0x1ce13827; 0x00000000; 0x04f7b827; 0x57e0006f; 0x1cf13827; 0x00000000;
    0x0887b827; 0x5d00006f; 0x1d013827; 0x00000000; 0x0897b827; 0x5f00006f; 0x1d113827; 0x00000000;
    0x08a7b827; 0x5d20006f; 0x1d213827; 0x00000000; 0x08b7b827; 0x5f20006f; 0x1d313827; 0x00000000;
    0x08c7b827; 0x5d40006f; 0x1d413827; 0x00000000; 0x08d7b827; 0x5f40006f; 0x1d513827; 0x00000000;
    0x08e7b827; 0x5d60006f; 0x1d613827; 0x00000000; 0x08f7b827; 0x5f60006f; 0x1d713827; 0x00000000;
    0x0c87b827; 0x5d80006f; 0x1d813827; 0x00000000; 0x0c97b827; 0x5f80006f; 0x1d913827; 0x00000000;
    0x0ca7b827; 0x5da0006f; 0x1da13827; 0x00000000; 0x0cb7b827; 0x5fa0006f; 0x1db13827; 0x00000000;
    0x0cc7b827; 0x5dc0006f; 0x1dc13827; 0x00000000; 0x0cd7b827; 0x5fc0006f; 0x1dd13827; 0x00000000;
    0x0ce7b827; 0x5de0006f; 0x1de13827; 0x00000000; 0x0cf7b827; 0x5fe0006f; 0x1df13827; 0x00000000
].

(** parcels 0xac00 to 0xafff *)
Definition RVC64_EXPANDED_43 : list Z := [
    0x00843c27; 0x2100006f; 0x00013c27; 0x00000000; 0x00943c27; 0x2300006f; 0x00113c27; 0x00000000;
    0x00a43c27; 0x2120006f; 0x00213c27; 0x00000000; 0x00b43c27; 0x2320006f; 0x00313c27; 0x00000000;
    0x00c43c27; 0x2140006f; 0x00413c27; 0x00000000; 0x00d43c27; 0x2340006f; 0x00513c27; 0x00000000;
    0x00e43c27; 0x2160006f; 0x00613c27; 0x00000000; 0x00f43c27; 0x2360006f; 0x00713c27; 0x00000000;
    0x04843c27; 0x2180006f; 0x00813c27; 0x00000000; 0x04943c27; 0x2380006f; 0x00913c27; 0x00000000;
    0x04a43c27; 0x21a0006f; 0x00a13c27; 0x00000000; 0x04b43c27; 0x23a0006f; 0x00b13c27; 0x00000000;
    0x04c43c27; 0x21c0006f; 0x00c13c27; 0x00000000; 0x04d43c27; 0x23c0006f; 0x00d13c27; 0x00000000;
    0x04e43c27; 0x21e0006f; 0x00e13c27; 0x00000000; 0x04f43c27; 0x23e0006f; 0x00f13c27; 0x00000000;
    0x08843c27; 0x2900006f; 0x01013c27; 0x00000000; 0x08943c27; 0x2b00006f; 0x01113c27; 0x00000000;
    0x08a43c27; 0x2920006f; 0x01213c27; 0x00000000; 0x08b43c27; 0x2b20006f; 0x01313c27; 0x00000000;
    0x08c43c27; 0x2940006f; 0x01413c27; 0x00000000; 0x08d43c27; 0x2b40006f; 0x01513c27; 0x00000000;
    0x08e43c27; 0x2960006f; 0x01613c27; 0x00000000; 0x08f43c27; 0x2b60006f; 0x01713c27; 0x00000000;
    0x0c843c27; 0x2980006f; 0x01813c27; 0x00000000; 0x0c943c27; 0x2b80006f; 0x01913c27; 0x00000000;
    0x0ca43c27; 0x29a0006f; 0x01a13c27; 0x00000000; 0x0cb43c27; 0x2ba0006f; 0x01b13c27; 0x00000000;
    0x0cc43c27; 0x29c0006f; 0x01c13c27; 0x00000000; 0x0cd43c27; 0x2bc0006f; 0x01d13c27; 0x00000000;
    0x0ce43c27; 0x29e0006f; 0x01e13c27; 0x00000000; 0x0cf43c27; 0x2be0006f; 0x01f13c27; 0x00000000;
    0x0084bc27; 0x2500006f; 0x04013c27; 0x00000000; 0x0094bc27; 0x2700006f; 0x04113c27; 0x00000000;
    0x00a4bc27; 0x2520006f; 0x04213c27; 0x00000000; 0x00b4bc27; 0x2720006f; 0x04313c27; 0x00000000;
    0x00c4bc27; 0x2540006f; 0x04413c27; 0x00000000; 0x00d4bc27; 0x2740006f; 0x04513c27; 0x00000000;
    0x00e4bc27; 0x2560006f; 0x04613c27; 0x00000000; 0x00f4bc27; 0x2760006f; 0x04713c27; 0x00000000;
    0x0484bc27; 0x2580006f; 0x04813c27; 0x00000000; 0x0494bc27; 0x2780006f; 0x04913c27; 0x00000000;
    0x04a4bc27; 0x25a0006f; 0x04a13c27; 0x00000000; 0x04b4bc27; 0x27a0006f; 0x04b13c27; 0x00000000;
    0x04c4bc27; 0x25c0006f; 0x04c13c27; 0x00000000; 0x04d4bc27; 0x27c0006f; 0x04d13c27; 0x00000000;
    0x04e4bc27; 0x25e0006f; 0x04e13c27; 0x00000000; 0x04f4bc27; 0x27e0006f; 0x04f13c27; 0x00000000;
    0x0884bc27; 0x2d00006f; 0x05013c27; 0x00000000; 0x0894bc27; 0x2f00006f; 0x05113c27; 0x00000000;
    0x08a4bc27; 0x2d20006f; 0x05213c27; 0x00000000; 0x08b4bc27; 0x2f20006f; 0x05313c27; 0x00000000;
    0x08c4bc27; 0x2d40006f; 0x05413c27; 0x00000000; 0x08d4bc27; 0x2f40006f; 0x05513c27; 0x00000000;
    0x08e4bc27; 0x2d60006f; 0x05613c27; 0x00000000; 0x08f4bc27; 0x2f60006f; 0x05713c27; 0x00000000;
    0x0c84bc27; 0x2d80006f; 0x05813c27; 0x00000000; 0x0c94bc27; 0x2f80006f; 0x05913c27; 0x00000000;
    0x0ca4bc27; 0x2da0006f; 0x05a13c27; 0x00000000; 0x0cb4bc27; 0x2fa0006f; 0x05b13c27; 0x00000000;
    0x0cc4bc27; 0x2dc0006f; 0x05c13c27; 0x00000000; 0x0cd4bc27; 0x2fc0006f; 0x05d13c27; 0x00000000;
    0x0ce4bc27; 0x2de0006f; 0x05e13c27; 0x00000000; 0x0cf4bc27; 0x2fe0006f; 0x05f13c27; 0x00000000;
    0x00853c27; 0x6100006f; 0x08013c27; 0x00000000; 0x00953c27; 0x6300006f; 0x08113c27; 0x00000000;
    0x00a53c27; 0x6120006f; 0x08213c27; 0x00000000; 0x00b53c27; 0x6320006f; 0x08313c27; 0x00000000;
    0x00c53c27; 0x6140006f; 0x08413c27; 0x00000000; 0x00d53c27; 0x6340006f; 0x08513c27; 0x00000000;
    0x00e53c27; 0x6160006f; 0x08613c27; 0x00000000; 0x00f53c27; 0x6360006f; 0x08713c27; 0x00000000;
    0x04853c27; 0x6180006f; 0x08813c27; 0x00000000; 0x04953c27; 0x6380006f; 0x08913c27; 0x00000000;
    0x04a53c27; 0x61a0006f; 0x08a13c27; 0x00000000; 0x04b53c27; 0x63a0006f; 0x08b13c27; 0x00000000;
    0x04c53c27; 0x61c0006f; 0x08c13c27; 0x00000000; 0x04d53c27; 0x63c0006f; 0x08d13c27; 0x00000000;
    0x04e53c27; 0x61e0006f; 0x08e13c27; 0x00000000; 0x04f53c27; 0x63e0006f; 0x08f13c27; 0x00000000;
    0x08853c27; 0x6900006f; 0x09013c27; 0x00000000; 0x08953c27; 0x6b00006f; 0x09113c27; 0x00000000;
    0x08a53c27; 0x6920006f; 0x09213c27; 0x00000000; 0x08b53c27; 0x6b20006f; 0x09313c27; 0x00000000;
    0x08c53c27; 0x6940006f; 0x09413c27; 0x00000000; 0x08d53c27; 0x6b40006f; 0x09513c27; 0x00000000;
    0x08e53c27; 0x6960006f; 0x09613c27; 0x00000000; 0x08f53c27; 0x6b60006f; 0x09713c27; 0x00000000;
    0x0c853c27; 0x6980006f; 0x09813c27; 0x00000000; 0x0c953c27; 0x6b80006f; 0x09913c27; 0x00000000;
    0x0ca53c27; 0x69a0006f; 0x09a13c27; 0x00000000; 0x0cb53c27; 0x6ba0006f; 0x09b13c27; 0x00000000;
    0x0cc53c27; 0x69c0006f; 0x09c13c27; 0x00000000; 0x0cd53c27; 0x6bc0006f; 0x09d13c27; 0x00000000;
    0x0ce53c27; 0x69e0006f; 0x09e13c27; 0x00000000; 0x0cf53c27; 0x6be0006f; 0x09f13c27; 0x00000000;
    0x0085bc27; 0x6500006f; 0x0c013c27; 0x00000000; 0x0095bc27; 0x6700006f; 0x0c113c27; 0x00000000;
    0x00a5bc27; 0x6520006f; 0x0c213c27; 0x00000000; 0x00b5bc27; 0x6720006f; 0x0c313c27; 0x00000000;
    0x00c5bc27; 0x6540006f; 0x0c413c27; 0x00000000; 0x00d5bc27; 0x6740006f; 0x0c513c27; 0x00000000;
    0x00e5bc27; 0x6560006f; 0x0c613c27; 0x00000000; 0x00f5bc27; 0x6760006f; 0x0c713c27; 0x00000000;
    0x0485bc27; 0x6580006f; 0x0c813c27; 0x00000000; 0x0495bc27; 0x6780006f; 0x0c913c27; 0x00000000;
    0x04a5bc27; 0x65a0006f; 0x0ca13c27; 0x00000000; 0x04b5bc27; 0x67a0006f; 0x0cb13c27; 0x00000000;
    0x04c5bc27; 0x65c0006f; 0x0cc13c27; 0x00000000; 0x04d5bc27; 0x67c0006f; 0x0cd13c27; 0x00000000;
    0x04e5bc27; 0x65e0006f; 0x0ce13c27; 0x00000000; 0x04f5bc27; 0x67e0006f; 0x0cf13c27; 0x00000000;
    0x0885bc27; 0x6d00006f; 0x0d013c27; 0x00000000; 0x0895bc27; 0x6f00006f; 0x0d113c27; 0x00000000;
    0x08a5bc27; 0x6d20006f; 0x0d213c27; 0x00000000; 0x08b5bc27; 0x6f20006f; 0x0d313c27; 0x00000000;
    0x08c5bc27; 0x6d40006f; 0x0d413c27; 0x00000000; 0x08d5bc27; 0x6f40006f; 0x0d513c27; 0x00000000;
    0x08e5bc27; 0x6d60006f; 0x0d613c27; 0x00000000; 0x08f5bc27; 0x6f60006f; 0x0d713c27; 0x00000000;
    0x0c85bc27; 0x6d80006f; 0x0d813c27; 0x00000000; 0x0c95bc27; 0x6f80006f; 0x0d913c27; 0x00000000;
    0x0ca5bc27; 0x6da0006f; 0x0da13c27; 0x00000000; 0x0cb5bc27; 0x6fa0006f; 0x0db13c27; 0x00000000;
    0x0cc5bc27; 0x6dc0006f; 0x0dc13c27; 0x00000000; 0x0cd5bc27; 0x6fc0006f; 0x0dd13c27; 0x00000000;
    0x0ce5bc27; 0x6de0006f; 0x0de13c27; 0x00000000; 0x0cf5bc27; 0x6fe0006f; 0x0df13c27; 0x00000000;
    0x00863c27; 0x3100006f; 0x10013c27; 0x00000000; 0x00963c27; 0x3300006f; 0x10113c27; 0x00000000;
    0x00a63c27; 0x3120006f; 0x10213c27; 0x00000000; 0x00b63c27; 0x3320006f; 0x10313c27; 0x00000000;
    0x00c63c27; 0x3140006f; 0x10413c27; 0x00000000; 0x00d63c27; 0x3340006f; 0x10513c27; 0x00000000;
    0x00e63c27; 0x3160006f; 0x10613c27; 0x00000000; 0x00f63c27; 0x3360006f; 0x10713c27; 0x00000000;
    0x04863c27; 0x3180006f; 0x10813c27; 0x00000000; 0x04963c27; 0x3380006f; 0x10913c27; 0x00000000;
    0x04a63c27; 0x31a0006f; 0x10a13c27; 0x00000000; 0x04b63c27; 0x33a0006f; 0x10b13c27; 0x00000000;
    0x04c63c27; 0x31c0006f; 0x10c13c27; 0x00000000; 0x04d63c27; 0x33c0006f; 0x10d13c27; 0x00000000;
    0x04e63c27; 0x31e0006f; 0x10e13c27; 0x00000000; 0x04f63c27; 0x33e0006f; 0x10f13c27; 0x00000000;
    0x08863c27; 0x3900006f; 0x11013c27; 0x00000000; 0x08963c27; 0x3b00006f; 0x11113c27; 0x00000000;
    0x08a63c27; 0x3920006f; 0x11213c27; 0x00000000; 0x08b63c27; 0x3b20006f; 0x11313c27; 0x00000000;
    0x08c63c27; 0x3940006f; 0x11413c27; 0x00000000; 0x08d63c27; 0x3b40006f; 0x11513c27; 0x00000000;
    0x08e63c27; 0x3960006f; 0x11613c27; 0x00000000; 0x08f63c27; 0x3b60006f; 0x11713c27; 0x00000000;
    0x0c863c27; 0x3980006f; 0x11813c27; 0x00000000; 0x0c963c27; 0x3b80006f; 0x11913c27; 0x00000000;
    0x0ca63c27; 0x39a0006f; 0x11a13c27; 0x00000000; 0x0cb63c27; 0x3ba0006f; 0x11b13c27; 0x00000000;
    0x0cc63c27; 0x39c0006f; 0x11c13c27; 0x00000000; 0x0cd63c27; 0x3bc0006f; 0x11d13c27; 0x00000000;
    0x0ce63c27; 0x39e0006f; 0x11e13c27; 0x00000000; 0x0cf63c27; 0x3be0006f; 0x11f13c27; 0x00000000;
    0x0086bc27; 0x3500006f; 0x14013c27; 0x00000000; 0x0096bc27; 0x3700006f; 0x14113c27; 0x00000000;
    0x00a6bc27; 0x3520006f; 0x14213c27; 0x00000000; 0x00b6bc27; 0x3720006f; 0x14313c27; 0x00000000;
    0x00c6bc27; 0x3540006f; 0x14413c27; 0x00000000; 0x00d6bc27; 0x3740006f; 0x14513c27; 0x00000000;
    0x00e6bc27; 0x3560006f; 0x14613c27; 0x00000000; 0x00f6bc27; 0x3760006f; 0x14713c27; 0x00000000;
    0x0486bc27; 0x3580006f; 0x14813c27; 0x00000000; 0x0496bc27; 0x3780006f; 0x14913c27; 0x00000000;
    0x04a6bc27; 0x35a0006f; 0x14a13c27; 0x00000000; 0x04b6bc27; 0x37a0006f; 0x14b13c27; 0x00000000;
    0x04c6bc27; 0x35c0006f; 0x14c13c27; 0x00000000; 0x04d6bc27; 0x37c0006f; 0x14d13c27; 0x00000000;
    0x04e6bc27; 0x35e0006f; 0x14e13c27; 0x00000000; 0x04f6bc27; 0x37e0006f; 0x14f13c27; 0x00000000;
    0x0886bc27; 0x3d00006f; 0x15013c27; 0x00000000; 0x0896bc27; 0x3f00006f; 0x15113c27; 0x00000000;
    0x08a6bc27; 0x3d20006f; 0x15213c27; 0x00000000; 0x08b6bc27; 0x3f20006f; 0x15313c27; 0x00000000;
    0x08c6bc27; 0x3d40006f; 0x15413c27; 0x00000000; 0x08d6bc27; 0x3f40006f; 0x15513c27; 0x00000000;
    0x08e6bc27; 0x3d60006f; 0x15613c27; 0x00000000; 0x08f6bc27; 0x3f60006f; 0x15713c27; 0x00000000;
    0x0c86bc27; 0x3d80006f; 0x15813c27; 0x00000000; 0x0c96bc27; 0x3f80006f; 0x15913c27; 0x00000000;
    0x0ca6bc27; 0x3da0006f; 0x15a13c27; 0x00000000; 0x0cb6bc27; 0x3fa0006f; 0x15b13c27; 0x00000000;
    0x0cc6bc27; 0x3dc0006f; 0x15c13c27; 0x00000000; 0x0cd6bc27; 0x3fc0006f; 0x15d13c27; 0x00000000;
    0x0ce6bc27; 0x3de0006f; 0x15e13c27; 0x00000000; 0x0cf6bc27; 0x3fe0006f; 0x15f13c27; 0x00000000;
    0x00873c27; 0x7100006f; 0x18013c27; 0x00000000; 0x00973c27; 0x7300006f; 0x18113c27; 0x00000000;
    0x00a73c27; 0x7120006f; 0x18213c27; 0x00000000; 0x00b73c27; 0x7320006f; 0x18313c27; 0x00000000;
    0x00c73c27; 0x7140006f; 0x18413c27; 0x00000000; 0x00d73c27; 0x7340006f; 0x18513c27; 0x00000000;
    0x00e73c27; 0x7160006f; 0x18613c27; 0x00000000; 0x00f73c27; 0x7360006f; 0x18713c27; 0x00000000;
    0x04873c27; 0x7180006f; 0x18813c27; 0x00000000; 0x04973c27; 0x7380006f; 0x18913c27; 0x00000000;
    0x04a73c27; 0x71a0006f; 0x18a13c27; 0x00000000; 0x04b73c27; 0x73a0006f; 0x18b13c27; 0x00000000;
    0x04c73c27; 0x71c0006f; 0x18c13c27; 0x00000000; 0x04d73c27; 0x73c0006f; 0x18d13c27; 0x00000000;
    0x04e73c27; 0x71e0006f; 0x18e13c27; 0x00000000; 0x04f73c27; 0x73e0006f; 0x18f13c27; 0x00000000;
    0x08873c27; 0x7900006f; 0x19013c27; 0x00000000; 0x08973c27; 0x7b00006f; 0x19113c27; 0x00000000;
    0x08a73c27; 0x7920006f; 0x19213c27; 0x00000000; 0x08b73c27; 0x7b20006f; 0x19313c27; 0x00000000;
    0x08c73c27; 0x7940006f; 0x19413c27; 0x00000000; 0x08d73c27; 0x7b40006f; 0x19513c27; 0x00000000;
    0x08e73c27; 0x7960006f; 0x19613c27; 0x00000000; 0x08f73c27; 0x7b60006f; 0x19713c27; 0x00000000;
    0x0c873c27; 0x7980006f; 0x19813c27; 0x00000000; 0x0c973c27; 0x7b80006f; 0x19913c27; 0x00000000;
    0x0ca73c27; 0x79a0006f; 0x19a13c27; 0x00000000; 0x0cb73c27; 0x7ba0006f; 0x19b13c27; 0x00000000;
    0x0cc73c27; 0x79c0006f; 0x19c13c27; 0x00000000; 0x0cd73c27; 0x7bc0006f; 0x19d13c27; 0x00000000;
    0x0ce73c27; 0x79e0006f; 0x19e13c27; 0x00000000; 0x0cf73c27; 0x7be0006f; 0x19f13c27; 0x00000000;
    0x0087bc27; 0x7500006f; 0x1c013c27; 0x00000000; 0x0097bc27; 0x7700006f; 0x1c113c27; 0x00000000;
    0x00a7bc27; 0x7520006f; 0x1c213c27; 0x00000000; 0x00b7bc27; 0x7720006f; 0x1c313c27; 0x00000000;
    0x00c7bc27; 0x7540006f; 0x1c413c27; 0x00000000; 0x00d7bc27; 0x7740006f; 0x1c513c27; 0x00000000;
    0x00e7bc27; 0x7560006f; 0x1c613c27; 0x00000000; 0x00f7bc27; 0x7760006f; 0x1c713c27; 0x00000000;
    0x0487bc27; 0x7580006f; 0x1c813c27; 0x00000000; 0x0497bc27; 0x7780006f; 0x1c913c27; 0x00000000;
    0x04a7bc27; 0x75a0006f; 0x1ca13c27; 0x00000000; 0x04b7bc27; 0x77a0006f; 0x1cb13c27; 0x00000000;
    0x04c7bc27; 0x75c0006f; 0x1cc13c27; 0x00000000; 0x04d7bc27; 0x77c0006f; 0x1cd13c27; 0x00000000;
    0x04e7bc27; 0x75e0006f; 0x1ce13c27; 0x00000000; 0x04f7bc27; 0x77e0006f; 0x1cf13c27; 0x00000000;
    0x0887bc27; 0x7d00006f; 0x1d013c27; 0x00000000; 0x0897bc27; 0x7f00006f; 0x1d113c27; 0x00000000;
    0x08a7bc27; 0x7d20006f; 0x1d213c27; 0x00000000; 0x08b7bc27; 0x7f20006f; 0x1d313c27; 0x00000000;
    0x08c7bc27; 0x7d40006f; 0x1d413c27; 0x00000000; 0x08d7bc27; 0x7f40006f; 0x1d513c27; 0x00000000;
    0x08e7bc27; 0x7d60006f; 0x1d613c27; 0x00000000; 0x08f7bc27; 0x7f60006f; 0x1d713c27; 0x00000000;
    0x0c87bc27; 0x7d80006f; 0x1d813c27; 0x00000000; 0x0c97bc27; 0x7f80006f; 0x1d913c27; 0x00000000;
    0x0ca7bc27; 0x7da0006f; 0x1da13c27; 0x00000000; 0x0cb7bc27; 0x7fa0006f; 0x1db13c27; 0x00000000;
    0x0cc7bc27; 0x7dc0006f; 0x1dc13c27; 0x00000000; 0x0cd7bc27; 0x7fc0006f; 0x1dd13c27; 0x00000000;
    0x0ce7bc27; 0x7de0006f; 0x1de13c27; 0x00000000; 0x0cf7bc27; 0x7fe0006f; 0x1df13c27; 0x00000000
].

(** parcels 0xb000 to 0xb3ff *)
Definition RVC64_EXPANDED_44 : list Z := [
    0x02843027; 0x801ff06f; 0x02013027; 0x00000000; 0x02943027; 0x821ff06f; 0x02113027; 0x00000000;
    0x02a43027; 0x803ff06f; 0x02213027; 0x00000000; 0x02b43027; 0x823ff06f; 0x02313027; 0x00000000;
    0x02c43027; 0x805ff06f; 0x02413027; 0x00000000; 0x02d43027; 0x825ff06f; 0x02513027; 0x00000000;
    0x02e43027; 0x807ff06f; 0x02613027; 0x00000000; 0x02f43027; 0x827ff06f; 0x02713027; 0x00000000;
    0x06843027; 0x809ff06f; 0x02813027; 0x00000000; 0x06943027; 0x829ff06f; 0x02913027; 0x00000000;
    0x06a43027; 0x80bff06f; 0x02a13027; 0x00000000; 0x06b43027; 0x82bff06f; 0x02b13027; 0x00000000;
    0x06c43027; 0x80dff06f; 0x02c13027; 0x00000000; 0x06d43027; 0x82dff06f; 0x02d13027; 0x00000000;
    0x06e43027; 0x80fff06f; 0x02e13027; 0x00000000; 0x06f43027; 0x82fff06f; 0x02f13027; 0x00000000;
    0x0a843027; 0x881ff06f; 0x03013027; 0x00000000; 0x0a943027; 0x8a1ff06f; 0x03113027; 0x00000000;
    0x0aa43027; 0x883ff06f; 0x03213027; 0x00000000; 0x0ab43027; 0x8a3ff06f; 0x03313027; 0x00000000;
    0x0ac43027; 0x885ff06f; 0x03413027; 0x00000000; 0x0ad43027; 0x8a5ff06f; 0x03513027; 0x00000000;
    0x0ae43027; 0x887ff06f; 0x03613027; 0x00000000; 0x0af43027; 0x8a7ff06f; 0x03713027; 0x00000000;
    0x0e843027; 0x889ff06f; 0x03813027; 0x00000000; 0x0e943027; 0x8a9ff06f; 0x03913027; 0x00000000;
    0x0ea43027; 0x88bff06f; 0x03a13027; 0x00000000; 0x0eb43027; 0x8abff06f; 0x03b13027; 0x00000000;
    0x0ec43027; 0x88dff06f; 0x03c13027; 0x00000000; 0x0ed43027; 0x8adff06f; 0x03d13027; 0x00000000;
    0x0ee43027; 0x88fff06f; 0x03e13027; 0x00000000; 0x0ef43027; 0x8afff06f; 0x03f13027; 0x00000000;
    0x0284b027; 0x841ff06f; 0x06013027; 0x00000000; 0x0294b027; 0x861ff06f; 0x06113027; 0x00000000;
    0x02a4b027; 0x843ff06f; 0x06213027; 0x00000000; 0x02b4b027; 0x863ff06f; 0x06313027; 0x00000000;
    0x02c4b027; 0x845ff06f; 0x06413027; 0x00000000; 0x02d4b027; 0x865ff06f; 0x06513027; 0x00000000;
    0x02e4b027; 0x847ff06f; 0x06613027; 0x00000000; 0x02f4b027; 0x867ff06f; 0x06713027; 0x00000000;
    0x0684b027; 0x849ff06f; 0x06813027; 0x00000000; 0x0694b027; 0x869ff06f; 0x06913027; 0x00000000;
    0x06a4b027; 0x84bff06f; 0x06a13027; 0x00000000; 0x06b4b027; 0x86bff06f; 0x06b13027; 0x00000000;
    0x06c4b027; 0x84dff06f; 0x06c13027; 0x00000000; 0x06d4b027; 0x86dff06f; 0x06d13027; 0x00000000;
    0x06e4b027; 0x84fff06f; 0x06e13027; 0x00000000; 0x06f4b027; 0x86fff06f; 0x06f13027; 0x00000000;
    0x0a84b027; 0x8c1ff06f; 0x07013027; 0x00000000; 0x0a94b027; 0x8e1ff06f; 0x07113027; 0x00000000;
    0x0aa4b027; 0x8c3ff06f; 0x07213027; 0x00000000; 0x0ab4b027; 0x8e3ff06f; 0x07313027; 0x00000000;
    0x0ac4b027; 0x8c5ff06f; 0x07413027; 0x00000000; 0x0ad4b027; 0x8e5ff06f; 0x07513027; 0x00000000;
    0x0ae4b027; 0x8c7ff06f; 0x07613027; 0x00000000; 0x0af4b027; 0x8e7ff06f; 0x07713027; 0x00000000;
    0x0e84b027; 0x8c9ff06f; 0x07813027; 0x00000000; 0x0e94b027; 0x8e9ff06f; 0x07913027; 0x00000000;
    0x0ea4b027; 0x8cbff06f; 0x07a13027; 0x00000000; 0x0eb4b027; 0x8ebff06f; 0x07b13027; 0x00000000;
    0x0ec4b027; 0x8cdff06f; 0x07c13027; 0x00000000; 0x0ed4b027; 0x8edff06f; 0x07d13027; 0x00000000;
    0x0ee4b027; 0x8cfff06f; 0x07e13027; 0x00000000; 0x0ef4b027; 0x8efff06f; 0x07f13027; 0x00000000;
    0x02853027; 0xc01ff06f; 0x0a013027; 0x00000000; 0x02953027; 0xc21ff06f; 0x0a113027; 0x00000000;
    0x02a53027; 0xc03ff06f; 0x0a213027; 0x00000000; 0x02b53027; 0xc23ff06f; 0x0a313027; 0x00000000;
    0x02c53027; 0xc05ff06f; 0x0a413027; 0x00000000; 0x02d53027; 0xc25ff06f; 0x0a513027; 0x00000000;
    0x02e53027; 0xc07ff06f; 0x0a613027; 0x00000000; 0x02f53027; 0xc27ff06f; 0x0a713027; 0x00000000;
    0x06853027; 0xc09ff06f; 0x0a813027; 0x00000000; 0x06953027; 0xc29ff06f; 0x0a913027; 0x00000000;
    0x06a53027; 0xc0bff06f; 0x0aa13027; 0x00000000; 0x06b53027; 0xc2bff06f; 0x0ab13027; 0x00000000;
    0x06c53027; 0xc0dff06f; 0x0ac13027; 0x00000000; 0x06d53027; 0xc2dff06f; 0x0ad13027; 0x00000000;
    0x06e53027; 0xc0fff06f; 0x0ae13027; 0x00000000; 0x06f53027; 0xc2fff06f; 0x0af13027; 0x00000000;
    0x0a853027; 0xc81ff06f; 0x0b013027; 0x00000000; 0x0a953027; 0xca1ff06f; 0x0b113027; 0x00000000;
    0x0aa53027; 0xc83ff06f; 0x0b213027; 0x00000000; 0x0ab53027; 0xca3ff06f; 0x0b313027; 0x00000000;
    0x0ac53027; 0xc85ff06f; 0x0b413027; 0x00000000; 0x0ad53027; 0xca5ff06f; 0x0b513027; 0x00000000;
    0x0ae53027; 0xc87ff06f; 0x0b613027; 0x00000000; 0x0af53027; 0xca7ff06f; 0x0b713027; 0x00000000;
    0x0e853027; 0xc89ff06f; 0x0b813027; 0x00000000; 0x0e953027; 0xca9ff06f; 0x0b913027; 0x00000000;
    0x0ea53027; 0xc8bff06f; 0x0ba13027; 0x00000000; 0x0eb53027; 0xcabff06f; 0x0bb13027; 0x00000000;
    0x0ec53027; 0xc8dff06f; 0x0bc13027; 0x00000000; 0x0ed53027; 0xcadff06f; 0x0bd13027; 0x00000000;
    0x0ee53027; 0xc8fff06f; 0x0be13027; 0x00000000; 0x0ef53027; 0xcafff06f; 0x0bf13027; 0x00000000;
    0x0285b027; 0xc41ff06f; 0x0e013027; 0x00000000; 0x0295b027; 0xc61ff06f; 0x0e113027; 0x00000000;
    0x02a5b027; 0xc43ff06f; 0x0e213027; 0x00000000; 0x02b5b027; 0xc63ff06f; 0x0e313027; 0x00000000;
    0x02c5b027; 0xc45ff06f; 0x0e413027; 0x00000000; 0x02d5b027; 0xc65ff06f; 0x0e513027; 0x00000000;
    0x02e5b027; 0xc47ff06f; 0x0e613027; 0x00000000; 0x02f5b027; 0xc67ff06f; 0x0e713027; 0x00000000;
    0x0685b027; 0xc49ff06f; 0x0e813027; 0x00000000; 0x0695b027; 0xc69ff06f; 0x0e913027; 0x00000000;
    0x06a5b027; 0xc4bff06f; 0x0ea13027; 0x00000000; 0x06b5b027; 0xc6bff06f; 0x0eb13027; 0x00000000;
    0x06c5b027; 0xc4dff06f; 0x0ec13027; 0x00000000; 0x06d5b027; 0xc6dff06f; 0x0ed13027; 0x00000000;
    0x06e5b027; 0xc4fff06f; 0x0ee13027; 0x00000000; 0x06f5b027; 0xc6fff06f; 0x0ef13027; 0x00000000;
    0x0a85b027; 0xcc1ff06f; 0x0f013027; 0x00000000; 0x0a95b027; 0xce1ff06f; 0x0f113027; 0x00000000;
    0x0aa5b027; 0xcc3ff06f; 0x0f213027; 0x00000000; 0x0ab5b027; 0xce3ff06f; 0x0f313027; 0x00000000;
    0x0ac5b027; 0xcc5ff06f; 0x0f413027; 0x00000000; 0x0ad5b027; 0xce5ff06f; 0x0f513027; 0x00000000;
    0x0ae5b027; 0xcc7ff06f; 0x0f613027; 0x00000000; 0x0af5b027; 0xce7ff06f; 0x0f713027; 0x00000000;
    0x0e85b027; 0xcc9ff06f; 0x0f813027; 0x00000000; 0x0e95b027; 0xce9ff06f; 0x0f913027; 0x00000000;
    0x0ea5b027; 0xccbff06f; 0x0fa13027; 0x00000000; 0x0eb5b027; 0xcebff06f; 0x0fb13027; 0x00000000;
    0x0ec5b027; 0xccdff06f; 0x0fc13027; 0x00000000; 0x0ed5b027; 0xcedff06f; 0x0fd13027; 0x00000000;
    0x0ee5b027; 0xccfff06f; 0x0fe13027; 0x00000000; 0x0ef5b027; 0xcefff06f; 0x0ff13027; 0x00000000;
    0x02863027; 0x901ff06f; 0x12013027; 0x00000000; 0x02963027; 0x921ff06f; 0x12113027; 0x00000000;
    0x02a63027; 0x903ff06f; 0x12213027; 0x00000000; 0x02b63027; 0x923ff06f; 0x12313027; 0x00000000;
    0x02c63027; 0x905ff06f; 0x12413027; 0x00000000; 0x02d63027; 0x925ff06f; 0x12513027; 0x00000000;
    0x02e63027; 0x907ff06f; 0x12613027; 0x00000000; 0x02f63027; 0x927ff06f; 0x12713027; 0x00000000;
    0x06863027; 0x909ff06f; 0x12813027; 0x00000000; 0x06963027; 0x929ff06f; 0x12913027; 0x00000000;
    0x06a63027; 0x90bff06f; 0x12a13027; 0x00000000; 0x06b63027; 0x92bff06f; 0x12b13027; 0x00000000;
    0x06c63027; 0x90dff06f; 0x12c13027; 0x00000000; 0x06d63027; 0x92dff06f; 0x12d13027; 0x00000000;
    0x06e63027; 0x90fff06f; 0x12e13027; 0x00000000; 0x06f63027; 0x92fff06f; 0x12f13027; 0x00000000;
    0x0a863027; 0x981ff06f; 0x13013027; 0x00000000; 0x0a963027; 0x9a1ff06f; 0x13113027; 0x00000000;
    0x0aa63027; 0x983ff06f; 0x13213027; 0x00000000; 0x0ab63027; 0x9a3ff06f; 0x13313027; 0x00000000;
    0x0ac63027; 0x985ff06f; 0x13413027; 0x00000000; 0x0ad63027; 0x9a5ff06f; 0x13513027; 0x00000000;
    0x0ae63027; 0x987ff06f; 0x13613027; 0x00000000; 0x0af63027; 0x9a7ff06f; 0x13713027; 0x00000000;
    0x0e863027; 0x989ff06f; 0x13813027; 0x00000000; 0x0e963027; 0x9a9ff06f; 0x13913027; 0x00000000;
    0x0ea63027; 0x98bff06f; 0x13a13027; 0x00000000; 0x0eb63027; 0x9abff06f; 0x13b13027; 0x00000000;
    0x0ec63027; 0x98dff06f; 0x13c13027; 0x00000000; 0x0ed63027; 0x9adff06f; 0x13d13027; 0x00000000;
    0x0ee63027; 0x98fff06f; 0x13e13027; 0x00000000; 0x0ef63027; 0x9afff06f; 0x13f13027; 0x00000000;
    0x0286b027; 0x941ff06f; 0x16013027; 0x00000000; 0x0296b027; 0x961ff06f; 0x16113027; 0x00000000;
    0x02a6b027; 0x943ff06f; 0x16213027; 0x00000000; 0x02b6b027; 0x963ff06f; 0x16313027; 0x00000000;
    0x02c6b027; 0x945ff06f; 0x16413027; 0x00000000; 0x02d6b027; 0x965ff06f; 0x16513027; 0x00000000;
    0x02e6b027; 0x947ff06f; 0x16613027; 0x00000000; 0x02f6b027; 0x967ff06f; 0x16713027; 0x00000000;
    0x0686b027; 0x949ff06f; 0x16813027; 0x00000000; 0x0696b027; 0x969ff06f; 0x16913027; 0x00000000;
    0x06a6b027; 0x94bff06f; 0x16a13027; 0x00000000; 0x06b6b027; 0x96bff06f; 0x16b13027; 0x00000000;
    0x06c6b027; 0x94dff06f; 0x16c13027; 0x00000000; 0x06d6b027; 0x96dff06f; 0x16d13027; 0x00000000;
    0x06e6b027; 0x94fff06f; 0x16e13027; 0x00000000; 0x06f6b027; 0x96fff06f; 0x16f13027; 0x00000000;
    0x0a86b027; 0x9c1ff06f; 0x17013027; 0x00000000; 0x0a96b027; 0x9e1ff06f; 0x17113027; 0x00000000;
    0x0aa6b027; 0x9c3ff06f; 0x17213027; 0x00000000; 0x0ab6b027; 0x9e3ff06f; 0x17313027; 0x00000000;
    0x0ac6b027; 0x9c5ff06f; 0x17413027; 0x00000000; 0x0ad6b027; 0x9e5ff06f; 0x17513027; 0x00000000;
    0x0ae6b027; 0x9c7ff06f; 0x17613027; 0x00000000; 0x0af6b027; 0x9e7ff06f; 0x17713027; 0x00000000;
    0x0e86b027; 0x9c9ff06f; 0x17813027; 0x00000000; 0x0e96b027; 0x9e9ff06f; 0x17913027; 0x00000000;
    0x0ea6b027; 0x9cbff06f; 0x17a13027; 0x00000000; 0x0eb6b027; 0x9ebff06f; 0x17b13027; 0x00000000;
    0x0ec6b027; 0x9cdff06f; 0x17c13027; 0x00000000; 0x0ed6b027; 0x9edff06f; 0x17d13027; 0x00000000;
    0x0ee6b027; 0x9cfff06f; 0x17e13027; 0x00000000; 0x0ef6b027; 0x9efff06f; 0x17f13027; 0x00000000;
    0x02873027; 0xd01ff06f; 0x1a013027; 0x00000000; 0x02973027; 0xd21ff06f; 0x1a113027; 0x00000000;
    0x02a73027; 0xd03ff06f; 0x1a213027; 0x00000000; 0x02b73027; 0xd23ff06f; 0x1a313027; 0x00000000;
    0x02c73027; 0xd05ff06f; 0x1a413027; 0x00000000; 0x02d73027; 0xd25ff06f; 0x1a513027; 0x00000000;
    0x02e73027; 0xd07ff06f; 0x1a613027; 0x00000000; 0x02f73027; 0xd27ff06f; 0x1a713027; 0x00000000;
    0x06873027; 0xd09ff06f; 0x1a813027; 0x00000000; 0x06973027; 0xd29ff06f; 0x1a913027; 0x00000000;
    0x06a73027; 0xd0bff06f; 0x1aa13027; 0x00000000; 0x06b73027; 0xd2bff06f; 0x1ab13027; 0x00000000;
    0x06c73027; 0xd0dff06f; 0x1ac13027; 0x00000000; 0x06d73027; 0xd2dff06f; 0x1ad13027; 0x00000000;
    0x06e73027; 0xd0fff06f; 0x1ae13027; 0x00000000; 0x06f73027; 0xd2fff06f; 0x1af13027; 0x00000000;
    0x0a873027; 0xd81ff06f; 0x1b013027; 0x00000000; 0x0a973027; 0xda1ff06f; 0x1b113027; 0x00000000;
    0x0aa73027; 0xd83ff06f; 0x1b213027; 0x00000000; 0x0ab73027; 0xda3ff06f; 0x1b313027; 0x00000000;
    0x0ac73027; 0xd85ff06f; 0x1b413027; 0x00000000; 0x0ad73027; 0xda5ff06f; 0x1b513027; 0x00000000;
    0x0ae73027; 0xd87ff06f; 0x1b613027; 0x00000000; 0x0af73027; 0xda7ff06f; 0x1b713027; 0x00000000;
    0x0e873027; 0xd89ff06f; 0x1b813027; 0x00000000; 0x0e973027; 0xda9ff06f; 0x1b913027; 0x00000000;
    0x0ea73027; 0xd8bff06f; 0x1ba13027; 0x00000000; 0x0eb73027; 0xdabff06f; 0x1bb13027; 0x00000000;
    0x0ec73027; 0xd8dff06f; 0x1bc13027; 0x00000000; 0x0ed73027; 0xdadff06f; 0x1bd13027; 0x00000000;
    0x0ee73027; 0xd8fff06f; 0x1be13027; 0x00000000; 0x0ef73027; 0xdafff06f; 0x1bf13027; 0x00000000;
    0x0287b027; 0xd41ff06f; 0x1e013027; 0x00000000; 0x0297b027; 0xd61ff06f; 0x1e113027; 0x00000000;
    0x02a7b027; 0xd43ff06f; 0x1e213027; 0x00000000; 0x02b7b027; 0xd63ff06f; 0x1e313027; 0x00000000;
    0x02c7b027; 0xd45ff06f; 0x1e413027; 0x00000000; 0x02d7b027; 0xd65ff06f; 0x1e513027; 0x00000000;
    0x02e7b027; 0xd47ff06f; 0x1e613027; 0x00000000; 0x02f7b027; 0xd67ff06f; 0x1e713027; 0x00000000;
    0x0687b027; 0xd49ff06f; 0x1e813027; 0x00000000; 0x0697b027; 0xd69ff06f; 0x1e913027; 0x00000000;
    0x06a7b027; 0xd4bff06f; 0x1ea13027; 0x00000000; 0x06b7b027; 0xd6bff06f; 0x1eb13027; 0x00000000;
    0x06c7b027; 0xd4dff06f; 0x1ec13027; 0x00000000; 0x06d7b027; 0xd6dff06f; 0x1ed13027; 0x00000000;
    0x06e7b027; 0xd4fff06f; 0x1ee13027; 0x00000000; 0x06f7b027; 0xd6fff06f; 0x1ef13027; 0x00000000;
    0x0a87b027; 0xdc1ff06f; 0x1f013027; 0x00000000; 0x0a97b027; 0xde1ff06f; 0x1f113027; 0x00000000;
    0x0aa7b027; 0xdc3ff06f; 0x1f213027; 0x00000000; 0x0ab7b027; 0xde3ff06f; 0x1f313027; 0x00000000;
    0x0ac7b027; 0xdc5ff06f; 0x1f413027; 0x00000000; 0x0ad7b027; 0xde5ff06f; 0x1f513027; 0x00000000;
    0x0ae7b027; 0xdc7ff06f; 0x1f613027; 0x00000000; 0x0af7b027; 0xde7ff06f; 0x1f713027; 0x00000000;
    0x0e87b027; 0xdc9ff06f; 0x1f813027; 0x00000000; 0x0e97b027; 0xde9ff06f; 0x1f913027; 0x00000000;
    0x0ea7b027; 0xdcbff06f; 0x1fa13027; 0x00000000; 0x0eb7b027; 0xdebff06f; 0x1fb13027; 0x00000000;
    0x0ec7b027; 0xdcdff06f; 0x1fc13027; 0x00000000; 0x0ed7b027; 0xdedff06f; 0x1fd13027; 0x00000000;
    0x0ee7b027; 0xdcfff06f; 0x1fe13027; 0x00000000; 0x0ef7b027; 0xdefff06f; 0x1ff13027; 0x00000000
].

(** parcels 0xb400 to 0xb7ff *)
Definition RVC64_EXPANDED_45 : list Z := [
    0x02843427; 0xa01ff06f; 0x02013427; 0x00000000; 0x02943427; 0xa21ff06f; 0x02113427; 0x00000000;
    0x02a43427; 0xa03ff06f; 0x02213427; 0x00000000; 0x02b43427; 0xa23ff06f; 0x02313427; 0x00000000;
    0x02c43427; 0xa05ff06f; 0x02413427; 0x00000000; 0x02d43427; 0xa25ff06f; 0x02513427; 0x00000000;
    0x02e43427; 0xa07ff06f; 0x02613427; 0x00000000; 0x02f43427; 0xa27ff06f; 0x02713427; 0x00000000;
    0x06843427; 0xa09ff06f; 0x02813427; 0x00000000; 0x06943427; 0xa29ff06f; 0x02913427; 0x00000000;
    0x06a43427; 0xa0bff06f; 0x02a13427; 0x00000000; 0x06b43427; 0xa2bff06f; 0x02b13427; 0x00000000;
    0x06c43427; 0xa0dff06f; 0x02c13427; 0x00000000; 0x06d43427; 0xa2dff06f; 0x02d13427; 0x00000000;
    0x06e43427; 0xa0fff06f; 0x02e13427; 0x00000000; 0x06f43427; 0xa2fff06f; 0x02f13427; 0x00000000;
    0x0a843427; 0xa81ff06f; 0x03013427; 0x00000000; 0x0a943427; 0xaa1ff06f; 0x03113427; 0x00000000;
    0x0aa43427; 0xa83ff06f; 0x03213427; 0x00000000; 0x0ab43427; 0xaa3ff06f; 0x03313427; 0x00000000;
    0x0ac43427; 0xa85ff06f; 0x03413427; 0x00000000; 0x0ad43427; 0xaa5ff06f; 0x03513427; 0x00000000;
    0x0ae43427; 0xa87ff06f; 0x03613427; 0x00000000; 0x0af43427; 0xaa7ff06f; 0x03713427; 0x00000000;
    0x0e843427; 0xa89ff06f; 0x03813427; 0x00000000; 0x0e943427; 0xaa9ff06f; 0x03913427; 0x00000000;
    0x0ea43427; 0xa8bff06f; 0x03a13427; 0x00000000; 0x0eb43427; 0xaabff06f; 0x03b13427; 0x00000000;
    0x0ec43427; 0xa8dff06f; 0x03c13427; 0x00000000; 0x0ed43427; 0xaadff06f; 0x03d13427; 0x00000000;
    0x0ee43427; 0xa8fff06f; 0x03e13427; 0x00000000; 0x0ef43427; 0xaafff06f; 0x03f13427; 0x00000000;
    0x0284b427; 0xa41ff06f; 0x06013427; 0x00000000; 0x0294b427; 0xa61ff06f; 0x06113427; 0x00000000;
    0x02a4b427; 0xa43ff06f; 0x06213427; 0x00000000; 0x02b4b427; 0xa63ff06f; 0x06313427; 0x00000000;
    0x02c4b427; 0xa45ff06f; 0x06413427; 0x00000000; 0x02d4b427; 0xa65ff06f; 0x06513427; 0x00000000;
    0x02e4b427; 0xa47ff06f; 0x06613427; 0x00000000; 0x02f4b427; 0xa67ff06f; 0x06713427; 0x00000000;
    0x0684b427; 0xa49ff06f; 0x06813427; 0x00000000; 0x0694b427; 0xa69ff06f; 0x06913427; 0x00000000;
    0x06a4b427; 0xa4bff06f; 0x06a13427; 0x00000000; 0x06b4b427; 0xa6bff06f; 0x06b13427; 0x00000000;
    0x06c4b427; 0xa4dff06f; 0x06c13427; 0x00000000; 0x06d4b427; 0xa6dff06f; 0x06d13427; 0x00000000;
    0x06e4b427; 0xa4fff06f; 0x06e13427; 0x00000000; 0x06f4b427; 0xa6fff06f; 0x06f13427; 0x00000000;
    0x0a84b427; 0xac1ff06f; 0x07013427; 0x00000000; 0x0a94b427; 0xae1ff06f; 0x07113427; 0x00000000;
    0x0aa4b427; 0xac3ff06f; 0x07213427; 0x00000000; 0x0ab4b427; 0xae3ff06f; 0x07313427; 0x00000000;
    0x0ac4b427; 0xac5ff06f; 0x07413427; 0x00000000; 0x0ad4b427; 0xae5ff06f; 0x07513427; 0x00000000;
    0x0ae4b427; 0xac7ff06f; 0x07613427; 0x00000000; 0x0af4b427; 0xae7ff06f; 0x07713427; 0x00000000;
    0x0e84b427; 0xac9ff06f; 0x07813427; 0x00000000; 0x0e94b427; 0xae9ff06f; 0x07913427; 0x00000000;
    0x0ea4b427; 0xacbff06f; 0x07a13427; 0x00000000; 0x0eb4b427; 0xaebff06f; 0x07b13427; 0x00000000;
    0x0ec4b427; 0xacdff06f; 0x07c13427; 0x00000000; 0x0ed4b427; 0xaedff06f; 0x07d13427; 0x00000000;
    0x0ee4b427; 0xacfff06f; 0x07e13427; 0x00000000; 0x0ef4b427; 0xaefff06f; 0x07f13427; 0x00000000;
    0x02853427; 0xe01ff06f; 0x0a013427; 0x00000000; 0x02953427; 0xe21ff06f; 0x0a113427; 0x00000000;
    0x02a53427; 0xe03ff06f; 0x0a213427; 0x00000000; 0x02b53427; 0xe23ff06f; 0x0a313427; 0x00000000;
    0x02c53427; 0xe05ff06f; 0x0a413427; 0x00000000; 0x02d53427; 0xe25ff06f; 0x0a513427; 0x00000000;
    0x02e53427; 0xe07ff06f; 0x0a613427; 0x00000000; 0x02f53427; 0xe27ff06f; 0x0a713427; 0x00000000;
    0x06853427; 0xe09ff06f; 0x0a813427; 0x00000000; 0x06953427; 0xe29ff06f; 0x0a913427; 0x00000000;
    0x06a53427; 0xe0bff06f; 0x0aa13427; 0x00000000; 0x06b53427; 0xe2bff06f; 0x0ab13427; 0x00000000;
    0x06c53427; 0xe0dff06f; 0x0ac13427; 0x00000000; 0x06d53427; 0xe2dff06f; 0x0ad13427; 0x00000000;
    0x06e53427; 0xe0fff06f; 0x0ae13427; 0x00000000; 0x06f53427; 0xe2fff06f; 0x0af13427; 0x00000000;
    0x0a853427; 0xe81ff06f; 0x0b013427; 0x00000000; 0x0a953427; 0xea1ff06f; 0x0b113427; 0x00000000;
    0x0aa53427; 0xe83ff06f; 0x0b213427; 0x00000000; 0x0ab53427; 0xea3ff06f; 0x0b313427; 0x00000000;
    0x0ac53427; 0xe85ff06f; 0x0b413427; 0x00000000; 0x0ad53427; 0xea5ff06f; 0x0b513427; 0x00000000;
    0x0ae53427; 0xe87ff06f; 0x0b613427; 0x00000000; 0x0af53427; 0xea7ff06f; 0x0b713427; 0x00000000;
    0x0e853427; 0xe89ff06f; 0x0b813427; 0x00000000; 0x0e953427; 0xea9ff06f; 0x0b913427; 0x00000000;
    0x0ea53427; 0xe8bff06f; 0x0ba13427; 0x00000000; 0x0eb53427; 0xeabff06f; 0x0bb13427; 0x00000000;
    0x0ec53427; 0xe8dff06f; 0x0bc13427; 0x00000000; 0x0ed53427; 0xeadff06f; 0x0bd13427; 0x00000000;
    0x0ee53427; 0xe8fff06f; 0x0be13427; 0x00000000; 0x0ef53427; 0xeafff06f; 0x0bf13427; 0x00000000;
    0x0285b427; 0xe41ff06f; 0x0e013427; 0x00000000; 0x0295b427; 0xe61ff06f; 0x0e113427; 0x00000000;
    0x02a5b427; 0xe43ff06f; 0x0e213427; 0x00000000; 0x02b5b427; 0xe63ff06f; 0x0e313427; 0x00000000;
    0x02c5b427; 0xe45ff06f; 0x0e413427; 0x00000000; 0x02d5b427; 0xe65ff06f; 0x0e513427; 0x00000000;
    0x02e5b427; 0xe47ff06f; 0x0e613427; 0x00000000; 0x02f5b427; 0xe67ff06f; 0x0e713427; 0x00000000;
    0x0685b427; 0xe49ff06f; 0x0e813427; 0x00000000; 0x0695b427; 0xe69ff06f; 0x0e913427; 0x00000000;
    0x06a5b427; 0xe4bff06f; 0x0ea13427; 0x00000000; 0x06b5b427; 0xe6bff06f; 0x0eb13427; 0x00000000;
    0x06c5b427; 0xe4dff06f; 0x0ec13427; 0x00000000; 0x06d5b427; 0xe6dff06f; 0x0ed13427; 0x00000000;
    0x06e5b427; 0xe4fff06f; 0x0ee13427; 0x00000000; 0x06f5b427; 0xe6fff06f; 0x0ef13427; 0x00000000;
    0x0a85b427; 0xec1ff06f; 0x0f013427; 0x00000000; 0x0a95b427; 0xee1ff06f; 0x0f113427; 0x00000000;
    0x0aa5b427; 0xec3ff06f; 0x0f213427; 0x00000000; 0x0ab5b427; 0xee3ff06f; 0x0f313427; 0x00000000;
    0x0ac5b427; 0xec5ff06f; 0x0f413427; 0x00000000; 0x0ad5b427; 0xee5ff06f; 0x0f513427; 0x00000000;
    0x0ae5b427; 0xec7ff06f; 0x0f613427; 0x00000000; 0x0af5b427; 0xee7ff06f; 0x0f713427; 0x00000000;
    0x0e85b427; 0xec9ff06f; 0x0f813427; 0x00000000; 0x0e95b427; 0xee9ff06f; 0x0f913427; 0x00000000;
    0x0ea5b427; 0xecbff06f; 0x0fa13427; 0x00000000; 0x0eb5b427; 0xeebff06f; 0x0fb13427; 0x00000000;
    0x0ec5b427; 0xecdff06f; 0x0fc13427; 0x00000000; 0x0ed5b427; 0xeedff06f; 0x0fd13427; 0x00000000;
    0x0ee5b427; 0xecfff06f; 0x0fe13427; 0x00000000; 0x0ef5b427; 0xeefff06f; 0x0ff13427; 0x00000000;
    0x02863427; 0xb01ff06f; 0x12013427; 0x00000000; 0x02963427; 0xb21ff06f; 0x12113427; 0x00000000;
    0x02a63427; 0xb03ff06f; 0x12213427; 0x00000000; 0x02b63427; 0xb23ff06f; 0x12313427; 0x00000000;
    0x02c63427; 0xb05ff06f; 0x12413427; 0x00000000; 0x02d63427; 0xb25ff06f; 0x12513427; 0x00000000;
    0x02e63427; 0xb07ff06f; 0x12613427; 0x00000000; 0x02f63427; 0xb27ff06f; 0x12713427; 0x00000000;
    0x06863427; 0xb09ff06f; 0x12813427; 0x00000000; 0x06963427; 0xb29ff06f; 0x12913427; 0x00000000;
    0x06a63427; 0xb0bff06f; 0x12a13427; 0x00000000; 0x06b63427; 0xb2bff06f; 0x12b13427; 0x00000000;
    0x06c63427; 0xb0dff06f; 0x12c13427; 0x00000000; 0x06d63427; 0xb2dff06f; 0x12d13427; 0x00000000;
    0x06e63427; 0xb0fff06f; 0x12e13427; 0x00000000; 0x06f63427; 0xb2fff06f; 0x12f13427; 0x00000000;
    0x0a863427; 0xb81ff06f; 0x13013427; 0x00000000; 0x0a963427; 0xba1ff06f; 0x13113427; 0x00000000;
    0x0aa63427; 0xb83ff06f; 0x13213427; 0x00000000; 0x0ab63427; 0xba3ff06f; 0x13313427; 0x00000000;
    0x0ac63427; 0xb85ff06f; 0x13413427; 0x00000000; 0x0ad63427; 0xba5ff06f; 0x13513427; 0x00000000;
    0x0ae63427; 0xb87ff06f; 0x13613427; 0x00000000; 0x0af63427; 0xba7ff06f; 0x13713427; 0x00000000;
    0x0e863427; 0xb89ff06f; 0x13813427; 0x00000000; 0x0e963427; 0xba9ff06f; 0x13913427; 0x00000000;
    0x0ea63427; 0xb8bff06f; 0x13a13427; 0x00000000; 0x0eb63427; 0xbabff06f; 0x13b13427; 0x00000000;
    0x0ec63427; 0xb8dff06f; 0x13c13427; 0x00000000; 0x0ed63427; 0xbadff06f; 0x13d13427; 0x00000000;
    0x0ee63427; 0xb8fff06f; 0x13e13427; 0x00000000; 0x0ef63427; 0xbafff06f; 0x13f13427; 0x00000000;
    0x0286b427; 0xb41ff06f; 0x16013427; 0x00000000; 0x0296b427; 0xb61ff06f; 0x16113427; 0x00000000;
    0x02a6b427; 0xb43ff06f; 0x16213427; 0x00000000; 0x02b6b427; 0xb63ff06f; 0x16313427; 0x00000000;
    0x02c6b427; 0xb45ff06f; 0x16413427; 0x00000000; 0x02d6b427; 0xb65ff06f; 0x16513427; 0x00000000;
    0x02e6b427; 0xb47ff06f; 0x16613427; 0x00000000; 0x02f6b427; 0xb67ff06f; 0x16713427; 0x00000000;
    0x0686b427; 0xb49ff06f; 0x16813427; 0x00000000; 0x0696b427; 0xb69ff06f; 0x16913427; 0x00000000;
    0x06a6b427; 0xb4bff06f; 0x16a13427; 0x00000000; 0x06b6b427; 0xb6bff06f; 0x16b13427; 0x00000000;
    0x06c6b427; 0xb4dff06f; 0x16c13427; 0x00000000; 0x06d6b427; 0xb6dff06f; 0x16d13427; 0x00000000;
    0x06e6b427; 0xb4fff06f; 0x16e13427; 0x00000000; 0x06f6b427; 0xb6fff06f; 0x16f13427; 0x00000000;
    0x0a86b427; 0xbc1ff06f; 0x17013427; 0x00000000; 0x0a96b427; 0xbe1ff06f; 0x17113427; 0x00000000;
    0x0aa6b427; 0xbc3ff06f; 0x17213427; 0x00000000; 0x0ab6b427; 0xbe3ff06f; 0x17313427; 0x00000000;
    0x0ac6b427; 0xbc5ff06f; 0x17413427; 0x00000000; 0x0ad6b427; 0xbe5ff06f; 0x17513427; 0x00000000;
    0x0ae6b427; 0xbc7ff06f; 0x17613427; 0x00000000; 0x0af6b427; 0xbe7ff06f; 0x17713427; 0x00000000;
    0x0e86b427; 0xbc9ff06f; 0x17813427; 0x00000000; 0x0e96b427; 0xbe9ff06f; 0x17913427; 0x00000000;
    0x0ea6b427; 0xbcbff06f; 0x17a13427; 0x00000000; 0x0eb6b427; 0xbebff06f; 0x17b13427; 0x00000000;
    0x0ec6b427; 0xbcdff06f; 0x17c13427; 0x00000000; 0x0ed6b427; 0xbedff06f; 0x17d13427; 0x00000000;
    0x0ee6b427; 0xbcfff06f; 0x17e13427; 0x00000000; 0x0ef6b427; 0xbefff06f; 0x17f13427; 0x00000000;
    0x02873427; 0xf01ff06f; 0x1a013427; 0x00000000; 0x02973427; 0xf21ff06f; 0x1a113427; 0x00000000;
    0x02a73427; 0xf03ff06f; 0x1a213427; 0x00000000; 0x02b73427; 0xf23ff06f; 0x1a313427; 0x00000000;
    0x02c73427; 0xf05ff06f; 0x1a413427; 0x00000000; 0x02d73427; 0xf25ff06f; 0x1a513427; 0x00000000;
    0x02e73427; 0xf07ff06f; 0x1a613427; 0x00000000; 0x02f73427; 0xf27ff06f; 0x1a713427; 0x00000000;
    0x06873427; 0xf09ff06f; 0x1a813427; 0x00000000; 0x06973427; 0xf29ff06f; 0x1a913427; 0x00000000;
    0x06a73427; 0xf0bff06f; 0x1aa13427; 0x00000000; 0x06b73427; 0xf2bff06f; 0x1ab13427; 0x00000000;
    0x06c73427; 0xf0dff06f; 0x1ac13427; 0x00000000; 0x06d73427; 0xf2dff06f; 0x1ad13427; 0x00000000;
    0x06e73427; 0xf0fff06f; 0x1ae13427; 0x00000000; 0x06f73427; 0xf2fff06f; 0x1af13427; 0x00000000;
    0x0a873427; 0xf81ff06f; 0x1b013427; 0x00000000; 0x0a973427; 0xfa1ff06f; 0x1b113427; 0x00000000;
    0x0aa73427; 0xf83ff06f; 0x1b213427; 0x00000000; 0x0ab73427; 0xfa3ff06f; 0x1b313427; 0x00000000;
    0x0ac73427; 0xf85ff06f; 0x1b413427; 0x00000000; 0x0ad73427; 0xfa5ff06f; 0x1b513427; 0x00000000;
    0x0ae73427; 0xf87ff06f; 0x1b613427; 0x00000000; 0x0af73427; 0xfa7ff06f; 0x1b713427; 0x00000000;
    0x0e873427; 0xf89ff06f; 0x1b813427; 0x00000000; 0x0e973427; 0xfa9ff06f; 0x1b913427; 0x00000000;
    0x0ea73427; 0xf8bff06f; 0x1ba13427; 0x00000000; 0x0eb73427; 0xfabff06f; 0x1bb13427; 0x00000000;
    0x0ec73427; 0xf8dff06f; 0x1bc13427; 0x00000000; 0x0ed73427; 0xfadff06f; 0x1bd13427; 0x00000000;
    0x0ee73427; 0xf8fff06f; 0x1be13427; 0x00000000; 0x0ef73427; 0xfafff06f; 0x1bf13427; 0x00000000;
    0x0287b427; 0xf41ff06f; 0x1e013427; 0x00000000; 0x0297b427; 0xf61ff06f; 0x1e113427; 0x00000000;
    0x02a7b427; 0xf43ff06f; 0x1e213427; 0x00000000; 0x02b7b427; 0xf63ff06f; 0x1e313427; 0x00000000;
    0x02c7b427; 0xf45ff06f; 0x1e413427; 0x00000000; 0x02d7b427; 0xf65ff06f; 0x1e513427; 0x00000000;
    0x02e7b427; 0xf47ff06f; 0x1e613427; 0x00000000; 0x02f7b427; 0xf67ff06f; 0x1e713427; 0x00000000;
    0x0687b427; 0xf49ff06f; 0x1e813427; 0x00000000; 0x0697b427; 0xf69ff06f; 0x1e913427; 0x00000000;
    0x06a7b427; 0xf4bff06f; 0x1ea13427; 0x00000000; 0x06b7b427; 0xf6bff06f; 0x1eb13427; 0x00000000;
    0x06c7b427; 0xf4dff06f; 0x1ec13427; 0x00000000; 0x06d7b427; 0xf6dff06f; 0x1ed13427; 0x00000000;
    0x06e7b427; 0xf4fff06f; 0x1ee13427; 0x00000000; 0x06f7b427; 0xf6fff06f; 0x1ef13427; 0x00000000;
    0x0a87b427; 0xfc1ff06f; 0x1f013427; 0x00000000; 0x0a97b427; 0xfe1ff06f; 0x1f113427; 0x00000000;
    0x0aa7b427; 0xfc3ff06f; 0x1f213427; 0x00000000; 0x0ab7b427; 0xfe3ff06f; 0x1f313427; 0x00000000;
    0x0ac7b427; 0xfc5ff06f; 0x1f413427; 0x00000000; 0x0ad7b427; 0xfe5ff06f; 0x1f513427; 0x00000000;
    0x0ae7b427; 0xfc7ff06f; 0x1f613427; 0x00000000; 0x0af7b427; 0xfe7ff06f; 0x1f713427; 0x00000000;
    0x0e87b427; 0xfc9ff06f; 0x1f813427; 0x00000000; 0x0e97b427; 0xfe9ff06f; 0x1f913427; 0x00000000;
    0x0ea7b427; 0xfcbff06f; 0x1fa13427; 0x00000000; 0x0eb7b427; 0xfebff06f; 0x1fb13427; 0x00000000;
    0x0ec7b427; 0xfcdff06f; 0x1fc13427; 0x00000000; 0x0ed7b427; 0xfedff06f; 0x1fd13427; 0x00000000;
    0x0ee7b427; 0xfcfff06f; 0x1fe13427; 0x00000000; 0x0ef7b427; 0xfefff06f; 0x1ff13427; 0x00000000
].

(** parcels 0xb800 to 0xbbff *)
Definition RVC64_EXPANDED_46 : list Z := [
    0x02843827; 0x811ff06f; 0x02013827; 0x00000000; 0x02943827; 0x831ff06f; 0x02113827; 0x00000000;
    0x02a43827; 0x813ff06f; 0x02213827; 0x00000000; 0x02b43827; 0x833ff06f; 0x02313827; 0x00000000;
    0x02c43827; 0x815ff06f; 0x02413827; 0x00000000; 0x02d43827; 0x835ff06f; 0x02513827; 0x00000000;
    0x02e43827; 0x817ff06f; 0x02613827; 0x00000000; 0x02f43827; 0x837ff06f; 0x02713827; 0x00000000;
    0x06843827; 0x819ff06f; 0x02813827; 0x00000000; 0x06943827; 0x839ff06f; 0x02913827; 0x00000000;
    0x06a43827; 0x81bff06f; 0x02a13827; 0x00000000; 0x06b43827; 0x83bff06f; 0x02b13827; 0x00000000;
    0x06c43827; 0x81dff06f; 0x02c13827; 0x00000000; 0x06d43827; 0x83dff06f; 0x02d13827; 0x00000000;
    0x06e43827; 0x81fff06f; 0x02e13827; 0x00000000; 0x06f43827; 0x83fff06f; 0x02f13827; 0x00000000;
    0x0a843827; 0x891ff06f; 0x03013827; 0x00000000; 0x0a943827; 0x8b1ff06f; 0x03113827; 0x00000000;
    0x0aa43827; 0x893ff06f; 0x03213827; 0x00000000; 0x0ab43827; 0x8b3ff06f; 0x03313827; 0x00000000;
    0x0ac43827; 0x895ff06f; 0x03413827; 0x00000000; 0x0ad43827; 0x8b5ff06f; 0x03513827; 0x00000000;
    0x0ae43827; 0x897ff06f; 0x03613827; 0x00000000; 0x0af43827; 0x8b7ff06f; 0x03713827; 0x00000000;
    0x0e843827; 0x899ff06f; 0x03813827; 0x00000000; 0x0e943827; 0x8b9ff06f; 0x03913827; 0x00000000;
    0x0ea43827; 0x89bff06f; 0x03a13827; 0x00000000; 0x0eb43827; 0x8bbff06f; 0x03b13827; 0x00000000;
    0x0ec43827; 0x89dff06f; 0x03c13827; 0x00000000; 0x0ed43827; 0x8bdff06f; 0x03d13827; 0x00000000;
    0x0ee43827; 0x89fff06f; 0x03e13827; 0x00000000; 0x0ef43827; 0x8bfff06f; 0x03f13827; 0x00000000;
    0x0284b827; 0x851ff06f; 0x06013827; 0x00000000; 0x0294b827; 0x871ff06f; 0x06113827; 0x00000000;
    0x02a4b827; 0x853ff06f; 0x06213827; 0x00000000; 0x02b4b827; 0x873ff06f; 0x06313827; 0x00000000;
    0x02c4b827; 0x855ff06f; 0x06413827; 0x00000000; 0x02d4b827; 0x875ff06f; 0x06513827; 0x00000000;
    0x02e4b827; 0x857ff06f; 0x06613827; 0x00000000; 0x02f4b827; 0x877ff06f; 0x06713827; 0x00000000;
    0x0684b827; 0x859ff06f; 0x06813827; 0x00000000; 0x0694b827; 0x879ff06f; 0x06913827; 0x00000000;
    0x06a4b827; 0x85bff06f; 0x06a13827; 0x00000000; 0x06b4b827; 0x87bff06f; 0x06b13827; 0x00000000;
    0x06c4b827; 0x85dff06f; 0x06c13827; 0x00000000; 0x06d4b827; 0x87dff06f; 0x06d13827; 0x00000000;
    0x06e4b827; 0x85fff06f; 0x06e13827; 0x00000000; 0x06f4b827; 0x87fff06f; 0x06f13827; 0x00000000;
    0x0a84b827; 0x8d1ff06f; 0x07013827; 0x00000000; 0x0a94b827; 0x8f1ff06f; 0x07113827; 0x00000000;
    0x0aa4b827; 0x8d3ff06f; 0x07213827; 0x00000000; 0x0ab4b827; 0x8f3ff06f; 0x07313827; 0x00000000;
    0x0ac4b827; 0x8d5ff06f; 0x07413827; 0x00000000; 0x0ad4b827; 0x8f5ff06f; 0x07513827; 0x00000000;
    0x0ae4b827; 0x8d7ff06f; 0x07613827; 0x00000000; 0x0af4b827; 0x8f7ff06f; 0x07713827; 0x00000000;
    0x0e84b827; 0x8d9ff06f; 0x07813827; 0x00000000; 0x0e94b827; 0x8f9ff06f; 0x07913827; 0x00000000;
    0x0ea4b827; 0x8dbff06f; 0x07a13827; 0x00000000; 0x0eb4b827; 0x8fbff06f; 0x07b13827; 0x00000000;
    0x0ec4b827; 0x8ddff06f; 0x07c13827; 0x00000000; 0x0ed4b827; 0x8fdff06f; 0x07d13827; 0x00000000;
    0x0ee4b827; 0x8dfff06f; 0x07e13827; 0x00000000; 0x0ef4b827; 0x8ffff06f; 0x07f13827; 0x00000000;
    0x02853827; 0xc11ff06f; 0x0a013827; 0x00000000; 0x02953827; 0xc31ff06f; 0x0a113827; 0x00000000;
    0x02a53827; 0xc13ff06f; 0x0a213827; 0x00000000; 0x02b53827; 0xc33ff06f; 0x0a313827; 0x00000000;
    0x02c53827; 0xc15ff06f; 0x0a413827; 0x00000000; 0x02d53827; 0xc35ff06f; 0x0a513827; 0x00000000;
    0x02e53827; 0xc17ff06f; 0x0a613827; 0x00000000; 0x02f53827; 0xc37ff06f; 0x0a713827; 0x00000000;
    0x06853827; 0xc19ff06f; 0x0a813827; 0x00000000; 0x06953827; 0xc39ff06f; 0x0a913827; 0x00000000;
    0x06a53827; 0xc1bff06f; 0x0aa13827; 0x00000000; 0x06b53827; 0xc3bff06f; 0x0ab13827; 0x00000000;
    0x06c53827; 0xc1dff06f; 0x0ac13827; 0x00000000; 0x06d53827; 0xc3dff06f; 0x0ad13827; 0x00000000;
    0x06e53827; 0xc1fff06f; 0x0ae13827; 0x00000000; 0x06f53827; 0xc3fff06f; 0x0af13827; 0x00000000;
    0x0a853827; 0xc91ff06f; 0x0b013827; 0x00000000; 0x0a953827; 0xcb1ff06f; 0x0b113827; 0x00000000;
    0x0aa53827; 0xc93ff06f; 0x0b213827; 0x00000000; 0x0ab53827; 0xcb3ff06f; 0x0b313827; 0x00000000;
    0x0ac53827; 0xc95ff06f; 0x0b413827; 0x00000000; 0x0ad53827; 0xcb5ff06f; 0x0b513827; 0x00000000;
    0x0ae53827; 0xc97ff06f; 0x0b613827; 0x00000000; 0x0af53827; 0xcb7ff06f; 0x0b713827; 0x00000000;
    0x0e853827; 0xc99ff06f; 0x0b813827; 0x00000000; 0x0e953827; 0xcb9ff06f; 0x0b913827; 0x00000000;
    0x0ea53827; 0xc9bff06f; 0x0ba13827; 0x00000000; 0x0eb53827; 0xcbbff06f; 0x0bb13827; 0x00000000;
    0x0ec53827; 0xc9dff06f; 0x0bc13827; 0x00000000; 0x0ed53827; 0xcbdff06f; 0x0bd13827; 0x00000000;
    0x0ee53827; 0xc9fff06f; 0x0be13827; 0x00000000; 0x0ef53827; 0xcbfff06f; 0x0bf13827; 0x00000000;
    0x0285b827; 0xc51ff06f; 0x0e013827; 0x00000000; 0x0295b827; 0xc71ff06f; 0x0e113827; 0x00000000;
    0x02a5b827; 0xc53ff06f; 0x0e213827; 0x00000000; 0x02b5b827; 0xc73ff06f; 0x0e313827; 0x00000000;
    0x02c5b827; 0xc55ff06f; 0x0e413827; 0x00000000; 0x02d5b827; 0xc75ff06f; 0x0e513827; 0x00000000;
    0x02e5b827; 0xc57ff06f; 0x0e613827; 0x00000000; 0x02f5b827; 0xc77ff06f; 0x0e713827; 0x00000000;
    0x0685b827; 0xc59ff06f; 0x0e813827; 0x00000000; 0x0695b827; 0xc79ff06f; 0x0e913827; 0x00000000;
    0x06a5b827; 0xc5bff06f; 0x0ea13827; 0x00000000; 0x06b5b827; 0xc7bff06f; 0x0eb13827; 0x00000000;
    0x06c5b827; 0xc5dff06f; 0x0ec13827; 0x00000000; 0x06d5b827; 0xc7dff06f; 0x0ed13827; 0x00000000;
    0x06e5b827; 0xc5fff06f; 0x0ee13827; 0x00000000; 0x06f5b827; 0xc7fff06f; 0x0ef13827; 0x00000000;
    0x0a85b827; 0xcd1ff06f; 0x0f013827; 0x00000000; 0x0a95b827; 0xcf1ff06f; 0x0f113827; 0x00000000;
    0x0aa5b827; 0xcd3ff06f; 0x0f213827; 0x00000000; 0x0ab5b827; 0xcf3ff06f; 0x0f313827; 0x00000000;
    0x0ac5b827; 0xcd5ff06f; 0x0f413827; 0x00000000; 0x0ad5b827; 0xcf5ff06f; 0x0f513827; 0x00000000;
    0x0ae5b827; 0xcd7ff06f; 0x0f613827; 0x00000000; 0x0af5b827; 0xcf7ff06f; 0x0f713827; 0x00000000;
    0x0e85b827; 0xcd9ff06f; 0x0f813827; 0x00000000; 0x0e95b827; 0xcf9ff06f; 0x0f913827; 0x00000000;
    0x0ea5b827; 0xcdbff06f; 0x0fa13827; 0x00000000; 0x0eb5b827; 0xcfbff06f; 0x0fb13827; 0x00000000;
    0x0ec5b827; 0xcddff06f; 0x0fc13827; 0x00000000; 0x0ed5b827; 0xcfdff06f; 0x0fd13827; 0x00000000;
    0x0ee5b827; 0xcdfff06f; 0x0fe13827; 0x00000000; 0x0ef5b827; 0xcffff06f; 0x0ff13827; 0x00000000;
    0x02863827; 0x911ff06f; 0x12013827; 0x00000000; 0x02963827; 0x931ff06f; 0x12113827; 0x00000000;
    0x02a63827; 0x913ff06f; 0x12213827; 0x00000000; 0x02b63827; 0x933ff06f; 0x12313827; 0x00000000;
    0x02c63827; 0x915ff06f; 0x12413827; 0x00000000; 0x02d63827; 0x935ff06f; 0x12513827; 0x00000000;
    0x02e63827; 0x917ff06f; 0x12613827; 0x00000000; 0x02f63827; 0x937ff06f; 0x12713827; 0x00000000;
    0x06863827; 0x919ff06f; 0x12813827; 0x00000000; 0x06963827; 0x939ff06f; 0x12913827; 0x00000000;
    0x06a63827; 0x91bff06f; 0x12a13827; 0x00000000; 0x06b63827; 0x93bff06f; 0x12b13827; 0x00000000;
    0x06c63827; 0x91dff06f; 0x12c13827; 0x00000000; 0x06d63827; 0x93dff06f; 0x12d13827; 0x00000000;
    0x06e63827; 0x91fff06f; 0x12e13827; 0x00000000; 0x06f63827; 0x93fff06f; 0x12f13827; 0x00000000;
    0x0a863827; 0x991ff06f; 0x13013827; 0x00000000; 0x0a963827; 0x9b1ff06f; 0x13113827; 0x00000000;
    0x0aa63827; 0x993ff06f; 0x13213827; 0x00000000; 0x0ab63827; 0x9b3ff06f; 0x13313827; 0x00000000;
    0x0ac63827; 0x995ff06f; 0x13413827; 0x00000000; 0x0ad63827; 0x9b5ff06f; 0x13513827; 0x00000000;
    0x0ae63827; 0x997ff06f; 0x13613827; 0x00000000; 0x0af63827; 0x9b7ff06f; 0x13713827; 0x00000000;
    0x0e863827; 0x999ff06f; 0x13813827; 0x00000000; 0x0e963827; 0x9b9ff06f; 0x13913827; 0x00000000;
    0x0ea63827; 0x99bff06f; 0x13a13827; 0x00000000; 0x0eb63827; 0x9bbff06f; 0x13b13827; 0x00000000;
    0x0ec63827; 0x99dff06f; 0x13c13827; 0x00000000; 0x0ed63827; 0x9bdff06f; 0x13d13827; 0x00000000;
    0x0ee63827; 0x99fff06f; 0x13e13827; 0x00000000; 0x0ef63827; 0x9bfff06f; 0x13f13827; 0x00000000;
    0x0286b827; 0x951ff06f; 0x16013827; 0x00000000; 0x0296b827; 0x971ff06f; 0x16113827; 0x00000000;
    0x02a6b827; 0x953ff06f; 0x16213827; 0x00000000; 0x02b6b827; 0x973ff06f; 0x16313827; 0x00000000;
    0x02c6b827; 0x955ff06f; 0x16413827; 0x00000000; 0x02d6b827; 0x975ff06f; 0x16513827; 0x00000000;
    0x02e6b827; 0x957ff06f; 0x16613827; 0x00000000; 0x02f6b827; 0x977ff06f; 0x16713827; 0x00000000;
    0x0686b827; 0x959ff06f; 0x16813827; 0x00000000; 0x0696b827; 0x979ff06f; 0x16913827; 0x00000000;
    0x06a6b827; 0x95bff06f; 0x16a13827; 0x00000000; 0x06b6b827; 0x97bff06f; 0x16b13827; 0x00000000;
    0x06c6b827; 0x95dff06f; 0x16c13827; 0x00000000; 0x06d6b827; 0x97dff06f; 0x16d13827; 0x00000000;
    0x06e6b827; 0x95fff06f; 0x16e13827; 0x00000000; 0x06f6b827; 0x97fff06f; 0x16f13827; 0x00000000;
    0x0a86b827; 0x9d1ff06f; 0x17013827; 0x00000000; 0x0a96b827; 0x9f1ff06f; 0x17113827; 0x00000000;
    0x0aa6b827; 0x9d3ff06f; 0x17213827; 0x00000000; 0x0ab6b827; 0x9f3ff06f; 0x17313827; 0x00000000;
    0x0ac6b827; 0x9d5ff06f; 0x17413827; 0x00000000; 0x0ad6b827; 0x9f5ff06f; 0x17513827; 0x00000000;
    0x0ae6b827; 0x9d7ff06f; 0x17613827; 0x00000000; 0x0af6b827; 0x9f7ff06f; 0x17713827; 0x00000000;
    0x0e86b827; 0x9d9ff06f; 0x17813827; 0x00000000; 0x0e96b827; 0x9f9ff06f; 0x17913827; 0x00000000;
    0x0ea6b827; 0x9dbff06f; 0x17a13827; 0x00000000; 0x0eb6b827; 0x9fbff06f; 0x17b13827; 0x00000000;
    0x0ec6b827; 0x9ddff06f; 0x17c13827; 0x00000000; 0x0ed6b827; 0x9fdff06f; 0x17d13827; 0x00000000;
    0x0ee6b827; 0x9dfff06f; 0x17e13827; 0x00000000; 0x0ef6b827; 0x9ffff06f; 0x17f13827; 0x00000000;
    0x02873827; 0xd11ff06f; 0x1a013827; 0x00000000; 0x02973827; 0xd31ff06f; 0x1a113827; 0x00000000;
    0x02a73827; 0xd13ff06f; 0x1a213827; 0x00000000; 0x02b73827; 0xd33ff06f; 0x1a313827; 0x00000000;
    0x02c73827; 0xd15ff06f; 0x1a413827; 0x00000000; 0x02d73827; 0xd35ff06f; 0x1a513827; 0x00000000;
    0x02e73827; 0xd17ff06f; 0x1a613827; 0x00000000; 0x02f73827; 0xd37ff06f; 0x1a713827; 0x00000000;
    0x06873827; 0xd19ff06f; 0x1a813827; 0x00000000; 0x06973827; 0xd39ff06f; 0x1a913827; 0x00000000;
    0x06a73827; 0xd1bff06f; 0x1aa13827; 0x00000000; 0x06b73827; 0xd3bff06f; 0x1ab13827; 0x00000000;
    0x06c73827; 0xd1dff06f; 0x1ac13827; 0x00000000; 0x06d73827; 0xd3dff06f; 0x1ad13827; 0x00000000;
    0x06e73827; 0xd1fff06f; 0x1ae13827; 0x00000000; 0x06f73827; 0xd3fff06f; 0x1af13827; 0x00000000;
    0x0a873827; 0xd91ff06f; 0x1b013827; 0x00000000; 0x0a973827; 0xdb1ff06f; 0x1b113827; 0x00000000;
    0x0aa73827; 0xd93ff06f; 0x1b213827; 0x00000000; 0x0ab73827; 0xdb3ff06f; 0x1b313827; 0x00000000;
    0x0ac73827; 0xd95ff06f; 0x1b413827; 0x00000000; 0x0ad73827; 0xdb5ff06f; 0x1b513827; 0x00000000;
    0x0ae73827; 0xd97ff06f; 0x1b613827; 0x00000000; 0x0af73827; 0xdb7ff06f; 0x1b713827; 0x00000000;
    0x0e873827; 0xd99ff06f; 0x1b813827; 0x00000000; 0x0e973827; 0xdb9ff06f; 0x1b913827; 0x00000000;
    0x0ea73827; 0xd9bff06f; 0x1ba13827; 0x00000000; 0x0eb73827; 0xdbbff06f; 0x1bb13827; 0x00000000;
    0x0ec73827; 0xd9dff06f; 0x1bc13827; 0x00000000; 0x0ed73827; 0xdbdff06f; 0x1bd13827; 0x00000000;
    0x0ee73827; 0xd9fff06f; 0x1be13827; 0x00000000; 0x0ef73827; 0xdbfff06f; 0x1bf13827; 0x00000000;
    0x0287b827; 0xd51ff06f; 0x1e013827; 0x00000000; 0x0297b827; 0xd71ff06f; 0x1e113827; 0x00000000;
    0x02a7b827; 0xd53ff06f; 0x1e213827; 0x00000000; 0x02b7b827; 0xd73ff06f; 0x1e313827; 0x00000000;
    0x02c7b827; 0xd55ff06f; 0x1e413827; 0x00000000; 0x02d7b827; 0xd75ff06f; 0x1e513827; 0x00000000;
    0x02e7b827; 0xd57ff06f; 0x1e613827; 0x00000000; 0x02f7b827; 0xd77ff06f; 0x1e713827; 0x00000000;
    0x0687b827; 0xd59ff06f; 0x1e813827; 0x00000000; 0x0697b827; 0xd79ff06f; 0x1e913827; 0x00000000;
    0x06a7b827; 0xd5bff06f; 0x1ea13827; 0x00000000; 0x06b7b827; 0xd7bff06f; 0x1eb13827; 0x00000000;
    0x06c7b827; 0xd5dff06f; 0x1ec13827; 0x00000000; 0x06d7b827; 0xd7dff06f; 0x1ed13827; 0x00000000;
    0x06e7b827; 0xd5fff06f; 0x1ee13827; 0x00000000; 0x06f7b827; 0xd7fff06f; 0x1ef13827; 0x00000000;
    0x0a87b827; 0xdd1ff06f; 0x1f013827; 0x00000000; 0x0a97b827; 0xdf1ff06f; 0x1f113827; 0x00000000;
    0x0aa7b827; 0xdd3ff06f; 0x1f213827; 0x00000000; 0x0ab7b827; 0xdf3ff06f; 0x1f313827; 0x00000000;
    0x0ac7b827; 0xdd5ff06f; 0x1f413827; 0x00000000; 0x0ad7b827; 0xdf5ff06f; 0x1f513827; 0x00000000;
    0x0ae7b827; 0xdd7ff06f; 0x1f613827; 0x00000000; 0x0af7b827; 0xdf7ff06f; 0x1f713827; 0x00000000;
    0x0e87b827; 0xdd9ff06f; 0x1f813827; 0x00000000; 0x0e97b827; 0xdf9ff06f; 0x1f913827; 0x00000000;
    0x0ea7b827; 0xddbff06f; 0x1fa13827; 0x00000000; 0x0eb7b827; 0xdfbff06f; 0x1fb13827; 0x00000000;
    0x0ec7b827; 0xdddff06f; 0x1fc13827; 0x00000000; 0x0ed7b827; 0xdfdff06f; 0x1fd13827; 0x00000000;
    0x0ee7b827; 0xddfff06f; 0x1fe13827; 0x00000000; 0x0ef7b827; 0xdffff06f; 0x1ff13827; 0x00000000
].

(** parcels 0xbc00 to 0xbfff *)
Definition RVC64_EXPANDED_47 : list Z := [
    0x02843c27; 0xa11ff06f; 0x02013c27; 0x00000000; 0x02943c27; 0xa31ff06f; 0x02113c27; 0x00000000;
    0x02a43c27; 0xa13ff06f; 0x02213c27; 0x00000000; 0x02b43c27; 0xa33ff06f; 0x02313c27; 0x00000000;
    0x02c43c27; 0xa15ff06f; 0x02413c27; 0x00000000; 0x02d43c27; 0xa35ff06f; 0x02513c27; 0x00000000;
    0x02e43c27; 0xa17ff06f; 0x02613c27; 0x00000000; 0x02f43c27; 0xa37ff06f; 0x02713c27; 0x00000000;
    0x06843c27; 0xa19ff06f; 0x02813c27; 0x00000000; 0x06943c27; 0xa39ff06f; 0x02913c27; 0x00000000;
    0x06a43c27; 0xa1bff06f; 0x02a13c27; 0x00000000; 0x06b43c27; 0xa3bff06f; 0x02b13c27; 0x00000000;
    0x06c43c27; 0xa1dff06f; 0x02c13c27; 0x00000000; 0x06d43c27; 0xa3dff06f; 0x02d13c27; 0x00000000;
    0x06e43c27; 0xa1fff06f; 0x02e13c27; 0x00000000; 0x06f43c27; 0xa3fff06f; 0x02f13c27; 0x00000000;
    0x0a843c27; 0xa91ff06f; 0x03013c27; 0x00000000; 0x0a943c27; 0xab1ff06f; 0x03113c27; 0x00000000;
    0x0aa43c27; 0xa93ff06f; 0x03213c27; 0x00000000; 0x0ab43c27; 0xab3ff06f; 0x03313c27; 0x00000000;
    0x0ac43c27; 0xa95ff06f; 0x03413c27; 0x00000000; 0x0ad43c27; 0xab5ff06f; 0x03513c27; 0x00000000;
    0x0ae43c27; 0xa97ff06f; 0x03613c27; 0x00000000; 0x0af43c27; 0xab7ff06f; 0x03713c27; 0x00000000;
    0x0e843c27; 0xa99ff06f; 0x03813c27; 0x00000000; 0x0e943c27; 0xab9ff06f; 0x03913c27; 0x00000000;
    0x0ea43c27; 0xa9bff06f; 0x03a13c27; 0x00000000; 0x0eb43c27; 0xabbff06f; 0x03b13c27; 0x00000000;
    0x0ec43c27; 0xa9dff06f; 0x03c13c27; 0x00000000; 0x0ed43c27; 0xabdff06f; 0x03d13c27; 0x00000000;
    0x0ee43c27; 0xa9fff06f; 0x03e13c27; 0x00000000; 0x0ef43c27; 0xabfff06f; 0x03f13c27; 0x00000000;
    0x0284bc27; 0xa51ff06f; 0x06013c27; 0x00000000; 0x0294bc27; 0xa71ff06f; 0x06113c27; 0x00000000;
    0x02a4bc27; 0xa53ff06f; 0x06213c27; 0x00000000; 0x02b4bc27; 0xa73ff06f; 0x06313c27; 0x00000000;
    0x02c4bc27; 0xa55ff06f; 0x06413c27; 0x00000000; 0x02d4bc27; 0xa75ff06f; 0x06513c27; 0x00000000;
    0x02e4bc27; 0xa57ff06f; 0x06613c27; 0x00000000; 0x02f4bc27; 0xa77ff06f; 0x06713c27; 0x00000000;
    0x0684bc27; 0xa59ff06f; 0x06813c27; 0x00000000; 0x0694bc27; 0xa79ff06f; 0x06913c27; 0x00000000;
    0x06a4bc27; 0xa5bff06f; 0x06a13c27; 0x00000000; 0x06b4bc27; 0xa7bff06f; 0x06b13c27; 0x00000000;
    0x06c4bc27; 0xa5dff06f; 0x06c13c27; 0x00000000; 0x06d4bc27; 0xa7dff06f; 0x06d13c27; 0x00000000;
    0x06e4bc27; 0xa5fff06f; 0x06e13c27; 0x00000000; 0x06f4bc27; 0xa7fff06f; 0x06f13c27; 0x00000000;
    0x0a84bc27; 0xad1ff06f; 0x07013c27; 0x00000000; 0x0a94bc27; 0xaf1ff06f; 0x07113c27; 0x00000000;
    0x0aa4bc27; 0xad3ff06f; 0x07213c27; 0x00000000; 0x0ab4bc27; 0xaf3ff06f; 0x07313c27; 0x00000000;
    0x0ac4bc27; 0xad5ff06f; 0x07413c27; 0x00000000; 0x0ad4bc27; 0xaf5ff06f; 0x07513c27; 0x00000000;
    0x0ae4bc27; 0xad7ff06f; 0x07613c27; 0x00000000; 0x0af4bc27; 0xaf7ff06f; 0x07713c27; 0x00000000;
    0x0e84bc27; 0xad9ff06f; 0x07813c27; 0x00000000; 0x0e94bc27; 0xaf9ff06f; 0x07913c27; 0x00000000;
    0x0ea4bc27; 0xadbff06f; 0x07a13c27; 0x00000000; 0x0eb4bc27; 0xafbff06f; 0x07b13c27; 0x00000000;
    0x0ec4bc27; 0xaddff06f; 0x07c13c27; 0x00000000; 0x0ed4bc27; 0xafdff06f; 0x07d13c27; 0x00000000;
    0x0ee4bc27; 0xadfff06f; 0x07e13c27; 0x00000000; 0x0ef4bc27; 0xaffff06f; 0x07f13c27; 0x00000000;
    0x02853c27; 0xe11ff06f; 0x0a013c27; 0x00000000; 0x02953c27; 0xe31ff06f; 0x0a113c27; 0x00000000;
    0x02a53c27; 0xe13ff06f; 0x0a213c27; 0x00000000; 0x02b53c27; 0xe33ff06f; 0x0a313c27; 0x00000000;
    0x02c53c27; 0xe15ff06f; 0x0a413c27; 0x00000000; 0x02d53c27; 0xe35ff06f; 0x0a513c27; 0x00000000;
    0x02e53c27; 0xe17ff06f; 0x0a613c27; 0x00000000; 0x02f53c27; 0xe37ff06f; 0x0a713c27; 0x00000000;
    0x06853c27; 0xe19ff06f; 0x0a813c27; 0x00000000; 0x06953c27; 0xe39ff06f; 0x0a913c27; 0x00000000;
    0x06a53c27; 0xe1bff06f; 0x0aa13c27; 0x00000000; 0x06b53c27; 0xe3bff06f; 0x0ab13c27; 0x00000000;
    0x06c53c27; 0xe1dff06f; 0x0ac13c27; 0x00000000; 0x06d53c27; 0xe3dff06f; 0x0ad13c27; 0x00000000;
    0x06e53c27; 0xe1fff06f; 0x0ae13c27; 0x00000000; 0x06f53c27; 0xe3fff06f; 0x0af13c27; 0x00000000;
    0x0a853c27; 0xe91ff06f; 0x0b013c27; 0x00000000; 0x0a953c27; 0xeb1ff06f; 0x0b113c27; 0x00000000;
    0x0aa53c27; 0xe93ff06f; 0x0b213c27; 0x00000000; 0x0ab53c27; 0xeb3ff06f; 0x0b313c27; 0x00000000;
    0x0ac53c27; 0xe95ff06f; 0x0b413c27; 0x00000000; 0x0ad53c27; 0xeb5ff06f; 0x0b513c27; 0x00000000;
    0x0ae53c27; 0xe97ff06f; 0x0b613c27; 0x00000000; 0x0af53c27; 0xeb7ff06f; 0x0b713c27; 0x00000000;
    0x0e853c27; 0xe99ff06f; 0x0b813c27; 0x00000000; 0x0e953c27; 0xeb9ff06f; 0x0b913c27; 0x00000000;
    0x0ea53c27; 0xe9bff06f; 0x0ba13c27; 0x00000000; 0x0eb53c27; 0xebbff06f; 0x0bb13c27; 0x00000000;
    0x0ec53c27; 0xe9dff06f; 0x0bc13c27; 0x00000000; 0x0ed53c27; 0xebdff06f; 0x0bd13c27; 0x00000000;
    0x0ee53c27; 0xe9fff06f; 0x0be13c27; 0x00000000; 0x0ef53c27; 0xebfff06f; 0x0bf13c27; 0x00000000;
    0x0285bc27; 0xe51ff06f; 0x0e013c27; 0x00000000; 0x0295bc27; 0xe71ff06f; 0x0e113c27; 0x00000000;
    0x02a5bc27; 0xe53ff06f; 0x0e213c27; 0x00000000; 0x02b5bc27; 0xe73ff06f; 0x0e313c27; 0x00000000;
    0x02c5bc27; 0xe55ff06f; 0x0e413c27; 0x00000000; 0x02d5bc27; 0xe75ff06f; 0x0e513c27; 0x00000000;
    0x02e5bc27; 0xe57ff06f; 0x0e613c27; 0x00000000; 0x02f5bc27; 0xe77ff06f; 0x0e713c27; 0x00000000;
    0x0685bc27; 0xe59ff06f; 0x0e813c27; 0x00000000; 0x0695bc27; 0xe79ff06f; 0x0e913c27; 0x00000000;
    0x06a5bc27; 0xe5bff06f; 0x0ea13c27; 0x00000000; 0x06b5bc27; 0xe7bff06f; 0x0eb13c27; 0x00000000;
    0x06c5bc27; 0xe5dff06f; 0x0ec13c27; 0x00000000; 0x06d5bc27; 0xe7dff06f; 0x0ed13c27; 0x00000000;
    0x06e5bc27; 0xe5fff06f; 0x0ee13c27; 0x00000000; 0x06f5bc27; 0xe7fff06f; 0x0ef13c27; 0x00000000;
    0x0a85bc27; 0xed1ff06f; 0x0f013c27; 0x00000000; 0x0a95bc27; 0xef1ff06f; 0x0f113c27; 0x00000000;
    0x0aa5bc27; 0xed3ff06f; 0x0f213c27; 0x00000000; 0x0ab5bc27; 0xef3ff06f; 0x0f313c27; 0x00000000;
    0x0ac5bc27; 0xed5ff06f; 0x0f413c27; 0x00000000; 0x0ad5bc27; 0xef5ff06f; 0x0f513c27; 0x00000000;
    0x0ae5bc27; 0xed7ff06f; 0x0f613c27; 0x00000000; 0x0af5bc27; 0xef7ff06f; 0x0f713c27; 0x00000000;
    0x0e85bc27; 0xed9ff06f; 0x0f813c27; 0x00000000; 0x0e95bc27; 0xef9ff06f; 0x0f913c27; 0x00000000;
    0x0ea5bc27; 0xedbff06f; 0x0fa13c27; 0x00000000; 0x0eb5bc27; 0xefbff06f; 0x0fb13c27; 0x00000000;
    0x0ec5bc27; 0xeddff06f; 0x0fc13c27; 0x00000000; 0x0ed5bc27; 0xefdff06f; 0x0fd13c27; 0x00000000;
    0x0ee5bc27; 0xedfff06f; 0x0fe13c27; 0x00000000; 0x0ef5bc27; 0xeffff06f; 0x0ff13c27; 0x00000000;
    0x02863c27; 0xb11ff06f; 0x12013c27; 0x00000000; 0x02963c27; 0xb31ff06f; 0x12113c27; 0x00000000;
    0x02a63c27; 0xb13ff06f; 0x12213c27; 0x00000000; 0x02b63c27; 0xb33ff06f; 0x12313c27; 0x00000000;
    0x02c63c27; 0xb15ff06f; 0x12413c27; 0x00000000; 0x02d63c27; 0xb35ff06f; 0x12513c27; 0x00000000;
    0x02e63c27; 0xb17ff06f; 0x12613c27; 0x00000000; 0x02f63c27; 0xb37ff06f; 0x12713c27; 0x00000000;
    0x06863c27; 0xb19ff06f; 0x12813c27; 0x00000000; 0x06963c27; 0xb39ff06f; 0x12913c27; 0x00000000;
    0x06a63c27; 0xb1bff06f; 0x12a13c27; 0x00000000; 0x06b63c27; 0xb3bff06f; 0x12b13c27; 0x00000000;
    0x06c63c27; 0xb1dff06f; 0x12c13c27; 0x00000000; 0x06d63c27; 0xb3dff06f; 0x12d13c27; 0x00000000;
    0x06e63c27; 0xb1fff06f; 0x12e13c27; 0x00000000; 0x06f63c27; 0xb3fff06f; 0x12f13c27; 0x00000000;
    0x0a863c27; 0xb91ff06f; 0x13013c27; 0x00000000; 0x0a963c27; 0xbb1ff06f; 0x13113c27; 0x00000000;
    0x0aa63c27; 0xb93ff06f; 0x13213c27; 0x00000000; 0x0ab63c27; 0xbb3ff06f; 0x13313c27; 0x00000000;
    0x0ac63c27; 0xb95ff06f; 0x13413c27; 0x00000000; 0x0ad63c27; 0xbb5ff06f; 0x13513c27; 0x00000000;
    0x0ae63c27; 0xb97ff06f; 0x13613c27; 0x00000000; 0x0af63c27; 0xbb7ff06f; 0x13713c27; 0x00000000;
    0x0e863c27; 0xb99ff06f; 0x13813c27; 0x00000000; 0x0e963c27; 0xbb9ff06f; 0x13913c27; 0x00000000;
    0x0ea63c27; 0xb9bff06f; 0x13a13c27; 0x00000000; 0x0eb63c27; 0xbbbff06f; 0x13b13c27; 0x00000000;
    0x0ec63c27; 0xb9dff06f; 0x13c13c27; 0x00000000; 0x0ed63c27; 0xbbdff06f; 0x13d13c27; 0x00000000;
    0x0ee63c27; 0xb9fff06f; 0x13e13c27; 0x00000000; 0x0ef63c27; 0xbbfff06f; 0x13f13c27; 0x00000000;
    0x0286bc27; 0xb51ff06f; 0x16013c27; 0x00000000; 0x0296bc27; 0xb71ff06f; 0x16113c27; 0x00000000;
    0x02a6bc27; 0xb53ff06f; 0x16213c27; 0x00000000; 0x02b6bc27; 0xb73ff06f; 0x16313c27; 0x00000000;
    0x02c6bc27; 0xb55ff06f; 0x16413c27; 0x00000000; 0x02d6bc27; 0xb75ff06f; 0x16513c27; 0x00000000;
    0x02e6bc27; 0xb57ff06f; 0x16613c27; 0x00000000; 0x02f6bc27; 0xb77ff06f; 0x16713c27; 0x00000000;
    0x0686bc27; 0xb59ff06f; 0x16813c27; 0x00000000; 0x0696bc27; 0xb79ff06f; 0x16913c27; 0x00000000;
    0x06a6bc27; 0xb5bff06f; 0x16a13c27; 0x00000000; 0x06b6bc27; 0xb7bff06f; 0x16b13c27; 0x00000000;
    0x06c6bc27; 0xb5dff06f; 0x16c13c27; 0x00000000; 0x06d6bc27; 0xb7dff06f; 0x16d13c27; 0x00000000;
    0x06e6bc27; 0xb5fff06f; 0x16e13c27; 0x00000000; 0x06f6bc27; 0xb7fff06f; 0x16f13c27; 0x00000000;
    0x0a86bc27; 0xbd1ff06f; 0x17013c27; 0x00000000; 0x0a96bc27; 0xbf1ff06f; 0x17113c27; 0x00000000;
    0x0aa6bc27; 0xbd3ff06f; 0x17213c27; 0x00000000; 0x0ab6bc27; 0xbf3ff06f; 0x17313c27; 0x00000000;
    0x0ac6bc27; 0xbd5ff06f; 0x17413c27; 0x00000000; 0x0ad6bc27; 0xbf5ff06f; 0x17513c27; 0x00000000;
    0x0ae6bc27; 0xbd7ff06f; 0x17613c27; 0x00000000; 0x0af6bc27; 0xbf7ff06f; 0x17713c27; 0x00000000;
    0x0e86bc27; 0xbd9ff06f; 0x17813c27; 0x00000000; 0x0e96bc27; 0xbf9ff06f; 0x17913c27; 0x00000000;
    0x0ea6bc27; 0xbdbff06f; 0x17a13c27; 0x00000000; 0x0eb6bc27; 0xbfbff06f; 0x17b13c27; 0x00000000;
    0x0ec6bc27; 0xbddff06f; 0x17c13c27; 0x00000000; 0x0ed6bc27; 0xbfdff06f; 0x17d13c27; 0x00000000;
    0x0ee6bc27; 0xbdfff06f; 0x17e13c27; 0x00000000; 0x0ef6bc27; 0xbffff06f; 0x17f13c27; 0x00000000;
    0x02873c27; 0xf11ff06f; 0x1a013c27; 0x00000000; 0x02973c27; 0xf31ff06f; 0x1a113c27; 0x00000000;
    0x02a73c27; 0xf13ff06f; 0x1a213c27; 0x00000000; 0x02b73c27; 0xf33ff06f; 0x1a313c27; 0x00000000;
    0x02c73c27; 0xf15ff06f; 0x1a413c27; 0x00000000; 0x02d73c27; 0xf35ff06f; 0x1a513c27; 0x00000000;
    0x02e73c27; 0xf17ff06f; 0x1a613c27; 0x00000000; 0x02f73c27; 0xf37ff06f; 0x1a713c27; 0x00000000;
    0x06873c27; 0xf19ff06f; 0x1a813c27; 0x00000000; 0x06973c27; 0xf39ff06f; 0x1a913c27; 0x00000000;
    0x06a73c27; 0xf1bff06f; 0x1aa13c27; 0x00000000; 0x06b73c27; 0xf3bff06f; 0x1ab13c27; 0x00000000;
    0x06c73c27; 0xf1dff06f; 0x1ac13c27; 0x00000000; 0x06d73c27; 0xf3dff06f; 0x1ad13c27; 0x00000000;
    0x06e73c27; 0xf1fff06f; 0x1ae13c27; 0x00000000; 0x06f73c27; 0xf3fff06f; 0x1af13c27; 0x00000000;
    0x0a873c27; 0xf91ff06f; 0x1b013c27; 0x00000000; 0x0a973c27; 0xfb1ff06f; 0x1b113c27; 0x00000000;
    0x0aa73c27; 0xf93ff06f; 0x1b213c27; 0x00000000; 0x0ab73c27; 0xfb3ff06f; 0x1b313c27; 0x00000000;
    0x0ac73c27; 0xf95ff06f; 0x1b413c27; 0x00000000; 0x0ad73c27; 0xfb5ff06f; 0x1b513c27; 0x00000000;
    0x0ae73c27; 0xf97ff06f; 0x1b613c27; 0x00000000; 0x0af73c27; 0xfb7ff06f; 0x1b713c27; 0x00000000;
    0x0e873c27; 0xf99ff06f; 0x1b813c27; 0x00000000; 0x0e973c27; 0xfb9ff06f; 0x1b913c27; 0x00000000;
    0x0ea73c27; 0xf9bff06f; 0x1ba13c27; 0x00000000; 0x0eb73c27; 0xfbbff06f; 0x1bb13c27; 0x00000000;
    0x0ec73c27; 0xf9dff06f; 0x1bc13c27; 0x00000000; 0x0ed73c27; 0xfbdff06f; 0x1bd13c27; 0x00000000;
    0x0ee73c27; 0xf9fff06f; 0x1be13c27; 0x00000000; 0x0ef73c27; 0xfbfff06f; 0x1bf13c27; 0x00000000;
    0x0287bc27; 0xf51ff06f; 0x1e013c27; 0x00000000; 0x0297bc27; 0xf71ff06f; 0x1e113c27; 0x00000000;
    0x02a7bc27; 0xf53ff06f; 0x1e213c27; 0x00000000; 0x02b7bc27; 0xf73ff06f; 0x1e313c27; 0x00000000;
    0x02c7bc27; 0xf55ff06f; 0x1e413c27; 0x00000000; 0x02d7bc27; 0xf75ff06f; 0x1e513c27; 0x00000000;
    0x02e7bc27; 0xf57ff06f; 0x1e613c27; 0x00000000; 0x02f7bc27; 0xf77ff06f; 0x1e713c27; 0x00000000;
    0x0687bc27; 0xf59ff06f; 0x1e813c27; 0x00000000; 0x0697bc27; 0xf79ff06f; 0x1e913c27; 0x00000000;
    0x06a7bc27; 0xf5bff06f; 0x1ea13c27; 0x00000000; 0x06b7bc27; 0xf7bff06f; 0x1eb13c27; 0x00000000;
    0x06c7bc27; 0xf5dff06f; 0x1ec13c27; 0x00000000; 0x06d7bc27; 0xf7dff06f; 0x1ed13c27; 0x00000000;
    0x06e7bc27; 0xf5fff06f; 0x1ee13c27; 0x00000000; 0x06f7bc27; 0xf7fff06f; 0x1ef13c27; 0x00000000;
    0x0a87bc27; 0xfd1ff06f; 0x1f013c27; 0x00000000; 0x0a97bc27; 0xff1ff06f; 0x1f113c27; 0x00000000;
    0x0aa7bc27; 0xfd3ff06f; 0x1f213c27; 0x00000000; 0x0ab7bc27; 0xff3ff06f; 0x1f313c27; 0x00000000;
    0x0ac7bc27; 0xfd5ff06f; 0x1f413c27; 0x00000000; 0x0ad7bc27; 0xff5ff06f; 0x1f513c27; 0x00000000;
    0x0ae7bc27; 0xfd7ff06f; 0x1f613c27; 0x00000000; 0x0af7bc27; 0xff7ff06f; 0x1f713c27; 0x00000000;
    0x0e87bc27; 0xfd9ff06f; 0x1f813c27; 0x00000000; 0x0e97bc27; 0xff9ff06f; 0x1f913c27; 0x00000000;
    0x0ea7bc27; 0xfdbff06f; 0x1fa13c27; 0x00000000; 0x0eb7bc27; 0xffbff06f; 0x1fb13c27; 0x00000000;
    0x0ec7bc27; 0xfddff06f; 0x1fc13c27; 0x00000000; 0x0ed7bc27; 0xffdff06f; 0x1fd13c27; 0x00000000;
    0x0ee7bc27; 0xfdfff06f; 0x1fe13c27; 0x00000000; 0x0ef7bc27; 0xfffff06f; 0x1ff13c27; 0x00000000
].
