(* ===== verification/RvcTable6.v ===== *)
(** * RvcTable6: entries 0xc000 to 0xdfff of [RVC64_EXPANDED] (tools/rvc.rs)

    Eight definitions of 128 source lines (1024 entries) each, in the order and with the
    grouping of the source; [RvcTable] concatenates them. *)
From S2P Require Import Prelude.

(** parcels 0xc000 to 0xc3ff *)
Definition RVC64_EXPANDED_48 : list Z := [
    0x00842023; 0x00040063; 0x00012023; 0x00000000; 0x00942023; 0x02040063; 0x00112023; 0x00000000;
    0x00a42023; 0x00040163; 0x00212023; 0x00000000; 0x00b42023; 0x02040163; 0x00312023; 0x00000000;
    0x00c42023; 0x00040263; 0x00412023; 0x00000000; 0x00d42023; 0x02040263; 0x00512023; 0x00000000;
    0x00e42023; 0x00040363; 0x00612023; 0x00000000; 0x00f42023; 0x02040363; 0x00712023; 0x00000000;
    0x04842023; 0x04040063; 0x00812023; 0x00000000; 0x04942023; 0x06040063; 0x00912023; 0x00000000;
    0x04a42023; 0x04040163; 0x00a12023; 0x00000000; 0x04b42023; 0x06040163; 0x00b12023; 0x00000000;
    0x04c42023; 0x04040263; 0x00c12023; 0x00000000; 0x04d42023; 0x06040263; 0x00d12023; 0x00000000;
    0x04e42023; 0x04040363; 0x00e12023; 0x00000000; 0x04f42023; 0x06040363; 0x00f12023; 0x00000000;
    0x00842223; 0x08040063; 0x01012023; 0x00000000; 0x00942223; 0x0a040063; 0x01112023; 0x00000000;
    0x00a42223; 0x08040163; 0x01212023; 0x00000000; 0x00b42223; 0x0a040163; 0x01312023; 0x00000000;
    0x00c42223; 0x08040263; 0x01412023; 0x00000000; 0x00d42223; 0x0a040263; 0x01512023; 0x00000000;
    0x00e42223; 0x08040363; 0x01612023; 0x00000000; 0x00f42223; 0x0a040363; 0x01712023; 0x00000000;
    0x04842223; 0x0c040063; 0x01812023; 0x00000000; 0x04942223; 0x0e040063; 0x01912023; 0x00000000;
    0x04a42223; 0x0c040163; 0x01a12023; 0x00000000; 0x04b42223; 0x0e040163; 0x01b12023; 0x00000000;
    0x04c42223; 0x0c040263; 0x01c12023; 0x00000000; 0x04d42223; 0x0e040263; 0x01d12023; 0x00000000;
    0x04e42223; 0x0c040363; 0x01e12023; 0x00000000; 0x04f42223; 0x0e040363; 0x01f12023; 0x00000000;
    0x0084a023; 0x00048063; 0x04012023; 0x00000000; 0x0094a023; 0x02048063; 0x04112023; 0x00000000;
    0x00a4a023; 0x00048163; 0x04212023; 0x00000000; 0x00b4a023; 0x02048163; 0x04312023; 0x00000000;
    0x00c4a023; 0x00048263; 0x04412023; 0x00000000; 0x00d4a023; 0x02048263; 0x04512023; 0x00000000;
    0x00e4a023; 0x00048363; 0x04612023; 0x00000000; 0x00f4a023; 0x02048363; 0x04712023; 0x00000000;
    0x0484a023; 0x04048063; 0x04812023; 0x00000000; 0x0494a023; 0x06048063; 0x04912023; 0x00000000;
    0x04a4a023; 0x04048163; 0x04a12023; 0x00000000; 0x04b4a023; 0x06048163; 0x04b12023; 0x00000000;
    0x04c4a023; 0x04048263; 0x04c12023; 0x00000000; 0x04d4a023; 0x06048263; 0x04d12023; 0x00000000;
    0x04e4a023; 0x04048363; 0x04e12023; 0x00000000; 0x04f4a023; 0x06048363; 0x04f12023; 0x00000000;
    0x0084a223; 0x08048063; 0x05012023; 0x00000000; 0x0094a223; 0x0a048063; 0x05112023; 0x00000000;
    0x00a4a223; 0x08048163; 0x05212023; 0x00000000; 0x00b4a223; 0x0a048163; 0x05312023; 0x00000000;
    0x00c4a223; 0x08048263; 0x05412023; 0x00000000; 0x00d4a223; 0x0a048263; 0x05512023; 0x00000000;
    0x00e4a223; 0x08048363; 0x05612023; 0x00000000; 0x00f4a223; 0x0a048363; 0x05712023; 0x00000000;
    0x0484a223; 0x0c048063; 0x05812023; 0x00000000; 0x0494a223; 0x0e048063; 0x05912023; 0x00000000;
    0x04a4a223; 0x0c048163; 0x05a12023; 0x00000000; 0x04b4a223; 0x0e048163; 0x05b12023; 0x00000000;
    0x04c4a223; 0x0c048263; 0x05c12023; 0x00000000; 0x04d4a223; 0x0e048263; 0x05d12023; 0x00000000;
    0x04e4a223; 0x0c048363; 0x05e12023; 0x00000000; 0x04f4a223; 0x0e048363; 0x05f12023; 0x00000000;
    0x00852023; 0x00050063; 0x08012023; 0x00000000; 0x00952023; 0x02050063; 0x08112023; 0x00000000;
    0x00a52023; 0x00050163; 0x08212023; 0x00000000; 0x00b52023; 0x02050163; 0x08312023; 0x00000000;
    0x00c52023; 0x00050263; 0x08412023; 0x00000000; 0x00d52023; 0x02050263; 0x08512023; 0x00000000;
    0x00e52023; 0x00050363; 0x08612023; 0x00000000; 0x00f52023; 0x02050363; 0x08712023; 0x00000000;
    0x04852023; 0x04050063; 0x08812023; 0x00000000; 0x04952023; 0x06050063; 0x08912023; 0x00000000;
    0x04a52023; 0x04050163; 0x08a12023; 0x00000000; 0x04b52023; 0x06050163; 0x08b12023; 0x00000000;
    0x04c52023; 0x04050263; 0x08c12023; 0x00000000; 0x04d52023; 0x06050263; 0x08d12023; 0x00000000;
    0x04e52023; 0x04050363; 0x08e12023; 0x00000000; 0x04f52023; 0x06050363; 0x08f12023; 0x00000000;
    0x00852223; 0x08050063; 0x09012023; 0x00000000; 0x00952223; 0x0a050063; 0x09112023; 0x00000000;
    0x00a52223; 0x08050163; 0x09212023; 0x00000000; 0x00b52223; 0x0a050163; 0x09312023; 0x00000000;
    0x00c52223; 0x08050263; 0x09412023; 0x00000000; 0x00d52223; 0x0a050263; 0x09512023; 0x00000000;
    0x00e52223; 0x08050363; 0x09612023; 0x00000000; 0x00f52223; 0x0a050363; 0x09712023; 0x00000000;
    0x04852223; 0x0c050063; 0x09812023; 0x00000000; 0x04952223; 0x0e050063; 0x09912023; 0x00000000;
    0x04a52223; 0x0c050163; 0x09a12023; 0x00000000; 0x04b52223; 0x0e050163; 0x09b12023; 0x00000000;
    0x04c52223; 0x0c050263; 0x09c12023; 0x00000000; 0x04d52223; 0x0e050263; 0x09d12023; 0x00000000;
    0x04e52223; 0x0c050363; 0x09e12023; 0x00000000; 0x04f52223; 0x0e050363; 0x09f12023; 0x00000000;
    0x0085a023; 0x00058063; 0x0c012023; 0x00000000; 0x0095a023; 0x02058063; 0x0c112023; 0x00000000;
    0x00a5a023; 0x00058163; 0x0c212023; 0x00000000; 0x00b5a023; 0x02058163; 0x0c312023; 0x00000000;
    0x00c5a023; 0x00058263; 0x0c412023; 0x00000000; 0x00d5a023; 0x02058263; 0x0c512023; 0x00000000;
    0x00e5a023; 0x00058363; 0x0c612023; 0x00000000; 0x00f5a023; 0x02058363; 0x0c712023; 0x00000000;
    0x0485a023; 0x04058063; 0x0c812023; 0x00000000; 0x0495a023; 0x06058063; 0x0c912023; 0x00000000;
    0x04a5a023; 0x04058163; 0x0ca12023; 0x00000000; 0x04b5a023; 0x06058163; 0x0cb12023; 0x00000000;
    0x04c5a023; 0x04058263; 0x0cc12023; 0x00000000; 0x04d5a023; 0x06058263; 0x0cd12023; 0x00000000;
    0x04e5a023; 0x04058363; 0x0ce12023; 0x00000000; 0x04f5a023; 0x06058363; 0x0cf12023; 0x00000000;
    0x0085a223; 0x08058063; 0x0d012023; 0x00000000; 0x0095a223; 0x0a058063; 0x0d112023; 0x00000000;
    0x00a5a223; 0x08058163; 0x0d212023; 0x00000000; 0x00b5a223; 0x0a058163; 0x0d312023; 0x00000000;
    0x00c5a223; 0x08058263; 0x0d412023; 0x00000000; 0x00d5a223; 0x0a058263; 0x0d512023; 0x00000000;
    0x00e5a223; 0x08058363; 0x0d612023; 0x00000000; 0x00f5a223; 0x0a058363; 0x0d712023; 0x00000000;
    0x0485a223; 0x0c058063; 0x0d812023; 0x00000000; 0x0495a223; 0x0e058063; 0x0d912023; 0x00000000;
    0x04a5a223; 0x0c058163; 0x0da12023; 0x00000000; 0x04b5a223; 0x0e058163; 0x0db12023; 0x00000000;
    0x04c5a223; 0x0c058263; 0x0dc12023; 0x00000000; 0x04d5a223; 0x0e058263; 0x0dd12023; 0x00000000;
    0x04e5a223; 0x0c058363; 0x0de12023; 0x00000000; 0x04f5a223; 0x0e058363; 0x0df12023; 0x00000000;
    0x00862023; 0x00060063; 0x00012223; 0x00000000; 0x00962023; 0x02060063; 0x00112223; 0x00000000;
    0x00a62023; 0x00060163; 0x00212223; 0x00000000; 0x00b62023; 0x02060163; 0x00312223; 0x00000000;
    0x00c62023; 0x00060263; 0x00412223; 0x00000000; 0x00d62023; 0x02060263; 0x00512223; 0x00000000;
    0x00e62023; 0x00060363; 0x00612223; 0x00000000; 0x00f62023; 0x02060363; 0x00712223; 0x00000000;
    0x04862023; 0x04060063; 0x00812223; 0x00000000; 0x04962023; 0x06060063; 0x00912223; 0x00000000;
    0x04a62023; 0x04060163; 0x00a12223; 0x00000000; 0x04b62023; 0x06060163; 0x00b12223; 0x00000000;
    0x04c62023; 0x04060263; 0x00c12223; 0x00000000; 0x04d62023; 0x06060263; 0x00d12223; 0x00000000;
    0x04e62023; 0x04060363; 0x00e12223; 0x00000000; 0x04f62023; 0x06060363; 0x00f12223; 0x00000000;
    0x00862223; 0x08060063; 0x01012223; 0x00000000; 0x00962223; 0x0a060063; 0x01112223; 0x00000000;
    0x00a62223; 0x08060163; 0x01212223; 0x00000000; 0x00b62223; 0x0a060163; 0x01312223; 0x00000000;
    0x00c62223; 0x08060263; 0x01412223; 0x00000000; 0x00d62223; 0x0a060263; 0x01512223; 0x00000000;
    0x00e62223; 0x08060363; 0x01612223; 0x00000000; 0x00f62223; 0x0a060363; 0x01712223; 0x00000000;
    0x04862223; 0x0c060063; 0x01812223; 0x00000000; 0x04962223; 0x0e060063; 0x01912223; 0x00000000;
    0x04a62223; 0x0c060163; 0x01a12223; 0x00000000; 0x04b62223; 0x0e060163; 0x01b12223; 0x00000000;
    0x04c62223; 0x0c060263; 0x01c12223; 0x00000000; 0x04d62223; 0x0e060263; 0x01d12223; 0x00000000;
    0x04e62223; 0x0c060363; 0x01e12223; 0x00000000; 0x04f62223; 0x0e060363; 0x01f12223; 0x00000000;
    0x0086a023; 0x00068063; 0x04012223; 0x00000000; 0x0096a023; 0x02068063; 0x04112223; 0x00000000;
    0x00a6a023; 0x00068163; 0x04212223; 0x00000000; 0x00b6a023; 0x02068163; 0x04312223; 0x00000000;
    0x00c6a023; 0x00068263; 0x04412223; 0x00000000; 0x00d6a023; 0x02068263; 0x04512223; 0x00000000;
    0x00e6a023; 0x00068363; 0x04612223; 0x00000000; 0x00f6a023; 0x02068363; 0x04712223; 0x00000000;
    0x0486a023; 0x04068063; 0x04812223; 0x00000000; 0x0496a023; 0x06068063; 0x04912223; 0x00000000;
    0x04a6a023; 0x04068163; 0x04a12223; 0x00000000; 0x04b6a023; 0x06068163; 0x04b12223; 0x00000000;
    0x04c6a023; 0x04068263; 0x04c12223; 0x00000000; 0x04d6a023; 0x06068263; 0x04d12223; 0x00000000;
    0x04e6a023; 0x04068363; 0x04e12223; 0x00000000; 0x04f6a023; 0x06068363; 0x04f12223; 0x00000000;
    0x0086a223; 0x08068063; 0x05012223; 0x00000000; 0x0096a223; 0x0a068063; 0x05112223; 0x00000000;
    0x00a6a223; 0x08068163; 0x05212223; 0x00000000; 0x00b6a223; 0x0a068163; 0x05312223; 0x00000000;
    0x00c6a223; 0x08068263; 0x05412223; 0x00000000; 0x00d6a223; 0x0a068263; 0x05512223; 0x00000000;
    0x00e6a223; 0x08068363; 0x05612223; 0x00000000; 0x00f6a223; 0x0a068363; 0x05712223; 0x00000000;
    0x0486a223; 0x0c068063; 0x05812223; 0x00000000; 0x0496a223; 0x0e068063; 0x05912223; 0x00000000;
    0x04a6a223; 0x0c068163; 0x05a12223; 0x00000000; 0x04b6a223; 0x0e068163; 0x05b12223; 0x00000000;
    0x04c6a223; 0x0c068263; 0x05c12223; 0x00000000; 0x04d6a223; 0x0e068263; 0x05d12223; 0x00000000;
    0x04e6a223; 0x0c068363; 0x05e12223; 0x00000000; 0x04f6a223; 0x0e068363; 0x05f12223; 0x00000000;
    0x00872023; 0x00070063; 0x08012223; 0x00000000; 0x00972023; 0x02070063; 0x08112223; 0x00000000;
    0x00a72023; 0x00070163; 0x08212223; 0x00000000; 0x00b72023; 0x02070163; 0x08312223; 0x00000000;
    0x00c72023; 0x00070263; 0x08412223; 0x00000000; 0x00d72023; 0x02070263; 0x08512223; 0x00000000;
    0x00e72023; 0x00070363; 0x08612223; 0x00000000; 0x00f72023; 0x02070363; 0x08712223; 0x00000000;
    0x04872023; 0x04070063; 0x08812223; 0x00000000; 0x04972023; 0x06070063; 0x08912223; 0x00000000;
    0x04a72023; 0x04070163; 0x08a12223; 0x00000000; 0x04b72023; 0x06070163; 0x08b12223; 0x00000000;
    0x04c72023; 0x04070263; 0x08c12223; 0x00000000; 0x04d72023; 0x06070263; 0x08d12223; 0x00000000;
    0x04e72023; 0x04070363; 0x08e12223; 0x00000000; 0x04f72023; 0x06070363; 0x08f12223; 0x00000000;
    0x00872223; 0x08070063; 0x09012223; 0x00000000; 0x00972223; 0x0a070063; 0x09112223; 0x00000000;
    0x00a72223; 0x08070163; 0x09212223; 0x00000000; 0x00b72223; 0x0a070163; 0x09312223; 0x00000000;
    0x00c72223; 0x08070263; 0x09412223; 0x00000000; 0x00d72223; 0x0a070263; 0x09512223; 0x00000000;
    0x00e72223; 0x08070363; 0x09612223; 0x00000000; 0x00f72223; 0x0a070363; 0x09712223; 0x00000000;
    0x04872223; 0x0c070063; 0x09812223; 0x00000000; 0x04972223; 0x0e070063; 0x09912223; 0x00000000;
    0x04a72223; 0x0c070163; 0x09a12223; 0x00000000; 0x04b72223; 0x0e070163; 0x09b12223; 0x00000000;
    0x04c72223; 0x0c070263; 0x09c12223; 0x00000000; 0x04d72223; 0x0e070263; 0x09d12223; 0x00000000;
    0x04e72223; 0x0c070363; 0x09e12223; 0x00000000; 0x04f72223; 0x0e070363; 0x09f12223; 0x00000000;
    0x0087a023; 0x00078063; 0x0c012223; 0x00000000; 0x0097a023; 0x02078063; 0x0c112223; 0x00000000;
    0x00a7a023; 0x00078163; 0x0c212223; 0x00000000; 0x00b7a023; 0x02078163; 0x0c312223; 0x00000000;
    0x00c7a023; 0x00078263; 0x0c412223; 0x00000000; 0x00d7a023; 0x02078263; 0x0c512223; 0x00000000;
    0x00e7a023; 0x00078363; 0x0c612223; 0x00000000; 0x00f7a023; 0x02078363; 0x0c712223; 0x00000000;
    0x0487a023; 0x04078063; 0x0c812223; 0x00000000; 0x0497a023; 0x06078063; 0x0c912223; 0x00000000;
    0x04a7a023; 0x04078163; 0x0ca12223; 0x00000000; 0x04b7a023; 0x06078163; 0x0cb12223; 0x00000000;
    0x04c7a023; 0x04078263; 0x0cc12223; 0x00000000; 0x04d7a023; 0x06078263; 0x0cd12223; 0x00000000;
    0x04e7a023; 0x04078363; 0x0ce12223; 0x00000000; 0x04f7a023; 0x06078363; 0x0cf12223; 0x00000000;
    0x0087a223; 0x08078063; 0x0d012223; 0x00000000; 0x0097a223; 0x0a078063; 0x0d112223; 0x00000000;
    0x00a7a223; 0x08078163; 0x0d212223; 0x00000000; 0x00b7a223; 0x0a078163; 0x0d312223; 0x00000000;
    0x00c7a223; 0x08078263; 0x0d412223; 0x00000000; 0x00d7a223; 0x0a078263; 0x0d512223; 0x00000000;
    0x00e7a223; 0x08078363; 0x0d612223; 0x00000000; 0x00f7a223; 0x0a078363; 0x0d712223; 0x00000000;
    0x0487a223; 0x0c078063; 0x0d812223; 0x00000000; 0x0497a223; 0x0e078063; 0x0d912223; 0x00000000;
    0x04a7a223; 0x0c078163; 0x0da12223; 0x00000000; 0x04b7a223; 0x0e078163; 0x0db12223; 0x00000000;
    0x04c7a223; 0x0c078263; 0x0dc12223; 0x00000000; 0x04d7a223; 0x0e078263; 0x0dd12223; 0x00000000;
    0x04e7a223; 0x0c078363; 0x0de12223; 0x00000000; 0x04f7a223; 0x0e078363; 0x0df12223; 0x00000000
].

(** parcels 0xc400 to 0xc7ff *)
Definition RVC64_EXPANDED_49 : list Z := [
    0x00842423; 0x00040463; 0x00012423; 0x00000000; 0x00942423; 0x02040463; 0x00112423; 0x00000000;
    0x00a42423; 0x00040563; 0x00212423; 0x00000000; 0x00b42423; 0x02040563; 0x00312423; 0x00000000;
    0x00c42423; 0x00040663; 0x00412423; 0x00000000; 0x00d42423; 0x02040663; 0x00512423; 0x00000000;
    0x00e42423; 0x00040763; 0x00612423; 0x00000000; 0x00f42423; 0x02040763; 0x00712423; 0x00000000;
    0x04842423; 0x04040463; 0x00812423; 0x00000000; 0x04942423; 0x06040463; 0x00912423; 0x00000000;
    0x04a42423; 0x04040563; 0x00a12423; 0x00000000; 0x04b42423; 0x06040563; 0x00b12423; 0x00000000;
    0x04c42423; 0x04040663; 0x00c12423; 0x00000000; 0x04d42423; 0x06040663; 0x00d12423; 0x00000000;
    0x04e42423; 0x04040763; 0x00e12423; 0x00000000; 0x04f42423; 0x06040763; 0x00f12423; 0x00000000;
    0x00842623; 0x08040463; 0x01012423; 0x00000000; 0x00942623; 0x0a040463; 0x01112423; 0x00000000;
    0x00a42623; 0x08040563; 0x01212423; 0x00000000; 0x00b42623; 0x0a040563; 0x01312423; 0x00000000;
    0x00c42623; 0x08040663; 0x01412423; 0x00000000; 0x00d42623; 0x0a040663; 0x01512423; 0x00000000;
    0x00e42623; 0x08040763; 0x01612423; 0x00000000; 0x00f42623; 0x0a040763; 0x01712423; 0x00000000;
    0x04842623; 0x0c040463; 0x01812423; 0x00000000; 0x04942623; 0x0e040463; 0x01912423; 0x00000000;
    0x04a42623; 0x0c040563; 0x01a12423; 0x00000000; 0x04b42623; 0x0e040563; 0x01b12423; 0x00000000;
    0x04c42623; 0x0c040663; 0x01c12423; 0x00000000; 0x04d42623; 0x0e040663; 0x01d12423; 0x00000000;
    0x04e42623; 0x0c040763; 0x01e12423; 0x00000000; 0x04f42623; 0x0e040763; 0x01f12423; 0x00000000;
    0x0084a423; 0x00048463; 0x04012423; 0x00000000; 0x0094a423; 0x02048463; 0x04112423; 0x00000000;
    0x00a4a423; 0x00048563; 0x04212423; 0x00000000; 0x00b4a423; 0x02048563; 0x04312423; 0x00000000;
    0x00c4a423; 0x00048663; 0x04412423; 0x00000000; 0x00d4a423; 0x02048663; 0x04512423; 0x00000000;
    0x00e4a423; 0x00048763; 0x04612423; 0x00000000; 0x00f4a423; 0x02048763; 0x04712423; 0x00000000;
    0x0484a423; 0x04048463; 0x04812423; 0x00000000; 0x0494a423; 0x06048463; 0x04912423; 0x00000000;
    0x04a4a423; 0x04048563; 0x04a12423; 0x00000000; 0x04b4a423; 0x06048563; 0x04b12423; 0x00000000;
    0x04c4a423; 0x04048663; 0x04c12423; 0x00000000; 0x04d4a423; 0x06048663; 0x04d12423; 0x00000000;
    0x04e4a423; 0x04048763; 0x04e12423; 0x00000000; 0x04f4a423; 0x06048763; 0x04f12423; 0x00000000;
    0x0084a623; 0x08048463; 0x05012423; 0x00000000; 0x0094a623; 0x0a048463; 0x05112423; 0x00000000;
    0x00a4a623; 0x08048563; 0x05212423; 0x00000000; 0x00b4a623; 0x0a048563; 0x05312423; 0x00000000;
    0x00c4a623; 0x08048663; 0x05412423; 0x00000000; 0x00d4a623; 0x0a048663; 0x05512423; 0x00000000;
    0x00e4a623; 0x08048763; 0x05612423; 0x00000000; 0x00f4a623; 0x0a048763; 0x05712423; 0x00000000;
    0x0484a623; 0x0c048463; 0x05812423; 0x00000000; 0x0494a623; 0x0e048463; 0x05912423; 0x00000000;
    0x04a4a623; 0x0c048563; 0x05a12423; 0x00000000; 0x04b4a623; 0x0e048563; 0x05b12423; 0x00000000;
    0x04c4a623; 0x0c048663; 0x05c12423; 0x00000000; 0x04d4a623; 0x0e048663; 0x05d12423; 0x00000000;
    0x04e4a623; 0x0c048763; 0x05e12423; 0x00000000; 0x04f4a623; 0x0e048763; 0x05f12423; 0x00000000;
    0x00852423; 0x00050463; 0x08012423; 0x00000000; 0x00952423; 0x02050463; 0x08112423; 0x00000000;
    0x00a52423; 0x00050563; 0x08212423; 0x00000000; 0x00b52423; 0x02050563; 0x08312423; 0x00000000;
    0x00c52423; 0x00050663; 0x08412423; 0x00000000; 0x00d52423; 0x02050663; 0x08512423; 0x00000000;
    0x00e52423; 0x00050763; 0x08612423; 0x00000000; 0x00f52423; 0x02050763; 0x08712423; 0x00000000;
    0x04852423; 0x04050463; 0x08812423; 0x00000000; 0x04952423; 0x06050463; 0x08912423; 0x00000000;
    0x04a52423; 0x04050563; 0x08a12423; 0x00000000; 0x04b52423; 0x06050563; 0x08b12423; 0x00000000;
    0x04c52423; 0x04050663; 0x08c12423; 0x00000000; 0x04d52423; 0x06050663; 0x08d12423; 0x00000000;
    0x04e52423; 0x04050763; 0x08e12423; 0x00000000; 0x04f52423; 0x06050763; 0x08f12423; 0x00000000;
    0x00852623; 0x08050463; 0x09012423; 0x00000000; 0x00952623; 0x0a050463; 0x09112423; 0x00000000;
    0x00a52623; 0x08050563; 0x09212423; 0x00000000; 0x00b52623; 0x0a050563; 0x09312423; 0x00000000;
    0x00c52623; 0x08050663; 0x09412423; 0x00000000; 0x00d52623; 0x0a050663; 0x09512423; 0x00000000;
    0x00e52623; 0x08050763; 0x09612423; 0x00000000; 0x00f52623; 0x0a050763; 0x09712423; 0x00000000;
    0x04852623; 0x0c050463; 0x09812423; 0x00000000; 0x04952623; 0x0e050463; 0x09912423; 0x00000000;
    0x04a52623; 0x0c050563; 0x09a12423; 0x00000000; 0x04b52623; 0x0e050563; 0x09b12423; 0x00000000;
    0x04c52623; 0x0c050663; 0x09c12423; 0x00000000; 0x04d52623; 0x0e050663; 0x09d12423; 0x00000000;
    0x04e52623; 0x0c050763; 0x09e12423; 0x00000000; 0x04f52623; 0x0e050763; 0x09f12423; 0x00000000;
    0x0085a423; 0x00058463; 0x0c012423; 0x00000000; 0x0095a423; 0x02058463; 0x0c112423; 0x00000000;
    0x00a5a423; 0x00058563; 0x0c212423; 0x00000000; 0x00b5a423; 0x02058563; 0x0c312423; 0x00000000;
    0x00c5a423; 0x00058663; 0x0c412423; 0x00000000; 0x00d5a423; 0x02058663; 0x0c512423; 0x00000000;
    0x00e5a423; 0x00058763; 0x0c612423; 0x00000000; 0x00f5a423; 0x02058763; 0x0c712423; 0x00000000;
    0x0485a423; 0x04058463; 0x0c812423; 0x00000000; 0x0495a423; 0x06058463; 0x0c912423; 0x00000000;
    0x04a5a423; 0x04058563; 0x0ca12423; 0x00000000; 0x04b5a423; 0x06058563; 0x0cb12423; 0x00000000;
    0x04c5a423; 0x04058663; 0x0cc12423; 0x00000000; 0x04d5a423; 0x06058663; 0x0cd12423; 0x00000000;
    0x04e5a423; 0x04058763; 0x0ce12423; 0x00000000; 0x04f5a423; 0x06058763; 0x0cf12423; 0x00000000;
    0x0085a623; 0x08058463; 0x0d012423; 0x00000000; 0x0095a623; 0x0a058463; 0x0d112423; 0x00000000;
    0x00a5a623; 0x08058563; 0x0d212423; 0x00000000; 0x00b5a623; 0x0a058563; 0x0d312423; 0x00000000;
    0x00c5a623; 0x08058663; 0x0d412423; 0x00000000; 0x00d5a623; 0x0a058663; 0x0d512423; 0x00000000;
    0x00e5a623; 0x08058763; 0x0d612423; 0x00000000; 0x00f5a623; 0x0a058763; 0x0d712423; 0x00000000;
    0x0485a623; 0x0c058463; 0x0d812423; 0x00000000; 0x0495a623; 0x0e058463; 0x0d912423; 0x00000000;
    0x04a5a623; 0x0c058563; 0x0da12423; 0x00000000; 0x04b5a623; 0x0e058563; 0x0db12423; 0x00000000;
    0x04c5a623; 0x0c058663; 0x0dc12423; 0x00000000; 0x04d5a623; 0x0e058663; 0x0dd12423; 0x00000000;
    0x04e5a623; 0x0c058763; 0x0de12423; 0x00000000; 0x04f5a623; 0x0e058763; 0x0df12423; 0x00000000;
    0x00862423; 0x00060463; 0x00012623; 0x00000000; 0x00962423; 0x02060463; 0x00112623; 0x00000000;
    0x00a62423; 0x00060563; 0x00212623; 0x00000000; 0x00b62423; 0x02060563; 0x00312623; 0x00000000;
    0x00c62423; 0x00060663; 0x00412623; 0x00000000; 0x00d62423; 0x02060663; 0x00512623; 0x00000000;
    0x00e62423; 0x00060763; 0x00612623; 0x00000000; 0x00f62423; 0x02060763; 0x00712623; 0x00000000;
    0x04862423; 0x04060463; 0x00812623; 0x00000000; 0x04962423; 0x06060463; 0x00912623; 0x00000000;
    0x04a62423; 0x04060563; 0x00a12623; 0x00000000; 0x04b62423; 0x06060563; 0x00b12623; 0x00000000;
    0x04c62423; 0x04060663; 0x00c12623; 0x00000000; 0x04d62423; 0x06060663; 0x00d12623; 0x00000000;
    0x04e62423; 0x04060763; 0x00e12623; 0x00000000; 0x04f62423; 0x06060763; 0x00f12623; 0x00000000;
    0x00862623; 0x08060463; 0x01012623; 0x00000000; 0x00962623; 0x0a060463; 0x01112623; 0x00000000;
    0x00a62623; 0x08060563; 0x01212623; 0x00000000; 0x00b62623; 0x0a060563; 0x01312623; 0x00000000;
    0x00c62623; 0x08060663; 0x01412623; 0x00000000; 0x00d62623; 0x0a060663; 0x01512623; 0x00000000;
    0x00e62623; 0x08060763; 0x01612623; 0x00000000; 0x00f62623; 0x0a060763; 0x01712623; 0x00000000;
    0x04862623; 0x0c060463; 0x01812623; 0x00000000; 0x04962623; 0x0e060463; 0x01912623; 0x00000000;
    0x04a62623; 0x0c060563; 0x01a12623; 0x00000000; 0x04b62623; 0x0e060563; 0x01b12623; 0x00000000;
    0x04c62623; 0x0c060663; 0x01c12623; 0x00000000; 0x04d62623; 0x0e060663; 0x01d12623; 0x00000000;
    0x04e62623; 0x0c060763; 0x01e12623; 0x00000000; 0x04f62623; 0x0e060763; 0x01f12623; 0x00000000;
    0x0086a423; 0x00068463; 0x04012623; 0x00000000; 0x0096a423; 0x02068463; 0x04112623; 0x00000000;
    0x00a6a423; 0x00068563; 0x04212623; 0x00000000; 0x00b6a423; 0x02068563; 0x04312623; 0x00000000;
    0x00c6a423; 0x00068663; 0x04412623; 0x00000000; 0x00d6a423; 0x02068663; 0x04512623; 0x00000000;
    0x00e6a423; 0x00068763; 0x04612623; 0x00000000; 0x00f6a423; 0x02068763; 0x04712623; 0x00000000;
    0x0486a423; 0x04068463; 0x04812623; 0x00000000; 0x0496a423; 0x06068463; 0x04912623; 0x00000000;
    0x04a6a423; 0x04068563; 0x04a12623; 0x00000000; 0x04b6a423; 0x06068563; 0x04b12623; 0x00000000;
    0x04c6a423; 0x04068663; 0x04c12623; 0x00000000; 0x04d6a423; 0x06068663; 0x04d12623; 0x00000000;
    0x04e6a423; 0x04068763; 0x04e12623; 0x00000000; 0x04f6a423; 0x06068763; 0x04f12623; 0x00000000;
    0x0086a623; 0x08068463; 0x05012623; 0x00000000; 0x0096a623; 0x0a068463; 0x05112623; 0x00000000;
    0x00a6a623; 0x08068563; 0x05212623; 0x00000000; 0x00b6a623; 0x0a068563; 0x05312623; 0x00000000;
    0x00c6a623; 0x08068663; 0x05412623; 0x00000000; 0x00d6a623; 0x0a068663; 0x05512623; 0x00000000;
    0x00e6a623; 0x08068763; 0x05612623; 0x00000000; 0x00f6a623; 0x0a068763; 0x05712623; 0x00000000;
    0x0486a623; 0x0c068463; 0x05812623; 0x00000000; 0x0496a623; 0x0e068463; 0x05912623; 0x00000000;
    0x04a6a623; 0x0c068563; 0x05a12623; 0x00000000; 0x04b6a623; 0x0e068563; 0x05b12623; 0x00000000;
    0x04c6a623; 0x0c068663; 0x05c12623; 0x00000000; 0x04d6a623; 0x0e068663; 0x05d12623; 0x00000000;
    0x04e6a623; 0x0c068763; 0x05e12623; 0x00000000; 0x04f6a623; 0x0e068763; 0x05f12623; 0x00000000;
    0x00872423; 0x00070463; 0x08012623; 0x00000000; 0x00972423; 0x02070463; 0x08112623; 0x00000000;
    0x00a72423; 0x00070563; 0x08212623; 0x00000000; 0x00b72423; 0x02070563; 0x08312623; 0x00000000;
    0x00c72423; 0x00070663; 0x08412623; 0x00000000; 0x00d72423; 0x02070663; 0x08512623; 0x00000000;
    0x00e72423; 0x00070763; 0x08612623; 0x00000000; 0x00f72423; 0x02070763; 0x08712623; 0x00000000;
    0x04872423; 0x04070463; 0x08812623; 0x00000000; 0x04972423; 0x06070463; 0x08912623; 0x00000000;
    0x04a72423; 0x04070563; 0x08a12623; 0x00000000; 0x04b72423; 0x06070563; 0x08b12623; 0x00000000;
    0x04c72423; 0x04070663; 0x08c12623; 0x00000000; 0x04d72423; 0x06070663; 0x08d12623; 0x00000000;
    0x04e72423; 0x04070763; 0x08e12623; 0x00000000; 0x04f72423; 0x06070763; 0x08f12623; 0x00000000;
    0x00872623; 0x08070463; 0x09012623; 0x00000000; 0x00972623; 0x0a070463; 0x09112623; 0x00000000;
    0x00a72623; 0x08070563; 0x09212623; 0x00000000; 0x00b72623; 0x0a070563; 0x09312623; 0x00000000;
    0x00c72623; 0x08070663; 0x09412623; 0x00000000; 0x00d72623; 0x0a070663; 0x09512623; 0x00000000;
    0x00e72623; 0x08070763; 0x09612623; 0x00000000; 0x00f72623; 0x0a070763; 0x09712623; 0x00000000;
    0x04872623; 0x0c070463; 0x09812623; 0x00000000; 0x04972623; 0x0e070463; 0x09912623; 0x00000000;
    0x04a72623; 0x0c070563; 0x09a12623; 0x00000000; 0x04b72623; 0x0e070563; 0x09b12623; 0x00000000;
    0x04c72623; 0x0c070663; 0x09c12623; 0x00000000; 0x04d72623; 0x0e070663; 0x09d12623; 0x00000000;
    0x04e72623; 0x0c070763; 0x09e12623; 0x00000000; 0x04f72623; 0x0e070763; 0x09f12623; 0x00000000;
    0x0087a423; 0x00078463; 0x0c012623; 0x00000000; 0x0097a423; 0x02078463; 0x0c112623; 0x00000000;
    0x00a7a423; 0x00078563; 0x0c212623; 0x00000000; 0x00b7a423; 0x02078563; 0x0c312623; 0x00000000;
    0x00c7a423; 0x00078663; 0x0c412623; 0x00000000; 0x00d7a423; 0x02078663; 0x0c512623; 0x00000000;
    0x00e7a423; 0x00078763; 0x0c612623; 0x00000000; 0x00f7a423; 0x02078763; 0x0c712623; 0x00000000;
    0x0487a423; 0x04078463; 0x0c812623; 0x00000000; 0x0497a423; 0x06078463; 0x0c912623; 0x00000000;
    0x04a7a423; 0x04078563; 0x0ca12623; 0x00000000; 0x04b7a423; 0x06078563; 0x0cb12623; 0x00000000;
    0x04c7a423; 0x04078663; 0x0cc12623; 0x00000000; 0x04d7a423; 0x06078663; 0x0cd12623; 0x00000000;
    0x04e7a423; 0x04078763; 0x0ce12623; 0x00000000; 0x04f7a423; 0x06078763; 0x0cf12623; 0x00000000;
    0x0087a623; 0x08078463; 0x0d012623; 0x00000000; 0x0097a623; 0x0a078463; 0x0d112623; 0x00000000;
    0x00a7a623; 0x08078563; 0x0d212623; 0x00000000; 0x00b7a623; 0x0a078563; 0x0d312623; 0x00000000;
    0x00c7a623; 0x08078663; 0x0d412623; 0x00000000; 0x00d7a623; 0x0a078663; 0x0d512623; 0x00000000;
    0x00e7a623; 0x08078763; 0x0d612623; 0x00000000; 0x00f7a623; 0x0a078763; 0x0d712623; 0x00000000;
    0x0487a623; 0x0c078463; 0x0d812623; 0x00000000; 0x0497a623; 0x0e078463; 0x0d912623; 0x00000000;
    0x04a7a623; 0x0c078563; 0x0da12623; 0x00000000; 0x04b7a623; 0x0e078563; 0x0db12623; 0x00000000;
    0x04c7a623; 0x0c078663; 0x0dc12623; 0x00000000; 0x04d7a623; 0x0e078663; 0x0dd12623; 0x00000000;
    0x04e7a623; 0x0c078763; 0x0de12623; 0x00000000; 0x04f7a623; 0x0e078763; 0x0df12623; 0x00000000
].

(** parcels 0xc800 to 0xcbff *)
Definition RVC64_EXPANDED_50 : list Z := [
    0x00842823; 0x00040863; 0x00012823; 0x00000000; 0x00942823; 0x02040863; 0x00112823; 0x00000000;
    0x00a42823; 0x00040963; 0x00212823; 0x00000000; 0x00b42823; 0x02040963; 0x00312823; 0x00000000;
    0x00c42823; 0x00040a63; 0x00412823; 0x00000000; 0x00d42823; 0x02040a63; 0x00512823; 0x00000000;
    0x00e42823; 0x00040b63; 0x00612823; 0x00000000; 0x00f42823; 0x02040b63; 0x00712823; 0x00000000;
    0x04842823; 0x04040863; 0x00812823; 0x00000000; 0x04942823; 0x06040863; 0x00912823; 0x00000000;
    0x04a42823; 0x04040963; 0x00a12823; 0x00000000; 0x04b42823; 0x06040963; 0x00b12823; 0x00000000;
    0x04c42823; 0x04040a63; 0x00c12823; 0x00000000; 0x04d42823; 0x06040a63; 0x00d12823; 0x00000000;
    0x04e42823; 0x04040b63; 0x00e12823; 0x00000000; 0x04f42823; 0x06040b63; 0x00f12823; 0x00000000;
    0x00842a23; 0x08040863; 0x01012823; 0x00000000; 0x00942a23; 0x0a040863; 0x01112823; 0x00000000;
    0x00a42a23; 0x08040963; 0x01212823; 0x00000000; 0x00b42a23; 0x0a040963; 0x01312823; 0x00000000;
    0x00c42a23; 0x08040a63; 0x01412823; 0x00000000; 0x00d42a23; 0x0a040a63; 0x01512823; 0x00000000;
    0x00e42a23; 0x08040b63; 0x01612823; 0x00000000; 0x00f42a23; 0x0a040b63; 0x01712823; 0x00000000;
    0x04842a23; 0x0c040863; 0x01812823; 0x00000000; 0x04942a23; 0x0e040863; 0x01912823; 0x00000000;
    0x04a42a23; 0x0c040963; 0x01a12823; 0x00000000; 0x04b42a23; 0x0e040963; 0x01b12823; 0x00000000;
    0x04c42a23; 0x0c040a63; 0x01c12823; 0x00000000; 0x04d42a23; 0x0e040a63; 0x01d12823; 0x00000000;
    0x04e42a23; 0x0c040b63; 0x01e12823; 0x00000000; 0x04f42a23; 0x0e040b63; 0x01f12823; 0x00000000;
    0x0084a823; 0x00048863; 0x04012823; 0x00000000; 0x0094a823; 0x02048863; 0x04112823; 0x00000000;
    0x00a4a823; 0x00048963; 0x04212823; 0x00000000; 0x00b4a823; 0x02048963; 0x04312823; 0x00000000;
    0x00c4a823; 0x00048a63; 0x04412823; 0x00000000; 0x00d4a823; 0x02048a63; 0x04512823; 0x00000000;
    0x00e4a823; 0x00048b63; 0x04612823; 0x00000000; 0x00f4a823; 0x02048b63; 0x04712823; 0x00000000;
    0x0484a823; 0x04048863; 0x04812823; 0x00000000; 0x0494a823; 0x06048863; 0x04912823; 0x00000000;
    0x04a4a823; 0x04048963; 0x04a12823; 0x00000000; 0x04b4a823; 0x06048963; 0x04b12823; 0x00000000;
    0x04c4a823; 0x04048a63; 0x04c12823; 0x00000000; 0x04d4a823; 0x06048a63; 0x04d12823; 0x00000000;
    0x04e4a823; 0x04048b63; 0x04e12823; 0x00000000; 0x04f4a823; 0x06048b63; 0x04f12823; 0x00000000;
    0x0084aa23; 0x08048863; 0x05012823; 0x00000000; 0x0094aa23; 0x0a048863; 0x05112823; 0x00000000;
    0x00a4aa23; 0x08048963; 0x05212823; 0x00000000; 0x00b4aa23; 0x0a048963; 0x05312823; 0x00000000;
    0x00c4aa23; 0x08048a63; 0x05412823; 0x00000000; 0x00d4aa23; 0x0a048a63; 0x05512823; 0x00000000;
    0x00e4aa23; 0x08048b63; 0x05612823; 0x00000000; 0x00f4aa23; 0x0a048b63; 0x05712823; 0x00000000;
    0x0484aa23; 0x0c048863; 0x05812823; 0x00000000; 0x0494aa23; 0x0e048863; 0x05912823; 0x00000000;
    0x04a4aa23; 0x0c048963; 0x05a12823; 0x00000000; 0x04b4aa23; 0x0e048963; 0x05b12823; 0x00000000;
    0x04c4aa23; 0x0c048a63; 0x05c12823; 0x00000000; 0x04d4aa23; 0x0e048a63; 0x05d12823; 0x00000000;
    0x04e4aa23; 0x0c048b63; 0x05e12823; 0x00000000; 0x04f4aa23; 0x0e048b63; 0x05f12823; 0x00000000;
    0x00852823; 0x00050863; 0x08012823; 0x00000000; 0x00952823; 0x02050863; 0x08112823; 0x00000000;
    0x00a52823; 0x00050963; 0x08212823; 0x00000000; 0x00b52823; 0x02050963; 0x08312823; 0x00000000;
    0x00c52823; 0x00050a63; 0x08412823; 0x00000000; 0x00d52823; 0x02050a63; 0x08512823; 0x00000000;
    0x00e52823; 0x00050b63; 0x08612823; 0x00000000; 0x00f52823; 0x02050b63; 0x08712823; 0x00000000;
    0x04852823; 0x04050863; 0x08812823; 0x00000000; 0x04952823; 0x06050863; 0x08912823; 0x00000000;
    0x04a52823; 0x04050963; 0x08a12823; 0x00000000; 0x04b52823; 0x06050963; 0x08b12823; 0x00000000;
    0x04c52823; 0x04050a63; 0x08c12823; 0x00000000; 0x04d52823; 0x06050a63; 0x08d12823; 0x00000000;
    0x04e52823; 0x04050b63; 0x08e12823; 0x00000000; 0x04f52823; 0x06050b63; 0x08f12823; 0x00000000;
    0x00852a23; 0x08050863; 0x09012823; 0x00000000; 0x00952a23; 0x0a050863; 0x09112823; 0x00000000;
    0x00a52a23; 0x08050963; 0x09212823; 0x00000000; 0x00b52a23; 0x0a050963; 0x09312823; 0x00000000;
    0x00c52a23; 0x08050a63; 0x09412823; 0x00000000; 0x00d52a23; 0x0a050a63; 0x09512823; 0x00000000;
    0x00e52a23; 0x08050b63; 0x09612823; 0x00000000; 0x00f52a23; 0x0a050b63; 0x09712823; 0x00000000;
    0x04852a23; 0x0c050863; 0x09812823; 0x00000000; 0x04952a23; 0x0e050863; 0x09912823; 0x00000000;
    0x04a52a23; 0x0c050963; 0x09a12823; 0x00000000; 0x04b52a23; 0x0e050963; 0x09b12823; 0x00000000;
    0x04c52a23; 0x0c050a63; 0x09c12823; 0x00000000; 0x04d52a23; 0x0e050a63; 0x09d12823; 0x00000000;
    0x04e52a23; 0x0c050b63; 0x09e12823; 0x00000000; 0x04f52a23; 0x0e050b63; 0x09f12823; 0x00000000;
    0x0085a823; 0x00058863; 0x0c012823; 0x00000000; 0x0095a823; 0x02058863; 0x0c112823; 0x00000000;
    0x00a5a823; 0x00058963; 0x0c212823; 0x00000000; 0x00b5a823; 0x02058963; 0x0c312823; 0x00000000;
    0x00c5a823; 0x00058a63; 0x0c412823; 0x00000000; 0x00d5a823; 0x02058a63; 0x0c512823; 0x00000000;
    0x00e5a823; 0x00058b63; 0x0c612823; 0x00000000; 0x00f5a823; 0x02058b63; 0x0c712823; 0x00000000;
    0x0485a823; 0x04058863; 0x0c812823; 0x00000000; 0x0495a823; 0x06058863; 0x0c912823; 0x00000000;
    0x04a5a823; 0x04058963; 0x0ca12823; 0x00000000; 0x04b5a823; 0x06058963; 0x0cb12823; 0x00000000;
    0x04c5a823; 0x04058a63; 0x0cc12823; 0x00000000; 0x04d5a823; 0x06058a63; 0x0cd12823; 0x00000000;
    0x04e5a823; 0x04058b63; 0x0ce12823; 0x00000000; 0x04f5a823; 0x06058b63; 0x0cf12823; 0x00000000;
    0x0085aa23; 0x08058863; 0x0d012823; 0x00000000; 0x0095aa23; 0x0a058863; 0x0d112823; 0x00000000;
    0x00a5aa23; 0x08058963; 0x0d212823; 0x00000000; 0x00b5aa23; 0x0a058963; 0x0d312823; 0x00000000;
    0x00c5aa23; 0x08058a63; 0x0d412823; 0x00000000; 0x00d5aa23; 0x0a058a63; 0x0d512823; 0x00000000;
    0x00e5aa23; 0x08058b63; 0x0d612823; 0x00000000; 0x00f5aa23; 0x0a058b63; 0x0d712823; 0x00000000;
    0x0485aa23; 0x0c058863; 0x0d812823; 0x00000000; 0x0495aa23; 0x0e058863; 0x0d912823; 0x00000000;
    0x04a5aa23; 0x0c058963; 0x0da12823; 0x00000000; 0x04b5aa23; 0x0e058963; 0x0db12823; 0x00000000;
    0x04c5aa23; 0x0c058a63; 0x0dc12823; 0x00000000; 0x04d5aa23; 0x0e058a63; 0x0dd12823; 0x00000000;
    0x04e5aa23; 0x0c058b63; 0x0de12823; 0x00000000; 0x04f5aa23; 0x0e058b63; 0x0df12823; 0x00000000;
    0x00862823; 0x00060863; 0x00012a23; 0x00000000; 0x00962823; 0x02060863; 0x00112a23; 0x00000000;
    0x00a62823; 0x00060963; 0x00212a23; 0x00000000; 0x00b62823; 0x02060963; 0x00312a23; 0x00000000;
    0x00c62823; 0x00060a63; 0x00412a23; 0x00000000; 0x00d62823; 0x02060a63; 0x00512a23; 0x00000000;
    0x00e62823; 0x00060b63; 0x00612a23; 0x00000000; 0x00f62823; 0x02060b63; 0x00712a23; 0x00000000;
    0x04862823; 0x04060863; 0x00812a23; 0x00000000; 0x04962823; 0x06060863; 0x00912a23; 0x00000000;
    0x04a62823; 0x04060963; 0x00a12a23; 0x00000000; 0x04b62823; 0x06060963; 0x00b12a23; 0x00000000;
    0x04c62823; 0x04060a63; 0x00c12a23; 0x00000000; 0x04d62823; 0x06060a63; 0x00d12a23; 0x00000000;
    0x04e62823; 0x04060b63; 0x00e12a23; 0x00000000; 0x04f62823; 0x06060b63; 0x00f12a23; 0x00000000;
    0x00862a23; 0x08060863; 0x01012a23; 0x00000000; 0x00962a23; 0x0a060863; 0x01112a23; 0x00000000;
    0x00a62a23; 0x08060963; 0x01212a23; 0x00000000; 0x00b62a23; 0x0a060963; 0x01312a23; 0x00000000;
    0x00c62a23; 0x08060a63; 0x01412a23; 0x00000000; 0x00d62a23; 0x0a060a63; 0x01512a23; 0x00000000;
    0x00e62a23; 0x08060b63; 0x01612a23; 0x00000000; 0x00f62a23; 0x0a060b63; 0x01712a23; 0x00000000;
    0x04862a23; 0x0c060863; 0x01812a23; 0x00000000; 0x04962a23; 0x0e060863; 0x01912a23; 0x00000000;
    0x04a62a23; 0x0c060963; 0x01a12a23; 0x00000000; 0x04b62a23; 0x0e060963; 0x01b12a23; 0x00000000;
    0x04c62a23; 0x0c060a63; 0x01c12a23; 0x00000000; 0x04d62a23; 0x0e060a63; 0x01d12a23; 0x00000000;
    0x04e62a23; 0x0c060b63; 0x01e12a23; 0x00000000; 0x04f62a23; 0x0e060b63; 0x01f12a23; 0x00000000;
    0x0086a823; 0x00068863; 0x04012a23; 0x00000000; 0x0096a823; 0x02068863; 0x04112a23; 0x00000000;
    0x00a6a823; 0x00068963; 0x04212a23; 0x00000000; 0x00b6a823; 0x02068963; 0x04312a23; 0x00000000;
    0x00c6a823; 0x00068a63; 0x04412a23; 0x00000000; 0x00d6a823; 0x02068a63; 0x04512a23; 0x00000000;
    0x00e6a823; 0x00068b63; 0x04612a23; 0x00000000; 0x00f6a823; 0x02068b63; 0x04712a23; 0x00000000;
    0x0486a823; 0x04068863; 0x04812a23; 0x00000000; 0x0496a823; 0x06068863; 0x04912a23; 0x00000000;
    0x04a6a823; 0x04068963; 0x04a12a23; 0x00000000; 0x04b6a823; 0x06068963; 0x04b12a23; 0x00000000;
    0x04c6a823; 0x04068a63; 0x04c12a23; 0x00000000; 0x04d6a823; 0x06068a63; 0x04d12a23; 0x00000000;
    0x04e6a823; 0x04068b63; 0x04e12a23; 0x00000000; 0x04f6a823; 0x06068b63; 0x04f12a23; 0x00000000;
    0x0086aa23; 0x08068863; 0x05012a23; 0x00000000; 0x0096aa23; 0x0a068863; 0x05112a23; 0x00000000;
    0x00a6aa23; 0x08068963; 0x05212a23; 0x00000000; 0x00b6aa23; 0x0a068963; 0x05312a23; 0x00000000;
    0x00c6aa23; 0x08068a63; 0x05412a23; 0x00000000; 0x00d6aa23; 0x0a068a63; 0x05512a23; 0x00000000;
    0x00e6aa23; 0x08068b63; 0x05612a23; 0x00000000; 0x00f6aa23; 0x0a068b63; 0x05712a23; 0x00000000;
    0x0486aa23; 0x0c068863; 0x05812a23; 0x00000000; 0x0496aa23; 0x0e068863; 0x05912a23; 0x00000000;
    0x04a6aa23; 0x0c068963; 0x05a12a23; 0x00000000; 0x04b6aa23; 0x0e068963; 0x05b12a23; 0x00000000;
    0x04c6aa23; 0x0c068a63; 0x05c12a23; 0x00000000; 0x04d6aa23; 0x0e068a63; 0x05d12a23; 0x00000000;
    0x04e6aa23; 0x0c068b63; 0x05e12a23; 0x00000000; 0x04f6aa23; 0x0e068b63; 0x05f12a23; 0x00000000;
    0x00872823; 0x00070863; 0x08012a23; 0x00000000; 0x00972823; 0x02070863; 0x08112a23; 0x00000000;
    0x00a72823; 0x00070963; 0x08212a23; 0x00000000; 0x00b72823; 0x02070963; 0x08312a23; 0x00000000;
    0x00c72823; 0x00070a63; 0x08412a23; 0x00000000; 0x00d72823; 0x02070a63; 0x08512a23; 0x00000000;
    0x00e72823; 0x00070b63; 0x08612a23; 0x00000000; 0x00f72823; 0x02070b63; 0x08712a23; 0x00000000;
    0x04872823; 0x04070863; 0x08812a23; 0x00000000; 0x04972823; 0x06070863; 0x08912a23; 0x00000000;
    0x04a72823; 0x04070963; 0x08a12a23; 0x00000000; 0x04b72823; 0x06070963; 0x08b12a23; 0x00000000;
    0x04c72823; 0x04070a63; 0x08c12a23; 0x00000000; 0x04d72823; 0x06070a63; 0x08d12a23; 0x00000000;
    0x04e72823; 0x04070b63; 0x08e12a23; 0x00000000; 0x04f72823; 0x06070b63; 0x08f12a23; 0x00000000;
    0x00872a23; 0x08070863; 0x09012a23; 0x00000000; 0x00972a23; 0x0a070863; 0x09112a23; 0x00000000;
    0x00a72a23; 0x08070963; 0x09212a23; 0x00000000; 0x00b72a23; 0x0a070963; 0x09312a23; 0x00000000;
    0x00c72a23; 0x08070a63; 0x09412a23; 0x00000000; 0x00d72a23; 0x0a070a63; 0x09512a23; 0x00000000;
    0x00e72a23; 0x08070b63; 0x09612a23; 0x00000000; 0x00f72a23; 0x0a070b63; 0x09712a23; 0x00000000;
    0x04872a23; 0x0c070863; 0x09812a23; 0x00000000; 0x04972a23; 0x0e070863; 0x09912a23; 0x00000000;
    0x04a72a23; 0x0c070963; 0x09a12a23; 0x00000000; 0x04b72a23; 0x0e070963; 0x09b12a23; 0x00000000;
    0x04c72a23; 0x0c070a63; 0x09c12a23; 0x00000000; 0x04d72a23; 0x0e070a63; 0x09d12a23; 0x00000000;
    0x04e72a23; 0x0c070b63; 0x09e12a23; 0x00000000; 0x04f72a23; 0x0e070b63; 0x09f12a23; 0x00000000;
    0x0087a823; 0x00078863; 0x0c012a23; 0x00000000; 0x0097a823; 0x02078863; 0x0c112a23; 0x00000000;
    0x00a7a823; 0x00078963; 0x0c212a23; 0x00000000; 0x00b7a823; 0x02078963; 0x0c312a23; 0x00000000;
    0x00c7a823; 0x00078a63; 0x0c412a23; 0x00000000; 0x00d7a823; 0x02078a63; 0x0c512a23; 0x00000000;
    0x00e7a823; 0x00078b63; 0x0c612a23; 0x00000000; 0x00f7a823; 0x02078b63; 0x0c712a23; 0x00000000;
    0x0487a823; 0x04078863; 0x0c812a23; 0x00000000; 0x0497a823; 0x06078863; 0x0c912a23; 0x00000000;
    0x04a7a823; 0x04078963; 0x0ca12a23; 0x00000000; 0x04b7a823; 0x06078963; 0x0cb12a23; 0x00000000;
    0x04c7a823; 0x04078a63; 0x0cc12a23; 0x00000000; 0x04d7a823; 0x06078a63; 0x0cd12a23; 0x00000000;
    0x04e7a823; 0x04078b63; 0x0ce12a23; 0x00000000; 0x04f7a823; 0x06078b63; 0x0cf12a23; 0x00000000;
    0x0087aa23; 0x08078863; 0x0d012a23; 0x00000000; 0x0097aa23; 0x0a078863; 0x0d112a23; 0x00000000;
    0x00a7aa23; 0x08078963; 0x0d212a23; 0x00000000; 0x00b7aa23; 0x0a078963; 0x0d312a23; 0x00000000;
    0x00c7aa23; 0x08078a63; 0x0d412a23; 0x00000000; 0x00d7aa23; 0x0a078a63; 0x0d512a23; 0x00000000;
    0x00e7aa23; 0x08078b63; 0x0d612a23; 0x00000000; 0x00f7aa23; 0x0a078b63; 0x0d712a23; 0x00000000;
    0x0487aa23; 0x0c078863; 0x0d812a23; 0x00000000; 0x0497aa23; 0x0e078863; 0x0d912a23; 0x00000000;
    0x04a7aa23; 0x0c078963; 0x0da12a23; 0x00000000; 0x04b7aa23; 0x0e078963; 0x0db12a23; 0x00000000;
    0x04c7aa23; 0x0c078a63; 0x0dc12a23; 0x00000000; 0x04d7aa23; 0x0e078a63; 0x0dd12a23; 0x00000000;
    0x04e7aa23; 0x0c078b63; 0x0de12a23; 0x00000000; 0x04f7aa23; 0x0e078b63; 0x0df12a23; 0x00000000
].

(** parcels 0xcc00 to 0xcfff *)
Definition RVC64_EXPANDED_51 : list Z := [
    0x00842c23; 0x00040c63; 0x00012c23; 0x00000000; 0x00942c23; 0x02040c63; 0x00112c23; 0x00000000;
    0x00a42c23; 0x00040d63; 0x00212c23; 0x00000000; 0x00b42c23; 0x02040d63; 0x00312c23; 0x00000000;
    0x00c42c23; 0x00040e63; 0x00412c23; 0x00000000; 0x00d42c23; 0x02040e63; 0x00512c23; 0x00000000;
    0x00e42c23; 0x00040f63; 0x00612c23; 0x00000000; 0x00f42c23; 0x02040f63; 0x00712c23; 0x00000000;
    0x04842c23; 0x04040c63; 0x00812c23; 0x00000000; 0x04942c23; 0x06040c63; 0x00912c23; 0x00000000;
    0x04a42c23; 0x04040d63; 0x00a12c23; 0x00000000; 0x04b42c23; 0x06040d63; 0x00b12c23; 0x00000000;
    0x04c42c23; 0x04040e63; 0x00c12c23; 0x00000000; 0x04d42c23; 0x06040e63; 0x00d12c23; 0x00000000;
    0x04e42c23; 0x04040f63; 0x00e12c23; 0x00000000; 0x04f42c23; 0x06040f63; 0x00f12c23; 0x00000000;
    0x00842e23; 0x08040c63; 0x01012c23; 0x00000000; 0x00942e23; 0x0a040c63; 0x01112c23; 0x00000000;
    0x00a42e23; 0x08040d63; 0x01212c23; 0x00000000; 0x00b42e23; 0x0a040d63; 0x01312c23; 0x00000000;
    0x00c42e23; 0x08040e63; 0x01412c23; 0x00000000; 0x00d42e23; 0x0a040e63; 0x01512c23; 0x00000000;
    0x00e42e23; 0x08040f63; 0x01612c23; 0x00000000; 0x00f42e23; 0x0a040f63; 0x01712c23; 0x00000000;
    0x04842e23; 0x0c040c63; 0x01812c23; 0x00000000; 0x04942e23; 0x0e040c63; 0x01912c23; 0x00000000;
    0x04a42e23; 0x0c040d63; 0x01a12c23; 0x00000000; 0x04b42e23; 0x0e040d63; 0x01b12c23; 0x00000000;
    0x04c42e23; 0x0c040e63; 0x01c12c23; 0x00000000; 0x04d42e23; 0x0e040e63; 0x01d12c23; 0x00000000;
    0x04e42e23; 0x0c040f63; 0x01e12c23; 0x00000000; 0x04f42e23; 0x0e040f63; 0x01f12c23; 0x00000000;
    0x0084ac23; 0x00048c63; 0x04012c23; 0x00000000; 0x0094ac23; 0x02048c63; 0x04112c23; 0x00000000;
    0x00a4ac23; 0x00048d63; 0x04212c23; 0x00000000; 0x00b4ac23; 0x02048d63; 0x04312c23; 0x00000000;
    0x00c4ac23; 0x00048e63; 0x04412c23; 0x00000000; 0x00d4ac23; 0x02048e63; 0x04512c23; 0x00000000;
    0x00e4ac23; 0x00048f63; 0x04612c23; 0x00000000; 0x00f4ac23; 0x02048f63; 0x04712c23; 0x00000000;
    0x0484ac23; 0x04048c63; 0x04812c23; 0x00000000; 0x0494ac23; 0x06048c63; 0x04912c23; 0x00000000;
    0x04a4ac23; 0x04048d63; 0x04a12c23; 0x00000000; 0x04b4ac23; 0x06048d63; 0x04b12c23; 0x00000000;
    0x04c4ac23; 0x04048e63; 0x04c12c23; 0x00000000; 0x04d4ac23; 0x06048e63; 0x04d12c23; 0x00000000;
    0x04e4ac23; 0x04048f63; 0x04e12c23; 0x00000000; 0x04f4ac23; 0x06048f63; 0x04f12c23; 0x00000000;
    0x0084ae23; 0x08048c63; 0x05012c23; 0x00000000; 0x0094ae23; 0x0a048c63; 0x05112c23; 0x00000000;
    0x00a4ae23; 0x08048d63; 0x05212c23; 0x00000000; 0x00b4ae23; 0x0a048d63; 0x05312c23; 0x00000000;
    0x00c4ae23; 0x08048e63; 0x05412c23; 0x00000000; 0x00d4ae23; 0x0a048e63; 0x05512c23; 0x00000000;
    0x00e4ae23; 0x08048f63; 0x05612c23; 0x00000000; 0x00f4ae23; 0x0a048f63; 0x05712c23; 0x00000000;
    0x0484ae23; 0x0c048c63; 0x05812c23; 0x00000000; 0x0494ae23; 0x0e048c63; 0x05912c23; 0x00000000;
    0x04a4ae23; 0x0c048d63; 0x05a12c23; 0x00000000; 0x04b4ae23; 0x0e048d63; 0x05b12c23; 0x00000000;
    0x04c4ae23; 0x0c048e63; 0x05c12c23; 0x00000000; 0x04d4ae23; 0x0e048e63; 0x05d12c23; 0x00000000;
    0x04e4ae23; 0x0c048f63; 0x05e12c23; 0x00000000; 0x04f4ae23; 0x0e048f63; 0x05f12c23; 0x00000000;
    0x00852c23; 0x00050c63; 0x08012c23; 0x00000000; 0x00952c23; 0x02050c63; 0x08112c23; 0x00000000;
    0x00a52c23; 0x00050d63; 0x08212c23; 0x00000000; 0x00b52c23; 0x02050d63; 0x08312c23; 0x00000000;
    0x00c52c23; 0x00050e63; 0x08412c23; 0x00000000; 0x00d52c23; 0x02050e63; 0x08512c23; 0x00000000;
    0x00e52c23; 0x00050f63; 0x08612c23; 0x00000000; 0x00f52c23; 0x02050f63; 0x08712c23; 0x00000000;
    0x04852c23; 0x04050c63; 0x08812c23; 0x00000000; 0x04952c23; 0x06050c63; 0x08912c23; 0x00000000;
    0x04a52c23; 0x04050d63; 0x08a12c23; 0x00000000; 0x04b52c23; 0x06050d63; 0x08b12c23; 0x00000000;
    0x04c52c23; 0x04050e63; 0x08c12c23; 0x00000000; 0x04d52c23; 0x06050e63; 0x08d12c23; 0x00000000;
    0x04e52c23; 0x04050f63; 0x08e12c23; 0x00000000; 0x04f52c23; 0x06050f63; 0x08f12c23; 0x00000000;
    0x00852e23; 0x08050c63; 0x09012c23; 0x00000000; 0x00952e23; 0x0a050c63; 0x09112c23; 0x00000000;
    0x00a52e23; 0x08050d63; 0x09212c23; 0x00000000; 0x00b52e23; 0x0a050d63; 0x09312c23; 0x00000000;
    0x00c52e23; 0x08050e63; 0x09412c23; 0x00000000; 0x00d52e23; 0x0a050e63; 0x09512c23; 0x00000000;
    0x00e52e23; 0x08050f63; 0x09612c23; 0x00000000; 0x00f52e23; 0x0a050f63; 0x09712c23; 0x00000000;
    0x04852e23; 0x0c050c63; 0x09812c23; 0x00000000; 0x04952e23; 0x0e050c63; 0x09912c23; 0x00000000;
    0x04a52e23; 0x0c050d63; 0x09a12c23; 0x00000000; 0x04b52e23; 0x0e050d63; 0x09b12c23; 0x00000000;
    0x04c52e23; 0x0c050e63; 0x09c12c23; 0x00000000; 0x04d52e23; 0x0e050e63; 0x09d12c23; 0x00000000;
    0x04e52e23; 0x0c050f63; 0x09e12c23; 0x00000000; 0x04f52e23; 0x0e050f63; 0x09f12c23; 0x00000000;
    0x0085ac23; 0x00058c63; 0x0c012c23; 0x00000000; 0x0095ac23; 0x02058c63; 0x0c112c23; 0x00000000;
    0x00a5ac23; 0x00058d63; 0x0c212c23; 0x00000000; 0x00b5ac23; 0x02058d63; 0x0c312c23; 0x00000000;
    0x00c5ac23; 0x00058e63; 0x0c412c23; 0x00000000; 0x00d5ac23; 0x02058e63; 0x0c512c23; 0x00000000;
    0x00e5ac23; 0x00058f63; 0x0c612c23; 0x00000000; 0x00f5ac23; 0x02058f63; 0x0c712c23; 0x00000000;
    0x0485ac23; 0x04058c63; 0x0c812c23; 0x00000000; 0x0495ac23; 0x06058c63; 0x0c912c23; 0x00000000;
    0x04a5ac23; 0x04058d63; 0x0ca12c23; 0x00000000; 0x04b5ac23; 0x06058d63; 0x0cb12c23; 0x00000000;
    0x04c5ac23; 0x04058e63; 0x0cc12c23; 0x00000000; 0x04d5ac23; 0x06058e63; 0x0cd12c23; 0x00000000;
    0x04e5ac23; 0x04058f63; 0x0ce12c23; 0x00000000; 0x04f5ac23; 0x06058f63; 0x0cf12c23; 0x00000000;
    0x0085ae23; 0x08058c63; 0x0d012c23; 0x00000000; 0x0095ae23; 0x0a058c63; 0x0d112c23; 0x00000000;
    0x00a5ae23; 0x08058d63; 0x0d212c23; 0x00000000; 0x00b5ae23; 0x0a058d63; 0x0d312c23; 0x00000000;
    0x00c5ae23; 0x08058e63; 0x0d412c23; 0x00000000; 0x00d5ae23; 0x0a058e63; 0x0d512c23; 0x00000000;
    0x00e5ae23; 0x08058f63; 0x0d612c23; 0x00000000; 0x00f5ae23; 0x0a058f63; 0x0d712c23; 0x00000000;
    0x0485ae23; 0x0c058c63; 0x0d812c23; 0x00000000; 0x0495ae23; 0x0e058c63; 0x0d912c23; 0x00000000;
    0x04a5ae23; 0x0c058d63; 0x0da12c23; 0x00000000; 0x04b5ae23; 0x0e058d63; 0x0db12c23; 0x00000000;
    0x04c5ae23; 0x0c058e63; 0x0dc12c23; 0x00000000; 0x04d5ae23; 0x0e058e63; 0x0dd12c23; 0x00000000;
    0x04e5ae23; 0x0c058f63; 0x0de12c23; 0x00000000; 0x04f5ae23; 0x0e058f63; 0x0df12c23; 0x00000000;
    0x00862c23; 0x00060c63; 0x00012e23; 0x00000000; 0x00962c23; 0x02060c63; 0x00112e23; 0x00000000;
    0x00a62c23; 0x00060d63; 0x00212e23; 0x00000000; 0x00b62c23; 0x02060d63; 0x00312e23; 0x00000000;
    0x00c62c23; 0x00060e63; 0x00412e23; 0x00000000; 0x00d62c23; 0x02060e63; 0x00512e23; 0x00000000;
    0x00e62c23; 0x00060f63; 0x00612e23; 0x00000000; 0x00f62c23; 0x02060f63; 0x00712e23; 0x00000000;
    0x04862c23; 0x04060c63; 0x00812e23; 0x00000000; 0x04962c23; 0x06060c63; 0x00912e23; 0x00000000;
    0x04a62c23; 0x04060d63; 0x00a12e23; 0x00000000; 0x04b62c23; 0x06060d63; 0x00b12e23; 0x00000000;
    0x04c62c23; 0x04060e63; 0x00c12e23; 0x00000000; 0x04d62c23; 0x06060e63; 0x00d12e23; 0x00000000;
    0x04e62c23; 0x04060f63; 0x00e12e23; 0x00000000; 0x04f62c23; 0x06060f63; 0x00f12e23; 0x00000000;
    0x00862e23; 0x08060c63; 0x01012e23; 0x00000000; 0x00962e23; 0x0a060c63; 0x01112e23; 0x00000000;
    0x00a62e23; 0x08060d63; 0x01212e23; 0x00000000; 0x00b62e23; 0x0a060d63; 0x01312e23; 0x00000000;
    0x00c62e23; 0x08060e63; 0x01412e23; 0x00000000; 0x00d62e23; 0x0a060e63; 0x01512e23; 0x00000000;
    0x00e62e23; 0x08060f63; 0x01612e23; 0x00000000; 0x00f62e23; 0x0a060f63; 0x01712e23; 0x00000000;
    0x04862e23; 0x0c060c63; 0x01812e23; 0x00000000; 0x04962e23; 0x0e060c63; 0x01912e23; 0x00000000;
    0x04a62e23; 0x0c060d63; 0x01a12e23; 0x00000000; 0x04b62e23; 0x0e060d63; 0x01b12e23; 0x00000000;
    0x04c62e23; 0x0c060e63; 0x01c12e23; 0x00000000; 0x04d62e23; 0x0e060e63; 0x01d12e23; 0x00000000;
    0x04e62e23; 0x0c060f63; 0x01e12e23; 0x00000000; 0x04f62e23; 0x0e060f63; 0x01f12e23; 0x00000000;
    0x0086ac23; 0x00068c63; 0x04012e23; 0x00000000; 0x0096ac23; 0x02068c63; 0x04112e23; 0x00000000;
    0x00a6ac23; 0x00068d63; 0x04212e23; 0x00000000; 0x00b6ac23; 0x02068d63; 0x04312e23; 0x00000000;
    0x00c6ac23; 0x00068e63; 0x04412e23; 0x00000000; 0x00d6ac23; 0x02068e63; 0x04512e23; 0x00000000;
    0x00e6ac23; 0x00068f63; 0x04612e23; 0x00000000; 0x00f6ac23; 0x02068f63; 0x04712e23; 0x00000000;
    0x0486ac23; 0x04068c63; 0x04812e23; 0x00000000; 0x0496ac23; 0x06068c63; 0x04912e23; 0x00000000;
    0x04a6ac23; 0x04068d63; 0x04a12e23; 0x00000000; 0x04b6ac23; 0x06068d63; 0x04b12e23; 0x00000000;
    0x04c6ac23; 0x04068e63; 0x04c12e23; 0x00000000; 0x04d6ac23; 0x06068e63; 0x04d12e23; 0x00000000;
    0x04e6ac23; 0x04068f63; 0x04e12e23; 0x00000000; 0x04f6ac23; 0x06068f63; 0x04f12e23; 0x00000000;
    0x0086ae23; 0x08068c63; 0x05012e23; 0x00000000; 0x0096ae23; 0x0a068c63; 0x05112e23; 0x00000000;
    0x00a6ae23; 0x08068d63; 0x05212e23; 0x00000000; 0x00b6ae23; 0x0a068d63; 0x05312e23; 0x00000000;
    0x00c6ae23; 0x08068e63; 0x05412e23; 0x00000000; 0x00d6ae23; 0x0a068e63; 0x05512e23; 0x00000000;
    0x00e6ae23; 0x08068f63; 0x05612e23; 0x00000000; 0x00f6ae23; 0x0a068f63; 0x05712e23; 0x00000000;
    0x0486ae23; 0x0c068c63; 0x05812e23; 0x00000000; 0x0496ae23; 0x0e068c63; 0x05912e23; 0x00000000;
    0x04a6ae23; 0x0c068d63; 0x05a12e23; 0x00000000; 0x04b6ae23; 0x0e068d63; 0x05b12e23; 0x00000000;
    0x04c6ae23; 0x0c068e63; 0x05c12e23; 0x00000000; 0x04d6ae23; 0x0e068e63; 0x05d12e23; 0x00000000;
    0x04e6ae23; 0x0c068f63; 0x05e12e23; 0x00000000; 0x04f6ae23; 0x0e068f63; 0x05f12e23; 0x00000000;
    0x00872c23; 0x00070c63; 0x08012e23; 0x00000000; 0x00972c23; 0x02070c63; 0x08112e23; 0x00000000;
    0x00a72c23; 0x00070d63; 0x08212e23; 0x00000000; 0x00b72c23; 0x02070d63; 0x08312e23; 0x00000000;
    0x00c72c23; 0x00070e63; 0x08412e23; 0x00000000; 0x00d72c23; 0x02070e63; 0x08512e23; 0x00000000;
    0x00e72c23; 0x00070f63; 0x08612e23; 0x00000000; 0x00f72c23; 0x02070f63; 0x08712e23; 0x00000000;
    0x04872c23; 0x04070c63; 0x08812e23; 0x00000000; 0x04972c23; 0x06070c63; 0x08912e23; 0x00000000;
    0x04a72c23; 0x04070d63; 0x08a12e23; 0x00000000; 0x04b72c23; 0x06070d63; 0x08b12e23; 0x00000000;
    0x04c72c23; 0x04070e63; 0x08c12e23; 0x00000000; 0x04d72c23; 0x06070e63; 0x08d12e23; 0x00000000;
    0x04e72c23; 0x04070f63; 0x08e12e23; 0x00000000; 0x04f72c23; 0x06070f63; 0x08f12e23; 0x00000000;
    0x00872e23; 0x08070c63; 0x09012e23; 0x00000000; 0x00972e23; 0x0a070c63; 0x09112e23; 0x00000000;
    0x00a72e23; 0x08070d63; 0x09212e23; 0x00000000; 0x00b72e23; 0x0a070d63; 0x09312e23; 0x00000000;
    0x00c72e23; 0x08070e63; 0x09412e23; 0x00000000; 0x00d72e23; 0x0a070e63; 0x09512e23; 0x00000000;
    0x00e72e23; 0x08070f63; 0x09612e23; 0x00000000; 0x00f72e23; 0x0a070f63; 0x09712e23; 0x00000000;
    0x04872e23; 0x0c070c63; 0x09812e23; 0x00000000; 0x04972e23; 0x0e070c63; 0x09912e23; 0x00000000;
    0x04a72e23; 0x0c070d63; 0x09a12e23; 0x00000000; 0x04b72e23; 0x0e070d63; 0x09b12e23; 0x00000000;
    0x04c72e23; 0x0c070e63; 0x09c12e23; 0x00000000; 0x04d72e23; 0x0e070e63; 0x09d12e23; 0x00000000;
    0x04e72e23; 0x0c070f63; 0x09e12e23; 0x00000000; 0x04f72e23; 0x0e070f63; 0x09f12e23; 0x00000000;
    0x0087ac23; 0x00078c63; 0x0c012e23; 0x00000000; 0x0097ac23; 0x02078c63; 0x0c112e23; 0x00000000;
    0x00a7ac23; 0x00078d63; 0x0c212e23; 0x00000000; 0x00b7ac23; 0x02078d63; 0x0c312e23; 0x00000000;
    0x00c7ac23; 0x00078e63; 0x0c412e23; 0x00000000; 0x00d7ac23; 0x02078e63; 0x0c512e23; 0x00000000;
    0x00e7ac23; 0x00078f63; 0x0c612e23; 0x00000000; 0x00f7ac23; 0x02078f63; 0x0c712e23; 0x00000000;
    0x0487ac23; 0x04078c63; 0x0c812e23; 0x00000000; 0x0497ac23; 0x06078c63; 0x0c912e23; 0x00000000;
    0x04a7ac23; 0x04078d63; 0x0ca12e23; 0x00000000; 0x04b7ac23; 0x06078d63; 0x0cb12e23; 0x00000000;
    0x04c7ac23; 0x04078e63; 0x0cc12e23; 0x00000000; 0x04d7ac23; 0x06078e63; 0x0cd12e23; 0x00000000;
    0x04e7ac23; 0x04078f63; 0x0ce12e23; 0x00000000; 0x04f7ac23; 0x06078f63; 0x0cf12e23; 0x00000000;
    0x0087ae23; 0x08078c63; 0x0d012e23; 0x00000000; 0x0097ae23; 0x0a078c63; 0x0d112e23; 0x00000000;
    0x00a7ae23; 0x08078d63; 0x0d212e23; 0x00000000; 0x00b7ae23; 0x0a078d63; 0x0d312e23; 0x00000000;
    0x00c7ae23; 0x08078e63; 0x0d412e23; 0x00000000; 0x00d7ae23; 0x0a078e63; 0x0d512e23; 0x00000000;
    0x00e7ae23; 0x08078f63; 0x0d612e23; 0x00000000; 0x00f7ae23; 0x0a078f63; 0x0d712e23; 0x00000000;
    0x0487ae23; 0x0c078c63; 0x0d812e23; 0x00000000; 0x0497ae23; 0x0e078c63; 0x0d912e23; 0x00000000;
    0x04a7ae23; 0x0c078d63; 0x0da12e23; 0x00000000; 0x04b7ae23; 0x0e078d63; 0x0db12e23; 0x00000000;
    0x04c7ae23; 0x0c078e63; 0x0dc12e23; 0x00000000; 0x04d7ae23; 0x0e078e63; 0x0dd12e23; 0x00000000;
    0x04e7ae23; 0x0c078f63; 0x0de12e23; 0x00000000; 0x04f7ae23; 0x0e078f63; 0x0df12e23; 0x00000000
].

(** parcels 0xd000 to 0xd3ff *)
Definition RVC64_EXPANDED_52 : list Z := [
    0x02842023; 0xf00400e3; 0x02012023; 0x00000000; 0x02942023; 0xf20400e3; 0x02112023; 0x00000000;
    0x02a42023; 0xf00401e3; 0x02212023; 0x00000000; 0x02b42023; 0xf20401e3; 0x02312023; 0x00000000;
    0x02c42023; 0xf00402e3; 0x02412023; 0x00000000; 0x02d42023; 0xf20402e3; 0x02512023; 0x00000000;
    0x02e42023; 0xf00403e3; 0x02612023; 0x00000000; 0x02f42023; 0xf20403e3; 0x02712023; 0x00000000;
    0x06842023; 0xf40400e3; 0x02812023; 0x00000000; 0x06942023; 0xf60400e3; 0x02912023; 0x00000000;
    0x06a42023; 0xf40401e3; 0x02a12023; 0x00000000; 0x06b42023; 0xf60401e3; 0x02b12023; 0x00000000;
    0x06c42023; 0xf40402e3; 0x02c12023; 0x00000000; 0x06d42023; 0xf60402e3; 0x02d12023; 0x00000000;
    0x06e42023; 0xf40403e3; 0x02e12023; 0x00000000; 0x06f42023; 0xf60403e3; 0x02f12023; 0x00000000;
    0x02842223; 0xf80400e3; 0x03012023; 0x00000000; 0x02942223; 0xfa0400e3; 0x03112023; 0x00000000;
    0x02a42223; 0xf80401e3; 0x03212023; 0x00000000; 0x02b42223; 0xfa0401e3; 0x03312023; 0x00000000;
    0x02c42223; 0xf80402e3; 0x03412023; 0x00000000; 0x02d42223; 0xfa0402e3; 0x03512023; 0x00000000;
    0x02e42223; 0xf80403e3; 0x03612023; 0x00000000; 0x02f42223; 0xfa0403e3; 0x03712023; 0x00000000;
    0x06842223; 0xfc0400e3; 0x03812023; 0x00000000; 0x06942223; 0xfe0400e3; 0x03912023; 0x00000000;
    0x06a42223; 0xfc0401e3; 0x03a12023; 0x00000000; 0x06b42223; 0xfe0401e3; 0x03b12023; 0x00000000;
    0x06c42223; 0xfc0402e3; 0x03c12023; 0x00000000; 0x06d42223; 0xfe0402e3; 0x03d12023; 0x00000000;
    0x06e42223; 0xfc0403e3; 0x03e12023; 0x00000000; 0x06f42223; 0xfe0403e3; 0x03f12023; 0x00000000;
    0x0284a023; 0xf00480e3; 0x06012023; 0x00000000; 0x0294a023; 0xf20480e3; 0x06112023; 0x00000000;
    0x02a4a023; 0xf00481e3; 0x06212023; 0x00000000; 0x02b4a023; 0xf20481e3; 0x06312023; 0x00000000;
    0x02c4a023; 0xf00482e3; 0x06412023; 0x00000000; 0x02d4a023; 0xf20482e3; 0x06512023; 0x00000000;
    0x02e4a023; 0xf00483e3; 0x06612023; 0x00000000; 0x02f4a023; 0xf20483e3; 0x06712023; 0x00000000;
    0x0684a023; 0xf40480e3; 0x06812023; 0x00000000; 0x0694a023; 0xf60480e3; 0x06912023; 0x00000000;
    0x06a4a023; 0xf40481e3; 0x06a12023; 0x00000000; 0x06b4a023; 0xf60481e3; 0x06b12023; 0x00000000;
    0x06c4a023; 0xf40482e3; 0x06c12023; 0x00000000; 0x06d4a023; 0xf60482e3; 0x06d12023; 0x00000000;
    0x06e4a023; 0xf40483e3; 0x06e12023; 0x00000000; 0x06f4a023; 0xf60483e3; 0x06f12023; 0x00000000;
    0x0284a223; 0xf80480e3; 0x07012023; 0x00000000; 0x0294a223; 0xfa0480e3; 0x07112023; 0x00000000;
    0x02a4a223; 0xf80481e3; 0x07212023; 0x00000000; 0x02b4a223; 0xfa0481e3; 0x07312023; 0x00000000;
    0x02c4a223; 0xf80482e3; 0x07412023; 0x00000000; 0x02d4a223; 0xfa0482e3; 0x07512023; 0x00000000;
    0x02e4a223; 0xf80483e3; 0x07612023; 0x00000000; 0x02f4a223; 0xfa0483e3; 0x07712023; 0x00000000;
    0x0684a223; 0xfc0480e3; 0x07812023; 0x00000000; 0x0694a223; 0xfe0480e3; 0x07912023; 0x00000000;
    0x06a4a223; 0xfc0481e3; 0x07a12023; 0x00000000; 0x06b4a223; 0xfe0481e3; 0x07b12023; 0x00000000;
    0x06c4a223; 0xfc0482e3; 0x07c12023; 0x00000000; 0x06d4a223; 0xfe0482e3; 0x07d12023; 0x00000000;
    0x06e4a223; 0xfc0483e3; 0x07e12023; 0x00000000; 0x06f4a223; 0xfe0483e3; 0x07f12023; 0x00000000;
    0x02852023; 0xf00500e3; 0x0a012023; 0x00000000; 0x02952023; 0xf20500e3; 0x0a112023; 0x00000000;
    0x02a52023; 0xf00501e3; 0x0a212023; 0x00000000; 0x02b52023; 0xf20501e3; 0x0a312023; 0x00000000;
    0x02c52023; 0xf00502e3; 0x0a412023; 0x00000000; 0x02d52023; 0xf20502e3; 0x0a512023; 0x00000000;
    0x02e52023; 0xf00503e3; 0x0a612023; 0x00000000; 0x02f52023; 0xf20503e3; 0x0a712023; 0x00000000;
    0x06852023; 0xf40500e3; 0x0a812023; 0x00000000; 0x06952023; 0xf60500e3; 0x0a912023; 0x00000000;
    0x06a52023; 0xf40501e3; 0x0aa12023; 0x00000000; 0x06b52023; 0xf60501e3; 0x0ab12023; 0x00000000;
    0x06c52023; 0xf40502e3; 0x0ac12023; 0x00000000; 0x06d52023; 0xf60502e3; 0x0ad12023; 0x00000000;
    0x06e52023; 0xf40503e3; 0x0ae12023; 0x00000000; 0x06f52023; 0xf60503e3; 0x0af12023; 0x00000000;
    0x02852223; 0xf80500e3; 0x0b012023; 0x00000000; 0x02952223; 0xfa0500e3; 0x0b112023; 0x00000000;
    0x02a52223; 0xf80501e3; 0x0b212023; 0x00000000; 0x02b52223; 0xfa0501e3; 0x0b312023; 0x00000000;
    0x02c52223; 0xf80502e3; 0x0b412023; 0x00000000; 0x02d52223; 0xfa0502e3; 0x0b512023; 0x00000000;
    0x02e52223; 0xf80503e3; 0x0b612023; 0x00000000; 0x02f52223; 0xfa0503e3; 0x0b712023; 0x00000000;
    0x06852223; 0xfc0500e3; 0x0b812023; 0x00000000; 0x06952223; 0xfe0500e3; 0x0b912023; 0x00000000;
    0x06a52223; 0xfc0501e3; 0x0ba12023; 0x00000000; 0x06b52223; 0xfe0501e3; 0x0bb12023; 0x00000000;
    0x06c52223; 0xfc0502e3; 0x0bc12023; 0x00000000; 0x06d52223; 0xfe0502e3; 0x0bd12023; 0x00000000;
    0x06e52223; 0xfc0503e3; 0x0be12023; 0x00000000; 0x06f52223; 0xfe0503e3; 0x0bf12023; 0x00000000;
    0x0285a023; 0xf00580e3; 0x0e012023; 0x00000000; 0x0295a023; 0xf20580e3; 0x0e112023; 0x00000000;
    0x02a5a023; 0xf00581e3; 0x0e212023; 0x00000000; 0x02b5a023; 0xf20581e3; 0x0e312023; 0x00000000;
    0x02c5a023; 0xf00582e3; 0x0e412023; 0x00000000; 0x02d5a023; 0xf20582e3; 0x0e512023; 0x00000000;
    0x02e5a023; 0xf00583e3; 0x0e612023; 0x00000000; 0x02f5a023; 0xf20583e3; 0x0e712023; 0x00000000;
    0x0685a023; 0xf40580e3; 0x0e812023; 0x00000000; 0x0695a023; 0xf60580e3; 0x0e912023; 0x00000000;
    0x06a5a023; 0xf40581e3; 0x0ea12023; 0x00000000; 0x06b5a023; 0xf60581e3; 0x0eb12023; 0x00000000;
    0x06c5a023; 0xf40582e3; 0x0ec12023; 0x00000000; 0x06d5a023; 0xf60582e3; 0x0ed12023; 0x00000000;
    0x06e5a023; 0xf40583e3; 0x0ee12023; 0x00000000; 0x06f5a023; 0xf60583e3; 0x0ef12023; 0x00000000;
    0x0285a223; 0xf80580e3; 0x0f012023; 0x00000000; 0x0295a223; 0xfa0580e3; 0x0f112023; 0x00000000;
    0x02a5a223; 0xf80581e3; 0x0f212023; 0x00000000; 0x02b5a223; 0xfa0581e3; 0x0f312023; 0x00000000;
    0x02c5a223; 0xf80582e3; 0x0f412023; 0x00000000; 0x02d5a223; 0xfa0582e3; 0x0f512023; 0x00000000;
    0x02e5a223; 0xf80583e3; 0x0f612023; 0x00000000; 0x02f5a223; 0xfa0583e3; 0x0f712023; 0x00000000;
    0x0685a223; 0xfc0580e3; 0x0f812023; 0x00000000; 0x0695a223; 0xfe0580e3; 0x0f912023; 0x00000000;
    0x06a5a223; 0xfc0581e3; 0x0fa12023; 0x00000000; 0x06b5a223; 0xfe0581e3; 0x0fb12023; 0x00000000;
    0x06c5a223; 0xfc0582e3; 0x0fc12023; 0x00000000; 0x06d5a223; 0xfe0582e3; 0x0fd12023; 0x00000000;
    0x06e5a223; 0xfc0583e3; 0x0fe12023; 0x00000000; 0x06f5a223; 0xfe0583e3; 0x0ff12023; 0x00000000;
    0x02862023; 0xf00600e3; 0x02012223; 0x00000000; 0x02962023; 0xf20600e3; 0x02112223; 0x00000000;
    0x02a62023; 0xf00601e3; 0x02212223; 0x00000000; 0x02b62023; 0xf20601e3; 0x02312223; 0x00000000;
    0x02c62023; 0xf00602e3; 0x02412223; 0x00000000; 0x02d62023; 0xf20602e3; 0x02512223; 0x00000000;
    0x02e62023; 0xf00603e3; 0x02612223; 0x00000000; 0x02f62023; 0xf20603e3; 0x02712223; 0x00000000;
    0x06862023; 0xf40600e3; 0x02812223; 0x00000000; 0x06962023; 0xf60600e3; 0x02912223; 0x00000000;
    0x06a62023; 0xf40601e3; 0x02a12223; 0x00000000; 0x06b62023; 0xf60601e3; 0x02b12223; 0x00000000;
    0x06c62023; 0xf40602e3; 0x02c12223; 0x00000000; 0x06d62023; 0xf60602e3; 0x02d12223; 0x00000000;
    0x06e62023; 0xf40603e3; 0x02e12223; 0x00000000; 0x06f62023; 0xf60603e3; 0x02f12223; 0x00000000;
    0x02862223; 0xf80600e3; 0x03012223; 0x00000000; 0x02962223; 0xfa0600e3; 0x03112223; 0x00000000;
    0x02a62223; 0xf80601e3; 0x03212223; 0x00000000; 0x02b62223; 0xfa0601e3; 0x03312223; 0x00000000;
    0x02c62223; 0xf80602e3; 0x03412223; 0x00000000; 0x02d62223; 0xfa0602e3; 0x03512223; 0x00000000;
    0x02e62223; 0xf80603e3; 0x03612223; 0x00000000; 0x02f62223; 0xfa0603e3; 0x03712223; 0x00000000;
    0x06862223; 0xfc0600e3; 0x03812223; 0x00000000; 0x06962223; 0xfe0600e3; 0x03912223; 0x00000000;
    0x06a62223; 0xfc0601e3; 0x03a12223; 0x00000000; 0x06b62223; 0xfe0601e3; 0x03b12223; 0x00000000;
    0x06c62223; 0xfc0602e3; 0x03c12223; 0x00000000; 0x06d62223; 0xfe0602e3; 0x03d12223; 0x00000000;
    0x06e62223; 0xfc0603e3; 0x03e12223; 0x00000000; 0x06f62223; 0xfe0603e3; 0x03f12223; 0x00000000;
    0x0286a023; 0xf00680e3; 0x06012223; 0x00000000; 0x0296a023; 0xf20680e3; 0x06112223; 0x00000000;
    0x02a6a023; 0xf00681e3; 0x06212223; 0x00000000; 0x02b6a023; 0xf20681e3; 0x06312223; 0x00000000;
    0x02c6a023; 0xf00682e3; 0x06412223; 0x00000000; 0x02d6a023; 0xf20682e3; 0x06512223; 0x00000000;
    0x02e6a023; 0xf00683e3; 0x06612223; 0x00000000; 0x02f6a023; 0xf20683e3; 0x06712223; 0x00000000;
    0x0686a023; 0xf40680e3; 0x06812223; 0x00000000; 0x0696a023; 0xf60680e3; 0x06912223; 0x00000000;
    0x06a6a023; 0xf40681e3; 0x06a12223; 0x00000000; 0x06b6a023; 0xf60681e3; 0x06b12223; 0x00000000;
    0x06c6a023; 0xf40682e3; 0x06c12223; 0x00000000; 0x06d6a023; 0xf60682e3; 0x06d12223; 0x00000000;
    0x06e6a023; 0xf40683e3; 0x06e12223; 0x00000000; 0x06f6a023; 0xf60683e3; 0x06f12223; 0x00000000;
    0x0286a223; 0xf80680e3; 0x07012223; 0x00000000; 0x0296a223; 0xfa0680e3; 0x07112223; 0x00000000;
    0x02a6a223; 0xf80681e3; 0x07212223; 0x00000000; 0x02b6a223; 0xfa0681e3; 0x07312223; 0x00000000;
    0x02c6a223; 0xf80682e3; 0x07412223; 0x00000000; 0x02d6a223; 0xfa0682e3; 0x07512223; 0x00000000;
    0x02e6a223; 0xf80683e3; 0x07612223; 0x00000000; 0x02f6a223; 0xfa0683e3; 0x07712223; 0x00000000;
    0x0686a223; 0xfc0680e3; 0x07812223; 0x00000000; 0x0696a223; 0xfe0680e3; 0x07912223; 0x00000000;
    0x06a6a223; 0xfc0681e3; 0x07a12223; 0x00000000; 0x06b6a223; 0xfe0681e3; 0x07b12223; 0x00000000;
    0x06c6a223; 0xfc0682e3; 0x07c12223; 0x00000000; 0x06d6a223; 0xfe0682e3; 0x07d12223; 0x00000000;
    0x06e6a223; 0xfc0683e3; 0x07e12223; 0x00000000; 0x06f6a223; 0xfe0683e3; 0x07f12223; 0x00000000;
    0x02872023; 0xf00700e3; 0x0a012223; 0x00000000; 0x02972023; 0xf20700e3; 0x0a112223; 0x00000000;
    0x02a72023; 0xf00701e3; 0x0a212223; 0x00000000; 0x02b72023; 0xf20701e3; 0x0a312223; 0x00000000;
    0x02c72023; 0xf00702e3; 0x0a412223; 0x00000000; 0x02d72023; 0xf20702e3; 0x0a512223; 0x00000000;
    0x02e72023; 0xf00703e3; 0x0a612223; 0x00000000; 0x02f72023; 0xf20703e3; 0x0a712223; 0x00000000;
    0x06872023; 0xf40700e3; 0x0a812223; 0x00000000; 0x06972023; 0xf60700e3; 0x0a912223; 0x00000000;
    0x06a72023; 0xf40701e3; 0x0aa12223; 0x00000000; 0x06b72023; 0xf60701e3; 0x0ab12223; 0x00000000;
    0x06c72023; 0xf40702e3; 0x0ac12223; 0x00000000; 0x06d72023; 0xf60702e3; 0x0ad12223; 0x00000000;
    0x06e72023; 0xf40703e3; 0x0ae12223; 0x00000000; 0x06f72023; 0xf60703e3; 0x0af12223; 0x00000000;
    0x02872223; 0xf80700e3; 0x0b012223; 0x00000000; 0x02972223; 0xfa0700e3; 0x0b112223; 0x00000000;
    0x02a72223; 0xf80701e3; 0x0b212223; 0x00000000; 0x02b72223; 0xfa0701e3; 0x0b312223; 0x00000000;
    0x02c72223; 0xf80702e3; 0x0b412223; 0x00000000; 0x02d72223; 0xfa0702e3; 0x0b512223; 0x00000000;
    0x02e72223; 0xf80703e3; 0x0b612223; 0x00000000; 0x02f72223; 0xfa0703e3; 0x0b712223; 0x00000000;
    0x06872223; 0xfc0700e3; 0x0b812223; 0x00000000; 0x06972223; 0xfe0700e3; 0x0b912223; 0x00000000;
    0x06a72223; 0xfc0701e3; 0x0ba12223; 0x00000000; 0x06b72223; 0xfe0701e3; 0x0bb12223; 0x00000000;
    0x06c72223; 0xfc0702e3; 0x0bc12223; 0x00000000; 0x06d72223; 0xfe0702e3; 0x0bd12223; 0x00000000;
    0x06e72223; 0xfc0703e3; 0x0be12223; 0x00000000; 0x06f72223; 0xfe0703e3; 0x0bf12223; 0x00000000;
    0x0287a023; 0xf00780e3; 0x0e012223; 0x00000000; 0x0297a023; 0xf20780e3; 0x0e112223; 0x00000000;
    0x02a7a023; 0xf00781e3; 0x0e212223; 0x00000000; 0x02b7a023; 0xf20781e3; 0x0e312223; 0x00000000;
    0x02c7a023; 0xf00782e3; 0x0e412223; 0x00000000; 0x02d7a023; 0xf20782e3; 0x0e512223; 0x00000000;
    0x02e7a023; 0xf00783e3; 0x0e612223; 0x00000000; 0x02f7a023; 0xf20783e3; 0x0e712223; 0x00000000;
    0x0687a023; 0xf40780e3; 0x0e812223; 0x00000000; 0x0697a023; 0xf60780e3; 0x0e912223; 0x00000000;
    0x06a7a023; 0xf40781e3; 0x0ea12223; 0x00000000; 0x06b7a023; 0xf60781e3; 0x0eb12223; 0x00000000;
    0x06c7a023; 0xf40782e3; 0x0ec12223; 0x00000000; 0x06d7a023; 0xf60782e3; 0x0ed12223; 0x00000000;
    0x06e7a023; 0xf40783e3; 0x0ee12223; 0x00000000; 0x06f7a023; 0xf60783e3; 0x0ef12223; 0x00000000;
    0x0287a223; 0xf80780e3; 0x0f012223; 0x00000000; 0x0297a223; 0xfa0780e3; 0x0f112223; 0x00000000;
    0x02a7a223; 0xf80781e3; 0x0f212223; 0x00000000; 0x02b7a223; 0xfa0781e3; 0x0f312223; 0x00000000;
    0x02c7a223; 0xf80782e3; 0x0f412223; 0x00000000; 0x02d7a223; 0xfa0782e3; 0x0f512223; 0x00000000;
    0x02e7a223; 0xf80783e3; 0x0f612223; 0x00000000; 0x02f7a223; 0xfa0783e3; 0x0f712223; 0x00000000;
    0x0687a223; 0xfc0780e3; 0x0f812223; 0x00000000; 0x0697a223; 0xfe0780e3; 0x0f912223; 0x00000000;
    0x06a7a223; 0xfc0781e3; 0x0fa12223; 0x00000000; 0x06b7a223; 0xfe0781e3; 0x0fb12223; 0x00000000;
    0x06c7a223; 0xfc0782e3; 0x0fc12223; 0x00000000; 0x06d7a223; 0xfe0782e3; 0x0fd12223; 0x00000000;
    0x06e7a223; 0xfc0783e3; 0x0fe12223; 0x00000000; 0x06f7a223; 0xfe0783e3; 0x0ff12223; 0x00000000
].

(** parcels 0xd400 to 0xd7ff *)
Definition RVC64_EXPANDED_53 : list Z := [
    0x02842423; 0xf00404e3; 0x02012423; 0x00000000; 0x02942423; 0xf20404e3; 0x02112423; 0x00000000;
    0x02a42423; 0xf00405e3; 0x02212423; 0x00000000; 0x02b42423; 0xf20405e3; 0x02312423; 0x00000000;
    0x02c42423; 0xf00406e3; 0x02412423; 0x00000000; 0x02d42423; 0xf20406e3; 0x02512423; 0x00000000;
    0x02e42423; 0xf00407e3; 0x02612423; 0x00000000; 0x02f42423; 0xf20407e3; 0x02712423; 0x00000000;
    0x06842423; 0xf40404e3; 0x02812423; 0x00000000; 0x06942423; 0xf60404e3; 0x02912423; 0x00000000;
    0x06a42423; 0xf40405e3; 0x02a12423; 0x00000000; 0x06b42423; 0xf60405e3; 0x02b12423; 0x00000000;
    0x06c42423; 0xf40406e3; 0x02c12423; 0x00000000; 0x06d42423; 0xf60406e3; 0x02d12423; 0x00000000;
    0x06e42423; 0xf40407e3; 0x02e12423; 0x00000000; 0x06f42423; 0xf60407e3; 0x02f12423; 0x00000000;
    0x02842623; 0xf80404e3; 0x03012423; 0x00000000; 0x02942623; 0xfa0404e3; 0x03112423; 0x00000000;
    0x02a42623; 0xf80405e3; 0x03212423; 0x00000000; 0x02b42623; 0xfa0405e3; 0x03312423; 0x00000000;
    0x02c42623; 0xf80406e3; 0x03412423; 0x00000000; 0x02d42623; 0xfa0406e3; 0x03512423; 0x00000000;
    0x02e42623; 0xf80407e3; 0x03612423; 0x00000000; 0x02f42623; 0xfa0407e3; 0x03712423; 0x00000000;
    0x06842623; 0xfc0404e3; 0x03812423; 0x00000000; 0x06942623; 0xfe0404e3; 0x03912423; 0x00000000;
    0x06a42623; 0xfc0405e3; 0x03a12423; 0x00000000; 0x06b42623; 0xfe0405e3; 0x03b12423; 0x00000000;
    0x06c42623; 0xfc0406e3; 0x03c12423; 0x00000000; 0x06d42623; 0xfe0406e3; 0x03d12423; 0x00000000;
    0x06e42623; 0xfc0407e3; 0x03e12423; 0x00000000; 0x06f42623; 0xfe0407e3; 0x03f12423; 0x00000000;
    0x0284a423; 0xf00484e3; 0x06012423; 0x00000000; 0x0294a423; 0xf20484e3; 0x06112423; 0x00000000;
    0x02a4a423; 0xf00485e3; 0x06212423; 0x00000000; 0x02b4a423; 0xf20485e3; 0x06312423; 0x00000000;
    0x02c4a423; 0xf00486e3; 0x06412423; 0x00000000; 0x02d4a423; 0xf20486e3; 0x06512423; 0x00000000;
    0x02e4a423; 0xf00487e3; 0x06612423; 0x00000000; 0x02f4a423; 0xf20487e3; 0x06712423; 0x00000000;
    0x0684a423; 0xf40484e3; 0x06812423; 0x00000000; 0x0694a423; 0xf60484e3; 0x06912423; 0x00000000;
    0x06a4a423; 0xf40485e3; 0x06a12423; 0x00000000; 0x06b4a423; 0xf60485e3; 0x06b12423; 0x00000000;
    0x06c4a423; 0xf40486e3; 0x06c12423; 0x00000000; 0x06d4a423; 0xf60486e3; 0x06d12423; 0x00000000;
    0x06e4a423; 0xf40487e3; 0x06e12423; 0x00000000; 0x06f4a423; 0xf60487e3; 0x06f12423; 0x00000000;
    0x0284a623; 0xf80484e3; 0x07012423; 0x00000000; 0x0294a623; 0xfa0484e3; 0x07112423; 0x00000000;
    0x02a4a623; 0xf80485e3; 0x07212423; 0x00000000; 0x02b4a623; 0xfa0485e3; 0x07312423; 0x00000000;
    0x02c4a623; 0xf80486e3; 0x07412423; 0x00000000; 0x02d4a623; 0xfa0486e3; 0x07512423; 0x00000000;
    0x02e4a623; 0xf80487e3; 0x07612423; 0x00000000; 0x02f4a623; 0xfa0487e3; 0x07712423; 0x00000000;
    0x0684a623; 0xfc0484e3; 0x07812423; 0x00000000; 0x0694a623; 0xfe0484e3; 0x07912423; 0x00000000;
    0x06a4a623; 0xfc0485e3; 0x07a12423; 0x00000000; 0x06b4a623; 0xfe0485e3; 0x07b12423; 0x00000000;
    0x06c4a623; 0xfc0486e3; 0x07c12423; 0x00000000; 0x06d4a623; 0xfe0486e3; 0x07d12423; 0x00000000;
    0x06e4a623; 0xfc0487e3; 0x07e12423; 0x00000000; 0x06f4a623; 0xfe0487e3; 0x07f12423; 0x00000000;
    0x02852423; 0xf00504e3; 0x0a012423; 0x00000000; 0x02952423; 0xf20504e3; 0x0a112423; 0x00000000;
    0x02a52423; 0xf00505e3; 0x0a212423; 0x00000000; 0x02b52423; 0xf20505e3; 0x0a312423; 0x00000000;
    0x02c52423; 0xf00506e3; 0x0a412423; 0x00000000; 0x02d52423; 0xf20506e3; 0x0a512423; 0x00000000;
    0x02e52423; 0xf00507e3; 0x0a612423; 0x00000000; 0x02f52423; 0xf20507e3; 0x0a712423; 0x00000000;
    0x06852423; 0xf40504e3; 0x0a812423; 0x00000000; 0x06952423; 0xf60504e3; 0x0a912423; 0x00000000;
    0x06a52423; 0xf40505e3; 0x0aa12423; 0x00000000; 0x06b52423; 0xf60505e3; 0x0ab12423; 0x00000000;
    0x06c52423; 0xf40506e3; 0x0ac12423; 0x00000000; 0x06d52423; 0xf60506e3; 0x0ad12423; 0x00000000;
    0x06e52423; 0xf40507e3; 0x0ae12423; 0x00000000; 0x06f52423; 0xf60507e3; 0x0af12423; 0x00000000;
    0x02852623; 0xf80504e3; 0x0b012423; 0x00000000; 0x02952623; 0xfa0504e3; 0x0b112423; 0x00000000;
    0x02a52623; 0xf80505e3; 0x0b212423; 0x00000000; 0x02b52623; 0xfa0505e3; 0x0b312423; 0x00000000;
    0x02c52623; 0xf80506e3; 0x0b412423; 0x00000000; 0x02d52623; 0xfa0506e3; 0x0b512423; 0x00000000;
    0x02e52623; 0xf80507e3; 0x0b612423; 0x00000000; 0x02f52623; 0xfa0507e3; 0x0b712423; 0x00000000;
    0x06852623; 0xfc0504e3; 0x0b812423; 0x00000000; 0x06952623; 0xfe0504e3; 0x0b912423; 0x00000000;
    0x06a52623; 0xfc0505e3; 0x0ba12423; 0x00000000; 0x06b52623; 0xfe0505e3; 0x0bb12423; 0x00000000;
    0x06c52623; 0xfc0506e3; 0x0bc12423; 0x00000000; 0x06d52623; 0xfe0506e3; 0x0bd12423; 0x00000000;
    0x06e52623; 0xfc0507e3; 0x0be12423; 0x00000000; 0x06f52623; 0xfe0507e3; 0x0bf12423; 0x00000000;
    0x0285a423; 0xf00584e3; 0x0e012423; 0x00000000; 0x0295a423; 0xf20584e3; 0x0e112423; 0x00000000;
    0x02a5a423; 0xf00585e3; 0x0e212423; 0x00000000; 0x02b5a423; 0xf20585e3; 0x0e312423; 0x00000000;
    0x02c5a423; 0xf00586e3; 0x0e412423; 0x00000000; 0x02d5a423; 0xf20586e3; 0x0e512423; 0x00000000;
    0x02e5a423; 0xf00587e3; 0x0e612423; 0x00000000; 0x02f5a423; 0xf20587e3; 0x0e712423; 0x00000000;
    0x0685a423; 0xf40584e3; 0x0e812423; 0x00000000; 0x0695a423; 0xf60584e3; 0x0e912423; 0x00000000;
    0x06a5a423; 0xf40585e3; 0x0ea12423; 0x00000000; 0x06b5a423; 0xf60585e3; 0x0eb12423; 0x00000000;
    0x06c5a423; 0xf40586e3; 0x0ec12423; 0x00000000; 0x06d5a423; 0xf60586e3; 0x0ed12423; 0x00000000;
    0x06e5a423; 0xf40587e3; 0x0ee12423; 0x00000000; 0x06f5a423; 0xf60587e3; 0x0ef12423; 0x00000000;
    0x0285a623; 0xf80584e3; 0x0f012423; 0x00000000; 0x0295a623; 0xfa0584e3; 0x0f112423; 0x00000000;
    0x02a5a623; 0xf80585e3; 0x0f212423; 0x00000000; 0x02b5a623; 0xfa0585e3; 0x0f312423; 0x00000000;
    0x02c5a623; 0xf80586e3; 0x0f412423; 0x00000000; 0x02d5a623; 0xfa0586e3; 0x0f512423; 0x00000000;
    0x02e5a623; 0xf80587e3; 0x0f612423; 0x00000000; 0x02f5a623; 0xfa0587e3; 0x0f712423; 0x00000000;
    0x0685a623; 0xfc0584e3; 0x0f812423; 0x00000000; 0x0695a623; 0xfe0584e3; 0x0f912423; 0x00000000;
    0x06a5a623; 0xfc0585e3; 0x0fa12423; 0x00000000; 0x06b5a623; 0xfe0585e3; 0x0fb12423; 0x00000000;
    0x06c5a623; 0xfc0586e3; 0x0fc12423; 0x00000000; 0x06d5a623; 0xfe0586e3; 0x0fd12423; 0x00000000;
    0x06e5a623; 0xfc0587e3; 0x0fe12423; 0x00000000; 0x06f5a623; 0xfe0587e3; 0x0ff12423; 0x00000000;
    0x02862423; 0xf00604e3; 0x02012623; 0x00000000; 0x02962423; 0xf20604e3; 0x02112623; 0x00000000;
    0x02a62423; 0xf00605e3; 0x02212623; 0x00000000; 0x02b62423; 0xf20605e3; 0x02312623; 0x00000000;
    0x02c62423; 0xf00606e3; 0x02412623; 0x00000000; 0x02d62423; 0xf20606e3; 0x02512623; 0x00000000;
    0x02e62423; 0xf00607e3; 0x02612623; 0x00000000; 0x02f62423; 0xf20607e3; 0x02712623; 0x00000000;
    0x06862423; 0xf40604e3; 0x02812623; 0x00000000; 0x06962423; 0xf60604e3; 0x02912623; 0x00000000;
    0x06a62423; 0xf40605e3; 0x02a12623; 0x00000000; 0x06b62423; 0xf60605e3; 0x02b12623; 0x00000000;
    0x06c62423; 0xf40606e3; 0x02c12623; 0x00000000; 0x06d62423; 0xf60606e3; 0x02d12623; 0x00000000;
    0x06e62423; 0xf40607e3; 0x02e12623; 0x00000000; 0x06f62423; 0xf60607e3; 0x02f12623; 0x00000000;
    0x02862623; 0xf80604e3; 0x03012623; 0x00000000; 0x02962623; 0xfa0604e3; 0x03112623; 0x00000000;
    0x02a62623; 0xf80605e3; 0x03212623; 0x00000000; 0x02b62623; 0xfa0605e3; 0x03312623; 0x00000000;
    0x02c62623; 0xf80606e3; 0x03412623; 0x00000000; 0x02d62623; 0xfa0606e3; 0x03512623; 0x00000000;
    0x02e62623; 0xf80607e3; 0x03612623; 0x00000000; 0x02f62623; 0xfa0607e3; 0x03712623; 0x00000000;
    0x06862623; 0xfc0604e3; 0x03812623; 0x00000000; 0x06962623; 0xfe0604e3; 0x03912623; 0x00000000;
    0x06a62623; 0xfc0605e3; 0x03a12623; 0x00000000; 0x06b62623; 0xfe0605e3; 0x03b12623; 0x00000000;
    0x06c62623; 0xfc0606e3; 0x03c12623; 0x00000000; 0x06d62623; 0xfe0606e3; 0x03d12623; 0x00000000;
    0x06e62623; 0xfc0607e3; 0x03e12623; 0x00000000; 0x06f62623; 0xfe0607e3; 0x03f12623; 0x00000000;
    0x0286a423; 0xf00684e3; 0x06012623; 0x00000000; 0x0296a423; 0xf20684e3; 0x06112623; 0x00000000;
    0x02a6a423; 0xf00685e3; 0x06212623; 0x00000000; 0x02b6a423; 0xf20685e3; 0x06312623; 0x00000000;
    0x02c6a423; 0xf00686e3; 0x06412623; 0x00000000; 0x02d6a423; 0xf20686e3; 0x06512623; 0x00000000;
    0x02e6a423; 0xf00687e3; 0x06612623; 0x00000000; 0x02f6a423; 0xf20687e3; 0x06712623; 0x00000000;
    0x0686a423; 0xf40684e3; 0x06812623; 0x00000000; 0x0696a423; 0xf60684e3; 0x06912623; 0x00000000;
    0x06a6a423; 0xf40685e3; 0x06a12623; 0x00000000; 0x06b6a423; 0xf60685e3; 0x06b12623; 0x00000000;
    0x06c6a423; 0xf40686e3; 0x06c12623; 0x00000000; 0x06d6a423; 0xf60686e3; 0x06d12623; 0x00000000;
    0x06e6a423; 0xf40687e3; 0x06e12623; 0x00000000; 0x06f6a423; 0xf60687e3; 0x06f12623; 0x00000000;
    0x0286a623; 0xf80684e3; 0x07012623; 0x00000000; 0x0296a623; 0xfa0684e3; 0x07112623; 0x00000000;
    0x02a6a623; 0xf80685e3; 0x07212623; 0x00000000; 0x02b6a623; 0xfa0685e3; 0x07312623; 0x00000000;
    0x02c6a623; 0xf80686e3; 0x07412623; 0x00000000; 0x02d6a623; 0xfa0686e3; 0x07512623; 0x00000000;
    0x02e6a623; 0xf80687e3; 0x07612623; 0x00000000; 0x02f6a623; 0xfa0687e3; 0x07712623; 0x00000000;
    0x0686a623; 0xfc0684e3; 0x07812623; 0x00000000; 0x0696a623; 0xfe0684e3; 0x07912623; 0x00000000;
    0x06a6a623; 0xfc0685e3; 0x07a12623; 0x00000000; 0x06b6a623; 0xfe0685e3; 0x07b12623; 0x00000000;
    0x06c6a623; 0xfc0686e3; 0x07c12623; 0x00000000; 0x06d6a623; 0xfe0686e3; 0x07d12623; 0x00000000;
    0x06e6a623; 0xfc0687e3; 0x07e12623; 0x00000000; 0x06f6a623; 0xfe0687e3; 0x07f12623; 0x00000000;
    0x02872423; 0xf00704e3; 0x0a012623; 0x00000000; 0x02972423; 0xf20704e3; 0x0a112623; 0x00000000;
    0x02a72423; 0xf00705e3; 0x0a212623; 0x00000000; 0x02b72423; 0xf20705e3; 0x0a312623; 0x00000000;
    0x02c72423; 0xf00706e3; 0x0a412623; 0x00000000; 0x02d72423; 0xf20706e3; 0x0a512623; 0x00000000;
    0x02e72423; 0xf00707e3; 0x0a612623; 0x00000000; 0x02f72423; 0xf20707e3; 0x0a712623; 0x00000000;
    0x06872423; 0xf40704e3; 0x0a812623; 0x00000000; 0x06972423; 0xf60704e3; 0x0a912623; 0x00000000;
    0x06a72423; 0xf40705e3; 0x0aa12623; 0x00000000; 0x06b72423; 0xf60705e3; 0x0ab12623; 0x00000000;
    0x06c72423; 0xf40706e3; 0x0ac12623; 0x00000000; 0x06d72423; 0xf60706e3; 0x0ad12623; 0x00000000;
    0x06e72423; 0xf40707e3; 0x0ae12623; 0x00000000; 0x06f72423; 0xf60707e3; 0x0af12623; 0x00000000;
    0x02872623; 0xf80704e3; 0x0b012623; 0x00000000; 0x02972623; 0xfa0704e3; 0x0b112623; 0x00000000;
    0x02a72623; 0xf80705e3; 0x0b212623; 0x00000000; 0x02b72623; 0xfa0705e3; 0x0b312623; 0x00000000;
    0x02c72623; 0xf80706e3; 0x0b412623; 0x00000000; 0x02d72623; 0xfa0706e3; 0x0b512623; 0x00000000;
    0x02e72623; 0xf80707e3; 0x0b612623; 0x00000000; 0x02f72623; 0xfa0707e3; 0x0b712623; 0x00000000;
    0x06872623; 0xfc0704e3; 0x0b812623; 0x00000000; 0x06972623; 0xfe0704e3; 0x0b912623; 0x00000000;
    0x06a72623; 0xfc0705e3; 0x0ba12623; 0x00000000; 0x06b72623; 0xfe0705e3; 0x0bb12623; 0x00000000;
    0x06c72623; 0xfc0706e3; 0x0bc12623; 0x00000000; 0x06d72623; 0xfe0706e3; 0x0bd12623; 0x00000000;
    0x06e72623; 0xfc0707e3; 0x0be12623; 0x00000000; 0x06f72623; 0xfe0707e3; 0x0bf12623; 0x00000000;
    0x0287a423; 0xf00784e3; 0x0e012623; 0x00000000; 0x0297a423; 0xf20784e3; 0x0e112623; 0x00000000;
    0x02a7a423; 0xf00785e3; 0x0e212623; 0x00000000; 0x02b7a423; 0xf20785e3; 0x0e312623; 0x00000000;
    0x02c7a423; 0xf00786e3; 0x0e412623; 0x00000000; 0x02d7a423; 0xf20786e3; 0x0e512623; 0x00000000;
    0x02e7a423; 0xf00787e3; 0x0e612623; 0x00000000; 0x02f7a423; 0xf20787e3; 0x0e712623; 0x00000000;
    0x0687a423; 0xf40784e3; 0x0e812623; 0x00000000; 0x0697a423; 0xf60784e3; 0x0e912623; 0x00000000;
    0x06a7a423; 0xf40785e3; 0x0ea12623; 0x00000000; 0x06b7a423; 0xf60785e3; 0x0eb12623; 0x00000000;
    0x06c7a423; 0xf40786e3; 0x0ec12623; 0x00000000; 0x06d7a423; 0xf60786e3; 0x0ed12623; 0x00000000;
    0x06e7a423; 0xf40787e3; 0x0ee12623; 0x00000000; 0x06f7a423; 0xf60787e3; 0x0ef12623; 0x00000000;
    0x0287a623; 0xf80784e3; 0x0f012623; 0x00000000; 0x0297a623; 0xfa0784e3; 0x0f112623; 0x00000000;
    0x02a7a623; 0xf80785e3; 0x0f212623; 0x00000000; 0x02b7a623; 0xfa0785e3; 0x0f312623; 0x00000000;
    0x02c7a623; 0xf80786e3; 0x0f412623; 0x00000000; 0x02d7a623; 0xfa0786e3; 0x0f512623; 0x00000000;
    0x02e7a623; 0xf80787e3; 0x0f612623; 0x00000000; 0x02f7a623; 0xfa0787e3; 0x0f712623; 0x00000000;
    0x0687a623; 0xfc0784e3; 0x0f812623; 0x00000000; 0x0697a623; 0xfe0784e3; 0x0f912623; 0x00000000;
    0x06a7a623; 0xfc0785e3; 0x0fa12623; 0x00000000; 0x06b7a623; 0xfe0785e3; 0x0fb12623; 0x00000000;
    0x06c7a623; 0xfc0786e3; 0x0fc12623; 0x00000000; 0x06d7a623; 0xfe0786e3; 0x0fd12623; 0x00000000;
    0x06e7a623; 0xfc0787e3; 0x0fe12623; 0x00000000; 0x06f7a623; 0xfe0787e3; 0x0ff12623; 0x00000000
].

(** parcels 0xd800 to 0xdbff *)
Definition RVC64_EXPANDED_54 : list Z := [
    0x02842823; 0xf00408e3; 0x02012823; 0x00000000; 0x02942823; 0xf20408e3; 0x02112823; 0x00000000;
    0x02a42823; 0xf00409e3; 0x02212823; 0x00000000; 0x02b42823; 0xf20409e3; 0x02312823; 0x00000000;
    0x02c42823; 0xf0040ae3; 0x02412823; 0x00000000; 0x02d42823; 0xf2040ae3; 0x02512823; 0x00000000;
    0x02e42823; 0xf0040be3; 0x02612823; 0x00000000; 0x02f42823; 0xf2040be3; 0x02712823; 0x00000000;
    0x06842823; 0xf40408e3; 0x02812823; 0x00000000; 0x06942823; 0xf60408e3; 0x02912823; 0x00000000;
    0x06a42823; 0xf40409e3; 0x02a12823; 0x00000000; 0x06b42823; 0xf60409e3; 0x02b12823; 0x00000000;
    0x06c42823; 0xf4040ae3; 0x02c12823; 0x00000000; 0x06d42823; 0xf6040ae3; 0x02d12823; 0x00000000;
    0x06e42823; 0xf4040be3; 0x02e12823; 0x00000000; 0x06f42823; 0xf6040be3; 0x02f12823; 0x00000000;
    0x02842a23; 0xf80408e3; 0x03012823; 0x00000000; 0x02942a23; 0xfa0408e3; 0x03112823; 0x00000000;
    0x02a42a23; 0xf80409e3; 0x03212823; 0x00000000; 0x02b42a23; 0xfa0409e3; 0x03312823; 0x00000000;
    0x02c42a23; 0xf8040ae3; 0x03412823; 0x00000000; 0x02d42a23; 0xfa040ae3; 0x03512823; 0x00000000;
    0x02e42a23; 0xf8040be3; 0x03612823; 0x00000000; 0x02f42a23; 0xfa040be3; 0x03712823; 0x00000000;
    0x06842a23; 0xfc0408e3; 0x03812823; 0x00000000; 0x06942a23; 0xfe0408e3; 0x03912823; 0x00000000;
    0x06a42a23; 0xfc0409e3; 0x03a12823; 0x00000000; 0x06b42a23; 0xfe0409e3; 0x03b12823; 0x00000000;
    0x06c42a23; 0xfc040ae3; 0x03c12823; 0x00000000; 0x06d42a23; 0xfe040ae3; 0x03d12823; 0x00000000;
    0x06e42a23; 0xfc040be3; 0x03e12823; 0x00000000; 0x06f42a23; 0xfe040be3; 0x03f12823; 0x00000000;
    0x0284a823; 0xf00488e3; 0x06012823; 0x00000000; 0x0294a823; 0xf20488e3; 0x06112823; 0x00000000;
    0x02a4a823; 0xf00489e3; 0x06212823; 0x00000000; 0x02b4a823; 0xf20489e3; 0x06312823; 0x00000000;
    0x02c4a823; 0xf0048ae3; 0x06412823; 0x00000000; 0x02d4a823; 0xf2048ae3; 0x06512823; 0x00000000;
    0x02e4a823; 0xf0048be3; 0x06612823; 0x00000000; 0x02f4a823; 0xf2048be3; 0x06712823; 0x00000000;
    0x0684a823; 0xf40488e3; 0x06812823; 0x00000000; 0x0694a823; 0xf60488e3; 0x06912823; 0x00000000;
    0x06a4a823; 0xf40489e3; 0x06a12823; 0x00000000; 0x06b4a823; 0xf60489e3; 0x06b12823; 0x00000000;
    0x06c4a823; 0xf4048ae3; 0x06c12823; 0x00000000; 0x06d4a823; 0xf6048ae3; 0x06d12823; 0x00000000;
    0x06e4a823; 0xf4048be3; 0x06e12823; 0x00000000; 0x06f4a823; 0xf6048be3; 0x06f12823; 0x00000000;
    0x0284aa23; 0xf80488e3; 0x07012823; 0x00000000; 0x0294aa23; 0xfa0488e3; 0x07112823; 0x00000000;
    0x02a4aa23; 0xf80489e3; 0x07212823; 0x00000000; 0x02b4aa23; 0xfa0489e3; 0x07312823; 0x00000000;
    0x02c4aa23; 0xf8048ae3; 0x07412823; 0x00000000; 0x02d4aa23; 0xfa048ae3; 0x07512823; 0x00000000;
    0x02e4aa23; 0xf8048be3; 0x07612823; 0x00000000; 0x02f4aa23; 0xfa048be3; 0x07712823; 0x00000000;
    0x0684aa23; 0xfc0488e3; 0x07812823; 0x00000000; 0x0694aa23; 0xfe0488e3; 0x07912823; 0x00000000;
    0x06a4aa23; 0xfc0489e3; 0x07a12823; 0x00000000; 0x06b4aa23; 0xfe0489e3; 0x07b12823; 0x00000000;
    0x06c4aa23; 0xfc048ae3; 0x07c12823; 0x00000000; 0x06d4aa23; 0xfe048ae3; 0x07d12823; 0x00000000;
    0x06e4aa23; 0xfc048be3; 0x07e12823; 0x00000000; 0x06f4aa23; 0xfe048be3; 0x07f12823; 0x00000000;
    0x02852823; 0xf00508e3; 0x0a012823; 0x00000000; 0x02952823; 0xf20508e3; 0x0a112823; 0x00000000;
    0x02a52823; 0xf00509e3; 0x0a212823; 0x00000000; 0x02b52823; 0xf20509e3; 0x0a312823; 0x00000000;
    0x02c52823; 0xf0050ae3; 0x0a412823; 0x00000000; 0x02d52823; 0xf2050ae3; 0x0a512823; 0x00000000;
    0x02e52823; 0xf0050be3; 0x0a612823; 0x00000000; 0x02f52823; 0xf2050be3; 0x0a712823; 0x00000000;
    0x06852823; 0xf40508e3; 0x0a812823; 0x00000000; 0x06952823; 0xf60508e3; 0x0a912823; 0x00000000;
    0x06a52823; 0xf40509e3; 0x0aa12823; 0x00000000; 0x06b52823; 0xf60509e3; 0x0ab12823; 0x00000000;
    0x06c52823; 0xf4050ae3; 0x0ac12823; 0x00000000; 0x06d52823; 0xf6050ae3; 0x0ad12823; 0x00000000;
    0x06e52823; 0xf4050be3; 0x0ae12823; 0x00000000; 0x06f52823; 0xf6050be3; 0x0af12823; 0x00000000;
    0x02852a23; 0xf80508e3; 0x0b012823; 0x00000000; 0x02952a23; 0xfa0508e3; 0x0b112823; 0x00000000;
    0x02a52a23; 0xf80509e3; 0x0b212823; 0x00000000; 0x02b52a23; 0xfa0509e3; 0x0b312823; 0x00000000;
    0x02c52a23; 0xf8050ae3; 0x0b412823; 0x00000000; 0x02d52a23; 0xfa050ae3; 0x0b512823; 0x00000000;
    0x02e52a23; 0xf8050be3; 0x0b612823; 0x00000000; 0x02f52a23; 0xfa050be3; 0x0b712823; 0x00000000;
    0x06852a23; 0xfc0508e3; 0x0b812823; 0x00000000; 0x06952a23; 0xfe0508e3; 0x0b912823; 0x00000000;
    0x06a52a23; 0xfc0509e3; 0x0ba12823; 0x00000000; 0x06b52a23; 0xfe0509e3; 0x0bb12823; 0x00000000;
    0x06c52a23; 0xfc050ae3; 0x0bc12823; 0x00000000; 0x06d52a23; 0xfe050ae3; 0x0bd12823; 0x00000000;
    0x06e52a23; 0xfc050be3; 0x0be12823; 0x00000000; 0x06f52a23; 0xfe050be3; 0x0bf12823; 0x00000000;
    0x0285a823; 0xf00588e3; 0x0e012823; 0x00000000; 0x0295a823; 0xf20588e3; 0x0e112823; 0x00000000;
    0x02a5a823; 0xf00589e3; 0x0e212823; 0x00000000; 0x02b5a823; 0xf20589e3; 0x0e312823; 0x00000000;
    0x02c5a823; 0xf0058ae3; 0x0e412823; 0x00000000; 0x02d5a823; 0xf2058ae3; 0x0e512823; 0x00000000;
    0x02e5a823; 0xf0058be3; 0x0e612823; 0x00000000; 0x02f5a823; 0xf2058be3; 0x0e712823; 0x00000000;
    0x0685a823; 0xf40588e3; 0x0e812823; 0x00000000; 0x0695a823; 0xf60588e3; 0x0e912823; 0x00000000;
    0x06a5a823; 0xf40589e3; 0x0ea12823; 0x00000000; 0x06b5a823; 0xf60589e3; 0x0eb12823; 0x00000000;
    0x06c5a823; 0xf4058ae3; 0x0ec12823; 0x00000000; 0x06d5a823; 0xf6058ae3; 0x0ed12823; 0x00000000;
    0x06e5a823; 0xf4058be3; 0x0ee12823; 0x00000000; 0x06f5a823; 0xf6058be3; 0x0ef12823; 0x00000000;
    0x0285aa23; 0xf80588e3; 0x0f012823; 0x00000000; 0x0295aa23; 0xfa0588e3; 0x0f112823; 0x00000000;
    0x02a5aa23; 0xf80589e3; 0x0f212823; 0x00000000; 0x02b5aa23; 0xfa0589e3; 0x0f312823; 0x00000000;
    0x02c5aa23; 0xf8058ae3; 0x0f412823; 0x00000000; 0x02d5aa23; 0xfa058ae3; 0x0f512823; 0x00000000;
    0x02e5aa23; 0xf8058be3; 0x0f612823; 0x00000000; 0x02f5aa23; 0xfa058be3; 0x0f712823; 0x00000000;
    0x0685aa23; 0xfc0588e3; 0x0f812823; 0x00000000; 0x0695aa23; 0xfe0588e3; 0x0f912823; 0x00000000;
    0x06a5aa23; 0xfc0589e3; 0x0fa12823; 0x00000000; 0x06b5aa23; 0xfe0589e3; 0x0fb12823; 0x00000000;
    0x06c5aa23; 0xfc058ae3; 0x0fc12823; 0x00000000; 0x06d5aa23; 0xfe058ae3; 0x0fd12823; 0x00000000;
    0x06e5aa23; 0xfc058be3; 0x0fe12823; 0x00000000; 0x06f5aa23; 0xfe058be3; 0x0ff12823; 0x00000000;
    0x02862823; 0xf00608e3; 0x02012a23; 0x00000000; 0x02962823; 0xf20608e3; 0x02112a23; 0x00000000;
    0x02a62823; 0xf00609e3; 0x02212a23; 0x00000000; 0x02b62823; 0xf20609e3; 0x02312a23; 0x00000000;
    0x02c62823; 0xf0060ae3; 0x02412a23; 0x00000000; 0x02d62823; 0xf2060ae3; 0x02512a23; 0x00000000;
    0x02e62823; 0xf0060be3; 0x02612a23; 0x00000000; 0x02f62823; 0xf2060be3; 0x02712a23; 0x00000000;
    0x06862823; 0xf40608e3; 0x02812a23; 0x00000000; 0x06962823; 0xf60608e3; 0x02912a23; 0x00000000;
    0x06a62823; 0xf40609e3; 0x02a12a23; 0x00000000; 0x06b62823; 0xf60609e3; 0x02b12a23; 0x00000000;
    0x06c62823; 0xf4060ae3; 0x02c12a23; 0x00000000; 0x06d62823; 0xf6060ae3; 0x02d12a23; 0x00000000;
    0x06e62823; 0xf4060be3; 0x02e12a23; 0x00000000; 0x06f62823; 0xf6060be3; 0x02f12a23; 0x00000000;
    0x02862a23; 0xf80608e3; 0x03012a23; 0x00000000; 0x02962a23; 0xfa0608e3; 0x03112a23; 0x00000000;
    0x02a62a23; 0xf80609e3; 0x03212a23; 0x00000000; 0x02b62a23; 0xfa0609e3; 0x03312a23; 0x00000000;
    0x02c62a23; 0xf8060ae3; 0x03412a23; 0x00000000; 0x02d62a23; 0xfa060ae3; 0x03512a23; 0x00000000;
    0x02e62a23; 0xf8060be3; 0x03612a23; 0x00000000; 0x02f62a23; 0xfa060be3; 0x03712a23; 0x00000000;
    0x06862a23; 0xfc0608e3; 0x03812a23; 0x00000000; 0x06962a23; 0xfe0608e3; 0x03912a23; 0x00000000;
    0x06a62a23; 0xfc0609e3; 0x03a12a23; 0x00000000; 0x06b62a23; 0xfe0609e3; 0x03b12a23; 0x00000000;
    0x06c62a23; 0xfc060ae3; 0x03c12a23; 0x00000000; 0x06d62a23; 0xfe060ae3; 0x03d12a23; 0x00000000;
    0x06e62a23; 0xfc060be3; 0x03e12a23; 0x00000000; 0x06f62a23; 0xfe060be3; 0x03f12a23; 0x00000000;
    0x0286a823; 0xf00688e3; 0x06012a23; 0x00000000; 0x0296a823; 0xf20688e3; 0x06112a23; 0x00000000;
    0x02a6a823; 0xf00689e3; 0x06212a23; 0x00000000; 0x02b6a823; 0xf20689e3; 0x06312a23; 0x00000000;
    0x02c6a823; 0xf0068ae3; 0x06412a23; 0x00000000; 0x02d6a823; 0xf2068ae3; 0x06512a23; 0x00000000;
    0x02e6a823; 0xf0068be3; 0x06612a23; 0x00000000; 0x02f6a823; 0xf2068be3; 0x06712a23; 0x00000000;
    0x0686a823; 0xf40688e3; 0x06812a23; 0x00000000; 0x0696a823; 0xf60688e3; 0x06912a23; 0x00000000;
    0x06a6a823; 0xf40689e3; 0x06a12a23; 0x00000000; 0x06b6a823; 0xf60689e3; 0x06b12a23; 0x00000000;
    0x06c6a823; 0xf4068ae3; 0x06c12a23; 0x00000000; 0x06d6a823; 0xf6068ae3; 0x06d12a23; 0x00000000;
    0x06e6a823; 0xf4068be3; 0x06e12a23; 0x00000000; 0x06f6a823; 0xf6068be3; 0x06f12a23; 0x00000000;
    0x0286aa23; 0xf80688e3; 0x07012a23; 0x00000000; 0x0296aa23; 0xfa0688e3; 0x07112a23; 0x00000000;
    0x02a6aa23; 0xf80689e3; 0x07212a23; 0x00000000; 0x02b6aa23; 0xfa0689e3; 0x07312a23; 0x00000000;
    0x02c6aa23; 0xf8068ae3; 0x07412a23; 0x00000000; 0x02d6aa23; 0xfa068ae3; 0x07512a23; 0x00000000;
    0x02e6aa23; 0xf8068be3; 0x07612a23; 0x00000000; 0x02f6aa23; 0xfa068be3; 0x07712a23; 0x00000000;
    0x0686aa23; 0xfc0688e3; 0x07812a23; 0x00000000; 0x0696aa23; 0xfe0688e3; 0x07912a23; 0x00000000;
    0x06a6aa23; 0xfc0689e3; 0x07a12a23; 0x00000000; 0x06b6aa23; 0xfe0689e3; 0x07b12a23; 0x00000000;
    0x06c6aa23; 0xfc068ae3; 0x07c12a23; 0x00000000; 0x06d6aa23; 0xfe068ae3; 0x07d12a23; 0x00000000;
    0x06e6aa23; 0xfc068be3; 0x07e12a23; 0x00000000; 0x06f6aa23; 0xfe068be3; 0x07f12a23; 0x00000000;
    0x02872823; 0xf00708e3; 0x0a012a23; 0x00000000; 0x02972823; 0xf20708e3; 0x0a112a23; 0x00000000;
    0x02a72823; 0xf00709e3; 0x0a212a23; 0x00000000; 0x02b72823; 0xf20709e3; 0x0a312a23; 0x00000000;
    0x02c72823; 0xf0070ae3; 0x0a412a23; 0x00000000; 0x02d72823; 0xf2070ae3; 0x0a512a23; 0x00000000;
    0x02e72823; 0xf0070be3; 0x0a612a23; 0x00000000; 0x02f72823; 0xf2070be3; 0x0a712a23; 0x00000000;
    0x06872823; 0xf40708e3; 0x0a812a23; 0x00000000; 0x06972823; 0xf60708e3; 0x0a912a23; 0x00000000;
    0x06a72823; 0xf40709e3; 0x0aa12a23; 0x00000000; 0x06b72823; 0xf60709e3; 0x0ab12a23; 0x00000000;
    0x06c72823; 0xf4070ae3; 0x0ac12a23; 0x00000000; 0x06d72823; 0xf6070ae3; 0x0ad12a23; 0x00000000;
    0x06e72823; 0xf4070be3; 0x0ae12a23; 0x00000000; 0x06f72823; 0xf6070be3; 0x0af12a23; 0x00000000;
    0x02872a23; 0xf80708e3; 0x0b012a23; 0x00000000; 0x02972a23; 0xfa0708e3; 0x0b112a23; 0x00000000;
    0x02a72a23; 0xf80709e3; 0x0b212a23; 0x00000000; 0x02b72a23; 0xfa0709e3; 0x0b312a23; 0x00000000;
    0x02c72a23; 0xf8070ae3; 0x0b412a23; 0x00000000; 0x02d72a23; 0xfa070ae3; 0x0b512a23; 0x00000000;
    0x02e72a23; 0xf8070be3; 0x0b612a23; 0x00000000; 0x02f72a23; 0xfa070be3; 0x0b712a23; 0x00000000;
    0x06872a23; 0xfc0708e3; 0x0b812a23; 0x00000000; 0x06972a23; 0xfe0708e3; 0x0b912a23; 0x00000000;
    0x06a72a23; 0xfc0709e3; 0x0ba12a23; 0x00000000; 0x06b72a23; 0xfe0709e3; 0x0bb12a23; 0x00000000;
    0x06c72a23; 0xfc070ae3; 0x0bc12a23; 0x00000000; 0x06d72a23; 0xfe070ae3; 0x0bd12a23; 0x00000000;
    0x06e72a23; 0xfc070be3; 0x0be12a23; 0x00000000; 0x06f72a23; 0xfe070be3; 0x0bf12a23; 0x00000000;
    0x0287a823; 0xf00788e3; 0x0e012a23; 0x00000000; 0x0297a823; 0xf20788e3; 0x0e112a23; 0x00000000;
    0x02a7a823; 0xf00789e3; 0x0e212a23; 0x00000000; 0x02b7a823; 0xf20789e3; 0x0e312a23; 0x00000000;
    0x02c7a823; 0xf0078ae3; 0x0e412a23; 0x00000000; 0x02d7a823; 0xf2078ae3; 0x0e512a23; 0x00000000;
    0x02e7a823; 0xf0078be3; 0x0e612a23; 0x00000000; 0x02f7a823; 0xf2078be3; 0x0e712a23; 0x00000000;
    0x0687a823; 0xf40788e3; 0x0e812a23; 0x00000000; 0x0697a823; 0xf60788e3; 0x0e912a23; 0x00000000;
    0x06a7a823; 0xf40789e3; 0x0ea12a23; 0x00000000; 0x06b7a823; 0xf60789e3; 0x0eb12a23; 0x00000000;
    0x06c7a823; 0xf4078ae3; 0x0ec12a23; 0x00000000; 0x06d7a823; 0xf6078ae3; 0x0ed12a23; 0x00000000;
    0x06e7a823; 0xf4078be3; 0x0ee12a23; 0x00000000; 0x06f7a823; 0xf6078be3; 0x0ef12a23; 0x00000000;
    0x0287aa23; 0xf80788e3; 0x0f012a23; 0x00000000; 0x0297aa23; 0xfa0788e3; 0x0f112a23; 0x00000000;
    0x02a7aa23; 0xf80789e3; 0x0f212a23; 0x00000000; 0x02b7aa23; 0xfa0789e3; 0x0f312a23; 0x00000000;
    0x02c7aa23; 0xf8078ae3; 0x0f412a23; 0x00000000; 0x02d7aa23; 0xfa078ae3; 0x0f512a23; 0x00000000;
    0x02e7aa23; 0xf8078be3; 0x0f612a23; 0x00000000; 0x02f7aa23; 0xfa078be3; 0x0f712a23; 0x00000000;
    0x0687aa23; 0xfc0788e3; 0x0f812a23; 0x00000000; 0x0697aa23; 0xfe0788e3; 0x0f912a23; 0x00000000;
    0x06a7aa23; 0xfc0789e3; 0x0fa12a23; 0x00000000; 0x06b7aa23; 0xfe0789e3; 0x0fb12a23; 0x00000000;
    0x06c7aa23; 0xfc078ae3; 0x0fc12a23; 0x00000000; 0x06d7aa23; 0xfe078ae3; 0x0fd12a23; 0x00000000;
    0x06e7aa23; 0xfc078be3; 0x0fe12a23; 0x00000000; 0x06f7aa23; 0xfe078be3; 0x0ff12a23; 0x00000000
].

(** parcels 0xdc00 to 0xdfff *)
Definition RVC64_EXPANDED_55 : list Z := [
    0x02842c23; 0xf0040ce3; 0x02012c23; 0x00000000; 0x02942c23; 0xf2040ce3; 0x02112c23; 0x00000000;
    0x02a42c23; 0xf0040de3; 0x02212c23; 0x00000000; 0x02b42c23; 0xf2040de3; 0x02312c23; 0x00000000;
    0x02c42c23; 0xf0040ee3; 0x02412c23; 0x00000000; 0x02d42c23; 0xf2040ee3; 0x02512c23; 0x00000000;
    0x02e42c23; 0xf0040fe3; 0x02612c23; 0x00000000; 0x02f42c23; 0xf2040fe3; 0x02712c23; 0x00000000;
    0x06842c23; 0xf4040ce3; 0x02812c23; 0x00000000; 0x06942c23; 0xf6040ce3; 0x02912c23; 0x00000000;
    0x06a42c23; 0xf4040de3; 0x02a12c23; 0x00000000; 0x06b42c23; 0xf6040de3; 0x02b12c23; 0x00000000;
    0x06c42c23; 0xf4040ee3; 0x02c12c23; 0x00000000; 0x06d42c23; 0xf6040ee3; 0x02d12c23; 0x00000000;
    0x06e42c23; 0xf4040fe3; 0x02e12c23; 0x00000000; 0x06f42c23; 0xf6040fe3; 0x02f12c23; 0x00000000;
    0x02842e23; 0xf8040ce3; 0x03012c23; 0x00000000; 0x02942e23; 0xfa040ce3; 0x03112c23; 0x00000000;
    0x02a42e23; 0xf8040de3; 0x03212c23; 0x00000000; 0x02b42e23; 0xfa040de3; 0x03312c23; 0x00000000;
    0x02c42e23; 0xf8040ee3; 0x03412c23; 0x00000000; 0x02d42e23; 0xfa040ee3; 0x03512c23; 0x00000000;
    0x02e42e23; 0xf8040fe3; 0x03612c23; 0x00000000; 0x02f42e23; 0xfa040fe3; 0x03712c23; 0x00000000;
    0x06842e23; 0xfc040ce3; 0x03812c23; 0x00000000; 0x06942e23; 0xfe040ce3; 0x03912c23; 0x00000000;
    0x06a42e23; 0xfc040de3; 0x03a12c23; 0x00000000; 0x06b42e23; 0xfe040de3; 0x03b12c23; 0x00000000;
    0x06c42e23; 0xfc040ee3; 0x03c12c23; 0x00000000; 0x06d42e23; 0xfe040ee3; 0x03d12c23; 0x00000000;
    0x06e42e23; 0xfc040fe3; 0x03e12c23; 0x00000000; 0x06f42e23; 0xfe040fe3; 0x03f12c23; 0x00000000;
    0x0284ac23; 0xf0048ce3; 0x06012c23; 0x00000000; 0x0294ac23; 0xf2048ce3; 0x06112c23; 0x00000000;
    0x02a4ac23; 0xf0048de3; 0x06212c23; 0x00000000; 0x02b4ac23; 0xf2048de3; 0x06312c23; 0x00000000;
    0x02c4ac23; 0xf0048ee3; 0x06412c23; 0x00000000; 0x02d4ac23; 0xf2048ee3; 0x06512c23; 0x00000000;
    0x02e4ac23; 0xf0048fe3; 0x06612c23; 0x00000000; 0x02f4ac23; 0xf2048fe3; 0x06712c23; 0x00000000;
    0x0684ac23; 0xf4048ce3; 0x06812c23; 0x00000000; 0x0694ac23; 0xf6048ce3; 0x06912c23; 0x00000000;
    0x06a4ac23; 0xf4048de3; 0x06a12c23; 0x00000000; 0x06b4ac23; 0xf6048de3; 0x06b12c23; 0x00000000;
    0x06c4ac23; 0xf4048ee3; 0x06c12c23; 0x00000000; 0x06d4ac23; 0xf6048ee3; 0x06d12c23; 0x00000000;
    0x06e4ac23; 0xf4048fe3; 0x06e12c23; 0x00000000; 0x06f4ac23; 0xf6048fe3; 0x06f12c23; 0x00000000;
    0x0284ae23; 0xf8048ce3; 0x07012c23; 0x00000000; 0x0294ae23; 0xfa048ce3; 0x07112c23; 0x00000000;
    0x02a4ae23; 0xf8048de3; 0x07212c23; 0x00000000; 0x02b4ae23; 0xfa048de3; 0x07312c23; 0x00000000;
    0x02c4ae23; 0xf8048ee3; 0x07412c23; 0x00000000; 0x02d4ae23; 0xfa048ee3; 0x07512c23; 0x00000000;
    0x02e4ae23; 0xf8048fe3; 0x07612c23; 0x00000000; 0x02f4ae23; 0xfa048fe3; 0x07712c23; 0x00000000;
    0x0684ae23; 0xfc048ce3; 0x07812c23; 0x00000000; 0x0694ae23; 0xfe048ce3; 0x07912c23; 0x00000000;
    0x06a4ae23; 0xfc048de3; 0x07a12c23; 0x00000000; 0x06b4ae23; 0xfe048de3; 0x07b12c23; 0x00000000;
    0x06c4ae23; 0xfc048ee3; 0x07c12c23; 0x00000000; 0x06d4ae23; 0xfe048ee3; 0x07d12c23; 0x00000000;
    0x06e4ae23; 0xfc048fe3; 0x07e12c23; 0x00000000; 0x06f4ae23; 0xfe048fe3; 0x07f12c23; 0x00000000;
    0x02852c23; 0xf0050ce3; 0x0a012c23; 0x00000000; 0x02952c23; 0xf2050ce3; 0x0a112c23; 0x00000000;
    0x02a52c23; 0xf0050de3; 0x0a212c23; 0x00000000; 0x02b52c23; 0xf2050de3; 0x0a312c23; 0x00000000;
    0x02c52c23; 0xf0050ee3; 0x0a412c23; 0x00000000; 0x02d52c23; 0xf2050ee3; 0x0a512c23; 0x00000000;
    0x02e52c23; 0xf0050fe3; 0x0a612c23; 0x00000000; 0x02f52c23; 0xf2050fe3; 0x0a712c23; 0x00000000;
    0x06852c23; 0xf4050ce3; 0x0a812c23; 0x00000000; 0x06952c23; 0xf6050ce3; 0x0a912c23; 0x00000000;
    0x06a52c23; 0xf4050de3; 0x0aa12c23; 0x00000000; 0x06b52c23; 0xf6050de3; 0x0ab12c23; 0x00000000;
    0x06c52c23; 0xf4050ee3; 0x0ac12c23; 0x00000000; 0x06d52c23; 0xf6050ee3; 0x0ad12c23; 0x00000000;
    0x06e52c23; 0xf4050fe3; 0x0ae12c23; 0x00000000; 0x06f52c23; 0xf6050fe3; 0x0af12c23; 0x00000000;
    0x02852e23; 0xf8050ce3; 0x0b012c23; 0x00000000; 0x02952e23; 0xfa050ce3; 0x0b112c23; 0x00000000;
    0x02a52e23; 0xf8050de3; 0x0b212c23; 0x00000000; 0x02b52e23; 0xfa050de3; 0x0b312c23; 0x00000000;
    0x02c52e23; 0xf8050ee3; 0x0b412c23; 0x00000000; 0x02d52e23; 0xfa050ee3; 0x0b512c23; 0x00000000;
    0x02e52e23; 0xf8050fe3; 0x0b612c23; 0x00000000; 0x02f52e23; 0xfa050fe3; 0x0b712c23; 0x00000000;
    0x06852e23; 0xfc050ce3; 0x0b812c23; 0x00000000; 0x06952e23; 0xfe050ce3; 0x0b912c23; 0x00000000;
    0x06a52e23; 0xfc050de3; 0x0ba12c23; 0x00000000; 0x06b52e23; 0xfe050de3; 0x0bb12c23; 0x00000000;
    0x06c52e23; 0xfc050ee3; 0x0bc12c23; 0x00000000; 0x06d52e23; 0xfe050ee3; 0x0bd12c23; 0x00000000;
    0x06e52e23; 0xfc050fe3; 0x0be12c23; 0x00000000; 0x06f52e23; 0xfe050fe3; 0x0bf12c23; 0x00000000;
    0x0285ac23; 0xf0058ce3; 0x0e012c23; 0x00000000; 0x0295ac23; 0xf2058ce3; 0x0e112c23; 0x00000000;
    0x02a5ac23; 0xf0058de3; 0x0e212c23; 0x00000000; 0x02b5ac23; 0xf2058de3; 0x0e312c23; 0x00000000;
    0x02c5ac23; 0xf0058ee3; 0x0e412c23; 0x00000000; 0x02d5ac23; 0xf2058ee3; 0x0e512c23; 0x00000000;
    0x02e5ac23; 0xf0058fe3; 0x0e612c23; 0x00000000; 0x02f5ac23; 0xf2058fe3; 0x0e712c23; 0x00000000;
    0x0685ac23; 0xf4058ce3; 0x0e812c23; 0x00000000; 0x0695ac23; 0xf6058ce3; 0x0e912c23; 0x00000000;
    0x06a5ac23; 0xf4058de3; 0x0ea12c23; 0x00000000; 0x06b5ac23; 0xf6058de3; 0x0eb12c23; 0x00000000;
    0x06c5ac23; 0xf4058ee3; 0x0ec12c23; 0x00000000; 0x06d5ac23; 0xf6058ee3; 0x0ed12c23; 0x00000000;
    0x06e5ac23; 0xf4058fe3; 0x0ee12c23; 0x00000000; 0x06f5ac23; 0xf6058fe3; 0x0ef12c23; 0x00000000;
    0x0285ae23; 0xf8058ce3; 0x0f012c23; 0x00000000; 0x0295ae23; 0xfa058ce3; 0x0f112c23; 0x00000000;
    0x02a5ae23; 0xf8058de3; 0x0f212c23; 0x00000000; 0x02b5ae23; 0xfa058de3; 0x0f312c23; 0x00000000;
    0x02c5ae23; 0xf8058ee3; 0x0f412c23; 0x00000000; 0x02d5ae23; 0xfa058ee3; 0x0f512c23; 0x00000000;
    0x02e5ae23; 0xf8058fe3; 0x0f612c23; 0x00000000; 0x02f5ae23; 0xfa058fe3; 0x0f712c23; 0x00000000;
    0x0685ae23; 0xfc058ce3; 0x0f812c23; 0x00000000; 0x0695ae23; 0xfe058ce3; 0x0f912c23; 0x00000000;
    0x06a5ae23; 0xfc058de3; 0x0fa12c23; 0x00000000; 0x06b5ae23; 0xfe058de3; 0x0fb12c23; 0x00000000;
    0x06c5ae23; 0xfc058ee3; 0x0fc12c23; 0x00000000; 0x06d5ae23; 0xfe058ee3; 0x0fd12c23; 0x00000000;
    0x06e5ae23; 0xfc058fe3; 0x0fe12c23; 0x00000000; 0x06f5ae23; 0xfe058fe3; 0x0ff12c23; 0x00000000;
    0x02862c23; 0xf0060ce3; 0x02012e23; 0x00000000; 0x02962c23; 0xf2060ce3; 0x02112e23; 0x00000000;
    0x02a62c23; 0xf0060de3; 0x02212e23; 0x00000000; 0x02b62c23; 0xf2060de3; 0x02312e23; 0x00000000;
    0x02c62c23; 0xf0060ee3; 0x02412e23; 0x00000000; 0x02d62c23; 0xf2060ee3; 0x02512e23; 0x00000000;
    0x02e62c23; 0xf0060fe3; 0x02612e23; 0x00000000; 0x02f62c23; 0xf2060fe3; 0x02712e23; 0x00000000;
    0x06862c23; 0xf4060ce3; 0x02812e23; 0x00000000; 0x06962c23; 0xf6060ce3; 0x02912e23; 0x00000000;
    0x06a62c23; 0xf4060de3; 0x02a12e23; 0x00000000; 0x06b62c23; 0xf6060de3; 0x02b12e23; 0x00000000;
    0x06c62c23; 0xf4060ee3; 0x02c12e23; 0x00000000; 0x06d62c23; 0xf6060ee3; 0x02d12e23; 0x00000000;
    0x06e62c23; 0xf4060fe3; 0x02e12e23; 0x00000000; 0x06f62c23; 0xf6060fe3; 0x02f12e23; 0x00000000;
    0x02862e23; 0xf8060ce3; 0x03012e23; 0x00000000; 0x02962e23; 0xfa060ce3; 0x03112e23; 0x00000000;
    0x02a62e23; 0xf8060de3; 0x03212e23; 0x00000000; 0x02b62e23; 0xfa060de3; 0x03312e23; 0x00000000;
    0x02c62e23; 0xf8060ee3; 0x03412e23; 0x00000000; 0x02d62e23; 0xfa060ee3; 0x03512e23; 0x00000000;
    0x02e62e23; 0xf8060fe3; 0x03612e23; 0x00000000; 0x02f62e23; 0xfa060fe3; 0x03712e23; 0x00000000;
    0x06862e23; 0xfc060ce3; 0x03812e23; 0x00000000; 0x06962e23; 0xfe060ce3; 0x03912e23; 0x00000000;
    0x06a62e23; 0xfc060de3; 0x03a12e23; 0x00000000; 0x06b62e23; 0xfe060de3; 0x03b12e23; 0x00000000;
    0x06c62e23; 0xfc060ee3; 0x03c12e23; 0x00000000; 0x06d62e23; 0xfe060ee3; 0x03d12e23; 0x00000000;
    0x06e62e23; 0xfc060fe3; 0x03e12e23; 0x00000000; 0x06f62e23; 0xfe060fe3; 0x03f12e23; 0x00000000;
    0x0286ac23; 0xf0068ce3; 0x06012e23; 0x00000000; 0x0296ac23; 0xf2068ce3; 0x06112e23; 0x00000000;
    0x02a6ac23; 0xf0068de3; 0x06212e23; 0x00000000; 0x02b6ac23; 0xf2068de3; 0x06312e23; 0x00000000;
    0x02c6ac23; 0xf0068ee3; 0x06412e23; 0x00000000; 0x02d6ac23; 0xf2068ee3; 0x06512e23; 0x00000000;
    0x02e6ac23; 0xf0068fe3; 0x06612e23; 0x00000000; 0x02f6ac23; 0xf2068fe3; 0x06712e23; 0x00000000;
    0x0686ac23; 0xf4068ce3; 0x06812e23; 0x00000000; 0x0696ac23; 0xf6068ce3; 0x06912e23; 0x00000000;
    0x06a6ac23; 0xf4068de3; 0x06a12e23; 0x00000000; 0x06b6ac23; 0xf6068de3; 0x06b12e23; 0x00000000;
    0x06c6ac23; 0xf4068ee3; 0x06c12e23; 0x00000000; 0x06d6ac23; 0xf6068ee3; 0x06d12e23; 0x00000000;
    0x06e6ac23; 0xf4068fe3; 0x06e12e23; 0x00000000; 0x06f6ac23; 0xf6068fe3; 0x06f12e23; 0x00000000;
    0x0286ae23; 0xf8068ce3; 0x07012e23; 0x00000000; 0x0296ae23; 0xfa068ce3; 0x07112e23; 0x00000000;
    0x02a6ae23; 0xf8068de3; 0x07212e23; 0x00000000; 0x02b6ae23; 0xfa068de3; 0x07312e23; 0x00000000;
    0x02c6ae23; 0xf8068ee3; 0x07412e23; 0x00000000; 0x02d6ae23; 0xfa068ee3; 0x07512e23; 0x00000000;
    0x02e6ae23; 0xf8068fe3; 0x07612e23; 0x00000000; 0x02f6ae23; 0xfa068fe3; 0x07712e23; 0x00000000;
    0x0686ae23; 0xfc068ce3; 0x07812e23; 0x00000000; 0x0696ae23; 0xfe068ce3; 0x07912e23; 0x00000000;
    0x06a6ae23; 0xfc068de3; 0x07a12e23; 0x00000000; 0x06b6ae23; 0xfe068de3; 0x07b12e23; 0x00000000;
    0x06c6ae23; 0xfc068ee3; 0x07c12e23; 0x00000000; 0x06d6ae23; 0xfe068ee3; 0x07d12e23; 0x00000000;
    0x06e6ae23; 0xfc068fe3; 0x07e12e23; 0x00000000; 0x06f6ae23; 0xfe068fe3; 0x07f12e23; 0x00000000;
    0x02872c23; 0xf0070ce3; 0x0a012e23; 0x00000000; 0x02972c23; 0xf2070ce3; 0x0a112e23; 0x00000000;
    0x02a72c23; 0xf0070de3; 0x0a212e23; 0x00000000; 0x02b72c23; 0xf2070de3; 0x0a312e23; 0x00000000;
    0x02c72c23; 0xf0070ee3; 0x0a412e23; 0x00000000; 0x02d72c23; 0xf2070ee3; 0x0a512e23; 0x00000000;
    0x02e72c23; 0xf0070fe3; 0x0a612e23; 0x00000000; 0x02f72c23; 0xf2070fe3; 0x0a712e23; 0x00000000;
    0x06872c23; 0xf4070ce3; 0x0a812e23; 0x00000000; 0x06972c23; 0xf6070ce3; 0x0a912e23; 0x00000000;
    0x06a72c23; 0xf4070de3; 0x0aa12e23; 0x00000000; 0x06b72c23; 0xf6070de3; 0x0ab12e23; 0x00000000;
    0x06c72c23; 0xf4070ee3; 0x0ac12e23; 0x00000000; 0x06d72c23; 0xf6070ee3; 0x0ad12e23; 0x00000000;
    0x06e72c23; 0xf4070fe3; 0x0ae12e23; 0x00000000; 0x06f72c23; 0xf6070fe3; 0x0af12e23; 0x00000000;
    0x02872e23; 0xf8070ce3; 0x0b012e23; 0x00000000; 0x02972e23; 0xfa070ce3; 0x0b112e23; 0x00000000;
    0x02a72e23; 0xf8070de3; 0x0b212e23; 0x00000000; 0x02b72e23; 0xfa070de3; 0x0b312e23; 0x00000000;
    0x02c72e23; 0xf8070ee3; 0x0b412e23; 0x00000000; 0x02d72e23; 0xfa070ee3; 0x0b512e23; 0x00000000;
    0x02e72e23; 0xf8070fe3; 0x0b612e23; 0x00000000; 0x02f72e23; 0xfa070fe3; 0x0b712e23; 0x00000000;
    0x06872e23; 0xfc070ce3; 0x0b812e23; 0x00000000; 0x06972e23; 0xfe070ce3; 0x0b912e23; 0x00000000;
    0x06a72e23; 0xfc070de3; 0x0ba12e23; 0x00000000; 0x06b72e23; 0xfe070de3; 0x0bb12e23; 0x00000000;
    0x06c72e23; 0xfc070ee3; 0x0bc12e23; 0x00000000; 0x06d72e23; 0xfe070ee3; 0x0bd12e23; 0x00000000;
    0x06e72e23; 0xfc070fe3; 0x0be12e23; 0x00000000; 0x06f72e23; 0xfe070fe3; 0x0bf12e23; 0x00000000;
    0x0287ac23; 0xf0078ce3; 0x0e012e23; 0x00000000; 0x0297ac23; 0xf2078ce3; 0x0e112e23; 0x00000000;
    0x02a7ac23; 0xf0078de3; 0x0e212e23; 0x00000000; 0x02b7ac23; 0xf2078de3; 0x0e312e23; 0x00000000;
    0x02c7ac23; 0xf0078ee3; 0x0e412e23; 0x00000000; 0x02d7ac23; 0xf2078ee3; 0x0e512e23; 0x00000000;
    0x02e7ac23; 0xf0078fe3; 0x0e612e23; 0x00000000; 0x02f7ac23; 0xf2078fe3; 0x0e712e23; 0x00000000;
    0x0687ac23; 0xf4078ce3; 0x0e812e23; 0x00000000; 0x0697ac23; 0xf6078ce3; 0x0e912e23; 0x00000000;
    0x06a7ac23; 0xf4078de3; 0x0ea12e23; 0x00000000; 0x06b7ac23; 0xf6078de3; 0x0eb12e23; 0x00000000;
    0x06c7ac23; 0xf4078ee3; 0x0ec12e23; 0x00000000; 0x06d7ac23; 0xf6078ee3; 0x0ed12e23; 0x00000000;
    0x06e7ac23; 0xf4078fe3; 0x0ee12e23; 0x00000000; 0x06f7ac23; 0xf6078fe3; 0x0ef12e23; 0x00000000;
    0x0287ae23; 0xf8078ce3; 0x0f012e23; 0x00000000; 0x0297ae23; 0xfa078ce3; 0x0f112e23; 0x00000000;
    0x02a7ae23; 0xf8078de3; 0x0f212e23; 0x00000000; 0x02b7ae23; 0xfa078de3; 0x0f312e23; 0x00000000;
    0x02c7ae23; 0xf8078ee3; 0x0f412e23; 0x00000000; 0x02d7ae23; 0xfa078ee3; 0x0f512e23; 0x00000000;
    0x02e7ae23; 0xf8078fe3; 0x0f612e23; 0x00000000; 0x02f7ae23; 0xfa078fe3; 0x0f712e23; 0x00000000;
    0x0687ae23; 0xfc078ce3; 0x0f812e23; 0x00000000; 0x0697ae23; 0xfe078ce3; 0x0f912e23; 0x00000000;
    0x06a7ae23; 0xfc078de3; 0x0fa12e23; 0x00000000; 0x06b7ae23; 0xfe078de3; 0x0fb12e23; 0x00000000;
    0x06c7ae23; 0xfc078ee3; 0x0fc12e23; 0x00000000; 0x06d7ae23; 0xfe078ee3; 0x0fd12e23; 0x00000000;
    0x06e7ae23; 0xfc078fe3; 0x0fe12e23; 0x00000000; 0x06f7ae23; 0xfe078fe3; 0x0ff12e23; 0x00000000
].
