(* ===== verification/RvcTable7.v ===== *)
(** * RvcTable7: entries 0xe000 to 0xffff of [RVC64_EXPANDED] (tools/rvc.rs)

    Eight definitions of 128 source lines (1024 entries) each, in the order and with the
    grouping of the source; [RvcTable] concatenates them. *)
From S2P Require Import Prelude.

(** parcels 0xe000 to 0xe3ff *)
Definition RVC64_EXPANDED_56 : list Z := [
    0x00843023; 0x00041063; 0x00013023; 0x00000000; 0x00943023; 0x02041063; 0x00113023; 0x00000000;
    0x00a43023; 0x00041163; 0x00213023; 0x00000000; 0x00b43023; 0x02041163; 0x00313023; 0x00000000;
    0x00c43023; 0x00041263; 0x00413023; 0x00000000; 0x00d43023; 0x02041263; 0x00513023; 0x00000000;
    0x00e43023; 0x00041363; 0x00613023; 0x00000000; 0x00f43023; 0x02041363; 0x00713023; 0x00000000;
    0x04843023; 0x04041063; 0x00813023; 0x00000000; 0x04943023; 0x06041063; 0x00913023; 0x00000000;
    0x04a43023; 0x04041163; 0x00a13023; 0x00000000; 0x04b43023; 0x06041163; 0x00b13023; 0x00000000;
    0x04c43023; 0x04041263; 0x00c13023; 0x00000000; 0x04d43023; 0x06041263; 0x00d13023; 0x00000000;
    0x04e43023; 0x04041363; 0x00e13023; 0x00000000; 0x04f43023; 0x06041363; 0x00f13023; 0x00000000;
    0x08843023; 0x08041063; 0x01013023; 0x00000000; 0x08943023; 0x0a041063; 0x01113023; 0x00000000;
    0x08a43023; 0x08041163; 0x01213023; 0x00000000; 0x08b43023; 0x0a041163; 0x01313023; 0x00000000;
    0x08c43023; 0x08041263; 0x01413023; 0x00000000; 0x08d43023; 0x0a041263; 0x01513023; 0x00000000;
    0x08e43023; 0x08041363; 0x01613023; 0x00000000; 0x08f43023; 0x0a041363; 0x01713023; 0x00000000;
    0x0c843023; 0x0c041063; 0x01813023; 0x00000000; 0x0c943023; 0x0e041063; 0x01913023; 0x00000000;
    0x0ca43023; 0x0c041163; 0x01a13023; 0x00000000; 0x0cb43023; 0x0e041163; 0x01b13023; 0x00000000;
    0x0cc43023; 0x0c041263; 0x01c13023; 0x00000000; 0x0cd43023; 0x0e041263; 0x01d13023; 0x00000000;
    0x0ce43023; 0x0c041363; 0x01e13023; 0x00000000; 0x0cf43023; 0x0e041363; 0x01f13023; 0x00000000;
    0x0084b023; 0x00049063; 0x04013023; 0x00000000; 0x0094b023; 0x02049063; 0x04113023; 0x00000000;
    0x00a4b023; 0x00049163; 0x04213023; 0x00000000; 0x00b4b023; 0x02049163; 0x04313023; 0x00000000;
    0x00c4b023; 0x00049263; 0x04413023; 0x00000000; 0x00d4b023; 0x02049263; 0x04513023; 0x00000000;
    0x00e4b023; 0x00049363; 0x04613023; 0x00000000; 0x00f4b023; 0x02049363; 0x04713023; 0x00000000;
    0x0484b023; 0x04049063; 0x04813023; 0x00000000; 0x0494b023; 0x06049063; 0x04913023; 0x00000000;
    0x04a4b023; 0x04049163; 0x04a13023; 0x00000000; 0x04b4b023; 0x06049163; 0x04b13023; 0x00000000;
    0x04c4b023; 0x04049263; 0x04c13023; 0x00000000; 0x04d4b023; 0x06049263; 0x04d13023; 0x00000000;
    0x04e4b023; 0x04049363; 0x04e13023; 0x00000000; 0x04f4b023; 0x06049363; 0x04f13023; 0x00000000;
    0x0884b023; 0x08049063; 0x05013023; 0x00000000; 0x0894b023; 0x0a049063; 0x05113023; 0x00000000;
    0x08a4b023; 0x08049163; 0x05213023; 0x00000000; 0x08b4b023; 0x0a049163; 0x05313023; 0x00000000;
    0x08c4b023; 0x08049263; 0x05413023; 0x00000000; 0x08d4b023; 0x0a049263; 0x05513023; 0x00000000;
    0x08e4b023; 0x08049363; 0x05613023; 0x00000000; 0x08f4b023; 0x0a049363; 0x05713023; 0x00000000;
    0x0c84b023; 0x0c049063; 0x05813023; 0x00000000; 0x0c94b023; 0x0e049063; 0x05913023; 0x00000000;
    0x0ca4b023; 0x0c049163; 0x05a13023; 0x00000000; 0x0cb4b023; 0x0e049163; 0x05b13023; 0x00000000;
    0x0cc4b023; 0x0c049263; 0x05c13023; 0x00000000; 0x0cd4b023; 0x0e049263; 0x05d13023; 0x00000000;
    0x0ce4b023; 0x0c049363; 0x05e13023; 0x00000000; 0x0cf4b023; 0x0e049363; 0x05f13023; 0x00000000;
    0x00853023; 0x00051063; 0x08013023; 0x00000000; 0x00953023; 0x02051063; 0x08113023; 0x00000000;
    0x00a53023; 0x00051163; 0x08213023; 0x00000000; 0x00b53023; 0x02051163; 0x08313023; 0x00000000;
    0x00c53023; 0x00051263; 0x08413023; 0x00000000; 0x00d53023; 0x02051263; 0x08513023; 0x00000000;
    0x00e53023; 0x00051363; 0x08613023; 0x00000000; 0x00f53023; 0x02051363; 0x08713023; 0x00000000;
    0x04853023; 0x04051063; 0x08813023; 0x00000000; 0x04953023; 0x06051063; 0x08913023; 0x00000000;
    0x04a53023; 0x04051163; 0x08a13023; 0x00000000; 0x04b53023; 0x06051163; 0x08b13023; 0x00000000;
    0x04c53023; 0x04051263; 0x08c13023; 0x00000000; 0x04d53023; 0x06051263; 0x08d13023; 0x00000000;
    0x04e53023; 0x04051363; 0x08e13023; 0x00000000; 0x04f53023; 0x06051363; 0x08f13023; 0x00000000;
    0x08853023; 0x08051063; 0x09013023; 0x00000000; 0x08953023; 0x0a051063; 0x09113023; 0x00000000;
    0x08a53023; 0x08051163; 0x09213023; 0x00000000; 0x08b53023; 0x0a051163; 0x09313023; 0x00000000;
    0x08c53023; 0x08051263; 0x09413023; 0x00000000; 0x08d53023; 0x0a051263; 0x09513023; 0x00000000;
    0x08e53023; 0x08051363; 0x09613023; 0x00000000; 0x08f53023; 0x0a051363; 0x09713023; 0x00000000;
    0x0c853023; 0x0c051063; 0x09813023; 0x00000000; 0x0c953023; 0x0e051063; 0x09913023; 0x00000000;
    0x0ca53023; 0x0c051163; 0x09a13023; 0x00000000; 0x0cb53023; 0x0e051163; 0x09b13023; 0x00000000;
    0x0cc53023; 0x0c051263; 0x09c13023; 0x00000000; 0x0cd53023; 0x0e051263; 0x09d13023; 0x00000000;
    0x0ce53023; 0x0c051363; 0x09e13023; 0x00000000; 0x0cf53023; 0x0e051363; 0x09f13023; 0x00000000;
    0x0085b023; 0x00059063; 0x0c013023; 0x00000000; 0x0095b023; 0x02059063; 0x0c113023; 0x00000000;
    0x00a5b023; 0x00059163; 0x0c213023; 0x00000000; 0x00b5b023; 0x02059163; 0x0c313023; 0x00000000;
    0x00c5b023; 0x00059263; 0x0c413023; 0x00000000; 0x00d5b023; 0x02059263; 0x0c513023; 0x00000000;
    0x00e5b023; 0x00059363; 0x0c613023; 0x00000000; 0x00f5b023; 0x02059363; 0x0c713023; 0x00000000;
    0x0485b023; 0x04059063; 0x0c813023; 0x00000000; 0x0495b023; 0x06059063; 0x0c913023; 0x00000000;
    0x04a5b023; 0x04059163; 0x0ca13023; 0x00000000; 0x04b5b023; 0x06059163; 0x0cb13023; 0x00000000;
    0x04c5b023; 0x04059263; 0x0cc13023; 0x00000000; 0x04d5b023; 0x06059263; 0x0cd13023; 0x00000000;
    0x04e5b023; 0x04059363; 0x0ce13023; 0x00000000; 0x04f5b023; 0x06059363; 0x0cf13023; 0x00000000;
    0x0885b023; 0x08059063; 0x0d013023; 0x00000000; 0x0895b023; 0x0a059063; 0x0d113023; 0x00000000;
    0x08a5b023; 0x08059163; 0x0d213023; 0x00000000; 0x08b5b023; 0x0a059163; 0x0d313023; 0x00000000;
    0x08c5b023; 0x08059263; 0x0d413023; 0x00000000; 0x08d5b023; 0x0a059263; 0x0d513023; 0x00000000;
    0x08e5b023; 0x08059363; 0x0d613023; 0x00000000; 0x08f5b023; 0x0a059363; 0x0d713023; 0x00000000;
    0x0c85b023; 0x0c059063; 0x0d813023; 0x00000000; 0x0c95b023; 0x0e059063; 0x0d913023; 0x00000000;
    0x0ca5b023; 0x0c059163; 0x0da13023; 0x00000000; 0x0cb5b023; 0x0e059163; 0x0db13023; 0x00000000;
    0x0cc5b023; 0x0c059263; 0x0dc13023; 0x00000000; 0x0cd5b023; 0x0e059263; 0x0dd13023; 0x00000000;
    0x0ce5b023; 0x0c059363; 0x0de13023; 0x00000000; 0x0cf5b023; 0x0e059363; 0x0df13023; 0x00000000;
    0x00863023; 0x00061063; 0x10013023; 0x00000000; 0x00963023; 0x02061063; 0x10113023; 0x00000000;
    0x00a63023; 0x00061163; 0x10213023; 0x00000000; 0x00b63023; 0x02061163; 0x10313023; 0x00000000;
    0x00c63023; 0x00061263; 0x10413023; 0x00000000; 0x00d63023; 0x02061263; 0x10513023; 0x00000000;
    0x00e63023; 0x00061363; 0x10613023; 0x00000000; 0x00f63023; 0x02061363; 0x10713023; 0x00000000;
    0x04863023; 0x04061063; 0x10813023; 0x00000000; 0x04963023; 0x06061063; 0x10913023; 0x00000000;
    0x04a63023; 0x04061163; 0x10a13023; 0x00000000; 0x04b63023; 0x06061163; 0x10b13023; 0x00000000;
    0x04c63023; 0x04061263; 0x10c13023; 0x00000000; 0x04d63023; 0x06061263; 0x10d13023; 0x00000000;
    0x04e63023; 0x04061363; 0x10e13023; 0x00000000; 0x04f63023; 0x06061363; 0x10f13023; 0x00000000;
    0x08863023; 0x08061063; 0x11013023; 0x00000000; 0x08963023; 0x0a061063; 0x11113023; 0x00000000;
    0x08a63023; 0x08061163; 0x11213023; 0x00000000; 0x08b63023; 0x0a061163; 0x11313023; 0x00000000;
    0x08c63023; 0x08061263; 0x11413023; 0x00000000; 0x08d63023; 0x0a061263; 0x11513023; 0x00000000;
    0x08e63023; 0x08061363; 0x11613023; 0x00000000; 0x08f63023; 0x0a061363; 0x11713023; 0x00000000;
    0x0c863023; 0x0c061063; 0x11813023; 0x00000000; 0x0c963023; 0x0e061063; 0x11913023; 0x00000000;
    0x0ca63023; 0x0c061163; 0x11a13023; 0x00000000; 0x0cb63023; 0x0e061163; 0x11b13023; 0x00000000;
    0x0cc63023; 0x0c061263; 0x11c13023; 0x00000000; 0x0cd63023; 0x0e061263; 0x11d13023; 0x00000000;
    0x0ce63023; 0x0c061363; 0x11e13023; 0x00000000; 0x0cf63023; 0x0e061363; 0x11f13023; 0x00000000;
    0x0086b023; 0x00069063; 0x14013023; 0x00000000; 0x0096b023; 0x02069063; 0x14113023; 0x00000000;
    0x00a6b023; 0x00069163; 0x14213023; 0x00000000; 0x00b6b023; 0x02069163; 0x14313023; 0x00000000;
    0x00c6b023; 0x00069263; 0x14413023; 0x00000000; 0x00d6b023; 0x02069263; 0x14513023; 0x00000000;
    0x00e6b023; 0x00069363; 0x14613023; 0x00000000; 0x00f6b023; 0x02069363; 0x14713023; 0x00000000;
    0x0486b023; 0x04069063; 0x14813023; 0x00000000; 0x0496b023; 0x06069063; 0x14913023; 0x00000000;
    0x04a6b023; 0x04069163; 0x14a13023; 0x00000000; 0x04b6b023; 0x06069163; 0x14b13023; 0x00000000;
    0x04c6b023; 0x04069263; 0x14c13023; 0x00000000; 0x04d6b023; 0x06069263; 0x14d13023; 0x00000000;
    0x04e6b023; 0x04069363; 0x14e13023; 0x00000000; 0x04f6b023; 0x06069363; 0x14f13023; 0x00000000;
    0x0886b023; 0x08069063; 0x15013023; 0x00000000; 0x0896b023; 0x0a069063; 0x15113023; 0x00000000;
    0x08a6b023; 0x08069163; 0x15213023; 0x00000000; 0x08b6b023; 0x0a069163; 0x15313023; 0x00000000;
    0x08c6b023; 0x08069263; 0x15413023; 0x00000000; 0x08d6b023; 0x0a069263; 0x15513023; 0x00000000;
    0x08e6b023; 0x08069363; 0x15613023; 0x00000000; 0x08f6b023; 0x0a069363; 0x15713023; 0x00000000;
    0x0c86b023; 0x0c069063; 0x15813023; 0x00000000; 0x0c96b023; 0x0e069063; 0x15913023; 0x00000000;
    0x0ca6b023; 0x0c069163; 0x15a13023; 0x00000000; 0x0cb6b023; 0x0e069163; 0x15b13023; 0x00000000;
    0x0cc6b023; 0x0c069263; 0x15c13023; 0x00000000; 0x0cd6b023; 0x0e069263; 0x15d13023; 0x00000000;
    0x0ce6b023; 0x0c069363; 0x15e13023; 0x00000000; 0x0cf6b023; 0x0e069363; 0x15f13023; 0x00000000;
    0x00873023; 0x00071063; 0x18013023; 0x00000000; 0x00973023; 0x02071063; 0x18113023; 0x00000000;
    0x00a73023; 0x00071163; 0x18213023; 0x00000000; 0x00b73023; 0x02071163; 0x18313023; 0x00000000;
    0x00c73023; 0x00071263; 0x18413023; 0x00000000; 0x00d73023; 0x02071263; 0x18513023; 0x00000000;
    0x00e73023; 0x00071363; 0x18613023; 0x00000000; 0x00f73023; 0x02071363; 0x18713023; 0x00000000;
    0x04873023; 0x04071063; 0x18813023; 0x00000000; 0x04973023; 0x06071063; 0x18913023; 0x00000000;
    0x04a73023; 0x04071163; 0x18a13023; 0x00000000; 0x04b73023; 0x06071163; 0x18b13023; 0x00000000;
    0x04c73023; 0x04071263; 0x18c13023; 0x00000000; 0x04d73023; 0x06071263; 0x18d13023; 0x00000000;
    0x04e73023; 0x04071363; 0x18e13023; 0x00000000; 0x04f73023; 0x06071363; 0x18f13023; 0x00000000;
    0x08873023; 0x08071063; 0x19013023; 0x00000000; 0x08973023; 0x0a071063; 0x19113023; 0x00000000;
    0x08a73023; 0x08071163; 0x19213023; 0x00000000; 0x08b73023; 0x0a071163; 0x19313023; 0x00000000;
    0x08c73023; 0x08071263; 0x19413023; 0x00000000; 0x08d73023; 0x0a071263; 0x19513023; 0x00000000;
    0x08e73023; 0x08071363; 0x19613023; 0x00000000; 0x08f73023; 0x0a071363; 0x19713023; 0x00000000;
    0x0c873023; 0x0c071063; 0x19813023; 0x00000000; 0x0c973023; 0x0e071063; 0x19913023; 0x00000000;
    0x0ca73023; 0x0c071163; 0x19a13023; 0x00000000; 0x0cb73023; 0x0e071163; 0x19b13023; 0x00000000;
    0x0cc73023; 0x0c071263; 0x19c13023; 0x00000000; 0x0cd73023; 0x0e071263; 0x19d13023; 0x00000000;
    0x0ce73023; 0x0c071363; 0x19e13023; 0x00000000; 0x0cf73023; 0x0e071363; 0x19f13023; 0x00000000;
    0x0087b023; 0x00079063; 0x1c013023; 0x00000000; 0x0097b023; 0x02079063; 0x1c113023; 0x00000000;
    0x00a7b023; 0x00079163; 0x1c213023; 0x00000000; 0x00b7b023; 0x02079163; 0x1c313023; 0x00000000;
    0x00c7b023; 0x00079263; 0x1c413023; 0x00000000; 0x00d7b023; 0x02079263; 0x1c513023; 0x00000000;
    0x00e7b023; 0x00079363; 0x1c613023; 0x00000000; 0x00f7b023; 0x02079363; 0x1c713023; 0x00000000;
    0x0487b023; 0x04079063; 0x1c813023; 0x00000000; 0x0497b023; 0x06079063; 0x1c913023; 0x00000000;
    0x04a7b023; 0x04079163; 0x1ca13023; 0x00000000; 0x04b7b023; 0x06079163; 0x1cb13023; 0x00000000;
    0x04c7b023; 0x04079263; 0x1cc13023; 0x00000000; 0x04d7b023; 0x06079263; 0x1cd13023; 0x00000000;
    0x04e7b023; 0x04079363; 0x1ce13023; 0x00000000; 0x04f7b023; 0x06079363; 0x1cf13023; 0x00000000;
    0x0887b023; 0x08079063; 0x1d013023; 0x00000000; 0x0897b023; 0x0a079063; 0x1d113023; 0x00000000;
    0x08a7b023; 0x08079163; 0x1d213023; 0x00000000; 0x08b7b023; 0x0a079163; 0x1d313023; 0x00000000;
    0x08c7b023; 0x08079263; 0x1d413023; 0x00000000; 0x08d7b023; 0x0a079263; 0x1d513023; 0x00000000;
    0x08e7b023; 0x08079363; 0x1d613023; 0x00000000; 0x08f7b023; 0x0a079363; 0x1d713023; 0x00000000;
    0x0c87b023; 0x0c079063; 0x1d813023; 0x00000000; 0x0c97b023; 0x0e079063; 0x1d913023; 0x00000000;
    0x0ca7b023; 0x0c079163; 0x1da13023; 0x00000000; 0x0cb7b023; 0x0e079163; 0x1db13023; 0x00000000;
    0x0cc7b023; 0x0c079263; 0x1dc13023; 0x00000000; 0x0cd7b023; 0x0e079263; 0x1dd13023; 0x00000000;
    0x0ce7b023; 0x0c079363; 0x1de13023; 0x00000000; 0x0cf7b023; 0x0e079363; 0x1df13023; 0x00000000
].

(** parcels 0xe400 to 0xe7ff *)
Definition RVC64_EXPANDED_57 : list Z := [
    0x00843423; 0x00041463; 0x00013423; 0x00000000; 0x00943423; 0x02041463; 0x00113423; 0x00000000;
    0x00a43423; 0x00041563; 0x00213423; 0x00000000; 0x00b43423; 0x02041563; 0x00313423; 0x00000000;
    0x00c43423; 0x00041663; 0x00413423; 0x00000000; 0x00d43423; 0x02041663; 0x00513423; 0x00000000;
    0x00e43423; 0x00041763; 0x00613423; 0x00000000; 0x00f43423; 0x02041763; 0x00713423; 0x00000000;
    0x04843423; 0x04041463; 0x00813423; 0x00000000; 0x04943423; 0x06041463; 0x00913423; 0x00000000;
    0x04a43423; 0x04041563; 0x00a13423; 0x00000000; 0x04b43423; 0x06041563; 0x00b13423; 0x00000000;
    0x04c43423; 0x04041663; 0x00c13423; 0x00000000; 0x04d43423; 0x06041663; 0x00d13423; 0x00000000;
    0x04e43423; 0x04041763; 0x00e13423; 0x00000000; 0x04f43423; 0x06041763; 0x00f13423; 0x00000000;
    0x08843423; 0x08041463; 0x01013423; 0x00000000; 0x08943423; 0x0a041463; 0x01113423; 0x00000000;
    0x08a43423; 0x08041563; 0x01213423; 0x00000000; 0x08b43423; 0x0a041563; 0x01313423; 0x00000000;
    0x08c43423; 0x08041663; 0x01413423; 0x00000000; 0x08d43423; 0x0a041663; 0x01513423; 0x00000000;
    0x08e43423; 0x08041763; 0x01613423; 0x00000000; 0x08f43423; 0x0a041763; 0x01713423; 0x00000000;
    0x0c843423; 0x0c041463; 0x01813423; 0x00000000; 0x0c943423; 0x0e041463; 0x01913423; 0x00000000;
    0x0ca43423; 0x0c041563; 0x01a13423; 0x00000000; 0x0cb43423; 0x0e041563; 0x01b13423; 0x00000000;
    0x0cc43423; 0x0c041663; 0x01c13423; 0x00000000; 0x0cd43423; 0x0e041663; 0x01d13423; 0x00000000;
    0x0ce43423; 0x0c041763; 0x01e13423; 0x00000000; 0x0cf43423; 0x0e041763; 0x01f13423; 0x00000000;
    0x0084b423; 0x00049463; 0x04013423; 0x00000000; 0x0094b423; 0x02049463; 0x04113423; 0x00000000;
    0x00a4b423; 0x00049563; 0x04213423; 0x00000000; 0x00b4b423; 0x02049563; 0x04313423; 0x00000000;
    0x00c4b423; 0x00049663; 0x04413423; 0x00000000; 0x00d4b423; 0x02049663; 0x04513423; 0x00000000;
    0x00e4b423; 0x00049763; 0x04613423; 0x00000000; 0x00f4b423; 0x02049763; 0x04713423; 0x00000000;
    0x0484b423; 0x04049463; 0x04813423; 0x00000000; 0x0494b423; 0x06049463; 0x04913423; 0x00000000;
    0x04a4b423; 0x04049563; 0x04a13423; 0x00000000; 0x04b4b423; 0x06049563; 0x04b13423; 0x00000000;
    0x04c4b423; 0x04049663; 0x04c13423; 0x00000000; 0x04d4b423; 0x06049663; 0x04d13423; 0x00000000;
    0x04e4b423; 0x04049763; 0x04e13423; 0x00000000; 0x04f4b423; 0x06049763; 0x04f13423; 0x00000000;
    0x0884b423; 0x08049463; 0x05013423; 0x00000000; 0x0894b423; 0x0a049463; 0x05113423; 0x00000000;
    0x08a4b423; 0x08049563; 0x05213423; 0x00000000; 0x08b4b423; 0x0a049563; 0x05313423; 0x00000000;
    0x08c4b423; 0x08049663; 0x05413423; 0x00000000; 0x08d4b423; 0x0a049663; 0x05513423; 0x00000000;
    0x08e4b423; 0x08049763; 0x05613423; 0x00000000; 0x08f4b423; 0x0a049763; 0x05713423; 0x00000000;
    0x0c84b423; 0x0c049463; 0x05813423; 0x00000000; 0x0c94b423; 0x0e049463; 0x05913423; 0x00000000;
    0x0ca4b423; 0x0c049563; 0x05a13423; 0x00000000; 0x0cb4b423; 0x0e049563; 0x05b13423; 0x00000000;
    0x0cc4b423; 0x0c049663; 0x05c13423; 0x00000000; 0x0cd4b423; 0x0e049663; 0x05d13423; 0x00000000;
    0x0ce4b423; 0x0c049763; 0x05e13423; 0x00000000; 0x0cf4b423; 0x0e049763; 0x05f13423; 0x00000000;
    0x00853423; 0x00051463; 0x08013423; 0x00000000; 0x00953423; 0x02051463; 0x08113423; 0x00000000;
    0x00a53423; 0x00051563; 0x08213423; 0x00000000; 0x00b53423; 0x02051563; 0x08313423; 0x00000000;
    0x00c53423; 0x00051663; 0x08413423; 0x00000000; 0x00d53423; 0x02051663; 0x08513423; 0x00000000;
    0x00e53423; 0x00051763; 0x08613423; 0x00000000; 0x00f53423; 0x02051763; 0x08713423; 0x00000000;
    0x04853423; 0x04051463; 0x08813423; 0x00000000; 0x04953423; 0x06051463; 0x08913423; 0x00000000;
    0x04a53423; 0x04051563; 0x08a13423; 0x00000000; 0x04b53423; 0x06051563; 0x08b13423; 0x00000000;
    0x04c53423; 0x04051663; 0x08c13423; 0x00000000; 0x04d53423; 0x06051663; 0x08d13423; 0x00000000;
    0x04e53423; 0x04051763; 0x08e13423; 0x00000000; 0x04f53423; 0x06051763; 0x08f13423; 0x00000000;
    0x08853423; 0x08051463; 0x09013423; 0x00000000; 0x08953423; 0x0a051463; 0x09113423; 0x00000000;
    0x08a53423; 0x08051563; 0x09213423; 0x00000000; 0x08b53423; 0x0a051563; 0x09313423; 0x00000000;
    0x08c53423; 0x08051663; 0x09413423; 0x00000000; 0x08d53423; 0x0a051663; 0x09513423; 0x00000000;
    0x08e53423; 0x08051763; 0x09613423; 0x00000000; 0x08f53423; 0x0a051763; 0x09713423; 0x00000000;
    0x0c853423; 0x0c051463; 0x09813423; 0x00000000; 0x0c953423; 0x0e051463; 0x09913423; 0x00000000;
    0x0ca53423; 0x0c051563; 0x09a13423; 0x00000000; 0x0cb53423; 0x0e051563; 0x09b13423; 0x00000000;
    0x0cc53423; 0x0c051663; 0x09c13423; 0x00000000; 0x0cd53423; 0x0e051663; 0x09d13423; 0x00000000;
    0x0ce53423; 0x0c051763; 0x09e13423; 0x00000000; 0x0cf53423; 0x0e051763; 0x09f13423; 0x00000000;
    0x0085b423; 0x00059463; 0x0c013423; 0x00000000; 0x0095b423; 0x02059463; 0x0c113423; 0x00000000;
    0x00a5b423; 0x00059563; 0x0c213423; 0x00000000; 0x00b5b423; 0x02059563; 0x0c313423; 0x00000000;
    0x00c5b423; 0x00059663; 0x0c413423; 0x00000000; 0x00d5b423; 0x02059663; 0x0c513423; 0x00000000;
    0x00e5b423; 0x00059763; 0x0c613423; 0x00000000; 0x00f5b423; 0x02059763; 0x0c713423; 0x00000000;
    0x0485b423; 0x04059463; 0x0c813423; 0x00000000; 0x0495b423; 0x06059463; 0x0c913423; 0x00000000;
    0x04a5b423; 0x04059563; 0x0ca13423; 0x00000000; 0x04b5b423; 0x06059563; 0x0cb13423; 0x00000000;
    0x04c5b423; 0x04059663; 0x0cc13423; 0x00000000; 0x04d5b423; 0x06059663; 0x0cd13423; 0x00000000;
    0x04e5b423; 0x04059763; 0x0ce13423; 0x00000000; 0x04f5b423; 0x06059763; 0x0cf13423; 0x00000000;
    0x0885b423; 0x08059463; 0x0d013423; 0x00000000; 0x0895b423; 0x0a059463; 0x0d113423; 0x00000000;
    0x08a5b423; 0x08059563; 0x0d213423; 0x00000000; 0x08b5b423; 0x0a059563; 0x0d313423; 0x00000000;
    0x08c5b423; 0x08059663; 0x0d413423; 0x00000000; 0x08d5b423; 0x0a059663; 0x0d513423; 0x00000000;
    0x08e5b423; 0x08059763; 0x0d613423; 0x00000000; 0x08f5b423; 0x0a059763; 0x0d713423; 0x00000000;
    0x0c85b423; 0x0c059463; 0x0d813423; 0x00000000; 0x0c95b423; 0x0e059463; 0x0d913423; 0x00000000;
    0x0ca5b423; 0x0c059563; 0x0da13423; 0x00000000; 0x0cb5b423; 0x0e059563; 0x0db13423; 0x00000000;
    0x0cc5b423; 0x0c059663; 0x0dc13423; 0x00000000; 0x0cd5b423; 0x0e059663; 0x0dd13423; 0x00000000;
    0x0ce5b423; 0x0c059763; 0x0de13423; 0x00000000; 0x0cf5b423; 0x0e059763; 0x0df13423; 0x00000000;
    0x00863423; 0x00061463; 0x10013423; 0x00000000; 0x00963423; 0x02061463; 0x10113423; 0x00000000;
    0x00a63423; 0x00061563; 0x10213423; 0x00000000; 0x00b63423; 0x02061563; 0x10313423; 0x00000000;
    0x00c63423; 0x00061663; 0x10413423; 0x00000000; 0x00d63423; 0x02061663; 0x10513423; 0x00000000;
    0x00e63423; 0x00061763; 0x10613423; 0x00000000; 0x00f63423; 0x02061763; 0x10713423; 0x00000000;
    0x04863423; 0x04061463; 0x10813423; 0x00000000; 0x04963423; 0x06061463; 0x10913423; 0x00000000;
    0x04a63423; 0x04061563; 0x10a13423; 0x00000000; 0x04b63423; 0x06061563; 0x10b13423; 0x00000000;
    0x04c63423; 0x04061663; 0x10c13423; 0x00000000; 0x04d63423; 0x06061663; 0x10d13423; 0x00000000;
    0x04e63423; 0x04061763; 0x10e13423; 0x00000000; 0x04f63423; 0x06061763; 0x10f13423; 0x00000000;
    0x08863423; 0x08061463; 0x11013423; 0x00000000; 0x08963423; 0x0a061463; 0x11113423; 0x00000000;
    0x08a63423; 0x08061563; 0x11213423; 0x00000000; 0x08b63423; 0x0a061563; 0x11313423; 0x00000000;
    0x08c63423; 0x08061663; 0x11413423; 0x00000000; 0x08d63423; 0x0a061663; 0x11513423; 0x00000000;
    0x08e63423; 0x08061763; 0x11613423; 0x00000000; 0x08f63423; 0x0a061763; 0x11713423; 0x00000000;
    0x0c863423; 0x0c061463; 0x11813423; 0x00000000; 0x0c963423; 0x0e061463; 0x11913423; 0x00000000;
    0x0ca63423; 0x0c061563; 0x11a13423; 0x00000000; 0x0cb63423; 0x0e061563; 0x11b13423; 0x00000000;
    0x0cc63423; 0x0c061663; 0x11c13423; 0x00000000; 0x0cd63423; 0x0e061663; 0x11d13423; 0x00000000;
    0x0ce63423; 0x0c061763; 0x11e13423; 0x00000000; 0x0cf63423; 0x0e061763; 0x11f13423; 0x00000000;
    0x0086b423; 0x00069463; 0x14013423; 0x00000000; 0x0096b423; 0x02069463; 0x14113423; 0x00000000;
    0x00a6b423; 0x00069563; 0x14213423; 0x00000000; 0x00b6b423; 0x02069563; 0x14313423; 0x00000000;
    0x00c6b423; 0x00069663; 0x14413423; 0x00000000; 0x00d6b423; 0x02069663; 0x14513423; 0x00000000;
    0x00e6b423; 0x00069763; 0x14613423; 0x00000000; 0x00f6b423; 0x02069763; 0x14713423; 0x00000000;
    0x0486b423; 0x04069463; 0x14813423; 0x00000000; 0x0496b423; 0x06069463; 0x14913423; 0x00000000;
    0x04a6b423; 0x04069563; 0x14a13423; 0x00000000; 0x04b6b423; 0x06069563; 0x14b13423; 0x00000000;
    0x04c6b423; 0x04069663; 0x14c13423; 0x00000000; 0x04d6b423; 0x06069663; 0x14d13423; 0x00000000;
    0x04e6b423; 0x04069763; 0x14e13423; 0x00000000; 0x04f6b423; 0x06069763; 0x14f13423; 0x00000000;
    0x0886b423; 0x08069463; 0x15013423; 0x00000000; 0x0896b423; 0x0a069463; 0x15113423; 0x00000000;
    0x08a6b423; 0x08069563; 0x15213423; 0x00000000; 0x08b6b423; 0x0a069563; 0x15313423; 0x00000000;
    0x08c6b423; 0x08069663; 0x15413423; 0x00000000; 0x08d6b423; 0x0a069663; 0x15513423; 0x00000000;
    0x08e6b423; 0x08069763; 0x15613423; 0x00000000; 0x08f6b423; 0x0a069763; 0x15713423; 0x00000000;
    0x0c86b423; 0x0c069463; 0x15813423; 0x00000000; 0x0c96b423; 0x0e069463; 0x15913423; 0x00000000;
    0x0ca6b423; 0x0c069563; 0x15a13423; 0x00000000; 0x0cb6b423; 0x0e069563; 0x15b13423; 0x00000000;
    0x0cc6b423; 0x0c069663; 0x15c13423; 0x00000000; 0x0cd6b423; 0x0e069663; 0x15d13423; 0x00000000;
    0x0ce6b423; 0x0c069763; 0x15e13423; 0x00000000; 0x0cf6b423; 0x0e069763; 0x15f13423; 0x00000000;
    0x00873423; 0x00071463; 0x18013423; 0x00000000; 0x00973423; 0x02071463; 0x18113423; 0x00000000;
    0x00a73423; 0x00071563; 0x18213423; 0x00000000; 0x00b73423; 0x02071563; 0x18313423; 0x00000000;
    0x00c73423; 0x00071663; 0x18413423; 0x00000000; 0x00d73423; 0x02071663; 0x18513423; 0x00000000;
    0x00e73423; 0x00071763; 0x18613423; 0x00000000; 0x00f73423; 0x02071763; 0x18713423; 0x00000000;
    0x04873423; 0x04071463; 0x18813423; 0x00000000; 0x04973423; 0x06071463; 0x18913423; 0x00000000;
    0x04a73423; 0x04071563; 0x18a13423; 0x00000000; 0x04b73423; 0x06071563; 0x18b13423; 0x00000000;
    0x04c73423; 0x04071663; 0x18c13423; 0x00000000; 0x04d73423; 0x06071663; 0x18d13423; 0x00000000;
    0x04e73423; 0x04071763; 0x18e13423; 0x00000000; 0x04f73423; 0x06071763; 0x18f13423; 0x00000000;
    0x08873423; 0x08071463; 0x19013423; 0x00000000; 0x08973423; 0x0a071463; 0x19113423; 0x00000000;
    0x08a73423; 0x08071563; 0x19213423; 0x00000000; 0x08b73423; 0x0a071563; 0x19313423; 0x00000000;
    0x08c73423; 0x08071663; 0x19413423; 0x00000000; 0x08d73423; 0x0a071663; 0x19513423; 0x00000000;
    0x08e73423; 0x08071763; 0x19613423; 0x00000000; 0x08f73423; 0x0a071763; 0x19713423; 0x00000000;
    0x0c873423; 0x0c071463; 0x19813423; 0x00000000; 0x0c973423; 0x0e071463; 0x19913423; 0x00000000;
    0x0ca73423; 0x0c071563; 0x19a13423; 0x00000000; 0x0cb73423; 0x0e071563; 0x19b13423; 0x00000000;
    0x0cc73423; 0x0c071663; 0x19c13423; 0x00000000; 0x0cd73423; 0x0e071663; 0x19d13423; 0x00000000;
    0x0ce73423; 0x0c071763; 0x19e13423; 0x00000000; 0x0cf73423; 0x0e071763; 0x19f13423; 0x00000000;
    0x0087b423; 0x00079463; 0x1c013423; 0x00000000; 0x0097b423; 0x02079463; 0x1c113423; 0x00000000;
    0x00a7b423; 0x00079563; 0x1c213423; 0x00000000; 0x00b7b423; 0x02079563; 0x1c313423; 0x00000000;
    0x00c7b423; 0x00079663; 0x1c413423; 0x00000000; 0x00d7b423; 0x02079663; 0x1c513423; 0x00000000;
    0x00e7b423; 0x00079763; 0x1c613423; 0x00000000; 0x00f7b423; 0x02079763; 0x1c713423; 0x00000000;
    0x0487b423; 0x04079463; 0x1c813423; 0x00000000; 0x0497b423; 0x06079463; 0x1c913423; 0x00000000;
    0x04a7b423; 0x04079563; 0x1ca13423; 0x00000000; 0x04b7b423; 0x06079563; 0x1cb13423; 0x00000000;
    0x04c7b423; 0x04079663; 0x1cc13423; 0x00000000; 0x04d7b423; 0x06079663; 0x1cd13423; 0x00000000;
    0x04e7b423; 0x04079763; 0x1ce13423; 0x00000000; 0x04f7b423; 0x06079763; 0x1cf13423; 0x00000000;
    0x0887b423; 0x08079463; 0x1d013423; 0x00000000; 0x0897b423; 0x0a079463; 0x1d113423; 0x00000000;
    0x08a7b423; 0x08079563; 0x1d213423; 0x00000000; 0x08b7b423; 0x0a079563; 0x1d313423; 0x00000000;
    0x08c7b423; 0x08079663; 0x1d413423; 0x00000000; 0x08d7b423; 0x0a079663; 0x1d513423; 0x00000000;
    0x08e7b423; 0x08079763; 0x1d613423; 0x00000000; 0x08f7b423; 0x0a079763; 0x1d713423; 0x00000000;
    0x0c87b423; 0x0c079463; 0x1d813423; 0x00000000; 0x0c97b423; 0x0e079463; 0x1d913423; 0x00000000;
    0x0ca7b423; 0x0c079563; 0x1da13423; 0x00000000; 0x0cb7b423; 0x0e079563; 0x1db13423; 0x00000000;
    0x0cc7b423; 0x0c079663; 0x1dc13423; 0x00000000; 0x0cd7b423; 0x0e079663; 0x1dd13423; 0x00000000;
    0x0ce7b423; 0x0c079763; 0x1de13423; 0x00000000; 0x0cf7b423; 0x0e079763; 0x1df13423; 0x00000000
].

(** parcels 0xe800 to 0xebff *)
Definition RVC64_EXPANDED_58 : list Z := [
    0x00843823; 0x00041863; 0x00013823; 0x00000000; 0x00943823; 0x02041863; 0x00113823; 0x00000000;
    0x00a43823; 0x00041963; 0x00213823; 0x00000000; 0x00b43823; 0x02041963; 0x00313823; 0x00000000;
    0x00c43823; 0x00041a63; 0x00413823; 0x00000000; 0x00d43823; 0x02041a63; 0x00513823; 0x00000000;
    0x00e43823; 0x00041b63; 0x00613823; 0x00000000; 0x00f43823; 0x02041b63; 0x00713823; 0x00000000;
    0x04843823; 0x04041863; 0x00813823; 0x00000000; 0x04943823; 0x06041863; 0x00913823; 0x00000000;
    0x04a43823; 0x04041963; 0x00a13823; 0x00000000; 0x04b43823; 0x06041963; 0x00b13823; 0x00000000;
    0x04c43823; 0x04041a63; 0x00c13823; 0x00000000; 0x04d43823; 0x06041a63; 0x00d13823; 0x00000000;
    0x04e43823; 0x04041b63; 0x00e13823; 0x00000000; 0x04f43823; 0x06041b63; 0x00f13823; 0x00000000;
    0x08843823; 0x08041863; 0x01013823; 0x00000000; 0x08943823; 0x0a041863; 0x01113823; 0x00000000;
    0x08a43823; 0x08041963; 0x01213823; 0x00000000; 0x08b43823; 0x0a041963; 0x01313823; 0x00000000;
    0x08c43823; 0x08041a63; 0x01413823; 0x00000000; 0x08d43823; 0x0a041a63; 0x01513823; 0x00000000;
    0x08e43823; 0x08041b63; 0x01613823; 0x00000000; 0x08f43823; 0x0a041b63; 0x01713823; 0x00000000;
    0x0c843823; 0x0c041863; 0x01813823; 0x00000000; 0x0c943823; 0x0e041863; 0x01913823; 0x00000000;
    0x0ca43823; 0x0c041963; 0x01a13823; 0x00000000; 0x0cb43823; 0x0e041963; 0x01b13823; 0x00000000;
    0x0cc43823; 0x0c041a63; 0x01c13823; 0x00000000; 0x0cd43823; 0x0e041a63; 0x01d13823; 0x00000000;
    0x0ce43823; 0x0c041b63; 0x01e13823; 0x00000000; 0x0cf43823; 0x0e041b63; 0x01f13823; 0x00000000;
    0x0084b823; 0x00049863; 0x04013823; 0x00000000; 0x0094b823; 0x02049863; 0x04113823; 0x00000000;
    0x00a4b823; 0x00049963; 0x04213823; 0x00000000; 0x00b4b823; 0x02049963; 0x04313823; 0x00000000;
    0x00c4b823; 0x00049a63; 0x04413823; 0x00000000; 0x00d4b823; 0x02049a63; 0x04513823; 0x00000000;
    0x00e4b823; 0x00049b63; 0x04613823; 0x00000000; 0x00f4b823; 0x02049b63; 0x04713823; 0x00000000;
    0x0484b823; 0x04049863; 0x04813823; 0x00000000; 0x0494b823; 0x06049863; 0x04913823; 0x00000000;
    0x04a4b823; 0x04049963; 0x04a13823; 0x00000000; 0x04b4b823; 0x06049963; 0x04b13823; 0x00000000;
    0x04c4b823; 0x04049a63; 0x04c13823; 0x00000000; 0x04d4b823; 0x06049a63; 0x04d13823; 0x00000000;
    0x04e4b823; 0x04049b63; 0x04e13823; 0x00000000; 0x04f4b823; 0x06049b63; 0x04f13823; 0x00000000;
    0x0884b823; 0x08049863; 0x05013823; 0x00000000; 0x0894b823; 0x0a049863; 0x05113823; 0x00000000;
    0x08a4b823; 0x08049963; 0x05213823; 0x00000000; 0x08b4b823; 0x0a049963; 0x05313823; 0x00000000;
    0x08c4b823; 0x08049a63; 0x05413823; 0x00000000; 0x08d4b823; 0x0a049a63; 0x05513823; 0x00000000;
    0x08e4b823; 0x08049b63; 0x05613823; 0x00000000; 0x08f4b823; 0x0a049b63; 0x05713823; 0x00000000;
    0x0c84b823; 0x0c049863; 0x05813823; 0x00000000; 0x0c94b823; 0x0e049863; 0x05913823; 0x00000000;
    0x0ca4b823; 0x0c049963; 0x05a13823; 0x00000000; 0x0cb4b823; 0x0e049963; 0x05b13823; 0x00000000;
    0x0cc4b823; 0x0c049a63; 0x05c13823; 0x00000000; 0x0cd4b823; 0x0e049a63; 0x05d13823; 0x00000000;
    0x0ce4b823; 0x0c049b63; 0x05e13823; 0x00000000; 0x0cf4b823; 0x0e049b63; 0x05f13823; 0x00000000;
    0x00853823; 0x00051863; 0x08013823; 0x00000000; 0x00953823; 0x02051863; 0x08113823; 0x00000000;
    0x00a53823; 0x00051963; 0x08213823; 0x00000000; 0x00b53823; 0x02051963; 0x08313823; 0x00000000;
    0x00c53823; 0x00051a63; 0x08413823; 0x00000000; 0x00d53823; 0x02051a63; 0x08513823; 0x00000000;
    0x00e53823; 0x00051b63; 0x08613823; 0x00000000; 0x00f53823; 0x02051b63; 0x08713823; 0x00000000;
    0x04853823; 0x04051863; 0x08813823; 0x00000000; 0x04953823; 0x06051863; 0x08913823; 0x00000000;
    0x04a53823; 0x04051963; 0x08a13823; 0x00000000; 0x04b53823; 0x06051963; 0x08b13823; 0x00000000;
    0x04c53823; 0x04051a63; 0x08c13823; 0x00000000; 0x04d53823; 0x06051a63; 0x08d13823; 0x00000000;
    0x04e53823; 0x04051b63; 0x08e13823; 0x00000000; 0x04f53823; 0x06051b63; 0x08f13823; 0x00000000;
    0x08853823; 0x08051863; 0x09013823; 0x00000000; 0x08953823; 0x0a051863; 0x09113823; 0x00000000;
    0x08a53823; 0x08051963; 0x09213823; 0x00000000; 0x08b53823; 0x0a051963; 0x09313823; 0x00000000;
    0x08c53823; 0x08051a63; 0x09413823; 0x00000000; 0x08d53823; 0x0a051a63; 0x09513823; 0x00000000;
    0x08e53823; 0x08051b63; 0x09613823; 0x00000000; 0x08f53823; 0x0a051b63; 0x09713823; 0x00000000;
    0x0c853823; 0x0c051863; 0x09813823; 0x00000000; 0x0c953823; 0x0e051863; 0x09913823; 0x00000000;
    0x0ca53823; 0x0c051963; 0x09a13823; 0x00000000; 0x0cb53823; 0x0e051963; 0x09b13823; 0x00000000;
    0x0cc53823; 0x0c051a63; 0x09c13823; 0x00000000; 0x0cd53823; 0x0e051a63; 0x09d13823; 0x00000000;
    0x0ce53823; 0x0c051b63; 0x09e13823; 0x00000000; 0x0cf53823; 0x0e051b63; 0x09f13823; 0x00000000;
    0x0085b823; 0x00059863; 0x0c013823; 0x00000000; 0x0095b823; 0x02059863; 0x0c113823; 0x00000000;
    0x00a5b823; 0x00059963; 0x0c213823; 0x00000000; 0x00b5b823; 0x02059963; 0x0c313823; 0x00000000;
    0x00c5b823; 0x00059a63; 0x0c413823; 0x00000000; 0x00d5b823; 0x02059a63; 0x0c513823; 0x00000000;
    0x00e5b823; 0x00059b63; 0x0c613823; 0x00000000; 0x00f5b823; 0x02059b63; 0x0c713823; 0x00000000;
    0x0485b823; 0x04059863; 0x0c813823; 0x00000000; 0x0495b823; 0x06059863; 0x0c913823; 0x00000000;
    0x04a5b823; 0x04059963; 0x0ca13823; 0x00000000; 0x04b5b823; 0x06059963; 0x0cb13823; 0x00000000;
    0x04c5b823; 0x04059a63; 0x0cc13823; 0x00000000; 0x04d5b823; 0x06059a63; 0x0cd13823; 0x00000000;
    0x04e5b823; 0x04059b63; 0x0ce13823; 0x00000000; 0x04f5b823; 0x06059b63; 0x0cf13823; 0x00000000;
    0x0885b823; 0x08059863; 0x0d013823; 0x00000000; 0x0895b823; 0x0a059863; 0x0d113823; 0x00000000;
    0x08a5b823; 0x08059963; 0x0d213823; 0x00000000; 0x08b5b823; 0x0a059963; 0x0d313823; 0x00000000;
    0x08c5b823; 0x08059a63; 0x0d413823; 0x00000000; 0x08d5b823; 0x0a059a63; 0x0d513823; 0x00000000;
    0x08e5b823; 0x08059b63; 0x0d613823; 0x00000000; 0x08f5b823; 0x0a059b63; 0x0d713823; 0x00000000;
    0x0c85b823; 0x0c059863; 0x0d813823; 0x00000000; 0x0c95b823; 0x0e059863; 0x0d913823; 0x00000000;
    0x0ca5b823; 0x0c059963; 0x0da13823; 0x00000000; 0x0cb5b823; 0x0e059963; 0x0db13823; 0x00000000;
    0x0cc5b823; 0x0c059a63; 0x0dc13823; 0x00000000; 0x0cd5b823; 0x0e059a63; 0x0dd13823; 0x00000000;
    0x0ce5b823; 0x0c059b63; 0x0de13823; 0x00000000; 0x0cf5b823; 0x0e059b63; 0x0df13823; 0x00000000;
    0x00863823; 0x00061863; 0x10013823; 0x00000000; 0x00963823; 0x02061863; 0x10113823; 0x00000000;
    0x00a63823; 0x00061963; 0x10213823; 0x00000000; 0x00b63823; 0x02061963; 0x10313823; 0x00000000;
    0x00c63823; 0x00061a63; 0x10413823; 0x00000000; 0x00d63823; 0x02061a63; 0x10513823; 0x00000000;
    0x00e63823; 0x00061b63; 0x10613823; 0x00000000; 0x00f63823; 0x02061b63; 0x10713823; 0x00000000;
    0x04863823; 0x04061863; 0x10813823; 0x00000000; 0x04963823; 0x06061863; 0x10913823; 0x00000000;
    0x04a63823; 0x04061963; 0x10a13823; 0x00000000; 0x04b63823; 0x06061963; 0x10b13823; 0x00000000;
    0x04c63823; 0x04061a63; 0x10c13823; 0x00000000; 0x04d63823; 0x06061a63; 0x10d13823; 0x00000000;
    0x04e63823; 0x04061b63; 0x10e13823; 0x00000000; 0x04f63823; 0x06061b63; 0x10f13823; 0x00000000;
    0x08863823; 0x08061863; 0x11013823; 0x00000000; 0x08963823; 0x0a061863; 0x11113823; 0x00000000;
    0x08a63823; 0x08061963; 0x11213823; 0x00000000; 0x08b63823; 0x0a061963; 0x11313823; 0x00000000;
    0x08c63823; 0x08061a63; 0x11413823; 0x00000000; 0x08d63823; 0x0a061a63; 0x11513823; 0x00000000;
    0x08e63823; 0x08061b63; 0x11613823; 0x00000000; 0x08f63823; 0x0a061b63; 0x11713823; 0x00000000;
    0x0c863823; 0x0c061863; 0x11813823; 0x00000000; 0x0c963823; 0x0e061863; 0x11913823; 0x00000000;
    0x0ca63823; 0x0c061963; 0x11a13823; 0x00000000; 0x0cb63823; 0x0e061963; 0x11b13823; 0x00000000;
    0x0cc63823; 0x0c061a63; 0x11c13823; 0x00000000; 0x0cd63823; 0x0e061a63; 0x11d13823; 0x00000000;
    0x0ce63823; 0x0c061b63; 0x11e13823; 0x00000000; 0x0cf63823; 0x0e061b63; 0x11f13823; 0x00000000;
    0x0086b823; 0x00069863; 0x14013823; 0x00000000; 0x0096b823; 0x02069863; 0x14113823; 0x00000000;
    0x00a6b823; 0x00069963; 0x14213823; 0x00000000; 0x00b6b823; 0x02069963; 0x14313823; 0x00000000;
    0x00c6b823; 0x00069a63; 0x14413823; 0x00000000; 0x00d6b823; 0x02069a63; 0x14513823; 0x00000000;
    0x00e6b823; 0x00069b63; 0x14613823; 0x00000000; 0x00f6b823; 0x02069b63; 0x14713823; 0x00000000;
    0x0486b823; 0x04069863; 0x14813823; 0x00000000; 0x0496b823; 0x06069863; 0x14913823; 0x00000000;
    0x04a6b823; 0x04069963; 0x14a13823; 0x00000000; 0x04b6b823; 0x06069963; 0x14b13823; 0x00000000;
    0x04c6b823; 0x04069a63; 0x14c13823; 0x00000000; 0x04d6b823; 0x06069a63; 0x14d13823; 0x00000000;
    0x04e6b823; 0x04069b63; 0x14e13823; 0x00000000; 0x04f6b823; 0x06069b63; 0x14f13823; 0x00000000;
    0x0886b823; 0x08069863; 0x15013823; 0x00000000; 0x0896b823; 0x0a069863; 0x15113823; 0x00000000;
    0x08a6b823; 0x08069963; 0x15213823; 0x00000000; 0x08b6b823; 0x0a069963; 0x15313823; 0x00000000;
    0x08c6b823; 0x08069a63; 0x15413823; 0x00000000; 0x08d6b823; 0x0a069a63; 0x15513823; 0x00000000;
    0x08e6b823; 0x08069b63; 0x15613823; 0x00000000; 0x08f6b823; 0x0a069b63; 0x15713823; 0x00000000;
    0x0c86b823; 0x0c069863; 0x15813823; 0x00000000; 0x0c96b823; 0x0e069863; 0x15913823; 0x00000000;
    0x0ca6b823; 0x0c069963; 0x15a13823; 0x00000000; 0x0cb6b823; 0x0e069963; 0x15b13823; 0x00000000;
    0x0cc6b823; 0x0c069a63; 0x15c13823; 0x00000000; 0x0cd6b823; 0x0e069a63; 0x15d13823; 0x00000000;
    0x0ce6b823; 0x0c069b63; 0x15e13823; 0x00000000; 0x0cf6b823; 0x0e069b63; 0x15f13823; 0x00000000;
    0x00873823; 0x00071863; 0x18013823; 0x00000000; 0x00973823; 0x02071863; 0x18113823; 0x00000000;
    0x00a73823; 0x00071963; 0x18213823; 0x00000000; 0x00b73823; 0x02071963; 0x18313823; 0x00000000;
    0x00c73823; 0x00071a63; 0x18413823; 0x00000000; 0x00d73823; 0x02071a63; 0x18513823; 0x00000000;
    0x00e73823; 0x00071b63; 0x18613823; 0x00000000; 0x00f73823; 0x02071b63; 0x18713823; 0x00000000;
    0x04873823; 0x04071863; 0x18813823; 0x00000000; 0x04973823; 0x06071863; 0x18913823; 0x00000000;
    0x04a73823; 0x04071963; 0x18a13823; 0x00000000; 0x04b73823; 0x06071963; 0x18b13823; 0x00000000;
    0x04c73823; 0x04071a63; 0x18c13823; 0x00000000; 0x04d73823; 0x06071a63; 0x18d13823; 0x00000000;
    0x04e73823; 0x04071b63; 0x18e13823; 0x00000000; 0x04f73823; 0x06071b63; 0x18f13823; 0x00000000;
    0x08873823; 0x08071863; 0x19013823; 0x00000000; 0x08973823; 0x0a071863; 0x19113823; 0x00000000;
    0x08a73823; 0x08071963; 0x19213823; 0x00000000; 0x08b73823; 0x0a071963; 0x19313823; 0x00000000;
    0x08c73823; 0x08071a63; 0x19413823; 0x00000000; 0x08d73823; 0x0a071a63; 0x19513823; 0x00000000;
    0x08e73823; 0x08071b63; 0x19613823; 0x00000000; 0x08f73823; 0x0a071b63; 0x19713823; 0x00000000;
    0x0c873823; 0x0c071863; 0x19813823; 0x00000000; 0x0c973823; 0x0e071863; 0x19913823; 0x00000000;
    0x0ca73823; 0x0c071963; 0x19a13823; 0x00000000; 0x0cb73823; 0x0e071963; 0x19b13823; 0x00000000;
    0x0cc73823; 0x0c071a63; 0x19c13823; 0x00000000; 0x0cd73823; 0x0e071a63; 0x19d13823; 0x00000000;
    0x0ce73823; 0x0c071b63; 0x19e13823; 0x00000000; 0x0cf73823; 0x0e071b63; 0x19f13823; 0x00000000;
    0x0087b823; 0x00079863; 0x1c013823; 0x00000000; 0x0097b823; 0x02079863; 0x1c113823; 0x00000000;
    0x00a7b823; 0x00079963; 0x1c213823; 0x00000000; 0x00b7b823; 0x02079963; 0x1c313823; 0x00000000;
    0x00c7b823; 0x00079a63; 0x1c413823; 0x00000000; 0x00d7b823; 0x02079a63; 0x1c513823; 0x00000000;
    0x00e7b823; 0x00079b63; 0x1c613823; 0x00000000; 0x00f7b823; 0x02079b63; 0x1c713823; 0x00000000;
    0x0487b823; 0x04079863; 0x1c813823; 0x00000000; 0x0497b823; 0x06079863; 0x1c913823; 0x00000000;
    0x04a7b823; 0x04079963; 0x1ca13823; 0x00000000; 0x04b7b823; 0x06079963; 0x1cb13823; 0x00000000;
    0x04c7b823; 0x04079a63; 0x1cc13823; 0x00000000; 0x04d7b823; 0x06079a63; 0x1cd13823; 0x00000000;
    0x04e7b823; 0x04079b63; 0x1ce13823; 0x00000000; 0x04f7b823; 0x06079b63; 0x1cf13823; 0x00000000;
    0x0887b823; 0x08079863; 0x1d013823; 0x00000000; 0x0897b823; 0x0a079863; 0x1d113823; 0x00000000;
    0x08a7b823; 0x08079963; 0x1d213823; 0x00000000; 0x08b7b823; 0x0a079963; 0x1d313823; 0x00000000;
    0x08c7b823; 0x08079a63; 0x1d413823; 0x00000000; 0x08d7b823; 0x0a079a63; 0x1d513823; 0x00000000;
    0x08e7b823; 0x08079b63; 0x1d613823; 0x00000000; 0x08f7b823; 0x0a079b63; 0x1d713823; 0x00000000;
    0x0c87b823; 0x0c079863; 0x1d813823; 0x00000000; 0x0c97b823; 0x0e079863; 0x1d913823; 0x00000000;
    0x0ca7b823; 0x0c079963; 0x1da13823; 0x00000000; 0x0cb7b823; 0x0e079963; 0x1db13823; 0x00000000;
    0x0cc7b823; 0x0c079a63; 0x1dc13823; 0x00000000; 0x0cd7b823; 0x0e079a63; 0x1dd13823; 0x00000000;
    0x0ce7b823; 0x0c079b63; 0x1de13823; 0x00000000; 0x0cf7b823; 0x0e079b63; 0x1df13823; 0x00000000
].

(** parcels 0xec00 to 0xefff *)
Definition RVC64_EXPANDED_59 : list Z := [
    0x00843c23; 0x00041c63; 0x00013c23; 0x00000000; 0x00943c23; 0x02041c63; 0x00113c23; 0x00000000;
    0x00a43c23; 0x00041d63; 0x00213c23; 0x00000000; 0x00b43c23; 0x02041d63; 0x00313c23; 0x00000000;
    0x00c43c23; 0x00041e63; 0x00413c23; 0x00000000; 0x00d43c23; 0x02041e63; 0x00513c23; 0x00000000;
    0x00e43c23; 0x00041f63; 0x00613c23; 0x00000000; 0x00f43c23; 0x02041f63; 0x00713c23; 0x00000000;
    0x04843c23; 0x04041c63; 0x00813c23; 0x00000000; 0x04943c23; 0x06041c63; 0x00913c23; 0x00000000;
    0x04a43c23; 0x04041d63; 0x00a13c23; 0x00000000; 0x04b43c23; 0x06041d63; 0x00b13c23; 0x00000000;
    0x04c43c23; 0x04041e63; 0x00c13c23; 0x00000000; 0x04d43c23; 0x06041e63; 0x00d13c23; 0x00000000;
    0x04e43c23; 0x04041f63; 0x00e13c23; 0x00000000; 0x04f43c23; 0x06041f63; 0x00f13c23; 0x00000000;
    0x08843c23; 0x08041c63; 0x01013c23; 0x00000000; 0x08943c23; 0x0a041c63; 0x01113c23; 0x00000000;
    0x08a43c23; 0x08041d63; 0x01213c23; 0x00000000; 0x08b43c23; 0x0a041d63; 0x01313c23; 0x00000000;
    0x08c43c23; 0x08041e63; 0x01413c23; 0x00000000; 0x08d43c23; 0x0a041e63; 0x01513c23; 0x00000000;
    0x08e43c23; 0x08041f63; 0x01613c23; 0x00000000; 0x08f43c23; 0x0a041f63; 0x01713c23; 0x00000000;
    0x0c843c23; 0x0c041c63; 0x01813c23; 0x00000000; 0x0c943c23; 0x0e041c63; 0x01913c23; 0x00000000;
    0x0ca43c23; 0x0c041d63; 0x01a13c23; 0x00000000; 0x0cb43c23; 0x0e041d63; 0x01b13c23; 0x00000000;
    0x0cc43c23; 0x0c041e63; 0x01c13c23; 0x00000000; 0x0cd43c23; 0x0e041e63; 0x01d13c23; 0x00000000;
    0x0ce43c23; 0x0c041f63; 0x01e13c23; 0x00000000; 0x0cf43c23; 0x0e041f63; 0x01f13c23; 0x00000000;
    0x0084bc23; 0x00049c63; 0x04013c23; 0x00000000; 0x0094bc23; 0x02049c63; 0x04113c23; 0x00000000;
    0x00a4bc23; 0x00049d63; 0x04213c23; 0x00000000; 0x00b4bc23; 0x02049d63; 0x04313c23; 0x00000000;
    0x00c4bc23; 0x00049e63; 0x04413c23; 0x00000000; 0x00d4bc23; 0x02049e63; 0x04513c23; 0x00000000;
    0x00e4bc23; 0x00049f63; 0x04613c23; 0x00000000; 0x00f4bc23; 0x02049f63; 0x04713c23; 0x00000000;
    0x0484bc23; 0x04049c63; 0x04813c23; 0x00000000; 0x0494bc23; 0x06049c63; 0x04913c23; 0x00000000;
    0x04a4bc23; 0x04049d63; 0x04a13c23; 0x00000000; 0x04b4bc23; 0x06049d63; 0x04b13c23; 0x00000000;
    0x04c4bc23; 0x04049e63; 0x04c13c23; 0x00000000; 0x04d4bc23; 0x06049e63; 0x04d13c23; 0x00000000;
    0x04e4bc23; 0x04049f63; 0x04e13c23; 0x00000000; 0x04f4bc23; 0x06049f63; 0x04f13c23; 0x00000000;
    0x0884bc23; 0x08049c63; 0x05013c23; 0x00000000; 0x0894bc23; 0x0a049c63; 0x05113c23; 0x00000000;
    0x08a4bc23; 0x08049d63; 0x05213c23; 0x00000000; 0x08b4bc23; 0x0a049d63; 0x05313c23; 0x00000000;
    0x08c4bc23; 0x08049e63; 0x05413c23; 0x00000000; 0x08d4bc23; 0x0a049e63; 0x05513c23; 0x00000000;
    0x08e4bc23; 0x08049f63; 0x05613c23; 0x00000000; 0x08f4bc23; 0x0a049f63; 0x05713c23; 0x00000000;
    0x0c84bc23; 0x0c049c63; 0x05813c23; 0x00000000; 0x0c94bc23; 0x0e049c63; 0x05913c23; 0x00000000;
    0x0ca4bc23; 0x0c049d63; 0x05a13c23; 0x00000000; 0x0cb4bc23; 0x0e049d63; 0x05b13c23; 0x00000000;
    0x0cc4bc23; 0x0c049e63; 0x05c13c23; 0x00000000; 0x0cd4bc23; 0x0e049e63; 0x05d13c23; 0x00000000;
    0x0ce4bc23; 0x0c049f63; 0x05e13c23; 0x00000000; 0x0cf4bc23; 0x0e049f63; 0x05f13c23; 0x00000000;
    0x00853c23; 0x00051c63; 0x08013c23; 0x00000000; 0x00953c23; 0x02051c63; 0x08113c23; 0x00000000;
    0x00a53c23; 0x00051d63; 0x08213c23; 0x00000000; 0x00b53c23; 0x02051d63; 0x08313c23; 0x00000000;
    0x00c53c23; 0x00051e63; 0x08413c23; 0x00000000; 0x00d53c23; 0x02051e63; 0x08513c23; 0x00000000;
    0x00e53c23; 0x00051f63; 0x08613c23; 0x00000000; 0x00f53c23; 0x02051f63; 0x08713c23; 0x00000000;
    0x04853c23; 0x04051c63; 0x08813c23; 0x00000000; 0x04953c23; 0x06051c63; 0x08913c23; 0x00000000;
    0x04a53c23; 0x04051d63; 0x08a13c23; 0x00000000; 0x04b53c23; 0x06051d63; 0x08b13c23; 0x00000000;
    0x04c53c23; 0x04051e63; 0x08c13c23; 0x00000000; 0x04d53c23; 0x06051e63; 0x08d13c23; 0x00000000;
    0x04e53c23; 0x04051f63; 0x08e13c23; 0x00000000; 0x04f53c23; 0x06051f63; 0x08f13c23; 0x00000000;
    0x08853c23; 0x08051c63; 0x09013c23; 0x00000000; 0x08953c23; 0x0a051c63; 0x09113c23; 0x00000000;
    0x08a53c23; 0x08051d63; 0x09213c23; 0x00000000; 0x08b53c23; 0x0a051d63; 0x09313c23; 0x00000000;
    0x08c53c23; 0x08051e63; 0x09413c23; 0x00000000; 0x08d53c23; 0x0a051e63; 0x09513c23; 0x00000000;
    0x08e53c23; 0x08051f63; 0x09613c23; 0x00000000; 0x08f53c23; 0x0a051f63; 0x09713c23; 0x00000000;
    0x0c853c23; 0x0c051c63; 0x09813c23; 0x00000000; 0x0c953c23; 0x0e051c63; 0x09913c23; 0x00000000;
    0x0ca53c23; 0x0c051d63; 0x09a13c23; 0x00000000; 0x0cb53c23; 0x0e051d63; 0x09b13c23; 0x00000000;
    0x0cc53c23; 0x0c051e63; 0x09c13c23; 0x00000000; 0x0cd53c23; 0x0e051e63; 0x09d13c23; 0x00000000;
    0x0ce53c23; 0x0c051f63; 0x09e13c23; 0x00000000; 0x0cf53c23; 0x0e051f63; 0x09f13c23; 0x00000000;
    0x0085bc23; 0x00059c63; 0x0c013c23; 0x00000000; 0x0095bc23; 0x02059c63; 0x0c113c23; 0x00000000;
    0x00a5bc23; 0x00059d63; 0x0c213c23; 0x00000000; 0x00b5bc23; 0x02059d63; 0x0c313c23; 0x00000000;
    0x00c5bc23; 0x00059e63; 0x0c413c23; 0x00000000; 0x00d5bc23; 0x02059e63; 0x0c513c23; 0x00000000;
    0x00e5bc23; 0x00059f63; 0x0c613c23; 0x00000000; 0x00f5bc23; 0x02059f63; 0x0c713c23; 0x00000000;
    0x0485bc23; 0x04059c63; 0x0c813c23; 0x00000000; 0x0495bc23; 0x06059c63; 0x0c913c23; 0x00000000;
    0x04a5bc23; 0x04059d63; 0x0ca13c23; 0x00000000; 0x04b5bc23; 0x06059d63; 0x0cb13c23; 0x00000000;
    0x04c5bc23; 0x04059e63; 0x0cc13c23; 0x00000000; 0x04d5bc23; 0x06059e63; 0x0cd13c23; 0x00000000;
    0x04e5bc23; 0x04059f63; 0x0ce13c23; 0x00000000; 0x04f5bc23; 0x06059f63; 0x0cf13c23; 0x00000000;
    0x0885bc23; 0x08059c63; 0x0d013c23; 0x00000000; 0x0895bc23; 0x0a059c63; 0x0d113c23; 0x00000000;
    0x08a5bc23; 0x08059d63; 0x0d213c23; 0x00000000; 0x08b5bc23; 0x0a059d63; 0x0d313c23; 0x00000000;
    0x08c5bc23; 0x08059e63; 0x0d413c23; 0x00000000; 0x08d5bc23; 0x0a059e63; 0x0d513c23; 0x00000000;
    0x08e5bc23; 0x08059f63; 0x0d613c23; 0x00000000; 0x08f5bc23; 0x0a059f63; 0x0d713c23; 0x00000000;
    0x0c85bc23; 0x0c059c63; 0x0d813c23; 0x00000000; 0x0c95bc23; 0x0e059c63; 0x0d913c23; 0x00000000;
    0x0ca5bc23; 0x0c059d63; 0x0da13c23; 0x00000000; 0x0cb5bc23; 0x0e059d63; 0x0db13c23; 0x00000000;
    0x0cc5bc23; 0x0c059e63; 0x0dc13c23; 0x00000000; 0x0cd5bc23; 0x0e059e63; 0x0dd13c23; 0x00000000;
    0x0ce5bc23; 0x0c059f63; 0x0de13c23; 0x00000000; 0x0cf5bc23; 0x0e059f63; 0x0df13c23; 0x00000000;
    0x00863c23; 0x00061c63; 0x10013c23; 0x00000000; 0x00963c23; 0x02061c63; 0x10113c23; 0x00000000;
    0x00a63c23; 0x00061d63; 0x10213c23; 0x00000000; 0x00b63c23; 0x02061d63; 0x10313c23; 0x00000000;
    0x00c63c23; 0x00061e63; 0x10413c23; 0x00000000; 0x00d63c23; 0x02061e63; 0x10513c23; 0x00000000;
    0x00e63c23; 0x00061f63; 0x10613c23; 0x00000000; 0x00f63c23; 0x02061f63; 0x10713c23; 0x00000000;
    0x04863c23; 0x04061c63; 0x10813c23; 0x00000000; 0x04963c23; 0x06061c63; 0x10913c23; 0x00000000;
    0x04a63c23; 0x04061d63; 0x10a13c23; 0x00000000; 0x04b63c23; 0x06061d63; 0x10b13c23; 0x00000000;
    0x04c63c23; 0x04061e63; 0x10c13c23; 0x00000000; 0x04d63c23; 0x06061e63; 0x10d13c23; 0x00000000;
    0x04e63c23; 0x04061f63; 0x10e13c23; 0x00000000; 0x04f63c23; 0x06061f63; 0x10f13c23; 0x00000000;
    0x08863c23; 0x08061c63; 0x11013c23; 0x00000000; 0x08963c23; 0x0a061c63; 0x11113c23; 0x00000000;
    0x08a63c23; 0x08061d63; 0x11213c23; 0x00000000; 0x08b63c23; 0x0a061d63; 0x11313c23; 0x00000000;
    0x08c63c23; 0x08061e63; 0x11413c23; 0x00000000; 0x08d63c23; 0x0a061e63; 0x11513c23; 0x00000000;
    0x08e63c23; 0x08061f63; 0x11613c23; 0x00000000; 0x08f63c23; 0x0a061f63; 0x11713c23; 0x00000000;
    0x0c863c23; 0x0c061c63; 0x11813c23; 0x00000000; 0x0c963c23; 0x0e061c63; 0x11913c23; 0x00000000;
    0x0ca63c23; 0x0c061d63; 0x11a13c23; 0x00000000; 0x0cb63c23; 0x0e061d63; 0x11b13c23; 0x00000000;
    0x0cc63c23; 0x0c061e63; 0x11c13c23; 0x00000000; 0x0cd63c23; 0x0e061e63; 0x11d13c23; 0x00000000;
    0x0ce63c23; 0x0c061f63; 0x11e13c23; 0x00000000; 0x0cf63c23; 0x0e061f63; 0x11f13c23; 0x00000000;
    0x0086bc23; 0x00069c63; 0x14013c23; 0x00000000; 0x0096bc23; 0x02069c63; 0x14113c23; 0x00000000;
    0x00a6bc23; 0x00069d63; 0x14213c23; 0x00000000; 0x00b6bc23; 0x02069d63; 0x14313c23; 0x00000000;
    0x00c6bc23; 0x00069e63; 0x14413c23; 0x00000000; 0x00d6bc23; 0x02069e63; 0x14513c23; 0x00000000;
    0x00e6bc23; 0x00069f63; 0x14613c23; 0x00000000; 0x00f6bc23; 0x02069f63; 0x14713c23; 0x00000000;
    0x0486bc23; 0x04069c63; 0x14813c23; 0x00000000; 0x0496bc23; 0x06069c63; 0x14913c23; 0x00000000;
    0x04a6bc23; 0x04069d63; 0x14a13c23; 0x00000000; 0x04b6bc23; 0x06069d63; 0x14b13c23; 0x00000000;
    0x04c6bc23; 0x04069e63; 0x14c13c23; 0x00000000; 0x04d6bc23; 0x06069e63; 0x14d13c23; 0x00000000;
    0x04e6bc23; 0x04069f63; 0x14e13c23; 0x00000000; 0x04f6bc23; 0x06069f63; 0x14f13c23; 0x00000000;
    0x0886bc23; 0x08069c63; 0x15013c23; 0x00000000; 0x0896bc23; 0x0a069c63; 0x15113c23; 0x00000000;
    0x08a6bc23; 0x08069d63; 0x15213c23; 0x00000000; 0x08b6bc23; 0x0a069d63; 0x15313c23; 0x00000000;
    0x08c6bc23; 0x08069e63; 0x15413c23; 0x00000000; 0x08d6bc23; 0x0a069e63; 0x15513c23; 0x00000000;
    0x08e6bc23; 0x08069f63; 0x15613c23; 0x00000000; 0x08f6bc23; 0x0a069f63; 0x15713c23; 0x00000000;
    0x0c86bc23; 0x0c069c63; 0x15813c23; 0x00000000; 0x0c96bc23; 0x0e069c63; 0x15913c23; 0x00000000;
    0x0ca6bc23; 0x0c069d63; 0x15a13c23; 0x00000000; 0x0cb6bc23; 0x0e069d63; 0x15b13c23; 0x00000000;
    0x0cc6bc23; 0x0c069e63; 0x15c13c23; 0x00000000; 0x0cd6bc23; 0x0e069e63; 0x15d13c23; 0x00000000;
    0x0ce6bc23; 0x0c069f63; 0x15e13c23; 0x00000000; 0x0cf6bc23; 0x0e069f63; 0x15f13c23; 0x00000000;
    0x00873c23; 0x00071c63; 0x18013c23; 0x00000000; 0x00973c23; 0x02071c63; 0x18113c23; 0x00000000;
    0x00a73c23; 0x00071d63; 0x18213c23; 0x00000000; 0x00b73c23; 0x02071d63; 0x18313c23; 0x00000000;
    0x00c73c23; 0x00071e63; 0x18413c23; 0x00000000; 0x00d73c23; 0x02071e63; 0x18513c23; 0x00000000;
    0x00e73c23; 0x00071f63; 0x18613c23; 0x00000000; 0x00f73c23; 0x02071f63; 0x18713c23; 0x00000000;
    0x04873c23; 0x04071c63; 0x18813c23; 0x00000000; 0x04973c23; 0x06071c63; 0x18913c23; 0x00000000;
    0x04a73c23; 0x04071d63; 0x18a13c23; 0x00000000; 0x04b73c23; 0x06071d63; 0x18b13c23; 0x00000000;
    0x04c73c23; 0x04071e63; 0x18c13c23; 0x00000000; 0x04d73c23; 0x06071e63; 0x18d13c23; 0x00000000;
    0x04e73c23; 0x04071f63; 0x18e13c23; 0x00000000; 0x04f73c23; 0x06071f63; 0x18f13c23; 0x00000000;
    0x08873c23; 0x08071c63; 0x19013c23; 0x00000000; 0x08973c23; 0x0a071c63; 0x19113c23; 0x00000000;
    0x08a73c23; 0x08071d63; 0x19213c23; 0x00000000; 0x08b73c23; 0x0a071d63; 0x19313c23; 0x00000000;
    0x08c73c23; 0x08071e63; 0x19413c23; 0x00000000; 0x08d73c23; 0x0a071e63; 0x19513c23; 0x00000000;
    0x08e73c23; 0x08071f63; 0x19613c23; 0x00000000; 0x08f73c23; 0x0a071f63; 0x19713c23; 0x00000000;
    0x0c873c23; 0x0c071c63; 0x19813c23; 0x00000000; 0x0c973c23; 0x0e071c63; 0x19913c23; 0x00000000;
    0x0ca73c23; 0x0c071d63; 0x19a13c23; 0x00000000; 0x0cb73c23; 0x0e071d63; 0x19b13c23; 0x00000000;
    0x0cc73c23; 0x0c071e63; 0x19c13c23; 0x00000000; 0x0cd73c23; 0x0e071e63; 0x19d13c23; 0x00000000;
    0x0ce73c23; 0x0c071f63; 0x19e13c23; 0x00000000; 0x0cf73c23; 0x0e071f63; 0x19f13c23; 0x00000000;
    0x0087bc23; 0x00079c63; 0x1c013c23; 0x00000000; 0x0097bc23; 0x02079c63; 0x1c113c23; 0x00000000;
    0x00a7bc23; 0x00079d63; 0x1c213c23; 0x00000000; 0x00b7bc23; 0x02079d63; 0x1c313c23; 0x00000000;
    0x00c7bc23; 0x00079e63; 0x1c413c23; 0x00000000; 0x00d7bc23; 0x02079e63; 0x1c513c23; 0x00000000;
    0x00e7bc23; 0x00079f63; 0x1c613c23; 0x00000000; 0x00f7bc23; 0x02079f63; 0x1c713c23; 0x00000000;
    0x0487bc23; 0x04079c63; 0x1c813c23; 0x00000000; 0x0497bc23; 0x06079c63; 0x1c913c23; 0x00000000;
    0x04a7bc23; 0x04079d63; 0x1ca13c23; 0x00000000; 0x04b7bc23; 0x06079d63; 0x1cb13c23; 0x00000000;
    0x04c7bc23; 0x04079e63; 0x1cc13c23; 0x00000000; 0x04d7bc23; 0x06079e63; 0x1cd13c23; 0x00000000;
    0x04e7bc23; 0x04079f63; 0x1ce13c23; 0x00000000; 0x04f7bc23; 0x06079f63; 0x1cf13c23; 0x00000000;
    0x0887bc23; 0x08079c63; 0x1d013c23; 0x00000000; 0x0897bc23; 0x0a079c63; 0x1d113c23; 0x00000000;
    0x08a7bc23; 0x08079d63; 0x1d213c23; 0x00000000; 0x08b7bc23; 0x0a079d63; 0x1d313c23; 0x00000000;
    0x08c7bc23; 0x08079e63; 0x1d413c23; 0x00000000; 0x08d7bc23; 0x0a079e63; 0x1d513c23; 0x00000000;
    0x08e7bc23; 0x08079f63; 0x1d613c23; 0x00000000; 0x08f7bc23; 0x0a079f63; 0x1d713c23; 0x00000000;
    0x0c87bc23; 0x0c079c63; 0x1d813c23; 0x00000000; 0x0c97bc23; 0x0e079c63; 0x1d913c23; 0x00000000;
    0x0ca7bc23; 0x0c079d63; 0x1da13c23; 0x00000000; 0x0cb7bc23; 0x0e079d63; 0x1db13c23; 0x00000000;
    0x0cc7bc23; 0x0c079e63; 0x1dc13c23; 0x00000000; 0x0cd7bc23; 0x0e079e63; 0x1dd13c23; 0x00000000;
    0x0ce7bc23; 0x0c079f63; 0x1de13c23; 0x00000000; 0x0cf7bc23; 0x0e079f63; 0x1df13c23; 0x00000000
].

(** parcels 0xf000 to 0xf3ff *)
Definition RVC64_EXPANDED_60 : list Z := [
    0x02843023; 0xf00410e3; 0x02013023; 0x00000000; 0x02943023; 0xf20410e3; 0x02113023; 0x00000000;
    0x02a43023; 0xf00411e3; 0x02213023; 0x00000000; 0x02b43023; 0xf20411e3; 0x02313023; 0x00000000;
    0x02c43023; 0xf00412e3; 0x02413023; 0x00000000; 0x02d43023; 0xf20412e3; 0x02513023; 0x00000000;
    0x02e43023; 0xf00413e3; 0x02613023; 0x00000000; 0x02f43023; 0xf20413e3; 0x02713023; 0x00000000;
    0x06843023; 0xf40410e3; 0x02813023; 0x00000000; 0x06943023; 0xf60410e3; 0x02913023; 0x00000000;
    0x06a43023; 0xf40411e3; 0x02a13023; 0x00000000; 0x06b43023; 0xf60411e3; 0x02b13023; 0x00000000;
    0x06c43023; 0xf40412e3; 0x02c13023; 0x00000000; 0x06d43023; 0xf60412e3; 0x02d13023; 0x00000000;
    0x06e43023; 0xf40413e3; 0x02e13023; 0x00000000; 0x06f43023; 0xf60413e3; 0x02f13023; 0x00000000;
    0x0a843023; 0xf80410e3; 0x03013023; 0x00000000; 0x0a943023; 0xfa0410e3; 0x03113023; 0x00000000;
    0x0aa43023; 0xf80411e3; 0x03213023; 0x00000000; 0x0ab43023; 0xfa0411e3; 0x03313023; 0x00000000;
    0x0ac43023; 0xf80412e3; 0x03413023; 0x00000000; 0x0ad43023; 0xfa0412e3; 0x03513023; 0x00000000;
    0x0ae43023; 0xf80413e3; 0x03613023; 0x00000000; 0x0af43023; 0xfa0413e3; 0x03713023; 0x00000000;
    0x0e843023; 0xfc0410e3; 0x03813023; 0x00000000; 0x0e943023; 0xfe0410e3; 0x03913023; 0x00000000;
    0x0ea43023; 0xfc0411e3; 0x03a13023; 0x00000000; 0x0eb43023; 0xfe0411e3; 0x03b13023; 0x00000000;
    0x0ec43023; 0xfc0412e3; 0x03c13023; 0x00000000; 0x0ed43023; 0xfe0412e3; 0x03d13023; 0x00000000;
    0x0ee43023; 0xfc0413e3; 0x03e13023; 0x00000000; 0x0ef43023; 0xfe0413e3; 0x03f13023; 0x00000000;
    0x0284b023; 0xf00490e3; 0x06013023; 0x00000000; 0x0294b023; 0xf20490e3; 0x06113023; 0x00000000;
    0x02a4b023; 0xf00491e3; 0x06213023; 0x00000000; 0x02b4b023; 0xf20491e3; 0x06313023; 0x00000000;
    0x02c4b023; 0xf00492e3; 0x06413023; 0x00000000; 0x02d4b023; 0xf20492e3; 0x06513023; 0x00000000;
    0x02e4b023; 0xf00493e3; 0x06613023; 0x00000000; 0x02f4b023; 0xf20493e3; 0x06713023; 0x00000000;
    0x0684b023; 0xf40490e3; 0x06813023; 0x00000000; 0x0694b023; 0xf60490e3; 0x06913023; 0x00000000;
    0x06a4b023; 0xf40491e3; 0x06a13023; 0x00000000; 0x06b4b023; 0xf60491e3; 0x06b13023; 0x00000000;
    0x06c4b023; 0xf40492e3; 0x06c13023; 0x00000000; 0x06d4b023; 0xf60492e3; 0x06d13023; 0x00000000;
    0x06e4b023; 0xf40493e3; 0x06e13023; 0x00000000; 0x06f4b023; 0xf60493e3; 0x06f13023; 0x00000000;
    0x0a84b023; 0xf80490e3; 0x07013023; 0x00000000; 0x0a94b023; 0xfa0490e3; 0x07113023; 0x00000000;
    0x0aa4b023; 0xf80491e3; 0x07213023; 0x00000000; 0x0ab4b023; 0xfa0491e3; 0x07313023; 0x00000000;
    0x0ac4b023; 0xf80492e3; 0x07413023; 0x00000000; 0x0ad4b023; 0xfa0492e3; 0x07513023; 0x00000000;
    0x0ae4b023; 0xf80493e3; 0x07613023; 0x00000000; 0x0af4b023; 0xfa0493e3; 0x07713023; 0x00000000;
    0x0e84b023; 0xfc0490e3; 0x07813023; 0x00000000; 0x0e94b023; 0xfe0490e3; 0x07913023; 0x00000000;
    0x0ea4b023; 0xfc0491e3; 0x07a13023; 0x00000000; 0x0eb4b023; 0xfe0491e3; 0x07b13023; 0x00000000;
    0x0ec4b023; 0xfc0492e3; 0x07c13023; 0x00000000; 0x0ed4b023; 0xfe0492e3; 0x07d13023; 0x00000000;
    0x0ee4b023; 0xfc0493e3; 0x07e13023; 0x00000000; 0x0ef4b023; 0xfe0493e3; 0x07f13023; 0x00000000;
    0x02853023; 0xf00510e3; 0x0a013023; 0x00000000; 0x02953023; 0xf20510e3; 0x0a113023; 0x00000000;
    0x02a53023; 0xf00511e3; 0x0a213023; 0x00000000; 0x02b53023; 0xf20511e3; 0x0a313023; 0x00000000;
    0x02c53023; 0xf00512e3; 0x0a413023; 0x00000000; 0x02d53023; 0xf20512e3; 0x0a513023; 0x00000000;
    0x02e53023; 0xf00513e3; 0x0a613023; 0x00000000; 0x02f53023; 0xf20513e3; 0x0a713023; 0x00000000;
    0x06853023; 0xf40510e3; 0x0a813023; 0x00000000; 0x06953023; 0xf60510e3; 0x0a913023; 0x00000000;
    0x06a53023; 0xf40511e3; 0x0aa13023; 0x00000000; 0x06b53023; 0xf60511e3; 0x0ab13023; 0x00000000;
    0x06c53023; 0xf40512e3; 0x0ac13023; 0x00000000; 0x06d53023; 0xf60512e3; 0x0ad13023; 0x00000000;
    0x06e53023; 0xf40513e3; 0x0ae13023; 0x00000000; 0x06f53023; 0xf60513e3; 0x0af13023; 0x00000000;
    0x0a853023; 0xf80510e3; 0x0b013023; 0x00000000; 0x0a953023; 0xfa0510e3; 0x0b113023; 0x00000000;
    0x0aa53023; 0xf80511e3; 0x0b213023; 0x00000000; 0x0ab53023; 0xfa0511e3; 0x0b313023; 0x00000000;
    0x0ac53023; 0xf80512e3; 0x0b413023; 0x00000000; 0x0ad53023; 0xfa0512e3; 0x0b513023; 0x00000000;
    0x0ae53023; 0xf80513e3; 0x0b613023; 0x00000000; 0x0af53023; 0xfa0513e3; 0x0b713023; 0x00000000;
    0x0e853023; 0xfc0510e3; 0x0b813023; 0x00000000; 0x0e953023; 0xfe0510e3; 0x0b913023; 0x00000000;
    0x0ea53023; 0xfc0511e3; 0x0ba13023; 0x00000000; 0x0eb53023; 0xfe0511e3; 0x0bb13023; 0x00000000;
    0x0ec53023; 0xfc0512e3; 0x0bc13023; 0x00000000; 0x0ed53023; 0xfe0512e3; 0x0bd13023; 0x00000000;
    0x0ee53023; 0xfc0513e3; 0x0be13023; 0x00000000; 0x0ef53023; 0xfe0513e3; 0x0bf13023; 0x00000000;
    0x0285b023; 0xf00590e3; 0x0e013023; 0x00000000; 0x0295b023; 0xf20590e3; 0x0e113023; 0x00000000;
    0x02a5b023; 0xf00591e3; 0x0e213023; 0x00000000; 0x02b5b023; 0xf20591e3; 0x0e313023; 0x00000000;
    0x02c5b023; 0xf00592e3; 0x0e413023; 0x00000000; 0x02d5b023; 0xf20592e3; 0x0e513023; 0x00000000;
    0x02e5b023; 0xf00593e3; 0x0e613023; 0x00000000; 0x02f5b023; 0xf20593e3; 0x0e713023; 0x00000000;
    0x0685b023; 0xf40590e3; 0x0e813023; 0x00000000; 0x0695b023; 0xf60590e3; 0x0e913023; 0x00000000;
    0x06a5b023; 0xf40591e3; 0x0ea13023; 0x00000000; 0x06b5b023; 0xf60591e3; 0x0eb13023; 0x00000000;
    0x06c5b023; 0xf40592e3; 0x0ec13023; 0x00000000; 0x06d5b023; 0xf60592e3; 0x0ed13023; 0x00000000;
    0x06e5b023; 0xf40593e3; 0x0ee13023; 0x00000000; 0x06f5b023; 0xf60593e3; 0x0ef13023; 0x00000000;
    0x0a85b023; 0xf80590e3; 0x0f013023; 0x00000000; 0x0a95b023; 0xfa0590e3; 0x0f113023; 0x00000000;
    0x0aa5b023; 0xf80591e3; 0x0f213023; 0x00000000; 0x0ab5b023; 0xfa0591e3; 0x0f313023; 0x00000000;
    0x0ac5b023; 0xf80592e3; 0x0f413023; 0x00000000; 0x0ad5b023; 0xfa0592e3; 0x0f513023; 0x00000000;
    0x0ae5b023; 0xf80593e3; 0x0f613023; 0x00000000; 0x0af5b023; 0xfa0593e3; 0x0f713023; 0x00000000;
    0x0e85b023; 0xfc0590e3; 0x0f813023; 0x00000000; 0x0e95b023; 0xfe0590e3; 0x0f913023; 0x00000000;
    0x0ea5b023; 0xfc0591e3; 0x0fa13023; 0x00000000; 0x0eb5b023; 0xfe0591e3; 0x0fb13023; 0x00000000;
    0x0ec5b023; 0xfc0592e3; 0x0fc13023; 0x00000000; 0x0ed5b023; 0xfe0592e3; 0x0fd13023; 0x00000000;
    0x0ee5b023; 0xfc0593e3; 0x0fe13023; 0x00000000; 0x0ef5b023; 0xfe0593e3; 0x0ff13023; 0x00000000;
    0x02863023; 0xf00610e3; 0x12013023; 0x00000000; 0x02963023; 0xf20610e3; 0x12113023; 0x00000000;
    0x02a63023; 0xf00611e3; 0x12213023; 0x00000000; 0x02b63023; 0xf20611e3; 0x12313023; 0x00000000;
    0x02c63023; 0xf00612e3; 0x12413023; 0x00000000; 0x02d63023; 0xf20612e3; 0x12513023; 0x00000000;
    0x02e63023; 0xf00613e3; 0x12613023; 0x00000000; 0x02f63023; 0xf20613e3; 0x12713023; 0x00000000;
    0x06863023; 0xf40610e3; 0x12813023; 0x00000000; 0x06963023; 0xf60610e3; 0x12913023; 0x00000000;
    0x06a63023; 0xf40611e3; 0x12a13023; 0x00000000; 0x06b63023; 0xf60611e3; 0x12b13023; 0x00000000;
    0x06c63023; 0xf40612e3; 0x12c13023; 0x00000000; 0x06d63023; 0xf60612e3; 0x12d13023; 0x00000000;
    0x06e63023; 0xf40613e3; 0x12e13023; 0x00000000; 0x06f63023; 0xf60613e3; 0x12f13023; 0x00000000;
    0x0a863023; 0xf80610e3; 0x13013023; 0x00000000; 0x0a963023; 0xfa0610e3; 0x13113023; 0x00000000;
    0x0aa63023; 0xf80611e3; 0x13213023; 0x00000000; 0x0ab63023; 0xfa0611e3; 0x13313023; 0x00000000;
    0x0ac63023; 0xf80612e3; 0x13413023; 0x00000000; 0x0ad63023; 0xfa0612e3; 0x13513023; 0x00000000;
    0x0ae63023; 0xf80613e3; 0x13613023; 0x00000000; 0x0af63023; 0xfa0613e3; 0x13713023; 0x00000000;
    0x0e863023; 0xfc0610e3; 0x13813023; 0x00000000; 0x0e963023; 0xfe0610e3; 0x13913023; 0x00000000;
    0x0ea63023; 0xfc0611e3; 0x13a13023; 0x00000000; 0x0eb63023; 0xfe0611e3; 0x13b13023; 0x00000000;
    0x0ec63023; 0xfc0612e3; 0x13c13023; 0x00000000; 0x0ed63023; 0xfe0612e3; 0x13d13023; 0x00000000;
    0x0ee63023; 0xfc0613e3; 0x13e13023; 0x00000000; 0x0ef63023; 0xfe0613e3; 0x13f13023; 0x00000000;
    0x0286b023; 0xf00690e3; 0x16013023; 0x00000000; 0x0296b023; 0xf20690e3; 0x16113023; 0x00000000;
    0x02a6b023; 0xf00691e3; 0x16213023; 0x00000000; 0x02b6b023; 0xf20691e3; 0x16313023; 0x00000000;
    0x02c6b023; 0xf00692e3; 0x16413023; 0x00000000; 0x02d6b023; 0xf20692e3; 0x16513023; 0x00000000;
    0x02e6b023; 0xf00693e3; 0x16613023; 0x00000000; 0x02f6b023; 0xf20693e3; 0x16713023; 0x00000000;
    0x0686b023; 0xf40690e3; 0x16813023; 0x00000000; 0x0696b023; 0xf60690e3; 0x16913023; 0x00000000;
    0x06a6b023; 0xf40691e3; 0x16a13023; 0x00000000; 0x06b6b023; 0xf60691e3; 0x16b13023; 0x00000000;
    0x06c6b023; 0xf40692e3; 0x16c13023; 0x00000000; 0x06d6b023; 0xf60692e3; 0x16d13023; 0x00000000;
    0x06e6b023; 0xf40693e3; 0x16e13023; 0x00000000; 0x06f6b023; 0xf60693e3; 0x16f13023; 0x00000000;
    0x0a86b023; 0xf80690e3; 0x17013023; 0x00000000; 0x0a96b023; 0xfa0690e3; 0x17113023; 0x00000000;
    0x0aa6b023; 0xf80691e3; 0x17213023; 0x00000000; 0x0ab6b023; 0xfa0691e3; 0x17313023; 0x00000000;
    0x0ac6b023; 0xf80692e3; 0x17413023; 0x00000000; 0x0ad6b023; 0xfa0692e3; 0x17513023; 0x00000000;
    0x0ae6b023; 0xf80693e3; 0x17613023; 0x00000000; 0x0af6b023; 0xfa0693e3; 0x17713023; 0x00000000;
    0x0e86b023; 0xfc0690e3; 0x17813023; 0x00000000; 0x0e96b023; 0xfe0690e3; 0x17913023; 0x00000000;
    0x0ea6b023; 0xfc0691e3; 0x17a13023; 0x00000000; 0x0eb6b023; 0xfe0691e3; 0x17b13023; 0x00000000;
    0x0ec6b023; 0xfc0692e3; 0x17c13023; 0x00000000; 0x0ed6b023; 0xfe0692e3; 0x17d13023; 0x00000000;
    0x0ee6b023; 0xfc0693e3; 0x17e13023; 0x00000000; 0x0ef6b023; 0xfe0693e3; 0x17f13023; 0x00000000;
    0x02873023; 0xf00710e3; 0x1a013023; 0x00000000; 0x02973023; 0xf20710e3; 0x1a113023; 0x00000000;
    0x02a73023; 0xf00711e3; 0x1a213023; 0x00000000; 0x02b73023; 0xf20711e3; 0x1a313023; 0x00000000;
    0x02c73023; 0xf00712e3; 0x1a413023; 0x00000000; 0x02d73023; 0xf20712e3; 0x1a513023; 0x00000000;
    0x02e73023; 0xf00713e3; 0x1a613023; 0x00000000; 0x02f73023; 0xf20713e3; 0x1a713023; 0x00000000;
    0x06873023; 0xf40710e3; 0x1a813023; 0x00000000; 0x06973023; 0xf60710e3; 0x1a913023; 0x00000000;
    0x06a73023; 0xf40711e3; 0x1aa13023; 0x00000000; 0x06b73023; 0xf60711e3; 0x1ab13023; 0x00000000;
    0x06c73023; 0xf40712e3; 0x1ac13023; 0x00000000; 0x06d73023; 0xf60712e3; 0x1ad13023; 0x00000000;
    0x06e73023; 0xf40713e3; 0x1ae13023; 0x00000000; 0x06f73023; 0xf60713e3; 0x1af13023; 0x00000000;
    0x0a873023; 0xf80710e3; 0x1b013023; 0x00000000; 0x0a973023; 0xfa0710e3; 0x1b113023; 0x00000000;
    0x0aa73023; 0xf80711e3; 0x1b213023; 0x00000000; 0x0ab73023; 0xfa0711e3; 0x1b313023; 0x00000000;
    0x0ac73023; 0xf80712e3; 0x1b413023; 0x00000000; 0x0ad73023; 0xfa0712e3; 0x1b513023; 0x00000000;
    0x0ae73023; 0xf80713e3; 0x1b613023; 0x00000000; 0x0af73023; 0xfa0713e3; 0x1b713023; 0x00000000;
    0x0e873023; 0xfc0710e3; 0x1b813023; 0x00000000; 0x0e973023; 0xfe0710e3; 0x1b913023; 0x00000000;
    0x0ea73023; 0xfc0711e3; 0x1ba13023; 0x00000000; 0x0eb73023; 0xfe0711e3; 0x1bb13023; 0x00000000;
    0x0ec73023; 0xfc0712e3; 0x1bc13023; 0x00000000; 0x0ed73023; 0xfe0712e3; 0x1bd13023; 0x00000000;
    0x0ee73023; 0xfc0713e3; 0x1be13023; 0x00000000; 0x0ef73023; 0xfe0713e3; 0x1bf13023; 0x00000000;
    0x0287b023; 0xf00790e3; 0x1e013023; 0x00000000; 0x0297b023; 0xf20790e3; 0x1e113023; 0x00000000;
    0x02a7b023; 0xf00791e3; 0x1e213023; 0x00000000; 0x02b7b023; 0xf20791e3; 0x1e313023; 0x00000000;
    0x02c7b023; 0xf00792e3; 0x1e413023; 0x00000000; 0x02d7b023; 0xf20792e3; 0x1e513023; 0x00000000;
    0x02e7b023; 0xf00793e3; 0x1e613023; 0x00000000; 0x02f7b023; 0xf20793e3; 0x1e713023; 0x00000000;
    0x0687b023; 0xf40790e3; 0x1e813023; 0x00000000; 0x0697b023; 0xf60790e3; 0x1e913023; 0x00000000;
    0x06a7b023; 0xf40791e3; 0x1ea13023; 0x00000000; 0x06b7b023; 0xf60791e3; 0x1eb13023; 0x00000000;
    0x06c7b023; 0xf40792e3; 0x1ec13023; 0x00000000; 0x06d7b023; 0xf60792e3; 0x1ed13023; 0x00000000;
    0x06e7b023; 0xf40793e3; 0x1ee13023; 0x00000000; 0x06f7b023; 0xf60793e3; 0x1ef13023; 0x00000000;
    0x0a87b023; 0xf80790e3; 0x1f013023; 0x00000000; 0x0a97b023; 0xfa0790e3; 0x1f113023; 0x00000000;
    0x0aa7b023; 0xf80791e3; 0x1f213023; 0x00000000; 0x0ab7b023; 0xfa0791e3; 0x1f313023; 0x00000000;
    0x0ac7b023; 0xf80792e3; 0x1f413023; 0x00000000; 0x0ad7b023; 0xfa0792e3; 0x1f513023; 0x00000000;
    0x0ae7b023; 0xf80793e3; 0x1f613023; 0x00000000; 0x0af7b023; 0xfa0793e3; 0x1f713023; 0x00000000;
    0x0e87b023; 0xfc0790e3; 0x1f813023; 0x00000000; 0x0e97b023; 0xfe0790e3; 0x1f913023; 0x00000000;
    0x0ea7b023; 0xfc0791e3; 0x1fa13023; 0x00000000; 0x0eb7b023; 0xfe0791e3; 0x1fb13023; 0x00000000;
    0x0ec7b023; 0xfc0792e3; 0x1fc13023; 0x00000000; 0x0ed7b023; 0xfe0792e3; 0x1fd13023; 0x00000000;
    0x0ee7b023; 0xfc0793e3; 0x1fe13023; 0x00000000; 0x0ef7b023; 0xfe0793e3; 0x1ff13023; 0x00000000
].

(** parcels 0xf400 to 0xf7ff *)
Definition RVC64_EXPANDED_61 : list Z := [
    0x02843423; 0xf00414e3; 0x02013423; 0x00000000; 0x02943423; 0xf20414e3; 0x02113423; 0x00000000;
    0x02a43423; 0xf00415e3; 0x02213423; 0x00000000; 0x02b43423; 0xf20415e3; 0x02313423; 0x00000000;
    0x02c43423; 0xf00416e3; 0x02413423; 0x00000000; 0x02d43423; 0xf20416e3; 0x02513423; 0x00000000;
    0x02e43423; 0xf00417e3; 0x02613423; 0x00000000; 0x02f43423; 0xf20417e3; 0x02713423; 0x00000000;
    0x06843423; 0xf40414e3; 0x02813423; 0x00000000; 0x06943423; 0xf60414e3; 0x02913423; 0x00000000;
    0x06a43423; 0xf40415e3; 0x02a13423; 0x00000000; 0x06b43423; 0xf60415e3; 0x02b13423; 0x00000000;
    0x06c43423; 0xf40416e3; 0x02c13423; 0x00000000; 0x06d43423; 0xf60416e3; 0x02d13423; 0x00000000;
    0x06e43423; 0xf40417e3; 0x02e13423; 0x00000000; 0x06f43423; 0xf60417e3; 0x02f13423; 0x00000000;
    0x0a843423; 0xf80414e3; 0x03013423; 0x00000000; 0x0a943423; 0xfa0414e3; 0x03113423; 0x00000000;
    0x0aa43423; 0xf80415e3; 0x03213423; 0x00000000; 0x0ab43423; 0xfa0415e3; 0x03313423; 0x00000000;
    0x0ac43423; 0xf80416e3; 0x03413423; 0x00000000; 0x0ad43423; 0xfa0416e3; 0x03513423; 0x00000000;
    0x0ae43423; 0xf80417e3; 0x03613423; 0x00000000; 0x0af43423; 0xfa0417e3; 0x03713423; 0x00000000;
    0x0e843423; 0xfc0414e3; 0x03813423; 0x00000000; 0x0e943423; 0xfe0414e3; 0x03913423; 0x00000000;
    0x0ea43423; 0xfc0415e3; 0x03a13423; 0x00000000; 0x0eb43423; 0xfe0415e3; 0x03b13423; 0x00000000;
    0x0ec43423; 0xfc0416e3; 0x03c13423; 0x00000000; 0x0ed43423; 0xfe0416e3; 0x03d13423; 0x00000000;
    0x0ee43423; 0xfc0417e3; 0x03e13423; 0x00000000; 0x0ef43423; 0xfe0417e3; 0x03f13423; 0x00000000;
    0x0284b423; 0xf00494e3; 0x06013423; 0x00000000; 0x0294b423; 0xf20494e3; 0x06113423; 0x00000000;
    0x02a4b423; 0xf00495e3; 0x06213423; 0x00000000; 0x02b4b423; 0xf20495e3; 0x06313423; 0x00000000;
    0x02c4b423; 0xf00496e3; 0x06413423; 0x00000000; 0x02d4b423; 0xf20496e3; 0x06513423; 0x00000000;
    0x02e4b423; 0xf00497e3; 0x06613423; 0x00000000; 0x02f4b423; 0xf20497e3; 0x06713423; 0x00000000;
    0x0684b423; 0xf40494e3; 0x06813423; 0x00000000; 0x0694b423; 0xf60494e3; 0x06913423; 0x00000000;
    0x06a4b423; 0xf40495e3; 0x06a13423; 0x00000000; 0x06b4b423; 0xf60495e3; 0x06b13423; 0x00000000;
    0x06c4b423; 0xf40496e3; 0x06c13423; 0x00000000; 0x06d4b423; 0xf60496e3; 0x06d13423; 0x00000000;
    0x06e4b423; 0xf40497e3; 0x06e13423; 0x00000000; 0x06f4b423; 0xf60497e3; 0x06f13423; 0x00000000;
    0x0a84b423; 0xf80494e3; 0x07013423; 0x00000000; 0x0a94b423; 0xfa0494e3; 0x07113423; 0x00000000;
    0x0aa4b423; 0xf80495e3; 0x07213423; 0x00000000; 0x0ab4b423; 0xfa0495e3; 0x07313423; 0x00000000;
    0x0ac4b423; 0xf80496e3; 0x07413423; 0x00000000; 0x0ad4b423; 0xfa0496e3; 0x07513423; 0x00000000;
    0x0ae4b423; 0xf80497e3; 0x07613423; 0x00000000; 0x0af4b423; 0xfa0497e3; 0x07713423; 0x00000000;
    0x0e84b423; 0xfc0494e3; 0x07813423; 0x00000000; 0x0e94b423; 0xfe0494e3; 0x07913423; 0x00000000;
    0x0ea4b423; 0xfc0495e3; 0x07a13423; 0x00000000; 0x0eb4b423; 0xfe0495e3; 0x07b13423; 0x00000000;
    0x0ec4b423; 0xfc0496e3; 0x07c13423; 0x00000000; 0x0ed4b423; 0xfe0496e3; 0x07d13423; 0x00000000;
    0x0ee4b423; 0xfc0497e3; 0x07e13423; 0x00000000; 0x0ef4b423; 0xfe0497e3; 0x07f13423; 0x00000000;
    0x02853423; 0xf00514e3; 0x0a013423; 0x00000000; 0x02953423; 0xf20514e3; 0x0a113423; 0x00000000;
    0x02a53423; 0xf00515e3; 0x0a213423; 0x00000000; 0x02b53423; 0xf20515e3; 0x0a313423; 0x00000000;
    0x02c53423; 0xf00516e3; 0x0a413423; 0x00000000; 0x02d53423; 0xf20516e3; 0x0a513423; 0x00000000;
    0x02e53423; 0xf00517e3; 0x0a613423; 0x00000000; 0x02f53423; 0xf20517e3; 0x0a713423; 0x00000000;
    0x06853423; 0xf40514e3; 0x0a813423; 0x00000000; 0x06953423; 0xf60514e3; 0x0a913423; 0x00000000;
    0x06a53423; 0xf40515e3; 0x0aa13423; 0x00000000; 0x06b53423; 0xf60515e3; 0x0ab13423; 0x00000000;
    0x06c53423; 0xf40516e3; 0x0ac13423; 0x00000000; 0x06d53423; 0xf60516e3; 0x0ad13423; 0x00000000;
    0x06e53423; 0xf40517e3; 0x0ae13423; 0x00000000; 0x06f53423; 0xf60517e3; 0x0af13423; 0x00000000;
    0x0a853423; 0xf80514e3; 0x0b013423; 0x00000000; 0x0a953423; 0xfa0514e3; 0x0b113423; 0x00000000;
    0x0aa53423; 0xf80515e3; 0x0b213423; 0x00000000; 0x0ab53423; 0xfa0515e3; 0x0b313423; 0x00000000;
    0x0ac53423; 0xf80516e3; 0x0b413423; 0x00000000; 0x0ad53423; 0xfa0516e3; 0x0b513423; 0x00000000;
    0x0ae53423; 0xf80517e3; 0x0b613423; 0x00000000; 0x0af53423; 0xfa0517e3; 0x0b713423; 0x00000000;
    0x0e853423; 0xfc0514e3; 0x0b813423; 0x00000000; 0x0e953423; 0xfe0514e3; 0x0b913423; 0x00000000;
    0x0ea53423; 0xfc0515e3; 0x0ba13423; 0x00000000; 0x0eb53423; 0xfe0515e3; 0x0bb13423; 0x00000000;
    0x0ec53423; 0xfc0516e3; 0x0bc13423; 0x00000000; 0x0ed53423; 0xfe0516e3; 0x0bd13423; 0x00000000;
    0x0ee53423; 0xfc0517e3; 0x0be13423; 0x00000000; 0x0ef53423; 0xfe0517e3; 0x0bf13423; 0x00000000;
    0x0285b423; 0xf00594e3; 0x0e013423; 0x00000000; 0x0295b423; 0xf20594e3; 0x0e113423; 0x00000000;
    0x02a5b423; 0xf00595e3; 0x0e213423; 0x00000000; 0x02b5b423; 0xf20595e3; 0x0e313423; 0x00000000;
    0x02c5b423; 0xf00596e3; 0x0e413423; 0x00000000; 0x02d5b423; 0xf20596e3; 0x0e513423; 0x00000000;
    0x02e5b423; 0xf00597e3; 0x0e613423; 0x00000000; 0x02f5b423; 0xf20597e3; 0x0e713423; 0x00000000;
    0x0685b423; 0xf40594e3; 0x0e813423; 0x00000000; 0x0695b423; 0xf60594e3; 0x0e913423; 0x00000000;
    0x06a5b423; 0xf40595e3; 0x0ea13423; 0x00000000; 0x06b5b423; 0xf60595e3; 0x0eb13423; 0x00000000;
    0x06c5b423; 0xf40596e3; 0x0ec13423; 0x00000000; 0x06d5b423; 0xf60596e3; 0x0ed13423; 0x00000000;
    0x06e5b423; 0xf40597e3; 0x0ee13423; 0x00000000; 0x06f5b423; 0xf60597e3; 0x0ef13423; 0x00000000;
    0x0a85b423; 0xf80594e3; 0x0f013423; 0x00000000; 0x0a95b423; 0xfa0594e3; 0x0f113423; 0x00000000;
    0x0aa5b423; 0xf80595e3; 0x0f213423; 0x00000000; 0x0ab5b423; 0xfa0595e3; 0x0f313423; 0x00000000;
    0x0ac5b423; 0xf80596e3; 0x0f413423; 0x00000000; 0x0ad5b423; 0xfa0596e3; 0x0f513423; 0x00000000;
    0x0ae5b423; 0xf80597e3; 0x0f613423; 0x00000000; 0x0af5b423; 0xfa0597e3; 0x0f713423; 0x00000000;
    0x0e85b423; 0xfc0594e3; 0x0f813423; 0x00000000; 0x0e95b423; 0xfe0594e3; 0x0f913423; 0x00000000;
    0x0ea5b423; 0xfc0595e3; 0x0fa13423; 0x00000000; 0x0eb5b423; 0xfe0595e3; 0x0fb13423; 0x00000000;
    0x0ec5b423; 0xfc0596e3; 0x0fc13423; 0x00000000; 0x0ed5b423; 0xfe0596e3; 0x0fd13423; 0x00000000;
    0x0ee5b423; 0xfc0597e3; 0x0fe13423; 0x00000000; 0x0ef5b423; 0xfe0597e3; 0x0ff13423; 0x00000000;
    0x02863423; 0xf00614e3; 0x12013423; 0x00000000; 0x02963423; 0xf20614e3; 0x12113423; 0x00000000;
    0x02a63423; 0xf00615e3; 0x12213423; 0x00000000; 0x02b63423; 0xf20615e3; 0x12313423; 0x00000000;
    0x02c63423; 0xf00616e3; 0x12413423; 0x00000000; 0x02d63423; 0xf20616e3; 0x12513423; 0x00000000;
    0x02e63423; 0xf00617e3; 0x12613423; 0x00000000; 0x02f63423; 0xf20617e3; 0x12713423; 0x00000000;
    0x06863423; 0xf40614e3; 0x12813423; 0x00000000; 0x06963423; 0xf60614e3; 0x12913423; 0x00000000;
    0x06a63423; 0xf40615e3; 0x12a13423; 0x00000000; 0x06b63423; 0xf60615e3; 0x12b13423; 0x00000000;
    0x06c63423; 0xf40616e3; 0x12c13423; 0x00000000; 0x06d63423; 0xf60616e3; 0x12d13423; 0x00000000;
    0x06e63423; 0xf40617e3; 0x12e13423; 0x00000000; 0x06f63423; 0xf60617e3; 0x12f13423; 0x00000000;
    0x0a863423; 0xf80614e3; 0x13013423; 0x00000000; 0x0a963423; 0xfa0614e3; 0x13113423; 0x00000000;
    0x0aa63423; 0xf80615e3; 0x13213423; 0x00000000; 0x0ab63423; 0xfa0615e3; 0x13313423; 0x00000000;
    0x0ac63423; 0xf80616e3; 0x13413423; 0x00000000; 0x0ad63423; 0xfa0616e3; 0x13513423; 0x00000000;
    0x0ae63423; 0xf80617e3; 0x13613423; 0x00000000; 0x0af63423; 0xfa0617e3; 0x13713423; 0x00000000;
    0x0e863423; 0xfc0614e3; 0x13813423; 0x00000000; 0x0e963423; 0xfe0614e3; 0x13913423; 0x00000000;
    0x0ea63423; 0xfc0615e3; 0x13a13423; 0x00000000; 0x0eb63423; 0xfe0615e3; 0x13b13423; 0x00000000;
    0x0ec63423; 0xfc0616e3; 0x13c13423; 0x00000000; 0x0ed63423; 0xfe0616e3; 0x13d13423; 0x00000000;
    0x0ee63423; 0xfc0617e3; 0x13e13423; 0x00000000; 0x0ef63423; 0xfe0617e3; 0x13f13423; 0x00000000;
    0x0286b423; 0xf00694e3; 0x16013423; 0x00000000; 0x0296b423; 0xf20694e3; 0x16113423; 0x00000000;
    0x02a6b423; 0xf00695e3; 0x16213423; 0x00000000; 0x02b6b423; 0xf20695e3; 0x16313423; 0x00000000;
    0x02c6b423; 0xf00696e3; 0x16413423; 0x00000000; 0x02d6b423; 0xf20696e3; 0x16513423; 0x00000000;
    0x02e6b423; 0xf00697e3; 0x16613423; 0x00000000; 0x02f6b423; 0xf20697e3; 0x16713423; 0x00000000;
    0x0686b423; 0xf40694e3; 0x16813423; 0x00000000; 0x0696b423; 0xf60694e3; 0x16913423; 0x00000000;
    0x06a6b423; 0xf40695e3; 0x16a13423; 0x00000000; 0x06b6b423; 0xf60695e3; 0x16b13423; 0x00000000;
    0x06c6b423; 0xf40696e3; 0x16c13423; 0x00000000; 0x06d6b423; 0xf60696e3; 0x16d13423; 0x00000000;
    0x06e6b423; 0xf40697e3; 0x16e13423; 0x00000000; 0x06f6b423; 0xf60697e3; 0x16f13423; 0x00000000;
    0x0a86b423; 0xf80694e3; 0x17013423; 0x00000000; 0x0a96b423; 0xfa0694e3; 0x17113423; 0x00000000;
    0x0aa6b423; 0xf80695e3; 0x17213423; 0x00000000; 0x0ab6b423; 0xfa0695e3; 0x17313423; 0x00000000;
    0x0ac6b423; 0xf80696e3; 0x17413423; 0x00000000; 0x0ad6b423; 0xfa0696e3; 0x17513423; 0x00000000;
    0x0ae6b423; 0xf80697e3; 0x17613423; 0x00000000; 0x0af6b423; 0xfa0697e3; 0x17713423; 0x00000000;
    0x0e86b423; 0xfc0694e3; 0x17813423; 0x00000000; 0x0e96b423; 0xfe0694e3; 0x17913423; 0x00000000;
    0x0ea6b423; 0xfc0695e3; 0x17a13423; 0x00000000; 0x0eb6b423; 0xfe0695e3; 0x17b13423; 0x00000000;
    0x0ec6b423; 0xfc0696e3; 0x17c13423; 0x00000000; 0x0ed6b423; 0xfe0696e3; 0x17d13423; 0x00000000;
    0x0ee6b423; 0xfc0697e3; 0x17e13423; 0x00000000; 0x0ef6b423; 0xfe0697e3; 0x17f13423; 0x00000000;
    0x02873423; 0xf00714e3; 0x1a013423; 0x00000000; 0x02973423; 0xf20714e3; 0x1a113423; 0x00000000;
    0x02a73423; 0xf00715e3; 0x1a213423; 0x00000000; 0x02b73423; 0xf20715e3; 0x1a313423; 0x00000000;
    0x02c73423; 0xf00716e3; 0x1a413423; 0x00000000; 0x02d73423; 0xf20716e3; 0x1a513423; 0x00000000;
    0x02e73423; 0xf00717e3; 0x1a613423; 0x00000000; 0x02f73423; 0xf20717e3; 0x1a713423; 0x00000000;
    0x06873423; 0xf40714e3; 0x1a813423; 0x00000000; 0x06973423; 0xf60714e3; 0x1a913423; 0x00000000;
    0x06a73423; 0xf40715e3; 0x1aa13423; 0x00000000; 0x06b73423; 0xf60715e3; 0x1ab13423; 0x00000000;
    0x06c73423; 0xf40716e3; 0x1ac13423; 0x00000000; 0x06d73423; 0xf60716e3; 0x1ad13423; 0x00000000;
    0x06e73423; 0xf40717e3; 0x1ae13423; 0x00000000; 0x06f73423; 0xf60717e3; 0x1af13423; 0x00000000;
    0x0a873423; 0xf80714e3; 0x1b013423; 0x00000000; 0x0a973423; 0xfa0714e3; 0x1b113423; 0x00000000;
    0x0aa73423; 0xf80715e3; 0x1b213423; 0x00000000; 0x0ab73423; 0xfa0715e3; 0x1b313423; 0x00000000;
    0x0ac73423; 0xf80716e3; 0x1b413423; 0x00000000; 0x0ad73423; 0xfa0716e3; 0x1b513423; 0x00000000;
    0x0ae73423; 0xf80717e3; 0x1b613423; 0x00000000; 0x0af73423; 0xfa0717e3; 0x1b713423; 0x00000000;
    0x0e873423; 0xfc0714e3; 0x1b813423; 0x00000000; 0x0e973423; 0xfe0714e3; 0x1b913423; 0x00000000;
    0x0ea73423; 0xfc0715e3; 0x1ba13423; 0x00000000; 0x0eb73423; 0xfe0715e3; 0x1bb13423; 0x00000000;
    0x0ec73423; 0xfc0716e3; 0x1bc13423; 0x00000000; 0x0ed73423; 0xfe0716e3; 0x1bd13423; 0x00000000;
    0x0ee73423; 0xfc0717e3; 0x1be13423; 0x00000000; 0x0ef73423; 0xfe0717e3; 0x1bf13423; 0x00000000;
    0x0287b423; 0xf00794e3; 0x1e013423; 0x00000000; 0x0297b423; 0xf20794e3; 0x1e113423; 0x00000000;
    0x02a7b423; 0xf00795e3; 0x1e213423; 0x00000000; 0x02b7b423; 0xf20795e3; 0x1e313423; 0x00000000;
    0x02c7b423; 0xf00796e3; 0x1e413423; 0x00000000; 0x02d7b423; 0xf20796e3; 0x1e513423; 0x00000000;
    0x02e7b423; 0xf00797e3; 0x1e613423; 0x00000000; 0x02f7b423; 0xf20797e3; 0x1e713423; 0x00000000;
    0x0687b423; 0xf40794e3; 0x1e813423; 0x00000000; 0x0697b423; 0xf60794e3; 0x1e913423; 0x00000000;
    0x06a7b423; 0xf40795e3; 0x1ea13423; 0x00000000; 0x06b7b423; 0xf60795e3; 0x1eb13423; 0x00000000;
    0x06c7b423; 0xf40796e3; 0x1ec13423; 0x00000000; 0x06d7b423; 0xf60796e3; 0x1ed13423; 0x00000000;
    0x06e7b423; 0xf40797e3; 0x1ee13423; 0x00000000; 0x06f7b423; 0xf60797e3; 0x1ef13423; 0x00000000;
    0x0a87b423; 0xf80794e3; 0x1f013423; 0x00000000; 0x0a97b423; 0xfa0794e3; 0x1f113423; 0x00000000;
    0x0aa7b423; 0xf80795e3; 0x1f213423; 0x00000000; 0x0ab7b423; 0xfa0795e3; 0x1f313423; 0x00000000;
    0x0ac7b423; 0xf80796e3; 0x1f413423; 0x00000000; 0x0ad7b423; 0xfa0796e3; 0x1f513423; 0x00000000;
    0x0ae7b423; 0xf80797e3; 0x1f613423; 0x00000000; 0x0af7b423; 0xfa0797e3; 0x1f713423; 0x00000000;
    0x0e87b423; 0xfc0794e3; 0x1f813423; 0x00000000; 0x0e97b423; 0xfe0794e3; 0x1f913423; 0x00000000;
    0x0ea7b423; 0xfc0795e3; 0x1fa13423; 0x00000000; 0x0eb7b423; 0xfe0795e3; 0x1fb13423; 0x00000000;
    0x0ec7b423; 0xfc0796e3; 0x1fc13423; 0x00000000; 0x0ed7b423; 0xfe0796e3; 0x1fd13423; 0x00000000;
    0x0ee7b423; 0xfc0797e3; 0x1fe13423; 0x00000000; 0x0ef7b423; 0xfe0797e3; 0x1ff13423; 0x00000000
].

(** parcels 0xf800 to 0xfbff *)
Definition RVC64_EXPANDED_62 : list Z := [
    0x02843823; 0xf00418e3; 0x02013823; 0x00000000; 0x02943823; 0xf20418e3; 0x02113823; 0x00000000;
    0x02a43823; 0xf00419e3; 0x02213823; 0x00000000; 0x02b43823; 0xf20419e3; 0x02313823; 0x00000000;
    0x02c43823; 0xf0041ae3; 0x02413823; 0x00000000; 0x02d43823; 0xf2041ae3; 0x02513823; 0x00000000;
    0x02e43823; 0xf0041be3; 0x02613823; 0x00000000; 0x02f43823; 0xf2041be3; 0x02713823; 0x00000000;
    0x06843823; 0xf40418e3; 0x02813823; 0x00000000; 0x06943823; 0xf60418e3; 0x02913823; 0x00000000;
    0x06a43823; 0xf40419e3; 0x02a13823; 0x00000000; 0x06b43823; 0xf60419e3; 0x02b13823; 0x00000000;
    0x06c43823; 0xf4041ae3; 0x02c13823; 0x00000000; 0x06d43823; 0xf6041ae3; 0x02d13823; 0x00000000;
    0x06e43823; 0xf4041be3; 0x02e13823; 0x00000000; 0x06f43823; 0xf6041be3; 0x02f13823; 0x00000000;
    0x0a843823; 0xf80418e3; 0x03013823; 0x00000000; 0x0a943823; 0xfa0418e3; 0x03113823; 0x00000000;
    0x0aa43823; 0xf80419e3; 0x03213823; 0x00000000; 0x0ab43823; 0xfa0419e3; 0x03313823; 0x00000000;
    0x0ac43823; 0xf8041ae3; 0x03413823; 0x00000000; 0x0ad43823; 0xfa041ae3; 0x03513823; 0x00000000;
    0x0ae43823; 0xf8041be3; 0x03613823; 0x00000000; 0x0af43823; 0xfa041be3; 0x03713823; 0x00000000;
    0x0e843823; 0xfc0418e3; 0x03813823; 0x00000000; 0x0e943823; 0xfe0418e3; 0x03913823; 0x00000000;
    0x0ea43823; 0xfc0419e3; 0x03a13823; 0x00000000; 0x0eb43823; 0xfe0419e3; 0x03b13823; 0x00000000;
    0x0ec43823; 0xfc041ae3; 0x03c13823; 0x00000000; 0x0ed43823; 0xfe041ae3; 0x03d13823; 0x00000000;
    0x0ee43823; 0xfc041be3; 0x03e13823; 0x00000000; 0x0ef43823; 0xfe041be3; 0x03f13823; 0x00000000;
    0x0284b823; 0xf00498e3; 0x06013823; 0x00000000; 0x0294b823; 0xf20498e3; 0x06113823; 0x00000000;
    0x02a4b823; 0xf00499e3; 0x06213823; 0x00000000; 0x02b4b823; 0xf20499e3; 0x06313823; 0x00000000;
    0x02c4b823; 0xf0049ae3; 0x06413823; 0x00000000; 0x02d4b823; 0xf2049ae3; 0x06513823; 0x00000000;
    0x02e4b823; 0xf0049be3; 0x06613823; 0x00000000; 0x02f4b823; 0xf2049be3; 0x06713823; 0x00000000;
    0x0684b823; 0xf40498e3; 0x06813823; 0x00000000; 0x0694b823; 0xf60498e3; 0x06913823; 0x00000000;
    0x06a4b823; 0xf40499e3; 0x06a13823; 0x00000000; 0x06b4b823; 0xf60499e3; 0x06b13823; 0x00000000;
    0x06c4b823; 0xf4049ae3; 0x06c13823; 0x00000000; 0x06d4b823; 0xf6049ae3; 0x06d13823; 0x00000000;
    0x06e4b823; 0xf4049be3; 0x06e13823; 0x00000000; 0x06f4b823; 0xf6049be3; 0x06f13823; 0x00000000;
    0x0a84b823; 0xf80498e3; 0x07013823; 0x00000000; 0x0a94b823; 0xfa0498e3; 0x07113823; 0x00000000;
    0x0aa4b823; 0xf80499e3; 0x07213823; 0x00000000; 0x0ab4b823; 0xfa0499e3; 0x07313823; 0x00000000;
    0x0ac4b823; 0xf8049ae3; 0x07413823; 0x00000000; 0x0ad4b823; 0xfa049ae3; 0x07513823; 0x00000000;
    0x0ae4b823; 0xf8049be3; 0x07613823; 0x00000000; 0x0af4b823; 0xfa049be3; 0x07713823; 0x00000000;
    0x0e84b823; 0xfc0498e3; 0x07813823; 0x00000000; 0x0e94b823; 0xfe0498e3; 0x07913823; 0x00000000;
    0x0ea4b823; 0xfc0499e3; 0x07a13823; 0x00000000; 0x0eb4b823; 0xfe0499e3; 0x07b13823; 0x00000000;
    0x0ec4b823; 0xfc049ae3; 0x07c13823; 0x00000000; 0x0ed4b823; 0xfe049ae3; 0x07d13823; 0x00000000;
    0x0ee4b823; 0xfc049be3; 0x07e13823; 0x00000000; 0x0ef4b823; 0xfe049be3; 0x07f13823; 0x00000000;
    0x02853823; 0xf00518e3; 0x0a013823; 0x00000000; 0x02953823; 0xf20518e3; 0x0a113823; 0x00000000;
    0x02a53823; 0xf00519e3; 0x0a213823; 0x00000000; 0x02b53823; 0xf20519e3; 0x0a313823; 0x00000000;
    0x02c53823; 0xf0051ae3; 0x0a413823; 0x00000000; 0x02d53823; 0xf2051ae3; 0x0a513823; 0x00000000;
    0x02e53823; 0xf0051be3; 0x0a613823; 0x00000000; 0x02f53823; 0xf2051be3; 0x0a713823; 0x00000000;
    0x06853823; 0xf40518e3; 0x0a813823; 0x00000000; 0x06953823; 0xf60518e3; 0x0a913823; 0x00000000;
    0x06a53823; 0xf40519e3; 0x0aa13823; 0x00000000; 0x06b53823; 0xf60519e3; 0x0ab13823; 0x00000000;
    0x06c53823; 0xf4051ae3; 0x0ac13823; 0x00000000; 0x06d53823; 0xf6051ae3; 0x0ad13823; 0x00000000;
    0x06e53823; 0xf4051be3; 0x0ae13823; 0x00000000; 0x06f53823; 0xf6051be3; 0x0af13823; 0x00000000;
    0x0a853823; 0xf80518e3; 0x0b013823; 0x00000000; 0x0a953823; 0xfa0518e3; 0x0b113823; 0x00000000;
    0x0aa53823; 0xf80519e3; 0x0b213823; 0x00000000; 0x0ab53823; 0xfa0519e3; 0x0b313823; 0x00000000;
    0x0ac53823; 0xf8051ae3; 0x0b413823; 0x00000000; 0x0ad53823; 0xfa051ae3; 0x0b513823; 0x00000000;
    0x0ae53823; 0xf8051be3; 0x0b613823; 0x00000000; 0x0af53823; 0xfa051be3; 0x0b713823; 0x00000000;
    0x0e853823; 0xfc0518e3; 0x0b813823; 0x00000000; 0x0e953823; 0xfe0518e3; 0x0b913823; 0x00000000;
    0x0ea53823; 0xfc0519e3; 0x0ba13823; 0x00000000; 0x0eb53823; 0xfe0519e3; 0x0bb13823; 0x00000000;
    0x0ec53823; 0xfc051ae3; 0x0bc13823; 0x00000000; 0x0ed53823; 0xfe051ae3; 0x0bd13823; 0x00000000;
    0x0ee53823; 0xfc051be3; 0x0be13823; 0x00000000; 0x0ef53823; 0xfe051be3; 0x0bf13823; 0x00000000;
    0x0285b823; 0xf00598e3; 0x0e013823; 0x00000000; 0x0295b823; 0xf20598e3; 0x0e113823; 0x00000000;
    0x02a5b823; 0xf00599e3; 0x0e213823; 0x00000000; 0x02b5b823; 0xf20599e3; 0x0e313823; 0x00000000;
    0x02c5b823; 0xf0059ae3; 0x0e413823; 0x00000000; 0x02d5b823; 0xf2059ae3; 0x0e513823; 0x00000000;
    0x02e5b823; 0xf0059be3; 0x0e613823; 0x00000000; 0x02f5b823; 0xf2059be3; 0x0e713823; 0x00000000;
    0x0685b823; 0xf40598e3; 0x0e813823; 0x00000000; 0x0695b823; 0xf60598e3; 0x0e913823; 0x00000000;
    0x06a5b823; 0xf40599e3; 0x0ea13823; 0x00000000; 0x06b5b823; 0xf60599e3; 0x0eb13823; 0x00000000;
    0x06c5b823; 0xf4059ae3; 0x0ec13823; 0x00000000; 0x06d5b823; 0xf6059ae3; 0x0ed13823; 0x00000000;
    0x06e5b823; 0xf4059be3; 0x0ee13823; 0x00000000; 0x06f5b823; 0xf6059be3; 0x0ef13823; 0x00000000;
    0x0a85b823; 0xf80598e3; 0x0f013823; 0x00000000; 0x0a95b823; 0xfa0598e3; 0x0f113823; 0x00000000;
    0x0aa5b823; 0xf80599e3; 0x0f213823; 0x00000000; 0x0ab5b823; 0xfa0599e3; 0x0f313823; 0x00000000;
    0x0ac5b823; 0xf8059ae3; 0x0f413823; 0x00000000; 0x0ad5b823; 0xfa059ae3; 0x0f513823; 0x00000000;
    0x0ae5b823; 0xf8059be3; 0x0f613823; 0x00000000; 0x0af5b823; 0xfa059be3; 0x0f713823; 0x00000000;
    0x0e85b823; 0xfc0598e3; 0x0f813823; 0x00000000; 0x0e95b823; 0xfe0598e3; 0x0f913823; 0x00000000;
    0x0ea5b823; 0xfc0599e3; 0x0fa13823; 0x00000000; 0x0eb5b823; 0xfe0599e3; 0x0fb13823; 0x00000000;
    0x0ec5b823; 0xfc059ae3; 0x0fc13823; 0x00000000; 0x0ed5b823; 0xfe059ae3; 0x0fd13823; 0x00000000;
    0x0ee5b823; 0xfc059be3; 0x0fe13823; 0x00000000; 0x0ef5b823; 0xfe059be3; 0x0ff13823; 0x00000000;
    0x02863823; 0xf00618e3; 0x12013823; 0x00000000; 0x02963823; 0xf20618e3; 0x12113823; 0x00000000;
    0x02a63823; 0xf00619e3; 0x12213823; 0x00000000; 0x02b63823; 0xf20619e3; 0x12313823; 0x00000000;
    0x02c63823; 0xf0061ae3; 0x12413823; 0x00000000; 0x02d63823; 0xf2061ae3; 0x12513823; 0x00000000;
    0x02e63823; 0xf0061be3; 0x12613823; 0x00000000; 0x02f63823; 0xf2061be3; 0x12713823; 0x00000000;
    0x06863823; 0xf40618e3; 0x12813823; 0x00000000; 0x06963823; 0xf60618e3; 0x12913823; 0x00000000;
    0x06a63823; 0xf40619e3; 0x12a13823; 0x00000000; 0x06b63823; 0xf60619e3; 0x12b13823; 0x00000000;
    0x06c63823; 0xf4061ae3; 0x12c13823; 0x00000000; 0x06d63823; 0xf6061ae3; 0x12d13823; 0x00000000;
    0x06e63823; 0xf4061be3; 0x12e13823; 0x00000000; 0x06f63823; 0xf6061be3; 0x12f13823; 0x00000000;
    0x0a863823; 0xf80618e3; 0x13013823; 0x00000000; 0x0a963823; 0xfa0618e3; 0x13113823; 0x00000000;
    0x0aa63823; 0xf80619e3; 0x13213823; 0x00000000; 0x0ab63823; 0xfa0619e3; 0x13313823; 0x00000000;
    0x0ac63823; 0xf8061ae3; 0x13413823; 0x00000000; 0x0ad63823; 0xfa061ae3; 0x13513823; 0x00000000;
    0x0ae63823; 0xf8061be3; 0x13613823; 0x00000000; 0x0af63823; 0xfa061be3; 0x13713823; 0x00000000;
    0x0e863823; 0xfc0618e3; 0x13813823; 0x00000000; 0x0e963823; 0xfe0618e3; 0x13913823; 0x00000000;
    0x0ea63823; 0xfc0619e3; 0x13a13823; 0x00000000; 0x0eb63823; 0xfe0619e3; 0x13b13823; 0x00000000;
    0x0ec63823; 0xfc061ae3; 0x13c13823; 0x00000000; 0x0ed63823; 0xfe061ae3; 0x13d13823; 0x00000000;
    0x0ee63823; 0xfc061be3; 0x13e13823; 0x00000000; 0x0ef63823; 0xfe061be3; 0x13f13823; 0x00000000;
    0x0286b823; 0xf00698e3; 0x16013823; 0x00000000; 0x0296b823; 0xf20698e3; 0x16113823; 0x00000000;
    0x02a6b823; 0xf00699e3; 0x16213823; 0x00000000; 0x02b6b823; 0xf20699e3; 0x16313823; 0x00000000;
    0x02c6b823; 0xf0069ae3; 0x16413823; 0x00000000; 0x02d6b823; 0xf2069ae3; 0x16513823; 0x00000000;
    0x02e6b823; 0xf0069be3; 0x16613823; 0x00000000; 0x02f6b823; 0xf2069be3; 0x16713823; 0x00000000;
    0x0686b823; 0xf40698e3; 0x16813823; 0x00000000; 0x0696b823; 0xf60698e3; 0x16913823; 0x00000000;
    0x06a6b823; 0xf40699e3; 0x16a13823; 0x00000000; 0x06b6b823; 0xf60699e3; 0x16b13823; 0x00000000;
    0x06c6b823; 0xf4069ae3; 0x16c13823; 0x00000000; 0x06d6b823; 0xf6069ae3; 0x16d13823; 0x00000000;
    0x06e6b823; 0xf4069be3; 0x16e13823; 0x00000000; 0x06f6b823; 0xf6069be3; 0x16f13823; 0x00000000;
    0x0a86b823; 0xf80698e3; 0x17013823; 0x00000000; 0x0a96b823; 0xfa0698e3; 0x17113823; 0x00000000;
    0x0aa6b823; 0xf80699e3; 0x17213823; 0x00000000; 0x0ab6b823; 0xfa0699e3; 0x17313823; 0x00000000;
    0x0ac6b823; 0xf8069ae3; 0x17413823; 0x00000000; 0x0ad6b823; 0xfa069ae3; 0x17513823; 0x00000000;
    0x0ae6b823; 0xf8069be3; 0x17613823; 0x00000000; 0x0af6b823; 0xfa069be3; 0x17713823; 0x00000000;
    0x0e86b823; 0xfc0698e3; 0x17813823; 0x00000000; 0x0e96b823; 0xfe0698e3; 0x17913823; 0x00000000;
    0x0ea6b823; 0xfc0699e3; 0x17a13823; 0x00000000; 0x0eb6b823; 0xfe0699e3; 0x17b13823; 0x00000000;
    0x0ec6b823; 0xfc069ae3; 0x17c13823; 0x00000000; 0x0ed6b823; 0xfe069ae3; 0x17d13823; 0x00000000;
    0x0ee6b823; 0xfc069be3; 0x17e13823; 0x00000000; 0x0ef6b823; 0xfe069be3; 0x17f13823; 0x00000000;
    0x02873823; 0xf00718e3; 0x1a013823; 0x00000000; 0x02973823; 0xf20718e3; 0x1a113823; 0x00000000;
    0x02a73823; 0xf00719e3; 0x1a213823; 0x00000000; 0x02b73823; 0xf20719e3; 0x1a313823; 0x00000000;
    0x02c73823; 0xf0071ae3; 0x1a413823; 0x00000000; 0x02d73823; 0xf2071ae3; 0x1a513823; 0x00000000;
    0x02e73823; 0xf0071be3; 0x1a613823; 0x00000000; 0x02f73823; 0xf2071be3; 0x1a713823; 0x00000000;
    0x06873823; 0xf40718e3; 0x1a813823; 0x00000000; 0x06973823; 0xf60718e3; 0x1a913823; 0x00000000;
    0x06a73823; 0xf40719e3; 0x1aa13823; 0x00000000; 0x06b73823; 0xf60719e3; 0x1ab13823; 0x00000000;
    0x06c73823; 0xf4071ae3; 0x1ac13823; 0x00000000; 0x06d73823; 0xf6071ae3; 0x1ad13823; 0x00000000;
    0x06e73823; 0xf4071be3; 0x1ae13823; 0x00000000; 0x06f73823; 0xf6071be3; 0x1af13823; 0x00000000;
    0x0a873823; 0xf80718e3; 0x1b013823; 0x00000000; 0x0a973823; 0xfa0718e3; 0x1b113823; 0x00000000;
    0x0aa73823; 0xf80719e3; 0x1b213823; 0x00000000; 0x0ab73823; 0xfa0719e3; 0x1b313823; 0x00000000;
    0x0ac73823; 0xf8071ae3; 0x1b413823; 0x00000000; 0x0ad73823; 0xfa071ae3; 0x1b513823; 0x00000000;
    0x0ae73823; 0xf8071be3; 0x1b613823; 0x00000000; 0x0af73823; 0xfa071be3; 0x1b713823; 0x00000000;
    0x0e873823; 0xfc0718e3; 0x1b813823; 0x00000000; 0x0e973823; 0xfe0718e3; 0x1b913823; 0x00000000;
    0x0ea73823; 0xfc0719e3; 0x1ba13823; 0x00000000; 0x0eb73823; 0xfe0719e3; 0x1bb13823; 0x00000000;
    0x0ec73823; 0xfc071ae3; 0x1bc13823; 0x00000000; 0x0ed73823; 0xfe071ae3; 0x1bd13823; 0x00000000;
    0x0ee73823; 0xfc071be3; 0x1be13823; 0x00000000; 0x0ef73823; 0xfe071be3; 0x1bf13823; 0x00000000;
    0x0287b823; 0xf00798e3; 0x1e013823; 0x00000000; 0x0297b823; 0xf20798e3; 0x1e113823; 0x00000000;
    0x02a7b823; 0xf00799e3; 0x1e213823; 0x00000000; 0x02b7b823; 0xf20799e3; 0x1e313823; 0x00000000;
    0x02c7b823; 0xf0079ae3; 0x1e413823; 0x00000000; 0x02d7b823; 0xf2079ae3; 0x1e513823; 0x00000000;
    0x02e7b823; 0xf0079be3; 0x1e613823; 0x00000000; 0x02f7b823; 0xf2079be3; 0x1e713823; 0x00000000;
    0x0687b823; 0xf40798e3; 0x1e813823; 0x00000000; 0x0697b823; 0xf60798e3; 0x1e913823; 0x00000000;
    0x06a7b823; 0xf40799e3; 0x1ea13823; 0x00000000; 0x06b7b823; 0xf60799e3; 0x1eb13823; 0x00000000;
    0x06c7b823; 0xf4079ae3; 0x1ec13823; 0x00000000; 0x06d7b823; 0xf6079ae3; 0x1ed13823; 0x00000000;
    0x06e7b823; 0xf4079be3; 0x1ee13823; 0x00000000; 0x06f7b823; 0xf6079be3; 0x1ef13823; 0x00000000;
    0x0a87b823; 0xf80798e3; 0x1f013823; 0x00000000; 0x0a97b823; 0xfa0798e3; 0x1f113823; 0x00000000;
    0x0aa7b823; 0xf80799e3; 0x1f213823; 0x00000000; 0x0ab7b823; 0xfa0799e3; 0x1f313823; 0x00000000;
    0x0ac7b823; 0xf8079ae3; 0x1f413823; 0x00000000; 0x0ad7b823; 0xfa079ae3; 0x1f513823; 0x00000000;
    0x0ae7b823; 0xf8079be3; 0x1f613823; 0x00000000; 0x0af7b823; 0xfa079be3; 0x1f713823; 0x00000000;
    0x0e87b823; 0xfc0798e3; 0x1f813823; 0x00000000; 0x0e97b823; 0xfe0798e3; 0x1f913823; 0x00000000;
    0x0ea7b823; 0xfc0799e3; 0x1fa13823; 0x00000000; 0x0eb7b823; 0xfe0799e3; 0x1fb13823; 0x00000000;
    0x0ec7b823; 0xfc079ae3; 0x1fc13823; 0x00000000; 0x0ed7b823; 0xfe079ae3; 0x1fd13823; 0x00000000;
    0x0ee7b823; 0xfc079be3; 0x1fe13823; 0x00000000; 0x0ef7b823; 0xfe079be3; 0x1ff13823; 0x00000000
].

(** parcels 0xfc00 to 0xffff *)
Definition RVC64_EXPANDED_63 : list Z := [
    0x02843c23; 0xf0041ce3; 0x02013c23; 0x00000000; 0x02943c23; 0xf2041ce3; 0x02113c23; 0x00000000;
    0x02a43c23; 0xf0041de3; 0x02213c23; 0x00000000; 0x02b43c23; 0xf2041de3; 0x02313c23; 0x00000000;
    0x02c43c23; 0xf0041ee3; 0x02413c23; 0x00000000; 0x02d43c23; 0xf2041ee3; 0x02513c23; 0x00000000;
    0x02e43c23; 0xf0041fe3; 0x02613c23; 0x00000000; 0x02f43c23; 0xf2041fe3; 0x02713c23; 0x00000000;
    0x06843c23; 0xf4041ce3; 0x02813c23; 0x00000000; 0x06943c23; 0xf6041ce3; 0x02913c23; 0x00000000;
    0x06a43c23; 0xf4041de3; 0x02a13c23; 0x00000000; 0x06b43c23; 0xf6041de3; 0x02b13c23; 0x00000000;
    0x06c43c23; 0xf4041ee3; 0x02c13c23; 0x00000000; 0x06d43c23; 0xf6041ee3; 0x02d13c23; 0x00000000;
    0x06e43c23; 0xf4041fe3; 0x02e13c23; 0x00000000; 0x06f43c23; 0xf6041fe3; 0x02f13c23; 0x00000000;
    0x0a843c23; 0xf8041ce3; 0x03013c23; 0x00000000; 0x0a943c23; 0xfa041ce3; 0x03113c23; 0x00000000;
    0x0aa43c23; 0xf8041de3; 0x03213c23; 0x00000000; 0x0ab43c23; 0xfa041de3; 0x03313c23; 0x00000000;
    0x0ac43c23; 0xf8041ee3; 0x03413c23; 0x00000000; 0x0ad43c23; 0xfa041ee3; 0x03513c23; 0x00000000;
    0x0ae43c23; 0xf8041fe3; 0x03613c23; 0x00000000; 0x0af43c23; 0xfa041fe3; 0x03713c23; 0x00000000;
    0x0e843c23; 0xfc041ce3; 0x03813c23; 0x00000000; 0x0e943c23; 0xfe041ce3; 0x03913c23; 0x00000000;
    0x0ea43c23; 0xfc041de3; 0x03a13c23; 0x00000000; 0x0eb43c23; 0xfe041de3; 0x03b13c23; 0x00000000;
    0x0ec43c23; 0xfc041ee3; 0x03c13c23; 0x00000000; 0x0ed43c23; 0xfe041ee3; 0x03d13c23; 0x00000000;
    0x0ee43c23; 0xfc041fe3; 0x03e13c23; 0x00000000; 0x0ef43c23; 0xfe041fe3; 0x03f13c23; 0x00000000;
    0x0284bc23; 0xf0049ce3; 0x06013c23; 0x00000000; 0x0294bc23; 0xf2049ce3; 0x06113c23; 0x00000000;
    0x02a4bc23; 0xf0049de3; 0x06213c23; 0x00000000; 0x02b4bc23; 0xf2049de3; 0x06313c23; 0x00000000;
    0x02c4bc23; 0xf0049ee3; 0x06413c23; 0x00000000; 0x02d4bc23; 0xf2049ee3; 0x06513c23; 0x00000000;
    0x02e4bc23; 0xf0049fe3; 0x06613c23; 0x00000000; 0x02f4bc23; 0xf2049fe3; 0x06713c23; 0x00000000;
    0x0684bc23; 0xf4049ce3; 0x06813c23; 0x00000000; 0x0694bc23; 0xf6049ce3; 0x06913c23; 0x00000000;
    0x06a4bc23; 0xf4049de3; 0x06a13c23; 0x00000000; 0x06b4bc23; 0xf6049de3; 0x06b13c23; 0x00000000;
    0x06c4bc23; 0xf4049ee3; 0x06c13c23; 0x00000000; 0x06d4bc23; 0xf6049ee3; 0x06d13c23; 0x00000000;
    0x06e4bc23; 0xf4049fe3; 0x06e13c23; 0x00000000; 0x06f4bc23; 0xf6049fe3; 0x06f13c23; 0x00000000;
    0x0a84bc23; 0xf8049ce3; 0x07013c23; 0x00000000; 0x0a94bc23; 0xfa049ce3; 0x07113c23; 0x00000000;
    0x0aa4bc23; 0xf8049de3; 0x07213c23; 0x00000000; 0x0ab4bc23; 0xfa049de3; 0x07313c23; 0x00000000;
    0x0ac4bc23; 0xf8049ee3; 0x07413c23; 0x00000000; 0x0ad4bc23; 0xfa049ee3; 0x07513c23; 0x00000000;
    0x0ae4bc23; 0xf8049fe3; 0x07613c23; 0x00000000; 0x0af4bc23; 0xfa049fe3; 0x07713c23; 0x00000000;
    0x0e84bc23; 0xfc049ce3; 0x07813c23; 0x00000000; 0x0e94bc23; 0xfe049ce3; 0x07913c23; 0x00000000;
    0x0ea4bc23; 0xfc049de3; 0x07a13c23; 0x00000000; 0x0eb4bc23; 0xfe049de3; 0x07b13c23; 0x00000000;
    0x0ec4bc23; 0xfc049ee3; 0x07c13c23; 0x00000000; 0x0ed4bc23; 0xfe049ee3; 0x07d13c23; 0x00000000;
    0x0ee4bc23; 0xfc049fe3; 0x07e13c23; 0x00000000; 0x0ef4bc23; 0xfe049fe3; 0x07f13c23; 0x00000000;
    0x02853c23; 0xf0051ce3; 0x0a013c23; 0x00000000; 0x02953c23; 0xf2051ce3; 0x0a113c23; 0x00000000;
    0x02a53c23; 0xf0051de3; 0x0a213c23; 0x00000000; 0x02b53c23; 0xf2051de3; 0x0a313c23; 0x00000000;
    0x02c53c23; 0xf0051ee3; 0x0a413c23; 0x00000000; 0x02d53c23; 0xf2051ee3; 0x0a513c23; 0x00000000;
    0x02e53c23; 0xf0051fe3; 0x0a613c23; 0x00000000; 0x02f53c23; 0xf2051fe3; 0x0a713c23; 0x00000000;
    0x06853c23; 0xf4051ce3; 0x0a813c23; 0x00000000; 0x06953c23; 0xf6051ce3; 0x0a913c23; 0x00000000;
    0x06a53c23; 0xf4051de3; 0x0aa13c23; 0x00000000; 0x06b53c23; 0xf6051de3; 0x0ab13c23; 0x00000000;
    0x06c53c23; 0xf4051ee3; 0x0ac13c23; 0x00000000; 0x06d53c23; 0xf6051ee3; 0x0ad13c23; 0x00000000;
    0x06e53c23; 0xf4051fe3; 0x0ae13c23; 0x00000000; 0x06f53c23; 0xf6051fe3; 0x0af13c23; 0x00000000;
    0x0a853c23; 0xf8051ce3; 0x0b013c23; 0x00000000; 0x0a953c23; 0xfa051ce3; 0x0b113c23; 0x00000000;
    0x0aa53c23; 0xf8051de3; 0x0b213c23; 0x00000000; 0x0ab53c23; 0xfa051de3; 0x0b313c23; 0x00000000;
    0x0ac53c23; 0xf8051ee3; 0x0b413c23; 0x00000000; 0x0ad53c23; 0xfa051ee3; 0x0b513c23; 0x00000000;
    0x0ae53c23; 0xf8051fe3; 0x0b613c23; 0x00000000; 0x0af53c23; 0xfa051fe3; 0x0b713c23; 0x00000000;
    0x0e853c23; 0xfc051ce3; 0x0b813c23; 0x00000000; 0x0e953c23; 0xfe051ce3; 0x0b913c23; 0x00000000;
    0x0ea53c23; 0xfc051de3; 0x0ba13c23; 0x00000000; 0x0eb53c23; 0xfe051de3; 0x0bb13c23; 0x00000000;
    0x0ec53c23; 0xfc051ee3; 0x0bc13c23; 0x00000000; 0x0ed53c23; 0xfe051ee3; 0x0bd13c23; 0x00000000;
    0x0ee53c23; 0xfc051fe3; 0x0be13c23; 0x00000000; 0x0ef53c23; 0xfe051fe3; 0x0bf13c23; 0x00000000;
    0x0285bc23; 0xf0059ce3; 0x0e013c23; 0x00000000; 0x0295bc23; 0xf2059ce3; 0x0e113c23; 0x00000000;
    0x02a5bc23; 0xf0059de3; 0x0e213c23; 0x00000000; 0x02b5bc23; 0xf2059de3; 0x0e313c23; 0x00000000;
    0x02c5bc23; 0xf0059ee3; 0x0e413c23; 0x00000000; 0x02d5bc23; 0xf2059ee3; 0x0e513c23; 0x00000000;
    0x02e5bc23; 0xf0059fe3; 0x0e613c23; 0x00000000; 0x02f5bc23; 0xf2059fe3; 0x0e713c23; 0x00000000;
    0x0685bc23; 0xf4059ce3; 0x0e813c23; 0x00000000; 0x0695bc23; 0xf6059ce3; 0x0e913c23; 0x00000000;
    0x06a5bc23; 0xf4059de3; 0x0ea13c23; 0x00000000; 0x06b5bc23; 0xf6059de3; 0x0eb13c23; 0x00000000;
    0x06c5bc23; 0xf4059ee3; 0x0ec13c23; 0x00000000; 0x06d5bc23; 0xf6059ee3; 0x0ed13c23; 0x00000000;
    0x06e5bc23; 0xf4059fe3; 0x0ee13c23; 0x00000000; 0x06f5bc23; 0xf6059fe3; 0x0ef13c23; 0x00000000;
    0x0a85bc23; 0xf8059ce3; 0x0f013c23; 0x00000000; 0x0a95bc23; 0xfa059ce3; 0x0f113c23; 0x00000000;
    0x0aa5bc23; 0xf8059de3; 0x0f213c23; 0x00000000; 0x0ab5bc23; 0xfa059de3; 0x0f313c23; 0x00000000;
    0x0ac5bc23; 0xf8059ee3; 0x0f413c23; 0x00000000; 0x0ad5bc23; 0xfa059ee3; 0x0f513c23; 0x00000000;
    0x0ae5bc23; 0xf8059fe3; 0x0f613c23; 0x00000000; 0x0af5bc23; 0xfa059fe3; 0x0f713c23; 0x00000000;
    0x0e85bc23; 0xfc059ce3; 0x0f813c23; 0x00000000; 0x0e95bc23; 0xfe059ce3; 0x0f913c23; 0x00000000;
    0x0ea5bc23; 0xfc059de3; 0x0fa13c23; 0x00000000; 0x0eb5bc23; 0xfe059de3; 0x0fb13c23; 0x00000000;
    0x0ec5bc23; 0xfc059ee3; 0x0fc13c23; 0x00000000; 0x0ed5bc23; 0xfe059ee3; 0x0fd13c23; 0x00000000;
    0x0ee5bc23; 0xfc059fe3; 0x0fe13c23; 0x00000000; 0x0ef5bc23; 0xfe059fe3; 0x0ff13c23; 0x00000000;
    0x02863c23; 0xf0061ce3; 0x12013c23; 0x00000000; 0x02963c23; 0xf2061ce3; 0x12113c23; 0x00000000;
    0x02a63c23; 0xf0061de3; 0x12213c23; 0x00000000; 0x02b63c23; 0xf2061de3; 0x12313c23; 0x00000000;
    0x02c63c23; 0xf0061ee3; 0x12413c23; 0x00000000; 0x02d63c23; 0xf2061ee3; 0x12513c23; 0x00000000;
    0x02e63c23; 0xf0061fe3; 0x12613c23; 0x00000000; 0x02f63c23; 0xf2061fe3; 0x12713c23; 0x00000000;
    0x06863c23; 0xf4061ce3; 0x12813c23; 0x00000000; 0x06963c23; 0xf6061ce3; 0x12913c23; 0x00000000;
    0x06a63c23; 0xf4061de3; 0x12a13c23; 0x00000000; 0x06b63c23; 0xf6061de3; 0x12b13c23; 0x00000000;
    0x06c63c23; 0xf4061ee3; 0x12c13c23; 0x00000000; 0x06d63c23; 0xf6061ee3; 0x12d13c23; 0x00000000;
    0x06e63c23; 0xf4061fe3; 0x12e13c23; 0x00000000; 0x06f63c23; 0xf6061fe3; 0x12f13c23; 0x00000000;
    0x0a863c23; 0xf8061ce3; 0x13013c23; 0x00000000; 0x0a963c23; 0xfa061ce3; 0x13113c23; 0x00000000;
    0x0aa63c23; 0xf8061de3; 0x13213c23; 0x00000000; 0x0ab63c23; 0xfa061de3; 0x13313c23; 0x00000000;
    0x0ac63c23; 0xf8061ee3; 0x13413c23; 0x00000000; 0x0ad63c23; 0xfa061ee3; 0x13513c23; 0x00000000;
    0x0ae63c23; 0xf8061fe3; 0x13613c23; 0x00000000; 0x0af63c23; 0xfa061fe3; 0x13713c23; 0x00000000;
    0x0e863c23; 0xfc061ce3; 0x13813c23; 0x00000000; 0x0e963c23; 0xfe061ce3; 0x13913c23; 0x00000000;
    0x0ea63c23; 0xfc061de3; 0x13a13c23; 0x00000000; 0x0eb63c23; 0xfe061de3; 0x13b13c23; 0x00000000;
    0x0ec63c23; 0xfc061ee3; 0x13c13c23; 0x00000000; 0x0ed63c23; 0xfe061ee3; 0x13d13c23; 0x00000000;
    0x0ee63c23; 0xfc061fe3; 0x13e13c23; 0x00000000; 0x0ef63c23; 0xfe061fe3; 0x13f13c23; 0x00000000;
    0x0286bc23; 0xf0069ce3; 0x16013c23; 0x00000000; 0x0296bc23; 0xf2069ce3; 0x16113c23; 0x00000000;
    0x02a6bc23; 0xf0069de3; 0x16213c23; 0x00000000; 0x02b6bc23; 0xf2069de3; 0x16313c23; 0x00000000;
    0x02c6bc23; 0xf0069ee3; 0x16413c23; 0x00000000; 0x02d6bc23; 0xf2069ee3; 0x16513c23; 0x00000000;
    0x02e6bc23; 0xf0069fe3; 0x16613c23; 0x00000000; 0x02f6bc23; 0xf2069fe3; 0x16713c23; 0x00000000;
    0x0686bc23; 0xf4069ce3; 0x16813c23; 0x00000000; 0x0696bc23; 0xf6069ce3; 0x16913c23; 0x00000000;
    0x06a6bc23; 0xf4069de3; 0x16a13c23; 0x00000000; 0x06b6bc23; 0xf6069de3; 0x16b13c23; 0x00000000;
    0x06c6bc23; 0xf4069ee3; 0x16c13c23; 0x00000000; 0x06d6bc23; 0xf6069ee3; 0x16d13c23; 0x00000000;
    0x06e6bc23; 0xf4069fe3; 0x16e13c23; 0x00000000; 0x06f6bc23; 0xf6069fe3; 0x16f13c23; 0x00000000;
    0x0a86bc23; 0xf8069ce3; 0x17013c23; 0x00000000; 0x0a96bc23; 0xfa069ce3; 0x17113c23; 0x00000000;
    0x0aa6bc23; 0xf8069de3; 0x17213c23; 0x00000000; 0x0ab6bc23; 0xfa069de3; 0x17313c23; 0x00000000;
    0x0ac6bc23; 0xf8069ee3; 0x17413c23; 0x00000000; 0x0ad6bc23; 0xfa069ee3; 0x17513c23; 0x00000000;
    0x0ae6bc23; 0xf8069fe3; 0x17613c23; 0x00000000; 0x0af6bc23; 0xfa069fe3; 0x17713c23; 0x00000000;
    0x0e86bc23; 0xfc069ce3; 0x17813c23; 0x00000000; 0x0e96bc23; 0xfe069ce3; 0x17913c23; 0x00000000;
    0x0ea6bc23; 0xfc069de3; 0x17a13c23; 0x00000000; 0x0eb6bc23; 0xfe069de3; 0x17b13c23; 0x00000000;
    0x0ec6bc23; 0xfc069ee3; 0x17c13c23; 0x00000000; 0x0ed6bc23; 0xfe069ee3; 0x17d13c23; 0x00000000;
    0x0ee6bc23; 0xfc069fe3; 0x17e13c23; 0x00000000; 0x0ef6bc23; 0xfe069fe3; 0x17f13c23; 0x00000000;
    0x02873c23; 0xf0071ce3; 0x1a013c23; 0x00000000; 0x02973c23; 0xf2071ce3; 0x1a113c23; 0x00000000;
    0x02a73c23; 0xf0071de3; 0x1a213c23; 0x00000000; 0x02b73c23; 0xf2071de3; 0x1a313c23; 0x00000000;
    0x02c73c23; 0xf0071ee3; 0x1a413c23; 0x00000000; 0x02d73c23; 0xf2071ee3; 0x1a513c23; 0x00000000;
    0x02e73c23; 0xf0071fe3; 0x1a613c23; 0x00000000; 0x02f73c23; 0xf2071fe3; 0x1a713c23; 0x00000000;
    0x06873c23; 0xf4071ce3; 0x1a813c23; 0x00000000; 0x06973c23; 0xf6071ce3; 0x1a913c23; 0x00000000;
    0x06a73c23; 0xf4071de3; 0x1aa13c23; 0x00000000; 0x06b73c23; 0xf6071de3; 0x1ab13c23; 0x00000000;
    0x06c73c23; 0xf4071ee3; 0x1ac13c23; 0x00000000; 0x06d73c23; 0xf6071ee3; 0x1ad13c23; 0x00000000;
    0x06e73c23; 0xf4071fe3; 0x1ae13c23; 0x00000000; 0x06f73c23; 0xf6071fe3; 0x1af13c23; 0x00000000;
    0x0a873c23; 0xf8071ce3; 0x1b013c23; 0x00000000; 0x0a973c23; 0xfa071ce3; 0x1b113c23; 0x00000000;
    0x0aa73c23; 0xf8071de3; 0x1b213c23; 0x00000000; 0x0ab73c23; 0xfa071de3; 0x1b313c23; 0x00000000;
    0x0ac73c23; 0xf8071ee3; 0x1b413c23; 0x00000000; 0x0ad73c23; 0xfa071ee3; 0x1b513c23; 0x00000000;
    0x0ae73c23; 0xf8071fe3; 0x1b613c23; 0x00000000; 0x0af73c23; 0xfa071fe3; 0x1b713c23; 0x00000000;
    0x0e873c23; 0xfc071ce3; 0x1b813c23; 0x00000000; 0x0e973c23; 0xfe071ce3; 0x1b913c23; 0x00000000;
    0x0ea73c23; 0xfc071de3; 0x1ba13c23; 0x00000000; 0x0eb73c23; 0xfe071de3; 0x1bb13c23; 0x00000000;
    0x0ec73c23; 0xfc071ee3; 0x1bc13c23; 0x00000000; 0x0ed73c23; 0xfe071ee3; 0x1bd13c23; 0x00000000;
    0x0ee73c23; 0xfc071fe3; 0x1be13c23; 0x00000000; 0x0ef73c23; 0xfe071fe3; 0x1bf13c23; 0x00000000;
    0x0287bc23; 0xf0079ce3; 0x1e013c23; 0x00000000; 0x0297bc23; 0xf2079ce3; 0x1e113c23; 0x00000000;
    0x02a7bc23; 0xf0079de3; 0x1e213c23; 0x00000000; 0x02b7bc23; 0xf2079de3; 0x1e313c23; 0x00000000;
    0x02c7bc23; 0xf0079ee3; 0x1e413c23; 0x00000000; 0x02d7bc23; 0xf2079ee3; 0x1e513c23; 0x00000000;
    0x02e7bc23; 0xf0079fe3; 0x1e613c23; 0x00000000; 0x02f7bc23; 0xf2079fe3; 0x1e713c23; 0x00000000;
    0x0687bc23; 0xf4079ce3; 0x1e813c23; 0x00000000; 0x0697bc23; 0xf6079ce3; 0x1e913c23; 0x00000000;
    0x06a7bc23; 0xf4079de3; 0x1ea13c23; 0x00000000; 0x06b7bc23; 0xf6079de3; 0x1eb13c23; 0x00000000;
    0x06c7bc23; 0xf4079ee3; 0x1ec13c23; 0x00000000; 0x06d7bc23; 0xf6079ee3; 0x1ed13c23; 0x00000000;
    0x06e7bc23; 0xf4079fe3; 0x1ee13c23; 0x00000000; 0x06f7bc23; 0xf6079fe3; 0x1ef13c23; 0x00000000;
    0x0a87bc23; 0xf8079ce3; 0x1f013c23; 0x00000000; 0x0a97bc23; 0xfa079ce3; 0x1f113c23; 0x00000000;
    0x0aa7bc23; 0xf8079de3; 0x1f213c23; 0x00000000; 0x0ab7bc23; 0xfa079de3; 0x1f313c23; 0x00000000;
    0x0ac7bc23; 0xf8079ee3; 0x1f413c23; 0x00000000; 0x0ad7bc23; 0xfa079ee3; 0x1f513c23; 0x00000000;
    0x0ae7bc23; 0xf8079fe3; 0x1f613c23; 0x00000000; 0x0af7bc23; 0xfa079fe3; 0x1f713c23; 0x00000000;
    0x0e87bc23; 0xfc079ce3; 0x1f813c23; 0x00000000; 0x0e97bc23; 0xfe079ce3; 0x1f913c23; 0x00000000;
    0x0ea7bc23; 0xfc079de3; 0x1fa13c23; 0x00000000; 0x0eb7bc23; 0xfe079de3; 0x1fb13c23; 0x00000000;
    0x0ec7bc23; 0xfc079ee3; 0x1fc13c23; 0x00000000; 0x0ed7bc23; 0xfe079ee3; 0x1fd13c23; 0x00000000;
    0x0ee7bc23; 0xfc079fe3; 0x1fe13c23; 0x00000000; 0x0ef7bc23; 0xfe079fe3; 0x1ff13c23; 0x00000000
].
