(* ===== verification/RvcTable.v ===== *)
(** * RvcTable: the expansion table [RVC64_EXPANDED] of tools/rvc.rs

    The table is the concatenation of the 64 definitions of [RvcTable0] to [RvcTable7].  The
    lemmas reduce a fact about every entry to one executable check per part. *)
From S2P Require Import Prelude.
From S2P Require Import RvcTable0 RvcTable1 RvcTable2 RvcTable3 RvcTable4 RvcTable5 RvcTable6 RvcTable7.

Definition RVC64_EXPANDED_parts : list (list Z) := [
  RVC64_EXPANDED_00; RVC64_EXPANDED_01; RVC64_EXPANDED_02; RVC64_EXPANDED_03;
  RVC64_EXPANDED_04; RVC64_EXPANDED_05; RVC64_EXPANDED_06; RVC64_EXPANDED_07;
  RVC64_EXPANDED_08; RVC64_EXPANDED_09; RVC64_EXPANDED_10; RVC64_EXPANDED_11;
  RVC64_EXPANDED_12; RVC64_EXPANDED_13; RVC64_EXPANDED_14; RVC64_EXPANDED_15;
  RVC64_EXPANDED_16; RVC64_EXPANDED_17; RVC64_EXPANDED_18; RVC64_EXPANDED_19;
  RVC64_EXPANDED_20; RVC64_EXPANDED_21; RVC64_EXPANDED_22; RVC64_EXPANDED_23;
  RVC64_EXPANDED_24; RVC64_EXPANDED_25; RVC64_EXPANDED_26; RVC64_EXPANDED_27;
  RVC64_EXPANDED_28; RVC64_EXPANDED_29; RVC64_EXPANDED_30; RVC64_EXPANDED_31;
  RVC64_EXPANDED_32; RVC64_EXPANDED_33; RVC64_EXPANDED_34; RVC64_EXPANDED_35;
  RVC64_EXPANDED_36; RVC64_EXPANDED_37; RVC64_EXPANDED_38; RVC64_EXPANDED_39;
  RVC64_EXPANDED_40; RVC64_EXPANDED_41; RVC64_EXPANDED_42; RVC64_EXPANDED_43;
  RVC64_EXPANDED_44; RVC64_EXPANDED_45; RVC64_EXPANDED_46; RVC64_EXPANDED_47;
  RVC64_EXPANDED_48; RVC64_EXPANDED_49; RVC64_EXPANDED_50; RVC64_EXPANDED_51;
  RVC64_EXPANDED_52; RVC64_EXPANDED_53; RVC64_EXPANDED_54; RVC64_EXPANDED_55;
  RVC64_EXPANDED_56; RVC64_EXPANDED_57; RVC64_EXPANDED_58; RVC64_EXPANDED_59;
  RVC64_EXPANDED_60; RVC64_EXPANDED_61; RVC64_EXPANDED_62; RVC64_EXPANDED_63
].

(** [pub static RVC64_EXPANDED: [u32; 65536]] *)
Definition RVC64_EXPANDED : list Z := concat RVC64_EXPANDED_parts.

(** [RVC64_EXPANDED[insn16 as usize]]: [None] is the out-of-bounds panic *)
Definition expanded (insn16 : Z) : option Z := RVC64_EXPANDED !! Z.to_nat insn16.
