(* ===== verification/Rvc.v ===== *)
(** * Rvc: the reference expander of tools/rvc.rs

    [uncompress] and the unit test around it.  The three-level [match] of the source is kept:
    one definition per arm (named after the instruction in the arm's comment), one per level of
    the dispatch.  A [u32] is a [Z]; [None] is [unreachable!()]. *)
From S2P Require Import Prelude RvcTable.

(** ** Quadrant 0 *)
Definition c_addi4spn (insn16 : Z) : Z :=
  let rd := (insn16 >> 2) .& 7 in
  let nzuimm := ((insn16 >> 7) .& 0x30) .|
                ((insn16 >> 1) .& 0x3c0) .|
                ((insn16 >> 4) .& 4) .|
                ((insn16 >> 2) .& 8) in
  if nzuimm =? 0 then 0
  else (nzuimm << 20) .| (2 << 15) .| ((rd + 8) << 7) .| 0x13.

Definition c_fld (insn16 : Z) : Z :=
  let rd := (insn16 >> 2) .& 7 in
  let rs1 := (insn16 >> 7) .& 7 in
  let offset := ((insn16 >> 7) .& 0x38) .| ((insn16 << 1) .& 0xc0) in
  (offset << 20) .| ((rs1 + 8) << 15) .| (3 << 12) .| ((rd + 8) << 7) .| 7.

Definition c_lw (insn16 : Z) : Z :=
  let rs1 := (insn16 >> 7) .& 7 in
  let rd := (insn16 >> 2) .& 7 in
  let offset := ((insn16 >> 7) .& 0x38) .| ((insn16 >> 4) .& 4) .| ((insn16 << 1) .& 0x40) in
  (offset << 20) .| ((rs1 + 8) << 15) .| (2 << 12) .| ((rd + 8) << 7) .| 3.

Definition c_ld (insn16 : Z) : Z :=
  let rs1 := (insn16 >> 7) .& 7 in
  let rd := (insn16 >> 2) .& 7 in
  let offset := ((insn16 >> 7) .& 0x38) .| ((insn16 << 1) .& 0xc0) in
  (offset << 20) .| ((rs1 + 8) << 15) .| (3 << 12) .| ((rd + 8) << 7) .| 3.

Definition c_fsd (insn16 : Z) : Z :=
  let rs1 := (insn16 >> 7) .& 7 in
  let rs2 := (insn16 >> 2) .& 7 in
  let offset := ((insn16 >> 7) .& 0x38) .| ((insn16 << 1) .& 0xc0) in
  let imm11_5 := (offset >> 5) .& 0x7f in
  let imm4_0 := offset .& 0x1f in
  (imm11_5 << 25) .| ((rs2 + 8) << 20) .| ((rs1 + 8) << 15) .| (3 << 12) .| (imm4_0 << 7) .| 0x27.

Definition c_sw (insn16 : Z) : Z :=
  let rs1 := (insn16 >> 7) .& 7 in
  let rs2 := (insn16 >> 2) .& 7 in
  let offset := ((insn16 >> 7) .& 0x38) .| ((insn16 << 1) .& 0x40) .| ((insn16 >> 4) .& 4) in
  let imm11_5 := (offset >> 5) .& 0x7f in
  let imm4_0 := offset .& 0x1f in
  (imm11_5 << 25) .| ((rs2 + 8) << 20) .| ((rs1 + 8) << 15) .| (2 << 12) .| (imm4_0 << 7) .| 0x23.

Definition c_sd (insn16 : Z) : Z :=
  let rs1 := (insn16 >> 7) .& 7 in
  let rs2 := (insn16 >> 2) .& 7 in
  let offset := ((insn16 >> 7) .& 0x38) .| ((insn16 << 1) .& 0xc0) in
  let imm11_5 := (offset >> 5) .& 0x7f in
  let imm4_0 := offset .& 0x1f in
  (imm11_5 << 25) .| ((rs2 + 8) << 20) .| ((rs1 + 8) << 15) .| (3 << 12) .| (imm4_0 << 7) .| 0x23.

Definition uncompress_q0 (insn16 funct3 : Z) : option Z :=
  match funct3 with
  | 0 => Some (c_addi4spn insn16)
  | 1 => Some (c_fld insn16)
  | 2 => Some (c_lw insn16)
  | 3 => Some (c_ld insn16)
  | 4 => Some 0
  | 5 => Some (c_fsd insn16)
  | 6 => Some (c_sw insn16)
  | 7 => Some (c_sd insn16)
  | _ => None
  end.

(** ** Quadrant 1 *)
Definition c_addi (insn16 : Z) : Z :=
  let r := (insn16 >> 7) .& 0x1f in
  let imm := match insn16 .& 0x1000 with 0x1000 => 0xffffffc0 | _ => 0 end .|
             ((insn16 >> 7) .& 0x20) .|
             ((insn16 >> 2) .& 0x1f) in
  (imm << 20) .| (r << 15) .| (r << 7) .| 0x13.

Definition c_addiw (insn16 : Z) : Z :=
  let r := (insn16 >> 7) .& 0x1f in
  let imm := match insn16 .& 0x1000 with 0x1000 => 0xffffffc0 | _ => 0 end .|
             ((insn16 >> 7) .& 0x20) .|
             ((insn16 >> 2) .& 0x1f) in
  if r =? 0 then 0
  else (imm << 20) .| (r << 15) .| (r << 7) .| 0x1b.

Definition c_li (insn16 : Z) : Z :=
  let r := (insn16 >> 7) .& 0x1f in
  let imm := match insn16 .& 0x1000 with 0x1000 => 0xffffffc0 | _ => 0 end .|
             ((insn16 >> 7) .& 0x20) .|
             ((insn16 >> 2) .& 0x1f) in
  (imm << 20) .| (r << 7) .| 0x13.

Definition c_addi16sp_lui (insn16 : Z) : Z :=
  let rd := (insn16 >> 7) .& 0x1f in
  if rd =? 2 then
    let imm := match insn16 .& 0x1000 with 0x1000 => 0xfffffc00 | _ => 0 end .|
               ((insn16 >> 3) .& 0x200) .|
               ((insn16 >> 2) .& 0x10) .|
               ((insn16 << 1) .& 0x40) .|
               ((insn16 << 4) .& 0x180) .|
               ((insn16 << 3) .& 0x20) in
    if imm =? 0 then 0
    else (imm << 20) .| (rd << 15) .| (rd << 7) .| 0x13
  else
    let nzimm := match insn16 .& 0x1000 with 0x1000 => 0xfffc0000 | _ => 0 end .|
                 ((insn16 << 5) .& 0x20000) .|
                 ((insn16 << 10) .& 0x1f000) in
    if nzimm =? 0 then 0
    else nzimm .| (rd << 7) .| 0x37.

Definition c_srli (insn16 : Z) : Z :=
  let shamt := ((insn16 >> 7) .& 0x20) .| ((insn16 >> 2) .& 0x1f) in
  let rs1 := (insn16 >> 7) .& 7 in
  (shamt << 20) .| ((rs1 + 8) << 15) .| (5 << 12) .| ((rs1 + 8) << 7) .| 0x13.

Definition c_srai (insn16 : Z) : Z :=
  let shamt := ((insn16 >> 7) .& 0x20) .| ((insn16 >> 2) .& 0x1f) in
  let rs1 := (insn16 >> 7) .& 7 in
  (0x20 << 25) .| (shamt << 20) .| ((rs1 + 8) << 15) .| (5 << 12) .| ((rs1 + 8) << 7) .| 0x13.

Definition c_andi (insn16 : Z) : Z :=
  let r := (insn16 >> 7) .& 7 in
  let imm := match insn16 .& 0x1000 with 0x1000 => 0xffffffc0 | _ => 0 end .|
             ((insn16 >> 7) .& 0x20) .|
             ((insn16 >> 2) .& 0x1f) in
  (imm << 20) .| ((r + 8) << 15) .| (7 << 12) .| ((r + 8) << 7) .| 0x13.

(** C.SUB, C.XOR, C.OR, C.AND, C.SUBW, C.ADDW *)
Definition c_arith (insn16 : Z) : option Z :=
  let funct1 := (insn16 >> 12) .& 1 in
  let funct2_2 := (insn16 >> 5) .& 3 in
  let rs1 := (insn16 >> 7) .& 7 in
  let rs2 := (insn16 >> 2) .& 7 in
  match funct1 with
  | 0 =>
      match funct2_2 with
      | 0 => Some ((0x20 << 25) .| ((rs2 + 8) << 20) .| ((rs1 + 8) << 15) .| ((rs1 + 8) << 7) .| 0x33)
      | 1 => Some (((rs2 + 8) << 20) .| ((rs1 + 8) << 15) .| (4 << 12) .| ((rs1 + 8) << 7) .| 0x33)
      | 2 => Some (((rs2 + 8) << 20) .| ((rs1 + 8) << 15) .| (6 << 12) .| ((rs1 + 8) << 7) .| 0x33)
      | 3 => Some (((rs2 + 8) << 20) .| ((rs1 + 8) << 15) .| (7 << 12) .| ((rs1 + 8) << 7) .| 0x33)
      | _ => None
      end
  | 1 =>
      match funct2_2 with
      | 0 => Some ((0x20 << 25) .| ((rs2 + 8) << 20) .| ((rs1 + 8) << 15) .| ((rs1 + 8) << 7) .| 0x3b)
      | 1 => Some (((rs2 + 8) << 20) .| ((rs1 + 8) << 15) .| ((rs1 + 8) << 7) .| 0x3b)
      | 2 | 3 => Some 0
      | _ => None
      end
  | _ => None
  end.

Definition c_misc_alu (insn16 : Z) : option Z :=
  let funct2 := (insn16 >> 10) .& 3 in
  match funct2 with
  | 0 => Some (c_srli insn16)
  | 1 => Some (c_srai insn16)
  | 2 => Some (c_andi insn16)
  | 3 => c_arith insn16
  | _ => None
  end.

Definition c_j (insn16 : Z) : Z :=
  let offset := match insn16 .& 0x1000 with 0x1000 => 0xfffff000 | _ => 0 end .|
                ((insn16 >> 1) .& 0x800) .|
                ((insn16 >> 7) .& 0x10) .|
                ((insn16 >> 1) .& 0x300) .|
                ((insn16 << 2) .& 0x400) .|
                ((insn16 >> 1) .& 0x40) .|
                ((insn16 << 1) .& 0x80) .|
                ((insn16 >> 2) .& 0xe) .|
                ((insn16 << 3) .& 0x20) in
  let imm := ((offset >> 1) .& 0x80000) .|
             ((offset << 8) .& 0x7fe00) .|
             ((offset >> 3) .& 0x100) .|
             ((offset >> 12) .& 0xff) in
  (imm << 12) .| 0x6f.

Definition c_beqz (insn16 : Z) : Z :=
  let r := (insn16 >> 7) .& 7 in
  let offset := match insn16 .& 0x1000 with 0x1000 => 0xfffffe00 | _ => 0 end .|
                ((insn16 >> 4) .& 0x100) .|
                ((insn16 >> 7) .& 0x18) .|
                ((insn16 << 1) .& 0xc0) .|
                ((insn16 >> 2) .& 6) .|
                ((insn16 << 3) .& 0x20) in
  let imm2 := ((offset >> 6) .& 0x40) .| ((offset >> 5) .& 0x3f) in
  let imm1 := (offset .& 0x1e) .| ((offset >> 11) .& 1) in
  (imm2 << 25) .| ((r + 8) << 15) .| (imm1 << 7) .| 0x63.

Definition c_bnez (insn16 : Z) : Z :=
  let r := (insn16 >> 7) .& 7 in
  let offset := match insn16 .& 0x1000 with 0x1000 => 0xfffffe00 | _ => 0 end .|
                ((insn16 >> 4) .& 0x100) .|
                ((insn16 >> 7) .& 0x18) .|
                ((insn16 << 1) .& 0xc0) .|
                ((insn16 >> 2) .& 6) .|
                ((insn16 << 3) .& 0x20) in
  let imm2 := ((offset >> 6) .& 0x40) .| ((offset >> 5) .& 0x3f) in
  let imm1 := (offset .& 0x1e) .| ((offset >> 11) .& 1) in
  (imm2 << 25) .| ((r + 8) << 15) .| (1 << 12) .| (imm1 << 7) .| 0x63.

Definition uncompress_q1 (insn16 funct3 : Z) : option Z :=
  match funct3 with
  | 0 => Some (c_addi insn16)
  | 1 => Some (c_addiw insn16)
  | 2 => Some (c_li insn16)
  | 3 => Some (c_addi16sp_lui insn16)
  | 4 => c_misc_alu insn16
  | 5 => Some (c_j insn16)
  | 6 => Some (c_beqz insn16)
  | 7 => Some (c_bnez insn16)
  | _ => None
  end.

(** ** Quadrant 2 *)
Definition c_slli (insn16 : Z) : Z :=
  let r := (insn16 >> 7) .& 0x1f in
  let shamt := ((insn16 >> 7) .& 0x20) .| ((insn16 >> 2) .& 0x1f) in
  (shamt << 20) .| (r << 15) .| (1 << 12) .| (r << 7) .| 0x13.

Definition c_fldsp (insn16 : Z) : Z :=
  let rd := (insn16 >> 7) .& 0x1f in
  let offset := ((insn16 >> 7) .& 0x20) .| ((insn16 >> 2) .& 0x18) .| ((insn16 << 4) .& 0x1c0) in
  (offset << 20) .| (2 << 15) .| (3 << 12) .| (rd << 7) .| 7.

Definition c_lwsp (insn16 : Z) : Z :=
  let r := (insn16 >> 7) .& 0x1f in
  let offset := ((insn16 >> 7) .& 0x20) .| ((insn16 >> 2) .& 0x1c) .| ((insn16 << 4) .& 0xc0) in
  if r =? 0 then 0
  else (offset << 20) .| (2 << 15) .| (2 << 12) .| (r << 7) .| 3.

Definition c_ldsp (insn16 : Z) : Z :=
  let rd := (insn16 >> 7) .& 0x1f in
  let offset := ((insn16 >> 7) .& 0x20) .| ((insn16 >> 2) .& 0x18) .| ((insn16 << 4) .& 0x1c0) in
  if rd =? 0 then 0
  else (offset << 20) .| (2 << 15) .| (3 << 12) .| (rd << 7) .| 3.

(** C.JR, C.MV, C.EBREAK, C.JALR, C.ADD *)
Definition c_jr_mv_add (insn16 : Z) : option Z :=
  let funct1 := (insn16 >> 12) .& 1 in
  let rs1 := (insn16 >> 7) .& 0x1f in
  let rs2 := (insn16 >> 2) .& 0x1f in
  match funct1 with
  | 0 =>
      Some (if (rs1 =? 0) && (rs2 =? 0) then 0
            else if rs2 =? 0 then (rs1 << 15) .| 0x67
            else (rs2 << 20) .| (rs1 << 7) .| 0x33)
  | 1 =>
      Some (if (rs1 =? 0) && (rs2 =? 0) then 0x00100073
            else if negb (rs1 =? 0) && (rs2 =? 0) then (rs1 << 15) .| (1 << 7) .| 0x67
            else (rs2 << 20) .| (rs1 << 15) .| (rs1 << 7) .| 0x33)
  | _ => None
  end.

Definition c_fsdsp (insn16 : Z) : Z :=
  let rs2 := (insn16 >> 2) .& 0x1f in
  let offset := ((insn16 >> 7) .& 0x38) .| ((insn16 >> 1) .& 0x1c0) in
  let imm11_5 := (offset >> 5) .& 0x3f in
  let imm4_0 := offset .& 0x1f in
  (imm11_5 << 25) .| (rs2 << 20) .| (2 << 15) .| (3 << 12) .| (imm4_0 << 7) .| 0x27.

Definition c_swsp (insn16 : Z) : Z :=
  let rs2 := (insn16 >> 2) .& 0x1f in
  let offset := ((insn16 >> 7) .& 0x3c) .| ((insn16 >> 1) .& 0xc0) in
  let imm11_5 := (offset >> 5) .& 0x3f in
  let imm4_0 := offset .& 0x1f in
  (imm11_5 << 25) .| (rs2 << 20) .| (2 << 15) .| (2 << 12) .| (imm4_0 << 7) .| 0x23.

Definition c_sdsp (insn16 : Z) : Z :=
  let rs2 := (insn16 >> 2) .& 0x1f in
  let offset := ((insn16 >> 7) .& 0x38) .| ((insn16 >> 1) .& 0x1c0) in
  let imm11_5 := (offset >> 5) .& 0x3f in
  let imm4_0 := offset .& 0x1f in
  (imm11_5 << 25) .| (rs2 << 20) .| (2 << 15) .| (3 << 12) .| (imm4_0 << 7) .| 0x23.

Definition uncompress_q2 (insn16 funct3 : Z) : option Z :=
  match funct3 with
  | 0 => Some (c_slli insn16)
  | 1 => Some (c_fldsp insn16)
  | 2 => Some (c_lwsp insn16)
  | 3 => Some (c_ldsp insn16)
  | 4 => c_jr_mv_add insn16
  | 5 => Some (c_fsdsp insn16)
  | 6 => Some (c_swsp insn16)
  | 7 => Some (c_sdsp insn16)
  | _ => None
  end.

(** ** [fn uncompress(insn16: u32) -> u32] *)
Definition uncompress (insn16 : Z) : option Z :=
  let funct3 := (insn16 >> 13) .& 7 in
  match insn16 .& 3 with
  | 0 => uncompress_q0 insn16 funct3
  | 1 => uncompress_q1 insn16 funct3
  | 2 => uncompress_q2 insn16 funct3
  | _ => None
  end.

(** ** The unit test

    One iteration of the loop of [test_uncompress] and the loop; [None] is a panic of
    [uncompress] or of the table's index.  The test passes when the result is [Some 0]. *)
Definition test_step (fails insn16 : Z) : option Z :=
  if insn16 mod 4 =? 3 then Some fails
  else
    uncompressed ← uncompress insn16;
    e ← expanded insn16;
    if uncompressed =? e then Some fails else Some (fails + 1).

Definition test_uncompress : option Z :=
  foldl (fun acc insn16 => fails ← acc; test_step fails insn16) (Some 0) (seqZ 0 0x10000).
