(* ===== verification/RvcSpec.v ===== *)
(** * RvcSpec: the expansion table and the reference expander against the C extension

    The finite core is one executable check per 16-bit parcel, [entry_ok], evaluated over the
    whole table by the kernel; the theorems read their statements off it.  The extension to
    32-bit arguments (only the low half counts) is proved field by field. *)
From S2P Require Import Prelude Fmt Isa RvcTable Rvc.

(** ** The check *)

(** the 32-bit encoding of a decoded parcel; reserved encodings expand to zero *)
Definition encode_or_zero (o : option Isa.instr) : Z :=
  match o with Some i => Isa.encode i | None => 0 end.

Definition entry_ok (i e : Z) : bool :=
  match uncompress i with
  | Some u =>
      negb (i mod 4 =? 3) && (u =? e) && (u =? encode_or_zero (Isa.rvc_decode i)) &&
      match Isa.rvc_decode i with Some ins => Isa.wf ins | None => true end
  | None => (i mod 4 =? 3) && (e =? 0)
  end.

Fixpoint part_ok (i : Z) (l : list Z) : bool :=
  match l with [] => true | e :: l => entry_ok i e && part_ok (i + 1) l end.
Fixpoint parts_ok (i : Z) (parts : list (list Z)) : bool :=
  match parts with
  | [] => i =? 0x10000
  | p :: parts => (length p =? 1024)%nat && part_ok i p && parts_ok (i + 1024) parts
  end.

Lemma table_checked : parts_ok 0 RVC64_EXPANDED_parts = true.
Proof. vm_compute. reflexivity. Qed.

(** ** From the check to every entry *)
Lemma part_ok_lookup i l j :
  part_ok i l = true -> (j < length l)%nat ->
  exists e, l !! j = Some e /\ entry_ok (i + Z.of_nat j) e = true.
Proof.
  revert i j. induction l as [|e l IH]; intros i j H Hj; [simpl in Hj; lia|].
  cbn [part_ok] in H. apply andb_true_iff in H as [He Hl]. destruct j as [|j].
  - exists e. by rewrite Z.add_0_r.
  - destruct (IH (i + 1) j Hl) as (e' & ? & Hok); [simpl in Hj; lia|].
    exists e'. split; [done|]. by replace (i + Z.of_nat (S j)) with (i + 1 + Z.of_nat j) by lia.
Qed.

Lemma parts_ok_lookup i parts n :
  parts_ok i parts = true -> i <= n < 0x10000 ->
  exists e, concat parts !! Z.to_nat (n - i) = Some e /\ entry_ok n e = true.
Proof.
  revert i. induction parts as [|p parts IH]; intros i H Hn; cbn [parts_ok] in H.
  - apply Z.eqb_eq in H. lia.
  - apply andb_true_iff in H as [H Hrest]. apply andb_true_iff in H as [Hlen Hp].
    apply Nat.eqb_eq in Hlen. cbn [concat].
    destruct (decide (n < i + 1024)) as [Hlt|Hge].
    + destruct (part_ok_lookup i p (Z.to_nat (n - i)) Hp) as (e & ? & Hok); [lia|].
      exists e. rewrite lookup_app_l by lia. split; [done|].
      by replace (i + Z.of_nat (Z.to_nat (n - i))) with n in Hok by lia.
    + destruct (IH (i + 1024) Hrest) as (e & ? & ?); [lia|].
      exists e. rewrite lookup_app_r by lia.
      by replace (Z.to_nat (n - i) - length p)%nat with (Z.to_nat (n - (i + 1024))) by lia.
Qed.

Lemma expanded_ok i :
  0 <= i < 0x10000 -> exists e, expanded i = Some e /\ entry_ok i e = true.
Proof.
  intros Hi. destruct (parts_ok_lookup 0 _ i table_checked Hi) as (e & He & Hok).
  exists e. split; [|done]. unfold expanded, RVC64_EXPANDED. by rewrite Z.sub_0_r in He.
Qed.

(** what the check says of a compressed parcel and of the fourth quadrant *)
Lemma parcel_ok i :
  0 <= i < 0x10000 -> i mod 4 ≠ 3 ->
  let e := encode_or_zero (Isa.rvc_decode i) in
  expanded i = Some e /\ uncompress i = Some e /\
  (forall ins, Isa.rvc_decode i = Some ins -> Isa.wf ins = true).
Proof.
  intros Hi Hq. destruct (expanded_ok i Hi) as (e & He & Hok).
  unfold entry_ok in Hok. destruct (uncompress i) as [u|].
  - apply andb_true_iff in Hok as [Hok Hwf]. apply andb_true_iff in Hok as [Hok E2].
    apply andb_true_iff in Hok as [_ E1]. apply Z.eqb_eq in E1 as ->, E2 as ->.
    split_and!; [done..|]. intros ins Hins. by rewrite Hins in Hwf.
  - apply andb_true_iff in Hok as [H3 _]. apply Z.eqb_eq in H3. done.
Qed.

Lemma quadrant3_ok i :
  0 <= i < 0x10000 -> i mod 4 = 3 -> expanded i = Some 0 /\ uncompress i = None.
Proof.
  intros Hi Hq. destruct (expanded_ok i Hi) as (e & He & Hok).
  unfold entry_ok in Hok. rewrite Hq in Hok. destruct (uncompress i) as [u|]; [done|].
  cbn in Hok. apply Z.eqb_eq in Hok as ->. done.
Qed.

(** ** Only the low half of the argument counts

    Every field of [uncompress] masks bits 0 to 15; the three lemmas move the mask out of a
    field, the side condition being that the field stays within those bits. *)
Section low_half.
Context (w : Z).
Let h := w .& 0xffff.

Lemma low_mask m : 0xffff .& m = m -> h .& m = w .& m.
Proof. intros Hm. unfold h. by rewrite <- Z.land_assoc, Hm. Qed.
Lemma low_shr k m : (0xffff >> k) .& m = m -> (h >> k) .& m = (w >> k) .& m.
Proof. intros Hm. unfold h. by rewrite Z.shiftr_land, <- Z.land_assoc, Hm. Qed.
Lemma low_shl n m :
  (Z.shiftl 0xffff n) .& (0xffffffff .& m) = 0xffffffff .& m -> (h << n) .& m = (w << n) .& m.
Proof.
  intros Hm. unfold h, shl32. by rewrite Z.shiftl_land, <- !Z.land_assoc, Hm.
Qed.
End low_half.

Create Rewrite HintDb low.
#[export] Hint Rewrite low_mask low_shr low_shl using reflexivity : low.

Lemma uncompress_low_half w : uncompress (w .& 0xffff) = uncompress w.
Proof.
  unfold uncompress, uncompress_q0, uncompress_q1, uncompress_q2, c_misc_alu, c_arith,
    c_jr_mv_add, c_addi4spn, c_fld, c_lw, c_ld, c_fsd, c_sw, c_sd, c_addi, c_addiw, c_li,
    c_addi16sp_lui, c_srli, c_srai, c_andi, c_j, c_beqz, c_bnez, c_slli, c_fldsp, c_lwsp,
    c_ldsp, c_fsdsp, c_swsp, c_sdsp.
  autorewrite with low. reflexivity.
Qed.

Lemma low_half_mod w : w .& 0xffff = w mod 2 ^ 16.
Proof. apply (land_ones_mod w 16). lia. Qed.

Lemma low_half_range w : 0 <= w .& 0xffff < 0x10000.
Proof. rewrite low_half_mod. apply Z.mod_pos_bound. lia. Qed.

Lemma low_half_mod4 w : (w .& 0xffff) mod 4 = w mod 4.
Proof. rewrite low_half_mod. Z.div_mod_to_equations; lia. Qed.

(** ** The expansion is a 32-bit instruction *)
Lemma uncompress_spec w :
  w mod 4 ≠ 3 ->
  uncompress w = Some (encode_or_zero (Isa.rvc_decode (w .& 0xffff))) /\
  (forall i, Isa.rvc_decode (w .& 0xffff) = Some i -> Isa.wf i = true).
Proof.
  intros Hq. rewrite <- low_half_mod4 in Hq. rewrite <- uncompress_low_half.
  destruct (parcel_ok _ (low_half_range w) Hq) as (_ & H). exact H.
Qed.

Lemma uncompress_panic w : w mod 4 = 3 -> uncompress w = None.
Proof.
  intros Hq. rewrite <- low_half_mod4 in Hq. rewrite <- uncompress_low_half.
  by apply quadrant3_ok; [apply low_half_range|].
Qed.

(** ** The unit test's loop *)
Lemma test_step_ok i : 0 <= i < 0x10000 -> test_step 0 i = Some 0.
Proof.
  intros Hi. unfold test_step. destruct (Z.eqb_spec (i mod 4) 3) as [|Hq]; [done|].
  destruct (parcel_ok i Hi Hq) as (-> & -> & _). cbn. by rewrite Z.eqb_refl.
Qed.

Lemma test_loop l :
  Forall (fun i => 0 <= i < 0x10000) l ->
  foldl (fun acc i => fails ← acc; test_step fails i) (Some 0) l = Some 0.
Proof.
  induction 1 as [|i l Hi _ IH]; [done|]. cbn. by rewrite test_step_ok.
Qed.

(** a parcel that decodes is not of quadrant 3 *)
Lemma parcel_decode_quadrant h i : Isa.rvc_decode h = Some i -> h mod 4 ≠ 3.
Proof.
  intros Hi Hq. unfold Isa.rvc_decode, Isa.gather in Hi. cbn [fold_left] in Hi.
  rewrite Z.bit0_mod, Z.testbit_spec' in Hi by lia. change (2 ^ 1) with 2 in Hi.
  assert (E : h mod 2 = 1 /\ (h / 2) mod 2 = 1) by (Z.div_mod_to_equations; lia).
  destruct E as [E1 E2]. rewrite E1, E2 in Hi. done.
Qed.
