(* ===== verification/Rvdisasm.v ===== *)
(** * Rvdisasm: the disassembler tools/rvdisasm/src/lib.rs

    [disasm] with the field and immediate extractors it uses.  A [u32] is a [Z]; an [i64] a
    signed [Z]; indexing a name table out of bounds panics, so every text is an [option] and
    [None] is the panic.  The arms of the opcode [match] are definitions of their own; each
    takes the instruction, the register numbers [d], [a], [b] and, where the arm prints a
    target, the closure [tgt]. *)
From S2P Require Import Prelude Fmt.

Definition X : list string := [
  "zero"; "ra"; "sp"; "gp"; "tp"; "t0"; "t1"; "t2"; "s0"; "s1"; "a0"; "a1"; "a2"; "a3"; "a4";
  "a5"; "a6"; "a7"; "s2"; "s3"; "s4"; "s5"; "s6"; "s7"; "s8"; "s9"; "s10"; "s11"; "t3"; "t4";
  "t5"; "t6"].
Definition F : list string := [
  "ft0"; "ft1"; "ft2"; "ft3"; "ft4"; "ft5"; "ft6"; "ft7"; "fs0"; "fs1"; "fa0"; "fa1"; "fa2";
  "fa3"; "fa4"; "fa5"; "fa6"; "fa7"; "fs2"; "fs3"; "fs4"; "fs5"; "fs6"; "fs7"; "fs8"; "fs9";
  "fs10"; "fs11"; "ft8"; "ft9"; "ft10"; "ft11"].

(** [T[i]] for an array [T] and a [usize] index *)
Definition at_ {A} (T : list A) (i : Z) : option A := T !! Z.to_nat i.

(** ** Fields and immediates *)
Definition rd (i : Z) : Z := (i >> 7) .& 0x1f.
Definition rs1 (i : Z) : Z := (i >> 15) .& 0x1f.
Definition rs2 (i : Z) : Z := (i >> 20) .& 0x1f.
Definition f3 (i : Z) : Z := (i >> 12) .& 0x7.
Definition f7 (i : Z) : Z := (i >> 25) .& 0x7f.

Definition sext (v bits : Z) : Z :=
  let shift := 64 - bits in
  (shl_i64 v shift) >> shift.
Definition imm_i (i : Z) : Z := sext (i >> 20) 12.
Definition imm_s (i : Z) : Z := sext (((i >> 25) << 5) .| ((i >> 7) .& 0x1f)) 12.
Definition imm_b (i : Z) : Z :=
  let v := (((i >> 31) .& 1) << 12)
    .| (((i >> 7) .& 1) << 11)
    .| (((i >> 25) .& 0x3f) << 5)
    .| (((i >> 8) .& 0xf) << 1) in
  sext v 13.
Definition imm_u (i : Z) : Z := wrap_i32 (i .& 0xfffff000).
Definition imm_j (i : Z) : Z :=
  let v := (((i >> 31) .& 1) << 20)
    .| (((i >> 12) .& 0xff) << 12)
    .| (((i >> 20) .& 1) << 11)
    .| (((i >> 21) .& 0x3ff) << 1) in
  sext v 21.

Definition csr_name (c : Z) : string :=
  match c with
  | 0x001 => "fflags"
  | 0x002 => "frm"
  | 0x003 => "fcsr"
  | 0x100 => "sstatus"
  | 0x104 => "sie"
  | 0x105 => "stvec"
  | 0x106 => "scounteren"
  | 0x10a => "senvcfg"
  | 0x140 => "sscratch"
  | 0x141 => "sepc"
  | 0x142 => "scause"
  | 0x143 => "stval"
  | 0x144 => "sip"
  | 0x14d => "stimecmp"
  | 0x180 => "satp"
  | 0x300 => "mstatus"
  | 0x301 => "misa"
  | 0x302 => "medeleg"
  | 0x303 => "mideleg"
  | 0x304 => "mie"
  | 0x305 => "mtvec"
  | 0x306 => "mcounteren"
  | 0x30a => "menvcfg"
  | 0x340 => "mscratch"
  | 0x341 => "mepc"
  | 0x342 => "mcause"
  | 0x343 => "mtval"
  | 0x344 => "mip"
  | 0xc00 => "cycle"
  | 0xc01 => "time"
  | 0xc02 => "instret"
  | 0xf11 => "mvendorid"
  | 0xf12 => "marchid"
  | 0xf13 => "mimpid"
  | 0xf14 => "mhartid"
  | _ => "0x" +:+ fmt_hex c
  end.

(** ** The arms of [disasm] *)

(** [format!("{:<7} {}", m, rest)] and the operand lists of the format strings *)
Definition fmt_m (m rest : string) : string := pad_left_align 7 m +:+ " " +:+ rest.
Definition raw_insn (insn : Z) : string := ".insn   0x" +:+ fmt_hex_zero 8 insn.

Definition disasm_jal (insn d : Z) (tgt : Z -> string) : option string :=
  if d =? 0 then Some ("j       " +:+ tgt (imm_j insn))
  else if d =? 1 then Some ("jal     " +:+ tgt (imm_j insn))
  else xd ← at_ X d; Some ("jal     " +:+ xd +:+ "," +:+ tgt (imm_j insn)).

Definition disasm_jalr (insn d a : Z) : option string :=
  let im := imm_i insn in
  if (d =? 0) && (a =? 1) && (im =? 0) then Some "ret"
  else if (d =? 0) && (im =? 0) then xa ← at_ X a; Some ("jr      " +:+ xa)
  else if d =? 0 then
    xd ← at_ X d; xa ← at_ X a; Some ("jalr    " +:+ xd +:+ "," +:+ fmt_dec im +:+ "(" +:+ xa +:+ ")")
  else
    xd ← at_ X d; xa ← at_ X a; Some ("jalr    " +:+ xd +:+ "," +:+ fmt_dec im +:+ "(" +:+ xa +:+ ")").

Definition disasm_branch (insn a b : Z) (tgt : Z -> string) : option string :=
  m ← at_ ["beq"; "bne"; "?"; "?"; "blt"; "bge"; "bltu"; "bgeu"] (f3 insn);
  let t := tgt (imm_b insn) in
  if (b =? 0) && ((f3 insn =? 0) || (f3 insn =? 1)) then
    let p := if f3 insn =? 0 then "beqz" else "bnez" in
    xa ← at_ X a; Some (fmt_m p (xa +:+ "," +:+ t))
  else
    xa ← at_ X a; xb ← at_ X b; Some (fmt_m m (xa +:+ "," +:+ xb +:+ "," +:+ t)).

(** [format!("{:<7} {},{}({})", m, r, im, base)] *)
Definition fmt_mem (m r : string) (im : Z) (base : string) : string :=
  fmt_m m (r +:+ "," +:+ fmt_dec im +:+ "(" +:+ base +:+ ")").

Definition disasm_load (insn d a : Z) : option string :=
  m ← at_ ["lb"; "lh"; "lw"; "ld"; "lbu"; "lhu"; "lwu"; "?"] (f3 insn);
  xd ← at_ X d; xa ← at_ X a; Some (fmt_mem m xd (imm_i insn) xa).

Definition disasm_store (insn a b : Z) : option string :=
  m ← at_ ["sb"; "sh"; "sw"; "sd"; "?"; "?"; "?"; "?"] (f3 insn);
  xb ← at_ X b; xa ← at_ X a; Some (fmt_mem m xb (imm_s insn) xa).

(** [format!("{m}{},{},{}", X[d], X[a], im)] and with two operands, [m] the literal prefix *)
Definition fmt_dai (m : string) (d a im : Z) : option string :=
  xd ← at_ X d; xa ← at_ X a; Some (m +:+ xd +:+ "," +:+ xa +:+ "," +:+ fmt_dec im).
Definition fmt_da (m : string) (d a : Z) : option string :=
  xd ← at_ X d; xa ← at_ X a; Some (m +:+ xd +:+ "," +:+ xa).

Definition disasm_op_imm (insn d a : Z) : option string :=
  let im := imm_i insn in
  match f3 insn with
  | 0 =>
      if (d =? 0) && (a =? 0) && (im =? 0) then Some "nop"
      else if im =? 0 then fmt_da "mv      " d a
      else if a =? 0 then xd ← at_ X d; Some ("li      " +:+ xd +:+ "," +:+ fmt_dec im)
      else fmt_dai "addi    " d a im
  | 1 => fmt_dai "slli    " d a ((insn >> 20) .& 0x3f)
  | 2 => fmt_dai "slti    " d a im
  | 3 => fmt_dai "sltiu   " d a im
  | 4 => if im =? -1 then fmt_da "not     " d a else fmt_dai "xori    " d a im
  | 5 =>
      if negb (f7 insn .& 0x20 =? 0) then fmt_dai "srai    " d a ((insn >> 20) .& 0x3f)
      else fmt_dai "srli    " d a ((insn >> 20) .& 0x3f)
  | 6 => fmt_dai "ori     " d a im
  | _ => fmt_dai "andi    " d a im
  end.

Definition disasm_op_imm_32 (insn d a : Z) : option string :=
  let im := imm_i insn in
  match f3 insn with
  | 0 =>
      if a =? 0 then xd ← at_ X d; Some ("li      " +:+ xd +:+ "," +:+ fmt_dec im +:+ "  # sext.w")
      else fmt_dai "addiw   " d a im
  | 1 => fmt_dai "slliw   " d a ((insn >> 20) .& 0x1f)
  | 5 =>
      if negb (f7 insn .& 0x20 =? 0) then fmt_dai "sraiw   " d a ((insn >> 20) .& 0x1f)
      else fmt_dai "srliw   " d a ((insn >> 20) .& 0x1f)
  | _ => fmt_dai "srliw   " d a ((insn >> 20) .& 0x1f)
  end.

(** [format!("{:<7} {},{},{}", m, X[d], X[a], X[b])] *)
Definition fmt_dab (m : string) (d a b : Z) : option string :=
  xd ← at_ X d; xa ← at_ X a; xb ← at_ X b; Some (fmt_m m (xd +:+ "," +:+ xa +:+ "," +:+ xb)).

Definition disasm_op (insn d a b : Z) : option string :=
  if f7 insn =? 1 then
    m ← at_ ["mul"; "mulh"; "mulhsu"; "mulhu"; "div"; "divu"; "rem"; "remu"] (f3 insn);
    fmt_dab m d a b
  else
    let alt := negb (f7 insn .& 0x20 =? 0) in
    let m := match f3 insn with
             | 0 => if alt then "sub" else "add"
             | 1 => "sll"
             | 2 => "slt"
             | 3 => "sltu"
             | 4 => "xor"
             | 5 => if alt then "sra" else "srl"
             | 6 => "or"
             | _ => "and"
             end in
    if (f3 insn =? 0) && alt && (a =? 0) then fmt_da "neg     " d b
    else fmt_dab m d a b.

Definition disasm_op_32 (insn d a b : Z) : option string :=
  if f7 insn =? 1 then
    m ← at_ ["mulw"; "?"; "?"; "?"; "divw"; "divuw"; "remw"; "remuw"] (f3 insn);
    fmt_dab m d a b
  else
    let alt := negb (f7 insn .& 0x20 =? 0) in
    let m := match f3 insn with
             | 0 => if alt then "subw" else "addw"
             | 1 => "sllw"
             | 5 => if alt then "sraw" else "srlw"
             | _ => "?"
             end in
    fmt_dab m d a b.

Definition disasm_misc_mem (insn : Z) : option string :=
  if f3 insn =? 1 then Some "fence.i" else Some "fence".

(** [format!("{m}{},{}", X[d], c)] and [format!("{m}{},{},{}", X[d], c, r)], [c] the CSR's name *)
Definition fmt_dc (m : string) (d : Z) (c : string) : option string :=
  xd ← at_ X d; Some (m +:+ xd +:+ "," +:+ c).
Definition fmt_dcr (m : string) (d : Z) (c r : string) : option string :=
  xd ← at_ X d; Some (m +:+ xd +:+ "," +:+ c +:+ "," +:+ r).

Definition disasm_system (insn d a b : Z) : option string :=
  let c := csr_name (insn >> 20) in
  match f3 insn with
  | 0 =>
      if insn =? 0x00000073 then Some "ecall"
      else if insn =? 0x00100073 then Some "ebreak"
      else if insn =? 0x30200073 then Some "mret"
      else if insn =? 0x10200073 then Some "sret"
      else if insn =? 0x10500073 then Some "wfi"
      else if f7 insn =? 0x09 then
        xa ← at_ X a; xb ← at_ X b; Some ("sfence.vma " +:+ xa +:+ "," +:+ xb)
      else Some (raw_insn insn)
  | 1 => if d =? 0 then xa ← at_ X a; Some ("csrw    " +:+ c +:+ "," +:+ xa)
         else xa ← at_ X a; fmt_dcr "csrrw   " d c xa
  | 2 => if a =? 0 then fmt_dc "csrr    " d c
         else xa ← at_ X a; fmt_dcr "csrrs   " d c xa
  | 3 => xa ← at_ X a; fmt_dcr "csrrc   " d c xa
  | 5 => if d =? 0 then Some ("csrwi   " +:+ c +:+ "," +:+ fmt_dec a)
         else fmt_dcr "csrrwi  " d c (fmt_dec a)
  | 6 => fmt_dcr "csrrsi  " d c (fmt_dec a)
  | 7 => fmt_dcr "csrrci  " d c (fmt_dec a)
  | _ => Some (raw_insn insn)
  end.

Definition disasm_amo (insn d a b : Z) : option string :=
  let w := if f3 insn =? 3 then "d" else "w" in
  let m := match f7 insn >> 2 with
           | 0x00 => "amoadd"
           | 0x01 => "amoswap"
           | 0x02 => "lr"
           | 0x03 => "sc"
           | 0x04 => "amoxor"
           | 0x08 => "amoor"
           | 0x0c => "amoand"
           | 0x10 => "amomin"
           | 0x14 => "amomax"
           | 0x18 => "amominu"
           | 0x1c => "amomaxu"
           | _ => "amo?"
           end in
  if (f7 insn >> 2) =? 0x02 then
    xd ← at_ X d; xa ← at_ X a;
    Some (m +:+ "." +:+ w +:+ "  " +:+ xd +:+ ",(" +:+ xa +:+ ")")
  else
    xd ← at_ X d; xb ← at_ X b; xa ← at_ X a;
    Some (m +:+ "." +:+ w +:+ "  " +:+ xd +:+ "," +:+ xb +:+ ",(" +:+ xa +:+ ")").

Definition disasm_load_fp (insn d a : Z) : option string :=
  let m := if f3 insn =? 3 then "fld" else "flw" in
  fd ← at_ F d; xa ← at_ X a; Some (fmt_mem m fd (imm_i insn) xa).

Definition disasm_store_fp (insn a b : Z) : option string :=
  let m := if f3 insn =? 3 then "fsd" else "fsw" in
  fb ← at_ F b; xa ← at_ X a; Some (fmt_mem m fb (imm_s insn) xa).

(** lui and auipc: [format!("{m}{},0x{:x}", X[d], (imm_u(insn) >> 12) & 0xfffff)] *)
Definition disasm_upper (m : string) (insn d : Z) : option string :=
  xd ← at_ X d; Some (m +:+ xd +:+ ",0x" +:+ fmt_hex ((imm_u insn >> 12) .& 0xfffff)).

(** ** [pub fn disasm(insn: u32, pc: u64) -> String] *)
Definition disasm (insn pc : Z) : option string :=
  let op := insn .& 0x7f in
  let d := rd insn in
  let a := rs1 insn in
  let b := rs2 insn in
  let tgt := fun imm : Z => fmt_hex (wrap_u64 (pc + wrap_u64 imm)) in
  match op with
  | 0x37 => disasm_upper "lui     " insn d
  | 0x17 => disasm_upper "auipc   " insn d
  | 0x6f => disasm_jal insn d tgt
  | 0x67 => disasm_jalr insn d a
  | 0x63 => disasm_branch insn a b tgt
  | 0x03 => disasm_load insn d a
  | 0x23 => disasm_store insn a b
  | 0x13 => disasm_op_imm insn d a
  | 0x1b => disasm_op_imm_32 insn d a
  | 0x33 => disasm_op insn d a b
  | 0x3b => disasm_op_32 insn d a b
  | 0x0f => disasm_misc_mem insn
  | 0x73 => disasm_system insn d a b
  | 0x2f => disasm_amo insn d a b
  | 0x07 => disasm_load_fp insn d a
  | 0x27 => disasm_store_fp insn a b
  | _ => Some (raw_insn insn)
  end.
