(* ===== verification/RvdisasmFields.v ===== *)
(** * RvdisasmFields: the field and immediate extractors against the instruction formats

    Every format is an R-type word with its immediate spread over the fields; the extractors
    of the disassembler read the fields of an R-type word back, and each [imm_*] is the
    two's complement value of the bits its format stores. *)
From S2P Require Import Prelude Fmt Isa Rvdisasm.
Import Isa.

(** ** Two's complement *)
Lemma wrap_signed_range n x : 0 < n -> - 2 ^ (n - 1) <= wrap_signed n x < 2 ^ (n - 1).
Proof.
  intros Hn. unfold wrap_signed.
  pose proof (Z.mod_pos_bound (x + 2 ^ (n - 1)) (2 ^ n) ltac:(apply Z.pow_pos_nonneg; lia)).
  replace (2 ^ n) with (2 * 2 ^ (n - 1)) in *; [lia|].
  rewrite <- Z.pow_succ_r by lia. f_equal. lia.
Qed.

Lemma wrap_signed_mod n x : 0 < n -> wrap_signed n x mod 2 ^ n = x mod 2 ^ n.
Proof.
  intros Hn. unfold wrap_signed. rewrite Zminus_mod_idemp_l. f_equal. lia.
Qed.

(** a number that fits is the value of its low bits *)
Lemma wrap_signed_of_mod n x y :
  0 < n -> - 2 ^ (n - 1) <= x < 2 ^ (n - 1) -> y = x mod 2 ^ n -> wrap_signed n y = x.
Proof.
  intros Hn Hx ->. unfold wrap_signed. rewrite Zplus_mod_idemp_l, Z.mod_small; [lia|].
  replace (2 ^ n) with (2 * 2 ^ (n - 1)); [lia|].
  rewrite <- Z.pow_succ_r by lia. f_equal. lia.
Qed.

Lemma sext_wrap v bits : 0 < bits <= 64 -> sext v bits = wrap_signed bits v.
Proof.
  intros Hb. unfold sext, shl_i64, wrap_i64, wrap_signed.
  rewrite Z.shiftl_mul_pow2, Z.shiftr_div_pow2 by lia.
  assert (0 < 2 ^ (64 - bits)) by (apply Z.pow_pos_nonneg; lia).
  replace (2 ^ (64 - 1)) with (2 ^ (bits - 1) * 2 ^ (64 - bits))
    by (rewrite <- Z.pow_add_r by lia; f_equal; lia).
  replace (2 ^ 64) with (2 ^ bits * 2 ^ (64 - bits))
    by (rewrite <- Z.pow_add_r by lia; f_equal; lia).
  rewrite <- Z.mul_add_distr_r, Z.mul_mod_distr_r by lia.
  rewrite <- Z.mul_sub_distr_r. apply Z.div_mul. lia.
Qed.

(** ** Fields as quotients and remainders *)
Lemma rd_eq i : rd i = (i / 2 ^ 7) mod 2 ^ 5.
Proof. apply (field_div_mod i 7 5); lia. Qed.
Lemma rs1_eq i : rs1 i = (i / 2 ^ 15) mod 2 ^ 5.
Proof. apply (field_div_mod i 15 5); lia. Qed.
Lemma rs2_eq i : rs2 i = (i / 2 ^ 20) mod 2 ^ 5.
Proof. apply (field_div_mod i 20 5); lia. Qed.
Lemma f3_eq i : f3 i = (i / 2 ^ 12) mod 2 ^ 3.
Proof. apply (field_div_mod i 12 3); lia. Qed.
Lemma f7_eq i : f7 i = (i / 2 ^ 25) mod 2 ^ 7.
Proof. apply (field_div_mod i 25 7); lia. Qed.
Lemma op_eq i : i .& 0x7f = i mod 2 ^ 7.
Proof. apply (land_ones_mod i 7); lia. Qed.

(** [shl32] of a field that stays inside the word *)
Lemma shl32_small a n : 0 <= n -> 0 <= a -> a * 2 ^ n < 2 ^ 32 -> a << n = a * 2 ^ n.
Proof.
  intros. unfold shl32. rewrite Z.shiftl_mul_pow2 by done.
  rewrite (land_ones_mod _ 32) by lia. apply Z.mod_small.
  pose proof (Z.pow_nonneg 2 n). nia.
Qed.

Definition R_ok (f7v rs2v rs1v f3v rdv op : Z) : Prop :=
  0 <= f7v < 2 ^ 7 /\ 0 <= rs2v < 2 ^ 5 /\ 0 <= rs1v < 2 ^ 5 /\ 0 <= f3v < 2 ^ 3 /\
  0 <= rdv < 2 ^ 5 /\ 0 <= op < 2 ^ 7.

Section word.
Context (f7v rs2v rs1v f3v rdv op : Z) (Hok : R_ok f7v rs2v rs1v f3v rdv op).
Let w := enc_R f7v rs2v rs1v f3v rdv op.

Ltac word_lia :=
  unfold w, enc_R, R_ok in *; Z.div_mod_to_equations; lia.

Lemma enc_R_u32 : is_u32 w.
Proof. unfold is_u32. word_lia. Qed.
Lemma enc_R_op : w .& 0x7f = op.
Proof. rewrite op_eq. word_lia. Qed.
Lemma enc_R_rd : rd w = rdv.
Proof. rewrite rd_eq. word_lia. Qed.
Lemma enc_R_f3 : f3 w = f3v.
Proof. rewrite f3_eq. word_lia. Qed.
Lemma enc_R_rs1 : rs1 w = rs1v.
Proof. rewrite rs1_eq. word_lia. Qed.
Lemma enc_R_rs2 : rs2 w = rs2v.
Proof. rewrite rs2_eq. word_lia. Qed.
Lemma enc_R_f7 : f7 w = f7v.
Proof. rewrite f7_eq. word_lia. Qed.
Lemma enc_R_hi12 : w >> 20 = f7v * 2 ^ 5 + rs2v.
Proof. rewrite Z.shiftr_div_pow2 by lia. word_lia. Qed.
End word.

(** ** Immediates by format *)
Ltac fields_lia := unfold enc_I, enc_S, enc_B, enc_U, enc_J, enc_R, R_ok in *;
  Z.div_mod_to_equations; lia.

Lemma enc_I_R imm rs1v f3v rdv op :
  enc_I imm rs1v f3v rdv op = enc_R ((imm mod 2 ^ 12) / 2 ^ 5) ((imm mod 2 ^ 12) mod 2 ^ 5) rs1v f3v rdv op.
Proof. fields_lia. Qed.

Lemma enc_I_ok imm rs1v f3v rdv op :
  0 <= rs1v < 2 ^ 5 -> 0 <= f3v < 2 ^ 3 -> 0 <= rdv < 2 ^ 5 -> 0 <= op < 2 ^ 7 ->
  R_ok ((imm mod 2 ^ 12) / 2 ^ 5) ((imm mod 2 ^ 12) mod 2 ^ 5) rs1v f3v rdv op.
Proof. intros. fields_lia. Qed.

Lemma enc_U_R imm rdv op :
  enc_U imm rdv op = enc_R (imm / 2 ^ 13) ((imm / 2 ^ 8) mod 2 ^ 5) ((imm / 2 ^ 3) mod 2 ^ 5) (imm mod 2 ^ 3) rdv op.
Proof. fields_lia. Qed.

Lemma enc_U_ok imm rdv op :
  0 <= imm < 2 ^ 20 -> 0 <= rdv < 2 ^ 5 -> 0 <= op < 2 ^ 7 ->
  R_ok (imm / 2 ^ 13) ((imm / 2 ^ 8) mod 2 ^ 5) ((imm / 2 ^ 3) mod 2 ^ 5) (imm mod 2 ^ 3) rdv op.
Proof. intros. fields_lia. Qed.

(** a one- or several-bit field of a word, shifted into place *)
Lemma field_shl w k m n s :
  m = Z.ones n -> 0 <= k -> 0 <= n -> 0 <= s -> n + s <= 32 ->
  Z.land (Z.shiftr w k) m << s = (w / 2 ^ k) mod 2 ^ n * 2 ^ s.
Proof.
  intros ->. intros. rewrite field_div_mod by done.
  pose proof (Z.mod_pos_bound (w / 2 ^ k) (2 ^ n) ltac:(apply Z.pow_pos_nonneg; lia)).
  apply shl32_small; [done|lia|].
  apply Z.lt_le_trans with (2 ^ (n + s)); [|apply Z.pow_le_mono_r; lia].
  rewrite Z.pow_add_r by lia. apply Z.mul_lt_mono_pos_r; [apply Z.pow_pos_nonneg; lia|lia].
Qed.

Lemma imm_i_eq w : is_u32 w -> imm_i w = wrap_signed 12 (w / 2 ^ 20).
Proof. intros. unfold imm_i. by rewrite sext_wrap, Z.shiftr_div_pow2 by lia. Qed.

Lemma imm_s_eq w :
  is_u32 w -> imm_s w = wrap_signed 12 (w / 2 ^ 25 * 2 ^ 5 + (w / 2 ^ 7) mod 2 ^ 5).
Proof.
  unfold is_u32. intros Hw. unfold imm_s. rewrite sext_wrap by lia. f_equal.
  change 0x1f with (Z.ones 5).
  rewrite (field_div_mod w 7 5), (Z.shiftr_div_pow2 w 25) by lia.
  rewrite shl32_small by (Z.div_mod_to_equations; lia).
  apply (lor_add 5); Z.div_mod_to_equations; lia.
Qed.

Lemma imm_b_eq w :
  is_u32 w ->
  imm_b w = wrap_signed 13 (f7 w / 2 ^ 6 * 2 ^ 12 + rd w mod 2 * 2 ^ 11
                            + f7 w mod 2 ^ 6 * 2 ^ 5 + rd w / 2 * 2).
Proof.
  unfold is_u32. intros Hw. unfold imm_b. rewrite sext_wrap by lia. f_equal.
  rewrite (field_shl w 31 1 1 12), (field_shl w 7 1 1 11), (field_shl w 25 _ 6 5),
    (field_shl w 8 _ 4 1) by first [reflexivity|lia].
  rewrite (lor_add 12 (_ * 2 ^ 12)), (lor_add 11 (_ + _)), (lor_add 5 (_ + _))
    by (Z.div_mod_to_equations; lia).
  rewrite f7_eq, rd_eq. Z.div_mod_to_equations; lia.
Qed.

Lemma imm_j_eq w u :
  is_u32 w -> w / 2 ^ 12 = u ->
  imm_j w = wrap_signed 21 (u / 2 ^ 19 * 2 ^ 20 + u mod 2 ^ 8 * 2 ^ 12
                            + (u / 2 ^ 8) mod 2 * 2 ^ 11 + (u / 2 ^ 9) mod 2 ^ 10 * 2).
Proof.
  unfold is_u32. intros Hw Hu. unfold imm_j. rewrite sext_wrap by lia. f_equal.
  rewrite (field_shl w 31 1 1 20), (field_shl w 12 _ 8 12), (field_shl w 20 1 1 11),
    (field_shl w 21 _ 10 1) by first [reflexivity|lia].
  rewrite (lor_add 20 (_ * 2 ^ 20)), (lor_add 12 (_ + _)), (lor_add 11 (_ + _)) by (Z.div_mod_to_equations; lia).
  subst u. Z.div_mod_to_equations; lia.
Qed.

Lemma imm_u_eq w : is_u32 w -> imm_u w = wrap_signed 32 (w / 2 ^ 12 * 2 ^ 12).
Proof.
  unfold is_u32. intros Hw. unfold imm_u, wrap_i32. f_equal.
  change 0xfffff000 with (Z.shiftl (Z.ones 20) 12).
  rewrite land_shifted, field_div_mod, Z.shiftl_mul_pow2 by lia.
  Z.div_mod_to_equations; lia.
Qed.

(** reducing modulo a power of two keeps divisibility by a smaller one *)
Lemma wrap_signed_multiple n m x :
  0 <= m -> m < n -> x mod 2 ^ m = 0 -> wrap_signed n x mod 2 ^ m = 0.
Proof.
  intros Hm Hn Hx. pose proof (wrap_signed_mod n x ltac:(lia)) as E.
  assert (2 ^ n = 2 ^ (n - m) * 2 ^ m) as Hp by (rewrite <- Z.pow_add_r by lia; f_equal; lia).
  assert (0 < 2 ^ m) by (apply Z.pow_pos_nonneg; lia).
  assert (0 < 2 ^ (n - m)) by (apply Z.pow_pos_nonneg; lia).
  assert (Hmm : forall y, (y mod 2 ^ n) mod 2 ^ m = y mod 2 ^ m).
  { intros y. rewrite Hp, Z.mul_comm, Z.rem_mul_r by lia.
    rewrite Z.mul_comm, Z_mod_plus_full. apply Z.mod_mod. lia. }
  rewrite <- (Hmm (wrap_signed n x)), E, Hmm. done.
Qed.
