(* ===== verification/RvdisasmSpec.v ===== *)
(** * RvdisasmSpec: [disasm] prints the assembly text of every encoded instruction

    One lemma per format gathers the fields of an encoded word, one per arm relates the arm's
    text to [Isa.text]; [print_instr] puts them together.  Three forms print less or other than
    [Isa.text] ([lossless] is false for them): a fence that does not order everything, an atomic
    with an ordering bit, and an [addiw] from [zero]; [abridged] is what they print. *)
From S2P Require Import Prelude Fmt Isa Rvdisasm RvdisasmFields.
Import Isa.

(** ** What is lost *)
Definition lossless (i : instr) : bool :=
  match i with
  | Fence pred succ => (pred =? 15) && (succ =? 15)
  | Amo _ _ aq rl _ _ _ => negb (aq || rl)
  | Addiw _ rs1 _ => negb (rs1 =? 0)
  | _ => true
  end.

(** a fence without its sets, an atomic without [.aq] and [.rl], a load of an immediate *)
Definition abridged (i : instr) (pc : Z) : string :=
  match i with
  | Fence _ _ => text (Fence 15 15) pc
  | Amo o dw _ _ rd rs1 rs2 => text (Amo o dw false false rd rs1 rs2) pc
  | Addiw rd _ imm => mnem "li" (ops2 (abi_name rd) (fmt_dec imm)) +:+ "  # sext.w"
  | _ => text i pc
  end.
Definition printed (i : instr) (pc : Z) : string :=
  if lossless i then text i pc else abridged i pc.

Lemma printed_lossless i pc : lossless i = true -> printed i pc = text i pc.
Proof. unfold printed. by intros ->. Qed.

(** the compressed instructions lose nothing: no fence, no atomic, and [c.addiw] has a source *)
Lemma unless_Some c i j : unless c i = Some j -> c = false /\ i = j.
Proof. destruct c; [done|]. by intros [= ->]. Qed.
Lemma rvc_lossless h i : rvc_decode h = Some i -> lossless i = true.
Proof.
  unfold rvc_decode, rvc_q0, rvc_q1, rvc_q2, rvc_arith. intros Hi.
  repeat case_match; simplify_eq; try done;
    apply unless_Some in Hi as [Hc <-]; cbn [lossless]; by rewrite ?Hc.
Qed.

(** ** Operand ranges *)
Lemma ubits_spec n x : ubits n x = true <-> 0 <= x < 2 ^ n.
Proof. unfold ubits. rewrite andb_true_iff, Z.leb_le, Z.ltb_lt. done. Qed.
Lemma sbits_spec n x : sbits n x = true <-> - 2 ^ (n - 1) <= x < 2 ^ (n - 1).
Proof. unfold sbits. rewrite andb_true_iff, Z.leb_le, Z.ltb_lt. done. Qed.
Lemma reg_spec x : reg x = true <-> 0 <= x < 2 ^ 5.
Proof. apply ubits_spec. Qed.
Lemma even_off_spec n x :
  even_off n x = true <-> - 2 ^ (n - 1) <= x < 2 ^ (n - 1) /\ x mod 2 = 0.
Proof. unfold even_off. by rewrite andb_true_iff, sbits_spec, Z.eqb_eq. Qed.

Ltac wf_destruct :=
  unfold wf in *;
  repeat match goal with H : _ && _ = true |- _ => apply andb_true_iff in H as [? ?] end;
  rewrite ?reg_spec, ?ubits_spec, ?sbits_spec, ?even_off_spec in *;
  try match goal with H : _ /\ _ mod 2 = 0 |- _ => destruct H end.

(** ** Name tables *)
Lemma X_abi r : 0 <= r < 2 ^ 5 -> at_ X r = Some (abi_name r).
Proof.
  intros Hr.
  assert (H : check_range 32 (fun r => bool_decide (at_ X r = Some (abi_name r))) = true)
    by (vm_compute; reflexivity).
  exact (bool_decide_eq_true_1 _ (check_range_spec _ _ r H Hr)).
Qed.
Lemma F_abi r : 0 <= r < 2 ^ 5 -> at_ F r = Some (abi_fname r).
Proof.
  intros Hr.
  assert (H : check_range 32 (fun r => bool_decide (at_ F r = Some (abi_fname r))) = true)
    by (vm_compute; reflexivity).
  exact (bool_decide_eq_true_1 _ (check_range_spec _ _ r H Hr)).
Qed.
Lemma csr_name_text c : 0 <= c < 2 ^ 12 -> csr_name c = csr_text c.
Proof.
  intros Hc.
  assert (H : check_range 4096 (fun c => String.eqb (csr_name c) (csr_text c)) = true)
    by (vm_compute; reflexivity).
  apply String.eqb_eq, (check_range_spec _ _ c H Hc).
Qed.

(** ** The fields of an encoded word, by format *)
Lemma R_fields rs1v rs2v f3v f7v rdv op :
  0 <= rs1v < 2 ^ 5 -> 0 <= rs2v < 2 ^ 5 -> 0 <= f3v < 2 ^ 3 ->
  0 <= f7v < 2 ^ 7 -> 0 <= rdv < 2 ^ 5 -> 0 <= op < 2 ^ 7 ->
  let w := enc_R f7v rs2v rs1v f3v rdv op in
  w .& 0x7f = op /\ rd w = rdv /\ rs1 w = rs1v /\ rs2 w = rs2v /\ f3 w = f3v /\ f7 w = f7v /\
  w >> 20 = f7v * 2 ^ 5 + rs2v /\ is_u32 w.
Proof.
  intros ?????? w. assert (R_ok f7v rs2v rs1v f3v rdv op) by done.
  unfold w. split_and!; auto using enc_R_op, enc_R_rd, enc_R_rs1, enc_R_rs2, enc_R_f3,
    enc_R_f7, enc_R_hi12, enc_R_u32.
  all: apply enc_R_u32; done.
Qed.

Lemma I_fields rs1v f3v rdv op imm :
  0 <= rs1v < 2 ^ 5 -> 0 <= f3v < 2 ^ 3 -> 0 <= rdv < 2 ^ 5 -> 0 <= op < 2 ^ 7 ->
  let w := enc_I imm rs1v f3v rdv op in
  w .& 0x7f = op /\ rd w = rdv /\ rs1 w = rs1v /\ f3 w = f3v /\ f7 w = (imm mod 2 ^ 12) / 2 ^ 5 /\
  w >> 20 = imm mod 2 ^ 12 /\ (sbits 12 imm = true -> imm_i w = imm) /\ is_u32 w.
Proof.
  intros H1 H3 Hd Hop w. pose proof (enc_I_ok imm rs1v f3v rdv op H1 H3 Hd Hop) as Hok.
  assert (Hu : is_u32 w) by (unfold w; rewrite enc_I_R; by apply enc_R_u32).
  assert (Hhi : w >> 20 = imm mod 2 ^ 12).
  { unfold w. rewrite enc_I_R, enc_R_hi12 by done. Z.div_mod_to_equations; lia. }
  assert (sbits 12 imm = true -> imm_i w = imm).
  { intros Hi%sbits_spec. rewrite imm_i_eq by done.
    apply wrap_signed_of_mod; [lia..|]. by rewrite <- Hhi, Z.shiftr_div_pow2. }
  split_and!; try done; unfold w; rewrite enc_I_R;
    auto using enc_R_op, enc_R_rd, enc_R_rs1, enc_R_f3, enc_R_f7.
Qed.

Lemma S_fields rs1v rs2v f3v op imm :
  0 <= rs1v < 2 ^ 5 -> 0 <= rs2v < 2 ^ 5 -> 0 <= f3v < 2 ^ 3 -> 0 <= op < 2 ^ 7 ->
  let w := enc_S imm rs2v rs1v f3v op in
  w .& 0x7f = op /\ rs1 w = rs1v /\ rs2 w = rs2v /\ f3 w = f3v /\
  (sbits 12 imm = true -> imm_s w = imm) /\ is_u32 w.
Proof.
  intros ???? w.
  assert (Hok : R_ok ((imm / 2 ^ 5) mod 2 ^ 7) rs2v rs1v f3v (imm mod 2 ^ 5) op) by fields_lia.
  assert (Hu : is_u32 w) by (by apply enc_R_u32).
  assert (sbits 12 imm = true -> imm_s w = imm).
  { intros Hi%sbits_spec. rewrite imm_s_eq by done.
    apply wrap_signed_of_mod; [lia..|]. unfold w. fields_lia. }
  split_and!; try done; unfold w, enc_S;
    auto using enc_R_op, enc_R_rs1, enc_R_rs2, enc_R_f3.
Qed.

Lemma B_fields rs1v rs2v f3v op off :
  0 <= rs1v < 2 ^ 5 -> 0 <= rs2v < 2 ^ 5 -> 0 <= f3v < 2 ^ 3 -> 0 <= op < 2 ^ 7 ->
  let w := enc_B off rs2v rs1v f3v op in
  w .& 0x7f = op /\ rs1 w = rs1v /\ rs2 w = rs2v /\ f3 w = f3v /\
  (even_off 13 off = true -> imm_b w = off) /\ is_u32 w.
Proof.
  intros ???? w.
  assert (Hok : R_ok ((off / 2 ^ 12) mod 2 * 2 ^ 6 + (off / 2 ^ 5) mod 2 ^ 6) rs2v rs1v f3v
                     ((off / 2) mod 2 ^ 4 * 2 + (off / 2 ^ 11) mod 2) op) by fields_lia.
  assert (Hu : is_u32 w) by (by apply enc_R_u32).
  assert (even_off 13 off = true -> imm_b w = off).
  { intros [Hi He]%even_off_spec. rewrite imm_b_eq by done.
    unfold w, enc_B. rewrite enc_R_f7, enc_R_rd by done.
    apply wrap_signed_of_mod; [lia..|]. Z.div_mod_to_equations; lia. }
  split_and!; try done; unfold w, enc_B;
    auto using enc_R_op, enc_R_rs1, enc_R_rs2, enc_R_f3.
Qed.
Lemma U_fields imm rdv op :
  0 <= imm < 2 ^ 20 -> 0 <= rdv < 2 ^ 5 -> 0 <= op < 2 ^ 7 ->
  let w := enc_U imm rdv op in
  w .& 0x7f = op /\ rd w = rdv /\ w / 2 ^ 12 = imm /\ is_u32 w.
Proof.
  intros Hi Hd Hop w. pose proof (enc_U_ok imm rdv op Hi Hd Hop) as Hok.
  split_and!; try (unfold w; rewrite enc_U_R; auto using enc_R_op, enc_R_rd).
  - Z.div_mod_to_equations. fields_lia.
  - by apply enc_R_u32.
Qed.

Lemma J_fields off rdv op :
  0 <= rdv < 2 ^ 5 -> 0 <= op < 2 ^ 7 ->
  let w := enc_J off rdv op in
  w .& 0x7f = op /\ rd w = rdv /\ (even_off 21 off = true -> imm_j w = off) /\ is_u32 w.
Proof.
  intros Hd Hop w. unfold enc_J in w. set (u := _ + _ : Z) in w.
  destruct (U_fields u rdv op) as (? & ? & Hu & ?); [|done..|].
  { unfold u. Z.div_mod_to_equations; lia. }
  split_and!; try done. intros [Hi He]%even_off_spec.
  unfold w. rewrite (imm_j_eq _ u) by done.
  apply wrap_signed_of_mod; [lia..|]. unfold u. Z.div_mod_to_equations; lia.
Qed.

Lemma U_imm imm rdv op :
  0 <= imm < 2 ^ 20 -> 0 <= rdv < 2 ^ 5 -> 0 <= op < 2 ^ 7 ->
  (imm_u (enc_U imm rdv op) >> 12) .& 0xfffff = imm.
Proof.
  intros Hi Hd Hop. destruct (U_fields imm rdv op Hi Hd Hop) as (_ & _ & Hu & Hw).
  rewrite imm_u_eq, Hu by done. change 0xfffff with (Z.ones 20).
  rewrite field_div_mod by lia. unfold wrap_signed. Z.div_mod_to_equations; lia.
Qed.

(** ** The arms *)
Lemma tgt_eq pc imm : wrap_u64 (pc + wrap_u64 imm) = (pc + imm) mod 2 ^ 64.
Proof. unfold wrap_u64. apply Zplus_mod_idemp_r. Qed.

Create Rewrite HintDb disasm.
#[export] Hint Rewrite X_abi F_abi using (first [assumption|lia]) : disasm.
#[export] Hint Rewrite tgt_eq : disasm.

(** the operands of the arm at hand are in range: look their names up and compare the texts *)
Ltac text_done := autorewrite with disasm; reflexivity.

Section arms.
Context (w pc d a b : Z).
Context (Hd : 0 <= d < 2 ^ 5) (Ha : 0 <= a < 2 ^ 5) (Hb : 0 <= b < 2 ^ 5).
Let tgt := fun imm : Z => fmt_hex (wrap_u64 (pc + wrap_u64 imm)).

Lemma arm_jal off : imm_j w = off -> disasm_jal w d tgt = Some (text (Jal d off) pc).
Proof.
  intros Hi. unfold disasm_jal, text, tgt. rewrite Hi.
  destruct (d =? 0); [text_done|]. destruct (d =? 1); text_done.
Qed.

Lemma arm_jalr imm : imm_i w = imm -> disasm_jalr w d a = Some (text (Jalr d a imm) pc).
Proof.
  intros Hi. unfold disasm_jalr, text. rewrite Hi.
  destruct (d =? 0), (a =? 1), (imm =? 0); cbn [andb]; text_done.
Qed.

Lemma arm_branch c off :
  imm_b w = off -> f3 w = f3_bcond c ->
  disasm_branch w a b tgt = Some (text (Branch c a b off) pc).
Proof.
  intros Hi Hf. unfold disasm_branch, text, tgt. rewrite Hi, Hf.
  destruct (Z.eqb_spec b 0) as [->|Hnz].
  - destruct c; text_done.
  - destruct c; cbn [f3_bcond]; cbn; destruct b; try done; text_done.
Qed.

Lemma arm_load l imm :
  imm_i w = imm -> f3 w = f3_load l -> disasm_load w d a = Some (text (Load l d a imm) pc).
Proof. intros Hi Hf. unfold disasm_load. rewrite Hi, Hf. destruct l; text_done. Qed.

Lemma arm_store s imm :
  imm_s w = imm -> f3 w = f3_store s -> disasm_store w a b = Some (text (Store s b a imm) pc).
Proof. intros Hi Hf. unfold disasm_store. rewrite Hi, Hf. destruct s; text_done. Qed.

Lemma arm_load_fp l imm :
  imm_i w = imm -> f3 w = f3_fp l -> disasm_load_fp w d a = Some (text (LoadFp l d a imm) pc).
Proof. intros Hi Hf. unfold disasm_load_fp. rewrite Hi, Hf. destruct l; text_done. Qed.

Lemma arm_store_fp s imm :
  imm_s w = imm -> f3 w = f3_fp s -> disasm_store_fp w a b = Some (text (StoreFp s b a imm) pc).
Proof. intros Hi Hf. unfold disasm_store_fp. rewrite Hi, Hf. destruct s; text_done. Qed.

Lemma arm_op_imm o imm :
  imm_i w = imm -> f3 w = f3_iop o -> disasm_op_imm w d a = Some (text (OpImm o d a imm) pc).
Proof.
  intros Hi Hf. unfold disasm_op_imm, fmt_da, fmt_dai. rewrite Hi, Hf.
  destruct o; cbn [f3_iop text text_opimm].
  - destruct (d =? 0), (a =? 0), (imm =? 0); cbn [andb]; text_done.
  - text_done.
  - text_done.
  - destruct (imm =? -1); text_done.
  - text_done.
  - text_done.
Qed.

Lemma arm_shift o sh :
  0 <= sh < 2 ^ 6 -> w >> 20 = alt_shop o * 2 ^ 5 + sh -> f7 w = alt_shop o + sh / 2 ^ 5 ->
  f3 w = f3_shop o -> disasm_op_imm w d a = Some (text (Shift o d a sh) pc).
Proof.
  clear Hb. intros Hs Hhi H7 Hf. unfold disasm_op_imm, fmt_dai.
  assert (Hsh : (w >> 20) .& 0x3f = sh).
  { rewrite Hhi, (land_ones_mod _ 6) by lia. destruct o; cbn; Z.div_mod_to_equations; lia. }
  assert (Hbit : negb (f7 w .& 0x20 =? 0) = match o with SRA => true | _ => false end).
  { rewrite H7. assert (sh / 2 ^ 5 = 0 \/ sh / 2 ^ 5 = 1) as [-> | ->]
      by (Z.div_mod_to_equations; lia); by destruct o. }
  rewrite Hsh, Hbit, Hf. destruct o; text_done.
Qed.

Lemma arm_addiw imm :
  imm_i w = imm -> f3 w = 0 -> disasm_op_imm_32 w d a = Some (printed (Addiw d a imm) pc).
Proof.
  intros Hi Hf. unfold disasm_op_imm_32, fmt_dai. rewrite Hi, Hf. unfold printed.
  cbn [lossless abridged text]. destruct (a =? 0); cbn [negb]; [|text_done]. autorewrite with disasm. unfold mnem, ops2.
  by rewrite !string_app_assoc.
Qed.

Lemma arm_shiftw o sh :
  0 <= sh < 2 ^ 5 -> w >> 20 = alt_shop o * 2 ^ 5 + sh -> f7 w = alt_shop o ->
  f3 w = f3_shop o -> disasm_op_imm_32 w d a = Some (text (Shiftw o d a sh) pc).
Proof.
  clear Hb. intros Hs Hhi H7 Hf. unfold disasm_op_imm_32, fmt_dai.
  assert (Hsh : (w >> 20) .& 0x1f = sh).
  { rewrite Hhi, (land_ones_mod _ 5) by lia. destruct o; cbn; Z.div_mod_to_equations; lia. }
  rewrite Hsh, H7, Hf. destruct o; text_done.
Qed.

Lemma arm_op o :
  f7 w = (code_rop o).1 -> f3 w = (code_rop o).2 ->
  disasm_op w d a b = Some (text (Op o d a b) pc).
Proof.
  intros H7 Hf. unfold disasm_op, fmt_da, fmt_dab. rewrite H7, Hf.
  destruct (Z.eqb_spec a 0) as [->|Hnz]; destruct o; cbn; try text_done.
  destruct a; [done|text_done..].
Qed.

Lemma arm_op_32 o :
  f7 w = (code_rop32 o).1 -> f3 w = (code_rop32 o).2 ->
  disasm_op_32 w d a b = Some (text (Op32 o d a b) pc).
Proof.
  intros H7 Hf. unfold disasm_op_32, fmt_dab. rewrite H7, Hf. destruct o; text_done.
Qed.

Lemma arm_csr o csr :
  0 <= csr < 2 ^ 12 -> w >> 20 = csr -> f3 w = f3_csr o ->
  disasm_system w d a b = Some (text (Csr o d csr a) pc).
Proof.
  intros Hc Hhi Hf. unfold disasm_system, fmt_dc, fmt_dcr.
  rewrite Hhi, Hf, csr_name_text by done. unfold text, text_csr.
  destruct o; cbn [f3_csr negb andb]; [destruct (d =? 0)|destruct (a =? 0)|]; text_done.
Qed.

Lemma arm_csri o csr :
  0 <= csr < 2 ^ 12 -> w >> 20 = csr -> f3 w = 4 + f3_csr o ->
  disasm_system w d a b = Some (text (Csri o d csr a) pc).
Proof.
  intros Hc Hhi Hf. unfold disasm_system, fmt_dc, fmt_dcr.
  rewrite Hhi, Hf, csr_name_text by done. unfold text, text_csr.
  destruct o; cbn [f3_csr negb andb Z.add]; [destruct (d =? 0)| |]; text_done.
Qed.

Lemma arm_sfence :
  f7 w = 0x09 -> f3 w = 0 -> disasm_system w d a b = Some (text (SfenceVma a b) pc).
Proof.
  intros H7 Hf. unfold disasm_system. rewrite Hf.
  repeat match goal with |- context [w =? ?k] =>
    destruct (Z.eqb_spec w k) as [E|_]; [rewrite E in H7; discriminate H7|] end.
  rewrite H7. text_done.
Qed.

Lemma arm_amo o dw aq rl :
  f7 w = f5_amo o * 4 + Z.b2z aq * 2 + Z.b2z rl -> f3 w = (if dw : bool then 3 else 2) ->
  disasm_amo w d a b = Some (printed (Amo o dw aq rl d a b) pc).
Proof.
  intros H7 Hf. unfold disasm_amo.
  assert (f7 w >> 2 = f5_amo o) as ->
    by (rewrite H7; by destruct o, aq, rl).
  rewrite Hf. unfold printed. destruct aq, rl, o, dw; cbn [lossless orb negb abridged]; text_done.
Qed.
End arms.

(** ** Whole instructions *)
Lemma rs2_range w : 0 <= rs2 w < 2 ^ 5.
Proof. apply (field_range w 20 5); lia. Qed.

Lemma f3_ranges :
  (forall c, 0 <= f3_bcond c < 2 ^ 3) /\ (forall l, 0 <= f3_load l < 2 ^ 3) /\
  (forall s, 0 <= f3_store s < 2 ^ 3) /\ (forall f, 0 <= f3_fp f < 2 ^ 3) /\
  (forall o, 0 <= f3_iop o < 2 ^ 3) /\ (forall o, 0 <= f3_shop o < 2 ^ 3) /\
  (forall o, 0 <= (code_rop o).1 < 2 ^ 7 /\ 0 <= (code_rop o).2 < 2 ^ 3) /\
  (forall o, 0 <= (code_rop32 o).1 < 2 ^ 7 /\ 0 <= (code_rop32 o).2 < 2 ^ 3) /\
  (forall o, 0 <= f3_csr o < 4) /\ (forall o, 0 <= f5_amo o < 2 ^ 5) /\
  (forall o, 0 <= alt_shop o < 2 ^ 7).
Proof. split_and!; intros []; cbn; lia. Qed.

Ltac ranges :=
  pose proof f3_ranges as (?Rb & ?Rl & ?Rs & ?Rf & ?Ri & ?Rh & ?Ro & ?Rw & ?Rc & ?Ra & ?Rt).

Section whole.
Context (pc : Z).
Abbreviation prints i := (disasm (encode i) pc = Some (printed i pc)).

Lemma print_upper rd imm : wf (Lui rd imm) = true -> prints (Lui rd imm) /\ prints (Auipc rd imm).
Proof.
  intros Hwf. wf_destruct. cbn [encode].
  split; unfold disasm;
    match goal with |- context [enc_U imm rd ?op] =>
      destruct (U_fields imm rd op) as (-> & -> & _); [done..|lia|] end;
    unfold disasm_upper; rewrite U_imm by lia; text_done.
Qed.

Lemma print_jal rd off : wf (Jal rd off) = true -> prints (Jal rd off).
Proof.
  intros Hwf. unfold wf in Hwf. apply andb_true_iff in Hwf as [Hr%reg_spec Ho].
  destruct (J_fields off rd 0x6f) as (Eop & Ed & Ei & _); [done|lia|].
  cbn [encode]. unfold disasm. rewrite Eop, Ed. by apply arm_jal; auto.
Qed.

(** the I-type instructions, given the arm that prints them *)
Ltac by_I_fields r1 f3v rd op imm arm :=
  destruct (I_fields r1 f3v rd op imm ltac:(lia) ltac:(lia) ltac:(lia) ltac:(lia))
    as (Eop & Ed & E1 & E3 & E7 & Ehi & Ei & _);
  cbn [encode]; unfold disasm; rewrite Eop, Ed, ?E1; cbv beta iota; eapply arm.

Lemma print_jalr rd r1 imm : wf (Jalr rd r1 imm) = true -> prints (Jalr rd r1 imm).
Proof.
  intros Hwf. wf_destruct. by_I_fields r1 0 rd 0x67 imm arm_jalr; [lia..|].
  apply Ei. by apply sbits_spec.
Qed.

Lemma print_load l rd r1 imm : wf (Load l rd r1 imm) = true -> prints (Load l rd r1 imm).
Proof.
  intros Hwf. wf_destruct. ranges. specialize (Rl l).
  by_I_fields r1 (f3_load l) rd 0x03 imm arm_load; [lia..| |done].
  apply Ei. by apply sbits_spec.
Qed.

Lemma print_load_fp l rd r1 imm : wf (LoadFp l rd r1 imm) = true -> prints (LoadFp l rd r1 imm).
Proof.
  intros Hwf. wf_destruct. ranges. specialize (Rf l).
  by_I_fields r1 (f3_fp l) rd 0x07 imm arm_load_fp; [lia..| |done].
  apply Ei. by apply sbits_spec.
Qed.

Lemma print_op_imm o rd r1 imm : wf (OpImm o rd r1 imm) = true -> prints (OpImm o rd r1 imm).
Proof.
  intros Hwf. wf_destruct. ranges. specialize (Ri o).
  by_I_fields r1 (f3_iop o) rd 0x13 imm arm_op_imm; [lia..| |done].
  apply Ei. by apply sbits_spec.
Qed.

Lemma print_shift o rd r1 sh : wf (Shift o rd r1 sh) = true -> prints (Shift o rd r1 sh).
Proof.
  intros Hwf. wf_destruct. ranges. specialize (Rh o).
  by_I_fields r1 (f3_shop o) rd 0x13 (alt_shop o * 2 ^ 5 + sh) arm_shift; [lia..| | |done].
  - rewrite Ehi. destruct o; cbn; Z.div_mod_to_equations; lia.
  - rewrite E7. destruct o; cbn; Z.div_mod_to_equations; lia.
Qed.

Lemma print_addiw rd r1 imm : wf (Addiw rd r1 imm) = true -> prints (Addiw rd r1 imm).
Proof.
  intros Hwf. wf_destruct. by_I_fields r1 0 rd 0x1b imm arm_addiw; [lia..| |done].
  apply Ei. by apply sbits_spec.
Qed.

Lemma print_csr o rd csr r1 : wf (Csr o rd csr r1) = true -> prints (Csr o rd csr r1).
Proof.
  intros Hwf. wf_destruct. ranges. specialize (Rc o).
  by_I_fields r1 (f3_csr o) rd 0x73 csr arm_csr;
    first [lia|apply rs2_range|done|rewrite Ehi; apply Z.mod_small; lia].
Qed.

Lemma print_csri o rd csr u : wf (Csri o rd csr u) = true -> prints (Csri o rd csr u).
Proof.
  intros Hwf. wf_destruct. ranges. specialize (Rc o).
  by_I_fields u (4 + f3_csr o) rd 0x73 csr arm_csri;
    first [lia|apply rs2_range|done|rewrite Ehi; apply Z.mod_small; lia].
Qed.

Lemma print_fence p s : prints (Fence p s) /\ prints FenceI.
Proof.
  split.
  - destruct (I_fields 0 0 0 0x0f (p * 2 ^ 4 + s) ltac:(lia) ltac:(lia) ltac:(lia) ltac:(lia))
      as (Eop & _ & _ & E3 & _).
    cbn [encode]. unfold disasm. rewrite Eop. unfold disasm_misc_mem. rewrite E3.
    unfold printed, lossless, abridged, text, text_fence. by destruct (_ && _).
  - reflexivity.
Qed.

Lemma print_sys o : prints (Sys o).
Proof. by destruct o. Qed.

(** the S- and B-type instructions *)
Lemma print_store l r2 r1 imm : wf (Store l r2 r1 imm) = true -> prints (Store l r2 r1 imm).
Proof.
  intros Hwf. wf_destruct. ranges. specialize (Rs l).
  destruct (S_fields r1 r2 (f3_store l) 0x23 imm ltac:(lia) ltac:(lia) ltac:(lia) ltac:(lia))
    as (Eop & E1 & E2 & E3 & Ei & _).
  cbn [encode]. unfold disasm. rewrite Eop, E1, E2. apply arm_store; [lia..| |done].
  apply Ei. by apply sbits_spec.
Qed.

Lemma print_store_fp l r2 r1 imm : wf (StoreFp l r2 r1 imm) = true -> prints (StoreFp l r2 r1 imm).
Proof.
  intros Hwf. wf_destruct. ranges. specialize (Rf l).
  destruct (S_fields r1 r2 (f3_fp l) 0x27 imm ltac:(lia) ltac:(lia) ltac:(lia) ltac:(lia))
    as (Eop & E1 & E2 & E3 & Ei & _).
  cbn [encode]. unfold disasm. rewrite Eop, E1, E2. apply arm_store_fp; [lia..| |done].
  apply Ei. by apply sbits_spec.
Qed.

Lemma print_branch c r1 r2 off : wf (Branch c r1 r2 off) = true -> prints (Branch c r1 r2 off).
Proof.
  intros Hwf. unfold wf in Hwf. apply andb_true_iff in Hwf as [Hr Ho]. wf_destruct.
  ranges. specialize (Rb c).
  destruct (B_fields r1 r2 (f3_bcond c) 0x63 off ltac:(lia) ltac:(lia) ltac:(lia) ltac:(lia))
    as (Eop & E1 & E2 & E3 & Ei & _).
  cbn [encode]. unfold disasm. rewrite Eop, E1, E2. apply arm_branch; [lia..| |done].
  apply Ei. by apply even_off_spec.
Qed.

(** the R-type instructions *)
Ltac by_R_fields r1 r2 f3v f7v rd op arm :=
  destruct (R_fields r1 r2 f3v f7v rd op ltac:(lia) ltac:(lia) ltac:(lia) ltac:(lia) ltac:(lia) ltac:(lia))
    as (Eop & Ed & E1 & E2 & E3 & E7 & Ehi & _);
  cbn [encode]; unfold disasm; rewrite Eop, Ed, E1, ?E2; cbv beta iota; eapply arm.

Lemma print_shiftw o rd r1 sh : wf (Shiftw o rd r1 sh) = true -> prints (Shiftw o rd r1 sh).
Proof.
  intros Hwf. wf_destruct. ranges. specialize (Rh o). specialize (Rt o).
  by_R_fields r1 sh (f3_shop o) (alt_shop o) rd 0x1b arm_shiftw; done.
Qed.

Lemma print_op o rd r1 r2 : wf (Op o rd r1 r2) = true -> prints (Op o rd r1 r2).
Proof.
  intros Hwf. wf_destruct. ranges. destruct (Ro o).
  by_R_fields r1 r2 (code_rop o).2 (code_rop o).1 rd 0x33 arm_op; done.
Qed.

Lemma print_op_32 o rd r1 r2 : wf (Op32 o rd r1 r2) = true -> prints (Op32 o rd r1 r2).
Proof.
  intros Hwf. wf_destruct. ranges. destruct (Rw o).
  by_R_fields r1 r2 (code_rop32 o).2 (code_rop32 o).1 rd 0x3b arm_op_32; done.
Qed.

Lemma print_sfence r1 r2 : wf (SfenceVma r1 r2) = true -> prints (SfenceVma r1 r2).
Proof.
  intros Hwf. wf_destruct.
  by_R_fields r1 r2 0 0x09 0 0x73 arm_sfence; done.
Qed.

Lemma print_amo o dw aq rl rd r1 r2 :
  wf (Amo o dw aq rl rd r1 r2) = true -> prints (Amo o dw aq rl rd r1 r2).
Proof.
  intros Hwf. unfold wf in Hwf. apply andb_true_iff in Hwf as [Hr _]. wf_destruct.
  ranges. specialize (Ra o).
  assert (0 <= Z.b2z aq <= 1 /\ 0 <= Z.b2z rl <= 1) by (destruct aq, rl; cbn; lia).
  assert (0 <= (if dw then 3 else 2) < 2 ^ 3) by (destruct dw; lia).
  by_R_fields r1 r2 (if dw then 3 else 2) (f5_amo o * 4 + Z.b2z aq * 2 + Z.b2z rl) rd 0x2f arm_amo; done.
Qed.

Lemma print_instr i : wf i = true -> prints i.
Proof.
  intros Hwf. destruct i; eauto using print_jal, print_jalr, print_branch, print_load,
    print_store, print_op_imm, print_shift, print_addiw, print_shiftw, print_op, print_op_32,
    print_sys, print_sfence, print_csr, print_csri, print_amo, print_load_fp, print_store_fp;
    first [by apply print_upper|by apply (print_fence 0 0)|by apply print_fence].
Qed.
End whole.

(** ** Every encoding is a 32-bit word with the low bits [11] *)
Definition is_insn32 (w : Z) : Prop := is_u32 w /\ w mod 4 = 3.

Lemma enc_R_insn32 f7v r2 r1 f3v rdv op :
  R_ok f7v r2 r1 f3v rdv op -> op mod 4 = 3 -> is_insn32 (enc_R f7v r2 r1 f3v rdv op).
Proof.
  intros Hok Hop. split; [by apply enc_R_u32|].
  unfold enc_R. Z.div_mod_to_equations; lia.
Qed.

Lemma enc_I_insn32 imm r1 f3v rdv op :
  0 <= r1 < 2 ^ 5 -> 0 <= f3v < 2 ^ 3 -> 0 <= rdv < 2 ^ 5 -> 0 <= op < 2 ^ 7 -> op mod 4 = 3 ->
  is_insn32 (enc_I imm r1 f3v rdv op).
Proof. intros. rewrite enc_I_R. by apply enc_R_insn32; [apply enc_I_ok|]. Qed.

Lemma enc_S_insn32 imm r2 r1 f3v op :
  0 <= r2 < 2 ^ 5 -> 0 <= r1 < 2 ^ 5 -> 0 <= f3v < 2 ^ 3 -> 0 <= op < 2 ^ 7 -> op mod 4 = 3 ->
  is_insn32 (enc_S imm r2 r1 f3v op).
Proof. intros. apply enc_R_insn32; [|done]. fields_lia. Qed.

Lemma enc_B_insn32 off r2 r1 f3v op :
  0 <= r2 < 2 ^ 5 -> 0 <= r1 < 2 ^ 5 -> 0 <= f3v < 2 ^ 3 -> 0 <= op < 2 ^ 7 -> op mod 4 = 3 ->
  is_insn32 (enc_B off r2 r1 f3v op).
Proof. intros. apply enc_R_insn32; [|done]. fields_lia. Qed.

Lemma enc_U_insn32 imm rdv op :
  0 <= imm < 2 ^ 20 -> 0 <= rdv < 2 ^ 5 -> 0 <= op < 2 ^ 7 -> op mod 4 = 3 ->
  is_insn32 (enc_U imm rdv op).
Proof. intros. rewrite enc_U_R. by apply enc_R_insn32; [apply enc_U_ok|]. Qed.

Lemma enc_J_insn32 off rdv op :
  0 <= rdv < 2 ^ 5 -> 0 <= op < 2 ^ 7 -> op mod 4 = 3 -> is_insn32 (enc_J off rdv op).
Proof. intros. apply enc_U_insn32; [Z.div_mod_to_equations; lia|done..]. Qed.

Create HintDb insn32.
#[export] Hint Resolve enc_R_insn32 enc_I_insn32 enc_S_insn32 enc_B_insn32 enc_U_insn32
  enc_J_insn32 : insn32.
#[export] Hint Extern 1 (_ <= _ < _) => lia : insn32.
#[export] Hint Extern 1 (R_ok _ _ _ _ _ _) => unfold R_ok; split_and!; lia : insn32.

Lemma encode_insn32 i : wf i = true -> is_insn32 (encode i).
Proof.
  intros Hwf. ranges.
  destruct i; cbn [encode]; wf_destruct; try (pose proof (Rb c)); try (pose proof (Rl w));
    try (pose proof (Rs w)); try (pose proof (Rf w)); try (pose proof (Ri op));
    try (pose proof (Rh op)); try (destruct (Ro op)); try (destruct (Rw op));
    try (pose proof (Rc op)); try (pose proof (Ra op)); try (pose proof (Rt op));
    try (destruct aq, rl, dword); cbn [Z.b2z]; auto with insn32.
  destruct op; repeat split; cbn; lia.
Qed.

(** ** The disassembler never panics *)
Lemma rd_range w : 0 <= rd w < 2 ^ 5.
Proof. apply (field_range w 7 5); lia. Qed.
Lemma rs1_range w : 0 <= rs1 w < 2 ^ 5.
Proof. apply (field_range w 15 5); lia. Qed.
Lemma f3_range w : 0 <= f3 w < 2 ^ 3.
Proof. apply (field_range w 12 3); lia. Qed.

Lemma at_total {A} (T : list A) i : 0 <= i < Z.of_nat (length T) -> exists x, at_ T i = Some x.
Proof.
  intros Hi. unfold at_. destruct (T !! Z.to_nat i) eqn:E; [eauto|].
  apply lookup_ge_None in E. lia.
Qed.

Lemma disasm_Some insn pc : exists s, disasm insn pc = Some s.
Proof.
  pose proof (rd_range insn). pose proof (rs1_range insn). pose proof (rs2_range insn).
  pose proof (f3_range insn) as Hf.
  unfold disasm, disasm_upper, disasm_jal, disasm_jalr, disasm_branch, disasm_load,
    disasm_store, disasm_op_imm, disasm_op_imm_32, disasm_op, disasm_op_32, disasm_misc_mem,
    disasm_system, disasm_amo, disasm_load_fp, disasm_store_fp, fmt_da, fmt_dai, fmt_dab,
    fmt_dc, fmt_dcr.
  autorewrite with disasm.
  repeat match goal with |- context [at_ ?T (f3 insn)] =>
    destruct (at_total T (f3 insn) Hf) as [? ->] end.
  cbn -[disasm]. repeat case_match; eauto.
Qed.

(** ** Unknown opcodes *)
Definition known_opcodes : list Z :=
  [0x37; 0x17; 0x6f; 0x67; 0x63; 0x03; 0x23; 0x13; 0x1b; 0x33; 0x3b; 0x0f; 0x73; 0x2f; 0x07; 0x27].

Lemma disasm_unknown insn pc :
  existsb (Z.eqb (insn .& 0x7f)) known_opcodes = false ->
  disasm insn pc = Some (".insn   0x" +:+ fmt_hex_zero 8 insn).
Proof.
  intros Hop. unfold disasm. change (Some (".insn   0x" +:+ fmt_hex_zero 8 insn)) with (Some (raw_insn insn)).
  destruct (insn .& 0x7f) as [|p|p]; [done| |done].
  repeat (destruct p as [p|p|]; try done).
Qed.
