(* ===== verification/RvcTheorems.v ===== *)
(** * RvcTheorems: the properties of the expansion table and the reference expander *)
From S2P Require Import Prelude Fmt Isa RvcTable Rvc RvcSpec Rvdisasm RvdisasmFields RvdisasmSpec.

(** C2: the 65536-entry table agrees with the reference expander [uncompress] on every
    compressed parcel (low two bits not [11]): what the lookup returns is what the bit
    manipulation computes. *)
Theorem expanded_uncompress i :
  0 <= i < 0x10000 -> i mod 4 <> 3 -> exists e, expanded i = Some e /\ uncompress i = Some e.
Proof. intros Hi Hq. destruct (parcel_ok i Hi Hq) as (? & ? & _). eauto. Qed.

Lemma expanded_uncompress_witness :
  exists e, expanded 0x4515 = Some e /\ uncompress 0x4515 = Some e.
Proof. apply (expanded_uncompress 0x4515); [lia|discriminate]. Defined.

(** C3: [uncompress] implements the C extension: for every [u32] argument outside quadrant 3 it
    returns the 32-bit encoding of the instruction the manual's tables assign to the low 16
    bits, with every operand in its field's range, and zero for a reserved encoding. *)
Theorem uncompress_refines_isa w :
  w mod 4 <> 3 ->
  uncompress w = Some (encode_or_zero (Isa.rvc_decode (w .& 0xffff))) /\
  (forall i, Isa.rvc_decode (w .& 0xffff) = Some i -> Isa.wf i = true).
Proof. apply uncompress_spec. Qed.

Lemma uncompress_refines_isa_witness :
  uncompress 0x4515 = Some (encode_or_zero (Isa.rvc_decode (0x4515 .& 0xffff))) /\
  (forall i, Isa.rvc_decode (0x4515 .& 0xffff) = Some i -> Isa.wf i = true).
Proof. apply (uncompress_refines_isa 0x4515). discriminate. Defined.

(** C19: [uncompress] reaches [unreachable!()] exactly on the parcels with low bits [11], which
    are not compressed; on every other [u32] it returns. *)
Theorem uncompress_panics_iff w : uncompress w = None <-> w mod 4 = 3.
Proof.
  split; [|apply uncompress_panic]. intros Hn.
  destruct (decide (w mod 4 = 3)) as [|Hq]; [done|].
  destruct (uncompress_spec w Hq) as [E _]. congruence.
Qed.

(** C30: whatever [uncompress] returns is zero or a 32-bit instruction: it fits a [u32] and its
    low bits are [11], so an expansion is never itself a compressed parcel. *)
Theorem uncompress_is_insn32 w u : uncompress w = Some u -> u = 0 \/ (is_u32 u /\ u mod 4 = 3).
Proof.
  intros Hu. destruct (decide (w mod 4 = 3)) as [Hq|Hq].
  - rewrite (uncompress_panic w Hq) in Hu. done.
  - destruct (uncompress_spec w Hq) as [E Hwf]. rewrite E in Hu. injection Hu as <-.
    destruct (Isa.rvc_decode (w .& 0xffff)) as [i|]; [right|by left].
    by apply encode_insn32, Hwf.
Qed.

Lemma uncompress_is_insn32_witness : 0x00500513 = 0 \/ (is_u32 0x00500513 /\ 0x00500513 mod 4 = 3).
Proof. apply (uncompress_is_insn32 0x4515). vm_compute. reflexivity. Defined.

(** C31: the zero entries of the table are exactly the illegal parcels: reserved encodings of the
    C extension and the parcels of quadrant 3, so zero never stands for an instruction. *)
Theorem expanded_zero_iff i :
  0 <= i < 0x10000 -> expanded i = Some 0 <-> Isa.rvc_decode i = None.
Proof.
  intros Hi. destruct (decide (i mod 4 = 3)) as [Hq|Hq].
  - destruct (quadrant3_ok i Hi Hq) as [-> _]. split; [intros _|done].
    destruct (Isa.rvc_decode i) eqn:E; [|done]. by apply parcel_decode_quadrant in E.
  - destruct (parcel_ok i Hi Hq) as (-> & _ & Hwf).
    destruct (Isa.rvc_decode i) as [ins|]; [|done]. split; [|done].
    intros [= E]. destruct (encode_insn32 ins (Hwf ins eq_refl)) as [_ H3]. cbn in E.
    rewrite E in H3. done.
Qed.

Lemma expanded_zero_iff_witness : expanded 0x8002 = Some 0 <-> Isa.rvc_decode 0x8002 = None.
Proof. apply (expanded_zero_iff 0x8002). lia. Defined.

(** so the unit test [test_uncompress] ends, without a panic, with no failure counted *)
Lemma test_uncompress_passes : test_uncompress = Some 0.
Proof.
  apply test_loop, Forall_forall. intros i Hi. apply elem_of_seqZ in Hi. lia.
Qed.
