(* ===== verification/RvdisasmTheorems.v ===== *)
(** * RvdisasmTheorems: the properties of the disassembler *)
From S2P Require Import Prelude Fmt Isa RvcTable Rvc RvcSpec Rvdisasm RvdisasmFields RvdisasmSpec.
Import Isa.

(** C1: [disasm] prints, for the encoding of every well-formed instruction of
    RV64IMA_Zicsr with the privileged returns and the F/D loads and stores, exactly its assembly
    text: mnemonic or pseudo-instruction, ABI register names, signed immediates, absolute
    targets modulo 2^64; with three exceptions that lose something.  Every fence prints as the
    bare [fence], without the sets it orders; an atomic prints without its [.aq] and [.rl]
    suffixes; an [addiw] from [zero] prints as an [li] with the remark [# sext.w]. *)
Theorem disasm_encode i pc :
  wf i = true -> disasm (encode i) pc = Some (if lossless i then text i pc else abridged i pc).
Proof. apply print_instr. Qed.

Lemma disasm_encode_witness :
  disasm (encode (Branch BNE 15 0 (-4))) 0x80000000 = Some (text (Branch BNE 15 0 (-4)) 0x80000000).
Proof. apply (disasm_encode (Branch BNE 15 0 (-4))). reflexivity. Defined.

(** C18: [disasm] returns a text for every word and every PC: no register, mnemonic or CSR table
    is indexed out of bounds. *)
Theorem disasm_total insn pc : exists s, disasm insn pc = Some s.
Proof. apply disasm_Some. Qed.

(** C10: the two tools agree: a compressed parcel expanded through the table disassembles to the
    text of the instruction the C extension assigns to it. *)
Theorem disasm_expanded h i pc :
  0 <= h < 0x10000 -> rvc_decode h = Some i ->
  exists e, expanded h = Some e /\ disasm e pc = Some (text i pc).
Proof.
  intros Hh Hi.
  pose proof (parcel_decode_quadrant h i Hi) as Hq.
  destruct (parcel_ok h Hh Hq) as (E & _ & Hwf). rewrite Hi in E.
  exists (encode i). split; [done|].
  rewrite <- (printed_lossless i pc) by by eapply rvc_lossless. by apply print_instr, Hwf.
Qed.

Lemma disasm_expanded_witness :
  exists e, expanded 0xa001 = Some e /\ disasm e 0x80000000 = Some (text (Jal 0 0) 0x80000000).
Proof. apply (disasm_expanded 0xa001); [lia|vm_compute; reflexivity]. Defined.

(** C32: the target a jump prints is read back by [u64::from_str_radix] as the PC plus the
    offset modulo 2^64, for every 21-bit even offset and every PC. *)
Theorem jump_target_roundtrip off pc :
  even_off 21 off = true ->
  exists t, disasm (encode (Jal 0 off)) pc = Some ("j       " +:+ t) /\
            from_str_radix u64_max 16 t = Some ((pc + off) mod 2 ^ 64).
Proof.
  intros Ho. exists (fmt_hex ((pc + off) mod 2 ^ 64)). split.
  - by rewrite print_instr.
  - apply from_str_radix_fmt; [lia|].
    pose proof (Z.mod_pos_bound (pc + off) (2 ^ 64)). unfold u64_max. lia.
Qed.

Lemma jump_target_roundtrip_witness :
  exists t, disasm (encode (Jal 0 (-8))) 0 = Some ("j       " +:+ t) /\
            from_str_radix u64_max 16 t = Some ((0 + -8) mod 2 ^ 64).
Proof. apply (jump_target_roundtrip (-8) 0). reflexivity. Defined.

(** C33: on every 32-bit word the immediates are in the range of their format: 12-bit signed for
    I and S, 13-bit signed and even for B, 21-bit signed and even for J, and 32-bit signed with
    twelve zero bits for U. *)
Theorem immediate_bounds w :
  is_u32 w ->
  - 2 ^ 11 <= imm_i w < 2 ^ 11 /\ - 2 ^ 11 <= imm_s w < 2 ^ 11 /\
  (- 2 ^ 12 <= imm_b w < 2 ^ 12 /\ imm_b w mod 2 = 0) /\
  (- 2 ^ 20 <= imm_j w < 2 ^ 20 /\ imm_j w mod 2 = 0) /\
  (- 2 ^ 31 <= imm_u w < 2 ^ 31 /\ imm_u w mod 2 ^ 12 = 0).
Proof.
  intros Hw. rewrite imm_i_eq, imm_s_eq, imm_b_eq, (imm_j_eq w _ Hw eq_refl), imm_u_eq by done.
  split_and!.
  13: apply (wrap_signed_multiple 32 12); [lia..|Z.div_mod_to_equations; lia].
  10: apply (wrap_signed_multiple 21 1); [lia..|Z.div_mod_to_equations; lia].
  7: apply (wrap_signed_multiple 13 1); [lia..|Z.div_mod_to_equations; lia].
  all: first [apply (wrap_signed_range 12); lia|apply (wrap_signed_range 13); lia
    |apply (wrap_signed_range 21); lia|apply (wrap_signed_range 32); lia].
Qed.

Lemma immediate_bounds_witness :
  - 2 ^ 11 <= imm_i 0xfe079ee3 < 2 ^ 11 /\ - 2 ^ 11 <= imm_s 0xfe079ee3 < 2 ^ 11 /\
  (- 2 ^ 12 <= imm_b 0xfe079ee3 < 2 ^ 12 /\ imm_b 0xfe079ee3 mod 2 = 0) /\
  (- 2 ^ 20 <= imm_j 0xfe079ee3 < 2 ^ 20 /\ imm_j 0xfe079ee3 mod 2 = 0) /\
  (- 2 ^ 31 <= imm_u 0xfe079ee3 < 2 ^ 31 /\ imm_u 0xfe079ee3 mod 2 ^ 12 = 0).
Proof. apply (immediate_bounds 0xfe079ee3). unfold is_u32. lia. Defined.

(** C34: a word whose major opcode the disassembler does not know is printed raw, as [.insn] with
    eight hexadecimal digits that read back as the word. *)
Theorem disasm_raw insn pc :
  is_u32 insn -> existsb (Z.eqb (insn .& 0x7f)) known_opcodes = false ->
  exists t, disasm insn pc = Some (".insn   0x" +:+ t) /\ String.length t = 8%nat /\
            from_str_radix u32_max 16 t = Some insn.
Proof.
  intros Hu Hop. exists (fmt_hex_zero 8 insn). split_and!.
  - by apply disasm_unknown.
  - apply fmt_hex_zero_length; [lia|]. unfold is_u32 in Hu. lia.
  - apply from_str_radix_hex_zero. unfold is_u32, u32_max in *. lia.
Qed.

Lemma disasm_raw_witness :
  exists t, disasm 0x02c5f553 0 = Some (".insn   0x" +:+ t) /\ String.length t = 8%nat /\
            from_str_radix u32_max 16 t = Some 0x02c5f553.
Proof. apply (disasm_raw 0x02c5f553 0); [unfold is_u32; lia|reflexivity]. Defined.

(** C36: of the funct7 field of a register-register operation only the values 1 (multiply and
    divide) and bit 5 count: any other word prints as the base instruction with the other bits
    cleared, so for instance the Zba [sh1add] (funct7 0x10, funct3 2) prints as [slt]. *)
Theorem disasm_op_funct7 f7v r2 r1 f3v rdv pc :
  R_ok f7v r2 r1 f3v rdv 0x33 -> f7v <> 1 ->
  disasm (enc_R f7v r2 r1 f3v rdv 0x33) pc = disasm (enc_R (f7v .& 0x20) r2 r1 f3v rdv 0x33) pc.
Proof.
  intros Hok H1.
  assert (Hb : f7v .& 0x20 = 0 \/ f7v .& 0x20 = 0x20).
  { change 0x20 with (Z.shiftl (Z.ones 1) 5). rewrite land_shifted, field_div_mod by lia.
    pose proof (Z.mod_pos_bound (f7v / 2 ^ 5) 2 ltac:(lia)) as Hm. change (2 ^ 1) with 2.
    assert ((f7v / 2 ^ 5) mod 2 = 0 \/ (f7v / 2 ^ 5) mod 2 = 1) as [-> | ->] by lia; auto. }
  assert (Hok' : R_ok (f7v .& 0x20) r2 r1 f3v rdv 0x33) by (unfold R_ok in *; lia).
  unfold disasm. rewrite !enc_R_op, !enc_R_rd, !enc_R_rs1, !enc_R_rs2 by done. cbv beta iota.
  unfold disasm_op. rewrite !enc_R_f7, !enc_R_f3 by done.
  rewrite <- Z.land_assoc. change (0x20 .& 0x20) with 0x20.
  destruct (Z.eqb_spec f7v 1), (Z.eqb_spec (f7v .& 0x20) 1); [lia|lia|lia|done].
Qed.

Lemma disasm_op_funct7_witness :
  disasm (enc_R 0x10 12 11 2 10 0x33) 0 = disasm (enc_R (0x10 .& 0x20) 12 11 2 10 0x33) 0.
Proof. apply (disasm_op_funct7 0x10 12 11 2 10 0); [unfold R_ok; lia|lia]. Defined.

(** C37: of the width field of a floating-point load only the doubleword counts: a vector load,
    which shares the opcode, prints as an [flw] and not raw. *)
Theorem disasm_load_fp_width imm rs1v f3v rdv pc :
  sbits 12 imm = true -> 0 <= rs1v < 2 ^ 5 -> 0 <= f3v < 2 ^ 3 -> 0 <= rdv < 2 ^ 5 -> f3v <> 3 ->
  disasm (enc_I imm rs1v f3v rdv 0x07) pc = disasm (enc_I imm rs1v 2 rdv 0x07) pc.
Proof.
  intros Hi H1 H3 Hd Hne.
  destruct (I_fields rs1v f3v rdv 0x07 imm H1 H3 Hd ltac:(lia)) as (Ho & Hrd & Hr1 & Hf3 & _ & _ & Him & _).
  destruct (I_fields rs1v 2 rdv 0x07 imm H1 ltac:(lia) Hd ltac:(lia)) as (Ho' & Hrd' & Hr1' & Hf3' & _ & _ & Him' & _).
  unfold disasm. rewrite Ho, Ho', Hrd, Hrd', Hr1, Hr1'. cbv beta iota. unfold disasm_load_fp.
  rewrite Hf3, Hf3', Him, Him' by done. by destruct (Z.eqb_spec f3v 3).
Qed.

Lemma disasm_load_fp_width_witness :
  disasm (enc_I 0x020 10 0 1 0x07) 0 = disasm (enc_I 0x020 10 2 1 0x07) 0.
Proof. apply (disasm_load_fp_width 0x020 10 0 1 0); [reflexivity|lia..]. Defined.
