(* ===== verification/Row.v ===== *)
(** * Row: one row of the pipe view (tools/pipeview/src/main.rs)

    The record, its first and last cycle, the letter of a cell and the colour class of a
    letter.  A glyph is a byte ([u8], here an [ascii]), a cycle a [u64]. *)
From S2P Require Import Prelude Fmt Str.

Record Row := mkRow {
  label : string;
  stages : list (Z * ascii); (* (cycle, glyph) in order *)
  row_end : option Z;
  flushed : bool;
  stall : bool;
  fill : ascii
}.

(** [fn start], [fn last] *)
Definition start (r : Row) : Z := default 0 (fst <$> head (stages r)).
Definition row_last (r : Row) : Z :=
  default (default 0 (fst <$> last (stages r))) (row_end r).

(** [b"abcd".contains(&g)] and [u8::to_ascii_uppercase] *)
Definition is_lane (g : ascii) : bool := existsb (Ascii.eqb g) ["a"; "b"; "c"; "d"]%char.
Definition to_ascii_uppercase (g : ascii) : ascii :=
  let n := Z_of_ascii g in
  if (97 <=? n) && (n <=? 122) then ascii_of_Z (n - 32) else g.

(** the loop of [glyph_at] over the stages, left at the first one after [c] *)
Fixpoint glyph_loop (g : ascii) (c : Z) (l : list (Z * ascii)) : ascii :=
  match l with
  | [] => g
  | (sc, sg) :: l => if c <? sc then g else glyph_loop sg c l
  end.

(** [fn glyph_at] *)
Definition glyph_at (r : Row) (c : Z) : ascii :=
  if c <? start r then " "%char
  else if stall r then
    if match row_end r with None => true | Some e => c <? e end then fill r else " "%char
  else
    match row_end r with
    | Some e =>
        if e <? c then " "%char
        else if c =? e then
          match find (fun s => s.1 =? c) (rev (stages r)) with
          | Some (_, g) =>
              if negb (flushed r) && is_lane g then to_ascii_uppercase g
              else if flushed r then "x"%char else "R"%char
          | None => if flushed r then "x"%char else "R"%char
          end
        else glyph_loop " "%char c (stages r)
    | None => glyph_loop " "%char c (stages r)
    end.

(** [fn glyph]: the first byte of the stage's name *)
Definition glyph (stage : string) : ascii :=
  match stage with String c _ => c | "" => "?"%char end.

(** [fn sgr]: the colour class of a code *)
Definition sgr (g : ascii) : string :=
  match g with
  | ("a" | "b" | "c" | "d" | "A" | "B" | "C" | "D" | "M" | "F" | "u" | "v" | "l" | "R")%char => "1"
  | ("w" | "W" | "k" | "y" | "m" | "e" | "Y")%char => "33"
  | ("Q" | "g" | "r" | "n" | "z" | "O" | "I" | "L" | "S" | "o" | "s" | "!")%char => "31"
  | ("=" | "x" | "X")%char => "2"
  | ("?")%char => "35"
  | _ => ""
  end.
