(* ===== verification/Kanata.v ===== *)
(** * Kanata: reading the trace (tools/pipeview/src/main.rs, [objdump_table] and [load])

    The external parts are arguments: what running objdump printed, and the outcome of
    opening and reading the trace file, line by line.  [None] is a panic, [Err] an I/O error
    handed to the caller.  The [HashMap]s are [gmap]s, the row vector a list; indexing a row
    out of bounds panics. *)
From S2P Require Import Prelude Fmt Str Rvdisasm Row.

Inductive result (E A : Type) := Ok (a : A) | Err (e : E).
Arguments Ok {E A} a.
Arguments Err {E A} e.

(** ** [fn objdump_table] *)
Section objdump.
Context {P : Profile}.

(** the loop's state: the enclosing symbol and the table *)
Definition objdump_state : Type := option (Z * string) * gmap Z string.

(** [u64::from_str_radix(s.trim(), 16)] *)
Definition parse_hex (s : string) : option Z := from_str_radix u64_max 16 (trim s).

Definition objdump_line (st : objdump_state) (ln : string) : option objdump_state :=
  let '(sym, t) := st in
  match strip_suffix ">:" ln with
  | Some rest =>
      match split_once " <" rest with
      | Some (a, s) =>
          match parse_hex a with
          | Some a => Some (Some (a, s), t)
          | None => Some st
          end
      | None => Some st
      end
  | None =>
      match split_once (":" +:+ String HT "") ln with
      | None => Some st
      | Some (a, text) =>
          match parse_hex a, sym with
          | Some pc, Some (base, name) =>
              let text := join " " (split_whitespace (default "" (head (split_char "#" text)))) in
              off ← sub_u64 pc base;
              let at' := if off =? 0 then "<" +:+ name +:+ ">"
                         else "<" +:+ name +:+ "+0x" +:+ fmt_hex off +:+ ">" in
              Some (sym, <[pc := at' +:+ ": " +:+ text]> t)
          | _, _ => Some st
          end
      end
  end.

Fixpoint objdump_lines (st : objdump_state) (ls : list string) : option objdump_state :=
  match ls with
  | [] => Some st
  | ln :: ls => st ← objdump_line st ln; objdump_lines st ls
  end.

(** [out] is objdump's output, or the error of running it *)
Definition objdump_table {E} (out : result E string) : option (gmap Z string) :=
  match out with
  | Err _ => Some ∅
  | Ok out => st ← objdump_lines (None, ∅) (lines out); Some st.2
  end.
End objdump.

(** ** [fn load] *)
Definition new_row : Row := mkRow "" [] None false false " "%char.
Definition set_label (l : string) (r : Row) : Row :=
  mkRow l (stages r) (row_end r) (flushed r) (stall r) (fill r).
Definition set_stall (f : ascii) (cause : string) (r : Row) : Row :=
  mkRow cause (stages r) (row_end r) (flushed r) true f.
Definition push_stage (s : Z * ascii) (r : Row) : Row :=
  mkRow (label r) (stages r ++ [s]) (row_end r) (flushed r) (stall r) (fill r).
Definition set_end (e : Z) (f : bool) (r : Row) : Row :=
  mkRow (label r) (stages r) (Some e) f (stall r) (fill r).

(** the label of an instruction's row: [pc], the instruction word, objdump's text if any *)
Definition insn_label (table : gmap Z string) (pc word : string) : option string :=
  let p := default 0 (parse_hex pc) in
  let w := default 0 (from_str_radix u32_max 16 (trim word)) in
  match table !! p with
  | Some t => Some (fmt_hex p +:+ " " +:+ t)
  | None =>
      if negb (w .& 3 =? 3) then Some (fmt_hex p +:+ " (rvc " +:+ fmt_hex_zero 4 w +:+ ")")
      else text ← disasm w p;
           Some (fmt_hex p +:+ " " +:+ join " " (split_whitespace text))
  end.

(** what a label line (type 0) does to its row *)
Definition label_row (table : gmap Z string) (text : string) (r : Row) : option Row :=
  match strip_prefix "** " text with
  | Some cause => Some (set_stall "#" cause r)
  | None =>
      match strip_prefix "~~ " text with
      | Some cause => Some (set_stall "~" cause r)
      | None =>
          match split_once ": " text with
          | Some (pc, word) => l ← insn_label table pc word; Some (set_label l r)
          | None => Some (set_label text r)
          end
      end
  end.

Record load_state := mkLoad { rows : list Row; by_id : gmap string nat; cyc : Z }.

(** [rows[i] = f(rows[i])] *)
Definition update_row (i : nat) (f : Row -> option Row) (s : load_state) : option load_state :=
  r ← rows s !! i;
  r ← f r;
  Some (mkLoad (<[i := r]> (rows s)) (by_id s) (cyc s)).

(** the row a line names: a line with an unknown id is skipped *)
Definition on_row (id : string) (f : Row -> option Row) (s : load_state) : option load_state :=
  match by_id s !! id with
  | Some i => update_row i f s
  | None => Some s
  end.

Section load.
Context {P : Profile} (table : gmap Z string).

(** one line of the trace, [f] its fields: the guards of the [match] on [f[0]] check the
    length before a field is read, so [fld] never takes its default *)
Definition load_fields (s : load_state) (f : list string) : option load_state :=
  let fld i := nth i f "" in
  let len := length f in
  if String.eqb (fld 0%nat) "C" && (1 <? len)%nat then
    c ← add_u64 (cyc s) (default 0 (parse_u64 (fld 1%nat)));
    Some (mkLoad (rows s) (by_id s) c)
  else if String.eqb (fld 0%nat) "I" && (1 <? len)%nat then
    Some (mkLoad (rows s ++ [new_row]) (<[fld 1%nat := length (rows s)]> (by_id s)) (cyc s))
  else if String.eqb (fld 0%nat) "L" && (3 <? len)%nat && String.eqb (fld 2%nat) "0" then
    on_row (fld 1%nat) (label_row table (fld 3%nat)) s
  else if String.eqb (fld 0%nat) "S" && (3 <? len)%nat then
    on_row (fld 1%nat) (fun r => Some (push_stage (cyc s, glyph (fld 3%nat)) r)) s
  else if String.eqb (fld 0%nat) "R" && (3 <? len)%nat then
    on_row (fld 1%nat) (fun r => Some (set_end (cyc s) (String.eqb (fld 3%nat) "1") r)) s
  else Some s.

Definition load_line (s : load_state) (ln : string) : option load_state :=
  load_fields s (split_char HT ln).

Definition load_init : load_state := mkLoad [] ∅ 0.

(** the loop: an unreadable line ends it with its error *)
Fixpoint load_lines {E} (s : load_state) (ls : list (result E string)) : option (result E (list Row)) :=
  match ls with
  | [] => Some (Ok (rows s))
  | Err e :: _ => Some (Err e)
  | Ok ln :: ls => s ← load_line s ln; load_lines s ls
  end.
End load.

(** [fn load(path, elf)]: [out] is objdump's output when an ELF is given, [file] the lines of
    the file or the error of opening it *)
Definition load {P : Profile} {E} (out : option (result E string))
    (file : result E (list (result E string))) : option (result E (list Row)) :=
  table ← match out with Some out => objdump_table out | None => Some ∅ end;
  match file with
  | Err e => Some (Err e)
  | Ok ls => load_lines table load_init ls
  end.
