(* ===== verification/KanataSpec.v ===== *)
(** * KanataSpec: the invariant of the trace reader

    Every id maps to a row that exists, so no line panics on an index; the stages of a row are
    in cycle order and not later than the reader's clock.  The two build profiles differ only
    on the overflow of the clock. *)
From Stdlib Require Import Sorted.
From S2P Require Import Prelude Fmt Str Rvdisasm RvdisasmFields RvdisasmSpec Row Kanata.

(** ** Well-formed rows and states *)
Definition before (s1 s2 : Z * ascii) : Prop := s1.1 <= s2.1.

Record row_ok (c : Z) (r : Row) : Prop := {
  row_sorted : StronglySorted before (stages r);
  row_stages : Forall (fun s => 0 <= s.1 <= c) (stages r);
  row_end_le : forall e, row_end r = Some e -> 0 <= e <= c
}.

(** every id names an existing row *)
Definition ids_ok (s : load_state) : Prop :=
  forall id i, by_id s !! id = Some i -> (i < length (rows s))%nat.

Record state_ok (s : load_state) : Prop := {
  ok_ids : ids_ok s;
  ok_cyc : is_u64 (cyc s);
  ok_rows : Forall (row_ok (cyc s)) (rows s)
}.

Lemma row_ok_mono c c' r : c <= c' -> row_ok c r -> row_ok c' r.
Proof.
  intros Hc [? Hs He]. split; [done| |].
  - eapply Forall_impl; [exact Hs|]. cbn. intros s ?. lia.
  - intros e E. specialize (He e E). lia.
Qed.

Lemma new_row_ok c : row_ok c new_row.
Proof. split; [constructor|constructor|done]. Qed.
Lemma set_label_ok c l r : row_ok c r -> row_ok c (set_label l r).
Proof. by intros [? ? ?]. Qed.
Lemma set_stall_ok c f l r : row_ok c r -> row_ok c (set_stall f l r).
Proof. by intros [? ? ?]. Qed.

Lemma StronglySorted_snoc {A} (R : A -> A -> Prop) l x :
  StronglySorted R l -> Forall (fun y => R y x) l -> StronglySorted R (l ++ [x]).
Proof.
  induction 1 as [|y l Hl IH Hy]; intros Hx; [repeat constructor|].
  apply Forall_cons_1 in Hx as [? ?]. cbn. constructor; [by apply IH|].
  apply Forall_app. by repeat constructor.
Qed.

Lemma push_stage_ok c g r : 0 <= c -> row_ok c r -> row_ok c (push_stage (c, g) r).
Proof.
  intros Hc [Hs Hf He]. split; [| |done]; cbn.
  - apply StronglySorted_snoc; [done|]. eapply Forall_impl; [exact Hf|].
    cbn. intros s ?. unfold before. cbn. lia.
  - apply Forall_app. split; [done|]. repeat constructor; cbn; lia.
Qed.
Lemma set_end_ok c f r : 0 <= c -> row_ok c r -> row_ok c (set_end c f r).
Proof. intros Hc [? ? ?]. split; [done..|]. cbn. intros e E. simplify_eq. lia. Qed.

(** ** Reading numbers *)
Lemma parse_go_range b max acc s n :
  0 <= b -> 0 <= acc <= max -> parse_go b max acc s = Some n -> 0 <= n <= max.
Proof.
  intros Hb. revert acc. induction s as [|c s IH]; intros acc Hacc H.
  - injection H as <-. done.
  - cbn [parse_go] in H. destruct (to_digit b c) as [d|] eqn:Ed; [|done]. cbn in H.
    destruct (Z.leb_spec (acc * b + d) max); [|done]. apply IH in H; [done|].
    unfold to_digit in Ed.
    assert (0 <= d); [|nia].
    repeat case_match; simplify_eq; rewrite ?andb_true_iff, ?Z.leb_le in *; lia.
Qed.

Lemma from_str_radix_range max b s n :
  0 <= b -> 0 <= max -> from_str_radix max b s = Some n -> 0 <= n <= max.
Proof.
  intros Hb Hm H. unfold from_str_radix in H.
  repeat case_match; try done; eapply parse_go_range in H; eauto; lia.
Qed.

Lemma parse_u64_range s : is_u64 (default 0 (parse_u64 s)).
Proof.
  unfold is_u64. destruct (parse_u64 s) as [n|] eqn:E; cbn; [|lia].
  apply from_str_radix_range in E; unfold u64_max in *; lia.
Qed.

(** ** Labels never panic *)
Lemma insn_label_Some table pc word : exists l, insn_label table pc word = Some l.
Proof.
  unfold insn_label. case_match; [eauto|]. case_match; [eauto|].
  match goal with |- context [disasm ?w ?p] => destruct (disasm_Some w p) as [t ->] end.
  cbn. eauto.
Qed.

Lemma label_row_Some table text r : exists r', label_row table text r = Some r'.
Proof.
  unfold label_row. repeat case_match; eauto.
  match goal with |- context [insn_label ?t ?p ?w] => destruct (insn_label_Some t p w) as [l ->] end.
  cbn. eauto.
Qed.

Lemma label_row_ok table text c r r' :
  row_ok c r -> label_row table text r = Some r' -> row_ok c r'.
Proof.
  intros Hr. unfold label_row. repeat case_match; try (intros [= <-]);
    auto using set_stall_ok, set_label_ok.
  destruct (insn_label _ _ _); cbn; [|done]. intros [= <-]. by apply set_label_ok.
Qed.

(** ** Lines *)
Lemma on_row_ok id f s :
  (forall r, exists r', f r = Some r') -> ids_ok s ->
  exists s', on_row id f s = Some s' /\ ids_ok s' /\ cyc s' = cyc s /\
    forall Q : Row -> Prop, (forall r r', Q r -> f r = Some r' -> Q r') ->
      Forall Q (rows s) -> Forall Q (rows s').
Proof.
  intros Hf Hids. unfold on_row.
  destruct (by_id s !! id) as [i|] eqn:Ei; [|by exists s].
  pose proof (Hids id i Ei) as Hi. apply lookup_lt_is_Some_2 in Hi as [r Hr].
  destruct (Hf r) as (r' & Hfr). unfold update_row. rewrite Hr. cbn. rewrite Hfr. cbn.
  eexists. split_and!; [done| |done|].
  - intros id' i' H'. cbn in *. rewrite length_insert. eauto.
  - intros Q HQ Hrows. cbn. apply Forall_insert; [done|].
    eapply HQ; [|done]. by eapply Forall_lookup_1.
Qed.

Definition is_clock (f : list string) : bool :=
  String.eqb (nth 0 f "") "C" && (1 <? length f)%nat.

Section lines.
Context (table : gmap Z string).

Lemma load_fields_clock {P : Profile} s f :
  is_clock f = true ->
  load_fields table s f =
    (c ← add_u64 (cyc s) (default 0 (parse_u64 (nth 1 f ""))); Some (mkLoad (rows s) (by_id s) c)).
Proof. unfold is_clock. intros Hf. unfold load_fields. by rewrite Hf. Qed.

(** only the clock's lines depend on the profile *)
Lemma load_fields_profile (P1 P2 : Profile) s f :
  is_clock f = false -> @load_fields P1 table s f = @load_fields P2 table s f.
Proof. unfold is_clock. intros Hf. unfold load_fields. by rewrite Hf. Qed.

Lemma load_fields_other {P : Profile} s f :
  is_clock f = false -> ids_ok s ->
  exists s', load_fields table s f = Some s' /\ ids_ok s' /\ cyc s' = cyc s /\
    (0 <= cyc s -> Forall (row_ok (cyc s)) (rows s) -> Forall (row_ok (cyc s)) (rows s')).
Proof.
  unfold is_clock. intros Hf Hids. unfold load_fields. rewrite Hf.
  cbv zeta. destruct (String.eqb (nth 0 f "") "I" && _) eqn:HI.
  { eexists. split_and!; [done| |done|].
    - intros id i H'. cbn in *. rewrite length_app. cbn.
      rewrite lookup_insert in H'. case_decide; simplify_eq; [lia|].
      specialize (Hids id i H'). lia.
    - intros _ Hrows. cbn. apply Forall_app. repeat constructor; try done; apply new_row_ok. }
  assert (Hrow : forall id g,
    (forall r, exists r', g r = Some r') ->
    (forall r r', 0 <= cyc s -> row_ok (cyc s) r -> g r = Some r' -> row_ok (cyc s) r') ->
    exists s', on_row id g s = Some s' /\ ids_ok s' /\ cyc s' = cyc s /\
      (0 <= cyc s -> Forall (row_ok (cyc s)) (rows s) -> Forall (row_ok (cyc s)) (rows s'))).
  { intros id g Hg Hok. destruct (on_row_ok id g s Hg Hids) as (s' & -> & ? & ? & HQ).
    exists s'. split_and!; [done..|]. intros Hc. apply HQ. eauto. }
  destruct (_ && String.eqb (nth 2 f "") "0").
  { apply Hrow; [apply label_row_Some|]. intros r r' _. apply label_row_ok. }
  destruct (String.eqb (nth 0 f "") "S" && _).
  { apply Hrow; [eauto|]. intros r r' ? ? [= <-]. by apply push_stage_ok. }
  destruct (String.eqb (nth 0 f "") "R" && _).
  { apply Hrow; [eauto|]. intros r r' ? ? [= <-]. by apply set_end_ok. }
  by exists s.
Qed.

(** a release build reads every line *)
Lemma load_line_release s ln :
  ids_ok s -> exists s', @load_line Release table s ln = Some s' /\ ids_ok s'.
Proof.
  intros Hids. unfold load_line. destruct (is_clock (split_char HT ln)) eqn:Hc.
  - rewrite load_fields_clock by done. unfold add_u64.
    destruct (in_u64_release (cyc s + default 0 (parse_u64 (nth 1 (split_char HT ln) ""))))
      as [c ->]. cbn. by eexists.
  - destruct (@load_fields_other Release s _ Hc Hids) as (s' & -> & ? & _). eauto.
Qed.

(** a debug build keeps the rows in order, or panics on the clock's overflow *)
Lemma load_line_debug s ln s' :
  state_ok s -> @load_line Debug table s ln = Some s' ->
  state_ok s' /\ cyc s <= cyc s' /\ @load_line Release table s ln = Some s'.
Proof.
  intros [Hids Hcyc Hrows]. unfold load_line. destruct (is_clock (split_char HT ln)) eqn:Hc.
  - rewrite !load_fields_clock by done. unfold add_u64.
    pose proof (parse_u64_range (nth 1 (split_char HT ln) "")) as Hn. unfold is_u64 in *.
    destruct (@in_u64 Debug _) as [c|] eqn:Ec; [|done]. cbn. intros [= <-].
    apply in_u64_debug in Ec as [-> Hu]. rewrite in_u64_exact by done.
    split_and!; [|cbn; lia|done]. split; [done|done|]. cbn.
    eapply Forall_impl; [exact Hrows|]. intros r. apply row_ok_mono. lia.
  - intros Hs. rewrite (load_fields_profile Release Debug) by done.
    destruct (@load_fields_other Debug s _ Hc Hids) as (s2 & Es & Hi2 & Ecyc & Hr2).
    simplify_eq. split_and!; [|lia|done]. unfold is_u64 in *.
    split; [done|rewrite Ecyc; unfold is_u64; lia|]. rewrite Ecyc. apply Hr2; [lia|done].
Qed.

Lemma load_lines_release {E} s (ls : list (result E string)) :
  ids_ok s -> exists r, @load_lines Release table E s ls = Some r.
Proof.
  revert s. induction ls as [|[ln|e] ls IH]; intros s Hids; cbn; [eauto| |eauto].
  destruct (load_line_release s ln Hids) as (s' & -> & Hids'). cbn. by apply IH.
Qed.

(** an error is what is returned, when the lines before it do not panic *)
Lemma load_lines_error {P : Profile} {E} s ls (e : E) rest :
  load_lines table s (map Ok ls ++ Err e :: rest) =
    match load_lines table s (map (Ok (E:=E)) ls) with Some _ => Some (Err e) | None => None end.
Proof.
  revert s. induction ls as [|ln ls IH]; intros s; [done|]. cbn.
  destruct (load_line table s ln) as [s'|]; [|done]. apply IH.
Qed.

(** a line adds at most one row *)
Lemma on_row_length id f s s' : on_row id f s = Some s' -> length (rows s') = length (rows s).
Proof.
  unfold on_row, update_row. destruct (by_id s !! id) as [i|]; [|by intros [= <-]].
  destruct (rows s !! i) as [r|]; [|done]. cbn. destruct (f r); [|done]. intros [= <-]. cbn.
  apply length_insert.
Qed.
Lemma load_line_length {P : Profile} s ln s' :
  load_line table s ln = Some s' -> (length (rows s') <= S (length (rows s)))%nat.
Proof.
  unfold load_line, load_fields. cbv zeta.
  destruct (String.eqb _ "C" && _).
  { destruct (add_u64 _ _); [|done]. intros [= <-]. cbn. lia. }
  destruct (String.eqb _ "I" && _); [intros [= <-]; cbn; rewrite length_app; cbn; lia|].
  destruct (_ && String.eqb _ "0"); [intros H%on_row_length; lia|].
  destruct (String.eqb _ "S" && _); [intros H%on_row_length; lia|].
  destruct (String.eqb _ "R" && _); [intros H%on_row_length; lia|]. intros [= <-]. lia.
Qed.
Lemma load_lines_length {P : Profile} {E} s (ls : list (result E string)) rs :
  load_lines table s ls = Some (Ok rs) -> (length rs <= length (rows s) + length ls)%nat.
Proof.
  revert s. induction ls as [|[ln|e] ls IH]; intros s; cbn; [intros [= <-]; lia| |done].
  destruct (load_line table s ln) as [s'|] eqn:El; [|done]. cbn. intros H%IH.
  apply load_line_length in El. lia.
Qed.

Lemma load_lines_debug {E} s (ls : list (result E string)) r :
  state_ok s -> @load_lines Debug table E s ls = Some r ->
  @load_lines Release table E s ls = Some r /\
  forall rs, r = Ok rs -> Forall (row_ok u64_max) rs.
Proof.
  revert s. induction ls as [|[ln|e] ls IH]; intros s Hs H; cbn in *.
  - injection H as <-. split; [done|]. intros rs [= <-]. destruct Hs as [_ Hc Hrows].
    eapply Forall_impl; [exact Hrows|]. intros r'. apply row_ok_mono. unfold is_u64, u64_max in *. lia.
  - destruct (@load_line Debug table s ln) as [s'|] eqn:El; [|done]. cbn in H.
    destruct (load_line_debug s ln s' Hs El) as (Hs' & _ & ->). cbn. by apply IH.
  - injection H as <-. by split.
Qed.

Lemma load_init_ok : state_ok load_init.
Proof. split; [done|unfold is_u64; cbn; lia|constructor]. Qed.
End lines.

(** ** The objdump table *)
Lemma objdump_line_release st ln : exists st', @objdump_line Release st ln = Some st'.
Proof.
  unfold objdump_line, sub_u64. destruct st as [sym t]. repeat case_match; eauto.
  match goal with |- context [in_u64 ?x] => destruct (in_u64_release x) as [y ->] end.
  cbn. eauto.
Qed.

Lemma objdump_line_debug st ln st' :
  @objdump_line Debug st ln = Some st' -> @objdump_line Release st ln = Some st'.
Proof.
  unfold objdump_line, sub_u64. destruct st as [sym t]. repeat case_match; try done.
  destruct (@in_u64 Debug _) as [y|] eqn:E; [|done].
  apply in_u64_debug in E as [-> Hu]. by rewrite in_u64_exact.
Qed.

Lemma objdump_table_release {E} (out : result E string) :
  exists t, @objdump_table Release E out = Some t.
Proof.
  destruct out as [out|e]; [|by eexists]. cbn. generalize ((None, ∅) : objdump_state).
  induction (lines out) as [|ln ls IH]; intros st; cbn; [eauto|].
  destruct (objdump_line_release st ln) as [st' ->]. cbn. apply IH.
Qed.

Lemma objdump_table_debug {E} (out : result E string) t :
  @objdump_table Debug E out = Some t -> @objdump_table Release E out = Some t.
Proof.
  destruct out as [out|e]; [|done]. cbn. generalize ((None, ∅) : objdump_state).
  induction (lines out) as [|ln ls IH]; intros st; cbn; [done|].
  destruct (@objdump_line Debug st ln) as [st'|] eqn:El; [|done]. cbn.
  rewrite (objdump_line_debug _ _ _ El). cbn. apply IH.
Qed.

Lemma load_length {P : Profile} {E} (out : option (result E string)) ls rs :
  load out (Ok ls) = Some (Ok rs) -> (length rs <= length ls)%nat.
Proof.
  unfold load. destruct (match out with Some _ => _ | None => _ end) as [t|]; [|done].
  cbn. by intros H%load_lines_length.
Qed.

Lemma load_release {E} (out : option (result E string)) file : exists r, @load Release E out file = Some r.
Proof.
  unfold load. destruct out as [out|]; cbn.
  - destruct (objdump_table_release out) as [t ->]. cbn. destruct file as [ls|e]; [|eauto].
    apply load_lines_release, load_init_ok.
  - destruct file as [ls|e]; [|eauto]. apply load_lines_release, load_init_ok.
Qed.
