(* ===== verification/RowSpec.v ===== *)
(** * RowSpec: what a cell of the view shows

    [cell] is the legend's reading of a row: blank outside its life, the code of the stage the
    instruction is in, and at its last cycle the retirement or flush mark.  [glyph_at] computes
    it on every row whose stages are in cycle order and not after its end. *)
From Stdlib Require Import Sorted.
From S2P Require Import Prelude Fmt Str Rvdisasm RvdisasmFields RvdisasmSpec Row Kanata KanataSpec.

(** ** The specification *)

(** the stage entered last, of those entered at or before [c] *)
Definition current (r : Row) (c : Z) : ascii :=
  match last (filter (fun s => s.1 <= c) (stages r)) with Some (_, g) => g | None => " "%char end.

(** retired in the cycle it was in stage [g]: the lane's letter in upper case, if [g] is one *)
Definition retired_in (g : ascii) : ascii :=
  match g with
  | "a"%char => "A"%char | "b"%char => "B"%char | "c"%char => "C"%char | "d"%char => "D"%char
  | _ => "R"%char
  end.

(** the mark of the row's last cycle [e]: flushed, executed and retired in it, or retired *)
Definition end_mark (r : Row) (e : Z) : ascii :=
  if flushed r then "x"%char
  else match last (stages r) with
       | Some (sc, g) => if sc =? e then retired_in g else "R"%char
       | None => "R"%char
       end.

(** during its life, a row that holds a cause shows its fill up to but not including its end *)
Definition cell (r : Row) (c : Z) : ascii :=
  if c <? start r then " "%char
  else match row_end r with
       | None => if stall r then fill r else current r c
       | Some e =>
           if stall r then (if c <? e then fill r else " "%char)
           else match Z.compare c e with
                | Lt => current r c
                | Eq => end_mark r e
                | Gt => " "%char
                end
       end.

(** a row's stages are in order and none is after its end *)
Definition stages_ok (r : Row) : Prop :=
  StronglySorted before (stages r) /\
  forall e, row_end r = Some e -> Forall (fun s => s.1 <= e) (stages r).

(** ** The loop over the stages *)
Lemma glyph_loop_last g c l :
  StronglySorted before l ->
  glyph_loop g c l = match last (filter (fun s => s.1 <= c) l) with Some (_, g') => g' | None => g end.
Proof.
  intros Hl. revert g. induction Hl as [|[sc sg] l Hl IH Hs]; intros g; [done|].
  cbn [glyph_loop]. destruct (Z.ltb_spec c sc) as [Hlt|Hge].
  - rewrite filter_none; [done|]. constructor; [cbn; lia|].
    eapply Forall_impl; [exact Hs|]. unfold before. cbn. intros s ?. lia.
  - rewrite filter_cons_True by done. rewrite IH, last_cons.
    by destruct (last _) as [[? ?]|].
Qed.

Lemma find_rev_snoc {A} (p : A -> bool) l x :
  find p (rev (l ++ [x])) = if p x then Some x else find p (rev l).
Proof. by rewrite rev_app_distr. Qed.

(** at the row's end, the stage found from the back is its last one or none *)
Lemma find_end e l :
  StronglySorted before l -> Forall (fun s => s.1 <= e) l ->
  find (fun s => s.1 =? e) (rev l) =
    match last l with Some s => if s.1 =? e then Some s else None | None => None end.
Proof.
  intros Hs He. destruct l as [|s l] using rev_ind; [done|]. clear IHl.
  rewrite find_rev_snoc, last_snoc. destruct (Z.eqb_spec s.1 e) as [|Hne]; [done|].
  apply Forall_app in He as [He Hle]. apply Forall_cons_1 in Hle as [Hle _].
  assert (Hlt : Forall (fun s' => s'.1 < e) l).
  { clear He. induction l as [|s' l IH]; [constructor|]. cbn in Hs.
    apply StronglySorted_inv in Hs as [Hs Hf]. constructor; [|by apply IH].
    apply Forall_app in Hf as [_ Hf]. apply Forall_cons_1 in Hf as [Hf _].
    unfold before in Hf. lia. }
  destruct (find _ (rev l)) as [x|] eqn:E; [|done]. apply find_some in E as [Hx Ex].
  apply in_rev, list_elem_of_In in Hx. rewrite Forall_forall in Hlt. specialize (Hlt x Hx).
  cbn in Hlt. lia.
Qed.

Lemma retired_in_lane g : retired_in g = if is_lane g then to_ascii_uppercase g else "R"%char.
Proof. by destruct g as [[][][][][][][][]]. Qed.

Lemma glyph_at_cell_ok r c : stages_ok r -> glyph_at r c = cell r c.
Proof.
  intros [Hs He]. unfold glyph_at, cell. destruct (c <? start r); [done|].
  destruct (row_end r) as [e|] eqn:Ee; [|by rewrite glyph_loop_last].
  destruct (stall r); [done|]. specialize (He e eq_refl).
  rewrite glyph_loop_last by done.
  destruct (Z.ltb_spec e c), (Z.compare_spec c e) as [->|Hc|Hc]; try lia; try done.
  - rewrite Z.eqb_refl, find_end by done. unfold end_mark.
    destruct (last (stages r)) as [[sc g]|]; [|done]. cbn.
    rewrite retired_in_lane. destruct (Z.eqb_spec sc e); cbn; [|done].
    by destruct (flushed r), (is_lane g).
  - by destruct (Z.eqb_spec c e); [lia|].
Qed.

(** ** Where a row shows something *)
Lemma last_filter_start c (l : list (Z * ascii)) :
  l <> [] -> default 0 (fst <$> head l) <= c -> exists s, last (filter (fun s => s.1 <= c) l) = Some s /\ s ∈ l.
Proof.
  destruct l as [|s l]; [done|]. intros _ Hc. cbn in Hc.
  rewrite filter_cons_True by done.
  destruct (last (s :: filter (fun s => s.1 <= c) l)) as [s'|] eqn:E.
  - exists s'. split; [done|]. apply last_Some_elem_of in E.
    apply elem_of_cons in E as [->|E]; [left|]. apply list_elem_of_filter in E as [_ E]. by right.
  - by apply last_None in E.
Qed.

Lemma retired_in_not_blank g : retired_in g <> " "%char.
Proof. by destruct g as [[][][][][][][][]]. Qed.

Lemma end_mark_not_blank r e : end_mark r e <> " "%char.
Proof.
  unfold end_mark. destruct (flushed r); [done|]. destruct (last (stages r)) as [[sc g]|]; [|done].
  destruct (sc =? e); [apply retired_in_not_blank|done].
Qed.

(** the codes of a row are visible ones *)
Definition codes_ok (r : Row) : Prop :=
  stages r <> [] /\ Forall (fun s => s.2 <> " "%char) (stages r) /\ (stall r = true -> fill r <> " "%char).

Lemma current_not_blank r c : codes_ok r -> start r <= c -> current r c <> " "%char.
Proof.
  intros (Hne & Hs & _) Hc. unfold current.
  destruct (last_filter_start c (stages r) Hne Hc) as ([sc g] & -> & Hin).
  rewrite Forall_forall in Hs. by apply (Hs (sc, g)).
Qed.

(** a row's cells are blank before its first stage and after its last cycle, and only there; a
    row of lost cycles leaves its last cycle blank too *)
Definition alive (r : Row) (c : Z) : Prop :=
  start r <= c /\ forall e, row_end r = Some e -> if stall r then c < e else c <= e.

Lemma cell_alive r c : codes_ok r -> cell r c <> " "%char <-> alive r c.
Proof.
  intros Hr. unfold cell, alive. destruct (Z.ltb_spec c (start r)); [split; [done|lia]|].
  pose proof (current_not_blank r c Hr) as Hcur. destruct Hr as (_ & _ & Hf).
  destruct (row_end r) as [e|].
  - destruct (stall r).
    + destruct (Z.ltb_spec c e); split; try done; [|by intros _; apply Hf|].
      * intros _. split; [done|]. by intros ? [= <-].
      * intros [_ He]. specialize (He e eq_refl). lia.
    + destruct (Z.compare_spec c e) as [->|Hlt|Hgt]; split; try done.
      * intros _. split; [done|]. by intros ? [= <-].
      * intros _. apply end_mark_not_blank.
      * intros _. split; [done|]. intros ? [= <-]. lia.
      * intros _. by apply Hcur.
      * intros [_ He]. specialize (He e eq_refl). lia.
  - destruct (stall r); split; try done; intros _; [by apply Hf|by apply Hcur].
Qed.
