(* ===== verification/KanataTrace.v ===== *)
(** * KanataTrace: what the trace's text means

    The commands the testbench writes (core/tb_pipetrace.vh: [kan_tick], [kan_open], [kan_code],
    [kan_close] and the detail line), their text, and the rows a sequence of commands describes:
    one per opened id, in order, its stages and end dated by the sum of the ticks before them.
    [load] reads the text of a trace back as these rows. *)
From S2P Require Import Prelude Fmt Str StrFacts Rvdisasm RvdisasmFields RvdisasmSpec Row Kanata.

(** ** Commands *)
Inductive mark :=
| Stalled (cause : string)        (* a stall row *)
| Starved (cause : string)        (* a fetch row *)
| Fetched (pc word : Z).          (* an instruction's row *)

Inductive command :=
| Tick (n : Z)
| Open (id : Z)
| Name (id : Z) (l : mark)
| Detail (id : Z) (text : string)
| Enter (id : Z) (code : ascii)
| Leave (id : Z) (code : ascii)
| Close (id rid : Z) (flush : bool).

Definition mark_text (l : mark) : string :=
  match l with
  | Stalled cause => "** " +:+ cause
  | Starved cause => "~~ " +:+ cause
  | Fetched pc word => fmt_hex_zero 16 pc +:+ ": " +:+ fmt_hex_zero 8 word
  end.

(** the fields of a command's line *)
Definition fields (e : command) : list string :=
  match e with
  | Tick n => ["C"; fmt_dec n]
  | Open id => ["I"; fmt_dec id; fmt_dec id; "0"]
  | Name id l => ["L"; fmt_dec id; "0"; mark_text l]
  | Detail id text => ["L"; fmt_dec id; "1"; text]
  | Enter id code => ["S"; fmt_dec id; "0"; String code ""]
  | Leave id code => ["E"; fmt_dec id; "0"; String code ""]
  | Close id rid flush => ["R"; fmt_dec id; fmt_dec rid; if flush then "1" else "0"]
  end.
Definition print (e : command) : string := join (String HT "") (fields e).
(** the file: the two header lines, then a line for each command *)
Definition header : list string := [join (String HT "") ["Kanata"; "0004"]; join (String HT "") ["C="; "0"]].
Definition trace_text (t : list command) : string := unlines (header ++ map print t).

(** ** Meaning *)

(** the commands with the cycle each is issued in *)
Fixpoint dated (c : Z) (t : list command) : list (Z * command) :=
  match t with
  | [] => []
  | Tick n :: t => dated (c + n) t
  | e :: t => (c, e) :: dated c t
  end.
Fixpoint ticks (t : list command) : Z :=
  match t with [] => 0 | Tick n :: t => n + ticks t | _ :: t => ticks t end.

Definition opened_id (e : command) : option Z := match e with Open id => Some id | _ => None end.
Definition opened (t : list command) : list Z := omap opened_id t.

Section meaning.
Context (table : gmap Z string).

Definition mark_label (l : mark) : string :=
  match l with
  | Stalled cause | Starved cause => cause
  | Fetched pc word =>
      fmt_hex pc +:+ " " +:+
      match table !! pc with
      | Some t => t
      | None =>
          if word .& 3 =? 3 then join " " (split_whitespace (default "" (disasm word pc)))
          else "(rvc " +:+ fmt_hex_zero 4 word +:+ ")"
      end
  end.
Definition mark_fill (l : mark) : option ascii :=
  match l with
  | Stalled _ => Some "#"%char
  | Starved _ => Some "~"%char
  | Fetched _ _ => None
  end.

Definition name_of (id : Z) (e : Z * command) : option mark :=
  match e.2 with Name i l => if i =? id then Some l else None | _ => None end.
Definition enter_of (id : Z) (e : Z * command) : option (Z * ascii) :=
  match e.2 with Enter i g => if i =? id then Some (e.1, g) else None | _ => None end.
Definition close_of (id : Z) (e : Z * command) : option (Z * bool) :=
  match e.2 with Close i _ f => if i =? id then Some (e.1, f) else None | _ => None end.

(** the row of [id]: its last name, every stage it enters, its last end *)
Definition row_of (ds : list (Z * command)) (id : Z) : Row :=
  let names := omap (name_of id) ds in
  let causes := omap mark_fill names in
  let close := last (omap (close_of id) ds) in
  mkRow (default "" (mark_label <$> last names)) (omap (enter_of id) ds)
    (fst <$> close) (default false (snd <$> close))
    (bool_decide (causes <> [])) (default " "%char (last causes)).

Definition trace_rows (t : list command) : list Row := map (row_of (dated 0 t)) (opened t).
End meaning.

(** ** Well-formed traces *)
Definition printable (c : ascii) : bool := (32 <=? Z_of_ascii c) && (Z_of_ascii c <? 127).
Definition mark_wf (l : mark) : Prop :=
  match l with
  | Stalled cause | Starved cause => all_str printable cause = true
  | Fetched pc word => is_u64 pc /\ is_u32 word
  end.
(** a command's arguments are in range, and it names a row opened before it *)
Definition command_wf (open : list Z) (e : command) : Prop :=
  match e with
  | Tick n => is_u64 n
  | Open id => is_u64 id /\ id ∉ open
  | Name id l => id ∈ open /\ mark_wf l
  | Detail id text => id ∈ open /\ all_str printable text = true
  | Enter id g | Leave id g => id ∈ open /\ printable g = true
  | Close id rid _ => id ∈ open /\ is_u64 rid
  end.
(** built from the back, as the loader's state is *)
Inductive trace_wf : list command -> Prop :=
| wf_nil : trace_wf []
| wf_snoc t e : trace_wf t -> command_wf (opened t) e -> is_u64 (ticks (t ++ [e])) ->
    trace_wf (t ++ [e]).

(** no stage is entered by a row that has been closed *)
Inductive trace_settled : list command -> Prop :=
| settled_nil : trace_settled []
| settled_snoc t e : trace_settled t ->
    (forall id g, e = Enter id g -> omap (close_of id) (dated 0 t) = []) -> trace_settled (t ++ [e]).

Lemma settled_inv t e :
  trace_settled (t ++ [e]) ->
  trace_settled t /\ forall id g, e = Enter id g -> omap (close_of id) (dated 0 t) = [].
Proof. inversion 1 as [E|t' e' ? ? E]; [by destruct t|]. by apply app_inj_tail in E as [<- <-]. Qed.

(** ** Deciding that a trace is well formed *)
#[export] Instance is_u64_dec x : Decision (is_u64 x) := ltac:(unfold is_u64; apply _).
#[export] Instance is_u32_dec x : Decision (is_u32 x) := ltac:(unfold is_u32; apply _).
#[export] Instance mark_wf_dec l : Decision (mark_wf l) := ltac:(destruct l; apply _).
#[export] Instance command_wf_dec open e : Decision (command_wf open e) := ltac:(destruct e; apply _).

Fixpoint trace_check (open : list Z) (c : Z) (t : list command) : bool :=
  match t with
  | [] => true
  | e :: t =>
      bool_decide (command_wf open e) && bool_decide (is_u64 (c + ticks [e]))
      && trace_check (open ++ opened [e]) (c + ticks [e]) t
  end.

Lemma ticks_snoc t e : ticks (t ++ [e]) = ticks t + ticks [e].
Proof. induction t as [|d t IH]; [done|]. destruct d; cbn [app ticks] in *; lia. Qed.
Lemma opened_snoc t e : opened (t ++ [e]) = opened t ++ opened [e].
Proof. unfold opened. by rewrite omap_app. Qed.

Lemma trace_check_app p t :
  trace_wf p -> trace_check (opened p) (ticks p) t = true -> trace_wf (p ++ t).
Proof.
  revert p. induction t as [|e t IH]; intros p Hp; [by rewrite app_nil_r|].
  cbn [trace_check]. rewrite !andb_true_iff, !bool_decide_eq_true, <- opened_snoc, <- ticks_snoc.
  intros [[He Hc] Ht]. rewrite cons_middle, app_assoc. apply IH; [|done]. by constructor.
Qed.
Lemma trace_check_wf t : trace_check [] 0 t = true -> trace_wf t.
Proof. apply (trace_check_app []). constructor. Qed.

Fixpoint settled_check (p t : list command) : bool :=
  match t with
  | [] => true
  | e :: t =>
      match e with Enter id _ => bool_decide (omap (close_of id) (dated 0 p) = []) | _ => true end
      && settled_check (p ++ [e]) t
  end.
Lemma settled_check_app p t : trace_settled p -> settled_check p t = true -> trace_settled (p ++ t).
Proof.
  revert p. induction t as [|e t IH]; intros p Hp; [by rewrite app_nil_r|].
  cbn [settled_check]. rewrite andb_true_iff. intros [He Ht]. rewrite cons_middle, app_assoc.
  apply IH; [|done]. constructor; [done|]. intros id g ->. by apply bool_decide_eq_true in He.
Qed.
Lemma settled_check_ok t : settled_check [] t = true -> trace_settled t.
Proof. apply (settled_check_app []). constructor. Qed.

(** ** An example *)

(** an instruction that executes in lane A and retires, a stall row, a flushed instruction *)
Definition demo : list command :=
  [Tick 5; Open 0; Name 0 (Fetched 0x80000000 0x00500513); Enter 0 "f"; Tick 1; Leave 0 "f"; Enter 0 "a";
   Detail 0 "x10 <- 5"; Open 1; Name 1 (Stalled "be:dep-load"); Enter 1 "#"; Leave 0 "a"; Close 0 0 false;
   Tick 2; Leave 1 "#"; Close 1 1 true; Open 2; Name 2 (Fetched 0x80000004 0x4515); Enter 2 "f"; Tick 1;
   Close 2 2 true].
Lemma demo_wf : trace_wf demo.
Proof. apply trace_check_wf. vm_compute. reflexivity. Qed.
Lemma demo_settled : trace_settled demo.
Proof. apply settled_check_ok. vm_compute. reflexivity. Qed.
