(* ===== verification/KanataRead.v ===== *)
(** * KanataRead: the loader reads a trace's text as its rows

    The state after the first lines of a trace is determined by the commands of those lines:
    the clock is the sum of their ticks, the rows are those of the opened ids, and the id map
    sends an id's decimal to its position.  One more line keeps this. *)
From S2P Require Import Prelude Fmt Str StrFacts Rvdisasm RvdisasmFields RvdisasmSpec Row Kanata KanataSpec RowSpec KanataTrace.

(** ** The text of a command *)
Definition line_char (c : ascii) : bool := printable c || Ascii.eqb c HT.

Lemma hex_digit_printable c : is_hex_digit c = true -> printable c = true.
Proof.
  unfold is_hex_digit, printable. rewrite orb_true_iff, !andb_true_iff, !Z.leb_le, !Z.ltb_lt. lia.
Qed.
Lemma printable_no_tab s : all_str printable s = true -> no_char HT s = true.
Proof. apply all_str_impl. intros c. by destruct c as [[][][][][][][][]]. Qed.

Lemma fmt_dec_printable n : 0 <= n -> all_str printable (fmt_dec n) = true.
Proof.
  intros. eapply all_str_impl; [apply hex_digit_printable|]. by apply fmt_dec_hex_digits.
Qed.
Lemma hex_zero_printable w n : 0 <= n -> all_str printable (fmt_hex_zero w n) = true.
Proof.
  intros. eapply all_str_impl; [apply hex_digit_printable|]. by apply fmt_hex_zero_all.
Qed.

Lemma mark_text_printable l : mark_wf l -> all_str printable (mark_text l) = true.
Proof.
  destruct l as [c|c|pc word]; cbn [mark_wf mark_text]; rewrite ?all_str_app.
  1, 2: by intros ->.
  unfold is_u64, is_u32. intros [? ?]. by rewrite !hex_zero_printable by lia.
Qed.

(** the ids already opened are u64, so every id of a well-formed command is *)
Definition ids_u64 (open : list Z) : Prop := Forall is_u64 open.

Lemma fields_printable open e :
  ids_u64 open -> command_wf open e -> forallb (all_str printable) (fields e) = true.
Proof.
  intros Ho.
  assert (Hin : forall id, id ∈ open -> all_str printable (fmt_dec id) = true).
  { intros id Hid. apply fmt_dec_printable. unfold ids_u64 in Ho. rewrite Forall_forall in Ho.
    apply Ho in Hid. unfold is_u64 in Hid. lia. }
  destruct e as [n|id|id l|id text|id g|id g|id rid f]; cbn [command_wf fields];
    [intros Hw|intros [Hw Hn]..]; cbn [forallb]; unfold is_u64 in *;
    rewrite ?andb_true_iff; split_and!; try done;
    try (apply fmt_dec_printable; lia); try by apply Hin.
  - by apply mark_text_printable.
  - cbn. by rewrite Hn.
  - cbn. by rewrite Hn.
  - by destruct f.
Qed.

Lemma forallb_impl {A} (p q : A -> bool) l :
  (forall x, p x = true -> q x = true) -> forallb p l = true -> forallb q l = true.
Proof. rewrite !forallb_forall. auto. Qed.

Lemma split_print open e :
  ids_u64 open -> command_wf open e -> split_char HT (print e) = fields e.
Proof.
  intros Ho He. apply split_char_join; [by destruct e|].
  eapply forallb_impl; [apply printable_no_tab|]. by eapply fields_printable.
Qed.

Lemma line_char_clean s :
  all_str line_char s = true -> no_char LF s && no_char CR s = true.
Proof.
  intros Hs. apply andb_true_iff; split; (eapply all_str_impl; [|exact Hs]);
    intros c; by destruct c as [[][][][][][][][]].
Qed.

Lemma print_clean open e :
  ids_u64 open -> command_wf open e -> no_char LF (print e) && no_char CR (print e) = true.
Proof.
  intros Ho He. apply line_char_clean, all_str_join; [done|].
  eapply forallb_impl; [|by eapply fields_printable].
  intros s. apply all_str_impl. intros c Hc. unfold line_char. by rewrite Hc.
Qed.

(** ** The label line *)
Lemma hex_digit_not c s d :
  is_hex_digit c = false -> all_str is_hex_digit (String d s) = true -> Ascii.eqb d c = false.
Proof.
  cbn. rewrite andb_true_iff. intros Hc [Hd _].
  destruct (Ascii.eqb_spec d c) as [->|]; [congruence|done].
Qed.

Lemma prefix_hex c p s t :
  is_hex_digit c = false -> s <> "" -> all_str is_hex_digit s = true ->
  strip_prefix (String c p) (s +:+ t) = None.
Proof.
  intros Hc Hne Hs. destruct s as [|d s]; [done|].
  pose proof (hex_digit_not _ _ _ Hc Hs) as Hd.
  change (String d s +:+ t) with (String d (s +:+ t)). unfold strip_prefix. cbn [String.prefix].
  destruct (ascii_dec c d) as [->|]; [by rewrite Ascii.eqb_refl in Hd|done].
Qed.

Lemma insn_label_mark table pc word :
  is_u64 pc -> is_u32 word ->
  insn_label table (fmt_hex_zero 16 pc) (fmt_hex_zero 8 word) =
    Some (mark_label table (Fetched pc word)).
Proof.
  unfold is_u64, is_u32. intros Hpc Hw. unfold insn_label, parse_hex.
  rewrite !trim_hex, !from_str_radix_hex_zero
    by first [apply fmt_hex_zero_all; lia | unfold u64_max, u32_max; lia].
  cbn [from_option id mark_label]. destruct (table !! pc); [done|].
  destruct (Z.eqb_spec (word .& 3) 3); [|done]. cbn.
  by destruct (disasm_Some word pc) as [t ->].
Qed.

Definition set_mark (table : gmap Z string) (l : mark) (r : Row) : Row :=
  mkRow (mark_label table l) (stages r) (row_end r) (flushed r)
    (bool_decide (is_Some (mark_fill l)) || stall r) (default (fill r) (mark_fill l)).

Lemma label_row_mark table l r :
  mark_wf l -> label_row table (mark_text l) r = Some (set_mark table l r).
Proof.
  destruct l as [c|c|pc word]; cbn [mark_wf mark_text]; intros Hl.
  - unfold label_row. by rewrite strip_prefix_app.
  - unfold label_row. rewrite strip_prefix_app. done.
  - destruct Hl as [Hpc Hw]. unfold label_row.
    assert (Hhex : all_str is_hex_digit (fmt_hex_zero 16 pc) = true)
      by (apply fmt_hex_zero_all; unfold is_u64 in *; lia).
    assert (fmt_hex_zero 16 pc <> "").
    { intros E. pose proof (fmt_hex_zero_length 16 pc ltac:(lia)) as H. rewrite E in H.
      unfold is_u64 in *. cbn in H. lia. }
    rewrite !(prefix_hex _ _ (fmt_hex_zero 16 pc)) by done.
    rewrite (split_once_app ":" " ") by by apply no_char_hex.
    by rewrite insn_label_mark.
Qed.

(** ** The rows of a longer trace *)
Lemma dated_snoc c t e : dated c (t ++ [e]) = dated c t ++ dated (c + ticks t) [e].
Proof.
  revert c. induction t as [|d t IH]; intros c; [by rewrite Z.add_0_r|].
  destruct d; cbn [app dated ticks]; rewrite IH; [by rewrite Z.add_assoc|done..].
Qed.

(** the row a command is about, and what it does to it in cycle [c] *)
Definition target (e : command) : option Z :=
  match e with
  | Tick _ | Open _ => None
  | Name id _ | Detail id _ | Enter id _ | Leave id _ | Close id _ _ => Some id
  end.
Definition effect (table : gmap Z string) (c : Z) (e : command) (r : Row) : Row :=
  match e with
  | Name _ l => set_mark table l r
  | Enter _ g => push_stage (c, g) r
  | Close _ _ f => set_end c f r
  | _ => r
  end.

Lemma omap_snoc {A B} (f : A -> option B) l x :
  omap f (l ++ [x]) = omap f l ++ match f x with Some y => [y] | None => [] end.
Proof. rewrite omap_app. done. Qed.

Lemma row_of_snoc table ds c e id :
  row_of table (ds ++ [(c, e)]) id =
    (if bool_decide (target e = Some id) then effect table c e else fun r => r) (row_of table ds id).
Proof.
  case_bool_decide as Ht; unfold row_of; rewrite !omap_snoc; unfold name_of, enter_of, close_of;
    destruct e as [n|i|i l|i text|i g|i g|i rid f]; cbn [target] in Ht; simplify_eq; cbn [snd fst];
    try (rewrite (proj2 (Z.eqb_neq i id)) by congruence); rewrite ?Z.eqb_refl, ?app_nil_r; try done.
  - rewrite omap_snoc, !last_snoc. cbn [effect]. unfold set_mark. cbn [stages row_end flushed stall fill].
    destruct (mark_fill l) as [f|]; cbn; [|by rewrite app_nil_r].
    rewrite last_snoc. cbn. f_equal. apply bool_decide_eq_true_2. by destruct (omap _ _).
  - by rewrite !last_snoc.
Qed.

Lemma row_of_dated table t e id :
  row_of table (dated 0 (t ++ [e])) id =
    (if bool_decide (target e = Some id) then effect table (ticks t) e else fun r => r)
      (row_of table (dated 0 t) id).
Proof.
  rewrite dated_snoc, Z.add_0_l. destruct e; cbn [dated]; rewrite ?app_nil_r, ?row_of_snoc; done.
Qed.

Lemma command_target open e id : command_wf open e -> target e = Some id -> id ∈ open.
Proof. destruct e; cbn; try done; intros [? ?] [= <-]; done. Qed.

(** before it is opened, an id's row is the new row *)
Lemma row_of_unopened table t id :
  trace_wf t -> id ∉ opened t -> row_of table (dated 0 t) id = new_row.
Proof.
  induction 1 as [|t e Ht IH He _]; intros Hid; [done|].
  rewrite opened_snoc in Hid. apply not_elem_of_app in Hid as [Hid _].
  rewrite row_of_dated, IH by done. case_bool_decide as Ht'; [|done].
  by eapply command_target in Ht'.
Qed.

Lemma opened_u64 t : trace_wf t -> ids_u64 (opened t).
Proof.
  induction 1 as [|t e Ht IH He _]; [constructor|]. rewrite opened_snoc.
  apply Forall_app. split; [done|]. destruct e; try constructor; [apply He|constructor].
Qed.
Lemma opened_NoDup t : trace_wf t -> NoDup (opened t).
Proof.
  induction 1 as [|t e Ht IH He _]; [constructor|]. rewrite opened_snoc.
  destruct e; cbn; rewrite ?app_nil_r; try done. destruct He as [_ Hid].
  apply NoDup_app. split_and!; [done| |apply NoDup_singleton].
  intros x Hx ->%list_elem_of_singleton. done.
Qed.

Lemma trace_rows_snoc table t e :
  trace_wf (t ++ [e]) -> trace_wf t ->
  trace_rows table (t ++ [e]) =
    map (fun id => (if bool_decide (target e = Some id) then effect table (ticks t) e else fun r => r)
                     (row_of table (dated 0 t) id)) (opened t) ++
    map (fun _ => new_row) (opened [e]).
Proof.
  intros Hte Ht. unfold trace_rows. rewrite opened_snoc, map_app. f_equal.
  - apply map_ext. intros id. apply row_of_dated.
  - apply map_ext_in. intros id Hid. rewrite row_of_dated.
    destruct e as [|i| | | | |]; try done. destruct Hid as [<-|[]].
    rewrite bool_decide_eq_false_2 by done. apply row_of_unopened; [done|].
    apply opened_NoDup in Hte. rewrite opened_snoc in Hte. cbn in Hte.
    apply NoDup_app in Hte as (_ & H & _). intros Hi. by eapply H; [|left].
Qed.

(** ** The loader's step on a command's line *)
Definition command_step (table : gmap Z string) (s : load_state) (e : command) : option load_state :=
  match e with
  | Tick n => Some (mkLoad (rows s) (by_id s) (cyc s + n))
  | Open id => Some (mkLoad (rows s ++ [new_row]) (<[fmt_dec id := length (rows s)]> (by_id s)) (cyc s))
  | Name id _ | Enter id _ | Close id _ _ =>
      on_row (fmt_dec id) (fun r => Some (effect table (cyc s) e r)) s
  | Detail _ _ | Leave _ _ => Some s
  end.

Lemma on_row_ext id f g s : (forall r, f r = g r) -> on_row id f s = on_row id g s.
Proof.
  intros Hfg. unfold on_row, update_row. case_match; [|done].
  destruct (rows s !! n) as [r|]; [|done]. cbn. by rewrite Hfg.
Qed.

Lemma load_line_print {P : Profile} table open s e :
  ids_u64 open -> command_wf open e -> is_u64 (cyc s + ticks [e]) ->
  load_line table s (print e) = command_step table s e.
Proof.
  intros Ho He Hc. unfold load_line. rewrite (split_print open) by done.
  destruct e as [n|i|i l|i text|i g|i g|i rid f]; try reflexivity.
  - cbn in He, Hc. rewrite Z.add_0_r in Hc.
    rewrite load_fields_clock by done. cbn [fields nth].
    rewrite parse_u64_fmt_dec by done. unfold add_u64. cbn [from_option id].
    by rewrite in_u64_exact.
  - change (on_row (fmt_dec i) (label_row table (mark_text l)) s =
              on_row (fmt_dec i) (fun r => Some (effect table (cyc s) (Name i l) r)) s).
    apply on_row_ext. intros r. apply label_row_mark, He.
  - apply on_row_ext. intros r. cbn. by destruct f.
Qed.

Record sim (table : gmap Z string) (t : list command) (s : load_state) : Prop := {
  sim_cyc : cyc s = ticks t;
  sim_rows : rows s = trace_rows table t;
  sim_ids : forall id i, is_u64 id -> by_id s !! fmt_dec id = Some i <-> opened t !! i = Some id
}.

Lemma trace_rows_length table t : length (trace_rows table t) = length (opened t).
Proof. apply length_map. Qed.

Lemma lookup_trace_rows table t i id :
  opened t !! i = Some id -> trace_rows table t !! i = Some (row_of table (dated 0 t) id).
Proof. intros Hi. unfold trace_rows. by rewrite list_lookup_fmap, Hi. Qed.

(** rewriting the row of [id] rewrites the only position that holds it *)
Lemma insert_target table t f id i :
  NoDup (opened t) -> opened t !! i = Some id ->
  <[i := f (row_of table (dated 0 t) id)]> (trace_rows table t) =
    map (fun j => (if bool_decide (Some id = Some j) then f else fun r => r)
                    (row_of table (dated 0 t) j)) (opened t).
Proof.
  intros Hnd Hi. apply list_eq. intros k. rewrite list_lookup_fmap.
  pose proof (lookup_lt_Some _ _ _ Hi) as Hlen.
  destruct (decide (k = i)) as [->|Hne].
  - rewrite list_lookup_insert_eq by by rewrite trace_rows_length.
    rewrite Hi. cbn. by rewrite bool_decide_eq_true_2.
  - rewrite list_lookup_insert_ne by done. unfold trace_rows. rewrite list_lookup_fmap.
    destruct (opened t !! k) as [j|] eqn:Hk; [|done]. cbn.
    rewrite bool_decide_eq_false_2; [done|]. intros [= ->].
    by pose proof (NoDup_lookup _ _ _ _ Hnd Hi Hk).
Qed.

Lemma map_ext_id {A} (f : A -> A) l : (forall x, f x = x) -> map f l = l.
Proof. intros Hf. induction l as [|x l IH]; [done|]. cbn. by rewrite Hf, IH. Qed.

Lemma opened_same t e : (forall id, e <> Open id) -> opened (t ++ [e]) = opened t.
Proof. intros He. rewrite opened_snoc. destruct e; cbn; rewrite ?app_nil_r; try done. by destruct (He id). Qed.

Lemma trace_rows_same table t e :
  trace_wf (t ++ [e]) -> trace_wf t -> (forall id, e <> Open id) ->
  (forall c r, effect table c e r = r) -> trace_rows table (t ++ [e]) = trace_rows table t.
Proof.
  intros Hte Ht He Heff. rewrite trace_rows_snoc by done.
  replace (opened [e]) with (@nil Z) by (destruct e; try done; by destruct (He id)).
  rewrite app_nil_r. apply map_ext. intros id. case_bool_decide; [apply Heff|done].
Qed.

(** a command about a row: its position is found, and only that row changes *)
Lemma sim_effect table t s e id :
  trace_wf (t ++ [e]) -> trace_wf t -> sim table t s -> is_u64 id -> id ∈ opened t ->
  target e = Some id ->
  exists s', on_row (fmt_dec id) (fun r => Some (effect table (cyc s) e r)) s = Some s' /\
    sim table (t ++ [e]) s'.
Proof.
  intros Hte Ht [Hc Hr Hi] Hid Hin He. apply list_elem_of_lookup in Hin as [i Hin].
  assert (Hno : forall j, e <> Open j) by (intros j ->; done).
  assert (Hso : opened [e] = []) by (destruct e; try done; by destruct (Hno id0)).
  assert (Htk : ticks [e] = 0) by (destruct e; done).
  unfold on_row. rewrite (proj2 (Hi id i Hid) Hin). unfold update_row.
  rewrite Hr, (lookup_trace_rows _ _ _ _ Hin). cbn. eexists. split; [done|]. split; cbn.
  - by rewrite ticks_snoc, Htk, Z.add_0_r.
  - rewrite trace_rows_snoc, Hso, app_nil_r, He, Hc by done.
    apply insert_target; [by apply opened_NoDup|done].
  - intros j k Hj. rewrite opened_same by done. auto.
Qed.

(** a command that opens no row and changes none *)
Lemma sim_same table t s e :
  trace_wf (t ++ [e]) -> trace_wf t -> (forall id, e <> Open id) ->
  (forall c r, effect table c e r = r) -> sim table t s ->
  sim table (t ++ [e]) (mkLoad (rows s) (by_id s) (cyc s + ticks [e])).
Proof.
  intros Hte Ht Ho He [Hc Hr Hi]. split; cbn [cyc rows by_id].
  - by rewrite ticks_snoc, Hc.
  - by rewrite trace_rows_same.
  - intros j k Hj. rewrite opened_same by done. auto.
Qed.

Lemma sim_step {P : Profile} table t s e :
  trace_wf (t ++ [e]) -> trace_wf t -> command_wf (opened t) e -> is_u64 (ticks (t ++ [e])) ->
  sim table t s ->
  exists s', load_line table s (print e) = Some s' /\ sim table (t ++ [e]) s'.
Proof.
  intros Hte Ht He Htk Hs. pose proof (opened_u64 t Ht) as Hu.
  rewrite (load_line_print table (opened t)); [|done|done|].
  2: { destruct Hs as [-> _ _]. by rewrite <- ticks_snoc. }
  assert (Hin : forall id, id ∈ opened t -> is_u64 id).
  { intros id. unfold ids_u64 in Hu. rewrite Forall_forall in Hu. apply Hu. }
  destruct e as [n|i|i l|i text|i g|i g|i rid f]; cbn [command_step];
    try (destruct He as [He _]; apply sim_effect; auto; fail).
  - eexists. split; [done|]. replace n with (ticks [Tick n]) at 2 by (cbn; lia).
    by apply sim_same.
  - destruct Hs as [Hc Hr Hi], He as [Hiu Hni]. eexists. split; [done|]. split; cbn.
    + by rewrite ticks_snoc, Hc, Z.add_0_r.
    + rewrite trace_rows_snoc by done. cbn. rewrite Hr. done.
    + intros j k Hj. rewrite opened_snoc, Hr, trace_rows_length. cbn. unfold is_u64 in *.
      rewrite lookup_app, lookup_insert. case_decide as Heq.
      * apply fmt_dec_inj in Heq as ->; [|lia..]. split.
        -- intros [= <-]. rewrite lookup_ge_None_2 by done. by rewrite Nat.sub_diag.
        -- destruct (opened t !! k) eqn:Hk.
           ++ intros [= ->]. by apply list_elem_of_lookup_2 in Hk.
           ++ intros Hs. apply lookup_ge_None in Hk. destruct (k - length (opened t))%nat eqn:E; [|done].
              f_equal. lia.
      * rewrite Hi by done. destruct (opened t !! k) eqn:Hk; [done|].
        split; [done|]. destruct (k - length (opened t))%nat; [|done]. cbn. intros [= ->]. done.
  - exists s. split; [done|]. destruct s as [rs ids c]. rewrite <- (Z.add_0_r c).
    by apply (sim_same _ _ (mkLoad rs ids c)).
  - exists s. split; [done|]. destruct s as [rs ids c]. rewrite <- (Z.add_0_r c).
    by apply (sim_same _ _ (mkLoad rs ids c)).
Qed.

(** ** The whole file *)
Fixpoint load_run {P : Profile} (table : gmap Z string) (s : load_state) (ls : list string)
    : option load_state :=
  match ls with
  | [] => Some s
  | ln :: ls => s ← load_line table s ln; load_run table s ls
  end.

Lemma load_lines_run {P : Profile} {E} table s ls :
  @load_lines P table E s (map Ok ls) = (s ← load_run table s ls; Some (Ok (rows s))).
Proof.
  revert s. induction ls as [|ln ls IH]; intros s; [done|]. cbn.
  destruct (load_line table s ln) as [s'|]; [|done]. cbn. apply IH.
Qed.

Lemma load_run_app {P : Profile} table s ls1 ls2 :
  load_run table s (ls1 ++ ls2) = (s ← load_run table s ls1; load_run table s ls2).
Proof.
  revert s. induction ls1 as [|ln ls1 IH]; intros s; [done|]. cbn.
  destruct (load_line table s ln) as [s'|]; [|done]. cbn. apply IH.
Qed.

Lemma load_run_trace {P : Profile} table t :
  trace_wf t -> exists s, load_run table load_init (map print t) = Some s /\ sim table t s.
Proof.
  intros Ht. pose proof Ht as H. induction H as [|t e H IH He Htk].
  - exists load_init. split; [done|]. split; [done..|]. intros id i _. cbn. by rewrite lookup_empty.
  - destruct (IH H) as (s & Hs & Hsim). rewrite map_app, load_run_app, Hs. cbn.
    destruct (sim_step table t s e Ht H He Htk Hsim) as (s' & Hl & ?).
    exists s'. by rewrite Hl.
Qed.

Lemma trace_lines t : trace_wf t -> lines (trace_text t) = header ++ map print t.
Proof.
  intros Ht. apply lines_unlines. rewrite forallb_app, andb_true_iff. split; [done|].
  induction Ht as [|t e Ht IH He _]; [done|]. rewrite map_app, forallb_app, IH. cbn.
  rewrite andb_true_r. eapply print_clean; [|done]. by apply opened_u64.
Qed.

Lemma load_lines_trace {P : Profile} {E} table t :
  trace_wf t ->
  @load_lines P table E load_init (map Ok (lines (trace_text t))) = Some (Ok (trace_rows table t)).
Proof.
  intros Ht. rewrite load_lines_run, trace_lines, load_run_app by done.
  change (load_run table load_init header) with (Some load_init). cbn.
  destruct (load_run_trace table t Ht) as (s & -> & [_ Hr _]). cbn. by rewrite Hr.
Qed.

(** ** The rows of a trace are in order *)
Lemma ticks_nonneg t : trace_wf t -> 0 <= ticks t.
Proof. destruct 1 as [|t e _ _ H]; [done|]. unfold is_u64 in H. lia. Qed.

Lemma command_ticks_nonneg open e : command_wf open e -> 0 <= ticks [e].
Proof. destruct e; cbn; unfold is_u64; lia. Qed.

Lemma effect_ok table c e r : 0 <= c -> row_ok c r -> row_ok c (effect table c e r).
Proof.
  intros Hc Hr. destruct e; cbn [effect]; try done; [|by apply push_stage_ok|by apply set_end_ok].
  by destruct Hr.
Qed.

Lemma row_of_ok table t id : trace_wf t -> row_ok (ticks t) (row_of table (dated 0 t) id).
Proof.
  induction 1 as [|t e Ht IH He _]; [apply new_row_ok|]. rewrite row_of_dated, ticks_snoc.
  pose proof (ticks_nonneg t Ht). pose proof (command_ticks_nonneg _ _ He).
  eapply row_ok_mono; [|case_bool_decide; [by apply effect_ok|done]]. lia.
Qed.

Lemma stages_ok_closed c r : row_ok c r -> row_end r = None -> stages_ok r.
Proof. intros [? _ _] E. split; [done|]. by rewrite E. Qed.
Lemma set_end_stages_ok c f r : row_ok c r -> stages_ok (set_end c f r).
Proof.
  intros [Hs Hc _]. split; [done|]. cbn. intros e [= <-].
  eapply Forall_impl; [exact Hc|]. cbn. intros s ?. lia.
Qed.

Lemma row_of_stages_ok table t id :
  trace_wf t -> trace_settled t -> stages_ok (row_of table (dated 0 t) id).
Proof.
  intros Ht. induction Ht as [|t e Ht IH He _]; intros Hq.
  { split; [constructor|done]. }
  apply settled_inv in Hq as [Hq Hnew]. specialize (IH Hq).
  rewrite row_of_dated. case_bool_decide as Hid; [|done].
  pose proof (row_of_ok table t id Ht) as Hok. pose proof (ticks_nonneg t Ht).
  destruct e as [n|i|i l|i text|i g|i g|i rid f]; cbn [target effect] in *; try done; simplify_eq.
  - apply (stages_ok_closed (ticks t)); [by apply push_stage_ok|]. cbn. by rewrite (Hnew id g).
  - by apply set_end_stages_ok.
Qed.
