(* ===== verification/Stats.v ===== *)
(** * Stats: the header of the view (tools/pipeview/src/main.rs, [stats])

    The counts over the rows in view, the IPC as a binary64 quotient printed to two decimals,
    and the cycles each cause took, longest first.  [None] is the overflow panic of a debug
    build. *)
From Stdlib Require Import Floats.SpecFloat.
From S2P Require Import Prelude Fmt Str Row.

(** ** binary64: [ret as f64 / n as f64] and [{:.2}] *)
Definition f64 : Type := spec_float.
Definition f64_of_u64 (n : Z) : f64 := binary_normalize 53 1024 n 0 false.
Definition f64_div : f64 -> f64 -> f64 := SFdiv 53 1024.

(** [a / b] rounded to an integer, ties to even *)
Definition round_even (a b : Z) : Z :=
  let q := a / b in
  match Z.compare (2 * (a mod b)) b with
  | Lt => q
  | Gt => q + 1
  | Eq => if Z.even q then q else q + 1
  end.

(** [m * 2^e] in hundredths, to the nearest *)
Definition hundredths (m e : Z) : Z :=
  if 0 <=? e then 100 * m * 2 ^ e else round_even (100 * m) (2 ^ (- e)).
Definition fmt_hundredths (q : Z) : string :=
  fmt_dec (q / 100) +:+ "." +:+ fmt_dec (q mod 100 / 10) +:+ fmt_dec (q mod 10).
Definition fmt_f64_2 (x : f64) : string :=
  match x with
  | S754_zero s => if s then "-0.00" else "0.00"
  | S754_infinity s => if s then "-inf" else "inf"
  | S754_nan => "NaN"
  | S754_finite s m e => (if s then "-" else "") +:+ fmt_hundredths (hundredths (Z.pos m) e)
  end.

(** ** Minimum and maximum of an iterator *)
Definition iter_min (l : list Z) : option Z :=
  match l with [] => None | x :: l => Some (fold_left Z.min l x) end.
Definition iter_max (l : list Z) : option Z :=
  match l with [] => None | x :: l => Some (fold_left Z.max l x) end.

(** ** Causes *)
Section stats.
Context {P : Profile}.

(** [Some(c) => c.1 += n, None => causes.push((r.label.clone(), n))] *)
Fixpoint add_cause (k : string) (n : Z) (cs : list (string * Z)) : option (list (string * Z)) :=
  match cs with
  | [] => Some [(k, n)]
  | (k', v) :: cs =>
      if String.eqb k' k then v ← add_u64 v n; Some ((k', v) :: cs)
      else cs ← add_cause k n cs; Some ((k', v) :: cs)
  end.

Definition stalled (r : Row) : bool := stall r && bool_decide (is_Some (row_end r)).

Fixpoint count_causes (cs : list (string * Z)) (rs : list Row) : option (list (string * Z)) :=
  match rs with
  | [] => Some cs
  | r :: rs =>
      if stalled r then
        n ← sub_u64 (default 0 (row_end r)) (start r);
        cs ← add_cause (label r) n cs;
        count_causes cs rs
      else count_causes cs rs
  end.

(** [causes.sort_by(|a, b| b.1.cmp(&a.1))]: stable, the larger first *)
Fixpoint insert_cause (c : string * Z) (cs : list (string * Z)) : list (string * Z) :=
  match cs with
  | [] => [c]
  | c' :: cs => if c'.2 <? c.2 then c :: c' :: cs else c' :: insert_cause c cs
  end.
Definition sort_causes (cs : list (string * Z)) : list (string * Z) :=
  fold_left (fun acc c => insert_cause c acc) cs [].

(** the two lines: the counts, and the eight longest causes *)
Definition head_text (lo hi n ret fl : Z) : string :=
  "cycles " +:+ fmt_dec lo +:+ ".." +:+ fmt_dec hi +:+ " (" +:+ fmt_dec n
  +:+ ")  retired " +:+ fmt_dec ret +:+ "  IPC " +:+ fmt_f64_2 (f64_div (f64_of_u64 ret) (f64_of_u64 n))
  +:+ "  flushed " +:+ fmt_dec fl.
Definition top_text (causes : list (string * Z)) : string :=
  join "  " (map (fun kv => kv.1 +:+ " " +:+ fmt_dec kv.2) (take 8 causes)).

(** [fn stats] *)
Definition stats (rs : list Row) : option (string * string) :=
  if bool_decide (rs = []) then Some ("", "")
  else
    let lo := default 0 (iter_min (map start rs)) in
    let hi := default 0 (iter_max (map row_last rs)) in
    let insn := filter (fun r => stall r = false) rs in
    let ret := Z.of_nat (length (filter (fun r => is_Some (row_end r) /\ flushed r = false) insn)) in
    let fl := Z.of_nat (length (filter (fun r => flushed r = true) insn)) in
    causes ← count_causes [] rs;
    let causes := sort_causes causes in
    d ← sub_u64 hi lo;
    Some (head_text lo hi (Z.max d 1) ret fl, top_text causes).
End stats.
