(* ===== verification/Line.v ===== *)
(** * Line: a row as text (tools/pipeview/src/main.rs, [line])

    The start cycle, the label cut and padded to its column, and one cell per cycle; a cell
    with a colour class is wrapped in the terminal's select-graphic-rendition escape. *)
From S2P Require Import Prelude Fmt Str Row.

(** ["\x1b[{a}m"] and the reset *)
Definition sgr_on (a : string) : string := String ESC "[" +:+ a +:+ "m".
Definition sgr_off : string := String ESC "[0m".

Definition render_cell (colour : bool) (r : Row) (g : ascii) : string :=
  let a := if colour && negb (stall r) then sgr g else "" in
  if String.eqb a "" then char_of_u8 g else sgr_on a +:+ char_of_u8 g +:+ sgr_off.

Definition row_label (r : Row) : string :=
  if stall r then (if Ascii.eqb (fill r) "~" then "~~" else "**") +:+ " " +:+ label r else label r.

Section line.
Context {P : Profile}.

(** the loop over the columns [k], [n] of them left *)
Fixpoint line_cells (colour : bool) (r : Row) (c0 k : Z) (n : nat) (cells : string) : option string :=
  match n with
  | O => Some cells
  | S n =>
      c ← add_u64 c0 k;
      line_cells colour r c0 (k + 1) n (cells +:+ render_cell colour r (glyph_at r c))
  end.

(** [fn line] *)
Definition line (r : Row) (lab_w : nat) (c0 : Z) (ncol : nat) (colour : bool) : option string :=
  let lab := take_chars lab_w (row_label r) in
  cells ← line_cells colour r c0 0 ncol "";
  Some (pad_right_align 8 (fmt_dec (start r)) +:+ " " +:+ pad_left_align lab_w lab +:+ " " +:+ cells).
End line.
