(* ===== verification/Keys.v ===== *)
(** * Keys: reading the keyboard (tools/pipeview/src/main.rs, [read_key] and [read_line])

    The input is the list of the outcomes of successive one-byte reads: a byte, or [None] for
    end of file or an error, which the source treats alike; past the list, end of file.  What
    a function leaves unread is returned beside its result. *)
From S2P Require Import Prelude Fmt Str.

Inductive Key := Up | Down | PgUp | PgDn | Home | End_ | Left | Right | Search | Next | Legend | Quit | Other.

Definition input : Type := list (option ascii).

(** one [inp.read(&mut b)] *)
Definition read (inp : input) : option ascii * input :=
  match inp with [] => (None, []) | b :: inp => (b, inp) end.

(** the byte after an escape and a bracket; an unread buffer holds 0 *)
Definition escape_key (c : ascii) (inp : input) : Key * input :=
  match c with
  | "A"%char => (Up, inp)
  | "B"%char => (Down, inp)
  | "C"%char => (Right, inp)
  | "D"%char => (Left, inp)
  | "H"%char => (Home, inp)
  | "F"%char => (End_, inp)
  | ("1" | "4" | "5" | "6")%char =>
      let '(_, inp) := read inp in
      (match c with
       | "1"%char => Home
       | "4"%char => End_
       | "5"%char => PgUp
       | _ => PgDn
       end, inp)
  | _ => (Other, inp)
  end.

(** [fn read_key] *)
Definition read_key (inp : input) : Key * input :=
  let '(b, inp) := read inp in
  match b with
  | None => (Quit, inp)
  | Some "q"%char => (Quit, inp)
  | Some "j"%char => (Down, inp)
  | Some "k"%char => (Up, inp)
  | Some " "%char => (PgDn, inp)
  | Some "b"%char => (PgUp, inp)
  | Some "g"%char => (Home, inp)
  | Some "G"%char => (End_, inp)
  | Some "h"%char => (Left, inp)
  | Some "l"%char => (Right, inp)
  | Some "/"%char => (Search, inp)
  | Some "n"%char => (Next, inp)
  | Some "?"%char => (Legend, inp)
  | Some b =>
      if Ascii.eqb b ESC then
        let '(s, inp) := read inp in
        match s with
        | Some "["%char =>
            let '(c, inp) := read inp in
            escape_key (default "000"%char c) inp
        | _ => (Quit, inp)
        end
      else (Other, inp)
  end.

(** [s.pop()]: without its last character *)
Definition pop (s : string) : option string :=
  match chars s with [] => None | cs => Some (concat_str (removelast cs)) end.

(** the loop of [fn read_line] from the line typed so far; [out] is what it has echoed *)
Fixpoint read_line_loop (s out : string) (inp : input) : string * string * input :=
  match inp with
  | [] => (s, out, [])
  | None :: inp => (s, out, inp)
  | Some b :: inp =>
      if Ascii.eqb b CR || Ascii.eqb b LF then (s, out, inp)
      else if Ascii.eqb b "127" || Ascii.eqb b "008" then
        match pop s with
        | Some s => read_line_loop s (out +:+ String "008" (String " " (String "008" ""))) inp
        | None => read_line_loop s out inp
        end
      else if Ascii.eqb b ESC then ("", out, inp)
      else if 32 <=? Z_of_ascii b then
        read_line_loop (s +:+ char_of_u8 b) (out +:+ char_of_u8 b) inp
      else read_line_loop s out inp
  end.
Definition read_line (inp : input) : string * string * input := read_line_loop "" "" inp.
