(* ===== verification/Texts.v ===== *)
(** * Texts: the legend and the help (tools/pipeview/src/main.rs, [LEGEND] and [HELP]) *)
From S2P Require Import Prelude Fmt Str StrFacts.

Definition QUOTE : string := String "034" "".

(** the constants, a string for each line *)
Definition LEGEND_lines : list string := [
  "One row per fetched instruction, one column per cycle, ONE CODE PER CYCLE: the";
  "stage the instruction moved to, or what holds it. Read from the hardware's state that cycle.";
  "";
  "  the frontend";
  "    f  in the bundle register (decoded)            Q  ...held: the decoupling queue is full";
  "    q  in the decoupling queue (16 entries)";
  "  at the queue head, not popping (the dispatch credits and the group rules); slot A's code takes";
  "  the top-down cause's conditions in its order, so it names what the stall row names";
  "    r  dispatch frozen: a redirect, a restart or a decode resteer";
  "    O  no ROB row";
  "    W  nothing issues while a scheduler waits on a load or FP result (be:dep-load, be:dep-fp)";
  "    I  its scheduler is full (its lane's, the FP queue, the MD stage)    o  a head op in flight";
  "    n  rename: a shard below its low-water mark    S  the SQ is full     L  the LQ is full";
  "    z  serialising: a serialising op drains or is in flight, a CSR op waits for the one before";
  "       it, or a CBO for older addresses";
  "    g  cut from the group by a rule: at most one op for the F stage, MD stage or SYSQ, one load";
  "       and one store; nothing beside a non-plain op; nothing after a decode-resteer CTI";
  "    i  in the IR (dispatches this cycle)";
  "  after dispatch";
  "    t  in its scheduler's dispatch stage (one cycle on the way in)";
  "    w  in its scheduler, waiting for an operand     s  ready, not picked (another op, or";
  "                                                       the lane's slot is reserved)";
  "    p  picked (select)          a b c d  executes in lane A / B / C / D";
  "    u  a multiply in flight (its lane's reserved slot comes two cycles on)";
  "    v  a divide in the MD stage                    j  in the FP port's select register";
  "    h  an int-to-FP op in its lane's handoff register, its rs1 read, for the F stage";
  "    F  in stage F or the FPU                       Y  a system op in the SYSQ, waiting";
  "                                                      for the ROB head";
  "    m  its address arrived, waiting for M's fill   M  in M (the fill: the dTLB lookup)";
  "    k  a load filled, waiting to access memory     l  a load accessing memory";
  "    y  a store waiting for its data                e  a result in its lane's landing buffer";
  "    !  a mispredicted CTI, waiting for its restart  X  killed by a restart, waiting for";
  "                                                      the release that drops it";
  "    =  complete, waiting to retire                 R  retired this cycle";
  "    A B C D  executed in lane A..D AND retired in this same cycle";
  "    x  flushed this cycle                          ?  not placed (a trace gap)";
  "";
  "Colours: executing (bold), moving (plain), waiting on data (yellow), held by a structure";
  "(red), complete (dim).";
  "";
  "  fetch rows ('~~ fetch: cause', '~'): a run of cycles the bundle register could take a bundle";
  "  and fetch has none: redirect, freeze (fence.i, I$ invalidation, a mapping change, a rejected";
  "  mark), itlb (no translation of the PC, or a fetch fault), page (the stream left the PC's";
  "  page), pq-full, in-flight (the ring empty, its room reserved by pairs in flight),";
  "  icache-busy (the I$ refuses the request), icache-wait (requests out, no bytes yet),";
  "  straddle, reject, bytes-late, align.";
  "  stall rows ('** cause', '#'): a run of non-producing cycles, the core's top-down cause:";
  "    bs:redirect bs:drain fe:immu fe:icache fe:align fe:queue be:M-mem be:rob-full";
  "    be:dep-load be:dep-fp be:iq-full be:rename be:sq-full be:lq-full be:serialize be:held";
  "";
  "The header counts the visible rows: the cycle span, retired instructions, IPC, flushed rows,";
  "and the cycles each fetch and stall cause took."
].
Definition LEGEND : string := unlines LEGEND_lines.

Definition HELP_lines : list string := [
  "pipeview -- terminal pipe viewer for the SmolRV64 testbench's Kanata stream";
  "";
  "USAGE";
  "    pipeview <run.kanata> [prog.elf]              interactive";
  "    pipeview <run.kanata> [prog.elf] --text [N]   the first N rows as text (default 60)";
  "";
  "    Record one with: make run B=<prog> PLUSARGS=" +:+ QUOTE +:+ "+kanata=$PWD/run.kanata +trace_from=A +trace_to=B" +:+ QUOTE;
  "    in workloads/rvbench (or any tb_smolrv64_linux run). With the ELF, labels are objdump's";
  "    disassembly and symbols; without it, the instruction word is decoded (rvdisasm).";
  "";
  "LEGEND";
  "";
  "HEADER (recomputed over the visible rows)";
  "    the cycle span, retired instructions, IPC, flushes, and the cycles each stall cause took";
  "";
  "KEYS";
  "    up/down j/k      one row          pgup/pgdn space/b   one page";
  "    home/end g/G     first/last       left/right h/l      shift the cycle columns by 8";
  "    /                search labels (a PC, a mnemonic, a symbol, a cause)   n  next match";
  "    ?                the legend        q  quit"
].
Definition HELP : string := unlines HELP_lines.
