(* ===== verification/Tui.v ===== *)
(** * Tui: the interactive viewer (tools/pipeview/src/main.rs, [tui])

    The world outside is in the arguments: the keyboard as a list of reads, the answer of
    [stty size] before each frame, the saved settings of [stty -g].  What the viewer does to it
    is a log of [stty] calls and writes, which succeed.  A run finishes, panics, or is cut by
    the fuel of the loop. *)
From S2P Require Import Prelude Fmt Str Row Stats Line Keys Texts.

(** ** Effects *)
Inductive io := Stty (args : list string) | Write (s : string).

(** [fn term_size] on what [stty size] answered *)
Definition term_size (answer : option string) : Z * Z :=
  match answer with
  | None => (24, 80)
  | Some s =>
      match omap parse_u64 (split_whitespace (trim s)) with
      | h :: w :: _ => (h, w)
      | _ => (24, 80)
      end
  end.

Definition sat_sub (a b : Z) : Z := Z.max (a - b) 0.
Definition clamp (x lo hi : Z) : Z := if x <? lo then lo else if hi <? x then hi else x.

(** ** The layout of a frame *)
Definition body_height (h : Z) : Z := Z.max (sat_sub h 4) 1.
Definition label_width (w : Z) : Z := clamp (w / 3) 20 48.
Definition cell_columns (w : Z) : Z := Z.max (sat_sub w (label_width w + 10)) 10.
Definition clip (w : Z) (s : string) : string := take_chars (Z.to_nat (sat_sub w 1)) s.

Definition esc (s : string) : string := String ESC s.
Definition CRLF : string := String CR (String LF "").
(** ["\x1b[{h};1H"] *)
Definition goto_row (h : Z) : string := esc "[" +:+ fmt_dec h +:+ ";1H".

(** the first row in view, the shift of the columns, the last search *)
Record view := mkView { top : Z; shift : Z; query : string }.

Section tui.
Context {P : Profile} (rs : list Row).

Definition n_rows : Z := Z.of_nat (length rs).
Definition last_row : Z := sat_sub n_rows 1.

(** [&rows[top..(top + body).min(rows.len())]]: out of order bounds panic *)
Definition visible (v : view) (body : Z) : option (list Row) :=
  e ← add_u64 (top v) body;
  let e := Z.min e n_rows in
  if top v <=? e then Some (take (Z.to_nat (e - top v)) (drop (Z.to_nat (top v)) rs)) else None.

(** [(view.first().start() as i64 + shift).max(0) as u64] *)
Definition first_cycle (v : view) (vis : list Row) : option Z :=
  let s := default 0 (start <$> head vis) in
  c ← in_i64 (wrap_i64 s + shift v);
  Some (Z.max c 0).

Definition draw_row (w c0 : Z) (r : Row) : option string :=
  let lab_w := Z.to_nat (label_width w) in
  let ncol := Z.to_nat (cell_columns w) in
  l ← (if stall r || flushed r then l ← line r lab_w c0 ncol false; Some (clip w l)
       else line r lab_w c0 ncol true);
  Some (if stall r then esc "[33m" +:+ l +:+ esc "[0m" +:+ CRLF
        else if flushed r then esc "[2m" +:+ l +:+ esc "[0m" +:+ CRLF
        else l +:+ CRLF).

Fixpoint draw_rows (w c0 : Z) (vis : list Row) : option string :=
  match vis with
  | [] => Some ""
  | r :: vis => s ← draw_row w c0 r; s' ← draw_rows w c0 vis; Some (s +:+ s')
  end.

Definition status (v : view) : string :=
  "row " +:+ fmt_dec (top v) +:+ "/" +:+ fmt_dec n_rows
  +:+ "  ? legend  arrows pg home end, left/right cycles, / search, n next, q quit"
  +:+ (if String.eqb (query v) "" then "" else "  [" +:+ query v +:+ "]").

(** everything the loop writes before it reads a key *)
Definition frame (h w : Z) (v : view) : option string :=
  vis ← visible v (body_height h);
  c0 ← first_cycle v vis;
  '(head, causes) ← stats vis;
  body ← draw_rows w c0 vis;
  Some (esc "[H" +:+ esc "[2J" +:+ esc "[1m" +:+ clip w head +:+ esc "[0m" +:+ CRLF
    +:+ clip w (if String.eqb causes "" then "(no stall cycles in view)" else causes) +:+ CRLF
    +:+ esc "[2m"
    +:+ clip w (pad_right_align 8 "cycle" +:+ " " +:+ pad_left_align (Z.to_nat (label_width w)) "instruction"
          +:+ " cycles from " +:+ fmt_dec c0)
    +:+ esc "[0m" +:+ CRLF
    +:+ body
    +:+ goto_row h +:+ esc "[7m" +:+ clip w (status v) +:+ esc "[0m").

(** [(top + 1..rows.len()).find(|&i| rows[i].label.contains(query))]: [i] and the rows from it *)
Fixpoint find_label (q : string) (i : Z) (l : list Row) : option Z :=
  match l with
  | [] => None
  | r :: l => if contains q (label r) then Some i else find_label q (i + 1) l
  end.

Definition search (v : view) : option view :=
  if String.eqb (query v) "" then Some v
  else
    i ← add_u64 (top v) 1;
    Some (match find_label (query v) i (drop (Z.to_nat i) rs) with
          | Some i => mkView i 0 (query v)
          | None => v
          end).

Definition legend_screen (h w : Z) : string :=
  esc "[H" +:+ esc "[2J"
  +:+ concat_str (map (fun l => clip w l +:+ CRLF) (take (Z.to_nat (sat_sub h 2)) (lines LEGEND)))
  +:+ goto_row h +:+ esc "[7m" +:+ clip w "any key returns" +:+ esc "[0m".

(** the effect of a key: [None] the end of the loop; the view, what is written, the unread input *)
Definition on_key (h w : Z) (k : Key) (v : view) (inp : input)
    : option (option (view * string * input)) :=
  let body := body_height h in
  let move t := Some (Some (mkView t 0 (query v), "", inp)) in
  match k with
  | Quit => Some None
  | Down => t ← add_u64 (top v) 1; move (Z.min t last_row)
  | Up => move (sat_sub (top v) 1)
  | PgDn => t ← add_u64 (top v) body; move (Z.min t last_row)
  | PgUp => move (sat_sub (top v) body)
  | Home => move 0
  | End_ => move (sat_sub n_rows body)
  | Right => s ← in_i64 (shift v + 8); Some (Some (mkView (top v) s (query v), "", inp))
  | Left => s ← in_i64 (shift v - 8); Some (Some (mkView (top v) s (query v), "", inp))
  | Search =>
      let '(q, echo, inp) := read_line inp in
      v ← search (mkView (top v) (shift v) q);
      Some (Some (v, goto_row h +:+ esc "[2K/" +:+ esc "[?25h" +:+ echo +:+ esc "[?25l", inp))
  | Next => v ← search v; Some (Some (v, "", inp))
  | Legend => let '(_, inp) := read_key inp in Some (Some (v, legend_screen h w, inp))
  | Other => Some (Some (v, "", inp))
  end.

Inductive run := Finished (log : list io) | Panicked (log : list io) | OutOfFuel.

(** the loop: [i] counts the frames, [size i] is what [stty size] answers before frame [i] *)
Fixpoint tui_loop (fuel : nat) (size : nat -> option string) (i : nat) (v : view) (inp : input)
    (log : list io) : run :=
  match fuel with
  | O => OutOfFuel
  | S fuel =>
      let '(h, w) := term_size (size i) in
      let log := log ++ [Stty ["size"]] in
      match frame h w v with
      | None => Panicked log
      | Some f =>
          let log := log ++ [Write f] in
          let '(k, inp) := read_key inp in
          match on_key h w k v inp with
          | None => Panicked log
          | Some None => Finished log
          | Some (Some (v, s, inp)) => tui_loop fuel size (S i) v inp (log ++ [Write s])
          end
      end
  end.

(** [fn tui]: [settings] is the answer of [stty -g] *)
Definition tui (fuel : nat) (settings : option string) (size : nat -> option string) (inp : input) : run :=
  let saved := default "" (trim <$> settings) in
  let log := [Stty ["-g"]; Stty ["-echo"; "-icanon"; "-isig"; "min"; "1"; "time"; "0"];
              Write (esc "[?1049h" +:+ esc "[?25l")] in
  match tui_loop fuel size 0 (mkView 0 0 "") inp log with
  | Finished log =>
      Finished (log ++ [Write (esc "[?25h" +:+ esc "[?1049l")]
                ++ if String.eqb saved "" then [] else [Stty [saved]])
  | r => r
  end.
End tui.
