(* ===== verification/Main.v ===== *)
(** * Main: the command line of pipeview (tools/pipeview/src/main.rs, [main])

    The file system, objdump and the terminal are arguments.  A panic ends the program
    whatever it wrote before. *)
From S2P Require Import Prelude Fmt Str Row Kanata Stats Line Keys Texts Tui.

Inductive outcome :=
| Exit (code : Z) (stdout stderr : string)
| Interactive (stderr : string) (r : run)
| Panic.

Record world (E : Type) := mkWorld {
  files : string -> result E (list (result E string)); (* the lines of a file *)
  objdump : string -> result E string;                 (* what objdump prints for an ELF *)
  show : E -> string;                                  (* [{e}] *)
  settings : option string;                            (* the terminal, as in [tui] *)
  size : nat -> option string;
  keys : input
}.
Arguments files {E} _ _. Arguments objdump {E} _ _. Arguments show {E} _ _.
Arguments settings {E} _. Arguments size {E} _ _. Arguments keys {E} _.

Definition starts_with (p s : string) : bool := String.prefix p s.
Definition ln (s : string) : string := s +:+ String LF "".

(** ** Arguments *)

(** [args.iter().position(|a| a == "--text")] *)
Fixpoint text_position (args : list string) : option nat :=
  match args with
  | [] => None
  | a :: args => if String.eqb a "--text" then Some O else S <$> text_position args
  end.

Record options := mkOptions { text_mode : bool; limit : Z; positional : list string }.

Definition parse_args (args : list string) : options :=
  let text := text_position args in
  let pos := filter (fun a => starts_with "--" a = false) args in
  let v := t ← text; a ← args !! S t; parse_u64 a in
  match v with
  | Some v => mkOptions true v (filter (fun a => parse_u64 a = None) pos)
  | None => mkOptions (bool_decide (is_Some text)) 60 pos
  end.

Definition wants_help (args : list string) : bool :=
  bool_decide (args = []) || existsb (fun a => String.eqb a "-h" || String.eqb a "--help") args.

(** ** The program *)
Section main.
Context {P : Profile} {E : Type} (wd : world E).

(** the line of a row in text mode, [first] the first row's start *)
Fixpoint text_rows (first : Z) (v : list Row) : option string :=
  match v with
  | [] => Some ""
  | r :: v => l ← line r 44 first 110 false; s ← text_rows first v; Some (ln (trim_end l) +:+ s)
  end.

Definition text_view (rs : list Row) (n : Z) : option string :=
  let v := take (Z.to_nat (Z.min n (Z.of_nat (length rs)))) rs in
  '(head, causes) ← stats v;
  body ← text_rows (default 0 (start <$> hd_error v)) v;
  Some (ln head +:+ ln causes +:+ body).

(** what [objdump_table] says on stderr when it cannot run *)
Definition objdump_warning (elf : option string) : string :=
  match objdump wd <$> elf with
  | Some (Err e) => ln ("pipeview: objdump: " +:+ show wd e +:+ "; decoding instruction words instead")
  | _ => ""
  end.

Definition main_rows (o : options) (warning : string) (rs : list Row) : outcome :=
  if text_mode o then
    match text_view rs (limit o) with Some s => Exit 0 s warning | None => Panic end
  else
    Interactive warning (tui rs (S (length (keys wd))) (settings wd) (size wd) (keys wd)).

(** [fn main] on the arguments after the program's name; [pos[0]] panics without a file *)
Definition main (args : list string) : outcome :=
  if wants_help args then Exit 0 (HELP +:+ String LF "" +:+ LEGEND) ""
  else
    let o := parse_args args in
    match positional o with
    | [] => Panic
    | path :: rest =>
        let elf := hd_error rest in
        let warning := objdump_warning elf in
        match load (objdump wd <$> elf) (files wd path) with
        | None => Panic
        | Some (Ok []) =>
            Exit 1 "" (warning +:+ ln (path +:+ ": no rows (was the run inside +trace_from/+trace_to?)"))
        | Some (Ok rs) => main_rows o warning rs
        | Some (Err e) => Exit 1 "" (warning +:+ ln (path +:+ ": " +:+ show wd e))
        end
    end.
End main.
