(* ===== verification/Kbd.v ===== *)
(** * Kbd: the keyboard test vectors (tools/kbd-vectors/src/main.rs)

    The key tables are simmerv's and are not part of the repository: [translate] gives the
    (code, modifiers) pairs of an input, [hid_to_linux] the event code of a HID usage.  The
    program prints a line for each byte and for each sequence of its list; [None] is a panic. *)
From S2P Require Import Prelude Fmt Str.

Section kbd.
Context (translate : string -> list (Z * Z)) (hid_to_linux : Z -> option Z).

(** ** [fn bitmap] *)

(** [bits[code / 8] |= 1 << (code % 8)] on an array of [u8] *)
Definition set_bit (bits : list Z) (code : Z) : option (list Z) :=
  b ← bits !! Z.to_nat (code / 8);
  Some (<[Z.to_nat (code / 8) := b .| Z.shiftl 1 (code mod 8)]> bits).

Fixpoint set_bits (bits : list Z) (codes : list Z) : option (list Z) :=
  match codes with
  | [] => Some bits
  | code :: codes => bits ← set_bit bits code; set_bits bits codes
  end.

Definition hid_codes : list Z := omap hid_to_linux (seqZ 0 0x100).

Definition bitmap : option string :=
  bits ← set_bits (repeat 0 16) hid_codes;
  Some ("EVKEY " +:+ concat_str (map (fmt_hex_zero 2) bits)).

(** ** [fn main] *)
Definition byte_line (b : Z) : option string :=
  match translate (bytes [b]) with
  | [] => Some ("B " +:+ fmt_hex_zero 2 b +:+ " none")
  | [(code, mods)] => Some ("B " +:+ fmt_hex_zero 2 b +:+ " " +:+ fmt_dec code +:+ " " +:+ fmt_dec mods)
  | _ => None
  end.

(** every byte but ESC *)
Fixpoint byte_lines (bs : list Z) : option (list string) :=
  match bs with
  | [] => Some []
  | b :: bs =>
      if b =? 0x1b then byte_lines bs
      else l ← byte_line b; ls ← byte_lines bs; Some (l :: ls)
  end.

Definition seqs : list string :=
  let e := String ESC "" in
  let cr := String CR "" in
  let soh := String "001" "" in
  [
    e; e +:+ "[A"; e +:+ "[B"; e +:+ "[C"; e +:+ "[D"; e +:+ "[H"; e +:+ "[F"; e +:+ "OA";
    e +:+ "OD"; e +:+ "OP"; e +:+ "OQ"; e +:+ "OR"; e +:+ "OS"; e +:+ "[Z"; e +:+ "[1~";
    e +:+ "[2~"; e +:+ "[3~"; e +:+ "[4~"; e +:+ "[5~"; e +:+ "[6~"; e +:+ "[7~"; e +:+ "[8~";
    e +:+ "[9~"; e +:+ "[11~"; e +:+ "[15~"; e +:+ "[17~"; e +:+ "[21~"; e +:+ "[22~";
    e +:+ "[23~"; e +:+ "[24~"; e +:+ "[25~"; e +:+ "[1;5A"; e +:+ "[1;2D"; e +:+ "[1;3C";
    e +:+ "[1;8B"; e +:+ "[3;5~"; e +:+ "[15;2~"; e +:+ "x"; e +:+ "X"; e +:+ e; e +:+ cr;
    e +:+ soh; e +:+ "["; e +:+ "[1;"; e +:+ "[1;5"; e +:+ "[1x"; e +:+ "[1;5Ax";
    e +:+ "[A" +:+ e +:+ "[B"; "ab" +:+ e +:+ "[Ac"; e +:+ "[999~"; e +:+ "[65535A";
    e +:+ "[1;65535A"; e +:+ "[1;2;3A"; e +:+ "[;5A"; e +:+ "O5P"; e +:+ "[1;1A"; e +:+ "[1;0A";
    e +:+ "[1;9A"; e +:+ "[1;17A"; "hello, World!" +:+ cr
  ].

Definition hex (s : string) : string :=
  concat_str (map (fun b => fmt_hex_zero 2 (Z_of_ascii b)) (list_ascii_of_string s)).
Definition seq_line (s : string) : string :=
  let keys := map (fun '(c, m) => fmt_dec c +:+ ":" +:+ fmt_dec m) (translate s) in
  "S " +:+ hex s +:+ " " +:+ match keys with [] => "-" | _ => join "," keys end.

(** the lines of [main], in order *)
Definition kbd_main : option (list string) :=
  bits ← bitmap;
  ls ← byte_lines (seqZ 0 0x100);
  Some (bits :: ls ++ map seq_line seqs).
End kbd.
