(* ===== verification/ObjdumpSpec.v ===== *)
(** * ObjdumpSpec: the table read from objdump's listing

    The listing of a program is, for each symbol, a line with its address and name and a line
    for each of its instructions.  [objdump_table] reads it as the map from each address to
    the place relative to the symbol and the text with single spaces, its comment dropped. *)
From S2P Require Import Prelude Fmt Str StrFacts Rvdisasm RvdisasmFields RvdisasmSpec Row Kanata KanataSpec.

Record symbol := mkSymbol { sym_base : Z; sym_name : string; sym_insns : list (Z * string) }.

Definition symbol_line (s : symbol) : string :=
  fmt_hex_zero 16 (sym_base s) +:+ " <" +:+ sym_name s +:+ ">:".
Definition insn_line (i : Z * string) : string :=
  "    " +:+ fmt_hex i.1 +:+ ":" +:+ String HT i.2.
Definition symbol_lines (s : symbol) : list string :=
  symbol_line s :: map insn_line (sym_insns s).
Definition listing (l : list symbol) : string := unlines (concat (map symbol_lines l)).

(** where an address is, relative to its symbol, and what is there *)
Definition place (base : Z) (name : string) (pc : Z) : string :=
  if pc - base =? 0 then "<" +:+ name +:+ ">" else "<" +:+ name +:+ "+0x" +:+ fmt_hex (pc - base) +:+ ">".
Definition entry (s : symbol) (i : Z * string) : Z * string :=
  (i.1, place (sym_base s) (sym_name s) i.1 +:+ ": "
        +:+ join " " (split_whitespace (default "" (head (split_char "#" i.2))))).
Definition entries (l : list symbol) : list (Z * string) :=
  concat (map (fun s => map (entry s) (sym_insns s)) l).

Definition clean (s : string) : Prop := no_char LF s = true /\ no_char CR s = true.
Definition insn_wf (s : symbol) (i : Z * string) : Prop :=
  sym_base s <= i.1 < 2 ^ 64 /\ no_char ":" i.2 = true /\ clean i.2.
Definition symbol_wf (s : symbol) : Prop :=
  is_u64 (sym_base s) /\ clean (sym_name s) /\ Forall (insn_wf s) (sym_insns s).

(** ** Lines *)
Lemma strip_suffix_app s p : strip_suffix p (s +:+ p) = Some s.
Proof.
  induction s as [|c s IH].
  - change ("" +:+ p) with p. destruct p as [|c p]; [done|]. cbn [strip_suffix].
    by rewrite String.eqb_refl.
  - change (String c s +:+ p) with (String c (s +:+ p)). cbn [strip_suffix].
    destruct (String.eqb_spec (String c (s +:+ p)) p) as [E|_].
    + exfalso. apply (f_equal String.length) in E. cbn in E. rewrite string_app_length in E. lia.
    + by rewrite IH.
Qed.

Lemma strip_suffix_Some p s r : strip_suffix p s = Some r -> s = r +:+ p.
Proof.
  revert r. induction s as [|c s IH]; intros r; cbn [strip_suffix].
  - destruct (String.eqb_spec "" p) as [<-|]; [by intros [= <-]|done].
  - destruct (String.eqb_spec (String c s) p) as [<-|]; [by intros [= <-]|].
    destruct (strip_suffix p s) as [r'|]; [|done]. cbn. intros [= <-].
    change (String c s = String c (r' +:+ p)). f_equal. by apply IH.
Qed.

Lemma chars_cons_space s :
  all_str is_hex_digit s = true -> chars (String " " s) = " " :: chars s.
Proof.
  destruct s as [|c s]; [done|]. intros H.
  assert (Hst : all_str is_char_start (String c s) = true) by (eapply all_str_impl; [|exact H]; apply hex_digit_start).
  cbn [chars]. pose proof (chars_starts (String c s) Hst) as Hc. cbn [chars] in Hc.
  set (l := match chars s with [] => _ | _ => _ end) in *.
  destruct l as [|d l']; [done|]. apply Forall_cons_1 in Hc as [(e & -> & He) _].
  assert (is_char_start e = true) as ->; [|done].
  apply hex_digit_start. by apply (all_str_elem _ (String c s)).
Qed.

Lemma trim_spaces n s :
  s <> "" -> all_str is_hex_digit s = true -> trim (repeat_char " " n +:+ s) = s.
Proof.
  intros Hne Hs.
  assert (Hsp : forall n, chars (repeat_char " " n +:+ s) = repeat " " n ++ chars s).
  { clear n. intros [|n]; [done|]. induction n as [|n IH].
    - by apply chars_cons_space.
    - change (chars (String " " (repeat_char " " (S n) +:+ s)) = " " :: (repeat " " (S n) ++ chars s)).
      cbn [chars]. rewrite IH. done. }
  assert (Hst : all_str is_char_start s = true) by (eapply all_str_impl; [|exact Hs]; apply hex_digit_start).
  rewrite <- (trim_hex s Hs) at 2. unfold trim. rewrite Hsp.
  f_equal. do 3 f_equal. induction n as [|n IH]; [done|]. exact IH.
Qed.

Lemma objdump_symbol {P : Profile} st s :
  symbol_wf s -> objdump_line st (symbol_line s) = Some (Some (sym_base s, sym_name s), st.2).
Proof.
  intros (Hb & _). destruct st as [sym t]. unfold objdump_line, is_u64 in *.
  replace (symbol_line s) with ((fmt_hex_zero 16 (sym_base s) +:+ " <" +:+ sym_name s) +:+ ">:")
    by (unfold symbol_line; by rewrite !string_app_assoc).
  rewrite strip_suffix_app, (split_once_app " " "<").
  2: { apply no_char_hex; [done|]. apply fmt_hex_zero_all. lia. }
  unfold parse_hex. rewrite trim_hex by (apply fmt_hex_zero_all; lia).
  by rewrite from_str_radix_hex_zero by (unfold u64_max; lia).
Qed.

Lemma fmt_hex_nonempty n : 0 <= n -> fmt_hex n <> "".
Proof.
  intros Hn E. pose proof (from_str_radix_fmt 16 n ltac:(lia) n ltac:(lia)) as H.
  unfold fmt_hex in E. by rewrite E in H.
Qed.

(** an instruction's line does not look like a symbol's: its text holds no colon *)
Lemma insn_line_no_suffix i : no_char ":" i.2 = true -> strip_suffix ">:" (insn_line i) = None.
Proof.
  intros Hi. destruct (strip_suffix ">:" (insn_line i)) as [r|] eqn:E; [|done].
  apply strip_suffix_Some in E. exfalso.
  assert (Hlast : forall t u, t +:+ String HT i.2 = u +:+ ">:" -> False).
  { intros t u H. assert (H' : rev (list_ascii_of_string (t +:+ String HT i.2)) = rev (list_ascii_of_string (u +:+ ">:")))
      by by rewrite H.
    rewrite !list_ascii_app, !rev_app_distr in H'. cbn in H'.
    destruct (rev (list_ascii_of_string i.2)) as [|c l] eqn:El; [done|]. cbn in H'. injection H' as -> _.
    assert (":"%char ∈ list_ascii_of_string i.2).
    { apply list_elem_of_In, in_rev. rewrite El. by left. }
    pose proof (all_str_elem _ _ _ Hi H0) as Hc. done. }
  apply (Hlast ("    " +:+ fmt_hex i.1 +:+ ":") r). rewrite <- E. unfold insn_line.
  by rewrite !string_app_assoc.
Qed.

Lemma objdump_insn {P : Profile} s t i :
  symbol_wf s -> insn_wf s i ->
  objdump_line (Some (sym_base s, sym_name s), t) (insn_line i) =
    Some (Some (sym_base s, sym_name s), <[(entry s i).1 := (entry s i).2]> t).
Proof.
  intros (Hb & _) (Hpc & Hcol & _). unfold objdump_line, is_u64 in *.
  rewrite insn_line_no_suffix by done. unfold insn_line.
  replace ("    " +:+ fmt_hex i.1 +:+ ":" +:+ String HT i.2)
    with (("    " +:+ fmt_hex i.1) +:+ (":" +:+ String HT "") +:+ i.2) by (by rewrite !string_app_assoc).
  assert (Hhex : all_str is_hex_digit (fmt_hex i.1) = true) by (apply fmt_radix_all; lia).
  assert (Hno : no_char ":" ("    " +:+ fmt_hex i.1) = true).
  { unfold no_char. rewrite all_str_app. apply andb_true_iff. split; [done|]. by apply no_char_hex. }
  change (":" +:+ String HT "") with (String ":" (String HT "")).
  rewrite split_once_app by done. unfold parse_hex.
  rewrite (trim_spaces 4) by (done || (apply fmt_hex_nonempty; lia)).
  unfold fmt_hex at 1. rewrite from_str_radix_fmt by (unfold u64_max; lia).
  unfold sub_u64. rewrite in_u64_exact by (unfold is_u64; lia). done.
Qed.

(** ** The whole listing *)
Definition insert_all (t : gmap Z string) (es : list (Z * string)) : gmap Z string :=
  fold_left (fun t e => <[e.1 := e.2]> t) es t.

Lemma objdump_insns {P : Profile} s t il ls :
  symbol_wf s -> Forall (insn_wf s) il ->
  objdump_lines (Some (sym_base s, sym_name s), t) (map insn_line il ++ ls) =
    objdump_lines (Some (sym_base s, sym_name s), insert_all t (map (entry s) il)) ls.
Proof.
  intros Hs His. revert t. induction His as [|i il Hi His IH]; intros t; [done|].
  cbn [map app objdump_lines]. rewrite objdump_insn by done. cbn [mbind option_bind]. by rewrite IH.
Qed.

Lemma objdump_listing {P : Profile} l sym t :
  Forall symbol_wf l ->
  exists sym', objdump_lines (sym, t) (concat (map symbol_lines l)) = Some (sym', insert_all t (entries l)).
Proof.
  intros Hl. revert sym t. induction Hl as [|s l Hs Hl IH]; intros sym t; [by exists sym|].
  cbn [map concat]. unfold symbol_lines at 1. cbn [app objdump_lines].
  rewrite objdump_symbol by done. cbn [mbind option_bind snd].
  rewrite objdump_insns by (done || apply Hs).
  destruct (IH (Some (sym_base s, sym_name s)) (insert_all t (map (entry s) (sym_insns s)))) as [sym' E].
  exists sym'. rewrite E. unfold entries, insert_all. cbn [map concat]. by rewrite fold_left_app.
Qed.

Lemma hex_clean s : all_str is_hex_digit s = true -> clean s.
Proof. intros Hs. split; by apply no_char_hex. Qed.
Lemma clean_app s t : clean s -> clean t -> clean (s +:+ t).
Proof. intros [? ?] [? ?]. split; unfold no_char in *; rewrite all_str_app, andb_true_iff; done. Qed.

Lemma symbol_lines_clean s :
  symbol_wf s -> forallb (fun l => no_char LF l && no_char CR l) (symbol_lines s) = true.
Proof.
  intros (Hb & Hn & His). apply forallb_forall. intros ln Hln. apply andb_true_iff.
  change (clean ln). unfold symbol_lines in Hln. destruct Hln as [<-|Hln].
  - unfold symbol_line. apply clean_app; [|by repeat apply clean_app].
    apply hex_clean, fmt_hex_zero_all. unfold is_u64 in Hb. lia.
  - apply in_map_iff in Hln as (i & <- & Hi). rewrite Forall_forall in His.
    destruct (His i ltac:(by apply list_elem_of_In)) as (Hpc & _ & Hc). unfold insn_line, is_u64 in *.
    apply clean_app; [done|]. apply clean_app; [apply hex_clean, fmt_radix_all; lia|].
    apply clean_app; [done|]. by apply (clean_app (String HT "")).
Qed.

Lemma listing_lines l : Forall symbol_wf l -> lines (listing l) = concat (map symbol_lines l).
Proof.
  intros Hl. apply lines_unlines. induction Hl as [|s l Hs _ IH]; [done|].
  cbn [map concat]. by rewrite forallb_app, symbol_lines_clean, IH.
Qed.

Lemma insert_all_lookup es t pc s :
  NoDup (map fst es) ->
  (insert_all t es !! pc = Some s) <-> ((pc, s) ∈ es) \/ (pc ∉ map fst es) /\ t !! pc = Some s.
Proof.
  revert t. induction es as [|[k v] es IH]; intros t Hnd.
  - cbn. split; [intros ?; right; split; [apply not_elem_of_nil|done]|]. by intros [?%elem_of_nil|[_ ?]].
  - cbn in Hnd. apply NoDup_cons in Hnd as [Hk Hnd].
    change (insert_all t ((k, v) :: es)) with (insert_all (<[k := v]> t) es). rewrite IH by done.
    cbn [map fst]. rewrite !elem_of_cons, lookup_insert. case_decide as E; [subst k|].
    + split.
      * intros [Hin|[_ [= ->]]]; [destruct Hk; by apply (list_elem_of_fmap_2 fst) in Hin|]. by left; left.
      * intros [[[= ->]|Hin]|[Hn _]]; [by right|destruct Hk; by apply (list_elem_of_fmap_2 fst) in Hin|].
        destruct Hn. by left.
    + split.
      * intros [?|[Hn ?]]; [by left; right|]. right. split; [|done]. by intros [?|?].
      * intros [[[= -> ->]|?]|[Hn ?]]; [done|by left|]. right. split; [|done]. intros ?. apply Hn. by right.
Qed.

Lemma objdump_table_listing {P : Profile} {E} l :
  Forall symbol_wf l -> NoDup (map fst (entries l)) ->
  exists t, objdump_table (Ok (listing l) : result E string) = Some t /\
    forall pc s, t !! pc = Some s <-> (pc, s) ∈ entries l.
Proof.
  intros Hl Hnd. exists (insert_all ∅ (entries l)). split.
  - cbn [objdump_table]. rewrite listing_lines by done.
    by destruct (objdump_listing l None ∅ Hl) as (sym' & ->).
  - intros pc s. rewrite insert_all_lookup by done. rewrite lookup_empty.
    split; [by intros [?|[_ ?]]|by left].
Qed.
