(* ===== verification/KanataTheorems.v ===== *)
(** * KanataTheorems: the trace reader and the cells of a row *)
From S2P Require Import Prelude Fmt Isa Str StrFacts Rvdisasm RvdisasmFields RvdisasmSpec Row Kanata KanataSpec RowSpec KanataTrace KanataRead ObjdumpSpec.

(** C4: reading a trace gives the rows it describes.  For the text of every well-formed trace
    (the two header lines, then a line for each command), whatever objdump printed and in both
    build profiles, [load] returns one row for each opened id, in order, with the label of its
    last name line, its stages and its end dated by the ticks before them. *)
Theorem load_trace {P : Profile} {E} (out : option (result E string)) table t :
  match out with Some out => objdump_table out | None => Some ∅ end = Some table ->
  trace_wf t ->
  load out (Ok (map Ok (lines (trace_text t)))) = Some (Ok (trace_rows table t)).
Proof. intros Ho Ht. unfold load. rewrite Ho. by apply load_lines_trace. Qed.

Lemma load_trace_witness :
  @load Debug string None (Ok (map Ok (lines (trace_text demo)))) = Some (Ok (trace_rows ∅ demo)).
Proof. apply load_trace; [reflexivity|]. apply trace_check_wf. vm_compute. reflexivity. Defined.

(** C15: a release build reads every file without a panic: whatever the lines hold and whatever
    objdump printed, [load] returns rows or the I/O error, so no row index is out of bounds and
    the labels' disassembly always returns. *)
Theorem load_release_total {E} (out : option (result E string)) file :
  exists r, @load Release E out file = Some r.
Proof. apply load_release. Qed.

(** C16: what a debug build reads without an overflow panic, a release build reads too, and the
    rows are in order: stages by cycle, every cycle a [u64]. *)
Theorem load_debug_rows {E} (out : option (result E string)) file r :
  @load Debug E out file = Some r ->
  @load Release E out file = Some r /\ forall rs, r = Ok rs -> Forall (row_ok u64_max) rs.
Proof.
  unfold load. intros H.
  destruct (match out with Some out => @objdump_table Debug E out | None => Some ∅ end)
    as [t|] eqn:Ho; [|done].
  assert (match out with Some out => @objdump_table Release E out | None => Some ∅ end = Some t) as ->
    by (destruct out; [by apply objdump_table_debug|done]).
  cbn in *. destruct file as [ls|e].
  - by apply load_lines_debug; [apply load_init_ok|].
  - by simplify_eq.
Qed.

Lemma load_debug_rows_witness :
  let file : result string (list (result string string)) :=
    Ok [Ok (print (Open 7)); Ok (print (Tick 3)); Ok (print (Enter 7 "f"))] in
  @load Release string None file = Some (Ok [mkRow "" [(3, "f"%char)] None false false " "%char]) /\
  (forall rs, Ok [mkRow "" [(3, "f"%char)] None false false " "%char] = (Ok rs : result string _) ->
    Forall (row_ok u64_max) rs).
Proof. intros file. apply (load_debug_rows None file). vm_compute. reflexivity. Defined.

(** C39: an unreadable line ends the reading with its error.  In either build profile, what
    follows the line does not matter, and the error is returned unless the lines before it
    already panic; in a release build they do not, so it is always returned. *)
Theorem load_io_error {E} (out : option (result E string)) ls e rest :
  (forall P : Profile, load out (Ok (map Ok ls ++ Err e :: rest)) =
    match load out (Ok (map (Ok (E:=E)) ls)) with Some _ => Some (Err e) | None => None end) /\
  @load Release E out (Ok (map Ok ls ++ Err e :: rest)) = Some (Err e).
Proof.
  assert (H : forall P : Profile, load out (Ok (map Ok ls ++ Err e :: rest)) =
    match load out (Ok (map (Ok (E:=E)) ls)) with Some _ => Some (Err e) | None => None end).
  { intros P. unfold load. destruct (match out with Some _ => _ | None => _ end) as [t|]; [|done].
    apply load_lines_error. }
  split; [exact H|]. rewrite H. by destruct (load_release out (Ok (map Ok ls))) as [r ->].
Qed.

(** C6: a cell of the view is what the legend says it is.  On every row whose stages are in
    order and not after its end, [glyph_at] is blank before the first stage and after the end,
    the fill of a row of lost cycles, at the end the flush mark, the upper case of the lane that
    executed in the same cycle or the retirement mark, and otherwise the stage entered last. *)
Theorem glyph_at_cell r c : stages_ok r -> glyph_at r c = cell r c.
Proof. apply glyph_at_cell_ok. Qed.

Lemma glyph_at_cell_witness :
  let r := mkRow "" [(3, "f"%char); (5, "a"%char)] (Some 5) false false " "%char in
  glyph_at r 5 = cell r 5.
Proof.
  apply glyph_at_cell. split.
  - repeat constructor. unfold before. cbn. lia.
  - intros e [= <-]. repeat constructor; cbn; lia.
Defined.

(** C20: a row is visible exactly during its life: its cell is not blank from its first stage to
    its end (to the cycle before it for a row of lost cycles), and blank everywhere else. *)
Theorem glyph_at_alive r c :
  stages_ok r -> codes_ok r -> glyph_at r c <> " "%char <-> alive r c.
Proof. intros Hs Hc. rewrite glyph_at_cell_ok by done. by apply cell_alive. Qed.

Lemma glyph_at_alive_witness :
  let r := mkRow "" [(3, "f"%char); (5, "a"%char)] (Some 7) true false " "%char in
  glyph_at r 7 <> " "%char <-> alive r 7.
Proof.
  apply glyph_at_alive.
  - split.
    + repeat constructor. unfold before. cbn. lia.
    + intros e [= <-]. repeat constructor; cbn; lia.
  - split_and!; [done|repeat constructor; done|done].
Defined.

(** C5: in the trace of a run whose rows enter no stage once closed, every cell of every row
    read is the legend's, so the whole picture is the trace's. *)
Theorem load_trace_cells {P : Profile} {E} table t rs :
  trace_wf t -> trace_settled t ->
  @load_lines P table E load_init (map Ok (lines (trace_text t))) = Some (Ok rs) ->
  length rs = length (opened t) /\ Forall (fun r => forall c, glyph_at r c = cell r c) rs.
Proof.
  intros Ht Hs. rewrite load_lines_trace by done. intros [= <-].
  split; [apply trace_rows_length|]. apply Forall_forall. intros r Hr c.
  apply list_elem_of_fmap in Hr as (id & -> & _). by apply glyph_at_cell_ok, row_of_stages_ok.
Qed.

Lemma load_trace_cells_witness :
  length (trace_rows ∅ demo) = length (opened demo) /\
  Forall (fun r => forall c, glyph_at r c = cell r c) (trace_rows ∅ demo).
Proof.
  apply (@load_trace_cells Debug string ∅ demo); [apply demo_wf|apply demo_settled|].
  apply load_lines_trace, demo_wf.
Defined.



(** C13: the objdump table.  From the listing of symbols, each with its instructions at or after
    it, [objdump_table] makes the map that sends each instruction's address to its place
    relative to the symbol and its text, and every other address nowhere; the offset from the
    symbol does not underflow in either build profile. *)
Theorem objdump_table_entries {P : Profile} {E} l :
  Forall symbol_wf l -> NoDup (map fst (entries l)) ->
  exists t, objdump_table (Ok (listing l) : result E string) = Some t /\
    forall pc s, t !! pc = Some s <-> (pc, s) ∈ entries l.
Proof. apply objdump_table_listing. Qed.

Lemma objdump_table_entries_witness :
  let l := [mkSymbol 0x80000000 "_start" [(0x80000000, "li a0,5"); (0x80000004, "j 80000010 # out")]] in
  exists t, @objdump_table Debug string (Ok (listing l)) = Some t /\
    forall pc s, t !! pc = Some s <-> (pc, s) ∈ entries l.
Proof.
  intros l. apply (@objdump_table_entries Debug string l).
  - repeat constructor; cbn; lia.
  - apply (bool_decide_unpack _). vm_compute. exact I.
Defined.
