(* ===== verification/Ipc.v ===== *)
(** * Ipc: the accuracy of the binary64 quotient in the header

    [ret as f64 / n as f64] printed with two decimals is the ratio rounded to a nearest
    hundredth.  The proof follows the standard library's [SpecFloat] division: an integer
    quotient with the location of its remainder, at most one bit too long, rounded once. *)
From Stdlib Require Import Floats.SpecFloat.
From S2P Require Import Prelude Fmt Str Row Stats.

(** ** Where a rational lies: [a / b] in the interval of a shifted mantissa *)
Definition located (x : shr_record) (a b : Z) : Prop :=
  match shr_r x, shr_s x with
  | false, false => a = shr_m x * b
  | false, true => 2 * shr_m x * b < 2 * a < (2 * shr_m x + 1) * b
  | true, false => 2 * a = (2 * shr_m x + 1) * b
  | true, true => (2 * shr_m x + 1) * b < 2 * a < (2 * shr_m x + 2) * b
  end.

Lemma shr_1_located x a b : 0 < b -> 0 <= shr_m x -> located x a b -> located (shr_1 x) a (2 * b).
Proof.
  intros Hb. unfold located. destruct x as [m r s]. cbn [shr_m shr_r shr_s].
  destruct m as [|[p|p|]|p]; [|..|lia]; destruct r, s; cbn; lia.
Qed.
Lemma shr_1_m x : 0 <= shr_m x -> shr_m (shr_1 x) = shr_m x / 2.
Proof.
  destruct x as [[|[p|p|]|p] r s]; cbn; intros; try done; try lia.
  - rewrite Pos2Z.inj_xI. Z.div_mod_to_equations; lia.
  - rewrite Pos2Z.inj_xO. Z.div_mod_to_equations; lia.
Qed.

Lemma new_location_located m2 q r :
  1 < m2 -> 0 <= r < m2 -> located (shr_record_of_loc q (new_location m2 r)) (q * m2 + r) m2.
Proof.
  intros Hm Hr. unfold new_location, new_location_even, new_location_odd, located.
  destruct (Z.even m2) eqn:He.
  - destruct (Z.eqb_spec r 0) as [->|]; cbn [shr_record_of_loc shr_m shr_r shr_s]; [lia|].
    destruct (Z.compare_spec (2 * r) m2); cbn [shr_record_of_loc shr_m shr_r shr_s]; lia.
  - destruct (Z.eqb_spec r 0) as [->|]; cbn [shr_record_of_loc shr_m shr_r shr_s]; [lia|].
    assert (2 * r <> m2) by (intros <-; by rewrite Z.even_mul in He).
    destruct (Z.compare_spec (2 * r + 1) m2); cbn [shr_record_of_loc shr_m shr_r shr_s]; lia.
Qed.

(** rounding to nearest is within half a unit *)
Definition rounded (x : shr_record) : Z := round_nearest_even (shr_m x) (loc_of_shr_record x).
Lemma rounded_near x a b : 0 < b -> located x a b -> 2 * Z.abs (rounded x * b - a) <= b.
Proof.
  intros Hb. unfold located, rounded. destruct x as [m [] []]; cbn; [..|lia]; try lia.
  destruct (Z.even m); lia.
Qed.
Lemma rounded_range x : shr_m x <= rounded x <= shr_m x + 1.
Proof. unfold rounded. destruct x as [m [] []]; cbn; try lia. destruct (Z.even m); lia. Qed.

(** ** Digits *)
Lemma digits2_pos_bound p :
  2 ^ (Z.pos (digits2_pos p) - 1) <= Z.pos p < 2 ^ Z.pos (digits2_pos p).
Proof.
  induction p as [p IH|p IH|]; cbn [digits2_pos]; [| |done];
    rewrite Pos2Z.inj_succ, Z.pow_succ_r by lia;
    replace (Z.succ (Z.pos (digits2_pos p)) - 1) with (Z.succ (Z.pos (digits2_pos p) - 1)) by lia;
    rewrite Z.pow_succ_r by lia; lia.
Qed.

Lemma digits_unique m d : 0 < d -> 2 ^ (d - 1) <= m < 2 ^ d -> Zdigits2 m = d.
Proof.
  intros Hd Hm. assert (0 < 2 ^ (d - 1)) by (apply Z.pow_pos_nonneg; lia).
  destruct m as [|p|p]; try lia. cbn [Zdigits2]. pose proof (digits2_pos_bound p) as Hp.
  destruct (Z.lt_trichotomy (Z.pos (digits2_pos p)) d) as [Hlt|[->|Hgt]]; [|done|].
  - pose proof (Z.pow_le_mono_r 2 (Z.pos (digits2_pos p)) (d - 1)). lia.
  - pose proof (Z.pow_le_mono_r 2 d (Z.pos (digits2_pos p) - 1)). lia.
Qed.

(** ** Rounding a mantissa of 53 or 54 bits *)
Lemma shr_fexp_53 m e l :
  2 ^ 52 <= m < 2 ^ 53 -> -1074 <= e -> shr_fexp 53 1024 m e l = (shr_record_of_loc m l, e).
Proof.
  intros Hm He. unfold shr_fexp. rewrite (digits_unique m 53) by lia. unfold fexp, emin.
  replace (Z.max (53 + e - 53) (3 - 1024 - 53) - e) with 0 by lia. done.
Qed.
Lemma shr_fexp_54 m e l :
  2 ^ 53 <= m < 2 ^ 54 -> -1074 <= e -> shr_fexp 53 1024 m e l = (shr_1 (shr_record_of_loc m l), e + 1).
Proof.
  intros Hm He. unfold shr_fexp. rewrite (digits_unique m 54) by lia. unfold fexp, emin.
  replace (Z.max (54 + e - 53) (3 - 1024 - 53) - e) with 1 by lia. done.
Qed.

(** the float is the rounded mantissa, renormalised when the rounding carries *)
Lemma round_finish m e :
  2 ^ 52 <= m <= 2 ^ 53 -> -1074 <= e <= 900 ->
  exists p e', (let '(x, e'') := shr_fexp 53 1024 m e loc_Exact in
     match shr_m x with
     | 0 => S754_zero false
     | Z.pos p => if e'' <=? 1024 - 53 then S754_finite false p e'' else S754_infinity false
     | _ => S754_nan
     end) = S754_finite false p e' /\ e <= e' <= e + 1 /\ Z.pos p * 2 ^ (e' - e) = m.
Proof.
  intros Hm He. destruct (Z.eq_dec m (2 ^ 53)) as [->|].
  - rewrite shr_fexp_54 by lia. cbn [shr_record_of_loc].
    change (shr_m (shr_1 {| shr_m := 2 ^ 53; shr_r := false; shr_s := false |})) with (Z.pos 4503599627370496).
    destruct (Z.leb_spec (e + 1) (1024 - 53)); [|lia].
    do 2 eexists. split; [done|]. split; [lia|]. by replace (e + 1 - e) with 1 by lia.
  - rewrite shr_fexp_53 by lia. cbn [shr_record_of_loc shr_m]. destruct m as [|p|p]; try lia.
    destruct (Z.leb_spec e (1024 - 53)); [|lia].
    do 2 eexists. split; [done|]. split; [lia|]. rewrite Z.sub_diag. lia.
Qed.

Lemma binary_round_aux_near m e l a b :
  2 ^ 52 <= m < 2 ^ 54 -> -1074 <= e <= 800 -> 0 < b -> located (shr_record_of_loc m l) a b ->
  exists p e', binary_round_aux 53 1024 false m e l = S754_finite false p e' /\ e <= e' <= e + 2 /\
    2 ^ 53 * Z.abs (Z.pos p * 2 ^ (e' - e) * b - a) <= a.
Proof.
  intros Hm He Hb Hl.
  assert (Hfin : forall x k, 0 <= k <= 1 -> 2 ^ 52 <= shr_m x < 2 ^ 53 -> located x a (2 ^ k * b) ->
    shr_fexp 53 1024 m e l = (x, e + k) ->
    exists p e', binary_round_aux 53 1024 false m e l = S754_finite false p e' /\ e <= e' <= e + 2 /\
      2 ^ 53 * Z.abs (Z.pos p * 2 ^ (e' - e) * b - a) <= a).
  { intros x k Hk Hx Hlx Hs. pose proof (rounded_range x) as Hr.
    assert (0 < 2 ^ k) by (apply Z.pow_pos_nonneg; lia).
    pose proof (rounded_near x a (2 ^ k * b) ltac:(nia) Hlx) as Hn.
    destruct (round_finish (rounded x) (e + k) ltac:(lia) ltac:(lia)) as (p & e' & Hp & He' & Hv).
    exists p, e'. split; [unfold binary_round_aux; rewrite Hs; exact Hp|]. split; [lia|].
    replace (e' - e) with (e' - (e + k) + k) by lia. rewrite Z.pow_add_r, Z.mul_assoc, Hv by lia.
    rewrite <- Z.mul_assoc.
    assert (2 ^ 52 * (2 ^ k * b) <= a); [|nia].
    assert (2 * shr_m x * (2 ^ k * b) <= 2 * a); [|nia].
    unfold located in Hlx. destruct (shr_r x), (shr_s x); nia. }
  destruct (Z.lt_ge_cases m (2 ^ 53)).
  - apply (Hfin (shr_record_of_loc m l) 0); [lia|destruct l as [|[]]; cbn; lia|by rewrite Z.mul_1_l|].
    rewrite Z.add_0_r. apply shr_fexp_53; lia.
  - assert (Hmx : shr_m (shr_record_of_loc m l) = m) by (by destruct l as [|[]]).
    apply (Hfin (shr_1 (shr_record_of_loc m l)) 1); [lia| | |apply shr_fexp_54; lia].
    + rewrite shr_1_m, Hmx by (rewrite Hmx; lia). split; [apply Z.div_le_lower_bound|apply Z.div_lt_upper_bound]; lia.
    + apply shr_1_located; [done|rewrite Hmx; lia|done].
Qed.

(** ** Integers are exact *)
Lemma iter_xO p d : Z.pos (Pos.iter xO p d) = Z.pos p * 2 ^ Z.pos d.
Proof.
  rewrite Pos2Nat.inj_iter, <- (positive_nat_Z d).
  induction (Pos.to_nat d) as [|k IH]; [cbn; lia|].
  rewrite Nat2Z.inj_succ, Z.pow_succ_r by lia. cbn [nat_rect Nat.iter]. rewrite Pos2Z.inj_xO, IH. lia.
Qed.

Lemma shl_align_53 n d :
  0 < d <= 53 -> 2 ^ (d - 1) <= Z.pos n < 2 ^ d ->
  exists p, shl_align n 0 (d - 53) = (p, d - 53) /\ Z.pos p = Z.pos n * 2 ^ (53 - d).
Proof.
  intros Hd Hn. unfold shl_align. destruct (d - 53 - 0) as [|k|k] eqn:Hk; [|lia|].
  - exists n. replace (d - 53) with 0 by lia. replace (53 - d) with 0 by lia. split; [done|lia].
  - exists (Pos.iter xO n k). split; [done|]. rewrite iter_xO. do 2 f_equal. lia.
Qed.

(** a number of [d] bits, shifted to 53 *)
Lemma normal_range x d : 0 < d <= 53 -> 2 ^ (d - 1) <= x < 2 ^ d -> 2 ^ 52 <= x * 2 ^ (53 - d) < 2 ^ 53.
Proof.
  intros Hd Hx.
  assert (E : 2 ^ 52 = 2 ^ (d - 1) * 2 ^ (53 - d)) by (rewrite <- Z.pow_add_r by lia; f_equal; lia).
  assert (E' : 2 ^ 53 = 2 ^ d * 2 ^ (53 - d)) by (rewrite <- Z.pow_add_r by lia; f_equal; lia).
  rewrite E, E'. assert (0 < 2 ^ (53 - d)) by (apply Z.pow_pos_nonneg; lia). nia.
Qed.

Lemma f64_of_u64_exact n d :
  0 < d <= 53 -> 2 ^ (d - 1) <= n < 2 ^ d ->
  exists p, f64_of_u64 n = S754_finite false p (d - 53) /\ Z.pos p = n * 2 ^ (53 - d).
Proof.
  intros Hd Hn. assert (0 < 2 ^ (d - 1)) by (apply Z.pow_pos_nonneg; lia).
  destruct n as [|n|n]; try lia. unfold f64_of_u64, binary_normalize, binary_round.
  change (Z.pos (digits2_pos n)) with (Zdigits2 (Z.pos n)). rewrite (digits_unique _ d) by lia.
  unfold fexp at 1, emin. replace (Z.max (d + 0 - 53) (3 - 1024 - 53)) with (d - 53) by lia.
  destruct (shl_align_53 n d Hd Hn) as (p & -> & Hp). exists p. split; [|done].
  pose proof (normal_range (Z.pos n) d Hd Hn) as Hpr. rewrite <- Hp in Hpr.
  unfold binary_round_aux. rewrite shr_fexp_53 by lia. cbn [shr_record_of_loc shr_m loc_of_shr_record round_nearest_even].
  rewrite shr_fexp_53 by lia. cbn [shr_record_of_loc shr_m].
  destruct (Z.leb_spec (d - 53) (1024 - 53)); [done|lia].
Qed.

Lemma bits_of n : 0 < n < 2 ^ 53 -> exists d, 0 < d <= 53 /\ 2 ^ (d - 1) <= n < 2 ^ d.
Proof.
  intros Hn. exists (Z.log2 n + 1). pose proof (Z.log2_spec n ltac:(lia)) as H.
  pose proof (Z.log2_nonneg n). assert (Z.log2 n < 53) by (apply Z.log2_lt_pow2; lia).
  replace (Z.log2 n + 1 - 1) with (Z.log2 n) by lia. rewrite Z.add_1_r. lia.
Qed.

(** ** The quotient *)

(** [m * 2^e] with the exponent moved out of the fractions *)
Definition scaled (m e : Z) : Z := m * 2 ^ (e + 200).

Lemma f64_div_near ret n :
  0 < ret < 2 ^ 53 -> 0 < n < 2 ^ 53 ->
  exists p e, f64_div (f64_of_u64 ret) (f64_of_u64 n) = S754_finite false p e /\ -200 <= e <= 200 /\
    2 ^ 53 * Z.abs (scaled (Z.pos p) e * n - ret * 2 ^ 200) <= ret * 2 ^ 200.
Proof.
  intros Hret Hn. destruct (bits_of ret Hret) as (d1 & Hd1 & Hr1), (bits_of n Hn) as (d2 & Hd2 & Hr2).
  destruct (f64_of_u64_exact ret d1 Hd1 Hr1) as (p1 & -> & Hp1).
  destruct (f64_of_u64_exact n d2 Hd2 Hr2) as (p2 & -> & Hp2).
  pose proof (normal_range ret d1 Hd1 Hr1) as H1. pose proof (normal_range n d2 Hd2 Hr2) as H2.
  rewrite <- Hp1 in H1. rewrite <- Hp2 in H2.
  unfold f64_div, SFdiv, SFdiv_core_binary. rewrite !(digits_unique _ 53) by lia.
  unfold fexp, emin. cbn [xorb].
  replace (Z.min (Z.max (53 + (d1 - 53) - (53 + (d2 - 53)) - 53) (3 - 1024 - 53)) (d1 - 53 - (d2 - 53)))
    with (d1 - d2 - 53) by lia.
  replace (d1 - 53 - (d2 - 53) - (d1 - d2 - 53)) with 53 by lia. cbv iota beta zeta.
  pose proof (Z_div_mod (Z.shiftl (Z.pos p1) 53) (Z.pos p2) ltac:(lia)) as Hdm.
  destruct (Z.div_eucl (Z.shiftl (Z.pos p1) 53) (Z.pos p2)) as [q r]. destruct Hdm as [Hq Hr].
  rewrite Z.shiftl_mul_pow2 in Hq by lia.
  destruct (binary_round_aux_near q (d1 - d2 - 53) (new_location (Z.pos p2) r) (Z.pos p1 * 2 ^ 53) (Z.pos p2))
    as (p & e & -> & He & Hnear); [nia|lia|lia| |].
  { rewrite Hq, (Z.mul_comm (Z.pos p2)). apply new_location_located; lia. }
  exists p, e. split; [done|]. split; [lia|]. unfold scaled.
  rewrite Hp1, Hp2 in Hnear.
  assert (Hs : 0 < 2 ^ (d1 + 94)) by (apply Z.pow_pos_nonneg; lia).
  assert (E1 : ret * 2 ^ (53 - d1) * 2 ^ 53 * 2 ^ (d1 + 94) = ret * 2 ^ 200).
  { rewrite <- !Z.mul_assoc, <- !Z.pow_add_r by lia. do 2 f_equal. lia. }
  assert (E2 : Z.pos p * 2 ^ (e - (d1 - d2 - 53)) * (n * 2 ^ (53 - d2)) * 2 ^ (d1 + 94) = Z.pos p * 2 ^ (e + 200) * n).
  { replace (e + 200) with (e - (d1 - d2 - 53) + (53 - d2) + (d1 + 94)) by lia. rewrite !Z.pow_add_r by lia. ring. }
  apply (Z.mul_le_mono_nonneg_r _ _ (2 ^ (d1 + 94))) in Hnear; [|lia].
  rewrite E1 in Hnear. rewrite <- E2, <- E1.
  rewrite <- Z.mul_sub_distr_r, Z.abs_mul, (Z.abs_eq (2 ^ (d1 + 94))), E1, Z.mul_assoc by lia. exact Hnear.
Qed.

(** ** Two decimals *)
Lemma round_even_near a b : 0 < b -> 2 * Z.abs (round_even a b * b - a) <= b.
Proof.
  intros Hb. unfold round_even. pose proof (Z.div_mod a b ltac:(lia)) as H.
  pose proof (Z.mod_pos_bound a b Hb). destruct (Z.compare_spec (2 * (a mod b)) b); [|nia|nia].
  destruct (Z.even (a / b)); nia.
Qed.

Lemma hundredths_near m e :
  0 <= m -> -200 <= e <= 200 -> 2 * Z.abs (hundredths m e * 2 ^ 200 - 100 * scaled m e) <= 2 ^ 200.
Proof.
  intros Hm He. unfold hundredths, scaled. destruct (Z.leb_spec 0 e).
  - rewrite Z.pow_add_r by lia.
    replace (100 * m * 2 ^ e * 2 ^ 200 - 100 * (m * (2 ^ e * 2 ^ 200))) with 0 by ring. lia.
  - assert (0 < 2 ^ (- e)) by (apply Z.pow_pos_nonneg; lia).
    pose proof (round_even_near (100 * m) (2 ^ (- e)) ltac:(lia)) as Hr.
    assert (E : 2 ^ 200 = 2 ^ (- e) * 2 ^ (e + 200)) by (rewrite <- Z.pow_add_r by lia; f_equal; lia).
    rewrite E. assert (0 < 2 ^ (e + 200)) by (apply Z.pow_pos_nonneg; lia).
    replace (round_even (100 * m) (2 ^ (- e)) * (2 ^ (- e) * 2 ^ (e + 200)) - 100 * (m * 2 ^ (e + 200)))
      with ((round_even (100 * m) (2 ^ (- e)) * 2 ^ (- e) - 100 * m) * 2 ^ (e + 200)) by ring.
    rewrite Z.abs_mul, (Z.abs_eq (2 ^ (e + 200))) by lia. nia.
Qed.

(** the printed quotient is the ratio rounded to a nearest hundredth *)
Lemma ipc_near ret n :
  0 <= ret < 2 ^ 45 -> 0 < n < 2 ^ 53 ->
  exists q, fmt_f64_2 (f64_div (f64_of_u64 ret) (f64_of_u64 n)) = fmt_hundredths q /\
    2 * Z.abs (q * n - 100 * ret) <= n.
Proof.
  intros Hret Hn. destruct (Z.eq_dec ret 0) as [->|].
  { exists 0. split; [|lia]. destruct (bits_of n Hn) as (d & Hd & Hr).
    by destruct (f64_of_u64_exact n d Hd Hr) as (p & -> & _). }
  destruct (f64_div_near ret n ltac:(lia) Hn) as (p & e & -> & He & Hdiv).
  exists (hundredths (Z.pos p) e). split; [done|].
  pose proof (hundredths_near (Z.pos p) e ltac:(lia) He) as Hh.
  set (q := hundredths _ _) in *. set (x := scaled _ _) in *.
  assert (H : 2 ^ 53 * 2 ^ 200 * (2 * Z.abs (q * n - 100 * ret)) <= 2 ^ 200 * (2 ^ 53 * n + 200 * ret)).
  { assert (Htri : Z.abs ((q * n - 100 * ret) * 2 ^ 200) <=
      Z.abs (n * (q * 2 ^ 200 - 100 * x)) + Z.abs (100 * (x * n - ret * 2 ^ 200))).
    { replace ((q * n - 100 * ret) * 2 ^ 200) with (n * (q * 2 ^ 200 - 100 * x) + 100 * (x * n - ret * 2 ^ 200)) by ring.
      apply Z.abs_triangle. }
    rewrite !Z.abs_mul, (Z.abs_eq n), (Z.abs_eq 100), (Z.abs_eq (2 ^ 200)) in Htri by lia.
    assert (n * (2 * Z.abs (q * 2 ^ 200 - 100 * x)) <= n * 2 ^ 200) by (apply Z.mul_le_mono_nonneg_l; lia).
    lia. }
  assert (2 ^ 53 * (2 * Z.abs (q * n - 100 * ret)) <= 2 ^ 53 * n + 200 * ret) by lia. lia.
Qed.
