(* ===== verification/StatsSpec.v ===== *)
(** * StatsSpec: what the header's numbers are

    On rows whose cycles are in order no subtraction underflows, and as long as the lost cycles
    fit a [u64] no sum overflows: the counts are the exact ones. *)
From Stdlib Require Import Sorted Permutation.
From S2P Require Import Prelude Fmt Str Rvdisasm RvdisasmFields RvdisasmSpec Row Kanata KanataSpec RowSpec Stats Ipc.

(** ** Rows whose cycles are in order *)
Record span_ok (r : Row) : Prop := {
  span_start : is_u64 (start r);
  span_last : is_u64 (row_last r);
  span_le : start r <= row_last r
}.

Lemma head_le_sorted s l :
  StronglySorted before (s :: l) -> Forall (fun s' => s.1 <= s'.1) (s :: l).
Proof. intros H. apply StronglySorted_inv in H as [_ H]. by constructor. Qed.

(** the rows of a trace are *)
Lemma stages_ok_span r : row_ok u64_max r -> stages_ok r -> span_ok r.
Proof.
  intros [_ Hc He] [Hs Hle]. unfold u64_max in *.
  assert (Hst : is_u64 (start r)).
  { unfold start, is_u64. destruct (stages r) as [|s l]; cbn; [lia|].
    apply Forall_cons_1 in Hc as [? _]. lia. }
  assert (Hl : start r <= row_last r < 2 ^ 64).
  { unfold row_last, start, is_u64 in *. destruct (row_end r) as [e|]; cbn.
    - specialize (He e eq_refl). specialize (Hle e eq_refl).
      destruct (stages r) as [|s l]; cbn in *; [lia|]. apply Forall_cons_1 in Hle as [? _]. lia.
    - destruct (stages r) as [|s l]; [cbn; lia|].
      destruct (last (s :: l)) as [s'|] eqn:E; [|by apply last_None in E].
      cbn [head fmap option_fmap option_map from_option id].
      apply last_Some_elem_of in E. apply head_le_sorted in Hs.
      rewrite Forall_forall in Hs, Hc. specialize (Hs s' E). specialize (Hc s' E). cbn in *. lia. }
  split; [done|unfold is_u64 in *; lia|lia].
Qed.

(** ** Minimum and maximum *)
Lemma fold_min_spec l x : 
  let m := fold_left Z.min l x in (m = x \/ m ∈ l) /\ m <= x /\ Forall (fun y => m <= y) l.
Proof.
  revert x. induction l as [|y l IH]; intros x; cbn; [split_and!; [by left|lia|constructor]|].
  destruct (IH (Z.min x y)) as (Hin & Hle & Hall). split_and!; [|lia|constructor; [lia|done]].
  destruct Hin as [->|?]; [|right; by right]. destruct (Z.min_spec x y) as [[_ ->]|[_ ->]].
  - by left.
  - right. left.
Qed.
Lemma fold_max_spec l x :
  let m := fold_left Z.max l x in (m = x \/ m ∈ l) /\ x <= m /\ Forall (fun y => y <= m) l.
Proof.
  revert x. induction l as [|y l IH]; intros x; cbn; [split_and!; [by left|lia|constructor]|].
  destruct (IH (Z.max x y)) as (Hin & Hle & Hall). split_and!; [|lia|constructor; [lia|done]].
  destruct Hin as [->|?]; [|right; by right]. destruct (Z.max_spec x y) as [[_ ->]|[_ ->]].
  - right. left.
  - by left.
Qed.

Definition least (l : list Z) (m : Z) : Prop := m ∈ l /\ Forall (fun y => m <= y) l.
Definition greatest (l : list Z) (m : Z) : Prop := m ∈ l /\ Forall (fun y => y <= m) l.

Lemma iter_min_least l : l <> [] -> least l (default 0 (iter_min l)).
Proof.
  destruct l as [|x l]; [done|]. intros _. cbn.
  destruct (fold_min_spec l x) as (Hin & Hle & Hall). split; [|by constructor].
  destruct Hin as [->|?]; [left|by right].
Qed.
Lemma iter_max_greatest l : l <> [] -> greatest l (default 0 (iter_max l)).
Proof.
  destruct l as [|x l]; [done|]. intros _. cbn.
  destruct (fold_max_spec l x) as (Hin & Hle & Hall). split; [|by constructor].
  destruct Hin as [->|?]; [left|by right].
Qed.

(** ** Lost cycles by cause *)
Definition lost (r : Row) : Z := if stalled r then default 0 (row_end r) - start r else 0.
Fixpoint sum (l : list Z) : Z := match l with [] => 0 | x :: l => x + sum l end.
(** the cycles lost to cause [k], and to all causes *)
Definition lost_to (k : string) (rs : list Row) : Z :=
  sum (map (fun r => if String.eqb (label r) k then lost r else 0) rs).
Definition lost_all (rs : list Row) : Z := sum (map lost rs).
Definition blamed (k : string) (rs : list Row) : bool :=
  existsb (fun r => stalled r && String.eqb (label r) k) rs.

Definition cause_of (k : string) (cs : list (string * Z)) : option Z :=
  snd <$> find (fun c => String.eqb c.1 k) cs.
Definition total (cs : list (string * Z)) : Z := sum (map snd cs).
Definition causes_ok (cs : list (string * Z)) : Prop :=
  NoDup (map fst cs) /\ Forall (fun c => 0 <= c.2) cs.

Lemma sum_zero l : Forall (fun x => x = 0) l -> sum l = 0.
Proof. induction 1; cbn; lia. Qed.
Lemma total_bound cs : Forall (fun c => 0 <= c.2) cs -> 0 <= total cs.
Proof. unfold total. induction 1 as [|c cs Hc _ IH]; cbn in *; lia. Qed.

Lemma add_cause_spec {P : Profile} k n cs :
  causes_ok cs -> 0 <= n -> total cs + n < 2 ^ 64 ->
  exists cs', add_cause k n cs = Some cs' /\ causes_ok cs' /\ total cs' = total cs + n /\
    (forall j, j ∈ map fst cs' <-> j = k \/ j ∈ map fst cs) /\
    forall j, cause_of j cs' = if String.eqb k j then Some (default 0 (cause_of k cs) + n) else cause_of j cs.
Proof.
  intros [Hnd Hpos] Hn. induction cs as [|[k' v] cs IH]; intros Ht.
  { exists [(k, n)]. split_and!; [done| |unfold total; cbn; lia| |].
    - split; repeat constructor; [apply not_elem_of_nil|done].
    - intros j. cbn. rewrite list_elem_of_singleton. split; [by left|]. by intros [->|?%elem_of_nil].
    - intros j. unfold cause_of. cbn. by destruct (String.eqb k j). }
  apply Forall_cons_1 in Hpos as [Hv Hpos]. cbn in Hnd. apply NoDup_cons in Hnd as [Hk' Hnd].
  pose proof (total_bound cs Hpos). unfold total in *. cbn in *.
  destruct (String.eqb_spec k' k) as [->|Hne].
  - unfold add_u64. rewrite in_u64_exact by (unfold is_u64; lia). cbn. eexists. split; [done|].
    split_and!; [|cbn; lia| |].
    + split; [by constructor|]. constructor; [cbn; lia|done].
    + intros j. cbn. rewrite elem_of_cons. tauto.
    + intros j. unfold cause_of. cbn. by destruct (String.eqb k j).
  - destruct (IH Hnd Hpos ltac:(lia)) as (cs' & -> & [Hnd' Hpos'] & Htot & Hkeys & Hval).
    cbn. eexists. split; [done|]. split_and!; [|cbn; lia| |].
    + split; [|by constructor]. cbn. constructor; [|done]. rewrite Hkeys. tauto.
    + intros j. cbn. rewrite !elem_of_cons, Hkeys. tauto.
    + intros j. specialize (Hval j). unfold cause_of in *. cbn.
      destruct (String.eqb_spec k' k) as [|_]; [done|].
      destruct (String.eqb_spec k' j) as [->|]; [|done].
      destruct (String.eqb_spec k j) as [->|]; done.
Qed.

Lemma stalled_span r :
  span_ok r -> stalled r = true -> start r <= default 0 (row_end r) /\ is_u64 (default 0 (row_end r)).
Proof.
  unfold stalled. intros [_ Hl Hle] [_ Hs]%andb_true_iff. apply bool_decide_eq_true in Hs as [e He].
  unfold row_last in *. by rewrite He in *.
Qed.
Lemma lost_nonneg r : span_ok r -> 0 <= lost r.
Proof.
  intros Hr. unfold lost. destruct (stalled r) eqn:Hs; [|done].
  pose proof (stalled_span r Hr Hs). lia.
Qed.

(** [rs] adds its lost cycles to the causes already counted *)
Lemma count_causes_spec {P : Profile} rs cs :
  Forall span_ok rs -> causes_ok cs -> total cs + lost_all rs < 2 ^ 64 ->
  exists cs', count_causes cs rs = Some cs' /\ causes_ok cs' /\
    forall k, cause_of k cs' =
      if blamed k rs then Some (default 0 (cause_of k cs) + lost_to k rs) else cause_of k cs.
Proof.
  intros Hrs. revert cs. induction Hrs as [|r rs Hr Hrs IH]; intros cs Hcs Ht; [by exists cs|].
  assert (Hpos : 0 <= lost_all rs).
  { clear -Hrs. unfold lost_all. induction Hrs as [|r rs Hr _ IH]; cbn; [done|].
    pose proof (lost_nonneg r Hr). lia. }
  unfold lost_all in *. cbn [map sum] in Ht. cbn [count_causes].
  unfold lost at 1 in Ht. destruct (stalled r) eqn:Hst.
  - pose proof (stalled_span r Hr Hst) as Hn.
    destruct Hn as [Hle Hu]. unfold sub_u64.
    rewrite in_u64_exact by (destruct Hr; unfold is_u64 in *; lia). cbn.
    destruct (add_cause_spec (label r) (default 0 (row_end r) - start r) cs Hcs ltac:(lia) ltac:(lia))
      as (cs1 & -> & Hcs1 & Htot & _ & Hval). cbn.
    destruct (IH cs1 Hcs1 ltac:(lia)) as (cs2 & -> & Hcs2 & Hval2). exists cs2.
    split_and!; [done|apply Hcs2..|]. intros k. rewrite Hval2, Hval. unfold blamed, lost_to.
    cbn [existsb map sum]. unfold lost at 2. rewrite Hst.
    destruct (String.eqb_spec (label r) k) as [->|]; cbn; [|done].
    destruct (existsb _ rs) eqn:Hb; f_equal; [lia|].
    rewrite (sum_zero (map _ rs)); [lia|]. apply Forall_map, Forall_forall. intros r' Hr'. cbn.
    unfold lost. destruct (stalled r') eqn:Hst', (String.eqb_spec (label r') k) as [Hl|]; try done.
    apply not_true_iff_false in Hb. destruct Hb. apply existsb_exists. exists r'.
    split; [by apply list_elem_of_In|]. by rewrite Hst', Hl, String.eqb_refl.
  - destruct (IH cs Hcs ltac:(lia)) as (cs2 & -> & Hcs2 & Hval2). exists cs2.
    split_and!; [done|apply Hcs2..|]. intros k. rewrite Hval2. unfold blamed, lost_to.
    cbn [existsb map sum]. unfold lost at 2. rewrite Hst. cbn. by destruct (String.eqb (label r) k).
Qed.

(** ** Sorting *)
Definition longer (c1 c2 : string * Z) : Prop := c2.2 <= c1.2.

Lemma insert_cause_Permutation c cs : insert_cause c cs ≡ₚ c :: cs.
Proof.
  induction cs as [|c' cs IH]; [done|]. cbn. destruct (c'.2 <? c.2); [done|].
  rewrite IH. apply Permutation_swap.
Qed.

Lemma insert_cause_sorted c cs : StronglySorted longer cs -> StronglySorted longer (insert_cause c cs).
Proof.
  induction 1 as [|c' cs Hs IH Hc]; [repeat constructor|]. cbn.
  destruct (Z.ltb_spec c'.2 c.2).
  - constructor; [by constructor|]. constructor; [unfold longer; lia|].
    eapply Forall_impl; [exact Hc|]. unfold longer. intros x. cbn. lia.
  - constructor; [done|]. rewrite insert_cause_Permutation. constructor; [unfold longer; lia|done].
Qed.

(** an element inserted after those of equal length: the sort is stable *)
Lemma insert_cause_stable n c cs :
  StronglySorted longer cs ->
  filter (fun x => x.2 = n) (insert_cause c cs) = filter (fun x => x.2 = n) (cs ++ [c]).
Proof.
  induction 1 as [|c' cs Hs IH Hc]; [done|]. cbn [insert_cause].
  destruct (Z.ltb_spec c'.2 c.2) as [Hlt|Hge].
  - rewrite (filter_app _ (c' :: cs)). rewrite !(filter_cons _ c).
    destruct (decide (c.2 = n)) as [Hcn|]; [|by rewrite app_nil_r].
    rewrite (filter_none _ (c' :: cs)); [done|]. constructor; [lia|].
    eapply Forall_impl; [exact Hc|]. unfold longer. intros x. cbn. lia.
  - cbn [app]. rewrite !(filter_cons _ c'). by rewrite IH.
Qed.

Lemma sort_go_spec cs acc :
  StronglySorted longer acc ->
  let out := fold_left (fun acc c => insert_cause c acc) cs acc in
  StronglySorted longer out /\ out ≡ₚ acc ++ cs /\
  forall n, filter (fun x => x.2 = n) out = filter (fun x => x.2 = n) (acc ++ cs).
Proof.
  revert acc. induction cs as [|c cs IH]; intros acc Ha; cbn; [by rewrite app_nil_r|].
  destruct (IH _ (insert_cause_sorted c acc Ha)) as (Hs & Hp & Hf). split_and!; [done| |].
  - rewrite Hp, insert_cause_Permutation. apply Permutation_middle.
  - intros n. rewrite Hf, filter_app, insert_cause_stable, <- filter_app by done.
    by rewrite <- app_assoc.
Qed.

Lemma sort_causes_spec cs :
  StronglySorted longer (sort_causes cs) /\ sort_causes cs ≡ₚ cs /\
  forall n, filter (fun x => x.2 = n) (sort_causes cs) = filter (fun x => x.2 = n) cs.
Proof. apply (sort_go_spec cs []). constructor. Qed.

(** ** The header *)
Lemma cause_of_elem cs k v : NoDup (map fst cs) -> cause_of k cs = Some v <-> (k, v) ∈ cs.
Proof.
  induction cs as [|[k' v'] cs IH]; [by split; [|intros ?%elem_of_nil]|].
  cbn. intros [Hk Hnd]%NoDup_cons. unfold cause_of in *. cbn. rewrite elem_of_cons.
  destruct (String.eqb_spec k' k) as [->|Hne].
  - cbn. split; [intros [= ->]; by left|]. intros [[= ->]|Hin]; [done|].
    destruct Hk. by apply (list_elem_of_fmap_2 fst) in Hin.
  - rewrite IH by done. split; [by right|]. by intros [[= -> ->]|?].
Qed.

Definition retired (rs : list Row) : Z :=
  Z.of_nat (length (filter (fun r => (is_Some (row_end r) /\ flushed r = false) /\ stall r = false) rs)).
Definition flushes (rs : list Row) : Z :=
  Z.of_nat (length (filter (fun r => flushed r = true /\ stall r = false) rs)).

(** the causes counted over [rs]: each blamed cause once, with the cycles lost to it, the
    longest first, equally long ones in the order they are met *)
Fixpoint nub (l : list string) : list string :=
  match l with [] => [] | x :: l => x :: filter (fun y => y <> x) (nub l) end.
Definition met (rs : list Row) : list (string * Z) :=
  map (fun k => (k, lost_to k rs)) (nub (map label (filter (fun r => stalled r = true) rs))).
Record causes_of (rs : list Row) (cs : list (string * Z)) : Prop := {
  causes_nodup : NoDup (map fst cs);
  causes_elem k v : (k, v) ∈ cs <-> blamed k rs = true /\ v = lost_to k rs;
  causes_sorted : StronglySorted longer cs;
  causes_stable n : filter (fun c => c.2 = n) cs = filter (fun c => c.2 = n) (met rs)
}.

(** the two lines of the header, word for word: the least start, the greatest last cycle, their
    distance, at least 1, the instructions retired and flushed, the IPC [ipc], and of the causes
    the eight first ones *)
Definition header_of (rs : list Row) (ipc head top : string) : Prop :=
  exists lo hi cs,
    least (map start rs) lo /\ greatest (map row_last rs) hi /\ causes_of rs cs /\
    (let n := Z.max (hi - lo) 1 in
     head = "cycles " +:+ fmt_dec lo +:+ ".." +:+ fmt_dec hi +:+ " (" +:+ fmt_dec n +:+ ")  retired "
       +:+ fmt_dec (retired rs) +:+ "  IPC " +:+ ipc +:+ "  flushed " +:+ fmt_dec (flushes rs) /\
     ipc = fmt_f64_2 (f64_div (f64_of_u64 (retired rs)) (f64_of_u64 n)) /\
     (retired rs < 2 ^ 45 -> n < 2 ^ 53 ->
      exists q, ipc = fmt_hundredths q /\ 2 * Z.abs (q * n - 100 * retired rs) <= n)) /\
    top = join "  " (map (fun c => c.1 +:+ " " +:+ fmt_dec c.2) (take 8 cs)).

(** ** The order the causes are met in *)
Lemma add_cause_keys {P : Profile} k n cs cs' :
  add_cause k n cs = Some cs' ->
  map fst cs' = map fst cs ++ filter (fun j => j ∉ map fst cs) [k].
Proof.
  revert cs'. induction cs as [|[k' v] cs IH]; intros cs'; cbn [add_cause map fst].
  { intros [= <-]. by rewrite filter_cons_True by apply not_elem_of_nil. }
  destruct (String.eqb_spec k' k) as [->|Hne].
  - destruct (add_u64 v n); [|done]. intros [= <-]. cbn [map fst].
    rewrite filter_cons_False by (intros H; apply H; left). by rewrite app_nil_r.
  - destruct (add_cause k n cs) as [cs1|]; [|done]. intros [= <-]. cbn [map fst].
    rewrite (IH cs1 eq_refl), <- app_comm_cons. do 2 f_equal. rewrite !filter_cons, !filter_nil.
    assert (Ek : k ∉ k' :: map fst cs <-> k ∉ map fst cs) by (rewrite not_elem_of_cons; split; [by intros [_ ?]|by split]).
    do 2 case_decide; tauto.
Qed.

Lemma count_causes_keys {P : Profile} rs cs cs' :
  count_causes cs rs = Some cs' ->
  map fst cs' = map fst cs ++
    filter (fun j => j ∉ map fst cs) (nub (map label (filter (fun r => stalled r = true) rs))).
Proof.
  revert cs. induction rs as [|r rs IH]; intros cs; cbn [count_causes].
  { intros [= <-]. by rewrite app_nil_r. }
  destruct (stalled r) eqn:Hr.
  - destruct (sub_u64 _ _) as [n|]; [|done]. cbn [mbind option_bind].
    destruct (add_cause (label r) n cs) as [cs1|] eqn:E; [|done]. intros Hc%IH.
    rewrite filter_cons_True by done. cbn [map nub]. apply add_cause_keys in E.
    rewrite Hc, E, <- app_assoc. f_equal.
    rewrite (filter_cons _ (label r) []), filter_nil, (filter_cons _ (label r)).
    rewrite !list_filter_filter. case_decide as Hk.
    + cbn [app]. f_equal. apply list_filter_iff. intros x. rewrite elem_of_app, list_elem_of_singleton. tauto.
    + cbn [app]. rewrite app_nil_r. apply list_filter_iff. intros x. split; [|by intros [? ?]].
      intros Hx. split; [done|]. intros ->. by apply Hx.
  - intros Hc%IH. by rewrite filter_cons_False by by rewrite Hr.
Qed.

(** a list of pairs with distinct keys is its keys with their values *)
Lemma keyed_list (g : string -> Z) cs :
  (forall k v, (k, v) ∈ cs -> v = g k) -> cs = map (fun k => (k, g k)) (map fst cs).
Proof.
  induction cs as [|[k v] cs IH]; intros H; [done|]. cbn [map fst]. f_equal.
  - f_equal. apply H. left.
  - apply IH. intros k' v' Hin. apply H. by right.
Qed.

Lemma retired_nonneg rs : 0 <= retired rs.
Proof. unfold retired. lia. Qed.

Lemma stats_exact {P : Profile} rs :
  rs <> [] -> Forall span_ok rs -> lost_all rs < 2 ^ 64 ->
  exists ipc head top, stats rs = Some (head, top) /\ header_of rs ipc head top.
Proof.
  intros Hne Hrs Hl. unfold stats. rewrite bool_decide_eq_false_2 by done.
  destruct (count_causes_spec rs [] Hrs) as (cs & Ecs & [Hnd _] & Hval); [by repeat constructor|done|].
  assert (Helem : forall k v, (k, v) ∈ cs <-> blamed k rs = true /\ v = lost_to k rs).
  { intros k v. rewrite <- cause_of_elem, Hval by done. cbn.
    destruct (blamed k rs); split; intros H; try done.
    - injection H as <-. by split.
    - destruct H as [_ ->]. done.
    - by destruct H. }
  assert (Hmet : cs = met rs).
  { unfold met. rewrite (keyed_list (fun k => lost_to k rs) cs) by (intros k v H; by apply Helem in H as [_ ->]).
    f_equal. rewrite (count_causes_keys rs [] cs Ecs). cbn [map app].
    apply filter_all, Forall_forall. intros j _. apply not_elem_of_nil. }
  rewrite Ecs.
  pose proof (iter_min_least (map start rs) ltac:(by destruct rs)) as Hlo.
  pose proof (iter_max_greatest (map row_last rs) ltac:(by destruct rs)) as Hhi.
  cbv zeta. set (lo := default 0 (iter_min _)) in *. set (hi := default 0 (iter_max _)) in *.
  cbn [mbind option_bind]. unfold sub_u64.
  assert (Hd : is_u64 (hi - lo)).
  { destruct Hlo as [Hin Hlo], Hhi as [Hin' Hhi]. unfold is_u64.
    apply list_elem_of_fmap in Hin as (r & Er & Hr).
    apply list_elem_of_fmap in Hin' as (r' & Er' & Hr').
    rewrite Forall_forall in Hrs. pose proof (Hrs r Hr) as [Hs1 _ Hle].
    pose proof (Hrs r' Hr') as [_ Hs2 _]. rewrite Forall_forall in Hhi.
    specialize (Hhi (row_last r) ltac:(by apply list_elem_of_fmap_2)).
    unfold is_u64 in *. lia. }
  rewrite in_u64_exact by done. cbn [mbind option_bind]. rewrite !list_filter_filter.
  destruct (sort_causes_spec cs) as (Hs & Hp & Hf).
  eexists _, _, _. split; [done|]. exists lo, hi, (sort_causes cs). cbv zeta.
  split_and!; [done|done| |done|done| |done].
  - split; [by rewrite Hp|intros k v; by rewrite Hp|done|intros m; by rewrite Hf, Hmet].
  - intros Hret Hn. apply ipc_near; [|lia]. pose proof (retired_nonneg rs). lia.
Qed.

(** ** A release build counts any rows *)
Lemma add_cause_release k n cs : exists cs', @add_cause Release k n cs = Some cs'.
Proof.
  induction cs as [|[k' v] cs [cs' IH]]; cbn [add_cause]; [eauto|].
  destruct (String.eqb k' k); [release_step; eauto|]. rewrite IH. cbn. eauto.
Qed.
Lemma stats_release rs : exists h, @stats Release rs = Some h.
Proof.
  assert (H : forall cs, exists cs', @count_causes Release cs rs = Some cs').
  { induction rs as [|r rs IH]; intros cs; cbn [count_causes]; [eauto|].
    destruct (stalled r); [|apply IH]. release_step.
    destruct (add_cause_release (label r) x cs) as [cs1 ->]. cbn. apply IH. }
  unfold stats. case_bool_decide; [eauto|]. destruct (H []) as [cs ->]. cbn [mbind option_bind].
  release_step. eauto.
Qed.
