(* ===== verification/LineSpec.v ===== *)
(** * LineSpec: the width and the colours of a row's line *)
From S2P Require Import Prelude Fmt Str StrFacts Row Line.

(** ** Counting characters *)
Lemma char_count_app s1 s2 : (char_count (s1 +:+ s2) = char_count s1 + char_count s2)%nat.
Proof.
  induction s1 as [|c s1 IH]; [done|].
  change ((if is_char_start c then 1 else 0) + char_count (s1 +:+ s2) =
    (if is_char_start c then 1 else 0) + char_count s1 + char_count s2)%nat. lia.
Qed.

Lemma char_count_repeat c n : is_char_start c = true -> char_count (repeat_char c n) = n.
Proof. intros Hc. induction n as [|n IH]; [done|]. cbn. by rewrite Hc, IH. Qed.

Lemma char_count_u8 g : char_count (char_of_u8 g) = 1%nat.
Proof. by destruct g as [[][][][][][][][]]. Qed.

Lemma char_count_le_length s : (char_count s <= String.length s)%nat.
Proof. induction s as [|c s IH]; [done|]. cbn. destruct (is_char_start c); lia. Qed.

Lemma char_count_starts s : all_str is_char_start s = true -> char_count s = String.length s.
Proof.
  induction s as [|c s IH]; [done|]. cbn. rewrite andb_true_iff. intros [-> Hs]. by rewrite IH.
Qed.

Lemma pad_left_count w s : char_count (pad_left_align w s) = Nat.max w (char_count s).
Proof. unfold pad_left_align. rewrite char_count_app, char_count_repeat by done. lia. Qed.
Lemma pad_right_count w s : char_count (pad_right_align w s) = Nat.max w (char_count s).
Proof. unfold pad_right_align. rewrite char_count_app, char_count_repeat by done. lia. Qed.

(** after its first byte, a character has only continuation bytes *)
Definition one_char (d : string) : Prop :=
  match d with "" => False | String _ d => char_count d = 0%nat end.

Lemma chars_one s : Forall one_char (chars s).
Proof.
  induction s as [|c s IH]; [constructor|]. cbn [chars].
  destruct (chars s) as [|d cs]; [repeat constructor|].
  apply Forall_cons_1 in IH as [Hd Hcs]. destruct d as [|e d]; [done|].
  destruct (is_char_start e) eqn:He; [constructor; [exact eq_refl|by constructor]|].
  constructor; [|done]. cbn in *. by rewrite He, Hd.
Qed.

Lemma one_char_count d : one_char d -> (char_count d <= 1)%nat.
Proof. destruct d as [|c d]; [done|]. cbn. intros ->. destruct (is_char_start c); lia. Qed.

Lemma take_chars_count n s : (char_count (take_chars n s) <= n)%nat.
Proof.
  unfold take_chars. generalize (chars s) (chars_one s). clear s.
  induction n as [|n IH]; intros l Hl; [done|]. destruct Hl as [|d l Hd Hl]; [cbn; lia|].
  cbn [take concat_str]. rewrite char_count_app. apply one_char_count in Hd. specialize (IH l Hl). lia.
Qed.

(** ** The cells *)
Definition cells (colour : bool) (r : Row) (c0 : Z) (ncol : nat) : string :=
  concat_str (map (fun k => render_cell colour r (glyph_at r (c0 + Z.of_nat k))) (seq 0 ncol)).

Lemma line_cells_exact {P : Profile} colour r c0 n k acc :
  0 <= c0 -> c0 + Z.of_nat (k + n) <= 2 ^ 64 ->
  line_cells colour r c0 (Z.of_nat k) n acc =
    Some (acc +:+ concat_str (map (fun k => render_cell colour r (glyph_at r (c0 + Z.of_nat k))) (seq k n))).
Proof.
  intros Hc. revert k acc. induction n as [|n IH]; intros k acc Hk.
  { cbn. f_equal. by rewrite string_app_nil_r. }
  cbn [line_cells]. unfold add_u64. rewrite in_u64_exact by (unfold is_u64; lia). cbn [mbind option_bind].
  replace (Z.of_nat k + 1) with (Z.of_nat (S k)) by lia. rewrite IH by lia.
  cbn [seq map concat_str]. by rewrite string_app_assoc.
Qed.

Lemma line_exact {P : Profile} r lab_w c0 ncol colour :
  0 <= c0 -> c0 + Z.of_nat ncol <= 2 ^ 64 ->
  line r lab_w c0 ncol colour =
    Some (pad_right_align 8 (fmt_dec (start r)) +:+ " "
      +:+ pad_left_align lab_w (take_chars lab_w (row_label r)) +:+ " " +:+ cells colour r c0 ncol).
Proof.
  intros Hc Hn. unfold line. pose proof (line_cells_exact colour r c0 ncol 0 "" Hc Hn) as E.
  change (Z.of_nat 0) with 0 in E. by rewrite E.
Qed.

Lemma concat_cells_count colour r c0 l :
  colour = false -> char_count (concat_str (map (fun k => render_cell colour r (glyph_at r (c0 + Z.of_nat k))) l)) = length l.
Proof.
  intros ->. induction l as [|k l IH]; [done|]. cbn [map concat_str]. rewrite char_count_app, IH.
  unfold render_cell. cbn. by rewrite char_count_u8.
Qed.

Lemma fmt_dec_starts n : 0 <= n -> all_str is_char_start (fmt_dec n) = true.
Proof.
  intros. rewrite fmt_dec_nonneg by done. eapply all_str_impl; [apply hex_digit_start|].
  by apply fmt_radix_all.
Qed.

Lemma fmt_dec_length k n :
  (0 < k)%nat -> 0 <= n < 10 ^ Z.of_nat k -> (String.length (fmt_dec n) <= k)%nat.
Proof.
  intros Hk Hn. rewrite fmt_dec_nonneg by lia. unfold fmt_radix.
  pose proof (radix_go_length 10 (S (Z.to_nat (Z.log2 n))) k n "" ltac:(lia) Hn Hk) as H.
  cbn [String.length] in H. lia.
Qed.

(** the widths of a plain line's four parts *)
Lemma line_count {P : Profile} r lab_w c0 ncol :
  0 <= c0 -> c0 + Z.of_nat ncol <= 2 ^ 64 -> 0 <= start r ->
  exists l, line r lab_w c0 ncol false = Some l /\
    char_count l = (Nat.max 8 (String.length (fmt_dec (start r))) + lab_w + ncol + 2)%nat.
Proof.
  intros Hc Hn Hs. rewrite line_exact by done. eexists. split; [done|].
  rewrite !char_count_app, pad_left_count, pad_right_count.
  rewrite (char_count_starts (fmt_dec _)) by by apply fmt_dec_starts.
  unfold cells. rewrite concat_cells_count, length_seq by done.
  pose proof (take_chars_count lab_w (row_label r)). change (char_count " ") with 1%nat. lia.
Qed.

(** ** Colours *)

(** the text without its select-graphic-rendition escapes: [inside] one, up to its [m] *)
Fixpoint strip_sgr (inside : bool) (s : string) : string :=
  match s with
  | "" => ""
  | String c s =>
      if inside then strip_sgr (negb (Ascii.eqb c "m")) s
      else if Ascii.eqb c ESC then strip_sgr true s
      else String c (strip_sgr false s)
  end.

Lemma strip_sgr_plain s t :
  no_char ESC s = true -> strip_sgr false (s +:+ t) = s +:+ strip_sgr false t.
Proof.
  induction s as [|c s IH]; intros Hs; [done|]. cbn in Hs. apply andb_true_iff in Hs as [Hc Hs].
  apply negb_true_iff in Hc.
  change (strip_sgr false (String c (s +:+ t)) = String c (s +:+ strip_sgr false t)).
  cbn [strip_sgr]. by rewrite Hc, IH.
Qed.

Lemma strip_sgr_inside a t :
  no_char "m" a = true -> strip_sgr true (a +:+ String "m" t) = strip_sgr false t.
Proof.
  induction a as [|c a IH]; intros Ha; [done|]. cbn in Ha. apply andb_true_iff in Ha as [Hc Ha].
  apply negb_true_iff in Hc. change (strip_sgr true (String c (a +:+ String "m" t)) = strip_sgr false t).
  cbn [strip_sgr]. rewrite Hc. by apply IH.
Qed.

Lemma strip_sgr_on a t : no_char "m" a = true -> strip_sgr false (sgr_on a +:+ t) = strip_sgr false t.
Proof.
  intros Ha. unfold sgr_on. rewrite !string_app_assoc. change ("m" +:+ t) with (String "m" t).
  change (strip_sgr true (a +:+ String "m" t) = strip_sgr false t). by apply strip_sgr_inside.
Qed.

Lemma sgr_no_m g : no_char "m" (sgr g) = true.
Proof. by destruct g as [[][][][][][][][]]. Qed.
Lemma char_of_u8_no_esc g : g <> ESC -> no_char ESC (char_of_u8 g) = true.
Proof. by destruct g as [[][][][][][][][]]. Qed.

Lemma strip_cell colour r g t :
  g <> ESC ->
  strip_sgr false (render_cell colour r g +:+ t) = render_cell false r g +:+ strip_sgr false t.
Proof.
  intros Hg. unfold render_cell at 2. cbn [andb String.eqb]. unfold render_cell.
  pose proof (char_of_u8_no_esc g Hg). destruct (String.eqb _ ""); [by apply strip_sgr_plain|].
  rewrite !string_app_assoc, strip_sgr_on.
  - by rewrite strip_sgr_plain.
  - destruct (colour && negb (stall r)); [apply sgr_no_m|done].
Qed.

(** a property of a row's codes and of the marks holds of each of its cells *)
Lemma glyph_at_all (p : ascii -> Prop) r c :
  (forall g, g ∈ [" "; "x"; "R"; "A"; "B"; "C"; "D"]%char -> p g) ->
  p (fill r) -> Forall (fun s => p s.2) (stages r) -> p (glyph_at r c).
Proof.
  intros Hm Hf Hs.
  assert (Hloop : forall l g, Forall (fun s => p s.2) l -> p g -> p (glyph_loop g c l)).
  { induction l as [|[sc sg] l IH]; intros g Hl Hg; [done|]. cbn. destruct (c <? sc); [done|].
    apply Forall_cons_1 in Hl as [? ?]. by apply IH. }
  assert (Hup : forall g, is_lane g = true -> p (to_ascii_uppercase g)).
  { intros g Hg. apply Hm. revert Hg. clear.
    by destruct g as [[][][][][][][][]]; intros H; try discriminate H; repeat constructor. }
  assert (Hsp : p " "%char) by (apply Hm; left).
  assert (Hx : p "x"%char) by (apply Hm; right; left).
  assert (HR : p "R"%char) by (apply Hm; do 2 right; left).
  unfold glyph_at. destruct (c <? start r); [done|].
  destruct (stall r); [by destruct (row_end r) as [e|]; [destruct (c <? e)|]|].
  destruct (row_end r) as [e|]; [|by apply Hloop].
  destruct (e <? c); [done|]. destruct (c =? e); [|by apply Hloop].
  destruct (find _ _) as [[sc g]|]; [|by destruct (flushed r)].
  destruct (flushed r); [done|]. cbn [negb andb]. destruct (is_lane g) eqn:Hg; [by apply Hup|done].
Qed.

Lemma all_str_concat p l : all_str p (concat_str l) = forallb (all_str p) l.
Proof. induction l as [|s l IH]; [done|]. cbn. by rewrite all_str_app, IH. Qed.

Lemma take_chars_all p n s : all_str p s = true -> all_str p (take_chars n s) = true.
Proof.
  rewrite <- (concat_chars s) at 1. unfold take_chars.
  rewrite <- (take_drop n (chars s)) at 1. rewrite !all_str_concat, forallb_app, andb_true_iff. tauto.
Qed.

Lemma repeat_no_char c d n : Ascii.eqb d c = false -> no_char c (repeat_char d n) = true.
Proof. intros Hd. apply all_str_repeat. by rewrite Hd. Qed.

Lemma strip_cells colour r c0 l :
  (forall c, glyph_at r c <> ESC) ->
  strip_sgr false (concat_str (map (fun k => render_cell colour r (glyph_at r (c0 + Z.of_nat k))) l)) =
    concat_str (map (fun k => render_cell false r (glyph_at r (c0 + Z.of_nat k))) l).
Proof.
  intros Hg. induction l as [|k l IH]; [done|]. cbn [map concat_str]. by rewrite strip_cell, IH.
Qed.

Definition no_escapes (r : Row) : Prop :=
  no_char ESC (label r) = true /\ fill r <> ESC /\ Forall (fun s => s.2 <> ESC) (stages r).

Lemma line_strip {P : Profile} r lab_w c0 ncol colour :
  0 <= c0 -> c0 + Z.of_nat ncol <= 2 ^ 64 -> 0 <= start r -> no_escapes r ->
  exists l l0, line r lab_w c0 ncol colour = Some l /\ line r lab_w c0 ncol false = Some l0 /\
    strip_sgr false l = l0.
Proof.
  intros Hc Hn Hs (Hl & Hf & Hst). rewrite !line_exact by done. do 2 eexists. split; [done|].
  split; [done|].
  assert (Hlab : no_char ESC (row_label r) = true).
  { unfold row_label, no_char. destruct (stall r); [|done]. rewrite !all_str_app.
    rewrite andb_true_iff. split; [by destruct (Ascii.eqb _ _)|done]. }
  assert (Hdec : no_char ESC (fmt_dec (start r)) = true).
  { rewrite fmt_dec_nonneg by done. apply (all_str_impl is_hex_digit); [|by apply fmt_radix_all].
    intros c. by destruct c as [[][][][][][][][]]. }
  assert (Hpr : no_char ESC (pad_right_align 8 (fmt_dec (start r))) = true).
  { unfold pad_right_align, no_char. rewrite all_str_app. apply andb_true_iff.
    split; [by apply repeat_no_char|done]. }
  assert (Hpl : no_char ESC (pad_left_align lab_w (take_chars lab_w (row_label r))) = true).
  { unfold pad_left_align, no_char. rewrite all_str_app. apply andb_true_iff.
    split; [by apply take_chars_all|by apply repeat_no_char]. }
  rewrite (strip_sgr_plain (pad_right_align _ _)), (strip_sgr_plain " "),
    (strip_sgr_plain (pad_left_align _ _)), (strip_sgr_plain " ") by done.
  do 4 f_equal. apply strip_cells. intros c. apply glyph_at_all; [|done|done].
  intros g Hg ->. repeat (apply elem_of_cons in Hg as [Hg|Hg]; [discriminate Hg|]).
  by apply elem_of_nil in Hg.
Qed.

(** ** A release build draws every row *)
Lemma line_release r lab_w c0 ncol colour : exists l, @line Release r lab_w c0 ncol colour = Some l.
Proof.
  unfold line.
  assert (H : forall n k acc, exists s, @line_cells Release colour r c0 k n acc = Some s).
  { induction n as [|n IH]; intros k acc; cbn [line_cells]; [eauto|]. release_step. apply IH. }
  destruct (H ncol 0 "") as [s ->]. cbn. eauto.
Qed.
