(* ===== verification/TuiSpec.v ===== *)
(** * TuiSpec: the interactive viewer's invariant and termination

    Reading the keyboard always consumes input or quits, so the loop ends; the first row in
    view exists, so no slice is out of bounds. *)
From S2P Require Import Prelude Fmt Str StrFacts Rvdisasm RvdisasmFields RvdisasmSpec Row Kanata KanataSpec RowSpec Stats StatsSpec Line LineSpec Keys Texts Tui.

(** ** The keyboard *)
Lemma read_le inp : (length (read inp).2 <= length inp)%nat.
Proof. destruct inp as [|b inp]; cbn; lia. Qed.

Lemma escape_key_le c inp : (length (escape_key c inp).2 <= length inp)%nat.
Proof.
  pose proof (read_le inp) as Hr. unfold escape_key. destruct (read inp) as [b rest]. cbn in Hr.
  destruct c as [[][][][][][][][]]; cbn; lia.
Qed.

Lemma read_key_cons b inp : (length (read_key (b :: inp)).2 <= length inp)%nat.
Proof.
  assert (Hesc : (length (let '(s, inp) := read inp in
        match s with
        | Some "["%char => let '(c, inp) := read inp in escape_key (default "000"%char c) inp
        | _ => (Quit, inp)
        end).2 <= length inp)%nat).
  { pose proof (read_le inp) as H1. destruct (read inp) as [s inp1]. cbn in H1.
    pose proof (read_le inp1) as H2. destruct (read inp1) as [c inp2]. cbn in H2.
    pose proof (escape_key_le (default "000"%char c) inp2).
    destruct s as [[[][][][][][][][]]|]; cbn [snd]; lia. }
  unfold read_key. cbn [read].
  destruct b as [[[][][][][][][][]]|]; try (cbn; lia).
Qed.

(** a key is the end of the input or consumes some of it *)
Lemma read_key_progress inp :
  (read_key inp).1 = Quit \/ (length (read_key inp).2 < length inp)%nat.
Proof.
  destruct inp as [|b inp]; [by left|right]. pose proof (read_key_cons b inp). cbn [length]. lia.
Qed.
Lemma read_key_le inp : (length (read_key inp).2 <= length inp)%nat.
Proof. destruct inp as [|b inp]; [done|]. pose proof (read_key_cons b inp). cbn [length]. lia. Qed.

Lemma read_line_le s out inp : (length (read_line_loop s out inp).2 <= length inp)%nat.
Proof.
  revert s out. induction inp as [|[b|] inp IH]; intros s out; cbn [read_line_loop]; try (cbn; lia).
  repeat case_match; cbn [snd length]; try lia;
    match goal with |- (length (read_line_loop ?s ?o _).2 <= _)%nat => specialize (IH s o); lia end.
Qed.

(** ** What the bytes of the keyboard mean *)

(** the keys that are one byte, the cursor keys after an escape and a bracket, and those that
    send a digit there and close it with one more byte, a tilde *)
Definition plain_keys : list (ascii * Key) :=
  [("j", Down); ("k", Up); (" ", PgDn); ("b", PgUp); ("g", Home); ("G", End_); ("h", Left);
   ("l", Right); ("/", Search); ("n", Next); ("?", Legend); ("q", Quit)]%char.
Definition cursor_keys : list (ascii * Key) :=
  [("A", Up); ("B", Down); ("C", Right); ("D", Left); ("H", Home); ("F", End_)]%char.
Definition tilde_keys : list (ascii * Key) := [("1", Home); ("4", End_); ("5", PgUp); ("6", PgDn)]%char.
Definition key_in (t : list (ascii * Key)) (b : ascii) : Key :=
  match find (fun e => Ascii.eqb e.1 b) t with Some (_, k) => k | None => Other end.

(** the key at the front of the input, and the input after it: the end of the input quits, and
    so does an escape that is not the start of a sequence *)
Inductive keyed : input -> Key -> input -> Prop :=
| keyed_eof : keyed [] Quit []
| keyed_error rest : keyed (None :: rest) Quit rest
| keyed_plain b rest : b <> ESC -> keyed (Some b :: rest) (key_in plain_keys b) rest
| keyed_escape_eof : keyed [Some ESC] Quit []
| keyed_escape b rest : b <> Some "["%char -> keyed (Some ESC :: b :: rest) Quit rest
| keyed_open_eof : keyed [Some ESC; Some "["%char] Other []
| keyed_open_error rest : keyed (Some ESC :: Some "["%char :: None :: rest) Other rest
| keyed_cursor c rest :
    c ∉ map fst tilde_keys -> keyed (Some ESC :: Some "["%char :: Some c :: rest) (key_in cursor_keys c) rest
| keyed_tilde c k rest :
    (c, k) ∈ tilde_keys -> keyed (Some ESC :: Some "["%char :: Some c :: rest) k (tail rest).

Lemma read_key_plain b rest : b <> ESC -> read_key (Some b :: rest) = (key_in plain_keys b, rest).
Proof. intros Hb. destruct b as [[][][][][][][][]]; first [reflexivity|by destruct Hb]. Qed.
Lemma escape_key_cursor c rest :
  c ∉ map fst tilde_keys -> escape_key c rest = (key_in cursor_keys c, rest).
Proof.
  intros Hc. destruct c as [[][][][][][][][]]; try reflexivity;
    destruct Hc; apply (bool_decide_unpack _); vm_compute; exact I.
Qed.
Lemma escape_key_tilde c k rest : (c, k) ∈ tilde_keys -> escape_key c rest = (k, tail rest).
Proof.
  intros Hc. repeat (apply elem_of_cons in Hc as [[= -> ->]|Hc]; [by destruct rest|]).
  by apply elem_of_nil in Hc.
Qed.
Lemma read_key_escape b rest : b <> Some "["%char -> read_key (Some ESC :: b :: rest) = (Quit, rest).
Proof. intros Hb. destruct b as [[[][][][][][][][]]|]; first [reflexivity|by destruct Hb]. Qed.

Lemma keyed_read_key inp k rest : keyed inp k rest -> read_key inp = (k, rest).
Proof.
  destruct 1; try reflexivity; [by apply read_key_plain|by apply read_key_escape| |].
  - by apply escape_key_cursor.
  - by apply escape_key_tilde.
Qed.

Lemma keyed_total inp : exists k rest, keyed inp k rest.
Proof.
  destruct inp as [|[b|] inp]; [by eexists _, _; apply keyed_eof| |by eexists _, _; apply keyed_error].
  destruct (decide (b = ESC)) as [->|Hb]; [|by eexists _, _; apply keyed_plain].
  destruct inp as [|b inp]; [by eexists _, _; apply keyed_escape_eof|].
  destruct (decide (b = Some "["%char)) as [->|Hb]; [|by eexists _, _; apply keyed_escape].
  destruct inp as [|[c|] inp];
    [by eexists _, _; apply keyed_open_eof| |by eexists _, _; apply keyed_open_error].
  destruct (decide (c ∈ map fst tilde_keys)) as [Hc|Hc]; [|by eexists _, _; apply keyed_cursor].
  apply list_elem_of_fmap in Hc as ([c' k] & -> & Hc). eexists _, _. by apply keyed_tilde.
Qed.

Lemma read_key_keyed inp k rest : read_key inp = (k, rest) <-> keyed inp k rest.
Proof.
  split; [|apply keyed_read_key]. intros H. destruct (keyed_total inp) as (k' & rest' & Hk).
  pose proof (keyed_read_key _ _ _ Hk) as H'. rewrite H in H'. by injection H' as -> ->.
Qed.

(** ** Typing a line *)
Definition typed (s : string) : input := map Some (list_ascii_of_string s).
Definition text_char (c : ascii) : bool := (32 <=? Z_of_ascii c) && (Z_of_ascii c <? 127).

Lemma text_char_step c s out inp :
  text_char c = true ->
  read_line_loop s out (Some c :: inp) =
    read_line_loop (s +:+ String c "") (out +:+ String c "") inp.
Proof. destruct c as [[][][][][][][][]]; intros H; try discriminate H; reflexivity. Qed.

Lemma read_line_typed t s out inp :
  all_str text_char t = true ->
  read_line_loop s out (typed t ++ inp) = read_line_loop (s +:+ t) (out +:+ t) inp.
Proof.
  revert s out. induction t as [|c t IH]; intros s out Ht; [by rewrite !string_app_nil_r|].
  cbn in Ht. apply andb_true_iff in Ht as [Hc Ht]. unfold typed. cbn [list_ascii_of_string map app].
  rewrite text_char_step by done. unfold typed in IH. rewrite IH by done.
  by rewrite !string_app_assoc.
Qed.

Lemma chars_ascii s :
  all_str is_char_start s = true -> chars s = map (fun c => String c "") (list_ascii_of_string s).
Proof.
  induction s as [|c s IH]; [done|]. cbn. rewrite andb_true_iff. intros [Hc Hs]. rewrite IH by done.
  destruct s as [|d s]; [done|]. cbn in *. apply andb_true_iff in Hs as [-> _]. done.
Qed.

Lemma text_char_start c : text_char c = true -> is_char_start c = true.
Proof. by destruct c as [[][][][][][][][]]. Qed.

(** the last character typed is the first erased *)
Lemma pop_snoc s c :
  all_str text_char s = true -> text_char c = true -> pop (s +:+ String c "") = Some s.
Proof.
  intros Hs Hc.
  assert (Hst : forall t, all_str text_char t = true -> all_str is_char_start t = true)
    by (intros t; apply all_str_impl, text_char_start).
  unfold pop. rewrite chars_ascii, list_ascii_app, map_app.
  2: { rewrite all_str_app, Hst by done. cbn. by rewrite text_char_start. }
  rewrite <- chars_ascii by by apply Hst. cbn [list_ascii_of_string map].
  rewrite <- (concat_chars s) at 2. generalize (chars s). intros l.
  pose proof (removelast_last l (String c "")) as E. destruct (l ++ [String c ""]) eqn:El.
  - by destruct l.
  - by rewrite E.
Qed.

Lemma exists_last_char t : t <> "" -> exists t' c, t = t' +:+ String c "".
Proof.
  induction t as [|c t IH]; [done|]. intros _. destruct t as [|d t]; [by exists "", c|].
  destruct IH as (t' & e & ->); [done|]. by exists (String c t'), e.
Qed.

Lemma read_line_erased t s out inp :
  all_str text_char s = true -> all_str text_char t = true ->
  exists out', read_line_loop (s +:+ t) out (repeat (Some "127"%char) (String.length t) ++ inp) =
    read_line_loop s out' inp.
Proof.
  intros Hs. remember (String.length t) as n eqn:Hn. revert t out Hn.
  induction n as [|n IH]; intros t out Hn Ht.
  { destruct t; [|done]. exists out. by rewrite string_app_nil_r. }
  destruct (exists_last_char t) as (t' & c & ->); [by intros ->|].
  rewrite all_str_app, andb_true_iff in Ht. destruct Ht as [Ht Hc]. cbn in Hc. rewrite andb_true_r in Hc.
  rewrite <- string_app_assoc. cbn [repeat app].
  cbn [read_line_loop]. change (Ascii.eqb "127" CR || Ascii.eqb "127" LF) with false.
  change (Ascii.eqb "127" "127" || Ascii.eqb "127" "008") with true. cbv iota.
  rewrite pop_snoc; [|by rewrite all_str_app, Hs|done].
  apply IH; [|done]. rewrite string_app_length in Hn. cbn in Hn. lia.
Qed.

(** ** The view stays on a row *)
Definition view_ok (rs : list Row) (v : view) : Prop := 0 <= top v <= last_row rs.

(** the first row from [l] whose label holds [q], [i] the position of [l]'s first *)
Lemma find_label_spec q i l :
  match find_label q i l with
  | Some j => exists k r, j = i + Z.of_nat k /\ l !! k = Some r /\ contains q (label r) = true /\
      Forall (fun r => contains q (label r) = false) (take k l)
  | None => Forall (fun r => contains q (label r) = false) l
  end.
Proof.
  revert i. induction l as [|r l IH]; intros i; cbn; [constructor|].
  destruct (contains q (label r)) eqn:Hc.
  - exists 0%nat, r. split_and!; [lia|done|done|constructor].
  - specialize (IH (i + 1)). destruct (find_label q (i + 1) l) as [j|]; [|by constructor].
    destruct IH as (k & r' & -> & Hk & Hr & Hall). exists (S k), r'.
    split_and!; [lia|done|done|by constructor].
Qed.

Lemma search_ok {P : Profile} rs v v' :
  view_ok rs v -> search rs v = Some v' -> view_ok rs v' /\ query v' = query v.
Proof.
  intros Hv. unfold search. destruct (String.eqb _ _); [by intros [= <-]|].
  destruct (add_u64 (top v) 1) as [i|] eqn:Hi; [|done]. cbn. intros [= <-].
  apply in_u64_range in Hi. unfold is_u64 in Hi.
  pose proof (find_label_spec (query v) i (drop (Z.to_nat i) rs)) as Hf.
  destruct (find_label _ _ _) as [j|]; [|done]. split; [|done].
  destruct Hf as (k & r & -> & Hk & _). rewrite lookup_drop in Hk. apply lookup_lt_Some in Hk.
  unfold view_ok, last_row, sat_sub, n_rows. cbn. lia.
Qed.

Lemma on_key_ok {P : Profile} rs h w k v inp v' s inp' :
  view_ok rs v -> on_key rs h w k v inp = Some (Some (v', s, inp')) ->
  view_ok rs v' /\ (length inp' <= length inp)%nat.
Proof.
  intros Hv.
  assert (Hmove : forall t, 0 <= t -> view_ok rs (mkView (Z.min t (last_row rs)) 0 (query v))).
  { intros t Ht. unfold view_ok, last_row, sat_sub, n_rows in *. cbn. lia. }
  assert (Hdown : forall d, add_u64 (top v) d ≫= (fun t => Some (Some (mkView (Z.min t (last_row rs)) 0 (query v), "", inp)))
      = Some (Some (v', s, inp')) -> view_ok rs v' /\ (length inp' <= length inp)%nat).
  { intros d H. destruct (add_u64 (top v) d) as [t|] eqn:E; [|done]. cbn in H. simplify_eq.
    apply in_u64_range in E. unfold is_u64 in E. split; [apply Hmove; lia|lia]. }
  unfold body_height, on_key. destruct k; cbv zeta; try done; try apply Hdown.
  - intros [= <- <- <-]. unfold view_ok, sat_sub in *. cbn. lia.
  - intros [= <- <- <-]. unfold view_ok, body_height, sat_sub in *. cbn. lia.
  - intros [= <- <- <-]. unfold view_ok in *. cbn. lia.
  - intros [= <- <- <-]. unfold view_ok, body_height, last_row, sat_sub, n_rows in *. cbn. lia.
  - destruct (in_i64 _); [|done]. cbn. by intros [= <- <- <-].
  - destruct (in_i64 _); [|done]. cbn. by intros [= <- <- <-].
  - pose proof (read_line_le "" "" inp) as Hle. unfold read_line.
    destruct (read_line_loop "" "" inp) as [[q echo] rest]. cbn in Hle.
    destruct (search rs (mkView (top v) (shift v) q)) as [v1|] eqn:Hs; [|done].
    cbn. intros [= <- <- <-]. by apply search_ok in Hs as [? _].
  - destruct (search rs v) as [v1|] eqn:Hs; [|done].
    cbn. intros [= <- <- <-]. by apply search_ok in Hs as [? _].
  - pose proof (read_key_le inp) as Hle. destruct (read_key inp) as [k rest].
    by intros [= <- <- <-].
  - by intros [= <- <- <-].
Qed.

(** ** The rows in view *)
Lemma visible_spec {P : Profile} rs v body :
  rs <> [] -> view_ok rs v -> 1 <= body -> n_rows rs + body <= 2 ^ 64 ->
  exists vis, visible rs v body = Some vis /\ vis <> [] /\
    Z.of_nat (length vis) = Z.min body (n_rows rs - top v) /\
    forall i, (i < length vis)%nat -> vis !! i = rs !! (Z.to_nat (top v) + i)%nat.
Proof.
  intros Hrs Hv Hb Hmax. unfold view_ok, last_row, sat_sub, n_rows in *.
  assert (0 < length rs)%nat by (destruct rs; cbn; [done|lia]).
  unfold visible, add_u64, n_rows. rewrite in_u64_exact by (unfold is_u64; lia). cbn [mbind option_bind].
  destruct (Z.leb_spec (top v) (Z.min (top v + body) (Z.of_nat (length rs)))); [|lia].
  eexists. split; [done|].
  assert (Hlen : Z.of_nat (length (take (Z.to_nat (Z.min (top v + body) (Z.of_nat (length rs)) - top v))
      (drop (Z.to_nat (top v)) rs))) = Z.min body (Z.of_nat (length rs) - top v)).
  { rewrite length_take, length_drop. lia. }
  split_and!; [|exact Hlen|].
  - intros E. rewrite E in Hlen. cbn in Hlen. lia.
  - intros i Hi. rewrite length_take, length_drop in Hi.
    rewrite lookup_take_lt by lia. apply lookup_drop.
Qed.

Lemma body_height_pos h : 1 <= body_height h.
Proof. unfold body_height. lia. Qed.

(** ** A release build draws every frame *)
Lemma draw_rows_release w c0 vis : exists s, @draw_rows Release w c0 vis = Some s.
Proof.
  induction vis as [|r vis [s IH]]; cbn [draw_rows]; [eauto|].
  assert (exists l, @draw_row Release w c0 r = Some l) as [l ->].
  { unfold draw_row.
    destruct (line_release r (Z.to_nat (label_width w)) c0 (Z.to_nat (cell_columns w)) false) as [l1 ->].
    destruct (line_release r (Z.to_nat (label_width w)) c0 (Z.to_nat (cell_columns w)) true) as [l2 ->].
    destruct (stall r || flushed r); cbn; eauto. }
  rewrite IH. cbn. eauto.
Qed.

Lemma frame_release rs h w v :
  rs <> [] -> view_ok rs v -> n_rows rs + body_height h <= 2 ^ 64 -> exists f, @frame Release rs h w v = Some f.
Proof.
  intros Hrs Hv Hmax. unfold frame.
  destruct (@visible_spec Release rs v _ Hrs Hv (body_height_pos h) Hmax) as (vis & -> & _).
  cbn [mbind option_bind]. unfold first_cycle. release_step.
  destruct (stats_release vis) as [[head causes] ->]. cbn [mbind option_bind].
  match goal with |- context [draw_rows w ?c vis] => destruct (draw_rows_release w c vis) as [s ->] end.
  cbn. eauto.
Qed.

Lemma search_release rs v : exists v', @search Release rs v = Some v'.
Proof. unfold search. destruct (String.eqb _ _); [eauto|]. release_step. eauto. Qed.

Lemma on_key_release rs h w k v inp : exists r, @on_key Release rs h w k v inp = Some r.
Proof.
  unfold on_key. destruct k; cbv zeta; try (release_step); eauto.
  - destruct (read_line inp) as [[q echo] rest].
    destruct (search_release rs (mkView (top v) (shift v) q)) as [v' ->]. cbn. eauto.
  - destruct (search_release rs v) as [v' ->]. cbn. eauto.
  - destruct (read_key inp). eauto.
Qed.

(** ** The loop ends *)
Definition size_ok (rs : list Row) (size : nat -> option string) : Prop :=
  forall i, n_rows rs + body_height (term_size (size i)).1 <= 2 ^ 64.

Lemma tui_loop_fuel {P : Profile} rs fuel size i v inp log :
  view_ok rs v -> (length inp < fuel)%nat -> tui_loop rs fuel size i v inp log <> OutOfFuel.
Proof.
  revert i v inp log. induction fuel as [|fuel IH]; intros i v inp log Hv Hf; [lia|].
  cbn [tui_loop]. destruct (term_size (size i)) as [h w]. destruct (frame rs h w v); [|done].
  pose proof (read_key_progress inp) as Hp. destruct (read_key inp) as [k inp1]. cbn in Hp.
  destruct (on_key rs h w k v inp1) as [[[[v1 s1] inp2]|]|] eqn:Hk; try done.
  apply on_key_ok in Hk as Hk'; [|done]. destruct Hk' as [Hv1 Hle].
  apply IH; [done|]. destruct Hp as [->|]; [discriminate Hk|lia].
Qed.

Lemma tui_loop_release rs fuel size i v inp log :
  rs <> [] -> view_ok rs v -> size_ok rs size -> (length inp < fuel)%nat ->
  exists more, @tui_loop Release rs fuel size i v inp log = Finished (log ++ more).
Proof.
  intros Hrs Hv Hsize. revert i v inp log Hv.
  induction fuel as [|fuel IH]; intros i v inp log Hv Hf; [lia|].
  cbn [tui_loop]. pose proof (Hsize i) as Hi. destruct (term_size (size i)) as [h w].
  destruct (frame_release rs h w v Hrs Hv Hi) as [f ->].
  pose proof (read_key_progress inp) as Hp. destruct (read_key inp) as [k inp1]. cbn in Hp.
  destruct (on_key_release rs h w k v inp1) as [r Hk]. rewrite Hk.
  destruct r as [[[v1 s1] inp2]|]; [|rewrite <- app_assoc; by eexists].
  apply on_key_ok in Hk as Hk'; [|done]. destruct Hk' as [Hv1 Hle].
  destruct (IH (S i) v1 inp2 (((log ++ [Stty ["size"]]) ++ [Write f]) ++ [Write s1]) Hv1) as [more ->].
  { destruct Hp as [->|]; [discriminate Hk|lia]. }
  rewrite <- !app_assoc. by eexists.
Qed.

Lemma view_init_ok rs : view_ok rs (mkView 0 0 "").
Proof. unfold view_ok, last_row, sat_sub. cbn. lia. Qed.

(** ** A whole session *)

(** raw mode and the alternate screen first, the screen and the saved settings back last *)
Definition enter_screen : list io :=
  [Stty ["-g"]; Stty ["-echo"; "-icanon"; "-isig"; "min"; "1"; "time"; "0"];
   Write (esc "[?1049h" +:+ esc "[?25l")].
Definition leave_screen (settings : option string) : list io :=
  Write (esc "[?25h" +:+ esc "[?1049l")
  :: match settings with
     | Some s => if String.eqb (trim s) "" then [] else [Stty [trim s]]
     | None => []
     end.

Lemma tui_session {P : Profile} rs fuel settings size inp more :
  tui_loop rs fuel size 0 (mkView 0 0 "") inp enter_screen = Finished (enter_screen ++ more) ->
  tui rs fuel settings size inp = Finished (enter_screen ++ more ++ leave_screen settings).
Proof.
  intros H. unfold tui. cbv zeta. unfold enter_screen in H at 1. rewrite H.
  unfold leave_screen. rewrite <- app_assoc. by destruct settings.
Qed.

(** ** The width of a line *)
Lemma layout_width w :
  40 <= w -> label_width w + 10 + cell_columns w = w /\ 20 <= label_width w <= 48.
Proof.
  intros Hw. unfold cell_columns, label_width, clamp, sat_sub.
  pose proof (Z.div_mod w 3 ltac:(lia)). pose proof (Z.mod_pos_bound w 3 ltac:(lia)).
  destruct (Z.ltb_spec (w / 3) 20); [lia|]. destruct (Z.ltb_spec 48 (w / 3)); lia.
Qed.
Lemma layout_narrow w : 0 <= w < 40 -> label_width w = 20 /\ cell_columns w = 10.
Proof.
  intros Hw. unfold cell_columns, label_width, clamp, sat_sub.
  pose proof (Z.div_lt_upper_bound w 3 20 ltac:(lia)).
  destruct (Z.ltb_spec (w / 3) 20); lia.
Qed.

(** ** Searching *)
Lemma search_exact {P : Profile} rs v :
  view_ok rs v -> n_rows rs < 2 ^ 63 -> query v <> "" ->
  exists v', search rs v = Some v' /\
    ((exists j r a b, v' = mkView (Z.of_nat j) 0 (query v) /\ top v < Z.of_nat j /\ rs !! j = Some r /\
        label r = a +:+ query v +:+ b /\
        forall i r', top v < Z.of_nat i < Z.of_nat j -> rs !! i = Some r' -> contains (query v) (label r') = false) \/
     (v' = v /\ forall i r', top v < Z.of_nat i -> rs !! i = Some r' -> contains (query v) (label r') = false)).
Proof.
  intros Hv Hn Hq. unfold view_ok, last_row, sat_sub in Hv. unfold search.
  destruct (String.eqb_spec (query v) ""); [done|].
  unfold add_u64. rewrite in_u64_exact by (unfold is_u64; lia). cbn [mbind option_bind].
  eexists. split; [done|].
  pose proof (find_label_spec (query v) (top v + 1) (drop (Z.to_nat (top v + 1)) rs)) as Hf.
  assert (Hafter : forall i r', top v < Z.of_nat i -> rs !! i = Some r' ->
    drop (Z.to_nat (top v + 1)) rs !! (i - Z.to_nat (top v + 1))%nat = Some r').
  { intros i r' Hi Hr. rewrite lookup_drop. rewrite <- Hr. f_equal. lia. }
  destruct (find_label _ _ _) as [j|].
  - left. destruct Hf as (k & r & -> & Hk & Hc & Hall). rewrite lookup_drop in Hk.
    apply contains_spec in Hc as (a & b & Hl).
    exists (Z.to_nat (top v + 1) + k)%nat, r, a, b.
    split; [f_equal; lia|]. split_and!; [lia|done|done|].
    intros i r' Hi Hr'. specialize (Hafter i r' ltac:(lia) Hr').
    apply (Forall_lookup_1 _ _ (i - Z.to_nat (top v + 1)) r' Hall). by rewrite lookup_take_lt by lia.
  - right. split; [done|]. intros i r' Hi Hr'. specialize (Hafter i r' Hi Hr').
    by eapply Forall_lookup_1 in Hf.
Qed.
