(* ===== verification/TuiBounds.v ===== *)
(** * TuiBounds: the viewer's arithmetic does not overflow

    On fewer than 2^62 rows whose cycles are in order, which start before cycle 2^62 and whose
    lost cycles sum below 2^64 ([rows_small]; a larger sum overflows a cause's count), in windows
    below 2^62 rows and columns and with at most 2^50 bytes typed, every addition of the viewer
    stays in its word, so a debug build runs to its end like a release build. *)
From S2P Require Import Prelude Fmt Str StrFacts Rvdisasm RvdisasmFields RvdisasmSpec Row Kanata KanataSpec RowSpec Stats StatsSpec Line LineSpec Keys Texts Tui TuiSpec.

Record rows_small (rs : list Row) : Prop := {
  small_some : rs <> [];
  small_span : Forall span_ok rs;
  small_start : Forall (fun r => start r < 2 ^ 62) rs;
  small_lost : lost_all rs < 2 ^ 64;
  small_len : n_rows rs < 2 ^ 62
}.
Definition size_small (hw : Z * Z) : Prop := 0 <= hw.1 < 2 ^ 62 /\ 0 <= hw.2 < 2 ^ 62.

(** ** Windows of the rows *)
Lemma sum_app l1 l2 : sum (l1 ++ l2) = sum l1 + sum l2.
Proof. induction l1 as [|x l1 IH]; cbn; lia. Qed.

Lemma lost_all_nonneg rs : Forall span_ok rs -> 0 <= lost_all rs.
Proof.
  unfold lost_all. induction 1 as [|r rs Hr _ IH]; cbn; [done|]. pose proof (lost_nonneg r Hr). lia.
Qed.
Lemma lost_all_app l1 l2 : lost_all (l1 ++ l2) = lost_all l1 + lost_all l2.
Proof. unfold lost_all. by rewrite map_app, sum_app. Qed.

Lemma window_small rs m k :
  rows_small rs -> Forall span_ok (take k (drop m rs)) /\
    Forall (fun r => start r < 2 ^ 62) (take k (drop m rs)) /\ lost_all (take k (drop m rs)) < 2 ^ 64.
Proof.
  intros [_ Hs Ht Hl _].
  assert (E : rs = take m rs ++ take k (drop m rs) ++ drop k (drop m rs)) by by rewrite !take_drop.
  rewrite E in Hs, Ht, Hl. rewrite !Forall_app in Hs, Ht. rewrite !lost_all_app in Hl.
  destruct Hs as (Hs1 & Hs2 & Hs3), Ht as (_ & Ht2 & _).
  pose proof (lost_all_nonneg _ Hs1). pose proof (lost_all_nonneg _ Hs3).
  split_and!; [done|done|lia].
Qed.

Lemma visible_window {P : Profile} rs v body vis :
  visible rs v body = Some vis -> exists k m, vis = take k (drop m rs).
Proof.
  unfold visible. destruct (add_u64 _ _); [|done]. cbn. destruct (_ <=? _); [|done].
  intros [= <-]. eauto.
Qed.

(** ** A frame *)
Lemma wrap_i64_small x : - 2 ^ 63 <= x < 2 ^ 63 -> wrap_i64 x = x.
Proof. intros Hx. unfold wrap_i64, wrap_signed. rewrite Z.mod_small by lia. lia. Qed.
Lemma in_i64_exact {P : Profile} x : - 2 ^ 63 <= x < 2 ^ 63 -> in_i64 x = Some x.
Proof.
  intros Hx. unfold in_i64. destruct (Z.leb_spec (- 2 ^ 63) x), (Z.ltb_spec x (2 ^ 63)); [done|lia..].
Qed.

Lemma first_cycle_small {P : Profile} v vis :
  Forall span_ok vis -> Forall (fun r => start r < 2 ^ 62) vis -> Z.abs (shift v) <= 2 ^ 61 ->
  exists c, first_cycle v vis = Some c /\ 0 <= c < 2 ^ 63.
Proof.
  intros Hs Ht Hv. unfold first_cycle.
  assert (H : 0 <= default 0 (start <$> head vis) < 2 ^ 62).
  { destruct vis as [|r vis]; cbn; [lia|]. apply Forall_cons_1 in Hs as [[Hu _ _] _].
    apply Forall_cons_1 in Ht as [? _]. unfold is_u64 in Hu. lia. }
  rewrite wrap_i64_small, in_i64_exact by lia. cbn. eexists. split; [done|]. lia.
Qed.

Lemma cell_columns_range w : 0 <= w < 2 ^ 62 -> 10 <= cell_columns w < 2 ^ 62.
Proof.
  intros Hw. destruct (Z.le_gt_cases 40 w) as [H|H].
  - pose proof (layout_width w H). unfold cell_columns in *. lia.
  - destruct (layout_narrow w) as [_ ->]; lia.
Qed.

Lemma draw_rows_small {P : Profile} w c0 vis :
  0 <= w < 2 ^ 62 -> 0 <= c0 < 2 ^ 63 -> exists s, draw_rows w c0 vis = Some s.
Proof.
  intros Hw Hc. pose proof (cell_columns_range w Hw).
  induction vis as [|r vis [s IH]]; cbn [draw_rows]; [eauto|].
  unfold draw_row. rewrite !line_exact by lia. cbv zeta. rewrite IH.
  destruct (stall r || flushed r); cbn; eauto.
Qed.

Lemma frame_small {P : Profile} rs h w v :
  rows_small rs -> view_ok rs v -> size_small (h, w) -> Z.abs (shift v) <= 2 ^ 61 ->
  exists f, frame rs h w v = Some f.
Proof.
  intros Hrs Hv [Hh Hw] Hsh. cbn in Hh, Hw. pose proof (small_len rs Hrs). unfold frame.
  destruct (visible_spec rs v _ (small_some rs Hrs) Hv (body_height_pos h)) as (vis & Ev & Hne & _).
  { unfold body_height, sat_sub. lia. }
  rewrite Ev. apply visible_window in Ev as (k & m & ->).
  destruct (window_small rs m k Hrs) as (Hs & Ht & Hl). cbn [mbind option_bind].
  destruct (first_cycle_small v _ Hs Ht Hsh) as (c & -> & Hc). cbn [mbind option_bind].
  destruct (stats_exact _ Hne Hs Hl) as (ipc & hd & tp & -> & _). cbn [mbind option_bind].
  destruct (draw_rows_small w c (take k (drop m rs)) Hw Hc) as [s ->]. cbn. eauto.
Qed.

(** ** A key *)
Lemma on_key_small {P : Profile} rs h w k v inp :
  rows_small rs -> view_ok rs v -> size_small (h, w) -> Z.abs (shift v) <= 2 ^ 61 ->
  exists r, on_key rs h w k v inp = Some r /\
    forall v' s inp', r = Some (v', s, inp') -> Z.abs (shift v') <= Z.abs (shift v) + 8.
Proof.
  intros Hrs Hv [Hh Hw] Hsh. cbn in Hh, Hw. pose proof (small_len rs Hrs) as Hlen.
  assert (Htop : 0 <= top v < 2 ^ 62) by (unfold view_ok, last_row, sat_sub, n_rows in *; lia).
  assert (Hb : 1 <= body_height h < 2 ^ 62) by (unfold body_height, sat_sub; lia).
  assert (Hsearch : forall u, top u = top v -> shift u = shift v ->
    exists u', search rs u = Some u' /\ Z.abs (shift u') <= Z.abs (shift v) + 8).
  { intros u Eu Es. unfold search. destruct (String.eqb (query u) ""); [exists u; split; [done|lia]|].
    unfold add_u64. rewrite in_u64_exact by (rewrite Eu; unfold is_u64; lia). cbn [mbind option_bind].
    eexists. split; [done|]. destruct (find_label _ _ _); cbn; lia. }
  unfold on_key, add_u64. destruct k; cbv zeta; rewrite ?in_u64_exact, ?in_i64_exact by (unfold is_u64; lia);
    cbn [mbind option_bind]; try (eexists; split; [done|intros ??? [= <- <- <-]; cbn; lia]).
  - destruct (read_line inp) as [[q echo] rest].
    destruct (Hsearch (mkView (top v) (shift v) q) eq_refl eq_refl) as (u & -> & Hu). cbn.
    eexists. split; [done|]. by intros ??? [= <- <- <-].
  - destruct (Hsearch v eq_refl eq_refl) as (u & -> & Hu). cbn.
    eexists. split; [done|]. by intros ??? [= <- <- <-].
  - destruct (read_key inp) as [k rest]. eexists. split; [done|]. intros ??? [= <- <- <-]. lia.
Qed.

(** ** The loop *)
Lemma tui_loop_small {P : Profile} rs fuel size i v inp log :
  rows_small rs -> view_ok rs v -> (forall i, size_small (term_size (size i))) ->
  Z.abs (shift v) + 8 * Z.of_nat (length inp) <= 2 ^ 61 -> (length inp < fuel)%nat ->
  exists more, tui_loop rs fuel size i v inp log = Finished (log ++ more).
Proof.
  intros Hrs Hv Hsize. revert i v inp log Hv.
  induction fuel as [|fuel IH]; intros i v inp log Hv Hsh Hf; [lia|].
  cbn [tui_loop]. pose proof (Hsize i) as Hi. destruct (term_size (size i)) as [h w].
  destruct (frame_small rs h w v Hrs Hv Hi) as [f ->]; [lia|].
  pose proof (read_key_progress inp) as Hp. destruct (read_key inp) as [k inp1]. cbn in Hp.
  destruct (on_key_small rs h w k v inp1 Hrs Hv Hi ltac:(lia)) as (r & Hk & Hr). rewrite Hk.
  destruct r as [[[v1 s1] inp2]|]; [|rewrite <- app_assoc; by eexists].
  apply on_key_ok in Hk as Hk'; [|done]. destruct Hk' as [Hv1 Hle]. specialize (Hr _ _ _ eq_refl).
  assert (length inp1 < length inp)%nat by (destruct Hp as [->|]; [discriminate Hk|done]).
  destruct (IH (S i) v1 inp2 (((log ++ [Stty ["size"]]) ++ [Write f]) ++ [Write s1]) Hv1 ltac:(lia) ltac:(lia)) as [more ->].
  rewrite <- !app_assoc. by eexists.
Qed.
