(* ===== verification/Session.v ===== *)
(** * Session: what the viewer shows and does, turn by turn

    The specification of the interactive viewer, independent of its loop: the picture of a
    frame, word for word, with the cells of the legend ([RowSpec.cell]) and the header of
    [StatsSpec.header_of]; the effect of a key on the view, in unbounded integers; and a session
    as the sequence of its turns.  The loop is proved to run such sessions. *)
From S2P Require Import Prelude Fmt Str StrFacts Rvdisasm RvdisasmFields RvdisasmSpec Row Kanata KanataSpec RowSpec Stats StatsSpec Line LineSpec Keys Texts Tui TuiSpec TuiBounds.

(** ** The layout *)
Definition label_columns (w : Z) : Z := Z.min 48 (Z.max 20 (w / 3)).
Definition cycle_columns (w : Z) : Z := Z.max 10 (w - label_columns w - 10).
Definition row_lines (h : Z) : Z := Z.max 1 (h - 4).
(** a text cut to leave the last column of the terminal free *)
Definition cut (w : Z) (s : string) : string := take_chars (Z.to_nat (w - 1)) s.
Definition cursor_to (h : Z) : string := esc "[" +:+ fmt_dec h +:+ ";1H".
Definition styled (a s : string) : string := esc "[" +:+ a +:+ "m" +:+ s +:+ esc "[0m".
Definition clear : string := esc "[H" +:+ esc "[2J".

(** ** A row *)

(** the legend's colours: executing (bold), waiting on data (yellow), held by a structure (red),
    complete (dim), not placed (magenta) *)
Definition colour_classes : list (string * string) :=
  [("1", "abcdABCDMFuvlR"); ("33", "wWkymeY"); ("31", "QgrnzOILSos!"); ("2", "=xX"); ("35", "?")].
Definition painted (g : ascii) : string :=
  match find (fun c => existsb (Ascii.eqb g) (list_ascii_of_string c.2)) colour_classes with
  | Some (a, _) => styled a (char_of_u8 g)
  | None => char_of_u8 g
  end.

Definition marked_label (r : Row) : string :=
  if stall r then (if Ascii.eqb (fill r) "~" then "~~ " else "** ") +:+ label r else label r.

(** the line of a row from cycle [c0]: lost cycles in yellow, a flushed row dim, both cut;
    otherwise each cell in its own colour *)
Definition row_text (w c0 : Z) (r : Row) : string :=
  let lab := Z.to_nat (label_columns w) in
  let text paint :=
    pad_right_align 8 (fmt_dec (start r)) +:+ " "
    +:+ pad_left_align lab (take_chars lab (marked_label r)) +:+ " "
    +:+ concat_str (map (fun c => paint (cell r c)) (seqZ c0 (cycle_columns w))) in
  (if stall r then styled "33" (cut w (text char_of_u8))
   else if flushed r then styled "2" (cut w (text char_of_u8))
   else text painted) +:+ CRLF.

(** ** A frame *)
Definition in_view (rs : list Row) (h : Z) (v : view) : list Row :=
  take (Z.to_nat (row_lines h)) (drop (Z.to_nat (top v)) rs).
Definition left_cycle (rs : list Row) (h : Z) (v : view) : Z :=
  Z.max 0 (default 0 (start <$> head (in_view rs h v)) + shift v).

Definition drawn (rs : list Row) (hw : Z * Z) (v : view) (f : string) : Prop :=
  let '(h, w) := hw in
  let c0 := left_cycle rs h v in
  exists ipc head causes, header_of (in_view rs h v) ipc head causes /\
    f = clear +:+ styled "1" (cut w head) +:+ CRLF
      +:+ cut w (if String.eqb causes "" then "(no stall cycles in view)" else causes) +:+ CRLF
      +:+ styled "2" (cut w ("   cycle " +:+ pad_left_align (Z.to_nat (label_columns w)) "instruction"
            +:+ " cycles from " +:+ fmt_dec c0)) +:+ CRLF
      +:+ concat_str (map (row_text w c0) (in_view rs h v))
      +:+ cursor_to h +:+ styled "7" (cut w ("row " +:+ fmt_dec (top v) +:+ "/" +:+ fmt_dec (Z.of_nat (length rs))
            +:+ "  ? legend  arrows pg home end, left/right cycles, / search, n next, q quit"
            +:+ (if String.eqb (query v) "" then "" else "  [" +:+ query v +:+ "]"))).

(** ** The effect of a key *)
Definition holds (q : string) (r : Row) : Prop := exists a b, label r = a +:+ q +:+ b.

Section turns.
Context (rs : list Row).
Abbreviation n := (Z.of_nat (length rs)).

(** the keys that write nothing; a search is [Next] with a new query *)
Inductive moves (h : Z) : Key -> view -> view -> Prop :=
| moves_down v : moves h Down v (mkView (Z.min (top v + 1) (n - 1)) 0 (query v))
| moves_up v : moves h Up v (mkView (Z.max (top v - 1) 0) 0 (query v))
| moves_page_down v : moves h PgDn v (mkView (Z.min (top v + row_lines h) (n - 1)) 0 (query v))
| moves_page_up v : moves h PgUp v (mkView (Z.max (top v - row_lines h) 0) 0 (query v))
| moves_home v : moves h Home v (mkView 0 0 (query v))
| moves_end v : moves h End_ v (mkView (Z.max (n - row_lines h) 0) 0 (query v))
| moves_right v : moves h Right v (mkView (top v) (shift v + 8) (query v))
| moves_left v : moves h Left v (mkView (top v) (shift v - 8) (query v))
| moves_other v : moves h Other v v
| moves_no_query v : query v = "" -> moves h Next v v
| moves_next v j r :
    query v <> "" -> top v < Z.of_nat j -> rs !! j = Some r -> holds (query v) r ->
    (forall i r', top v < Z.of_nat i < Z.of_nat j -> rs !! i = Some r' -> ~ holds (query v) r') ->
    moves h Next v (mkView (Z.of_nat j) 0 (query v))
| moves_no_match v :
    query v <> "" -> (forall i r', top v < Z.of_nat i -> rs !! i = Some r' -> ~ holds (query v) r') ->
    moves h Next v v.

Definition search_prompt (h : Z) (echo : string) : string :=
  cursor_to h +:+ esc "[2K/" +:+ esc "[?25h" +:+ echo +:+ esc "[?25l".
Definition legend_picture (h w : Z) : string :=
  clear +:+ concat_str (map (fun l => cut w l +:+ CRLF) (take (Z.to_nat (h - 2)) LEGEND_lines))
  +:+ cursor_to h +:+ styled "7" (cut w "any key returns").

(** the key [k], the view and the unread input before; the view, what is written and the unread
    input after.  A search reads a line, the legend stays until a key. *)
Inductive turn (h w : Z) : Key -> view -> input -> view -> string -> input -> Prop :=
| turn_move k v v' inp : moves h k v v' -> turn h w k v inp v' "" inp
| turn_search v v' inp q echo rest :
    read_line inp = (q, echo, rest) -> moves h Next (mkView (top v) (shift v) q) v' ->
    turn h w Search v inp v' (search_prompt h echo) rest
| turn_legend v inp k rest :
    keyed inp k rest -> turn h w Legend v inp v (legend_picture h w) rest.

(** a session from turn [i]: ask for the window's size, draw, read a key, answer it, until it
    is [Quit] *)
Inductive session (size : nat -> option string) : nat -> view -> input -> list io -> Prop :=
| session_quit i v inp rest f :
    drawn rs (term_size (size i)) v f -> keyed inp Quit rest ->
    session size i v inp [Stty ["size"]; Write f]
| session_turn i v inp f k rest v' s rest' log :
    drawn rs (term_size (size i)) v f -> keyed inp k rest ->
    turn (term_size (size i)).1 (term_size (size i)).2 k v rest v' s rest' ->
    session size (S i) v' rest' log ->
    session size i v inp (Stty ["size"] :: Write f :: Write s :: log).
End turns.

(** ** The layout is the viewer's *)
Lemma label_columns_eq w : label_width w = label_columns w.
Proof.
  unfold label_width, clamp, label_columns. generalize (w / 3). intros x.
  destruct (Z.ltb_spec x 20); [lia|]. destruct (Z.ltb_spec 48 x); lia.
Qed.
Lemma cycle_columns_eq w : cell_columns w = cycle_columns w.
Proof. unfold cell_columns, cycle_columns, sat_sub. rewrite label_columns_eq. lia. Qed.
Lemma row_lines_eq h : body_height h = row_lines h.
Proof. unfold body_height, row_lines, sat_sub. lia. Qed.
Lemma cut_eq w s : clip w s = cut w s.
Proof. unfold clip, cut, sat_sub. f_equal. lia. Qed.

Lemma visible_in_view {P : Profile} rs h v :
  view_ok rs v -> n_rows rs + body_height h <= 2 ^ 64 -> rs <> [] ->
  visible rs v (body_height h) = Some (in_view rs h v) /\ in_view rs h v <> [].
Proof.
  intros Hv Hn Hrs. pose proof (body_height_pos h) as Hb.
  assert (0 < length rs)%nat by (destruct rs; cbn; [done|lia]).
  destruct (visible_spec rs v _ Hrs Hv Hb Hn) as (vis & Ev & Hne & Hlen & _).
  assert (vis = in_view rs h v) as <-; [|done].
  unfold visible, in_view in *. destruct (add_u64 _ _) as [e|] eqn:Ee; [|done].
  cbn [mbind option_bind] in Ev. destruct (_ <=? _); [|done]. injection Ev as <-.
  rewrite row_lines_eq in *. unfold view_ok, last_row, sat_sub, n_rows, is_u64 in *.
  unfold add_u64 in Ee. rewrite in_u64_exact in Ee by (unfold is_u64; lia). injection Ee as <-.
  destruct (Z.le_gt_cases (top v + row_lines h) (Z.of_nat (length rs))).
  - f_equal. lia.
  - rewrite !take_ge; [done|rewrite length_drop; lia..].
Qed.

(** ** The lines are the viewer's *)
Lemma sgr_classes g :
  sgr g = match find (fun c => existsb (Ascii.eqb g) (list_ascii_of_string c.2)) colour_classes with
          | Some (a, _) => a | None => "" end.
Proof. by destruct g as [[][][][][][][][]]. Qed.

Lemma render_painted r g : stall r = false -> render_cell true r g = painted g.
Proof.
  intros Hr. unfold render_cell, painted. rewrite Hr. cbn [andb negb]. rewrite sgr_classes.
  destruct (find _ colour_classes) as [[a l]|] eqn:E; [|done].
  destruct (String.eqb_spec a "") as [->|_].
  - apply find_some in E as [Hin _]. by repeat (destruct Hin as [Hin|Hin]; [done|]).
  - unfold styled, sgr_on, esc. by rewrite !string_app_assoc.
Qed.
Lemma render_plain r g : render_cell false r g = char_of_u8 g.
Proof. done. Qed.

Lemma row_label_marked r : row_label r = marked_label r.
Proof. unfold row_label, marked_label. destruct (stall r); [|done]. by destruct (Ascii.eqb _ _). Qed.

Lemma cells_painted colour r c0 (m : Z) paint :
  stages_ok r -> 0 <= m -> (forall g, render_cell colour r g = paint g) ->
  cells colour r c0 (Z.to_nat m) = concat_str (map (fun c => paint (cell r c)) (seqZ c0 m)).
Proof.
  intros Hr Hm Hp. unfold cells, seqZ. f_equal.
  change ((fun i : nat => Z.of_nat i + c0) <$> seq 0 (Z.to_nat m))
    with (map (fun i : nat => Z.of_nat i + c0) (seq 0 (Z.to_nat m))).
  rewrite map_map. apply map_ext. intros k. rewrite Hp, glyph_at_cell_ok by done. do 2 f_equal. lia.
Qed.

Lemma draw_row_text {P : Profile} w c0 r :
  stages_ok r -> 0 <= c0 -> c0 + cycle_columns w <= 2 ^ 64 -> draw_row w c0 r = Some (row_text w c0 r).
Proof.
  intros Hr Hc Hw. assert (Hm : 0 <= cycle_columns w) by (unfold cycle_columns; lia).
  unfold draw_row, row_text. rewrite label_columns_eq, cycle_columns_eq, !line_exact by lia. cbv zeta.
  rewrite (cells_painted false r c0 _ char_of_u8), row_label_marked by done.
  destruct (stall r) eqn:Hst; [|destruct (flushed r)]; cbn [orb mbind option_bind];
    rewrite ?cut_eq; unfold styled; rewrite ?string_app_assoc; [done..|].
  by rewrite (cells_painted true r c0 _ painted) by (first [done|intros g; by apply render_painted]).
Qed.

Lemma draw_rows_text {P : Profile} w c0 vis :
  Forall stages_ok vis -> 0 <= c0 -> c0 + cycle_columns w <= 2 ^ 64 ->
  draw_rows w c0 vis = Some (concat_str (map (row_text w c0) vis)).
Proof.
  intros Hvis Hc Hw. induction Hvis as [|r vis Hr _ IH]; [done|].
  cbn [draw_rows]. by rewrite draw_row_text, IH.
Qed.

(** ** A frame is the picture *)
Lemma first_cycle_left {P : Profile} rs h v :
  rows_small rs -> Z.abs (shift v) <= 2 ^ 61 ->
  first_cycle v (in_view rs h v) = Some (left_cycle rs h v) /\ 0 <= left_cycle rs h v < 2 ^ 63.
Proof.
  intros Hrs Hsh. destruct (window_small rs (Z.to_nat (top v)) (Z.to_nat (row_lines h)) Hrs) as (Hs & Ht & _).
  fold (in_view rs h v) in Hs, Ht. unfold first_cycle, left_cycle.
  assert (H : 0 <= default 0 (start <$> head (in_view rs h v)) < 2 ^ 62).
  { destruct (in_view rs h v) as [|r vis]; cbn; [lia|]. apply Forall_cons_1 in Hs as [[Hu _ _] _].
    apply Forall_cons_1 in Ht as [? _]. unfold is_u64 in Hu. lia. }
  rewrite wrap_i64_small, in_i64_exact by lia. cbn [mbind option_bind]. split; [f_equal|]; lia.
Qed.

Lemma frame_drawn {P : Profile} rs h w v :
  rows_small rs -> Forall stages_ok rs -> view_ok rs v -> size_small (h, w) -> Z.abs (shift v) <= 2 ^ 61 ->
  exists f, frame rs h w v = Some f /\ drawn rs (h, w) v f.
Proof.
  intros Hrs Hst Hv [Hh Hw] Hsh. cbn in Hh, Hw. pose proof (small_len rs Hrs). unfold frame, drawn.
  destruct (visible_in_view rs h v Hv ltac:(unfold body_height, sat_sub; lia) (small_some rs Hrs)) as [-> Hne].
  cbn [mbind option_bind]. destruct (first_cycle_left rs h v Hrs Hsh) as [-> Hc]. cbn [mbind option_bind].
  destruct (window_small rs (Z.to_nat (top v)) (Z.to_nat (row_lines h)) Hrs) as (Hs & _ & Hl).
  destruct (stats_exact (in_view rs h v) Hne Hs Hl) as (ipc & hd & causes & -> & Hhead).
  cbn [mbind option_bind]. pose proof (cell_columns_range w Hw) as Hcc. rewrite cycle_columns_eq in Hcc.
  rewrite draw_rows_text by (first [lia|by apply Forall_take, Forall_drop]).
  eexists. split; [reflexivity|]. exists ipc, hd, causes. split; [done|].
  unfold clear, styled, cursor_to, goto_row, status, n_rows. rewrite !cut_eq, label_columns_eq.
  by rewrite !string_app_assoc.
Qed.

(** ** A key takes the turn *)
Lemma not_holds q r : contains q (label r) = false -> ~ holds q r.
Proof.
  intros Hc Hh. assert (contains q (label r) = true) by by apply contains_spec. by rewrite Hc in H.
Qed.

Lemma search_moves {P : Profile} rs h v :
  view_ok rs v -> n_rows rs < 2 ^ 63 ->
  exists v', search rs v = Some v' /\ moves rs h Next v v'.
Proof.
  intros Hv Hn. destruct (String.eqb_spec (query v) "") as [Hq|Hq].
  { exists v. split; [|by constructor]. unfold search. by rewrite Hq. }
  destruct (search_exact rs v Hv Hn Hq) as (v' & -> & [(j & r & a & b & -> & Hj & Hr & Hl & Hno)|[-> Hno]]).
  - eexists. split; [done|]. eapply moves_next; [done|done|done|by exists a, b|].
    intros i r' Hi Hr'. by eapply not_holds, Hno.
  - eexists. split; [done|]. apply moves_no_match; [done|].
    intros i r' Hi Hr'. by eapply not_holds, Hno.
Qed.

Lemma legend_lines : lines LEGEND = LEGEND_lines.
Proof. vm_compute. reflexivity. Qed.

Lemma legend_screen_picture h w : legend_screen h w = legend_picture h w.
Proof.
  unfold legend_screen, legend_picture, clear, styled, cursor_to, goto_row. rewrite legend_lines, cut_eq.
  rewrite (map_ext _ (fun l => cut w l +:+ CRLF)) by (intros l; by rewrite cut_eq).
  replace (Z.to_nat (sat_sub h 2)) with (Z.to_nat (h - 2)) by (unfold sat_sub; lia).
  by rewrite !string_app_assoc.
Qed.

Lemma on_key_turn {P : Profile} rs h w k v inp :
  rows_small rs -> view_ok rs v -> size_small (h, w) -> Z.abs (shift v) <= 2 ^ 61 ->
  match on_key rs h w k v inp with
  | None => False
  | Some None => k = Quit
  | Some (Some (v', s, inp')) => turn rs h w k v inp v' s inp'
  end.
Proof.
  intros Hrs Hv [Hh Hw] Hsh. cbn in Hh, Hw. pose proof (small_len rs Hrs) as Hlen.
  assert (Htop : 0 <= top v < 2 ^ 62) by (unfold view_ok, last_row, sat_sub, n_rows in *; lia).
  assert (Hb : 1 <= body_height h < 2 ^ 62) by (unfold body_height, sat_sub; lia).
  assert (Hne : 0 < Z.of_nat (length rs)) 
    by (pose proof (small_some rs Hrs); destruct rs; [done|cbn; lia]).
  assert (Hmove : forall t t' u, t = t' -> turn rs h w k v inp (mkView t' 0 (query v)) u inp ->
    turn rs h w k v inp (mkView t 0 (query v)) u inp) by by intros t t' u ->.
  unfold on_key, add_u64. destruct k; cbv zeta; rewrite ?in_u64_exact, ?in_i64_exact by (unfold is_u64; lia);
    cbn [mbind option_bind]; rewrite ?row_lines_eq.
  1-8: try (apply turn_move; by constructor).
  - eapply Hmove; [|apply turn_move; constructor]. unfold last_row, sat_sub, n_rows. lia.
  - eapply Hmove; [|apply turn_move; constructor]. unfold last_row, sat_sub, n_rows. lia.
  - destruct (read_line inp) as [[q echo] rest] eqn:El.
    destruct (search_moves rs h (mkView (top v) (shift v) q) Hv ltac:(lia)) as (u & -> & Hu). cbn [mbind option_bind].
    unfold goto_row. by eapply (turn_search rs h w v u inp q echo rest).
  - destruct (search_moves rs h v Hv ltac:(lia)) as (u & -> & Hu). cbn [mbind option_bind]. by apply turn_move.
  - destruct (read_key inp) as [k rest] eqn:Ek. rewrite legend_screen_picture.
    eapply turn_legend. by apply read_key_keyed.
  - done.
  - apply turn_move. constructor.
Qed.

(** ** The loop runs a session *)
Lemma tui_loop_session {P : Profile} rs fuel size i v inp log :
  rows_small rs -> Forall stages_ok rs -> view_ok rs v -> (forall i, size_small (term_size (size i))) ->
  Z.abs (shift v) + 8 * Z.of_nat (length inp) <= 2 ^ 61 -> (length inp < fuel)%nat ->
  exists more, tui_loop rs fuel size i v inp log = Finished (log ++ more) /\ session rs size i v inp more.
Proof.
  intros Hrs Hst Hv Hsize. revert i v inp log Hv.
  induction fuel as [|fuel IH]; intros i v inp log Hv Hsh Hf; [lia|].
  cbn [tui_loop]. pose proof (Hsize i) as Hi. destruct (term_size (size i)) as [h w] eqn:Et.
  destruct (frame_drawn rs h w v Hrs Hst Hv Hi ltac:(lia)) as (f & -> & Hd). rewrite <- Et in Hd.
  pose proof (read_key_progress inp) as Hp. destruct (read_key inp) as [k inp1] eqn:Ek. cbn in Hp.
  apply read_key_keyed in Ek.
  pose proof (on_key_turn rs h w k v inp1 Hrs Hv Hi ltac:(lia)) as Ht.
  destruct (on_key_small rs h w k v inp1 Hrs Hv Hi ltac:(lia)) as (r & Hk & Hr). rewrite Hk in Ht |- *.
  destruct r as [[[v1 s1] inp2]|].
  2: { subst k. rewrite <- app_assoc. eexists. split; [done|]. by eapply session_quit. }
  apply on_key_ok in Hk as Hk'; [|done]. destruct Hk' as [Hv1 Hle]. specialize (Hr _ _ _ eq_refl).
  assert (length inp1 < length inp)%nat by (destruct Hp as [->|]; [inversion Ht; by inversion H|done]).
  destruct (IH (S i) v1 inp2 (((log ++ [Stty ["size"]]) ++ [Write f]) ++ [Write s1]) Hv1 ltac:(lia) ltac:(lia))
    as (more & -> & Hs).
  rewrite <- !app_assoc. eexists. split; [done|]. eapply session_turn; [done|done| |done]. by rewrite Et.
Qed.
