(* ===== verification/MainSpec.v ===== *)
(** * MainSpec: where the command line ends *)
From S2P Require Import Prelude Fmt Str StrFacts Rvdisasm RvdisasmFields RvdisasmSpec Row Kanata KanataSpec RowSpec Stats StatsSpec Line LineSpec Keys Texts Tui TuiSpec Main.

Lemma text_rows_release first v : exists s, @text_rows Release first v = Some s.
Proof.
  induction v as [|r v [s IH]]; cbn [text_rows]; [eauto|].
  destruct (line_release r 44 first 110 false) as [l ->]. rewrite IH. cbn. eauto.
Qed.

Lemma text_view_release rs n : exists s, @text_view Release rs n = Some s.
Proof.
  unfold text_view. match goal with |- context [stats ?v] => destruct (stats_release v) as [[h c] ->] end.
  cbn [mbind option_bind].
  match goal with |- context [text_rows ?f ?v] => destruct (text_rows_release f v) as [s ->] end.
  cbn. eauto.
Qed.

(** the program panics, in [main] or in the viewer, or its loop is cut short by the fuel: every
    outcome but an exit and a viewer that finishes *)
Definition crashed (o : outcome) : bool :=
  match o with
  | Exit _ _ _ | Interactive _ (Finished _) => false
  | Interactive _ (Panicked _) | Interactive _ OutOfFuel | Panic => true
  end.

(** windows and files that a machine can have *)
Record possible {E} (wd : world E) : Prop := {
  possible_window i : (term_size (size wd i)).1 <= 2 ^ 63;
  possible_file path ls : files wd path = Ok ls -> Z.of_nat (length ls) <= 2 ^ 63
}.

Lemma tui_finishes_release rs settings size inp :
  rs <> [] -> size_ok rs size ->
  exists log, @tui Release rs (S (length inp)) settings size inp = Finished log.
Proof.
  intros Hrs Hsize.
  destruct (tui_loop_release rs (S (length inp)) size 0 (mkView 0 0 "") inp enter_screen Hrs
    (view_init_ok rs) Hsize ltac:(lia)) as [more Hm].
  eexists. by apply tui_session.
Qed.

Lemma main_rows_release {E} (wd : world E) o warning rs :
  rs <> [] -> size_ok rs (size wd) -> crashed (@main_rows Release E wd o warning rs) = false.
Proof.
  intros Hrs Hsize. unfold main_rows. destruct (text_mode o).
  - by destruct (text_view_release rs (limit o)) as [s ->].
  - by destruct (tui_finishes_release rs (settings wd) (size wd) (keys wd) Hrs Hsize) as [log ->].
Qed.

Lemma load_size_ok {P : Profile} {E} (wd : world E) out path rs :
  possible wd -> load out (files wd path) = Some (Ok rs) -> size_ok rs (size wd).
Proof.
  intros [Hw Hf] Hl i. specialize (Hw i). unfold n_rows.
  destruct (files wd path) as [ls|e] eqn:Ef.
  - specialize (Hf path ls Ef). apply load_length in Hl. unfold body_height, sat_sub. lia.
  - unfold load in Hl. by destruct (match out with Some _ => _ | None => _ end).
Qed.

(** a release build panics exactly when no argument names a file *)
Lemma main_release {E} (wd : world E) args :
  possible wd ->
  crashed (@main Release E wd args) = true <->
  wants_help args = false /\ positional (parse_args args) = [].
Proof.
  intros Hp. unfold main. destruct (wants_help args); [split; [done|by intros [? _]]|].
  destruct (positional (parse_args args)) as [|path rest]; [done|].
  destruct (load_release (objdump wd <$> hd_error rest) (files wd path)) as [r Hr]. rewrite Hr.
  split; [|by intros [_ ?]]. destruct r as [[|r rs]|e]; try done.
  rewrite main_rows_release; [done|done|]. by eapply load_size_ok.
Qed.

(** ** The arguments *)
Lemma parse_args_plain args :
  text_position args = None ->
  parse_args args = mkOptions false 60 (filter (fun a => starts_with "--" a = false) args).
Proof. unfold parse_args. by intros ->. Qed.

(** a count after [--text] removes every positional argument that is a number *)
Lemma parse_args_count args t a v :
  text_position args = Some t -> args !! S t = Some a -> parse_u64 a = Some v ->
  parse_args args =
    mkOptions true v (filter (fun a => parse_u64 a = None /\ starts_with "--" a = false) args).
Proof.
  unfold parse_args. intros -> Ha Hv. cbn. rewrite Ha. cbn. rewrite Hv.
  by rewrite list_filter_filter.
Qed.

Lemma text_position_at pre post :
  Forall (fun a => a <> "--text") pre -> text_position (pre ++ "--text" :: post) = Some (length pre).
Proof.
  induction 1 as [|a pre Ha _ IH]; [done|]. cbn.
  destruct (String.eqb_spec a "--text"); [done|]. by rewrite IH.
Qed.
