(* ===== verification/TraceView.v ===== *)
(** * TraceView: the viewer on the rows of a trace

    The rows read from a settled trace meet the viewer's conditions, so the parts compose: the
    reader's rows go through the header, the lines and the loop without a panic in either
    build profile, and the loop shows them in a session of [Session]. *)
From S2P Require Import Prelude Fmt Str StrFacts Rvdisasm RvdisasmFields RvdisasmSpec Row Kanata KanataSpec RowSpec KanataTrace KanataRead Stats StatsSpec Line LineSpec Keys Texts Tui TuiSpec TuiBounds Session Main MainSpec.

(** a settled trace with a row, whose rows and cycles are not astronomically many *)
Record trace_small (t : list command) : Prop := {
  tsm_wf : trace_wf t;
  tsm_settled : trace_settled t;
  tsm_open : opened t <> [];
  tsm_cycles : Z.of_nat (length (opened t)) * (ticks t + 1) < 2 ^ 62
}.

Lemma row_ok_start c r : 0 <= c -> row_ok c r -> 0 <= start r <= c.
Proof.
  intros Hc [_ Hs _]. unfold start. destruct (stages r) as [|s l]; cbn; [lia|].
  by apply Forall_cons_1 in Hs as [? _].
Qed.

Lemma row_ok_lost c r : 0 <= c -> row_ok c r -> lost r <= c.
Proof.
  intros Hc Hr. pose proof (row_ok_start c r Hc Hr). unfold lost. destruct (stalled r); [|done].
  destruct Hr as [_ _ He]. destruct (row_end r) as [e|]; cbn; [specialize (He e eq_refl)|]; lia.
Qed.

Lemma lost_all_bound c rs : 0 <= c -> Forall (row_ok c) rs -> lost_all rs <= Z.of_nat (length rs) * c.
Proof.
  intros Hc. unfold lost_all. induction 1 as [|r rs Hr _ IH]; cbn [map sum length]; [lia|].
  pose proof (row_ok_lost c r Hc Hr). lia.
Qed.

Lemma trace_rows_ok table t : trace_wf t -> Forall (row_ok (ticks t)) (trace_rows table t).
Proof.
  intros Ht. apply Forall_forall. intros r Hr.
  apply list_elem_of_fmap in Hr as (id & -> & _). by apply row_of_ok.
Qed.

Lemma trace_rows_span table t : trace_wf t -> trace_settled t -> Forall span_ok (trace_rows table t).
Proof.
  intros Ht Hs. apply Forall_forall. intros r Hr.
  apply list_elem_of_fmap in Hr as (id & -> & _).
  apply stages_ok_span; [|by apply row_of_stages_ok].
  eapply row_ok_mono; [|by apply row_of_ok].
  destruct Ht as [|t e _ _ Hu]; unfold is_u64, u64_max in *; [done|lia].
Qed.

Lemma trace_rows_small table t : trace_small t -> rows_small (trace_rows table t).
Proof.
  intros [Ht Hs Ho Hc]. pose proof (ticks_nonneg t Ht) as Hk.
  assert (Hlen : (1 <= length (opened t))%nat) by (destruct (opened t); [done|cbn; lia]).
  pose proof (trace_rows_ok table t Ht) as Hok.
  split.
  - unfold trace_rows. by destruct (opened t).
  - by apply trace_rows_span.
  - eapply Forall_impl; [exact Hok|]. cbn. intros r Hr. pose proof (row_ok_start _ r Hk Hr). nia.
  - pose proof (lost_all_bound _ _ Hk Hok) as Hl. rewrite trace_rows_length in Hl. nia.
  - unfold n_rows. rewrite trace_rows_length. nia.
Qed.

Lemma trace_rows_stages table t : trace_wf t -> trace_settled t -> Forall stages_ok (trace_rows table t).
Proof.
  intros Ht Hs. apply Forall_forall. intros r Hr.
  apply list_elem_of_fmap in Hr as (id & -> & _). by apply row_of_stages_ok.
Qed.

(** a trace is named by an argument that is neither an option nor a request for help *)
Definition file_name (path : string) : Prop := starts_with "--" path = false /\ path <> "-h".

Lemma parse_args_path path :
  file_name path -> wants_help [path] = false /\ parse_args [path] = mkOptions false 60 [path].
Proof.
  intros [Hp Hh].
  assert (path <> "--help") by (intros ->; done). assert (Ht : path <> "--text") by (intros ->; done).
  split.
  - unfold wants_help. cbn. apply String.eqb_neq in Hh as ->. by apply String.eqb_neq in H as ->.
  - rewrite parse_args_plain.
    + by rewrite filter_cons_True.
    + cbn. by apply String.eqb_neq in Ht as ->.
Qed.

Lemma main_trace {P : Profile} {E} (wd : world E) path t :
  file_name path -> files wd path = Ok (map Ok (lines (trace_text t))) -> trace_small t ->
  (forall i, size_small (term_size (size wd i))) -> Z.of_nat (length (keys wd)) <= 2 ^ 50 ->
  exists frames, main wd [path] =
    Interactive "" (Finished (enter_screen ++ frames ++ leave_screen (settings wd))) /\
    session (trace_rows ∅ t) (size wd) 0 (mkView 0 0 "") (keys wd) frames.
Proof.
  intros Hp Hf Ht Hsize Hk. destruct (parse_args_path path Hp) as [Hh Ha].
  pose proof (trace_rows_small ∅ t Ht) as Hsm.
  destruct (tui_loop_session (trace_rows ∅ t) (S (length (keys wd))) (size wd) 0 (mkView 0 0 "") (keys wd)
    enter_screen Hsm (trace_rows_stages ∅ t (tsm_wf t Ht) (tsm_settled t Ht)) (view_init_ok _) Hsize
    ltac:(cbn [shift]; lia) ltac:(lia)) as (more & Hm & Hsession).
  exists more. split; [|done]. unfold main. rewrite Hh, Ha. cbn [positional hd_error]. rewrite Hf.
  unfold load. cbn [fmap option_fmap option_map mbind option_bind].
  rewrite (load_lines_trace ∅ t (tsm_wf t Ht)).
  destruct (trace_rows ∅ t) as [|r rs] eqn:Er; [by destruct (small_some _ Hsm)|].
  unfold main_rows. cbn [text_mode]. f_equal. by apply tui_session.
Qed.

(** ** Files named by numbers *)
Lemma filter_numbers args :
  (forall a, a ∈ args -> starts_with "--" a = true \/ parse_u64 a <> None) ->
  filter (fun a => parse_u64 a = None /\ starts_with "--" a = false) args = [].
Proof.
  intros H. apply filter_none, Forall_forall. intros a Ha [Hn Hs].
  destruct (H a Ha) as [E|E]; [by rewrite E in Hs|done].
Qed.

Lemma main_numbers {P : Profile} {E} (wd : world E) args t a v :
  wants_help args = false ->
  text_position args = Some t -> args !! S t = Some a -> parse_u64 a = Some v ->
  (forall x, x ∈ args -> starts_with "--" x = true \/ parse_u64 x <> None) ->
  main wd args = Panic.
Proof.
  intros Hh Ht Ha Hv Hx. unfold main. rewrite Hh, (parse_args_count args t a v Ht Ha Hv).
  cbn [positional]. by rewrite filter_numbers.
Qed.
