(* ===== verification/KbdSpec.v ===== *)
(** * KbdSpec: the keyboard vectors, for any key tables *)
From S2P Require Import Prelude Fmt Str StrFacts Kbd.

(** ** The bitmap *)
Definition code_ok (c : Z) : Prop := 0 <= c < 128.
Definition is_byte (b : Z) : Prop := 0 <= b < 256.

(** bit [c] of the map: bit [c mod 8] of byte [c / 8] *)
Definition bit (bits : list Z) (c : Z) : bool :=
  Z.testbit (default 0 (bits !! Z.to_nat (c / 8))) (c mod 8).

Lemma lor_byte a k : is_byte a -> 0 <= k < 8 -> is_byte (Z.lor a (Z.shiftl 1 k)).
Proof.
  unfold is_byte. intros Ha Hk. rewrite Z.shiftl_1_l. split.
  - apply Z.lor_nonneg. lia.
  - assert (E : (Z.lor a (2 ^ k)) / 2 ^ 8 = 0).
    { rewrite <- Z.shiftr_div_pow2, Z.shiftr_lor, !Z.shiftr_div_pow2 by lia.
      rewrite (Z.div_small a), (Z.div_small (2 ^ k)) by first [lia | split; [lia|apply Z.pow_lt_mono_r; lia]].
      done. }
    apply Z.div_small_iff in E; lia.
Qed.

Lemma set_bit_spec bits c :
  length bits = 16%nat -> Forall is_byte bits -> code_ok c ->
  exists bits', set_bit bits c = Some bits' /\ length bits' = 16%nat /\ Forall is_byte bits' /\
    forall d, code_ok d -> bit bits' d = (c =? d) || bit bits d.
Proof.
  unfold code_ok. intros Hlen Hb Hc.
  pose proof (Z.mod_pos_bound c 8 ltac:(lia)). pose proof (Z.div_mod c 8 ltac:(lia)).
  assert (Hi : (Z.to_nat (c / 8) < length bits)%nat) by lia.
  unfold set_bit. destruct (lookup_lt_is_Some_2 bits _ Hi) as [b Eb]. rewrite Eb. cbn.
  eexists. split; [done|]. split_and!.
  - by rewrite length_insert.
  - apply Forall_insert; [done|]. apply lor_byte; [|lia]. by eapply Forall_lookup_1.
  - intros d Hd. unfold bit.
    pose proof (Z.mod_pos_bound d 8 ltac:(lia)). pose proof (Z.div_mod d 8 ltac:(lia)).
    destruct (decide (d / 8 = c / 8)) as [E|Hne].
    + rewrite E, list_lookup_insert_eq, Eb by done. cbn [default from_option id].
      rewrite Z.lor_spec, Z.shiftl_spec, orb_comm by lia.
      f_equal. destruct (Z.eqb_spec c d) as [->|Hcd].
      * by rewrite Z.sub_diag.
      * destruct (decide (d mod 8 < c mod 8)); [by rewrite Z.testbit_neg_r by lia|].
        destruct (d mod 8 - c mod 8) as [|p|p] eqn:Ep; [lia| |lia]. by destruct p.
    + rewrite list_lookup_insert_ne by lia. destruct (Z.eqb_spec c d) as [->|]; done.
Qed.

Lemma set_bits_spec codes bits :
  length bits = 16%nat -> Forall is_byte bits -> Forall code_ok codes ->
  exists bits', set_bits bits codes = Some bits' /\ length bits' = 16%nat /\ Forall is_byte bits' /\
    forall d, code_ok d -> bit bits' d = existsb (Z.eqb d) codes || bit bits d.
Proof.
  intros Hlen Hb Hc. revert bits Hlen Hb. induction Hc as [|c codes Hc _ IH]; intros bits Hlen Hb.
  { by exists bits. }
  cbn [set_bits]. destruct (set_bit_spec bits c Hlen Hb Hc) as (b1 & -> & Hl1 & Hb1 & H1).
  cbn. destruct (IH b1 Hl1 Hb1) as (b2 & -> & Hl2 & Hb2 & H2). exists b2. split_and!; [done..|].
  intros d Hd. rewrite H2, H1 by done. rewrite (Z.eqb_sym c d). cbn.
  by destruct (d =? c), (existsb (Z.eqb d) codes).
Qed.

(** a code past the array's end panics *)
Lemma set_bits_panic codes bits c :
  length bits = 16%nat -> Forall (fun c => 0 <= c) codes -> c ∈ codes -> 128 <= c -> set_bits bits codes = None.
Proof.
  intros Hlen Hp Hin Hc. revert bits Hlen.
  induction Hp as [|c' codes Hc' Hp IH]; intros bits Hlen; [by apply not_elem_of_nil in Hin|].
  cbn [set_bits]. unfold set_bit.
  destruct (bits !! Z.to_nat (c' / 8)) as [b|] eqn:Eb; [|done]. cbn.
  apply elem_of_cons in Hin as [->|Hin].
  - apply lookup_lt_Some in Eb. pose proof (Z.div_le_lower_bound c' 8 16 ltac:(lia)). lia.
  - apply IH; [done|]. by rewrite length_insert.
Qed.

Lemma zeros_ok : length (repeat 0 16) = 16%nat /\ Forall is_byte (repeat 0 16).
Proof. split; [done|]. repeat constructor; done. Qed.

(** ** The hexadecimal of a sequence *)

(** two digits for each byte *)
Fixpoint unhex (s : string) : option string :=
  match s with
  | "" => Some ""
  | String a (String b s) =>
      h ← from_str_radix 255 16 (String a (String b ""));
      r ← unhex s;
      Some (String (ascii_of_Z h) r)
  | _ => None
  end.

Lemma byte_hex_digits b : is_byte b -> exists c d, fmt_hex_zero 2 b = String c (String d "").
Proof.
  intros Hb. assert (Hl : String.length (fmt_hex_zero 2 b) = 2%nat)
    by (apply fmt_hex_zero_length; unfold is_byte in *; lia).
  destruct (fmt_hex_zero 2 b) as [|c [|d [|e s]]]; try done. eauto.
Qed.

Lemma Z_of_ascii_byte c : is_byte (Z_of_ascii c).
Proof. unfold is_byte, Z_of_ascii. pose proof (N_ascii_bounded c). lia. Qed.

Lemma unhex_hex s : unhex (hex s) = Some s.
Proof.
  unfold hex. induction s as [|c s IH]; [done|]. cbn [list_ascii_of_string map concat_str].
  pose proof (Z_of_ascii_byte c) as Hc.
  destruct (byte_hex_digits _ Hc) as (a & b & E).
  pose proof (from_str_radix_hex_zero 255 2 (Z_of_ascii c) ltac:(unfold is_byte in Hc; lia)) as H.
  rewrite E in *. change (String a (String b "") +:+ ?t) with (String a (String b t)).
  cbn [unhex]. rewrite H. cbn [mbind option_bind]. rewrite IH. cbn [mbind option_bind].
  unfold ascii_of_Z, Z_of_ascii. by rewrite N2Z.id, ascii_N_embedding.
Qed.

(** ** The lines *)
Lemma byte_lines_spec translate bs :
  (forall b, b ∈ bs -> b <> 0x1b -> (length (translate (bytes [b])) <= 1)%nat) ->
  exists ls, byte_lines translate bs = Some ls /\
    length ls = length (filter (fun b => b <> 0x1b) bs).
Proof.
  induction bs as [|b bs IH]; intros Hk; [by exists []|]. cbn [byte_lines].
  destruct IH as (ls & El & Hl); [intros b' ?; apply Hk; by right|].
  destruct (Z.eqb_spec b 0x1b) as [->|Hne].
  - exists ls. rewrite filter_cons_False by auto. done.
  - specialize (Hk b ltac:(left) Hne). unfold byte_line.
    rewrite filter_cons_True by done. cbn [length].
    destruct (translate (bytes [b])) as [|[code mods] [|]]; cbn in Hk; [| |lia];
      cbn [mbind option_bind]; rewrite El; cbn [mbind option_bind]; eexists; (split; [done|]); cbn; lia.
Qed.

Lemma byte_lines_panic translate bs b :
  b ∈ bs -> b <> 0x1b -> (2 <= length (translate (bytes [b])))%nat -> byte_lines translate bs = None.
Proof.
  induction bs as [|b' bs IH]; intros Hin Hb Hl; [by apply not_elem_of_nil in Hin|]. cbn [byte_lines].
  apply elem_of_cons in Hin as [<-|Hin].
  - destruct (Z.eqb_spec b 0x1b); [done|]. unfold byte_line.
    destruct (translate (bytes [b])) as [|[? ?] [|]]; cbn in Hl; [lia|lia|done].
  - rewrite IH by done. destruct (b' =? 0x1b); [done|]. by destruct (byte_line _ _).
Qed.

Lemma bit_zeros c : bit (repeat 0 16) c = false.
Proof.
  unfold bit. destruct (repeat 0 16 !! Z.to_nat (c / 8)) as [b|] eqn:E; [|apply Z.bits_0].
  apply list_elem_of_lookup_2, list_elem_of_In, repeat_spec in E as ->. apply Z.bits_0.
Qed.

Lemma hid_codes_elem hid c :
  existsb (Z.eqb c) (hid_codes hid) = true <-> exists u, 0 <= u < 256 /\ hid u = Some c.
Proof.
  rewrite existsb_exists. unfold hid_codes. split.
  - intros (c' & Hin & ->%Z.eqb_eq). apply list_elem_of_In, list_elem_of_omap in Hin as (u & Hu & E).
    exists u. apply elem_of_seqZ in Hu. split; [lia|done].
  - intros (u & Hu & E). exists c. split; [|apply Z.eqb_refl].
    apply list_elem_of_In, list_elem_of_omap. exists u. split; [|done]. apply elem_of_seqZ. lia.
Qed.

Lemma count_not_esc : length (filter (fun b => b <> 0x1b) (seqZ 0 0x100)) = 255%nat.
Proof. vm_compute. reflexivity. Qed.

(** the two things that can panic, and what is printed *)
Lemma kbd_main_Some translate hid ls :
  kbd_main translate hid = Some ls <->
  exists bits bl, set_bits (repeat 0 16) (hid_codes hid) = Some bits /\
    byte_lines translate (seqZ 0 0x100) = Some bl /\
    ls = ("EVKEY " +:+ concat_str (map (fmt_hex_zero 2) bits)) :: bl ++ map (seq_line translate) seqs.
Proof.
  unfold kbd_main, bitmap. generalize (seqZ 0 0x100). intros all.
  generalize (map (seq_line translate) seqs). intros sl.
  destruct (set_bits (repeat 0 16) (hid_codes hid)) as [bits|]; cbn.
  - destruct (byte_lines translate all) as [bl|]; cbn.
    + split; [intros [= <-]; eauto|]. by intros (? & ? & [= <-] & [= <-] & ->).
    + split; [done|]. by intros (? & ? & _ & ? & _).
  - split; [done|]. by intros (? & ? & ? & _).
Qed.

Lemma set_bits_iff hid :
  Forall (fun c => 0 <= c) (hid_codes hid) ->
  (exists bits, set_bits (repeat 0 16) (hid_codes hid) = Some bits) <-> Forall code_ok (hid_codes hid).
Proof.
  intros Hp. destruct zeros_ok as [Hl0 Hb0]. split.
  - intros [bits E]. apply Forall_forall. intros c Hc. unfold code_ok.
    pose proof (proj1 (Forall_forall _ _) Hp c Hc) as H0.
    destruct (Z.lt_ge_cases c 128) as [|Hge]; [cbn in *; lia|].
    by rewrite (set_bits_panic _ _ c Hl0 Hp Hc Hge) in E.
  - intros Hc. destruct (set_bits_spec _ (repeat 0 16) Hl0 Hb0 Hc) as (bits & ? & _). eauto.
Qed.

Lemma byte_lines_iff translate bs :
  (exists bl, byte_lines translate bs = Some bl) <->
  forall b, b ∈ bs -> b <> 0x1b -> (length (translate (bytes [b])) <= 1)%nat.
Proof.
  split.
  - intros [bl E] b Hb Hne. destruct (Nat.le_gt_cases (length (translate (bytes [b]))) 1) as [|Hgt]; [done|].
    by rewrite (byte_lines_panic translate bs b) in E by (done || lia).
  - intros Hk. destruct (byte_lines_spec translate bs Hk) as (bl & ? & _). eauto.
Qed.

Lemma elem_of_bytes b : b ∈ seqZ 0 0x100 <-> is_byte b.
Proof. rewrite elem_of_seqZ. unfold is_byte. lia. Qed.

Lemma kbd_main_spec translate hid :
  Forall (fun c => 0 <= c) (hid_codes hid) ->
  (exists ls, kbd_main translate hid = Some ls) <->
  Forall code_ok (hid_codes hid) /\
  forall b, is_byte b -> b <> 0x1b -> (length (translate (bytes [b])) <= 1)%nat.
Proof.
  intros Hp. rewrite <- set_bits_iff by done. split.
  - intros (ls & (bits & bl & Hb & Hl & _)%kbd_main_Some). split; [by exists bits|].
    intros b Hby. apply elem_of_bytes in Hby. revert b Hby. apply byte_lines_iff. by exists bl.
  - intros [[bits Hb] Hk]. destruct (byte_lines_spec translate (seqZ 0 0x100)) as (bl & Hl & _).
    { intros b Hby. by apply Hk, elem_of_bytes. }
    eexists. apply kbd_main_Some. exists bits, bl. split_and!; [exact Hb|exact Hl|reflexivity].
Qed.

Lemma kbd_main_length translate hid ls :
  kbd_main translate hid = Some ls -> length ls = (1 + 255 + length seqs)%nat.
Proof.
  intros (bits & bl & _ & Hl & ->)%kbd_main_Some.
  destruct (byte_lines_spec translate (seqZ 0 0x100)) as (bl' & Hl' & Hlen).
  { apply byte_lines_iff. by exists bl. }
  simplify_eq. cbn [length]. rewrite length_app, length_map, Hlen, count_not_esc. lia.
Qed.

(** ** Reading a sequence's line back *)
Definition parse_key (s : string) : option (Z * Z) :=
  match split_char ":" s with
  | [c; m] => c ← parse_u64 c; m ← parse_u64 m; Some (c, m)
  | _ => None
  end.
Definition parse_seq_line (l : string) : option (string * list (Z * Z)) :=
  match split_char " " l with
  | [s; h; k] =>
      if String.eqb s "S" then
        inp ← unhex h;
        keys ← (if String.eqb k "-" then Some [] else mapM parse_key (split_char "," k));
        Some (inp, keys)
      else None
  | _ => None
  end.

Definition key_ok (k : Z * Z) : Prop := is_u64 k.1 /\ is_u64 k.2.
Definition key_text (k : Z * Z) : string := fmt_dec k.1 +:+ ":" +:+ fmt_dec k.2.
(** the characters of a key: digits and the colon *)
Definition key_char (c : ascii) : bool := is_hex_digit c || Ascii.eqb c ":".

Lemma parse_key_text k : key_ok k -> parse_key (key_text k) = Some k.
Proof.
  destruct k as [c m]. intros [Hc Hm]. unfold parse_key, key_text. cbn [fst snd] in *.
  change (fmt_dec c +:+ ":" +:+ fmt_dec m) with (fmt_dec c +:+ String ":" (fmt_dec m)).
  unfold is_u64 in *.
  rewrite split_char_app, split_char_none by (apply no_char_hex; [done|]; apply fmt_dec_hex_digits; lia).
  by rewrite !parse_u64_fmt_dec.
Qed.

Lemma key_text_chars k : key_ok k -> all_str key_char (key_text k) = true.
Proof.
  destruct k as [c m]. intros [Hc Hm]. unfold key_text, is_u64 in *. cbn [fst snd] in *.
  rewrite !all_str_app, !andb_true_iff.
  split_and!; try done; (eapply all_str_impl; [|apply fmt_dec_hex_digits; lia]);
    intros d Hd; unfold key_char; by rewrite Hd.
Qed.

Lemma key_char_not c s : key_char c = false -> all_str key_char s = true -> no_char c s = true.
Proof.
  intros Hc. apply all_str_impl. intros d Hd. apply negb_true_iff.
  destruct (Ascii.eqb_spec d c) as [->|]; [congruence|done].
Qed.

Lemma keys_join keys :
  keys <> [] -> Forall key_ok keys ->
  let k := join "," (map key_text keys) in
  no_char " " k = true /\ k <> "-" /\ mapM parse_key (split_char "," k) = Some keys.
Proof.
  intros Hne Hk k.
  assert (Hall : Forall (fun t => all_str key_char t = true) (map key_text keys)).
  { apply Forall_map. eapply Forall_impl; [exact Hk|]. cbn. apply key_text_chars. }
  assert (Hsplit : split_char "," k = map key_text keys).
  { apply split_char_join; [by destruct keys|]. apply forallb_forall. intros t Ht.
    rewrite Forall_forall in Hall. apply key_char_not; [done|]. by apply Hall, list_elem_of_In. }
  assert (Hm : mapM parse_key (split_char "," k) = Some keys).
  { rewrite Hsplit. clear -Hk. induction Hk as [|x keys Hx _ IH]; [done|]. cbn. rewrite parse_key_text by done.
    cbn. by rewrite IH. }
  split_and!; [| |done].
  - assert (Hkc : all_str (fun c => key_char c || Ascii.eqb c ",") k = true).
    { apply all_str_join; [done|]. apply forallb_forall. intros t Ht. rewrite Forall_forall in Hall.
      eapply all_str_impl; [|by apply Hall, list_elem_of_In]. intros c Hc. by rewrite Hc. }
    eapply all_str_impl; [|exact Hkc]. intros c Hc. apply negb_true_iff.
    destruct (Ascii.eqb_spec c " ") as [->|]; done.
  - intros E. rewrite E in Hm. cbn in Hm. discriminate Hm.
Qed.

Lemma hex_digits s : all_str is_hex_digit (hex s) = true.
Proof.
  unfold hex. induction s as [|c s IH]; [done|]. cbn [list_ascii_of_string map concat_str].
  rewrite all_str_app, fmt_hex_zero_all; [done|]. pose proof (Z_of_ascii_byte c) as H. unfold is_byte in H. lia.
Qed.

Lemma seq_line_parse translate s :
  Forall key_ok (translate s) -> parse_seq_line (seq_line translate s) = Some (s, translate s).
Proof.
  intros Hk. unfold seq_line. cbv zeta.
  assert (Hp : forall k, no_char " " k = true ->
    split_char " " ("S " +:+ hex s +:+ " " +:+ k) = ["S"; hex s; k]).
  { intros k Hn. change ("S " +:+ hex s +:+ " " +:+ k) with ("S" +:+ String " " (hex s +:+ String " " k)).
    rewrite !split_char_app, split_char_none; [done|done| |done].
    apply no_char_hex; [done|apply hex_digits]. }
  replace (map (fun '(c, m) => fmt_dec c +:+ ":" +:+ fmt_dec m) (translate s)) with (map key_text (translate s))
    by (apply map_ext; by intros [c m]).
  unfold parse_seq_line. destruct (translate s) as [|k keys] eqn:E.
  - cbn [map]. rewrite Hp by done. cbn [String.eqb]. by rewrite unhex_hex.
  - destruct (keys_join (k :: keys)) as (Hn & Hd & Hm); [done|done|].
    cbn [map] in *. rewrite Hp by done. apply String.eqb_neq in Hd. rewrite Hd, unhex_hex.
    cbn [String.eqb Ascii.eqb]. cbn [mbind option_bind]. rewrite Hm. done.
Qed.
