(* ===== verification/PipeviewTheorems.v ===== *)
(** * PipeviewTheorems: the header, the lines, the keyboard, the viewer and the command line *)
From Stdlib Require Import Sorted.
From S2P Require Import Prelude Fmt Str StrFacts Rvdisasm RvdisasmFields RvdisasmSpec Row Kanata KanataSpec RowSpec KanataTrace Stats Ipc StatsSpec Line LineSpec Keys Texts Tui TuiSpec TuiBounds Session Main MainSpec TraceView.

(** rows for the witnesses: an instruction that retires, two runs of lost cycles *)
Definition insn_row : Row := mkRow "80000000 li x10, 5" [(3, "f"%char); (5, "a"%char)] (Some 5) false false " "%char.
Definition stall_row : Row := mkRow "be:dep-load" [(4, "#"%char)] (Some 9) false true "#"%char.
Definition fetch_row : Row := mkRow "itlb" [(1, "~"%char)] (Some 3) true true "~"%char.
Definition sample : list Row := [insn_row; stall_row; fetch_row; stall_row].

Lemma sample_span : Forall span_ok sample.
Proof. repeat constructor; unfold is_u64; cbn; lia. Qed.

(** C7: the header counts the rows in view exactly.  On at least one row, whose cycles are in
    order and whose lost cycles sum below 2^64, in both build profiles, the first line gives the
    least start, the greatest last cycle and their distance (at least 1), the instructions
    retired, their quotient, and the instructions flushed, in that order; the second line gives
    the first eight of the causes of the closed rows of lost cycles, each once, with the sum of
    its cycles, the longest first and equally long ones in the order they are met.  A ninth
    cause is left out.  Below 2^45 instructions and 2^53 cycles the quotient is right to the
    last digit. *)
Theorem stats_counts {P : Profile} rs :
  rs <> [] -> Forall span_ok rs -> lost_all rs < 2 ^ 64 ->
  exists ipc head top, stats rs = Some (head, top) /\ header_of rs ipc head top.
Proof. apply stats_exact. Qed.

Lemma stats_counts_witness :
  exists ipc head top, @stats Debug sample = Some (head, top) /\ header_of sample ipc head top.
Proof.
  apply (@stats_counts Debug sample); [done| |vm_compute; reflexivity].
  repeat constructor; unfold is_u64; cbn; lia.
Defined.

(** C17: the IPC in the header is right to the last digit.  For fewer than 2^45 instructions in
    fewer than 2^53 cycles, the two divisions and roundings of [ret as f64 / n as f64] printed
    with two decimals give the ratio rounded to a nearest hundredth. *)
Theorem ipc_nearest ret n :
  0 <= ret < 2 ^ 45 -> 0 < n < 2 ^ 53 ->
  exists q, fmt_f64_2 (f64_div (f64_of_u64 ret) (f64_of_u64 n)) = fmt_hundredths q /\
    2 * Z.abs (q * n - 100 * ret) <= n.
Proof. apply ipc_near. Qed.

Lemma ipc_nearest_witness :
  exists q, fmt_f64_2 (f64_div (f64_of_u64 1) (f64_of_u64 3)) = fmt_hundredths q /\
    2 * Z.abs (q * 3 - 100 * 1) <= 3.
Proof. apply (ipc_nearest 1 3); lia. Defined.

(** C22: the width of a line.  With the columns the viewer computes for a terminal [w] wide, a
    plain line whose start cycle has at most eight digits is [w] characters wide, but never
    less than 40: below that width a line is wider than the terminal. *)
Theorem line_width {P : Profile} w r c0 :
  0 <= w -> 0 <= c0 -> c0 + cell_columns w <= 2 ^ 64 -> 0 <= start r < 10 ^ 8 ->
  exists l, line r (Z.to_nat (label_width w)) c0 (Z.to_nat (cell_columns w)) false = Some l /\
    Z.of_nat (char_count l) = Z.max w 40.
Proof.
  intros Hw Hc Hn Hs.
  assert (Hcc : 0 <= cell_columns w) by (unfold cell_columns; lia).
  destruct (line_count r (Z.to_nat (label_width w)) c0 (Z.to_nat (cell_columns w))) as (l & El & Hl);
    [lia..|].
  exists l. split; [done|]. rewrite Hl.
  pose proof (fmt_dec_length 8 (start r) ltac:(lia) ltac:(lia)).
  destruct (Z.le_gt_cases 40 w) as [H40|H40].
  - destruct (layout_width w H40). lia.
  - destruct (layout_narrow w) as [-> ->]; [lia|]. lia.
Qed.

Lemma line_width_witness :
  exists l, @line Debug stall_row (Z.to_nat (label_width 80)) 3 (Z.to_nat (cell_columns 80)) false = Some l /\
    Z.of_nat (char_count l) = Z.max 80 40.
Proof.
  apply (@line_width Debug 80 stall_row 3); [lia|lia|vm_compute; discriminate|cbn; lia].
Defined.

(** C23: colour changes nothing but the colour: without its escapes, a coloured line is the
    plain line. *)
Theorem line_colour {P : Profile} r lab_w c0 ncol :
  0 <= c0 -> c0 + Z.of_nat ncol <= 2 ^ 64 -> 0 <= start r -> no_escapes r ->
  exists l l0, line r lab_w c0 ncol true = Some l /\ line r lab_w c0 ncol false = Some l0 /\
    strip_sgr false l = l0.
Proof. apply line_strip. Qed.

Lemma line_colour_witness :
  exists l l0, @line Debug insn_row 20 3 8 true = Some l /\ @line Debug insn_row 20 3 8 false = Some l0 /\
    strip_sgr false l = l0.
Proof.
  apply (@line_colour Debug insn_row 20 3 8); [lia|lia|cbn; lia|].
  split_and!; [reflexivity|discriminate|repeat constructor; discriminate].
Defined.

(** C35: editing the search line.  After typing [s], then [t], erasing [t] with as many deletes
    and pressing return, the line read is [s], and the input after the return is untouched. *)
Theorem read_line_edit s t rest :
  all_str text_char s = true -> all_str text_char t = true ->
  exists echo, read_line (typed s ++ typed t ++ repeat (Some "127"%char) (String.length t) ++ Some CR :: rest)
    = (s, echo, rest).
Proof.
  intros Hs Ht. unfold read_line. rewrite read_line_typed, read_line_typed by done.
  change ("" +:+ s) with s.
  destruct (read_line_erased t s (s +:+ t) (Some CR :: rest) Hs Ht) as [echo ->].
  eexists. reflexivity.
Qed.

Lemma read_line_edit_witness :
  exists echo, read_line (typed "lw" ++ typed "x!" ++ repeat (Some "127"%char) 2 ++ Some CR :: [Some "n"%char])
    = ("lw", echo, [Some "n"%char]).
Proof. apply (read_line_edit "lw" "x!"); reflexivity. Defined.

(** C25: a key leaves the first row in view on an existing row, in both build profiles. *)
Theorem on_key_view {P : Profile} rs h w k v inp v' s inp' :
  view_ok rs v -> on_key rs h w k v inp = Some (Some (v', s, inp')) -> view_ok rs v'.
Proof. intros Hv Hk. by eapply on_key_ok. Qed.

Lemma on_key_view_witness : view_ok sample (mkView 3 0 "").
Proof.
  apply (@on_key_view Debug sample 24 80 PgDn (mkView 1 0 "") [] (mkView 3 0 "") "" []).
  - vm_compute. split; discriminate.
  - vm_compute. reflexivity.
Defined.

(** C24: the rows drawn are those from the first row in view, as many as fit the body or as are
    left: at least one, none skipped. *)
Theorem visible_rows {P : Profile} rs v body :
  rs <> [] -> view_ok rs v -> 1 <= body -> n_rows rs + body <= 2 ^ 64 ->
  exists vis, visible rs v body = Some vis /\ vis <> [] /\
    Z.of_nat (length vis) = Z.min body (n_rows rs - top v) /\
    forall i, (i < length vis)%nat -> vis !! i = rs !! (Z.to_nat (top v) + i)%nat.
Proof. apply visible_spec. Qed.

Lemma visible_rows_witness :
  exists vis, @visible Debug sample (mkView 2 0 "") 20 = Some vis /\ vis <> [] /\
    Z.of_nat (length vis) = Z.min 20 (n_rows sample - 2) /\
    forall i, (i < length vis)%nat -> vis !! i = sample !! (Z.to_nat 2 + i)%nat.
Proof.
  apply (@visible_rows Debug sample (mkView 2 0 "") 20); [done|vm_compute; split; discriminate|lia|vm_compute; discriminate].
Defined.

(** C21: searching goes to the next match.  The first row in view becomes the nearest one below
    whose label contains the query as a substring; without one the view stays. *)
Theorem search_next {P : Profile} rs v :
  view_ok rs v -> n_rows rs < 2 ^ 63 -> query v <> "" ->
  exists v', search rs v = Some v' /\
    ((exists j r a b, v' = mkView (Z.of_nat j) 0 (query v) /\ top v < Z.of_nat j /\ rs !! j = Some r /\
        label r = a +:+ query v +:+ b /\
        forall i r', top v < Z.of_nat i < Z.of_nat j -> rs !! i = Some r' -> contains (query v) (label r') = false) \/
     (v' = v /\ forall i r', top v < Z.of_nat i -> rs !! i = Some r' -> contains (query v) (label r') = false)).
Proof. apply search_exact. Qed.

Lemma search_next_witness :
  exists v', @search Debug sample (mkView 1 0 "dep") = Some v' /\
    ((exists j r a b, v' = mkView (Z.of_nat j) 0 "dep" /\ 1 < Z.of_nat j /\ sample !! j = Some r /\
        label r = a +:+ "dep" +:+ b /\
        forall i r', 1 < Z.of_nat i < Z.of_nat j -> sample !! i = Some r' -> contains "dep" (label r') = false) \/
     (v' = mkView 1 0 "dep" /\
      forall i r', 1 < Z.of_nat i -> sample !! i = Some r' -> contains "dep" (label r') = false)).
Proof. apply (@search_next Debug sample (mkView 1 0 "dep")); [vm_compute; split; discriminate|vm_compute; reflexivity|done]. Defined.

(** C11: the viewer ends: each turn of the loop reads at least one byte or is the last, so a
    turn for each read and one more are enough, in both build profiles. *)
Theorem tui_ends {P : Profile} rs settings size inp : tui rs (S (length inp)) settings size inp <> OutOfFuel.
Proof.
  pose proof (tui_loop_fuel rs (S (length inp)) size 0 (mkView 0 0 "") inp enter_screen
    (view_init_ok rs) ltac:(lia)) as H.
  unfold tui. cbv zeta. unfold enter_screen in H. by destruct (tui_loop _ _ _ _ _ _ _).
Qed.

(** C9: a release build of the viewer runs to its end, without a panic, for any rows, at least
    one, any keys, and any window sizes with which the number of rows and the height of the body
    sum to at most 2^64; it enters raw mode and the alternate screen first, and leaves the
    screen and restores the saved settings last. *)
Theorem tui_restores rs settings size inp :
  rs <> [] -> size_ok rs size ->
  exists frames, @tui Release rs (S (length inp)) settings size inp =
    Finished (enter_screen ++ frames ++ leave_screen settings).
Proof.
  intros Hrs Hsize.
  destruct (tui_loop_release rs (S (length inp)) size 0 (mkView 0 0 "") inp enter_screen Hrs
    (view_init_ok rs) Hsize ltac:(lia)) as [more Hm].
  exists more. by apply tui_session.
Qed.

Lemma tui_restores_witness :
  exists frames, @tui Release sample (S 3) (Some "500:5") (fun _ => Some "24 80")
      [Some "j"%char; Some "l"%char; Some "q"%char] =
    Finished (enter_screen ++ frames ++ leave_screen (Some "500:5")).
Proof.
  apply (tui_restores sample (Some "500:5") (fun _ => Some "24 80") [Some "j"%char; Some "l"%char; Some "q"%char]);
    [done|]. intros i. vm_compute. discriminate.
Defined.

(** C12: nothing in the viewer overflows.  On at least one and fewer than 2^62 rows whose cycles
    are in order, which start before cycle 2^62 and whose lost cycles sum below 2^64, in windows
    below 2^62 rows and columns and with at most 2^50 bytes typed, a debug build, which panics
    on an overflow, runs to its end and restores the terminal too. *)
Theorem tui_no_overflow {P : Profile} rs settings size inp :
  rows_small rs -> (forall i, size_small (term_size (size i))) -> Z.of_nat (length inp) <= 2 ^ 50 ->
  exists frames, tui rs (S (length inp)) settings size inp =
    Finished (enter_screen ++ frames ++ leave_screen settings).
Proof.
  intros Hrs Hsize Hinp.
  destruct (tui_loop_small rs (S (length inp)) size 0 (mkView 0 0 "") inp enter_screen Hrs
    (view_init_ok rs) Hsize ltac:(cbn [shift]; lia) ltac:(lia)) as [more Hm].
  exists more. by apply tui_session.
Qed.

Lemma tui_no_overflow_witness :
  exists frames, @tui Debug sample (S 2) None (fun _ => None) [Some "G"%char; Some "h"%char] =
    Finished (enter_screen ++ frames ++ leave_screen None).
Proof.
  apply (@tui_no_overflow Debug sample None (fun _ => None) [Some "G"%char; Some "h"%char]).
  - split; [done| |repeat constructor; vm_compute; done|vm_compute; done|vm_compute; done].
    repeat constructor; unfold is_u64; cbn; lia.
  - intros i. split; cbn; lia.
  - cbn. lia.
Defined.


(** C38: a count after [--text] takes every number for itself: when all the arguments that are
    not options are numbers, a trace file named by one is dropped and the program panics. *)
Theorem numeric_names_panic {P : Profile} {E} (wd : world E) args t a v :
  wants_help args = false ->
  text_position args = Some t -> args !! S t = Some a -> parse_u64 a = Some v ->
  (forall x, x ∈ args -> starts_with "--" x = true \/ parse_u64 x <> None) ->
  main wd args = Panic.
Proof. apply main_numbers. Qed.

(** a terminal, no objdump, and the example trace as every file *)
Definition demo_world : world string :=
  mkWorld string (fun _ => Ok (map Ok (lines (trace_text demo)))) (fun _ => Err "not found") (fun e => e)
    (Some "500:5") (fun _ => Some "24 80") [Some "j"%char; Some ESC; Some "["%char; Some "C"%char].



(** C40: what the bytes of the keyboard mean.  [read_key] reads exactly the key the tables of
    plain, cursor and tilde keys give, and leaves exactly the input after it: a byte in no table
    is no key, the end of the input quits, and so does an escape not followed by a bracket. *)
Theorem read_key_tables inp k rest : read_key inp = (k, rest) <-> keyed inp k rest.
Proof. apply read_key_keyed. Qed.

Lemma numeric_names_panic_witness : @main Debug string demo_world ["2024"; "--text"; "5"] = Panic.
Proof.
  apply (@numeric_names_panic Debug string demo_world ["2024"; "--text"; "5"] 1 "5" 5); try reflexivity.
  intros x Hx. apply elem_of_cons in Hx as [->|Hx]; [right; discriminate|].
  apply elem_of_cons in Hx as [->|Hx]; [left; reflexivity|].
  apply elem_of_cons in Hx as [->|Hx]; [right; discriminate|]. by apply elem_of_nil in Hx.
Defined.

(** C8: the whole viewer on a trace.  Given the name of a file that holds the text of a
    settled trace with at least one row, its rows times its cycles below 2^62, in windows below
    2^62 rows and columns and with at most 2^50 bytes typed, in both build profiles, the program
    enters the alternate screen, runs the session of the trace's rows, and leaves the terminal
    as it was.  In a session every turn shows the picture of the view, word for word ([drawn]:
    header, causes, the legend's cells of the rows in view in their colours, status), and the
    key typed moves the view exactly as [moves] says, until the key that quits. *)
Theorem pipeview_trace {P : Profile} {E} (wd : world E) path t :
  file_name path -> files wd path = Ok (map Ok (lines (trace_text t))) -> trace_small t ->
  (forall i, size_small (term_size (size wd i))) -> Z.of_nat (length (keys wd)) <= 2 ^ 50 ->
  exists frames, main wd [path] =
    Interactive "" (Finished (enter_screen ++ frames ++ leave_screen (settings wd))) /\
    session (trace_rows ∅ t) (size wd) 0 (mkView 0 0 "") (keys wd) frames.
Proof. apply main_trace. Qed.

Lemma pipeview_trace_witness :
  exists frames, @main Debug string demo_world ["run.kanata"] =
    Interactive "" (Finished (enter_screen ++ frames ++ leave_screen (Some "500:5"))) /\
    session (trace_rows ∅ demo) (size demo_world) 0 (mkView 0 0 "") (keys demo_world) frames.
Proof.
  apply (@pipeview_trace Debug string demo_world "run.kanata" demo).
  - split; [reflexivity|discriminate].
  - reflexivity.
  - split; [apply demo_wf|apply demo_settled|discriminate|vm_compute; reflexivity].
  - intros i. split; vm_compute; split; (discriminate || reflexivity).
  - vm_compute. discriminate.
Defined.
