(* ===== verification/KbdTheorems.v ===== *)
(** * KbdTheorems: the keyboard vectors *)
From S2P Require Import Prelude Fmt Str StrFacts Kbd KbdSpec.

(** key tables for the witnesses: letters are keys, a HID usage is its own code up to 100 *)
Definition demo_translate (s : string) : list (Z * Z) :=
  match s with String c "" => if (97 <=? Z_of_ascii c) && (Z_of_ascii c <=? 122) then [(Z_of_ascii c - 67, 0)] else [] | _ => [] end.
Definition demo_hid (u : Z) : option Z := if (3 <? u) && (u <? 101) then Some u else None.

(** C27: the event-code bitmap.  When the table's codes are below 128, [bitmap] prints sixteen
    bytes in which bit [c mod 8] of byte [c / 8] is set exactly for the codes some HID usage
    maps to. *)
Theorem bitmap_bits hid_to_linux :
  Forall code_ok (hid_codes hid_to_linux) ->
  exists bits, bitmap hid_to_linux = Some ("EVKEY " +:+ concat_str (map (fmt_hex_zero 2) bits)) /\
    length bits = 16%nat /\ Forall is_byte bits /\
    forall c, code_ok c ->
      bit bits c = true <-> exists u, 0 <= u < 256 /\ hid_to_linux u = Some c.
Proof.
  intros Hc. destruct zeros_ok as [Hl0 Hb0].
  destruct (set_bits_spec _ (repeat 0 16) Hl0 Hb0 Hc) as (bits & Eb & Hl & Hb & Hbit).
  exists bits. unfold bitmap. rewrite Eb. split_and!; [done..|].
  intros c Hcc. rewrite Hbit, bit_zeros, orb_false_r by done. by apply hid_codes_elem.
Qed.

Lemma bitmap_bits_witness :
  exists bits, bitmap demo_hid = Some ("EVKEY " +:+ concat_str (map (fmt_hex_zero 2) bits)) /\
    length bits = 16%nat /\ Forall is_byte bits /\
    forall c, code_ok c -> bit bits c = true <-> exists u, 0 <= u < 256 /\ demo_hid u = Some c.
Proof.
  apply bitmap_bits. apply (bool_decide_unpack _). vm_compute. exact I.
Defined.

(** C28: where the program panics: when the codes are not negative, it returns exactly when
    every code fits the bitmap and no single byte other than ESC gives two keys; and whenever it
    returns it has printed the bitmap, 255 byte lines and a line for each sequence. *)
Theorem kbd_main_returns_iff translate hid_to_linux :
  Forall (fun c => 0 <= c) (hid_codes hid_to_linux) ->
  ((exists ls, kbd_main translate hid_to_linux = Some ls) <->
   Forall code_ok (hid_codes hid_to_linux) /\
   forall b, is_byte b -> b <> 0x1b -> (length (translate (bytes [b])) <= 1)%nat) /\
  forall ls, kbd_main translate hid_to_linux = Some ls -> length ls = (1 + 255 + length seqs)%nat.
Proof. intros Hc. split; [by apply kbd_main_spec|apply kbd_main_length]. Qed.

Lemma kbd_main_returns_iff_witness :
  ((exists ls, kbd_main demo_translate demo_hid = Some ls) <->
   Forall code_ok (hid_codes demo_hid) /\
   forall b, is_byte b -> b <> 0x1b -> (length (demo_translate (bytes [b])) <= 1)%nat) /\
  forall ls, kbd_main demo_translate demo_hid = Some ls -> length ls = (1 + 255 + length seqs)%nat.
Proof.
  apply kbd_main_returns_iff. apply (bool_decide_unpack _). vm_compute. exact I.
Defined.

(** C29: a sequence's line can be read back: it holds the input in hexadecimal, two digits for
    each byte, and every key with its modifiers, [-] when there are none. *)
Theorem seq_line_roundtrip translate s :
  Forall key_ok (translate s) -> parse_seq_line (seq_line translate s) = Some (s, translate s).
Proof. apply seq_line_parse. Qed.

Lemma seq_line_roundtrip_witness :
  parse_seq_line (seq_line (fun _ => [(103, 4); (30, 0)]) (String ESC "[1;5Aa")) =
    Some (String ESC "[1;5Aa", [(103, 4); (30, 0)]).
Proof.
  apply (seq_line_roundtrip (fun _ => [(103, 4); (30, 0)]) (String ESC "[1;5Aa")).
  repeat constructor; cbn; lia.
Defined.
